(* ===== verification/_CoqProject ===== *)
-Q . S2P
Prelude.v
Double.v
Pcg.v
Text.v
Common.v
TxnData.v
InputData.v
DatagenRows.v
DatagenOrders.v
DatagenPart.v
DatagenOut.v
DatagenRecords.v
DatagenMain.v
Queue.v
Client.v
ClientInv.v
ClientSafety.v
Semaphore.v
Wire.v
Dump.v
Tables.v
SpNewOrder.v
SpPayment.v
SpDelivery.v
SpQueries.v
SpConsistency.v
SpSample.v
SpTheorems.v
Db.v
Libpq.v
PgServer.v
LibpqServer.v
LibpqSample.v
Cockroach.v
CrdbServer.v
CrdbSpec.v
CrdbNewOrder.v
CrdbPayment.v
CrdbDelivery.v
CrdbQueries.v
CrdbTheorems.v
CrdbSample.v
Sqlite.v
Nonsp.v
NonspTxn.v
Lengths.v
SqliteServer.v
SqliteSpec.v
SqliteTheorems.v
SqliteSample.v
Mysql.v
Oci.v
Oracle.v
Socket.v
Driver.v
DriverRun.v
ClientMain.v
TransactionTest.v
DriverOptions.v
DriverSafety.v
DriverMix.v
DriverThreads.v
DriverFork.v
DriverEvents.v
DriverCover.v
DriverLoop.v
DriverEmbedded.v
Client2.v
DbWorker.v
Workload.v
MysqlTheorems.v
MysqlSample.v
OracleTheorems.v
OracleShown.v
OracleSample.v
