(* ===== verification/Prelude.v ===== *)
(** * DBT-2: verification library

    DBT-2 is an open-source implementation of the TPC-C workload.  Three
    programs do the work, and this library models the core of each, with the
    procedures they run inside the database:

    - [datagen] (src/src/datagen.c) writes the initial rows of the nine tables,
      to files or to psql, in one run or in partitions that run independently;
    - the driver (src/src/driver.c, driver_common.c, driver_main.c) emulates
      terminals: each is a thread that picks a transaction by the configured
      mix, generates its input (src/src/input_data_generator.c), sends it to the
      client, logs the answer in mix.log, and thinks; driver2.c has processes with
      an event loop instead of threads, driver3.c also executes the transactions
      itself;
    - the client (src/src/client_main.c, listener.c, transaction_queue.c,
      db_threadpool.c, db.c) receives transactions on one thread per terminal,
      queues them, and executes them on worker threads that each hold a database
      connection, through one of its back ends (src/src/libpq, cockroach, mysql,
      oracle, sqlite with nonsp); client2.c has processes that are handed the
      connections of terminals instead of a queue.

    ** The files

    Shared:

    - [Prelude]: machine integers, tactics, hint databases, lists of integers,
      sums.
    - [Double]: the C [double] on the Standard Library's [SpecFloat], with the
      rounding error of products, quotients and conversions.
    - [Text]: the [printf] conversions, [atoi], [atof], [strtoull], [wcstombs],
      and splitting lines into fields.  [Wire]: byte order, IEEE bits, UTF-8.
    - [Common]: src/src/common.c and include/common.h.  Generator computations
      are a state monad, [rngM]; [returns m P] bounds their results and
      [consumes m n] counts the draws they take.
    - [TxnData], [InputData]: the structures of a transaction and the generators
      of its input data.
    - [Pcg]: the random number generator (src/src/pcg/pcg_variants.h,
      pcg-advance-128.c).
    - [Dump]: the printed transactions (src/src/transaction_data.c), the log
      (logging.c), the file with the number of the process.
    - [Lengths]: the lengths of formatted numbers and names, for the buffers of the
      back ends.

    The data generator: [DatagenRows] (rows of each table), [DatagenOrders] (the
    linked list that permutes the customers, orders and their lines),
    [DatagenPart] (partitions), [DatagenOut] (files, COPY streams, commits),
    [DatagenRecords] (what a row reads back as), [DatagenMain] (command line and
    dispatch).  A gen_ function is the list of events (open, write, close, print,
    exit) that leave the process.

    The client:

    - [Queue], [Client], [ClientInv], [ClientSafety]: its threads.  The nodes live
      in a heap (a [gmap]); [push] and [pop] are the two critical sections on a
      linked list, [listener_step], [worker_step] and [accept_step] what one
      thread does between two scheduling points, with [exiting] read at the head
      of each loop and the calls of the accept loop failing anywhere, [step] any
      thread's step with any message and [exit] at the console, [reachable] any
      interleaving.  [internal] steps need nothing from outside; [weight] counts
      how many can follow.
    - [Semaphore]: _semaphore.c, the semaphores of systems without them, thread by
      thread and statement by statement ([thread_step]), against a counter.  The
      errno that the code reads after a call is an argument of the step.
    - [ClientMain]: options, the start of the listener and the workers, console
      (client_main.c, client_common.c, db_threadpool.c) as events of the process.
    - [DbWorker]: db_worker from its connection to its end, with its statistics.
    - [Client2]: the processes of client2.c, the table of connections of each, and
      the callbacks of its event loop over an interface whose contexts are copied.
    - [TransactionTest]: transaction_test.c, one transaction from the command line.
    - [Socket]: _socket.c and client_interface.c; a [connection] is the bytes that
      arrive and what each [recv] answers, which never gives more than it was asked
      for nor than there is.
    - [Db]: db.c over the interface [DbOps] of back-end calls; [DbLaws] states
      what is relied on of the statuses they answer with.  The loop around
      nanosleep ([nanosleep_loop]) ends for a valid time and is one call,
      [sleep_retry], of the interface.

    The stored procedures in C (src/storedproc/pgsql/c) and PostgreSQL:

    - [Tables]: the nine tables, the types of their columns behind the interface
      [Pg] (laws in [PgLaws]), and the monad [sp] of a procedure: it sees the
      snapshot of the calling query or its own changes as read_only says.
    - [SpNewOrder], [SpPayment], [SpDelivery], [SpQueries]: the procedures, with
      rules of a weakest precondition [wp]; [SpConsistency] (the consistency
      conditions of TPC-C and what keeps them), [SpTheorems], [SpSample].
    - [Libpq] (src/src/libpq over the interface [Libpq] of the C library),
      [PgServer] (what the calls do on a server: [PgInput], [PgServer]),
      [LibpqServer], [LibpqSample].

    The other back ends:

    - [Cockroach] (src/src/cockroach, statements with text parameters),
      [CrdbServer] (what the statements do: [Crdb], [CrdbServer]), [CrdbSpec]
      (rules for blocks of statements), [CrdbNewOrder], [CrdbPayment],
      [CrdbDelivery], [CrdbQueries], [CrdbTheorems], [CrdbSample].
    - [Sqlite] (src/src/sqlite over the interface [Sqlite] of sqlite3), [Nonsp]
      (the texts of nonsp_common.h), [NonspTxn] (the transactions of nonsp),
      [SqliteServer] (transactions, statements from prepare to finalize, and
      errors that may roll back), [SqliteSpec], [SqliteTheorems], [SqliteSample].
    - [Mysql] (src/src/mysql over the interface [Mysql] of the client library, with
      the state of its handle and its result sets), [MysqlTheorems], [MysqlSample].
    - [Oci] (the interface [Oci] of the Oracle library, whose variables are fields of
      a memory; src/src/oracle/dbc_common.c), [Oracle] (statements, contexts and
      transactions), [OracleTheorems], [OracleShown], [OracleSample].

    The drivers: [Driver] (configuration, command line, checks of main),
    [DriverRun] (terminals, start and join of the threads), [DriverSafety],
    [DriverMix], [DriverThreads]; [DriverOptions] (command lines of driver2.c and
    driver3.c), [DriverFork] (their processes), [DriverEvents] (terminals as
    callbacks of an event loop), [DriverCover], [DriverLoop], [DriverEmbedded];
    [Workload] puts terminals, a worker and a database together.

    ** What the theorems show

    - Client: in every interleaving each node has one owner, the semaphores and
      counters are exact, and the only access out of place is the counter of a
      message that is none of the five transactions; left alone, the threads run
      out of steps and then every listener waits for its connection or is gone,
      every worker waits for a transaction and none is queued.  The fallback
      semaphore refines a counter, under any errors of its calls, and loses no
      wake-up unless a wait leaves errno set; the start creates the workers 0, 1,
      ... with a slot each; a worker answers every request of the five types once,
      in order, with the result of its own execution.  A process of client2.c
      answers every message on the connection it came from.
    - Database layer: a transaction runs at most twice and is committed exactly
      once when OK is reported; the retry loops end.
    - Back ends: for each, what [process_transaction] stores when statements,
      commits and connections fail at any place, and what each transaction
      writes.  Over PostgreSQL and CockroachDB the effects are stated on the
      tables and the consistency conditions are kept; over SQLite on the
      statements that are stored with the rows they answered, provided no failing
      SELECT rolls the transaction back ([sqlite_delivery_not_atomic] shows why);
      over Oracle on the
      calls that are stored with their arguments.  Over MySQL every statement fits
      its buffer and no handle is used that is not there.  What a procedure answers
      reaches the field it is meant for (PostgreSQL, MySQL, Oracle), and every
      placeholder of an Oracle statement is bound once, to memory of its own.
    - Stored procedures: each does what its clause of TPC-C says, or fails with
      the transaction; any sequence of them keeps a consistent database so.
    - datagen: partitions tile the tables and together produce exactly the rows
      of an unpartitioned run; files and COPY streams hold exactly these rows;
      every row is a record that COPY reads back; no stream is used before it is
      open.
    - Generators: jump-ahead, ranges, strings, and the clauses of TPC-C on the
      input data.
    - Driver: what a terminal sends is valid, mix.log has seven fields per line,
      terminals end, the threads started are the threads joined and the
      configured ones, and no type without a share is run.  The processes of
      driver2.c and driver3.c have the configured terminals between them, each
      once; a terminal of an event loop has one event at a time, the loop runs
      down after the end of the test; what driver3.c runs is the message of its own
      terminal, and mix.log has a line for each transaction with its status.
    - Test tool: the exit status says whether the transaction was stored, and what
      it prints is the transaction as the database left it.
    - Messages: those sent one after the other are received one after the other,
      however the stream is cut; a connection that ends inside a message is an error.
    - Together ([Workload]): whatever terminals send, in any order, a worker over
      CockroachDB keeps the database consistent.

    Theorems about mistakes of the code say what it does instead, among them
    [integrity_counter_out_of_bounds], [repeated_item_not_replenished],
    [crdb_lost_connection], [semaphore_error_keeps_mutex],
    [sqlite_delivery_not_atomic], [client_unchecked_options],
    [client2_stale_connections], [desk_pays_twice], [transaction_test_remote_fails],
    [long_partition_ignored], [terminal_counters] and [unchecked_driver_ranges].

    ** Conventions, bounds and fuel

    An [int] is a [Z], wrapped by [i32] where the C code converts to it;
    unsigned 64 and 128 bit arithmetic wraps by [u64] and [u128].  Signed
    overflow is undefined in C: the theorems assume cardinalities for which it
    does not happen.  Bytes and wide characters are [Z]s, a character array is
    its content before the NUL.  Loops over a bounded counter are recursion on a
    list of its values.  Fuel appears in
    these places, and in each a lemma says how much is enough: the digits of a
    number in [Text], [advance_loop] (128 rounds, one per bit of the distance), the
    reconnection loops of [Db] ([process_transaction_returns]: [k + 2] if the
    database answers within [k] retries) and its sleep ([nanosleep_loop_returns]: one
    more than its nanoseconds), [receive_loop] (one more than the answers of the
    kernel), the thread loops of [DriverRun]
    ([start_driver_threads]: one more than the number of warehouse ids) and the
    terminals that a process of [DriverEvents] opens ([drivers_cover_warehouses]),
    [fetch_loop] of [Sqlite], whose fuel is two more than the rows a statement has
    left ([select_all_rule]), [result_loop] of [Mysql] and [execute_loop] of [Oci],
    whose fuel is one more than the result sets and the retries a server has left.
    A loop that waits for the outside world consumes a list of its answers instead
    ([Socket], [terminal_loop], the events of [DriverEvents] and [Client2]).

    Keys of the CockroachDB back end pass through buffers of ten digits: its
    theorems ask for keys below 2^31 ([key]) and counters with [room] for the
    orders to come.  In [NonspTxn] a null pointer that is read, a write beyond an
    array and a [sprintf] beyond its buffer are [None]; the theorems ask for
    values of at most 50 bytes ([readable]) and prove that it does not occur.

    Parameters, because they are not in the sources: the clock, the kernel, psql,
    the entropy source, [log] of the C library, the PostgreSQL server interface,
    libpq, sqlite3, the libraries of MySQL and Oracle, libev and the database
    servers.  Every hypothesis about them is a law of a class, and the sample files
    have an instance of each.  The two operands of [|] in [get_nurand] are drawn left
    to right (C leaves the order open).  Time zones, locales other than UTF-8, what is only printed on a
    console or logged, and the code of DEBUG builds are not modelled.

    ** Not modelled

    - The ODBC back end (src/src/odbc): the program cannot call it.  Its functions
      have the names of an earlier interface and db_init_odbc stores none of them
      in the context of a connection.
    - The generators of src/src/pcg of other widths and output functions, which no
      program uses; the entropy source, which reads a device: seeds are parameters.
    - The stored procedures of MySQL and Oracle and the procedures in SQL or
      PL/pgSQL: they are not C; what the client relies on of them is stated by the
      classes of the servers.
    - Usage texts, the status table of the client, progress messages, code of DEBUG
      builds; shell scripts, packaging, documents. *)

From Stdlib Require Import ZArith Lia.
From stdpp Require Import base list gmap strings.

#[global] Open Scope Z_scope.
#[global] Set Default Goal Selector "!".

(** ** Machine integers of the C code *)

Abbreviation bytes := (list Z).

(** Unsigned 64 and 128 bit arithmetic wraps around. *)
Definition u64 (x : Z) : Z := x mod 2 ^ 64.
Definition u128 (x : Z) : Z := x mod 2 ^ 128.

(** Conversion to the 32 bit [int] (two's complement, as gcc defines it). *)
Definition i32 (x : Z) : Z := (x + 2 ^ 31) mod 2 ^ 32 - 2 ^ 31.

Definition INT_MAX : Z := 2 ^ 31 - 1.

(** ** Tactics of the development *)

(** [lia] after turning [/] and [mod] by constants into equations. *)
Ltac dlia := Z.div_mod_to_equations; lia.

(** Case analysis on every boolean comparison of the goal. *)
Ltac zcases :=
  repeat match goal with
  | |- context [Z.ltb ?a ?b] => destruct (Z.ltb_spec a b)
  | |- context [Z.leb ?a ?b] => destruct (Z.leb_spec a b)
  | |- context [Z.eqb ?a ?b] => destruct (Z.eqb_spec a b)
  end.

(** The same on the boolean comparisons of a hypothesis. *)
Ltac zcases_in H :=
  repeat match type of H with
  | context [Z.ltb ?a ?b] => destruct (Z.ltb_spec a b)
  | context [Z.leb ?a ?b] => destruct (Z.leb_spec a b)
  | context [Z.eqb ?a ?b] => destruct (Z.eqb_spec a b)
  end.

Create HintDb dbt2.
Create Rewrite HintDb zrange.

(** ** Wrap-around lemmas *)

Lemma u64_range x : 0 <= u64 x < 2 ^ 64.
Proof. apply Z.mod_pos_bound. lia. Qed.

Lemma u128_range x : 0 <= u128 x < 2 ^ 128.
Proof. apply Z.mod_pos_bound. lia. Qed.

Lemma u64_small x : 0 <= x < 2 ^ 64 -> u64 x = x.
Proof. apply Z.mod_small. Qed.

Lemma u128_small x : 0 <= x < 2 ^ 128 -> u128 x = x.
Proof. apply Z.mod_small. Qed.

Lemma i32_small x : - 2 ^ 31 <= x < 2 ^ 31 -> i32 x = x.
Proof. intros. unfold i32. rewrite Z.mod_small by lia. lia. Qed.

Lemma i32_range x : - 2 ^ 31 <= i32 x < 2 ^ 31.
Proof. unfold i32. pose proof (Z.mod_pos_bound (x + 2 ^ 31) (2 ^ 32)). lia. Qed.

Lemma u128_idem a : u128 (u128 a) = u128 a.
Proof. unfold u128. apply Z.mod_mod. lia. Qed.

(** Congruence modulo 2^128: 128 bit expressions are rewritten up to it. *)
Definition eq128 (a b : Z) : Prop := u128 a = u128 b.

Infix "≡₁₂₈" := eq128 (at level 70, no associativity) : Z_scope.

#[global] Instance eq128_equivalence : Equivalence eq128.
Proof. split; unfold eq128; congruence. Qed.

#[global] Instance eq128_add : Proper (eq128 ==> eq128 ==> eq128) Z.add.
Proof.
  intros a a' Ha b b' Hb. unfold eq128, u128 in *.
  rewrite (Z.add_mod a), (Z.add_mod a'), Ha, Hb by lia. reflexivity.
Qed.

#[global] Instance eq128_mul : Proper (eq128 ==> eq128 ==> eq128) Z.mul.
Proof.
  intros a a' Ha b b' Hb. unfold eq128, u128 in *.
  rewrite (Z.mul_mod a), (Z.mul_mod a'), Ha, Hb by lia. reflexivity.
Qed.

Lemma u128_eq128 a : u128 a ≡₁₂₈ a.
Proof. apply u128_idem. Qed.

Lemma eq128_eq a b : a ≡₁₂₈ b -> u128 a = u128 b.
Proof. done. Qed.

Lemma eq_eq128 a b : a = b -> a ≡₁₂₈ b.
Proof. by intros ->. Qed.

(** Solve an equation between 128 bit expressions that differ by where they
    wrap and by ring laws. *)
Ltac ring128 :=
  apply eq128_eq; rewrite ?u128_eq128; apply eq_eq128; ring.

(** Bitwise operations stay within the width of their operands. *)
Lemma lt_pow2_log2 n a : 0 < n -> 0 <= a -> (a < 2 ^ n <-> Z.log2 a < n).
Proof.
  intros Hn Ha. destruct (Z.eq_dec a 0) as [->|Ha0].
  - split; intros; [simpl; lia|]. apply Z.pow_pos_nonneg; lia.
  - apply Z.log2_lt_pow2. lia.
Qed.

Lemma lor_range n a b : 0 < n ->
  0 <= a < 2 ^ n -> 0 <= b < 2 ^ n -> 0 <= Z.lor a b < 2 ^ n.
Proof.
  intros Hn [Ha Ha'] [Hb Hb'].
  assert (H0 : 0 <= Z.lor a b) by (apply Z.lor_nonneg; lia).
  split; [exact H0|]. apply lt_pow2_log2; [done..|].
  rewrite Z.log2_lor by done.
  apply Z.max_lub_lt; by apply lt_pow2_log2.
Qed.

Lemma lxor_range n a b : 0 < n ->
  0 <= a < 2 ^ n -> 0 <= b < 2 ^ n -> 0 <= Z.lxor a b < 2 ^ n.
Proof.
  intros Hn [Ha Ha'] [Hb Hb'].
  assert (H0 : 0 <= Z.lxor a b) by (apply Z.lxor_nonneg; lia).
  split; [exact H0|]. apply lt_pow2_log2; [done..|].
  eapply Z.le_lt_trans; [by apply Z.log2_lxor|].
  apply Z.max_lub_lt; by apply lt_pow2_log2.
Qed.

Lemma shiftr_range n a k :
  0 <= k -> 0 <= a < 2 ^ n -> 0 <= Z.shiftr a k < 2 ^ n.
Proof.
  intros Hk Ha. rewrite Z.shiftr_div_pow2 by done.
  assert (0 < 2 ^ k) by (apply Z.pow_pos_nonneg; lia).
  split; [apply Z.div_pos; lia|].
  apply Z.le_lt_trans with a; [|lia]. apply Z.div_le_upper_bound; nia.
Qed.

#[export] Hint Resolve u64_range u128_range i32_range : dbt2.

(** ** Iteration *)

(** [iter n f x] applies [f] to [x], [n] times. *)
Fixpoint iter {A} (n : nat) (f : A -> A) (x : A) : A :=
  match n with
  | O => x
  | S n' => iter n' f (f x)
  end.

Lemma iter_add {A} (f : A -> A) n m x : iter (n + m) f x = iter m f (iter n f x).
Proof. revert x. induction n as [|n IH]; intros x; simpl; auto. Qed.

Lemma iter_S_out {A} (f : A -> A) n x : iter (S n) f x = f (iter n f x).
Proof. rewrite <- Nat.add_1_r, iter_add. reflexivity. Qed.

Lemma iter_ext {A} (f g : A -> A) n x :
  (forall y, f y = g y) -> iter n f x = iter n g x.
Proof. intros H. revert x. induction n; simpl; intros; rewrite ?H; auto. Qed.

Lemma iter_double {A} (f : A -> A) n x :
  iter (2 * n) f x = iter n (fun y => f (f y)) x.
Proof.
  revert x. induction n as [|n IH]; intros x; [done|].
  replace (2 * S n)%nat with (S (S (2 * n))) by lia. simpl iter at 1. apply IH.
Qed.

Lemma iter_mul {A} (f : A -> A) n m x : iter (n * m) f x = iter n (iter m f) x.
Proof.
  revert x. induction n as [|n IH]; intros x; simpl; [done|].
  rewrite iter_add. apply IH.
Qed.

Lemma iter_invariant {A} (P : A -> Prop) (f : A -> A) n x :
  (forall y, P y -> P (f y)) -> P x -> P (iter n f x).
Proof. intros Hf. revert x. induction n; simpl; auto. Qed.

(** The integers [lo], [lo+1], ..., [hi-1]: the values of the loop variable of
    [for (i = lo; i < hi; i++)]. *)
Definition zrange (lo hi : Z) : list Z := seqZ lo (hi - lo).

Lemma zrange_app lo mid hi :
  lo <= mid <= hi -> zrange lo hi = zrange lo mid ++ zrange mid hi.
Proof.
  intros. unfold zrange.
  replace (hi - lo) with ((mid - lo) + (hi - mid)) by lia.
  rewrite seqZ_app by lia. do 2 f_equal. lia.
Qed.

Lemma zrange_nil lo hi : hi <= lo -> zrange lo hi = [].
Proof. intros. unfold zrange. apply seqZ_nil. lia. Qed.

Lemma zrange_snoc lo hi : lo <= hi -> zrange lo (hi + 1) = zrange lo hi ++ [hi].
Proof.
  intros. rewrite (zrange_app lo hi) by lia. f_equal.
  unfold zrange. replace (hi + 1 - hi) with 1 by lia. reflexivity.
Qed.

Lemma zrange_cons lo hi : lo < hi -> zrange lo hi = lo :: zrange (lo + 1) hi.
Proof.
  intros. rewrite (zrange_app lo (lo + 1)) by lia.
  unfold zrange at 1. replace (lo + 1 - lo) with 1 by lia. reflexivity.
Qed.

Lemma elem_of_zrange i lo hi : i ∈ zrange lo hi <-> lo <= i < hi.
Proof. unfold zrange. rewrite elem_of_seqZ. lia. Qed.

Lemma length_zrange lo hi : length (zrange lo hi) = Z.to_nat (hi - lo).
Proof. apply length_seqZ. Qed.

#[export] Hint Rewrite elem_of_zrange length_zrange : zrange.

(** ** Sums over lists

    Counting invariants are sums of indicator functions over the members of a
    list, which change in one place when one member does. *)

Fixpoint sumZ {A} (f : A -> Z) (l : list A) : Z :=
  match l with [] => 0 | x :: l' => f x + sumZ f l' end.

Section sumZ.
Context {A : Type}.
Implicit Types (f g : A -> Z) (l : list A).

Lemma sumZ_app f l1 l2 : sumZ f (l1 ++ l2) = sumZ f l1 + sumZ f l2.
Proof. induction l1; cbn; lia. Qed.

#[export] Instance sumZ_perm f : Proper ((≡ₚ) ==> eq) (sumZ f).
Proof. induction 1; cbn; lia. Qed.

Lemma sumZ_nonneg f l : (forall x, 0 <= f x) -> 0 <= sumZ f l.
Proof. intros Hf. induction l as [|x l IH]; cbn; [lia|]. specialize (Hf x). lia. Qed.

Lemma sumZ_ext f g l : (forall x, x ∈ l -> f x = g x) -> sumZ f l = sumZ g l.
Proof.
  induction l as [|x l IH]; intros H; cbn; [done|].
  rewrite (H x), IH; [done|intros; apply H; by right|left].
Qed.

Lemma sumZ_zero f l : (forall x, x ∈ l -> f x = 0) -> sumZ f l = 0.
Proof.
  induction l as [|x l IH]; intros H; cbn; [done|].
  rewrite (H x), IH; [done|intros; apply H; by right|left].
Qed.

(** Replacing one member. *)
Lemma sumZ_insert f l i x y :
  l !! i = Some x -> sumZ f (<[i:=y]> l) = sumZ f l - f x + f y.
Proof.
  revert i. induction l as [|z l IH]; intros [|i] Hi; try done; [cbn in *; simplify_eq; lia|].
  change (f z + sumZ f (<[i:=y]> l) = f z + sumZ f l - f x + f y).
  rewrite (IH i) by done. lia.
Qed.

Lemma sumZ_lookup f l i x : (forall x, 0 <= f x) -> l !! i = Some x -> f x <= sumZ f l.
Proof.
  intros Hf. revert i. induction l as [|z l IH]; intros [|i] Hi; cbn in *; try done.
  - simplify_eq. pose proof (sumZ_nonneg f l Hf). lia.
  - specialize (Hf z). specialize (IH i Hi). lia.
Qed.

Lemma sumZ_elem f l x : (forall x, 0 <= f x) -> x ∈ l -> f x <= sumZ f l.
Proof. intros Hf [i Hi]%list_elem_of_lookup. by eapply sumZ_lookup. Qed.

(** Two different members both count. *)
Lemma sumZ_two f l i x y : (forall x, 0 <= f x) ->
  l !! i = Some x -> y ∈ l -> x <> y -> f x + f y <= sumZ f l.
Proof.
  intros Hf. revert i. induction l as [|z l IH]; intros i Hi Hy Hne; [done|].
  specialize (Hf z) as Hz. destruct i as [|i]; cbn in *; simplify_eq.
  - apply elem_of_cons in Hy as [->|Hy]; [done|].
    pose proof (sumZ_elem f l y Hf Hy). lia.
  - apply elem_of_cons in Hy as [->|Hy].
    + pose proof (sumZ_lookup f l i x Hf Hi). lia.
    + specialize (IH i Hi Hy Hne). lia.
Qed.

Lemma sumZ_const f l : (forall x, x ∈ l -> f x = 1) -> sumZ f l = Z.of_nat (List.length l).
Proof.
  induction l as [|x l IH]; intros H; [done|]. cbn [sumZ List.length].
  rewrite (H x), IH; [lia|intros; apply H; by right|left].
Qed.
End sumZ.

Lemma sumZ_pos {A} (f : A -> Z) l : 0 < sumZ f l -> exists x, x ∈ l /\ 0 < f x.
Proof.
  induction l as [|x l IH]; cbn; [lia|]. intros H.
  destruct (decide (0 < f x)) as [Hx|]; [exists x; split; [left|done]|].
  destruct IH as (y & Hy & Hf); [lia|]. exists y. split; [by right|done].
Qed.
