(* ===== verification/Double.v ===== *)
(** * IEEE 754 binary64 arithmetic

    The C type [double], on the Standard Library's executable specification
    of IEEE floats ([SpecFloat]) with 53 bits of precision, rounding to
    nearest even.  The lemmas bound the rounding error of the operations the
    program uses on non-negative numbers.  Values are compared as integers,
    in units of 2^-1074 (every finite double is a multiple of it). *)

From Stdlib Require Import ZArith Lia SpecFloat.
From stdpp Require Import base list.
From S2P Require Import Prelude.

Abbreviation double := spec_float.

(** ** Operations *)

Definition dmul : double -> double -> double := SFmul 53 1024.
Definition ddiv : double -> double -> double := SFdiv 53 1024.
Definition dadd : double -> double -> double := SFadd 53 1024.
Definition dsub : double -> double -> double := SFsub 53 1024.
Definition dltb : double -> double -> bool := SFltb.

(** [(double) z] for an integer [z]. *)
Definition d_of_Z (z : Z) : double := binary_normalize 53 1024 z 0 false.

(** Magnitude of a finite double in units of 2^-1074. *)
Definition dmag (f : double) : Z :=
  match f with
  | S754_finite _ m e => Zpos m * 2 ^ (e + 1074)
  | _ => 0
  end.

Definition dsign (f : double) : bool :=
  match f with
  | S754_finite s _ _ | S754_zero s | S754_infinity s => s
  | S754_nan => false
  end.

(** [(int64_t) f]: truncation towards zero. *)
Definition d_to_Z (f : double) : Z :=
  cond_Zopp (dsign f) (dmag f / 2 ^ 1074).

(** [round(f)]: nearest integer, halves away from zero. *)
Definition d_round (f : double) : Z :=
  cond_Zopp (dsign f) ((2 * dmag f + 2 ^ 1074) / 2 ^ 1075).

(** [(float) f], kept as the double it converts back to: one rounding to 24
    bits of precision. *)
Definition to_float (f : double) : double :=
  let normal prec emax g :=
    match g with
    | S754_finite s m e => binary_normalize prec emax (cond_Zopp s (Zpos m)) e s
    | _ => g
    end in
  normal 53 1024 (normal 24 128 f).

(** A non-negative finite double whose exponents stay within [a], with a
    mantissa of at most 53 bits. *)
Definition dbox (a : Z) (f : double) : Prop :=
  match f with
  | S754_zero false => True
  | S754_finite false m e =>
      - a <= e /\ Zpos (digits2_pos m) + e <= a /\ Zpos (digits2_pos m) <= 53
  | _ => False
  end.

(** ** Digits *)

Lemma digits2_pos_spec m :
  0 < Zpos (digits2_pos m) /\
  2 ^ (Zpos (digits2_pos m) - 1) <= Zpos m < 2 ^ Zpos (digits2_pos m).
Proof.
  induction m as [m IH|m IH|]; cbn [digits2_pos]; [| |lia];
    rewrite Pos2Z.inj_succ, Z.pow_succ_r by lia;
    replace (Z.succ (Zpos (digits2_pos m)) - 1) with (Z.succ (Zpos (digits2_pos m) - 1)) by lia;
    rewrite Z.pow_succ_r by lia; lia.
Qed.

Lemma pow2_lt_inv a b : 0 <= b -> 2 ^ a < 2 ^ b -> a < b.
Proof. intros Hb H. by apply (Z.pow_lt_mono_r_iff 2); [lia| |]. Qed.

Lemma digits2_pos_le m d : 0 <= d -> Zpos m < 2 ^ d -> Zpos (digits2_pos m) <= d.
Proof.
  intros Hd Hm. destruct (digits2_pos_spec m) as (? & H & _).
  assert (Zpos (digits2_pos m) - 1 < d); [|lia].
  apply pow2_lt_inv; [done|]. by eapply Z.le_lt_trans.
Qed.

Lemma digits2_pos_ge m d : 2 ^ (d - 1) <= Zpos m -> d <= Zpos (digits2_pos m).
Proof.
  intros Hm. destruct (digits2_pos_spec m) as (? & _ & H).
  assert (d - 1 < Zpos (digits2_pos m)); [|lia].
  apply pow2_lt_inv; [lia|]. by eapply Z.le_lt_trans.
Qed.

Lemma digits2_pos_unique m d :
  0 <= d -> 2 ^ (d - 1) <= Zpos m < 2 ^ d -> Zpos (digits2_pos m) = d.
Proof.
  intros Hd [H1 H2]. apply digits2_pos_ge in H1. apply digits2_pos_le in H2; lia.
Qed.

(** ** Shifting with round and sticky bits *)

(** The record [r] locates the number [V], in units of [U]. *)
Definition locates (V U : Z) (r : shr_record) : Prop :=
  exists rem, V = shr_m r * U + rem /\ 0 <= rem < U /\ 0 <= shr_m r /\
  match shr_r r, shr_s r with
  | false, false => rem = 0
  | false, true => 0 < rem /\ 2 * rem < U
  | true, false => 2 * rem = U
  | true, true => U < 2 * rem
  end.

Lemma locates_exact m : 0 <= m -> locates m 1 (shr_record_of_loc m loc_Exact).
Proof. intros H. exists 0. simpl. lia. Qed.

Lemma locates_shr_1 V U r : locates V U r -> locates V (2 * U) (shr_1 r).
Proof.
  destruct r as [m b s]. intros (rem & HV & Hrem & Hm & Hloc). simpl in *.
  destruct m as [|[p|p|]|p]; cbn [shr_1];
    [exists rem | exists (U + rem) | exists rem | exists (U + rem) | lia];
    destruct b, s; simpl; lia.
Qed.

Lemma iter_pos_iter {A} (f : A -> A) p x : SpecFloat.iter_pos f p x = iter (Pos.to_nat p) f x.
Proof.
  revert x. induction p as [p IH|p IH|]; intros x; cbn [SpecFloat.iter_pos]; [..|done];
    rewrite !IH, <- iter_add.
  - replace (Pos.to_nat p~1) with (S (Pos.to_nat p + Pos.to_nat p)) by lia. done.
  - f_equal. lia.
Qed.

Lemma locates_iter V U r n :
  locates V U r -> locates V (U * 2 ^ Z.of_nat n) (iter n shr_1 r).
Proof.
  intros H. induction n as [|n IH].
  - by rewrite Z.mul_1_r.
  - rewrite iter_S_out, Nat2Z.inj_succ, Z.pow_succ_r by lia.
    replace (U * (2 * 2 ^ Z.of_nat n)) with (2 * (U * 2 ^ Z.of_nat n)) by lia.
    by apply locates_shr_1.
Qed.

Lemma locates_shr V U r e n :
  locates V U r ->
  exists r', shr r e n = (r', e + Z.max 0 n) /\ locates V (U * 2 ^ Z.max 0 n) r'.
Proof.
  intros H. destruct n as [|p|p]; cbn [shr].
  - exists r. rewrite Z.max_id, Z.add_0_r, Z.mul_1_r. done.
  - eexists. split; [reflexivity|]. rewrite iter_pos_iter.
    replace (Z.max 0 (Zpos p)) with (Z.of_nat (Pos.to_nat p)) by lia.
    by apply locates_iter.
  - exists r. rewrite Z.max_l, Z.add_0_r, Z.mul_1_r by lia. done.
Qed.

Lemma round_nearest_even_spec V U r :
  locates V U r ->
  let q := round_nearest_even (shr_m r) (loc_of_shr_record r) in
  2 * Z.abs (q * U - V) <= U /\ shr_m r <= q <= shr_m r + 1.
Proof.
  destruct r as [m b s]. intros (rem & HV & Hrem & Hm & Hloc). simpl in *.
  destruct b, s; simpl in *; try (split; nia). destruct (Z.even m); split; nia.
Qed.

(** ** Rounding *)

Lemma fexp_shift d e : - 1074 <= e ->
  Z.max 0 (fexp 53 1024 (d + e) - e) = Z.max 0 (d - 53).
Proof. intros H. unfold fexp, emin. lia. Qed.

Lemma locates_mantissa V U mx l :
  0 < U -> locates V U (shr_record_of_loc mx l) -> mx * U <= V < (mx + 1) * U.
Proof.
  intros HU (rem & HV & Hrem & _).
  replace (shr_m (shr_record_of_loc mx l)) with mx in HV by (by destruct l as [|[]]).
  nia.
Qed.

(** Mantissa after the first shift of [binary_round_aux]. *)
Lemma shifted_mantissa V U mx n m rem :
  0 < U -> 0 < mx -> 0 <= n ->
  mx * U <= V < (mx + 1) * U -> V = m * (U * 2 ^ n) + rem -> 0 <= rem < U * 2 ^ n ->
  m * 2 ^ n <= mx < (m + 1) * 2 ^ n.
Proof.
  intros HU Hmx Hn HVU HV Hrem. pose proof (Z.pow_pos_nonneg 2 n). nia.
Qed.

(** A rounded mantissa of at most 53 bits, or 2^53, is stored unchanged. *)
Lemma store_rounded q e :
  0 < q <= 2 ^ 53 -> - 1074 <= e <= 970 ->
  exists m' e',
    (let '(mrs, e'') := shr_fexp 53 1024 q e loc_Exact in
     match shr_m mrs with
     | Z0 => S754_zero false
     | Zpos m => if Z.leb e'' (1024 - 53) then S754_finite false m e'' else S754_infinity false
     | _ => S754_nan
     end) = S754_finite false m' e' /\
    e <= e' /\ Zpos m' * 2 ^ (e' - e) = q /\ Zpos (digits2_pos m') <= 53 /\
    (q < 2 ^ 53 /\ e' = e /\ Zpos m' = q \/ q = 2 ^ 53 /\ e' = e + 1).
Proof.
  intros Hq He. destruct q as [|q|q]; [lia| |lia].
  destruct (Z.eq_dec (Zpos q) (2 ^ 53)) as [Hq53|Hq53].
  - rewrite Hq53. unfold shr_fexp.
    replace (fexp 53 1024 (Zdigits2 (2 ^ 53) + e) - e) with 1
      by (change (Zdigits2 (2 ^ 53)) with 54; unfold fexp, emin; lia).
    cbn -[Z.leb Z.pow]. destruct (Z.leb_spec (e + 1) (1024 - 53)); [|lia].
    do 2 eexists. split; [reflexivity|]. split; [lia|].
    replace (e + 1 - e) with 1 by lia. split; [done|]. split; [done|]. lia.
  - assert (Hd : Zpos (digits2_pos q) <= 53) by (apply digits2_pos_le; lia).
    pose proof (digits2_pos_spec q) as [? _].
    destruct (locates_shr (Zpos q) 1 (shr_record_of_loc (Zpos q) loc_Exact) e
                (fexp 53 1024 (Zdigits2 (Zpos q) + e) - e)) as (r & Hr & rem & HV & Hrem & _);
      [by apply locates_exact|].
    unfold shr_fexp. rewrite Hr. cbn [Zdigits2] in *.
    rewrite fexp_shift in * by lia.
    rewrite (Z.max_l 0) in * by lia. rewrite Z.mul_1_l in *.
    replace (shr_m r) with (Zpos q) by lia.
    destruct (Z.leb_spec (e + 0) (1024 - 53)); [|lia].
    exists q, e. rewrite Z.add_0_r. split; [done|]. rewrite Z.sub_diag. lia.
Qed.

Lemma binary_round_aux_spec V U mx e l :
  0 < U -> locates V U (shr_record_of_loc (Zpos mx) l) ->
  - 1074 <= e <= 970 -> Zpos (digits2_pos mx) + e <= 1023 ->
  let n := Z.max 0 (Zpos (digits2_pos mx) - 53) in
  exists m' e' q,
    binary_round_aux 53 1024 false (Zpos mx) e l = S754_finite false m' e' /\
    e <= e' /\ (Zpos (digits2_pos m') + e' <= Zpos (digits2_pos mx) + e + 1 /\
               Zpos (digits2_pos m') <= 53) /\
    Zpos m' * 2 ^ (e' - e) = q * 2 ^ n /\
    2 * Z.abs (q * (U * 2 ^ n) - V) <= U * 2 ^ n.
Proof.
  intros HU Hloc He Hde n. pose proof (digits2_pos_spec mx) as [Hd0 Hd].
  pose proof (locates_mantissa _ _ _ _ HU Hloc) as HmxV.
  unfold binary_round_aux. unfold shr_fexp at 1.
  destruct (locates_shr _ _ _ e (fexp 53 1024 (Zdigits2 (Zpos mx) + e) - e) Hloc)
    as (r & -> & Hr). cbn [Zdigits2] in *. rewrite fexp_shift in * by lia.
  fold n in Hr |- *.
  pose proof (round_nearest_even_spec _ _ _ Hr) as [Hq1 Hq2].
  set (q := round_nearest_even _ _) in *.
  destruct Hr as (rem & HV & Hrem & Hm0 & _).
  assert (Hn : n = 0 /\ Zpos (digits2_pos mx) <= 53
               \/ n = Zpos (digits2_pos mx) - 53 /\ 0 < n) by lia.
  clearbody n.
  pose proof (shifted_mantissa _ _ _ n _ _ HU (Pos2Z.is_pos mx) ltac:(lia) HmxV HV Hrem) as Hm.
  assert (Hqb : 0 < q <= 2 ^ 53 /\ (n = 0 -> q <= 2 ^ Zpos (digits2_pos mx))
                /\ (n = 0 -> Zpos (digits2_pos mx) <= 53)).
  { destruct Hn as [[-> Hn]|[-> Hn0]].
    - assert (2 ^ Zpos (digits2_pos mx) <= 2 ^ 53)
        by (apply Z.pow_le_mono_r; lia). lia.
    - replace (2 ^ Zpos (digits2_pos mx)) with (2 ^ 53 * 2 ^ (Zpos (digits2_pos mx) - 53)) in Hd
        by (rewrite <- Z.pow_add_r by lia; f_equal; lia).
      replace (2 ^ (Zpos (digits2_pos mx) - 1)) with (2 ^ 52 * 2 ^ (Zpos (digits2_pos mx) - 53)) in Hd
        by (rewrite <- Z.pow_add_r by lia; f_equal; lia).
      pose proof (Z.pow_pos_nonneg 2 (Zpos (digits2_pos mx) - 53)).
      split; [|lia]. nia. }
  destruct (store_rounded q (e + n)) as (m' & e' & Heq & He' & Hval & Hdm & Hcase); [lia..|].
  exists m', e', q. split; [exact Heq|]. split; [lia|].
  assert (Hpow : 2 ^ (e' - e) = 2 ^ (e' - (e + n)) * 2 ^ n)
    by (rewrite <- Z.pow_add_r by lia; f_equal; lia).
  rewrite Hpow, Z.mul_assoc, Hval. split; [|by split]. split; [|exact Hdm].
  destruct Hcase as [(Hq & -> & Hm')|(Hq & ->)].
  - destruct Hn as [[-> Hn]|[-> _]]; [|lia].
    assert (Zpos (digits2_pos m') <= Zpos (digits2_pos mx) + 1); [|lia].
    apply digits2_pos_le; [lia|]. rewrite Z.pow_add_r by lia. lia.
  - destruct Hn as [[-> Hn]|[-> _]]; [|lia].
    destruct (Z.le_gt_cases 53 (Zpos (digits2_pos mx))) as [|Hlt]; [lia|].
    assert (2 ^ Zpos (digits2_pos mx) <= 2 ^ 52) by (apply Z.pow_le_mono_r; lia). lia.
Qed.

(** [v] is within half an ulp of [x] or better: relative error 2^-53. *)
Definition near (v x : Z) : Prop := Z.abs (v - x) * 2 ^ 53 <= x.

(** Rounding a mantissa: relative error, for exact inputs or wide ones. *)
Lemma binary_round_aux_near V U mx e l :
  0 < U -> locates V U (shr_record_of_loc (Zpos mx) l) ->
  (l = loc_Exact /\ U = 1 \/ 53 <= Zpos (digits2_pos mx)) ->
  - 1074 <= e <= 970 -> Zpos (digits2_pos mx) + e <= 1023 ->
  exists m' e',
    binary_round_aux 53 1024 false (Zpos mx) e l = S754_finite false m' e' /\
    e <= e' /\ (Zpos (digits2_pos m') + e' <= Zpos (digits2_pos mx) + e + 1 /\
               Zpos (digits2_pos m') <= 53) /\
    near (Zpos m' * 2 ^ (e' - e) * U) V.
Proof.
  intros HU Hloc Hwide He Hde.
  destruct (binary_round_aux_spec V U mx e l HU Hloc He Hde)
    as (m' & e' & q & Heq & He' & Hd' & Hval & Herr).
  exists m', e'. do 3 (split; [done|]). rewrite Hval.
  pose proof (locates_mantissa _ _ _ _ HU Hloc) as [HV _].
  pose proof (digits2_pos_spec mx) as (_ & Hd & _).
  unfold near. revert Herr. generalize q. clear q Hval. intros q Herr.
  destruct (Z.le_gt_cases 53 (Zpos (digits2_pos mx))) as [H53|H53].
  - rewrite Z.max_r in * by lia.
    replace (Zpos (digits2_pos mx) - 1) with (52 + (Zpos (digits2_pos mx) - 53)) in Hd by lia.
    rewrite Z.pow_add_r in Hd by lia. nia.
  - destruct Hwide as [[-> ->]|]; [|lia]. rewrite Z.max_l in * by lia. lia.
Qed.

(** A product whose significant part fits in 53 bits is exact. *)
Lemma binary_round_aux_exact mx e a b :
  Zpos mx = a * 2 ^ b -> 0 <= b -> 0 < a < 2 ^ 53 ->
  - 1074 <= e <= 970 -> Zpos (digits2_pos mx) + e <= 1023 ->
  exists m' e',
    binary_round_aux 53 1024 false (Zpos mx) e loc_Exact = S754_finite false m' e' /\
    e <= e' /\ (Zpos (digits2_pos m') + e' <= Zpos (digits2_pos mx) + e + 1 /\
               Zpos (digits2_pos m') <= 53) /\
    Zpos m' * 2 ^ (e' - e) = Zpos mx.
Proof.
  intros Hmx Hb Ha He Hde.
  destruct (binary_round_aux_spec (Zpos mx) 1 mx e loc_Exact)
    as (m' & e' & q & Heq & He' & Hd' & Hval & Herr); [lia|by apply locates_exact|done..|].
  exists m', e'. do 3 (split; [done|]). rewrite Hval.
  set (n := Z.max 0 _) in *.
  assert (Hn : 0 <= n <= b).
  { split; [lia|]. subst n. apply Z.max_lub; [lia|].
    enough (Zpos (digits2_pos mx) <= 53 + b) by lia.
    apply digits2_pos_le; [lia|]. rewrite Hmx, Z.pow_add_r by lia.
    pose proof (Z.pow_pos_nonneg 2 b). nia. }
  clearbody n. pose proof (Z.pow_pos_nonneg 2 n ltac:(lia) ltac:(lia)) as Hp.
  assert (Hc : Zpos mx = (a * 2 ^ (b - n)) * 2 ^ n).
  { rewrite Hmx, <- Z.mul_assoc, <- Z.pow_add_r by lia. do 2 f_equal. lia. }
  revert Herr. rewrite Hc. clear Hc. generalize (a * 2 ^ (b - n)). intros c Herr.
  f_equal. assert (2 * Z.abs (q - c) <= 1); [|lia].
  apply (Z.mul_le_mono_pos_r _ _ (2 ^ n)); [lia|].
  replace (2 * Z.abs (q - c) * 2 ^ n) with (2 * Z.abs ((q - c) * 2 ^ n))
    by (rewrite Z.abs_mul, (Z.abs_eq (2 ^ n)) by lia; ring).
  replace ((q - c) * 2 ^ n) with (q * (1 * 2 ^ n) - c * 2 ^ n) by ring. lia.
Qed.

(** ** Conversions from integers *)

Lemma pos_iter_xO m d : Zpos (Pos.iter xO m d) = Zpos m * 2 ^ Zpos d.
Proof.
  induction d as [|d IH] using Pos.peano_ind.
  - simpl. lia.
  - rewrite Pos.iter_succ, Pos2Z.inj_succ, Z.pow_succ_r by lia. lia.
Qed.

Lemma d_of_Z_pos z : 0 < z < 2 ^ 53 ->
  exists m e, d_of_Z z = S754_finite false m e /\
    - 52 <= e <= 0 /\ Zpos m * 2 ^ (e + 1074) = z * 2 ^ 1074 /\
    Zpos (digits2_pos m) = 53.
Proof.
  intros Hz. destruct z as [|p|p]; [lia| |lia].
  unfold d_of_Z, binary_normalize, binary_round.
  pose proof (digits2_pos_spec p) as (Hd0 & Hd1 & Hd2).
  assert (Hd : Zpos (digits2_pos p) <= 53) by (apply digits2_pos_le; lia).
  set (d := Zpos (digits2_pos p)) in *. rewrite Z.add_0_r.
  replace (fexp 53 1024 d) with (d - 53) by (unfold fexp, emin; lia).
  assert (Hshl : exists m, shl_align p 0 (d - 53) = (m, d - 53)
                           /\ Zpos m = Zpos p * 2 ^ (53 - d)).
  { unfold shl_align. rewrite Z.sub_0_r.
    destruct (d - 53) as [|k|k] eqn:Hk; [|lia|].
    - exists p. replace (53 - d) with 0 by lia. split; [done|lia].
    - eexists. split; [done|]. rewrite pos_iter_xO. f_equal. f_equal. lia. }
  destruct Hshl as (m & -> & Hm).
  assert (Hdm : Zpos (digits2_pos m) = 53).
  { apply digits2_pos_unique; [lia|]. rewrite Hm. 
    replace (2 ^ (53 - 1)) with (2 ^ (d - 1) * 2 ^ (53 - d))
      by (rewrite <- Z.pow_add_r by lia; f_equal; lia).
    replace (2 ^ 53) with (2 ^ d * 2 ^ (53 - d))
      by (rewrite <- Z.pow_add_r by lia; f_equal; lia).
    pose proof (Z.pow_pos_nonneg 2 (53 - d)). nia. }
  unfold binary_round_aux, shr_fexp at 1. cbn [Zdigits2].
  replace (fexp 53 1024 (Zpos (digits2_pos m) + (d - 53)) - (d - 53)) with 0
    by (unfold fexp, emin; lia).
  cbn [shr shr_record_of_loc shr_m loc_of_shr_record round_nearest_even].
  unfold shr_fexp. cbn [Zdigits2].
  replace (fexp 53 1024 (Zpos (digits2_pos m) + (d - 53)) - (d - 53)) with 0
    by (unfold fexp, emin; lia).
  cbn [shr shr_record_of_loc shr_m].
  destruct (Z.leb_spec (d - 53) (1024 - 53)); [|lia].
  exists m, (d - 53). split; [done|]. split; [lia|]. split; [|done].
  rewrite Hm, <- Z.mul_assoc, <- Z.pow_add_r by lia. do 2 f_equal. lia.
Qed.

Lemma d_of_Z_mag z : 0 <= z < 2 ^ 53 -> dmag (d_of_Z z) = z * 2 ^ 1074.
Proof.
  intros Hz. destruct (Z.eq_dec z 0) as [->|]; [done|].
  destruct (d_of_Z_pos z) as (m & e & -> & _ & H & _); [lia|]. done.
Qed.

Lemma d_of_Z_box z : 0 <= z < 2 ^ 53 -> dbox 53 (d_of_Z z).
Proof.
  intros Hz. destruct (Z.eq_dec z 0) as [->|]; [done|].
  destruct (d_of_Z_pos z) as (m & e & -> & ? & _ & ?); [lia|]. simpl. lia.
Qed.

Lemma dbox_mono a b f : a <= b -> dbox a f -> dbox b f.
Proof. intros. destruct f as [[]| | |[] m e]; simpl in *; lia. Qed.

Lemma dmag_nonneg f : 0 <= dmag f.
Proof.
  destruct f as [| | |s m e]; simpl; lia.
Qed.

Lemma dbox_sign a f : dbox a f -> dsign f = false.
Proof. by destruct f as [[]|[]| |[] m e]. Qed.

(** ** Products and quotients *)

Lemma dmul_spec a b x y :
  dbox a x -> dbox b y -> 0 <= a -> 0 <= b -> a + b <= 900 ->
  dbox (a + b + 1) (dmul x y) /\ near (dmag (dmul x y) * 2 ^ 1074) (dmag x * dmag y).
Proof.
  intros Hx Hy Ha Hb Hab.
  destruct x as [[]| | |[] mx ex]; destruct y as [[]| | |[] my ey];
    try done; unfold near; cbn [dbox] in *; unfold dmul, SFmul; cbn [xorb dmag dbox];
    try lia.
  pose proof (digits2_pos_spec mx) as (? & ? & Hdx).
  pose proof (digits2_pos_spec my) as (? & ? & Hdy).
  assert (Hd : Zpos (digits2_pos (mx * my)) <= Zpos (digits2_pos mx) + Zpos (digits2_pos my)).
  { apply digits2_pos_le; [lia|]. rewrite Z.pow_add_r, Pos2Z.inj_mul by lia. nia. }
  destruct (binary_round_aux_near (Zpos (mx * my)) 1 (mx * my) (ex + ey) loc_Exact)
    as (m' & e' & -> & He' & Hd' & Herr); [lia|by apply locates_exact|by left|lia|lia|].
  cbn [dbox dmag]. split; [lia|].
  unfold near in *. rewrite Z.mul_1_r in *.
  replace (Zpos m' * 2 ^ (e' + 1074) * 2 ^ 1074)
    with ((Zpos m' * 2 ^ (e' - (ex + ey))) * 2 ^ (ex + ey + 2148)).
  2: { rewrite <- !Z.mul_assoc, <- !Z.pow_add_r by lia. do 2 f_equal. lia. }
  replace (Zpos mx * 2 ^ (ex + 1074) * (Zpos my * 2 ^ (ey + 1074)))
    with (Zpos (mx * my) * 2 ^ (ex + ey + 2148)).
  2: { replace (ex + ey + 2148) with ((ex + 1074) + (ey + 1074)) by lia.
       rewrite (Z.pow_add_r 2 (ex + 1074)), Pos2Z.inj_mul by lia. ring. }
  rewrite <- Z.mul_sub_distr_r, Z.abs_mul, (Z.abs_eq (2 ^ _)) by (apply Z.pow_nonneg; lia).
  pose proof (Z.pow_pos_nonneg 2 (ex + ey + 2148)). nia.
Qed.

(** Multiplying an integer below 2^53 by a power of two is exact. *)
Lemma dmul_scale z f :
  0 <= z < 2 ^ 53 -> (exists e, f = S754_finite false (2 ^ 52)%positive e /\ - 500 <= e <= 0) ->
  dmag (dmul (d_of_Z z) f) * 2 ^ 1074 = z * 2 ^ 1074 * dmag f /\
  dbox 600 (dmul (d_of_Z z) f).
Proof.
  intros Hz (e & -> & He). destruct (Z.eq_dec z 0) as [->|]; [done|].
  destruct (d_of_Z_pos z) as (m & e0 & -> & He0 & Hm & Hdm); [lia|].
  unfold dmul, SFmul. cbn [xorb].
  pose proof (digits2_pos_spec m) as (? & ? & Hdm2).
  destruct (binary_round_aux_exact (m * 2 ^ 52) (e0 + e) (Zpos m) 52)
    as (m' & e' & -> & He' & Hd' & Hval).
  - rewrite Pos2Z.inj_mul, Pos2Z.inj_pow. done.
  - lia.
  - rewrite Hdm in Hdm2. lia.
  - lia.
  - assert (Zpos (digits2_pos (m * 2 ^ 52)) <= 106); [|lia].
    apply digits2_pos_le; [lia|]. rewrite Hdm, Pos2Z.inj_mul in *. lia.
  - assert (Zpos (digits2_pos (m * 2 ^ 52)) <= 106).
    { apply digits2_pos_le; [lia|]. rewrite Hdm, Pos2Z.inj_mul in *. lia. }
    cbn [dmag dbox]. split; [|lia].
    rewrite <- Hm.
    replace (Zpos m * 2 ^ (e0 + 1074) * (Zpos (2 ^ 52) * 2 ^ (e + 1074)))
      with (Zpos (m * 2 ^ 52) * 2 ^ (e0 + e + 2148)).
    2: { replace (e0 + e + 2148) with ((e0 + 1074) + (e + 1074)) by lia.
         rewrite (Z.pow_add_r 2 (e0 + 1074)), Pos2Z.inj_mul by lia. ring. }
    rewrite <- Hval, <- !Z.mul_assoc, <- !Z.pow_add_r by lia. do 2 f_equal. lia.
Qed.

Lemma near_scale v x c : 0 < c -> near (v * c) (x * c) <-> near v x.
Proof.
  intros Hc. unfold near.
  rewrite <- Z.mul_sub_distr_r, Z.abs_mul, (Z.abs_eq c) by lia. nia.
Qed.

Lemma locates_new_location V U q r :
  0 < U -> V = U * q + r -> 0 <= r < U -> 0 <= q ->
  locates V U (shr_record_of_loc q (new_location U r)).
Proof.
  intros HU HV Hr Hq. exists r. unfold new_location, new_location_even, new_location_odd.
  assert (HE : Z.even U = false -> 2 * r <> U).
  { intros He HU2. by rewrite <- HU2, Z.even_mul in He. }
  destruct (Z.even U); destruct (Z.eqb_spec r 0); simpl; try lia.
  - destruct (Z.compare_spec (2 * r) U); simpl; lia.
  - specialize (HE eq_refl). destruct (Z.compare_spec (2 * r + 1) U); simpl; lia.
Qed.

(** The quotient of two integers below 2^53. *)
Lemma ddiv_spec w p :
  0 < w < 2 ^ 53 -> 0 < p < 2 ^ 53 ->
  dbox 110 (ddiv (d_of_Z w) (d_of_Z p)) /\
  near (dmag (ddiv (d_of_Z w) (d_of_Z p)) * p) (w * 2 ^ 1074).
Proof.
  intros Hw Hp.
  destruct (d_of_Z_pos w Hw) as (m1 & e1 & -> & He1 & Hm1 & Hd1).
  destruct (d_of_Z_pos p Hp) as (m2 & e2 & -> & He2 & Hm2 & Hd2).
  pose proof (digits2_pos_spec m1) as (_ & Hb1). rewrite Hd1 in Hb1.
  pose proof (digits2_pos_spec m2) as (_ & Hb2). rewrite Hd2 in Hb2.
  unfold ddiv, SFdiv, SFdiv_core_binary. cbn [Zdigits2 xorb]. rewrite Hd1, Hd2.
  replace (Z.min (fexp 53 1024 (53 + e1 - (53 + e2))) (e1 - e2)) with (e1 - e2 - 53)
    by (unfold fexp, emin; lia).
  replace (e1 - e2 - (e1 - e2 - 53)) with 53 by lia.
  pose proof (Z_div_mod (Z.shiftl (Zpos m1) 53) (Zpos m2) ltac:(lia)) as Hdm.
  destruct (Z.div_eucl (Z.shiftl (Zpos m1) 53) (Zpos m2)) as [q r].
  destruct Hdm as [HV Hr]. rewrite Z.shiftl_mul_pow2 in HV by lia.
  assert (Hq : 2 ^ 52 <= q < 2 ^ 54) by nia.
  destruct q as [|q|q]; [lia| |lia].
  assert (Hdq : 53 <= Zpos (digits2_pos q) <= 54)
    by (split; [apply digits2_pos_ge | apply digits2_pos_le]; lia).
  destruct (binary_round_aux_near (Zpos m1 * 2 ^ 53) (Zpos m2) q (e1 - e2 - 53)
              (new_location (Zpos m2) r)) as (m' & e' & -> & He' & Hd' & Herr);
    [lia | by apply locates_new_location | right; lia | lia | lia |].
  cbn [dbox dmag]. split; [lia|].
  apply (near_scale _ _ (2 ^ 1074)); [done|].
  rewrite <- (Z.mul_assoc _ p), <- Hm2, <- Hm1.
  apply (near_scale _ _ (2 ^ (e1 - 53 + 2148))) in Herr; [|lia].
  replace (Zpos m' * 2 ^ (e' + 1074) * (Zpos m2 * 2 ^ (e2 + 1074)))
    with (Zpos m' * 2 ^ (e' - (e1 - e2 - 53)) * Zpos m2 * 2 ^ (e1 - 53 + 2148)).
  2: { transitivity (Zpos m' * Zpos m2
         * (2 ^ (e' - (e1 - e2 - 53)) * 2 ^ (e1 - 53 + 2148))); [ring|].
       rewrite <- Z.pow_add_r by lia.
       transitivity (Zpos m' * Zpos m2 * (2 ^ (e' + 1074) * 2 ^ (e2 + 1074))); [|ring].
       rewrite <- Z.pow_add_r by lia. do 2 f_equal. lia. }
  replace (Zpos m1 * 2 ^ (e1 + 1074) * 2 ^ 1074)
    with (Zpos m1 * 2 ^ 53 * 2 ^ (e1 - 53 + 2148)); [done|].
  rewrite <- !Z.mul_assoc, <- !Z.pow_add_r by lia. do 2 f_equal. lia.
Qed.

(** ** Conversions to integers *)

Lemma d_to_Z_spec a f : dbox a f -> d_to_Z f = dmag f / 2 ^ 1074.
Proof. intros H. unfold d_to_Z. by rewrite (dbox_sign a f H). Qed.

Lemma d_round_spec a f z :
  dbox a f -> 2 * Z.abs (dmag f - z * 2 ^ 1074) < 2 ^ 1074 -> d_round f = z.
Proof.
  intros Hf Hz. unfold d_round. rewrite (dbox_sign a f Hf). cbn [cond_Zopp].
  change (2 ^ 1075) with (2 * 2 ^ 1074). revert Hz. generalize (dmag f).
  assert (0 < 2 ^ 1074) by (apply Z.pow_pos_nonneg; lia).
  generalize dependent (2 ^ 1074). intros u Hu m Hm.
  symmetry. apply Z.div_unique with (2 * m + u - 2 * u * z); [|ring].
  left. lia.
Qed.

Lemma d_round_mono a b f g :
  dbox a f -> dbox b g -> dmag f <= dmag g -> d_round f <= d_round g.
Proof.
  intros Hf Hg Hle. unfold d_round. rewrite (dbox_sign a f Hf), (dbox_sign b g Hg).
  apply Z.div_le_mono; [|simpl; lia]. apply Z.pow_pos_nonneg; lia.
Qed.

Lemma d_round_bounds a f lo hi :
  dbox a f -> lo * 2 ^ 1074 <= dmag f <= hi * 2 ^ 1074 -> lo <= d_round f <= hi.
Proof.
  intros Hf [Hlo Hhi]. unfold d_round. rewrite (dbox_sign a f Hf). cbn [cond_Zopp].
  change (2 ^ 1075) with (2 * 2 ^ 1074).
  assert (0 < 2 ^ 1074) by (apply Z.pow_pos_nonneg; lia).
  generalize dependent (dmag f). generalize dependent (2 ^ 1074). intros u Hu m Hm1 Hm2.
  split; [apply Z.div_le_lower_bound; nia|].
  assert ((2 * m + u) / (2 * u) < hi + 1); [|lia]. apply Z.div_lt_upper_bound; nia.
Qed.

(** A double above 1 is at least one ulp above it. *)
Lemma dbox_above_one a f :
  a <= 1074 -> dbox a f -> 2 ^ 1074 < dmag f -> 2 ^ 1074 + 2 ^ 1022 <= dmag f.
Proof.
  intros Ha Hf Hgt. assert (Hone : 0 < 2 ^ 1074) by (apply Z.pow_pos_nonneg; lia).
  destruct f as [| | |[] m e]; cbn [dmag dbox] in *; try done; try lia.
  destruct Hf as (He & _ & Hd).
  pose proof (digits2_pos_spec m) as (_ & _ & Hm).
  assert (Hm53 : Zpos m < 2 ^ 53).
  { eapply Z.lt_le_trans; [exact Hm|]. apply Z.pow_le_mono_r; lia. }
  destruct (Z.le_gt_cases (-52) e) as [Hlow|Hlow].
  - replace (2 ^ (e + 1074)) with (2 ^ (e + 52) * 2 ^ 1022) in *
      by (rewrite <- Z.pow_add_r by lia; f_equal; lia).
    rewrite Z.mul_assoc in *. 
    replace (2 ^ 1074) with (2 ^ 52 * 2 ^ 1022) in * by (rewrite <- Z.pow_add_r by lia; f_equal).
    assert (0 < 2 ^ 1022) by lia. nia.
  - exfalso. assert (2 ^ (e + 1074) <= 2 ^ 1021) by (apply Z.pow_le_mono_r; lia).
    replace (2 ^ 1074) with (2 ^ 53 * 2 ^ 1021) in * by (rewrite <- Z.pow_add_r by lia; f_equal).
    nia.
Qed.
