(* ===== verification/Pcg.v ===== *)
(** * The PCG generator behind [pcg64f_random_t]

    [src/pcg/pcg_variants.h] and [src/pcg/pcg-advance-128.c]: the 128 bit
    multiplicative congruential generator with the XSL-RR output function,
    its seeding and its jump-ahead. *)

From Stdlib Require Import ZArith Lia.
From stdpp Require Import base list.
From S2P Require Import Prelude.

(** [PCG_128BIT_CONSTANT(high, low)] *)
Definition PCG_128BIT_CONSTANT (high low : Z) : Z := u128 (Z.shiftl high 64 + low).

Definition PCG_DEFAULT_MULTIPLIER_128 : Z :=
  PCG_128BIT_CONSTANT 2549297995355413924 4865540595714422341.

(** The state is one 128 bit word. *)
Record pcg_state_128 := mk_pcg { state : Z }.

Definition pcg_rotr_64 (value rot : Z) : Z :=
  Z.lor (Z.shiftr value rot)
        (u64 (Z.shiftl value (Z.land (- rot) 63))).

Definition pcg_output_xsl_rr_128_64 (st : Z) : Z :=
  pcg_rotr_64 (Z.lxor (u64 (Z.shiftr st 64)) (u64 st)) (Z.shiftr st 122).

Definition pcg_mcg_128_step_r (rng : pcg_state_128) : pcg_state_128 :=
  mk_pcg (u128 (state rng * PCG_DEFAULT_MULTIPLIER_128)).

Definition pcg_mcg_128_srandom_r (initstate : Z) : pcg_state_128 :=
  mk_pcg (Z.lor (u128 initstate) 1).

Definition pcg_mcg_128_xsl_rr_64_random_r (rng : pcg_state_128)
  : Z * pcg_state_128 :=
  let rng := pcg_mcg_128_step_r rng in
  (pcg_output_xsl_rr_128_64 (state rng), rng).

(** The loop of [pcg_advance_lcg_128], with fuel for the number of bits of
    [delta]; the accumulators in the order of the C locals. *)
Fixpoint advance_loop (fuel : nat) (delta acc_mult acc_plus cur_mult cur_plus : Z)
  : Z * Z :=
  match fuel with
  | O => (acc_mult, acc_plus)
  | S fuel' =>
      if delta >? 0 then
        let '(acc_mult, acc_plus) :=
          if Z.odd delta
          then (u128 (acc_mult * cur_mult), u128 (u128 (acc_plus * cur_mult) + cur_plus))
          else (acc_mult, acc_plus) in
        advance_loop fuel' (delta / 2) acc_mult acc_plus
          (u128 (cur_mult * cur_mult))
          (u128 (u128 (cur_mult + 1) * cur_plus))
      else (acc_mult, acc_plus)
  end.

Definition pcg_advance_lcg_128 (st delta cur_mult cur_plus : Z) : Z :=
  let '(acc_mult, acc_plus) := advance_loop 128 delta 1 0 cur_mult cur_plus in
  u128 (u128 (acc_mult * st) + acc_plus).

Definition pcg_mcg_128_advance_r (rng : pcg_state_128) (delta : Z) : pcg_state_128 :=
  mk_pcg (pcg_advance_lcg_128 (state rng) (u128 delta) PCG_DEFAULT_MULTIPLIER_128 0).

(** ** Jump-ahead *)

(** One step of the affine generator with multiplier [m] and increment [p]. *)
Definition lcg_step (m p s : Z) : Z := u128 (m * s + p).

Lemma lcg_step_step m p s :
  lcg_step m p (lcg_step m p s)
  = lcg_step (u128 (m * m)) (u128 (u128 (m + 1) * p)) s.
Proof. unfold lcg_step. ring128. Qed.

Lemma lcg_step_wrap m p s : lcg_step m p (u128 s) = lcg_step m p s.
Proof. unfold lcg_step. ring128. Qed.

(** The accumulators and the current pair stand for two affine maps: the loop
    composes the accumulated one with [delta] copies of the current one. *)
Lemma advance_loop_spec fuel : forall delta am ap cm cp s,
  0 <= delta < 2 ^ Z.of_nat fuel ->
  let '(am', ap') := advance_loop fuel delta am ap cm cp in
  lcg_step am' ap' s = iter (Z.to_nat delta) (lcg_step cm cp) (lcg_step am ap s).
Proof.
  induction fuel as [|fuel IH]; intros delta am ap cm cp s Hd.
  - replace delta with 0 by (simpl in Hd; lia). reflexivity.
  - rewrite Nat2Z.inj_succ, Z.pow_succ_r in Hd by lia. cbn [advance_loop].
    destruct (Z.gtb_spec delta 0); [|by replace delta with 0 by lia].
    set (cm2 := u128 (cm * cm)). set (cp2 := u128 (u128 (cm + 1) * cp)).
    assert (Hhalf : forall y, iter (Z.to_nat (delta / 2)) (lcg_step cm2 cp2) y
              = iter (2 * Z.to_nat (delta / 2)) (lcg_step cm cp) y).
    { intros y. rewrite iter_double. apply iter_ext. intros z.
      symmetry. apply lcg_step_step. }
    assert (0 <= delta / 2 < 2 ^ Z.of_nat fuel) by dlia.
    pose proof (Zdiv2_odd_eqn delta) as Ho. rewrite Z.div2_div in Ho.
    destruct (Z.odd delta).
    + specialize (IH (delta / 2) (u128 (am * cm)) (u128 (u128 (ap * cm) + cp))
                     cm2 cp2 s ltac:(lia)).
      destruct (advance_loop _ _ _ _ _ _) as [am' ap'].
      rewrite IH, Hhalf.
      replace (Z.to_nat delta) with (S (2 * Z.to_nat (delta / 2))) by lia.
      cbn [iter]. f_equal. unfold lcg_step. ring128.
    + specialize (IH (delta / 2) am ap cm2 cp2 s ltac:(lia)).
      destruct (advance_loop _ _ _ _ _ _) as [am' ap'].
      rewrite IH, Hhalf. f_equal. lia.
Qed.

Lemma advance_lcg_iter st delta m p :
  0 <= delta < 2 ^ 128 ->
  pcg_advance_lcg_128 st delta m p = iter (Z.to_nat delta) (lcg_step m p) (u128 st).
Proof.
  intros Hd. unfold pcg_advance_lcg_128.
  pose proof (advance_loop_spec 128 delta 1 0 m p st ltac:(lia)) as H.
  destruct (advance_loop _ _ _ _ _ _) as [am ap].
  replace (u128 (u128 (am * st) + ap)) with (lcg_step am ap st)
    by (unfold lcg_step; ring128).
  rewrite H. f_equal. unfold lcg_step. f_equal. ring.
Qed.

(** ** The seeded generator *)

(** A state that seeding can produce: odd, and within 128 bits. *)
Definition pcg_wf (rng : pcg_state_128) : Prop :=
  0 <= state rng < 2 ^ 128 /\ Z.odd (state rng) = true.

Lemma pcg_wf_srandom s : pcg_wf (pcg_mcg_128_srandom_r s).
Proof.
  unfold pcg_wf, pcg_mcg_128_srandom_r. cbn [state]. pose proof (u128_range s).
  split; [apply lor_range; lia|].
  rewrite <- Z.bit0_odd, Z.lor_spec. apply orb_true_r.
Qed.

Lemma pcg_wf_step rng : pcg_wf rng -> pcg_wf (pcg_mcg_128_step_r rng).
Proof.
  intros [_ Ho]. unfold pcg_wf, pcg_mcg_128_step_r. cbn [state].
  split; [apply u128_range|]. unfold u128.
  rewrite <- Z.bit0_odd, Z.mod_pow2_bits_low, Z.bit0_odd, Z.odd_mul, Ho by lia.
  reflexivity.
Qed.

#[export] Hint Resolve pcg_wf_srandom pcg_wf_step : dbt2.

(** [n] draws leave the generator [n] steps further. *)
Definition pcg_skip (n : nat) (rng : pcg_state_128) : pcg_state_128 :=
  iter n pcg_mcg_128_step_r rng.

Lemma pcg_skip_add n m rng : pcg_skip (n + m) rng = pcg_skip m (pcg_skip n rng).
Proof. apply iter_add. Qed.

Lemma pcg_wf_skip n rng : pcg_wf rng -> pcg_wf (pcg_skip n rng).
Proof. apply iter_invariant. auto with dbt2. Qed.

#[export] Hint Resolve pcg_wf_skip : dbt2.

Lemma state_pcg_skip n rng :
  state (pcg_skip n rng)
  = iter n (lcg_step PCG_DEFAULT_MULTIPLIER_128 0) (state rng).
Proof.
  revert rng. induction n as [|n IH]; intros rng; [done|].
  change (pcg_skip (S n) rng) with (pcg_skip n (pcg_mcg_128_step_r rng)).
  rewrite IH. cbn [iter]. f_equal. unfold lcg_step. cbn [state pcg_mcg_128_step_r].
  f_equal. ring.
Qed.

Lemma pcg_state_eq r1 r2 : state r1 = state r2 -> r1 = r2.
Proof. destruct r1, r2. by intros [= ->]. Qed.

Lemma advance_r_skip rng delta :
  pcg_wf rng -> 0 <= delta < 2 ^ 128 ->
  pcg_mcg_128_advance_r rng delta = pcg_skip (Z.to_nat delta) rng.
Proof.
  intros [Hr _] Hd. apply pcg_state_eq. rewrite state_pcg_skip.
  cbn [state pcg_mcg_128_advance_r].
  rewrite u128_small, advance_lcg_iter, u128_small by lia. done.
Qed.

(** Output of one draw: [pcg64f_random_r] steps once and returns 64 bits. *)
Abbreviation pcg64f_random_r := pcg_mcg_128_xsl_rr_64_random_r.
Abbreviation pcg64f_srandom_r := pcg_mcg_128_srandom_r.
Abbreviation pcg64f_advance_r := pcg_mcg_128_advance_r.

Lemma pcg_rotr_64_range v rot : 0 <= v < 2 ^ 64 -> 0 <= rot ->
  0 <= pcg_rotr_64 v rot < 2 ^ 64.
Proof.
  intros Hv Hr. apply lor_range; [done|by apply shiftr_range|apply u64_range].
Qed.

Lemma pcg_output_range st : 0 <= st -> 0 <= pcg_output_xsl_rr_128_64 st < 2 ^ 64.
Proof.
  intros H. apply pcg_rotr_64_range; [|by apply Z.shiftr_nonneg].
  apply lxor_range; [done|apply u64_range..].
Qed.

Lemma pcg64f_random_r_range rng : 0 <= (pcg64f_random_r rng).1 < 2 ^ 64.
Proof.
  unfold pcg_mcg_128_xsl_rr_64_random_r. simpl fst.
  apply pcg_output_range. apply u128_range.
Qed.

Lemma pcg64f_random_r_state rng : (pcg64f_random_r rng).2 = pcg_skip 1 rng.
Proof. done. Qed.

(** ** The jump-ahead theorems *)

(** [pcg_advance_lcg_128] jumps ahead exactly [delta] steps of the affine
    generator [s -> m * s + p] modulo 2^128, for every multiplier, increment
    and 128 bit [delta], in at most 128 rounds of its loop. *)
Theorem pcg_advance_lcg_128_correct st delta m p :
  0 <= delta < 2 ^ 128 ->
  pcg_advance_lcg_128 st delta m p = iter (Z.to_nat delta) (lcg_step m p) (u128 st).
Proof. apply advance_lcg_iter. Qed.

Lemma pcg_advance_lcg_128_correct_witness :
  pcg_advance_lcg_128 7 5 3 1 = iter 5 (lcg_step 3 1) 7 /\
  pcg_advance_lcg_128 7 5 3 1 = 1822.
Proof.
  split; [|vm_compute; reflexivity].
  exact (pcg_advance_lcg_128_correct 7 5 3 1 ltac:(lia)).
Defined.

(** [pcg64f_advance_r] leaves a seeded generator in the state in which
    [delta] calls of [pcg64f_random_r] leave it: its next draw is the draw
    that follows them. *)
Theorem pcg_mcg_128_advance_r_correct rng delta :
  pcg_wf rng -> 0 <= delta < 2 ^ 128 ->
  pcg_mcg_128_advance_r rng delta
  = iter (Z.to_nat delta) (fun g => (pcg64f_random_r g).2) rng.
Proof. apply advance_r_skip. Qed.

Lemma pcg_mcg_128_advance_r_correct_witness :
  pcg_mcg_128_advance_r (pcg64f_srandom_r 42) 3
  = (pcg64f_random_r (pcg64f_random_r (pcg64f_random_r (pcg64f_srandom_r 42)).2).2).2.
Proof.
  exact (pcg_mcg_128_advance_r_correct (pcg64f_srandom_r 42) 3
           (pcg_wf_srandom 42) ltac:(lia)).
Defined.
