(* ===== verification/Text.v ===== *)
(** * Text output of the C library

    The [printf] conversions, the UTF-8 encoding of [wcstombs] and the line
    format the program writes, as functions on lists of byte values. *)

From Stdlib Require Import ZArith Lia Ascii String SpecFloat.
From stdpp Require Import base list.
From S2P Require Import Prelude Double.

(** A C string literal. *)
Definition lit (s : string) : bytes :=
  map (fun a => Z.of_N (N_of_ascii a)) (list_ascii_of_string s).

(** [strcmp(s, t) == 0] *)
Definition bytes_eqb (s t : bytes) : bool := bool_decide (s = t).

Definition NL : Z := 10.
Definition TAB : Z := 9.
Definition BACKSLASH : Z := 92.

Definition zlen {A} (l : list A) : Z := Z.of_nat (List.length l).

(** ** Decimal integers *)

Fixpoint dec_rev (fuel : nat) (n : Z) : bytes :=
  match fuel with
  | O => []
  | S fuel' => (48 + n mod 10) :: (if n <? 10 then [] else dec_rev fuel' (n / 10))
  end.

(** Decimal digits of a non-negative number, most significant first. *)
Definition dec (n : Z) : bytes := rev (dec_rev (S (Z.to_nat (Z.log2 n))) n).

(** ["%d"] *)
Definition fmt_d (z : Z) : bytes :=
  if z <? 0 then lit "-" ++ dec (- z) else dec z.

(** ["%0<w>d"] *)
Definition fmt_0d (w z : Z) : bytes :=
  if z <? 0
  then lit "-" ++ repeat 48 (Z.to_nat (w - 1 - zlen (dec (- z)))) ++ dec (- z)
  else repeat 48 (Z.to_nat (w - zlen (dec z))) ++ dec z.

(** [n / d] rounded to the nearest integer, ties to even. *)
Definition div_half_even (n d : Z) : Z :=
  let q := n / d in
  let r := n mod d in
  match 2 * r ?= d with
  | Lt => q
  | Gt => q + 1
  | Eq => if Z.even q then q else q + 1
  end.

(** ["%0.<p>f"] of a finite double: the exact binary value rounded to [p]
    decimals. *)
Definition fmt_f (p : Z) (f : double) : bytes :=
  let n := div_half_even (dmag f * 10 ^ p) (2 ^ 1074) in
  (if dsign f then lit "-" else []) ++ dec (n / 10 ^ p)
  ++ (if p =? 0 then [] else lit "." ++ fmt_0d p (n mod 10 ^ p)).

(** The number a digit string stands for ([strtol] on digits). *)
Definition dec_val (s : bytes) : Z := fold_left (fun v c => v * 10 + (c - 48)) s 0.

Definition is_digit (c : Z) : bool := (48 <=? c) && (c <=? 57).

(** ** UTF-8 *)

Definition utf8 (c : Z) : bytes :=
  if c <? 128 then [c]
  else if c <? 2048 then [192 + c / 64; 128 + c mod 64]
  else if c <? 65536 then [224 + c / 4096; 128 + c / 64 mod 64; 128 + c mod 64]
  else [240 + c / 262144; 128 + c / 4096 mod 64; 128 + c / 64 mod 64; 128 + c mod 64].

(** [wcstombs(dest, src, n)]: whole characters while they fit in [n] bytes. *)
Fixpoint wcstombs (src : list Z) (n : Z) : bytes :=
  match src with
  | [] => []
  | c :: src' =>
      if zlen (utf8 c) <=? n
      then utf8 c ++ wcstombs src' (n - zlen (utf8 c))
      else []
  end.

(** ** Lines of fields *)

Fixpoint join (sep : Z) (fields : list bytes) : bytes :=
  match fields with
  | [] => []
  | [f] => f
  | f :: fields' => f ++ sep :: join sep fields'
  end.

(** Split at every occurrence of [sep]. *)
Fixpoint split_on (sep : Z) (s : bytes) : list bytes :=
  match s with
  | [] => [[]]
  | c :: s' =>
      if c =? sep then [] :: split_on sep s'
      else match split_on sep s' with
           | [] => [[c]]
           | f :: fs => (c :: f) :: fs
           end
  end.

(** ** Decimal integers: correctness *)

Lemma dec_rev_digits fuel n : Forall (fun c => is_digit c = true) (dec_rev fuel n).
Proof.
  revert n. induction fuel as [|fuel IH]; intros n; cbn [dec_rev]; [constructor|].
  constructor.
  - unfold is_digit. pose proof (Z.mod_pos_bound n 10 eq_refl).
    rewrite andb_true_iff, !Z.leb_le. lia.
  - destruct (n <? 10); [constructor|apply IH].
Qed.

Lemma dec_digits n : Forall (fun c => is_digit c = true) (dec n).
Proof. apply Forall_rev, dec_rev_digits. Qed.

Lemma dec_val_app s t :
  dec_val (s ++ t) = fold_left (fun v c => v * 10 + (c - 48)) t (dec_val s).
Proof. apply fold_left_app. Qed.

Lemma dec_rev_val fuel n :
  0 <= n -> n < 2 ^ Z.of_nat fuel -> dec_val (rev (dec_rev fuel n)) = n.
Proof.
  revert n. induction fuel as [|fuel IH]; intros n Hn Hb.
  - unfold dec_val. simpl in *. lia.
  - rewrite Nat2Z.inj_succ, Z.pow_succ_r in Hb by lia. cbn [dec_rev rev].
    rewrite dec_val_app. cbn [fold_left].
    destruct (Z.ltb_spec n 10).
    + cbn. rewrite Z.mod_small by lia. lia.
    + rewrite IH; [|apply Z.div_pos; lia|apply Z.div_lt_upper_bound; lia].
      pose proof (Z.div_mod n 10). lia.
Qed.

Lemma dec_dec_val n : 0 <= n -> dec_val (dec n) = n.
Proof.
  intros Hn. apply dec_rev_val; [done|].
  pose proof (Z.log2_nonneg n).
  rewrite Nat2Z.inj_succ, Z2Nat.id by done.
  destruct (Z.eq_dec n 0) as [->|]; [done|]. apply Z.log2_spec. lia.
Qed.

Lemma dec_inj n m : 0 <= n -> 0 <= m -> dec n = dec m -> n = m.
Proof. intros Hn Hm H. by rewrite <- (dec_dec_val n), <- (dec_dec_val m), H. Qed.

Lemma length_dec_rev k : forall fuel n, 0 <= n < 10 ^ Z.of_nat (S k) ->
  (List.length (dec_rev fuel n) <= S k)%nat.
Proof.
  induction k as [|k IH]; intros fuel n Hn; (destruct fuel as [|fuel]; [cbn; lia|]);
    cbn [dec_rev List.length].
  - destruct (Z.ltb_spec n 10); cbn; lia.
  - destruct (Z.ltb_spec n 10); [cbn; lia|]. apply le_n_S, IH.
    rewrite Nat2Z.inj_succ, Z.pow_succ_r in Hn by lia. dlia.
Qed.

Lemma length_dec k n : 0 <= n < 10 ^ Z.of_nat (S k) -> (List.length (dec n) <= S k)%nat.
Proof. intros Hn. unfold dec. rewrite length_rev. by apply length_dec_rev. Qed.

Lemma dec_val_zeros k s : dec_val (repeat 48 k ++ s) = dec_val s.
Proof.
  unfold dec_val. induction k as [|k IH]; [done|]. cbn [repeat app fold_left]. exact IH.
Qed.

Lemma fmt_0d_val w z : 0 <= z -> dec_val (fmt_0d w z) = z.
Proof.
  intros Hz. unfold fmt_0d. destruct (Z.ltb_spec z 0); [lia|].
  by rewrite dec_val_zeros, dec_dec_val.
Qed.

Lemma is_digit_zeros k : Forall (fun c => is_digit c = true) (repeat 48 k).
Proof. induction k; simpl; by constructor. Qed.

Lemma fmt_0d_digits w z : 0 <= z -> Forall (fun c => is_digit c = true) (fmt_0d w z).
Proof.
  intros Hz. unfold fmt_0d. destruct (Z.ltb_spec z 0); [lia|].
  apply Forall_app. split; [apply is_digit_zeros|apply dec_digits].
Qed.

(** ** Fields that the line format can carry

    PostgreSQL's COPY and MySQL's LOAD DATA split lines at newlines and fields
    at tabs, and treat a backslash as an escape. *)

Definition plain_byte (c : Z) : bool :=
  negb (c =? TAB) && negb (c =? NL) && negb (c =? BACKSLASH) && negb (c =? 0).

Definition plain (s : bytes) : Prop := Forall (fun c => plain_byte c = true) s.

Lemma plain_app s t : plain (s ++ t) <-> plain s /\ plain t.
Proof. apply Forall_app. Qed.

Lemma digit_plain c : is_digit c = true -> plain_byte c = true.
Proof.
  unfold is_digit, plain_byte, TAB, NL, BACKSLASH.
  rewrite andb_true_iff, !Z.leb_le. intros H. zcases; done || lia.
Qed.

Lemma plain_digits s : Forall (fun c => is_digit c = true) s -> plain s.
Proof. intros H. eapply Forall_impl; [exact H|apply digit_plain]. Qed.

Lemma plain_dec n : plain (dec n).
Proof. apply plain_digits, dec_digits. Qed.

Lemma plain_fmt_d z : plain (fmt_d z).
Proof.
  unfold fmt_d. destruct (z <? 0); [apply plain_app; split|]; try apply plain_dec.
  by repeat constructor.
Qed.

Lemma plain_fmt_0d w z : plain (fmt_0d w z).
Proof.
  unfold fmt_0d. destruct (z <? 0); rewrite ?plain_app; repeat split;
    try apply plain_dec; try (apply plain_digits, is_digit_zeros); by repeat constructor.
Qed.

Lemma plain_fmt_f p f : plain (fmt_f p f).
Proof.
  unfold fmt_f. destruct (dsign f), (p =? 0); rewrite ?plain_app; repeat split;
    try apply plain_dec; try apply plain_fmt_0d; by repeat constructor.
Qed.

#[export] Hint Resolve plain_dec plain_fmt_d plain_fmt_0d plain_fmt_f : dbt2.

Lemma split_on_nonempty sep s : split_on sep s <> [].
Proof. destruct s as [|c s]; simpl; [done|]. destruct (c =? sep), (split_on sep s); done. Qed.

Lemma split_on_plain sep s :
  Forall (fun c => c <> sep) s -> split_on sep s = [s].
Proof.
  induction 1 as [|c s Hc Hs IH]; [done|]. simpl. rewrite IH.
  by rewrite (proj2 (Z.eqb_neq c sep)).
Qed.

Lemma split_on_app sep s t :
  Forall (fun c => c <> sep) s ->
  split_on sep (s ++ sep :: t) = s :: split_on sep t.
Proof.
  induction 1 as [|c s Hc Hs IH]; simpl.
  - by rewrite Z.eqb_refl.
  - rewrite IH. by rewrite (proj2 (Z.eqb_neq c sep)).
Qed.

(** Splitting a joined line gives the fields back. *)
Lemma split_on_join sep fields :
  fields <> [] -> Forall (Forall (fun c => c <> sep)) fields ->
  split_on sep (join sep fields) = fields.
Proof.
  intros Hne Hf. induction Hf as [|f fs Hf Hfs IH]; [done|].
  destruct fs as [|f' fs]; [by apply split_on_plain|].
  change (join sep (f :: f' :: fs)) with (f ++ sep :: join sep (f' :: fs)).
  rewrite split_on_app by done. by rewrite IH.
Qed.

Lemma plain_not_tab s : plain s -> Forall (fun c => c <> TAB) s.
Proof.
  intros H. eapply Forall_impl; [exact H|]. unfold plain_byte. intros c Hc ->. done.
Qed.

(** ** UTF-8: correctness *)

Lemma utf8_length c : 1 <= zlen (utf8 c) <= 4.
Proof. unfold utf8, zlen. zcases; simpl; lia. Qed.

Lemma utf8_length_bmp c : c < 65536 -> zlen (utf8 c) <= 3.
Proof. intros. unfold utf8, zlen. zcases; simpl; lia. Qed.

(** The encoding never produces an ASCII byte for a non-ASCII character. *)
Lemma plain_utf8 c : 0 <= c -> plain_byte c = true -> plain (utf8 c).
Proof.
  intros H0 Hc. unfold utf8.
  zcases; repeat constructor; try done;
    unfold plain_byte, TAB, NL, BACKSLASH; zcases; try done; exfalso; dlia.
Qed.

Lemma wcstombs_fits s n :
  Forall (fun c => c < 65536) s -> 3 * zlen s <= n ->
  wcstombs s n = flat_map utf8 s.
Proof.
  intros Hs. revert n. induction Hs as [|c s Hc Hs IH]; intros n Hn; [done|].
  cbn [wcstombs flat_map]. pose proof (utf8_length_bmp c Hc).
  unfold zlen in Hn. cbn [List.length] in Hn. rewrite Nat2Z.inj_succ in Hn.
  pose proof (Zle_0_nat (List.length s)).
  destruct (Z.leb_spec (zlen (utf8 c)) n); [|lia].
  rewrite IH; [done|]. unfold zlen at 1. lia.
Qed.

Lemma plain_wcstombs s n :
  Forall (fun c => 0 <= c /\ plain_byte c = true) s -> plain (wcstombs s n).
Proof.
  intros Hs. revert n. induction Hs as [|c s [H0 Hc] Hs IH]; intros n; [constructor|].
  cbn [wcstombs]. destruct (_ <=? _); [|constructor].
  apply plain_app. split; [by apply plain_utf8|apply IH].
Qed.

(** ** Hundredths print exactly *)

Lemma div_half_even_near a n d :
  0 < d -> 2 * Z.abs (a - n * d) < d -> div_half_even a d = n.
Proof.
  intros Hd Hn. unfold div_half_even.
  destruct (Z.le_gt_cases (n * d) a).
  - assert (a / d = n) as -> by (symmetry; apply Z.div_unique with (a - n * d); lia).
    assert (a mod d = a - n * d) as -> by (symmetry; apply Z.mod_unique with n; lia).
    destruct (Z.compare_spec (2 * (a - n * d)) d); lia.
  - assert (a / d = n - 1) as ->
      by (symmetry; apply Z.div_unique with (a - (n - 1) * d); lia).
    assert (a mod d = a - (n - 1) * d) as ->
      by (symmetry; apply Z.mod_unique with (n - 1); lia).
    destruct (Z.compare_spec (2 * (a - (n - 1) * d)) d); lia.
Qed.

(** ["%0.2f"] of a value within half a hundredth of [n / 100]. *)
Lemma fmt_f2_near a f n :
  dbox a f -> 0 <= n <= 2 ^ 50 -> near (dmag f * 100) (n * 2 ^ 1074) ->
  fmt_f 2 f = dec (n / 100) ++ lit "." ++ fmt_0d 2 (n mod 100).
Proof.
  intros Hf Hn Hnear. unfold fmt_f. rewrite (dbox_sign a f Hf).
  replace (div_half_even (dmag f * 10 ^ 2) (2 ^ 1074)) with n; [done|].
  symmetry. apply div_half_even_near; [apply Z.pow_pos_nonneg; lia|].
  unfold near in Hnear. change (10 ^ 2) with 100.
  assert (0 < 2 ^ 1074) by (apply Z.pow_pos_nonneg; lia).
  generalize dependent (2 ^ 1074). generalize (dmag f * 100). intros m u Hm Hu. nia.
Qed.

Lemma fmt_f2_cents n : 0 < n <= 2 ^ 50 ->
  fmt_f 2 (ddiv (d_of_Z n) (d_of_Z 100)) = dec (n / 100) ++ lit "." ++ fmt_0d 2 (n mod 100).
Proof.
  intros Hn. destruct (ddiv_spec n 100) as [Hb Hnear]; [lia..|].
  eapply fmt_f2_near; [exact Hb|lia|exact Hnear].
Qed.

(** ["%o"] of a character code *)
Fixpoint oct_rev (fuel : nat) (n : Z) : bytes :=
  match fuel with
  | O => []
  | S fuel' => (48 + n mod 8) :: (if n <? 8 then [] else oct_rev fuel' (n / 8))
  end.
Definition fmt_o (n : Z) : bytes := rev (oct_rev (S (Z.to_nat (Z.log2 n))) n).

(** ** [atoi] and [strtoull] of the C library, base 10 *)

Definition is_space (c : Z) : bool := (c =? 32) || ((9 <=? c) && (c <=? 13)).

Fixpoint skip_space (s : bytes) : bytes :=
  match s with
  | c :: s' => if is_space c then skip_space s' else s
  | [] => []
  end.

(** The value of the leading digits. *)
Fixpoint leading_digits (v : Z) (s : bytes) : Z :=
  match s with
  | c :: s' => if is_digit c then leading_digits (v * 10 + (c - 48)) s' else v
  | [] => v
  end.

(** An optional sign, and the magnitude of the digits after it. *)
Definition signed_digits (s : bytes) : bool * Z :=
  match skip_space s with
  | c :: s' =>
      if c =? 45 then (true, leading_digits 0 s')
      else if c =? 43 then (false, leading_digits 0 s')
      else (false, leading_digits 0 (c :: s'))
  | [] => (false, 0)
  end.

Definition strtol (s : bytes) : Z :=
  let '(neg, v) := signed_digits s in
  Z.max (- 2 ^ 63) (Z.min (2 ^ 63 - 1) (if neg : bool then - v else v)).

Definition atoi (s : bytes) : Z := i32 (strtol s).

Definition strtoull (s : bytes) : Z :=
  let '(neg, v) := signed_digits s in
  if 2 ^ 64 <=? v then 2 ^ 64 - 1 else if neg : bool then u64 (- v) else v.

Lemma leading_digits_val s : Forall (fun c => is_digit c = true) s ->
  forall v, leading_digits v s = fold_left (fun v c => v * 10 + (c - 48)) s v.
Proof. induction 1 as [|c s Hc _ IH]; intros v; [done|]. cbn. by rewrite Hc, IH. Qed.

Lemma signed_digits_dec n : 0 <= n -> signed_digits (dec n) = (false, n).
Proof.
  intros Hn. pose proof (dec_digits n) as Hd. pose proof (dec_dec_val n Hn) as Hv.
  unfold signed_digits. destruct (dec n) as [|c s]; [by cbn in *; subst|].
  inversion_clear Hd as [|? ? Hc Hs].
  assert (is_space c = false /\ (c =? 45) = false /\ (c =? 43) = false) as (Hsp & H1 & H2).
  { unfold is_digit, is_space in *. apply andb_true_iff in Hc as [Hc1 Hc2].
    apply Z.leb_le in Hc1, Hc2. zcases; try done; lia. }
  cbn [skip_space]. rewrite Hsp, H1, H2. f_equal. rewrite leading_digits_val; [done|by constructor].
Qed.

(** Reading back what [%d] and [%llu] print. *)
Lemma atoi_dec n : 0 <= n <= INT_MAX -> atoi (dec n) = n.
Proof.
  unfold INT_MAX. intros Hn. unfold atoi, strtol. rewrite signed_digits_dec by lia.
  rewrite Z.min_r, Z.max_r, i32_small; lia.
Qed.

Lemma strtoull_range s : 0 <= strtoull s < 2 ^ 64.
Proof.
  unfold strtoull. assert (Hnn : 0 <= (signed_digits s).2).
  { assert (H : forall t v, 0 <= v -> 0 <= leading_digits v t).
    { induction t as [|c t IH]; intros v Hv; cbn [leading_digits]; [done|].
      destruct (is_digit c) eqn:Hc; [|done]. apply IH.
      unfold is_digit in Hc. apply andb_true_iff in Hc as [Hc _]. apply Z.leb_le in Hc. lia. }
    unfold signed_digits. destruct (skip_space s) as [|c t]; [done|].
    zcases; cbn [snd]; apply H; lia. }
  destruct (signed_digits s) as [neg v]. cbn in Hnn.
  destruct (Z.leb_spec (2 ^ 64) v); [lia|]. destruct neg; [apply u64_range|lia].
Qed.

(** A decimal constant of the source, [n / 10^p]. *)
Definition decimal (n p : Z) : double := ddiv (d_of_Z n) (d_of_Z (10 ^ p)).

(** ** [atof]: a decimal fraction with an optional exponent

    (The special values and hexadecimal constants of [strtod] are left out.) *)

Fixpoint digits_prefix (s : bytes) : bytes * bytes :=
  match s with
  | c :: s' => if is_digit c then let '(ds, r) := digits_prefix s' in (c :: ds, r) else ([], s)
  | [] => ([], [])
  end.

(** [sign m * 10^e], rounded once. *)
Definition d_decimal (neg : bool) (m e : Z) : double :=
  match m with
  | Zpos p =>
      match e with
      | Zneg k => ddiv (S754_finite neg p 0) (S754_finite false (10 ^ k) 0)
      | _ => dmul (S754_finite neg p 0) (S754_finite false (Z.to_pos (10 ^ e)) 0)
      end
  | _ => S754_zero neg
  end.

Definition parse_exponent (s : bytes) : Z :=
  match s with
  | c :: s' =>
      if (c =? 101) || (c =? 69) then
        let '(neg, s'') := match s' with
                           | x :: t => if x =? 45 then (true, t) else
                                       if x =? 43 then (false, t) else (false, s')
                           | [] => (false, s') end in
        let e := dec_val (digits_prefix s'').1 in if neg : bool then - e else e
      else 0
  | [] => 0
  end.

Definition atof (s : bytes) : double :=
  let s := skip_space s in
  let '(neg, s) := match s with
                   | c :: t => if c =? 45 then (true, t) else
                               if c =? 43 then (false, t) else (false, s)
                   | [] => (false, s) end in
  let '(whole, s) := digits_prefix s in
  let '(frac, s) := match s with
                    | c :: t => if c =? 46 then digits_prefix t else ([], s)
                    | [] => ([], s) end in
  match whole ++ frac with
  | [] => d_of_Z 0
  | ds => d_decimal neg (dec_val ds) (parse_exponent s - zlen frac)
  end.

(** ** Reading back negative numbers, and searching a string *)

(** What [atoi] reads from the output of [%d] of an [int]. *)
Lemma atoi_fmt_d z : - 2 ^ 31 <= z < 2 ^ 31 -> atoi (fmt_d z) = z.
Proof.
  intros Hz. unfold fmt_d. destruct (Z.ltb_spec z 0) as [Hneg|Hpos].
  - unfold atoi, strtol.
    pose proof (dec_digits (- z)) as Hd. pose proof (dec_dec_val (- z) ltac:(lia)) as Hv.
    cbn [lit app]. change (signed_digits (lit "-" ++ dec (- z)))
      with (true, leading_digits 0 (dec (- z))).
    cbn iota. rewrite leading_digits_val by done. unfold dec_val in Hv. rewrite Hv.
    rewrite Z.min_r, Z.max_r, i32_small; lia.
  - apply atoi_dec. unfold INT_MAX. lia.
Qed.

(** [strstr(s, sub) != NULL] *)
Fixpoint is_prefix (p s : bytes) : bool :=
  match p, s with
  | [], _ => true
  | c :: p', x :: s' => (c =? x) && is_prefix p' s'
  | _ :: _, [] => false
  end.

Fixpoint strstr (s sub : bytes) : bool :=
  is_prefix sub s || match s with [] => false | _ :: s' => strstr s' sub end.

Lemma is_prefix_spec p s : is_prefix p s = true <-> exists t, s = p ++ t.
Proof.
  revert s. induction p as [|c p IH]; intros [|x s]; cbn; split.
  - by exists [].
  - done.
  - intros _. by exists (x :: s).
  - done.
  - done.
  - by intros (t & [=]).
  - rewrite andb_true_iff, IH, Z.eqb_eq. intros (-> & t & ->). by exists t.
  - intros (t & [= -> ->]). rewrite andb_true_iff, IH, Z.eqb_eq. split; [done|by exists t].
Qed.

(** [strstr] finds exactly the substrings. *)
Lemma strstr_spec s sub : strstr s sub = true <-> exists a b, s = a ++ sub ++ b.
Proof.
  induction s as [|x s IH]; cbn [strstr]; rewrite orb_true_iff, is_prefix_spec.
  - split.
    + intros [(t & Ht)|[=]]. by exists [], t.
    + intros (a & b & Hab). left. exists b. by destruct a.
  - rewrite IH. split.
    + intros [(t & ->)|(a & b & ->)]; [by exists [], t|by exists (x :: a), b].
    + intros ([|y a] & b & Hab).
      * left. by exists b.
      * right. cbn in Hab. simplify_eq. by exists a, b.
Qed.
