(* ===== verification/Common.v ===== *)
(** * Shared helpers ([src/common.c], [src/include/common.h])

    Status codes and cardinalities, random numbers on a seeded generator,
    random strings, customer last names, time and byte order helpers. *)

From Stdlib Require Import ZArith Lia Ascii String SpecFloat.
From stdpp Require Import base list.
From S2P Require Import Prelude Double Pcg Text.

(** ** Constants of common.h *)

Definition DELIVERY : Z := 0.
Definition NEW_ORDER : Z := 1.
Definition ORDER_STATUS : Z := 2.
Definition PAYMENT : Z := 3.
Definition STOCK_LEVEL : Z := 4.
Definition TRANSACTION_MAX : Z := 5.
Definition INTEGRITY : Z := 10.

(** [enum table] *)
Definition TABLE_WAREHOUSE : Z := 0.
Definition TABLE_DISTRICT : Z := 1.
Definition TABLE_CUSTOMER : Z := 2.
Definition TABLE_ITEM : Z := 3.
Definition TABLE_ORDER : Z := 4.
Definition TABLE_STOCK : Z := 5.
Definition TABLE_NEW_ORDER : Z := 6.
Definition TABLE_HISTORY : Z := 7.
Definition TABLE_ORDER_LINE : Z := 8.
Definition TABLE_ALL : Z := 9.

Definition ERROR : Z := 0.
Definition OK : Z := 1.
Definition EXIT_CODE : Z := 2.
Definition ERROR_SOCKET_CLOSED : Z := 3.
Definition STATUS_ROLLBACK : Z := 4.
Definition ERROR_RECEIVE_TIMEOUT : Z := 5.
Definition RECONNECT : Z := 6.

Definition A_STRING_CHAR_LEN : Z := 128.
Definition L_STRING_CHAR_LEN : Z := 52.
Definition N_STRING_CHAR_LEN : Z := 10.

Definition CUSTOMER_CARDINALITY : Z := 3000.
Definition DISTRICT_CARDINALITY : Z := 10.
Definition ITEM_CARDINALITY : Z := 100000.
Definition ORDER_CARDINALITY : Z := 3000.
Definition NEW_ORDER_CARDINALITY : Z := 900.

Definition C_LAST_LEN : Z := 16.
Definition C_ID_UNKNOWN : Z := 0.
Definition D_ID_MAX : Z := 10.
Definition O_OL_CNT_MAX : Z := 15.
Definition O_CARRIER_ID_MAX : Z := 10.

(** ** Character sets (wide strings as lists of code points) *)

Definition a_string_char : list Z :=
  lit "A!#$%&()*+,-./0123456789:;<=>?@ABCDEFGHIJKLMNOPQRSTUVWXYZ[]^_`abcdefghijklmnopqrstuvwxyz{|}~"
  ++ [8364; 8218; 402; 8222; 8230; 8224; 8225; 710; 8240; 352; 8249; 338; 381; 8216;
      8217; 8220; 8221; 8226; 8211; 8212; 732; 8482; 353; 8250; 339; 382; 376; 161;
      162; 163; 164; 165; 166; 167; 168; 169].

Definition n_string_char : list Z := lit "0123456789".

Definition l_string_char : list Z :=
  lit "ABCDEFGHIJKLMNOPQRSTUVWXYZabcdefghijklmnopqrstuvwxyz".

Definition c_last_syl : list (list Z) :=
  map lit ["BAR"; "OUGHT"; "ABLE"; "PRI"; "PRES"; "ESE"; "ANTI"; "CALLY"; "ATION"; "EING"]%string.

(** [arr[i]]; the default is never read when the index is in range. *)
Definition at_index {A} (d : A) (arr : list A) (i : Z) : A := nth (Z.to_nat i) arr d.

(** The account of the databases that ask for one. *)
Definition DB_USER : bytes := lit "dbt".
Definition DB_PASS : bytes := lit "dbt".

(** ** Computations that draw from a generator *)

Definition rngM (A : Type) : Type := pcg_state_128 -> A * pcg_state_128.

#[global] Instance rngM_ret : MRet rngM := fun A x g => (x, g).
#[global] Instance rngM_bind : MBind rngM :=
  fun A B f m g => let '(x, g') := m g in f x g'.

Definition draw : rngM Z := pcg64f_random_r.

(** [for (i = 0; i < n; i++) { ... }] collecting one value per round. *)
Fixpoint repeatM {A} (n : nat) (m : rngM A) : rngM (list A) :=
  match n with
  | O => mret []
  | S n' => x ← m; xs ← repeatM n' m; mret (x :: xs)
  end.

Fixpoint mapM_rng {A B} (f : A -> rngM B) (l : list A) : rngM (list B) :=
  match l with
  | [] => mret []
  | a :: l' => x ← f a; xs ← mapM_rng f l'; mret (x :: xs)
  end.

(** [pcg64f_srandom_r(&local, pcg64f_random_r(rng))] followed by [m] on the
    local generator. *)
Definition with_local_rng {A} (m : rngM A) : rngM A :=
  s ← draw; mret (m (pcg64f_srandom_r s)).1.

(** ** Random numbers *)

(** [1.0 / 9007199254740992.0] *)
Definition two_m53 : double := ddiv (d_of_Z 1) (d_of_Z 9007199254740992).

Definition genrand64_real2 : rngM double :=
  x ← draw; mret (dmul (d_of_Z (Z.shiftr x 11)) two_m53).

Definition get_percentage : rngM double :=
  x ← draw;
  mret (dmul (d_of_Z (Z.shiftr x 11)) (ddiv (d_of_Z 1) (d_of_Z 9007199254740991))).

Definition get_random (max : Z) : rngM Z :=
  r ← genrand64_real2; mret (d_to_Z (dmul (d_of_Z max) r)).

(** The operands of [|] are drawn left to right (C leaves the order open). *)
Definition get_nurand (a x y : Z) : rngM Z :=
  r1 ← get_random (a + 1);
  r2 ← get_random (y - x + 1);
  mret (i32 (Z.rem (Z.lor r1 (x + r2)) (y - x + 1) + x)).

(** [log] is the C library's natural logarithm. *)
Definition get_think_time (log : double -> double) (mean_think_time : Z) : rngM Z :=
  p ← get_percentage;
  mret (i32 (d_to_Z
    (dmul (dmul (d_of_Z (-1)) (log (dadd p (ddiv (d_of_Z 1) (d_of_Z 1000000)))))
          (d_of_Z mean_think_time)))).

(** ** Random strings: the characters before the terminating NUL *)

Definition get_a_string (x y : Z) : rngM (list Z) :=
  with_local_rng (
    r ← get_random (i32 (y - x + 1));
    let length := x + i32 r + 1 in
    repeatM (Z.to_nat (length - 1))
      (c ← get_random A_STRING_CHAR_LEN; mret (at_index 0 a_string_char c))).

Definition get_l_string (x y : Z) : rngM (list Z) :=
  with_local_rng (
    r ← get_random (i32 (y - x + 1));
    let length := x + i32 r + 1 in
    repeatM (Z.to_nat (length - 1))
      (c ← get_random L_STRING_CHAR_LEN; mret (at_index 0 l_string_char (i32 c)))).

Definition get_n_string (x y : Z) : rngM (list Z) :=
  with_local_rng (
    r ← get_random (i32 (y - x + 1));
    let length := x + i32 r + 1 in
    repeatM (Z.to_nat (length - 1))
      (c ← get_random N_STRING_CHAR_LEN; mret (at_index 0 n_string_char (i32 c)))).

(** Return code and content of [c_last]. *)
Definition get_c_last (i : Z) : Z * list Z :=
  if (i <? 0) || (i >? 999) then (ERROR, [])
  else
    let tmp := fmt_0d 3 i in
    (OK, at_index [] c_last_syl (at_index 0 tmp 0 - 48)
         ++ at_index [] c_last_syl (at_index 0 tmp 1 - 48)
         ++ at_index [] c_last_syl (at_index 0 tmp 2 - 48)).

(** ** Time and byte order *)

Record timeval := mk_timeval { tv_sec : Z; tv_usec : Z }.

Definition difftimeval (rt1 rt0 : timeval) : double :=
  dadd (d_of_Z (tv_sec rt1 - tv_sec rt0))
       (ddiv (d_of_Z (tv_usec rt1 - tv_usec rt0)) (d_of_Z 1000000)).

(** [ntohl] on a little-endian host (big-endian hosts leave it unchanged). *)
Definition bswap32 (x : Z) : Z :=
  (x mod 256) * 2 ^ 24 + (x / 2 ^ 8 mod 256) * 2 ^ 16
  + (x / 2 ^ 16 mod 256) * 2 ^ 8 + x / 2 ^ 24 mod 256.

Definition ntohl (big_endian : bool) (x : Z) : Z :=
  if big_endian then x mod 2 ^ 32 else bswap32 (x mod 2 ^ 32).

Definition i64 (x : Z) : Z := (x + 2 ^ 63) mod 2 ^ 64 - 2 ^ 63.

Definition ntohll (big_endian : bool) (x : Z) : Z :=
  if ntohl big_endian 1 =? 1 then u64 x
  else
    u64 (Z.lor (i64 (Z.shiftl (ntohl big_endian (i32 (Z.shiftr (i64 (Z.shiftl x 32)) 32))) 32))
               (ntohl big_endian (i32 (Z.shiftr x 32)))).

(** ** The default cardinalities *)

Record table_cardinality_t := mk_card {
  warehouses : Z; districts : Z; customers : Z; items : Z; orders : Z; new_orders : Z }.

Definition init_common : table_cardinality_t :=
  {| warehouses := 1; districts := DISTRICT_CARDINALITY;
     customers := CUSTOMER_CARDINALITY; items := ITEM_CARDINALITY;
     orders := ORDER_CARDINALITY; new_orders := NEW_ORDER_CARDINALITY |}.

(** ** Reasoning about generator computations

    [returns m P]: every result of [m] satisfies [P].  [consumes m n]: [m]
    takes exactly [n] draws from the generator it is given. *)

Definition returns {A} (m : rngM A) (P : A -> Prop) : Prop := forall g, P (m g).1.
Definition consumes {A} (m : rngM A) (n : nat) : Prop := forall g, (m g).2 = pcg_skip n g.

Section rules.
Context {A B : Type}.

Lemma bind_unfold (m : rngM A) (f : A -> rngM B) g :
  (m ≫= f) g = f (m g).1 (m g).2.
Proof. unfold mbind, rngM_bind. by destruct (m g). Qed.

Lemma returns_ret (x : A) (P : A -> Prop) : P x -> returns (mret x) P.
Proof. by intros H g. Qed.

Lemma returns_bind (m : rngM A) (f : A -> rngM B) P Q :
  returns m P -> (forall x, P x -> returns (f x) Q) -> returns (m ≫= f) Q.
Proof. intros Hm Hf g. rewrite bind_unfold. apply Hf, Hm. Qed.

Lemma returns_impl (m : rngM A) (P Q : A -> Prop) :
  returns m P -> (forall x, P x -> Q x) -> returns m Q.
Proof. intros Hm H g. apply H, Hm. Qed.

Lemma returns_true (m : rngM A) : returns m (fun _ => True).
Proof. by intros g. Qed.

Lemma consumes_ret (x : A) : consumes (mret x) 0.
Proof. by intros g. Qed.

Lemma consumes_bind (m : rngM A) (f : A -> rngM B) n k :
  consumes m n -> (forall x, consumes (f x) k) -> consumes (m ≫= f) (n + k).
Proof.
  intros Hm Hf g. by rewrite bind_unfold, Hf, Hm, pcg_skip_add.
Qed.

(** The same when the continuation's cost depends on the value. *)
Lemma consumes_bind_returns (m : rngM A) (f : A -> rngM B) P n k :
  consumes m n -> returns m P -> (forall x, P x -> consumes (f x) k) ->
  consumes (m ≫= f) (n + k).
Proof.
  intros Hm HP Hf g. by rewrite bind_unfold, Hf, Hm, pcg_skip_add.
Qed.

Lemma consumes_eq (m : rngM A) n k : consumes m n -> n = k -> consumes m k.
Proof. by intros H <-. Qed.

Lemma consumes_with_local (m : rngM A) : consumes (with_local_rng m) 1.
Proof. by intros g. Qed.

Lemma returns_with_local (m : rngM A) P : returns m P -> returns (with_local_rng m) P.
Proof. intros H g. apply H. Qed.
End rules.

Create HintDb draws.
#[export] Hint Resolve consumes_ret consumes_with_local : draws.

(** Count the draws of a straight-line computation. *)
Ltac count_draws := eapply consumes_eq; [repeat first
  [ solve [eauto 1 with draws nocore]
  | simple eapply consumes_bind; [|intros ?] ] | try (simpl; lia)].

Lemma consumes_draw : consumes draw 1.
Proof. by intros g. Qed.
#[export] Hint Resolve consumes_draw : draws.

Lemma returns_draw : returns draw (fun x => 0 <= x < 2 ^ 64).
Proof. intros g. apply pcg64f_random_r_range. Qed.

Lemma consumes_repeatM {A} (m : rngM A) n k :
  consumes m k -> consumes (repeatM n m) (n * k).
Proof.
  intros Hm. induction n as [|n IH]; simpl; [apply consumes_ret|].
  eapply consumes_bind; [done|]. intros x.
  eapply consumes_eq; [eapply consumes_bind; [done|intros; apply consumes_ret]|lia].
Qed.

Lemma returns_repeatM {A} (m : rngM A) n P :
  returns m P -> returns (repeatM n m) (fun l => List.length l = n /\ Forall P l).
Proof.
  intros Hm. induction n as [|n IH]; simpl; [by apply returns_ret|].
  eapply returns_bind; [done|]. intros x Hx.
  eapply returns_bind; [exact IH|]. intros xs [Hl Hxs].
  apply returns_ret. simpl. auto.
Qed.

Lemma consumes_mapM_rng {A B} (f : A -> rngM B) (cost : A -> nat) l :
  (forall a, a ∈ l -> consumes (f a) (cost a)) ->
  consumes (mapM_rng f l) (sum_list_with cost l).
Proof.
  induction l as [|a l IH]; intros Hf; simpl; [apply consumes_ret|].
  eapply consumes_bind; [apply Hf; left|]. intros x.
  eapply consumes_eq; [eapply consumes_bind; [apply IH|intros; apply consumes_ret]|lia].
  intros b Hb. apply Hf. by right.
Qed.

Lemma returns_mapM {A B} (f : A -> rngM B) P l :
  (forall a, a ∈ l -> returns (f a) P) -> returns (mapM_rng f l) (Forall P).
Proof.
  induction l as [|a l IH]; intros Hf; simpl; [by apply returns_ret|].
  eapply returns_bind; [apply Hf; left|]. intros x Hx.
  eapply returns_bind; [apply IH; intros b Hb; apply Hf; by right|].
  intros xs Hxs. apply returns_ret. by constructor.
Qed.

Lemma length_mapM_rng {A B} (f : A -> rngM B) l g :
  List.length (mapM_rng f l g).1 = List.length l.
Proof.
  revert g. induction l as [|a l IH]; intros g; [done|]. cbn [mapM_rng List.length].
  rewrite !bind_unfold. cbn. by rewrite IH.
Qed.

Lemma mapM_rng_app {A B} (f : A -> rngM B) l1 l2 g :
  mapM_rng f (l1 ++ l2) g
  = let '(x1, g1) := mapM_rng f l1 g in
    let '(x2, g2) := mapM_rng f l2 g1 in (x1 ++ x2, g2).
Proof.
  revert g. induction l1 as [|a l1 IH]; intros g; simpl.
  - by destruct (mapM_rng f l2 g).
  - rewrite !bind_unfold, IH.
    destruct (mapM_rng f l1 (f a g).2) as [x1 g1]. simpl.
    by destruct (mapM_rng f l2 g1) as [x2 g2].
Qed.

(** ** Random numbers stay in range *)

Lemma two_m53_value : two_m53 = S754_finite false (2 ^ 52)%positive (-105).
Proof. by vm_compute. Qed.

Lemma draw53_range x : 0 <= x < 2 ^ 64 -> 0 <= Z.shiftr x 11 < 2 ^ 53.
Proof. intros H. rewrite Z.shiftr_div_pow2 by lia. dlia. Qed.

(** The uniform deviate is an exact multiple of 2^-53, below 1. *)
Lemma genrand64_real2_spec :
  returns genrand64_real2 (fun r => exists k, 0 <= k < 2 ^ 53 /\
    dbox 600 r /\ dmag r = k * 2 ^ 1021).
Proof.
  eapply returns_bind; [apply returns_draw|]. intros x Hx. apply returns_ret.
  exists (Z.shiftr x 11). pose proof (draw53_range x Hx) as Hk.
  split; [done|]. rewrite two_m53_value.
  destruct (dmul_scale (Z.shiftr x 11) (S754_finite false (2 ^ 52) (-105)))
    as [Hm Hbox]; [done|by exists (-105)|].
  split; [done|].
  change (dmag (S754_finite false (2 ^ 52) (-105))) with (2 ^ 1021) in Hm.
  apply (Z.mul_cancel_r _ _ (2 ^ 1074)); [lia|]. rewrite Hm. ring.
Qed.

(** A product with a deviate below 1 stays below the other factor, rounding
    included. *)
Lemma scaled_below max k v :
  0 <= k < 2 ^ 53 -> 0 < max ->
  near (v * 2 ^ 1074) (max * 2 ^ 1074 * (k * 2 ^ 1021)) ->
  v < max * 2 ^ 1074.
Proof.
  intros Hk Hm Hn. replace (max * 2 ^ 1074 * (k * 2 ^ 1021))
    with ((max * k * 2 ^ 1021) * 2 ^ 1074) in Hn by ring.
  apply near_scale in Hn; [|lia]. unfold near in Hn.
  assert (v * 2 ^ 53 <= max * k * 2 ^ 1021 * (2 ^ 53 + 1)) by lia.
  assert (max * k * 2 ^ 1021 * (2 ^ 53 + 1) < max * 2 ^ 1074 * 2 ^ 53); [|lia].
  replace (2 ^ 1074) with (2 ^ 53 * 2 ^ 1021) by (rewrite <- Z.pow_add_r; done).
  generalize (Z.pow_pos_nonneg 2 1021). generalize (2 ^ 1021). intros u Hu.
  assert (max * k * (2 ^ 53 + 1) < max * (2 ^ 53 * 2 ^ 53)) by nia. nia.
Qed.

Lemma get_random_below max : 0 < max < 2 ^ 53 ->
  returns (get_random max) (fun r => 0 <= r < max).
Proof.
  intros Hmax. eapply returns_bind; [apply genrand64_real2_spec|].
  intros r (k & Hk & Hbox & Hr). apply returns_ret.
  destruct (dmul_spec 53 600 (d_of_Z max) r) as [Hb Hn];
    [apply d_of_Z_box; lia|done|lia..|].
  rewrite (d_to_Z_spec _ _ Hb). rewrite d_of_Z_mag, Hr in Hn by lia.
  apply scaled_below in Hn; [|done|lia].
  pose proof (dmag_nonneg (dmul (d_of_Z max) r)).
  split; [apply Z.div_pos; lia|apply Z.div_lt_upper_bound; lia].
Qed.

Lemma get_random_zero g : (get_random 0 g).1 = 0.
Proof.
  unfold get_random. rewrite bind_unfold. cbn [mret rngM_ret fst].
  destruct (genrand64_real2_spec g) as (k & _ & Hbox & _).
  destruct ((genrand64_real2 g).1) as [[]|[]| |[] m e]; try done.
Qed.

Lemma consumes_genrand : consumes genrand64_real2 1.
Proof. unfold genrand64_real2. count_draws. Qed.
#[export] Hint Resolve consumes_genrand : draws.

Lemma consumes_get_random max : consumes (get_random max) 1.
Proof. unfold get_random. count_draws. Qed.

Lemma consumes_get_percentage : consumes get_percentage 1.
Proof. unfold get_percentage. count_draws. Qed.
#[export] Hint Resolve consumes_get_random consumes_get_percentage : draws.

Lemma consumes_get_nurand a x y : consumes (get_nurand a x y) 2.
Proof. unfold get_nurand. count_draws. Qed.
#[export] Hint Resolve consumes_get_nurand : draws.

Lemma get_percentage_spec :
  returns get_percentage (fun p => dbox 700 p /\ 0 <= dmag p <= 2 ^ 1074).
Proof.
  eapply returns_bind; [apply returns_draw|]. intros x Hx. apply returns_ret.
  pose proof (draw53_range x Hx) as Hk.
  set (c := ddiv (d_of_Z 1) (d_of_Z 9007199254740991)).
  assert (Hc : c = S754_finite false (2 ^ 52 + 1)%positive (-105)) by by vm_compute.
  destruct (dmul_spec 53 600 (d_of_Z (Z.shiftr x 11)) c) as [Hb Hn];
    [by apply d_of_Z_box|rewrite Hc; by vm_compute|lia..|].
  split; [eapply dbox_mono; [|exact Hb]; lia|].
  split; [apply dmag_nonneg|].
  rewrite Hc in *. rewrite d_of_Z_mag in Hn by done.
  change (dmag (S754_finite false (2 ^ 52 + 1) (-105))) with ((2 ^ 52 + 1) * 2 ^ 969) in Hn.
  replace (Z.shiftr x 11 * 2 ^ 1074 * ((2 ^ 52 + 1) * 2 ^ 969))
    with ((Z.shiftr x 11 * (2 ^ 52 + 1) * 2 ^ 969) * 2 ^ 1074) in Hn by ring.
  apply near_scale in Hn; [|lia].
  assert (Hmax : Z.shiftr x 11 * (2 ^ 52 + 1) * 2 ^ 969 <= 2 ^ 1074 + 2 ^ 1021 - 2 ^ 969) by nia.
  destruct (Z.le_gt_cases (dmag (dmul (d_of_Z (Z.shiftr x 11))
    (S754_finite false (2 ^ 52 + 1) (-105)))) (2 ^ 1074)) as [|Hgt]; [done|exfalso].
  apply (fun H => dbox_above_one _ _ H Hb) in Hgt; [|lia].
  unfold near in Hn. lia.
Qed.

Lemma get_random_range max : 0 < max < 2 ^ 31 ->
  returns (get_random max) (fun r => 0 <= r < max /\ i32 r = r).
Proof.
  intros H. eapply returns_impl; [apply get_random_below; lia|].
  intros r Hr. split; [done|]. apply i32_small. simpl in *. lia.
Qed.

Lemma nurand_range a x y :
  0 <= a < 2 ^ 31 - 1 -> 0 <= x -> x <= y < 2 ^ 31 - 1 ->
  returns (get_nurand a x y) (fun r => x <= r <= y).
Proof.
  intros Ha Hx Hy. unfold get_nurand.
  eapply returns_bind; [apply get_random_below; lia|]. intros r1 H1.
  eapply returns_bind; [apply get_random_below; lia|]. intros r2 H2.
  apply returns_ret. cbn beta in *.
  assert (Hor : 0 <= Z.lor r1 (x + r2)) by (apply Z.lor_nonneg; lia).
  pose proof (Z.rem_bound_pos _ (y - x + 1) Hor ltac:(lia)).
  generalize dependent (Z.rem (Z.lor r1 (x + r2)) (y - x + 1)). intros q Hq.
  rewrite i32_small; lia.
Qed.

(** ** Random strings *)

Lemma at_index_Forall {A} (P : A -> Prop) d l i :
  Forall P l -> 0 <= i < zlen l -> P (at_index d l i).
Proof.
  intros Hl Hi. unfold at_index, zlen in *. rewrite Forall_forall in Hl.
  apply Hl. apply list_elem_of_In, nth_In. lia.
Qed.

(** A code point that the output format carries unchanged. *)
Definition plain_char (c : Z) : Prop := 0 < c < 65536 /\ plain_byte c = true.

#[global] Instance plain_char_dec c : Decision (plain_char c).
Proof. unfold plain_char. apply _. Defined.

Lemma a_string_char_plain : Forall plain_char a_string_char.
Proof. by apply (bool_decide_unpack _). Qed.

Lemma l_string_char_plain : Forall plain_char l_string_char.
Proof. by apply (bool_decide_unpack _). Qed.

Lemma n_string_char_plain : Forall plain_char n_string_char.
Proof. by apply (bool_decide_unpack _). Qed.

(** The result of the string generators: length and alphabet. *)
Definition good_string (x y : Z) (alphabet s : list Z) : Prop :=
  x <= zlen s <= y /\ Forall (fun c => c ∈ alphabet) s.

Lemma at_index_in (l : list Z) i : 0 <= i < zlen l -> at_index 0 l i ∈ l.
Proof.
  intros Hi. apply (at_index_Forall (fun c => c ∈ l)); [|done]. by apply Forall_forall.
Qed.

(** The three generators share their shape. *)
Lemma random_string_spec alphabet (f : Z -> Z) x y :
  0 <= x <= y -> y < 2 ^ 31 - 1 -> 0 < zlen alphabet < 2 ^ 31 ->
  (forall r, 0 <= r < zlen alphabet -> f r = r) ->
  returns (with_local_rng (
    r ← get_random (i32 (y - x + 1));
    let length := x + i32 r + 1 in
    repeatM (Z.to_nat (length - 1))
      (c ← get_random (zlen alphabet); mret (at_index 0 alphabet (f c)))))
    (good_string x y alphabet).
Proof.
  intros Hx Hy Ha Hf. apply returns_with_local. rewrite i32_small by lia.
  eapply returns_bind; [apply get_random_range; lia|].
  intros r [Hr Hr32]. cbn zeta. rewrite Hr32.
  eapply returns_impl; [apply returns_repeatM|].
  - eapply returns_bind; [apply get_random_below; lia|].
    intros c Hc. cbn beta in Hc. apply returns_ret.
    instantiate (1 := fun c => c ∈ alphabet). cbn beta. rewrite Hf by done.
    by apply at_index_in.
  - intros s [Hl Hs]. split; [|done]. unfold zlen. lia.
Qed.

Lemma get_a_string_spec x y : 0 <= x <= y -> y < 2 ^ 31 - 1 ->
  returns (get_a_string x y) (good_string x y a_string_char).
Proof. intros. by apply (random_string_spec a_string_char (fun c => c)). Qed.

Lemma i32_alphabet (l : list Z) r : zlen l < 2 ^ 31 -> 0 <= r < zlen l -> i32 r = r.
Proof. intros. apply i32_small. lia. Qed.

Lemma get_l_string_spec x y : 0 <= x <= y -> y < 2 ^ 31 - 1 ->
  returns (get_l_string x y) (good_string x y l_string_char).
Proof.
  intros. apply (random_string_spec l_string_char i32); [done..|].
  intros r. by apply i32_alphabet.
Qed.

Lemma get_n_string_spec x y : 0 <= x <= y -> y < 2 ^ 31 - 1 ->
  returns (get_n_string x y) (good_string x y n_string_char).
Proof.
  intros. apply (random_string_spec n_string_char i32); [done..|].
  intros r. by apply i32_alphabet.
Qed.

Lemma consumes_get_a_string x y : consumes (get_a_string x y) 1.
Proof. apply consumes_with_local. Qed.
Lemma consumes_get_l_string x y : consumes (get_l_string x y) 1.
Proof. apply consumes_with_local. Qed.
Lemma consumes_get_n_string x y : consumes (get_n_string x y) 1.
Proof. apply consumes_with_local. Qed.
#[export] Hint Resolve consumes_get_a_string consumes_get_l_string
  consumes_get_n_string : draws.

Lemma good_string_plain x y alphabet s :
  Forall plain_char alphabet -> good_string x y alphabet s -> Forall plain_char s.
Proof.
  intros Ha [_ Hs]. rewrite Forall_forall in Ha.
  eapply Forall_impl; [exact Hs|]. simpl. auto.
Qed.

(** Encoding a plain string: nothing is cut off when the buffer holds three
    bytes per character, and the bytes are plain. *)
Lemma wcstombs_plain_char s n : Forall plain_char s -> 3 * zlen s <= n ->
  wcstombs s n = flat_map utf8 s.
Proof.
  intros Hs. apply wcstombs_fits. eapply Forall_impl; [exact Hs|].
  unfold plain_char. intros c Hc. simpl. lia.
Qed.

Lemma plain_wcstombs_char s n : Forall plain_char s -> plain (wcstombs s n).
Proof.
  intros Hs. apply plain_wcstombs. eapply Forall_impl; [exact Hs|].
  unfold plain_char. intros c [? Hc]. split; [lia|done].
Qed.

(** ** Customer last names *)

(** All names, by number. *)
Definition all_c_last : list (list Z) := map (fun i => (get_c_last i).2) (zrange 0 1000).

Lemma all_c_last_NoDup : NoDup all_c_last.
Proof. by apply (bool_decide_unpack _); vm_compute. Qed.

Lemma all_c_last_plain :
  Forall (fun s => zlen s <= 15 /\ Forall plain_char s) all_c_last.
Proof. by apply (bool_decide_unpack _); vm_compute. Qed.

Lemma all_c_last_lookup i : 0 <= i <= 999 ->
  all_c_last !! Z.to_nat i = Some (get_c_last i).2.
Proof.
  intros Hi. unfold all_c_last, zrange. rewrite list_lookup_fmap.
  rewrite lookup_seqZ_lt by lia. simpl. f_equal. f_equal. f_equal. lia.
Qed.

(** ** Properties of the helpers *)

(** [get_random(rng, max)] returns a number from [0] up to but excluding
    [max], although the product is rounded to a double before truncation. *)
Lemma get_random_in_range max g :
  0 < max < 2 ^ 53 -> 0 <= (get_random max g).1 < max.
Proof. intros H. by apply get_random_below. Qed.

(** NURand(A, x, y) stays within [x] to [y]. *)
Theorem get_nurand_in_range a x y g :
  0 <= a < 2 ^ 31 - 1 -> 0 <= x -> x <= y < 2 ^ 31 - 1 ->
  x <= (get_nurand a x y g).1 <= y.
Proof. intros Ha Hx Hy. by apply nurand_range. Qed.

Lemma get_nurand_in_range_witness :
  1 <= (get_nurand 8191 1 100000 (pcg64f_srandom_r 42)).1 <= 100000.
Proof. apply get_nurand_in_range; lia. Defined.

(** [get_a_string(rng, a_string, x, y)] writes between [x] and [y] characters
    of the 128 character set and a terminating NUL, takes one draw from the
    caller's generator, and its UTF-8 form has no byte that COPY treats
    specially; 3 bytes per character hold it. *)
Theorem get_a_string_correct x y g :
  0 <= x <= y -> y < 2 ^ 31 - 1 ->
  let s := (get_a_string x y g).1 in
  x <= zlen s <= y /\ Forall (fun c => c ∈ a_string_char) s /\
  (get_a_string x y g).2 = pcg_skip 1 g /\
  (forall n, 3 * y <= n -> wcstombs s n = flat_map utf8 s /\ plain (wcstombs s n)).
Proof.
  intros Hx Hy s. pose proof (get_a_string_spec x y Hx Hy g) as Hs.
  pose proof (good_string_plain _ _ _ _ a_string_char_plain Hs) as Hp.
  destruct Hs as [Hl Hs]. do 3 (split; [done|]).
  intros n Hn. split; [|by apply plain_wcstombs_char].
  apply wcstombs_plain_char; [done|]. subst s. lia.
Qed.

Lemma get_a_string_correct_witness :
  let s := (get_a_string 300 500 (pcg64f_srandom_r 1)).1 in
  300 <= zlen s <= 500 /\ Forall (fun c => c ∈ a_string_char) s /\
  (get_a_string 300 500 (pcg64f_srandom_r 1)).2 = pcg_skip 1 (pcg64f_srandom_r 1) /\
  (forall n, 3 * 500 <= n -> wcstombs s n = flat_map utf8 s /\ plain (wcstombs s n)).
Proof. apply get_a_string_correct; lia. Defined.

(** [get_c_last] fails exactly outside 0..999; inside it produces pairwise
    different names of at most 15 characters, so that [c_last\[C_LAST_LEN + 1\]]
    holds each of them with its NUL. *)
Theorem get_c_last_correct i :
  ((get_c_last i).1 = OK <-> 0 <= i <= 999) /\
  (0 <= i <= 999 ->
     zlen (get_c_last i).2 + 1 <= C_LAST_LEN + 1 /\
     forall j, 0 <= j <= 999 -> (get_c_last j).2 = (get_c_last i).2 -> j = i).
Proof.
  split.
  - unfold get_c_last. destruct (Z.ltb_spec i 0), (Z.gtb_spec i 999); simpl;
      unfold OK, ERROR; split; lia || done.
  - intros Hi. pose proof (all_c_last_lookup i Hi) as Hli. split.
    + pose proof all_c_last_plain as Hp. rewrite Forall_lookup in Hp.
      destruct (Hp _ _ Hli) as [Hlen _]. unfold C_LAST_LEN. lia.
    + intros j Hj Heq. pose proof (all_c_last_lookup j Hj) as Hlj. rewrite Heq in Hlj.
      pose proof (NoDup_lookup _ _ _ _ all_c_last_NoDup Hli Hlj). lia.
Qed.

Lemma get_c_last_correct_example :
  get_c_last 371 = (OK, lit "PRICALLYOUGHT") /\ get_c_last 5 = (OK, lit "BARBARESE").
Proof. by vm_compute. Qed.

(** ** Byte order *)

(** Little- and big-endian values of four and eight bytes. *)
Definition le32 (b0 b1 b2 b3 : Z) : Z := b0 + b1 * 2 ^ 8 + b2 * 2 ^ 16 + b3 * 2 ^ 24.
Definition be32 (b0 b1 b2 b3 : Z) : Z := b0 * 2 ^ 24 + b1 * 2 ^ 16 + b2 * 2 ^ 8 + b3.

Definition byte_value (b : Z) : Prop := 0 <= b < 256.

Lemma bswap32_le32 b0 b1 b2 b3 :
  byte_value b0 -> byte_value b1 -> byte_value b2 -> byte_value b3 ->
  bswap32 (le32 b0 b1 b2 b3) = be32 b0 b1 b2 b3.
Proof.
  unfold byte_value, bswap32, le32, be32. intros.
  replace ((b0 + b1 * 2 ^ 8 + b2 * 2 ^ 16 + b3 * 2 ^ 24) / 2 ^ 8)
    with (b1 + (b2 + b3 * 2 ^ 8) * 2 ^ 8) by dlia.
  replace ((b0 + b1 * 2 ^ 8 + b2 * 2 ^ 16 + b3 * 2 ^ 24) / 2 ^ 16)
    with (b2 + b3 * 2 ^ 8) by dlia.
  replace ((b0 + b1 * 2 ^ 8 + b2 * 2 ^ 16 + b3 * 2 ^ 24) / 2 ^ 24) with b3 by dlia.
  dlia.
Qed.

Lemma le32_range b0 b1 b2 b3 :
  byte_value b0 -> byte_value b1 -> byte_value b2 -> byte_value b3 ->
  0 <= le32 b0 b1 b2 b3 < 2 ^ 32 /\ 0 <= be32 b0 b1 b2 b3 < 2 ^ 32.
Proof. unfold byte_value, le32, be32. lia. Qed.

(** The two halves that [ntohll] takes of a signed 64 bit word. *)
Lemma ntohll_halves lo hi :
  0 <= lo < 2 ^ 32 -> 0 <= hi < 2 ^ 32 ->
  let x := i64 (lo + hi * 2 ^ 32) in
  i32 (Z.shiftr (i64 (Z.shiftl x 32)) 32) mod 2 ^ 32 = lo /\
  i32 (Z.shiftr x 32) mod 2 ^ 32 = hi.
Proof.
  intros Hlo Hhi x. rewrite !Z.shiftr_div_pow2, Z.shiftl_mul_pow2 by lia.
  unfold x, i64, i32. split; dlia.
Qed.

Lemma lor_shifted a b : 0 <= a < 2 ^ 32 -> 0 <= b < 2 ^ 32 ->
  u64 (Z.lor (i64 (Z.shiftl a 32)) b) = a * 2 ^ 32 + b.
Proof.
  intros Ha Hb. 
  assert (Hi : exists k, i64 (Z.shiftl a 32) = (a + k * 2 ^ 32) * 2 ^ 32).
  { rewrite Z.shiftl_mul_pow2 by lia. unfold i64.
    exists (- ((a * 2 ^ 32 + 2 ^ 63) / 2 ^ 64)). dlia. }
  destruct Hi as [k ->]. rewrite <- Z.shiftl_mul_pow2 by lia.
  assert (Hl : Z.lor (Z.shiftl (a + k * 2 ^ 32) 32) b = Z.shiftl (a + k * 2 ^ 32) 32 + b).
  { assert (Hland : Z.land (Z.shiftl (a + k * 2 ^ 32) 32) b = 0).
    2: { pose proof (Z.add_lor_land (Z.shiftl (a + k * 2 ^ 32) 32) b). lia. }
    apply Z.bits_inj'. intros n Hn.
    rewrite Z.land_spec, Z.bits_0. destruct (Z.lt_ge_cases n 32).
    - by rewrite Z.shiftl_spec_low.
    - replace b with (b mod 2 ^ 32) by (apply Z.mod_small; lia).
      rewrite Z.mod_pow2_bits_high by lia. apply andb_false_r. }
  rewrite Hl, Z.shiftl_mul_pow2 by lia. unfold u64. dlia.
Qed.

(** On a little-endian host [ntohll] reverses the eight bytes of its argument:
    read from memory as a signed word, eight bytes in network order become the
    number they stand for.  On a big-endian host it is the identity. *)
Theorem ntohll_correct b0 b1 b2 b3 b4 b5 b6 b7 :
  Forall byte_value [b0; b1; b2; b3; b4; b5; b6; b7] ->
  ntohll false (i64 (le32 b0 b1 b2 b3 + le32 b4 b5 b6 b7 * 2 ^ 32))
    = be32 b0 b1 b2 b3 * 2 ^ 32 + be32 b4 b5 b6 b7 /\
  ntohll true (i64 (be32 b4 b5 b6 b7 + be32 b0 b1 b2 b3 * 2 ^ 32))
    = be32 b0 b1 b2 b3 * 2 ^ 32 + be32 b4 b5 b6 b7.
Proof.
  rewrite !Forall_cons. intros (H0 & H1 & H2 & H3 & H4 & H5 & H6 & H7 & _).
  destruct (le32_range b0 b1 b2 b3) as [HL HB]; [done..|].
  destruct (le32_range b4 b5 b6 b7) as [HL' HB']; [done..|].
  split.
  - unfold ntohll. change (ntohl false 1 =? 1) with false. cbn iota.
    destruct (ntohll_halves (le32 b0 b1 b2 b3) (le32 b4 b5 b6 b7) HL HL') as [E1 E2].
    unfold ntohl. rewrite E1, E2, !bswap32_le32 by done. by apply lor_shifted.
  - unfold ntohll. change (ntohl true 1 =? 1) with true. cbn iota.
    unfold u64, i64. dlia.
Qed.

Lemma ntohll_correct_witness :
  ntohll false (i64 (le32 255 1 2 3 + le32 4 5 6 200 * 2 ^ 32))
    = be32 255 1 2 3 * 2 ^ 32 + be32 4 5 6 200 /\
  ntohll true (i64 (be32 4 5 6 200 + be32 255 1 2 3 * 2 ^ 32))
    = be32 255 1 2 3 * 2 ^ 32 + be32 4 5 6 200.
Proof. apply ntohll_correct. repeat constructor; lia. Defined.
