(* ===== verification/TxnData.v ===== *)
(** * Transaction data ([src/include/transaction_data.h])

    The structures that travel between the driver, the client and the database
    back ends.  Character arrays hold their content up to the NUL. *)

From Stdlib Require Import ZArith SpecFloat.
From stdpp Require Import base list.
From S2P Require Import Prelude Double Common.

(** The sizes of the character arrays ([src/include/common.h]). *)
Module Size.
Definition TIMESTAMP_LEN : Z := 28.
Definition D_CITY_LEN : Z := 80.
Definition D_NAME_LEN : Z := 40.
Definition D_STATE_LEN : Z := 8.
Definition D_STREET_1_LEN : Z := 80.
Definition D_STREET_2_LEN : Z := 80.
Definition D_ZIP_LEN : Z := 9.
Definition C_CREDIT_LEN : Z := 2.
Definition C_DATA_LEN : Z := 2000.
Definition C_FIRST_LEN : Z := 64.
Definition C_LAST_LEN : Z := 16.
Definition C_MIDDLE_LEN : Z := 2.
Definition C_STREET_1_LEN : Z := 80.
Definition C_STREET_2_LEN : Z := 80.
Definition C_CITY_LEN : Z := 80.
Definition C_PHONE_LEN : Z := 16.
Definition C_SINCE_LEN : Z := TIMESTAMP_LEN.
Definition C_STATE_LEN : Z := 8.
Definition C_ZIP_LEN : Z := 9.
Definition I_NAME_LEN : Z := 96.
Definition O_ENTRY_D_LEN : Z := TIMESTAMP_LEN.
Definition OL_DELIVERY_D_LEN : Z := TIMESTAMP_LEN.
Definition W_CITY_LEN : Z := 80.
Definition W_NAME_LEN : Z := 40.
Definition W_STATE_LEN : Z := 8.
Definition W_STREET_1_LEN : Z := 80.
Definition W_STREET_2_LEN : Z := 80.
Definition W_ZIP_LEN : Z := 9.
(** of numbers as text *)
Definition D_ID_LEN : Z := 10.
Definition C_ID_LEN : Z := 10.
Definition I_ID_LEN : Z := 10.
Definition I_DATA_LEN : Z := 50.
Definition I_PRICE_LEN : Z := 63.
Definition H_AMOUNT_LEN : Z := 63.
Definition O_ID_LEN : Z := 10.
Definition O_CARRIER_ID_LEN : Z := 10.
Definition O_ALL_LOCAL_LEN : Z := 2.
Definition O_OL_CNT_LEN : Z := 3.
Definition OL_O_ID_LEN : Z := 10.
Definition OL_QUANTITY_LEN : Z := 10.
Definition OL_AMOUNT_LEN : Z := 63.
Definition S_DIST_LEN : Z := 15.
Definition W_ID_LEN : Z := 10.
Definition THRESHOLD_LEN : Z := 10.
End Size.

Definition d_zero : double := S754_zero false.

(** [struct delivery_t] *)
Record delivery_t := mk_delivery { dl_w_id : Z; dl_o_carrier_id : Z }.

(** [struct no_order_line_t] *)
Record no_order_line_t := mk_no_order_line {
  ol_i_id : Z; ol_supply_w_id : Z; ol_quantity : Z; ol_amount : double;
  s_quantity : Z; brand_generic : Z; i_name : bytes; i_price : double }.

(** [struct new_order_t]: input data, then output data. *)
Record new_order_t := mk_new_order {
  no_w_id : Z; no_d_id : Z; no_c_id : Z; no_o_ol_cnt : Z; no_o_all_local : Z;
  no_order_line : list no_order_line_t;
  no_o_id : Z; no_total_amount : double; no_w_tax : double; no_d_tax : double;
  no_c_last : bytes; no_c_credit : bytes; no_c_discount : double; no_rollback : Z }.

(** [struct payment_t] *)
Record payment_t := mk_payment {
  pa_c_d_id : Z; pa_c_w_id : Z; pa_d_id : Z; pa_h_amount : double; pa_w_id : Z;
  pa_c_id : Z; pa_c_last : list Z;
  pa_d_name : bytes; pa_d_street_1 : bytes; pa_d_street_2 : bytes; pa_d_city : bytes;
  pa_d_state : bytes; pa_d_zip : bytes;
  pa_c_balance : double; pa_c_credit_lim : double; pa_c_discount : double;
  pa_c_data : bytes; pa_c_first : bytes; pa_c_middle : bytes; pa_c_street_1 : bytes;
  pa_c_street_2 : bytes; pa_c_city : bytes; pa_c_state : bytes; pa_c_zip : bytes;
  pa_c_phone : bytes; pa_c_since : bytes; pa_c_credit : bytes; pa_h_date : bytes;
  pa_w_name : bytes; pa_w_street_1 : bytes; pa_w_street_2 : bytes; pa_w_city : bytes;
  pa_w_state : bytes; pa_w_zip : bytes }.

(** [struct os_order_line_t] *)
Record os_order_line_t := mk_os_order_line {
  osl_i_id : Z; osl_supply_w_id : Z; osl_quantity : Z; osl_amount : double;
  osl_delivery_d : bytes }.

(** [struct order_status_t] *)
Record order_status_t := mk_order_status {
  os_c_d_id : Z; os_c_w_id : Z; os_c_id : Z; os_c_last : list Z;
  os_c_balance : double; os_c_first : bytes; os_c_middle : bytes; os_o_id : Z;
  os_o_carrier_id : Z; os_o_entry_d : bytes; os_o_ol_cnt : Z;
  os_order_line : list os_order_line_t }.

(** [struct stock_level_t] *)
Record stock_level_t := mk_stock_level {
  sl_w_id : Z; sl_d_id : Z; sl_threshold : Z; sl_low_stock : Z }.

(** [struct integrity_t] *)
Record integrity_t := mk_integrity { it_w_id : Z }.

(** [union transaction_data_t]: the member that was written last. *)
Inductive transaction_data_t :=
  | TD_delivery (d : delivery_t)
  | TD_new_order (d : new_order_t)
  | TD_order_status (d : order_status_t)
  | TD_payment (d : payment_t)
  | TD_stock_level (d : stock_level_t)
  | TD_integrity (d : integrity_t).

(** What [memset(data, 0, sizeof *data)] leaves. *)
Definition zero_no_order_line : no_order_line_t :=
  mk_no_order_line 0 0 0 d_zero 0 0 [] d_zero.

Definition zero_new_order : new_order_t :=
  mk_new_order 0 0 0 0 0 (replicate 15 zero_no_order_line)
    0 d_zero d_zero d_zero [] [] d_zero 0.

Definition zero_payment : payment_t :=
  mk_payment 0 0 0 d_zero 0 0 [] [] [] [] [] [] [] d_zero d_zero d_zero
    [] [] [] [] [] [] [] [] [] [] [] [] [] [] [] [] [] [].

Definition zero_os_order_line : os_order_line_t := mk_os_order_line 0 0 0 d_zero [].

Definition zero_order_status : order_status_t :=
  mk_order_status 0 0 0 [] d_zero [] [] 0 0 [] 0 (replicate 15 zero_os_order_line).

Definition zero_stock_level : stock_level_t := mk_stock_level 0 0 0 0.

(** Assignments to the output data of a New-Order. *)
Definition set_no_output (d : new_order_t) (lines : list no_order_line_t) (o_id : Z)
    (total w_tax d_tax : double) (c_last c_credit : bytes) (c_discount : double) (rollback : Z)
  : new_order_t :=
  mk_new_order (no_w_id d) (no_d_id d) (no_c_id d) (no_o_ol_cnt d) (no_o_all_local d) lines o_id
    total w_tax d_tax c_last c_credit c_discount rollback.

Definition set_no_w_tax (v : double) (d : new_order_t) : new_order_t :=
  set_no_output d (no_order_line d) (no_o_id d) (no_total_amount d) v (no_d_tax d) (no_c_last d)
    (no_c_credit d) (no_c_discount d) (no_rollback d).
Definition set_no_district (d_tax : double) (o_id : Z) (d : new_order_t) : new_order_t :=
  set_no_output d (no_order_line d) o_id (no_total_amount d) (no_w_tax d) d_tax (no_c_last d)
    (no_c_credit d) (no_c_discount d) (no_rollback d).
Definition set_no_customer (c_discount : double) (c_last c_credit : bytes) (d : new_order_t)
  : new_order_t :=
  set_no_output d (no_order_line d) (no_o_id d) (no_total_amount d) (no_w_tax d) (no_d_tax d)
    c_last c_credit c_discount (no_rollback d).
Definition set_no_line (i : nat) (l : no_order_line_t) (d : new_order_t) : new_order_t :=
  set_no_output d (<[i := l]> (no_order_line d)) (no_o_id d) (no_total_amount d) (no_w_tax d)
    (no_d_tax d) (no_c_last d) (no_c_credit d) (no_c_discount d) (no_rollback d).
Definition set_no_total (v : double) (d : new_order_t) : new_order_t :=
  set_no_output d (no_order_line d) (no_o_id d) v (no_w_tax d) (no_d_tax d) (no_c_last d)
    (no_c_credit d) (no_c_discount d) (no_rollback d).
Definition set_no_rollback (v : Z) (d : new_order_t) : new_order_t :=
  set_no_output d (no_order_line d) (no_o_id d) (no_total_amount d) (no_w_tax d) (no_d_tax d)
    (no_c_last d) (no_c_credit d) (no_c_discount d) v.

(** The same for an order line. *)
Definition set_ol_item (i_name : bytes) (i_price ol_amount : double) (l : no_order_line_t)
  : no_order_line_t :=
  mk_no_order_line (ol_i_id l) (ol_supply_w_id l) (ol_quantity l) ol_amount (s_quantity l)
    (brand_generic l) i_name i_price.
Definition set_ol_stock (s_quantity brand : Z) (l : no_order_line_t) : no_order_line_t :=
  mk_no_order_line (ol_i_id l) (ol_supply_w_id l) (ol_quantity l) (ol_amount l) s_quantity brand
    (i_name l) (i_price l).

(** And for a Payment. *)
Definition set_pa_warehouse (w_name w_street_1 w_street_2 w_city w_state w_zip : bytes)
    (d : payment_t) : payment_t :=
  mk_payment (pa_c_d_id d) (pa_c_w_id d) (pa_d_id d) (pa_h_amount d) (pa_w_id d) (pa_c_id d)
    (pa_c_last d) (pa_d_name d) (pa_d_street_1 d) (pa_d_street_2 d) (pa_d_city d) (pa_d_state d)
    (pa_d_zip d) (pa_c_balance d) (pa_c_credit_lim d) (pa_c_discount d) (pa_c_data d)
    (pa_c_first d) (pa_c_middle d) (pa_c_street_1 d) (pa_c_street_2 d) (pa_c_city d)
    (pa_c_state d) (pa_c_zip d) (pa_c_phone d) (pa_c_since d) (pa_c_credit d) (pa_h_date d)
    w_name w_street_1 w_street_2 w_city w_state w_zip.
Definition set_pa_district (d_name d_street_1 d_street_2 d_city d_state d_zip : bytes)
    (d : payment_t) : payment_t :=
  mk_payment (pa_c_d_id d) (pa_c_w_id d) (pa_d_id d) (pa_h_amount d) (pa_w_id d) (pa_c_id d)
    (pa_c_last d) d_name d_street_1 d_street_2 d_city d_state d_zip (pa_c_balance d)
    (pa_c_credit_lim d) (pa_c_discount d) (pa_c_data d) (pa_c_first d) (pa_c_middle d)
    (pa_c_street_1 d) (pa_c_street_2 d) (pa_c_city d) (pa_c_state d) (pa_c_zip d) (pa_c_phone d)
    (pa_c_since d) (pa_c_credit d) (pa_h_date d) (pa_w_name d) (pa_w_street_1 d)
    (pa_w_street_2 d) (pa_w_city d) (pa_w_state d) (pa_w_zip d).
Definition set_pa_customer (c_id : Z) (c_first c_middle : bytes) (c_last : list Z)
    (c_street_1 c_street_2 c_city c_state c_zip c_phone c_since c_credit : bytes)
    (c_credit_lim c_discount c_balance : double) (d : payment_t) : payment_t :=
  mk_payment (pa_c_d_id d) (pa_c_w_id d) (pa_d_id d) (pa_h_amount d) (pa_w_id d) c_id c_last
    (pa_d_name d) (pa_d_street_1 d) (pa_d_street_2 d) (pa_d_city d) (pa_d_state d) (pa_d_zip d)
    c_balance c_credit_lim c_discount (pa_c_data d) c_first c_middle c_street_1 c_street_2 c_city
    c_state c_zip c_phone c_since c_credit (pa_h_date d) (pa_w_name d) (pa_w_street_1 d)
    (pa_w_street_2 d) (pa_w_city d) (pa_w_state d) (pa_w_zip d).
Definition set_pa_result (c_data h_date : bytes) (d : payment_t) : payment_t :=
  mk_payment (pa_c_d_id d) (pa_c_w_id d) (pa_d_id d) (pa_h_amount d) (pa_w_id d) (pa_c_id d)
    (pa_c_last d) (pa_d_name d) (pa_d_street_1 d) (pa_d_street_2 d) (pa_d_city d) (pa_d_state d)
    (pa_d_zip d) (pa_c_balance d) (pa_c_credit_lim d) (pa_c_discount d) c_data (pa_c_first d)
    (pa_c_middle d) (pa_c_street_1 d) (pa_c_street_2 d) (pa_c_city d) (pa_c_state d) (pa_c_zip d)
    (pa_c_phone d) (pa_c_since d) (pa_c_credit d) h_date (pa_w_name d) (pa_w_street_1 d)
    (pa_w_street_2 d) (pa_w_city d) (pa_w_state d) (pa_w_zip d).

(** And for an Order-Status. *)
Definition set_os_c_id (v : Z) (d : order_status_t) : order_status_t :=
  mk_order_status (os_c_d_id d) (os_c_w_id d) v (os_c_last d) (os_c_balance d) (os_c_first d)
    (os_c_middle d) (os_o_id d) (os_o_carrier_id d) (os_o_entry_d d) (os_o_ol_cnt d)
    (os_order_line d).
Definition set_os_customer (c_first c_middle : bytes) (c_last : list Z) (c_balance : double)
    (d : order_status_t) : order_status_t :=
  mk_order_status (os_c_d_id d) (os_c_w_id d) (os_c_id d) c_last c_balance c_first c_middle
    (os_o_id d) (os_o_carrier_id d) (os_o_entry_d d) (os_o_ol_cnt d) (os_order_line d).
Definition set_os_order (o_id o_carrier_id : Z) (o_entry_d : bytes) (d : order_status_t)
  : order_status_t :=
  mk_order_status (os_c_d_id d) (os_c_w_id d) (os_c_id d) (os_c_last d) (os_c_balance d)
    (os_c_first d) (os_c_middle d) o_id o_carrier_id o_entry_d (os_o_ol_cnt d) (os_order_line d).
Definition set_os_lines (o_ol_cnt : Z) (lines : list os_order_line_t) (d : order_status_t)
  : order_status_t :=
  mk_order_status (os_c_d_id d) (os_c_w_id d) (os_c_id d) (os_c_last d) (os_c_balance d)
    (os_c_first d) (os_c_middle d) (os_o_id d) (os_o_carrier_id d) (os_o_entry_d d) o_ol_cnt
    lines.

(** [struct client_transaction_t] of [src/include/client_interface.h]: the
    message between the driver and the client. *)
Record client_transaction_t := mk_client_transaction {
  status : Z; transaction : Z; transaction_data : transaction_data_t }.
