(* ===== verification/InputData.v ===== *)
(** * Input data of the transactions ([src/input_data_generator.c])

    One generator per transaction type, drawing from the terminal's random
    number generator, and what the data they produce satisfies. *)

From Stdlib Require Import ZArith Lia SpecFloat.
From stdpp Require Import base list.
From S2P Require Import Prelude Double Pcg Text Common TxnData.

(** The globals the generators read. *)
Record gen_env := mk_gen_env {
  mode_altered : Z;
  table_cardinality : table_cardinality_t }.

(** ** Generators *)

(** [x = r + 1; if (x >= w_id) ++x;] *)
Definition skip_home (w_id r : Z) : Z :=
  let w := i32 (r + 1) in if w >=? w_id then w + 1 else w.

Section generators.
Context (env : gen_env).

(** Clause 2.7.1 *)
Definition generate_delivery_data (w_id : Z) : rngM delivery_t :=
  r ← get_random O_CARRIER_ID_MAX;
  mret {| dl_w_id := w_id; dl_o_carrier_id := i32 r + 1 |}.

(** [get_random(rng, warehouses - 1) + 1], skipping over the home warehouse. *)
Definition other_warehouse (w_id : Z) : rngM Z :=
  r ← get_random (warehouses (table_cardinality env) - 1);
  mret (skip_home w_id r).

(** [ol_supply_w_id] of one order line; the short-circuit skips the draw in
    altered mode. *)
Definition supply_warehouse (w_id : Z) : rngM Z :=
  if warehouses (table_cardinality env) >? 1 then
    if mode_altered env =? 1 then mret w_id
    else
      r ← get_random 100;
      if r >? 0 then mret w_id else other_warehouse w_id
  else mret 1.

(** One round of the loop over the order lines. *)
Definition generate_order_line (w_id : Z) : rngM no_order_line_t :=
  i_id ← get_nurand 8191 1 (items (table_cardinality env));
  supply ← supply_warehouse w_id;
  q ← get_random 10;
  mret {| ol_i_id := i_id; ol_supply_w_id := supply; ol_quantity := i32 q + 1;
          ol_amount := d_zero; s_quantity := 0; brand_generic := 0;
          i_name := []; i_price := d_zero |}.

Definition clear_i_id (l : no_order_line_t) : no_order_line_t :=
  {| ol_i_id := 0; ol_supply_w_id := ol_supply_w_id l;
     ol_quantity := ol_quantity l; ol_amount := ol_amount l;
     s_quantity := s_quantity l; brand_generic := brand_generic l;
     i_name := i_name l; i_price := i_price l |}.

(** Clause 2.4.1 *)
Definition generate_new_order_data (w_id : Z) : rngM new_order_t :=
  d ← get_random D_ID_MAX;
  c_id ← get_nurand 1023 1 3000;
  n ← get_random 11;
  let o_ol_cnt := i32 n + 5 in
  lines ← repeatM (Z.to_nat o_ol_cnt) (generate_order_line w_id);
  bad ← get_random 100;
  let order_line :=
    lines ++ replicate (15 - Z.to_nat o_ol_cnt) zero_no_order_line in
  mret {| no_w_id := w_id; no_d_id := i32 (d + 1); no_c_id := c_id;
          no_o_ol_cnt := o_ol_cnt; no_o_all_local := 0;
          no_order_line :=
            if bad =? 0 then alter clear_i_id (Z.to_nat (o_ol_cnt - 1)) order_line
            else order_line;
          no_o_id := 0; no_total_amount := d_zero; no_w_tax := d_zero;
          no_d_tax := d_zero; no_c_last := []; no_c_credit := [];
          no_c_discount := d_zero; no_rollback := 0 |}.

(** 60% by last name, 40% by customer number: [c_id] and [c_last]. *)
Definition select_customer : rngM (Z * list Z) :=
  p ← get_random 100;
  if p <? 60 then
    i ← get_nurand 255 0 999;
    mret (C_ID_UNKNOWN, (get_c_last i).2)
  else
    c_id ← get_nurand 1023 1 3000;
    mret (c_id, []).

(** Clause 2.6.1 *)
Definition generate_order_status_data (w_id : Z) : rngM order_status_t :=
  d ← get_random D_ID_MAX;
  '(c_id, c_last) ← select_customer;
  mret {| os_c_d_id := i32 d + 1; os_c_w_id := w_id; os_c_id := c_id;
          os_c_last := c_last; os_c_balance := d_zero; os_c_first := [];
          os_c_middle := []; os_o_id := 0; os_o_carrier_id := 0;
          os_o_entry_d := []; os_o_ol_cnt := 0;
          os_order_line := replicate 15 zero_os_order_line |}.

(** Warehouse and district the paying customer belongs to. *)
Definition payment_customer_home (w_id d_id : Z) : rngM (Z * Z) :=
  home ← (if mode_altered env =? 1 then mret true
          else r ← get_random 100; mret (r <? 85));
  if (home : bool) then mret (w_id, d_id)
  else
    d ← get_random D_ID_MAX;
    if warehouses (table_cardinality env) >? 1 then
      w ← other_warehouse w_id;
      mret (w, i32 (d + 1))
    else mret (1, i32 (d + 1)).

(** Clause 2.5.1 *)
Definition generate_payment_data (w_id : Z) : rngM payment_t :=
  d ← get_random D_ID_MAX;
  let d_id := i32 d + 1 in
  '(c_id, c_last) ← select_customer;
  '(c_w_id, c_d_id) ← payment_customer_home w_id d_id;
  a ← get_random 499901;
  mret {| pa_c_d_id := c_d_id; pa_c_w_id := c_w_id; pa_d_id := d_id;
          pa_h_amount := ddiv (d_of_Z (a + 100)) (d_of_Z 100); pa_w_id := w_id;
          pa_c_id := c_id; pa_c_last := c_last;
          pa_d_name := []; pa_d_street_1 := []; pa_d_street_2 := [];
          pa_d_city := []; pa_d_state := []; pa_d_zip := [];
          pa_c_balance := d_zero; pa_c_credit_lim := d_zero;
          pa_c_discount := d_zero; pa_c_data := []; pa_c_first := [];
          pa_c_middle := []; pa_c_street_1 := []; pa_c_street_2 := [];
          pa_c_city := []; pa_c_state := []; pa_c_zip := []; pa_c_phone := [];
          pa_c_since := []; pa_c_credit := []; pa_h_date := []; pa_w_name := [];
          pa_w_street_1 := []; pa_w_street_2 := []; pa_w_city := [];
          pa_w_state := []; pa_w_zip := [] |}.

(** Clause 2.8.1 *)
Definition generate_stock_level_data (w_id d_id : Z) : rngM stock_level_t :=
  r ← get_random 11;
  mret {| sl_w_id := w_id; sl_d_id := d_id; sl_threshold := i32 r + 10;
          sl_low_stock := 0 |}.

Definition generate_integrity_data (w_id : Z) : integrity_t := {| it_w_id := w_id |}.

(** Every type except Stock-Level; the return code and the union. *)
Definition generate_input_data (type : Z) (data : transaction_data_t) (w_id : Z)
  : rngM (Z * transaction_data_t) :=
  if type =? DELIVERY then
    d ← generate_delivery_data w_id; mret (OK, TD_delivery d)
  else if type =? NEW_ORDER then
    d ← generate_new_order_data w_id; mret (OK, TD_new_order d)
  else if type =? ORDER_STATUS then
    d ← generate_order_status_data w_id; mret (OK, TD_order_status d)
  else if type =? PAYMENT then
    d ← generate_payment_data w_id; mret (OK, TD_payment d)
  else if type =? INTEGRITY then
    mret (OK, TD_integrity (generate_integrity_data w_id))
  else mret (ERROR, data).

Definition generate_input_data2 (type : Z) (data : transaction_data_t) (w_id d_id : Z)
  : rngM (Z * transaction_data_t) :=
  d ← generate_stock_level_data w_id d_id; mret (OK, TD_stock_level d).
End generators.

(** ** What the data satisfies *)

(** Cardinalities the driver accepts: positive, and far enough from
    [INT_MAX] that adding one does not overflow. *)
Definition env_ok (env : gen_env) : Prop :=
  1 <= warehouses (table_cardinality env) < 2 ^ 31 - 1 /\
  1 <= items (table_cardinality env) < 2 ^ 31 - 1.

Definition home_ok (env : gen_env) (w_id : Z) : Prop :=
  1 <= w_id <= warehouses (table_cardinality env).

(** A supplying warehouse exists, and only normal mode orders remotely. *)
Definition supply_ok (env : gen_env) (w_id w : Z) : Prop :=
  1 <= w <= warehouses (table_cardinality env) /\
  (mode_altered env = 1 -> w = w_id).

Definition line_ok (env : gen_env) (w_id : Z) (l : no_order_line_t) : Prop :=
  supply_ok env w_id (ol_supply_w_id l) /\ 1 <= ol_quantity l <= 10.

Definition item_ok (env : gen_env) (l : no_order_line_t) : Prop :=
  1 <= ol_i_id l <= items (table_cardinality env).

Record new_order_ok (env : gen_env) (w_id : Z) (d : new_order_t) : Prop := {
  no_w_id_ok : no_w_id d = w_id;
  no_d_id_ok : 1 <= no_d_id d <= 10;
  no_c_id_ok : 1 <= no_c_id d <= 3000;
  no_cnt_ok : 5 <= no_o_ol_cnt d <= 15;
  no_length_ok : List.length (no_order_line d) = 15%nat;
  no_lines_ok : forall k, 0 <= k < no_o_ol_cnt d ->
    exists l, no_order_line d !! Z.to_nat k = Some l /\ line_ok env w_id l /\
      (item_ok env l \/ k = no_o_ol_cnt d - 1 /\ ol_i_id l = 0);
  no_rest_ok : forall k, no_o_ol_cnt d <= k < 15 ->
    no_order_line d !! Z.to_nat k = Some zero_no_order_line }.

Definition customer_ok (c : Z * list Z) : Prop :=
  c.1 = C_ID_UNKNOWN /\ (exists i, 0 <= i <= 999 /\ c.2 = (get_c_last i).2)
  \/ 1 <= c.1 <= 3000 /\ c.2 = [].

Record payment_ok (env : gen_env) (w_id : Z) (d : payment_t) : Prop := {
  pa_w_id_ok : pa_w_id d = w_id;
  pa_d_id_ok : 1 <= pa_d_id d <= 10;
  pa_customer_ok : customer_ok (pa_c_id d, pa_c_last d);
  pa_c_w_id_ok : 1 <= pa_c_w_id d <= warehouses (table_cardinality env);
  pa_c_d_id_ok : 1 <= pa_c_d_id d <= 10;
  pa_local_ok : mode_altered env = 1 -> pa_c_w_id d = w_id /\ pa_c_d_id d = pa_d_id d;
  pa_amount_ok : exists cents, 100 <= cents <= 500000 /\
    pa_h_amount d = ddiv (d_of_Z cents) (d_of_Z 100) }.

(** The types [generate_input_data] knows: every one except Stock-Level. *)
Definition known_type (type : Z) : Prop :=
  type ∈ [DELIVERY; NEW_ORDER; ORDER_STATUS; PAYMENT; INTEGRITY].

Definition data_type (data : transaction_data_t) : Z :=
  match data with
  | TD_delivery _ => DELIVERY
  | TD_new_order _ => NEW_ORDER
  | TD_order_status _ => ORDER_STATUS
  | TD_payment _ => PAYMENT
  | TD_stock_level _ => STOCK_LEVEL
  | TD_integrity _ => INTEGRITY
  end.

(** Input data of any type, for a terminal of warehouse [w_id] and district
    [d_id]. *)
Definition data_ok (env : gen_env) (w_id d_id : Z) (data : transaction_data_t) : Prop :=
  match data with
  | TD_delivery d => dl_w_id d = w_id /\ 1 <= dl_o_carrier_id d <= 10
  | TD_new_order d => new_order_ok env w_id d
  | TD_order_status d =>
      os_c_w_id d = w_id /\ 1 <= os_c_d_id d <= 10 /\ customer_ok (os_c_id d, os_c_last d)
  | TD_payment d => payment_ok env w_id d
  | TD_stock_level d =>
      sl_w_id d = w_id /\ sl_d_id d = d_id /\ 10 <= sl_threshold d <= 20
  | TD_integrity d => it_w_id d = w_id
  end.

(** ** Proofs *)

(** Run one step of a generator: [L] says what its value satisfies. *)
Ltac gstep L := eapply returns_bind; [apply L; unfold env_ok, home_ok in *; try lia|];
  let x := fresh "x" in let H := fresh "H" in intros x H; cbn beta in H.

Section proofs.
Context (env : gen_env) (w_id : Z).
Context (Henv : env_ok env) (Hhome : home_ok env w_id).

Lemma other_warehouse_ok :
  warehouses (table_cardinality env) > 1 ->
  returns (other_warehouse env w_id) (fun w =>
    1 <= w <= warehouses (table_cardinality env) /\ w <> w_id).
Proof.
  intros HW. unfold env_ok, home_ok in *.
  unfold other_warehouse. gstep get_random_below. apply returns_ret.
  unfold skip_home. rewrite i32_small by lia. cbn zeta.
  destruct (Z.geb_spec (x + 1) w_id); lia.
Qed.

Lemma supply_warehouse_ok : returns (supply_warehouse env w_id) (supply_ok env w_id).
Proof.
  unfold supply_warehouse, supply_ok.
  destruct (Z.gtb_spec (warehouses (table_cardinality env)) 1).
  - destruct (Z.eqb_spec (mode_altered env) 1).
    + apply returns_ret. unfold home_ok in *. auto.
    + gstep get_random_below. destruct (x >? 0).
      * apply returns_ret. unfold home_ok in *. auto.
      * eapply returns_impl; [apply other_warehouse_ok; lia|].
        cbn beta. intros w [Hw _]. split; [done|]. congruence.
  - apply returns_ret. unfold home_ok in *. split; [lia|]. lia.
Qed.

Lemma generate_order_line_ok :
  returns (generate_order_line env w_id) (fun l => line_ok env w_id l /\ item_ok env l).
Proof.
  unfold generate_order_line. gstep nurand_range.
  eapply returns_bind; [apply supply_warehouse_ok|]. intros w Hw.
  gstep get_random_below. apply returns_ret.
  unfold line_ok, item_ok. cbn. rewrite i32_small by lia. repeat split; try apply Hw; lia.
Qed.

Lemma new_order_lines_ok n bad lines :
  5 <= n <= 15 -> List.length lines = Z.to_nat n ->
  Forall (fun l => line_ok env w_id l /\ item_ok env l) lines ->
  let all := lines ++ replicate (15 - Z.to_nat n) zero_no_order_line in
  let all' := if (bad : bool) then alter clear_i_id (Z.to_nat (n - 1)) all else all in
  List.length all' = 15%nat /\
  (forall k, 0 <= k < n -> exists l, all' !! Z.to_nat k = Some l /\ line_ok env w_id l /\
     (item_ok env l \/ k = n - 1 /\ ol_i_id l = 0)) /\
  (forall k, n <= k < 15 -> all' !! Z.to_nat k = Some zero_no_order_line).
Proof.
  intros Hn Hlen Hlines all all'.
  assert (Hall : List.length all = 15%nat).
  { unfold all. rewrite length_app, length_replicate. lia. }
  assert (Hline : forall k, 0 <= k < n -> exists l, all !! Z.to_nat k = Some l /\
            line_ok env w_id l /\ item_ok env l).
  { intros k Hk. unfold all. rewrite lookup_app_l by lia.
    destruct (lines !! Z.to_nat k) as [l|] eqn:Hl.
    - exists l. split; [done|]. rewrite Forall_lookup in Hlines. by eapply Hlines.
    - apply lookup_ge_None in Hl. lia. }
  assert (Hrest : forall k, n <= k < 15 -> all !! Z.to_nat k = Some zero_no_order_line).
  { intros k Hk. unfold all. rewrite lookup_app_r by lia.
    rewrite Hlen. apply lookup_replicate_2. lia. }
  unfold all'. destruct bad.
  - rewrite length_alter. split; [done|]. split.
    + intros k Hk. destruct (Hline k Hk) as (l & Hl & Hok & Hit).
      destruct (decide (k = n - 1)) as [->|Hne].
      * rewrite list_lookup_alter_eq, Hl. exists (clear_i_id l).
        split; [done|]. split; [done|]. by right.
      * rewrite list_lookup_alter_ne by lia. eauto.
    + intros k Hk. rewrite list_lookup_alter_ne by lia. auto.
  - split; [done|]. split; [|done]. intros k Hk.
    destruct (Hline k Hk) as (l & Hl & Hok & Hit). eauto.
Qed.

Lemma generate_new_order_data_ok :
  returns (generate_new_order_data env w_id) (new_order_ok env w_id).
Proof.
  unfold generate_new_order_data.
  eapply returns_bind; [apply (get_random_below D_ID_MAX); unfold D_ID_MAX; lia|].
  intros d Hd. unfold D_ID_MAX in Hd. cbn beta in Hd.
  eapply returns_bind; [apply (nurand_range 1023 1 3000); lia|]. intros c Hc.
  eapply returns_bind; [apply (get_random_below 11); lia|]. intros n Hn. cbn beta in *.
  rewrite (i32_small n) by lia. cbn zeta.
  eapply returns_bind; [apply returns_repeatM, generate_order_line_ok|].
  intros lines [Hlen Hlines].
  eapply returns_bind; [apply (get_random_below 100); lia|]. intros bad _.
  apply returns_ret.
  destruct (new_order_lines_ok (n + 5) (bad =? 0) lines) as (Hl & Hk & Hz); [lia|done|done|].
  split; cbn; rewrite ?i32_small by lia; try lia; done.
Qed.

Lemma select_customer_ok : returns select_customer customer_ok.
Proof.
  unfold select_customer. gstep (get_random_below 100). destruct (x <? 60).
  - eapply returns_bind; [apply (nurand_range 255 0 999); lia|]. intros i Hi.
    apply returns_ret. left. split; [done|]. by exists i.
  - eapply returns_bind; [apply (nurand_range 1023 1 3000); lia|]. intros c Hc.
    apply returns_ret. right. done.
Qed.

Lemma payment_customer_home_ok d_id :
  1 <= d_id <= 10 ->
  returns (payment_customer_home env w_id d_id) (fun h =>
    1 <= h.1 <= warehouses (table_cardinality env) /\ 1 <= h.2 <= 10 /\
    (mode_altered env = 1 -> h = (w_id, d_id))).
Proof.
  intros Hd. unfold payment_customer_home.
  eapply returns_bind with (P := fun home : bool => mode_altered env = 1 -> home = true).
  { destruct (Z.eqb_spec (mode_altered env) 1); [by apply returns_ret|].
    eapply returns_bind; [apply returns_true|]. intros r _. by apply returns_ret. }
  intros [] Hh.
  - apply returns_ret. unfold home_ok in *. cbn. auto.
  - assert (Ha : mode_altered env <> 1) by (intros Ha; by apply Hh in Ha).
    eapply returns_bind; [apply (get_random_below D_ID_MAX); unfold D_ID_MAX; lia|].
    intros d Hdr. unfold D_ID_MAX in Hdr. cbn beta in Hdr.
    destruct (Z.gtb_spec (warehouses (table_cardinality env)) 1).
    + eapply returns_bind; [apply other_warehouse_ok; lia|]. intros w [Hw _].
      apply returns_ret. cbn. rewrite i32_small by lia. repeat split; lia || done.
    + apply returns_ret. unfold home_ok in *. cbn.
      rewrite i32_small by lia. repeat split; lia || done.
Qed.

Lemma generate_payment_data_ok :
  returns (generate_payment_data env w_id) (payment_ok env w_id).
Proof.
  unfold generate_payment_data.
  eapply returns_bind; [apply (get_random_below D_ID_MAX); unfold D_ID_MAX; lia|].
  intros d Hd. unfold D_ID_MAX in Hd. cbn beta in Hd. rewrite i32_small by lia. cbn zeta.
  eapply returns_bind; [apply select_customer_ok|]. intros [c_id c_last] Hc.
  eapply returns_bind; [apply payment_customer_home_ok; lia|].
  intros [c_w_id c_d_id] (Hw & Hcd & Halt). cbn in *.
  eapply returns_bind; [apply (get_random_below 499901); lia|]. intros a Ha.
  apply returns_ret. cbn beta in Ha. split; cbn; try lia; try done.
  - intros H. specialize (Halt H). by simplify_eq.
  - exists (a + 100). split; [lia|done].
Qed.

Lemma generate_delivery_data_ok : returns (generate_delivery_data w_id) (fun d =>
  dl_w_id d = w_id /\ 1 <= dl_o_carrier_id d <= 10).
Proof.
  eapply returns_bind; [apply (get_random_below O_CARRIER_ID_MAX); done|].
  unfold O_CARRIER_ID_MAX. intros r Hr. apply returns_ret. cbn in *.
  rewrite i32_small by lia. split; [done|lia].
Qed.

Lemma generate_order_status_data_ok : returns (generate_order_status_data w_id) (fun d =>
  os_c_w_id d = w_id /\ 1 <= os_c_d_id d <= 10 /\ customer_ok (os_c_id d, os_c_last d)).
Proof.
  eapply returns_bind; [apply (get_random_below D_ID_MAX); done|].
  unfold D_ID_MAX. intros r Hr.
  eapply returns_bind; [apply select_customer_ok|]. intros [c_id c_last] Hc.
  apply returns_ret. cbn in *. rewrite i32_small by lia. repeat split; done || lia.
Qed.

Lemma generate_stock_level_data_ok d_id : returns (generate_stock_level_data w_id d_id)
  (fun d => sl_w_id d = w_id /\ sl_d_id d = d_id /\ 10 <= sl_threshold d <= 20).
Proof.
  eapply returns_bind; [apply (get_random_below 11); done|].
  intros r Hr. apply returns_ret. cbn in *. rewrite i32_small by lia.
  repeat split; done || lia.
Qed.

Lemma generate_input_data2_ok type data d_id :
  returns (generate_input_data2 type data w_id d_id) (fun r =>
    data_type r.2 = STOCK_LEVEL /\ data_ok env w_id d_id r.2).
Proof.
  eapply returns_bind; [apply generate_stock_level_data_ok|]. intros d Hd.
  by apply returns_ret.
Qed.

Lemma generate_input_data_ok type data d_id : known_type type ->
  returns (generate_input_data env type data w_id) (fun r =>
    data_type r.2 = type /\ data_ok env w_id d_id r.2).
Proof.
  unfold known_type. rewrite !list_elem_of_In. cbn.
  intros [<-|[<-|[<-|[<-|[<-|[]]]]]]; unfold generate_input_data; cbn -[mbind mret].
  1-4: eapply returns_bind;
    [first [apply generate_delivery_data_ok | apply generate_new_order_data_ok
           | apply generate_order_status_data_ok | apply generate_payment_data_ok]|];
    intros d Hd; by apply returns_ret.
  by apply returns_ret.
Qed.
End proofs.

(** ** Properties of the generators *)

(** New-Order input data (TPC-C clause 2.4.1): district, customer, line
    count and every order line lie in their ranges; only the last line may
    carry the invalid item 0; the unused lines stay zero; in altered mode all
    lines are supplied by the home warehouse. *)
Theorem generate_new_order_data_correct env w_id g :
  env_ok env -> home_ok env w_id ->
  new_order_ok env w_id (generate_new_order_data env w_id g).1.
Proof. intros Henv Hw. by apply generate_new_order_data_ok. Qed.

Definition witness_env : gen_env :=
  mk_gen_env 0 (mk_card 5 10 3000 100000 3000 900).

Lemma generate_new_order_data_correct_witness :
  new_order_ok witness_env 3
    (generate_new_order_data witness_env 3 (pcg64f_srandom_r 11)).1.
Proof. apply generate_new_order_data_correct; unfold env_ok, home_ok; cbn; lia. Defined.

(** Payment input data (clause 2.5.1): identifiers in range, a customer by
    number or by last name, an amount of 1.00 to 5000.00; in altered mode the
    customer belongs to the terminal's own warehouse and district. *)
Theorem generate_payment_data_correct env w_id g :
  env_ok env -> home_ok env w_id ->
  payment_ok env w_id (generate_payment_data env w_id g).1.
Proof. intros Henv Hw. by apply generate_payment_data_ok. Qed.

Lemma generate_payment_data_correct_witness :
  payment_ok witness_env 5
    (generate_payment_data witness_env 5 (pcg64f_srandom_r 12)).1.
Proof. apply generate_payment_data_correct; unfold env_ok, home_ok; cbn; lia. Defined.

Lemma skip_home_value w_id r : - 2 ^ 31 <= r + 1 < 2 ^ 31 ->
  skip_home w_id r = if r + 1 >=? w_id then r + 2 else r + 1.
Proof.
  intros Hr. unfold skip_home. rewrite i32_small by lia. cbn zeta.
  destruct (r + 1 >=? w_id); lia.
Qed.

(** Skipping over the home warehouse maps the draws [0 .. W-2] one to one
    onto the other warehouses: a uniform draw selects uniformly among them, as
    the comment in the source claims. *)
Theorem skip_home_bijection W w_id :
  1 <= w_id <= W -> W < 2 ^ 31 ->
  (forall r, 0 <= r < W - 1 -> 1 <= skip_home w_id r <= W /\ skip_home w_id r <> w_id) /\
  (forall r r', 0 <= r < W - 1 -> 0 <= r' < W - 1 ->
     skip_home w_id r = skip_home w_id r' -> r = r') /\
  (forall w, 1 <= w <= W -> w <> w_id -> exists r, 0 <= r < W - 1 /\ skip_home w_id r = w).
Proof.
  intros Hw HW. split; [|split].
  - intros r Hr. rewrite skip_home_value by lia. destruct (Z.geb_spec (r + 1) w_id); lia.
  - intros r r' Hr Hr'. rewrite !skip_home_value by lia.
    destruct (Z.geb_spec (r + 1) w_id), (Z.geb_spec (r' + 1) w_id); lia.
  - intros w Hw' Hne. destruct (Z.lt_ge_cases w w_id).
    + exists (w - 1). split; [lia|]. rewrite skip_home_value by lia.
      destruct (Z.geb_spec (w - 1 + 1) w_id); lia.
    + exists (w - 2). split; [lia|]. rewrite skip_home_value by lia.
      destruct (Z.geb_spec (w - 2 + 1) w_id); lia.
Qed.

Lemma skip_home_bijection_witness :
  (forall r, 0 <= r < 5 - 1 -> 1 <= skip_home 3 r <= 5 /\ skip_home 3 r <> 3) /\
  (forall r r', 0 <= r < 5 - 1 -> 0 <= r' < 5 - 1 ->
     skip_home 3 r = skip_home 3 r' -> r = r') /\
  (forall w, 1 <= w <= 5 -> w <> 3 -> exists r, 0 <= r < 5 - 1 /\ skip_home 3 r = w).
Proof. apply skip_home_bijection; lia. Defined.

(** [generate_input_data] fills the union member of the type it is asked
    for, and for any other type returns [ERROR], draws nothing and leaves the
    data alone. *)
Lemma generate_input_data_dispatch env type data w_id g :
  (known_type type ->
     (generate_input_data env type data w_id g).1.1 = OK /\
     data_type (generate_input_data env type data w_id g).1.2 = type) /\
  (~ known_type type -> generate_input_data env type data w_id g = ((ERROR, data), g)).
Proof.
  unfold known_type. split.
  - rewrite !list_elem_of_In. cbn.
    intros [<-|[<-|[<-|[<-|[<-|[]]]]]]; unfold generate_input_data; cbn -[mbind mret];
      rewrite ?bind_unfold; done.
  - intros Hn. unfold generate_input_data.
    repeat match goal with |- context [type =? ?t] =>
      destruct (Z.eqb_spec type t) as [->|];
        [exfalso; apply Hn; rewrite list_elem_of_In; cbn; tauto|]
    end. done.
Qed.
