(* ===== verification/DatagenRows.v ===== *)
(** * Rows of the data generator ([src/datagen.c])

    The configuration globals and, for every table, the row the inner loop
    writes, the loops of one warehouse (one item for the item table), and the
    number of draws they take. *)

From Stdlib Require Import ZArith Lia String SpecFloat.
From stdpp Require Import base list.
From S2P Require Import Prelude Double Pcg Text Common.

Definition MODE_PGSQL : Z := 1.
Definition MODE_MYSQL : Z := 2.
Definition MODE_FLAT : Z := 0.
Definition MODE_DIRECT : Z := 1.
Definition MAX_PARTITIONS : Z := 9999.

(** The globals of datagen.c. *)
Record datagen_cfg := mk_cfg {
  dg_warehouses : Z; dg_customers : Z; dg_items : Z; dg_orders : Z; dg_new_orders : Z;
  mode_load : Z; mode_string : Z; delimiter : Z; null_str : bytes; quoter : bytes;
  seed : Z; rows_per_commit : Z; table : Z; part : Z; partitions : Z;
  output_path : option bytes }.

(** [struct tm], as [localtime] fills it. *)
Record tm := mk_tm {
  tm_sec : Z; tm_min : Z; tm_hour : Z; tm_mday : Z; tm_mon : Z; tm_year : Z }.

(** A small database and a stopped clock, on which witnesses evaluate: three
    warehouses, four items, ten districts of three customers and two orders. *)
Definition small_cfg : datagen_cfg :=
  mk_cfg 3 3 4 2 1 MODE_FLAT MODE_PGSQL 44 [] [34] 5 0 0 1 1 None.
Definition stopped_clock (_ : list Z) : tm := mk_tm 0 0 0 1 0 100.

Definition print_timestamp_pgsql (date : tm) : bytes :=
  fmt_0d 4 (tm_year date + 1900) ++ lit "-" ++ fmt_0d 2 (tm_mon date + 1) ++ lit "-"
  ++ fmt_0d 2 (tm_mday date) ++ lit " " ++ fmt_0d 2 (tm_hour date) ++ lit ":"
  ++ fmt_0d 2 (tm_min date) ++ lit ":" ++ fmt_0d 2 (tm_sec date).

Section rows.
Context (cfg : datagen_cfg).
(** [localtime(time())] as read while the row with these loop variables is
    written. *)
Context (clock : list Z -> tm).

(** ["%s%s%s"] and ["%s%d%s"] between the quoters. *)
Definition quoted (s : bytes) : bytes := quoter cfg ++ s ++ quoter cfg.
Definition quoted_d (z : Z) : bytes := quoted (fmt_d z).

Definition row (fields : list bytes) : bytes := join (delimiter cfg) fields ++ [NL].

Definition wstr (buffer : Z) (s : list Z) : bytes := quoted (wcstombs s buffer).

(** [fprintf("0.%04d", (int) get_random(max))] *)
Definition gen_fraction (max : Z) : rngM bytes :=
  r ← get_random max; mret (quoted (lit "0." ++ fmt_0d 4 (i32 r))).

Definition gen_a (x y buffer : Z) : rngM bytes :=
  s ← get_a_string x y; mret (wstr buffer s).

Definition gen_n (x y buffer : Z) : rngM bytes :=
  s ← get_n_string x y; mret (wstr buffer s).

Definition gen_l (x y buffer : Z) : rngM bytes :=
  s ← get_l_string x y; mret (wstr buffer s).

(** Four random digits followed by "11111". *)
Definition gen_zip (buffer : Z) : rngM bytes :=
  s ← get_n_string 4 4; mret (quoted (wcstombs s buffer ++ lit "11111")).

(** Writing "ORIGINAL" over the string from position [j] on. *)
Definition put_original (j : Z) (s : list Z) : list Z :=
  take (Z.to_nat j) s ++ lit "ORIGINAL" ++ drop (Z.to_nat j + 8) s.

(** [i_data] and [s_data]: 26 to 50 characters, with "ORIGINAL" somewhere
    in 10% of them. *)
Definition gen_data : rngM (list Z) :=
  s ← get_a_string 26 50;
  with_local_rng (
    p ← get_percentage;
    if dltb p (ddiv (d_of_Z 1) (d_of_Z 10)) then
      j ← get_random (zlen s - 7);
      mret (put_original (i32 j) s)
    else mret s).

(** ** customer *)

Definition gen_c_last (k : Z) : rngM bytes :=
  if k <? 1000 then mret (wstr 4096 (get_c_last k).2)
  else i ← get_nurand 255 0 999; mret (wstr 4096 (get_c_last i).2).

Definition gen_c_credit : rngM bytes :=
  p ← get_percentage;
  mret (if dltb p (ddiv (d_of_Z 1) (d_of_Z 10)) then lit "BC" else lit "GC").

Definition customer_row (i j k : Z) : rngM bytes :=
  c_first ← gen_a 8 16 4096;
  c_last ← gen_c_last k;
  c_street_1 ← gen_a 10 20 4096;
  c_street_2 ← gen_a 10 20 4096;
  c_city ← gen_a 10 20 4096;
  c_state ← gen_a 2 2 4096;
  c_zip ← gen_zip 4096;
  c_phone ← gen_n 16 16 4096;
  c_credit ← gen_c_credit;
  c_discount ← gen_fraction 5001;
  c_data ← gen_a 300 500 4096;
  mret (row [quoted_d (k + 1); quoted_d (j + 1); quoted_d (i + 1); c_first;
             lit "OE"; c_last; c_street_1; c_street_2; c_city; c_state; c_zip;
             c_phone; print_timestamp_pgsql (clock [i; j; k]); c_credit;
             lit "50000.00"; c_discount; lit "-10.00"; lit "10.00"; lit "1";
             lit "0"; c_data]).

Definition concatM {A} (m : rngM (list (list A))) : rngM (list A) :=
  l ← m; mret (List.concat l).

Definition customer_unit (i : Z) : rngM (list bytes) :=
  concatM (mapM_rng (fun j =>
    mapM_rng (fun k => customer_row i j k) (zrange 0 (dg_customers cfg)))
    (zrange 0 DISTRICT_CARDINALITY)).

(** ** district *)

Definition district_row (i j : Z) : rngM bytes :=
  d_name ← gen_a 6 10 192;
  d_street_1 ← gen_a 10 20 192;
  d_street_2 ← gen_a 10 20 192;
  d_city ← gen_a 10 20 192;
  d_state ← gen_a 2 2 192;
  d_zip ← gen_zip 192;
  d_tax ← gen_fraction 2001;
  mret (row [quoted_d (j + 1); quoted_d (i + 1); d_name; d_street_1; d_street_2;
             d_city; d_state; d_zip; d_tax; lit "30000.00"; lit "3001"]).

Definition district_unit (i : Z) : rngM (list bytes) :=
  mapM_rng (fun j => district_row i j) (zrange 0 DISTRICT_CARDINALITY).

(** ** history *)

Definition history_row (i j k : Z) : rngM bytes :=
  h_data ← gen_a 12 24 256;
  mret (row [quoted_d (k + 1); quoted_d (j + 1); quoted_d (i + 1); quoted_d (j + 1);
             quoted_d (i + 1); print_timestamp_pgsql (clock [i; j; k]);
             lit "10.00"; h_data]).

Definition history_unit (i : Z) : rngM (list bytes) :=
  concatM (mapM_rng (fun j =>
    mapM_rng (fun k => history_row i j k) (zrange 0 (dg_customers cfg)))
    (zrange 0 DISTRICT_CARDINALITY)).

(** ** item *)

Definition gen_i_price : rngM bytes :=
  r ← get_random 9901;
  mret (quoted (fmt_f 2 (ddiv (dadd (d_of_Z r) (d_of_Z 100)) (d_of_Z 100)))).

Definition item_row (i : Z) : rngM bytes :=
  i_im_id ← get_random 10000;
  i_name ← gen_a 14 24 512;
  i_price ← gen_i_price;
  i_data ← gen_data;
  mret (row [quoted_d (i + 1); quoted_d (i32 i_im_id + 1); i_name; i_price;
             wstr 512 i_data]).

Definition item_unit (i : Z) : rngM (list bytes) := r ← item_row i; mret [r].

(** ** new_order *)

Definition new_order_row (i j k : Z) : bytes :=
  row [quoted_d (k + 1); quoted_d (j + 1); quoted_d (i + 1)].

Definition new_order_unit (i : Z) : rngM (list bytes) :=
  mret (List.concat (map (fun j =>
    map (fun k => new_order_row i j k)
        (zrange (dg_orders cfg - dg_new_orders cfg) (dg_orders cfg)))
    (zrange 0 DISTRICT_CARDINALITY))).

(** ** stock *)

Definition stock_row (i j : Z) : rngM bytes :=
  s_quantity ← get_random 91;
  s_dist ← repeatM 10 (gen_l 24 24 512);
  s_data ← gen_data;
  mret (row ([quoted_d (j + 1); quoted_d (i + 1); quoted_d (i32 s_quantity + 10)]
             ++ s_dist ++ [lit "0"; lit "0"; lit "0"; wstr 512 s_data])).

Definition stock_unit (i : Z) : rngM (list bytes) :=
  mapM_rng (fun j => stock_row i j) (zrange 0 (dg_items cfg)).

(** ** warehouse *)

Definition warehouse_row (i : Z) : rngM bytes :=
  w_name ← gen_a 6 10 192;
  w_street_1 ← gen_a 10 20 192;
  w_street_2 ← gen_a 10 20 192;
  w_city ← gen_a 10 20 192;
  w_state ← gen_a 2 2 192;
  w_zip ← gen_zip 192;
  w_tax ← gen_fraction 2001;
  mret (row [quoted_d (i + 1); w_name; w_street_1; w_street_2; w_city; w_state;
             w_zip; w_tax; lit "300000.00"]).

Definition warehouse_unit (i : Z) : rngM (list bytes) :=
  r ← warehouse_row i; mret [r].
End rows.

(** ** Draws per row and per unit of work *)

Lemma consumes_concatM {A} (m : rngM (list (list A))) n :
  consumes m n -> consumes (concatM m) n.
Proof.
  intros H. unfold concatM. eapply consumes_eq; [|apply Nat.add_0_r].
  eapply consumes_bind; [done|]. intros. apply consumes_ret.
Qed.

Lemma consumes_mapM_const {A B} (f : A -> rngM B) l n :
  (forall a, a ∈ l -> consumes (f a) n) -> consumes (mapM_rng f l) (List.length l * n).
Proof.
  intros H. eapply consumes_eq; [apply consumes_mapM_rng, H|].
  clear H. induction l; simpl; lia.
Qed.

Section draws.
Context (cfg : datagen_cfg) (clock : list Z -> tm).

Lemma consumes_gen_a x y b : consumes (gen_a cfg x y b) 1.
Proof. unfold gen_a. count_draws. Qed.
Lemma consumes_gen_n x y b : consumes (gen_n cfg x y b) 1.
Proof. unfold gen_n. count_draws. Qed.
Lemma consumes_gen_l x y b : consumes (gen_l cfg x y b) 1.
Proof. unfold gen_l. count_draws. Qed.
Lemma consumes_gen_zip b : consumes (gen_zip cfg b) 1.
Proof. unfold gen_zip. count_draws. Qed.
Lemma consumes_gen_fraction m : consumes (gen_fraction cfg m) 1.
Proof. unfold gen_fraction. count_draws. Qed.
Lemma consumes_gen_c_credit : consumes gen_c_credit 1.
Proof. unfold gen_c_credit. count_draws. Qed.
Lemma consumes_gen_i_price : consumes (gen_i_price cfg) 1.
Proof. unfold gen_i_price. count_draws. Qed.
Lemma consumes_gen_data : consumes gen_data 2.
Proof. unfold gen_data. count_draws. Qed.

Lemma consumes_gen_c_last k :
  consumes (gen_c_last cfg k) (if k <? 1000 then 0 else 2).
Proof. unfold gen_c_last. destruct (k <? 1000); count_draws. Qed.

#[local] Hint Resolve consumes_gen_a consumes_gen_n consumes_gen_l consumes_gen_zip
  consumes_gen_fraction consumes_gen_c_credit consumes_gen_i_price
  consumes_gen_data consumes_gen_c_last : draws.

Lemma consumes_customer_row i j k :
  consumes (customer_row cfg clock i j k) (if k <? 1000 then 10 else 12).
Proof. unfold customer_row. count_draws. destruct (k <? 1000); lia. Qed.

Lemma consumes_district_row i j : consumes (district_row cfg i j) 7.
Proof. unfold district_row. count_draws. Qed.
Lemma consumes_history_row i j k : consumes (history_row cfg clock i j k) 1.
Proof. unfold history_row. count_draws. Qed.
Lemma consumes_item_row i : consumes (item_row cfg i) 5.
Proof. unfold item_row. count_draws. Qed.
Lemma consumes_warehouse_row i : consumes (warehouse_row cfg i) 7.
Proof. unfold warehouse_row. count_draws. Qed.

Lemma consumes_stock_row i j : consumes (stock_row cfg i j) 13.
Proof.
  unfold stock_row. eapply consumes_eq.
  - eapply consumes_bind; [apply consumes_get_random|]. intros q.
    eapply consumes_bind; [apply consumes_repeatM, consumes_gen_l|]. intros d.
    eapply consumes_bind; [apply consumes_gen_data|]. intros s. apply consumes_ret.
  - done.
Qed.

(** Draws of [n] customers of one district. *)
Lemma customer_draws n :
  0 <= n ->
  Z.of_nat (sum_list_with (fun k => if k <? 1000 then 10%nat else 12%nat) (zrange 0 n))
  = n * 10 + (if n >? 1000 then 2 * (n - 1000) else 0).
Proof.
  intros Hn. replace n with (Z.of_nat (Z.to_nat n)) by lia.
  induction (Z.to_nat n) as [|m IH]; [done|].
  rewrite Nat2Z.inj_succ, <- Z.add_1_r, zrange_snoc by lia.
  rewrite sum_list_with_app, Nat2Z.inj_add, IH. simpl sum_list_with.
  destruct (Z.ltb_spec (Z.of_nat m) 1000), (Z.gtb_spec (Z.of_nat m) 1000),
    (Z.gtb_spec (Z.of_nat m + 1) 1000); lia.
Qed.

Lemma consumes_customer_unit i : 0 <= dg_customers cfg ->
  consumes (customer_unit cfg clock i)
    (Z.to_nat (DISTRICT_CARDINALITY * (dg_customers cfg * 10 +
       (if dg_customers cfg >? 1000 then 2 * (dg_customers cfg - 1000) else 0)))).
Proof.
  intros Hc. unfold customer_unit. apply consumes_concatM.
  eapply consumes_eq; [apply consumes_mapM_const|].
  - intros j _. apply consumes_mapM_rng. intros k _. apply consumes_customer_row.
  - rewrite length_zrange. pose proof (customer_draws _ Hc) as Hd.
    unfold DISTRICT_CARDINALITY in *. lia.
Qed.

Lemma consumes_history_unit i : 0 <= dg_customers cfg ->
  consumes (history_unit cfg clock i)
    (Z.to_nat (DISTRICT_CARDINALITY * dg_customers cfg)).
Proof.
  intros Hc. unfold history_unit. apply consumes_concatM.
  eapply consumes_eq; [apply consumes_mapM_const|].
  - intros j _. apply consumes_mapM_const. intros k _. apply consumes_history_row.
  - rewrite !length_zrange. unfold DISTRICT_CARDINALITY. lia.
Qed.

Lemma consumes_district_unit i : consumes (district_unit cfg i) 70.
Proof.
  eapply consumes_eq; [apply consumes_mapM_const; intros; apply consumes_district_row|].
  done.
Qed.

Lemma consumes_item_unit i : consumes (item_unit cfg i) 5.
Proof.
  eapply consumes_eq; [eapply consumes_bind; [apply consumes_item_row|]|done].
  intros. apply consumes_ret.
Qed.

Lemma consumes_warehouse_unit i : consumes (warehouse_unit cfg i) 7.
Proof.
  eapply consumes_eq; [eapply consumes_bind; [apply consumes_warehouse_row|]|done].
  intros. apply consumes_ret.
Qed.

Lemma consumes_new_order_unit i : consumes (new_order_unit cfg i) 0.
Proof. apply consumes_ret. Qed.

Lemma consumes_stock_unit i : 0 <= dg_items cfg ->
  consumes (stock_unit cfg i) (Z.to_nat (dg_items cfg * 13)).
Proof.
  intros Hi. eapply consumes_eq.
  - apply consumes_mapM_const. intros. apply consumes_stock_row.
  - rewrite length_zrange. lia.
Qed.
End draws.
