(* ===== verification/DatagenOrders.v ===== *)
(** * Orders and order lines of the data generator ([gen_orders] in
    [src/datagen.c])

    The random permutation of the customer numbers, the loop over the orders of
    a district, and the order lines each order writes to the second file. *)

From Stdlib Require Import ZArith Lia String SpecFloat Permutation.
From stdpp Require Import base list.
From S2P Require Import Prelude Double Pcg Text Common DatagenRows.

(** ** The linked list of customer numbers

    A pointer into the list is the position of the node, [None] is [NULL]. *)

Definition node_next (l : list Z) (p : nat) : option nat :=
  if (S p <? List.length l)%nat then Some (S p) else None.

(** [while (iter > 0) { prev = current; if (current != NULL) current =
    current->next; --iter; }] *)
Fixpoint walk (iter : nat) (l : list Z) (prev current : option nat)
  : option nat * option nat :=
  match iter with
  | O => (prev, current)
  | S iter' =>
      walk iter' l current
        (match current with Some p => node_next l p | None => None end)
  end.

(** Insert a new node at the place the walk found. *)
Definition insert_node (iter : Z) (v : Z) (l : list Z) : list Z :=
  let '(prev, current) := walk (Z.to_nat iter) l (Some 0%nat) (Some 0%nat) in
  if decide (current = prev) then v :: l
  else
    match prev with
    | None => l
    | Some p =>
        match current with
        | None => take (S p) l ++ [v]
        | Some c => take (S p) l ++ v :: drop c l
        end
    end.

(** [for (k = 2; k <= customers; k++)] on the list of length [k - 1]. *)
Fixpoint insert_all (ks : list Z) (l : list Z) : rngM (list Z) :=
  match ks with
  | [] => mret l
  | k :: ks' => iter ← get_random k; insert_all ks' (insert_node (i32 iter) k l)
  end.

Definition customer_list (customers : Z) : rngM (list Z) :=
  insert_all (zrange 2 (customers + 1)) [1].

Section orders.
Context (cfg : datagen_cfg) (clock : list Z -> tm).

(** ** order_line *)

Definition gen_ol_amount (k : Z) : rngM bytes :=
  if k <? 2101 then mret (lit "0.00")
  else
    r ← get_random 999999;
    mret (quoted cfg (fmt_f 6 (ddiv (d_of_Z (r + 1)) (d_of_Z 100)))).

Definition order_line_row (i j k l : Z) : rngM bytes :=
  ol_i_id ← get_random (dg_items cfg);
  ol_amount ← gen_ol_amount k;
  ol_dist_info ← gen_l cfg 24 24 256;
  mret (row cfg
    [quoted_d cfg (k + 1); quoted_d cfg (j + 1); quoted_d cfg (i + 1);
     quoted_d cfg (l + 1); quoted_d cfg (i32 ol_i_id + 1); quoted_d cfg (i + 1);
     (if k <? 2101 then print_timestamp_pgsql (clock [i; j; k; l]) else null_str cfg);
     lit "5"; ol_amount; ol_dist_info]).

(** ** order *)

(** [o_ol_cnt] and the order lines, from a generator seeded by one draw. *)
Definition gen_order_lines (i j k : Z) : rngM (Z * list bytes) :=
  with_local_rng (
    c ← get_random 11;
    let o_ol_cnt := i32 c + 5 in
    lines ← mapM_rng (fun l => order_line_row i j k l) (zrange 0 o_ol_cnt);
    mret (o_ol_cnt, lines)).

Definition gen_carrier (k : Z) : rngM bytes :=
  if k <? 2101 then r ← get_random 10; mret (quoted_d cfg (i32 r + 1))
  else mret (null_str cfg).

(** The row of order [k] and the rows of its order lines. *)
Definition order_rows (i j k o_c_id : Z) : rngM (bytes * list bytes) :=
  o_carrier_id ← gen_carrier k;
  '(o_ol_cnt, lines) ← gen_order_lines i j k;
  mret (row cfg
          [quoted_d cfg (k + 1); quoted_d cfg (j + 1); quoted_d cfg (i + 1);
           quoted_d cfg o_c_id; print_timestamp_pgsql (clock [i; j; k]);
           o_carrier_id; quoted_d cfg o_ol_cnt; lit "1"], lines).

(** The loop over the orders walks down the customer list.  The boolean is
    [false] when the list ends first: the [exit(1)], after the rows written
    so far. *)
Fixpoint order_loop (i j : Z) (ks : list Z) (current : list Z)
  : rngM (list (bytes * list bytes) * bool) :=
  match ks with
  | [] => mret ([], true)
  | k :: ks' =>
      match current with
      | [] => mret ([], false)
      | o_c_id :: next =>
          r ← order_rows i j k o_c_id;
          rest ← order_loop i j ks' next;
          mret (r :: rest.1, rest.2)
      end
  end.

Definition order_district (i j : Z) : rngM (list (bytes * list bytes) * bool) :=
  current ← customer_list (dg_customers cfg);
  order_loop i j (zrange 0 (dg_orders cfg)) current.

(** The districts of warehouse [i]; an exit abandons everything after it. *)
Fixpoint order_districts (i : Z) (js : list Z)
  : rngM (list (bytes * list bytes) * bool) :=
  match js with
  | [] => mret ([], true)
  | j :: js' =>
      r ← order_district i j;
      if (r.2 : bool) then
        rest ← order_districts i js';
        mret (r.1 ++ rest.1, rest.2)
      else mret r
  end.

Definition order_unit (i : Z) : rngM (list (bytes * list bytes) * bool) :=
  order_districts i (zrange 0 DISTRICT_CARDINALITY).
End orders.

(** ** The list is a permutation of the customers *)

Lemma walk_position l iter p :
  (p + iter <= List.length l)%nat -> (p < List.length l)%nat -> (0 < iter)%nat ->
  forall prev,
  walk iter l prev (Some p)
  = (Some (p + iter - 1)%nat,
     if (p + iter <? List.length l)%nat then Some (p + iter)%nat else None).
Proof.
  revert p. induction iter as [|iter IH]; intros p Hle Hp Hpos prev; [lia|].
  cbn [walk]. unfold node_next. destruct (Nat.ltb_spec (S p) (List.length l)).
  - destruct iter as [|iter].
    + cbn [walk]. replace (p + 1 - 1)%nat with p by lia. 
      destruct (Nat.ltb_spec (p + 1) (List.length l)); [|lia]. do 2 f_equal. lia.
    + rewrite IH by lia. replace (S p + S iter)%nat with (p + S (S iter))%nat by lia. done.
  - assert (iter = 0%nat) as -> by lia. cbn [walk].
    destruct (Nat.ltb_spec (p + 1) (List.length l)); [lia|]. do 2 f_equal. lia.
Qed.

(** The pointer surgery inserts at position [iter], for every position the
    random number can name. *)
Lemma insert_node_at iter v l :
  l <> [] -> 0 <= iter <= zlen l ->
  insert_node iter v l = take (Z.to_nat iter) l ++ v :: drop (Z.to_nat iter) l.
Proof.
  intros Hl Hiter. unfold zlen in Hiter.
  assert (0 < List.length l)%nat by (destruct l; [done|simpl; lia]).
  unfold insert_node. destruct (Z.to_nat iter) as [|n] eqn:Hn; [by cbn [walk]; rewrite decide_True|].
  rewrite (walk_position l (S n) 0) by lia. cbn [Nat.add].
  replace (S n - 1)%nat with n by lia.
  destruct (Nat.ltb_spec (S n) (List.length l)).
  - rewrite decide_False by (intros [=]; lia). done.
  - rewrite decide_False by done. by rewrite drop_ge by lia.
Qed.

Lemma insert_node_permutation iter v l :
  l <> [] -> 0 <= iter <= zlen l -> insert_node iter v l ≡ₚ v :: l.
Proof.
  intros Hl Hiter. rewrite insert_node_at by done.
  rewrite <- Permutation_middle. by rewrite take_drop.
Qed.

Lemma insert_all_permutation n : forall m l,
  List.length l = Z.to_nat (m - 1) -> 2 <= m -> m + Z.of_nat n < 2 ^ 31 ->
  returns (insert_all (zrange m (m + Z.of_nat n)) l)
    (fun l' => l' ≡ₚ zrange m (m + Z.of_nat n) ++ l).
Proof.
  induction n as [|n IH]; intros m l Hl Hm Hb.
  - rewrite zrange_nil by lia. by apply returns_ret.
  - rewrite zrange_cons by lia. cbn [insert_all].
    eapply returns_bind; [apply get_random_range; lia|].
    intros iter [Hiter H32]. cbn beta in *. rewrite H32.
    assert (Hne : l <> []) by (intros ->; simpl in Hl; lia).
    pose proof (insert_node_permutation iter m l Hne ltac:(unfold zlen; lia)) as Hp.
    replace (m + Z.of_nat (S n)) with ((m + 1) + Z.of_nat n) by lia.
    eapply returns_impl; [apply IH; [|lia|lia]|].
    + rewrite Hp. simpl. lia.
    + cbn beta. intros l' ->. rewrite Hp. by rewrite <- Permutation_middle.
Qed.

Lemma customer_list_spec customers :
  1 <= customers < 2 ^ 31 - 2 ->
  returns (customer_list customers) (fun l => l ≡ₚ zrange 1 (customers + 1)).
Proof.
  intros Hc. unfold customer_list.
  replace (customers + 1) with (2 + Z.of_nat (Z.to_nat (customers - 1))) by lia.
  eapply returns_impl; [apply insert_all_permutation; [done|lia|lia]|].
  cbn beta. intros l ->. rewrite (zrange_cons 1) by lia.
  by rewrite Permutation_app_comm.
Qed.

Lemma consumes_insert_all ks l : consumes (insert_all ks l) (List.length ks).
Proof.
  revert l. induction ks as [|k ks IH]; intros l; cbn [insert_all List.length].
  - apply consumes_ret.
  - change (S (List.length ks)) with (1 + List.length ks)%nat.
    eapply consumes_bind; [apply consumes_get_random|]. intros. apply IH.
Qed.

Lemma consumes_customer_list customers :
  consumes (customer_list customers) (Z.to_nat (customers - 1)).
Proof.
  eapply consumes_eq; [apply consumes_insert_all|]. rewrite length_zrange. lia.
Qed.

Lemma length_customer_list customers g :
  1 <= customers < 2 ^ 31 - 2 ->
  List.length (customer_list customers g).1 = Z.to_nat customers.
Proof.
  intros Hc. rewrite (customer_list_spec customers Hc g), length_zrange. lia.
Qed.

(** ** Draws of the order loops *)

Section order_draws.
Context (cfg : datagen_cfg) (clock : list Z -> tm).

Definition order_cost (k : Z) : nat := if k <? 2101 then 2 else 1.

Lemma consumes_gen_carrier k : consumes (gen_carrier cfg k) (if k <? 2101 then 1 else 0).
Proof. unfold gen_carrier. destruct (k <? 2101); count_draws. Qed.

Lemma consumes_order_rows i j k c : consumes (order_rows cfg clock i j k c) (order_cost k).
Proof.
  unfold order_rows. eapply consumes_eq.
  - eapply consumes_bind; [apply consumes_gen_carrier|]. intros carrier.
    eapply consumes_bind; [apply consumes_with_local|]. intros [n lines].
    apply consumes_ret.
  - unfold order_cost. by destruct (k <? 2101).
Qed.

(** The loops ran to their end. *)
Definition finished (r : list (bytes * list bytes) * bool) : Prop := r.2 = true.

Lemma order_loop_spec i j ks : forall current,
  (List.length ks <= List.length current)%nat ->
  consumes (order_loop cfg clock i j ks current) (sum_list_with order_cost ks) /\
  returns (order_loop cfg clock i j ks current) finished.
Proof.
  induction ks as [|k ks IH]; intros current Hlen; cbn [order_loop sum_list_with].
  - split; [apply consumes_ret|apply returns_ret; done].
  - destruct current as [|c next]; [simpl in Hlen; lia|].
    destruct (IH next) as [IHc IHr]; [simpl in Hlen; lia|]. split.
    + eapply consumes_bind; [apply consumes_order_rows|]. intros r.
      eapply consumes_eq; [eapply consumes_bind; [exact IHc|]|apply Nat.add_0_r].
      intros. apply consumes_ret.
    + eapply returns_bind; [apply returns_true|]. intros r _.
      eapply returns_bind; [exact IHr|]. intros rest Hrest. by apply returns_ret.
Qed.

(** Cardinalities for which the generator does not exit. *)
Definition orders_ok : Prop :=
  1 <= dg_customers cfg < 2 ^ 31 - 2 /\ 0 <= dg_orders cfg <= dg_customers cfg.

Lemma order_draws n : 0 <= n ->
  Z.of_nat (sum_list_with order_cost (zrange 0 n)) = (if n <? 2101 then n else 2101) + n.
Proof.
  intros Hn. replace n with (Z.of_nat (Z.to_nat n)) by lia.
  induction (Z.to_nat n) as [|m IH]; [done|].
  rewrite Nat2Z.inj_succ, <- Z.add_1_r, zrange_snoc by lia.
  rewrite sum_list_with_app, Nat2Z.inj_add, IH. simpl sum_list_with. unfold order_cost.
  destruct (Z.ltb_spec (Z.of_nat m) 2101), (Z.ltb_spec (Z.of_nat m + 1) 2101); lia.
Qed.

Definition district_draws : Z :=
  (dg_customers cfg - 1) + (if dg_orders cfg <? 2101 then dg_orders cfg else 2101)
  + dg_orders cfg.

Lemma order_district_spec i j : orders_ok ->
  consumes (order_district cfg clock i j) (Z.to_nat district_draws) /\
  returns (order_district cfg clock i j) finished.
Proof.
  intros [Hc Ho]. 
  assert (Hl : returns (customer_list (dg_customers cfg))
    (fun l => List.length (zrange 0 (dg_orders cfg)) <= List.length l)%nat).
  { intros g. rewrite length_customer_list, length_zrange by done. lia. }
  unfold order_district. split.
  - eapply consumes_eq.
    + eapply consumes_bind_returns; [apply consumes_customer_list|exact Hl|].
      intros l H. apply order_loop_spec, H.
    + pose proof (order_draws _ (proj1 Ho)). unfold district_draws.
      destruct (dg_orders cfg <? 2101); lia.
  - eapply returns_bind; [exact Hl|]. intros l H. apply order_loop_spec, H.
Qed.

Lemma order_districts_spec i js : orders_ok ->
  consumes (order_districts cfg clock i js) (List.length js * Z.to_nat district_draws) /\
  returns (order_districts cfg clock i js) finished.
Proof.
  intros Hok. induction js as [|j js [IHc IHr]]; cbn [order_districts List.length].
  - split; [apply consumes_ret|apply returns_ret; done].
  - destruct (order_district_spec i j Hok) as [Hc Hr]. split.
    + cbn [Nat.mul]. eapply consumes_bind_returns; [exact Hc|exact Hr|].
      intros r Hok'. unfold finished in Hok'. rewrite Hok'.
      eapply consumes_eq; [eapply consumes_bind; [exact IHc|]|apply Nat.add_0_r].
      intros. apply consumes_ret.
    + eapply returns_bind; [exact Hr|]. intros r Hok'. unfold finished in Hok'. rewrite Hok'.
      eapply returns_bind; [exact IHr|]. intros rest Hrest. by apply returns_ret.
Qed.

Lemma consumes_order_unit i : orders_ok ->
  consumes (order_unit cfg clock i) (Z.to_nat (DISTRICT_CARDINALITY * district_draws)).
Proof.
  intros Hok. eapply consumes_eq; [apply order_districts_spec, Hok|].
  rewrite length_zrange. unfold DISTRICT_CARDINALITY. lia.
Qed.

Lemma returns_order_unit i : orders_ok -> returns (order_unit cfg clock i) finished.
Proof. intros Hok. by apply order_districts_spec. Qed.
End order_draws.
