(* ===== verification/DatagenPart.v ===== *)
(** * Partitions of the generated data ([src/datagen.c])

    Every generator computes the range of units (warehouses, or items) of its
    partition in floating point and skips the random numbers of the partitions
    before it.  The partitions tile the whole range, and together they produce
    exactly the rows of an unpartitioned run. *)

From Stdlib Require Import ZArith Lia SpecFloat.
From stdpp Require Import base list.
From S2P Require Import Prelude Double Pcg Text Common DatagenRows DatagenOrders.

(** ** Bounds of a partition *)

(** [double partition_size = (double) n / (double) partitions] *)
Definition partition_size (n parts : Z) : double := ddiv (d_of_Z n) (d_of_Z parts).

(** [start = (int) round(partition_size * (double) (part - 1))] *)
Definition partition_start (n parts p : Z) : Z :=
  i32 (d_round (dmul (partition_size n parts) (d_of_Z (p - 1)))).

(** [end = (int) round(partition_size * (double) part)], at most [n] *)
Definition partition_end (n parts p : Z) : Z :=
  let e := i32 (d_round (dmul (partition_size n parts) (d_of_Z p))) in
  if e >? n then n else e.

(** Seed, skip the draws of the units before [start] unless this is the first
    part, then run the units of the partition. *)
Definition run_partition {A} (cfg : datagen_cfg) (n : Z) (skip : Z -> Z)
    (unit_ : Z -> rngM A) : list A :=
  let start := partition_start n (partitions cfg) (part cfg) in
  let end_ := partition_end n (partitions cfg) (part cfg) in
  let rng := pcg64f_srandom_r (seed cfg) in
  let rng := if part cfg >? 1 then pcg64f_advance_r rng (u128 (skip start)) else rng in
  (mapM_rng unit_ (zrange start end_) rng).1.

(** The advance arguments, as the sources compute them. *)
Definition customer_skip (cfg : datagen_cfg) (start : Z) : Z :=
  start * DISTRICT_CARDINALITY
  * (dg_customers cfg * 10
     + (if dg_customers cfg >? 1000 then 2 * (dg_customers cfg - 1000) else 0)).
Definition district_skip (start : Z) : Z := start * DISTRICT_CARDINALITY * 7.
Definition history_skip (cfg : datagen_cfg) (start : Z) : Z :=
  start * DISTRICT_CARDINALITY * dg_customers cfg.
Definition item_skip (start : Z) : Z := start * 5.
Definition order_skip (cfg : datagen_cfg) (start : Z) : Z :=
  start * DISTRICT_CARDINALITY
  * ((dg_customers cfg - 1) + (if dg_orders cfg <? 2101 then dg_orders cfg else 2101)
     + dg_orders cfg).
Definition stock_skip (cfg : datagen_cfg) (start : Z) : Z := start * dg_items cfg * 13.
Definition warehouse_skip (start : Z) : Z := start * 7.

(** Rows of one partition of each table. *)
Section tables.
Context (cfg : datagen_cfg) (clock : list Z -> tm).

Definition customer_rows : list bytes :=
  List.concat (run_partition cfg (dg_warehouses cfg) (customer_skip cfg)
                 (customer_unit cfg clock)).
Definition district_rows : list bytes :=
  List.concat (run_partition cfg (dg_warehouses cfg) district_skip (district_unit cfg)).
Definition history_rows : list bytes :=
  List.concat (run_partition cfg (dg_warehouses cfg) (history_skip cfg)
                 (history_unit cfg clock)).
Definition item_rows : list bytes :=
  List.concat (run_partition cfg (dg_items cfg) item_skip (item_unit cfg)).
(** [gen_new_orders] has no generator to advance. *)
Definition new_order_rows : list bytes :=
  List.concat (run_partition cfg (dg_warehouses cfg) (fun _ => 0) (new_order_unit cfg)).
Definition stock_rows : list bytes :=
  List.concat (run_partition cfg (dg_warehouses cfg) (stock_skip cfg) (stock_unit cfg)).
Definition warehouse_rows : list bytes :=
  List.concat (run_partition cfg (dg_warehouses cfg) warehouse_skip (warehouse_unit cfg)).

(** Per warehouse: the orders with their lines, and whether its loops ran to
    their end. *)
Definition order_units : list (list (bytes * list bytes) * bool) :=
  run_partition cfg (dg_warehouses cfg) (order_skip cfg) (order_unit cfg clock).
End tables.

(** ** The bounds tile the range *)

Section bounds.
Context (n parts : Z).
Context (Hn : 0 < n < 2 ^ 31) (Hparts : 0 < parts < 2 ^ 20).

Let Q := dmag (partition_size n parts).

Lemma partition_size_near : near (Q * parts) (n * 2 ^ 1074).
Proof. apply ddiv_spec; lia. Qed.

Lemma partition_product k : 0 <= k < 2 ^ 21 ->
  dbox 164 (dmul (partition_size n parts) (d_of_Z k)) /\
  near (dmag (dmul (partition_size n parts) (d_of_Z k))) (Q * k).
Proof.
  intros Hk. destruct (ddiv_spec n parts) as [Hb _]; [lia..|].
  destruct (dmul_spec 110 53 (partition_size n parts) (d_of_Z k)) as [Hb' Hn'];
    [done|apply d_of_Z_box; lia|lia..|].
  split; [exact Hb'|]. rewrite d_of_Z_mag, Z.mul_assoc in Hn' by lia.
  apply near_scale in Hn'; [done|]. apply Z.pow_pos_nonneg; lia.
Qed.

(** The rounded bound after [k] partitions. *)
Definition bound (k : Z) : Z := d_round (dmul (partition_size n parts) (d_of_Z k)).

Lemma bound_mono k : 0 <= k < parts -> bound k <= bound (k + 1).
Proof.
  intros Hk. destruct (partition_product k) as [Hb Hnk]; [lia|].
  destruct (partition_product (k + 1)) as [Hb' Hnk']; [lia|].
  eapply d_round_mono; [exact Hb|exact Hb'|].
  unfold near in *. pose proof (dmag_nonneg (partition_size n parts)) as HQ. fold Q in HQ.
  generalize dependent (dmag (dmul (partition_size n parts) (d_of_Z k))).
  generalize dependent (dmag (dmul (partition_size n parts) (d_of_Z (k + 1)))).
  clear Hb Hb'. intros v1 H1 v0 H0.
  assert (v0 * 2 ^ 53 <= Q * k * (2 ^ 53 + 1)) by lia.
  assert (Q * (k + 1) * (2 ^ 53 - 1) <= v1 * 2 ^ 53) by lia.
  assert (Q * k * (2 ^ 53 + 1) <= Q * (k + 1) * (2 ^ 53 - 1)) by nia. lia.
Qed.

Lemma bound_zero : bound 0 = 0.
Proof.
  unfold bound. destruct (ddiv_spec n parts) as [Hb _]; [lia..|].
  fold (partition_size n parts) in Hb.
  by destruct (partition_size n parts) as [[]|[]| |[] m e].
Qed.

Lemma bound_last : bound parts = n.
Proof.
  unfold bound. destruct (partition_product parts) as [Hb Hnp]; [lia|].
  eapply d_round_spec; [exact Hb|].
  pose proof partition_size_near as Hs. unfold near in *.
  assert (0 < 2 ^ 1074) by (apply Z.pow_pos_nonneg; lia).
  generalize dependent (dmag (dmul (partition_size n parts) (d_of_Z parts))).
  generalize dependent (Q * parts). generalize dependent (2 ^ 1074).
  clear Hb. intros u Hu q Hq v Hv. nia.
Qed.

Lemma bound_le k m : 0 <= k <= m -> m <= parts -> bound k <= bound m.
Proof.
  intros Hk Hm. replace m with (k + Z.of_nat (Z.to_nat (m - k))) in * by lia.
  induction (Z.to_nat (m - k)) as [|d IH]; [by rewrite Z.add_0_r|].
  etransitivity; [apply IH; lia|].
  replace (k + Z.of_nat (S d)) with (k + Z.of_nat d + 1) by lia.
  apply bound_mono. lia.
Qed.

Lemma bound_range k : 0 <= k <= parts -> 0 <= bound k <= n.
Proof.
  intros Hk. pose proof (bound_le 0 k ltac:(lia) ltac:(lia)) as H0.
  pose proof (bound_le k parts ltac:(lia) ltac:(lia)) as H1.
  rewrite bound_zero in H0. rewrite bound_last in H1. lia.
Qed.

Lemma partition_start_bound p : 1 <= p <= parts + 1 ->
  partition_start n parts p = bound (p - 1).
Proof.
  intros Hp. unfold partition_start. fold (bound (p - 1)).
  pose proof (bound_range (p - 1)). apply i32_small. lia.
Qed.

Lemma partition_end_bound p : 1 <= p <= parts -> partition_end n parts p = bound p.
Proof.
  intros Hp. unfold partition_end. fold (bound p).
  pose proof (bound_range p). rewrite i32_small by lia.
  destruct (Z.gtb_spec (bound p) n); lia.
Qed.
End bounds.

(** The partitions tile the units: the first starts at 0, each starts
    where the one before ends, the last ends at [n], and no bound runs
    backwards, although they are computed as rounded products of a rounded
    quotient. *)
Theorem partitions_tile n parts :
  0 < n < 2 ^ 31 -> 1 <= parts <= MAX_PARTITIONS ->
  partition_start n parts 1 = 0 /\
  (forall p, 1 <= p <= parts -> partition_start n parts p <= partition_end n parts p) /\
  (forall p, 1 <= p < parts -> partition_start n parts (p + 1) = partition_end n parts p) /\
  partition_end n parts parts = n.
Proof.
  unfold MAX_PARTITIONS. intros Hn Hp. split; [|split; [|split]].
  - rewrite partition_start_bound by lia. apply bound_zero; lia.
  - intros p Hpp. rewrite partition_start_bound, partition_end_bound by lia.
    apply bound_le; lia.
  - intros p Hpp. rewrite partition_start_bound, partition_end_bound by lia.
    f_equal. lia.
  - rewrite partition_end_bound by lia. apply bound_last; lia.
Qed.

(** ** The partitions' rows together are the rows of one run *)

(** The same command line but for [-p] and [-P]. *)
Definition with_part (cfg : datagen_cfg) (p parts : Z) : datagen_cfg :=
  mk_cfg (dg_warehouses cfg) (dg_customers cfg) (dg_items cfg) (dg_orders cfg)
    (dg_new_orders cfg) (mode_load cfg) (mode_string cfg) (delimiter cfg) (null_str cfg)
    (quoter cfg) (seed cfg) (rows_per_commit cfg) (table cfg) p parts (output_path cfg).

Lemma snd_mapM_rng {A B} (f : A -> rngM B) l c g :
  (forall a, consumes (f a) c) -> (mapM_rng f l g).2 = pcg_skip (List.length l * c) g.
Proof. intros H. apply consumes_mapM_const. auto. Qed.

Lemma fst_mapM_rng_app {A B} (f : A -> rngM B) l1 l2 g :
  (mapM_rng f (l1 ++ l2) g).1 = (mapM_rng f l1 g).1 ++ (mapM_rng f l2 (mapM_rng f l1 g).2).1.
Proof.
  rewrite mapM_rng_app. destruct (mapM_rng f l1 g) as [x1 g1]. cbn.
  by destruct (mapM_rng f l2 g1).
Qed.

Section tiling.
Context {A : Type} (cfg : datagen_cfg) (n : Z) (skip : Z -> Z) (unit_ : Z -> rngM A)
        (cost : nat) (parts : Z).
Context (Hn : 0 < n < 2 ^ 31) (Hparts : 1 <= parts <= MAX_PARTITIONS).
Context (Hunit : forall i, consumes (unit_ i) cost).
Context (Hskip : forall s, 0 <= s -> skip s = s * Z.of_nat cost).
Context (Hcost : Z.of_nat cost < 2 ^ 64).

(** The state [k] units into an unpartitioned run. *)
Let at_unit (k : Z) : pcg_state_128 :=
  pcg_skip (Z.to_nat k * cost) (pcg64f_srandom_r (seed cfg)).

Lemma run_partition_slice p : 1 <= p <= parts ->
  run_partition (with_part cfg p parts) n skip unit_
  = (mapM_rng unit_ (zrange (bound n parts (p - 1)) (bound n parts p))
       (at_unit (bound n parts (p - 1)))).1.
Proof.
  intros Hp. unfold MAX_PARTITIONS in *. unfold run_partition. cbn [part partitions seed with_part].
  rewrite partition_start_bound, partition_end_bound by lia.
  pose proof (bound_range n parts ltac:(lia) ltac:(lia) (p - 1) ltac:(lia)) as Hb.
  do 2 f_equal. subst at_unit. cbn beta. destruct (Z.gtb_spec p 1).
  - rewrite Hskip by lia.
    assert (0 <= bound n parts (p - 1) * Z.of_nat cost < 2 ^ 128) by nia.
    rewrite u128_small, advance_r_skip by auto with dbt2.
    f_equal. lia.
  - replace (p - 1) with 0 by lia. rewrite bound_zero by lia. done.
Qed.

Lemma run_partitions_prefix m : 0 <= m <= parts ->
  List.concat (map (fun p => run_partition (with_part cfg p parts) n skip unit_)
                   (zrange 1 (m + 1)))
  = (mapM_rng unit_ (zrange 0 (bound n parts m)) (at_unit 0)).1.
Proof.
  intros Hm. replace m with (Z.of_nat (Z.to_nat m)) in * by lia.
  unfold MAX_PARTITIONS in *.
  induction (Z.to_nat m) as [|k IH].
  - rewrite bound_zero, !zrange_nil by lia. done.
  - rewrite (zrange_snoc 1) by lia. rewrite map_app, concat_app. cbn [map List.concat].
    rewrite app_nil_r.
    replace (Z.of_nat (S k)) with (Z.of_nat k + 1) by lia.
    rewrite IH by lia. rewrite run_partition_slice by lia.
    replace (Z.of_nat k + 1 - 1) with (Z.of_nat k) by lia.
    pose proof (bound_range n parts ltac:(lia) ltac:(lia) (Z.of_nat k) ltac:(lia)) as Hb.
    pose proof (bound_mono n parts ltac:(lia) ltac:(lia) (Z.of_nat k) ltac:(lia)) as Hb'.
    rewrite (zrange_app 0 (bound n parts (Z.of_nat k)) (bound n parts (Z.of_nat k + 1))),
      fst_mapM_rng_app by lia.
    f_equal. f_equal. f_equal. rewrite (snd_mapM_rng _ _ cost) by done.
    subst at_unit. cbn beta. rewrite length_zrange, Z.sub_0_r. done.
Qed.

Lemma run_partitions_all :
  List.concat (map (fun p => run_partition (with_part cfg p parts) n skip unit_)
                   (zrange 1 (parts + 1)))
  = (mapM_rng unit_ (zrange 0 n) (pcg64f_srandom_r (seed cfg))).1.
Proof.
  rewrite run_partitions_prefix by lia.
  rewrite bound_last by (unfold MAX_PARTITIONS in *; lia). done.
Qed.
End tiling.

Lemma run_partitions_concat {A} cfg n skip (unit_ : Z -> rngM A) cost parts :
  0 < n < 2 ^ 31 -> 1 <= parts <= MAX_PARTITIONS ->
  (forall i, consumes (unit_ i) cost) ->
  (forall s, 0 <= s -> skip s = s * Z.of_nat cost) -> Z.of_nat cost < 2 ^ 64 ->
  List.concat (map (fun p => run_partition (with_part cfg p parts) n skip unit_)
                   (zrange 1 (parts + 1)))
  = run_partition (with_part cfg 1 1) n skip unit_.
Proof.
  intros Hn Hp Hu Hs Hc.
  rewrite (run_partitions_all cfg n skip unit_ cost parts) by done.
  rewrite <- (run_partitions_all cfg n skip unit_ cost 1) by (unfold MAX_PARTITIONS; done || lia).
  change (zrange 1 (1 + 1)) with [1]. cbn [map List.concat]. by rewrite app_nil_r.
Qed.

Lemma concat_map_concat {A B} (f : A -> list (list B)) l :
  List.concat (map (fun a => List.concat (f a)) l) = List.concat (List.concat (map f l)).
Proof.
  induction l as [|a l IH]; [done|]. cbn [map List.concat]. by rewrite concat_app, IH.
Qed.

(** Cardinalities that the generators' integer arithmetic holds. *)
Record cardinalities_ok (cfg : datagen_cfg) : Prop := {
  co_warehouses : 0 < dg_warehouses cfg < 2 ^ 31;
  co_items : 0 < dg_items cfg < 2 ^ 31;
  co_customers : 0 <= dg_customers cfg /\ 12 * dg_customers cfg < 2 ^ 31 }.

(** Splitting a command line into [parts] partitions. *)
Definition all_parts {A} (f : datagen_cfg -> list A) (cfg : datagen_cfg) (parts : Z)
  : list A :=
  List.concat (map (fun p => f (with_part cfg p parts)) (zrange 1 (parts + 1))).

Lemma all_parts_run {A} cfg n skip (unit_ : Z -> rngM (list A)) k parts :
  0 < n < 2 ^ 31 -> 1 <= parts <= MAX_PARTITIONS ->
  (forall i, consumes (unit_ i) (Z.to_nat k)) ->
  0 <= k < 2 ^ 64 -> (forall s, skip s = s * k) ->
  List.concat (map (fun p => List.concat (run_partition (with_part cfg p parts) n skip unit_))
                   (zrange 1 (parts + 1)))
  = List.concat (run_partition (with_part cfg 1 1) n skip unit_).
Proof.
  intros. rewrite concat_map_concat. f_equal.
  apply (run_partitions_concat _ _ _ _ (Z.to_nat k)); rewrite ?Z2Nat.id by lia; auto; lia.
Qed.

(** C10. For the same seed, the rows of partitions 1 to [parts], one after the
    other, are the rows of an unpartitioned run, in every table whose rows a
    warehouse or an item determines: the advance arguments of the sources count
    the draws of the skipped part exactly. *)
Theorem partitioned_rows_complete cfg clock parts :
  cardinalities_ok cfg -> 1 <= parts <= MAX_PARTITIONS ->
  all_parts (fun c => customer_rows c clock) cfg parts = customer_rows (with_part cfg 1 1) clock /\
  all_parts district_rows cfg parts = district_rows (with_part cfg 1 1) /\
  all_parts (fun c => history_rows c clock) cfg parts = history_rows (with_part cfg 1 1) clock /\
  all_parts item_rows cfg parts = item_rows (with_part cfg 1 1) /\
  all_parts new_order_rows cfg parts = new_order_rows (with_part cfg 1 1) /\
  all_parts stock_rows cfg parts = stock_rows (with_part cfg 1 1) /\
  all_parts warehouse_rows cfg parts = warehouse_rows (with_part cfg 1 1).
Proof.
  intros [Hw Hi [Hc Hc']] Hp.
  pose proof (consumes_customer_unit cfg clock) as Hcu.
  pose proof (consumes_history_unit cfg clock) as Hhu.
  pose proof (consumes_stock_unit cfg) as Hsu.
  assert (Hkc : 0 <= dg_customers cfg * 10
     + (if dg_customers cfg >? 1000 then 2 * (dg_customers cfg - 1000) else 0) < 2 ^ 31)
    by (destruct (Z.gtb_spec (dg_customers cfg) 1000); lia).
  unfold DISTRICT_CARDINALITY in *. unfold all_parts.
  split; [|split; [|split; [|split; [|split; [|split]]]]].
  - eapply (all_parts_run cfg (dg_warehouses cfg) (customer_skip cfg) (customer_unit cfg clock));
      [done|done|auto|lia|intros; unfold customer_skip; symmetry; apply Z.mul_assoc].
  - apply (all_parts_run cfg (dg_warehouses cfg) district_skip (district_unit cfg) 70);
      [done|done|apply consumes_district_unit|lia|].
    intros. unfold district_skip, DISTRICT_CARDINALITY. lia.
  - eapply (all_parts_run cfg (dg_warehouses cfg) (history_skip cfg) (history_unit cfg clock));
      [done|done|auto|lia|intros; unfold history_skip; symmetry; apply Z.mul_assoc].
  - by apply (all_parts_run cfg (dg_items cfg) item_skip (item_unit cfg) 5);
      try apply consumes_item_unit.
  - apply (all_parts_run cfg (dg_warehouses cfg) (fun _ => 0) (new_order_unit cfg) 0);
      [done|done|apply consumes_new_order_unit|lia|lia].
  - eapply (all_parts_run cfg (dg_warehouses cfg) (stock_skip cfg) (stock_unit cfg));
      [done|done|intros; apply Hsu; lia|lia|
      intros; unfold stock_skip; symmetry; apply Z.mul_assoc].
  - by apply (all_parts_run cfg (dg_warehouses cfg) warehouse_skip (warehouse_unit cfg) 7);
      try apply consumes_warehouse_unit.
Qed.

(** C11. The same holds of the orders and their lines, whose draws also count
    the random walk that permutes the customers; and when there are no more
    orders than customers, no district reaches the [exit(1)] of the loop. *)
Theorem partitioned_orders_complete cfg clock parts :
  cardinalities_ok cfg -> orders_ok cfg -> 1 <= parts <= MAX_PARTITIONS ->
  all_parts (fun c => order_units c clock) cfg parts = order_units (with_part cfg 1 1) clock /\
  Forall finished (order_units (with_part cfg 1 1) clock).
Proof.
  intros [Hw _ [_ Hc]] Hok Hp. pose proof Hok as [Hc1 Ho].
  assert (Hd : 0 <= district_draws cfg < 2 ^ 32)
    by (unfold district_draws; destruct (Z.ltb_spec (dg_orders cfg) 2101); lia).
  split.
  - unfold all_parts, order_units.
    apply (run_partitions_concat cfg (dg_warehouses cfg) (order_skip cfg) (order_unit cfg clock)
             (Z.to_nat (DISTRICT_CARDINALITY * district_draws cfg)));
      [done|done|intros; by apply consumes_order_unit|..];
      unfold DISTRICT_CARDINALITY; rewrite ?Z2Nat.id by lia; [|lia].
    intros. symmetry; apply Z.mul_assoc.
  - unfold order_units, run_partition.
    apply returns_mapM. intros i _. by apply returns_order_unit.
Qed.

(** ** Witnesses *)

Lemma small_cfg_cardinalities : cardinalities_ok small_cfg.
Proof. constructor; vm_compute; intuition congruence. Qed.

Lemma small_cfg_orders : orders_ok small_cfg.
Proof. vm_compute. intuition congruence. Qed.

Lemma partitions_tile_witness :
  map (partition_start 7 3) [1; 2; 3] = [0; 2; 5] /\
  map (partition_end 7 3) [1; 2; 3] = [2; 5; 7] /\
  partition_start 7 3 1 = 0 /\
  (forall p, 1 <= p <= 3 -> partition_start 7 3 p <= partition_end 7 3 p) /\
  (forall p, 1 <= p < 3 -> partition_start 7 3 (p + 1) = partition_end 7 3 p) /\
  partition_end 7 3 3 = 7.
Proof.
  split; [vm_compute; reflexivity|]. split; [vm_compute; reflexivity|].
  apply (partitions_tile 7 3); unfold MAX_PARTITIONS; lia.
Defined.

Lemma partitioned_rows_complete_witness :
  all_parts item_rows small_cfg 2 = item_rows (with_part small_cfg 1 1) /\
  List.length (item_rows (with_part small_cfg 2 2)) = 2%nat.
Proof.
  split; [|vm_compute; reflexivity].
  apply (partitioned_rows_complete small_cfg stopped_clock 2);
    [apply small_cfg_cardinalities|unfold MAX_PARTITIONS; lia].
Defined.

Lemma partitioned_orders_complete_witness :
  all_parts (fun c => order_units c stopped_clock) small_cfg 2
  = order_units (with_part small_cfg 1 1) stopped_clock /\
  Forall finished (order_units (with_part small_cfg 1 1) stopped_clock).
Proof.
  apply (partitioned_orders_complete small_cfg stopped_clock 2);
    [apply small_cfg_cardinalities|apply small_cfg_orders|unfold MAX_PARTITIONS; lia].
Defined.
