(* ===== verification/DatagenOut.v ===== *)
(** * Output of the data generator ([src/datagen.c])

    How the [gen_*] functions open their output (a file, or a pipe to psql),
    write their rows in batches of [rows_per_commit], and close it.  The calls
    that leave the process are the events of a trace; whether [fopen] and
    [popen] succeed is a parameter. *)

From Stdlib Require Import ZArith Lia String.
From stdpp Require Import base list.
From S2P Require Import Prelude Double Pcg Text Common DatagenRows DatagenOrders DatagenPart.

(** [FILE *output] (or [order]), and [FILE *order_line]. *)
Inductive handle := Output | OrderLine.

#[export] Instance handle_eq_dec : EqDecision handle.
Proof. solve_decision. Defined.

Inductive event :=
| EPrintf (s : bytes)
| EFopen (h : handle) (name : bytes)
| EPopen (h : handle) (cmd : bytes)
| EWrite (h : handle) (s : bytes)
| EFclose (h : handle)
| EPclose (h : handle)
| EExit (status : Z)
| EUndefined (** the source goes on with an uninitialised or null stream *).

(** A line of text, and the line that ends the data of a COPY. *)
Definition line (s : String.string) : bytes := lit s ++ [NL].
Definition copy_end : bytes := line "\.".

(** [strncat(filename, s, 1023 - strlen(filename))] *)
Definition strncat_filename (filename s : bytes) : bytes :=
  filename ++ take (1023 - List.length filename) s.

Section output.
Context (cfg : datagen_cfg).
Context (fopen_ok : bytes -> bool) (popen_ok : handle -> bool).

Definition flat_filename (data : bytes) : bytes :=
  let filename :=
    match output_path cfg with
    | Some p => strncat_filename (take 1023 p) (lit "/")
    | None => []
    end in
  let filename := strncat_filename filename data in
  if partitions cfg >? 1 then
    let temp := take 4 (fmt_d (part cfg)) in
    strncat_filename (strncat_filename filename (lit ".")) temp
  else filename.

Definition open_flat (h : handle) (data : bytes) : list event * bool :=
  let filename := flat_filename data in
  if fopen_ok filename then ([EFopen h filename], true)
  else ([EFopen h filename; EPrintf (lit "cannot open " ++ data ++ [NL])], false).

(** ["COPY %s FROM STDIN DELIMITER '%c' NULL '%s';\n"] *)
Definition copy_stmt (tbl : bytes) : bytes :=
  lit "COPY " ++ tbl ++ lit " FROM STDIN DELIMITER '" ++ [delimiter cfg]
  ++ lit "' NULL '" ++ null_str cfg ++ line "';".

Definition open_direct (h : handle) (tbl : bytes) : list event * bool :=
  if popen_ok h then
    ([EPopen h (lit "psql"); EWrite h (line "BEGIN;")]
     ++ (if partitions cfg =? 1
         then [EWrite h (lit "TRUNCATE " ++ tbl ++ line ";")] else [])
     ++ [EWrite h (copy_stmt tbl)], true)
  else ([EPopen h (lit "psql");
         EPrintf (line "error cannot open pipe for direct load")], false).

Definition open_output (h : handle) (data tbl : bytes) : list event * bool :=
  if mode_load cfg =? MODE_FLAT then open_flat h data
  else if mode_load cfg =? MODE_DIRECT then
    if mode_string cfg =? MODE_PGSQL then open_direct h tbl else ([EUndefined], false)
  else ([EPrintf (lit "error unknown load mode: " ++ fmt_d (mode_load cfg) ++ [NL]);
         EUndefined], false).

(** End the COPY, commit, and begin the next transaction's COPY. *)
Definition commit_batch (h : handle) (tbl : bytes) : list event :=
  if mode_string cfg =? MODE_PGSQL then
    [EWrite h copy_end; EWrite h (line "COMMIT;"); EWrite h (line "BEGIN;");
     EWrite h (copy_stmt tbl)]
  else [].

(** One row; [rows] counts them only when [rows_per_commit] is set. *)
Definition emit_row (h : handle) (tbl : bytes) (rows : Z) (r : bytes) : list event * Z :=
  if rows_per_commit cfg =? 0 then ([EWrite h r], rows)
  else if (rows + 1) mod rows_per_commit cfg =? 0
       then (EWrite h r :: commit_batch h tbl, rows + 1)
       else ([EWrite h r], rows + 1).

Fixpoint emit_rows (h : handle) (tbl : bytes) (rows : Z) (rs : list bytes)
  : list event * Z :=
  match rs with
  | [] => ([], rows)
  | r :: rs' =>
      let '(e, rows) := emit_row h tbl rows r in
      let '(es, rows) := emit_rows h tbl rows rs' in
      (e ++ es, rows)
  end.

Definition close_output (h : handle) : list event :=
  if mode_load cfg =? MODE_FLAT then [EFclose h]
  else if mode_string cfg =? MODE_PGSQL
       then [EWrite h copy_end; EWrite h (line "COMMIT;"); EPclose h]
       else [].

(** ["... %d to %d...\n"] *)
Definition span_message (s : String.string) (n : Z) : event :=
  EPrintf (lit s ++ fmt_d (partition_start n (partitions cfg) (part cfg) + 1)
           ++ lit " to " ++ fmt_d (partition_end n (partitions cfg) (part cfg))
           ++ line "...").

(** The frame shared by the generators of one stream. *)
Definition gen_table (data tbl : bytes) (generating finished_ : event) (rs : list bytes)
  : list event :=
  let '(opened, ok) := open_output Output data tbl in
  generating :: opened
  ++ (if ok : bool then (emit_rows Output tbl 0 rs).1 ++ close_output Output ++ [finished_]
      else []).

Context (clock : list Z -> tm).

Definition gen_customers : list event :=
  gen_table (lit "customer.data") (lit "customer")
    (span_message "Generating customer table data for warehouse " (dg_warehouses cfg))
    (span_message "Finished customer table data for warehouse " (dg_warehouses cfg))
    (customer_rows cfg clock).

Definition gen_districts : list event :=
  gen_table (lit "district.data") (lit "district")
    (span_message "Generating district table data for warehouse " (dg_warehouses cfg))
    (span_message "Finished district table data for warehouse " (dg_warehouses cfg))
    (district_rows cfg).

Definition gen_history : list event :=
  gen_table (lit "history.data") (lit "history")
    (span_message "Generating history table data from warehouse " (dg_warehouses cfg))
    (span_message "Finished history table data for warehouse " (dg_warehouses cfg))
    (history_rows cfg clock).

Definition gen_items : list event :=
  gen_table (lit "item.data") (lit "item")
    (span_message "Generating item table data from " (dg_items cfg))
    (span_message "Finished item table data from " (dg_items cfg))
    (item_rows cfg).

Definition gen_new_orders : list event :=
  gen_table (lit "new_order.data") (lit "new_order")
    (span_message "Generating new-order table data for warehouse " (dg_warehouses cfg))
    (span_message "Finished new-order table data for warehouse " (dg_warehouses cfg))
    (new_order_rows cfg).

Definition gen_stock : list event :=
  gen_table (lit "stock.data") (lit "stock")
    (span_message "Generating stock table data for warehouse " (dg_warehouses cfg))
    (span_message "Finished stock table data for warehouse " (dg_warehouses cfg))
    (stock_rows cfg).

Definition gen_warehouses : list event :=
  gen_table (lit "warehouse.data") (lit "warehouse")
    (span_message "Generating warehouse table data " (dg_warehouses cfg))
    (span_message "Finished warehouse table data " (dg_warehouses cfg))
    (warehouse_rows cfg).

(** Orders and their lines, each stream with its own row counter. *)
Fixpoint emit_orders (rowso rowsol : Z) (orders : list (bytes * list bytes)) : list event :=
  match orders with
  | [] => []
  | (o, lines) :: orders' =>
      let '(eo, rowso) := emit_row Output (lit "orders") rowso o in
      let '(el, rowsol) := emit_rows OrderLine (lit "order_line") rowsol lines in
      eo ++ el ++ emit_orders rowso rowsol orders'
  end.

(** The loop over the warehouses stops at an [exit(1)]. *)
Fixpoint until_exit (units : list (list (bytes * list bytes) * bool))
  : list (bytes * list bytes) * bool :=
  match units with
  | [] => ([], true)
  | (rows, true) :: units' =>
      let rest := until_exit units' in (rows ++ rest.1, rest.2)
  | (rows, false) :: _ => (rows, false)
  end.

Definition close_orders : list event :=
  if mode_load cfg =? MODE_FLAT then [EFclose Output; EFclose OrderLine]
  else if mode_string cfg =? MODE_PGSQL
       then [EWrite Output copy_end; EWrite OrderLine copy_end;
             EWrite Output (line "COMMIT;"); EWrite OrderLine (line "COMMIT;");
             EPclose Output; EPclose OrderLine]
       else [].

Definition gen_orders : list event :=
  let '(opened, ok) := open_output Output (lit "order.data") (lit "orders") in
  let '(opened', ok') := open_output OrderLine (lit "order_line.data") (lit "order_line") in
  let '(rows, completed) := until_exit (order_units cfg clock) in
  span_message "Generating order and order-line table data for warehouse "
    (dg_warehouses cfg)
  :: opened
  ++ (if ok : bool then
        opened'
        ++ (if ok' : bool then
              emit_orders 0 0 rows
              ++ (if completed : bool then
                    close_orders
                    ++ [span_message "Finished order and order-line table data for warehouse "
                          (dg_warehouses cfg)]
                  else [EPrintf (line "error generating order & order_line data"); EExit 1])
            else [])
      else []).
End output.

(** ** What reaches a stream *)

Fixpoint written (h : handle) (es : list event) : bytes :=
  match es with
  | EWrite h' s :: es' => if decide (h' = h) then s ++ written h es' else written h es'
  | _ :: es' => written h es'
  | [] => []
  end.

Lemma written_app h es1 es2 : written h (es1 ++ es2) = written h es1 ++ written h es2.
Proof.
  induction es1 as [|e es1 IH]; [done|].
  destruct e; cbn [written app]; rewrite IH; try done.
  destruct (decide _); [by rewrite app_assoc|done].
Qed.

(** Every batch but the last has [n] rows, counting [used] rows already in the
    first one, and the last has fewer. *)
Fixpoint full_but_last (n used : Z) (batches : list (list bytes)) : Prop :=
  match batches with
  | [] => False
  | [b] => used + zlen b < n
  | b :: bs => used + zlen b = n /\ full_but_last n 0 bs
  end.

Section written.
Context (cfg : datagen_cfg).
Context (fopen_ok : bytes -> bool) (popen_ok : handle -> bool).

Definition batch_end : bytes := copy_end ++ line "COMMIT;".
Definition batch_text (tbl : bytes) (b : list bytes) : bytes :=
  line "BEGIN;" ++ copy_stmt cfg tbl ++ List.concat b ++ batch_end.

(** The script of a load: transactions of one COPY each, the first one
    truncating the table unless other partitions write it too. *)
Definition load_script (tbl : bytes) (b : list bytes) (bs : list (list bytes)) : bytes :=
  line "BEGIN;"
  ++ (if partitions cfg =? 1 then lit "TRUNCATE " ++ tbl ++ line ";" else [])
  ++ copy_stmt cfg tbl ++ List.concat b ++ batch_end
  ++ List.concat (map (batch_text tbl) bs).

(** A division of the rows into the transactions of a load. *)
Definition batching (rows : list bytes) (b : list bytes) (bs : list (list bytes)) : Prop :=
  List.concat (b :: bs) = rows /\
  (rows_per_commit cfg = 0 -> bs = []) /\
  (0 < rows_per_commit cfg -> full_but_last (rows_per_commit cfg) 0 (b :: bs)).

Lemma written_emit_plain h tbl n rs :
  rows_per_commit cfg = 0 ->
  written h (emit_rows cfg h tbl n rs).1 = List.concat rs.
Proof.
  intros H0. revert n. induction rs as [|r rs IH]; intros n; [done|].
  cbn [emit_rows]. unfold emit_row. rewrite H0. cbn [Z.eqb].
  specialize (IH n). destruct (emit_rows _ _ _ _ _) as [es c]. cbn in *.
  rewrite decide_True by done. by rewrite IH.
Qed.

Lemma written_commit_batch h tbl :
  mode_string cfg = MODE_PGSQL ->
  written h (commit_batch cfg h tbl) = batch_end ++ line "BEGIN;" ++ copy_stmt cfg tbl.
Proof.
  intros Hm. unfold commit_batch, batch_end. rewrite Hm, Z.eqb_refl. cbn [written].
  rewrite !decide_True by done. by rewrite app_nil_r, <- app_assoc.
Qed.

Lemma succ_mod_cases n c : 0 < n -> 0 <= c ->
  ((c + 1) mod n = 0 /\ c mod n + 1 = n) \/
  ((c + 1) mod n <> 0 /\ (c + 1) mod n = c mod n + 1).
Proof.
  intros Hn Hc. pose proof (Z.mod_pos_bound c n Hn).
  pose proof (Z.div_mod c n ltac:(lia)).
  destruct (decide (c mod n + 1 = n)).
  - left. split; [|done]. symmetry. apply Z.mod_unique with (c / n + 1); lia.
  - right. enough ((c + 1) mod n = c mod n + 1) by lia.
    symmetry. apply Z.mod_unique with (c / n); lia.
Qed.

Lemma written_emit_batches h tbl n rs :
  mode_string cfg = MODE_PGSQL -> 0 < rows_per_commit cfg -> 0 <= n ->
  exists b bs,
    List.concat (b :: bs) = rs /\
    full_but_last (rows_per_commit cfg) (n mod rows_per_commit cfg) (b :: bs) /\
    written h (emit_rows cfg h tbl n rs).1 ++ batch_end
    = List.concat b ++ batch_end ++ List.concat (map (batch_text tbl) bs).
Proof.
  intros Hm Hr. revert n. induction rs as [|r rs IH]; intros n Hn.
  - exists [], []. split; [done|].
    split; [cbn [full_but_last]; unfold zlen; cbn [List.length]; pose proof (Z.mod_pos_bound n _ Hr); lia|].
    done.
  - destruct (IH (n + 1)) as (b & bs & Hcat & Hfull & Htext); [lia|].
    cbn [emit_rows]. unfold emit_row. rewrite (proj2 (Z.eqb_neq _ 0)) by lia.
    destruct (succ_mod_cases (rows_per_commit cfg) n Hr Hn) as [[H0 Hs]|[H0 Hs]].
    + exists [r], (b :: bs). rewrite H0 in *. cbn [Z.eqb].
      destruct (emit_rows _ _ _ _ _) as [es c]. cbn [fst] in *.
      split; [cbn in *; by rewrite Hcat|]. split; [by split; [cbn [full_but_last]; unfold zlen; cbn [List.length]; lia|]|].
      rewrite written_app. cbn [written]. rewrite decide_True by done.
      rewrite written_commit_batch by done. rewrite <- !app_assoc, Htext.
      cbn [map List.concat]. unfold batch_text at 2. by rewrite <- !app_assoc.
    + exists (r :: b), bs. rewrite (proj2 (Z.eqb_neq _ 0)) by done.
      destruct (emit_rows _ _ _ _ _) as [es c]. cbn [fst] in *.
      split; [cbn in *; by rewrite Hcat|]. split.
      * rewrite Hs in Hfull. destruct bs; cbn [full_but_last] in *; unfold zlen in *;
          cbn [List.length]; [lia|]. split; [lia|apply Hfull].
      * cbn [app written]. rewrite decide_True by done. rewrite <- !app_assoc, Htext.
        cbn [List.concat]. by rewrite <- !app_assoc.
Qed.

Lemma written_emit h tbl rs :
  mode_string cfg = MODE_PGSQL -> 0 <= rows_per_commit cfg ->
  exists b bs, batching rs b bs /\
    written h (emit_rows cfg h tbl 0 rs).1 ++ batch_end
    = List.concat b ++ batch_end ++ List.concat (map (batch_text tbl) bs).
Proof.
  intros Hm Hr. destruct (decide (rows_per_commit cfg = 0)) as [H0|H0].
  - exists rs, []. split; [split; [apply app_nil_r|split; [done|lia]]|].
    rewrite written_emit_plain by done. cbn [map List.concat]. by rewrite app_nil_r.
  - destruct (written_emit_batches h tbl 0 rs) as (b & bs & H1 & H2 & H3); [done|lia..|].
    exists b, bs. rewrite Z.mod_0_l in H2 by done. split; [|done].
    split; [done|]. split; [lia|done].
Qed.
End written.

Section emit_orders.
Context (cfg : datagen_cfg).

Lemma written_emit_other h h' tbl n rs :
  h' <> h -> written h (emit_rows cfg h' tbl n rs).1 = [].
Proof.
  intros Hh. revert n. induction rs as [|r rs IH]; intros n; [done|].
  cbn [emit_rows]. unfold emit_row, commit_batch.
  pose proof (IH n) as IH0. specialize (IH (n + 1)).
  destruct (rows_per_commit cfg =? 0), ((n + 1) mod rows_per_commit cfg =? 0),
    (mode_string cfg =? MODE_PGSQL); cbv iota beta;
    destruct (emit_rows cfg h' tbl n rs), (emit_rows cfg h' tbl (n + 1) rs); cbn [app written fst] in *;
    rewrite ?decide_False by done; done.
Qed.

Lemma emit_rows_app h tbl n rs1 rs2 :
  emit_rows cfg h tbl n (rs1 ++ rs2)
  = let '(e1, n) := emit_rows cfg h tbl n rs1 in
    let '(e2, n) := emit_rows cfg h tbl n rs2 in (e1 ++ e2, n).
Proof.
  revert n. induction rs1 as [|r rs1 IH]; intros n; cbn [emit_rows app].
  - by destruct (emit_rows _ _ _ _ _).
  - destruct (emit_row _ _ _ _ _) as [e m]. rewrite IH.
    destruct (emit_rows _ _ _ m rs1) as [e1 m1].
    destruct (emit_rows _ _ _ m1 rs2) as [e2 m2]. by rewrite app_assoc.
Qed.

Lemma emit_row_rows h tbl n r : emit_row cfg h tbl n r = emit_rows cfg h tbl n [r].
Proof. cbn [emit_rows]. destruct (emit_row _ _ _ _ _). by rewrite app_nil_r. Qed.

(** The two streams of the orders do not see each other's rows. *)
Lemma written_emit_orders os n m :
  written Output (emit_orders cfg n m os)
  = written Output (emit_rows cfg Output (lit "orders") n (map fst os)).1 /\
  written OrderLine (emit_orders cfg n m os)
  = written OrderLine (emit_rows cfg OrderLine (lit "order_line") m
                         (List.concat (map snd os))).1.
Proof.
  revert n m. induction os as [|[o ls] os IH]; intros n m; [done|].
  change (map fst ((o, ls) :: os)) with ([o] ++ map fst os).
  change (List.concat (map snd ((o, ls) :: os))) with (ls ++ List.concat (map snd os)).
  cbn [emit_orders].
  rewrite (emit_rows_app Output), (emit_rows_app OrderLine), emit_row_rows.
  pose proof (written_emit_other OrderLine Output (lit "orders") n [o] ltac:(done)) as Ho.
  pose proof (written_emit_other Output OrderLine (lit "order_line") m ls ltac:(done)) as Hl.
  cbn [snd fst]. destruct (emit_rows _ Output _ n [o]) as [eo n'].
  destruct (emit_rows _ OrderLine _ m ls) as [el m'].
  destruct (IH n' m') as [IHo IHl]. cbn [fst] in *.
  destruct (emit_rows _ Output _ n' _) as [eo' n'']. cbn [fst] in *.
  destruct (emit_rows _ OrderLine _ m' _) as [el' m'']. cbn [fst] in *.
  by rewrite !written_app, Ho, Hl, IHo, IHl.
Qed.
End emit_orders.

(** ** The generators *)

Section generators.
Context (cfg : datagen_cfg) (clock : list Z -> tm).
Context (fopen_ok : bytes -> bool) (popen_ok : handle -> bool).

(** A table written to a file: the file holds the rows and nothing else. *)
Definition flat_file (es : list event) (data : bytes) (rows : list bytes) : Prop :=
  exists m1 m2 ws,
    es = EPrintf m1 :: EFopen Output (flat_filename cfg data) :: ws
         ++ [EFclose Output; EPrintf m2] /\
    Forall (fun e => exists r, e = EWrite Output r) ws /\
    written Output es = List.concat rows.

(** A table loaded through psql. *)
Definition direct_load (es : list event) (h : handle) (tbl : bytes) (rows : list bytes)
  : Prop :=
  exists b bs, batching cfg rows b bs /\ written h es = load_script cfg tbl b bs.

Lemma emit_rows_writes h tbl n rs :
  Forall (fun e => exists r, e = EWrite h r) (emit_rows cfg h tbl n rs).1.
Proof.
  revert n. induction rs as [|r rs IH]; intros n; [constructor|].
  cbn [emit_rows]. unfold emit_row, commit_batch.
  pose proof (IH n) as IH0. specialize (IH (n + 1)).
  destruct (rows_per_commit cfg =? 0), ((n + 1) mod rows_per_commit cfg =? 0),
    (mode_string cfg =? MODE_PGSQL); cbv iota beta;
    destruct (emit_rows cfg h tbl n rs), (emit_rows cfg h tbl (n + 1) rs); cbn [app fst] in *;
    repeat constructor; eauto.
Qed.

Lemma gen_table_flat data tbl m1 m2 rs :
  mode_load cfg = MODE_FLAT -> rows_per_commit cfg = 0 ->
  fopen_ok (flat_filename cfg data) = true ->
  flat_file (gen_table cfg fopen_ok popen_ok data tbl (EPrintf m1) (EPrintf m2) rs) data rs.
Proof.
  intros Hm H0 Hopen. exists m1, m2, (emit_rows cfg Output tbl 0 rs).1.
  unfold gen_table, open_output, open_flat, close_output.
  rewrite Hm, Z.eqb_refl, Hopen. split; [done|]. split; [apply emit_rows_writes|].
  cbn [written app]. rewrite written_app, written_emit_plain by done. apply app_nil_r.
Qed.

Lemma written_open_direct h h' tbl :
  popen_ok h' = true ->
  written h (open_direct cfg popen_ok h' tbl).1
  = if decide (h' = h)
    then line "BEGIN;"
         ++ (if partitions cfg =? 1 then lit "TRUNCATE " ++ tbl ++ line ";" else [])
         ++ copy_stmt cfg tbl
    else [].
Proof.
  intros Hopen. unfold open_direct. rewrite Hopen. cbn [fst]. rewrite !written_app.
  destruct (decide (h' = h)) as [->|Hne], (partitions cfg =? 1); cbn [written];
    rewrite ?decide_True, ?decide_False by done; by rewrite ?app_nil_r.
Qed.

Lemma open_direct_ok h tbl :
  popen_ok h = true -> (open_direct cfg popen_ok h tbl).2 = true.
Proof. intros Hopen. unfold open_direct. by rewrite Hopen. Qed.

Lemma direct_load_written es h tbl rs :
  mode_string cfg = MODE_PGSQL -> 0 <= rows_per_commit cfg -> popen_ok h = true ->
  written h es = written h (open_direct cfg popen_ok h tbl).1
                 ++ written h (emit_rows cfg h tbl 0 rs).1 ++ batch_end ->
  direct_load es h tbl rs.
Proof.
  intros Hs Hr Hopen Hes.
  destruct (written_emit cfg h tbl rs) as (b & bs & Hb & Htext); [done..|].
  exists b, bs. split; [done|].
  rewrite Hes, Htext, written_open_direct, decide_True by done.
  unfold load_script. by rewrite <- !app_assoc.
Qed.

Lemma gen_table_direct data tbl m1 m2 rs :
  mode_load cfg = MODE_DIRECT -> mode_string cfg = MODE_PGSQL ->
  0 <= rows_per_commit cfg -> popen_ok Output = true ->
  direct_load (gen_table cfg fopen_ok popen_ok data tbl (EPrintf m1) (EPrintf m2) rs)
    Output tbl rs.
Proof.
  intros Hm Hs Hr Hopen. apply direct_load_written; [done..|].
  pose proof (open_direct_ok Output tbl Hopen) as Hok.
  unfold gen_table, open_output, close_output. rewrite Hm, Hs, !Z.eqb_refl.
  change (MODE_DIRECT =? MODE_FLAT) with false. cbv iota.
  destruct (open_direct _ _ _ _) as [opened ok]. cbn [fst snd] in *. subst ok.
  cbn [written]. rewrite !written_app. cbn [written]. rewrite !decide_True by done.
  by rewrite app_nil_r.
Qed.

Lemma gen_orders_direct os :
  mode_load cfg = MODE_DIRECT -> mode_string cfg = MODE_PGSQL ->
  0 <= rows_per_commit cfg -> (forall h, popen_ok h = true) ->
  until_exit (order_units cfg clock) = (os, true) ->
  direct_load (gen_orders cfg fopen_ok popen_ok clock) Output (lit "orders") (map fst os) /\
  direct_load (gen_orders cfg fopen_ok popen_ok clock) OrderLine (lit "order_line")
    (List.concat (map snd os)).
Proof.
  intros Hm Hs Hr Hopen Hos.
  destruct (written_emit_orders cfg os 0 0) as [Ho Hl].
  pose proof (written_open_direct OrderLine Output (lit "orders") (Hopen _)) as Hw1.
  pose proof (written_open_direct Output OrderLine (lit "order_line") (Hopen _)) as Hw2.
  rewrite decide_False in Hw1 by done. rewrite decide_False in Hw2 by done.
  pose proof (open_direct_ok Output (lit "orders") (Hopen _)) as Hok.
  pose proof (open_direct_ok OrderLine (lit "order_line") (Hopen _)) as Hok'.
  split; apply direct_load_written; try done;
    unfold gen_orders, open_output, close_orders; rewrite Hos, Hm, Hs, !Z.eqb_refl;
    change (MODE_DIRECT =? MODE_FLAT) with false; cbv iota;
    destruct (open_direct _ _ Output _) as [opened ok];
    destruct (open_direct _ _ OrderLine _) as [opened' ok']; cbn [fst snd] in *; subst ok ok';
    cbn [written]; rewrite !written_app, ?Ho, ?Hl, ?Hw1, ?Hw2; cbn [written];
    rewrite ?decide_True, ?decide_False by done; by rewrite app_nil_r.
Qed.
End generators.

Lemma until_exit_finished units :
  Forall finished units -> until_exit units = (List.concat (map fst units), true).
Proof.
  induction 1 as [|[rows []] units Hu _ IH]; [done| |done].
  cbn [until_exit map List.concat]. by rewrite IH.
Qed.

(** Without [--direct], every table's file holds exactly the table's rows,
    in order: the trace is the banner, the [fopen] of the table's file name,
    writes, and the [fclose]; the two files of the orders hold the orders and
    the lines of all orders that the loops reached. *)
Theorem gen_flat_files cfg clock fopen_ok popen_ok :
  mode_load cfg = MODE_FLAT -> rows_per_commit cfg = 0 ->
  (forall f, fopen_ok f = true) ->
  flat_file cfg (gen_customers cfg fopen_ok popen_ok clock) (lit "customer.data")
    (customer_rows cfg clock) /\
  flat_file cfg (gen_districts cfg fopen_ok popen_ok) (lit "district.data")
    (district_rows cfg) /\
  flat_file cfg (gen_history cfg fopen_ok popen_ok clock) (lit "history.data")
    (history_rows cfg clock) /\
  flat_file cfg (gen_items cfg fopen_ok popen_ok) (lit "item.data") (item_rows cfg) /\
  flat_file cfg (gen_new_orders cfg fopen_ok popen_ok) (lit "new_order.data")
    (new_order_rows cfg) /\
  flat_file cfg (gen_stock cfg fopen_ok popen_ok) (lit "stock.data") (stock_rows cfg) /\
  flat_file cfg (gen_warehouses cfg fopen_ok popen_ok) (lit "warehouse.data")
    (warehouse_rows cfg) /\
  let os := (until_exit (order_units cfg clock)).1 in
  written Output (gen_orders cfg fopen_ok popen_ok clock) = List.concat (map fst os) /\
  written OrderLine (gen_orders cfg fopen_ok popen_ok clock)
  = List.concat (List.concat (map snd os)).
Proof.
  intros Hm H0 Hopen. do 7 (split; [by apply gen_table_flat|]).
  unfold gen_orders, open_output, open_flat, close_orders. rewrite Hm, !Z.eqb_refl, !Hopen.
  destruct (until_exit _) as [os completed]. cbn [fst].
  pose proof (written_emit_orders cfg os 0 0) as [Ho Hl].
  rewrite !written_emit_plain in Ho, Hl by done.
  split; cbn [written app]; rewrite written_app, ?Ho, ?Hl; destruct completed; apply app_nil_r.
Qed.

(** With [--direct], what every table's psql receives is a sequence of
    transactions, each [BEGIN; COPY ... FROM STDIN; rows \. COMMIT;], whose
    rows together are the table's rows in order.  With [--rows-per-commit n]
    every transaction but the last carries [n] rows and the last fewer; without
    it there is one transaction.  Only an unpartitioned load truncates. *)
Theorem gen_direct_loads cfg clock fopen_ok popen_ok :
  mode_load cfg = MODE_DIRECT -> mode_string cfg = MODE_PGSQL ->
  0 <= rows_per_commit cfg -> (forall h, popen_ok h = true) ->
  direct_load cfg (gen_customers cfg fopen_ok popen_ok clock) Output (lit "customer")
    (customer_rows cfg clock) /\
  direct_load cfg (gen_districts cfg fopen_ok popen_ok) Output (lit "district")
    (district_rows cfg) /\
  direct_load cfg (gen_history cfg fopen_ok popen_ok clock) Output (lit "history")
    (history_rows cfg clock) /\
  direct_load cfg (gen_items cfg fopen_ok popen_ok) Output (lit "item") (item_rows cfg) /\
  direct_load cfg (gen_new_orders cfg fopen_ok popen_ok) Output (lit "new_order")
    (new_order_rows cfg) /\
  direct_load cfg (gen_stock cfg fopen_ok popen_ok) Output (lit "stock") (stock_rows cfg) /\
  direct_load cfg (gen_warehouses cfg fopen_ok popen_ok) Output (lit "warehouse")
    (warehouse_rows cfg) /\
  (Forall finished (order_units cfg clock) ->
   let os := List.concat (map fst (order_units cfg clock)) in
   direct_load cfg (gen_orders cfg fopen_ok popen_ok clock) Output (lit "orders")
     (map fst os) /\
   direct_load cfg (gen_orders cfg fopen_ok popen_ok clock) OrderLine (lit "order_line")
     (List.concat (map snd os))).
Proof.
  intros Hm Hs Hr Hopen. do 7 (split; [by apply gen_table_direct|]).
  intros Hfin. apply gen_orders_direct; [done..|]. by apply until_exit_finished.
Qed.

(** ** File names *)

Lemma strncat_fits filename s :
  (List.length filename + List.length s <= 1023)%nat ->
  strncat_filename filename s = filename ++ s.
Proof. intros H. unfold strncat_filename. by rewrite take_ge by lia. Qed.

Definition name_of (cfg : datagen_cfg) (data : bytes) : bytes :=
  match output_path cfg with Some p => p ++ lit "/" | None => [] end ++ data.

Lemma flat_filename_fits cfg data :
  (List.length (name_of cfg data) + 5 <= 1023)%nat ->
  1 <= part cfg <= MAX_PARTITIONS ->
  flat_filename cfg data
  = name_of cfg data ++ (if partitions cfg >? 1 then lit "." ++ dec (part cfg) else []).
Proof.
  unfold name_of, MAX_PARTITIONS. intros Hl Hp.
  assert (Hd : (List.length (dec (part cfg)) <= 4)%nat) by (apply (length_dec 3); lia).
  assert (Hname : match output_path cfg with
      | Some p => strncat_filename (take 1023 p) (lit "/") | None => [] end
    = match output_path cfg with Some p => p ++ lit "/" | None => [] end).
  { destruct (output_path cfg) as [p|]; [|done]. rewrite !length_app in Hl.
    rewrite take_ge, strncat_fits by (cbn in *; lia). done. }
  unfold flat_filename. rewrite Hname.
  generalize dependent (match output_path cfg with Some p => p ++ lit "/" | None => [] end).
  intros dir Hl _. rewrite length_app in Hl. rewrite (strncat_fits dir) by lia.
  destruct (_ >? _); [|by rewrite app_nil_r].
  assert (fmt_d (part cfg) = dec (part cfg)) as ->
    by (unfold fmt_d; destruct (Z.ltb_spec (part cfg) 0); [lia|done]).
  assert (List.length (lit ".") = 1%nat) by done.
  rewrite (take_ge (dec _)), (strncat_fits (dir ++ data)), strncat_fits
    by (rewrite ?length_app; lia).
  by rewrite <- app_assoc.
Qed.

(** Two partitions never write the same file: the names of the parts of a
    partitioned table differ, because the four digits that the suffix buffer
    holds are enough for [MAX_PARTITIONS]. *)
Theorem flat_filename_distinct cfg data parts p q :
  (List.length (name_of cfg data) + 5 <= 1023)%nat ->
  1 < parts -> 1 <= p <= MAX_PARTITIONS -> 1 <= q <= MAX_PARTITIONS ->
  flat_filename (with_part cfg p parts) data = flat_filename (with_part cfg q parts) data ->
  p = q.
Proof.
  intros Hl Hparts Hp Hq. rewrite !flat_filename_fits by done.
  cbn [partitions part with_part].
  destruct (Z.gtb_spec parts 1); [|lia].
  change (name_of (with_part cfg p parts) data) with (name_of cfg data).
  change (name_of (with_part cfg q parts) data) with (name_of cfg data).
  intros Heq%app_inv_head. injection Heq. apply dec_inj; lia.
Qed.

(** ** Witnesses *)

Definition direct_cfg : datagen_cfg :=
  mk_cfg 3 3 4 2 1 MODE_DIRECT MODE_PGSQL TAB [] [] 5 2 0 1 1 None.

Lemma gen_flat_files_witness :
  flat_file small_cfg (gen_items small_cfg (fun _ => true) (fun _ => true))
    (lit "item.data") (item_rows small_cfg).
Proof.
  destruct (gen_flat_files small_cfg stopped_clock (fun _ => true) (fun _ => true)
              eq_refl eq_refl (fun _ => eq_refl)) as (_ & _ & _ & H & _).
  exact H.
Defined.

Lemma gen_direct_loads_witness :
  direct_load direct_cfg (gen_items direct_cfg (fun _ => true) (fun _ => true)) Output
    (lit "item") (item_rows direct_cfg) /\
  exists r1 r2 r3 r4, item_rows direct_cfg = [r1; r2; r3; r4] /\
    written Output (gen_items direct_cfg (fun _ => true) (fun _ => true))
    = line "BEGIN;" ++ line "TRUNCATE item;" ++ copy_stmt direct_cfg (lit "item") ++ r1 ++ r2
      ++ copy_end ++ line "COMMIT;"
      ++ line "BEGIN;" ++ copy_stmt direct_cfg (lit "item") ++ r3 ++ r4
      ++ copy_end ++ line "COMMIT;"
      ++ line "BEGIN;" ++ copy_stmt direct_cfg (lit "item") ++ copy_end ++ line "COMMIT;".
Proof.
  split.
  - destruct (gen_direct_loads direct_cfg stopped_clock (fun _ => true) (fun _ => true)
                eq_refl eq_refl ltac:(vm_compute; congruence) (fun _ => eq_refl))
      as (_ & _ & _ & H & _).
    exact H.
  - assert (Hrows : List.length (item_rows direct_cfg) = 4%nat) by (vm_compute; reflexivity).
    unfold gen_items. destruct (item_rows direct_cfg) as [|r1 [|r2 [|r3 [|r4 [|]]]]]; try discriminate.
    exists r1, r2, r3, r4. split; [reflexivity|]. vm_compute. reflexivity.
Defined.

Lemma flat_filename_distinct_witness :
  flat_filename (with_part small_cfg 12 20) (lit "item.data") = lit "item.data.12" /\
  (flat_filename (with_part small_cfg 7 20) (lit "item.data")
   = flat_filename (with_part small_cfg 7 20) (lit "item.data") -> 7 = 7).
Proof.
  split; [vm_compute; reflexivity|].
  apply (flat_filename_distinct small_cfg (lit "item.data") 20 7 7);
    unfold MAX_PARTITIONS; cbn; lia.
Defined.
