(* ===== verification/DatagenRecords.v ===== *)
(** * Records that a database can load

    With the delimiter, quoter and null string that [main] sets, every row the
    generators write is one line of tab separated fields without tabs,
    newlines, backslashes or NULs inside: COPY reads back exactly the fields
    that were written, as many as the table has columns. *)

From Stdlib Require Import ZArith Lia String.
From stdpp Require Import base list.
From S2P Require Import Prelude Double Pcg Text Common DatagenRows DatagenOrders DatagenPart.

(** A line that COPY splits into [n] fields, each the text that was written. *)
Definition loads_as (n : nat) (r : bytes) : Prop :=
  exists fields,
    r = join TAB fields ++ [NL] /\ List.length fields = n /\
    Forall plain fields /\ split_on TAB (join TAB fields) = fields.

Create HintDb plains discriminated.
#[export] Hint Constants Opaque : plains.

(** The format of [--pgsql] and [--mysql]. *)
Definition tsv (cfg : datagen_cfg) : Prop :=
  delimiter cfg = TAB /\ quoter cfg = [] /\ plain (null_str cfg).

Section fields.
Context (cfg : datagen_cfg) (clock : list Z -> tm).
Context (Htsv : tsv cfg).

Lemma plain_quoted s : plain s -> plain (quoted cfg s).
Proof.
  destruct Htsv as (_ & Hq & _). intros H. unfold quoted. rewrite Hq.
  by rewrite app_nil_r.
Qed.

Lemma plain_quoted_d z : plain (quoted_d cfg z).
Proof. apply plain_quoted, plain_fmt_d. Qed.

Lemma plain_wstr b s : Forall plain_char s -> plain (wstr cfg b s).
Proof. intros H. by apply plain_quoted, plain_wcstombs_char. Qed.

Lemma plain_timestamp d : plain (print_timestamp_pgsql d).
Proof.
  unfold print_timestamp_pgsql. rewrite !plain_app.
  repeat split; try apply plain_fmt_0d; by repeat constructor.
Qed.

Lemma plain_null : plain (null_str cfg).
Proof. apply Htsv. Qed.

Lemma returns_gen_a x y b : 0 <= x <= y -> y < 2 ^ 31 - 1 -> returns (gen_a cfg x y b) plain.
Proof.
  intros. eapply returns_bind; [by apply get_a_string_spec|]. intros s Hs.
  apply returns_ret, plain_wstr. eapply good_string_plain, Hs. apply a_string_char_plain.
Qed.

Lemma returns_gen_l x y b : 0 <= x <= y -> y < 2 ^ 31 - 1 -> returns (gen_l cfg x y b) plain.
Proof.
  intros. eapply returns_bind; [by apply get_l_string_spec|]. intros s Hs.
  apply returns_ret, plain_wstr. eapply good_string_plain, Hs. apply l_string_char_plain.
Qed.

Lemma returns_gen_n x y b : 0 <= x <= y -> y < 2 ^ 31 - 1 -> returns (gen_n cfg x y b) plain.
Proof.
  intros. eapply returns_bind; [by apply get_n_string_spec|]. intros s Hs.
  apply returns_ret, plain_wstr. eapply good_string_plain, Hs. apply n_string_char_plain.
Qed.

Lemma returns_gen_zip b : returns (gen_zip cfg b) plain.
Proof.
  eapply returns_bind; [apply get_n_string_spec; lia|]. intros s Hs.
  apply returns_ret, plain_quoted, plain_app. split; [|by repeat constructor].
  apply plain_wcstombs_char. eapply good_string_plain, Hs. apply n_string_char_plain.
Qed.

Lemma returns_gen_fraction m : returns (gen_fraction cfg m) plain.
Proof.
  eapply returns_bind; [apply returns_true|]. intros r _.
  apply returns_ret, plain_quoted, plain_app.
  split; [by repeat constructor|apply plain_fmt_0d].
Qed.

Lemma returns_gen_c_credit : returns gen_c_credit plain.
Proof.
  eapply returns_bind; [apply returns_true|]. intros p _.
  apply returns_ret. destruct (dltb _ _); by repeat constructor.
Qed.

Lemma plain_c_last i : 0 <= i <= 999 -> Forall plain_char (get_c_last i).2.
Proof.
  intros Hi. pose proof (all_c_last_lookup i Hi) as Hl.
  pose proof all_c_last_plain as Hp. rewrite Forall_lookup in Hp. by apply (Hp _ _ Hl).
Qed.

Lemma returns_gen_c_last k : 0 <= k -> returns (gen_c_last cfg k) plain.
Proof.
  intros Hk. unfold gen_c_last. destruct (Z.ltb_spec k 1000).
  - apply returns_ret, plain_wstr, plain_c_last. lia.
  - eapply returns_bind; [apply nurand_range; lia|]. intros i Hi.
    apply returns_ret, plain_wstr, plain_c_last. done.
Qed.

Lemma plain_put_original j s : Forall plain_char s -> Forall plain_char (put_original j s).
Proof.
  intros Hs. unfold put_original. apply Forall_app. split; [by apply Forall_take|].
  apply Forall_app. split; [by apply (bool_decide_unpack _)|by apply Forall_drop].
Qed.

Lemma returns_gen_data : returns gen_data (Forall plain_char).
Proof.
  eapply returns_bind; [apply get_a_string_spec; lia|]. intros s Hs.
  pose proof (good_string_plain _ _ _ _ a_string_char_plain Hs) as Hp.
  apply returns_with_local. eapply returns_bind; [apply returns_true|]. intros p _.
  destruct (dltb _ _); [|by apply returns_ret].
  eapply returns_bind; [apply returns_true|]. intros j _.
  by apply returns_ret, plain_put_original.
Qed.

Lemma returns_gen_i_price : returns (gen_i_price cfg) plain.
Proof.
  eapply returns_bind; [apply returns_true|]. intros r _.
  apply returns_ret, plain_quoted, plain_fmt_f.
Qed.

Lemma returns_gen_ol_amount k : returns (gen_ol_amount cfg k) plain.
Proof.
  unfold gen_ol_amount. destruct (k <? 2101); [by apply returns_ret; repeat constructor|].
  eapply returns_bind; [apply returns_true|]. intros r _.
  apply returns_ret, plain_quoted, plain_fmt_f.
Qed.

Lemma returns_gen_carrier k : returns (gen_carrier cfg k) plain.
Proof.
  unfold gen_carrier. destruct (k <? 2101); [|apply returns_ret, plain_null].
  eapply returns_bind; [apply returns_true|]. intros r _. apply returns_ret, plain_quoted_d.
Qed.

Lemma row_loads fields n :
  fields <> [] -> List.length fields = n -> Forall plain fields ->
  loads_as n (row cfg fields).
Proof.
  destruct Htsv as (Hd & _ & _). intros Hne Hl Hp. exists fields. unfold row. rewrite Hd.
  do 3 (split; [done|]). apply split_on_join; [done|].
  eapply Forall_impl; [exact Hp|apply plain_not_tab].
Qed.
End fields.

#[export] Hint Resolve plain_quoted_d plain_timestamp plain_null returns_gen_a returns_gen_l
  returns_gen_n returns_gen_zip returns_gen_fraction returns_gen_c_credit returns_gen_c_last
  returns_gen_i_price returns_gen_ol_amount returns_gen_carrier : plains.
#[export] Hint Resolve plain_wstr returns_gen_data : plains.
#[export] Hint Extern 1 (returns (get_random _) _) => apply returns_true : plains.
#[export] Hint Extern 1 (plain (lit _)) => by repeat constructor : plains.
#[export] Hint Extern 1 (_ <= _) => lia : plains.
#[export] Hint Extern 1 (_ < _) => lia : plains.

(** The fields of a row, one by one. *)
Ltac plain_fields := repeat (constructor; [solve [auto with plains]|]); constructor.

(** Run through the draws of a row, then through its fields. *)
Ltac row_fields :=
  repeat (eapply returns_bind; [solve [eauto with plains]|cbv beta; intros ? ?]);
  apply returns_ret, row_loads; [done|done|done|]; plain_fields.

Section rows.
Context (cfg : datagen_cfg) (clock : list Z -> tm).
Context (Htsv : tsv cfg).

Lemma customer_row_loads i j k :
  0 <= k -> returns (customer_row cfg clock i j k) (loads_as 21).
Proof. intros Hk. unfold customer_row. row_fields. Qed.

Lemma district_row_loads i j : returns (district_row cfg i j) (loads_as 11).
Proof. unfold district_row. row_fields. Qed.

Lemma history_row_loads i j k : returns (history_row cfg clock i j k) (loads_as 8).
Proof. unfold history_row. row_fields. Qed.

Lemma item_row_loads i : returns (item_row cfg i) (loads_as 5).
Proof. unfold item_row. row_fields. Qed.

Lemma new_order_row_loads i j k : loads_as 3 (new_order_row cfg i j k).
Proof. unfold new_order_row. apply row_loads; [done|done|done|]. plain_fields. Qed.

Lemma stock_row_loads i j : returns (stock_row cfg i j) (loads_as 17).
Proof.
  unfold stock_row. eapply returns_bind; [apply returns_true|]. intros q _.
  eapply returns_bind; [apply returns_repeatM, (returns_gen_l cfg Htsv); lia|].
  intros dist [Hl Hd].
  eapply returns_bind; [apply returns_gen_data|]. intros s Hs.
  apply returns_ret, row_loads; [done|done| |].
  - rewrite !length_app, Hl. done.
  - rewrite !Forall_app. split; [|split; [done|]];
      plain_fields.
Qed.

Lemma warehouse_row_loads i : returns (warehouse_row cfg i) (loads_as 9).
Proof. unfold warehouse_row. row_fields. Qed.

Lemma order_line_row_loads i j k l : returns (order_line_row cfg clock i j k l) (loads_as 10).
Proof.
  unfold order_line_row.
  assert (plain (if k <? 2101 then print_timestamp_pgsql (clock [i; j; k; l])
                 else null_str cfg)) by (destruct (k <? 2101); auto with plains).
  row_fields.
Qed.

Lemma order_rows_loads i j k c :
  returns (order_rows cfg clock i j k c)
    (fun r => loads_as 8 r.1 /\ Forall (loads_as 10) r.2 /\ 5 <= zlen r.2 <= 15).
Proof.
  unfold order_rows. eapply returns_bind; [eauto with plains|]. intros carrier Hc.
  eapply (returns_bind _ _ (fun r => Forall (loads_as 10) r.2 /\ 5 <= zlen r.2 <= 15)).
  - apply returns_with_local.
    eapply returns_bind; [apply get_random_range; lia|]. intros n [Hn Hn'].
    eapply (returns_bind _ _ (fun ls => Forall (loads_as 10) ls /\ zlen ls = i32 n + 5)).
    + intros g. split; [apply returns_mapM; intros; apply order_line_row_loads|].
      unfold zlen. rewrite length_mapM_rng, length_zrange. lia.
    + intros ls [Hls Hlen]. apply returns_ret. cbn. split; [done|lia].
  - intros [n ls] Hls. cbn in Hls. apply returns_ret. cbn [fst snd]. split; [|done].
    apply row_loads; [done|done|done|].
    plain_fields.
Qed.
End rows.

(** ** Whole tables *)

Lemma returns_concatM {A} (m : rngM (list (list A))) P :
  returns m (Forall (Forall P)) -> returns (concatM m) (Forall P).
Proof.
  intros H. unfold concatM. eapply returns_bind; [exact H|]. intros l Hl.
  apply returns_ret. by apply Forall_concat.
Qed.

Lemma run_partition_rows {A} cfg n skip (unit_ : Z -> rngM (list A)) P :
  (forall i, returns (unit_ i) (Forall P)) ->
  Forall P (List.concat (run_partition cfg n skip unit_)).
Proof.
  intros H. apply Forall_concat. unfold run_partition. by apply returns_mapM.
Qed.

Section tables.
Context (cfg : datagen_cfg) (clock : list Z -> tm).
Context (Htsv : tsv cfg).

Definition order_loads (r : bytes * list bytes) : Prop :=
  loads_as 8 r.1 /\ Forall (loads_as 10) r.2 /\ 5 <= zlen r.2 <= 15.

Lemma order_loop_loads i j ks current :
  returns (order_loop cfg clock i j ks current) (fun r => Forall order_loads r.1).
Proof.
  revert current. induction ks as [|k ks IH]; intros current; cbn [order_loop];
    [by apply returns_ret|].
  destruct current as [|c next]; [by apply returns_ret|].
  eapply returns_bind; [by apply order_rows_loads|]. intros r Hr.
  eapply returns_bind; [apply IH|]. intros rest Hrest. apply returns_ret. by constructor.
Qed.

Lemma order_unit_loads i :
  returns (order_unit cfg clock i) (fun r => Forall order_loads r.1).
Proof.
  unfold order_unit. induction (zrange 0 DISTRICT_CARDINALITY) as [|j js IH];
    cbn [order_districts]; [by apply returns_ret|].
  eapply returns_bind.
  - eapply returns_bind; [apply returns_true|]. intros l _. apply order_loop_loads.
  - intros r Hr. destruct (r.2); [|by apply returns_ret].
    eapply returns_bind; [exact IH|]. intros rest Hrest. apply returns_ret.
    by apply Forall_app.
Qed.
End tables.

(** C36. In the formats of [--pgsql] and [--mysql], every generated row is a
    line that COPY splits into as many fields as its table has columns, and
    reads back as the text that was written; every order has 5 to 15 lines. *)
Theorem rows_load cfg clock :
  tsv cfg ->
  Forall (loads_as 21) (customer_rows cfg clock) /\
  Forall (loads_as 11) (district_rows cfg) /\
  Forall (loads_as 8) (history_rows cfg clock) /\
  Forall (loads_as 5) (item_rows cfg) /\
  Forall (loads_as 3) (new_order_rows cfg) /\
  Forall (loads_as 17) (stock_rows cfg) /\
  Forall (loads_as 9) (warehouse_rows cfg) /\
  Forall (fun u => Forall order_loads u.1) (order_units cfg clock).
Proof.
  intros Htsv.
  split; [|split; [|split; [|split; [|split; [|split; [|split]]]]]];
    try (apply run_partition_rows; intros i).
  - apply returns_concatM, returns_mapM. intros j _. apply returns_mapM. intros k Hk.
    apply customer_row_loads; [done|]. apply elem_of_seqZ in Hk. lia.
  - apply returns_mapM. intros j _. by apply district_row_loads.
  - apply returns_concatM, returns_mapM. intros j _. apply returns_mapM. intros k _.
    by apply history_row_loads.
  - eapply returns_bind; [by apply item_row_loads|]. intros r Hr. apply returns_ret. auto.
  - apply returns_ret, Forall_concat, Forall_map, Forall_true. intros j.
    apply Forall_map, Forall_true. intros k. by apply new_order_row_loads.
  - apply returns_mapM. intros j _. by apply stock_row_loads.
  - eapply returns_bind; [by apply warehouse_row_loads|]. intros r Hr. apply returns_ret. auto.
  - unfold order_units, run_partition. apply returns_mapM. intros i _. by apply order_unit_loads.
Qed.

(** [i_data] and [s_data] have 26 to 50 characters of the alphabet, and
    writing "ORIGINAL" into one in ten of them stays inside the string. *)
Lemma gen_data_correct g :
  let s := (get_a_string 26 50 g).1 in
  let local := pcg64f_srandom_r (draw (get_a_string 26 50 g).2).1 in
  26 <= zlen (gen_data g).1 <= 50 /\
  Forall (fun c => c ∈ a_string_char) (gen_data g).1 /\
  (dltb (get_percentage local).1 (ddiv (d_of_Z 1) (d_of_Z 10)) = true ->
   exists p q, (gen_data g).1 = p ++ lit "ORIGINAL" ++ q /\ zlen (gen_data g).1 = zlen s) /\
  (dltb (get_percentage local).1 (ddiv (d_of_Z 1) (d_of_Z 10)) = false -> (gen_data g).1 = s).
Proof.
  cbv zeta. destruct (get_a_string_spec 26 50 ltac:(lia) ltac:(lia) g) as [Hl Ha].
  unfold gen_data, with_local_rng. rewrite !bind_unfold. cbn [fst snd].
  destruct (get_a_string 26 50 g) as [s g1]. cbn [fst snd] in *.
  destruct (draw g1) as [x g2]. cbn [fst snd].
  destruct (get_percentage (pcg64f_srandom_r x)) as [p g3]. cbn [fst snd].
  destruct (dltb _ _); [|by cbn; auto].
  rewrite bind_unfold. cbn [mret rngM_ret fst].
  destruct (get_random_range (zlen s - 7) ltac:(lia) g3) as [Hj Hj32]. rewrite Hj32.
  generalize dependent (get_random (zlen s - 7) g3).1. intros j Hj _.
  assert (Hlen : zlen (put_original j s) = zlen s).
  { unfold put_original, zlen in *. rewrite !length_app, length_take, length_drop. cbn. lia. }
  rewrite Hlen. split; [done|]. split; [|split; [|done]].
  - unfold put_original. rewrite !Forall_app. split; [by apply Forall_take|].
    split; [by apply (bool_decide_unpack _); vm_compute|by apply Forall_drop].
  - intros _. unfold put_original. eauto.
Qed.

(** ** Witnesses *)

Definition tsv_cfg : datagen_cfg :=
  mk_cfg 1 1 2 1 1 MODE_FLAT MODE_PGSQL TAB [] [] 7 0 0 1 1 None.

Lemma tsv_cfg_tsv : tsv tsv_cfg.
Proof. split; [done|]. split; [done|]. constructor. Qed.

Lemma rows_load_witness :
  Forall (loads_as 9) (warehouse_rows tsv_cfg) /\
  List.length (warehouse_rows tsv_cfg) = 1%nat.
Proof.
  split; [|vm_compute; reflexivity].
  destruct (rows_load tsv_cfg stopped_clock tsv_cfg_tsv) as (_ & _ & _ & _ & _ & _ & H & _).
  exact H.
Defined.
