(* ===== verification/DatagenMain.v ===== *)
(** * The command line of the data generator ([main] in [src/datagen.c])

    Option handling, the checks that reject a configuration, and the choice of
    the tables to generate. *)

From Stdlib Require Import ZArith Lia String.
From stdpp Require Import base list.
From S2P Require Import Prelude Double Pcg Text Common DatagenRows DatagenOrders DatagenPart DatagenOut.

(** What [getopt_long] returns: a long option (0) with its argument, or an
    option character with its argument. *)
Inductive opt :=
| OptLong (name : String.string) (optarg : bytes)
| OptChar (c : Z) (optarg : bytes).

(** A character constant. *)
Definition chr (s : String.string) : Z := hd 0 (lit s).

(** The globals before [main], [delimiter] and [null_str] included. *)
Definition initial_cfg : datagen_cfg :=
  mk_cfg 0 CUSTOMER_CARDINALITY ITEM_CARDINALITY ORDER_CARDINALITY NEW_ORDER_CARDINALITY
    MODE_FLAT MODE_PGSQL 44 ([34] ++ lit "NULL" ++ [34]) [] 0 0 TABLE_ALL 1 1 None.

(** Assignments to the globals. *)
Definition set_dg_warehouses (v : Z) (cfg : datagen_cfg) : datagen_cfg :=
  mk_cfg v (dg_customers cfg) (dg_items cfg) (dg_orders cfg) (dg_new_orders cfg)
    (mode_load cfg) (mode_string cfg) (delimiter cfg) (null_str cfg) (quoter cfg) (seed
    cfg) (rows_per_commit cfg) (table cfg) (part cfg) (partitions cfg) (output_path cfg).
Definition set_dg_customers (v : Z) (cfg : datagen_cfg) : datagen_cfg :=
  mk_cfg (dg_warehouses cfg) v (dg_items cfg) (dg_orders cfg) (dg_new_orders cfg)
    (mode_load cfg) (mode_string cfg) (delimiter cfg) (null_str cfg) (quoter cfg) (seed
    cfg) (rows_per_commit cfg) (table cfg) (part cfg) (partitions cfg) (output_path cfg).
Definition set_dg_items (v : Z) (cfg : datagen_cfg) : datagen_cfg :=
  mk_cfg (dg_warehouses cfg) (dg_customers cfg) v (dg_orders cfg) (dg_new_orders cfg)
    (mode_load cfg) (mode_string cfg) (delimiter cfg) (null_str cfg) (quoter cfg) (seed
    cfg) (rows_per_commit cfg) (table cfg) (part cfg) (partitions cfg) (output_path cfg).
Definition set_dg_orders (v : Z) (cfg : datagen_cfg) : datagen_cfg :=
  mk_cfg (dg_warehouses cfg) (dg_customers cfg) (dg_items cfg) v (dg_new_orders cfg)
    (mode_load cfg) (mode_string cfg) (delimiter cfg) (null_str cfg) (quoter cfg) (seed
    cfg) (rows_per_commit cfg) (table cfg) (part cfg) (partitions cfg) (output_path cfg).
Definition set_dg_new_orders (v : Z) (cfg : datagen_cfg) : datagen_cfg :=
  mk_cfg (dg_warehouses cfg) (dg_customers cfg) (dg_items cfg) (dg_orders cfg) v
    (mode_load cfg) (mode_string cfg) (delimiter cfg) (null_str cfg) (quoter cfg) (seed
    cfg) (rows_per_commit cfg) (table cfg) (part cfg) (partitions cfg) (output_path cfg).
Definition set_mode_load (v : Z) (cfg : datagen_cfg) : datagen_cfg :=
  mk_cfg (dg_warehouses cfg) (dg_customers cfg) (dg_items cfg) (dg_orders cfg)
    (dg_new_orders cfg) v (mode_string cfg) (delimiter cfg) (null_str cfg) (quoter cfg)
      (seed cfg) (rows_per_commit cfg) (table cfg) (part cfg) (partitions cfg) (output_path
    cfg).
Definition set_mode_string (v : Z) (cfg : datagen_cfg) : datagen_cfg :=
  mk_cfg (dg_warehouses cfg) (dg_customers cfg) (dg_items cfg) (dg_orders cfg)
    (dg_new_orders cfg) (mode_load cfg) v (delimiter cfg) (null_str cfg) (quoter cfg)
      (seed cfg) (rows_per_commit cfg) (table cfg) (part cfg) (partitions cfg) (output_path
    cfg).
Definition set_delimiter (v : Z) (cfg : datagen_cfg) : datagen_cfg :=
  mk_cfg (dg_warehouses cfg) (dg_customers cfg) (dg_items cfg) (dg_orders cfg)
    (dg_new_orders cfg) (mode_load cfg) (mode_string cfg) v (null_str cfg) (quoter cfg)
      (seed cfg) (rows_per_commit cfg) (table cfg) (part cfg) (partitions cfg) (output_path
    cfg).
Definition set_null_str (v : bytes) (cfg : datagen_cfg) : datagen_cfg :=
  mk_cfg (dg_warehouses cfg) (dg_customers cfg) (dg_items cfg) (dg_orders cfg)
    (dg_new_orders cfg) (mode_load cfg) (mode_string cfg) (delimiter cfg) v (quoter cfg)
      (seed cfg) (rows_per_commit cfg) (table cfg) (part cfg) (partitions cfg) (output_path
    cfg).
Definition set_seed (v : Z) (cfg : datagen_cfg) : datagen_cfg :=
  mk_cfg (dg_warehouses cfg) (dg_customers cfg) (dg_items cfg) (dg_orders cfg)
    (dg_new_orders cfg) (mode_load cfg) (mode_string cfg) (delimiter cfg) (null_str cfg)
      (quoter cfg) v (rows_per_commit cfg) (table cfg) (part cfg) (partitions cfg)
      (output_path cfg).
Definition set_rows_per_commit (v : Z) (cfg : datagen_cfg) : datagen_cfg :=
  mk_cfg (dg_warehouses cfg) (dg_customers cfg) (dg_items cfg) (dg_orders cfg)
    (dg_new_orders cfg) (mode_load cfg) (mode_string cfg) (delimiter cfg) (null_str cfg)
      (quoter cfg) (seed cfg) v (table cfg) (part cfg) (partitions cfg) (output_path cfg).
Definition set_table (v : Z) (cfg : datagen_cfg) : datagen_cfg :=
  mk_cfg (dg_warehouses cfg) (dg_customers cfg) (dg_items cfg) (dg_orders cfg)
    (dg_new_orders cfg) (mode_load cfg) (mode_string cfg) (delimiter cfg) (null_str cfg)
      (quoter cfg) (seed cfg) (rows_per_commit cfg) v (part cfg) (partitions cfg)
      (output_path cfg).
Definition set_part (v : Z) (cfg : datagen_cfg) : datagen_cfg :=
  mk_cfg (dg_warehouses cfg) (dg_customers cfg) (dg_items cfg) (dg_orders cfg)
    (dg_new_orders cfg) (mode_load cfg) (mode_string cfg) (delimiter cfg) (null_str cfg)
      (quoter cfg) (seed cfg) (rows_per_commit cfg) (table cfg) v (partitions cfg)
      (output_path cfg).
Definition set_partitions (v : Z) (cfg : datagen_cfg) : datagen_cfg :=
  mk_cfg (dg_warehouses cfg) (dg_customers cfg) (dg_items cfg) (dg_orders cfg)
    (dg_new_orders cfg) (mode_load cfg) (mode_string cfg) (delimiter cfg) (null_str cfg)
      (quoter cfg) (seed cfg) (rows_per_commit cfg) (table cfg) (part cfg) v (output_path
    cfg).
Definition set_output_path (v : option bytes) (cfg : datagen_cfg) : datagen_cfg :=
  mk_cfg (dg_warehouses cfg) (dg_customers cfg) (dg_items cfg) (dg_orders cfg)
    (dg_new_orders cfg) (mode_load cfg) (mode_string cfg) (delimiter cfg) (null_str cfg)
      (quoter cfg) (seed cfg) (rows_per_commit cfg) (table cfg) (part cfg) (partitions cfg)
      v.

(** ** Options *)

Definition parse_table (optarg : bytes) : option Z :=
  if bytes_eqb optarg (lit "warehouse") then Some TABLE_WAREHOUSE
  else if bytes_eqb optarg (lit "district") then Some TABLE_DISTRICT
  else if bytes_eqb optarg (lit "customer") then Some TABLE_CUSTOMER
  else if bytes_eqb optarg (lit "item") then Some TABLE_ITEM
  else if bytes_eqb optarg (lit "orders") then Some TABLE_ORDER
  else if bytes_eqb optarg (lit "stock") then Some TABLE_STOCK
  else if bytes_eqb optarg (lit "new_order") then Some TABLE_NEW_ORDER
  else if bytes_eqb optarg (lit "history") then Some TABLE_HISTORY
  else None.

(** [getopt_long] itself assigns the options that have a flag. *)
Definition long_option_flag (name : String.string) (cfg : datagen_cfg) : datagen_cfg :=
  if String.eqb name "direct" then set_mode_load MODE_DIRECT cfg
  else if String.eqb name "pgsql" then set_mode_string MODE_PGSQL cfg
  else if String.eqb name "mysql" then set_mode_string MODE_MYSQL cfg
  else cfg.

(** The [-d] path without its final slash. *)
Definition strip_slash (p : bytes) : bytes :=
  match rev p with
  | c :: r => if c =? 47 then rev r else p
  | [] => p
  end.

(** One round of the option loop: the new globals, or the message and the code
    that [main] returns. *)
Definition parse_option (cfg : datagen_cfg) (o : opt) : datagen_cfg + (bytes * Z) :=
  match o with
  | OptLong name optarg =>
      let cfg := long_option_flag name cfg in
      if String.eqb name "table" then
        match parse_table optarg with
        | Some t => inl (set_table t cfg)
        | None => inr (lit "unknown table: " ++ optarg ++ [NL], 2)
        end
      else if String.eqb name "rows-per-commit" then
        inl (set_rows_per_commit (strtoull optarg) cfg)
      else if String.eqb name "seed" then inl (set_seed (strtoull optarg) cfg)
      else inl cfg
  | OptChar c optarg =>
      if c =? chr "c" then inl (set_dg_customers (atoi optarg) cfg)
      else if c =? chr "d" then inl (set_output_path (Some (strip_slash optarg)) cfg)
      else if c =? chr "i" then inl (set_dg_items (atoi optarg) cfg)
      else if c =? chr "n" then inl (set_dg_new_orders (atoi optarg) cfg)
      else if c =? chr "o" then inl (set_dg_orders (atoi optarg) cfg)
      else if c =? chr "P" then
        let v := atoi optarg in
        if v <? 1 then inr (line "number of partitions must be at least 1", 2)
        else if v >? MAX_PARTITIONS then
          inr (lit "number of partitions must not be greater than " ++ fmt_d MAX_PARTITIONS
               ++ [NL], 2)
        else inl (set_partitions v cfg)
      else if c =? chr "p" then
        let v := atoi optarg in
        if v <? 1 then inr (line "the part to generate must start at 1", 2)
        else inl (set_part v cfg)
      else if c =? chr "w" then inl (set_dg_warehouses (atoi optarg) cfg)
      else inr (lit "?? getopt returned character code 0" ++ fmt_o c ++ line " ??", 2)
  end.

Fixpoint parse_options (cfg : datagen_cfg) (opts : list opt) : datagen_cfg + (bytes * Z) :=
  match opts with
  | [] => inl cfg
  | o :: opts' =>
      match parse_option cfg o with
      | inl cfg' => parse_options cfg' opts'
      | inr e => inr e
      end
  end.

(** The checks after the options.  [is_dir p]: [stat] succeeds and finds a
    directory.  [entropy]: what [entropy_getbytes] stores. *)
Definition check_cfg (is_dir : bytes -> bool) (entropy : Z) (cfg : datagen_cfg)
  : datagen_cfg + (bytes * Z) :=
  if negb ((mode_string cfg =? MODE_MYSQL) || (mode_string cfg =? MODE_PGSQL)) then
    inr (lit "unknown string mode: " ++ fmt_d (mode_string cfg) ++ [NL], 5)
  else if part cfg >? partitions cfg then
    inr (lit "the part to generate must not be greater than the number of partitions: "
         ++ fmt_d (partitions cfg) ++ [NL], 3)
  else if dg_warehouses cfg =? 0 then inr (line "-w must be used", 3)
  else if match output_path cfg with Some p => negb (is_dir p) | None => false end then
    inr (lit "Output directory of data files '"
         ++ match output_path cfg with Some p => p | None => [] end ++ line "' not exists", 3)
  else if (mode_load cfg =? MODE_DIRECT) && (mode_string cfg =? MODE_MYSQL) then
    inr (line "the rdbms select does not support direct loading", 4)
  else if negb (rows_per_commit cfg =? 0) && negb (mode_load cfg =? MODE_DIRECT) then
    inr (line "--rows-per-commit can only be used with --direct", 4)
  else
    let cfg :=
      if (mode_string cfg =? MODE_PGSQL) || (mode_string cfg =? MODE_MYSQL)
      then set_delimiter TAB (set_null_str [] cfg) else cfg in
    inl (if seed cfg =? 0 then set_seed (u64 entropy) cfg else cfg).

(** ** Generation *)

Definition exited (es : list event) : bool :=
  existsb (fun e => match e with EExit _ => true | _ => false end) es.

(** An [exit] ends the process. *)
Definition then_ (es1 es2 : list event) : list event :=
  if exited es1 then es1 else es1 ++ es2.

Definition when (b : bool) (es : list event) : list event := if b then es else [].

Section main.
Context (fopen_ok : bytes -> bool) (popen_ok : handle -> bool).
Context (is_dir : bytes -> bool) (entropy : Z) (clock : list Z -> tm).

Definition selected (cfg : datagen_cfg) (t : Z) : bool :=
  (table cfg =? TABLE_ALL) || (table cfg =? t).

(** [if (table == TABLE_ALL || table == TABLE_ITEM) gen_items(); ...] *)
Definition gen_tables (cfg : datagen_cfg) : list event :=
  then_ (when (selected cfg TABLE_ITEM) (gen_items cfg fopen_ok popen_ok))
  (then_ (when (selected cfg TABLE_WAREHOUSE) (gen_warehouses cfg fopen_ok popen_ok))
  (then_ (when (selected cfg TABLE_STOCK) (gen_stock cfg fopen_ok popen_ok))
  (then_ (when (selected cfg TABLE_DISTRICT) (gen_districts cfg fopen_ok popen_ok))
  (then_ (when (selected cfg TABLE_CUSTOMER) (gen_customers cfg fopen_ok popen_ok clock))
  (then_ (when (selected cfg TABLE_HISTORY) (gen_history cfg fopen_ok popen_ok clock))
  (then_ (when (selected cfg TABLE_ORDER) (gen_orders cfg fopen_ok popen_ok clock))
         (when (selected cfg TABLE_NEW_ORDER) (gen_new_orders cfg fopen_ok popen_ok)))))))).

(** What [main] prints before it generates. *)
Definition banner (cfg : datagen_cfg) : list event :=
  let setting (s : String.string) (v : Z) := EPrintf (lit s ++ dec v ++ [NL]) in
  let settingd (s : String.string) (v : Z) := EPrintf (lit s ++ fmt_d v ++ [NL]) in
  [setting "seed = " (seed cfg); settingd "total partitions = " (partitions cfg);
   settingd "part = " (part cfg); settingd "warehouses = " (dg_warehouses cfg);
   settingd "districts = " DISTRICT_CARDINALITY; settingd "customers = " (dg_customers cfg);
   settingd "items = " (dg_items cfg); settingd "orders = " (dg_orders cfg);
   settingd "stock = " (dg_items cfg); settingd "new_orders = " (dg_new_orders cfg);
   EPrintf [NL]]%string
  ++ (if mode_load cfg =? MODE_DIRECT then []
      else [EPrintf (lit "Output directory of data files: "
                     ++ match output_path cfg with
                        | Some p => p | None => lit "current directory" end ++ [NL]);
            EPrintf [NL]])
  ++ [EPrintf (lit "Generating data files for " ++ fmt_d (dg_warehouses cfg)
               ++ line " warehouse(s)...")].

Definition exit_status (es : list event) : Z :=
  match list_find (fun e => match e with EExit _ => true | _ => false end = true) es with
  | Some (_, EExit c) => c
  | _ => 0
  end.

(** The trace of the process and its exit status. *)
Definition datagen_main (argc : Z) (opts : list opt) : list event * Z :=
  if argc <? 2 then ([], 1)
  else
    match parse_options initial_cfg opts with
    | inr (m, code) => ([EPrintf m], code)
    | inl cfg =>
        match check_cfg is_dir entropy cfg with
        | inr (m, code) => ([EPrintf m], code)
        | inl cfg =>
            let es := gen_tables cfg in (banner cfg ++ es, exit_status es)
        end
    end.
End main.

(** ** Configurations that reach the generators *)

(** What every round of the option loop keeps. *)
Record options_ok (cfg : datagen_cfg) : Prop := {
  oo_part : 1 <= part cfg;
  oo_partitions : 1 <= partitions cfg <= MAX_PARTITIONS;
  oo_load : mode_load cfg = MODE_FLAT \/ mode_load cfg = MODE_DIRECT;
  oo_string : mode_string cfg = MODE_PGSQL \/ mode_string cfg = MODE_MYSQL;
  oo_rpc : 0 <= rows_per_commit cfg < 2 ^ 64;
  oo_seed : 0 <= seed cfg < 2 ^ 64;
  oo_quoter : quoter cfg = [] }.

Lemma options_ok_initial : options_ok initial_cfg.
Proof. constructor; vm_compute; intuition congruence. Qed.

Lemma options_ok_flag name cfg : options_ok cfg -> options_ok (long_option_flag name cfg).
Proof.
  intros []. unfold long_option_flag.
  repeat case_match; constructor; cbn; auto.
Qed.

Lemma parse_option_ok cfg o cfg' :
  options_ok cfg -> parse_option cfg o = inl cfg' -> options_ok cfg'.
Proof.
  intros Hok. destruct o as [name optarg|c optarg]; cbn [parse_option].
  - apply (options_ok_flag name) in Hok. destruct Hok. pose proof (strtoull_range optarg).
    repeat case_match; intros; simplify_eq; constructor; cbn; auto.
  - destruct Hok. cbv zeta.
    destruct (Z.ltb_spec (atoi optarg) 1), (Z.gtb_spec (atoi optarg) MAX_PARTITIONS);
      repeat case_match; intros; simplify_eq; constructor; cbn; auto; lia.
Qed.

Lemma parse_options_ok opts : forall cfg cfg',
  options_ok cfg -> parse_options cfg opts = inl cfg' -> options_ok cfg'.
Proof.
  induction opts as [|o opts IH]; intros cfg cfg' Hok; cbn [parse_options]; [by intros [= <-]|].
  destruct (parse_option cfg o) as [c|] eqn:Ho; [|done].
  apply IH. by eapply parse_option_ok.
Qed.

Lemma parse_options_fails opts cfg m code : parse_options cfg opts = inr (m, code) -> code = 2.
Proof.
  revert cfg. induction opts as [|o opts IH]; intros cfg; cbn [parse_options]; [done|].
  destruct (parse_option cfg o) as [c|[m' code']] eqn:Ho; [by apply IH|].
  intros [= <- <-]. revert Ho. unfold parse_option. repeat case_match; congruence.
Qed.

(** What the generators may rely on. *)
Record valid_cfg (is_dir : bytes -> bool) (cfg : datagen_cfg) : Prop := {
  vc_part : 1 <= part cfg <= partitions cfg;
  vc_partitions : partitions cfg <= MAX_PARTITIONS;
  vc_warehouses : dg_warehouses cfg <> 0;
  vc_path : match output_path cfg with Some p => is_dir p = true | None => True end;
  vc_mode : (mode_load cfg = MODE_FLAT /\ rows_per_commit cfg = 0) \/
            (mode_load cfg = MODE_DIRECT /\ mode_string cfg = MODE_PGSQL);
  vc_rpc : 0 <= rows_per_commit cfg < 2 ^ 64;
  vc_seed : 0 <= seed cfg < 2 ^ 64;
  vc_format : delimiter cfg = TAB /\ quoter cfg = [] /\ null_str cfg = [] }.

Lemma check_cfg_valid is_dir entropy cfg cfg' :
  options_ok cfg -> check_cfg is_dir entropy cfg = inl cfg' -> valid_cfg is_dir cfg'.
Proof.
  intros [H1 H2 H3 H4 H5 H6 H7]. unfold check_cfg.
  destruct (negb _) eqn:E1; [done|].
  destruct (Z.gtb_spec (part cfg) (partitions cfg)) as [|Hp]; [done|].
  destruct (Z.eqb_spec (dg_warehouses cfg) 0) as [|Hw]; [done|].
  destruct (match output_path cfg with Some p => negb (is_dir p) | None => false end) eqn:E2;
    [done|].
  destruct (_ && _) eqn:E3; [done|]. destruct (negb (rows_per_commit cfg =? 0) && _) eqn:E4;
    [done|].
  assert (Hs : (mode_string cfg =? MODE_PGSQL) || (mode_string cfg =? MODE_MYSQL) = true)
    by (destruct H4 as [->| ->]; done).
  rewrite Hs. cbv zeta. intros Hcfg.
  assert (Hpath : match output_path cfg with Some p => is_dir p = true | None => True end)
    by (destruct (output_path cfg); [by apply negb_false_iff|done]).
  assert (Hmode : (mode_load cfg = MODE_FLAT /\ rows_per_commit cfg = 0) \/
                  (mode_load cfg = MODE_DIRECT /\ mode_string cfg = MODE_PGSQL)).
  { destruct H3 as [Hl|Hl]; rewrite Hl in *.
    - left. split; [done|]. destruct (Z.eqb_spec (rows_per_commit cfg) 0); done.
    - right. split; [done|]. destruct H4 as [?|Hm]; [done|]. by rewrite Hm in E3. }
  pose proof (u64_range entropy).
  destruct (seed _ =? 0) in Hcfg; injection Hcfg as <-; constructor; cbn; auto; lia.
Qed.

(** ** Traces of the generators *)

Fixpoint opened (es : list event) : list bytes :=
  match es with
  | EFopen _ f :: es' => f :: opened es'
  | _ :: es' => opened es'
  | [] => []
  end.

Lemma opened_app es1 es2 : opened (es1 ++ es2) = opened es1 ++ opened es2.
Proof. induction es1 as [|[] es1 IH]; cbn; by rewrite ?IH. Qed.

Lemma exited_app es1 es2 : exited (es1 ++ es2) = exited es1 || exited es2.
Proof. apply existsb_app. Qed.

(** An event that neither leaves the process nor is undefined. *)
Definition regular (e : event) : Prop :=
  match e with EExit _ | EUndefined => False | _ => True end.
(** Nor undefined, nor an exit with another status than the loop's. *)
Definition defined (e : event) : Prop :=
  match e with EExit c => c = 1 | EUndefined => False | _ => True end.

Lemma regular_defined es : Forall regular es -> Forall defined es.
Proof. intros H. eapply Forall_impl; [exact H|]. by intros [] ?. Qed.

Lemma regular_exited es : Forall regular es -> exited es = false.
Proof. induction 1 as [|e es He _ IH]; [done|]. by destruct e. Qed.

Lemma writes_regular h es : Forall (fun e => exists r, e = EWrite h r) es ->
  Forall regular es /\ opened es = [].
Proof. induction 1 as [|e es [r ->] _ [IH1 IH2]]; [done|]. by repeat constructor. Qed.

Lemma emit_rows_regular cfg h tbl n rs :
  Forall regular (emit_rows cfg h tbl n rs).1 /\ opened (emit_rows cfg h tbl n rs).1 = [].
Proof. eapply writes_regular, emit_rows_writes. Qed.

Lemma emit_orders_regular cfg os n m :
  Forall regular (emit_orders cfg n m os) /\ opened (emit_orders cfg n m os) = [].
Proof.
  revert n m. induction os as [|[o ls] os IH]; intros n m; [done|]. cbn [emit_orders].
  rewrite emit_row_rows.
  pose proof (emit_rows_regular cfg Output (lit "orders") n [o]) as [H1 H1'].
  pose proof (emit_rows_regular cfg OrderLine (lit "order_line") m ls) as [H2 H2'].
  destruct (emit_rows _ Output _ _ _) as [eo n']. destruct (emit_rows _ OrderLine _ _ _) as [el m'].
  destruct (IH n' m') as [H3 H3']. cbn [fst] in *.
  rewrite !opened_app, H1', H2', H3', !Forall_app. done.
Qed.

Section traces.
Context (is_dir : bytes -> bool) (cfg : datagen_cfg) (clock : list Z -> tm).
Context (fopen_ok : bytes -> bool) (popen_ok : handle -> bool).
Context (Hvalid : valid_cfg is_dir cfg).

Lemma open_output_regular h data tbl :
  Forall regular (open_output cfg fopen_ok popen_ok h data tbl).1 /\
  ((open_output cfg fopen_ok popen_ok h data tbl).2 = true ->
   opened (open_output cfg fopen_ok popen_ok h data tbl).1
   = if mode_load cfg =? MODE_FLAT then [flat_filename cfg data] else []).
Proof.
  unfold open_output. destruct (vc_mode _ _ Hvalid) as [[-> _]|[-> ->]].
  - rewrite Z.eqb_refl. unfold open_flat. destruct (fopen_ok _); split; by repeat constructor.
  - rewrite !Z.eqb_refl. change (MODE_DIRECT =? MODE_FLAT) with false. cbv iota.
    unfold open_direct. destruct (popen_ok h), (partitions cfg =? 1); split;
      by repeat constructor.
Qed.

Lemma close_regular h :
  Forall regular (close_output cfg h) /\ opened (close_output cfg h) = [] /\
  Forall regular (close_orders cfg) /\ opened (close_orders cfg) = [].
Proof.
  unfold close_output, close_orders.
  destruct (mode_load cfg =? MODE_FLAT), (mode_string cfg =? MODE_PGSQL);
    repeat split; by repeat constructor.
Qed.

Lemma gen_table_regular data tbl m1 m2 rs :
  Forall regular (gen_table cfg fopen_ok popen_ok data tbl (EPrintf m1) (EPrintf m2) rs) /\
  (mode_load cfg = MODE_FLAT -> (forall f, fopen_ok f = true) ->
   opened (gen_table cfg fopen_ok popen_ok data tbl (EPrintf m1) (EPrintf m2) rs)
   = [flat_filename cfg data]).
Proof.
  unfold gen_table. destruct (open_output_regular Output data tbl) as [H1 H1'].
  destruct (emit_rows_regular cfg Output tbl 0 rs) as [H2 H2'].
  destruct (close_regular Output) as (H3 & H3' & _).
  assert (Hok : mode_load cfg = MODE_FLAT -> (forall f, fopen_ok f = true) ->
      (open_output cfg fopen_ok popen_ok Output data tbl).2 = true).
  { intros Hm Hf. unfold open_output, open_flat. by rewrite Hm, Z.eqb_refl, Hf. }
  destruct (open_output _ _ _ _ _ _) as [es ok]. cbn [fst snd] in *. split.
  - constructor; [done|]. apply Forall_app. split; [done|]. destruct ok; [|done].
    rewrite !Forall_app. by repeat constructor.
  - intros Hm Hf. rewrite (Hok Hm Hf) in *. cbn [opened].
    rewrite !opened_app, H2', H3', H1', Hm by done. done.
Qed.

(** The orders may leave through the loop's [exit(1)], but nothing else. *)
Lemma gen_orders_defined :
  Forall defined (gen_orders cfg fopen_ok popen_ok clock) /\
  (Forall finished (order_units cfg clock) ->
   Forall regular (gen_orders cfg fopen_ok popen_ok clock) /\
   (mode_load cfg = MODE_FLAT -> (forall f, fopen_ok f = true) ->
    opened (gen_orders cfg fopen_ok popen_ok clock)
    = [flat_filename cfg (lit "order.data"); flat_filename cfg (lit "order_line.data")])).
Proof.
  unfold gen_orders.
  destruct (open_output_regular Output (lit "order.data") (lit "orders")) as [H1 H1'].
  destruct (open_output_regular OrderLine (lit "order_line.data") (lit "order_line"))
    as [H2 H2'].
  destruct (close_regular Output) as (_ & _ & H3 & H3').
  assert (Hok : forall h d t, mode_load cfg = MODE_FLAT -> (forall f, fopen_ok f = true) ->
      (open_output cfg fopen_ok popen_ok h d t).2 = true).
  { intros h d t Hm Hf. unfold open_output, open_flat. by rewrite Hm, Z.eqb_refl, Hf. }
  pose proof (Hok Output (lit "order.data") (lit "orders")) as Hok1.
  specialize (Hok OrderLine (lit "order_line.data") (lit "order_line")).
  destruct (open_output _ _ _ Output _ _) as [es1 ok1].
  destruct (open_output _ _ _ OrderLine _ _) as [es2 ok2].
  pose proof (until_exit_finished (order_units cfg clock)) as Hfin.
  destruct (until_exit (order_units cfg clock)) as [rows completed].
  destruct (emit_orders_regular cfg rows 0 0) as [H4 H4']. cbn [fst snd] in *.
  assert (Hreg : completed = true -> Forall regular (
      span_message cfg "Generating order and order-line table data for warehouse "
        (dg_warehouses cfg) :: es1
      ++ (if ok1 then es2 ++ (if ok2 then emit_orders cfg 0 0 rows ++ close_orders cfg
          ++ [span_message cfg "Finished order and order-line table data for warehouse "
                (dg_warehouses cfg)] else []) else []))).
  { intros _. constructor; [done|]. destruct ok1, ok2; rewrite ?Forall_app;
      repeat split; try done; by repeat constructor. }
  split.
  - destruct completed; [by apply regular_defined, Hreg|].
    constructor; [done|]. apply regular_defined in H1, H2, H4.
    destruct ok1, ok2; rewrite ?Forall_app; repeat split; try done; by repeat constructor.
  - intros Hf. specialize (Hfin Hf) as [= -> ->]. split; [by apply Hreg|].
    intros Hm Ho. rewrite (Hok1 Hm Ho), (Hok Hm Ho) in *. cbn [opened].
    rewrite !opened_app, H4', H3', H1', H2', Hm by done. done.
Qed.
End traces.

Lemma then_defined es1 es2 : Forall defined es1 -> Forall defined es2 ->
  Forall defined (then_ es1 es2).
Proof. intros. unfold then_. destruct (exited es1); [done|]. by apply Forall_app. Qed.

Lemma when_Forall {P : event -> Prop} b es : Forall P es -> Forall P (when b es).
Proof. intros. destruct b; [done|constructor]. Qed.

Lemma opened_then es1 es2 : Forall regular es1 -> opened (then_ es1 es2) = opened es1 ++ opened es2.
Proof. intros H. unfold then_. by rewrite (regular_exited _ H), opened_app. Qed.

Lemma then_regular es1 es2 : Forall regular es1 -> Forall regular es2 ->
  Forall regular (then_ es1 es2).
Proof. intros H1 H2. unfold then_. rewrite (regular_exited _ H1). by apply Forall_app. Qed.

Lemma opened_when b es : opened (when b es) = if b then opened es else [].
Proof. by destruct b. Qed.

Lemma gen_tables_defined is_dir cfg clock fopen_ok popen_ok :
  valid_cfg is_dir cfg -> Forall defined (gen_tables fopen_ok popen_ok clock cfg).
Proof.
  intros Hv. unfold gen_tables.
  assert (Ht : forall data tbl m1 m2 rs,
      Forall defined (gen_table cfg fopen_ok popen_ok data tbl (EPrintf m1) (EPrintf m2) rs))
    by (intros; by eapply regular_defined, gen_table_regular).
  repeat (apply then_defined; [apply when_Forall; try apply Ht|]);
    try (apply when_Forall, Ht). by eapply gen_orders_defined.
Qed.

Lemma exit_status_defined es : Forall defined es ->
  exit_status es = if exited es then 1 else 0.
Proof.
  unfold exit_status. induction 1 as [|e es He _ IH]; [done|].
  destruct e; cbn [list_find exited existsb orb]; try done;
    try (rewrite decide_False by done; fold (exited es); rewrite <- IH;
         by destruct (list_find _ es) as [[i []]|]).
Qed.

(** Whatever the command line, the file system and psql do, datagen never
    reads or writes a stream it has not opened.  Its exit status is one of 0 to
    4; with 2, 3 or 4 it has printed one message and done nothing else, with 1
    it has done nothing or left through the [exit(1)] of the order loop. *)
Theorem datagen_main_safe fopen_ok popen_ok is_dir entropy clock argc opts :
  let '(es, status) := datagen_main fopen_ok popen_ok is_dir entropy clock argc opts in
  (forall e, e ∈ es -> e <> EUndefined) /\ 0 <= status <= 4 /\
  (2 <= status -> exists m, es = [EPrintf m]) /\
  (status = 1 -> es = [] \/ exited es = true) /\
  (status = 0 -> exited es = false).
Proof.
  unfold datagen_main. destruct (argc <? 2).
  { split; [intros e He; by apply not_elem_of_nil in He|]. split; [lia|]. repeat split; auto; lia. }
  assert (Hmsg : forall m code, 2 <= code <= 4 ->
      (forall e, e ∈ [EPrintf m] -> e <> EUndefined) /\ 0 <= code <= 4 /\
      (2 <= code -> exists m', [EPrintf m] = [EPrintf m']) /\
      (code = 1 -> [EPrintf m] = [] \/ exited [EPrintf m] = true) /\
      (code = 0 -> exited [EPrintf m] = false)).
  { intros m code Hc. split; [by intros e ->%list_elem_of_singleton|].
    split; [lia|]. split; [eauto|]. split; lia. }
  destruct (parse_options initial_cfg opts) as [cfg|[m code]] eqn:Hopts.
  2: { apply parse_options_fails in Hopts as ->. apply Hmsg. lia. }
  apply parse_options_ok in Hopts; [|apply options_ok_initial].
  destruct (check_cfg is_dir entropy cfg) as [cfg'|[m code]] eqn:Hcheck.
  2: { apply Hmsg. revert Hcheck. unfold check_cfg.
       destruct (oo_string _ Hopts) as [-> | ->]; repeat case_match; cbn;
         intros; simplify_eq; lia. }
  apply check_cfg_valid in Hcheck; [|done].
  pose proof (gen_tables_defined _ _ clock fopen_ok popen_ok Hcheck) as Hdef.
  rewrite (exit_status_defined _ Hdef), exited_app.
  assert (Hb : Forall defined (banner cfg') /\ exited (banner cfg') = false)
    by (unfold banner; destruct (mode_load cfg' =? MODE_DIRECT); by repeat constructor).
  destruct Hb as [Hb ->]. cbn [orb]. split; [|destruct (exited _); split; try lia; auto].
  assert (Hall : Forall defined (banner cfg' ++ gen_tables fopen_ok popen_ok clock cfg'))
    by (by apply Forall_app).
  rewrite Forall_forall in Hall. intros e He ->. by apply Hall in He.
Qed.

(** The data files of a table, in the order in which they are opened. *)
Definition table_files : list (Z * list bytes) :=
  [(TABLE_ITEM, [lit "item.data"]); (TABLE_WAREHOUSE, [lit "warehouse.data"]);
   (TABLE_STOCK, [lit "stock.data"]); (TABLE_DISTRICT, [lit "district.data"]);
   (TABLE_CUSTOMER, [lit "customer.data"]); (TABLE_HISTORY, [lit "history.data"]);
   (TABLE_ORDER, [lit "order.data"; lit "order_line.data"]);
   (TABLE_NEW_ORDER, [lit "new_order.data"])]%string.

Definition files_of (t : Z) : list bytes :=
  List.concat (map (fun '(t', fs) => if (t =? TABLE_ALL) || (t =? t') then fs else [])
                   table_files).

(** A run that is accepted without [--direct] creates exactly the files of
    the selected tables, each once, in the generation order, and exits with 0,
    provided the files can be created and no order loop runs out of customers. *)
Theorem datagen_main_files fopen_ok popen_ok is_dir entropy clock argc opts cfg cfg' :
  2 <= argc -> parse_options initial_cfg opts = inl cfg ->
  check_cfg is_dir entropy cfg = inl cfg' -> mode_load cfg' = MODE_FLAT ->
  (forall f, fopen_ok f = true) -> Forall finished (order_units cfg' clock) ->
  let '(es, status) := datagen_main fopen_ok popen_ok is_dir entropy clock argc opts in
  opened es = map (flat_filename cfg') (files_of (table cfg')) /\ status = 0.
Proof.
  intros Hargc Hopts Hcheck Hm Hf Hfin. unfold datagen_main.
  destruct (Z.ltb_spec argc 2); [lia|]. rewrite Hopts, Hcheck.
  apply parse_options_ok in Hopts; [|apply options_ok_initial].
  apply check_cfg_valid in Hcheck; [|done].
  assert (Ht : forall data tbl m1 m2 rs,
      Forall regular (gen_table cfg' fopen_ok popen_ok data tbl (EPrintf m1) (EPrintf m2) rs) /\
      opened (gen_table cfg' fopen_ok popen_ok data tbl (EPrintf m1) (EPrintf m2) rs)
      = [flat_filename cfg' data]).
  { intros. split; [by eapply gen_table_regular|]. by eapply gen_table_regular. }
  destruct (gen_orders_defined _ _ clock fopen_ok popen_ok Hcheck) as [_ Ho].
  destruct (Ho Hfin) as [Ho1 Ho2]. specialize (Ho2 Hm Hf).
  assert (Hreg : Forall regular (gen_tables fopen_ok popen_ok clock cfg')).
  { unfold gen_tables.
    repeat (apply then_regular; [apply when_Forall; first [apply Ht|done]|]).
    apply when_Forall, Ht. }
  split.
  - assert (Hb : opened (banner cfg') = [])
      by (unfold banner; by destruct (mode_load cfg' =? MODE_DIRECT)).
    rewrite opened_app, Hb. unfold gen_tables.
    rewrite !opened_then, !opened_when by (apply when_Forall; first [apply Ht|done]).
    rewrite Ho2. unfold gen_items, gen_warehouses, gen_stock, gen_districts, gen_customers,
      gen_history, gen_new_orders, span_message.
    rewrite !(fun d t m1 m2 rs => proj2 (Ht d t m1 m2 rs)).
    unfold files_of, selected. cbn [map table_files List.concat]. rewrite !map_app.
    destruct (table cfg' =? TABLE_ALL); [done|]. cbn [orb].
    repeat match goal with |- context [if ?b then _ else _] => destruct b end; done.
  - rewrite exit_status_defined by (by apply regular_defined).
    by rewrite (regular_exited _ Hreg).
Qed.

(** The long options [--part] and [--partitions], although the usage text
    offers them, change nothing: only [-p] and [-P] select a partition. *)
Theorem long_partition_ignored cfg optarg :
  parse_option cfg (OptLong "part" optarg) = inl cfg /\
  parse_option cfg (OptLong "partitions" optarg) = inl cfg /\
  (forall n, 1 <= n <= MAX_PARTITIONS ->
     parse_option cfg (OptChar (chr "P") (dec n)) = inl (set_partitions n cfg) /\
     parse_option cfg (OptChar (chr "p") (dec n)) = inl (set_part n cfg)).
Proof.
  split; [done|]. split; [done|]. intros n Hn.
  unfold parse_option. cbv zeta. rewrite atoi_dec by (unfold INT_MAX, MAX_PARTITIONS in *; lia).
  destruct (Z.ltb_spec n 1), (Z.gtb_spec n MAX_PARTITIONS); done || lia.
Qed.

(** ** Witness *)

Definition example_opts : list opt :=
  [OptChar (chr "w") (lit "2"); OptChar (chr "P") (lit "3"); OptChar (chr "p") (lit "2");
   OptLong "table" (lit "warehouse"); OptLong "seed" (lit "9"); OptChar (chr "d") (lit "/tmp/");
   OptChar (chr "c") (lit "2"); OptChar (chr "o") (lit "1")].

Definition example_parsed : datagen_cfg :=
  mk_cfg 2 2 100000 1 900 MODE_FLAT MODE_PGSQL 44 ([34] ++ lit "NULL" ++ [34]) [] 9 0
    TABLE_WAREHOUSE 2 3 (Some (lit "/tmp")).

Definition example_cfg : datagen_cfg :=
  mk_cfg 2 2 100000 1 900 MODE_FLAT MODE_PGSQL TAB [] [] 9 0
    TABLE_WAREHOUSE 2 3 (Some (lit "/tmp")).

Lemma example_orders_finish : Forall finished (order_units example_cfg stopped_clock).
Proof.
  unfold order_units, run_partition. apply returns_mapM. intros i _.
  apply returns_order_unit. vm_compute. intuition congruence.
Qed.

Lemma datagen_main_files_witness :
  (let '(es, status) := datagen_main (fun _ => true) (fun _ => true) (fun _ => true) 0
                          stopped_clock 2 example_opts in
   opened es = map (flat_filename example_cfg) (files_of (table example_cfg)) /\ status = 0) /\
  map (flat_filename example_cfg) (files_of (table example_cfg))
  = [lit "/tmp/warehouse.data.2"].
Proof.
  split; [|vm_compute; reflexivity].
  apply (datagen_main_files (fun _ => true) (fun _ => true) (fun _ => true) 0 stopped_clock 2
           example_opts example_parsed example_cfg).
  - lia.
  - vm_compute; reflexivity.
  - vm_compute; reflexivity.
  - reflexivity.
  - reflexivity.
  - apply example_orders_finish.
Defined.
