(* ===== verification/Queue.v ===== *)
(** * The transaction queue and the node pool of the client
      ([src/transaction_queue.c], [src/listener.c])

    Both are singly linked lists with a head and a tail pointer, threaded
    through the nodes that carry the transactions.  The code between
    [pthread_mutex_lock] and [pthread_mutex_unlock] is one definition here; a
    null or dangling dereference is [None].  The operations refine those of a
    FIFO list. *)

From Stdlib Require Import ZArith Lia.
From stdpp Require Import base list gmap.
From S2P Require Import Prelude Double Common TxnData.

(** [struct transaction_queue_node_t] *)
Record transaction_queue_node_t := mk_node {
  s : Z; id : Z; client_data : client_transaction_t; next : option positive }.

Abbreviation heap := (gmap positive transaction_queue_node_t).

Definition set_next (n : option positive) (nd : transaction_queue_node_t) :=
  mk_node (s nd) (id nd) (client_data nd) n.
Definition set_id (i : Z) (nd : transaction_queue_node_t) :=
  mk_node (s nd) i (client_data nd) (next nd).
Definition set_client_data (c : client_transaction_t) (nd : transaction_queue_node_t) :=
  mk_node (s nd) (id nd) c (next nd).

(** [node->next = NULL] and the like: a store through a valid pointer. *)
Definition store (f : transaction_queue_node_t -> transaction_queue_node_t)
    (p : positive) (h : heap) : option heap :=
  nd ← h !! p; Some (<[p := f nd]> h).

(** [transaction_head], [transaction_tail]; [node_head], [node_tail]. *)
Record lqueue := mk_lqueue { head : option positive; tail : option positive }.

Definition empty_queue : lqueue := mk_lqueue None None.

(** Link a node in at the tail ([enqueue_transaction], [recycle_node]). *)
Definition push (h : heap) (q : lqueue) (node : positive) : option (heap * lqueue) :=
  h ← store (set_next None) node h;
  match tail q with
  | Some t =>
      h ← store (set_next (Some node)) t h;
      Some (h, mk_lqueue (head q) (Some node))
  | None => Some (h, mk_lqueue (Some node) (Some node))
  end.

(** Unlink the node at the head ([dequeue_transaction], [get_node]). *)
Definition pop (h : heap) (q : lqueue) : option (option positive * lqueue) :=
  match head q with
  | None => Some (None, q)
  | Some x =>
      nd ← h !! x;
      match next nd with
      | None => Some (Some x, empty_queue)
      | Some y => Some (Some x, mk_lqueue (Some y) (tail q))
      end
  end.

(** ** The list that a queue represents *)

Fixpoint chain (h : heap) (l : list positive) : Prop :=
  match l with
  | [] => True
  | x :: l' => (exists nd, h !! x = Some nd /\ next nd = hd_error l') /\ chain h l'
  end.

Definition repr (h : heap) (q : lqueue) (l : list positive) : Prop :=
  head q = hd_error l /\ tail q = last l /\ chain h l /\ NoDup l.

Lemma chain_ext h h' l :
  (forall x, x ∈ l -> option_map next (h' !! x) = option_map next (h !! x)) ->
  chain h l -> chain h' l.
Proof.
  induction l as [|x l IH]; intros Hx Hc; [done|]. destruct Hc as [[nd [Hnd Hn]] Hc]. split.
  - specialize (Hx x ltac:(left)). rewrite Hnd in Hx. cbn in Hx.
    destruct (h' !! x) as [nd'|]; [|done]. exists nd'. injection Hx as Hx. by rewrite Hx.
  - apply IH; [|done]. intros y Hy. apply Hx. by right.
Qed.

Lemma repr_ext h h' q l :
  (forall x, x ∈ l -> option_map next (h' !! x) = option_map next (h !! x)) ->
  repr h q l -> repr h' q l.
Proof.
  intros Hx (H1 & H2 & H3 & H4). split; [done|]. split; [done|]. split; [|done].
  by eapply chain_ext.
Qed.

Lemma chain_lookup h l x : chain h l -> x ∈ l -> is_Some (h !! x).
Proof.
  induction l as [|y l IH]; intros Hc Hx; [by apply not_elem_of_nil in Hx|].
  destruct Hc as [[nd [Hnd _]] Hc]. apply elem_of_cons in Hx as [->|Hx]; eauto.
Qed.

(** What a node carries: everything but its link. *)
Definition payload (nd : transaction_queue_node_t) : Z * Z * client_transaction_t :=
  (s nd, id nd, client_data nd).

Lemma repr_empty h : repr h empty_queue [].
Proof. repeat split. constructor. Qed.

(** Linking the last node to a new one. *)
Lemma chain_snoc h l t node :
  chain h l -> NoDup l -> last l = Some t -> node ∉ l ->
  (exists nd, h !! node = Some nd /\ next nd = None) ->
  exists h', store (set_next (Some node)) t h = Some h' /\ chain h' (l ++ [node]).
Proof.
  intros Hc Hnd Hlast Hnot [nd [Hnode Hnext]].
  apply last_Some in Hlast as [l' ->].
  assert (Ht : t ∉ l').
  { intros Ht. apply NoDup_app in Hnd as (_ & Hnd & _). by apply (Hnd t Ht), list_elem_of_singleton. }
  assert (Htn : t <> node) by (intros ->; apply Hnot, elem_of_app; right; left).
  destruct (chain_lookup _ _ t Hc) as [tnd Htnd]; [apply elem_of_app; right; left|].
  exists (<[t := set_next (Some node) tnd]> h). split; [unfold store; by rewrite Htnd|].
  clear Hnd Hnot. induction l' as [|x l' IH].
  - cbn [app chain hd_error]. split; [|split; [|done]].
    + exists (set_next (Some node) tnd). by rewrite lookup_insert_eq.
    + exists nd. by rewrite lookup_insert_ne.
  - cbn in Hc. destruct Hc as [[xnd [Hx Hxn]] Hc]. apply not_elem_of_cons in Ht as [Hne Ht].
    cbn [app chain]. split; [|by apply IH].
    exists xnd. rewrite lookup_insert_ne by done. split; [done|]. by destruct l'.
Qed.

(** ** Refinement of the list operations *)

Lemma push_spec h q l node :
  repr h q l -> node ∉ l -> is_Some (h !! node) ->
  exists h' q', push h q node = Some (h', q') /\ repr h' q' (l ++ [node]) /\
    (forall x, x <> node -> x ∉ l -> h' !! x = h !! x) /\
    (forall x, option_map payload (h' !! x) = option_map payload (h !! x)).
Proof.
  intros (Hh & Ht & Hc & Hnd) Hnot [nd Hnode].
  set (h1 := <[node := set_next None nd]> h).
  assert (Hstore : store (set_next None) node h = Some h1)
    by (unfold store; by rewrite Hnode).
  assert (Hp1 : forall x, option_map payload (h1 !! x) = option_map payload (h !! x)).
  { intros x. unfold h1. destruct (decide (x = node)) as [->|Hx];
      [by rewrite lookup_insert_eq, Hnode|by rewrite lookup_insert_ne]. }
  assert (Hc1 : chain h1 l).
  { eapply chain_ext, Hc. intros x Hx. unfold h1.
    rewrite lookup_insert_ne; [done|]. by intros ->. }
  assert (Hnd' : NoDup (l ++ [node])).
  { apply NoDup_app. split; [done|]. split; [|apply NoDup_singleton].
    intros x Hx ->%list_elem_of_singleton. done. }
  unfold push. rewrite Hstore. cbn. rewrite Ht.
  destruct (last l) as [t|] eqn:Hlast.
  - destruct (chain_snoc h1 l t node) as [h2 [Hs Hc2]]; [done..| |].
    { exists (set_next None nd). unfold h1. by rewrite lookup_insert_eq. }
    rewrite Hs. cbn. do 2 eexists. split; [done|].
    unfold store in Hs. destruct (h1 !! t) as [tnd|] eqn:Htnd; [|done].
    injection Hs as <-. split; [|split].
    + split; [|split; [|split]]; [|by rewrite last_snoc|done|done].
      cbn. rewrite Hh. apply last_Some in Hlast as [l' ->]. by destruct l'.
    + intros x Hx Hxl. rewrite lookup_insert_ne; [unfold h1; by rewrite lookup_insert_ne|].
      intros ->. apply Hxl. apply last_Some in Hlast as [l' ->]. apply elem_of_app. right. left.
    + intros x. rewrite <- Hp1. destruct (decide (x = t)) as [->|Hx];
        [by rewrite lookup_insert_eq, Htnd|by rewrite lookup_insert_ne].
  - apply last_None in Hlast as ->. do 2 eexists. split; [done|]. split; [|split].
    + split; [done|]. split; [done|]. split; [|done]. cbn. split; [|done].
      exists (set_next None nd). unfold h1. by rewrite lookup_insert_eq.
    + intros x Hx _. unfold h1. by rewrite lookup_insert_ne.
    + done.
Qed.

Lemma pop_spec h q x l :
  repr h q (x :: l) -> exists q', pop h q = Some (Some x, q') /\ repr h q' l.
Proof.
  intros (Hh & Ht & Hc & Hnd). unfold pop. rewrite Hh. cbn in Hc |- *.
  destruct Hc as [[nd [-> Hn]] Hc]. cbn. rewrite Hn. apply NoDup_cons in Hnd as [_ Hnd].
  destruct l as [|y l]; cbn; eexists; (split; [done|]); [apply repr_empty|].
  split; [done|]. split; [|done]. cbn. by rewrite Ht.
Qed.

Lemma pop_empty h q : repr h q [] -> pop h q = Some (None, q).
Proof. intros (Hh & _). unfold pop. by rewrite Hh. Qed.
