(* ===== verification/Client.v ===== *)
(** * The client's threads ([src/listener.c], [src/transaction_queue.c],
      [src/db_threadpool.c])

    The main thread of [init_listener] accepts connections, listener threads
    receive transactions and queue them, database workers take them from the
    queue, execute them and recycle their nodes; the console may ask all of
    them to leave ([exiting]).  A step is one blocking call, one test of
    [exiting] or one critical section of one thread; any interleaving is a
    sequence of steps.  The semaphores [queue_length] and [free_count] are the
    POSIX ones, uninterrupted by signals. *)

From Stdlib Require Import ZArith Lia.
From stdpp Require Import base list gmap relations.
From S2P Require Import Prelude Double Common TxnData Queue.

(** Where a listener thread is, with the node it owns. *)
Inductive listener :=
| LLoop (node : positive)      (** at [while (!exiting)] *)
| LReceive (node : positive)   (** in [receive_transaction_data] *)
| LEnqueue (node : positive)   (** about to count the transaction as queued *)
| LCounted (node : positive)   (** about to link it into the queue *)
| LGetNode                     (** at [sem_wait(&free_count)] *)
| LGotSem                      (** about to take a node *)
| LFinished                    (** the socket was closed *)
| LReturned (node : positive)  (** left the loop, its node is never freed *)
| LDied                        (** [get_node] returned NULL: [exit(1)] *).

(** Where a database worker is. *)
Inductive worker :=
| WLoop                        (** at [while (!exiting)] *)
| WDequeue                     (** at [sem_wait(&queue_length)] *)
| WGotSem                      (** about to take the head *)
| WDequeued (node : positive)  (** about to count it as no longer queued *)
| WUncounted (node : positive) (** about to count it as executing *)
| WProcess (node : positive)   (** in [process_transaction] *)
| WReply (node : positive)     (** in [send_transaction_data] *)
| WRecycle (node : positive)   (** in [recycle_node] *)
| WReturned                    (** left the loop *).

(** Where the main thread of [init_listener] is. *)
Inductive acceptor :=
| ALoop                        (** at [while (!exiting)] *)
| AMalloc                      (** at [malloc] *)
| AAccept (node : positive)    (** in [_accept] *)
| ACreate (node : positive)    (** at [pthread_attr_init] to [pthread_create] *)
| APost                        (** at [sem_post(&listener_worker_count)] *)
| AReturned.

#[export] Instance listener_eq_dec : EqDecision listener.
Proof. solve_decision. Defined.
#[export] Instance worker_eq_dec : EqDecision worker.
Proof. solve_decision. Defined.

Record world := mk_world {
  nodes : heap;
  transactions : lqueue; queue_length : Z; transaction_id : Z;
  pool : lqueue; free_count : Z;
  queued : list Z; executing : list Z;   (** [transaction_counter] *)
  listener_worker_count : Z; main : acceptor; exiting : bool;
  listeners : list listener; workers : list worker }.

(** A step runs, waits, or goes wrong: an invalid pointer or array index. *)
Inductive result (A : Type) :=
| Ran (a : A)
| Blocked
| Fault.
Arguments Ran {A} a.
Arguments Blocked {A}.
Arguments Fault {A}.

Definition or_fault {A B} (o : option A) (k : A -> result B) : result B :=
  match o with Some a => k a | None => Fault end.

(** [transaction_counter[r][t] += d]; only 0 to [TRANSACTION_MAX - 1] are
    indices of a row. *)
Definition bump (d t : Z) (c : list Z) : option (list Z) :=
  if (0 <=? t) && (t <? TRANSACTION_MAX)
  then x ← c !! Z.to_nat t; Some (<[Z.to_nat t := x + d]> c) else None.

Definition type_of (h : heap) (node : positive) : option Z :=
  nd ← h !! node; Some (transaction (client_data nd)).

(** What [receive_transaction_data] finds. *)
Inductive received :=
| RecvData (c : client_transaction_t)
| RecvError (c : client_transaction_t)   (** after overwriting the data *)
| RecvClosed.

Definition with_nodes (w : world) (h : heap) : world :=
  mk_world h (transactions w) (queue_length w) (transaction_id w) (pool w) (free_count w)
    (queued w) (executing w) (listener_worker_count w) (main w) (exiting w) (listeners w) (workers w).
Definition with_queued (w : world) (c : list Z) : world :=
  mk_world (nodes w) (transactions w) (queue_length w) (transaction_id w) (pool w)
    (free_count w) c (executing w) (listener_worker_count w) (main w) (exiting w) (listeners w)
    (workers w).
Definition with_executing (w : world) (c : list Z) : world :=
  mk_world (nodes w) (transactions w) (queue_length w) (transaction_id w) (pool w)
    (free_count w) (queued w) c (listener_worker_count w) (main w) (exiting w) (listeners w)
    (workers w).
Definition with_transactions (w : world) (h : heap) (q : lqueue) (len tid : Z) : world :=
  mk_world h q len tid (pool w) (free_count w) (queued w) (executing w)
    (listener_worker_count w) (main w) (exiting w) (listeners w) (workers w).
Definition with_pool (w : world) (h : heap) (q : lqueue) (count : Z) : world :=
  mk_world h (transactions w) (queue_length w) (transaction_id w) q count (queued w)
    (executing w) (listener_worker_count w) (main w) (exiting w) (listeners w) (workers w).
Definition with_accept (w : world) (h : heap) (count : Z) (a : acceptor) : world :=
  mk_world h (transactions w) (queue_length w) (transaction_id w) (pool w) (free_count w)
    (queued w) (executing w) count a (exiting w) (listeners w) (workers w).
Definition with_exiting (w : world) (e : bool) : world :=
  mk_world (nodes w) (transactions w) (queue_length w) (transaction_id w) (pool w)
    (free_count w) (queued w) (executing w) (listener_worker_count w) (main w) e
    (listeners w) (workers w).
Definition with_listeners (w : world) (ls : list listener) : world :=
  mk_world (nodes w) (transactions w) (queue_length w) (transaction_id w) (pool w)
    (free_count w) (queued w) (executing w) (listener_worker_count w) (main w) (exiting w) ls
    (workers w).
Definition with_workers (w : world) (ws : list worker) : world :=
  mk_world (nodes w) (transactions w) (queue_length w) (transaction_id w) (pool w)
    (free_count w) (queued w) (executing w) (listener_worker_count w) (main w) (exiting w)
    (listeners w) ws.

(** ** Operations of the two lists, as seen by the threads *)

(** The critical section of [enqueue_transaction]. *)
Definition enqueue_transaction (node : positive) (w : world) : option world :=
  '(h, q) ← push (nodes w) (transactions w) node;
  let tid := i32 (transaction_id w + 1) in
  h ← store (set_id tid) node h;
  Some (with_transactions w h q (queue_length w + 1) tid).

(** The critical section of [dequeue_transaction]. *)
Definition dequeue_transaction (w : world) : option (option positive * world) :=
  '(r, q) ← pop (nodes w) (transactions w);
  Some (r, with_transactions w (nodes w) q (queue_length w) (transaction_id w)).

(** The critical section of [get_node]. *)
Definition get_node (w : world) : option (option positive * world) :=
  '(r, q) ← pop (nodes w) (pool w);
  Some (r, with_pool w (nodes w) q (free_count w)).

Definition recycle_node (node : positive) (w : world) : option world :=
  '(h, q) ← push (nodes w) (pool w) node;
  Some (with_pool w h q (free_count w + 1)).

(** Adding to a counter of the node's transaction. *)
Definition count_queued (d : Z) (node : positive) (w : world) : option world :=
  t ← type_of (nodes w) node; c ← bump d t (queued w); Some (with_queued w c).
Definition count_executing (d : Z) (node : positive) (w : world) : option world :=
  t ← type_of (nodes w) node; c ← bump d t (executing w); Some (with_executing w c).

(** ** Steps of the threads *)

(** [listener_worker], with [enqueue_transaction] and [get_node]. *)
Definition listener_step (ev : received) (l : listener) (w : world)
  : result (listener * world) :=
  match l with
  | LLoop node => Ran (if exiting w then LReturned node else LReceive node, w)
  | LReceive node =>
      match ev with
      | RecvData c =>
          or_fault (store (set_client_data c) node (nodes w)) (fun h =>
            Ran (LEnqueue node, with_nodes w h))
      | RecvError c =>
          or_fault (store (set_client_data c) node (nodes w)) (fun h =>
            Ran (LLoop node, with_nodes w h))
      | RecvClosed =>
          if 0 <? listener_worker_count w then
            Ran (LFinished, with_accept w (delete node (nodes w))
                              (listener_worker_count w - 1) (main w))
          else Blocked
      end
  | LEnqueue node => or_fault (count_queued 1 node w) (fun w => Ran (LCounted node, w))
  | LCounted node => or_fault (enqueue_transaction node w) (fun w => Ran (LGetNode, w))
  | LGetNode =>
      if 0 <? free_count w
      then Ran (LGotSem, with_pool w (nodes w) (pool w) (free_count w - 1)) else Blocked
  | LGotSem =>
      or_fault (get_node w) (fun '(r, w) =>
        match r with Some node => Ran (LLoop node, w) | None => Ran (LDied, w) end)
  | LFinished | LReturned _ | LDied => Blocked
  end.

(** [db_worker], with [dequeue_transaction] and [recycle_node].  [c]: the
    status and data that [process_transaction] leaves for the transaction. *)
Definition worker_step (c : Z * transaction_data_t) (wk : worker) (w : world)
  : result (worker * world) :=
  match wk with
  | WLoop => Ran (if exiting w then WReturned else WDequeue, w)
  | WDequeue =>
      if 0 <? queue_length w
      then Ran (WGotSem, with_transactions w (nodes w) (transactions w) (queue_length w - 1)
                           (transaction_id w))
      else Blocked
  | WGotSem =>
      or_fault (dequeue_transaction w) (fun '(r, w) =>
        match r with Some node => Ran (WDequeued node, w) | None => Ran (WLoop, w) end)
  | WDequeued node =>
      or_fault (count_queued (-1) node w) (fun w => Ran (WUncounted node, w))
  | WUncounted node =>
      or_fault (count_executing 1 node w) (fun w => Ran (WProcess node, w))
  | WProcess node =>
      or_fault (nodes w !! node) (fun nd =>
        let c' := mk_client_transaction c.1 (transaction (client_data nd)) c.2 in
        Ran (WReply node, with_nodes w (<[node := set_client_data c' nd]> (nodes w))))
  | WReply node =>
      or_fault (count_executing (-1) node w) (fun w => Ran (WRecycle node, w))
  | WRecycle node => or_fault (recycle_node node w) (fun w => Ran (WLoop, w))
  | WReturned => Blocked
  end.

(** What the calls of [init_listener] answer: [malloc] with a node of any
    contents, or [NULL]; [_accept]; [pthread_attr_init] or
    [pthread_attr_setstacksize] failing; [pthread_create]. *)
Inductive accept_event :=
| EvMalloc (node : positive) (nd : transaction_queue_node_t)
| EvNoMemory
| EvAccept (fd : Z)
| EvAttrFailed
| EvThread (created : bool).

Definition set_s (fd : Z) (nd : transaction_queue_node_t) : transaction_queue_node_t :=
  mk_node fd (id nd) (client_data nd) (next nd).

(** The main thread of [init_listener]: a connection gets a node and a thread,
    which may run before the main thread has counted it. *)
Definition accept_step (ev : accept_event) (w : world) : result world :=
  let h := nodes w in
  let count := listener_worker_count w in
  match main w, ev with
  | ALoop, _ => Ran (with_accept w h count (if exiting w then AReturned else AMalloc))
  | AMalloc, EvMalloc node nd =>
      match h !! node with
      | Some _ => Blocked   (** [malloc] returns fresh memory *)
      | None => Ran (with_accept w (<[node := nd]> h) count (AAccept node))
      end
  | AMalloc, EvNoMemory => Ran (with_accept w h count AReturned)
  | AAccept node, EvAccept fd =>
      or_fault (store (set_s fd) node h) (fun h =>
        if fd =? -1 then Ran (with_accept w (delete node h) count ALoop)
        else Ran (with_accept w h count (ACreate node)))
  | ACreate node, EvAttrFailed => Ran (with_accept w (delete node h) count AReturned)
  | ACreate node, EvThread false => Ran (with_accept w (delete node h) count ALoop)
  | ACreate node, EvThread true =>
      Ran (with_listeners (with_accept w h count APost) (listeners w ++ [LLoop node]))
  | APost, _ => Ran (with_accept w h (count + 1) ALoop)
  | _, _ => Blocked
  end.

(** ** Interleavings *)

(** Continue with the moved thread. *)
Definition ran_listener (i : nat) (r : result (listener * world)) : result world :=
  match r with
  | Ran (l, w) => Ran (with_listeners w (<[i := l]> (listeners w)))
  | Blocked => Blocked
  | Fault => Fault
  end.
Definition ran_worker (i : nat) (r : result (worker * world)) : result world :=
  match r with
  | Ran (wk, w) => Ran (with_workers w (<[i := wk]> (workers w)))
  | Blocked => Blocked
  | Fault => Fault
  end.

(** A step of a listener, with any message; of a worker, with any outcome of
    its transaction; of the main thread, with any answers; and [exit] at the
    console. *)
Inductive step (w : world) : result world -> Prop :=
| step_listener i l ev :
    listeners w !! i = Some l -> step w (ran_listener i (listener_step ev l w))
| step_worker i wk c :
    workers w !! i = Some wk -> step w (ran_worker i (worker_step c wk w))
| step_accept ev : step w (accept_step ev w)
| step_exit : step w (Ran (with_exiting w true)).

(** [init_transaction_queue], [init_listener] and [db_threadpool_init] with
    [n] workers. *)
Definition initial (n : nat) : world :=
  mk_world ∅ empty_queue 0 0 empty_queue 0 (replicate 5 0) (replicate 5 0) 0 ALoop
    false [] (replicate n WLoop).

Inductive reachable (n : nat) : world -> Prop :=
| reachable_initial : reachable n (initial n)
| reachable_step w w' : reachable n w -> step w (Ran w') -> reachable n w'.
