(* ===== verification/ClientInv.v ===== *)
(** * Invariants of the client's threads

    The invariant of every reachable state of [Client]: the queue and the pool
    are FIFO lists, every node has exactly one owner, the semaphores count the
    nodes that can still be claimed, and the transaction counters count the
    transactions in the queue and in the workers. *)

From Stdlib Require Import ZArith Lia.
From stdpp Require Import base list gmap.
From S2P Require Import Prelude Double Common TxnData Queue Client.

(** ** What is counted *)

Definition isz (m n : positive) : Z := if decide (n = m) then 1 else 0.

(** The node a thread owns. *)
Definition lowns (m : positive) (l : listener) : Z :=
  match l with
  | LLoop n | LReceive n | LEnqueue n | LCounted n | LReturned n => isz m n
  | _ => 0
  end.
Definition aowns (m : positive) (a : acceptor) : Z :=
  match a with AAccept n | ACreate n => isz m n | _ => 0 end.
Definition wowns (m : positive) (wk : worker) : Z :=
  match wk with
  | WDequeued n | WUncounted n | WProcess n | WReply n | WRecycle n => isz m n
  | WLoop | WDequeue | WGotSem | WReturned => 0
  end.

(** Threads past a semaphore, and threads that have a connection. *)
Definition lgot (l : listener) : Z := match l with LGotSem => 1 | _ => 0 end.
Definition wgot (wk : worker) : Z := match wk with WGotSem => 1 | _ => 0 end.
Definition posting (a : acceptor) : Z := match a with APost => 1 | _ => 0 end.
Definition lalive (l : listener) : Z := match l with LFinished | LDied => 0 | _ => 1 end.
Definition ldied (l : listener) : Z := match l with LDied => 1 | _ => 0 end.

(** Listeners without a node, and workers with one. *)
Definition lwaits (l : listener) : Z := match l with LGetNode | LGotSem => 1 | _ => 0 end.
Definition wholds (wk : worker) : Z := 
  match wk with WLoop | WDequeue | WGotSem | WReturned => 0 | _ => 1 end.

(** A transaction that a listener has counted and not queued yet. *)
Definition ltransit (m : positive) (l : listener) : Z :=
  match l with LCounted n => isz m n | _ => 0 end.

(** Transactions of type [t], when [tp] gives the nodes' types. *)
Definition ty (tp : positive -> option Z) (t : Z) (n : positive) : Z :=
  if decide (tp n = Some t) then 1 else 0.
Definition lcounted tp (t : Z) (l : listener) : Z :=
  match l with LCounted n => ty tp t n | _ => 0 end.
Definition wqueued tp (t : Z) (wk : worker) : Z :=
  match wk with WDequeued n => ty tp t n | _ => 0 end.
Definition wexecuting tp (t : Z) (wk : worker) : Z :=
  match wk with WProcess n | WReply n => ty tp t n | _ => 0 end.

Definition present {A} (o : option A) : Z := match o with Some _ => 1 | None => 0 end.
Definition valid_type (t : Z) : Prop := 0 <= t < TRANSACTION_MAX.

(** ** The invariant

    [Q] and [P] are the contents of the queue and of the pool. *)
Record inv (w : world) (Q P : list positive) (tp : positive -> option Z) : Prop := {
  inv_q : repr (nodes w) (transactions w) Q;
  inv_p : repr (nodes w) (pool w) P;
  inv_tp : forall m, type_of (nodes w) m = tp m;
  inv_own : forall m,
    sumZ (isz m) Q + sumZ (isz m) P + sumZ (lowns m) (listeners w)
    + sumZ (wowns m) (workers w) + aowns m (main w) = present (tp m);
  inv_qlen : queue_length w + sumZ wgot (workers w) = Z.of_nat (List.length Q);
  inv_plen : free_count w + sumZ lgot (listeners w) = Z.of_nat (List.length P);
  inv_alive : listener_worker_count w + posting (main w) = sumZ lalive (listeners w);
  inv_nonneg : 0 <= queue_length w /\ 0 <= free_count w /\ 0 <= listener_worker_count w;
  inv_died : sumZ ldied (listeners w) = 0;
  inv_waits :
    Z.of_nat (List.length Q) + Z.of_nat (List.length P) + sumZ wholds (workers w)
    = sumZ lwaits (listeners w);
  inv_valid : forall m t,
    0 < sumZ (isz m) Q + sumZ (ltransit m) (listeners w) + sumZ (wowns m) (workers w) ->
    tp m = Some t -> valid_type t;
  inv_queued : forall t, valid_type t ->
    queued w !! Z.to_nat t
    = Some (sumZ (ty tp t) Q + sumZ (lcounted tp t) (listeners w)
            + sumZ (wqueued tp t) (workers w));
  inv_executing : forall t, valid_type t ->
    executing w !! Z.to_nat t = Some (sumZ (wexecuting tp t) (workers w)) }.

Lemma isz_nonneg m n : 0 <= isz m n.
Proof. unfold isz. destruct (decide _); lia. Qed.
Lemma isz_self m : isz m m = 1.
Proof. unfold isz. by rewrite decide_True. Qed.
Lemma ty_nonneg tp t n : 0 <= ty tp t n.
Proof. unfold ty. destruct (decide _); lia. Qed.
Lemma ty_is tp t n : tp n = Some t -> ty tp t n = 1.
Proof. intros H. unfold ty. by rewrite decide_True. Qed.
Lemma ty_is_not tp t t' n : tp n = Some t -> t' <> t -> ty tp t' n = 0.
Proof. intros H Ht. unfold ty. rewrite decide_False; congruence. Qed.
Lemma isz_other m n : m <> n -> isz m n = 0.
Proof. intros H. unfold isz. rewrite decide_False; congruence. Qed.
Lemma lowns_nonneg m l : 0 <= lowns m l.
Proof. destruct l; cbn; try lia; apply isz_nonneg. Qed.
Lemma aowns_nonneg m a : 0 <= aowns m a.
Proof. destruct a; cbn; try lia; apply isz_nonneg. Qed.
Lemma wowns_nonneg m wk : 0 <= wowns m wk.
Proof. destruct wk; cbn; try lia; apply isz_nonneg. Qed.
Lemma lgot_nonneg l : 0 <= lgot l. Proof. destruct l; cbn; lia. Qed.
Lemma wgot_nonneg wk : 0 <= wgot wk. Proof. destruct wk; cbn; lia. Qed.
Lemma lalive_nonneg l : 0 <= lalive l. Proof. destruct l; cbn; lia. Qed.
Lemma ldied_nonneg l : 0 <= ldied l. Proof. destruct l; cbn; lia. Qed.
Lemma ltransit_nonneg m l : 0 <= ltransit m l.
Proof. destruct l; cbn; try lia; apply isz_nonneg. Qed.
Lemma lcounted_nonneg tp t l : 0 <= lcounted tp t l.
Proof. destruct l; cbn; try lia; apply ty_nonneg. Qed.
Lemma wqueued_nonneg tp t wk : 0 <= wqueued tp t wk.
Proof. destruct wk; cbn; try lia; apply ty_nonneg. Qed.
Lemma wexecuting_nonneg tp t wk : 0 <= wexecuting tp t wk.
Proof. destruct wk; cbn; try lia; apply ty_nonneg. Qed.

Create HintDb nonneg.
#[export] Hint Resolve isz_nonneg ty_nonneg lowns_nonneg aowns_nonneg wowns_nonneg lgot_nonneg wgot_nonneg
  lalive_nonneg ldied_nonneg ltransit_nonneg lcounted_nonneg wqueued_nonneg
  wexecuting_nonneg : nonneg.

Lemma present_le {A} (o : option A) : 0 <= present o <= 1.
Proof. destruct o; cbn; lia. Qed.

Lemma isz_sum_elem m l : m ∈ l <-> 0 < sumZ (isz m) l.
Proof.
  split.
  - intros H. pose proof (sumZ_elem (isz m) l m (isz_nonneg m) H). rewrite isz_self in *. lia.
  - induction l as [|x l IH]; cbn; [lia|]. unfold isz at 1.
    destruct (decide (x = m)) as [->|]; [left|]. intros H. right. apply IH. lia.
Qed.

(** ** Types and heaps *)

Lemma type_of_payload h h' m :
  option_map payload (h' !! m) = option_map payload (h !! m) -> type_of h' m = type_of h m.
Proof.
  unfold type_of. destruct (h' !! m) as [nd'|], (h !! m) as [nd|]; cbn; try done.
  unfold payload. by intros [= _ _ ->].
Qed.

Lemma type_of_present h m : present (type_of h m) = present (h !! m).
Proof. unfold type_of. by destruct (h !! m). Qed.

Lemma store_some f p h h' : store f p h = Some h' ->
  exists nd, h !! p = Some nd /\ h' = <[p := f nd]> h.
Proof. unfold store. destruct (h !! p) as [nd|]; [|done]. intros [= <-]. eauto. Qed.

Lemma store_present f p h : is_Some (h !! p) -> exists h', store f p h = Some h'.
Proof. intros [nd Hnd]. unfold store. rewrite Hnd. eauto. Qed.

(** Overwriting a field other than the link keeps what the queues represent. *)
Lemma repr_store f p h nd q l :
  h !! p = Some nd -> next (f nd) = next nd -> repr h q l -> repr (<[p := f nd]> h) q l.
Proof.
  intros Hp Hf. apply repr_ext. intros x _. destruct (decide (x = p)) as [->|Hx].
  - by rewrite lookup_insert_eq, Hp; cbn; rewrite Hf.
  - by rewrite lookup_insert_ne.
Qed.

Lemma bump_some d t c x : valid_type t -> c !! Z.to_nat t = Some x ->
  bump d t c = Some (<[Z.to_nat t := x + d]> c).
Proof.
  unfold valid_type, bump. intros Ht Hx.
  destruct (Z.leb_spec 0 t), (Z.ltb_spec t TRANSACTION_MAX); try lia. cbn. by rewrite Hx.
Qed.

Lemma bump_lookup t t' (c : list Z) x y : valid_type t -> valid_type t' ->
  c !! Z.to_nat t = Some x ->
  (<[Z.to_nat t := y]> c) !! Z.to_nat t' = if decide (t' = t) then Some y else c !! Z.to_nat t'.
Proof.
  unfold valid_type. intros Ht Ht' Hx. destruct (decide (t' = t)) as [->|Hne].
  - apply list_lookup_insert_eq. by eapply lookup_lt_Some.
  - apply list_lookup_insert_ne. lia.
Qed.

(** ** Who owns a node *)

Section owners.
Context (w : world) (Q P : list positive) (tp : positive -> option Z).
Context (Hinv : inv w Q P tp).

Lemma owned_nonneg m :
  0 <= sumZ (isz m) Q /\ 0 <= sumZ (isz m) P /\ 0 <= sumZ (lowns m) (listeners w) /\
  0 <= sumZ (wowns m) (workers w) /\ 0 <= aowns m (main w) /\ 0 <= present (tp m) <= 1.
Proof. repeat split; try apply sumZ_nonneg; auto with nonneg; apply present_le. Qed.

Lemma listener_owner i l n : listeners w !! i = Some l -> lowns n l = 1 ->
  (n ∉ Q) /\ (n ∉ P) /\ sumZ (wowns n) (workers w) = 0 /\
  (forall l', l' ∈ listeners w -> l' <> l -> lowns n l' = 0) /\
  (exists t, tp n = Some t) /\ is_Some (nodes w !! n).
Proof.
  intros Hi Hl. pose proof (owned_nonneg n) as (H1 & H2 & H3 & H4 & H0 & H5).
  pose proof (inv_own _ _ _ _ Hinv n) as Hown.
  pose proof (sumZ_lookup (lowns n) _ i l (lowns_nonneg n) Hi).
  rewrite !isz_sum_elem. split; [lia|]. split; [lia|]. split; [lia|].
  assert (present (tp n) = 1) by lia.
  split; [|split].
  - intros l' Hl' Hne.
    pose proof (sumZ_two (lowns n) _ i l l' (lowns_nonneg n) Hi Hl' ltac:(congruence)).
    pose proof (lowns_nonneg n l'). lia.
  - destruct (tp n); [eauto|done].
  - rewrite <- (inv_tp _ _ _ _ Hinv), type_of_present in *.
    destruct (nodes w !! n); [eauto|done].
Qed.

Lemma worker_owner i wk n : workers w !! i = Some wk -> wowns n wk = 1 ->
  (n ∉ Q) /\ (n ∉ P) /\ sumZ (lowns n) (listeners w) = 0 /\
  (exists t, tp n = Some t /\ valid_type t) /\ is_Some (nodes w !! n).
Proof.
  intros Hi Hl. pose proof (owned_nonneg n) as (H1 & H2 & H3 & H4 & H0 & H5).
  pose proof (inv_own _ _ _ _ Hinv n) as Hown.
  pose proof (sumZ_lookup (wowns n) _ i wk (wowns_nonneg n) Hi).
  rewrite !isz_sum_elem. split; [lia|]. split; [lia|]. split; [lia|].
  assert (present (tp n) = 1) by lia. split.
  - destruct (tp n) as [t|] eqn:Ht; [|done]. exists t. split; [done|].
    apply (inv_valid _ _ _ _ Hinv n t); [|done].
    pose proof (sumZ_nonneg (ltransit n) (listeners w) (ltransit_nonneg n)). lia.
  - rewrite <- (inv_tp _ _ _ _ Hinv), type_of_present in *.
    destruct (nodes w !! n); [eauto|done].
Qed.

(** A node that is with none of the threads that count its type. *)
Lemma main_owner n : aowns n (main w) = 1 ->
  (n ∉ Q) /\ (n ∉ P) /\ sumZ (lowns n) (listeners w) = 0 /\
  sumZ (wowns n) (workers w) = 0 /\ is_Some (tp n) /\ is_Some (nodes w !! n).
Proof.
  intros Ha. pose proof (owned_nonneg n) as (H1 & H2 & H3 & H4 & H0 & H5).
  pose proof (inv_own _ _ _ _ Hinv n) as Hown. rewrite !isz_sum_elem.
  assert (Hp : present (tp n) = 1) by lia. split_and!; try lia.
  - destruct (tp n); [eauto|done].
  - rewrite <- (inv_tp _ _ _ _ Hinv), type_of_present in Hp.
    destruct (nodes w !! n); [eauto|done].
Qed.

Lemma none_in_transit n : (forall l, l ∈ listeners w -> lowns n l = 0 \/ ltransit n l = 0) ->
  sumZ (ltransit n) (listeners w) = 0.
Proof.
  intros Hl. apply sumZ_zero. intros l [H|H]%Hl; [|done]. destruct l; try done.
Qed.

Lemma not_listened n : sumZ (lowns n) (listeners w) = 0 ->
  sumZ (ltransit n) (listeners w) = 0.
Proof.
  intros H. apply none_in_transit. intros l Hl. left.
  pose proof (sumZ_elem _ _ _ (lowns_nonneg n) Hl). pose proof (lowns_nonneg n l). lia.
Qed.

(** Changing the type of such a node changes none of the counts. *)
Lemma types_elsewhere n tp' :
  n ∉ Q -> sumZ (ltransit n) (listeners w) = 0 -> sumZ (wowns n) (workers w) = 0 ->
  (forall m, m <> n -> tp' m = tp m) ->
  (forall t, sumZ (ty tp' t) Q = sumZ (ty tp t) Q) /\
  (forall t, sumZ (lcounted tp' t) (listeners w) = sumZ (lcounted tp t) (listeners w)) /\
  (forall t, sumZ (wqueued tp' t) (workers w) = sumZ (wqueued tp t) (workers w)) /\
  (forall t, sumZ (wexecuting tp' t) (workers w) = sumZ (wexecuting tp t) (workers w)).
Proof.
  intros HQ HL HW Htp.
  assert (HWx : forall wk, wk ∈ workers w -> wowns n wk = 0).
  { intros wk Hwk. pose proof (sumZ_elem _ _ _ (wowns_nonneg n) Hwk).
    pose proof (wowns_nonneg n wk). lia. }
  split; [|split; [|split]]; intros t; apply sumZ_ext.
  - intros m Hm. unfold ty. rewrite Htp; [done|congruence].
  - intros l Hl. pose proof (sumZ_elem _ _ _ (ltransit_nonneg n) Hl) as Hx.
    destruct l; try done. cbn in *. unfold ty. rewrite Htp; [done|]. intros ->.
    rewrite isz_self in Hx. lia.
  - intros wk Hwk. specialize (HWx _ Hwk). destruct wk; try done. cbn in *. unfold ty.
    rewrite Htp; [done|]. intros ->. by rewrite isz_self in HWx.
  - intros wk Hwk. specialize (HWx _ Hwk).
    destruct wk; try done; cbn in *; unfold ty; (rewrite Htp; [done|]); intros ->;
      by rewrite isz_self in HWx.
Qed.

Lemma transit_valid i l n t : listeners w !! i = Some l -> ltransit n l = 1 ->
  tp n = Some t -> valid_type t.
Proof.
  intros Hi Hl. apply (inv_valid _ _ _ _ Hinv n t).
  pose proof (owned_nonneg n) as (H1 & _ & _ & H4 & _ & _).
  pose proof (sumZ_lookup (ltransit n) _ i l (ltransit_nonneg n) Hi). lia.
Qed.
End owners.

(** Rewrite the sums over a thread list in which one thread moved. *)
Ltac sums :=
  repeat match goal with
  | H : ?l !! ?i = Some ?x |- context [sumZ ?f (<[?i := ?y]> ?l)] =>
      rewrite (sumZ_insert f l i x y H)
  end;
  rewrite ?sumZ_app;
  cbn [sumZ lowns wowns lgot wgot lalive ldied ltransit lcounted wqueued wexecuting lwaits wholds].

(** The components of an updated world. *)
Ltac fields :=
  cbn [with_nodes with_queued with_executing with_transactions with_pool with_accept with_exiting
       with_listeners with_workers nodes transactions queue_length transaction_id pool
       free_count queued executing listener_worker_count main exiting listeners workers].

(** ** Listener steps *)

Section listener_steps.
Context (w : world) (Q P : list positive) (tp : positive -> option Z) (i : nat).
Context (Hinv : inv w Q P tp).

(** Receiving data overwrites the listener's own node. *)
Lemma receive_inv n c l' :
  listeners w !! i = Some (LReceive n) ->
  l' = LLoop n \/ l' = LEnqueue n ->
  exists h, store (set_client_data c) n (nodes w) = Some h /\
  inv (with_listeners (with_nodes w h) (<[i := l']> (listeners w))) Q P
    (fun m => if decide (m = n) then Some (transaction c) else tp m).
Proof.
  intros Hi Hl'.
  destruct (listener_owner _ _ _ _ Hinv i _ n Hi (isz_self n))
    as (HQ & HP & HW & HL & [t0 Ht0] & [nd Hnd]).
  unfold store. rewrite Hnd. eexists. split; [done|].
  set (tp' := fun m => if decide (m = n) then Some (transaction c) else tp m).
  assert (Htr : sumZ (ltransit n) (listeners w) = 0).
  { apply none_in_transit. intros l Hl. destruct (decide (l = LReceive n)) as [->|];
      [by right|left; by apply HL]. }
  destruct (types_elsewhere w Q tp n tp' HQ Htr HW) as (HQ' & HL' & HW' & HX').
  { intros m Hm. unfold tp'. by rewrite decide_False. }
  assert (Hmove : lgot l' = 0 /\ lalive l' = 1 /\ ldied l' = 0 /\ lwaits l' = 0 /\
      (forall m, lowns m l' = isz m n) /\ (forall t, lcounted tp' t l' = 0) /\
      (forall m, ltransit m l' = 0))
    by (destruct Hl' as [Hn'|Hn']; rewrite Hn'; by repeat split).
  destruct Hmove as (M1 & M2 & M3 & M0 & M4 & M5 & M6).
  destruct Hinv as [Iq Ip Itp Iown Iql Ipl Ial Inn Idi Iwt Ival Iqu Iex].
  constructor; fields; try done; try (sums; lia).
  - by apply repr_store.
  - by apply repr_store.
  - intros m. unfold tp', type_of. destruct (decide (m = n)) as [->|Hm];
      [by rewrite lookup_insert_eq|rewrite lookup_insert_ne by done; apply Itp].
  - intros m. specialize (Iown m). sums. rewrite M4. unfold tp'.
    destruct (decide (m = n)) as [->|Hm]; [rewrite Ht0 in Iown; cbn in *; lia|lia].
  - intros m t. unfold tp'. destruct (decide (m = n)) as [->|Hm].
    + sums. rewrite M6.
      assert (sumZ (isz n) Q = 0).
      { apply sumZ_zero. intros x Hx. apply isz_other. congruence. }
      cbn [ltransit]. lia.
    + intros Hpos Ht. apply (Ival m t); [|done]. revert Hpos. sums. rewrite M6. lia.
  - intros t Ht. rewrite HQ', HW', Iqu by done. sums. rewrite HL', M5. f_equal. lia.
  - intros t Ht. by rewrite HX', Iex.
Qed.

Lemma loop_inv n l' :
  listeners w !! i = Some (LLoop n) -> l' = LReturned n \/ l' = LReceive n ->
  inv (with_listeners w (<[i := l']> (listeners w))) Q P tp.
Proof.
  intros Hi Hl'.
  assert (Hmove : lgot l' = 0 /\ lalive l' = 1 /\ ldied l' = 0 /\ lwaits l' = 0 /\
      (forall m, lowns m l' = isz m n) /\ (forall t, lcounted tp t l' = 0) /\
      (forall m, ltransit m l' = 0))
    by (destruct Hl' as [Hn'|Hn']; rewrite Hn'; by repeat split).
  destruct Hmove as (M1 & M2 & M3 & M0 & M4 & M5 & M6).
  destruct Hinv as [Iq Ip Itp Iown Iql Ipl Ial Inn Idi Iwt Ival Iqu Iex].
  constructor; fields; try done; try (sums; lia).
  - intros m. specialize (Iown m). sums. rewrite M4. lia.
  - intros m t Hp. apply (Ival m t). revert Hp. sums. rewrite M6. lia.
  - intros t Hv. rewrite Iqu by done. sums. rewrite M5. f_equal. lia.
Qed.

Lemma count_queued_inv n t :
  listeners w !! i = Some (LEnqueue n) -> tp n = Some t -> valid_type t ->
  exists w', count_queued 1 n w = Some w' /\
  inv (with_listeners w' (<[i := LCounted n]> (listeners w'))) Q P tp.
Proof.
  intros Hi Ht Hv.
  unfold count_queued. rewrite (inv_tp _ _ _ _ Hinv), Ht. cbn [mbind option_bind].
  rewrite (bump_some 1 t _ _ Hv (inv_queued _ _ _ _ Hinv t Hv)). cbn [mbind option_bind].
  eexists. split; [done|]. destruct Hinv as [Iq Ip Itp Iown Iql Ipl Ial Inn Idi Iwt Ival Iqu Iex].
  constructor; fields; try done.
  - intros m. specialize (Iown m). sums. lia.
  - sums. lia.
  - sums. lia.
  - sums. lia.
  - sums. lia.
  - intros m t' Hpos Ht'. destruct (decide (m = n)) as [->|Hm]; [congruence|].
    apply (Ival m t'); [|done]. revert Hpos. sums. rewrite isz_other by done. lia.
  - intros t' Hv'. rewrite (bump_lookup t t' _ _ _ Hv Hv' (Iqu t Hv)).
    destruct (decide (t' = t)) as [->|Hne].
    + sums. rewrite (ty_is _ _ _ Ht). f_equal. lia.
    + rewrite Iqu by done. sums. rewrite (ty_is_not _ _ _ _ Ht Hne). f_equal. lia.
Qed.

Lemma enqueue_inv n :
  listeners w !! i = Some (LCounted n) ->
  exists w', enqueue_transaction n w = Some w' /\
  inv (with_listeners w' (<[i := LGetNode]> (listeners w'))) (Q ++ [n]) P tp.
Proof.
  intros Hi.
  destruct (listener_owner _ _ _ _ Hinv i _ n Hi (isz_self n))
    as (HQ & HP & _ & _ & _ & Hn).
  destruct (push_spec _ _ _ n (inv_q _ _ _ _ Hinv) HQ Hn)
    as (h' & q' & Hpush & Hrepr & Hframe & Hpay).
  assert (Hn' : is_Some (h' !! n)).
  { specialize (Hpay n). destruct Hn as [nd Hnd]. rewrite Hnd in Hpay.
    destruct (h' !! n); [eauto|done]. }
  destruct Hn' as [nd Hnd].
  unfold enqueue_transaction. rewrite Hpush. cbn [mbind option_bind].
  unfold store. rewrite Hnd. cbn [mbind option_bind]. eexists. split; [done|].
  assert (HPQ : forall x, x ∈ P -> (x ∉ Q) /\ x <> n).
  { intros x Hx. split; [|congruence]. intros Hxq.
    pose proof (inv_own _ _ _ _ Hinv x). pose proof (owned_nonneg w Q P tp x).
    apply isz_sum_elem in Hx, Hxq. lia. }
  destruct Hinv as [Iq Ip Itp Iown Iql Ipl Ial Inn Idi Iwt Ival Iqu Iex].
  constructor; fields; try done.
  - by apply repr_store.
  - apply repr_store; [done|done|]. eapply repr_ext, Ip. intros x Hx.
    destruct (HPQ x Hx). by rewrite Hframe.
  - intros m. rewrite <- Itp. unfold type_of.
    destruct (decide (m = n)) as [->|Hm].
    + rewrite lookup_insert_eq. specialize (Hpay n). rewrite Hnd in Hpay.
      cbn in Hpay |- *. destruct (nodes w !! n); [|done]. by injection Hpay as _ _ ->.
    + rewrite lookup_insert_ne by done. by apply type_of_payload.
  - intros m. specialize (Iown m). sums. lia.
  - rewrite length_app. cbn [List.length]. lia.
  - sums. lia.
  - sums. lia.
  - lia.
  - sums. lia.
  - rewrite length_app. cbn [List.length]. sums. lia.
  - intros m t Hpos. apply (Ival m t). revert Hpos. sums. lia.
  - intros t Hv. rewrite Iqu by done. sums. f_equal. lia.
Qed.

Lemma wait_free_inv :
  listeners w !! i = Some LGetNode -> 0 < free_count w ->
  inv (with_listeners (with_pool w (nodes w) (pool w) (free_count w - 1))
         (<[i := LGotSem]> (listeners w))) Q P tp.
Proof.
  intros Hi Hpos. destruct Hinv as [Iq Ip Itp Iown Iql Ipl Ial Inn Idi Iwt Ival Iqu Iex].
  constructor; fields; try done; try (sums; lia).
  - intros m. specialize (Iown m). sums. lia.
  - intros m t Hp. apply (Ival m t). revert Hp. sums. lia.
  - intros t Hv. rewrite Iqu by done. sums. f_equal. lia.
Qed.

(** A listener past [free_count] finds a node: [get_node] is not NULL. *)
Lemma get_node_inv :
  listeners w !! i = Some LGotSem ->
  exists n w' P', get_node w = Some (Some n, w') /\ P = n :: P' /\
  inv (with_listeners w' (<[i := LLoop n]> (listeners w'))) Q P' tp.
Proof.
  intros Hi. pose proof (sumZ_lookup lgot _ i _ lgot_nonneg Hi) as Hgot. cbn in Hgot.
  destruct Hinv as [Iq Ip Itp Iown Iql Ipl Ial Inn Idi Iwt Ival Iqu Iex].
  destruct P as [|n P']; [cbn in Ipl; lia|].
  destruct (pop_spec _ _ _ _ Ip) as (q' & Hpop & Hrepr).
  exists n. unfold get_node. rewrite Hpop. cbn [mbind option_bind].
  do 2 eexists. do 2 (split; [done|]). cbn [List.length] in Ipl, Iwt.
  constructor; fields; try done; try (sums; lia).
  - intros m. specialize (Iown m). cbn [sumZ] in Iown. sums. lia.
  - intros m t Hp. apply (Ival m t). revert Hp. sums. lia.
  - intros t Hv. rewrite Iqu by done. sums. f_equal. lia.
Qed.

Lemma close_inv n :
  listeners w !! i = Some (LReceive n) -> 0 < listener_worker_count w ->
  inv (with_listeners (with_accept w (delete n (nodes w)) (listener_worker_count w - 1)
                         (main w)) (<[i := LFinished]> (listeners w))) Q P
    (fun m => if decide (m = n) then None else tp m).
Proof.
  intros Hi Hpos.
  destruct (listener_owner _ _ _ _ Hinv i _ n Hi (isz_self n))
    as (HQ & HP & HW & HL & [t0 Ht0] & _).
  set (tp' := fun m => if decide (m = n) then None else tp m).
  assert (Htr : sumZ (ltransit n) (listeners w) = 0).
  { apply none_in_transit. intros l Hl. destruct (decide (l = LReceive n)) as [->|];
      [by right|left; by apply HL]. }
  destruct (types_elsewhere w Q tp n tp' HQ Htr HW) as (HQ' & HL' & HW' & HX').
  { intros m Hm. unfold tp'. by rewrite decide_False. }
  assert (Hdel : forall q l, n ∉ l -> repr (nodes w) q l -> repr (delete n (nodes w)) q l).
  { intros q l Hl. apply repr_ext. intros x Hx. rewrite lookup_delete_ne; [done|congruence]. }
  destruct Hinv as [Iq Ip Itp Iown Iql Ipl Ial Inn Idi Iwt Ival Iqu Iex].
  constructor; fields; try (sums; lia); auto.
  - intros m. unfold tp', type_of. destruct (decide (m = n)) as [->|Hm];
      [by rewrite lookup_delete_eq|rewrite lookup_delete_ne by done; apply Itp].
  - intros m. specialize (Iown m). sums. unfold tp'. destruct (decide (m = n)) as [->|Hm].
    + rewrite Ht0, isz_self in *. cbn in *. lia.
    + rewrite isz_other by done. lia.
  - intros m t. unfold tp'. destruct (decide (m = n)) as [->|Hm]; [done|].
    intros Hp. apply (Ival m t). revert Hp. sums. lia.
  - intros t Hv. rewrite HQ', HW', Iqu by done. sums. rewrite HL'. f_equal. lia.
  - intros t Hv. by rewrite HX', Iex.
Qed.
End listener_steps.

(** ** Worker steps *)

Section worker_steps.
Context (w : world) (Q P : list positive) (tp : positive -> option Z) (i : nat).
Context (Hinv : inv w Q P tp).

Lemma worker_loop_inv wk' :
  workers w !! i = Some WLoop -> wk' = WReturned \/ wk' = WDequeue ->
  inv (with_workers w (<[i := wk']> (workers w))) Q P tp.
Proof.
  intros Hi Hwk'.
  assert (Hmove : wgot wk' = 0 /\ wholds wk' = 0 /\ (forall m, wowns m wk' = 0) /\
      (forall t, wqueued tp t wk' = 0) /\ (forall t, wexecuting tp t wk' = 0))
    by (destruct Hwk' as [Hn'|Hn']; rewrite Hn'; by repeat split).
  destruct Hmove as (M1 & M2 & M3 & M4 & M5).
  destruct Hinv as [Iq Ip Itp Iown Iql Ipl Ial Inn Idi Iwt Ival Iqu Iex].
  constructor; fields; try done; try (sums; lia).
  - intros m. specialize (Iown m). sums. rewrite M3. lia.
  - intros m t Hp. apply (Ival m t). revert Hp. sums. rewrite M3. lia.
  - intros t Hv. rewrite Iqu by done. sums. rewrite M4. f_equal. lia.
  - intros t Hv. rewrite Iex by done. sums. rewrite M5. f_equal. lia.
Qed.

Lemma wait_queue_inv :
  workers w !! i = Some WDequeue -> 0 < queue_length w ->
  inv (with_workers (with_transactions w (nodes w) (transactions w) (queue_length w - 1)
                       (transaction_id w)) (<[i := WGotSem]> (workers w))) Q P tp.
Proof.
  intros Hi Hpos. destruct Hinv as [Iq Ip Itp Iown Iql Ipl Ial Inn Idi Iwt Ival Iqu Iex].
  constructor; fields; try done; try (sums; lia).
  - intros m. specialize (Iown m). sums. lia.
  - intros m t Hp. apply (Ival m t). revert Hp. sums. lia.
  - intros t Hv. rewrite Iqu by done. sums. f_equal. lia.
  - intros t Hv. rewrite Iex by done. sums. f_equal. lia.
Qed.

(** A worker past [queue_length] finds a transaction. *)
Lemma dequeue_inv :
  workers w !! i = Some WGotSem ->
  exists n w' Q', dequeue_transaction w = Some (Some n, w') /\ Q = n :: Q' /\
  inv (with_workers w' (<[i := WDequeued n]> (workers w'))) Q' P tp.
Proof.
  intros Hi. pose proof (sumZ_lookup wgot _ i _ wgot_nonneg Hi) as Hgot. cbn in Hgot.
  destruct Hinv as [Iq Ip Itp Iown Iql Ipl Ial Inn Idi Iwt Ival Iqu Iex].
  destruct Q as [|n Q']; [cbn in Iql; lia|].
  destruct (pop_spec _ _ _ _ Iq) as (q' & Hpop & Hrepr).
  exists n. unfold dequeue_transaction. rewrite Hpop. cbn [mbind option_bind].
  do 2 eexists. do 2 (split; [done|]). cbn [List.length] in Iql, Iwt.
  constructor; fields; try done; try (sums; lia).
  - intros m. specialize (Iown m). cbn [sumZ] in Iown. sums. lia.
  - intros m t Hp. apply (Ival m t). revert Hp. sums. lia.
  - intros t Hv. rewrite Iqu by done. sums. f_equal. lia.
  - intros t Hv. rewrite Iex by done. sums. f_equal. lia.
Qed.

Lemma uncount_inv n :
  workers w !! i = Some (WDequeued n) ->
  exists w', count_queued (-1) n w = Some w' /\
  inv (with_workers w' (<[i := WUncounted n]> (workers w'))) Q P tp.
Proof.
  intros Hi.
  destruct (worker_owner _ _ _ _ Hinv i _ n Hi (isz_self n)) as (_ & _ & _ & [t [Ht Hv]] & _).
  unfold count_queued. rewrite (inv_tp _ _ _ _ Hinv), Ht. cbn [mbind option_bind].
  rewrite (bump_some (-1) t _ _ Hv (inv_queued _ _ _ _ Hinv t Hv)). cbn [mbind option_bind].
  eexists. split; [done|]. destruct Hinv as [Iq Ip Itp Iown Iql Ipl Ial Inn Idi Iwt Ival Iqu Iex].
  constructor; fields; try done; try (sums; lia).
  - intros m. specialize (Iown m). sums. lia.
  - intros m t' Hp. apply (Ival m t'). revert Hp. sums. lia.
  - intros t' Hv'. rewrite (bump_lookup t t' _ _ _ Hv Hv' (Iqu t Hv)).
    destruct (decide (t' = t)) as [->|Hne].
    + sums. rewrite (ty_is _ _ _ Ht). f_equal. lia.
    + rewrite Iqu by done. sums. rewrite (ty_is_not _ _ _ _ Ht Hne). f_equal. lia.
  - intros t' Hv'. rewrite Iex by done. sums. f_equal. lia.
Qed.

(** Starting and ending an execution. *)
Lemma count_executing_inv n d wk wk' :
  workers w !! i = Some wk ->
  (wk, wk', d) = (WUncounted n, WProcess n, 1) \/ (wk, wk', d) = (WReply n, WRecycle n, -1) ->
  exists w', count_executing d n w = Some w' /\
  inv (with_workers w' (<[i := wk']> (workers w'))) Q P tp.
Proof.
  intros Hi Hwk.
  assert (Hown : (forall m, wowns m wk = isz m n /\ wowns m wk' = isz m n) /\
      wgot wk = 0 /\ wgot wk' = 0 /\ wholds wk = wholds wk' /\ (forall t, wqueued tp t wk = 0 /\ wqueued tp t wk' = 0) /\
      (forall t, wexecuting tp t wk' - wexecuting tp t wk = d * ty tp t n))
    by (destruct Hwk as [[= -> -> ->]|[= -> -> ->]]; repeat split; intros; cbn; lia).
  destruct Hown as (O1 & O2 & O3 & O6 & O4 & O5).
  destruct (worker_owner _ _ _ _ Hinv i _ n Hi) as (_ & _ & _ & [t [Ht Hv]] & _);
    [rewrite (proj1 (O1 n)); apply isz_self|].
  unfold count_executing. rewrite (inv_tp _ _ _ _ Hinv), Ht. cbn [mbind option_bind].
  rewrite (bump_some d t _ _ Hv (inv_executing _ _ _ _ Hinv t Hv)). cbn [mbind option_bind].
  eexists. split; [done|]. destruct Hinv as [Iq Ip Itp Iown Iql Ipl Ial Inn Idi Iwt Ival Iqu Iex].
  constructor; fields; try done; try (sums; lia).
  - intros m. specialize (Iown m). specialize (O1 m). sums. lia.
  - intros m t' Hp. apply (Ival m t'). revert Hp. specialize (O1 m). sums. lia.
  - intros t' Hv'. rewrite Iqu by done. specialize (O4 t'). sums. f_equal. lia.
  - intros t' Hv'. rewrite (bump_lookup t t' _ _ _ Hv Hv' (Iex t Hv)). specialize (O5 t').
    destruct (decide (t' = t)) as [->|Hne].
    + sums. rewrite (ty_is _ _ _ Ht) in O5. f_equal. lia.
    + rewrite Iex by done. sums. rewrite (ty_is_not _ _ _ _ Ht Hne) in O5. f_equal. lia.
Qed.

Lemma process_inv n c :
  workers w !! i = Some (WProcess n) ->
  exists nd, nodes w !! n = Some nd /\
  inv (with_workers
         (with_nodes w (<[n := set_client_data (mk_client_transaction c.1
            (transaction (client_data nd)) c.2) nd]> (nodes w)))
         (<[i := WReply n]> (workers w))) Q P tp.
Proof.
  intros Hi. destruct (worker_owner _ _ _ _ Hinv i _ n Hi (isz_self n))
    as (_ & _ & _ & _ & [nd Hnd]).
  exists nd. split; [done|]. destruct Hinv as [Iq Ip Itp Iown Iql Ipl Ial Inn Idi Iwt Ival Iqu Iex].
  set (f := set_client_data _).
  constructor; fields; try done; try (sums; lia); try by apply repr_store.
  - intros m. rewrite <- Itp. unfold type_of. destruct (decide (m = n)) as [->|Hm].
    + by rewrite lookup_insert_eq, Hnd.
    + by rewrite lookup_insert_ne.
  - intros m. specialize (Iown m). sums. lia.
  - intros m t' Hp. apply (Ival m t'). revert Hp. sums. lia.
  - intros t' Hv'. rewrite Iqu by done. sums. f_equal. lia.
  - intros t' Hv'. rewrite Iex by done. sums. f_equal. lia.
Qed.

Lemma recycle_inv n :
  workers w !! i = Some (WRecycle n) ->
  exists w', recycle_node n w = Some w' /\
  inv (with_workers w' (<[i := WLoop]> (workers w'))) Q (P ++ [n]) tp.
Proof.
  intros Hi. destruct (worker_owner _ _ _ _ Hinv i _ n Hi (isz_self n))
    as (HQ & HP & _ & _ & Hn).
  destruct (push_spec _ _ _ n (inv_p _ _ _ _ Hinv) HP Hn)
    as (h' & q' & Hpush & Hrepr & Hframe & Hpay).
  unfold recycle_node. rewrite Hpush. cbn [mbind option_bind]. eexists. split; [done|].
  assert (HPQ : forall x, x ∈ Q -> (x ∉ P) /\ x <> n).
  { intros x Hx. split; [|congruence]. intros Hxp.
    pose proof (inv_own _ _ _ _ Hinv x). pose proof (owned_nonneg w Q P tp x).
    apply isz_sum_elem in Hx, Hxp. lia. }
  destruct Hinv as [Iq Ip Itp Iown Iql Ipl Ial Inn Idi Iwt Ival Iqu Iex].
  constructor; fields; try done; try (sums; lia).
  - eapply repr_ext, Iq. intros x Hx. destruct (HPQ x Hx). by rewrite Hframe.
  - intros m. rewrite <- Itp. by apply type_of_payload.
  - intros m. specialize (Iown m). sums. lia.
  - rewrite length_app. cbn [List.length]. lia.
  - rewrite length_app. cbn [List.length]. sums. lia.
  - intros m t' Hp. apply (Ival m t'). revert Hp. sums. pose proof (isz_nonneg m n). lia.
  - intros t' Hv'. rewrite Iqu by done. sums. f_equal. lia.
  - intros t' Hv'. rewrite Iex by done. sums. f_equal. lia.
Qed.
End worker_steps.

(** ** New connections *)

Section accept.
Context (w : world) (Q P : list positive) (tp : positive -> option Z).
Context (Hinv : inv w Q P tp).

(** The main thread moves without touching a node. *)
Lemma main_inv count a :
  (forall m, aowns m a = aowns m (main w)) ->
  count + posting a = listener_worker_count w + posting (main w) -> 0 <= count ->
  inv (with_accept w (nodes w) count a) Q P tp.
Proof.
  intros Ha Hcount Hpos. destruct Hinv as [Iq Ip Itp Iown Iql Ipl Ial Inn Idi Iwt Ival Iqu Iex].
  constructor; fields; try done; try lia. intros m. rewrite Ha. apply Iown.
Qed.

Lemma exit_inv e : inv (with_exiting w e) Q P tp.
Proof. by destruct Hinv. Qed.

(** The nodes change at one that the main thread owns before or after. *)
Lemma main_nodes_inv n h tp' a :
  posting a = posting (main w) -> n ∉ Q -> n ∉ P ->
  sumZ (lowns n) (listeners w) = 0 -> sumZ (wowns n) (workers w) = 0 ->
  (forall m, m <> n -> h !! m = nodes w !! m) ->
  (forall m, tp' m = if decide (m = n) then type_of h n else tp m) ->
  aowns n a = present (tp' n) -> (forall m, m <> n -> aowns m a = aowns m (main w)) ->
  inv (with_accept w h (listener_worker_count w) a) Q P tp'.
Proof.
  intros Hpost HQ HP HL HW Hh Htp Han Ha.
  assert (Htp' : forall m, m <> n -> tp' m = tp m)
    by (intros m Hm; rewrite Htp; by rewrite decide_False).
  pose proof (not_listened w n HL) as Htr.
  destruct (types_elsewhere w Q tp n tp' HQ Htr HW Htp') as (HQ' & HL' & HW' & HX').
  assert (Hframe : forall q l, n ∉ l -> repr (nodes w) q l -> repr h q l).
  { intros q l Hl. apply repr_ext. intros x Hx. rewrite Hh; [done|congruence]. }
  assert (HQ0 : sumZ (isz n) Q = 0)
    by (apply sumZ_zero; intros x Hx; apply isz_other; congruence).
  assert (HP0 : sumZ (isz n) P = 0)
    by (apply sumZ_zero; intros x Hx; apply isz_other; congruence).
  destruct Hinv as [Iq Ip Itp Iown Iql Ipl Ial Inn Idi Iwt Ival Iqu Iex].
  constructor; fields; try done; auto; try lia.
  - intros m. rewrite Htp. destruct (decide (m = n)) as [->|Hm]; [done|].
    rewrite <- Itp. unfold type_of. by rewrite Hh.
  - intros m. destruct (decide (m = n)) as [->|Hm]; [lia|].
    rewrite Ha, Htp' by done. apply Iown.
  - intros m t Hpos. destruct (decide (m = n)) as [->|Hm]; [lia|].
    rewrite Htp' by done. by apply Ival.
  - intros t Hv. rewrite HQ', HL', HW'. by apply Iqu.
  - intros t Hv. rewrite HX'. by apply Iex.
Qed.

Lemma malloc_inv n nd : main w = AMalloc -> nodes w !! n = None ->
  inv (with_accept w (<[n := nd]> (nodes w)) (listener_worker_count w) (AAccept n)) Q P
    (fun m => if decide (m = n) then Some (transaction (client_data nd)) else tp m).
Proof.
  intros Hm Hn.
  assert (Hnone : present (tp n) = 0)
    by (rewrite <- (inv_tp _ _ _ _ Hinv), type_of_present; by rewrite Hn).
  pose proof (inv_own _ _ _ _ Hinv n) as Hown.
  pose proof (owned_nonneg w Q P tp n) as (H1 & H2 & H3 & H4 & H5 & _).
  apply (main_nodes_inv n); try (by rewrite Hm); try lia; try (rewrite isz_sum_elem; lia).
  - intros m Hne. by rewrite lookup_insert_ne.
  - intros m. unfold type_of. by rewrite lookup_insert_eq.
  - rewrite decide_True by done. apply isz_self.
  - intros m Hne. rewrite Hm. by apply isz_other.
Qed.

(** [free(node)] after a failure. *)
Lemma discard_inv n a : main w = AAccept n \/ main w = ACreate n ->
  (forall m, aowns m a = 0) -> posting a = 0 ->
  inv (with_accept w (delete n (nodes w)) (listener_worker_count w) a) Q P
    (fun m => if decide (m = n) then None else tp m).
Proof.
  intros Hm Ha Hp.
  assert (Hmain : posting (main w) = 0 /\ forall m, aowns m (main w) = isz m n)
    by (destruct Hm as [->| ->]; by split).
  destruct Hmain as [Hp' Hown].
  destruct (main_owner _ _ _ _ Hinv n) as (HQ & HP & HL & HW & _ & _);
    [rewrite Hown; apply isz_self|].
  apply (main_nodes_inv n); try done; try lia.
  - intros m Hne. by rewrite lookup_delete_ne.
  - intros m. unfold type_of. by rewrite lookup_delete_eq.
  - rewrite decide_True by done. apply Ha.
  - intros m Hne. rewrite Hown, isz_other by done. apply Ha.
Qed.

Lemma accepted_inv n nd fd : main w = AAccept n -> nodes w !! n = Some nd ->
  inv (with_accept w (<[n := set_s fd nd]> (nodes w)) (listener_worker_count w) (ACreate n))
    Q P tp.
Proof.
  intros Hm Hn.
  destruct (main_owner _ _ _ _ Hinv n) as (HQ & HP & HL & HW & Hs & _);
    [rewrite Hm; apply isz_self|].
  assert (Ht : tp n = Some (transaction (client_data nd)))
    by (rewrite <- (inv_tp _ _ _ _ Hinv); unfold type_of; by rewrite Hn).
  apply (main_nodes_inv n); try done; try (by rewrite Hm).
  - intros m Hne. by rewrite lookup_insert_ne.
  - intros m. unfold type_of. rewrite lookup_insert_eq. by destruct (decide (m = n)) as [->|].
  - rewrite Ht. apply isz_self.
Qed.

Lemma created_inv n : main w = ACreate n ->
  inv (with_listeners (with_accept w (nodes w) (listener_worker_count w) APost)
         (listeners w ++ [LLoop n])) Q P tp.
Proof.
  intros Hm. destruct Hinv as [Iq Ip Itp Iown Iql Ipl Ial Inn Idi Iwt Ival Iqu Iex].
  rewrite Hm in Ial, Iown. cbn [aowns posting] in *.
  constructor; fields; try done; cbn [aowns posting]; try (sums; lia).
  - intros m. specialize (Iown m). sums. lia.
  - intros m t. sums. intros Hp. apply Ival. lia.
  - intros t Hv. rewrite Iqu by done. sums. f_equal. lia.
Qed.
End accept.
