(* ===== verification/ClientSafety.v ===== *)
(** * Safety and progress of the client

    The invariant holds in every reachable state; what it means for the
    threads, how the threads come to rest, and what happens with the
    transaction type that the client's counters have no room for. *)

From Stdlib Require Import ZArith Lia.
From stdpp Require Import base list gmap.
From S2P Require Import Prelude Double Common TxnData Queue Client ClientInv.

Lemma initial_inv n : inv (initial n) [] [] (fun _ => None).
Proof.
  constructor; cbn [initial nodes transactions pool listeners workers queue_length free_count
    queued executing listener_worker_count posting]; try apply repr_empty; try done.
  - intros m. rewrite sumZ_zero with (l := replicate n WLoop); [done|].
    intros wk [-> _]%elem_of_replicate. done.
  - rewrite sumZ_zero; [done|]. intros wk [-> _]%elem_of_replicate. done.
  - rewrite sumZ_zero; [done|]. intros wk [-> _]%elem_of_replicate. done.
  - intros t [Ht1 Ht2]. rewrite sumZ_zero with (l := replicate n WLoop);
      [|intros wk [-> _]%elem_of_replicate; done].
    apply (lookup_replicate_2 5 0 (Z.to_nat t)). unfold TRANSACTION_MAX in *. lia.
  - intros t [Ht1 Ht2]. rewrite sumZ_zero with (l := replicate n WLoop);
      [|intros wk [-> _]%elem_of_replicate; done].
    apply (lookup_replicate_2 5 0 (Z.to_nat t)). unfold TRANSACTION_MAX in *. lia.
Qed.

(** The only thing that goes wrong: a listener that counts a transaction of a
    type that the counters have no room for. *)
Definition fault_cause (w : world) : Prop :=
  exists i node nd, listeners w !! i = Some (LEnqueue node) /\ nodes w !! node = Some nd /\
    ~ valid_type (transaction (client_data nd)).

Lemma listener_step_inv w Q P tp i l ev :
  inv w Q P tp -> listeners w !! i = Some l ->
  match ran_listener i (listener_step ev l w) with
  | Ran w' => exists Q' P' tp', inv w' Q' P' tp'
  | Blocked => True
  | Fault => exists node nd, l = LEnqueue node /\ nodes w !! node = Some nd /\
      ~ valid_type (transaction (client_data nd))
  end.
Proof.
  intros Hinv Hi. destruct l as [n|n|n|n| | | |n|]; cbn [listener_step]; try done.
  - do 3 eexists. apply (loop_inv _ _ _ _ i Hinv n); [done|]. destruct (exiting w); auto.
  - destruct ev as [c|c|].
    + destruct (receive_inv _ _ _ _ i Hinv n c (LEnqueue n) Hi) as (h & -> & H); [auto|].
      cbn. eauto.
    + destruct (receive_inv _ _ _ _ i Hinv n c (LLoop n) Hi) as (h & -> & H); [auto|].
      cbn. eauto.
    + destruct (Z.ltb_spec 0 (listener_worker_count w)) as [Hpos|]; [|done].
      do 3 eexists. exact (close_inv _ _ _ _ i Hinv n Hi Hpos).
  - destruct (listener_owner _ _ _ _ Hinv i _ n Hi (isz_self n)) as (_ & _ & _ & _ & [t Ht] & Hs).
    destruct (decide (0 <= t < TRANSACTION_MAX)) as [Hv|Hv].
    + destruct (count_queued_inv _ _ _ _ i Hinv n t Hi Ht Hv) as (w' & -> & H). cbn. eauto.
    + destruct Hs as [nd Hnd]. pose proof (inv_tp _ _ _ _ Hinv n) as Htn.
      unfold count_queued, bump. rewrite Htn, Ht. cbn [mbind option_bind].
      destruct (Z.leb_spec 0 t), (Z.ltb_spec t TRANSACTION_MAX); try lia; cbn;
        exists n, nd; (split; [done|]); (split; [done|]);
        unfold type_of in Htn; rewrite Hnd, Ht in Htn; injection Htn as ->; exact Hv.
  - destruct (enqueue_inv _ _ _ _ i Hinv n Hi) as (w' & -> & H). cbn. eauto.
  - destruct (Z.ltb_spec 0 (free_count w)) as [Hpos|]; [|done].
    do 3 eexists. exact (wait_free_inv _ _ _ _ i Hinv Hi Hpos).
  - destruct (get_node_inv _ _ _ _ i Hinv Hi) as (n & w' & P' & -> & _ & H). cbn. eauto.
Qed.

Lemma worker_step_inv w Q P tp i wk c :
  inv w Q P tp -> workers w !! i = Some wk ->
  match ran_worker i (worker_step c wk w) with
  | Ran w' => exists Q' P' tp', inv w' Q' P' tp'
  | Blocked => True
  | Fault => False
  end.
Proof.
  intros Hinv Hi. destruct wk as [| | |n|n|n|n|n|]; cbn [worker_step]; try done.
  - do 3 eexists. apply (worker_loop_inv _ _ _ _ i Hinv); [done|]. destruct (exiting w); auto.
  - destruct (Z.ltb_spec 0 (queue_length w)) as [Hpos|]; [|done].
    do 3 eexists. exact (wait_queue_inv _ _ _ _ i Hinv Hi Hpos).
  - destruct (dequeue_inv _ _ _ _ i Hinv Hi) as (n & w' & Q' & -> & _ & H). cbn. eauto.
  - destruct (uncount_inv _ _ _ _ i Hinv n Hi) as (w' & -> & H). cbn. eauto.
  - destruct (count_executing_inv _ _ _ _ i Hinv n 1 _ (WProcess n) Hi) as (w' & -> & H);
      [auto|]. cbn. eauto.
  - destruct (process_inv _ _ _ _ i Hinv n c Hi) as (nd & -> & H). cbn. eauto.
  - destruct (count_executing_inv _ _ _ _ i Hinv n (-1) _ (WRecycle n) Hi) as (w' & -> & H);
      [auto|]. cbn. eauto.
  - destruct (recycle_inv _ _ _ _ i Hinv n Hi) as (w' & -> & H). cbn. eauto.
Qed.

Lemma accept_step_inv w Q P tp ev : inv w Q P tp ->
  match accept_step ev w with
  | Ran w' => exists Q' P' tp', inv w' Q' P' tp'
  | Blocked => True
  | Fault => False
  end.
Proof.
  intros Hinv. pose proof (inv_nonneg _ _ _ _ Hinv) as Hnn. unfold accept_step.
  destruct (main w) as [| |n|n| |] eqn:Hm.
  - do 3 eexists. apply (main_inv _ _ _ _ Hinv); rewrite ?Hm; [..|lia];
      intros; by destruct (exiting w).
  - destruct ev as [n nd| |fd| |b]; try done.
    + destruct (nodes w !! n) eqn:Hn; [done|]. do 3 eexists.
      exact (malloc_inv _ _ _ _ Hinv n nd Hm Hn).
    + do 3 eexists. apply (main_inv _ _ _ _ Hinv); rewrite ?Hm; [done..|lia].
  - destruct ev as [n' nd| |fd| |b]; try done.
    destruct (main_owner _ _ _ _ Hinv n) as (_ & _ & _ & _ & _ & [nd Hnd]);
      [rewrite Hm; apply isz_self|].
    unfold store. rewrite Hnd. cbn [mbind option_bind or_fault]. destruct (fd =? -1).
    + do 3 eexists. rewrite delete_insert_eq. apply (discard_inv _ _ _ _ Hinv n); auto.
    + do 3 eexists. exact (accepted_inv _ _ _ _ Hinv n nd fd Hm Hnd).
  - destruct ev as [n' nd| |fd| |[]]; try done; do 3 eexists;
      first [exact (created_inv _ _ _ _ Hinv n Hm)
            |apply (discard_inv _ _ _ _ Hinv n); auto].
  - do 3 eexists. apply (main_inv _ _ _ _ Hinv); rewrite ?Hm; [done|cbn; lia|lia].
  - done.
Qed.

Lemma step_inv w Q P tp r : inv w Q P tp -> step w r ->
  match r with
  | Ran w' => exists Q' P' tp', inv w' Q' P' tp'
  | Blocked => True
  | Fault => fault_cause w
  end.
Proof.
  intros Hinv Hstep. destruct Hstep as [i l ev Hi|i wk c Hi|ev|].
  - pose proof (listener_step_inv _ _ _ _ i l ev Hinv Hi) as H.
    destruct (ran_listener i _) as [w'| |]; [done..|].
    destruct H as (node & nd & -> & Hn & Hv). by exists i, node, nd.
  - pose proof (worker_step_inv _ _ _ _ i wk c Hinv Hi) as H.
    by destruct (ran_worker i _) as [w'| |].
  - pose proof (accept_step_inv _ _ _ _ ev Hinv) as H.
    by destruct (accept_step ev w) as [w'| |].
  - do 3 eexists. exact (exit_inv _ _ _ _ Hinv true).
Qed.

Lemma reachable_inv n w : reachable n w -> exists Q P tp, inv w Q P tp.
Proof.
  induction 1 as [|w w' _ (Q & P & tp & IH) Hstep].
  - do 3 eexists. apply initial_inv.
  - exact (step_inv _ _ _ _ _ IH Hstep).
Qed.

(** The nodes that the threads own. *)
Definition listener_nodes (w : world) : list positive :=
  omap (fun l => match l with
                 | LLoop n | LReceive n | LEnqueue n | LCounted n | LReturned n => Some n
                 | _ => None end) (listeners w).
Definition worker_nodes (w : world) : list positive :=
  omap (fun wk => match wk with
                  | WDequeued n | WUncounted n | WProcess n | WReply n | WRecycle n => Some n
                  | _ => None end) (workers w).

Definition main_nodes (w : world) : list positive :=
  match main w with AAccept n | ACreate n => [n] | _ => [] end.

Lemma isz_listener_nodes m ls :
  sumZ (isz m) (omap (fun l => match l with
      LLoop n | LReceive n | LEnqueue n | LCounted n | LReturned n => Some n
      | _ => None end) ls) = sumZ (lowns m) ls.
Proof. induction ls as [|[] ls IH]; cbn; lia. Qed.

Lemma isz_worker_nodes m ws :
  sumZ (isz m) (omap (fun wk => match wk with
      WDequeued n | WUncounted n | WProcess n | WReply n | WRecycle n => Some n
      | _ => None end) ws) = sumZ (wowns m) ws.
Proof. induction ws as [|[] ws IH]; cbn; lia. Qed.

Lemma isz_NoDup l : (forall m, sumZ (isz m) l <= 1) -> NoDup l.
Proof.
  induction l as [|x l IH]; intros H; constructor.
  - intros Hx%isz_sum_elem. specialize (H x). cbn in H. rewrite isz_self in H. lia.
  - apply IH. intros m. specialize (H m). cbn in H. pose proof (isz_nonneg m x). lia.
Qed.

(** C1. In every reachable state of the client, whatever the interleaving, the
    messages, the failures of the accept loop, and the moment of [exit]: the
    queue and the pool are well formed lists; no node is in two places, be it
    the queue, the pool, a listener, a worker or the main thread, and the nodes
    in these places are exactly the allocated ones; each semaphore equals the
    nodes in its list that no thread past [sem_wait] has a claim on; and no
    listener has died on an empty pool. *)
Theorem client_invariant n w : reachable n w ->
  exists Q P,
    let places := Q ++ P ++ listener_nodes w ++ worker_nodes w ++ main_nodes w in
    repr (nodes w) (transactions w) Q /\ repr (nodes w) (pool w) P /\
    NoDup places /\ (forall m, m ∈ places <-> is_Some (nodes w !! m)) /\
    queue_length w + sumZ wgot (workers w) = Z.of_nat (List.length Q) /\
    free_count w + sumZ lgot (listeners w) = Z.of_nat (List.length P) /\
    0 <= queue_length w /\ 0 <= free_count w /\
    (LDied ∉ listeners w).
Proof.
  intros (Q & P & tp & H)%reachable_inv. exists Q, P. cbv zeta.
  assert (Hsum : forall m,
    sumZ (isz m) (Q ++ P ++ listener_nodes w ++ worker_nodes w ++ main_nodes w)
    = present (nodes w !! m)).
  { intros m.
    assert (Hm : sumZ (isz m) (main_nodes w) = aowns m (main w))
      by (unfold main_nodes; destruct (main w); cbn; lia).
    rewrite <- type_of_present, (inv_tp _ _ _ _ H), <- (inv_own _ _ _ _ H).
    unfold listener_nodes, worker_nodes.
    rewrite !sumZ_app, isz_listener_nodes, isz_worker_nodes, Hm. lia. }
  split; [apply H|]. split; [apply H|]. split; [|split; [|split; [|split]]].
  - apply isz_NoDup. intros m. rewrite Hsum. apply present_le.
  - intros m. rewrite isz_sum_elem, Hsum. destruct (nodes w !! m); cbn; split; try done; try lia; eauto.
  - apply H.
  - apply H.
  - pose proof (inv_nonneg _ _ _ _ H). split; [lia|]. split; [lia|].
    intros Hd. pose proof (sumZ_elem ldied _ _ ldied_nonneg Hd) as Hle. cbn in Hle.
    pose proof (inv_died _ _ _ _ H). lia.
Qed.

(** C2. The only step of any thread that goes through an invalid pointer or
    index is a listener's count of a transaction whose type is not one of the
    five that the counters have room for, as the [INTEGRITY] that the driver
    sends first, and that step always does; and neither [dequeue_transaction]
    nor [get_node] finds its list empty. *)
Theorem client_no_fault n w : reachable n w ->
  (step w Fault <->
   exists i node nd, listeners w !! i = Some (LEnqueue node) /\ nodes w !! node = Some nd /\
     ~ 0 <= transaction (client_data nd) < TRANSACTION_MAX) /\
  (forall i, workers w !! i = Some WGotSem ->
     exists node w', dequeue_transaction w = Some (Some node, w')) /\
  (forall i, listeners w !! i = Some LGotSem -> exists node w', get_node w = Some (Some node, w')).
Proof.
  intros (Q & P & tp & H)%reachable_inv. split; [split|split].
  - intros Hs. exact (step_inv _ _ _ _ _ H Hs).
  - intros (i & node & nd & Hi & Hn & Hv).
    pose proof (step_listener w i _ RecvClosed Hi) as Hs.
    cbn [listener_step] in Hs. unfold count_queued, type_of, bump in Hs. rewrite Hn in Hs.
    cbn [mbind option_bind] in Hs.
    destruct (Z.leb_spec 0 (transaction (client_data nd))),
      (Z.ltb_spec (transaction (client_data nd)) TRANSACTION_MAX); try lia; exact Hs.
  - intros i Hi. destruct (dequeue_inv _ _ _ _ i H Hi) as (node & w' & _ & Hd & _). eauto.
  - intros i Hi. destruct (get_node_inv _ _ _ _ i H Hi) as (node & w' & _ & Hd & _). eauto.
Qed.

(** The transaction counters that the client reports are exact and never
    negative: the queued counter of a type counts the transactions of that type
    in the queue and those a thread is moving into or out of it; the executing
    counter those that workers execute. *)
Theorem transaction_counters_exact n w : reachable n w ->
  exists Q, repr (nodes w) (transactions w) Q /\
  forall t, 0 <= t < TRANSACTION_MAX ->
    let of_type := ty (type_of (nodes w)) t in
    queued w !! Z.to_nat t
    = Some (sumZ of_type Q
            + sumZ (fun l => match l with LCounted m => of_type m | _ => 0 end) (listeners w)
            + sumZ (fun wk => match wk with WDequeued m => of_type m | _ => 0 end) (workers w)) /\
    executing w !! Z.to_nat t
    = Some (sumZ (fun wk => match wk with WProcess m | WReply m => of_type m | _ => 0 end)
              (workers w)) /\
    exists q e, queued w !! Z.to_nat t = Some q /\ executing w !! Z.to_nat t = Some e /\
      0 <= q /\ 0 <= e.
Proof.
  intros (Q & P & tp & H)%reachable_inv. exists Q. split; [apply H|]. intros t Ht. cbv zeta.
  assert (Hty : forall m, ty (type_of (nodes w)) t m = ty tp t m)
    by (intros m; unfold ty; by rewrite (inv_tp _ _ _ _ H)).
  pose proof (inv_queued _ _ _ _ H t Ht) as Hq. pose proof (inv_executing _ _ _ _ H t Ht) as He.
  split; [|split].
  - rewrite Hq. do 2 f_equal; [f_equal|]; apply sumZ_ext.
    + intros m _. by rewrite Hty.
    + intros l _. destruct l; cbn; by rewrite ?Hty.
    + intros wk _. destruct wk; cbn; by rewrite ?Hty.
  - rewrite He. f_equal. apply sumZ_ext. intros wk _. destruct wk; cbn; by rewrite ?Hty.
  - do 2 eexists. split; [exact Hq|]. split; [exact He|].
    pose proof (sumZ_nonneg (ty tp t) Q (ty_nonneg tp t)).
    pose proof (sumZ_nonneg _ (listeners w) (lcounted_nonneg tp t)).
    pose proof (sumZ_nonneg _ (workers w) (wqueued_nonneg tp t)).
    pose proof (sumZ_nonneg _ (workers w) (wexecuting_nonneg tp t)). lia.
Qed.

(** ** Coming to rest *)

(** A listener that waits for nothing but its connection, or is gone. *)
Definition at_rest (l : listener) : bool :=
  match l with LReceive _ | LFinished | LReturned _ | LDied => true | _ => false end.

(** A step that needs nothing from outside: neither a message nor a
    connection. *)
Inductive internal (w : world) : world -> Prop :=
| internal_listener i l ev w' : listeners w !! i = Some l -> at_rest l = false ->
    ran_listener i (listener_step ev l w) = Ran w' -> internal w w'
| internal_worker i wk c w' : workers w !! i = Some wk ->
    ran_worker i (worker_step c wk w) = Ran w' -> internal w w'.

(** How many internal steps a thread has before it, with those of the worker
    for what is in the queue. *)
Definition lweight (l : listener) : Z :=
  match l with
  | LLoop _ => 1 | LGotSem => 2 | LGetNode => 3 | LCounted _ => 12 | LEnqueue _ => 13
  | _ => 0
  end.
Definition wweight (wk : worker) : Z :=
  match wk with
  | WLoop => 1 | WRecycle _ => 2 | WReply _ => 3 | WProcess _ => 4 | WUncounted _ => 5
  | WDequeued _ => 6 | WGotSem => 7
  | _ => 0
  end.
Definition weight (w : world) : Z :=
  sumZ lweight (listeners w) + sumZ wweight (workers w) + 8 * queue_length w.

(** Every listener waits for its connection, every worker for a transaction,
    and no transaction is left. *)
Definition resting (w : world) : Prop :=
  Forall (fun l => at_rest l = true) (listeners w) /\
  Forall (fun wk => wk = WDequeue) (workers w) /\
  queue_length w = 0 /\ transactions w = empty_queue.

Lemma internal_step w w' : internal w w' -> step w (Ran w').
Proof. intros [i l ev w1 Hi _ <-|i wk c w1 Hi <-]; by econstructor. Qed.

Lemma internal_reachable n w w' : reachable n w -> internal w w' -> reachable n w'.
Proof. intros Hr Hs%internal_step. by eapply reachable_step. Qed.

Ltac moved :=
  repeat case_match; simplify_eq/=; unfold weight; fields; sums; cbn [lweight wweight]; lia.

Lemma internal_weight w w' : internal w w' -> weight w' < weight w.
Proof.
  intros [i l ev w1 Hi Hr Hs|i wk c w1 Hi Hs].
  - destruct l; try done; cbn [listener_step] in Hs;
      unfold count_queued, enqueue_transaction, get_node, or_fault, ran_listener,
        mbind, option_bind in Hs; moved.
  - destruct wk; try done; cbn [worker_step] in Hs;
      unfold count_queued, count_executing, dequeue_transaction, recycle_node, or_fault,
        ran_worker, mbind, option_bind in Hs; moved.
Qed.

Lemma weight_nonneg n w : reachable n w -> 0 <= weight w.
Proof.
  intros (Q & P & tp & H)%reachable_inv. pose proof (inv_nonneg _ _ _ _ H).
  pose proof (sumZ_nonneg lweight (listeners w) ltac:(intros []; cbn; lia)).
  pose proof (sumZ_nonneg wweight (workers w) ltac:(intros []; cbn; lia)).
  unfold weight. lia.
Qed.

(** Nobody leaves before [exit]. *)
Lemma step_exiting w w' : step w (Ran w') ->
  (exiting w' = true \/ exiting w' = exiting w) /\
  (exiting w = false -> WReturned ∈ workers w' -> WReturned ∈ workers w).
Proof.
  intros Hs. remember (Ran w') as r eqn:Hr. destruct Hs as [i l ev Hi|i wk c Hi|ev|].
  - destruct l; cbn [listener_step] in Hr;
      unfold count_queued, enqueue_transaction, get_node, or_fault, ran_listener,
        mbind, option_bind in Hr; repeat case_match; simplify_eq/=; auto.
  - assert (Hins : forall wk' (ws : list worker), wk' <> WReturned -> WReturned ∈ <[i:=wk']> ws -> WReturned ∈ ws).
    { intros wk' ws Hne [j Hj]%list_elem_of_lookup. apply list_elem_of_lookup.
      destruct (decide (j = i)) as [->|Hji].
      - apply list_lookup_insert_Some in Hj as [(_ & ? & _)|(? & _)]; congruence.
      - rewrite list_lookup_insert_ne in Hj by done. eauto. }
    destruct wk; cbn [worker_step] in Hr;
      unfold count_queued, count_executing, dequeue_transaction, recycle_node, or_fault,
        ran_worker, mbind, option_bind in Hr; repeat case_match; simplify_eq/=;
      (split; [by right|intros He]); try congruence; by apply Hins.
  - unfold accept_step, or_fault in Hr. repeat case_match; simplify_eq/=; auto.
  - simplify_eq/=. auto.
Qed.

Lemma reachable_not_returned n w : reachable n w -> exiting w = false -> WReturned ∉ workers w.
Proof.
  induction 1 as [|w w' _ IH Hs]; intros He.
  - cbn. by intros [? _]%elem_of_replicate.
  - destruct (step_exiting _ _ Hs) as [[Ht|He'] Hw]; [congruence|]. rewrite He' in He.
    intros H. by apply IH, Hw.
Qed.

(** A worker that is not waiting for a transaction can move. *)
Lemma worker_moves w Q P tp i wk :
  inv w Q P tp -> workers w !! i = Some wk -> wk <> WReturned ->
  wk <> WDequeue \/ 0 < queue_length w -> exists w', internal w w'.
Proof.
  intros Hinv Hi Hret Hwk.
  pose proof (worker_step_inv w Q P tp i wk (0, TD_integrity (mk_integrity 0)) Hinv Hi) as H.
  destruct (ran_worker i _) as [x| |] eqn:Hs; [exists x; by eapply internal_worker| |done].
  exfalso. destruct wk; try done; cbn [worker_step] in Hs; unfold or_fault in Hs;
    try (repeat case_match; cbn in Hs; congruence).
  destruct Hwk as [?|Hpos]; [done|]. apply Z.ltb_lt in Hpos. by rewrite Hpos in Hs.
Qed.

Lemma listener_moves w Q P tp i l :
  inv w Q P tp -> listeners w !! i = Some l -> at_rest l = false ->
  l <> LGetNode \/ 0 < free_count w -> (exists w', internal w w') \/ step w Fault.
Proof.
  intros Hinv Hi Hrest Hl.
  pose proof (step_listener w i l RecvClosed Hi) as Hs'.
  destruct (ran_listener i _) as [x| |] eqn:Hs;
    [left; exists x; by eapply internal_listener| |by right].
  exfalso. destruct l; try done; cbn [listener_step] in Hs; unfold or_fault in Hs;
    try (repeat case_match; cbn in Hs; congruence).
  destruct Hl as [?|Hpos]; [done|]. apply Z.ltb_lt in Hpos. by rewrite Hpos in Hs.
Qed.

(** With a worker that has not left, a state without internal steps is at rest. *)
Lemma stuck_rests w Q P tp : inv w Q P tp -> workers w <> [] -> WReturned ∉ workers w ->
  (forall w', ~ internal w w') -> resting w \/ step w Fault.
Proof.
  intros H Hne Hret Hstuck. destruct (decide (queue_length w <= 0)) as [Hql|Hql].
  2: { exfalso. destruct (workers w) as [|wk ws] eqn:Hws; [done|].
       destruct (worker_moves w Q P tp 0%nat wk H) as [w' Hw'];
         [by rewrite Hws|set_solver|right; lia|]. by apply (Hstuck w'). }
  assert (Hwd : Forall (fun wk => wk = WDequeue) (workers w)).
  { apply Forall_forall. intros wk [i Hi]%list_elem_of_lookup.
    destruct (decide (wk = WDequeue)) as [|Hd]; [done|]. exfalso.
    destruct (worker_moves w Q P tp i wk H Hi) as [w' Hw']; [|by left|by apply (Hstuck w')].
    intros ->. by apply Hret, list_elem_of_lookup_2 with i. }
  pose proof (inv_waits _ _ _ _ H) as Hw. pose proof (inv_plen _ _ _ _ H) as Hp.
  pose proof (inv_qlen _ _ _ _ H) as Hq. pose proof (inv_nonneg _ _ _ _ H) as Hnn.
  rewrite Forall_forall in Hwd.
  rewrite (sumZ_zero wgot) in Hq by (intros wk ->%Hwd; done).
  rewrite (sumZ_zero wholds) in Hw by (intros wk ->%Hwd; done).
  assert (HQ : Q = []) by (destruct Q; [done|cbn in Hq; lia]). subst Q. cbn in Hw.
  destruct (decide (Forall (fun l => at_rest l = true) (listeners w))) as [Hr|Hr].
  - left. split_and!; [done|by apply Forall_forall|lia|].
    destruct (inv_q _ _ _ _ H) as (Hh & Ht & _).
    destruct (transactions w); cbn in *; by subst.
  - right. apply not_Forall_Exists in Hr; [|solve_decision].
    apply Exists_exists in Hr as (l & [i Hi]%list_elem_of_lookup & Hr).
    apply not_true_is_false in Hr.
    assert (Hmv : forall j l, listeners w !! j = Some l -> at_rest l = false ->
      l <> LGetNode \/ 0 < free_count w -> step w Fault).
    { intros j l' Hj Hr' Hl'. destruct (listener_moves _ _ _ _ _ _ H Hj Hr' Hl') as [[w' Hw']|];
        [by destruct (Hstuck w')|done]. }
    destruct (decide (l = LGetNode)) as [->|Hl]; [|by eapply Hmv; eauto].
    pose proof (sumZ_lookup lwaits _ i _ ltac:(intros []; cbn; lia) Hi) as Hwt. cbn in Hwt.
    destruct (decide (0 < sumZ lgot (listeners w))) as [Hg|Hg].
    + apply sumZ_pos in Hg as (l & [j Hj]%list_elem_of_lookup & Hg).
      eapply Hmv; [exact Hj| |]; destruct l; cbn in *; auto; lia.
    + pose proof (sumZ_nonneg lgot (listeners w) lgot_nonneg). eapply Hmv; [done..|right; lia].
Qed.

Lemma rtc_reachable n w w' : reachable n w -> rtc internal w w' -> reachable n w'.
Proof. intros Hr Hs. induction Hs; [done|]. eauto using internal_reachable. Qed.

Lemma internal_exiting w w' : internal w w' ->
  exiting w' = exiting w /\ List.length (workers w') = List.length (workers w).
Proof.
  intros [i l ev w1 Hi Hr Hs|i wk c w1 Hi Hs].
  - destruct l; try done; cbn [listener_step] in Hs;
      unfold count_queued, enqueue_transaction, get_node, or_fault, ran_listener,
        mbind, option_bind in Hs; repeat case_match; by simplify_eq/=.
  - destruct wk; try done; cbn [worker_step] in Hs;
      unfold count_queued, count_executing, dequeue_transaction, recycle_node, or_fault,
        ran_worker, mbind, option_bind in Hs; repeat case_match; simplify_eq/=;
      by rewrite length_insert.
Qed.

Lemma rtc_exiting w w' : rtc internal w w' ->
  exiting w' = exiting w /\ List.length (workers w') = List.length (workers w).
Proof.
  induction 1 as [|x y z Hs _ [IH1 IH2]]; [done|]. destruct (internal_exiting _ _ Hs).
  split; congruence.
Qed.

(** C16. The client comes to rest by itself.  From any reachable state before
    [exit], with at least one worker, without a further message or connection:
    no sequence of steps is longer than [weight], and where no step is left
    every listener waits for its connection, every worker for a transaction and
    the queue is empty, so that no listener waits for a node for ever and no
    transaction stays unanswered, unless a listener is about to count a
    transaction of a type other than the five (C2). *)
Theorem client_progress n w : reachable n w -> exiting w = false -> workers w <> [] ->
  (forall k w', nsteps internal k w w' -> Z.of_nat k <= weight w) /\
  (forall w', rtc internal w w' -> (forall w'', ~ internal w' w'') ->
     resting w' \/ step w' Fault).
Proof.
  intros Hr He Hne. split.
  - intros k w' Hk. assert (Hrk : reachable n w' /\ weight w' + Z.of_nat k <= weight w).
    { clear He Hne. induction Hk as [|k x y z Hs _ IH]; [split; [done|lia]|].
      destruct (IH (internal_reachable _ _ _ Hr Hs)) as [Hz Hw]. split; [done|].
      pose proof (internal_weight _ _ Hs). lia. }
    destruct Hrk as [Hr' Hw]. pose proof (weight_nonneg _ _ Hr'). lia.
  - intros w' Hs Hstuck. pose proof (rtc_reachable _ _ _ Hr Hs) as Hr'.
    destruct (rtc_exiting _ _ Hs) as [He' Hlen].
    destruct (reachable_inv _ _ Hr') as (Q & P & tp & H).
    apply (stuck_rests w' Q P tp H); [|apply (reachable_not_returned n); congruence|done].
    intros Hnil. rewrite Hnil in Hlen. by destruct (workers w).
Qed.

(** The client has no counter for the [INTEGRITY] transaction that the
    driver sends first: counting it as queued, as counting it as executing,
    indexes [transaction_counter] and its mutexes out of bounds. *)
Theorem integrity_counter_out_of_bounds w node nd ev :
  nodes w !! node = Some nd -> transaction (client_data nd) = INTEGRITY ->
  listener_step ev (LEnqueue node) w = Fault /\
  forall c, worker_step c (WUncounted node) w = Fault.
Proof.
  intros Hn Ht. cbn [listener_step worker_step]. unfold count_queued, count_executing, type_of.
  rewrite Hn. cbn [mbind option_bind]. rewrite Ht. done.
Qed.

(** ** Connections *)

Definition socket_of (h : heap) (m : positive) : option Z := option_map s (h !! m).

Lemma store_socket f p h h' : (forall nd, s (f nd) = s nd) -> store f p h = Some h' ->
  forall m, socket_of h' m = socket_of h m.
Proof.
  intros Hf (nd & Hnd & ->)%store_some m. unfold socket_of.
  destruct (decide (m = p)) as [->|Hm];
    [by rewrite lookup_insert_eq, Hnd; cbn; rewrite Hf|by rewrite lookup_insert_ne].
Qed.

Lemma push_socket h q n h' q' : push h q n = Some (h', q') ->
  forall m, socket_of h' m = socket_of h m.
Proof.
  unfold push. destruct (store (set_next None) n h) as [h1|] eqn:H1; [|done]. cbn.
  pose proof (store_socket (set_next None) _ _ _ (fun _ => eq_refl) H1) as S1.
  destruct (tail q) as [t|]; [|by intros [= <- _]].
  destruct (store (set_next (Some n)) t h1) as [h2|] eqn:H2; [|done]. cbn. intros [= <- _] m.
  by rewrite (store_socket (set_next (Some n)) _ _ _ (fun _ => eq_refl) H2), S1.
Qed.

Lemma enqueue_socket n w w' : enqueue_transaction n w = Some w' ->
  forall m, socket_of (nodes w') m = socket_of (nodes w) m.
Proof.
  unfold enqueue_transaction.
  destruct (push (nodes w) (transactions w) n) as [[h1 q1]|] eqn:H1; [|done]. cbn.
  destruct (store _ n h1) as [h2|] eqn:H2; [|done]. cbn. intros [= <-] m. cbn.
  rewrite (store_socket (set_id _) _ _ _ (fun _ => eq_refl) H2). by apply (push_socket _ _ _ _ _ H1).
Qed.

Lemma listener_step_socket ev l w l' w' m : listener_step ev l w = Ran (l', w') ->
  socket_of (nodes w') m = socket_of (nodes w) m \/ nodes w' !! m = None.
Proof.
  destruct l; cbn [listener_step]; unfold or_fault; try done.
  - intros [= _ <-]. by left.
  - destruct ev as [c|c|].
    1,2: destruct (store _ node (nodes w)) as [h|] eqn:Hs; [|done]; intros [= _ <-]; left;
      apply (store_socket (set_client_data c) _ _ _ (fun _ => eq_refl) Hs).
    destruct (0 <? listener_worker_count w); [|done]. intros [= _ <-]. cbn.
    destruct (decide (m = node)) as [->|Hm]; [right; apply lookup_delete_eq|left].
    unfold socket_of. by rewrite lookup_delete_ne.
  - unfold count_queued. destruct (type_of _ _); [|done]. cbn.
    destruct (bump _ _ _); [|done]. intros [= _ <-]. by left.
  - destruct (enqueue_transaction node w) as [w1|] eqn:He; [|done]. intros [= _ <-].
    left. by eapply enqueue_socket.
  - destruct (0 <? free_count w); [|done]. intros [= _ <-]. by left.
  - unfold get_node. destruct (pop _ _) as [[[n|] q]|]; [| |done]; intros [= _ <-]; by left.
Qed.

Lemma worker_step_socket c wk w wk' w' m : worker_step c wk w = Ran (wk', w') ->
  socket_of (nodes w') m = socket_of (nodes w) m.
Proof.
  destruct wk; cbn [worker_step]; unfold or_fault; [by intros [= _ <-]|..|done].
  - destruct (0 <? queue_length w); [|done]. by intros [= _ <-].
  - unfold dequeue_transaction. destruct (pop _ _) as [[[n|] q]|]; [| |done];
      by intros [= _ <-].
  - unfold count_queued. destruct (type_of _ _); [|done]. cbn.
    destruct (bump _ _ _); [|done]. by intros [= _ <-].
  - unfold count_executing. destruct (type_of _ _); [|done]. cbn.
    destruct (bump _ _ _); [|done]. by intros [= _ <-].
  - destruct (nodes w !! node) as [nd|] eqn:Hn; [|done]. intros [= _ <-]. cbn.
    unfold socket_of. destruct (decide (m = node)) as [->|Hm];
      [by rewrite lookup_insert_eq, Hn|by rewrite lookup_insert_ne].
  - unfold count_executing. destruct (type_of _ _); [|done]. cbn.
    destruct (bump _ _ _); [|done]. by intros [= _ <-].
  - unfold recycle_node. destruct (push _ _ _) as [[h q]|] eqn:Hp; [|done]. cbn.
    intros [= _ <-]. by eapply push_socket.
Qed.

(** Once [_accept] has answered, a node keeps its connection to the end: whatever thread
    receives into it, executes it or recycles it, the reply is sent on the
    connection on which its transaction arrived. *)
Theorem node_keeps_socket w w' m a :
  step w (Ran w') -> main w <> AAccept m -> socket_of (nodes w) m = Some a ->
  socket_of (nodes w') m = Some a \/ nodes w' !! m = None.
Proof.
  intros Hstep Hm Ha. remember (Ran w') as r eqn:Hr.
  destruct Hstep as [i l ev Hi|i wk c Hi|ev|].
  - destruct (listener_step ev l w) as [[l' w1]| |] eqn:Hs; try done. injection Hr as <-.
    apply (listener_step_socket _ _ _ _ _ m) in Hs as [Hs|Hs]; cbn; [left; congruence|by right].
  - destruct (worker_step c wk w) as [[wk' w1]| |] eqn:Hs; try done. injection Hr as <-.
    apply (worker_step_socket _ _ _ _ _ m) in Hs. left. cbn. congruence.
  - unfold accept_step, or_fault, store in Hr. unfold socket_of in *.
    repeat case_match; simplify_option_eq; cbn; auto;
      repeat match goal with
      | |- context [delete ?n _ !! m] =>
          destruct (decide (m = n)) as [->|]; simplify_map_eq; auto
      | |- context [<[?n:=_]> _ !! m] =>
          destruct (decide (m = n)) as [->|]; simplify_map_eq; auto
      end.
    by rewrite H1 in Ha.
  - injection Hr as <-. by left.
Qed.

(** The linked queue refines a FIFO list: in a state that represents the
    list [l], linking an unlinked node in represents [l ++ [node]], leaves the
    contents of all nodes alone, and taking from the result yields the oldest
    node. *)
Theorem queue_refines_fifo h q l node :
  repr h q l -> (node ∉ l) -> is_Some (h !! node) ->
  exists h' q', push h q node = Some (h', q') /\ repr h' q' (l ++ [node]) /\
    (forall x, option_map payload (h' !! x) = option_map payload (h !! x)) /\
    exists first rest q'', l ++ [node] = first :: rest /\
      pop h' q' = Some (Some first, q'') /\ repr h' q'' rest.
Proof.
  intros Hr Hn Hs. destruct (push_spec h q l node Hr Hn Hs) as (h' & q' & Hp & Hr' & _ & Hpay).
  exists h', q'. do 3 (split; [done|]).
  destruct (l ++ [node]) as [|first rest] eqn:Hl; [by destruct l|].
  destruct (pop_spec h' q' first rest Hr') as (q'' & Hpop & Hr'').
  exists first, rest, q''. done.
Qed.

(** ** Witnesses *)

Definition example_message (t : Z) : client_transaction_t :=
  mk_client_transaction OK t (TD_integrity (mk_integrity 1)).
Definition example_node (t : Z) : transaction_queue_node_t := mk_node 7 0 (example_message t) None.

(** Let the first listener, the first worker or the main thread run, if it can. *)
Definition run_listener (ev : received) (w : world) : world :=
  match listeners w with
  | l :: _ => match listener_step ev l w with
              | Ran (l', w') => with_listeners w' (<[0%nat := l']> (listeners w'))
              | _ => w
              end
  | [] => w
  end.
Definition run_worker (w : world) : world :=
  match workers w with
  | wk :: _ => match worker_step (OK, TD_integrity (mk_integrity 1)) wk w with
               | Ran (wk', w') => with_workers w' (<[0%nat := wk']> (workers w'))
               | _ => w
               end
  | [] => w
  end.
Definition run_main (ev : accept_event) (w : world) : world :=
  match accept_step ev w with Ran w' => w' | _ => w end.

Lemma run_listener_reachable n ev w : reachable n w -> reachable n (run_listener ev w).
Proof.
  intros Hr. unfold run_listener. destruct (listeners w) as [|l ls] eqn:Hl; [done|].
  pose proof (step_listener w 0 l ev ltac:(by rewrite Hl)) as Hs.
  destruct (listener_step ev l w) as [[l' w']| |]; [|done..]. by eapply reachable_step.
Qed.

Lemma run_worker_reachable n w : reachable n w -> reachable n (run_worker w).
Proof.
  intros Hr. unfold run_worker. destruct (workers w) as [|wk ws] eqn:Hw; [done|].
  pose proof (step_worker w 0 wk (OK, TD_integrity (mk_integrity 1)) ltac:(by rewrite Hw)) as Hs.
  destruct (worker_step _ wk w) as [[wk' w']| |]; [|done..]. by eapply reachable_step.
Qed.

Lemma run_main_reachable n ev w : reachable n w -> reachable n (run_main ev w).
Proof.
  intros Hr. unfold run_main. pose proof (step_accept w ev) as Hs.
  destruct (accept_step ev w) as [w'| |]; [|done..]. by eapply reachable_step.
Qed.

(** The main thread accepts one connection. *)
Definition accept_one (w : world) : world :=
  run_main EvNoMemory (run_main (EvThread true) (run_main (EvAccept 7)
    (run_main (EvMalloc 1%positive (example_node 0)) (run_main EvNoMemory w)))).

(** One connection that has sent a transaction, about to be counted; and the
    same with the transaction queued and counted. *)
Definition received_state (t : Z) : world :=
  run_listener (RecvData (example_message t)) (run_listener RecvClosed (accept_one (initial 1))).
Definition queued_state : world :=
  run_worker (run_listener RecvClosed (run_listener RecvClosed (received_state PAYMENT))).

Lemma received_state_reachable t : reachable 1 (received_state t).
Proof.
  unfold received_state, accept_one. do 2 apply run_listener_reachable.
  do 5 apply run_main_reachable. apply reachable_initial.
Qed.

Lemma queued_state_reachable : reachable 1 queued_state.
Proof.
  unfold queued_state. apply run_worker_reachable. do 2 apply run_listener_reachable.
  apply received_state_reachable.
Qed.

Lemma client_invariant_witness :
  listeners queued_state = [LGetNode] /\ queue_length queued_state = 1 /\
  exists Q P, repr (nodes queued_state) (transactions queued_state) Q /\
    repr (nodes queued_state) (pool queued_state) P.
Proof.
  split; [vm_compute; reflexivity|]. split; [vm_compute; reflexivity|].
  destruct (client_invariant 1 queued_state queued_state_reachable) as (Q & P & H1 & H2 & _).
  exists Q, P. exact (conj H1 H2).
Defined.

Lemma client_no_fault_witness :
  (exists node w', dequeue_transaction (run_worker queued_state) = Some (Some node, w')) /\
  ~ step queued_state Fault /\ step (received_state INTEGRITY) Fault.
Proof.
  split; [|split].
  - destruct (client_no_fault 1 (run_worker queued_state)
                (run_worker_reachable _ _ queued_state_reachable)) as (_ & H & _).
    exact (H 0%nat ltac:(vm_compute; reflexivity)).
  - intros Hs.
    destruct (client_no_fault 1 queued_state queued_state_reachable) as ([H _] & _).
    destruct (H Hs) as (i & node & nd & Hi & _).
    destruct i as [|[|i]]; vm_compute in Hi; discriminate.
  - apply (client_no_fault 1 (received_state INTEGRITY) (received_state_reachable INTEGRITY)).
    exists 0%nat, 1%positive. eexists. split; [vm_compute; reflexivity|].
    split; [vm_compute; reflexivity|]. cbn. unfold INTEGRITY, TRANSACTION_MAX. lia.
Defined.

Lemma transaction_counters_exact_witness :
  queued queued_state = [0; 0; 0; 1; 0] /\
  exists Q, repr (nodes queued_state) (transactions queued_state) Q.
Proof.
  split; [vm_compute; reflexivity|].
  destruct (transaction_counters_exact 1 queued_state queued_state_reachable) as (Q & H & _).
  exists Q. exact H.
Defined.

(** The queued transaction is executed and its node goes to the listener. *)
Definition rested_state : world :=
  Nat.iter 3 (run_listener RecvClosed) (Nat.iter 8 run_worker queued_state).

Definition worker_can (w : world) : bool :=
  match workers w with
  | wk :: _ => match worker_step (OK, TD_integrity (mk_integrity 1)) wk w with
               | Ran _ => true | _ => false end
  | [] => false
  end.
Definition listener_can (w : world) : bool :=
  match listeners w with
  | l :: _ => negb (at_rest l) && match listener_step RecvClosed l w with
                                  | Ran _ => true | _ => false end
  | [] => false
  end.

Lemma run_worker_internal w : worker_can w = true -> internal w (run_worker w).
Proof.
  unfold run_worker, worker_can. destruct (workers w) as [|wk ws] eqn:Hw; [done|].
  destruct (worker_step _ wk w) as [[wk' w']| |] eqn:Hs; [|done..]. intros _.
  eapply (internal_worker w 0 wk); [by rewrite Hw|]. by rewrite Hs.
Qed.

Lemma run_listener_internal w : listener_can w = true -> internal w (run_listener RecvClosed w).
Proof.
  unfold run_listener, listener_can. destruct (listeners w) as [|l ls] eqn:Hw; [done|].
  intros [Hr%negb_true_iff Hx]%andb_true_iff.
  destruct (listener_step _ l w) as [[l' w']| |] eqn:Hs; [|done..].
  eapply (internal_listener w 0 l); [by rewrite Hw|done|]. by rewrite Hs.
Qed.

Lemma iter_internal (can : world -> bool) f k w :
  (forall w, can w = true -> internal w (f w)) ->
  forallb (fun j => can (Nat.iter j f w)) (seq 0 k) = true -> rtc internal w (Nat.iter k f w).
Proof.
  intros Hf. induction k as [|k IH]; [done|]. rewrite seq_S, forallb_app.
  intros [H1 H2]%andb_true_iff. cbn in H2. rewrite andb_true_r in H2.
  eapply rtc_r; [by apply IH|]. cbn. by apply Hf.
Qed.

Lemma rests : rtc internal queued_state rested_state.
Proof.
  unfold rested_state. etrans.
  - apply (iter_internal worker_can run_worker 8), eq_refl. apply run_worker_internal.
  - apply (iter_internal listener_can (run_listener RecvClosed) 3); [apply run_listener_internal|].
    vm_compute. reflexivity.
Qed.

Lemma rested_no_fault : ~ step rested_state Fault.
Proof.
  intros Hf. destruct (reachable_inv _ _ (rtc_reachable _ _ _ queued_state_reachable rests))
    as (Q & P & tp & H).
  destruct (step_inv _ _ _ _ _ H Hf) as (i & node & nd & Hi & _).
  destruct i; vm_compute in Hi; discriminate.
Qed.

Lemma client_progress_witness :
  weight queued_state = 11 /\ resting rested_state /\
  forall k w', nsteps internal k queued_state w' -> Z.of_nat k <= 11.
Proof.
  split; [vm_compute; reflexivity|].
  destruct (client_progress 1 queued_state queued_state_reachable ltac:(vm_compute; reflexivity)
              ltac:(vm_compute; discriminate)) as [Hk Hrest].
  split; [|exact Hk].
  destruct (Hrest rested_state rests) as [Hr|Hf]; [|exact Hr|].
  - intros w'' [i l ev w1 Hi Ha Hs|i wk c w1 Hi Hs].
    + destruct i as [|i]; vm_compute in Hi; [injection Hi as <-; discriminate Ha|discriminate Hi].
    + destruct i as [|i]; vm_compute in Hi; [injection Hi as <-|discriminate Hi].
      vm_compute in Hs. discriminate Hs.
  - destruct (rested_no_fault Hf).
Defined.

Lemma integrity_counter_out_of_bounds_witness :
  listener_step RecvClosed (LEnqueue 1%positive)
    (with_nodes (initial 1) {[1%positive := example_node INTEGRITY]}) = Fault.
Proof.
  apply (integrity_counter_out_of_bounds
           (with_nodes (initial 1) {[1%positive := example_node INTEGRITY]})
           1%positive (example_node INTEGRITY)); reflexivity.
Defined.

Lemma node_keeps_socket_witness :
  socket_of (nodes queued_state) 1%positive = Some 7 /\
  (socket_of (nodes (run_worker queued_state)) 1%positive = Some 7 \/
   nodes (run_worker queued_state) !! 1%positive = None).
Proof.
  split; [vm_compute; reflexivity|].
  apply (node_keeps_socket queued_state (run_worker queued_state) 1%positive 7);
    [|vm_compute; discriminate|vm_compute; reflexivity].
  exact (step_worker queued_state 0 WDequeue (OK, TD_integrity (mk_integrity 1)) eq_refl).
Defined.

Lemma queue_refines_fifo_witness :
  let h : heap := {[1%positive := example_node 0; 2%positive := example_node 1]} in
  exists h' q', push h (mk_lqueue (Some 1%positive) (Some 1%positive)) 2%positive
                = Some (h', q') /\ repr h' q' [1%positive; 2%positive].
Proof.
  intros h.
  destruct (queue_refines_fifo h (mk_lqueue (Some 1%positive) (Some 1%positive))
              [1%positive] 2%positive) as (h' & q' & Hp & Hr & _).
  - split; [reflexivity|]. split; [reflexivity|]. split; [|apply NoDup_singleton].
    split; [|exact I]. exists (example_node 0). split; reflexivity.
  - by intros H%list_elem_of_singleton.
  - exists (example_node 1). reflexivity.
  - exists h', q'. exact (conj Hp Hr).
Defined.
