(* ===== verification/Semaphore.v ===== *)
(** * The fallback semaphores ([src/_semaphore.c])

    A semaphore as a mutex, a condition variable and an [unsigned int], for
    systems without [semaphore.h].  A step is one call of the pthread library or
    one access to the count by one thread; any interleaving is a sequence of
    steps.  The mutex and the condition variable behave as POSIX says: a signal
    wakes one thread that waits if there is one, a wait may end without a signal,
    and takes the mutex again.  What [errno] is after a call is up to the
    environment: [E] holds of the places and the values that occur. *)

From Stdlib Require Import ZArith Lia.
From stdpp Require Import base list.
From S2P Require Import Prelude.

(** [unsigned int] *)
Definition u32 (x : Z) : Z := x mod 2 ^ 32.

Lemma u32_small x : 0 <= x < 2 ^ 32 -> u32 x = x.
Proof. apply Z.mod_small. Qed.

Lemma u32_range x : 0 <= u32 x < 2 ^ 32.
Proof. apply Z.mod_pos_bound. lia. Qed.

Inductive call :=
| sem_wait | sem_trywait | sem_post | sem_post_multiple (count : Z) | sem_getvalue.

(** Where a thread is; [err] is its [errno]. *)
Inductive pc :=
| Returned (rc value : Z)       (** in no call; what the last one gave *)
| Calling (c : call)            (** at [pthread_mutex_lock] *)
| WaitTest (err : Z)            (** at [while (!sem->count)] *)
| InWait (err : Z)              (** in [pthread_cond_wait], the mutex released *)
| Woken (err : Z)               (** in it, about to take the mutex again *)
| WaitTake (err : Z)            (** after the loop *)
| TryTest                       (** at [if (sem->count)] *)
| TookUnlock                    (** at the unlock of [sem_wait] *)
| TryUnlock | FailUnlock        (** at that of [sem_trywait], with or without [EAGAIN] *)
| Adding (n : Z) (all : bool)   (** at [sem->count += n] *)
| Added (all : bool)            (** at the unlock of a post *)
| Signalling (all : bool)       (** at the signal or the broadcast *)
| GetRead | GetUnlock (v : Z).

Record sem_t := mk_sem { mutex : option nat; count : Z; threads : list pc }.

(** What happens to the count, the waits that return 0, and the [sem_trywait]s
    that have taken from the count and return -1. *)
Inductive event := Took | Posted (n : Z) | Granted | Lost.

Definition goto (i : nat) (p : pc) (s : sem_t) : sem_t :=
  mk_sem (mutex s) (count s) (<[i := p]> (threads s)).
Definition with_count (v : Z) (s : sem_t) : sem_t := mk_sem (mutex s) v (threads s).
Definition unlock (s : sem_t) : sem_t := mk_sem None (count s) (threads s).

Definition lock (i : nat) (p : pc) (s : sem_t) : option (list event * sem_t) :=
  match mutex s with
  | None => Some ([], mk_sem (Some i) (count s) (<[i := p]> (threads s)))
  | Some _ => None
  end.

(** [sem_init] before [n] threads use it. *)
Definition sem_init (value : Z) (n : nat) : sem_t :=
  mk_sem None (u32 value) (replicate n (Returned 0 0)).

(** What both destructors answer, and [errno]. *)
Definition sem_destroy (err1 err2 : Z) : Z * option Z :=
  if (err1 =? 0) && (err2 =? 0) then (0, None)
  else (-1, Some (if err1 =? 0 then err2 else err1)).

Definition EAGAIN : Z := 11.

(** With the mutex taken. *)
Definition entered (c : call) : pc :=
  match c with
  | sem_wait => WaitTest 0
  | sem_trywait => TryTest
  | sem_post => Adding 1 false
  | sem_post_multiple n => Adding n true
  | sem_getvalue => GetRead
  end.

Definition wake (p : pc) : pc := match p with InWait err => Woken err | _ => p end.

(** [pthread_cond_signal] that reaches thread [w], [pthread_cond_broadcast]. *)
Definition signal (all : bool) (w : nat) (l : list pc) : list pc :=
  if all then map wake l else alter wake w l.

(** One step of thread [i]; [e] is the error of the call, or what the call
    leaves in [errno]. *)
Definition thread_step (e : Z) (w i : nat) (p : pc) (s : sem_t) : option (list event * sem_t) :=
  match p with
  | Returned _ _ => None
  | Calling c =>
      if e =? 0 then lock i (entered c) s else Some ([], goto i (Returned (-1) 0) s)
  | WaitTest err =>
      if count s =? 0 then Some ([], goto i (InWait err) (unlock s))
      else Some ([], goto i (WaitTake err) s)
  | InWait err => Some ([], goto i (Woken err) s)
  | Woken err => lock i (WaitTest (if e =? 0 then err else e)) s
  | WaitTake err =>
      if err =? 0 then Some ([Took], goto i TookUnlock (with_count (u32 (count s - 1)) s))
      else Some ([], goto i (Returned (-1) 0) s)
  | TryTest =>
      if count s =? 0 then Some ([], goto i FailUnlock s)
      else Some ([Took], goto i TryUnlock (with_count (u32 (count s - 1)) s))
  | TryUnlock =>
      if e =? 0 then Some ([Granted], goto i (Returned 0 0) (unlock s))
      else Some ([Lost], goto i (Returned (-1) 0) (unlock s))
  | TookUnlock => Some ([Granted], goto i (Returned 0 0) (unlock s))
  | FailUnlock => Some ([], goto i (Returned (-1) 0) (unlock s))
  | Adding n all => Some ([Posted n], goto i (Added all) (with_count (u32 (count s + n)) s))
  | Added all => Some ([], goto i (Signalling all) (unlock s))
  | Signalling all =>
      Some ([], goto i (Returned 0 0)
                  (mk_sem (mutex s) (count s) (signal all w (threads s))))
  | GetRead => Some ([], goto i (GetUnlock (count s)) s)
  | GetUnlock v => Some ([], goto i (Returned 0 v) (unlock s))
  end.

(** A thread that a signal can reach. *)
Definition waits (p : pc) : bool := match p with InWait _ => true | _ => false end.

Definition reaches (w : nat) (s : sem_t) : Prop :=
  existsb waits (threads s) = true -> exists p, threads s !! w = Some p /\ waits p = true.

(** The count given to [sem_post_multiple] is an [unsigned int]. *)
Definition call_ok (c : call) : Prop :=
  match c with sem_post_multiple n => 0 <= n < 2 ^ 32 | _ => True end.

Inductive step (E : pc -> Z -> Prop) (s : sem_t) : list event -> sem_t -> Prop :=
| step_call i rc v c :
    threads s !! i = Some (Returned rc v) -> call_ok c -> step E s [] (goto i (Calling c) s)
| step_thread i p e w evs s' :
    threads s !! i = Some p -> E p e -> reaches w s ->
    thread_step e w i p s = Some (evs, s') -> step E s evs s'.

(** A run and its events. *)
Inductive run (E : pc -> Z -> Prop) (s : sem_t) : list event -> sem_t -> Prop :=
| run_refl : run E s [] s
| run_step evs s1 evs1 s2 : run E s evs s1 -> step E s1 evs1 s2 -> run E s (evs ++ evs1) s2.

(** ** The abstract semaphore *)

(** A counter that is taken from only above zero. *)
Inductive counter_run (v : Z) : list event -> Z -> Prop :=
| counter_start : counter_run v [] v
| counter_take evs c : counter_run v evs c -> 0 < c -> counter_run v (evs ++ [Took]) (c - 1)
| counter_post evs c n : counter_run v evs c -> counter_run v (evs ++ [Posted n]) (u32 (c + n))
| counter_grant evs c : counter_run v evs c -> counter_run v (evs ++ [Granted]) c
| counter_lose evs c : counter_run v evs c -> counter_run v (evs ++ [Lost]) c.

Definition took (e : event) : Z := match e with Took => 1 | _ => 0 end.
Definition granted (e : event) : Z := match e with Granted => 1 | _ => 0 end.
Definition lost (e : event) : Z := match e with Lost => 1 | _ => 0 end.
Definition posted (e : event) : Z := match e with Posted n => n | _ => 0 end.

(** Threads between the lock and the unlock. *)
Definition holds (p : pc) : bool :=
  match p with
  | WaitTest _ | WaitTake _ | TryTest | TookUnlock | TryUnlock | FailUnlock | Adding _ _ | Added _
  | GetRead | GetUnlock _ => true
  | _ => false
  end.

(** Threads that have taken from the count and not returned. *)
Definition owed (p : pc) : Z := match p with TookUnlock | TryUnlock => 1 | _ => 0 end.

(** Threads about to find the count above zero by themselves. *)
Definition taking (p : pc) : bool := match p with WaitTake _ => true | _ => false end.

(** Arguments are values of [unsigned int]. *)
Definition fine (p : pc) : Prop :=
  match p with Calling c => call_ok c | Adding n _ => 0 <= n < 2 ^ 32 | _ => True end.

Record safe (s : sem_t) : Prop := {
  s_count : 0 <= count s < 2 ^ 32;
  s_owner : forall i p, threads s !! i = Some p -> holds p = true -> mutex s = Some i;
  s_take : forall i p, threads s !! i = Some p -> taking p = true -> 0 < count s;
  s_fine : forall i p, threads s !! i = Some p -> fine p }.

(** ** Lookups *)

Lemma goto_lookup i p s j q : threads (goto i p s) !! j = Some q ->
  (j = i /\ q = p) \/ (j <> i /\ threads s !! j = Some q).
Proof. cbn. intros [(-> & <- & _)|[Hne H]]%list_lookup_insert_Some; auto. Qed.

Lemma signal_lookup all w l j q : signal all w l !! j = Some q ->
  exists p, l !! j = Some p /\ (q = p \/ q = wake p).
Proof.
  unfold signal. destruct all.
  - change (map wake l) with (wake <$> l). rewrite list_lookup_fmap.
    destruct (l !! j) as [p|]; [|done]. intros [= <-]. eauto.
  - destruct (decide (j = w)) as [->|Hj].
    + rewrite list_lookup_alter_eq. destruct (l !! w) as [p|]; [|done]. intros [= <-]. eauto.
    + rewrite list_lookup_alter_ne by done. eauto.
Qed.

Lemma holds_wake p : holds (wake p) = holds p. Proof. by destruct p. Qed.
Lemma taking_wake p : taking (wake p) = taking p. Proof. by destruct p. Qed.
Lemma fine_wake p : fine p -> fine (wake p). Proof. by destruct p. Qed.
Lemma taking_holds p : taking p = true -> holds p = true. Proof. by destruct p. Qed.

(** ** Safety *)

Section safety.
Context (s : sem_t) (Hs : safe s) (i : nat) (p : pc) (Hi : threads s !! i = Some p).

Lemma safe_goto q : (holds q = true -> holds p = true) -> (taking q = true -> 0 < count s) ->
  fine q -> safe (goto i q s).
Proof using Hs Hi.
  intros Hq Ht Hf. destruct Hs as [H1 H2 H3 H4]. split; [done|..]; intros j r [[-> ->]|[_ Hj]]%goto_lookup; cbn.
  - intros Hr. eapply H2; [exact Hi|auto].
  - eauto.
  - auto.
  - eauto.
  - done.
  - eauto.
Qed.

Lemma other_idle j q : holds p = true -> threads s !! j = Some q -> j <> i -> holds q = false.
Proof using Hs Hi.
  intros Hp Hj Hne. destruct (holds q) eqn:Hq; [|done].
  pose proof (s_owner s Hs i p Hi Hp). pose proof (s_owner s Hs j q Hj Hq). congruence.
Qed.

Lemma safe_unlock q : holds p = true -> holds q = false -> fine q -> safe (goto i q (unlock s)).
Proof using Hs Hi.
  intros Hp Hq Hf. destruct Hs as [H1 H2 H3 H4]. split; [done|..]; intros j r [[-> ->]|[Hne Hj]]%goto_lookup; cbn in *.
  - congruence.
  - rewrite (other_idle j r Hp Hj Hne). done.
  - intros Ht%taking_holds. congruence.
  - eauto.
  - done.
  - eauto.
Qed.

Lemma safe_count v q : holds p = true -> 0 <= v < 2 ^ 32 -> taking q = false -> fine q ->
  safe (goto i q (with_count v s)).
Proof using Hs Hi.
  intros Hp Hv Hq Hf. destruct Hs as [H1 H2 H3 H4]. split; [done|..]; intros j r [[-> ->]|[Hne Hj]]%goto_lookup; cbn in *.
  - intros _. by eapply H2.
  - by apply H2.
  - congruence.
  - intros Ht%taking_holds. rewrite (other_idle j r Hp Hj Hne) in Ht. done.
  - done.
  - eauto.
Qed.

Lemma safe_lock q evs s' : lock i q s = Some (evs, s') -> taking q = false -> fine q ->
  evs = [] /\ mutex s = None /\ safe s'.
Proof using Hs.
  unfold lock. destruct (mutex s) as [k|] eqn:Hm; [done|]. intros [= <- <-] Hq Hf.
  destruct Hs as [H1 H2 H3 H4]. split; [done|]. split; [done|].
  split; [done|..]; intros j r [[-> ->]|[Hne Hj]]%(goto_lookup i q s); cbn.
  - done.
  - intros Hr. rewrite (H2 j r Hj Hr) in Hm. done.
  - congruence.
  - eauto.
  - done.
  - eauto.
Qed.

Lemma safe_signal all w rc v :
  safe (goto i (Returned rc v) (mk_sem (mutex s) (count s) (signal all w (threads s)))).
Proof using Hs.
  destruct Hs as [H1 H2 H3 H4]. split; [done|..]; intros j r [[-> ->]|[Hne Hj]]%goto_lookup; cbn; try done;
    cbn in Hj; apply signal_lookup in Hj as (q & Hj & [-> | ->]);
    rewrite ?holds_wake, ?taking_wake; eauto using fine_wake.
Qed.
End safety.

Lemma entered_fine c : call_ok c -> fine (entered c) /\ taking (entered c) = false.
Proof. by destruct c. Qed.

(** Every step keeps it, whatever [errno] is. *)
Lemma step_safe E s evs s' : safe s -> step E s evs s' -> safe s'.
Proof.
  intros Hs [i rc v c Hi Hc|i p e w evs' s1 Hi _ _ Hstep]; [by eapply safe_goto|].
  pose proof (s_count s Hs) as Hcount. pose proof (s_fine s Hs i p Hi) as Hf.
  destruct p as [rc v|c|err|err|err|err| | | | |n all|all|all| |v]; cbn in Hstep; try done.
  - destruct (e =? 0); [|injection Hstep as <- <-; by eapply safe_goto].
    destruct (entered_fine c Hf). by eapply safe_lock in Hstep as (_ & _ & ?).
  - destruct (Z.eqb_spec (count s) 0); injection Hstep as <- <-.
    + by eapply safe_unlock.
    + eapply safe_goto; try done; cbn. lia.
  - injection Hstep as <- <-. by eapply safe_goto.
  - by eapply safe_lock in Hstep as (_ & _ & ?).
  - destruct (err =? 0); injection Hstep as <- <-; [|by eapply safe_goto].
    eapply safe_count; try done. apply u32_range.
  - destruct (count s =? 0); injection Hstep as <- <-; [by eapply safe_goto|].
    eapply safe_count; try done. apply u32_range.
  - injection Hstep as <- <-. by eapply safe_unlock.
  - destruct (e =? 0); injection Hstep as <- <-; by eapply safe_unlock.
  - injection Hstep as <- <-. by eapply safe_unlock.
  - injection Hstep as <- <-. eapply safe_count; try done. apply u32_range.
  - injection Hstep as <- <-. by eapply safe_unlock.
  - injection Hstep as <- <-. by eapply safe_signal.
  - injection Hstep as <- <-. by eapply safe_goto.
  - injection Hstep as <- <-. by eapply safe_unlock.
Qed.

Lemma init_threads value n i p : threads (sem_init value n) !! i = Some p -> p = Returned 0 0.
Proof. cbn. intros [-> _]%lookup_replicate. done. Qed.

Lemma init_safe value n : safe (sem_init value n).
Proof.
  split; [apply u32_range|..]; intros i p ->%init_threads; done.
Qed.

Lemma run_safe E value n evs s : run E (sem_init value n) evs s -> safe s.
Proof. induction 1; [apply init_safe|by eapply step_safe]. Qed.

(** ** The count *)

Lemma owed_signal all w l : sumZ owed (signal all w l) = sumZ owed l.
Proof.
  assert (Hw : forall p, owed (wake p) = owed p) by by intros [].
  unfold signal. destruct all.
  - induction l as [|p l IH]; [done|]. cbn [map sumZ]. by rewrite IH, Hw.
  - revert w. induction l as [|p l IH]; intros [|w]; cbn; [done..|by rewrite Hw|].
    specialize (IH w). cbn in IH. by rewrite IH.
Qed.

(** What one step does to the count and to the waits that are about to return. *)
Inductive counted (s s' : sem_t) : list event -> Prop :=
| counted_none : count s' = count s -> sumZ owed (threads s') = sumZ owed (threads s) -> counted s s' []
| counted_take : 0 < count s -> count s' = count s - 1 ->
    sumZ owed (threads s') = sumZ owed (threads s) + 1 -> counted s s' [Took]
| counted_post n : 0 <= n < 2 ^ 32 -> count s' = u32 (count s + n) ->
    sumZ owed (threads s') = sumZ owed (threads s) -> counted s s' [Posted n]
| counted_grant : count s' = count s -> sumZ owed (threads s') = sumZ owed (threads s) - 1 ->
    counted s s' [Granted]
| counted_lose : count s' = count s -> sumZ owed (threads s') = sumZ owed (threads s) - 1 ->
    counted s s' [Lost].

Ltac count_threads Hi := rewrite (sumZ_insert _ _ _ _ _ Hi); cbn; lia.

Lemma lock_counted s i p q evs s' : threads s !! i = Some p -> lock i q s = Some (evs, s') ->
  owed p = 0 -> owed q = 0 -> counted s s' evs.
Proof.
  unfold lock. intros Hi. destruct (mutex s); [done|]. intros [= <- <-] Hp Hq. apply counted_none; [done|].
  cbn. rewrite (sumZ_insert _ _ _ _ _ Hi). lia.
Qed.

Lemma step_counted E s evs s' : safe s -> step E s evs s' -> counted s s' evs.
Proof.
  intros Hs [i rc v c Hi Hc|i p e w evs' s1 Hi _ _ Hstep].
  { apply counted_none; [done|]. cbn. count_threads Hi. }
  pose proof (s_count s Hs) as Hcount. pose proof (s_take s Hs i p Hi) as Ht.
  pose proof (s_fine s Hs i p Hi) as Hf.
  destruct p as [rc v|c|err|err|err|err| | | | |n all|all|all| |v]; cbn in Hstep; try done;
    try (injection Hstep as <- <-; apply counted_none; [done|]; cbn; count_threads Hi).
  - destruct (e =? 0); [by eapply lock_counted; [exact Hi|exact Hstep|..]; destruct c|].
    injection Hstep as <- <-. apply counted_none; [done|]. cbn. count_threads Hi.
  - destruct (count s =? 0); injection Hstep as <- <-; apply counted_none; try done; cbn; count_threads Hi.
  - by eapply lock_counted; [exact Hi|exact Hstep|..].
  - destruct (err =? 0); injection Hstep as <- <-.
    + apply counted_take; [by apply Ht|cbn; rewrite u32_small; specialize (Ht eq_refl); lia|cbn; count_threads Hi].
    + apply counted_none; [done|]. cbn. count_threads Hi.
  - destruct (Z.eqb_spec (count s) 0); injection Hstep as <- <-.
    + apply counted_none; [done|]. cbn. count_threads Hi.
    + apply counted_take; [lia|cbn; rewrite u32_small; lia|cbn; count_threads Hi].
  - injection Hstep as <- <-. apply counted_grant; [done|]. cbn. count_threads Hi.
  - destruct (e =? 0); injection Hstep as <- <-; [apply counted_grant|apply counted_lose];
      (done || (cbn; count_threads Hi)).
  - injection Hstep as <- <-. eapply counted_post; [exact Hf|done|]. cbn. count_threads Hi.
  - injection Hstep as <- <-. apply counted_none; [done|]. cbn.
    destruct (signal all w (threads s) !! i) as [q|] eqn:Hq.
    + rewrite (sumZ_insert _ _ _ _ _ Hq), owed_signal.
      apply signal_lookup in Hq as (q' & Hq' & Hw). rewrite Hi in Hq'. injection Hq' as <-.
      destruct Hw as [-> | ->]; cbn; lia.
    + rewrite list_insert_ge by (by apply lookup_ge_None). apply owed_signal.
Qed.

Lemma sumZ_snoc {A} (f : A -> Z) l x : sumZ f (l ++ [x]) = sumZ f l + f x.
Proof. rewrite sumZ_app. cbn. lia. Qed.

Lemma run_counts E value n evs s : 0 <= value < 2 ^ 32 -> run E (sem_init value n) evs s ->
  counter_run value evs (count s)
  /\ sumZ granted evs + sumZ lost evs + sumZ owed (threads s) = sumZ took evs
  /\ Forall (fun e => 0 <= posted e) evs.
Proof.
  intros Hv Hr. induction Hr as [|evs s evs1 s1 Hr IH Hstep].
  { cbn. rewrite (u32_small value Hv). split_and!; [constructor| |done].
    induction n; [done|exact IHn]. }
  destruct IH as (IH1 & IH2 & IH3). pose proof (run_safe _ _ _ _ _ Hr) as Hs.
  destruct (step_counted _ _ _ _ Hs Hstep) as [Hc Ho|Hp Hc Ho|k Hk Hc Ho|Hc Ho|Hc Ho]; rewrite Hc, ?sumZ_snoc, ?Ho.
  - rewrite app_nil_r. done.
  - split_and!; [by apply counter_take|cbn; lia|apply Forall_app; split; [done|by repeat constructor]].
  - split_and!; [by apply counter_post|cbn; lia|apply Forall_app; split; [done|]].
    constructor; [cbn; lia|done].
  - split_and!; [by apply counter_grant|cbn; lia|apply Forall_app; split; [done|by repeat constructor]].
  - split_and!; [by apply counter_lose|cbn; lia|apply Forall_app; split; [done|by repeat constructor]].
Qed.

Lemma counter_exact v evs c : counter_run v evs c -> 0 <= v ->
  Forall (fun e => 0 <= posted e) evs ->
  v + sumZ posted evs < 2 ^ 32 -> c = v + sumZ posted evs - sumZ took evs /\ 0 <= c.
Proof.
  intros Hc Hv. induction Hc as [|evs c Hc IH Hpos|evs c n Hc IH|evs c Hc IH|evs c Hc IH];
    rewrite ?sumZ_snoc, ?Forall_app; cbn; [lia|..]; intros [Hp H1] Hlt; apply Forall_inv in H1; cbn in H1.
  - destruct IH; [done|lia|lia].
  - destruct IH; [done|lia|]. rewrite u32_small; [lia|].
    assert (0 <= sumZ took evs) by (apply sumZ_nonneg; by intros []). lia.
  - destruct IH; [done|lia|lia].
  - destruct IH; [done|lia|lia].
Qed.

(** C32. The fallback semaphore is a semaphore, in every interleaving and
    whatever errors occur: only one thread at a time is between the lock and the
    unlock; the count moves as a counter that is posted to, modulo 2^32, and
    taken from only above zero; each wait that returns 0 took from it once (and so
    did a [sem_trywait] that returns -1 because its unlock left [errno] set); and
    as long as the posts do not overflow it, no more waits succeed than the
    initial value and the posts allow. *)
Theorem semaphore_refines_counter E value n evs s :
  0 <= value < 2 ^ 32 -> run E (sem_init value n) evs s ->
  counter_run value evs (count s)
  /\ sumZ granted evs + sumZ lost evs + sumZ owed (threads s) = sumZ took evs
  /\ (forall i j p q, threads s !! i = Some p -> threads s !! j = Some q ->
        holds p = true -> holds q = true -> i = j)
  /\ (value + sumZ posted evs < 2 ^ 32 ->
        count s = value + sumZ posted evs - sumZ took evs
        /\ sumZ granted evs <= value + sumZ posted evs).
Proof.
  intros Hv Hr. destruct (run_counts _ _ _ _ _ Hv Hr) as (H1 & H2 & H3). split_and!; try done.
  - intros i j p q Hi Hj Hp Hq. pose proof (run_safe _ _ _ _ _ Hr) as Hs.
    pose proof (s_owner s Hs i p Hi Hp). pose proof (s_owner s Hs j q Hj Hq). congruence.
  - intros Hlt. destruct (counter_exact _ _ _ H1 ltac:(lia) H3 Hlt) as [H4 H5].
    assert (0 <= sumZ owed (threads s)) by (apply sumZ_nonneg; by intros []).
    assert (0 <= sumZ lost evs) by (apply sumZ_nonneg; by intros []). lia.
Qed.

(** ** No wake-up is lost *)

(** A broadcast is on its way. *)
Definition broadcasts (p : pc) : bool :=
  match p with Added true | Signalling true => true | _ => false end.

(** Threads that will look at the count, or wake one that does. *)
Definition coming (p : pc) : Z :=
  match p with
  | Woken _ | WaitTest _ | WaitTake _ | Added false | Signalling false => 1
  | _ => 0
  end.

Lemma coming_nonneg p : 0 <= coming p.
Proof. destruct p as [| | | | | | | | | | | [|] | [|] | |]; cbn; lia. Qed.

(** No [pthread_cond_wait] leaves [errno] set; any call may fail otherwise. *)
Definition waits_quietly (p : pc) (e : Z) : Prop :=
  match p with Woken _ => e = 0 | _ => True end.

(** Then [errno] is 0 in a wait, and a post adds one. *)
Definition quiet (p : pc) : Prop :=
  match p with
  | WaitTest err | InWait err | Woken err | WaitTake err => err = 0
  | Adding n false => n = 1
  | _ => True
  end.

Record live (s : sem_t) : Prop := {
  l_safe : safe s;
  l_quiet : forall i p, threads s !! i = Some p -> quiet p;
  l_owner : forall i, mutex s = Some i -> exists p, threads s !! i = Some p /\ holds p = true;
  l_wake : existsb waits (threads s) = true -> existsb broadcasts (threads s) = false ->
    count s <= sumZ coming (threads s) }.

Lemma existsb_insert_old {A} (f : A -> bool) l i p q : l !! i = Some p ->
  (f q = true -> f p = true) -> existsb f (<[i:=q]> l) = true -> existsb f l = true.
Proof.
  intros Hi Hf (x & Hx & Hfx)%existsb_exists. apply existsb_exists.
  apply list_elem_of_In, list_elem_of_lookup in Hx as [j Hj].
  apply list_lookup_insert_Some in Hj as [(-> & -> & _)|[_ Hj]].
  - exists p. split; [|auto]. by apply list_elem_of_In; eapply list_elem_of_lookup_2.
  - exists x. split; [|done]. by apply list_elem_of_In; eapply list_elem_of_lookup_2.
Qed.

Lemma existsb_insert_new {A} (f : A -> bool) l i p q : l !! i = Some p ->
  (f p = true -> f q = true) -> existsb f (<[i:=q]> l) = false -> existsb f l = false.
Proof.
  intros Hi Hf H. apply not_true_iff_false. intros Ht. apply not_true_iff_false in H. apply H.
  apply (existsb_insert_old f (<[i:=q]> l) i q p).
  - rewrite list_lookup_insert_eq; [done|]. by eapply lookup_lt_Some.
  - done.
  - by rewrite list_insert_insert_eq, list_insert_id.
Qed.

Lemma existsb_lookup {A} (f : A -> bool) l : existsb f l = true <-> exists i p, l !! i = Some p /\ f p = true.
Proof.
  rewrite existsb_exists. split.
  - intros (x & Hx & Hf). apply list_elem_of_In, list_elem_of_lookup in Hx as [j Hj]. eauto.
  - intros (i & p & Hi & Hf). exists p. split; [|done]. apply list_elem_of_In. by eapply list_elem_of_lookup_2.
Qed.

Section liveness.
Context (s : sem_t) (Hs : live s) (i : nat) (p : pc) (Hi : threads s !! i = Some p).

(** A step of one thread that starts no wait and ends no broadcast. *)
Lemma wake_goto m v q :
  waits q = false -> (broadcasts p = true -> broadcasts q = true) -> v - coming q <= count s - coming p ->
  existsb waits (<[i:=q]> (threads s)) = true -> existsb broadcasts (<[i:=q]> (threads s)) = false ->
  count (mk_sem m v (<[i:=q]> (threads s))) <= sumZ coming (<[i:=q]> (threads s)).
Proof using Hs Hi.
  intros Hq Hb Hv Hw Hn. cbn. rewrite (sumZ_insert _ _ _ _ _ Hi).
  assert (count s <= sumZ coming (threads s)); [|lia]. apply (l_wake s Hs).
  - eapply existsb_insert_old; [exact Hi| |exact Hw]. congruence.
  - eapply existsb_insert_new; [exact Hi|exact Hb|exact Hn].
Qed.

Lemma owner_goto q m k : m = None \/ (m = Some i /\ holds q = true) \/
    (m = mutex s /\ (holds p = true -> holds q = true)) ->
  m = Some k -> exists r, <[i:=q]> (threads s) !! k = Some r /\ holds r = true.
Proof using Hs Hi.
  intros Hm ->. assert (Hlt : (i < List.length (threads s))%nat) by (by eapply lookup_lt_Some).
  destruct Hm as [?|[[[= ->] Hq]|[Hm Hq]]]; [done|..].
  - exists q. split; [by apply list_lookup_insert_eq|done].
  - destruct (l_owner s Hs k ltac:(done)) as (r & Hr & Hh). destruct (decide (k = i)) as [->|Hne].
    + exists q. split; [by apply list_lookup_insert_eq|]. apply Hq. congruence.
    + exists r. split; [|done]. by rewrite list_lookup_insert_ne by done.
Qed.

Lemma quiet_insert q : quiet q -> forall j r, <[i:=q]> (threads s) !! j = Some r -> quiet r.
Proof using Hs Hi.
  intros Hq j r [(-> & <- & _)|[Hne Hj]]%list_lookup_insert_Some; [done|]. by eapply l_quiet.
Qed.

(** The fields of [live] after such a step. *)
Lemma live_goto m v q : safe (mk_sem m v (<[i:=q]> (threads s))) -> quiet q -> waits q = false ->
  (broadcasts p = true -> broadcasts q = true) -> v - coming q <= count s - coming p ->
  m = None \/ (m = Some i /\ holds q = true) \/ (m = mutex s /\ (holds p = true -> holds q = true)) ->
  live (mk_sem m v (<[i:=q]> (threads s))).
Proof using Hs Hi.
  intros H1 H2 H3 H4 H5 H6. split; [done|by apply quiet_insert|..].
  - intros k Hk. by eapply owner_goto.
  - by apply wake_goto.
Qed.
End liveness.

Lemma waits_wake_all l : existsb waits (map wake l) = false.
Proof. induction l as [|[] l IH]; cbn; done. Qed.

Lemma no_waits_alter w l : existsb waits l = false -> alter wake w l = l.
Proof.
  revert w. induction l as [|p l IH]; intros [|w]; cbn; [done..|by destruct p|].
  intros [_ H]%orb_false_iff. f_equal. by apply IH.
Qed.

Lemma coming_alter w l p : l !! w = Some p -> waits p = true ->
  sumZ coming (alter wake w l) = sumZ coming l + 1.
Proof.
  intros Hw Hp. assert (E : alter wake w l = <[w:=wake p]> l).
  { apply list_eq. intros j. destruct (decide (j = w)) as [->|Hj].
    - rewrite list_lookup_alter_eq, Hw, list_lookup_insert_eq; [done|]. by eapply lookup_lt_Some.
    - by rewrite list_lookup_alter_ne, list_lookup_insert_ne. }
  rewrite E, (sumZ_insert _ _ _ _ _ Hw). destruct p; cbn in *; try done; lia.
Qed.

Lemma waits_alter w l : existsb waits (alter wake w l) = true -> existsb waits l = true.
Proof.
  intros (j & q & Hj & Hq)%existsb_lookup. apply existsb_lookup.
  apply (signal_lookup false) in Hj as (r & Hj & [-> | ->]); eauto. by destruct r.
Qed.

Lemma broadcasts_alter w l : existsb broadcasts (alter wake w l) = false -> existsb broadcasts l = false.
Proof.
  intros H. apply not_true_iff_false. intros (j & q & Hj & Hq)%existsb_lookup.
  apply not_true_iff_false in H. apply H, existsb_lookup. exists j. destruct (decide (j = w)) as [->|Hjw].
  - exists (wake q). rewrite list_lookup_alter_eq, Hj. by destruct q.
  - exists q. by rewrite list_lookup_alter_ne by done.
Qed.

(** A signal keeps it: it wakes a thread for the one that sent it. *)
Lemma live_signal s i w all : live s -> threads s !! i = Some (Signalling all) -> reaches w s ->
  live (goto i (Returned 0 0) (mk_sem (mutex s) (count s) (signal all w (threads s)))).
Proof.
  intros Hs Hi Hw.
  assert (Hi' : signal all w (threads s) !! i = Some (Signalling all)).
  { unfold signal. destruct all.
    - change (map wake (threads s)) with (wake <$> threads s). by rewrite list_lookup_fmap, Hi.
    - rewrite list_lookup_alter. case_decide as Hj; [|done]. subst. by rewrite Hi. }
  split.
  - eapply safe_signal, l_safe, Hs.
  - intros j r [[_ ->]|[_ Hj]]%goto_lookup; [done|]. cbn in Hj.
    apply signal_lookup in Hj as (q & Hj & Hr). apply (l_quiet s Hs) in Hj.
    destruct Hr as [-> | ->]; [done|by destruct q].
  - cbn. intros k Hk. destruct (l_owner s Hs k Hk) as (r & Hr & Hh).
    assert (k <> i) by (intros ->; rewrite Hi in Hr; by injection Hr as <-).
    rewrite list_lookup_insert_ne by done.
    unfold signal. destruct all.
    + change (map wake (threads s)) with (wake <$> threads s). rewrite list_lookup_fmap, Hr.
      exists (wake r). by rewrite holds_wake.
    + rewrite list_lookup_alter. case_decide; [subst|by exists r].
      exists (wake r). by rewrite Hr, holds_wake.
  - cbn. rewrite (sumZ_insert _ _ _ _ _ Hi'). intros Hwait Hbc.
    assert (Hwait' : existsb waits (signal all w (threads s)) = true)
      by (by eapply existsb_insert_old; [exact Hi'| |exact Hwait]).
    destruct all; cbn [signal] in *; [by rewrite waits_wake_all in Hwait'|].
    assert (Hbc' : existsb broadcasts (alter wake w (threads s)) = false)
      by (by eapply existsb_insert_new; [exact Hi'| |exact Hbc]).
    apply waits_alter in Hwait'. destruct (Hw Hwait') as (q & Hq & Hqw).
    rewrite (coming_alter w _ q) by done. cbn [coming].
    pose proof (l_wake s Hs Hwait' (broadcasts_alter _ _ Hbc')). lia.
Qed.

Lemma live_lock s i p q evs s' : live s -> threads s !! i = Some p -> lock i q s = Some (evs, s') ->
  safe s' -> holds q = true -> quiet q -> broadcasts p = false -> coming p <= coming q -> live s'.
Proof.
  unfold lock. intros Hs Hi. destruct (mutex s) eqn:Hm; [done|]. intros [= <- <-] Hsafe Hh Hq Hb Hc.
  apply (live_goto s Hs i p Hi); try done; [by destruct q|congruence|lia|by right; left].
Qed.

Lemma entered_facts c : holds (entered c) = true /\ quiet (entered c) /\ 0 <= coming (entered c).
Proof. destruct c; cbn; split_and!; (done || lia). Qed.

Lemma step_live s evs s' : live s -> step waits_quietly s evs s' -> live s'.
Proof.
  intros Hs Hstep. pose proof (step_safe _ _ _ _ (l_safe s Hs) Hstep) as Hsafe.
  destruct Hstep as [i rc v c Hi Hc|i p e w evs s' Hi He Hw Hstep].
  { by apply (live_goto s Hs i _ Hi); cbn; auto; lia. }
  pose proof (s_count s (l_safe s Hs)) as Hcount. pose proof (l_quiet s Hs i p Hi) as Hq.
  pose proof (s_take s (l_safe s Hs) i p Hi) as Ht. pose proof (s_fine s (l_safe s Hs) i p Hi) as Hf.
  destruct p as [rc v|c|err|err|err|err| | | | |n all|all|all| |v]; cbn in Hstep, Hq, He; try done; subst;
    try (injection Hstep as <- <-; apply (live_goto s Hs i _ Hi); cbn; auto; lia).
  - destruct (e =? 0); [|injection Hstep as <- <-; apply (live_goto s Hs i _ Hi); cbn; auto; lia].
    destruct (entered_facts c) as (H1 & H2 & H3). by eapply live_lock; [exact Hs|exact Hi|exact Hstep|..].
  - destruct (Z.eqb_spec (count s) 0) as [H0|H0]; injection Hstep as <- <-.
    + split; [done| |done|].
      * intros j r [[_ ->]|[_ Hj]]%goto_lookup; [done|]. by apply (l_quiet s Hs j).
      * intros _ _. cbn. rewrite H0. apply sumZ_nonneg, coming_nonneg.
    + apply (live_goto s Hs i _ Hi); cbn; auto; lia.
  - by eapply live_lock; [exact Hs|exact Hi|exact Hstep|..].
  - specialize (Ht eq_refl). injection Hstep as <- <-.
    apply (live_goto s Hs i _ Hi); cbn; auto. rewrite u32_small; lia.
  - destruct (Z.eqb_spec (count s) 0) as [H0|H0]; injection Hstep as <- <-.
    + apply (live_goto s Hs i _ Hi); cbn; auto; lia.
    + apply (live_goto s Hs i _ Hi); cbn; auto. rewrite u32_small; lia.
  - destruct (e =? 0); injection Hstep as <- <-; apply (live_goto s Hs i _ Hi); cbn; auto; lia.
  - injection Hstep as <- <-. cbn in Hf. destruct all; subst.
    + split; [done| | |].
      * intros j r [[_ ->]|[_ Hj]]%goto_lookup; [done|]. by apply (l_quiet s Hs j).
      * intros k Hk. eapply (owner_goto s Hs i _ Hi); [|exact Hk]. by right; right.
      * cbn. intros _ Hb. exfalso. apply not_true_iff_false in Hb. apply Hb, existsb_lookup.
        exists i, (Added true). split; [|done]. apply list_lookup_insert_eq. by eapply lookup_lt_Some.
    + apply (live_goto s Hs i _ Hi); cbn; auto.
      assert (u32 (count s + 1) <= count s + 1) by (apply Z.mod_le; lia). lia.
  - injection Hstep as <- <-. by apply live_signal.
Qed.

Lemma run_live value n evs s : run waits_quietly (sem_init value n) evs s -> live s.
Proof.
  induction 1 as [|evs s evs1 s1 Hr IH Hstep]; [|by eapply step_live].
  split; [apply init_safe|by intros i p ->%init_threads|done|].
  cbn. intros Hw _. exfalso. apply existsb_lookup in Hw as (i & p & ->%(init_threads value) & Hw). done.
Qed.

(** Threads that a step of their own or of the mutex's owner moves on. *)
Definition engaged (p : pc) : bool :=
  match p with Returned _ _ | InWait _ => false | _ => true end.

Lemma engaged_moves s i p w : live s -> threads s !! i = Some p -> engaged p = true ->
  exists j q r, threads s !! j = Some q /\ engaged q = true /\ thread_step 0 w j q s = Some r.
Proof.
  intros Hs Hi Hp. destruct (mutex s) as [k|] eqn:Hm.
  - destruct (l_owner s Hs k Hm) as (q & Hk & Hh). exists k, q.
    destruct q; try done; cbn; repeat case_match; eexists; done.
  - exists i, p. destruct p; try done; cbn; unfold lock; rewrite ?Hm; repeat case_match; eexists; done.
Qed.

(** C33. As long as no [pthread_cond_wait] leaves [errno] set (one that does ends
    the semaphore: [semaphore_error_keeps_mutex]), whatever other calls fail, no
    wake-up of the fallback semaphore is lost: while threads wait in [sem_wait]
    and the count is above zero, either a broadcast is under way or at least as
    many threads as the count are on their way to take from it or to signal one
    that is; and one of the threads that do not wait can move. *)
Theorem semaphore_no_lost_wakeup value n evs s :
  run waits_quietly (sem_init value n) evs s -> existsb waits (threads s) = true -> 0 < count s ->
  (existsb broadcasts (threads s) = true \/ count s <= sumZ coming (threads s))
  /\ exists w j q r, reaches w s /\ threads s !! j = Some q /\ engaged q = true
     /\ thread_step 0 w j q s = Some r.
Proof.
  intros Hr Hw Hc. pose proof (run_live _ _ _ _ Hr) as Hs.
  assert (H : existsb broadcasts (threads s) = true \/ count s <= sumZ coming (threads s)).
  { destruct (existsb broadcasts (threads s)) eqn:Hb; [by left|right]. by apply (l_wake s Hs). }
  split; [done|].
  assert (Hp : exists i p, threads s !! i = Some p /\ engaged p = true).
  { destruct H as [(i & p & Hi & Hp)%existsb_lookup|H].
    - exists i, p. split; [done|]. by destruct p.
    - destruct (sumZ_pos coming (threads s)) as (p & [i Hi]%list_elem_of_lookup & Hp); [lia|].
      exists i, p. split; [done|]. by destruct p; cbn in *; try lia. }
  destruct Hp as (i & p & Hi & Hp). apply existsb_lookup in Hw as (w & q & Hwq & Hq).
  destruct (engaged_moves s i p w Hs Hi Hp) as (j & q' & r & Hj & He & Hstep).
  exists w, j, q', r. split_and!; try done. intros _. eauto.
Qed.

(** ** An error in [sem_wait] *)

Lemma dead_step E s i evs s' : mutex s = Some i -> (forall j p, threads s !! j = Some p -> holds p = false) ->
  step E s evs s' -> evs = [] /\ count s' = count s /\ mutex s' = Some i
    /\ forall j p, threads s' !! j = Some p -> holds p = false.
Proof.
  intros Hm Hh.
  assert (Hg : forall k q, holds q = false -> forall j p, threads (goto k q s) !! j = Some p -> holds p = false).
  { intros k q Hq j p [[-> ->]|[_ Hj]]%goto_lookup; [done|by eapply Hh]. }
  intros [k rc v c Hk _|k p e w evs1 s1 Hk _ _ Hstep]; [split_and!; try done; by apply Hg|].
  specialize (Hh k p Hk) as Hp.
  destruct p as [rc v|c|err|err|err|err| | | | |m all|all|all| |v]; try done; cbn in Hstep;
    unfold lock in Hstep; rewrite ?Hm in Hstep.
  - destruct (e =? 0); [done|]. injection Hstep as <- <-. split_and!; try done. by apply Hg.
  - injection Hstep as <- <-. split_and!; try done. by apply Hg.
  - done.
  - injection Hstep as <- <-. split_and!; try done.
    intros j q [[-> ->]|[_ Hj]]%goto_lookup; [done|]. cbn in Hj.
    apply signal_lookup in Hj as (r & Hj & [-> | ->]); rewrite ?holds_wake; by eapply Hh.
Qed.

(** A [sem_wait] that finds [errno] set after its loop answers -1 without
    unlocking the mutex: from then on no thread ever takes the mutex, so no wait
    ends, no post counts, and every later call on the semaphore hangs. *)
Theorem semaphore_error_keeps_mutex E value n evs s i err evs' s' :
  run E (sem_init value n) evs s -> threads s !! i = Some (WaitTake err) -> err <> 0 ->
  let s1 := goto i (Returned (-1) 0) s in
  thread_step 0 i i (WaitTake err) s = Some ([], s1)
  /\ (run E s1 evs' s' ->
      evs' = [] /\ count s' = count s /\ mutex s' = Some i
      /\ forall j p, threads s' !! j = Some p -> holds p = false).
Proof.
  intros Hr Hi Herr s1. cbn [thread_step]. rewrite (proj2 (Z.eqb_neq err 0)) by done. split; [done|].
  pose proof (run_safe _ _ _ _ _ Hr) as Hs. pose proof (s_owner s Hs i _ Hi eq_refl) as Hm.
  intros H. induction H as [|evs1 s2 evs2 s3 _ IH Hstep].
  - split_and!; try done. intros j p [[-> ->]|[Hne Hj]]%goto_lookup; [done|].
    by eapply (other_idle s Hs i (WaitTake err) Hi).
  - destruct IH as (-> & Hc & Hm2 & Hh). destruct (dead_step _ _ _ _ _ Hm2 Hh Hstep) as (-> & Hc2 & Hm3 & Hh3).
    split_and!; try done. congruence.
Qed.

(** ** Runs, for the witnesses *)

(** Calls and steps given by thread, with the error and the thread a signal
    reaches. *)
Inductive move := MCall (i : nat) (c : call) | MStep (i : nat) (e : Z) (w : nat).

Definition reaches_b (w : nat) (s : sem_t) : bool :=
  negb (existsb waits (threads s)) || match threads s !! w with Some p => waits p | None => false end.

Definition play1 (m : move) (s : sem_t) : option (list event * sem_t) :=
  match m with
  | MCall i (sem_post_multiple _) => None
  | MCall i c =>
      match threads s !! i with
      | Some (Returned _ _) => Some ([], goto i (Calling c) s)
      | _ => None
      end
  | MStep i e w =>
      p ← threads s !! i;
      if reaches_b w s then thread_step e w i p s else None
  end.

Fixpoint play (ms : list move) (evs : list event) (s : sem_t) : option (list event * sem_t) :=
  match ms with
  | [] => Some (evs, s)
  | m :: ms' => '(evs1, s1) ← play1 m s; play ms' (evs ++ evs1) s1
  end.

Definition error_of (m : move) : Z := match m with MCall _ _ => 0 | MStep _ e _ => e end.

Lemma play1_step (E : pc -> Z -> Prop) m s evs s' : (forall p, E p (error_of m)) -> play1 m s = Some (evs, s') -> step E s evs s'.
Proof.
  destruct m as [i c|i e w]; cbn; intros He.
  - destruct (threads s !! i) as [[rc v| | | | | | | | | | | | | |]|] eqn:Hi; try by destruct c.
    intros H. destruct c; try done; injection H as <- <-; by eapply step_call.
  - destruct (threads s !! i) as [p|] eqn:Hi; [|done]. cbn. destruct (reaches_b w s) eqn:Hw; [|done].
    apply step_thread; [done..|]. intros Hex. unfold reaches_b in Hw. rewrite Hex in Hw.
    destruct (threads s !! w) as [q|]; [|done]. by exists q.
Qed.

Lemma play_run (E : pc -> Z -> Prop) s0 ms : Forall (fun m => forall p, E p (error_of m)) ms ->
  forall evs s evs' s', run E s0 evs s -> play ms evs s = Some (evs', s') -> run E s0 evs' s'.
Proof.
  induction 1 as [|m ms Hm _ IH]; intros evs s evs' s' Hr; cbn; [by intros [= <- <-]|].
  destruct (play1 m s) as [[evs1 s1]|] eqn:E1; [|done]. cbn. apply IH.
  eapply run_step; [exact Hr|]. by eapply play1_step.
Qed.

(** Two threads; the first waits, the second posts and is about to signal. *)
Definition wait_and_post : list move :=
  [MCall 0 sem_wait; MStep 0 0 0; MStep 0 0 0; MCall 1 sem_post; MStep 1 0 0; MStep 1 0 0; MStep 1 0 0].

Definition wait_and_post_state : sem_t := mk_sem None 1 [InWait 0; Signalling false].

Lemma wait_and_post_run : run waits_quietly (sem_init 0 2) [Posted 1] wait_and_post_state.
Proof.
  apply (play_run waits_quietly (sem_init 0 2) wait_and_post ltac:(repeat first [apply List.Forall_nil|apply List.Forall_cons; [by intros []|]]) [] (sem_init 0 2)).
  - constructor.
  - vm_compute. reflexivity.
Qed.

Lemma semaphore_refines_counter_witness :
  counter_run 0 [Posted 1] (count wait_and_post_state) /\ count wait_and_post_state = 1.
Proof.
  destruct (semaphore_refines_counter waits_quietly 0 2 [Posted 1] wait_and_post_state ltac:(lia) wait_and_post_run)
    as (H1 & _ & _ & H2).
  split; [exact H1|]. apply H2. vm_compute. reflexivity.
Defined.

Lemma semaphore_no_lost_wakeup_witness :
  exists w j q r, threads wait_and_post_state !! j = Some q /\ engaged q = true
    /\ thread_step 0 w j q wait_and_post_state = Some r.
Proof.
  destruct (semaphore_no_lost_wakeup 0 2 [Posted 1] wait_and_post_state wait_and_post_run eq_refl
              ltac:(vm_compute; reflexivity)) as (_ & w & j & q & r & _ & H).
  exists w, j, q, r. exact H.
Defined.

(** The signal reaches the first thread, which finds [errno] 4 (EINTR). *)
Definition interrupted : list move := wait_and_post ++ [MStep 1 0 0; MStep 0 4 0; MStep 0 0 0].

Definition interrupted_state : sem_t := mk_sem (Some 0%nat) 1 [WaitTake 4; Returned 0 0].

Lemma interrupted_run : run (fun _ _ => True) (sem_init 0 2) [Posted 1] interrupted_state.
Proof.
  apply (play_run (fun _ _ => True) (sem_init 0 2) interrupted ltac:(repeat first [apply List.Forall_nil|apply List.Forall_cons; [by intros []|]]) [] (sem_init 0 2)).
  - constructor.
  - vm_compute. reflexivity.
Qed.

(** The first thread has returned -1; the second calls [sem_post] and blocks at the mutex. *)
Definition stuck_state : sem_t := from_option snd interrupted_state
  (play [MCall 1 sem_post] [] (goto 0 (Returned (-1) 0) interrupted_state)).

Lemma stuck_run : run (fun _ _ => True) (goto 0 (Returned (-1) 0) interrupted_state) [] stuck_state.
Proof.
  apply (play_run (fun _ _ => True) (goto 0 (Returned (-1) 0) interrupted_state)
           [MCall 1 sem_post] ltac:(repeat first [apply List.Forall_nil|apply List.Forall_cons; [by intros []|]]) [] (goto 0 (Returned (-1) 0) interrupted_state)).
  - constructor.
  - vm_compute. reflexivity.
Qed.

Lemma semaphore_error_keeps_mutex_witness : mutex stuck_state = Some 0%nat.
Proof.
  destruct (semaphore_error_keeps_mutex (fun _ _ => True) 0 2 [Posted 1] interrupted_state 0 4 [] stuck_state
              interrupted_run eq_refl ltac:(discriminate)) as [_ H].
  destruct (H stuck_run) as (_ & _ & H2 & _). exact H2.
Defined.
