(* ===== verification/Wire.v ===== *)
(** * Values in network byte order

    The binary formats of the PostgreSQL protocol as the client libraries
    handle them: words in the memory of the host, [ntohl] and [ntohll] on them,
    the bits of the IEEE formats, multibyte strings.  [big_endian] is the byte
    order of the host; no result depends on it. *)

From Stdlib Require Import ZArith Lia SpecFloat.
From stdpp Require Import base list.
From S2P Require Import Prelude Double Text Common.

(** ** Memory *)

(** [k] bytes of [x], the most significant one first. *)
Fixpoint be_bytes (k : nat) (x : Z) : bytes :=
  match k with
  | O => []
  | S k' => (x / 2 ^ (8 * Z.of_nat k')) mod 256 :: be_bytes k' x
  end.

Definition be_val (b : bytes) : Z := fold_left (fun v c => v * 256 + c) b 0.

(** The bytes of a [k]-byte word in memory, and the word at the start of [b]. *)
Definition store (big_endian : bool) (k : nat) (x : Z) : bytes :=
  if big_endian then be_bytes k x else rev (be_bytes k x).
Definition load (big_endian : bool) (k : nat) (b : bytes) : Z :=
  if big_endian then be_val (take k b) else be_val (rev (take k b)).

(** ** The bits of IEEE numbers: [mw] bits of mantissa, [ew] of exponent *)

Definition e_min (mw ew : Z) : Z := 3 - 2 ^ (ew - 1) - (mw + 1).

Definition ieee_bits (mw ew : Z) (f : spec_float) : Z :=
  let sign (s : bool) := if s then 2 ^ (mw + ew) else 0 in
  match f with
  | S754_zero s => sign s
  | S754_infinity s => sign s + (2 ^ ew - 1) * 2 ^ mw
  | S754_nan => (2 ^ ew - 1) * 2 ^ mw + 2 ^ (mw - 1)
  | S754_finite s m e =>
      if Zpos m <? 2 ^ mw then sign s + Zpos m
      else sign s + (e - e_min mw ew + 1) * 2 ^ mw + (Zpos m - 2 ^ mw)
  end.

Definition ieee_value (mw ew : Z) (x : Z) : spec_float :=
  let s := Z.odd (x / 2 ^ (mw + ew)) in
  let ex := x / 2 ^ mw mod 2 ^ ew in
  let fr := x mod 2 ^ mw in
  if ex =? 0 then
    match fr with Zpos m => S754_finite s m (e_min mw ew) | _ => S754_zero s end
  else if ex =? 2 ^ ew - 1 then
    if fr =? 0 then S754_infinity s else S754_nan
  else
    match fr + 2 ^ mw with
    | Zpos m => S754_finite s m (ex + e_min mw ew - 1)
    | _ => S754_nan
    end.

(** Rounding to another precision, exact when widening. *)
Definition convert (prec emax : Z) (f : spec_float) : spec_float :=
  match f with
  | S754_finite s m e => binary_normalize prec emax (cond_Zopp s (Zpos m)) e s
  | _ => f
  end.

(** [v.f = f; v.i] and [v.i = x; (double) v.f], for a 32 bit union. *)
Definition float_bits (f : double) : Z := ieee_bits 23 8 (convert 24 128 f).
Definition float_of_bits (x : Z) : double := convert 53 1024 (ieee_value 23 8 x).
(** [v.i = x; v.d] *)
Definition double_of_bits (x : Z) : double := ieee_value 52 11 x.

(** ** Multibyte strings *)

(** One character of UTF-8: its code and how many bytes it takes. *)
Definition utf8_first (s : bytes) : option (Z * nat) :=
  let cont (b : Z) := (128 <=? b) && (b <? 192) in
  match s with
  | b0 :: s' =>
      if b0 <? 128 then Some (b0, 1%nat) else
      match s' with
      | b1 :: s'' =>
          if (194 <=? b0) && (b0 <? 224) && cont b1
          then Some ((b0 - 192) * 64 + (b1 - 128), 2%nat) else
          match s'' with
          | b2 :: s''' =>
              let c3 := (b0 - 224) * 4096 + (b1 - 128) * 64 + (b2 - 128) in
              if (224 <=? b0) && (b0 <? 240) && cont b1 && cont b2
                 && (2048 <=? c3) && negb ((55296 <=? c3) && (c3 <? 57344))
              then Some (c3, 3%nat) else
              match s''' with
              | b3 :: _ =>
                  let c4 := (b0 - 240) * 262144 + (b1 - 128) * 4096 + (b2 - 128) * 64 + (b3 - 128) in
                  if (240 <=? b0) && (b0 <? 245) && cont b1 && cont b2 && cont b3
                     && (65536 <=? c4) && (c4 <? 1114112)
                  then Some (c4, 4%nat) else None
              | [] => None
              end
          | [] => None
          end
      | [] => None
      end
  | [] => None
  end.

(** At most [n] characters of [s]; [false] when an invalid sequence ends it. *)
Fixpoint decode_utf8 (n : nat) (s : bytes) : list Z * bool :=
  match n with
  | O => ([], true)
  | S n' =>
      match s with
      | [] => ([], true)
      | _ =>
          match utf8_first s with
          | Some (c, k) => let '(cs, ok) := decode_utf8 n' (drop k s) in (c :: cs, ok)
          | None => ([], false)
          end
      end
  end.

(** [mbstowcs(dest, s, n)]: the characters before an invalid sequence are
    stored, the rest of the array is kept. *)
Definition mbstowcs (dest : list Z) (s : bytes) (n : Z) : list Z :=
  let '(cs, ok) := decode_utf8 (Z.to_nat n) s in
  if (ok : bool) then cs else cs ++ drop (List.length cs) dest.

(** ** Byte order *)

Lemma be_bytes_length k x : List.length (be_bytes k x) = k.
Proof. induction k as [|k IH]; cbn; [done|]. by rewrite IH. Qed.

Lemma be_bytes_values k x : Forall byte_value (be_bytes k x).
Proof.
  induction k as [|k IH]; cbn [be_bytes]; constructor; [|done].
  unfold byte_value. apply Z.mod_pos_bound. lia.
Qed.

Lemma be_val_acc v b : fold_left (fun v c => v * 256 + c) b v = v * 256 ^ zlen b + be_val b.
Proof.
  unfold be_val. revert v. induction b as [|c b IH]; intros v; cbn [fold_left].
  - unfold zlen. cbn. lia.
  - rewrite (IH (v * 256 + c)), (IH (0 * 256 + c)).
    replace (zlen (c :: b)) with (Z.succ (zlen b)) by (unfold zlen; cbn [List.length]; lia).
    rewrite Z.pow_succ_r by (unfold zlen; lia). nia.
Qed.

Lemma be_val_bytes k x : be_val (be_bytes k x) = x mod 256 ^ Z.of_nat k.
Proof.
  induction k as [|k IH]; cbn [be_bytes]; [by rewrite Z.mod_1_r|].
  unfold be_val. cbn [fold_left]. rewrite be_val_acc, IH. unfold zlen. rewrite be_bytes_length.
  replace (8 * Z.of_nat k) with (Z.of_nat k * 8) by lia.
  replace (2 ^ (Z.of_nat k * 8)) with (256 ^ Z.of_nat k)
    by (change 256 with (2 ^ 8); rewrite <- Z.pow_mul_r by lia; f_equal; lia).
  rewrite Nat2Z.inj_succ, Z.pow_succ_r by lia.
  pose proof (Z.pow_pos_nonneg 256 (Z.of_nat k) ltac:(lia) ltac:(lia)) as Hp.
  rewrite (Z.mul_comm 256), Z.rem_mul_r by lia. lia.
Qed.

(** Four and eight bytes, spelled out. *)
Lemma be_bytes_4 x : be_bytes 4 x =
  [x / 2 ^ 24 mod 256; x / 2 ^ 16 mod 256; x / 2 ^ 8 mod 256; x / 2 ^ 0 mod 256].
Proof. reflexivity. Qed.

Lemma div_digits b0 b1 b2 b3 : byte_value b0 -> byte_value b1 -> byte_value b2 -> byte_value b3 ->
  be_bytes 4 (le32 b0 b1 b2 b3) = [b3; b2; b1; b0].
Proof.
  unfold byte_value, le32. intros. rewrite be_bytes_4.
  change (2 ^ 0) with 1. rewrite Z.div_1_r. repeat (f_equal; [dlia|]). f_equal. dlia.
Qed.

Lemma bytes_of_word x : exists b0 b1 b2 b3,
  byte_value b0 /\ byte_value b1 /\ byte_value b2 /\ byte_value b3 /\
  x mod 2 ^ 32 = le32 b0 b1 b2 b3 /\ be_bytes 4 x = [b3; b2; b1; b0].
Proof.
  exists (x mod 256), (x / 2 ^ 8 mod 256), (x / 2 ^ 16 mod 256), (x / 2 ^ 24 mod 256).
  unfold byte_value, le32. rewrite be_bytes_4. change (2 ^ 0) with 1. rewrite Z.div_1_r.
  split_and!; try done; dlia.
Qed.

Lemma store_htonl big_endian x : store big_endian 4 (ntohl big_endian x) = be_bytes 4 x.
Proof.
  destruct (bytes_of_word x) as (b0 & b1 & b2 & b3 & H0 & H1 & H2 & H3 & Hx & Hb).
  rewrite Hb. unfold store, ntohl. rewrite Hx. destruct big_endian.
  - by apply div_digits.
  - rewrite bswap32_le32 by done. replace (be32 b0 b1 b2 b3) with (le32 b3 b2 b1 b0)
      by (unfold be32, le32; lia). by rewrite div_digits.
Qed.

Lemma list_4 (b : bytes) : List.length b = 4%nat -> exists b0 b1 b2 b3, b = [b0; b1; b2; b3].
Proof. destruct b as [|b0 [|b1 [|b2 [|b3 [|]]]]]; try done. intros _. by do 4 eexists. Qed.

Lemma load_ntohl big_endian b : List.length b = 4%nat -> Forall byte_value b ->
  ntohl big_endian (load big_endian 4 b) = be_val b.
Proof.
  intros (b0 & b1 & b2 & b3 & ->)%list_4. rewrite !Forall_cons. intros (H0 & H1 & H2 & H3 & _).
  assert (Hbe : be_val [b0; b1; b2; b3] = be32 b0 b1 b2 b3) by (unfold be_val, be32; cbn; lia).
  assert (Hle : be_val [b3; b2; b1; b0] = le32 b0 b1 b2 b3) by (unfold be_val, le32; cbn; lia).
  destruct (le32_range b0 b1 b2 b3) as [HL HB]; [done..|].
  unfold load, ntohl. destruct big_endian; cbn [take rev app].
  - rewrite Hbe. by apply Z.mod_small.
  - rewrite Hle, Hbe, Z.mod_small by done. by apply bswap32_le32.
Qed.

(** [ntohll] of the eight bytes of a result value. *)
Lemma load_ntohll big_endian b : List.length b = 8%nat -> Forall byte_value b ->
  ntohll big_endian (i64 (load big_endian 8 b)) = be_val b.
Proof.
  intros Hl. destruct b as [|b0 [|b1 [|b2 [|b3 [|b4 [|b5 [|b6 [|b7 [|]]]]]]]]]; try done. intros Hb.
  destruct (ntohll_correct b0 b1 b2 b3 b4 b5 b6 b7 Hb) as [E1 E2].
  assert (Hbe : be_val [b0; b1; b2; b3; b4; b5; b6; b7] = be32 b0 b1 b2 b3 * 2 ^ 32 + be32 b4 b5 b6 b7)
    by (unfold be_val, be32; cbn; lia).
  rewrite Hbe. unfold load. destruct big_endian; cbn [take rev app].
  - rewrite Hbe. etransitivity; [|exact E2]. do 2 f_equal. lia.
  - rewrite <- E1. f_equal. f_equal. unfold be_val, le32. cbn. lia.
Qed.

(** An [int] survives the wire. *)
Lemma int_wire z : - 2 ^ 31 <= z < 2 ^ 31 -> i32 (be_val (be_bytes 4 z)) = z.
Proof. intros Hz. rewrite be_val_bytes. unfold i32. change (256 ^ Z.of_nat 4) with (2 ^ 32). dlia. Qed.

(** ** Bits of IEEE numbers *)

(** The numbers of a format: a full mantissa, or the least exponent. *)
Definition canonical (mw ew : Z) (f : spec_float) : Prop :=
  match f with
  | S754_finite _ m e =>
      (Zpos m < 2 ^ mw /\ e = e_min mw ew)
      \/ (2 ^ mw <= Zpos m < 2 ^ (mw + 1) /\ 0 <= e - e_min mw ew < 2 ^ ew - 2)
  | _ => True
  end.

Section ieee.
Context (mw ew : Z) (Hmw : 0 < mw) (Hew : 1 < ew).

Lemma fields (s : bool) ex fr : 0 <= ex < 2 ^ ew -> 0 <= fr < 2 ^ mw ->
  let x := (if s then 2 ^ (mw + ew) else 0) + ex * 2 ^ mw + fr in
  Z.odd (x / 2 ^ (mw + ew)) = s /\ x / 2 ^ mw mod 2 ^ ew = ex /\ x mod 2 ^ mw = fr.
Proof.
  intros Hex Hfr x.
  pose proof (Z.pow_pos_nonneg 2 mw ltac:(lia) ltac:(lia)) as Hm.
  pose proof (Z.pow_pos_nonneg 2 ew ltac:(lia) ltac:(lia)) as He.
  subst x. rewrite Z.pow_add_r by lia.
  generalize dependent (2 ^ mw). generalize dependent (2 ^ ew). intros E HexE HE M HfrM HM.
  assert (Hlow : 0 <= ex * M + fr < M * E) by nia.
  set (b := if s then 1 else 0).
  replace ((if s then M * E else 0) + ex * M + fr) with (fr + (ex + b * E) * M)
    by (unfold b; destruct s; ring).
  split_and!.
  - replace (fr + (ex + b * E) * M) with ((ex * M + fr) + b * (M * E)) by ring.
    rewrite Z.div_add, Z.div_small by nia. by destruct s.
  - rewrite Z.div_add, Z.div_small by lia. rewrite Z.add_0_l, Z.mod_add by lia. by apply Z.mod_small.
  - rewrite Z.mod_add by lia. by apply Z.mod_small.
Qed.

(** Encoding then decoding gives the number back. *)
Lemma ieee_round_trip f : canonical mw ew f -> ieee_value mw ew (ieee_bits mw ew f) = f.
Proof.
  pose proof (Z.pow_pos_nonneg 2 mw ltac:(lia) ltac:(lia)) as Hm.
  assert (He : 4 <= 2 ^ ew) by (change 4 with (2 ^ 2); apply Z.pow_le_mono_r; lia).
  assert (Hhalf : 0 <= 2 ^ (mw - 1) < 2 ^ mw) by (split; [lia|apply Z.pow_lt_mono_r; lia]).
  assert (Hhalf' : 0 < 2 ^ (mw - 1)) by (apply Z.pow_pos_nonneg; lia).
  intros Hc. unfold ieee_value. destruct f as [s|s| |s m e]; cbn [ieee_bits].
  - destruct (fields s 0 0 ltac:(lia) ltac:(lia)) as (E1 & E2 & E3).
    rewrite Z.mul_0_l, !Z.add_0_r in *. by rewrite E1, E2, E3.
  - destruct (fields s (2 ^ ew - 1) 0 ltac:(lia) ltac:(lia)) as (E1 & E2 & E3).
    rewrite !Z.add_0_r in *. rewrite E1, E2, E3.
    rewrite (proj2 (Z.eqb_neq (2 ^ ew - 1) 0)) by lia. by rewrite Z.eqb_refl.
  - destruct (fields false (2 ^ ew - 1) (2 ^ (mw - 1)) ltac:(lia) ltac:(lia)) as (E1 & E2 & E3).
    rewrite Z.add_0_l in *. rewrite E1, E2, E3.
    rewrite (proj2 (Z.eqb_neq (2 ^ ew - 1) 0)), Z.eqb_refl by lia.
    by rewrite (proj2 (Z.eqb_neq (2 ^ (mw - 1)) 0)) by lia.
  - destruct Hc as [[Hlt ->]|[Hge Hexp]].
    + rewrite (proj2 (Z.ltb_lt _ _) Hlt).
      destruct (fields s 0 (Zpos m) ltac:(lia) ltac:(lia)) as (E1 & E2 & E3).
      rewrite Z.mul_0_l, !Z.add_0_r in *. by rewrite E1, E2, E3.
    + rewrite (proj2 (Z.ltb_ge _ _)) by lia. rewrite Z.pow_add_r in Hge by lia.
      destruct (fields s (e - e_min mw ew + 1) (Zpos m - 2 ^ mw) ltac:(lia) ltac:(lia)) as (E1 & E2 & E3).
      rewrite E1, E2, E3.
      rewrite (proj2 (Z.eqb_neq (e - e_min mw ew + 1) 0)) by lia.
      rewrite (proj2 (Z.eqb_neq (e - e_min mw ew + 1) (2 ^ ew - 1))) by lia.
      rewrite Z.sub_add. f_equal. lia.
Qed.
End ieee.
