(* ===== verification/Dump.v ===== *)
(** * Printing a transaction ([src/transaction_data.c], [src/logging.c])

    [dump] writes the structure of a transaction as text; [edump] and
    [log_error_message] write to the log, which [init_logging] opens.  The text of
    a stream is a list of bytes; the mutexes around the writes are left out, each
    call being one write here.  Reading an order line beyond the fifteen of the
    structure is [None]. *)

From Stdlib Require Import ZArith Lia SpecFloat String.
From stdpp Require Import base list.
From S2P Require Import Prelude Double Text Common TxnData Wire.

(** ["%<w>..."] and ["%-<w>s"], widths in bytes. *)
Definition right (w : Z) (s : bytes) : bytes := repeat 32 (Z.to_nat (w - zlen s)) ++ s.
Definition left (w : Z) (s : bytes) : bytes := s ++ repeat 32 (Z.to_nat (w - zlen s)).

(** [mbstowcs(NULL, s, 0)], [None] for an invalid sequence. *)
Definition wide_length (s : bytes) : option Z :=
  let '(cs, ok) := decode_utf8 (List.length s) s in if (ok : bool) then Some (zlen cs) else None.

Definition fprint_padded (s : bytes) (width : Z) : bytes :=
  let len := default (zlen s) (wide_length s) in
  let pad := width - len in
  s ++ repeat 32 (Z.to_nat pad).

(** [fprintf(fp, "name = ...\n", v)] for the formats of numbers and strings. *)
Definition entry (name : String.string) (v : bytes) : bytes := lit name ++ lit " = " ++ v ++ [NL].
Definition d_entry (name : String.string) (z : Z) : bytes := entry name (fmt_d z).
Definition f_entry (p : Z) (name : String.string) (f : double) : bytes := entry name (fmt_f p f).
Definition s_entry (name : String.string) (s : bytes) : bytes := entry name (lit "'" ++ s ++ lit "'").
(** [wcstombs(s, ..., 1024)] and then ["'%s'"] *)
Definition w_entry (name : String.string) (s : list Z) : bytes := s_entry name (wcstombs s 1024).

Definition dump_delivery (d : delivery_t) : bytes :=
  d_entry "w_id" (dl_w_id d) ++ d_entry "o_carrier_id" (dl_o_carrier_id d).

Definition no_heading (c : list bytes) (bg : bytes) : bytes :=
  List.concat (zip_with (fun w s => left w s ++ lit " ") [2; 7; 24; 9; 14; 11; 10; 10] c) ++ bg ++ [NL].

Definition dump_no_line (i : nat) (l : no_order_line_t) : bytes :=
  right 2 (fmt_d (Z.of_nat i + 1)) ++ lit " " ++ right 7 (fmt_d (ol_i_id l)) ++ lit " "
  ++ fprint_padded (i_name l) 24
  ++ lit " " ++ right 9 (fmt_f 2 (i_price l)) ++ lit " " ++ right 14 (fmt_d (ol_supply_w_id l))
  ++ lit " " ++ right 11 (fmt_d (ol_quantity l)) ++ lit " " ++ right 10 (fmt_d (s_quantity l))
  ++ lit " " ++ right 10 (fmt_f 2 (ol_amount l)) ++ lit " "
  ++ [if brand_generic l =? 0 then 32 else brand_generic l] ++ [NL].

(** [for (i = 0; i < o_ol_cnt; i++)] over the array of lines. *)
Definition dump_lines {A} (f : nat -> A -> bytes) (cnt : Z) (lines : list A) : option bytes :=
  if Z.of_nat (List.length lines) <? cnt then None
  else Some (List.concat (imap f (take (Z.to_nat cnt) lines))).

Definition dump_new_order (d : new_order_t) : option bytes :=
  lines ← dump_lines dump_no_line (no_o_ol_cnt d) (no_order_line d);
  Some (d_entry "w_id" (no_w_id d) ++ f_entry 4 "w_tax" (no_w_tax d) ++ d_entry "d_id" (no_d_id d)
    ++ f_entry 4 "d_tax" (no_d_tax d) ++ d_entry "c_id" (no_c_id d) ++ s_entry "c_last" (no_c_last d)
    ++ s_entry "c_credit" (no_c_credit d) ++ f_entry 4 "c_discount" (no_c_discount d)
    ++ d_entry "o_all_local" (no_o_all_local d) ++ d_entry "o_ol_cnt" (no_o_ol_cnt d)
    ++ no_heading (map lit ["##"; "ol_i_id"; "i_name"; "i_price"; "ol_supply_w_id"; "ol_quantity";
                            "s_quantity"; "ol_amount"]%string) (lit "BG")
    ++ no_heading (map (repeat 45) [2%nat; 7%nat; 24%nat; 9%nat; 14%nat; 11%nat; 10%nat; 10%nat]) (lit "--")
    ++ lines
    ++ d_entry "o_id" (no_o_id d) ++ f_entry 2 "total_amount" (no_total_amount d)).

Definition dump_os_line (i : nat) (l : os_order_line_t) : bytes :=
  right 2 (fmt_d (Z.of_nat i + 1)) ++ lit "  " ++ right 7 (fmt_d (osl_i_id l)) ++ lit "  "
  ++ right 14 (fmt_d (osl_supply_w_id l)) ++ lit "  " ++ right 11 (fmt_d (osl_quantity l)) ++ lit "  "
  ++ right 9 (fmt_f 2 (osl_amount l)) ++ lit "  " ++ osl_delivery_d l ++ [NL].

Definition dump_order_status (d : order_status_t) : option bytes :=
  lines ← dump_lines dump_os_line (os_o_ol_cnt d) (os_order_line d);
  Some (d_entry "c_id" (os_c_id d) ++ d_entry "c_w_id" (os_c_w_id d) ++ d_entry "c_d_id" (os_c_d_id d)
    ++ s_entry "c_first" (os_c_first d) ++ s_entry "c_middle" (os_c_middle d)
    ++ w_entry "c_last" (os_c_last d) ++ f_entry 2 "c_balance" (os_c_balance d)
    ++ d_entry "o_id" (os_o_id d) ++ d_entry "o_carrier_id" (os_o_carrier_id d)
    ++ s_entry "o_entry_d" (os_o_entry_d d) ++ d_entry "o_ol_cnt" (os_o_ol_cnt d)
    ++ lit "##  ol_i_id  ol_supply_w_id  ol_quantity  ol_amount  ol_delivery_d" ++ [NL]
    ++ lit "--  -------  --------------  -----------  ---------  -------------------" ++ [NL]
    ++ lines).

Definition dump_payment (d : payment_t) : bytes :=
  d_entry "w_id" (pa_w_id d) ++ s_entry "w_name" (pa_w_name d) ++ s_entry "w_street_1" (pa_w_street_1 d)
  ++ s_entry "w_street_2" (pa_w_street_2 d) ++ s_entry "w_city" (pa_w_city d)
  ++ s_entry "w_state" (pa_w_state d) ++ s_entry "w_zip" (pa_w_zip d) ++ d_entry "d_id" (pa_d_id d)
  ++ s_entry "d_name" (pa_d_name d) ++ s_entry "d_street_1" (pa_d_street_1 d)
  ++ s_entry "d_street_2" (pa_d_street_2 d) ++ s_entry "d_city" (pa_d_city d)
  ++ s_entry "d_state" (pa_d_state d) ++ s_entry "d_zip" (pa_d_zip d) ++ d_entry "c_id" (pa_c_id d)
  ++ w_entry "c_last" (pa_c_last d) ++ d_entry "c_w_id" (pa_c_w_id d) ++ d_entry "c_d_id" (pa_c_d_id d)
  ++ s_entry "c_first" (pa_c_first d) ++ s_entry "c_middle" (pa_c_middle d)
  ++ s_entry "c_street_1" (pa_c_street_1 d) ++ s_entry "c_street_2" (pa_c_street_2 d)
  ++ s_entry "c_city" (pa_c_city d) ++ s_entry "c_state" (pa_c_state d) ++ s_entry "c_zip" (pa_c_zip d)
  ++ s_entry "c_phone" (pa_c_phone d) ++ s_entry "c_since" (pa_c_since d)
  ++ s_entry "c_credit" (pa_c_credit d) ++ f_entry 2 "c_credit_lim" (pa_c_credit_lim d)
  ++ f_entry 4 "c_discount" (pa_c_discount d) ++ f_entry 2 "c_balance" (pa_c_balance d)
  ++ s_entry "c_data" (pa_c_data d) ++ f_entry 2 "h_amount" (pa_h_amount d).

Definition dump_stock_level (d : stock_level_t) : bytes :=
  d_entry "w_id" (sl_w_id d) ++ d_entry "d_id" (sl_d_id d) ++ d_entry "threshold" (sl_threshold d)
  ++ d_entry "low_stock" (sl_low_stock d).

(** [dump]: the status and the text.  [None] also when the union was written as
    another member than [type] says. *)
Definition dump (type : Z) (data : transaction_data_t) : option (Z * bytes) :=
  if type =? DELIVERY then
    match data with TD_delivery d => Some (OK, dump_delivery d) | _ => None end
  else if type =? NEW_ORDER then
    match data with TD_new_order d => s ← dump_new_order d; Some (OK, s) | _ => None end
  else if type =? ORDER_STATUS then
    match data with TD_order_status d => s ← dump_order_status d; Some (OK, s) | _ => None end
  else if type =? PAYMENT then
    match data with TD_payment d => Some (OK, dump_payment d) | _ => None end
  else if type =? STOCK_LEVEL then
    match data with TD_stock_level d => Some (OK, dump_stock_level d) | _ => None end
  else Some (ERROR, []).

(** ** The log *)

(** Where [log_error] points. *)
Inductive log_stream := NoLog | Stderr | LogFile (name : bytes).

Definition ERROR_LOG_NAME : bytes := lit "error.log".

Definition log_name (path : bytes) : bytes := take 510 path.

Definition init_logging (output_path : option bytes) (fopen : bytes -> bool) : Z * log_stream :=
  match output_path with
  | None => (OK, Stderr)
  | Some dir =>
      let name := log_name (dir ++ lit "/" ++ ERROR_LOG_NAME) in
      if fopen name then (OK, LogFile name) else (ERROR, NoLog)
  end.

(** For several processes; [output_path] must not be null. *)
Definition init_logging_f (dir : bytes) (pid : Z) (fopen : bytes -> bool) : Z * log_stream :=
  let name := log_name (dir ++ lit "/error-" ++ fmt_d pid ++ lit ".log") in
  if fopen name then (OK, LogFile name) else (ERROR, NoLog).

(** A write to a stream; a log that was not opened is standard error. *)
Definition log_error_message (log_error : log_stream) (time : bytes) (tid : Z) (filename : bytes) (line : Z)
    (message : bytes) : Z * (log_stream * bytes) :=
  let file := match log_error with NoLog => Stderr | f => f end in
  (OK, (file, time ++ lit " tid:" ++ fmt_d tid ++ lit " " ++ filename ++ lit ":" ++ fmt_d line ++ [NL]
            ++ message ++ [NL])).

(** [edump] does not look whether the log is open. *)
Definition edump (log_error : log_stream) (tid type : Z) (data : transaction_data_t)
  : option (Z * (log_stream * bytes)) :=
  match log_error with
  | NoLog => None
  | f => '(_, text) ← dump type data; Some (OK, (f, lit "[" ++ fmt_d tid ++ lit "]" ++ [NL] ++ text))
  end.

(** [create_pid_file] of common.c: the file and its text.  The name is formatted
    into 512 bytes. *)
Definition create_pid_file (output_path name : bytes) (pid : Z) (fopen : bytes -> bool)
  : option (Z * option (bytes * bytes)) :=
  let path := output_path ++ lit "/" ++ name in
  if zlen path <? 512 then
    Some (if fopen path then (OK, Some (path, fmt_d pid)) else (ERROR, None))
  else None.
