(* ===== verification/Tables.v ===== *)
(** * The database of TPC-C, and the statements of the stored procedures

    The nine tables as lists of rows
    ([src/scripts/pgsql/dbt2-pgsql-create-tables]), the SQL statements as
    combinators over them, and the server programming interface the procedures
    of [storedproc/pgsql/c] call, as a monad over a session.  Column names are
    in upper case (SQL does not distinguish them from the ones of the sources),
    which keeps them apart from the fields of the C structures.

    An [INTEGER] column is a [Z], a [REAL] one the C [float] it is exchanged as.
    Only [o_carrier_id] and [ol_delivery_d] are ever NULL: nothing in the program
    or in its loader writes NULL elsewhere. *)

From Stdlib Require Import ZArith Lia SpecFloat.
From stdpp Require Import base list sorting.
From S2P Require Import Prelude Double Text.

(** The buffer sizes of [storedproc/pgsql/c/dbt2common.h]. *)
Module Len.
Definition TIMESTAMP_LEN : Z := 28.
Definition C_CREDIT_LEN : Z := 2.
Definition C_DATA_BC_LEN : Z := 200.
Definition C_DATA_LEN : Z := 500.
Definition C_FIRST_LEN : Z := 64.
Definition C_LAST_LEN : Z := 16.
Definition C_MIDDLE_LEN : Z := 2.
Definition C_STREET_1_LEN : Z := 80.
Definition C_STREET_2_LEN : Z := 80.
Definition C_CITY_LEN : Z := 80.
Definition C_PHONE_LEN : Z := 16.
Definition C_SINCE_LEN : Z := TIMESTAMP_LEN.
Definition C_STATE_LEN : Z := 4.
Definition C_ZIP_LEN : Z := 9.
Definition D_CITY_LEN : Z := 80.
Definition D_NAME_LEN : Z := 40.
Definition D_STATE_LEN : Z := 8.
Definition D_STREET_1_LEN : Z := 80.
Definition D_STREET_2_LEN : Z := 80.
Definition D_ZIP_LEN : Z := 9.
Definition H_DATE_LEN : Z := TIMESTAMP_LEN.
Definition I_NAME_LEN : Z := 96.
Definition W_CITY_LEN : Z := 80.
Definition W_NAME_LEN : Z := 40.
Definition W_STATE_LEN : Z := 8.
Definition W_STREET_1_LEN : Z := 80.
Definition W_STREET_2_LEN : Z := 80.
Definition W_ZIP_LEN : Z := 9.
End Len.

(** [strncpy(dest, src, n)] into zeroed memory of more than [n] bytes. *)
Definition strncpy (src : bytes) (n : Z) : bytes := take (Z.to_nat n) src.

(** ** What is relied on of PostgreSQL

    The types the program never looks into, the operators the statements apply
    to them ([None] is an error of the server: overflow, a value too long), the
    order in which rows come back when the statement does not say. *)
Class Pg := {
  numeric : Type;
  timestamp : Type;
  float4out : double -> bytes;
  numeric_out : numeric -> bytes;
  timestamp_out : timestamp -> bytes;
  (** [numeric_in] with the type modifier of [NUMERIC(24, 12)] *)
  numeric_in : bytes -> option numeric;
  real_add_int4 : double -> Z -> option double;
  real_sub_int4 : double -> Z -> option double;
  real_add_real : double -> double -> option double;
  real_lt_int4 : double -> Z -> bool;
  numeric_add_int4 : numeric -> Z -> option numeric;
  numeric_add_real : numeric -> double -> option numeric;
  numeric_sub_real : numeric -> double -> option numeric;
  numeric_add : numeric -> numeric -> option numeric;
  (** [substring(s, 1, n)] *)
  text_prefix : Z -> bytes -> bytes;
  (** conversion to [VARCHAR(n)] *)
  varchar : Z -> bytes -> option bytes;
  (** the collation of [ORDER BY] on text *)
  text_le : bytes -> bytes -> bool;
  arrange : forall A : Type, list A -> list A }.

Arguments arrange {_ A}.

(** Rows come back in some order, and a collation is a total preorder. *)
Class PgLaws (pg : Pg) := {
  arrange_perm : forall A (l : list A), arrange l ≡ₚ l;
  text_le_total : forall s t, text_le s t = true \/ text_le t s = true;
  text_le_trans : forall s t u, text_le s t = true -> text_le t u = true -> text_le s u = true }.

(** [(float) z]: also the server's conversion of an [INTEGER] to [REAL]. *)
Definition float_of_int (z : Z) : double := to_float (d_of_Z z).

Section Tables.
Context {pg : Pg}.

(** ** The tables *)

Record warehouse_row := mk_warehouse {
  W_ID : Z; W_NAME : bytes; W_STREET_1 : bytes; W_STREET_2 : bytes; W_CITY : bytes;
  W_STATE : bytes; W_ZIP : bytes; W_TAX : double; W_YTD : numeric }.

Record district_row := mk_district {
  D_ID : Z; D_W_ID : Z; D_NAME : bytes; D_STREET_1 : bytes; D_STREET_2 : bytes;
  D_CITY : bytes; D_STATE : bytes; D_ZIP : bytes; D_TAX : double; D_YTD : numeric;
  D_NEXT_O_ID : Z }.

Record customer_row := mk_customer {
  C_ID : Z; C_D_ID : Z; C_W_ID : Z; C_FIRST : bytes; C_MIDDLE : bytes; C_LAST : bytes;
  C_STREET_1 : bytes; C_STREET_2 : bytes; C_CITY : bytes; C_STATE : bytes; C_ZIP : bytes;
  C_PHONE : bytes; C_SINCE : timestamp; C_CREDIT : bytes; C_CREDIT_LIM : numeric;
  C_DISCOUNT : double; C_BALANCE : numeric; C_YTD_PAYMENT : numeric;
  C_PAYMENT_CNT : double; C_DELIVERY_CNT : double; C_DATA : bytes }.

Record history_row := mk_history {
  H_C_ID : Z; H_C_D_ID : Z; H_C_W_ID : Z; H_D_ID : Z; H_W_ID : Z; H_DATE : timestamp;
  H_AMOUNT : double; H_DATA : bytes }.

Record new_order_row := mk_new_order_row { NO_O_ID : Z; NO_D_ID : Z; NO_W_ID : Z }.

Record orders_row := mk_orders {
  O_ID : Z; O_D_ID : Z; O_W_ID : Z; O_C_ID : Z; O_ENTRY_D : timestamp;
  O_CARRIER_ID : option Z; O_OL_CNT : Z; O_ALL_LOCAL : double }.

Record order_line_row := mk_order_line {
  OL_O_ID : Z; OL_D_ID : Z; OL_W_ID : Z; OL_NUMBER : Z; OL_I_ID : Z; OL_SUPPLY_W_ID : Z;
  OL_DELIVERY_D : option timestamp; OL_QUANTITY : double; OL_AMOUNT : double;
  OL_DIST_INFO : bytes }.

Record item_row := mk_item {
  I_ID : Z; I_IM_ID : Z; I_NAME : bytes; I_PRICE : double; I_DATA : bytes }.

(** [S_DIST] holds the ten columns [s_dist_01], ..., [s_dist_10]. *)
Record stock_row := mk_stock {
  S_I_ID : Z; S_W_ID : Z; S_QUANTITY : double; S_DIST : list bytes; S_YTD : numeric;
  S_ORDER_CNT : double; S_REMOTE_CNT : double; S_DATA : bytes }.

Record db := mk_db {
  t_warehouse : list warehouse_row; t_district : list district_row;
  t_customer : list customer_row; t_history : list history_row;
  t_new_order : list new_order_row; t_orders : list orders_row;
  t_order_line : list order_line_row; t_item : list item_row; t_stock : list stock_row }.

Definition set_warehouse t D := mk_db t (t_district D) (t_customer D) (t_history D)
  (t_new_order D) (t_orders D) (t_order_line D) (t_item D) (t_stock D).
Definition set_district t D := mk_db (t_warehouse D) t (t_customer D) (t_history D)
  (t_new_order D) (t_orders D) (t_order_line D) (t_item D) (t_stock D).
Definition set_customer t D := mk_db (t_warehouse D) (t_district D) t (t_history D)
  (t_new_order D) (t_orders D) (t_order_line D) (t_item D) (t_stock D).
Definition set_history t D := mk_db (t_warehouse D) (t_district D) (t_customer D) t
  (t_new_order D) (t_orders D) (t_order_line D) (t_item D) (t_stock D).
Definition set_new_order t D := mk_db (t_warehouse D) (t_district D) (t_customer D)
  (t_history D) t (t_orders D) (t_order_line D) (t_item D) (t_stock D).
Definition set_orders t D := mk_db (t_warehouse D) (t_district D) (t_customer D)
  (t_history D) (t_new_order D) t (t_order_line D) (t_item D) (t_stock D).
Definition set_order_line t D := mk_db (t_warehouse D) (t_district D) (t_customer D)
  (t_history D) (t_new_order D) (t_orders D) t (t_item D) (t_stock D).
Definition set_stock t D := mk_db (t_warehouse D) (t_district D) (t_customer D)
  (t_history D) (t_new_order D) (t_orders D) (t_order_line D) (t_item D) t.

(** The primary keys of [src/scripts/pgsql/dbt2-pgsql-create-indexes]. *)
Definition same_new_order (a b : new_order_row) : bool :=
  (NO_W_ID a =? NO_W_ID b) && (NO_D_ID a =? NO_D_ID b) && (NO_O_ID a =? NO_O_ID b).
Definition same_order (a b : orders_row) : bool :=
  (O_W_ID a =? O_W_ID b) && (O_D_ID a =? O_D_ID b) && (O_ID a =? O_ID b).
Definition same_order_line (a b : order_line_row) : bool :=
  (OL_W_ID a =? OL_W_ID b) && (OL_D_ID a =? OL_D_ID b) && (OL_O_ID a =? OL_O_ID b)
  && (OL_NUMBER a =? OL_NUMBER b).

(** ** Sessions

    A procedure runs under the snapshot of the statement that called it.  A
    query that SPI executes with [read_only] sees this snapshot; every other
    statement sees what the procedure has changed so far.  [ereport(ERROR)] ends
    the procedure, and the server undoes its changes; [Crashed] is the use of a
    null pointer. *)

Inductive sp_error :=
| ParameterValue                   (* ERRCODE_INVALID_PARAMETER_VALUE *)
| Internal (statement : String.string) (* ERRCODE_INTERNAL_ERROR, "... failed" *)
| NoAmount                         (* "DELIVERY_6 returned no amount" *)
| DBT2R                            (* the SQLSTATE of the intended rollback *)
| Server.                          (* raised by the server itself *)

Record session := mk_session { snapshot : db; current : db; now : timestamp }.

Inductive result (A : Type) :=
| Returned (a : A) (s : session)
| Raised (e : sp_error)
| Crashed.
#[global] Arguments Returned {A}.
#[global] Arguments Raised {A}.
#[global] Arguments Crashed {A}.

Definition sp (A : Type) : Type := session -> result A.

#[global] Instance sp_ret : MRet sp := fun A a s => Returned a s.
#[global] Instance sp_bind : MBind sp := fun A B f m s =>
  match m s with
  | Returned a s => f a s
  | Raised e => Raised e
  | Crashed => Crashed
  end.

Definition raise {A} (e : sp_error) : sp A := fun _ => Raised e.

(** A pointer the code dereferences. *)
Definition deref {A} (p : option A) : sp A :=
  match p with Some a => mret a | None => fun _ => Crashed end.

(** The value of an operator of the server, or its error. *)
Definition server {A} (v : option A) : sp A :=
  match v with Some a => mret a | None => raise Server end.

Definition current_timestamp : sp timestamp := fun s => Returned (now s) s.

(** [vals[0]] when [SPI_processed > 0], and the error of the statement
    otherwise. *)
Definition first_row {A} (statement : String.string) (l : list A) : sp A :=
  match l with a :: _ => mret a | [] => raise (Internal statement) end.

(** ** Statements *)

(** [SELECT ... FROM table WHERE where_] *)
Definition spi_select {R} (read_only : bool) (table : db -> list R) (where_ : R -> bool)
  : sp (list R) :=
  fun s => Returned (arrange (List.filter where_ (table (if read_only then snapshot s else current s)))) s.

(** [ORDER BY] *)
Fixpoint insert_by {R} (le : R -> R -> bool) (x : R) (l : list R) : list R :=
  match l with
  | [] => [x]
  | y :: l' => if le x y then x :: l else y :: insert_by le x l'
  end.

Definition order_by {R} (le : R -> R -> bool) (l : list R) : list R :=
  foldr (insert_by le) [] l.

(** [UPDATE table SET ... WHERE where_ RETURNING ...]: every row is changed or
    none. *)
Fixpoint update_rows {R} (where_ : R -> bool) (set : R -> option R) (l : list R)
  : option (list R * list R) :=
  match l with
  | [] => Some ([], [])
  | r :: l' =>
      '(l', changed) ← update_rows where_ set l';
      if where_ r then r' ← set r; Some (r' :: l', r' :: changed)
      else Some (r :: l', changed)
  end.

Definition spi_update {R} (table : db -> list R) (put : list R -> db -> db)
    (where_ : R -> bool) (set : R -> option R) : sp (list R) :=
  fun s =>
    match update_rows where_ set (table (current s)) with
    | Some (l, changed) =>
        Returned (arrange changed) (mk_session (snapshot s) (put l (current s)) (now s))
    | None => Raised Server
    end.

(** [INSERT INTO table VALUES ...]: a second row with the same key is an
    error. *)
Definition spi_insert {R} (table : db -> list R) (put : list R -> db -> db)
    (same : R -> R -> bool) (row : R) : sp unit :=
  fun s =>
    if existsb (same row) (table (current s)) then Raised Server
    else Returned tt (mk_session (snapshot s) (put (table (current s) ++ [row]) (current s)) (now s)).

(** [DELETE FROM table WHERE where_]; the answer is [SPI_processed]. *)
Definition spi_delete {R} (table : db -> list R) (put : list R -> db -> db)
    (where_ : R -> bool) : sp Z :=
  fun s =>
    Returned (zlen (List.filter where_ (table (current s))))
      (mk_session (snapshot s)
         (put (List.filter (fun r => negb (where_ r)) (table (current s))) (current s)) (now s)).

(** [integer + integer] *)
Definition int4_add (a b : Z) : option Z :=
  let c := a + b in if (- 2 ^ 31 <=? c) && (c <? 2 ^ 31) then Some c else None.

(** A call of a procedure by [SELECT * FROM procedure(...)]. *)
Definition call {A} (m : sp A) (t : timestamp) (D : db) : (A + option sp_error) * db :=
  match m (mk_session D D t) with
  | Returned a s => (inl a, current s)
  | Raised e => (inr (Some e), D)
  | Crashed => (inr None, D)
  end.

(** ** Reasoning about procedures

    [wp E m Q s]: from session [s], [m] returns and satisfies [Q], or ends with
    a failure that [E] allows ([None]: a crash). *)

Definition wp {A} (E : option sp_error -> Prop) (m : sp A) (Q : A -> session -> Prop)
    (s : session) : Prop :=
  match m s with
  | Returned a s' => Q a s'
  | Raised e => E (Some e)
  | Crashed => E None
  end.

Section wp.
Context (E : option sp_error -> Prop).

Lemma wp_ret {A} (a : A) (Q : A -> session -> Prop) s : Q a s -> wp E (mret a : sp A) Q s.
Proof. done. Qed.

Lemma wp_bind {A B} (m : sp A) (f : A -> sp B) Q s :
  wp E m (fun (a : A) s' => wp E (f a) Q s') s -> wp E (m ≫= f) Q s.
Proof. unfold wp, mbind, sp_bind. by destruct (m s). Qed.

Lemma wp_mono {A} (m : sp A) (Q R : A -> session -> Prop) s :
  wp E m Q s -> (forall a s', Q a s' -> R a s') -> wp E m R s.
Proof. unfold wp. destruct (m s); auto. Qed.

Lemma wp_raise {A} e (Q : A -> session -> Prop) s : E (Some e) -> wp E (raise e) Q s.
Proof. done. Qed.

Lemma wp_deref {A} (p : option A) (Q : A -> session -> Prop) s :
  (forall a, p = Some a -> Q a s) -> (p = None -> E None) -> wp E (deref p) Q s.
Proof. destruct p; cbn; auto. Qed.

Lemma wp_server {A} (v : option A) (Q : A -> session -> Prop) s :
  (forall a, v = Some a -> Q a s) -> (v = None -> E (Some Server)) -> wp E (server v) Q s.
Proof. destruct v; cbn; auto. Qed.

Lemma wp_timestamp (Q : timestamp -> session -> Prop) s :
  Q (now s) s -> wp E current_timestamp Q s.
Proof. done. Qed.

Lemma wp_first_row {A} st (l : list A) (Q : A -> session -> Prop) s :
  (forall a, head l = Some a -> Q a s) -> (l = [] -> E (Some (Internal st))) ->
  wp E (first_row st l) Q s.
Proof. destruct l; cbn; auto. Qed.

Lemma wp_select {R} (ro : bool) (table : db -> list R) (where_ : R -> bool) Q s :
  Q (arrange (List.filter where_ (table (if ro then snapshot s else current s)))) s ->
  wp E (spi_select ro table where_) Q s.
Proof. done. Qed.

(** An update whose [SET] can only produce [f] of the row. *)
Lemma update_rows_map {R} (where_ : R -> bool) (set : R -> option R) (f : R -> R) l l' ch :
  (forall r r', r ∈ l -> where_ r = true -> set r = Some r' -> r' = f r) ->
  update_rows where_ set l = Some (l', ch) ->
  l' = map (fun r => if where_ r then f r else r) l /\ ch = map f (List.filter where_ l).
Proof.
  revert l' ch. induction l as [|r l IH]; intros l' ch Hf; cbn; [by intros [= <- <-]|].
  destruct (update_rows where_ set l) as [[l1 ch1]|] eqn:Hu; cbn; [|done].
  destruct (IH l1 ch1) as [-> ->]; [intros r0 r' Hin; apply Hf; by right|done|].
  destruct (where_ r) eqn:Hw; cbn.
  - destruct (set r) as [r'|] eqn:Hs; cbn; [|done]. intros [= <- <-].
    by rewrite (Hf r r') by (done || left).
  - by intros [= <- <-].
Qed.

(** The update fails only when a row it changes raises an error. *)
Lemma update_rows_none {R} (where_ : R -> bool) (set : R -> option R) l :
  update_rows where_ set l = None -> exists r, r ∈ l /\ where_ r = true /\ set r = None.
Proof.
  induction l as [|r l IH]; cbn; [done|].
  destruct (update_rows where_ set l) as [[l1 ch1]|] eqn:Hu; cbn.
  - destruct (where_ r) eqn:Hw; [|done]. destruct (set r) eqn:Hs; [done|]. intros _.
    exists r. split; [left|done].
  - intros _. destruct (IH eq_refl) as (r0 & Hr0 & ?). exists r0. split; [by right|done].
Qed.

Lemma update_rows_all {R} (where_ : R -> bool) (set : R -> option R) l l' ch :
  update_rows where_ set l = Some (l', ch) ->
  forall r, r ∈ l -> where_ r = true -> is_Some (set r).
Proof.
  revert l' ch. induction l as [|r l IH]; intros l' ch; cbn;
    [by intros _ r ?%not_elem_of_nil|].
  destruct (update_rows where_ set l) as [[l1 ch1]|] eqn:Hu; cbn; [|done].
  intros Hs r0 [->|Hr0]%elem_of_cons Hw; [|eauto].
  rewrite Hw in Hs. cbn in Hs. by destruct (set r).
Qed.

Lemma wp_update {R} (table : db -> list R) put (where_ : R -> bool) (set : R -> option R) (f : R -> R) Q s :
  (forall r r', r ∈ table (current s) -> where_ r = true -> set r = Some r' -> r' = f r) ->
  ((forall r, r ∈ table (current s) -> where_ r = true -> is_Some (set r)) ->
   Q (arrange (map f (List.filter where_ (table (current s)))))
    (mk_session (snapshot s)
       (put (map (fun r => if where_ r then f r else r) (table (current s))) (current s)) (now s))) ->
  (forall r, r ∈ table (current s) -> where_ r = true -> set r = None -> E (Some Server)) ->
  wp E (spi_update table put where_ set) Q s.
Proof.
  intros Hf HQ HE. unfold wp, spi_update.
  destruct (update_rows where_ set (table (current s))) as [[l ch]|] eqn:Hu.
  - pose proof (update_rows_all _ _ _ _ _ Hu) as Hall.
    destruct (update_rows_map _ _ _ _ _ _ Hf Hu) as [-> ->]. auto.
  - destruct (update_rows_none _ _ _ Hu) as (r & Hr & Hw & Hn). eauto.
Qed.

Lemma wp_insert {R} (table : db -> list R) put same (row : R) Q s :
  (existsb (same row) (table (current s)) = false ->
   Q tt (mk_session (snapshot s) (put (table (current s) ++ [row]) (current s)) (now s))) ->
  (existsb (same row) (table (current s)) = true -> E (Some Server)) ->
  wp E (spi_insert table put same row) Q s.
Proof. unfold wp, spi_insert. destruct (existsb _ _); auto. Qed.

Lemma wp_delete {R} (table : db -> list R) put (where_ : R -> bool) Q s :
  Q (zlen (List.filter where_ (table (current s))))
    (mk_session (snapshot s)
       (put (List.filter (fun r => negb (where_ r)) (table (current s))) (current s)) (now s)) ->
  wp E (spi_delete table put where_) Q s.
Proof. done. Qed.
End wp.

(** A call that returns commits what the procedure left; one that fails leaves
    the database alone. *)
Lemma call_wp {A} E (m : sp A) Q t D :
  wp E m Q (mk_session D D t) ->
  match call m t D with
  | (inl a, D') => exists s, Q a s /\ current s = D'
  | (inr e, D') => E e /\ D' = D
  end.
Proof. unfold wp, call. destruct (m _); eauto. Qed.

(** The rows that satisfy [where_] changed by [set], which raises no error. *)
Definition updated {R} (where_ : R -> bool) (set : R -> option R) (l l' : list R) : Prop :=
  (forall r, r ∈ l -> where_ r = true -> is_Some (set r))
  /\ l' = map (fun r => if where_ r then default r (set r) else r) l.

(** ** Membership of what a query answers *)

Lemma elem_of_list_filter_bool {R} (f : R -> bool) (l : list R) x :
  x ∈ List.filter f l <-> f x = true /\ x ∈ l.
Proof. rewrite !list_elem_of_In, filter_In. tauto. Qed.

Lemma existsb_elem {R} (f : R -> bool) (l : list R) :
  existsb f l = true <-> exists x, x ∈ l /\ f x = true.
Proof. rewrite existsb_exists. by setoid_rewrite list_elem_of_In. Qed.

Lemma head_elem {R} (l : list R) x : head l = Some x -> x ∈ l.
Proof. destruct l; [done|]. intros [= ->]. left. Qed.

Context {laws : PgLaws pg}.

Lemma elem_of_arrange {R} (l : list R) x : x ∈ arrange l <-> x ∈ l.
Proof. by rewrite (arrange_perm _ l). Qed.

Lemma arrange_head {R} (where_ : R -> bool) (l : list R) x :
  head (arrange (List.filter where_ l)) = Some x -> x ∈ l /\ where_ x = true.
Proof.
  intros Hx%head_elem. rewrite elem_of_arrange, elem_of_list_filter_bool in Hx. tauto.
Qed.

Lemma arrange_nil {R} (where_ : R -> bool) (l : list R) x :
  arrange (List.filter where_ l) = [] -> x ∈ l -> where_ x = false.
Proof.
  intros Hnil Hx. destruct (where_ x) eqn:Hw; [|done].
  assert (x ∈ arrange (List.filter where_ l)) as Hin.
  { by rewrite elem_of_arrange, elem_of_list_filter_bool. }
  rewrite Hnil in Hin. by apply not_elem_of_nil in Hin.
Qed.

(** The same for the rows an update returns. *)
Lemma arrange_map_head {R} (f : R -> R) (where_ : R -> bool) (l : list R) x :
  head (arrange (map f (List.filter where_ l))) = Some x ->
  exists y, y ∈ l /\ where_ y = true /\ x = f y.
Proof.
  intros Hx%head_elem. rewrite elem_of_arrange in Hx. apply list_elem_of_fmap in Hx as (y & -> & Hy).
  apply elem_of_list_filter_bool in Hy as [??]. eauto.
Qed.

Lemma arrange_map_nil {R} (f : R -> R) (where_ : R -> bool) (l : list R) x :
  arrange (map f (List.filter where_ l)) = [] -> x ∈ l -> where_ x = false.
Proof.
  intros Hnil Hx. destruct (where_ x) eqn:Hw; [|done].
  assert (f x ∈ arrange (map f (List.filter where_ l))) as Hin.
  { rewrite elem_of_arrange. apply (list_elem_of_fmap_2 f). by rewrite elem_of_list_filter_bool. }
  rewrite Hnil in Hin. by apply not_elem_of_nil in Hin.
Qed.

(** The row an update with [set] returns first. *)
Lemma updated_row {R} where_ (set : R -> option R) (l : list R) x :
  (forall r, r ∈ l -> where_ r = true -> is_Some (set r)) ->
  head (arrange (map (fun r => default r (set r)) (List.filter where_ l))) = Some x ->
  exists y, y ∈ l /\ where_ y = true /\ set y = Some x.
Proof.
  intros Hall Hx. apply arrange_map_head in Hx as (y & Hy & Hw & ->).
  destruct (Hall y Hy Hw) as [z Hz]. exists y. by rewrite Hz.
Qed.

Lemma zlen_nil {R} (l : list R) : zlen l = 0 <-> l = [].
Proof. unfold zlen. destruct l; cbn; split; try done; lia. Qed.

(** ** Sorting *)

Lemma insert_by_perm {R} (le : R -> R -> bool) x l : insert_by le x l ≡ₚ x :: l.
Proof.
  induction l as [|y l IH]; cbn; [done|]. destruct (le x y); [done|].
  rewrite IH. apply Permutation_swap.
Qed.

Lemma order_by_perm {R} (le : R -> R -> bool) l : order_by le l ≡ₚ l.
Proof. induction l as [|x l IH]; cbn; [done|]. by rewrite insert_by_perm, IH. Qed.

Lemma order_by_nil {R} (le : R -> R -> bool) l : order_by le l = [] -> l = [].
Proof. intros Hl. apply Permutation_nil. by rewrite <- Hl, order_by_perm. Qed.

Lemma insert_by_sorted {R} (le : R -> R -> bool) x l :
  (forall a b, le a b = true \/ le b a = true) ->
  Sorted (fun a b => le a b = true) l -> Sorted (fun a b => le a b = true) (insert_by le x l).
Proof.
  intros Htot. induction 1 as [|y l Hs IH Hh]; cbn; [repeat constructor|].
  destruct (le x y) eqn:Hxy; [repeat constructor; done|].
  constructor; [done|]. destruct (Htot x y) as [?|Hyx]; [congruence|].
  destruct l as [|z l]; cbn; [by constructor|]. inversion_clear Hh.
  destruct (le x z); by constructor.
Qed.

Lemma order_by_sorted {R} (le : R -> R -> bool) l :
  (forall a b, le a b = true \/ le b a = true) ->
  Sorted (fun a b => le a b = true) (order_by le l).
Proof. intros Htot. induction l; cbn; [constructor|]. by apply insert_by_sorted. Qed.

(** The first row of [ORDER BY] precedes every other one. *)
Lemma order_by_head {R} (le : R -> R -> bool) l x :
  (forall a b, le a b = true \/ le b a = true) ->
  (forall a b c, le a b = true -> le b c = true -> le a c = true) ->
  head (order_by le l) = Some x -> x ∈ l /\ (forall y, y ∈ l -> le x y = true).
Proof.
  intros Htot Htr. revert x. induction l as [|a l IH]; intros x; [done|].
  cbn [order_by foldr]. fold (order_by le l). destruct (order_by le l) as [|b l'] eqn:Ho.
  - cbn. intros [= ->].
    assert (l = []) as ->. { apply Permutation_nil. by rewrite <- (order_by_perm le l), Ho. }
    split; [left|]. intros y ->%list_elem_of_singleton. by destruct (Htot x x).
  - destruct (IH b eq_refl) as [Hin Hmin]. cbn [insert_by].
    destruct (le a b) eqn:Hab; cbn; intros [= <-].
    + split; [left|]. intros y [->|Hy]%elem_of_cons; [by destruct (Htot a a)|eauto].
    + split; [by right|]. intros y [->|Hy]%elem_of_cons; [|auto].
      destruct (Htot a b); [congruence|done].
Qed.
(** ** Counting rows *)

Lemma zlen_cons {R} (x : R) l : zlen (x :: l) = 1 + zlen l.
Proof. unfold zlen. cbn. lia. Qed.

Lemma zlen_app {R} (l1 l2 : list R) : zlen (l1 ++ l2) = zlen l1 + zlen l2.
Proof. unfold zlen. rewrite length_app. lia. Qed.

Lemma zlen_pos {R} (l : list R) : (0 <? zlen l) = false -> l = [].
Proof. unfold zlen. rewrite Z.ltb_ge. destruct l; cbn; [done|lia]. Qed.

Lemma filter_arrange_perm {R} (f : R -> bool) (l l' : list R) :
  l ≡ₚ l' -> List.filter f l ≡ₚ List.filter f l'.
Proof.
  induction 1 as [|x l l' _ IH|x y l|l l' l'' _ IH1 _ IH2]; cbn.
  - done.
  - destruct (f x); [by f_equiv|done].
  - destruct (f x), (f y); (done || apply Permutation_swap).
  - by etransitivity.
Qed.

Lemma filter_filter {R} (f g : R -> bool) (l : list R) :
  List.filter f (List.filter g l) = List.filter (fun x => g x && f x) l.
Proof.
  induction l as [|x l IH]; cbn; [done|]. destruct (g x); cbn; [destruct (f x)|]; by rewrite ?IH.
Qed.

Lemma filter_ext_bool {R} (f g : R -> bool) (l : list R) :
  (forall x, f x = g x) -> List.filter f l = List.filter g l.
Proof. intros Hfg. induction l as [|x l IH]; cbn; [done|]. by rewrite Hfg, IH. Qed.

Lemma zlen_perm {R} (l l' : list R) : l ≡ₚ l' -> zlen l = zlen l'.
Proof. unfold zlen. by intros ->. Qed.

(** A join of a list of distinct keys with rows counts each row at most once. *)
Lemma zlen_join {R} (key : R -> Z) (items : list Z) (rows : list R) : NoDup items ->
  zlen (items ≫= fun i => List.filter (fun s => key s =? i) rows)
  = zlen (List.filter (fun s => existsb (Z.eqb (key s)) items) rows).
Proof.
  induction 1 as [|i items Hi Hnd IH]; cbn.
  { induction rows as [|s rows IH]; [done|]. cbn. done. }
  rewrite zlen_app. setoid_rewrite IH. clear IH.
  induction rows as [|s rows IHs]; cbn [List.filter]; [done|].
  destruct (Z.eqb_spec (key s) i) as [Heq|Hne]; cbn [orb].
  - assert (existsb (Z.eqb (key s)) items = false) as ->.
    { apply not_true_is_false. intros (x & Hx & <-%Z.eqb_eq)%existsb_elem. congruence. }
    rewrite !zlen_cons. lia.
  - destruct (existsb _ items); rewrite ?zlen_cons; lia.
Qed.

(** ** Filters and maps of rows *)


Lemma filter_map_key {R} (p : R -> bool) (f : R -> R) l :
  (forall x, p (f x) = p x) -> List.filter p (map f l) = map f (List.filter p l).
Proof.
  intros Hp. induction l as [|x l IH]; cbn; [done|]. rewrite Hp, IH. by destruct (p x).
Qed.

Lemma map_map_key {R K} (k : R -> K) (f : R -> R) l :
  (forall x, k (f x) = k x) -> map k (map f l) = map k l.
Proof. intros Hk. rewrite map_map. by apply map_ext. Qed.

Lemma filter_none {R} (p : R -> bool) l :
  (forall x, x ∈ l -> p x = false) -> List.filter p l = [].
Proof.
  induction l as [|x l IH]; intros Hp; cbn; [done|]. rewrite (Hp x) by left. apply IH.
  intros y Hy. apply Hp. by right.
Qed.

Lemma filter_all {R} (p : R -> bool) l :
  (forall x, x ∈ l -> p x = true) -> List.filter p l = l.
Proof.
  induction l as [|x l IH]; intros Hp; cbn; [done|]. rewrite (Hp x), IH; [done| |left].
  intros y Hy. apply Hp. by right.
Qed.

Lemma filter_ext_elem {R} (p q : R -> bool) l :
  (forall x, x ∈ l -> p x = q x) -> List.filter p l = List.filter q l.
Proof.
  induction l as [|x l IH]; intros Hp; cbn; [done|]. rewrite (Hp x), IH; [done| |left].
  intros y Hy. apply Hp. by right.
Qed.

Lemma filter_map_comm {R K} (k : R -> K) (p : K -> bool) l :
  map k (List.filter (fun x => p (k x)) l) = List.filter p (map k l).
Proof. induction l as [|x l IH]; cbn; [done|]. destruct (p (k x)); cbn; by rewrite IH. Qed.

End Tables.

Ltac wp_step :=
  lazymatch goal with
  | |- wp _ (_ ≫= _) _ _ => apply wp_bind
  | |- wp _ (mret _) _ _ => apply wp_ret
  | |- wp _ (raise _) _ _ => apply wp_raise
  | |- wp _ current_timestamp _ _ => apply wp_timestamp
  | |- wp _ (spi_select _ _ _) _ _ => apply wp_select
  | |- wp _ (spi_delete _ _ _) _ _ => apply wp_delete
  end.
