(* ===== verification/SpNewOrder.v ===== *)
(** * The New-Order procedure ([storedproc/pgsql/c/new_order.c])

    The nine statements, then the first call of the set-returning function (all
    the work), then the rows of the calls that follow.  What [elog] prints is
    not modelled; [order_amount], which is summed and never read, is left out. *)

From Stdlib Require Import ZArith Lia SpecFloat String.
From stdpp Require Import base list.
From S2P Require Import Prelude Double Text Tables.

(** [typedef struct no_order_line] *)
Record no_order_line := mk_pp {
  pp_ol_supply_w_id : Z; pp_ol_i_id : Z; pp_i_name : bytes; pp_ol_quantity : Z;
  pp_s_quantity : Z; pp_i_price : double; pp_ol_amount : double; pp_brand_generic : Z }.

(** [typedef struct no_result]; [ol] holds the lines that were filled. *)
Record no_result := mk_no_result {
  res_w_tax : double; res_d_tax : double; res_o_id : Z; res_c_last : bytes;
  res_c_credit : bytes; res_c_discount : double; res_ol : list no_order_line }.

(** The arguments of the function; a composite argument that is NULL is
    [None]. *)
Record no_args := mk_no_args {
  na_w_id : Z; na_d_id : Z; na_c_id : Z; na_o_all_local : Z; na_o_ol_cnt : Z;
  na_lines : list (option (Z * Z * Z)) }.

Section new_order.
Context {pg : Pg}.

(** ** Statements *)

Definition NEW_ORDER_1 (ro : bool) (w_id : Z) : sp (list warehouse_row) :=
  spi_select ro t_warehouse (fun r => W_ID r =? w_id).

Definition set_next_o_id (v : Z) (r : district_row) : district_row :=
  mk_district (D_ID r) (D_W_ID r) (D_NAME r) (D_STREET_1 r) (D_STREET_2 r) (D_CITY r)
    (D_STATE r) (D_ZIP r) (D_TAX r) (D_YTD r) v.

Definition NEW_ORDER_2 (w_id d_id : Z) : sp (list district_row) :=
  spi_update t_district set_district (fun r => (D_W_ID r =? w_id) && (D_ID r =? d_id))
    (fun r => v ← int4_add (D_NEXT_O_ID r) 1; Some (set_next_o_id v r)).

Definition NEW_ORDER_4 (ro : bool) (w_id d_id c_id : Z) : sp (list customer_row) :=
  spi_select ro t_customer
    (fun r => (C_W_ID r =? w_id) && (C_D_ID r =? d_id) && (C_ID r =? c_id)).

Definition NEW_ORDER_5 (o_id w_id d_id : Z) : sp unit :=
  spi_insert t_new_order set_new_order same_new_order (mk_new_order_row o_id d_id w_id).

Definition NEW_ORDER_6 (o_id d_id w_id c_id o_ol_cnt o_all_local : Z) : sp unit :=
  t ← current_timestamp;
  spi_insert t_orders set_orders same_order
    (mk_orders o_id d_id w_id c_id t None o_ol_cnt (float_of_int o_all_local)).

Definition NEW_ORDER_7 (ro : bool) (i_id : Z) : sp (list item_row) :=
  spi_select ro t_item (fun r => I_ID r =? i_id).

Definition is_stock (i_id w_id : Z) (r : stock_row) : bool :=
  (S_I_ID r =? i_id) && (S_W_ID r =? w_id).

Definition NEW_ORDER_8 (ro : bool) (i_id w_id : Z) : sp (list stock_row) :=
  spi_select ro t_stock (is_stock i_id w_id).

Definition update_stock (decr quantity remote : Z) (r : stock_row) : option stock_row :=
  q ← real_sub_int4 (S_QUANTITY r) decr;
  ytd ← numeric_add_int4 (S_YTD r) quantity;
  orders ← real_add_int4 (S_ORDER_CNT r) 1;
  remotes ← real_add_int4 (S_REMOTE_CNT r) remote;
  Some (mk_stock (S_I_ID r) (S_W_ID r) q (S_DIST r) ytd orders remotes (S_DATA r)).

Definition NEW_ORDER_9 (decr quantity remote i_id w_id : Z) : sp (list stock_row) :=
  spi_update t_stock set_stock (is_stock i_id w_id) (update_stock decr quantity remote).

Definition NEW_ORDER_10 (o_id d_id w_id number i_id supply_w_id quantity : Z)
    (amount : double) (dist_info : bytes) : sp unit :=
  info ← server (varchar 24 dist_info);
  spi_insert t_order_line set_order_line same_order_line
    (mk_order_line o_id d_id w_id number i_id supply_w_id None (float_of_int quantity)
       amount info).

(** ** The first call *)

(** [SPI_getvalue(tuple, tupdesc, n)] of the row [NEW_ORDER_8] selects: NULL when
    there is no such column. *)
Definition stock_column (r : stock_row) (n : Z) : option bytes :=
  let columns := [float4out (S_QUANTITY r)] ++ S_DIST r ++ [S_DATA r] in
  if n <? 1 then None else columns !! Z.to_nat (n - 1).

Definition decr_quantity (s_quantity ol_quantity : Z) : Z :=
  if i32 (ol_quantity + 10) <=? s_quantity then ol_quantity else i32 (ol_quantity - 91).

Definition brand_generic (i_data s_data : bytes) : Z :=
  if strstr i_data (lit "ORIGINAL") && strstr s_data (lit "ORIGINAL") then 66 else 71.

(** One round of the loop over the order lines. *)
Definition new_order_line (w_id d_id d_next_o_id : Z) (i : Z) (line : Z * Z * Z)
  : sp no_order_line :=
  let '(ol_i_id, ol_supply_w_id, ol_quantity) := line in
  items ← NEW_ORDER_7 true ol_i_id;
  match items with
  | item :: _ =>
      if ol_i_id =? 0 then raise DBT2R else
      let i_price := float4out (I_PRICE item) in
      let ol_amount := to_float (dmul (atof i_price) (float_of_int ol_quantity)) in
      stocks ← NEW_ORDER_8 true ol_i_id ol_supply_w_id;
      stock ← first_row "NEW_ORDER_8" stocks;
      let s_quantity := float4out (S_QUANTITY stock) in
      let decr := decr_quantity (atoi s_quantity) ol_quantity in
      _ ← NEW_ORDER_9 decr ol_quantity (if ol_supply_w_id =? w_id then 0 else 1)
            ol_i_id ol_supply_w_id;
      my_s_dist ← deref (stock_column stock (1 + d_id));
      NEW_ORDER_10 d_next_o_id d_id w_id (i + 1) ol_i_id ol_supply_w_id ol_quantity
        ol_amount my_s_dist;;
      mret (mk_pp ol_supply_w_id ol_i_id (strncpy (I_NAME item) (4 * Len.I_NAME_LEN))
              ol_quantity (atoi s_quantity) (to_float (atof i_price)) ol_amount
              (brand_generic (I_DATA item) (S_DATA stock)))
  | [] => raise DBT2R
  end.

Fixpoint new_order_lines (w_id d_id d_next_o_id i : Z) (lines : list (Z * Z * Z))
  : sp (list no_order_line) :=
  match lines with
  | [] => mret []
  | line :: lines' =>
      pp ← new_order_line w_id d_id d_next_o_id i line;
      pps ← new_order_lines w_id d_id d_next_o_id (i + 1) lines';
      mret (pp :: pps)
  end.

(** [ol_i_id[]], [ol_supply_w_id[]] and [ol_quantity[]]: the fifteen composite
    arguments. *)
Definition argument_lines (a : no_args) : list (Z * Z * Z) :=
  map (fun l => default (0, 0, 0) l) (take 15 (na_lines a)).

Definition new_order (a : no_args) : sp no_result :=
  if (na_o_ol_cnt a <? 1) || (15 <? na_o_ol_cnt a) then raise ParameterValue else
  warehouses ← NEW_ORDER_1 true (na_w_id a);
  w ← first_row "NEW_ORDER_1" warehouses;
  districts ← NEW_ORDER_2 (na_w_id a) (na_d_id a);
  d ← first_row "NEW_ORDER_2" districts;
  let d_next_o_id := atoi (fmt_d (D_NEXT_O_ID d - 1)) in
  customers ← NEW_ORDER_4 false (na_w_id a) (na_d_id a) (na_c_id a);
  c ← first_row "NEW_ORDER_4" customers;
  NEW_ORDER_5 d_next_o_id (na_w_id a) (na_d_id a);;
  NEW_ORDER_6 d_next_o_id (na_d_id a) (na_w_id a) (na_c_id a) (na_o_ol_cnt a)
    (na_o_all_local a);;
  ol ← new_order_lines (na_w_id a) (na_d_id a) d_next_o_id 0
         (take (Z.to_nat (na_o_ol_cnt a)) (argument_lines a));
  mret (mk_no_result
          (to_float (atof (float4out (W_TAX w)))) (to_float (atof (float4out (D_TAX d))))
          d_next_o_id (strncpy (C_LAST c) (4 * Len.C_LAST_LEN))
          (strncpy (C_CREDIT c) Len.C_CREDIT_LEN)
          (to_float (atof (float4out (C_DISCOUNT c)))) ol).

(** ** The rows it returns *)

Definition new_order_values (res : no_result) (pp : no_order_line) : list bytes :=
  [fmt_d (pp_ol_supply_w_id pp); fmt_d (pp_ol_i_id pp); pp_i_name pp;
   fmt_d (pp_ol_quantity pp); fmt_d (pp_s_quantity pp); fmt_f 2 (pp_i_price pp);
   fmt_f 2 (pp_ol_amount pp); [pp_brand_generic pp]; fmt_f 4 (res_w_tax res);
   fmt_f 4 (res_d_tax res); fmt_d (res_o_id res); res_c_last res; res_c_credit res;
   fmt_f 4 (res_c_discount res)].

Definition new_order_rows (res : no_result) : list (list bytes) :=
  map (new_order_values res) (res_ol res).

(** ** What a call does

    [line_done]: the effect of one order line.  The row and the decrement come
    from the item and stock rows of the snapshot [SN], the change applies to
    the stock as the previous lines left it. *)

Record line_done (SN : db) (w_id d_id o_id i : Z) (line : Z * Z * Z)
    (row : order_line_row) (pp : no_order_line) (st st' : list stock_row) : Prop := {
  ld_item : exists item, item ∈ t_item SN /\ I_ID item = line.1.1 /\ line.1.1 <> 0
    /\ OL_AMOUNT row
       = to_float (dmul (atof (float4out (I_PRICE item))) (float_of_int line.2));
  ld_key : OL_O_ID row = o_id /\ OL_D_ID row = d_id /\ OL_W_ID row = w_id
    /\ OL_NUMBER row = i + 1 /\ OL_I_ID row = line.1.1 /\ OL_SUPPLY_W_ID row = line.1.2
    /\ OL_DELIVERY_D row = None /\ OL_QUANTITY row = float_of_int line.2;
  ld_stock : exists stock, stock ∈ t_stock SN /\ is_stock line.1.1 line.1.2 stock = true
    /\ (stock_column stock (1 + d_id) ≫= varchar 24) = Some (OL_DIST_INFO row)
    /\ pp_s_quantity pp = atoi (float4out (S_QUANTITY stock))
    /\ updated (is_stock line.1.1 line.1.2)
         (update_stock (decr_quantity (pp_s_quantity pp) line.2) line.2
            (if line.1.2 =? w_id then 0 else 1)) st st';
  ld_pp : pp_ol_supply_w_id pp = line.1.2 /\ pp_ol_i_id pp = line.1.1
    /\ pp_ol_quantity pp = line.2 /\ pp_ol_amount pp = OL_AMOUNT row }.

Inductive lines_done (SN : db) (w_id d_id o_id : Z)
  : Z -> list (Z * Z * Z) -> list order_line_row -> list no_order_line
    -> list stock_row -> list stock_row -> Prop :=
| lines_nil i st : lines_done SN w_id d_id o_id i [] [] [] st st
| lines_cons i line lines row rows pp pps st st' st'' :
    line_done SN w_id d_id o_id i line row pp st st' ->
    lines_done SN w_id d_id o_id (i + 1) lines rows pps st' st'' ->
    lines_done SN w_id d_id o_id i (line :: lines) (row :: rows) (pp :: pps) st st''.

(** Why a call fails: every check of the code ([Some] of its error), the errors
    of the server (the order counter overflows, a key exists, a value does not fit
    its column), and the null pointer ([None]) that a stock row without a text for
    the district makes. *)
Inductive new_order_fails (a : no_args) (D : db) : option sp_error -> Prop :=
| fails_count : ~ 1 <= na_o_ol_cnt a <= 15 -> new_order_fails a D (Some ParameterValue)
| fails_1 : (forall w, w ∈ t_warehouse D -> W_ID w <> na_w_id a) ->
    new_order_fails a D (Some (Internal "NEW_ORDER_1"))
| fails_2 : (forall d, d ∈ t_district D -> ~ (D_W_ID d = na_w_id a /\ D_ID d = na_d_id a)) ->
    new_order_fails a D (Some (Internal "NEW_ORDER_2"))
| fails_4 :
    (forall c, c ∈ t_customer D ->
       ~ (C_W_ID c = na_w_id a /\ C_D_ID c = na_d_id a /\ C_ID c = na_c_id a)) ->
    new_order_fails a D (Some (Internal "NEW_ORDER_4"))
| fails_item line :
    line ∈ take (Z.to_nat (na_o_ol_cnt a)) (argument_lines a) ->
    (line.1.1 = 0 \/ forall item, item ∈ t_item D -> I_ID item <> line.1.1) ->
    new_order_fails a D (Some DBT2R)
| fails_8 line :
    line ∈ take (Z.to_nat (na_o_ol_cnt a)) (argument_lines a) ->
    (forall st, st ∈ t_stock D -> is_stock line.1.1 line.1.2 st = false) ->
    new_order_fails a D (Some (Internal "NEW_ORDER_8"))
| fails_dist line st :
    line ∈ take (Z.to_nat (na_o_ol_cnt a)) (argument_lines a) ->
    st ∈ t_stock D -> is_stock line.1.1 line.1.2 st = true ->
    stock_column st (1 + na_d_id a) = None ->
    new_order_fails a D None
| fails_counter d : d ∈ t_district D -> D_W_ID d = na_w_id a -> D_ID d = na_d_id a ->
    int4_add (D_NEXT_O_ID d) 1 = None -> new_order_fails a D (Some Server)
| fails_key d : d ∈ t_district D -> D_W_ID d = na_w_id a -> D_ID d = na_d_id a ->
    (exists r, r ∈ t_new_order D /\ NO_W_ID r = na_w_id a /\ NO_D_ID r = na_d_id a
               /\ NO_O_ID r = atoi (fmt_d (D_NEXT_O_ID d)))
    \/ (exists r, r ∈ t_orders D /\ O_W_ID r = na_w_id a /\ O_D_ID r = na_d_id a
                  /\ O_ID r = atoi (fmt_d (D_NEXT_O_ID d)))
    \/ (exists r, r ∈ t_order_line D /\ OL_W_ID r = na_w_id a /\ OL_D_ID r = na_d_id a
                  /\ OL_O_ID r = atoi (fmt_d (D_NEXT_O_ID d))) ->
    new_order_fails a D (Some Server)
| fails_update line r s_quantity remote :
    line ∈ take (Z.to_nat (na_o_ol_cnt a)) (argument_lines a) ->
    is_stock line.1.1 line.1.2 r = true ->
    update_stock (decr_quantity s_quantity line.2) line.2 remote r = None ->
    new_order_fails a D (Some Server)
| fails_info line st info :
    line ∈ take (Z.to_nat (na_o_ol_cnt a)) (argument_lines a) ->
    st ∈ t_stock D -> is_stock line.1.1 line.1.2 st = true ->
    stock_column st (1 + na_d_id a) = Some info ->
    varchar 24 info = None -> new_order_fails a D (Some Server).

Context {laws : PgLaws pg}.

(** Key comparisons. *)
Lemma same_new_order_spec x y : same_new_order x y = true <->
  NO_W_ID x = NO_W_ID y /\ NO_D_ID x = NO_D_ID y /\ NO_O_ID x = NO_O_ID y.
Proof. unfold same_new_order. rewrite !andb_true_iff, !Z.eqb_eq. tauto. Qed.

Lemma same_order_spec x y : same_order x y = true <->
  O_W_ID x = O_W_ID y /\ O_D_ID x = O_D_ID y /\ O_ID x = O_ID y.
Proof. unfold same_order. rewrite !andb_true_iff, !Z.eqb_eq. tauto. Qed.

Lemma same_order_line_spec x y : same_order_line x y = true <->
  OL_W_ID x = OL_W_ID y /\ OL_D_ID x = OL_D_ID y /\ OL_O_ID x = OL_O_ID y
  /\ OL_NUMBER x = OL_NUMBER y.
Proof. unfold same_order_line. rewrite !andb_true_iff, !Z.eqb_eq. tauto. Qed.

Section call.
Context (a : no_args) (D : db) (d : district_row).
Context (Hd : d ∈ t_district D) (Hd_w : D_W_ID d = na_w_id a) (Hd_id : D_ID d = na_d_id a).
Let o_id : Z := atoi (fmt_d (D_NEXT_O_ID d)).

(** The order lines of the session are those of the snapshot and the ones
    inserted before line [i]. *)
Definition lines_before (i : Z) (s : session) : Prop :=
  forall r, r ∈ t_order_line (current s) -> r ∈ t_order_line D \/ OL_NUMBER r <= i.

Lemma wp_new_order_line i line s Q :
  snapshot s = D -> lines_before i s -> line ∈ take (Z.to_nat (na_o_ol_cnt a)) (argument_lines a) ->
  (forall row pp st',
     line_done D (na_w_id a) (na_d_id a) o_id i line row pp (t_stock (current s)) st' ->
     Q pp (mk_session D (set_order_line (t_order_line (current s) ++ [row])
                           (set_stock st' (current s))) (now s))) ->
  wp (new_order_fails a D) (new_order_line (na_w_id a) (na_d_id a) o_id i line) Q s.
Proof.
  intros HD Hbefore Hline HQ. destruct line as [[i_id sup] q]. unfold new_order_line.
  wp_step. unfold NEW_ORDER_7. wp_step. rewrite HD.
  destruct (arrange (List.filter _ (t_item D))) as [|item items] eqn:Hitems.
  { wp_step. apply (fails_item _ _ _ Hline). right. intros item Hin Hid.
    pose proof (arrange_nil _ _ _ Hitems Hin) as Hf. cbn in *. apply Z.eqb_neq in Hf. done. }
  apply (f_equal head) in Hitems. apply arrange_head in Hitems as [Hitem Hid]. apply Z.eqb_eq in Hid.
  destruct (Z.eqb_spec i_id 0) as [->|Hnz].
  { wp_step. apply (fails_item _ _ _ Hline). by left. }
  wp_step. unfold NEW_ORDER_8. wp_step. wp_step. apply wp_first_row.
  2: { intros Hnil. apply (fails_8 _ _ _ Hline). intros st Hst. rewrite HD in Hnil.
       exact (arrange_nil _ _ _ Hnil Hst). }
  intros stock Hstock. rewrite HD in Hstock. apply arrange_head in Hstock as [Hst His].
  wp_step. unfold NEW_ORDER_9.
  set (upd := update_stock _ q _). apply (wp_update _ _ _ _ _ (fun r => default r (upd r))).
  { by intros r r' _ _ ->. }
  2: { intros r _ Hr Hnone. by eapply (fails_update _ _ (i_id, sup, q)). }
  intros Hall. wp_step. apply wp_deref.
  2: { intros Hnone. by eapply (fails_dist _ _ (i_id, sup, q)). }
  intros dist Hdist. wp_step. unfold NEW_ORDER_10. wp_step. apply wp_server.
  2: { intros Hnone. by eapply (fails_info _ _ (i_id, sup, q)). }
  intros info Hinfo. apply wp_insert.
  2: { intros (r & Hr & Hsame)%existsb_elem. apply same_order_line_spec in Hsame as (E1 & E2 & E3 & E4).
       cbn in *. destruct (Hbefore r Hr) as [HrD|Hn]; [|lia].
       apply (fails_key _ _ _ Hd Hd_w Hd_id). right. right. exists r. done. }
  intros _. wp_step. rewrite HD. cbn [current]. apply HQ. split; cbn.
  - exists item. done.
  - done.
  - exists stock. rewrite Hdist. split_and!; done.
  - done.
Qed.

Lemma wp_new_order_lines lines i s Q :
  snapshot s = D -> lines_before i s -> (forall line, line ∈ lines ->
    line ∈ take (Z.to_nat (na_o_ol_cnt a)) (argument_lines a)) ->
  (forall rows pps st',
     lines_done D (na_w_id a) (na_d_id a) o_id i lines rows pps (t_stock (current s)) st' ->
     Q pps (mk_session D (set_order_line (t_order_line (current s) ++ rows)
                            (set_stock st' (current s))) (now s))) ->
  wp (new_order_fails a D) (new_order_lines (na_w_id a) (na_d_id a) o_id i lines) Q s.
Proof.
  revert i s Q. induction lines as [|line lines IH]; intros i s Q HD Hb Hin HQ; cbn [new_order_lines].
  - wp_step. destruct s as [sn [] t]. cbn in *. subst sn.
    specialize (HQ _ _ _ (lines_nil D _ _ _ _ _)). by rewrite app_nil_r in HQ.
  - wp_step. apply wp_new_order_line; [done|done|apply Hin; left|].
    intros row pp st' Hdone. wp_step. apply IH; [done| |intros; apply Hin; by right|].
    { intros r Hr. cbn in Hr. apply elem_of_app in Hr as [Hr| ->%list_elem_of_singleton].
      - destruct (Hb r Hr); [by left|right; lia].
      - right. pose proof (ld_key _ _ _ _ _ _ _ _ _ _ Hdone) as (_ & _ & _ & -> & _). lia. }
    intros rows pps st'' Hdones. wp_step.
    specialize (HQ _ _ _ (lines_cons _ _ _ _ _ _ _ _ _ _ _ _ _ _ Hdone Hdones)).
    cbn in HQ |- *. by rewrite <- app_assoc.
Qed.
End call.

(** The database after a call that returned: the district's counter, the two
    rows of the order, its lines, the stock. *)
Definition new_order_done (a : no_args) (t : timestamp) (D : db) (res : no_result) (D' : db)
  : Prop :=
  exists d rows st',
    d ∈ t_district D /\ D_W_ID d = na_w_id a /\ D_ID d = na_d_id a
    /\ D_NEXT_O_ID d + 1 < 2 ^ 31
    /\ res_o_id res = atoi (fmt_d (D_NEXT_O_ID d))
    /\ existsb (same_new_order (mk_new_order_row (res_o_id res) (na_d_id a) (na_w_id a)))
          (t_new_order D) = false
    /\ lines_done D (na_w_id a) (na_d_id a) (res_o_id res) 0
         (take (Z.to_nat (na_o_ol_cnt a)) (argument_lines a)) rows (res_ol res)
         (t_stock D) st'
    /\ D' = mk_db (t_warehouse D)
               (map (fun r => if (D_W_ID r =? na_w_id a) && (D_ID r =? na_d_id a)
                              then set_next_o_id (D_NEXT_O_ID r + 1) r else r) (t_district D))
               (t_customer D) (t_history D)
               (t_new_order D
                ++ [mk_new_order_row (res_o_id res) (na_d_id a) (na_w_id a)])
               (t_orders D
                ++ [mk_orders (res_o_id res) (na_d_id a) (na_w_id a) (na_c_id a) t None
                      (na_o_ol_cnt a) (float_of_int (na_o_all_local a))])
               (t_order_line D ++ rows) (t_item D) st'.

Lemma int4_add_some a b v : int4_add a b = Some v -> v = a + b /\ - 2 ^ 31 <= v < 2 ^ 31.
Proof.
  unfold int4_add. destruct (_ && _) eqn:Hr; [|done]. intros [= <-].
  apply andb_true_iff in Hr as [H1%Z.leb_le H2%Z.ltb_lt]. lia.
Qed.

Lemma wp_new_order a D t :
  wp (new_order_fails a D) (new_order a)
    (fun res s => 1 <= na_o_ol_cnt a <= 15 /\ new_order_done a t D res (current s))
    (mk_session D D t).
Proof.
  unfold new_order. destruct (_ || _) eqn:Hcnt.
  { wp_step. apply fails_count. apply orb_true_iff in Hcnt as [H%Z.ltb_lt|H%Z.ltb_lt]; lia. }
  apply orb_false_iff in Hcnt as [H1%Z.ltb_ge H2%Z.ltb_ge].
  wp_step. unfold NEW_ORDER_1. wp_step. wp_step. apply wp_first_row.
  2: { intros Hnil. apply fails_1. intros w Hw. apply Z.eqb_neq. exact (arrange_nil _ _ _ Hnil Hw). }
  intros w _. wp_step. unfold NEW_ORDER_2.
  apply (wp_update _ _ _ _ _ (fun r => set_next_o_id (D_NEXT_O_ID r + 1) r)).
  { intros r r' _ _ Hs. cbn in Hs. destruct (int4_add _ _) eqn:Hv; [|done]. cbn in Hs. simplify_eq.
    by apply int4_add_some in Hv as [-> _]. }
  2: { intros r Hr Hk Hnone. apply andb_true_iff in Hk as [Hk1%Z.eqb_eq Hk2%Z.eqb_eq].
       destruct (int4_add _ _) eqn:Hv; [done|]. by eapply fails_counter. }
  intros Hall. wp_step. apply wp_first_row.
  2: { intros Hnil. apply fails_2. intros d Hd [E1 E2].
       pose proof (arrange_map_nil _ _ _ _ Hnil Hd) as Hf. cbn in Hf.
       rewrite E1, E2, !Z.eqb_refl in Hf. done. }
  intros d Hd. apply arrange_map_head in Hd as (d0 & Hd0 & Hk & ->).
  apply andb_true_iff in Hk as [Hk1%Z.eqb_eq Hk2%Z.eqb_eq].
  cbn [D_NEXT_O_ID set_next_o_id]. replace (D_NEXT_O_ID d0 + 1 - 1) with (D_NEXT_O_ID d0) by lia.
  wp_step. unfold NEW_ORDER_4. wp_step. wp_step. apply wp_first_row.
  2: { intros Hnil. apply fails_4. intros c Hc (E1 & E2 & E3).
       pose proof (arrange_nil _ _ _ Hnil Hc) as Hf. cbn in Hf.
       rewrite E1, E2, E3, !Z.eqb_refl in Hf. done. }
  intros c _. wp_step. unfold NEW_ORDER_5. apply wp_insert.
  2: { intros (r & Hr & Hs)%existsb_elem. apply same_new_order_spec in Hs as (E1 & E2 & E3).
       apply (fails_key _ _ _ Hd0 Hk1 Hk2). left. exists r. done. }
  intros Hfresh. wp_step. unfold NEW_ORDER_6. wp_step. wp_step. apply wp_insert.
  2: { intros (r & Hr & Hs)%existsb_elem. apply same_order_spec in Hs as (E1 & E2 & E3).
       apply (fails_key _ _ _ Hd0 Hk1 Hk2). right. left. exists r. done. }
  intros _. wp_step. apply (wp_new_order_lines a D d0 Hd0 Hk1 Hk2); [done|by left|done|].
  intros rows pps st' Hlines. wp_step. split; [lia|].
  assert (Hmax : D_NEXT_O_ID d0 + 1 < 2 ^ 31).
  { destruct (Hall d0 Hd0) as [r' Hr']; [by rewrite Hk1, Hk2, !Z.eqb_refl|].
    destruct (int4_add _ _) eqn:Hv; [|done]. apply int4_add_some in Hv. lia. }
  exists d0, rows, st'. done.
Qed.

End new_order.
