(* ===== verification/SpPayment.v ===== *)
(** * The Payment procedure ([storedproc/pgsql/c/payment.c])

    The seven statements, the work of the first call, the row it returns, and
    what a call does to the database on every branch. *)

From Stdlib Require Import ZArith Lia SpecFloat String.
From stdpp Require Import base list sorting.
From S2P Require Import Prelude Double Text Tables.

(** The arguments of the function; [h_amount] is a [float]. *)
Record pay_args := mk_pay_args {
  ya_w_id : Z; ya_d_id : Z; ya_c_id : Z; ya_c_w_id : Z; ya_c_d_id : Z;
  ya_c_last : bytes; ya_h_amount : double }.

(** [payment_row] *)
Record payment_row := mk_payment_row {
  pr_w_street_1 : bytes; pr_w_street_2 : bytes; pr_w_city : bytes; pr_w_state : bytes;
  pr_w_zip : bytes; pr_d_street_1 : bytes; pr_d_street_2 : bytes; pr_d_city : bytes;
  pr_d_state : bytes; pr_d_zip : bytes; pr_c_first : bytes; pr_c_middle : bytes;
  pr_c_last : bytes; pr_c_street_1 : bytes; pr_c_street_2 : bytes; pr_c_city : bytes;
  pr_c_state : bytes; pr_c_zip : bytes; pr_c_phone : bytes; pr_c_since : bytes;
  pr_c_credit : bytes; pr_c_credit_lim : double; pr_c_discount : double;
  pr_c_balance : double; pr_c_data : bytes; pr_h_date : bytes; pr_c_id : Z;
  pr_w_name : bytes; pr_d_name : bytes }.

Section payment.
Context {pg : Pg}.

(** ** Statements *)

Definition add_w_ytd (amount : double) (r : warehouse_row) : option warehouse_row :=
  y ← numeric_add_real (W_YTD r) amount;
  Some (mk_warehouse (W_ID r) (W_NAME r) (W_STREET_1 r) (W_STREET_2 r) (W_CITY r)
          (W_STATE r) (W_ZIP r) (W_TAX r) y).

Definition PAYMENT_1 (amount : double) (w_id : Z) : sp (list warehouse_row) :=
  spi_update t_warehouse set_warehouse (fun r => W_ID r =? w_id) (add_w_ytd amount).

Definition add_d_ytd (amount : double) (r : district_row) : option district_row :=
  y ← numeric_add_real (D_YTD r) amount;
  Some (mk_district (D_ID r) (D_W_ID r) (D_NAME r) (D_STREET_1 r) (D_STREET_2 r) (D_CITY r)
          (D_STATE r) (D_ZIP r) (D_TAX r) y (D_NEXT_O_ID r)).

Definition is_district (d_id w_id : Z) (r : district_row) : bool :=
  (D_ID r =? d_id) && (D_W_ID r =? w_id).

Definition PAYMENT_3 (amount : double) (d_id w_id : Z) : sp (list district_row) :=
  spi_update t_district set_district (is_district d_id w_id) (add_d_ytd amount).

Definition has_name (w_id d_id : Z) (last : bytes) (r : customer_row) : bool :=
  (C_W_ID r =? w_id) && (C_D_ID r =? d_id) && bytes_eqb (C_LAST r) last.

Definition first_le (a b : customer_row) : bool := text_le (C_FIRST a) (C_FIRST b).

Definition PAYMENT_5 (ro : bool) (w_id d_id : Z) (last : bytes) : sp (list customer_row) :=
  l ← spi_select ro t_customer (has_name w_id d_id last);
  mret (order_by first_le l).

Definition is_customer (w_id d_id c_id : Z) (r : customer_row) : bool :=
  (C_W_ID r =? w_id) && (C_D_ID r =? d_id) && (C_ID r =? c_id).

Definition PAYMENT_6 (ro : bool) (w_id d_id c_id : Z) : sp (list customer_row) :=
  spi_select ro t_customer (is_customer w_id d_id c_id).

(** [SET c_balance = ..., c_ytd_payment = ..., c_payment_cnt = ..., c_data = ...] *)
Definition pay_customer (amount : double) (data : bytes) (r : customer_row)
  : option customer_row :=
  b ← numeric_sub_real (C_BALANCE r) amount;
  y ← numeric_add_real (C_YTD_PAYMENT r) amount;
  n ← real_add_int4 (C_PAYMENT_CNT r) 1;
  Some (mk_customer (C_ID r) (C_D_ID r) (C_W_ID r) (C_FIRST r) (C_MIDDLE r) (C_LAST r)
          (C_STREET_1 r) (C_STREET_2 r) (C_CITY r) (C_STATE r) (C_ZIP r) (C_PHONE r)
          (C_SINCE r) (C_CREDIT r) (C_CREDIT_LIM r) (C_DISCOUNT r) b y n (C_DELIVERY_CNT r)
          data).

Definition pay_gc (amount : double) (r : customer_row) : option customer_row :=
  pay_customer amount (C_DATA r) r.

Definition pay_bc (amount : double) (data : bytes) (r : customer_row)
  : option customer_row :=
  pay_customer amount (text_prefix 500 (data ++ C_DATA r)) r.

Definition PAYMENT_7_GC (amount : double) (c_id w_id d_id : Z) : sp (list customer_row) :=
  spi_update t_customer set_customer (is_customer w_id d_id c_id) (pay_gc amount).

Definition PAYMENT_7_BC (amount : double) (data : bytes) (c_id w_id d_id : Z)
  : sp (list customer_row) :=
  spi_update t_customer set_customer (is_customer w_id d_id c_id) (pay_bc amount data).

(** A table without a key. *)
Definition no_key (a b : history_row) : bool := false.

Definition PAYMENT_8 (c_id c_d_id c_w_id d_id w_id : Z) (amount : double)
    (w_name d_name : bytes) : sp (list history_row) :=
  t ← current_timestamp;
  data ← server (varchar 24 (w_name ++ lit "    " ++ d_name));
  let row := mk_history c_id c_d_id c_w_id d_id w_id t amount data in
  spi_insert t_history set_history no_key row;;
  mret [row].

(** ** The first call *)

(** The customer: the one with the number given, or the one in the middle of
    those with the last name given. *)
Definition payment_c_id (a : pay_args) : sp Z :=
  if ya_c_id a =? 0 then
    customers ← PAYMENT_5 true (ya_c_w_id a) (ya_c_d_id a) (ya_c_last a);
    let count := zlen customers in
    if 0 <? count then
      c ← deref (customers !! Z.to_nat ((count - 1) / 2));
      mret (atoi (fmt_d (C_ID c)))
    else raise (Internal "PAYMENT_5")
  else mret (ya_c_id a).

(** ["%d %d %d %d %d %.2f "] into [my_c_data] *)
Definition bc_data (a : pay_args) (my_c_id : Z) : bytes :=
  take (Z.to_nat Len.C_DATA_LEN)
    (fmt_d my_c_id ++ lit " " ++ fmt_d (ya_c_d_id a) ++ lit " " ++ fmt_d (ya_c_w_id a)
     ++ lit " " ++ fmt_d (ya_d_id a) ++ lit " " ++ fmt_d (ya_w_id a) ++ lit " "
     ++ fmt_f 2 (ya_h_amount a) ++ lit " ").

Definition good_credit (c_credit : bytes) : bool :=
  match c_credit with c :: _ => c =? 71 | [] => false end.

(** The new balance, and the part of [c_data] that is shown. *)
Definition payment_7 (a : pay_args) (my_c_id : Z) (c_credit : bytes) : sp (double * bytes) :=
  if good_credit c_credit then
    rows ← PAYMENT_7_GC (ya_h_amount a) my_c_id (ya_c_w_id a) (ya_c_d_id a);
    c ← first_row "PAYMENT_7_GC" rows;
    mret (atof (numeric_out (C_BALANCE c)), [])
  else
    rows ← PAYMENT_7_BC (ya_h_amount a) (bc_data a my_c_id) my_c_id (ya_c_w_id a)
             (ya_c_d_id a);
    c ← first_row "PAYMENT_7_BC" rows;
    mret (atof (numeric_out (C_BALANCE c)),
          strncpy (text_prefix 200 (C_DATA c)) (4 * Len.C_DATA_BC_LEN)).

(** The staging structure, from the rows read on the way. *)
Definition stage (w : warehouse_row) (d : district_row) (c : customer_row) (my_c_id : Z)
    (balance : double) (data h_date : bytes) : payment_row :=
  mk_payment_row
    (strncpy (W_STREET_1 w) (4 * Len.W_STREET_1_LEN))
    (strncpy (W_STREET_2 w) (4 * Len.W_STREET_2_LEN))
    (strncpy (W_CITY w) (4 * Len.W_CITY_LEN)) (strncpy (W_STATE w) (4 * Len.W_STATE_LEN))
    (strncpy (W_ZIP w) (4 * Len.W_ZIP_LEN))
    (strncpy (D_STREET_1 d) (4 * Len.D_STREET_1_LEN))
    (strncpy (D_STREET_2 d) (4 * Len.D_STREET_2_LEN))
    (strncpy (D_CITY d) (4 * Len.D_CITY_LEN)) (strncpy (D_STATE d) (4 * Len.D_STATE_LEN))
    (strncpy (D_ZIP d) (4 * Len.D_ZIP_LEN))
    (strncpy (C_FIRST c) (4 * Len.C_FIRST_LEN)) (strncpy (C_MIDDLE c) Len.C_MIDDLE_LEN)
    (strncpy (C_LAST c) (4 * Len.C_LAST_LEN))
    (strncpy (C_STREET_1 c) (4 * Len.C_STREET_1_LEN))
    (strncpy (C_STREET_2 c) (4 * Len.C_STREET_2_LEN))
    (strncpy (C_CITY c) (4 * Len.C_CITY_LEN)) (strncpy (C_STATE c) (4 * Len.C_STATE_LEN))
    (strncpy (C_ZIP c) (4 * Len.C_ZIP_LEN)) (strncpy (C_PHONE c) (4 * Len.C_PHONE_LEN))
    (strncpy (timestamp_out (C_SINCE c)) Len.C_SINCE_LEN)
    (strncpy (C_CREDIT c) Len.C_CREDIT_LEN)
    (atof (numeric_out (C_CREDIT_LIM c))) (to_float (atof (float4out (C_DISCOUNT c))))
    balance data h_date my_c_id
    (strncpy (W_NAME w) (4 * Len.W_NAME_LEN)) (strncpy (D_NAME d) (4 * Len.D_NAME_LEN)).

Definition payment (a : pay_args) : sp payment_row :=
  warehouses ← PAYMENT_1 (ya_h_amount a) (ya_w_id a);
  w ← first_row "PAYMENT_1" warehouses;
  districts ← PAYMENT_3 (ya_h_amount a) (ya_d_id a) (ya_w_id a);
  d ← first_row "PAYMENT_3" districts;
  my_c_id ← payment_c_id a;
  customers ← PAYMENT_6 true (ya_c_w_id a) (ya_c_d_id a) my_c_id;
  c ← first_row "PAYMENT_6" customers;
  balance_data ← payment_7 a my_c_id (C_CREDIT c);
  rows ← PAYMENT_8 my_c_id (ya_c_d_id a) (ya_c_w_id a) (ya_d_id a) (ya_w_id a)
           (ya_h_amount a) (W_NAME w) (D_NAME d);
  h ← first_row "PAYMENT_8" rows;
  mret (stage w d c my_c_id balance_data.1 balance_data.2
          (strncpy (timestamp_out (H_DATE h)) Len.H_DATE_LEN)).

(** ** The row it returns *)

Definition payment_values (pp : payment_row) : list bytes :=
  [pr_w_street_1 pp; pr_w_street_2 pp; pr_w_city pp; pr_w_state pp; pr_w_zip pp;
   pr_d_street_1 pp; pr_d_street_2 pp; pr_d_city pp; pr_d_state pp; pr_d_zip pp;
   pr_c_first pp; pr_c_middle pp; pr_c_last pp;
   pr_c_street_1 pp; pr_c_street_2 pp; pr_c_city pp; pr_c_state pp; pr_c_zip pp;
   pr_c_phone pp; pr_c_since pp; pr_c_credit pp;
   fmt_f 2 (pr_c_credit_lim pp); fmt_f 4 (pr_c_discount pp); fmt_f 2 (pr_c_balance pp);
   pr_c_data pp; pr_h_date pp; fmt_d (pr_c_id pp); pr_w_name pp; pr_d_name pp].

(** ** What a call does *)

Definition chosen_customer (a : pay_args) (D : db) (my_c_id : Z) : Prop :=
  if ya_c_id a =? 0 then
    exists l c, l ≡ₚ List.filter (has_name (ya_c_w_id a) (ya_c_d_id a) (ya_c_last a)) (t_customer D)
      /\ Sorted (fun x y => first_le x y = true) l
      /\ l !! Z.to_nat ((zlen l - 1) / 2) = Some c /\ my_c_id = atoi (fmt_d (C_ID c))
  else my_c_id = ya_c_id a.

Definition pay_row (a : pay_args) (my_c_id : Z) (credit : bytes) (r : customer_row)
  : option customer_row :=
  if good_credit credit then pay_gc (ya_h_amount a) r
  else pay_bc (ya_h_amount a) (bc_data a my_c_id) r.

(** The amount is added to the warehouse and the district, moved in the balance
    and the payments of one customer, and recorded in one row of history. *)
Definition payment_done (a : pay_args) (t : timestamp) (D : db) (pp : payment_row) (D' : db)
  : Prop :=
  exists w d c c0 c1 info ws ds cs,
    w ∈ t_warehouse D /\ W_ID w = ya_w_id a
    /\ d ∈ t_district D /\ D_ID d = ya_d_id a /\ D_W_ID d = ya_w_id a
    /\ chosen_customer a D (pr_c_id pp)
    /\ c ∈ t_customer D
    /\ is_customer (ya_c_w_id a) (ya_c_d_id a) (pr_c_id pp) c = true
    /\ updated (fun r => W_ID r =? ya_w_id a) (add_w_ytd (ya_h_amount a)) (t_warehouse D) ws
    /\ updated (is_district (ya_d_id a) (ya_w_id a)) (add_d_ytd (ya_h_amount a))
         (t_district D) ds
    /\ updated (is_customer (ya_c_w_id a) (ya_c_d_id a) (pr_c_id pp))
         (pay_row a (pr_c_id pp) (C_CREDIT c)) (t_customer D) cs
    /\ c0 ∈ t_customer D
    /\ is_customer (ya_c_w_id a) (ya_c_d_id a) (pr_c_id pp) c0 = true
    /\ pay_row a (pr_c_id pp) (C_CREDIT c) c0 = Some c1
    /\ pr_c_balance pp = atof (numeric_out (C_BALANCE c1))
    /\ varchar 24 (W_NAME w ++ lit "    " ++ D_NAME d) = Some info
    /\ D' = mk_db ws ds cs
               (t_history D
                ++ [mk_history (pr_c_id pp) (ya_c_d_id a) (ya_c_w_id a) (ya_d_id a) (ya_w_id a)
                      t (ya_h_amount a) info])
               (t_new_order D) (t_orders D) (t_order_line D) (t_item D) (t_stock D).

(** Why a call fails.  It never crashes, and [PAYMENT_7] finds the row that
    [PAYMENT_6] read. *)
Inductive payment_fails (a : pay_args) (D : db) : option sp_error -> Prop :=
| pfails_1 : (forall w, w ∈ t_warehouse D -> W_ID w <> ya_w_id a) ->
    payment_fails a D (Some (Internal "PAYMENT_1"))
| pfails_3 : (forall d, d ∈ t_district D -> is_district (ya_d_id a) (ya_w_id a) d = false) ->
    payment_fails a D (Some (Internal "PAYMENT_3"))
| pfails_5 : ya_c_id a = 0 ->
    (forall c, c ∈ t_customer D -> has_name (ya_c_w_id a) (ya_c_d_id a) (ya_c_last a) c = false) ->
    payment_fails a D (Some (Internal "PAYMENT_5"))
| pfails_6 my_c_id : chosen_customer a D my_c_id ->
    (forall c, c ∈ t_customer D -> is_customer (ya_c_w_id a) (ya_c_d_id a) my_c_id c = false) ->
    payment_fails a D (Some (Internal "PAYMENT_6"))
| pfails_w r : add_w_ytd (ya_h_amount a) r = None -> payment_fails a D (Some Server)
| pfails_d r : add_d_ytd (ya_h_amount a) r = None -> payment_fails a D (Some Server)
| pfails_c r my_c_id credit : pay_row a my_c_id credit r = None ->
    payment_fails a D (Some Server)
| pfails_info w d : w ∈ t_warehouse D -> d ∈ t_district D ->
    varchar 24 (W_NAME w ++ lit "    " ++ D_NAME d) = None ->
    payment_fails a D (Some Server).

Context {laws : PgLaws pg}.

Lemma first_le_total x y : first_le x y = true \/ first_le y x = true.
Proof. apply text_le_total. Qed.

Lemma wp_payment_c_id a D s Q : snapshot s = D ->
  (forall my_c_id, chosen_customer a D my_c_id -> Q my_c_id s) ->
  wp (payment_fails a D) (payment_c_id a) Q s.
Proof.
  intros HD HQ. unfold payment_c_id, chosen_customer in *. destruct (Z.eqb_spec (ya_c_id a) 0) as [Hz|Hz].
  2: { wp_step. by apply HQ. }
  unfold PAYMENT_5. wp_step. wp_step. wp_step. wp_step. rewrite HD.
  set (l := order_by first_le _).
  assert (Hl : l ≡ₚ List.filter (has_name (ya_c_w_id a) (ya_c_d_id a) (ya_c_last a)) (t_customer D)).
  { unfold l. by rewrite order_by_perm, (arrange_perm _ _). }
  destruct (Z.ltb_spec 0 (zlen l)) as [Hpos|Hpos].
  - wp_step. apply wp_deref.
    + intros c Hc. wp_step. apply HQ. exists l, c. split_and!; try done.
      apply order_by_sorted, first_le_total.
    + intros Hnone. apply lookup_ge_None in Hnone. unfold zlen in *. exfalso.
      pose proof (Z.div_le_upper_bound (Z.of_nat (List.length l) - 1) 2 (Z.of_nat (List.length l) - 1)).
      lia.
  - wp_step. apply pfails_5; [done|]. intros c Hc.
    destruct (has_name _ _ _ c) eqn:Hn; [|done].
    assert (Hin : c ∈ l). { by rewrite Hl, elem_of_list_filter_bool. }
    apply list_elem_of_lookup in Hin as [i Hi%lookup_lt_Some]. unfold zlen in Hpos. lia.
Qed.

Lemma wp_payment_7 a D my_c_id c s Q :
  t_customer (current s) = t_customer D -> c ∈ t_customer D ->
  is_customer (ya_c_w_id a) (ya_c_d_id a) my_c_id c = true ->
  (forall c0 c1 cs data,
     c0 ∈ t_customer D -> is_customer (ya_c_w_id a) (ya_c_d_id a) my_c_id c0 = true ->
     pay_row a my_c_id (C_CREDIT c) c0 = Some c1 ->
     updated (is_customer (ya_c_w_id a) (ya_c_d_id a) my_c_id)
       (pay_row a my_c_id (C_CREDIT c)) (t_customer D) cs ->
     Q (atof (numeric_out (C_BALANCE c1)), data)
       (mk_session (snapshot s) (set_customer cs (current s)) (now s))) ->
  wp (payment_fails a D) (payment_7 a my_c_id (C_CREDIT c)) Q s.
Proof.
  intros Ht Hc Hkey HQ. unfold payment_7.
  assert (Hsome : forall (f : customer_row -> customer_row) st,
    arrange (map f (List.filter (is_customer (ya_c_w_id a) (ya_c_d_id a) my_c_id) (t_customer D))) = []
    -> payment_fails a D (Some (Internal st))).
  { intros f st Hnil. pose proof (arrange_map_nil _ _ _ _ Hnil Hc). congruence. }
  unfold pay_row in HQ.
  destruct (good_credit (C_CREDIT c)) eqn:Hcr; wp_step; unfold PAYMENT_7_GC, PAYMENT_7_BC;
    [set (set := pay_gc _) in *|set (set := pay_bc _ _) in *];
    (apply (wp_update _ _ _ _ _ (fun r => default r (set r)));
     [by intros r r' _ _ ->| |
      intros r _ _ Hr; apply (pfails_c _ _ r my_c_id (C_CREDIT c)); unfold pay_row; by rewrite Hcr];
     rewrite Ht; intros Hall; wp_step; apply wp_first_row; [|by apply Hsome];
     intros c1 H1; destruct (updated_row _ _ _ _ Hall H1) as (c0 & H0 & Hk & Hs);
     wp_step; by eapply HQ).
Qed.

Lemma wp_payment a D t :
  wp (payment_fails a D) (payment a)
    (fun pp s => payment_done a t D pp (current s)) (mk_session D D t).
Proof.
  unfold payment. wp_step. unfold PAYMENT_1.
  apply (wp_update _ _ _ _ _ (fun r => default r (add_w_ytd (ya_h_amount a) r))).
  { by intros r r' _ _ ->. }
  2: { intros r _ _ Hr. by eapply pfails_w. }
  intros Hws. wp_step. apply wp_first_row.
  2: { intros Hnil. apply pfails_1. intros w Hw.
       apply Z.eqb_neq. exact (arrange_map_nil _ _ _ _ Hnil Hw). }
  intros w' Hw'. destruct (updated_row _ _ _ _ Hws Hw') as (w & Hw & Hwid%Z.eqb_eq & Hwset).
  wp_step. unfold PAYMENT_3.
  apply (wp_update _ _ _ _ _ (fun r => default r (add_d_ytd (ya_h_amount a) r))).
  { by intros r r' _ _ ->. }
  2: { intros r _ _ Hr. by eapply pfails_d. }
  intros Hds. wp_step. apply wp_first_row.
  2: { intros Hnil. apply pfails_3. intros d Hd. exact (arrange_map_nil _ _ _ _ Hnil Hd). }
  intros d' Hd'. destruct (updated_row _ _ _ _ Hds Hd') as (d & Hd & Hdid & Hdset).
  unfold is_district in Hdid. apply andb_true_iff in Hdid as [Hd1%Z.eqb_eq Hd2%Z.eqb_eq].
  wp_step. apply wp_payment_c_id; [done|]. intros my_c_id Hchosen.
  wp_step. unfold PAYMENT_6. wp_step. wp_step. apply wp_first_row.
  2: { intros Hnil. eapply pfails_6; [done|]. intros c Hc. exact (arrange_nil _ _ _ Hnil Hc). }
  intros c Hc. apply arrange_head in Hc as [Hc Hkey].
  wp_step. apply (wp_payment_7 a D); [done..|].
  intros c0 c1 cs data Hc0 Hk0 Hpay Hcs. wp_step. unfold PAYMENT_8. wp_step. wp_step. wp_step.
  assert (W_NAME w' = W_NAME w /\ D_NAME d' = D_NAME d) as [Ew Ed].
  { unfold add_w_ytd, add_d_ytd in *. destruct (numeric_add_real (W_YTD w) _), (numeric_add_real (D_YTD d) _);
      cbn in *; by simplify_eq. }
  rewrite Ew, Ed. apply wp_server.
  2: { intros Hnone. by apply (pfails_info _ _ w d). }
  intros info Hinfo. wp_step. apply wp_insert; [|by intros (? & _ & ?)%existsb_elem].
  intros _. wp_step. wp_step. cbn [first_row]. wp_step. wp_step.
  exists w, d, c, c0, c1, info. cbn. eexists _, _, cs. split_and!; try done.
Qed.

End payment.
