(* ===== verification/SpDelivery.v ===== *)
(** * The Delivery procedure ([storedproc/pgsql/c/delivery.c])

    The six statements and the loop over the ten districts.  A round delivers
    the oldest new order of its district; [delivered] says what it changes. *)

From Stdlib Require Import ZArith Lia SpecFloat String.
From stdpp Require Import base list sorting.
From S2P Require Import Prelude Double Text Tables SpPayment.

Section delivery.
Context {pg : Pg}.

(** ** Statements *)

Definition is_new_order (w_id d_id : Z) (r : new_order_row) : bool :=
  (NO_W_ID r =? w_id) && (NO_D_ID r =? d_id).

Definition older (a b : new_order_row) : bool := NO_O_ID a <=? NO_O_ID b.

Definition DELIVERY_1 (ro : bool) (w_id d_id : Z) : sp (list new_order_row) :=
  l ← spi_select ro t_new_order (is_new_order w_id d_id);
  mret (take 1 (order_by older l)).

Definition DELIVERY_2 (o_id w_id d_id : Z) : sp Z :=
  spi_delete t_new_order set_new_order
    (fun r => (NO_O_ID r =? o_id) && is_new_order w_id d_id r).

Definition is_order (o_id w_id d_id : Z) (r : orders_row) : bool :=
  (O_ID r =? o_id) && (O_W_ID r =? w_id) && (O_D_ID r =? d_id).

Definition set_carrier (carrier : Z) (r : orders_row) : orders_row :=
  mk_orders (O_ID r) (O_D_ID r) (O_W_ID r) (O_C_ID r) (O_ENTRY_D r) (Some carrier)
    (O_OL_CNT r) (O_ALL_LOCAL r).

Definition DELIVERY_3 (carrier o_id w_id d_id : Z) : sp (list orders_row) :=
  spi_update t_orders set_orders (is_order o_id w_id d_id) (fun r => Some (set_carrier carrier r)).

Definition is_line (o_id w_id d_id : Z) (r : order_line_row) : bool :=
  (OL_O_ID r =? o_id) && (OL_W_ID r =? w_id) && (OL_D_ID r =? d_id).

Definition set_delivery_d (t : timestamp) (r : order_line_row) : order_line_row :=
  mk_order_line (OL_O_ID r) (OL_D_ID r) (OL_W_ID r) (OL_NUMBER r) (OL_I_ID r)
    (OL_SUPPLY_W_ID r) (Some t) (OL_QUANTITY r) (OL_AMOUNT r) (OL_DIST_INFO r).

Definition DELIVERY_5 (o_id w_id d_id : Z) : sp (list order_line_row) :=
  t ← current_timestamp;
  spi_update t_order_line set_order_line (is_line o_id w_id d_id)
    (fun r => Some (set_delivery_d t r)).

(** [SUM] of a [REAL] column: NULL over no rows, otherwise the rows are added in
    the order in which they are read. *)
Definition real_sum (l : list double) : option (option double) :=
  match l with
  | [] => Some None
  | x :: l' => s ← foldl (fun s y => s ← s; real_add_real s y) (Some x) l'; Some (Some s)
  end.

Definition DELIVERY_6 (ro : bool) (o_id w_id d_id : Z) : sp (option double) :=
  l ← spi_select ro t_order_line (is_line o_id w_id d_id);
  server (real_sum (map OL_AMOUNT l)).

Definition deliver_customer (amount : numeric) (r : customer_row) : option customer_row :=
  n ← real_add_int4 (C_DELIVERY_CNT r) 1;
  b ← numeric_add (C_BALANCE r) amount;
  Some (mk_customer (C_ID r) (C_D_ID r) (C_W_ID r) (C_FIRST r) (C_MIDDLE r) (C_LAST r)
          (C_STREET_1 r) (C_STREET_2 r) (C_CITY r) (C_STATE r) (C_ZIP r) (C_PHONE r)
          (C_SINCE r) (C_CREDIT r) (C_CREDIT_LIM r) (C_DISCOUNT r) b (C_YTD_PAYMENT r)
          (C_PAYMENT_CNT r) n (C_DATA r)).

Definition DELIVERY_7 (amount : numeric) (c_id w_id d_id : Z) : sp (list customer_row) :=
  spi_update t_customer set_customer (is_customer w_id d_id c_id) (deliver_customer amount).

(** ** The procedure *)

(** One round of the loop; [None] is [continue]. *)
Definition deliver_district (w_id o_carrier_id d_id : Z) : sp (option (Z * Z)) :=
  rows ← DELIVERY_1 false w_id d_id;
  match rows with
  | [] => mret None
  | n :: _ =>
      let no_o_id := atoi (fmt_d (NO_O_ID n)) in
      processed ← DELIVERY_2 no_o_id w_id d_id;
      if processed =? 0 then raise (Internal "DELIVERY_2") else
      orders ← DELIVERY_3 o_carrier_id no_o_id w_id d_id;
      o ← first_row "DELIVERY_3" orders;
      let o_c_id := atoi (fmt_d (O_C_ID o)) in
      _ ← DELIVERY_5 no_o_id w_id d_id;
      ol_amount ← DELIVERY_6 true no_o_id w_id d_id;
      match ol_amount with
      | None => raise NoAmount
      | Some ol_amount =>
          amount ← server (numeric_in (float4out ol_amount));
          _ ← DELIVERY_7 amount o_c_id w_id d_id;
          mret (Some (d_id, no_o_id))
      end
  end.

Fixpoint deliver_districts (w_id o_carrier_id : Z) (d_ids : list Z) : sp (list (Z * Z)) :=
  match d_ids with
  | [] => mret []
  | d_id :: d_ids' =>
      r ← deliver_district w_id o_carrier_id d_id;
      rs ← deliver_districts w_id o_carrier_id d_ids';
      mret (option_list r ++ rs)
  end.

Definition delivery (w_id o_carrier_id : Z) : sp (list (Z * Z)) :=
  deliver_districts w_id o_carrier_id (zrange 1 11).

(** The rows it returns. *)
Definition delivery_values (r : Z * Z) : list bytes := [fmt_d r.1; fmt_d r.2].

(** ** What a call does

    [delivered SN t w carrier d_id C C' r]: one round takes the database [C] to
    [C'], with the amounts of the snapshot [SN]. *)

Definition delivered_order (SN : db) (t : timestamp) (w_id carrier d_id : Z) (C C' : db)
    (n : new_order_row) : Prop :=
  exists o total amount cs,
    let o_id := atoi (fmt_d (NO_O_ID n)) in
    n ∈ t_new_order C /\ is_new_order w_id d_id n = true
    /\ (forall m, m ∈ t_new_order C -> is_new_order w_id d_id m = true ->
        NO_O_ID n <= NO_O_ID m)
    /\ o ∈ t_orders C /\ is_order o_id w_id d_id o = true
    /\ real_sum (map OL_AMOUNT (arrange (List.filter (is_line o_id w_id d_id) (t_order_line SN))))
       = Some (Some total)
    /\ numeric_in (float4out total) = Some amount
    /\ updated (is_customer w_id d_id (atoi (fmt_d (O_C_ID o)))) (deliver_customer amount)
         (t_customer C) cs
    /\ C' = mk_db (t_warehouse C) (t_district C) cs (t_history C)
              (List.filter (fun r => negb ((NO_O_ID r =? o_id) && is_new_order w_id d_id r))
                 (t_new_order C))
              (map (fun r => if is_order o_id w_id d_id r then set_carrier carrier r else r)
                 (t_orders C))
              (map (fun r => if is_line o_id w_id d_id r then set_delivery_d t r else r)
                 (t_order_line C))
              (t_item C) (t_stock C).

Inductive delivered (SN : db) (t : timestamp) (w_id carrier d_id : Z) (C : db)
  : db -> option (Z * Z) -> Prop :=
| delivered_none :
    (forall n, n ∈ t_new_order C -> is_new_order w_id d_id n = false) ->
    delivered SN t w_id carrier d_id C C None
| delivered_one C' n : delivered_order SN t w_id carrier d_id C C' n ->
    delivered SN t w_id carrier d_id C C' (Some (d_id, atoi (fmt_d (NO_O_ID n)))).

Inductive all_delivered (SN : db) (t : timestamp) (w_id carrier : Z)
  : list Z -> db -> db -> list (Z * Z) -> Prop :=
| all_delivered_nil C : all_delivered SN t w_id carrier [] C C []
| all_delivered_cons d_id d_ids C C' C'' r rs :
    delivered SN t w_id carrier d_id C C' r ->
    all_delivered SN t w_id carrier d_ids C' C'' rs ->
    all_delivered SN t w_id carrier (d_id :: d_ids) C C'' (option_list r ++ rs).

(** Why a call fails.  It never crashes, and [DELIVERY_2] deletes the row that
    [DELIVERY_1] read. *)
Inductive delivery_fails (w_id : Z) (D : db) : option sp_error -> Prop :=
| dfails_order n :
    n ∈ t_new_order D -> NO_W_ID n = w_id ->
    (forall o, o ∈ t_orders D -> is_order (atoi (fmt_d (NO_O_ID n))) w_id (NO_D_ID n) o = false) ->
    delivery_fails w_id D (Some (Internal "DELIVERY_3"))
| dfails_lines n :
    n ∈ t_new_order D -> NO_W_ID n = w_id ->
    (forall l, l ∈ t_order_line D -> is_line (atoi (fmt_d (NO_O_ID n))) w_id (NO_D_ID n) l = false) ->
    delivery_fails w_id D (Some NoAmount)
| dfails_sum l : real_sum l = None -> delivery_fails w_id D (Some Server)
| dfails_numeric s : numeric_in s = None -> delivery_fails w_id D (Some Server)
| dfails_customer amount r : deliver_customer amount r = None ->
    delivery_fails w_id D (Some Server).

Context {laws : PgLaws pg}.

Lemma older_total x y : older x y = true \/ older y x = true.
Proof. unfold older. rewrite !Z.leb_le. lia. Qed.

Lemma older_trans x y z : older x y = true -> older y z = true -> older x z = true.
Proof. unfold older. rewrite !Z.leb_le. lia. Qed.

(** Between two rounds: the new orders that are left are some of the
    snapshot's, its orders are still there.  Rounds only meet numbers that
    survive [atoi]. *)
Definition between (D C : db) : Prop :=
  (forall n, n ∈ t_new_order C -> n ∈ t_new_order D)
  /\ (forall o, o ∈ t_orders D -> exists o', o' ∈ t_orders C /\ O_ID o' = O_ID o
        /\ O_W_ID o' = O_W_ID o /\ O_D_ID o' = O_D_ID o).

Definition small_ids (D : db) : Prop :=
  forall n, n ∈ t_new_order D -> - 2 ^ 31 <= NO_O_ID n < 2 ^ 31.

Lemma between_delivered D SN t w carrier d_id C C' r :
  between D C -> delivered SN t w carrier d_id C C' r -> between D C'.
Proof.
  intros [Hn Ho] Hd. destruct Hd as [_|C' n (o & total & amount & cs & Hd)]; [by split|].
  cbn zeta in Hd. destruct Hd as (_ & _ & _ & _ & _ & _ & _ & _ & ->). split; cbn.
  - intros m [_ Hm]%elem_of_list_filter_bool. auto.
  - intros o1 (o2 & Ho2 & E1 & E2 & E3)%Ho.
    set (f := fun r => if is_order (atoi (fmt_d (NO_O_ID n))) w d_id r then set_carrier carrier r else r).
    exists (f o2). split; [by apply (list_elem_of_fmap_2 f)|].
    unfold f. destruct (is_order _ _ _ _); done.
Qed.

Lemma wp_deliver_district D w carrier d_id s Q :
  small_ids D -> snapshot s = D -> between D (current s) ->
  (forall C' r, delivered D (now s) w carrier d_id (current s) C' r ->
     Q r (mk_session D C' (now s))) ->
  wp (delivery_fails w D) (deliver_district w carrier d_id) Q s.
Proof.
  intros Hsmall HD [Hbn Hbo] HQ. unfold deliver_district, DELIVERY_1. wp_step. wp_step. wp_step. wp_step.
  destruct (order_by older _) as [|n l] eqn:Hl; cbn [take].
  { wp_step. destruct s as [sn C t]. cbn in *. subst sn. apply HQ. apply delivered_none.
    intros n Hn. eapply arrange_nil; [|done]. by eapply order_by_nil. }
  assert (Hhead := f_equal head Hl).
  apply order_by_head in Hhead as [Hin Hmin]; [|apply older_total|apply older_trans].
  rewrite elem_of_arrange, elem_of_list_filter_bool in Hin. destruct Hin as [Hkey Hn].
  assert (Hid : atoi (fmt_d (NO_O_ID n)) = NO_O_ID n) by (apply atoi_fmt_d; auto).
  set (o_id := atoi (fmt_d (NO_O_ID n))) in *.
  assert (Hkeys : NO_W_ID n = w /\ NO_D_ID n = d_id).
  { unfold is_new_order in Hkey. by apply andb_true_iff in Hkey as [?%Z.eqb_eq ?%Z.eqb_eq]. }
  destruct Hkeys as [Hkw Hkd].
  wp_step. unfold DELIVERY_2. wp_step.
  destruct (Z.eqb_spec (zlen (List.filter (fun r => (NO_O_ID r =? o_id) && is_new_order w d_id r)
                                (t_new_order (current s)))) 0) as [Hz|_].
  { exfalso. apply zlen_nil in Hz.
    assert (Hx : n ∈ List.filter (fun r => (NO_O_ID r =? o_id) && is_new_order w d_id r)
                       (t_new_order (current s))).
    { rewrite elem_of_list_filter_bool, Hkey, Hid, Z.eqb_refl. done. }
    rewrite Hz in Hx. by apply not_elem_of_nil in Hx. }
  wp_step. unfold DELIVERY_3. apply (wp_update _ _ _ _ _ (set_carrier carrier)).
  { by intros r r' _ _ [= <-]. }
  2: { by intros r _ _ [=]. }
  intros _. wp_step. cbn [current t_orders set_new_order]. apply wp_first_row.
  2: { intros Hnil. apply (dfails_order _ _ n); [auto|done|]. intros o (o' & Ho' & E1 & E2 & E3)%Hbo.
       rewrite Hkd. pose proof (arrange_map_nil _ _ _ _ Hnil Ho') as Hf.
       unfold is_order in *. by rewrite E1, E2, E3 in Hf. }
  intros o1 Ho1. apply arrange_map_head in Ho1 as (o & Ho & Hok & ->).
  wp_step. unfold DELIVERY_5. wp_step. wp_step. apply (wp_update _ _ _ _ _ (set_delivery_d (now s))).
  { by intros r r' _ _ [= <-]. }
  2: { by intros r _ _ [=]. }
  intros _. wp_step. unfold DELIVERY_6. wp_step. wp_step. apply wp_server.
  2: { intros Hnone. by eapply dfails_sum. }
  cbn [snapshot]. rewrite HD. intros [total|] Hsum.
  2: { wp_step. apply (dfails_lines _ _ n); [auto|done|]. rewrite Hkd. intros ol Hol.
       destruct (map OL_AMOUNT _) as [|x xs] eqn:Hm in Hsum; [|].
       - apply map_eq_nil in Hm. exact (arrange_nil _ _ _ Hm Hol).
       - cbn in Hsum. by destruct (foldl _ _ _). }
  wp_step. apply wp_server.
  2: { intros Hnone. by eapply dfails_numeric. }
  intros amount Hamount. wp_step. unfold DELIVERY_7.
  apply (wp_update _ _ _ _ _ (fun r => default r (deliver_customer amount r))).
  { by intros r r' _ _ ->. }
  2: { intros r _ _ Hnone. by eapply dfails_customer. }
  intros Hcs. wp_step. cbn [snapshot current now]. rewrite ?HD. apply HQ. unfold o_id.
  apply delivered_one. exists o, total, amount. eexists. cbn zeta. split_and!; try done.
  - intros m Hm Hmk. apply Z.leb_le. apply Hmin. by rewrite elem_of_arrange, elem_of_list_filter_bool.
Qed.

Lemma wp_deliver_districts D w carrier d_ids s Q :
  small_ids D -> snapshot s = D -> between D (current s) ->
  (forall C' rs, all_delivered D (now s) w carrier d_ids (current s) C' rs ->
     Q rs (mk_session D C' (now s))) ->
  wp (delivery_fails w D) (deliver_districts w carrier d_ids) Q s.
Proof.
  intros Hsmall. revert s Q. induction d_ids as [|d_id d_ids IH]; intros s Q HD Hb HQ; cbn [deliver_districts].
  - wp_step. destruct s as [sn C t]. cbn in *. subst sn. apply HQ. constructor.
  - wp_step. apply wp_deliver_district; [done..|]. intros C' r Hr.
    wp_step. apply IH; [done|by eapply between_delivered|].
    intros C'' rs Hrs. wp_step. apply HQ. by econstructor.
Qed.

Lemma wp_delivery D w carrier t :
  small_ids D ->
  wp (delivery_fails w D) (delivery w carrier)
    (fun rs s => all_delivered D t w carrier (zrange 1 11) D (current s) rs)
    (mk_session D D t).
Proof.
  intros Hsmall. apply wp_deliver_districts; [done|done| |].
  - split; [done|]. intros o Ho. by exists o.
  - intros C' rs Hrs. exact Hrs.
Qed.

End delivery.
