(* ===== verification/SpQueries.v ===== *)
(** * The read-only procedures: Order-Status and Stock-Level
    ([storedproc/pgsql/c/order_status.c], [storedproc/pgsql/c/stock_level.c]) *)

From Stdlib Require Import ZArith Lia SpecFloat String.
From stdpp Require Import base list sorting.
From S2P Require Import Prelude Double Text Tables SpPayment SpDelivery.

Section queries.
Context {pg : Pg}.

(** ** Order-Status *)

Definition ORDER_STATUS_1 (ro : bool) (w_id d_id : Z) (last : bytes) : sp (list customer_row) :=
  l ← spi_select ro t_customer (has_name w_id d_id last);
  mret (order_by first_le l).

Definition ORDER_STATUS_2 (ro : bool) (w_id d_id c_id : Z) : sp (list customer_row) :=
  spi_select ro t_customer (is_customer w_id d_id c_id).

Definition orders_of_customer (w_id d_id c_id : Z) (r : orders_row) : bool :=
  (O_W_ID r =? w_id) && (O_D_ID r =? d_id) && (O_C_ID r =? c_id).

Definition newer (a b : orders_row) : bool := O_ID b <=? O_ID a.

Definition ORDER_STATUS_3 (ro : bool) (w_id d_id c_id : Z) : sp (list orders_row) :=
  l ← spi_select ro t_orders (orders_of_customer w_id d_id c_id);
  mret (take 1 (order_by newer l)).

Definition ORDER_STATUS_4 (ro : bool) (w_id d_id o_id : Z) : sp (list order_line_row) :=
  spi_select ro t_order_line (is_line o_id w_id d_id).

Record os_args := mk_os_args { sa_c_id : Z; sa_c_w_id : Z; sa_c_d_id : Z; sa_c_last : bytes }.

Definition order_status_c_id (a : os_args) : sp Z :=
  if sa_c_id a =? 0 then
    customers ← ORDER_STATUS_1 true (sa_c_w_id a) (sa_c_d_id a) (sa_c_last a);
    let count := zlen customers in
    if 0 <? count then
      c ← deref (customers !! Z.to_nat ((count - 1) / 2));
      mret (atoi (fmt_d (C_ID c)))
    else raise (Internal "ORDER_STATUS_1")
  else mret (sa_c_id a).

(** One [order_status_row]: the five columns of the line, then the header. *)
Definition order_status_values (my_c_id : Z) (c : customer_row) (o_id : Z) (o : orders_row)
    (l : order_line_row) : list (option bytes) :=
  [Some (fmt_d (OL_I_ID l)); Some (fmt_d (OL_SUPPLY_W_ID l));
   Some (float4out (OL_QUANTITY l)); Some (float4out (OL_AMOUNT l));
   timestamp_out <$> OL_DELIVERY_D l;
   Some (fmt_d my_c_id); Some (C_FIRST c); Some (C_MIDDLE c); Some (C_LAST c);
   Some (numeric_out (C_BALANCE c)); Some (fmt_d o_id); fmt_d <$> O_CARRIER_ID o;
   Some (timestamp_out (O_ENTRY_D o))].

Definition order_status (a : os_args) : sp (list (list (option bytes))) :=
  my_c_id ← order_status_c_id a;
  customers ← ORDER_STATUS_2 true (sa_c_w_id a) (sa_c_d_id a) my_c_id;
  c ← first_row "ORDER_STATUS_2" customers;
  orders ← ORDER_STATUS_3 true (sa_c_w_id a) (sa_c_d_id a) my_c_id;
  o ← first_row "ORDER_STATUS_3" orders;
  let o_id := atoi (fmt_d (O_ID o)) in
  lines ← ORDER_STATUS_4 true (sa_c_w_id a) (sa_c_d_id a) o_id;
  if 0 <? zlen lines then
    mret (map (order_status_values my_c_id c o_id o) lines)
  else raise (Internal "ORDER_STATUS_4").

(** ** Stock-Level *)

Definition STOCK_LEVEL_1 (ro : bool) (w_id d_id : Z) : sp (list district_row) :=
  spi_select ro t_district (fun r => (D_W_ID r =? w_id) && (D_ID r =? d_id)).

Definition recent_line (w_id d_id lo hi : Z) (r : order_line_row) : bool :=
  (OL_W_ID r =? w_id) && (OL_D_ID r =? d_id) && (lo <=? OL_O_ID r) && (OL_O_ID r <=? hi).

Definition low (w_id threshold : Z) (r : stock_row) : bool :=
  (S_W_ID r =? w_id) && real_lt_int4 (S_QUANTITY r) threshold.

(** The join of the distinct items [ol] with [stock], counted. *)
Definition STOCK_LEVEL_2 (ro : bool) (w_id d_id threshold lo hi : Z) : sp Z :=
  lines ← spi_select ro t_order_line (recent_line w_id d_id lo hi);
  stocks ← spi_select ro t_stock (low w_id threshold);
  let ol := remove_dups (map OL_I_ID lines) in
  mret (zlen (ol ≫= fun i => List.filter (fun s => S_I_ID s =? i) stocks)).

Definition stock_level (w_id d_id threshold : Z) : sp Z :=
  districts ← STOCK_LEVEL_1 true w_id d_id;
  d ← first_row "STOCK_LEVEL_1" districts;
  let d_next_o_id := atoi (fmt_d (D_NEXT_O_ID d)) in
  count ← STOCK_LEVEL_2 true w_id d_id threshold (d_next_o_id - 20) (d_next_o_id - 1);
  mret (atoi (fmt_d count)).

(** ** What they answer *)

Context {laws : PgLaws pg}.

(** The same choice as Payment's. *)
Definition os_chosen (a : os_args) (D : db) (my_c_id : Z) : Prop :=
  chosen_customer (mk_pay_args 0 0 (sa_c_id a) (sa_c_w_id a) (sa_c_d_id a) (sa_c_last a)
                     (S754_zero false)) D my_c_id.

(** The last order of the customer and all its lines, in some order. *)
Definition order_status_done (a : os_args) (D : db) (rows : list (list (option bytes))) : Prop :=
  exists my_c_id c o lines,
    os_chosen a D my_c_id
    /\ c ∈ t_customer D /\ is_customer (sa_c_w_id a) (sa_c_d_id a) my_c_id c = true
    /\ o ∈ t_orders D /\ orders_of_customer (sa_c_w_id a) (sa_c_d_id a) my_c_id o = true
    /\ (forall o', o' ∈ t_orders D ->
        orders_of_customer (sa_c_w_id a) (sa_c_d_id a) my_c_id o' = true -> O_ID o' <= O_ID o)
    /\ lines ≡ₚ List.filter (is_line (atoi (fmt_d (O_ID o))) (sa_c_w_id a) (sa_c_d_id a))
                  (t_order_line D)
    /\ lines <> []
    /\ rows = map (order_status_values my_c_id c (atoi (fmt_d (O_ID o))) o) lines.

Inductive order_status_fails (a : os_args) (D : db) : option sp_error -> Prop :=
| sfails_1 : sa_c_id a = 0 ->
    (forall c, c ∈ t_customer D -> has_name (sa_c_w_id a) (sa_c_d_id a) (sa_c_last a) c = false) ->
    order_status_fails a D (Some (Internal "ORDER_STATUS_1"))
| sfails_2 my_c_id : os_chosen a D my_c_id ->
    (forall c, c ∈ t_customer D -> is_customer (sa_c_w_id a) (sa_c_d_id a) my_c_id c = false) ->
    order_status_fails a D (Some (Internal "ORDER_STATUS_2"))
| sfails_3 my_c_id : os_chosen a D my_c_id ->
    (forall o, o ∈ t_orders D ->
       orders_of_customer (sa_c_w_id a) (sa_c_d_id a) my_c_id o = false) ->
    order_status_fails a D (Some (Internal "ORDER_STATUS_3"))
| sfails_4 my_c_id o : os_chosen a D my_c_id -> o ∈ t_orders D ->
    orders_of_customer (sa_c_w_id a) (sa_c_d_id a) my_c_id o = true ->
    (forall l, l ∈ t_order_line D ->
       is_line (atoi (fmt_d (O_ID o))) (sa_c_w_id a) (sa_c_d_id a) l = false) ->
    order_status_fails a D (Some (Internal "ORDER_STATUS_4")).

Lemma newer_total x y : newer x y = true \/ newer y x = true.
Proof. unfold newer. rewrite !Z.leb_le. lia. Qed.

Lemma newer_trans x y z : newer x y = true -> newer y z = true -> newer x z = true.
Proof. unfold newer. rewrite !Z.leb_le. lia. Qed.

Lemma wp_order_status_c_id a D s Q : snapshot s = D ->
  (forall my_c_id,
     os_chosen a D my_c_id -> Q my_c_id s) ->
  wp (order_status_fails a D) (order_status_c_id a) Q s.
Proof.
  unfold os_chosen. intros HD HQ. set (p := mk_pay_args _ _ _ _ _ _ _) in HQ.
  change (order_status_c_id a) with
    (if ya_c_id p =? 0 then
       customers ← PAYMENT_5 true (ya_c_w_id p) (ya_c_d_id p) (ya_c_last p);
       if 0 <? zlen customers then
         c ← deref (customers !! Z.to_nat ((zlen customers - 1) / 2));
         mret (atoi (fmt_d (C_ID c)))
       else raise (Internal "ORDER_STATUS_1")
     else mret (ya_c_id p)).
  unfold chosen_customer in HQ. destruct (Z.eqb_spec (ya_c_id p) 0) as [Hz|Hz].
  2: { wp_step. by apply HQ. }
  unfold PAYMENT_5. wp_step. wp_step. wp_step. wp_step. rewrite HD.
  set (l := order_by first_le _).
  assert (Hl : l ≡ₚ List.filter (has_name (ya_c_w_id p) (ya_c_d_id p) (ya_c_last p)) (t_customer D)).
  { unfold l. by rewrite order_by_perm, (arrange_perm _ _). }
  destruct (0 <? zlen l) eqn:Hpos.
  - wp_step. apply wp_deref.
    + intros c Hc. wp_step. apply HQ. exists l, c. split_and!; try done.
      apply order_by_sorted, first_le_total.
    + intros Hnone. apply lookup_ge_None in Hnone. unfold zlen in *. apply Z.ltb_lt in Hpos. exfalso.
      pose proof (Z.div_le_upper_bound (Z.of_nat (List.length l) - 1) 2 (Z.of_nat (List.length l) - 1)).
      lia.
  - wp_step. apply zlen_pos in Hpos. apply sfails_1; [done|]. intros c Hc.
    destruct (has_name _ _ _ c) eqn:Hn; [|done].
    assert (Hin : c ∈ l). { by rewrite Hl, elem_of_list_filter_bool. }
    rewrite Hpos in Hin. by apply not_elem_of_nil in Hin.
Qed.

Lemma wp_order_status a D t :
  wp (order_status_fails a D) (order_status a)
    (fun rows s => order_status_done a D rows /\ current s = D) (mk_session D D t).
Proof.
  unfold order_status. wp_step. apply wp_order_status_c_id; [done|]. intros my_c_id Hch.
  wp_step. unfold ORDER_STATUS_2. wp_step. wp_step. apply wp_first_row.
  2: { intros Hnil. apply (sfails_2 _ _ my_c_id Hch). intros c Hc. exact (arrange_nil _ _ _ Hnil Hc). }
  intros c Hc. apply arrange_head in Hc as [Hc Hkey].
  wp_step. unfold ORDER_STATUS_3. wp_step. wp_step. wp_step. wp_step. apply wp_first_row.
  2: { intros Hnil. apply (sfails_3 _ _ my_c_id Hch). intros o Ho.
       destruct (order_by newer _) eqn:Hord in Hnil; [|done].
       apply order_by_nil in Hord. exact (arrange_nil _ _ _ Hord Ho). }
  intros o Ho.
  assert (Ho' : forall l : list orders_row, head (take 1 l) = head l) by (by intros []).
  rewrite Ho' in Ho. apply order_by_head in Ho as [Hin Hmax]; [|apply newer_total|apply newer_trans].
  rewrite elem_of_arrange, elem_of_list_filter_bool in Hin. destruct Hin as [Hok Ho].
  wp_step. unfold ORDER_STATUS_4. wp_step.
  set (lines := arrange _).
  assert (Hlines : lines ≡ₚ List.filter (is_line (atoi (fmt_d (O_ID o))) (sa_c_w_id a) (sa_c_d_id a))
                              (t_order_line D)) by apply arrange_perm.
  destruct (0 <? zlen _) eqn:Hlen.
  - wp_step. split; [|done]. exists my_c_id, c, o, lines. split_and!; try done.
    + intros o1 Ho1 Hk1. apply Z.leb_le. apply Hmax. by rewrite elem_of_arrange, elem_of_list_filter_bool.
    + intros Hnil. by rewrite Hnil in Hlen.
  - wp_step. apply zlen_pos in Hlen. apply (sfails_4 _ _ my_c_id o Hch Ho Hok). intros l Hl. exact (arrange_nil _ _ _ Hlen Hl).
Qed.

(** The items in short supply: the stock of the warehouse below the threshold
    whose item was sold in the last twenty orders of the district. *)
Definition low_stock (D : db) (w_id d_id threshold next : Z) : list stock_row :=
  List.filter
    (fun s => low w_id threshold s
              && existsb (fun l => recent_line w_id d_id (next - 20) (next - 1) l
                                   && (OL_I_ID l =? S_I_ID s)) (t_order_line D))
    (t_stock D).

Inductive stock_level_fails (w_id d_id : Z) (D : db) : option sp_error -> Prop :=
| lfails_1 : (forall d, d ∈ t_district D -> ~ (D_W_ID d = w_id /\ D_ID d = d_id)) ->
    stock_level_fails w_id d_id D (Some (Internal "STOCK_LEVEL_1")).

(** The join of the distinct items of the lines with the stock counts every row
    of the stock once. *)
Lemma join_count (recent : order_line_row -> bool) (low_ : stock_row -> bool) lines stocks :
  zlen (remove_dups (map OL_I_ID (arrange (List.filter recent lines))) ≫=
        fun i => List.filter (fun s => S_I_ID s =? i) (arrange (List.filter low_ stocks)))
  = zlen (List.filter (fun st => low_ st && existsb (fun l => recent l && (OL_I_ID l =? S_I_ID st)) lines)
            stocks).
Proof.
  rewrite zlen_join by apply NoDup_remove_dups. apply zlen_perm.
  rewrite (filter_arrange_perm _ _ _ (arrange_perm _ _)), filter_filter.
  erewrite filter_ext_bool; [done|]. intros st. cbn. f_equal.
  apply eq_true_iff_eq. rewrite !existsb_elem. split.
  - intros (x & Hx & <-%Z.eqb_eq). apply elem_of_remove_dups, list_elem_of_fmap in Hx as (l & Hi & Hl).
    rewrite elem_of_arrange, elem_of_list_filter_bool in Hl. destruct Hl as [Hr Hl].
    exists l. split; [done|]. by rewrite Hr, Hi, Z.eqb_refl.
  - intros (l & Hl & Hr). apply andb_true_iff in Hr as [Hr <-%Z.eqb_eq].
    exists (OL_I_ID l). rewrite Z.eqb_refl. split; [|done].
    apply elem_of_remove_dups, list_elem_of_fmap. exists l. split; [done|].
    by rewrite elem_of_arrange, elem_of_list_filter_bool.
Qed.

Lemma wp_stock_level w_id d_id threshold D t :
  wp (stock_level_fails w_id d_id D) (stock_level w_id d_id threshold)
    (fun n s => (exists d, d ∈ t_district D /\ D_W_ID d = w_id /\ D_ID d = d_id
       /\ n = atoi (fmt_d (zlen (low_stock D w_id d_id threshold (atoi (fmt_d (D_NEXT_O_ID d)))))))
       /\ current s = D) (mk_session D D t).
Proof.
  unfold stock_level. wp_step. unfold STOCK_LEVEL_1. wp_step. wp_step. apply wp_first_row.
  2: { intros Hnil. apply lfails_1. intros d Hd [E1 E2].
       pose proof (arrange_nil _ _ _ Hnil Hd) as Hf. cbn in Hf.
       by rewrite E1, E2, !Z.eqb_refl in Hf. }
  intros d Hd. apply arrange_head in Hd as [Hd Hk].
  apply andb_true_iff in Hk as [Hk1%Z.eqb_eq Hk2%Z.eqb_eq].
  wp_step. unfold STOCK_LEVEL_2. wp_step. wp_step. wp_step. wp_step. wp_step. wp_step.
  split; [|done]. exists d. split_and!; [done..|]. do 2 f_equal.
  apply join_count.
Qed.

End queries.
