(* ===== verification/SpConsistency.v ===== *)
(** * The consistency conditions of TPC-C, and the procedures that keep them

    [consistent] is the relational part of clause 3.3.2 of TPC-C (conditions 2
    to 7; the conditions on sums of money are not kept by [REAL] arithmetic and
    are left out).  Every procedure preserves it, whether it returns or fails,
    and so does any serial execution of transactions. *)

From Stdlib Require Import ZArith Lia SpecFloat String.
From stdpp Require Import base list sorting.
From S2P Require Import Prelude Double Text Tables SpNewOrder SpPayment SpDelivery SpQueries.

Section consistency.
Context {pg : Pg}.

(** ** The conditions *)

Definition is_order_of (w_id d_id : Z) (o : orders_row) : bool :=
  (O_W_ID o =? w_id) && (O_D_ID o =? d_id).

Definition orders_in (D : db) (w_id d_id : Z) : list orders_row :=
  List.filter (is_order_of w_id d_id) (t_orders D).

Definition new_orders_in (D : db) (w_id d_id : Z) : list new_order_row :=
  List.filter (is_new_order w_id d_id) (t_new_order D).

Definition line_of (o : orders_row) : order_line_row -> bool :=
  is_line (O_ID o) (O_W_ID o) (O_D_ID o).

Definition lines_in (D : db) (o : orders_row) : list order_line_row :=
  List.filter (line_of o) (t_order_line D).

Definition same_id (n : new_order_row) (o : orders_row) : Prop :=
  NO_W_ID n = O_W_ID o /\ NO_D_ID n = O_D_ID o /\ NO_O_ID n = O_ID o.

Record consistent (D : db) : Prop := {
  c_next : forall d, d ∈ t_district D -> 1 <= D_NEXT_O_ID d < 2 ^ 31;
  (** condition 2: the orders of a district are numbered without gap up to its
      counter *)
  c_orders : forall d, d ∈ t_district D ->
    map O_ID (orders_in D (D_W_ID d) (D_ID d)) ≡ₚ zrange 1 (D_NEXT_O_ID d);
  (** conditions 2 and 3: its new orders are the last ones *)
  c_new_orders : forall d, d ∈ t_district D -> exists lo, 1 <= lo <= D_NEXT_O_ID d /\
    map NO_O_ID (new_orders_in D (D_W_ID d) (D_ID d)) ≡ₚ zrange lo (D_NEXT_O_ID d);
  (** condition 5 *)
  c_carrier : forall o, o ∈ t_orders D ->
    (O_CARRIER_ID o = None <-> exists n, n ∈ t_new_order D /\ same_id n o);
  (** conditions 4 and 6: an order has the lines 1 to [o_ol_cnt] *)
  c_lines : forall o, o ∈ t_orders D -> 1 <= O_OL_CNT o /\
    map OL_NUMBER (lines_in D o) ≡ₚ zrange 1 (O_OL_CNT o + 1);
  (** condition 7 *)
  c_delivery : forall o l, o ∈ t_orders D -> l ∈ lines_in D o ->
    (OL_DELIVERY_D l = None <-> O_CARRIER_ID o = None);
  (** no row stands alone *)
  c_line_order : forall l, l ∈ t_order_line D ->
    exists o, o ∈ t_orders D /\ line_of o l = true;
  c_home : forall o, o ∈ t_orders D ->
    exists d, d ∈ t_district D /\ is_order_of (D_W_ID d) (D_ID d) o = true;
  c_new_home : forall n, n ∈ t_new_order D ->
    exists d, d ∈ t_district D /\ is_new_order (D_W_ID d) (D_ID d) n = true }.

(** ** Consequences *)

Lemma is_order_of_spec w d o : is_order_of w d o = true <-> O_W_ID o = w /\ O_D_ID o = d.
Proof. unfold is_order_of. by rewrite andb_true_iff, !Z.eqb_eq. Qed.

Lemma is_new_order_spec w d n : is_new_order w d n = true <-> NO_W_ID n = w /\ NO_D_ID n = d.
Proof. unfold is_new_order. by rewrite andb_true_iff, !Z.eqb_eq. Qed.

Lemma is_line_spec o w d l :
  is_line o w d l = true <-> OL_O_ID l = o /\ OL_W_ID l = w /\ OL_D_ID l = d.
Proof. unfold is_line. rewrite !andb_true_iff, !Z.eqb_eq. tauto. Qed.

Lemma is_order_spec o w d r :
  is_order o w d r = true <-> O_ID r = o /\ O_W_ID r = w /\ O_D_ID r = d.
Proof. unfold is_order. rewrite !andb_true_iff, !Z.eqb_eq. tauto. Qed.

Lemma elem_of_lines_in D o l :
  l ∈ lines_in D o <->
  (OL_O_ID l = O_ID o /\ OL_W_ID l = O_W_ID o /\ OL_D_ID l = O_D_ID o) /\ l ∈ t_order_line D.
Proof. unfold lines_in. rewrite elem_of_list_filter_bool. unfold line_of. by rewrite is_line_spec. Qed.

Section facts.
Context (D : db) (HD : consistent D).

(** The numbers of the orders of a district. *)
Lemma order_id_bound d o : d ∈ t_district D -> o ∈ t_orders D ->
  is_order_of (D_W_ID d) (D_ID d) o = true -> 1 <= O_ID o < D_NEXT_O_ID d.
Proof.
  intros Hd Ho Hk. apply elem_of_zrange. rewrite <- (c_orders D HD d Hd).
  apply list_elem_of_fmap. exists o. unfold orders_in. by rewrite elem_of_list_filter_bool.
Qed.

Lemma new_order_id_bound d n : d ∈ t_district D -> n ∈ t_new_order D ->
  is_new_order (D_W_ID d) (D_ID d) n = true -> 1 <= NO_O_ID n < D_NEXT_O_ID d.
Proof.
  intros Hd Hn Hk. destruct (c_new_orders D HD d Hd) as (lo & Hlo & Hp).
  assert (NO_O_ID n ∈ zrange lo (D_NEXT_O_ID d)) as Hin%elem_of_zrange; [|lia].
  rewrite <- Hp. apply list_elem_of_fmap. exists n. unfold new_orders_in. by rewrite elem_of_list_filter_bool.
Qed.

Lemma consistent_small_ids : small_ids D.
Proof.
  intros n Hn. destruct (c_new_home D HD n Hn) as (d & Hd & Hk).
  pose proof (new_order_id_bound d n Hd Hn Hk). pose proof (c_next D HD d Hd). lia.
Qed.

(** Every new order is an order. *)
Lemma new_order_has_order n : n ∈ t_new_order D -> exists o, o ∈ t_orders D /\ same_id n o.
Proof.
  intros Hn. destruct (c_new_home D HD n Hn) as (d & Hd & Hk).
  pose proof (new_order_id_bound d n Hd Hn Hk) as Hb.
  assert (NO_O_ID n ∈ map O_ID (orders_in D (D_W_ID d) (D_ID d))) as Hin.
  { rewrite (c_orders D HD d Hd). by apply elem_of_zrange. }
  apply list_elem_of_fmap in Hin as (o & Hid & Ho).
  apply elem_of_list_filter_bool in Ho as [Ho1 Ho]. exists o. split; [done|].
  apply is_order_of_spec in Ho1. apply is_new_order_spec in Hk. unfold same_id. intuition congruence.
Qed.

(** Two districts with the same key have the same counter. *)
Lemma same_counter d d' : d ∈ t_district D -> d' ∈ t_district D ->
  D_W_ID d = D_W_ID d' -> D_ID d = D_ID d' -> D_NEXT_O_ID d = D_NEXT_O_ID d'.
Proof.
  intros Hd Hd' E1 E2. pose proof (c_orders D HD d Hd) as H1. pose proof (c_orders D HD d' Hd') as H2.
  rewrite E1, E2, H2 in H1. apply Permutation_length in H1. rewrite !length_zrange in H1.
  pose proof (c_next D HD d Hd). pose proof (c_next D HD d' Hd'). lia.
Qed.

Lemma zrange_NoDup lo hi : NoDup (zrange lo hi).
Proof. apply NoDup_seqZ. Qed.

(** Orders are determined by their key. *)
Lemma order_key_inj o o' : o ∈ t_orders D -> o' ∈ t_orders D ->
  O_ID o = O_ID o' -> O_W_ID o = O_W_ID o' -> O_D_ID o = O_D_ID o' -> o = o'.
Proof.
  intros Ho Ho' E1 E2 E3. destruct (c_home D HD o Ho) as (d & Hd & Hk).
  assert (Hnd : NoDup (map O_ID (orders_in D (D_W_ID d) (D_ID d)))).
  { rewrite (c_orders D HD d Hd). apply zrange_NoDup. }
  assert (Hin : forall x, x ∈ t_orders D -> O_W_ID x = O_W_ID o -> O_D_ID x = O_D_ID o ->
    x ∈ orders_in D (D_W_ID d) (D_ID d)).
  { intros x Hx Ew Ed. unfold orders_in. rewrite elem_of_list_filter_bool. split; [|done].
    apply is_order_of_spec. apply is_order_of_spec in Hk. intuition congruence. }
  specialize (Hin o Ho eq_refl eq_refl) as Hi. specialize (Hin o' Ho' (eq_sym E2) (eq_sym E3)) as Hi'.
  revert Hnd Hi Hi'. generalize (orders_in D (D_W_ID d) (D_ID d)) as l. clear - E1.
  induction l as [|x l IH]; cbn; [by intros _ ?%not_elem_of_nil|].
  intros [Hx Hnd]%NoDup_cons [->|Ho]%elem_of_cons [->|Ho']%elem_of_cons; auto.
  - destruct Hx. rewrite E1. by apply (list_elem_of_fmap_2 O_ID).
  - destruct Hx. rewrite <- E1. by apply (list_elem_of_fmap_2 O_ID).
Qed.
End facts.

(** ** New-Order *)

Lemma lines_done_rows SN w d o i lines rows pps st st' :
  lines_done SN w d o i lines rows pps st st' ->
  map OL_NUMBER rows = zrange (i + 1) (i + 1 + zlen lines)
  /\ forall r, r ∈ rows ->
     OL_O_ID r = o /\ OL_W_ID r = w /\ OL_D_ID r = d /\ OL_DELIVERY_D r = None.
Proof.
  induction 1 as [i st|i line lines row rows pp pps st st1 st2 Hl _ [IH1 IH2]].
  - split; [by rewrite zrange_nil by (unfold zlen; cbn; lia)|by intros ? ?%not_elem_of_nil].
  - destruct (ld_key _ _ _ _ _ _ _ _ _ _ Hl) as (K1 & K2 & K3 & K4 & _ & _ & K5 & _). split.
    + cbn [map]. rewrite IH1, K4, zlen_cons, (zrange_cons (i + 1)) by (unfold zlen; lia).
      do 2 f_equal. lia.
    + intros r [->|Hr]%elem_of_cons; auto.
Qed.

Lemma length_argument_lines a : List.length (na_lines a) = 15%nat -> 1 <= na_o_ol_cnt a <= 15 ->
  zlen (take (Z.to_nat (na_o_ol_cnt a)) (argument_lines a)) = na_o_ol_cnt a.
Proof.
  intros Hlen Hcnt. unfold zlen, argument_lines.
  rewrite length_take, length_map, length_take. lia.
Qed.

(** The tables that [new_order_done] describes: order [o_id] enters the district
    of [d]. *)
Section insert_order.
Context (D : db) (HD : consistent D).
Context (d : district_row) (Hd : d ∈ t_district D) (Hmax : D_NEXT_O_ID d + 1 < 2 ^ 31).
Context (c_id cnt : Z) (t : timestamp) (all_local : double) (Hcnt : 1 <= cnt).
Context (rows : list order_line_row) (st' : list stock_row).
Context (Hnums : map OL_NUMBER rows = zrange 1 (cnt + 1)).
Context (Hrows : forall r, r ∈ rows -> OL_O_ID r = D_NEXT_O_ID d /\ OL_W_ID r = D_W_ID d
  /\ OL_D_ID r = D_ID d /\ OL_DELIVERY_D r = None).

Let fresh : orders_row :=
  mk_orders (D_NEXT_O_ID d) (D_ID d) (D_W_ID d) c_id t None cnt all_local.
Let bump (r : district_row) : district_row :=
  if (D_W_ID r =? D_W_ID d) && (D_ID r =? D_ID d) then set_next_o_id (D_NEXT_O_ID r + 1) r else r.
Let D' : db :=
  mk_db (t_warehouse D) (map bump (t_district D)) (t_customer D) (t_history D)
    (t_new_order D ++ [mk_new_order_row (D_NEXT_O_ID d) (D_ID d) (D_W_ID d)])
    (t_orders D ++ [fresh]) (t_order_line D ++ rows) (t_item D) st'.

Lemma bump_key r : D_W_ID (bump r) = D_W_ID r /\ D_ID (bump r) = D_ID r.
Proof. unfold bump. by destruct (_ && _). Qed.

Lemma bump_counter r : r ∈ t_district D ->
  (D_W_ID r = D_W_ID d /\ D_ID r = D_ID d /\ D_NEXT_O_ID r = D_NEXT_O_ID d
   /\ D_NEXT_O_ID (bump r) = D_NEXT_O_ID d + 1)
  \/ (((D_W_ID d =? D_W_ID r) && (D_ID d =? D_ID r)) = false
      /\ D_NEXT_O_ID (bump r) = D_NEXT_O_ID r).
Proof.
  intros Hr. unfold bump. rewrite (Z.eqb_sym (D_W_ID d)), (Z.eqb_sym (D_ID d)).
  destruct (Z.eqb_spec (D_W_ID r) (D_W_ID d)), (Z.eqb_spec (D_ID r) (D_ID d)); cbn; try by right.
  left. pose proof (same_counter D HD r d Hr Hd). split_and!; try done; rewrite <- H; done.
Qed.

Lemma fresh_id o : o ∈ t_orders D -> O_W_ID o = D_W_ID d -> O_D_ID o = D_ID d ->
  O_ID o <> D_NEXT_O_ID d.
Proof.
  intros Ho E1 E2. pose proof (order_id_bound D HD d o Hd Ho). rewrite is_order_of_spec in H. lia.
Qed.

(** The lines of an old order, and those of the fresh one. *)
Lemma insert_lines_old o : o ∈ t_orders D -> lines_in D' o = lines_in D o.
Proof.
  intros Ho. unfold lines_in, D'. cbn [t_order_line].
  rewrite List.filter_app, (filter_none _ rows), app_nil_r; [done|].
  intros r Hr. apply not_true_is_false. intros Hl%is_line_spec.
  destruct (Hrows r Hr) as (E1 & E2 & E3 & _). apply (fresh_id o Ho); intuition congruence.
Qed.

Lemma insert_lines_fresh : lines_in D' fresh = rows.
Proof.
  unfold lines_in, D'. cbn [t_order_line]. rewrite List.filter_app, filter_none; cbn [app].
  - apply filter_all. intros r Hr. apply is_line_spec. by destruct (Hrows r Hr) as (E1 & E2 & E3 & _).
  - intros l Hl. apply not_true_is_false. intros Hf%is_line_spec. cbn in Hf.
    destruct (c_line_order D HD l Hl) as (o & Ho & Hol%is_line_spec).
    apply (fresh_id o Ho); intuition congruence.
Qed.

Lemma insert_orders r : r ∈ t_district D ->
  map O_ID (orders_in D' (D_W_ID r) (D_ID r)) ≡ₚ zrange 1 (D_NEXT_O_ID (bump r)).
Proof.
  intros Hr. unfold orders_in, D'. cbn [t_orders]. rewrite List.filter_app, map_app.
  pose proof (c_orders D HD r Hr) as Ho. unfold orders_in in Ho. rewrite Ho.
  pose proof (c_next D HD r Hr). cbn [List.filter]. unfold is_order_of, fresh. cbn [O_W_ID O_D_ID].
  destruct (bump_counter r Hr) as [(-> & -> & E & ->)|[-> ->]].
  - rewrite !Z.eqb_refl, E. cbn. by rewrite zrange_snoc by lia.
  - cbn. by rewrite app_nil_r.
Qed.

Lemma insert_new_orders r : r ∈ t_district D -> exists lo, 1 <= lo <= D_NEXT_O_ID (bump r) /\
  map NO_O_ID (new_orders_in D' (D_W_ID r) (D_ID r)) ≡ₚ zrange lo (D_NEXT_O_ID (bump r)).
Proof.
  intros Hr. unfold new_orders_in, D'. cbn [t_new_order]. rewrite List.filter_app, map_app.
  destruct (c_new_orders D HD r Hr) as (lo & Hlo & Hp). unfold new_orders_in in Hp. exists lo.
  rewrite Hp. cbn [List.filter]. unfold is_new_order. cbn [NO_W_ID NO_D_ID].
  destruct (bump_counter r Hr) as [(-> & -> & E & ->)|[-> ->]].
  - rewrite !Z.eqb_refl, E. cbn. rewrite zrange_snoc by lia. split; [lia|done].
  - cbn. by rewrite app_nil_r.
Qed.

Lemma insert_carrier o : o ∈ t_orders D ++ [fresh] ->
  (O_CARRIER_ID o = None <-> exists n, n ∈ t_new_order D' /\ same_id n o).
Proof.
  intros [Ho|Ho]%elem_of_app.
  - rewrite (c_carrier D HD o Ho). split; intros (n & Hn & Hid).
    + exists n. split; [apply elem_of_app; by left|done].
    + apply elem_of_app in Hn as [Hn|Hn]; [by exists n|]. apply list_elem_of_singleton in Hn as ->.
      destruct Hid as (E1 & E2 & E3). cbn in *. by destruct (fresh_id o Ho).
  - apply list_elem_of_singleton in Ho as ->. split; [|done]. intros _.
    exists (mk_new_order_row (D_NEXT_O_ID d) (D_ID d) (D_W_ID d)).
    split; [apply elem_of_app; right; by left|done].
Qed.

Lemma consistent_insert_order : consistent D'.
Proof.
  split; cbn [t_district t_orders t_new_order t_order_line D'].
  - intros d' (r & -> & Hr)%list_elem_of_fmap. pose proof (c_next D HD r Hr).
    pose proof (c_next D HD d Hd). destruct (bump_counter r Hr) as [(_ & _ & _ & ->)|[_ ->]]; lia.
  - intros d' (r & -> & Hr)%list_elem_of_fmap. destruct (bump_key r) as [-> ->].
    by apply insert_orders.
  - intros d' (r & -> & Hr)%list_elem_of_fmap. destruct (bump_key r) as [-> ->].
    by apply insert_new_orders.
  - apply insert_carrier.
  - intros o [Ho|Ho]%elem_of_app.
    + rewrite insert_lines_old by done. by apply (c_lines D HD).
    + apply list_elem_of_singleton in Ho as ->. by rewrite insert_lines_fresh, Hnums.
  - intros o l [Ho|Ho]%elem_of_app Hl.
    + rewrite insert_lines_old in Hl by done. by apply (c_delivery D HD).
    + apply list_elem_of_singleton in Ho as ->. rewrite insert_lines_fresh in Hl.
      by destruct (Hrows l Hl) as (_ & _ & _ & ->).
  - intros l [Hl|Hl]%elem_of_app.
    + destruct (c_line_order D HD l Hl) as (o & Ho & Hk). exists o.
      split; [apply elem_of_app; by left|done].
    + exists fresh. split; [apply elem_of_app; right; by left|].
      apply is_line_spec. by destruct (Hrows l Hl) as (E1 & E2 & E3 & _).
  - intros o [Ho|Ho]%elem_of_app.
    + destruct (c_home D HD o Ho) as (r & Hr & Hk). exists (bump r).
      destruct (bump_key r) as [-> ->]. split; [by apply (list_elem_of_fmap_2 bump)|done].
    + apply list_elem_of_singleton in Ho as ->. exists (bump d). destruct (bump_key d) as [-> ->].
      split; [by apply (list_elem_of_fmap_2 bump)|]. by apply is_order_of_spec.
  - intros n [Hn|Hn]%elem_of_app.
    + destruct (c_new_home D HD n Hn) as (r & Hr & Hk). exists (bump r).
      destruct (bump_key r) as [-> ->]. split; [by apply (list_elem_of_fmap_2 bump)|done].
    + apply list_elem_of_singleton in Hn as ->. exists (bump d). destruct (bump_key d) as [-> ->].
      split; [by apply (list_elem_of_fmap_2 bump)|]. by apply is_new_order_spec.
Qed.
End insert_order.

Lemma new_order_consistent a t D D' res :
  consistent D -> List.length (na_lines a) = 15%nat -> 1 <= na_o_ol_cnt a <= 15 ->
  new_order_done a t D res D' -> consistent D'.
Proof.
  intros HD Hlen Hcnt (d & rows & st' & Hd & Hw & Hi & Hmax & Hres & _ & Hlines & ->).
  assert (Hid : res_o_id res = D_NEXT_O_ID d).
  { pose proof (c_next D HD d Hd). rewrite Hres. apply atoi_fmt_d. lia. }
  apply lines_done_rows in Hlines as [Hnums Hrows].
  rewrite length_argument_lines in Hnums by done. rewrite Hid in *. rewrite <- Hw, <- Hi in *.
  apply consistent_insert_order; try done; [lia|]. rewrite Hnums. f_equal. lia.
Qed.

(** ** Payment *)

(** The conditions only speak of the keys and counters of the districts and of
    three more tables. *)
Lemma consistent_frame D D' (f : district_row -> district_row) :
  (forall r, D_W_ID (f r) = D_W_ID r /\ D_ID (f r) = D_ID r /\ D_NEXT_O_ID (f r) = D_NEXT_O_ID r) ->
  t_district D' = map f (t_district D) -> t_orders D' = t_orders D ->
  t_new_order D' = t_new_order D -> t_order_line D' = t_order_line D ->
  consistent D -> consistent D'.
Proof.
  intros Hf Ed Eo En El HD.
  assert (Hin : forall r, r ∈ t_district D' -> exists r0, r0 ∈ t_district D /\ D_W_ID r = D_W_ID r0
    /\ D_ID r = D_ID r0 /\ D_NEXT_O_ID r = D_NEXT_O_ID r0).
  { intros r Hr. rewrite Ed in Hr. apply list_elem_of_fmap in Hr as (r0 & -> & Hr). exists r0.
    destruct (Hf r0) as (-> & -> & ->). done. }
  assert (Hout : forall r, r ∈ t_district D -> f r ∈ t_district D').
  { intros r Hr. rewrite Ed. by apply (list_elem_of_fmap_2 f). }
  assert (Hli : forall o, lines_in D' o = lines_in D o) by (intros; unfold lines_in; by rewrite El).
  split; unfold orders_in, new_orders_in; rewrite ?Eo, ?En, ?El; try setoid_rewrite Hli.
  - intros r (r0 & Hr0 & _ & _ & ->)%Hin. by apply (c_next D HD).
  - intros r (r0 & Hr0 & -> & -> & ->)%Hin. by apply (c_orders D HD).
  - intros r (r0 & Hr0 & -> & -> & ->)%Hin. by apply (c_new_orders D HD).
  - apply (c_carrier D HD).
  - apply (c_lines D HD).
  - apply (c_delivery D HD).
  - apply (c_line_order D HD).
  - intros o (r & Hr & Hk)%(c_home D HD). exists (f r). destruct (Hf r) as (-> & -> & _). auto.
  - intros n (r & Hr & Hk)%(c_new_home D HD). exists (f r). destruct (Hf r) as (-> & -> & _). auto.
Qed.

Lemma payment_consistent a t D pp D' :
  consistent D -> payment_done a t D pp D' -> consistent D'.
Proof.
  intros HD (w & d & c & c0 & c1 & info & ws & ds & cs & _ & _ & _ & _ & _ & _ & _ & _ & _ & [Hall Hds]
             & _ & _ & _ & _ & _ & _ & ->).
  eapply consistent_frame; [|exact Hds|done..]. intros r. cbn beta.
  destruct (is_district (ya_d_id a) (ya_w_id a) r) eqn:Hk; [|done].
  unfold add_d_ytd. by destruct (numeric_add_real _ _).
Qed.

(** ** Delivery *)

(** The tables that matter after the oldest new order [n] of a district has been
    delivered. *)
Definition order_delivered (t : timestamp) (w_id carrier d_id : Z) (C C' : db)
    (n : new_order_row) : Prop :=
  n ∈ t_new_order C /\ is_new_order w_id d_id n = true
  /\ (forall m, m ∈ t_new_order C -> is_new_order w_id d_id m = true -> NO_O_ID n <= NO_O_ID m)
  /\ t_district C' = t_district C
  /\ t_orders C' = map (fun r => if is_order (NO_O_ID n) w_id d_id r then set_carrier carrier r else r)
                     (t_orders C)
  /\ t_order_line C' = map (fun r => if is_line (NO_O_ID n) w_id d_id r then set_delivery_d t r else r)
                         (t_order_line C)
  /\ t_new_order C' = List.filter (fun r => negb ((NO_O_ID r =? NO_O_ID n) && is_new_order w_id d_id r))
                        (t_new_order C).

Lemma delivered_tables SN t w_id carrier d_id C C' n : consistent C ->
  delivered_order SN t w_id carrier d_id C C' n -> order_delivered t w_id carrier d_id C C' n.
Proof.
  intros HC (o & total & amount & cs & Hn & Hk & Hmin & _ & _ & _ & _ & _ & ->).
  pose proof (atoi_fmt_d (NO_O_ID n) (consistent_small_ids C HC n Hn)) as Hid.
  unfold order_delivered. cbn [t_district t_orders t_order_line t_new_order].
  rewrite Hid. done.
Qed.

Section deliver_order.
Context (C C' : db) (t : timestamp) (w_id carrier d_id : Z) (n : new_order_row).
Context (HC : consistent C) (Hdone : order_delivered t w_id carrier d_id C C' n).

Let gone (r : new_order_row) : bool := (NO_O_ID r =? NO_O_ID n) && is_new_order w_id d_id r.
Let carry (r : orders_row) : orders_row :=
  if is_order (NO_O_ID n) w_id d_id r then set_carrier carrier r else r.
Let arrive (r : order_line_row) : order_line_row :=
  if is_line (NO_O_ID n) w_id d_id r then set_delivery_d t r else r.

Lemma changes : n ∈ t_new_order C /\ is_new_order w_id d_id n = true
  /\ (forall m, m ∈ t_new_order C -> is_new_order w_id d_id m = true -> NO_O_ID n <= NO_O_ID m)
  /\ t_district C' = t_district C /\ t_orders C' = map carry (t_orders C)
  /\ t_order_line C' = map arrive (t_order_line C)
  /\ t_new_order C' = List.filter (fun r => negb (gone r)) (t_new_order C).
Proof. exact Hdone. Qed.

Lemma carry_key o : O_ID (carry o) = O_ID o /\ O_W_ID (carry o) = O_W_ID o
  /\ O_D_ID (carry o) = O_D_ID o /\ O_OL_CNT (carry o) = O_OL_CNT o.
Proof. unfold carry. by destruct (is_order _ _ _ _). Qed.

Lemma arrive_key l : OL_O_ID (arrive l) = OL_O_ID l /\ OL_W_ID (arrive l) = OL_W_ID l
  /\ OL_D_ID (arrive l) = OL_D_ID l /\ OL_NUMBER (arrive l) = OL_NUMBER l.
Proof. unfold arrive. by destruct (is_line _ _ _ _). Qed.

Lemma delivered_lines o : lines_in C' (carry o) = map arrive (lines_in C o).
Proof.
  destruct changes as (_ & _ & _ & _ & _ & El & _). unfold lines_in, line_of.
  destruct (carry_key o) as (-> & -> & -> & _). rewrite El. apply filter_map_key.
  intros l. unfold is_line at 1. destruct (arrive_key l) as (-> & -> & -> & _). done.
Qed.

Lemma delivered_orders w d : map O_ID (orders_in C' w d) = map O_ID (orders_in C w d).
Proof.
  destruct changes as (_ & _ & _ & _ & Eo & _). unfold orders_in. rewrite Eo.
  rewrite (filter_map_key _ carry), (map_map_key O_ID carry); [done| |].
  - intros x. by destruct (carry_key x) as (-> & _).
  - intros x. unfold is_order_of. by destruct (carry_key x) as (_ & -> & -> & _).
Qed.

(** The oldest new order leaves its district, no other one does. *)
Lemma delivered_new_orders d : d ∈ t_district C -> exists lo, 1 <= lo <= D_NEXT_O_ID d /\
  map NO_O_ID (new_orders_in C' (D_W_ID d) (D_ID d)) ≡ₚ zrange lo (D_NEXT_O_ID d).
Proof.
  destruct changes as (Hn & Hk & Hmin & _ & _ & _ & En). intros Hd.
  destruct (c_new_orders C HC d Hd) as (lo & Hlo & Hp). unfold new_orders_in in *.
  rewrite En, filter_filter.
  destruct (decide (D_W_ID d = w_id /\ D_ID d = d_id)) as [[E1 E2]|Hne].
  - rewrite E1, E2 in *. exists (lo + 1).
    assert (Hids : forall m, m ∈ t_new_order C -> is_new_order w_id d_id m = true ->
      lo <= NO_O_ID m < D_NEXT_O_ID d).
    { intros m Hm Hmk. apply elem_of_zrange. rewrite <- Hp. apply list_elem_of_fmap. exists m.
      by rewrite elem_of_list_filter_bool. }
    pose proof (Hids n Hn Hk) as Hnb.
    assert (NO_O_ID n = lo) as Hlo_n.
    { assert (lo ∈ map NO_O_ID (List.filter (is_new_order w_id d_id) (t_new_order C))) as Hin.
      { rewrite Hp, elem_of_zrange. lia. }
      apply list_elem_of_fmap in Hin as (m & -> & Hm). apply elem_of_list_filter_bool in Hm as [Hmk Hm].
      pose proof (Hmin m Hm Hmk). pose proof (Hids m Hm Hmk). lia. }
    split; [lia|]. erewrite (filter_ext_bool _ (fun m => is_new_order w_id d_id m && negb (NO_O_ID m =? lo))).
    + rewrite <- filter_filter, (filter_map_comm NO_O_ID (fun i => negb (i =? lo))).
      rewrite (filter_arrange_perm _ _ _ Hp), zrange_cons by lia. cbn. rewrite Z.eqb_refl. cbn.
      rewrite filter_all; [done|]. intros x Hx%elem_of_zrange.
      destruct (Z.eqb_spec x lo); [lia|done].
    + intros m. unfold gone. rewrite Hlo_n. by destruct (is_new_order _ _ m), (NO_O_ID m =? lo).
  - exists lo. split; [done|]. erewrite filter_ext_bool; [exact Hp|]. intros m. cbn.
    unfold gone, is_new_order. destruct (Z.eqb_spec (NO_W_ID m) (D_W_ID d)),
      (Z.eqb_spec (NO_D_ID m) (D_ID d)), (Z.eqb_spec (NO_W_ID m) w_id),
      (Z.eqb_spec (NO_D_ID m) d_id); cbn; rewrite ?andb_false_r; try done.
    all: exfalso; apply Hne; split; congruence.
Qed.

Lemma delivered_carrier o : o ∈ t_orders C ->
  (O_CARRIER_ID (carry o) = None <-> exists m, m ∈ t_new_order C' /\ same_id m (carry o)).
Proof.
  destruct changes as (Hn & Hk & _ & _ & _ & _ & En). intros Ho. rewrite En.
  unfold same_id. destruct (carry_key o) as (-> & -> & -> & _).
  apply is_new_order_spec in Hk as [Hk1 Hk2]. unfold carry.
  destruct (is_order (NO_O_ID n) w_id d_id o) eqn:Hio.
  - split; [done|]. intros (m & Hm & E1 & E2 & E3). apply is_order_spec in Hio as (F1 & F2 & F3).
    apply elem_of_list_filter_bool in Hm as [Hg _]. unfold gone, is_new_order in Hg.
    by rewrite E1, E2, E3, F1, F2, F3, !Z.eqb_refl in Hg.
  - rewrite (c_carrier C HC o Ho). split; intros (m & Hm & Hid); exists m.
    + split; [|exact Hid]. apply elem_of_list_filter_bool. split; [|done].
      destruct (gone m) eqn:Hg; [|done]. exfalso. unfold gone in Hg.
      apply andb_true_iff in Hg as [Hg1%Z.eqb_eq Hg2%is_new_order_spec].
      destruct Hid as (E1 & E2 & E3). apply not_true_iff_false in Hio. apply Hio, is_order_spec.
      intuition congruence.
    + apply elem_of_list_filter_bool in Hm as [_ Hm]. done.
Qed.

Lemma delivered_delivery o l : o ∈ t_orders C -> l ∈ lines_in C o ->
  (OL_DELIVERY_D (arrive l) = None <-> O_CARRIER_ID (carry o) = None).
Proof.
  intros Ho Hl. pose proof (c_delivery C HC o l Ho Hl) as Hd.
  apply elem_of_lines_in in Hl as [(E1 & E2 & E3) _]. unfold arrive, carry, is_line, is_order.
  rewrite E1, E2, E3. by destruct (_ && _).
Qed.

Lemma order_delivered_consistent : consistent C'.
Proof.
  destruct changes as (_ & _ & _ & Ed & Eo & El & En). split; rewrite ?Ed.
  - apply (c_next C HC).
  - intros d Hd. rewrite delivered_orders. by apply (c_orders C HC).
  - apply delivered_new_orders.
  - rewrite Eo. intros o' (o & -> & Ho)%list_elem_of_fmap. by apply delivered_carrier.
  - rewrite Eo. intros o' (o & -> & Ho)%list_elem_of_fmap. rewrite delivered_lines.
    rewrite (map_map_key OL_NUMBER arrive); [|intros l; apply arrive_key].
    destruct (carry_key o) as (_ & _ & _ & ->). by apply (c_lines C HC).
  - rewrite Eo. intros o' l' (o & -> & Ho)%list_elem_of_fmap Hl. rewrite delivered_lines in Hl.
    apply list_elem_of_fmap in Hl as (l & -> & Hl). by apply delivered_delivery.
  - rewrite El, Eo. intros l' (l & -> & Hl)%list_elem_of_fmap.
    destruct (c_line_order C HC l Hl) as (o & Ho & Hk). exists (carry o).
    split; [by apply (list_elem_of_fmap_2 carry)|]. revert Hk. unfold line_of. rewrite !is_line_spec.
    destruct (carry_key o) as (-> & -> & -> & _), (arrive_key l) as (-> & -> & -> & _). done.
  - rewrite Eo. intros o' (o & -> & Ho)%list_elem_of_fmap.
    destruct (c_home C HC o Ho) as (d & Hd & Hk). exists d. split; [done|]. revert Hk.
    rewrite !is_order_of_spec. by destruct (carry_key o) as (_ & -> & -> & _).
  - rewrite En. intros m [_ Hm]%elem_of_list_filter_bool. by apply (c_new_home C HC).
Qed.
End deliver_order.

Lemma all_delivered_consistent SN t w carrier d_ids C C' rs :
  all_delivered SN t w carrier d_ids C C' rs -> consistent C -> consistent C'.
Proof.
  induction 1 as [C|d_id d_ids C C1 C2 r rs Hd _ IH]; [done|]. intros HC. apply IH.
  destruct Hd as [_|C' n Hd]; [done|]. by eapply order_delivered_consistent, delivered_tables.
Qed.
End consistency.
