(* ===== verification/SpSample.v ===== *)
(** * A server to evaluate the procedures on

    An instance of [Pg] whose amounts of money are integers, whose time is a
    counter, which adds integers to the whole part of a [REAL], compares whole
    parts and answers
    rows in reverse, with a small database, for the
    examples of the theorems on the stored procedures. *)

From Stdlib Require Import ZArith Lia SpecFloat String.
From stdpp Require Import base list sorting.
From S2P Require Import Prelude Double Text Tables SpNewOrder SpPayment SpDelivery SpConsistency.

(** Lexicographic order of byte strings. *)
Fixpoint bytes_le (s t : bytes) : bool :=
  match s, t with
  | [], _ => true
  | _ :: _, [] => false
  | a :: s', b :: t' => (a <? b) || ((a =? b) && bytes_le s' t')
  end.

Lemma bytes_le_total s t : bytes_le s t = true \/ bytes_le t s = true.
Proof.
  revert t. induction s as [|a s IH]; intros [|b t]; cbn; auto.
  destruct (Z.ltb_spec a b), (Z.eqb_spec a b), (Z.ltb_spec b a), (Z.eqb_spec b a); cbn;
    auto; try lia; apply IH.
Qed.

Lemma bytes_le_trans s t u :
  bytes_le s t = true -> bytes_le t u = true -> bytes_le s u = true.
Proof.
  revert t u. induction s as [|a s IH]; intros [|b t] [|c u]; cbn; try done.
  destruct (Z.ltb_spec a b), (Z.eqb_spec a b), (Z.ltb_spec b c), (Z.eqb_spec b c),
    (Z.ltb_spec a c), (Z.eqb_spec a c); cbn; try done; try lia. apply IH.
Qed.

Definition sample_pg : Pg := {|
  numeric := Z;
  timestamp := Z;
  float4out f := if dmag f mod 2 ^ 1074 =? 0 then fmt_d (d_to_Z f) else fmt_f 2 f;
  numeric_out := fmt_d;
  timestamp_out := fmt_d;
  numeric_in s := Some (d_to_Z (atof s));
  real_add_int4 f z := Some (float_of_int (d_to_Z f + z));
  real_sub_int4 f z := Some (float_of_int (d_to_Z f - z));
  real_add_real f g := Some (to_float (dadd f g));
  real_lt_int4 f z := d_to_Z f <? z;
  numeric_add_int4 a z := Some (a + z);
  numeric_add_real a f := Some (a + d_round f);
  numeric_sub_real a f := Some (a - d_round f);
  numeric_add a b := Some (a + b);
  text_prefix n s := take (Z.to_nat n) s;
  varchar n s := if zlen s <=? n then Some s else None;
  text_le := bytes_le;
  arrange A l := rev l |}.

Lemma sample_laws : PgLaws sample_pg.
Proof.
  split.
  - intros A l. symmetry. apply Permutation_rev.
  - apply bytes_le_total.
  - apply bytes_le_trans.
Qed.

#[local] Existing Instance sample_pg.

Definition sample_customer (id : Z) (first credit : string) : customer_row :=
  mk_customer id 1 1 (lit first) (lit "OE") (lit "BARBARBAR") (lit "Elm St 1") [] (lit "Salem")
    (lit "OR") (lit "123411111") (lit "0123456789012345") 0 (lit credit) 50000
    (decimal 1 1) (-10) 10 (float_of_int 1) (float_of_int 0) (lit "data").

Definition nuts : stock_row :=
  mk_stock 1 1 (float_of_int 20) (repeat (lit "dist") 10) 0 (float_of_int 0)
    (float_of_int 0) (lit "an ORIGINAL").

(** One warehouse and district, three customers, two items in stock, and two
    orders, the second of which is not delivered. *)
Definition sample_db : db := {|
  t_warehouse := [mk_warehouse 1 (lit "north") (lit "a") (lit "b") (lit "c") (lit "OR")
                    (lit "123411111") (to_float (decimal 5 2)) 300000];
  t_district := [mk_district 1 1 (lit "first") (lit "a") (lit "b") (lit "c") (lit "OR")
                   (lit "123411111") (to_float (decimal 5 2)) 30000 3];
  t_customer := [sample_customer 1 "Cy" "GC"; sample_customer 2 "Al" "BC"; sample_customer 3 "Bo" "GC"];
  t_history := [];
  t_new_order := [mk_new_order_row 2 1 1];
  t_orders := [mk_orders 1 1 1 3 0 (Some 7) 1 (float_of_int 1);
               mk_orders 2 1 1 1 0 None 2 (float_of_int 1)];
  t_order_line := [mk_order_line 1 1 1 1 1 1 (Some 0) (float_of_int 5) (decimal 0 0) (lit "d");
                   mk_order_line 2 1 1 1 2 1 None (float_of_int 5) (to_float (decimal 150 2)) (lit "d");
                   mk_order_line 2 1 1 2 1 1 None (float_of_int 5) (to_float (decimal 250 2)) (lit "d")];
  t_item := [mk_item 1 1 (lit "nut") (to_float (decimal 150 2)) (lit "ORIGINAL");
             mk_item 2 1 (lit "bolt") (to_float (decimal 325 2)) (lit "plain")];
  t_stock := [nuts;
              mk_stock 2 1 (float_of_int 50) (repeat (lit "dist") 10) 0 (float_of_int 0)
                (float_of_int 0) (lit "x")] |}.

Lemma sample_consistent : consistent sample_db.
Proof.
  assert (Hdistrict : forall d, d ∈ t_district sample_db -> d = List.hd d (t_district sample_db))
    by (intros d ->%list_elem_of_singleton; done).
  split.
  - intros d Hd%list_elem_of_singleton. subst. cbn. lia.
  - intros d Hd%list_elem_of_singleton. subst. vm_compute. done.
  - intros d Hd%list_elem_of_singleton. subst. exists 2. split; [cbn; lia|]. vm_compute. done.
  - intros o Ho. cbn in Ho. apply elem_of_cons in Ho as [->|Ho]; [|apply list_elem_of_singleton in Ho as ->]; cbn.
    + split; [done|]. intros (n & ->%list_elem_of_singleton & _ & _ & ?). done.
    + split; [intros _|done]. eexists. split; [left|done].
  - intros o Ho. cbn in Ho. apply elem_of_cons in Ho as [->|Ho]; [|apply list_elem_of_singleton in Ho as ->];
      (split; [cbn; lia|vm_compute; done]).
  - intros o l Ho Hl. cbn in Ho.
    apply elem_of_cons in Ho as [->|Ho]; [|apply list_elem_of_singleton in Ho as ->].
    + change (lines_in sample_db _) with [List.hd l (t_order_line sample_db)] in Hl.
      apply list_elem_of_singleton in Hl as ->. done.
    + change (lines_in sample_db _) with (List.tl (t_order_line sample_db)) in Hl. cbn in Hl.
      apply elem_of_cons in Hl as [->|Hl]; [done|apply list_elem_of_singleton in Hl as ->]. done.
  - intros l Hl. cbn in Hl.
    apply elem_of_cons in Hl as [->|Hl]; [eexists; split; [left|done]|].
    apply elem_of_cons in Hl as [->|Hl]; [eexists; split; [right; left|done]|].
    apply list_elem_of_singleton in Hl as ->. eexists. split; [right; left|done].
  - intros o Ho. cbn in Ho. apply elem_of_cons in Ho as [->|Ho]; [|apply list_elem_of_singleton in Ho as ->];
      (eexists; split; [left|done]).
  - intros n ->%list_elem_of_singleton. eexists. split; [left|done].
Qed.

(** An order for five nuts and ten bolts, and fifteen times ten nuts. *)
Definition sample_order : no_args :=
  mk_no_args 1 1 1 1 2 ([Some (1, 1, 5); Some (2, 1, 10)] ++ repeat None 13).
Definition greedy_order : no_args :=
  mk_no_args 1 1 1 1 15 (repeat (Some (1, 1, 10)) 15).

(** An item that does not exist in the last line. *)
Definition unused_item_order : no_args :=
  mk_no_args 1 1 1 1 2 ([Some (1, 1, 5); Some (0, 1, 10)] ++ repeat None 13).

(** Payments by number and by name. *)
Definition sample_payment : pay_args := mk_pay_args 1 1 1 1 1 [] (float_of_int 7).
Definition named_payment : pay_args := mk_pay_args 1 1 0 1 1 (lit "BARBARBAR") (float_of_int 7).

(** What the statements of the C code compute on it. *)
Example sample_order_runs :
  match (call (new_order sample_order) 9 sample_db).1 with
  | inl res => (res_o_id res, map pp_s_quantity (res_ol res), map pp_brand_generic (res_ol res))
               = (3, [20; 50], [66; 71])
  | inr _ => False
  end.
Proof. vm_compute. reflexivity. Qed.

Example unused_item_fails :
  (call (new_order unused_item_order) 9 sample_db).1 = inr (Some DBT2R).
Proof. vm_compute. reflexivity. Qed.

Example greedy_order_stock :
  map (fun r => fmt_f 0 (S_QUANTITY r)) (t_stock (call (new_order greedy_order) 9 sample_db).2)
  = [lit "-130"; lit "50"].
Proof. vm_compute. reflexivity. Qed.

Example named_payment_runs :
  match (call (payment named_payment) 9 sample_db).1 with
  | inl pp => (pr_c_id pp, pr_c_first pp) = (3, lit "Bo") | inr _ => False
  end.
Proof. vm_compute. reflexivity. Qed.

Example sample_delivery_runs :
  (call (delivery 1 4) 9 sample_db).1 = inl [(1, 2)].
Proof. vm_compute. reflexivity. Qed.
