(* ===== verification/SpTheorems.v ===== *)
(** * What the stored procedures guarantee

    The effect of each procedure and the reasons it fails for; consistency of
    the database under every serial execution; what a consistent database rules
    out; the stock after an order. *)

From Stdlib Require Import ZArith Lia SpecFloat String.
From stdpp Require Import base list sorting.
From S2P Require Import Prelude Double Text Tables SpNewOrder SpPayment SpDelivery SpQueries SpConsistency SpSample.

(** ** Transactions *)

Inductive txn :=
| TNewOrder (a : no_args)
| TPayment (a : pay_args)
| TDelivery (w_id o_carrier_id : Z)
| TOrderStatus (a : os_args)
| TStockLevel (w_id d_id threshold : Z).

(** The function takes exactly fifteen lines. *)
Definition txn_ok (x : txn) : Prop :=
  match x with TNewOrder a => List.length (na_lines a) = 15%nat | _ => True end.

Section procedures.
Context {pg : Pg}.

(** The database after a transaction that calls one procedure, committed when
    it returns and rolled back when it fails. *)
Definition execute_txn (x : txn) (t : timestamp) (D : db) : db :=
  match x with
  | TNewOrder a => (call (new_order a) t D).2
  | TPayment a => (call (payment a) t D).2
  | TDelivery w_id carrier => (call (delivery w_id carrier) t D).2
  | TOrderStatus a => (call (order_status a) t D).2
  | TStockLevel w_id d_id threshold => (call (stock_level w_id d_id threshold) t D).2
  end.

Definition execute_txns (xs : list (txn * timestamp)) (D : db) : db :=
  foldl (fun D x => execute_txn x.1 x.2 D) D xs.

(** ** Clause 3.3.2 *)

Definition line_in (w_id d_id : Z) (l : order_line_row) : bool :=
  (OL_W_ID l =? w_id) && (OL_D_ID l =? d_id).

(** The conditions as TPC-C words them, district by district. *)
Record tpcc_conditions (D : db) : Prop := {
  condition_2 : forall d, d ∈ t_district D ->
    (forall o, o ∈ orders_in D (D_W_ID d) (D_ID d) -> O_ID o <= D_NEXT_O_ID d - 1)
    /\ (orders_in D (D_W_ID d) (D_ID d) <> [] ->
        exists o, o ∈ orders_in D (D_W_ID d) (D_ID d) /\ O_ID o = D_NEXT_O_ID d - 1)
    /\ (new_orders_in D (D_W_ID d) (D_ID d) <> [] ->
        exists n, n ∈ new_orders_in D (D_W_ID d) (D_ID d) /\ NO_O_ID n = D_NEXT_O_ID d - 1);
  condition_3 : forall d, d ∈ t_district D -> new_orders_in D (D_W_ID d) (D_ID d) <> [] ->
    exists lo hi, lo ∈ map NO_O_ID (new_orders_in D (D_W_ID d) (D_ID d))
      /\ hi ∈ map NO_O_ID (new_orders_in D (D_W_ID d) (D_ID d))
      /\ (forall n, n ∈ new_orders_in D (D_W_ID d) (D_ID d) -> lo <= NO_O_ID n <= hi)
      /\ zlen (new_orders_in D (D_W_ID d) (D_ID d)) = hi - lo + 1;
  condition_4 : forall d, d ∈ t_district D ->
    sumZ O_OL_CNT (orders_in D (D_W_ID d) (D_ID d))
    = zlen (List.filter (line_in (D_W_ID d) (D_ID d)) (t_order_line D));
  condition_5 : forall o, o ∈ t_orders D ->
    (O_CARRIER_ID o = None <-> exists n, n ∈ t_new_order D /\ same_id n o);
  condition_6 : forall o, o ∈ t_orders D -> zlen (lines_in D o) = O_OL_CNT o;
  condition_7 : forall o l, o ∈ t_orders D -> l ∈ lines_in D o ->
    (OL_DELIVERY_D l = None <-> O_CARRIER_ID o = None) }.

Lemma zlen_zrange lo hi : lo <= hi -> zlen (zrange lo hi) = hi - lo.
Proof. intros. unfold zlen. rewrite length_zrange. lia. Qed.

Lemma zlen_map {A B} (f : A -> B) l : zlen (map f l) = zlen l.
Proof. unfold zlen. by rewrite length_map. Qed.

Lemma sumZ_bind {A B} (f : A -> list B) l : sumZ (fun x => zlen (f x)) l = zlen (l ≫= f).
Proof. induction l as [|x l IH]; [done|]. cbn [sumZ mbind list_bind]. rewrite zlen_app, IH. done. Qed.

Section conditions.
Context (D : db) (HD : consistent D).

Lemma order_lines_count o : o ∈ t_orders D -> zlen (lines_in D o) = O_OL_CNT o.
Proof.
  intros Ho. destruct (c_lines D HD o Ho) as [Hc Hp].
  rewrite <- (zlen_map OL_NUMBER), (zlen_perm _ _ Hp), zlen_zrange; lia.
Qed.

(** Each line of the district belongs to exactly one of its orders. *)
Lemma district_lines_count d : d ∈ t_district D ->
  sumZ O_OL_CNT (orders_in D (D_W_ID d) (D_ID d))
  = zlen (List.filter (line_in (D_W_ID d) (D_ID d)) (t_order_line D)).
Proof.
  intros Hd. set (os := orders_in D (D_W_ID d) (D_ID d)).
  set (ls := List.filter (line_in (D_W_ID d) (D_ID d)) (t_order_line D)).
  assert (Hos : forall o, o ∈ os -> o ∈ t_orders D /\ O_W_ID o = D_W_ID d /\ O_D_ID o = D_ID d).
  { intros o Ho. apply elem_of_list_filter_bool in Ho as [Hk%is_order_of_spec Ho]. tauto. }
  transitivity (sumZ (fun i => zlen (List.filter (fun l => OL_O_ID l =? i) ls)) (map O_ID os)).
  - assert (Hmap : forall l, sumZ (fun i => zlen (List.filter (fun l => OL_O_ID l =? i) ls)) (map O_ID l)
      = sumZ (fun o => zlen (List.filter (fun l => OL_O_ID l =? O_ID o) ls)) l).
    { induction l as [|o l IH]; [done|]. cbn [map sumZ]. by rewrite IH. }
    rewrite Hmap. apply sumZ_ext. intros o Ho. destruct (Hos o Ho) as (Hin & Ew & Ed).
    rewrite <- (order_lines_count o Hin). f_equal. unfold ls, lines_in. rewrite filter_filter.
    apply filter_ext_bool. intros l. unfold line_in, line_of, is_line. rewrite Ew, Ed.
    rewrite (andb_comm _ (OL_O_ID l =? O_ID o)). symmetry. apply andb_assoc.
  - rewrite sumZ_bind, zlen_join.
    + f_equal. apply filter_all. intros l Hl. apply elem_of_list_filter_bool in Hl as [Hk Hl].
      destruct (c_line_order D HD l Hl) as (o & Ho & Hol%is_line_spec).
      apply andb_true_iff in Hk as [Ew%Z.eqb_eq Ed%Z.eqb_eq].
      apply existsb_elem. exists (O_ID o). split; [|apply Z.eqb_eq; tauto].
      apply (list_elem_of_fmap_2 O_ID), elem_of_list_filter_bool. split; [|done].
      apply is_order_of_spec. intuition congruence.
    + unfold os. rewrite (c_orders D HD d Hd). apply zrange_NoDup.
Qed.

(** The numbers of [l] fill an interval that ends at the counter. *)
Lemma interval_last {A} (f : A -> Z) (l : list A) lo hi :
  map f l ≡ₚ zrange lo hi -> l <> [] -> lo < hi /\ exists x, x ∈ l /\ f x = hi - 1.
Proof.
  intros Hp Hl. assert (Hlt : lo < hi).
  { destruct (decide (lo < hi)); [done|]. rewrite zrange_nil in Hp by lia.
    apply Permutation_sym, Permutation_nil in Hp. by apply map_eq_nil in Hp. }
  split; [done|]. assert (hi - 1 ∈ map f l) as Hin by (rewrite Hp, elem_of_zrange; lia).
  apply list_elem_of_fmap in Hin as (x & Hx & Hin). by exists x.
Qed.

Lemma consistent_conditions : tpcc_conditions D.
Proof.
  split; [| | |by apply (c_carrier D)| |by apply (c_delivery D)].
  - intros d Hd. pose proof (c_orders D HD d Hd) as Ho.
    destruct (c_new_orders D HD d Hd) as (lo & Hlo & Hn). split_and!.
    + intros o Hin. assert (O_ID o ∈ zrange 1 (D_NEXT_O_ID d)) as H%elem_of_zrange; [|lia].
      rewrite <- Ho. by apply (list_elem_of_fmap_2 O_ID).
    + intros Hnil. by destruct (interval_last _ _ _ _ Ho Hnil).
    + intros Hnil. by destruct (interval_last _ _ _ _ Hn Hnil).
  - intros d Hd Hnil. destruct (c_new_orders D HD d Hd) as (lo & Hlo & Hn).
    destruct (interval_last _ _ _ _ Hn Hnil) as [Hlt _].
    exists lo, (D_NEXT_O_ID d - 1). split_and!.
    + rewrite Hn, elem_of_zrange. lia.
    + rewrite Hn, elem_of_zrange. lia.
    + intros n Hin. assert (NO_O_ID n ∈ zrange lo (D_NEXT_O_ID d)) as H%elem_of_zrange; [|lia].
      rewrite <- Hn. by apply (list_elem_of_fmap_2 NO_O_ID).
    + rewrite <- (zlen_map NO_O_ID), (zlen_perm _ _ Hn), zlen_zrange; lia.
  - apply district_lines_count.
  - apply order_lines_count.
Qed.
End conditions.

Context {laws : PgLaws pg}.

Lemma execute_txn_consistent x t D : txn_ok x -> consistent D -> consistent (execute_txn x t D).
Proof.
  intros Hok HD. destruct x as [a|a|w c|a|w d th]; cbn [execute_txn].
  - pose proof (call_wp _ _ _ _ _ (wp_new_order a D t)) as H. destruct (call _ _ _) as [[res|e] D'].
    + destruct H as (s & [Hcnt Hdone] & <-). by eapply new_order_consistent.
    + by destruct H as [_ ->].
  - pose proof (call_wp _ _ _ _ _ (wp_payment a D t)) as H. destruct (call _ _ _) as [[pp|e] D'].
    + destruct H as (s & Hdone & <-). by eapply payment_consistent.
    + by destruct H as [_ ->].
  - pose proof (call_wp _ _ _ _ _ (wp_delivery D w c t (consistent_small_ids D HD))) as H.
    destruct (call _ _ _) as [[rs|e] D'].
    + destruct H as (s & Hdone & <-). by eapply all_delivered_consistent.
    + by destruct H as [_ ->].
  - pose proof (call_wp _ _ _ _ _ (wp_order_status a D t)) as H. destruct (call _ _ _) as [[rs|e] D'].
    + by destruct H as (s & [_ ->] & <-).
    + by destruct H as [_ ->].
  - pose proof (call_wp _ _ _ _ _ (wp_stock_level w d th D t)) as H. destruct (call _ _ _) as [[n|e] D'].
    + by destruct H as (s & [_ ->] & <-).
    + by destruct H as [_ ->].
Qed.

(** C17. Whatever transactions run, one after the other and with whatever
    arguments, each of them returning or failing: a database that is consistent
    stays so, and satisfies conditions 2 to 7 of clause 3.3.2 of TPC-C (order
    numbers end below the district's counter, the new orders are contiguous and
    last, order lines are counted by their order and by their district, an order
    is undelivered exactly when it is a new order). *)
Theorem serial_execution_consistent xs D :
  Forall (fun x => txn_ok x.1) xs -> consistent D ->
  consistent (execute_txns xs D) /\ tpcc_conditions (execute_txns xs D).
Proof.
  intros Hok HD. enough (consistent (execute_txns xs D)) by (split; [done|by apply consistent_conditions]).
  revert D HD. induction Hok as [|x xs Hx _ IH]; intros D HD; cbn; [done|].
  apply IH. by apply execute_txn_consistent.
Qed.

(** ** New-Order *)

(** C18. A call of new_order either returns, and then takes the district's next
    order number, inserts one new order, one order and its lines, updates the
    stock line by line and nothing else; or it fails and the database is as
    before, for one of three kinds of reason: what the code checks for (a wrong
    line count, a missing warehouse, district, customer, item or stock row); an
    error of the server (the order counter or a stock column overflows, a key
    exists, the district's text in the stock row of a line is too long for the
    order line); or a null pointer, when the stock row of a line has no text for
    the district. *)
Theorem new_order_correct a t D :
  match call (new_order a) t D with
  | (inl res, D') => 1 <= na_o_ol_cnt a <= 15 /\ new_order_done a t D res D'
  | (inr e, D') => new_order_fails a D e /\ D' = D
  end.
Proof.
  pose proof (call_wp _ _ _ _ _ (wp_new_order a D t)) as H. destruct (call _ _ _) as [[res|e] D'].
  - by destruct H as (s & H & <-).
  - done.
Qed.

(** An order that a client may place on [D]. *)
Record placeable (a : no_args) (D : db) : Prop := {
  pl_count : 1 <= na_o_ol_cnt a <= 15;
  pl_warehouse : exists w, w ∈ t_warehouse D /\ W_ID w = na_w_id a;
  pl_district : exists d, d ∈ t_district D /\ D_W_ID d = na_w_id a /\ D_ID d = na_d_id a;
  pl_counter : forall d, d ∈ t_district D -> D_NEXT_O_ID d + 1 < 2 ^ 31;
  pl_customer : exists c, c ∈ t_customer D /\ C_W_ID c = na_w_id a /\ C_D_ID c = na_d_id a
    /\ C_ID c = na_c_id a;
  pl_lines : forall line, line ∈ take (Z.to_nat (na_o_ol_cnt a)) (argument_lines a) ->
    line.1.1 <> 0 /\ (exists item, item ∈ t_item D /\ I_ID item = line.1.1)
    /\ (exists st, st ∈ t_stock D /\ is_stock line.1.1 line.1.2 st = true);
  pl_dist : forall st, st ∈ t_stock D -> exists info,
    stock_column st (1 + na_d_id a) = Some info /\ is_Some (varchar 24 info);
  pl_update : forall decr quantity remote r, is_Some (update_stock decr quantity remote r) }.

Lemma fresh_key a D e : consistent D -> placeable a D -> ~ new_order_fails a D e.
Proof.
  intros HD Hp Hf.
  destruct Hf as [Hc|Hw|Hd|Hc|line Hl Hi|line Hl Hs|line st _ Hst _ Hn|d Hd _ _ Hn|d Hd Ew Ed Hk|line r sq rm _ _ Hn|line st info _ Hst _ Hc Hn].
  - by apply Hc, (pl_count a D).
  - destruct (pl_warehouse a D Hp) as (w & Hin & E). by apply (Hw w).
  - destruct (pl_district a D Hp) as (d & Hin & E). by apply (Hd d).
  - destruct (pl_customer a D Hp) as (c & Hin & E). by apply (Hc c).
  - destruct (pl_lines a D Hp line Hl) as (Hnz & (item & Hin & E) & _).
    destruct Hi as [Hi|Hi]; [done|by apply (Hi item)].
  - destruct (pl_lines a D Hp line Hl) as (_ & _ & (st & Hin & E)). specialize (Hs st Hin). congruence.
  - destruct (pl_dist a D Hp st Hst) as (info & E & _). congruence.
  - unfold int4_add in Hn. pose proof (pl_counter a D Hp d Hd). pose proof (c_next D HD d Hd).
    destruct (Z.leb_spec (- 2 ^ 31) (D_NEXT_O_ID d + 1)), (Z.ltb_spec (D_NEXT_O_ID d + 1) (2 ^ 31));
      cbn in Hn; (done || lia).
  - pose proof (c_next D HD d Hd). rewrite atoi_fmt_d in Hk by lia.
    destruct Hk as [(r & Hr & E1 & E2 & E3)|[(r & Hr & E1 & E2 & E3)|(r & Hr & E1 & E2 & E3)]].
    + pose proof (new_order_id_bound D HD d r Hd Hr) as Hb. rewrite is_new_order_spec in Hb.
      rewrite E1, E2 in Hb. specialize (Hb (conj (eq_sym Ew) (eq_sym Ed))). lia.
    + by apply (fresh_id D HD d Hd r Hr); [congruence..|].
    + destruct (c_line_order D HD r Hr) as (o & Ho & (F1 & F2 & F3)%is_line_spec).
      by apply (fresh_id D HD d Hd o Ho); congruence.
  - destruct (pl_update a D Hp (decr_quantity sq line.2) line.2 rm r). congruence.
  - destruct (pl_dist a D Hp st Hst) as (info' & E & Hs). rewrite E in Hc. simplify_eq.
    destruct Hs. congruence.
Qed.

(** On a consistent database new_order returns for every order that names an
    existing warehouse, district and customer and one to fifteen existing items
    in stock: no check of the procedure, no duplicate key and no null pointer
    gets in its way. *)
Theorem new_order_returns a t D :
  consistent D -> placeable a D ->
  exists res D', call (new_order a) t D = (inl res, D') /\ new_order_done a t D res D'.
Proof.
  intros HD Hp. pose proof (call_wp _ _ _ _ _ (wp_new_order a D t)) as H.
  destruct (call _ _ _) as [[res|e] D'].
  - destruct H as (s & [_ H] & <-). eauto.
  - destruct H as [Hf _]. by destruct (fresh_key a D e HD Hp).
Qed.

(** *** The stock *)

Lemma filter_updated {R} (p where_ : R -> bool) set (l l' : list R) :
  (forall r r', set r = Some r' -> p r' = p r) ->
  (forall r, p r = true -> where_ r = false) ->
  updated where_ set l l' -> List.filter p l' = List.filter p l.
Proof.
  intros Hkey Hdis [Hall ->]. induction l as [|r l IH]; cbn; [done|].
  rewrite IH by (intros; apply Hall; [by right|done]).
  destruct (where_ r) eqn:Hw.
  - destruct (Hall r) as [r' Hr']; [left|done|]. rewrite Hr'. cbn. rewrite (Hkey r r' Hr').
    destruct (p r) eqn:Hp; [|done]. by rewrite Hdis in Hw.
  - done.
Qed.

Lemma updated_one {R} (where_ : R -> bool) set (l l' : list R) r :
  (forall r r', set r = Some r' -> where_ r' = where_ r) ->
  List.filter where_ l = [r] -> updated where_ set l l' ->
  exists r', set r = Some r' /\ List.filter where_ l' = [r'].
Proof.
  intros Hkey Hl [Hall ->].
  assert (Hr : r ∈ l /\ where_ r = true).
  { assert (r ∈ List.filter where_ l) as H by (rewrite Hl; left).
    apply elem_of_list_filter_bool in H. tauto. }
  destruct (Hall r) as [r' Hr']; [tauto..|]. exists r'. split; [done|].
  transitivity (map (fun x => default x (set x)) (List.filter where_ l)); [|by rewrite Hl; cbn; rewrite Hr'].
  clear Hl Hr. induction l as [|x l IH]; cbn; [done|].
  destruct (where_ x) eqn:Hw; cbn.
  - destruct (Hall x) as [x' Hx']; [left|done|]. rewrite Hx'. cbn. rewrite (Hkey x x' Hx'), Hw. cbn.
    rewrite ?Hx'. cbn. f_equal. apply IH. intros; apply Hall; [by right|done].
  - rewrite ?Hw. apply IH. intros; apply Hall; [by right|done].
Qed.

Lemma update_stock_key i sup decr quantity remote r r' :
  update_stock decr quantity remote r = Some r' -> is_stock i sup r' = is_stock i sup r.
Proof.
  unfold update_stock. destruct (real_sub_int4 _ _), (numeric_add_int4 _ _), (real_add_int4 (S_ORDER_CNT r) _),
    (real_add_int4 (S_REMOTE_CNT r) _); cbn; try done. by intros [= <-].
Qed.

Lemma is_stock_disjoint i sup i' sup' r : (i, sup) <> (i', sup') ->
  is_stock i sup r = true -> is_stock i' sup' r = false.
Proof.
  unfold is_stock. intros Hne [->%Z.eqb_eq ->%Z.eqb_eq]%andb_true_iff.
  destruct (Z.eqb_spec i i'), (Z.eqb_spec sup sup'); cbn; congruence.
Qed.

(** Lines of other items leave a stock row alone. *)
Lemma lines_done_other SN w d o i lines rows pps st st' item sup :
  lines_done SN w d o i lines rows pps st st' -> (item, sup) ∉ map fst lines ->
  List.filter (is_stock item sup) st' = List.filter (is_stock item sup) st.
Proof.
  induction 1 as [|i line lines row rows pp pps st st1 st2 Hl _ IH]; intros Hne; [done|].
  cbn in Hne. apply not_elem_of_cons in Hne as [Hne Hin]. rewrite IH by done.
  destruct (ld_stock _ _ _ _ _ _ _ _ _ _ Hl) as (stock & _ & _ & _ & _ & Hu).
  eapply filter_updated; [|..|exact Hu].
  - intros r r'. apply update_stock_key.
  - intros r. apply is_stock_disjoint. by destruct line as [[??]?].
Qed.

Lemma lines_done_one SN w d o i lines rows pps st st' item sup q r :
  lines_done SN w d o i lines rows pps st st' ->
  NoDup (map fst lines) -> (item, sup, q) ∈ lines ->
  List.filter (is_stock item sup) (t_stock SN) = [r] ->
  List.filter (is_stock item sup) st = [r] ->
  exists r', update_stock (decr_quantity (atoi (float4out (S_QUANTITY r))) q) q
               (if sup =? w then 0 else 1) r = Some r'
    /\ List.filter (is_stock item sup) st' = [r'].
Proof.
  intros Hd Hnd Hin HSN. revert Hnd Hin.
  induction Hd as [|i line lines row rows pp pps st st1 st2 Hl Hd IH];
    intros Hnd Hin Hst; [by apply not_elem_of_nil in Hin|].
  cbn in Hnd. apply NoDup_cons in Hnd as [Hnot Hnd].
  destruct (ld_stock _ _ _ _ _ _ _ _ _ _ Hl) as (stock & Hs & Hk & _ & Hq & Hu).
  apply elem_of_cons in Hin as [<-|Hin]; cbn [fst snd] in *.
  - rewrite (lines_done_other _ _ _ _ _ _ _ _ _ _ _ _ Hd Hnot).
    assert (stock = r) as ->.
    { assert (stock ∈ List.filter (is_stock item sup) (t_stock SN)) as H by (by apply elem_of_list_filter_bool).
      rewrite HSN in H. by apply list_elem_of_singleton in H. }
    rewrite <- Hq. eapply updated_one; [intros; by eapply update_stock_key|done|exact Hu].
  - apply IH; [done..|].
    rewrite <- Hst. eapply filter_updated; [|..|exact Hu].
    + intros x x'. apply update_stock_key.
    + intros x. apply is_stock_disjoint. intros E. apply Hnot.
      apply list_elem_of_fmap. exists (item, sup, q). split; [by destruct line as [[??]?]|done].
Qed.

(** No order of the driver comes near the bounds of an [int]. *)
Lemma decr_quantity_small s q : 1 <= q <= 10 ->
  decr_quantity s q = if q + 10 <=? s then q else q - 91.
Proof. intros Hq. unfold decr_quantity. by rewrite !i32_small by lia. Qed.

(** What is relied on of [REAL] columns that hold small integers. *)
Class PgInts := {
  int_out : forall q, - 150 <= q <= 150 -> atoi (float4out (float_of_int q)) = q;
  int_sub : forall q k, - 150 <= q <= 150 -> - 95 <= k <= 10 ->
    real_sub_int4 (float_of_int q) k = Some (float_of_int (q - k)) }.

(** The stock rule of clause 2.4.2.2: when an order names each stock row at
    most once, a line of [q] units changes its row exactly once, by the update
    statement with the remote counter of its supplying warehouse, and the
    quantity becomes [s - q] if at least ten units remain and [s - q + 91]
    otherwise; a quantity between 10 and 100 stays there. *)
Theorem new_order_stock `{PgInts} a t D res D' item sup q r s :
  new_order_done a t D res D' ->
  NoDup (map fst (take (Z.to_nat (na_o_ol_cnt a)) (argument_lines a))) ->
  (item, sup, q) ∈ take (Z.to_nat (na_o_ol_cnt a)) (argument_lines a) ->
  List.filter (is_stock item sup) (t_stock D) = [r] ->
  S_QUANTITY r = float_of_int s -> 10 <= s <= 100 -> 1 <= q <= 10 ->
  exists r', List.filter (is_stock item sup) (t_stock D') = [r']
    /\ update_stock (decr_quantity s q) q (if sup =? na_w_id a then 0 else 1) r = Some r'
    /\ S_QUANTITY r' = float_of_int (if q + 10 <=? s then s - q else s - q + 91)
    /\ 10 <= (if q + 10 <=? s then s - q else s - q + 91) <= 100.
Proof.
  intros (d & rows & st' & _ & _ & _ & _ & _ & _ & Hlines & ->) Hnd Hin Hr Hs Hs1 Hq.
  destruct (lines_done_one _ _ _ _ _ _ _ _ _ _ _ _ _ _ Hlines Hnd Hin Hr Hr) as (r' & Hu & Hr').
  rewrite Hs, int_out in Hu by lia. exists r'. split_and!; try done.
  - unfold update_stock in Hu. rewrite Hs, int_sub in Hu by (rewrite ?decr_quantity_small by done; zcases; lia).
    destruct (numeric_add_int4 _ _), (real_add_int4 (S_ORDER_CNT r) _),
      (real_add_int4 (S_REMOTE_CNT r) _); cbn in Hu; simplify_eq. cbn. f_equal.
    rewrite decr_quantity_small by done. zcases; lia.
  - zcases; lia.
  - zcases; lia.
Qed.

(** Every line of the same stock row decides on the quantity of the snapshot. *)
Lemma repeated_lines_done `{PgInts} SN w d o i n rows pps st st' item sup q r r0 s0 s :
  lines_done SN w d o i (repeat (item, sup, q) n) rows pps st st' ->
  List.filter (is_stock item sup) (t_stock SN) = [r0] -> S_QUANTITY r0 = float_of_int s0 ->
  List.filter (is_stock item sup) st = [r] -> S_QUANTITY r = float_of_int s ->
  q + 10 <= s0 <= 100 -> 1 <= q <= 10 -> - 150 <= s - Z.of_nat n * q -> s <= 100 ->
  exists r', List.filter (is_stock item sup) st' = [r']
    /\ S_QUANTITY r' = float_of_int (s - Z.of_nat n * q).
Proof.
  intros Hd HSN Hs0. revert i rows pps st r s Hd.
  induction n as [|n IH]; intros i rows pps st r s Hd Hst Hs Hq0 Hq Hlow Hhigh; cbn [repeat] in Hd.
  { inversion Hd; subst. exists r. split; [done|]. rewrite Hs. f_equal. lia. }
  inversion_clear Hd as [|? ? ? row rows' pp pps' ? st1 ? Hl Hd'].
  destruct (ld_stock _ _ _ _ _ _ _ _ _ _ Hl) as (stock & Hin & Hk & _ & Hqty & Hu). cbn [fst snd] in *.
  assert (stock = r0) as ->.
  { assert (stock ∈ List.filter (is_stock item sup) (t_stock SN)) as H1 by (by apply elem_of_list_filter_bool).
    rewrite HSN in H1. by apply list_elem_of_singleton in H1. }
  destruct (updated_one _ _ _ _ r (update_stock_key item sup _ _ _) Hst Hu) as (r1 & Hr1 & Hf1).
  rewrite Hqty, Hs0, int_out in Hr1 by lia.
  assert (Hs1 : S_QUANTITY r1 = float_of_int (s - q)).
  { rewrite decr_quantity_small in Hr1 by done. unfold update_stock in Hr1. rewrite (proj2 (Z.leb_le _ _)) in Hr1 by lia.
    rewrite Hs, int_sub in Hr1 by lia.
    destruct (numeric_add_int4 _ _), (real_add_int4 (S_ORDER_CNT r) _),
      (real_add_int4 (S_REMOTE_CNT r) _); cbn in Hr1; by simplify_eq. }
  destruct (IH _ _ _ _ _ _ Hd' Hf1 Hs1) as (r' & Hr' & Hq'); try lia.
  exists r'. split; [done|]. rewrite Hq'. f_equal. lia.
Qed.

(** An order whose lines all name the same stock row: [NEW_ORDER_8] is
    executed read-only and therefore under the snapshot of the calling statement,
    so every line finds the quantity before the order, and no line is replenished
    when the first one need not be.  The quantity ends [n * q] lower, below the
    ten units that clause 2.4.2.2 keeps and possibly below zero. *)
Theorem repeated_item_not_replenished `{PgInts} a t D res D' item sup q n r s :
  new_order_done a t D res D' ->
  take (Z.to_nat (na_o_ol_cnt a)) (argument_lines a) = repeat (item, sup, q) n ->
  List.filter (is_stock item sup) (t_stock D) = [r] ->
  S_QUANTITY r = float_of_int s -> q + 10 <= s <= 100 -> 1 <= q <= 10 -> (n <= 15)%nat ->
  exists r', List.filter (is_stock item sup) (t_stock D') = [r']
    /\ S_QUANTITY r' = float_of_int (s - Z.of_nat n * q).
Proof.
  intros (d & rows & st' & _ & _ & _ & _ & _ & _ & Hlines & ->) Hlns Hr Hs Hq0 Hq Hn.
  rewrite Hlns in Hlines. cbn [t_stock].
  eapply repeated_lines_done; [exact Hlines|done|done|done|done|lia|lia|nia|lia].
Qed.

(** ** Payment *)

(** C19. A call of payment either returns, and then adds the amount to exactly the
    warehouse and the district named, subtracts it from the balance of one
    customer (the one with the number given, or the one in the middle of those
    with the last name given, ordered by first name), counts the payment, rewrites
    c_data of a customer with bad credit only, appends one row of history and
    reports the balance it wrote; or it fails because a row is missing or the
    server raises an error, without a null pointer and with the database as
    before. *)
Theorem payment_correct a t D :
  match call (payment a) t D with
  | (inl pp, D') => payment_done a t D pp D'
  | (inr e, D') => payment_fails a D e /\ D' = D
  end.
Proof.
  pose proof (call_wp _ _ _ _ _ (wp_payment a D t)) as H. destruct (call _ _ _) as [[pp|e] D'].
  - by destruct H as (s & H & <-).
  - done.
Qed.

(** ** Delivery *)

(** [no] is the oldest undelivered order of a district. *)
Definition oldest (D : db) (w_id d_id no : Z) : Prop :=
  exists n, n ∈ t_new_order D /\ is_new_order w_id d_id n = true /\ NO_O_ID n = no
    /\ forall m, m ∈ t_new_order D -> is_new_order w_id d_id m = true -> no <= NO_O_ID m.

Lemma oldest_ext D D' w d no :
  (forall n, is_new_order w d n = true -> (n ∈ t_new_order D' <-> n ∈ t_new_order D)) ->
  oldest D' w d no <-> oldest D w d no.
Proof.
  intros Hn. split; intros (n & Hin & Hk & Hno & Hmin); exists n; split_and!; try done;
    try (by apply Hn); intros m Hm Hmk; apply Hmin; try done; by apply Hn.
Qed.

Lemma oldest_unique D w d x y : oldest D w d x -> oldest D w d y -> x = y.
Proof.
  intros (n & Hn & Hnk & <- & Hnm) (m & Hm & Hmk & <- & Hmm).
  pose proof (Hnm m Hm Hmk). pose proof (Hmm n Hn Hnk). lia.
Qed.

(** A round does not change what is oldest in the other districts. *)
Lemma delivered_other SN t w carrier d C C' r d' no :
  consistent C -> delivered SN t w carrier d C C' r -> d' <> d ->
  oldest C' w d' no <-> oldest C w d' no.
Proof.
  intros HC Hd Hne. destruct Hd as [_|C' n Hd]; [done|]. apply oldest_ext. intros m Hm.
  destruct (delivered_tables _ _ _ _ _ _ _ _ HC Hd) as (_ & _ & _ & _ & _ & _ & ->).
  rewrite elem_of_list_filter_bool. split; [tauto|]. intros Hin. split; [|done].
  apply is_new_order_spec in Hm as [_ Hm]. unfold is_new_order. rewrite Hm.
  rewrite (proj2 (Z.eqb_neq d' d)) by done. by rewrite !andb_false_r.
Qed.

Lemma all_delivered_rows SN t w carrier d_ids C C' rs :
  all_delivered SN t w carrier d_ids C C' rs -> consistent C -> NoDup d_ids ->
  forall d no, (d, no) ∈ rs <-> d ∈ d_ids /\ oldest C w d no.
Proof.
  induction 1 as [C|d1 d_ids C C1 C2 r rs Hd Hds IH]; intros HC Hnd d no.
  { split; [by intros ?%not_elem_of_nil|by intros [?%not_elem_of_nil _]]. }
  apply NoDup_cons in Hnd as [Hnot Hnd].
  assert (HC1 : consistent C1).
  { destruct Hd as [_|C' n Hd]; [done|]. by eapply order_delivered_consistent, delivered_tables. }
  rewrite elem_of_app, (IH HC1 Hnd), elem_of_cons.
  assert (Hr : (d, no) ∈ option_list r <-> d = d1 /\ oldest C w d no).
  { destruct Hd as [Hnone|C' n Hd]; cbn.
    - split; [by intros ?%not_elem_of_nil|]. intros [-> (n & Hn & Hk & _)].
      by rewrite Hnone in Hk.
    - destruct (delivered_tables _ _ _ _ _ _ _ _ HC Hd) as (Hn & Hk & Hmin & _).
      rewrite atoi_fmt_d by (by apply (consistent_small_ids C HC)).
      assert (Ho : oldest C w d1 (NO_O_ID n)) by (by exists n).
      rewrite list_elem_of_singleton. split; [by intros [= -> ->]|].
      intros [-> Ho']. by rewrite (oldest_unique _ _ _ _ _ Ho Ho'). }
  rewrite Hr. split.
  - intros [[-> Ho]|[Hin Ho]]; [by split; [left|]|]. split; [by right|].
    apply (delivered_other _ _ _ _ _ _ _ _ d no HC Hd); [|done]. intros ->. done.
  - intros [[->|Hin] Ho]; [by left|]. right. split; [done|].
    apply (delivered_other _ _ _ _ _ _ _ _ d no HC Hd); [|done]. intros ->. done.
Qed.

(** C20. On a consistent database delivery returns exactly one row for each of the
    ten districts that has undelivered orders, naming the oldest one; it removes
    that new order, sets its carrier, stamps its lines, and adds the sum of their
    amounts to the customer's balance.  Its checks for missing orders and missing
    lines never strike: it can only fail by an arithmetic error of the server,
    with the database as before. *)
Theorem delivery_correct w_id carrier t D :
  consistent D ->
  match call (delivery w_id carrier) t D with
  | (inl rs, D') =>
      all_delivered D t w_id carrier (zrange 1 11) D D' rs
      /\ forall d no, (d, no) ∈ rs <-> 1 <= d <= 10 /\ oldest D w_id d no
  | (inr e, D') => e = Some Server /\ D' = D
  end.
Proof.
  intros HD. pose proof (call_wp _ _ _ _ _ (wp_delivery D w_id carrier t (consistent_small_ids D HD))) as H.
  destruct (call _ _ _) as [[rs|e] D'].
  - destruct H as (s & H & <-). split; [done|]. intros d no.
    rewrite (all_delivered_rows _ _ _ _ _ _ _ _ H HD (zrange_NoDup _ _)), elem_of_zrange.
    by split; intros [??]; split; try lia.
  - destruct H as [Hf ->]. split; [|done].
    assert (Hid : forall n, n ∈ t_new_order D -> atoi (fmt_d (NO_O_ID n)) = NO_O_ID n).
    { intros n Hn. by apply atoi_fmt_d, (consistent_small_ids D HD). }
    destruct Hf as [n Hn Hw Ho|n Hn Hw Hl| | |]; try done; rewrite (Hid n Hn) in *;
      destruct (new_order_has_order D HD n Hn) as (o & Hin & E1 & E2 & E3).
    + exfalso. apply (not_true_iff_false (is_order (NO_O_ID n) w_id (NO_D_ID n) o)); [by apply Ho|].
      apply is_order_spec. intuition congruence.
    + exfalso. destruct (c_lines D HD o Hin) as [Hc Hp].
      assert (1 ∈ map OL_NUMBER (lines_in D o)) as H1 by (rewrite Hp, elem_of_zrange; lia).
      apply list_elem_of_fmap in H1 as (l & _ & (F & Hl')%elem_of_lines_in).
      apply (not_true_iff_false (is_line (NO_O_ID n) w_id (NO_D_ID n) l)); [by apply Hl|].
      apply is_line_spec. intuition congruence.
Qed.

(** ** Order-Status and Stock-Level *)

(** C30. The C procedures order_status and stock_level never change the database.
    On a consistent one order_status answers
    the last order of the customer the arguments choose, by number or as the
    middle one of the name, with all the lines of that order, in some order and
    at least one; its only failures are an unknown name, an unknown customer and
    a customer without orders: the check that the order has lines never strikes.
    stock_level answers the number of stock rows of the warehouse that are below
    the threshold and whose item occurs in the twenty orders before the
    district's next one, each row counted once in whatever order the server joins
    them; it fails only for an unknown district.  The number is read back with
    atoi, so the stock table has fewer than 2^31 rows. *)
Theorem queries_correct a w_id d_id threshold t D :
  consistent D -> zlen (t_stock D) < 2 ^ 31 ->
  match call (order_status a) t D with
  | (inl rows, D') => order_status_done a D rows /\ D' = D
  | (inr e, D') => order_status_fails a D e /\ e <> Some (Internal "ORDER_STATUS_4") /\ D' = D
  end
  /\ match call (stock_level w_id d_id threshold) t D with
     | (inl n, D') => D' = D /\ exists d, d ∈ t_district D /\ D_W_ID d = w_id /\ D_ID d = d_id
         /\ n = zlen (low_stock D w_id d_id threshold (D_NEXT_O_ID d))
     | (inr e, D') => D' = D /\ stock_level_fails w_id d_id D e
     end.
Proof.
  intros HD Hlen. split.
  - pose proof (call_wp _ _ _ _ _ (wp_order_status a D t)) as H. destruct (call _ _ _) as [[rs|e] D'].
    + by destruct H as (s & [H ->] & <-).
    + destruct H as [Hf ->]. split_and!; [done| |done]. intros ->. inversion Hf as [| | |my o Hc Ho Hk Hl].
      destruct (c_lines D HD o Ho) as [Hcnt Hp].
      assert (1 ∈ map OL_NUMBER (lines_in D o)) as H1 by (rewrite Hp, elem_of_zrange; lia).
      apply list_elem_of_fmap in H1 as (l & _ & (F & Hl')%elem_of_lines_in). specialize (Hl l Hl').
      destruct (c_home D HD o Ho) as (d & Hd & Hkd). pose proof (order_id_bound D HD d o Hd Ho Hkd).
      pose proof (c_next D HD d Hd). rewrite atoi_fmt_d in Hl by lia.
      apply not_true_iff_false in Hl. apply Hl, is_line_spec. unfold orders_of_customer in Hk.
      rewrite !andb_true_iff, !Z.eqb_eq in Hk. intuition congruence.
  - pose proof (call_wp _ _ _ _ _ (wp_stock_level w_id d_id threshold D t)) as H.
    destruct (call _ _ _) as [[n|e] D'].
    + destruct H as (s & [(d & Hd & Ew & Ed & ->) ->] & <-). split; [done|]. exists d. split_and!; [done..|].
      pose proof (c_next D HD d Hd). rewrite (atoi_fmt_d (D_NEXT_O_ID d)) by lia.
      apply atoi_fmt_d. assert (forall f : stock_row -> bool, zlen (List.filter f (t_stock D)) <= zlen (t_stock D)) as Hle.
      { intros f. unfold zlen. pose proof (filter_length_le f (t_stock D)). lia. }
      unfold low_stock. pose proof (Hle (fun s => low w_id threshold s && existsb (fun l =>
        recent_line w_id d_id (D_NEXT_O_ID d - 20) (D_NEXT_O_ID d - 1) l && (OL_I_ID l =? S_I_ID s)) (t_order_line D))).
      unfold zlen in *. lia.
    + by destruct H as [Hf ->].
Qed.
End procedures.

(** ** Examples *)

#[local] Existing Instance sample_pg.

Lemma serial_execution_consistent_witness :
  consistent (execute_txns [(TNewOrder sample_order, 9); (TPayment named_payment, 10);
                            (TDelivery 1 4, 11); (TNewOrder unused_item_order, 12);
                            (TOrderStatus (mk_os_args 1 1 1 []), 13); (TStockLevel 1 1 15, 14)]
                sample_db).
Proof.
  apply (serial_execution_consistent (laws := sample_laws)).
  - repeat constructor.
  - exact sample_consistent.
Defined.

Lemma new_order_correct_witness :
  (exists res D', call (new_order sample_order) 9 sample_db = (inl res, D') /\
     new_order_done sample_order 9 sample_db res D') /\
  call (new_order unused_item_order) 9 sample_db = (inr (Some DBT2R), sample_db) /\
  new_order_fails unused_item_order sample_db (Some DBT2R).
Proof.
  pose proof (new_order_correct (laws := sample_laws) sample_order 9 sample_db) as H1.
  pose proof (new_order_correct (laws := sample_laws) unused_item_order 9 sample_db) as H2.
  assert (E1 : match (call (new_order sample_order) 9 sample_db).1 with inl _ => True | inr _ => False end)
    by (vm_compute; exact I).
  assert (E2 : (call (new_order unused_item_order) 9 sample_db).1 = inr (Some DBT2R))
    by (vm_compute; reflexivity).
  destruct (call (new_order sample_order) _ _) as [[res|e] D']; [|destruct E1].
  destruct (call (new_order unused_item_order) _ _) as [[res2|e2] D2]; [discriminate E2|].
  cbn in E2. injection E2 as ->. destruct H2 as [H2 ->].
  split; [exists res, D'; split; [reflexivity|exact (proj2 H1)]|]. split; [reflexivity|exact H2].
Defined.

Lemma sample_placeable : placeable sample_order sample_db.
Proof.
  split.
  - cbn. lia.
  - eexists. split; [left|done].
  - eexists. split; [left|done].
  - intros d ->%list_elem_of_singleton. cbn. lia.
  - eexists. split; [left|done].
  - intros line Hl. cbn in Hl.
    apply elem_of_cons in Hl as [->|Hl]; [|apply list_elem_of_singleton in Hl as ->]; cbn;
      (split_and!; [lia| |]).
    + eexists. split; [left|done].
    + eexists. split; [left|done].
    + eexists. split; [right; left|done].
    + eexists. split; [right; left|done].
  - intros st Hst. cbn in Hst.
    apply elem_of_cons in Hst as [->|Hst]; [|apply list_elem_of_singleton in Hst as ->]; exists (lit "dist");
      (split; [done|by eexists]).
  - intros decr quantity remote r. by eexists.
Qed.

Lemma new_order_returns_witness :
  exists res D', call (new_order sample_order) 9 sample_db = (inl res, D').
Proof.
  destruct (new_order_returns (laws := sample_laws) sample_order 9 sample_db sample_consistent
              sample_placeable) as (res & D' & H & _).
  exists res, D'. exact H.
Defined.

Lemma payment_correct_witness :
  match call (payment named_payment) 9 sample_db with
  | (inl pp, D') => payment_done named_payment 9 sample_db pp D'
  | (inr e, D') => payment_fails named_payment sample_db e /\ D' = sample_db
  end.
Proof. exact (payment_correct (laws := sample_laws) named_payment 9 sample_db). Defined.

Lemma delivery_correct_witness :
  match call (delivery 1 4) 9 sample_db with
  | (inl rs, D') => all_delivered sample_db 9 1 4 (zrange 1 11) sample_db D' rs
      /\ forall d no, (d, no) ∈ rs <-> 1 <= d <= 10 /\ oldest sample_db 1 d no
  | (inr e, D') => e = Some Server /\ D' = sample_db
  end.
Proof. exact (delivery_correct (laws := sample_laws) 1 4 9 sample_db sample_consistent). Defined.

(** The customer in the middle of a name, and everything in short supply. *)
Definition sample_query : os_args := mk_os_args 0 1 1 (lit "BARBARBAR").

Lemma queries_correct_witness :
  (exists rows, call (order_status sample_query) 9 sample_db = (inl rows, sample_db) /\
     List.length rows = 1%nat /\ order_status_done sample_query sample_db rows) /\
  call (stock_level 1 1 100) 9 sample_db = (inl 2, sample_db) /\
  exists d, d ∈ t_district sample_db /\ 2 = zlen (low_stock sample_db 1 1 100 (D_NEXT_O_ID d)).
Proof.
  destruct (queries_correct (laws := sample_laws) sample_query 1 1 100 9 sample_db
              sample_consistent eq_refl) as [H1 H2].
  assert (E1 : match (call (order_status sample_query) 9 sample_db).1 with
               | inl rows => List.length rows = 1%nat | inr _ => False end)
    by (vm_compute; reflexivity).
  assert (E2 : (call (stock_level 1 1 100) 9 sample_db).1 = inl 2) by (vm_compute; reflexivity).
  destruct (call (order_status sample_query) _ _) as [[rows|e] D']; [|destruct E1].
  destruct (call (stock_level 1 1 100) _ _) as [[n|e] D2]; [|discriminate E2].
  cbn in E2. injection E2 as ->. destruct H1 as [H1 ->]. destruct H2 as [-> (d & Hd & _ & _ & Hn)].
  split; [exists rows; split; [reflexivity|]; split; [exact E1|exact H1]|].
  split; [reflexivity|]. exists d. split; [exact Hd|exact Hn].
Defined.

Lemma SFopp_spec f : dmag (SFopp f) = dmag f /\ (dmag f <> 0 -> dsign (SFopp f) = negb (dsign f)).
Proof. by destruct f. Qed.

Lemma map_eq_elem {A B} (f g : A -> B) l : map f l = map g l -> forall x, x ∈ l -> f x = g x.
Proof.
  induction l as [|y l IH]; cbn; [by intros _ x ?%not_elem_of_nil|].
  intros [= E1 E2] x [->|Hx]%elem_of_cons; auto.
Qed.

Lemma unit_nonzero : 2 ^ 1074 <> 0.
Proof. by apply Z.pow_nonzero. Qed.

Lemma small_nat_float z : 0 <= z <= 150 ->
  dmag (d_of_Z z) = z * 2 ^ 1074 /\ dsign (d_of_Z z) = false.
Proof.
  intros Hz. split; [apply d_of_Z_mag; lia|]. apply (dbox_sign 53), d_of_Z_box. lia.
Qed.

(** Small integers are floats. *)
Lemma small_float q : - 150 <= q <= 150 ->
  dmag (float_of_int q) = Z.abs q * 2 ^ 1074 /\ dsign (float_of_int q) = (q <? 0).
Proof.
  intros Hq.
  assert (Hpos : map float_of_int (zrange 0 151) = map d_of_Z (zrange 0 151))
    by (vm_compute; reflexivity).
  assert (Hneg : map (fun q => float_of_int (- q)) (zrange 1 151)
                 = map (fun q => SFopp (d_of_Z q)) (zrange 1 151)) by (vm_compute; reflexivity).
  destruct (Z.ltb_spec q 0) as [Hlt|Hge].
  - pose proof (map_eq_elem _ _ _ Hneg (- q) ltac:(apply elem_of_zrange; lia)) as E. cbn beta in E.
    rewrite Z.opp_involutive in E. rewrite E. destruct (small_nat_float (- q)) as [Hm Hs]; [lia|].
    destruct (SFopp_spec (d_of_Z (- q))) as [-> ->].
    + rewrite Hm, Hs, Z.abs_neq by lia. split; exact eq_refl.
    + rewrite Hm. apply Z.neq_mul_0. split; [lia|exact unit_nonzero].
  - rewrite (map_eq_elem _ _ _ Hpos q) by (apply elem_of_zrange; lia).
    rewrite Z.abs_eq by lia. apply small_nat_float; lia.
Qed.

Lemma small_float_Z q : - 150 <= q <= 150 -> d_to_Z (float_of_int q) = q.
Proof.
  intros Hq. destruct (small_float q Hq) as [Hm Hs]. unfold d_to_Z. rewrite Hm, Hs.
  rewrite Z.div_mul by exact unit_nonzero.
  destruct (Z.ltb_spec q 0) as [Hn|Hn]; cbn [cond_Zopp]; [rewrite Z.abs_neq|rewrite Z.abs_eq]; lia.
Qed.

Lemma sample_ints : PgInts (pg := sample_pg).
Proof.
  split.
  - intros q Hq. cbn [float4out sample_pg]. rewrite (proj1 (small_float q Hq)).
    rewrite Z.mod_mul by exact unit_nonzero. rewrite Z.eqb_refl, small_float_Z by done.
    apply atoi_fmt_d. lia.
  - intros q k Hq _. cbn [real_sub_int4 sample_pg]. by rewrite small_float_Z.
Qed.

Lemma new_order_stock_witness : exists res D',
  call (new_order sample_order) 9 sample_db = (inl res, D')
  /\ exists r', List.filter (is_stock 1 1) (t_stock D') = [r'] /\ S_QUANTITY r' = float_of_int 15.
Proof.
  pose proof (new_order_returns (laws := sample_laws) sample_order 9 sample_db sample_consistent
                sample_placeable) as (res & D' & Hcall & Hdone).
  exists res, D'. split; [exact Hcall|].
  destruct (new_order_stock (H := sample_ints) sample_order 9 sample_db res D' 1 1 5 nuts 20 Hdone) as (r' & H1 & _ & H2 & _).
  - apply (bool_decide_unpack _). vm_compute. exact I.
  - left.
  - reflexivity.
  - reflexivity.
  - lia.
  - lia.
  - exists r'. split; [exact H1|exact H2].
Defined.

Lemma elem_of_list_singleton_repeat {A} (x y : A) n : x ∈ repeat y n -> x = y.
Proof. induction n; cbn; [by intros ?%not_elem_of_nil|]. intros [->|?]%elem_of_cons; auto. Qed.

(** Fifteen lines of ten nuts out of twenty: the quantity ends at -130. *)
Lemma greedy_placeable : placeable greedy_order sample_db.
Proof.
  destruct sample_placeable. split; try done.
  - intros line Hl. apply (elem_of_list_singleton_repeat line (1, 1, 10) 15) in Hl as ->. cbn. split_and!; [lia| |].
    + eexists. split; [left|done].
    + eexists. split; [left|done].
Qed.

Lemma repeated_item_not_replenished_witness : exists res D',
  call (new_order greedy_order) 9 sample_db = (inl res, D')
  /\ exists r', List.filter (is_stock 1 1) (t_stock D') = [r'] /\ S_QUANTITY r' = float_of_int (-130).
Proof.
  pose proof (new_order_returns (laws := sample_laws) greedy_order 9 sample_db sample_consistent
                greedy_placeable) as (res & D' & Hcall & Hdone).
  exists res, D'. split; [exact Hcall|].
  apply (repeated_item_not_replenished (H := sample_ints) greedy_order 9 sample_db res D' 1 1 10 15 nuts 20 Hdone).
  - reflexivity.
  - reflexivity.
  - reflexivity.
  - lia.
  - lia.
  - lia.
Defined.
