(* ===== verification/Db.v ===== *)
(** * Executing a transaction ([src/db.c])

    The client reaches its database through function pointers; they are the
    interface [DbOps] here, over an abstract world [S] that also holds the
    clock.  Every call is recorded, so that the theorems can speak of the
    sequence of executions, commits and rollbacks.  Loops that wait for the
    database take fuel, [None] when it runs out. *)

From Stdlib Require Import ZArith Lia SpecFloat.
From stdpp Require Import base list.
From S2P Require Import Prelude Double Common TxnData InputData.

(** What [nanosleep] answers: 0, or -1 with [EINTR] and the time that remains, or
    -1 with another error. *)
Inductive slept := Slept | Interrupted (rem : Z * Z) | TimeInvalid.

(** The loop that sleeps [ts_retry], as seconds and nanoseconds: an error that
    is no interruption is logged and tried again. *)
Fixpoint nanosleep_loop {S} (nanosleep : Z * Z -> S -> slept * S) (fuel : nat) (ts : Z * Z) (w : S)
  : option S :=
  match fuel with
  | O => None
  | Datatypes.S fuel' =>
      match nanosleep ts w with
      | (Slept, w) => Some w
      | (Interrupted rem, w) => nanosleep_loop nanosleep fuel' rem w
      | (TimeInvalid, w) => nanosleep_loop nanosleep fuel' ts w
      end
  end.

Definition valid_time (ts : Z * Z) : Prop := 0 <= ts.1 /\ 0 <= ts.2 < 1000000000.
Definition nanoseconds (ts : Z * Z) : Z := ts.1 * 1000000000 + ts.2.

(** Interruptions shorten a valid time until it is over. *)
Lemma nanosleep_loop_returns {S} (nanosleep : Z * Z -> S -> slept * S) :
  (forall ts w, valid_time ts ->
     match (nanosleep ts w).1 with
     | Slept => True
     | Interrupted rem => valid_time rem /\ nanoseconds rem < nanoseconds ts
     | TimeInvalid => False
     end) ->
  forall fuel ts w, valid_time ts -> nanoseconds ts < Z.of_nat fuel ->
  is_Some (nanosleep_loop nanosleep fuel ts w).
Proof.
  intros Hn. induction fuel as [|fuel IH]; intros ts w Hv Hf.
  - unfold valid_time, nanoseconds in *. lia.
  - cbn [nanosleep_loop]. specialize (Hn ts w Hv).
    destruct (nanosleep ts w) as [[|rem|] w']; cbn in Hn; [by eexists| |done].
    apply IH; [apply Hn|lia].
Qed.

(** An invalid time is never over. *)
Lemma nanosleep_loop_invalid {S} (nanosleep : Z * Z -> S -> slept * S) ts :
  (forall w, (nanosleep ts w).1 = TimeInvalid) -> forall fuel w, nanosleep_loop nanosleep fuel ts w = None.
Proof.
  intros Hn. induction fuel as [|fuel IH]; intros w; [done|]. cbn. specialize (Hn w).
  destruct (nanosleep ts w) as [[| |] w']; [done..|]. apply IH.
Qed.

(** The operations of [struct db_context_t], [time(NULL)], and what
    [nanosleep_loop] leaves: it ends because [ts_retry] is a valid time. *)
Class DbOps (S : Type) := {
  time : S -> Z * S;
  sleep_retry : S -> S;
  connect : S -> Z * S;
  disconnect : S -> Z * S;
  commit_transaction : S -> Z * S;
  rollback_transaction : S -> Z * S;
  execute_integrity : integrity_t -> S -> Z * integrity_t * S;
  execute_delivery : delivery_t -> S -> Z * delivery_t * S;
  execute_new_order : new_order_t -> S -> Z * new_order_t * S;
  execute_order_status : order_status_t -> S -> Z * order_status_t * S;
  execute_payment : payment_t -> S -> Z * payment_t * S;
  execute_stock_level : stock_level_t -> S -> Z * stock_level_t * S }.

(** A call through [dbc], with the status it returned. *)
Inductive call :=
| CConnect (rc : Z)
| CDisconnect (rc : Z)
| CExecute (transaction rc : Z)
| CCommit (rc : Z)
| CRollback (rc : Z).

Section db.
Context {S : Type} `{DbOps S}.
Context (stop_time : Z).

(** [dbc->stop_time != 0 && tt > dbc->stop_time] *)
Definition expired (now : Z) : bool := negb (stop_time =? 0) && (now >? stop_time).

Fixpoint connect_to_db (fuel : nat) (w : S) : option (Z * list call * S) :=
  match fuel with
  | O => None
  | Datatypes.S fuel' =>
      let '(now, w) := time w in
      if expired now then Some (ERROR, [], w)
      else
        let '(rc, w) := connect w in
        if rc =? OK then Some (OK, [CConnect rc], w)
        else
          '(r, log, w) ← connect_to_db fuel' (sleep_retry w);
          Some (r, CConnect rc :: log, w)
  end.

Definition disconnect_from_db (w : S) : Z * list call * S :=
  let '(rc, w) := disconnect w in
  (if negb (rc =? OK) then ERROR else OK, [CDisconnect rc], w).

(** [td->new_order.o_all_local]: the loop leaves at the first line of another
    warehouse. *)
Fixpoint all_local (w_id : Z) (lines : list no_order_line_t) : Z :=
  match lines with
  | [] => 1
  | l :: lines' => if negb (ol_supply_w_id l =? w_id) then 0 else all_local w_id lines'
  end.

Definition set_all_local (v : Z) (d : new_order_t) : new_order_t :=
  mk_new_order (no_w_id d) (no_d_id d) (no_c_id d) (no_o_ol_cnt d) v (no_order_line d)
    (no_o_id d) (no_total_amount d) (no_w_tax d) (no_d_tax d) (no_c_last d) (no_c_credit d)
    (no_c_discount d) (no_rollback d).
Definition set_total_amount (v : double) (d : new_order_t) : new_order_t :=
  mk_new_order (no_w_id d) (no_d_id d) (no_c_id d) (no_o_ol_cnt d) (no_o_all_local d)
    (no_order_line d) (no_o_id d) v (no_w_tax d) (no_d_tax d) (no_c_last d)
    (no_c_credit d) (no_c_discount d) (no_rollback d).

(** [total_amount * (1 - c_discount) * (1 + w_tax + d_tax)] *)
Definition adjusted_total (d : new_order_t) : double :=
  dmul (dmul (no_total_amount d) (dsub (d_of_Z 1) (no_c_discount d)))
       (dadd (dadd (d_of_Z 1) (no_w_tax d)) (no_d_tax d)).

Definition execute_new_order_checked (d : new_order_t) (w : S) : Z * new_order_t * S :=
  let d := set_all_local
             (all_local (no_w_id d) (take (Z.to_nat (no_o_ol_cnt d)) (no_order_line d))) d in
  let '(rc, d, w) := execute_new_order d w in
  if negb (rc =? ERROR) && (no_rollback d =? 0)
  then (rc, set_total_amount (adjusted_total d) d, w)
  else (ERROR, d, w).

(** The [switch]; [None] when the union was written as another member. *)
Definition execute (transaction : Z) (td : transaction_data_t) (w : S)
  : option (Z * transaction_data_t * S) :=
  if transaction =? INTEGRITY then
    match td with TD_integrity d => let '(rc, d, w) := execute_integrity d w in
                                    Some (rc, TD_integrity d, w) | _ => None end
  else if transaction =? DELIVERY then
    match td with TD_delivery d => let '(rc, d, w) := execute_delivery d w in
                                   Some (rc, TD_delivery d, w) | _ => None end
  else if transaction =? NEW_ORDER then
    match td with TD_new_order d => let '(rc, d, w) := execute_new_order_checked d w in
                                    Some (rc, TD_new_order d, w) | _ => None end
  else if transaction =? ORDER_STATUS then
    match td with TD_order_status d => let '(rc, d, w) := execute_order_status d w in
                                       Some (rc, TD_order_status d, w) | _ => None end
  else if transaction =? PAYMENT then
    match td with TD_payment d => let '(rc, d, w) := execute_payment d w in
                                  Some (rc, TD_payment d, w) | _ => None end
  else
    match td with TD_stock_level d => let '(rc, d, w) := execute_stock_level d w in
                                      Some (rc, TD_stock_level d, w) | _ => None end.

Definition known_transaction (transaction : Z) : bool :=
  bool_decide (transaction ∈
    [INTEGRITY; DELIVERY; NEW_ORDER; ORDER_STATUS; PAYMENT; STOCK_LEVEL]).

(** Commit after OK, roll back after ERROR: the new status, the calls, and
    whether the loop is left. *)
Definition finish (rc status : Z) (w : S) : Z * list call * bool * S :=
  if rc =? OK then
    let '(status, w) := commit_transaction w in (status, [CCommit status], status =? OK, w)
  else if rc =? ERROR then
    let '(status, w) := rollback_transaction w in
    (status, [CRollback status], status =? STATUS_ROLLBACK, w)
  else (status, [], false, w).

(** Reconnect until it works ([true]) or the stop time has passed. *)
Fixpoint reconnect (fuel : nat) (w : S) : option (bool * list call * S) :=
  match fuel with
  | O => None
  | Datatypes.S fuel' =>
      let '(now, w) := time w in
      if expired now then Some (false, [], w)
      else
        '(rc2, log, w) ← connect_to_db fuel w;
        if rc2 =? OK then Some (true, log, w)
        else
          '(r, log', w) ← reconnect fuel' (sleep_retry w);
          Some (r, log ++ log', w)
  end.

(** [while (txn_count++ < 2)] *)
Fixpoint attempts (fuel n : nat) (transaction status : Z) (td : transaction_data_t) (w : S)
  : option (Z * transaction_data_t * list call * S) :=
  match n with
  | O => Some (status, td, [], w)
  | Datatypes.S n' =>
      if negb (known_transaction transaction) then Some (ERROR, td, [], w)
      else
        '(rc, td, w) ← execute transaction td w;
        let '(status, log, left_, w) := finish rc status w in
        let log := CExecute transaction rc :: log in
        if (left_ : bool) then Some (status, td, log, w)
        else
          let '(_, log', w) := disconnect_from_db w in
          '(ok, log'', w) ← reconnect fuel w;
          if (ok : bool) then
            '(r, td, rest, w) ← attempts fuel n' transaction status td w;
            Some (r, td, log ++ log' ++ log'' ++ rest, w)
          else Some (ERROR, td, log ++ log' ++ log'', w)
  end.

Definition process_transaction (fuel : nat) (transaction : Z) (td : transaction_data_t)
    (w : S) : option (Z * transaction_data_t * list call * S) :=
  attempts fuel 2 transaction 0 td w.
End db.

(** What the calls keep, the loops keep. *)
Section invariant.
Context {S : Type} `{DbOps S} (stop_time : Z) (I : S -> Prop).
Context (Htime : forall w, I w -> I (time w).2) (Hsleep : forall w, I w -> I (sleep_retry w)).
Context (Hconnect : forall w, I w -> I (connect w).2).

Lemma connect_to_db_invariant fuel w r log w' :
  connect_to_db stop_time fuel w = Some (r, log, w') -> I w -> I w'.
Proof.
  revert w r log. induction fuel as [|fuel IH]; intros w r log; [done|]. cbn.
  intros He Hw. apply Htime in Hw. destruct (time w) as [now w1]. cbn in Hw.
  destruct (expired stop_time now); [by injection He as _ _ <-|].
  apply Hconnect in Hw. destruct (connect w1) as [rc w2]. cbn in Hw.
  destruct (rc =? OK); [by injection He as _ _ <-|].
  destruct (connect_to_db stop_time fuel (sleep_retry w2)) as [[[r2 log2] w3]|] eqn:Hc; [|done].
  injection He as _ _ <-. eauto.
Qed.

Lemma reconnect_invariant fuel w ok log w' :
  reconnect stop_time fuel w = Some (ok, log, w') -> I w -> I w'.
Proof.
  revert w ok log. induction fuel as [|fuel IH]; intros w ok log; [done|]. cbn [reconnect].
  intros He Hw. apply Htime in Hw. destruct (time w) as [now w1]. cbn in Hw.
  destruct (expired stop_time now); [by injection He as _ _ <-|].
  destruct (connect_to_db stop_time _ w1) as [[[r2 log2] w2]|] eqn:Hc; [|done].
  apply connect_to_db_invariant in Hc; [|done]. cbn [mbind option_bind] in He.
  destruct (r2 =? OK); [by injection He as _ _ <-|].
  destruct (reconnect stop_time fuel (sleep_retry w2)) as [[[r3 log3] w3]|] eqn:Hr; [|done].
  injection He as _ _ <-. eauto.
Qed.
End invariant.

(** ** Reading a log of calls *)

Definition executions (log : list call) : Z :=
  sumZ (fun c => match c with CExecute _ _ => 1 | _ => 0 end) log.
Definition commits (log : list call) : Z :=
  sumZ (fun c => match c with CCommit rc => if rc =? OK then 1 else 0 | _ => 0 end) log.

(** Every commit follows an execution that returned OK, every rollback one that
    returned ERROR, with nothing in between. *)
Fixpoint paired (prev : option Z) (log : list call) : Prop :=
  match log with
  | [] => True
  | CExecute _ rc :: log' => paired (Some rc) log'
  | CCommit _ :: log' => prev = Some OK /\ paired None log'
  | CRollback _ :: log' => prev = Some ERROR /\ paired None log'
  | _ :: log' => paired None log'
  end.

(** Calls that (re)establish the connection. *)
Definition linking (c : call) : Prop :=
  match c with CConnect _ | CDisconnect _ => True | _ => False end.

Lemma linking_sums log : Forall linking log -> executions log = 0 /\ commits log = 0.
Proof.
  intros H. unfold executions, commits.
  induction H as [|c log Hc _ [IH1 IH2]]; [done|]. destruct c; done.
Qed.

Lemma linking_paired log rest prev : Forall linking log -> log <> [] ->
  paired None rest -> paired prev (log ++ rest).
Proof.
  intros H Hne Hr. revert prev. induction H as [|c log Hc Hl IH]; intros prev; [done|].
  destruct c; try done; cbn [app paired]; destruct log as [|c' log]; try done; by apply IH.
Qed.

(** What the back ends promise: a commit does not answer with the rollback
    status, nor a rollback with OK. *)
Class DbLaws (S : Type) `{DbOps S} : Prop := {
  commit_not_rollback : forall w, (commit_transaction w).1 <> STATUS_ROLLBACK;
  rollback_not_ok : forall w, (rollback_transaction w).1 <> OK }.

Section theorems.
Context {S : Type} `{DbOps S} (stop_time : Z).

Lemma connect_to_db_log fuel w r log w' :
  connect_to_db stop_time fuel w = Some (r, log, w') ->
  Forall linking log /\ (r = OK \/ r = ERROR).
Proof.
  revert w r log w'. induction fuel as [|fuel IH]; intros w r log w'; [done|].
  cbn [connect_to_db]. destruct (time w) as [now w1].
  destruct (expired stop_time now); [by intros [= <- <- _]; auto|].
  destruct (connect w1) as [rc w2]. destruct (rc =? OK).
  { intros [= <- <- _]. split; [by repeat constructor|auto]. }
  destruct (connect_to_db _ fuel _) as [[[r1 log1] w3]|] eqn:Hc; [|done].
  cbn. intros [= <- <- _]. destruct (IH _ _ _ _ Hc) as [H1 H2].
  split; [by constructor|done].
Qed.

Lemma reconnect_log fuel w ok log w' :
  reconnect stop_time fuel w = Some (ok, log, w') -> Forall linking log.
Proof.
  revert w ok log w'. induction fuel as [|fuel IH]; intros w ok log w'; [done|].
  cbn [reconnect]. destruct (time w) as [now w1].
  destruct (expired stop_time now); [by intros [= _ <- _]|].
  destruct (connect_to_db _ _ _) as [[[rc2 log2] w2]|] eqn:Hc; [|done].
  apply connect_to_db_log in Hc as [Hc _]. cbn.
  destruct (rc2 =? OK); [by intros [= _ <- _]|].
  destruct (reconnect _ fuel _) as [[[ok3 log3] w3]|] eqn:Hr; [|done].
  cbn. intros [= _ <- _]. apply Forall_app. split; [done|by eapply IH].
Qed.

Context `{!DbLaws S}.

(** One execution with its commit or rollback. *)
Lemma finish_spec t rc status w status' log left_ w' :
  finish rc status w = (status', log, left_, w') ->
  status <> OK -> status <> STATUS_ROLLBACK ->
  executions (CExecute t rc :: log) = 1 /\
  commits (CExecute t rc :: log) = (if status' =? OK then 1 else 0) /\
  (forall prev rest, paired None rest -> (rest = [] \/ exists r, hd_error rest = Some (CDisconnect r)) ->
     paired prev (CExecute t rc :: log ++ rest)) /\
  (if left_ : bool then
     (status' = OK /\ rc = OK /\ log = [CCommit OK]) \/
     (status' = STATUS_ROLLBACK /\ rc = ERROR /\ log = [CRollback STATUS_ROLLBACK])
   else status' <> OK /\ status' <> STATUS_ROLLBACK).
Proof.
  intros Hf H1 H2. unfold finish in Hf. destruct (Z.eqb_spec rc OK) as [->|Hok].
  - pose proof (commit_not_rollback w) as Hc. destruct (commit_transaction w) as [st w1].
    injection Hf as <- <- <- _. cbn in Hc. split; [done|]. split; [cbn; lia|].
    split; [by intros prev rest Hr _|]. destruct (Z.eqb_spec st OK) as [->|]; auto.
  - destruct (Z.eqb_spec rc ERROR) as [->|Herr].
    + pose proof (rollback_not_ok w) as Hr. destruct (rollback_transaction w) as [st w1].
      injection Hf as <- <- <- _. cbn in Hr. split; [done|].
      split; [by rewrite (proj2 (Z.eqb_neq _ _) Hr)|].
      split; [by intros prev rest Hr' _|].
      destruct (Z.eqb_spec st STATUS_ROLLBACK) as [->|]; auto.
    + injection Hf as <- <- <- _. split; [done|].
      split; [by rewrite (proj2 (Z.eqb_neq _ _) H1)|]. split; [|done].
      intros prev rest Hr [->|[r Hd]]; [done|]. destruct rest as [|c rest]; [done|].
      injection Hd as ->. exact Hr.
Qed.

Definition ends_with (log tail : list call) : Prop := exists pre, log = pre ++ tail.

Lemma attempts_spec fuel n t : forall status td w r td' log w',
  attempts stop_time fuel n t status td w = Some (r, td', log, w') ->
  status <> OK -> status <> STATUS_ROLLBACK ->
  executions log <= Z.of_nat n /\
  commits log = (if r =? OK then 1 else 0) /\
  (r = OK -> ends_with log [CExecute t OK; CCommit OK]) /\
  (r = STATUS_ROLLBACK -> ends_with log [CExecute t ERROR; CRollback STATUS_ROLLBACK]) /\
  paired None log.
Proof.
  induction n as [|n IH]; intros status td w r td' log w' Ha H1 H2; cbn [attempts] in Ha.
  { injection Ha as <- _ <- _. rewrite (proj2 (Z.eqb_neq _ _) H1). done. }
  destruct (negb _).
  { injection Ha as <- _ <- _. repeat split; try done; unfold executions; cbn; lia. }
  destruct (execute t td w) as [[[rc td1] w1]|]; [|done]. cbn [mbind option_bind] in Ha.
  destruct (finish rc status w1) as [[[status1 log1] left1] w2] eqn:Hf.
  destruct (finish_spec t _ _ _ _ _ _ _ Hf H1 H2) as (E1 & E2 & E3 & E4).
  destruct left1.
  { injection Ha as <- _ <- _. rewrite E1, E2. split; [lia|]. split; [done|].
    split; [|split].
    - intros ->. destruct E4 as [(_ & -> & ->)|(? & _)]; [by exists []|done].
    - intros ->. destruct E4 as [(? & _)|(_ & -> & ->)]; [done|by exists []].
    - rewrite <- (app_nil_r log1). apply E3; [exact I|by left]. }
  destruct E4 as [N1 N2]. rewrite (proj2 (Z.eqb_neq _ _) N1) in E2.
  destruct (disconnect_from_db w2) as [[d dlog] w3] eqn:Hd.
  assert (Hdl : exists x, dlog = [CDisconnect x]).
  { unfold disconnect_from_db in Hd. destruct (disconnect w2) as [x w4].
    injection Hd as _ <- _. eauto. }
  destruct Hdl as [x ->].
  destruct (reconnect stop_time fuel w3) as [[[ok rlog] w4]|] eqn:Hr; [|done].
  apply reconnect_log in Hr as Hlink. cbn [mbind option_bind] in Ha.
  assert (Hlink' : Forall linking ([CDisconnect x] ++ rlog)) by by constructor.
  destruct (linking_sums _ Hlink') as [L1 L2].
  assert (Hsum : forall rest,
      executions (CExecute t rc :: log1 ++ CDisconnect x :: rlog ++ rest)
      = 1 + executions rest /\
      commits (CExecute t rc :: log1 ++ CDisconnect x :: rlog ++ rest) = commits rest).
  { intros rest. unfold executions, commits in *.
    change (CExecute t rc :: log1 ++ CDisconnect x :: rlog ++ rest)
      with ((CExecute t rc :: log1) ++ [CDisconnect x] ++ rlog ++ rest).
    rewrite (app_assoc [CDisconnect x]), !(sumZ_app _ (CExecute t rc :: log1)),
      !(sumZ_app _ ([CDisconnect x] ++ rlog)). lia. }
  destruct ok.
  - destruct (attempts stop_time fuel n t status1 td1 w4) as [[[[r2 td2] rest] w5]|] eqn:Ha';
      [|done].
    injection Ha as <- _ <- _.
    destruct (IH _ _ _ _ _ _ _ Ha' N1 N2) as (I1 & I2 & I3 & I4 & I5).
    destruct (Hsum rest) as [S1 S2]. rewrite S1, S2. split; [lia|]. split; [done|].
    assert (Hends : forall tl, ends_with rest tl ->
        ends_with (CExecute t rc :: log1 ++ CDisconnect x :: rlog ++ rest) tl).
    { intros tl [pre ->]. exists (CExecute t rc :: log1 ++ CDisconnect x :: rlog ++ pre).
      cbn. by rewrite <- !app_assoc, <- !app_comm_cons, <- !app_assoc. }
    split; [auto|]. split; [auto|]. apply E3; [|right; by eexists].
    by apply (linking_paired (CDisconnect x :: rlog)).
  - injection Ha as <- _ <- _. destruct (Hsum []) as [S1 S2]. rewrite app_nil_r in S1, S2.
    rewrite S1, S2. split; [unfold executions; cbn; lia|]. split; [done|].
    split; [done|]. split; [done|]. apply E3; [|right; by eexists].
    rewrite <- (app_nil_r rlog). by apply (linking_paired (CDisconnect x :: rlog)).
Qed.
End theorems.

(** C6. A transaction is executed at most twice, and committed exactly once when
    the client reports OK and never otherwise: OK means that the last call was a
    commit that succeeded right after an execution that returned OK, the
    rollback status that the last call rolled back an execution that returned
    ERROR, and no execution's outcome is committed or rolled back across a
    reconnection. *)
Theorem process_transaction_once {S} `{DbOps S} `{!DbLaws S} stop_time fuel t td w r td' log w' :
  process_transaction stop_time fuel t td w = Some (r, td', log, w') ->
  executions log <= 2 /\
  commits log = (if r =? OK then 1 else 0) /\
  (r = OK -> ends_with log [CExecute t OK; CCommit OK]) /\
  (r = STATUS_ROLLBACK -> ends_with log [CExecute t ERROR; CRollback STATUS_ROLLBACK]) /\
  paired None log.
Proof. intros Hp. by apply (attempts_spec stop_time fuel 2 t 0 td w r td' log w' Hp). Qed.

(** ** Termination *)

Section termination.
Context {S : Type} `{DbOps S} (stop_time : Z).

(** One round of [connect_to_db] that fails. *)
Definition retry_round (w : S) : S := sleep_retry (connect (time w).2).2.
(** A round that leaves the loop. *)
Definition last_round (w : S) : Prop :=
  expired stop_time (time w).1 = true \/ (connect (time w).2).1 = OK.

Lemma connect_to_db_returns k : forall w,
  last_round (iter k retry_round w) ->
  exists r log w', connect_to_db stop_time (Datatypes.S k) w = Some (r, log, w').
Proof.
  induction k as [|k IH]; intros w Hl; cbn [connect_to_db]; cbn [iter] in Hl;
    unfold last_round, retry_round in *;
    destruct (time w) as [now w1]; cbn [fst snd] in *;
    (destruct (expired stop_time now); [by do 3 eexists|]);
    destruct (connect w1) as [rc w2] eqn:Hc; cbn [fst snd] in *;
    (destruct (Z.eqb_spec rc OK) as [->|Hrc]; [by do 3 eexists|]).
  - by destruct Hl.
  - destruct (IH (sleep_retry w2) Hl) as (r & log & w' & Hs).
    cbn [connect_to_db] in Hs. rewrite Hs. by do 3 eexists.
Qed.

Lemma connect_to_db_more fuel fuel' : (fuel <= fuel')%nat -> forall w x,
  connect_to_db stop_time fuel w = Some x -> connect_to_db stop_time fuel' w = Some x.
Proof.
  revert fuel'. induction fuel as [|fuel IH]; intros [|fuel'] Hle w x; try done; [lia|].
  cbn [connect_to_db]. destruct (time w) as [now w1]. destruct (expired _ _); [done|].
  destruct (connect w1) as [rc w2]. destruct (rc =? OK); [done|].
  destruct (connect_to_db _ fuel _) as [y|] eqn:Hy; [|done].
  by rewrite (IH fuel' ltac:(lia) _ _ Hy).
Qed.

(** An unsuccessful [connect_to_db] has seen the stop time pass. *)
Lemma connect_to_db_error fuel : forall w log w',
  connect_to_db stop_time fuel w = Some (ERROR, log, w') ->
  exists w0, w' = (time w0).2 /\ expired stop_time (time w0).1 = true.
Proof.
  induction fuel as [|fuel IH]; intros w log w'; [done|]. cbn [connect_to_db].
  destruct (time w) as [now w1] eqn:Ht. destruct (expired _ now) eqn:He.
  { intros [= _ <-]. exists w. by rewrite Ht. }
  destruct (connect w1) as [rc w2]. destruct (rc =? OK); [done|].
  destruct (connect_to_db _ fuel _) as [[[r1 log1] w3]|] eqn:Hc; [|done].
  cbn. intros [= -> _ <-]. by eapply IH.
Qed.

(** Within [k] rounds, the database answers or the stop time passes; and the
    clock does not go back. *)
Context (k : nat).
Context (Hrounds : forall w, exists j, (j <= k)%nat /\ last_round (iter j retry_round w)).
Context (Hclock : forall w, expired stop_time (time w).1 = true ->
  expired stop_time (time (sleep_retry (time w).2)).1 = true).

Lemma reconnect_returns fuel w : (2 + k <= fuel)%nat ->
  exists ok log w', reconnect stop_time fuel w = Some (ok, log, w').
Proof.
  intros Hf. destruct fuel as [|[|fuel]]; [lia..|]. cbn [reconnect].
  destruct (time w) as [now w1]. destruct (expired _ now); [by do 3 eexists|].
  destruct (Hrounds w1) as (j & Hj & Hl).
  destruct (connect_to_db_returns j w1 Hl) as (r & log & w2 & Hc).
  rewrite (connect_to_db_more (Datatypes.S j) (Datatypes.S (Datatypes.S fuel)) ltac:(lia) _ _ Hc).
  cbn [mbind option_bind].
  destruct (connect_to_db_log _ _ _ _ _ _ Hc) as [_ [-> | ->]]; [by do 3 eexists|].
  destruct (connect_to_db_error _ _ _ _ Hc) as (w0 & -> & He).
  apply Hclock in He. destruct (time (sleep_retry (time w0).2)) as [now' w3].
  cbn in He. rewrite He. by do 3 eexists.
Qed.

Lemma execute_same_type t td w : known_transaction t = true -> data_type td = t ->
  exists rc td' w', execute t td w = Some (rc, td', w') /\ data_type td' = t.
Proof.
  intros _ <-. destruct td; cbn [data_type execute];
    match goal with |- context [execute _ ?td _] => unfold execute end; cbn;
    repeat match goal with |- context [let '(_, _) := ?x in _] => destruct x as [[? ?] ?] end;
    do 3 eexists; done.
Qed.

Lemma attempts_return fuel n t : (2 + k <= fuel)%nat -> forall status td w,
  data_type td = t -> is_Some (attempts stop_time fuel n t status td w).
Proof.
  intros Hf. induction n as [|n IH]; intros status td w Ht; cbn [attempts]; [by eexists|].
  destruct (known_transaction t) eqn:Hk; [|by eexists]. cbn [negb].
  destruct (execute_same_type t td w Hk Ht) as (rc & td1 & w1 & -> & Ht1).
  cbn [mbind option_bind]. destruct (finish rc status w1) as [[[st log1] l] w2].
  destruct l; [by eexists|]. destruct (disconnect_from_db w2) as [[d dlog] w3].
  destruct (reconnect_returns fuel w3 Hf) as (ok & log & w4 & ->). cbn [mbind option_bind].
  destruct ok; [|by eexists]. destruct (IH st td1 w4 Ht1) as [[[[r td2] rest] w5] ->].
  by eexists.
Qed.
End termination.

(** C38. The client does not hang in a transaction: if, from any state, the
    database answers or the stop time passes within [k] retries and the clock
    does not go back, [process_transaction] returns, with fuel for [k + 2]
    rounds of its loops. *)
Theorem process_transaction_returns {S} `{DbOps S} stop_time k td w :
  (forall w, exists j, (j <= k)%nat /\ last_round stop_time (iter j retry_round w)) ->
  (forall w, expired stop_time (time w).1 = true ->
     expired stop_time (time (sleep_retry (time w).2)).1 = true) ->
  exists r td' log w',
    process_transaction stop_time (k + 2) (data_type td) td w = Some (r, td', log, w').
Proof.
  intros Hr Hc.
  destruct (attempts_return stop_time k Hr Hc (k + 2) 2 (data_type td) ltac:(lia) 0 td w eq_refl)
    as [[[[r td'] log] w'] Ha].
  by exists r, td', log, w'.
Qed.

Lemma all_local_spec w_id lines :
  all_local w_id lines = if decide (Forall (fun l => ol_supply_w_id l = w_id) lines) then 1 else 0.
Proof.
  induction lines as [|l lines IH]; [by rewrite decide_True by constructor|]. cbn.
  destruct (Z.eqb_spec (ol_supply_w_id l) w_id) as [Hl|Hl]; cbn.
  - rewrite IH. destruct (decide (Forall _ lines)) as [Hf|Hf].
    + rewrite decide_True; [done|by constructor].
    + rewrite decide_False; [done|]. by intros [_ ?]%Forall_cons.
  - rewrite decide_False; [done|]. by intros [? _]%Forall_cons.
Qed.

(** A New-Order reaches the back end with [o_all_local] set exactly when
    every one of its order lines is supplied by its own warehouse.  It is
    reported as ERROR, hence rolled back, when the back end fails or asks for a
    rollback; otherwise only [total_amount] is adjusted, by the discount and
    the taxes that the back end returned. *)
Theorem new_order_execution {S} `{DbOps S} d w :
  let lines := take (Z.to_nat (no_o_ol_cnt d)) (no_order_line d) in
  let local := if decide (Forall (fun l => ol_supply_w_id l = no_w_id d) lines) then 1 else 0 in
  let '(rc0, d0, w0) := execute_new_order (set_all_local local d) w in
  exists rc d', execute NEW_ORDER (TD_new_order d) w = Some (rc, TD_new_order d', w0) /\
    (rc0 = ERROR \/ no_rollback d0 <> 0 -> rc = ERROR /\ d' = d0) /\
    (rc0 <> ERROR -> no_rollback d0 = 0 ->
     rc = rc0 /\ d' = set_total_amount (adjusted_total d0) d0).
Proof.
  cbv zeta. rewrite <- all_local_spec. unfold execute, execute_new_order_checked. cbn.
  destruct (execute_new_order _ w) as [[rc0 d0] w0].
  destruct (Z.eqb_spec rc0 ERROR) as [->|Hrc], (Z.eqb_spec (no_rollback d0) 0) as [Hr|Hr]; cbn;
    do 2 eexists; (split; [done|]); split; intuition congruence.
Qed.

(** ** Witnesses *)

(** A database that is scripted: each answer takes one member of the state, 0
    for a failure. *)
#[local] Instance script_ops : DbOps (list Z) := {
  time w := (0, w);
  sleep_retry w := tl w;
  connect w := (OK, tl w);
  disconnect w := (OK, tl w);
  commit_transaction w := (if hd 1 w =? 0 then ERROR else OK, tl w);
  rollback_transaction w := (if hd 1 w =? 0 then ERROR else STATUS_ROLLBACK, tl w);
  execute_integrity d w := (if hd 1 w =? 0 then ERROR else OK, d, tl w);
  execute_delivery d w := (if hd 1 w =? 0 then ERROR else OK, d, tl w);
  execute_new_order d w := (if hd 1 w =? 0 then ERROR else OK, d, tl w);
  execute_order_status d w := (if hd 1 w =? 0 then ERROR else OK, d, tl w);
  execute_payment d w := (if hd 1 w =? 0 then ERROR else OK, d, tl w);
  execute_stock_level d w := (if hd 1 w =? 0 then ERROR else OK, d, tl w) }.

#[local] Instance script_laws : DbLaws (list Z).
Proof. constructor; intros w; cbn; by destruct (hd 1 w =? 0). Qed.

(** The commit of the first attempt fails, that of the second succeeds. *)
Lemma process_transaction_once_witness :
  let log := [CExecute DELIVERY OK; CCommit ERROR; CDisconnect OK; CConnect OK;
              CExecute DELIVERY OK; CCommit OK] in
  process_transaction 0 3 DELIVERY (TD_delivery (mk_delivery 1 2)) [1; 0]
  = Some (OK, TD_delivery (mk_delivery 1 2), log, []) /\
  executions log <= 2 /\ commits log = 1.
Proof.
  intros log. assert (Hp : process_transaction 0 3 DELIVERY (TD_delivery (mk_delivery 1 2)) [1; 0]
    = Some (OK, TD_delivery (mk_delivery 1 2), log, [])) by (vm_compute; reflexivity).
  split; [exact Hp|].
  destruct (process_transaction_once 0 3 DELIVERY (TD_delivery (mk_delivery 1 2)) [1; 0] OK
              (TD_delivery (mk_delivery 1 2)) log [] Hp) as (H1 & H2 & _).
  exact (conj H1 H2).
Defined.

Lemma process_transaction_returns_witness :
  exists r td' log w', process_transaction 0 2 DELIVERY (TD_delivery (mk_delivery 1 2)) [1; 0]
                       = Some (r, td', log, w').
Proof.
  apply (process_transaction_returns 0 0 (TD_delivery (mk_delivery 1 2)) [1; 0]).
  - intros w. exists 0%nat. split; [lia|]. by right.
  - intros w. done.
Defined.
