(* ===== verification/Libpq.v ===== *)
(** * The PostgreSQL back end of the client ([src/libpq])

    The operations of the database layer over the calls of libpq, which are an
    interface: what a call answers, and the connection it leaves behind.  Each
    transaction is one BEGIN, one call of a stored procedure with parameters in
    binary format, and the decoding of its rows into the structure of the
    transaction.  Messages to the log and the code of DEBUG builds are left
    out. *)

From Stdlib Require Import ZArith Lia SpecFloat String.
From stdpp Require Import base list.
From S2P Require Import Prelude Double Text Common TxnData Wire Tables Db.

(** ** libpq *)

Inductive ExecStatusType := PGRES_COMMAND_OK | PGRES_TUPLES_OK | PGRES_FATAL_ERROR.
Inductive ConnStatusType := CONNECTION_OK | CONNECTION_BAD.

#[global] Instance ExecStatusType_eq_dec : EqDecision ExecStatusType.
Proof. solve_decision. Defined.
#[global] Instance ConnStatusType_eq_dec : EqDecision ConnStatusType.
Proof. solve_decision. Defined.

(** A result: the rows, [None] for NULL, and the SQLSTATE of an error. *)
Record PGresult := mk_PGresult {
  res_status : ExecStatusType; res_tuples : list (list (option bytes));
  res_sqlstate : option bytes }.

(** The calls.  The state [S] holds the connection.  A call that finds no memory
    answers [None], the null pointer. *)
Class Libpq (S : Type) := {
  PQexec : bytes -> S -> option PGresult * S;
  PQexecParams : bytes -> list (option bytes) -> S -> option PGresult * S;
  PQstatus : S -> ConnStatusType;
  PQerrorMessage : S -> bytes;
  PQconnectdbParams : list (bytes * bytes) -> S -> S;
  PQfinish : S -> S;
  clock_time : S -> Z * S;
  nanosleep : S -> S }.

Definition PQresultStatus (res : option PGresult) : ExecStatusType :=
  match res with Some r => res_status r | None => PGRES_FATAL_ERROR end.

(** [PQresultErrorField(res, PG_DIAG_SQLSTATE)] *)
Definition PQsqlstate (res : option PGresult) : option bytes := res ≫= res_sqlstate.

Definition PQntuples (res : PGresult) : Z := zlen (res_tuples res).

(** The value of a field; [None] when [PQgetisnull]. *)
Definition field_value (res : PGresult) (row field : nat) : option bytes :=
  r ← res_tuples res !! row; v ← r !! field; v.

(** [PQgetvalue]: empty for NULL. *)
Definition PQgetvalue (res : PGresult) (row field : nat) : bytes :=
  default [] (field_value res row field).

Section Libpq.
Context (big_endian : bool).

(** ** Decoding ([dbc_common.c]) *)

Definition libpq_get_float4 (res : PGresult) (row field : nat) : double :=
  match field_value res row field with
  | None => d_zero
  | Some v => float_of_bits (ntohl big_endian (load big_endian 4 v))
  end.

Definition libpq_get_float8 (res : PGresult) (row field : nat) : double :=
  match field_value res row field with
  | None => d_zero
  | Some v => double_of_bits (ntohll big_endian (i64 (load big_endian 8 v)))
  end.

Definition libpq_get_int32 (res : PGresult) (row field : nat) : Z :=
  match field_value res row field with
  | None => 0
  | Some v => i32 (ntohl big_endian (load big_endian 4 v))
  end.

(** What [dest] holds afterwards, an array of [n] bytes. *)
Definition libpq_copy_text (n : Z) (res : PGresult) (row field : nat) : bytes :=
  match field_value res row field with
  | None => []
  | Some v => strncpy v (n - 1)
  end.

(** A parameter of four bytes: [htonl((uint32_t) x)] and its address. *)
Definition param_int (x : Z) : option bytes :=
  Some (store big_endian 4 (ntohl big_endian (x mod 2 ^ 32))).

Definition no_connection : bytes := lit "no connection to the server" ++ [NL].

Context {S : Type} `{Libpq S}.

(** ** The connection *)

Definition commit_transaction_libpq (s : S) : Z * S :=
  let '(res, s) := PQexec (lit "COMMIT") s in
  if decide (PQresultStatus res <> PGRES_COMMAND_OK) then
    if decide (PQstatus s = CONNECTION_BAD) then (RECONNECT, s) else (ERROR, s)
  else (OK, s).

Definition rollback_transaction_libpq (s : S) : Z * S :=
  let '(res, s) := PQexec (lit "ROLLBACK") s in
  if decide (PQresultStatus res <> PGRES_COMMAND_OK) then
    if decide (PQstatus s = CONNECTION_BAD) then (RECONNECT, s) else (STATUS_ROLLBACK, s)
  else (STATUS_ROLLBACK, s).

(** [struct db_context_libpq], the connection apart. *)
Record db_context_libpq := mk_libpq { dbname : bytes; pghost : bytes; pgport : bytes }.

Definition connect_to_db_libpq (c : db_context_libpq) (s : S) : Z * S :=
  let s := PQconnectdbParams
             [(lit "application_name", lit "dbt2-client"); (lit "host", pghost c);
              (lit "port", pgport c); (lit "dbname", dbname c)] s in
  if decide (PQstatus s <> CONNECTION_OK) then (ERROR, PQfinish s) else (OK, s).

Definition disconnect_from_db_libpq (s : S) : Z * S := (OK, PQfinish s).

(** The strings of a context that [init_dbc] has cleared; arguments that are
    null pointers are [None]. *)
Definition db_init_libpq (dbname_ pghost_ pgport_ : option bytes) : db_context_libpq :=
  mk_libpq (from_option (fun v => strncpy v 33) [] dbname_)
    (from_option (fun v => strncpy v 256) [] pghost_)
    (from_option (fun v => strncpy v 33) [] pgport_).

(** ** One transaction

    [BEGIN]; [Some rc] when it fails. *)
Definition lost (res : option PGresult) (s : S) : bool :=
  bool_decide (PQresultStatus res = PGRES_FATAL_ERROR)
  && bytes_eqb (PQerrorMessage s) no_connection.

Definition begin_libpq (s : S) : option Z * S :=
  let '(res, s) := PQexec (lit "BEGIN") s in
  if decide (PQresultStatus res <> PGRES_COMMAND_OK) then
    (Some (if lost res s then RECONNECT else ERROR), s)
  else (None, s).

(** The call of a procedure, for all but New-Order: the rows or the error
    code. *)
Definition call_libpq (query : bytes) (params : list (option bytes)) (s : S)
  : (Z + PGresult) * S :=
  let '(res, s) := PQexecParams query params s in
  match res with
  | Some r =>
      if decide (res_status r = PGRES_TUPLES_OK) then (inr r, s)
      else (inl (if lost res s then RECONNECT else ERROR), s)
  | None => (inl (if lost res s then RECONNECT else ERROR), s)
  end.

(** A block with one call; [decode] stores the rows. *)
Definition transaction_libpq {D} (query : bytes) (params : list (option bytes))
    (decode : PGresult -> D -> D) (data : D) (s : S) : Z * D * S :=
  let '(rc, s) := begin_libpq s in
  match rc with
  | Some rc => (rc, data, s)
  | None =>
      let '(r, s) := call_libpq query params s in
      match r with
      | inl rc => (rc, data, s)
      | inr res => (OK, decode res data, s)
      end
  end.

(** *** Delivery ([dbc_delivery.c]) *)

Definition UDF_DELIVERY : bytes := lit "SELECT * FROM delivery($1, $2)".

Definition delivery_params (data : delivery_t) : list (option bytes) :=
  [param_int (dl_w_id data); param_int (dl_o_carrier_id data)].

Definition execute_delivery_libpq (data : delivery_t) (s : S) : Z * delivery_t * S :=
  transaction_libpq UDF_DELIVERY (delivery_params data) (fun _ d => d) data s.

(** *** Stock-Level ([dbc_stock_level.c]) *)

Definition UDF_STOCK_LEVEL : bytes := lit "SELECT * FROM stock_level($1, $2, $3)".

Definition stock_level_params (data : stock_level_t) : list (option bytes) :=
  [param_int (sl_w_id data); param_int (sl_d_id data); param_int (sl_threshold data)].

Definition decode_stock_level (res : PGresult) (d : stock_level_t) : stock_level_t :=
  if 0 <? PQntuples res
  then mk_stock_level (sl_w_id d) (sl_d_id d) (sl_threshold d) (libpq_get_int32 res 0 0)
  else d.

Definition execute_stock_level_libpq (data : stock_level_t) (s : S) : Z * stock_level_t * S :=
  transaction_libpq UDF_STOCK_LEVEL (stock_level_params data) decode_stock_level data s.

(** *** Order-Status ([dbc_order_status.c]) *)

Definition UDF_ORDER_STATUS : bytes := lit "SELECT * FROM order_status($1, $2, $3, $4)".

Definition order_status_params (d : order_status_t) : list (option bytes) :=
  [param_int (os_c_id d); param_int (os_c_w_id d); param_int (os_c_d_id d);
   Some (wcstombs (os_c_last d) (4 * (Size.C_LAST_LEN + 1)))].

Definition decode_os_line (res : PGresult) (i : nat) : os_order_line_t :=
  mk_os_order_line (libpq_get_int32 res i 0) (libpq_get_int32 res i 1)
    (d_to_Z (libpq_get_float4 res i 2)) (libpq_get_float4 res i 3)
    (libpq_copy_text (Size.OL_DELIVERY_D_LEN + 1) res i 4).

(** The lines that are fetched are overwritten, the others kept. *)
Definition overwrite {L} (f : nat -> L) (n : nat) (lines : list L) : list L :=
  map f (seq 0 n) ++ drop n lines.

Definition decode_order_status (res : PGresult) (d : order_status_t) : order_status_t :=
  let o_ol_cnt := if PQntuples res >? O_OL_CNT_MAX then O_OL_CNT_MAX else PQntuples res in
  let lines := overwrite (decode_os_line res) (Z.to_nat o_ol_cnt) (os_order_line d) in
  if 0 <? PQntuples res then
    mk_order_status (os_c_d_id d) (os_c_w_id d) (libpq_get_int32 res 0 5)
      (match field_value res 0 8 with
       | Some v => mbstowcs (os_c_last d) v (Size.C_LAST_LEN + 1)
       | None => os_c_last d
       end)
      (libpq_get_float8 res 0 9) (libpq_copy_text (4 * (Size.C_FIRST_LEN + 1)) res 0 6)
      (libpq_copy_text (Size.C_MIDDLE_LEN + 1) res 0 7) (libpq_get_int32 res 0 10)
      (libpq_get_int32 res 0 11) (libpq_copy_text (Size.O_ENTRY_D_LEN + 1) res 0 12)
      o_ol_cnt lines
  else
    mk_order_status (os_c_d_id d) (os_c_w_id d) (os_c_id d) (os_c_last d) (os_c_balance d)
      (os_c_first d) (os_c_middle d) (os_o_id d) (os_o_carrier_id d) (os_o_entry_d d)
      o_ol_cnt lines.

Definition execute_order_status_libpq (data : order_status_t) (s : S) : Z * order_status_t * S :=
  transaction_libpq UDF_ORDER_STATUS (order_status_params data) decode_order_status data s.

(** *** Payment ([dbc_payment.c]) *)

Definition UDF_PAYMENT : bytes := lit "SELECT * FROM payment($1, $2, $3, $4, $5, $6, $7)".

Definition payment_params (d : payment_t) : list (option bytes) :=
  [param_int (pa_w_id d); param_int (pa_d_id d); param_int (pa_c_id d);
   param_int (pa_c_w_id d); param_int (pa_c_d_id d);
   Some (wcstombs (pa_c_last d) (4 * (Size.C_LAST_LEN + 1)));
   param_int (float_bits (pa_h_amount d))].

Definition decode_payment (res : PGresult) (d : payment_t) : payment_t :=
  if 0 <? PQntuples res then
    let text n := libpq_copy_text n res 0 in
    mk_payment (pa_c_d_id d) (pa_c_w_id d) (pa_d_id d) (pa_h_amount d) (pa_w_id d)
      (libpq_get_int32 res 0 26)
      (match field_value res 0 12 with
       | Some v => mbstowcs (pa_c_last d) v (Size.C_LAST_LEN + 1)
       | None => pa_c_last d
       end)
      (text (4 * (Size.D_NAME_LEN + 1)) 28%nat)
      (text (4 * (Size.D_STREET_1_LEN + 1)) 5%nat) (text (4 * (Size.D_STREET_2_LEN + 1)) 6%nat)
      (text (4 * (Size.D_CITY_LEN + 1)) 7%nat) (text (4 * (Size.D_STATE_LEN + 1)) 8%nat)
      (text (4 * (Size.D_ZIP_LEN + 1)) 9%nat)
      (libpq_get_float8 res 0 23) (libpq_get_float8 res 0 21) (libpq_get_float4 res 0 22)
      (text (4 * (Size.C_DATA_LEN + 1)) 24%nat) (text (4 * (Size.C_FIRST_LEN + 1)) 10%nat)
      (text (Size.C_MIDDLE_LEN + 1) 11%nat) (text (4 * (Size.C_STREET_1_LEN + 1)) 13%nat)
      (text (4 * (Size.C_STREET_2_LEN + 1)) 14%nat) (text (4 * (Size.C_CITY_LEN + 1)) 15%nat)
      (text (4 * (Size.C_STATE_LEN + 1)) 16%nat) (text (4 * (Size.C_ZIP_LEN + 1)) 17%nat)
      (text (4 * (Size.C_PHONE_LEN + 1)) 18%nat) (text (Size.C_SINCE_LEN + 1) 19%nat)
      (text (Size.C_CREDIT_LEN + 1) 20%nat) (text (Size.TIMESTAMP_LEN + 1) 25%nat)
      (text (4 * (Size.W_NAME_LEN + 1)) 27%nat) (text (4 * (Size.W_STREET_1_LEN + 1)) 0%nat)
      (text (4 * (Size.W_STREET_2_LEN + 1)) 1%nat) (text (4 * (Size.W_CITY_LEN + 1)) 2%nat)
      (text (4 * (Size.W_STATE_LEN + 1)) 3%nat) (text (4 * (Size.W_ZIP_LEN + 1)) 4%nat)
  else d.

Definition execute_payment_libpq (data : payment_t) (s : S) : Z * payment_t * S :=
  transaction_libpq UDF_PAYMENT (payment_params data) decode_payment data s.

(** *** New-Order ([dbc_new_order.c]) *)

Definition UDF_NEW_ORDER : bytes :=
  lit "SELECT * FROM new_order($1, $2, $3, $4, $5, ($6, $7, $8), ($9, $10, $11), ($12, $13, $14), ($15, $16, $17), ($18, $19, $20), ($21, $22, $23), ($24, $25, $26), ($27, $28, $29), ($30, $31, $32), ($33, $34, $35), ($36, $37, $38), ($39, $40, $41), ($42, $43, $44), ($45, $46, $47), ($48, $49, $50))".

(** Three parameters per line, NULL from [o_ol_cnt] on.  The arrays hold fifteen
    lines: [o_ol_cnt] is between 0 and 15. *)
Definition line_params (l : no_order_line_t) : list (option bytes) :=
  [param_int (ol_i_id l); param_int (ol_supply_w_id l); param_int (ol_quantity l)].

Definition new_order_params (d : new_order_t) : list (option bytes) :=
  let lines := flat_map line_params (take (Z.to_nat (no_o_ol_cnt d)) (no_order_line d)) in
  [param_int (no_w_id d); param_int (no_d_id d); param_int (no_c_id d);
   param_int (no_o_all_local d); param_int (no_o_ol_cnt d)]
  ++ lines ++ repeat None (3 * (15 - Z.to_nat (no_o_ol_cnt d))).

Definition decode_no_line (res : PGresult) (i : nat) : no_order_line_t :=
  mk_no_order_line (libpq_get_int32 res i 1) (libpq_get_int32 res i 0)
    (libpq_get_int32 res i 3) (libpq_get_float4 res i 6) (libpq_get_int32 res i 4)
    (List.hd 0 (PQgetvalue res i 7))
    (libpq_copy_text (4 * (Size.I_NAME_LEN + 1)) res i 2) (libpq_get_float4 res i 5).

Definition set_rollback (v : Z) (d : new_order_t) : new_order_t :=
  mk_new_order (no_w_id d) (no_d_id d) (no_c_id d) (no_o_ol_cnt d) (no_o_all_local d)
    (no_order_line d) (no_o_id d) (no_total_amount d) (no_w_tax d) (no_d_tax d)
    (no_c_last d) (no_c_credit d) (no_c_discount d) v.

Definition decode_new_order (res : PGresult) (d : new_order_t) : new_order_t :=
  let n := Z.to_nat (Z.min (PQntuples res) O_OL_CNT_MAX) in
  let lines := overwrite (decode_no_line res) n (no_order_line d) in
  let total := fold_left (fun total l => dadd total (ol_amount l)) (take n lines) d_zero in
  if 0 <? PQntuples res then
    mk_new_order (no_w_id d) (no_d_id d) (no_c_id d) (no_o_ol_cnt d) (no_o_all_local d)
      lines (libpq_get_int32 res 0 10) total (libpq_get_float4 res 0 8)
      (libpq_get_float4 res 0 9)
      (libpq_copy_text (4 * (Size.C_LAST_LEN + 1)) res 0 11)
      (libpq_copy_text (Size.C_CREDIT_LEN + 1) res 0 12) (libpq_get_float4 res 0 13) 0
  else
    mk_new_order (no_w_id d) (no_d_id d) (no_c_id d) (no_o_ol_cnt d) (no_o_all_local d)
      lines (no_o_id d) total (no_w_tax d) (no_d_tax d) (no_c_last d) (no_c_credit d)
      (no_c_discount d) 0.

Definition execute_new_order_libpq (data : new_order_t) (s : S) : Z * new_order_t * S :=
  let '(rc, s) := begin_libpq s in
  match rc with
  | Some rc => (rc, data, s)
  | None =>
      let '(res, s) := PQexecParams UDF_NEW_ORDER (new_order_params data) s in
      match res with
      | Some r =>
          if decide (res_status r = PGRES_TUPLES_OK) then (OK, decode_new_order r data, s)
          else if decide (PQsqlstate res = Some (lit "DBT2R"))
          then (ERROR, set_rollback 1 data, s)
          else if lost res s then (RECONNECT, data, s)
          else (ERROR, set_rollback 0 data, s)
      | None => if lost res s then (RECONNECT, data, s) else (ERROR, set_rollback 0 data, s)
      end
  end.

(** *** The integrity check ([dbc_integrity.c]): none *)

Definition execute_integrity_libpq (data : integrity_t) (s : S) : Z * integrity_t * S :=
  (OK, data, s).

(** The function pointers [db_init_libpq] stores. *)
Definition libpq_ops (c : db_context_libpq) : DbOps S := {|
  time := clock_time;
  sleep_retry := nanosleep;
  connect := connect_to_db_libpq c;
  disconnect := disconnect_from_db_libpq;
  commit_transaction := commit_transaction_libpq;
  rollback_transaction := rollback_transaction_libpq;
  execute_integrity := execute_integrity_libpq;
  execute_delivery := execute_delivery_libpq;
  execute_new_order := execute_new_order_libpq;
  execute_order_status := execute_order_status_libpq;
  execute_payment := execute_payment_libpq;
  execute_stock_level := execute_stock_level_libpq |}.

(** It keeps the promises of the interface. *)
Lemma libpq_laws (c : db_context_libpq) : DbLaws S (H := libpq_ops c).
Proof.
  split; intros w; cbn; unfold commit_transaction_libpq, rollback_transaction_libpq;
    destruct (PQexec _ w) as [res s]; repeat case_decide; done.
Qed.
End Libpq.
