(* ===== verification/PgServer.v ===== *)
(** * A PostgreSQL server behind libpq

    What the back end relies on of a server ([answers_command],
    [answers_call]): transaction blocks, errors that abort them, connections
    that break at any moment, and the five procedures, called with parameters in
    binary format; and which call a transaction of the client stands for. *)

From Stdlib Require Import ZArith Lia SpecFloat String.
From stdpp Require Import base list.
From S2P Require Import Prelude Double Text Common Wire Tables SpNewOrder SpPayment SpDelivery SpQueries SpConsistency SpTheorems TxnData InputData Db Libpq.

(** The input functions of the types of the result columns; the answer for a
    float is its bits. *)
Class PgInput := {
  int4in : bytes -> option Z;
  float4in : bytes -> option Z;
  float8in : bytes -> option Z;
  textin : bytes -> option bytes }.

Class PgInputLaws (io : PgInput) := {
  int4in_fmt_d : forall z, - 2 ^ 31 <= z < 2 ^ 31 -> int4in (fmt_d z) = Some z;
  textin_id : forall s v, textin s = Some v -> v = s }.

(** The types of the columns, in the declarations of
    [dbt2--0.45.0.sql] and [dbt2--0.45.0--0.46.0.sql]. *)
Inductive coltype := INTEGER | REAL | DOUBLE | TEXT.

Definition delivery_columns : list coltype := [INTEGER; INTEGER].
Definition stock_level_columns : list coltype := [INTEGER].
Definition new_order_columns : list coltype :=
  [INTEGER; INTEGER; TEXT; INTEGER; INTEGER; REAL; REAL; TEXT; REAL; REAL; INTEGER; TEXT; TEXT;
   REAL].
Definition order_status_columns : list coltype :=
  [INTEGER; INTEGER; REAL; REAL; TEXT; INTEGER; TEXT; TEXT; TEXT; DOUBLE; INTEGER; INTEGER; TEXT].
Definition payment_columns : list coltype :=
  repeat TEXT 21 ++ [DOUBLE; REAL; DOUBLE; TEXT; TEXT; INTEGER; TEXT; TEXT].

Section server.
Context {pg : Pg} {io : PgInput}.

(** ** Values on the wire *)

(** [BuildTupleFromCStrings], then the send function of the type. *)
Definition send_value (t : coltype) (v : option bytes) : option (option bytes) :=
  match v with
  | None => Some None
  | Some v =>
      match t with
      | INTEGER => z ← int4in v; Some (Some (be_bytes 4 z))
      | REAL => x ← float4in v; Some (Some (be_bytes 4 x))
      | DOUBLE => x ← float8in v; Some (Some (be_bytes 8 x))
      | TEXT => v ← textin v; Some (Some v)
      end
  end.

Fixpoint send_row (ts : list coltype) (vs : list (option bytes)) : option (list (option bytes)) :=
  match ts, vs with
  | [], [] => Some []
  | t :: ts', v :: vs' => x ← send_value t v; row ← send_row ts' vs'; Some (x :: row)
  | _, _ => None
  end.

Fixpoint send_rows (ts : list coltype) (rows : list (list (option bytes)))
  : option (list (list (option bytes))) :=
  match rows with
  | [] => Some []
  | r :: rows' => x ← send_row ts r; xs ← send_rows ts rows'; Some (x :: xs)
  end.

(** [int4recv], [float4recv], [textrecv]; a NULL is read as zero. *)
Definition recv_int (p : option bytes) : Z :=
  match p with Some b => i32 (be_val b) | None => 0 end.
Definition recv_real (p : option bytes) : double :=
  match p with Some b => float_of_bits (be_val b) | None => d_zero end.
Definition recv_text (p : option bytes) : bytes := default [] p.

Definition param (params : list (option bytes)) (i : nat) : option bytes :=
  default None (params !! i).

(** [($6, $7, $8)] and so on. *)
Definition recv_line (params : list (option bytes)) (i : nat) : option (Z * Z * Z) :=
  let p j := recv_int (param params (5 + 3 * i + j)) in
  Some (p 0%nat, p 1%nat, p 2%nat).

Definition recv_new_order (params : list (option bytes)) : no_args :=
  let p i := recv_int (param params i) in
  mk_no_args (p 0%nat) (p 1%nat) (p 2%nat) (p 3%nat) (p 4%nat)
    (map (recv_line params) (seq 0 15)).

Definition recv_payment (params : list (option bytes)) : pay_args :=
  let p i := recv_int (param params i) in
  mk_pay_args (p 0%nat) (p 1%nat) (p 2%nat) (p 3%nat) (p 4%nat)
    (recv_text (param params 5)) (recv_real (param params 6)).

Definition recv_order_status (params : list (option bytes)) : os_args :=
  let p i := recv_int (param params i) in
  mk_os_args (p 0%nat) (p 1%nat) (p 2%nat) (recv_text (param params 3)).

(** ** Calls of the procedures *)

(** The rows of a call, or its error, and the database it leaves. *)
Definition answer {A} (columns : list coltype) (rows : A -> list (list (option bytes)))
    (r : (A + option sp_error) * db) (D : db)
  : (list (list (option bytes)) + option sp_error) * db :=
  match r with
  | (inl a, D') =>
      match send_rows columns (rows a) with
      | Some rs => (inl rs, D')
      | None => (inr (Some Server), D)
      end
  | (inr e, _) => (inr e, D)
  end.

Definition serve (query : bytes) (params : list (option bytes)) (t : timestamp) (D : db)
  : option ((list (list (option bytes)) + option sp_error) * db) :=
  let p i := recv_int (param params i) in
  if bytes_eqb query UDF_NEW_ORDER then
    Some (answer new_order_columns (fun r => map (map Some) (new_order_rows r))
            (Tables.call (new_order (recv_new_order params)) t D) D)
  else if bytes_eqb query UDF_PAYMENT then
    Some (answer payment_columns (fun pp => [map Some (payment_values pp)])
            (Tables.call (payment (recv_payment params)) t D) D)
  else if bytes_eqb query UDF_DELIVERY then
    Some (answer delivery_columns (map (fun r => map Some (delivery_values r)))
            (Tables.call (delivery (p 0%nat) (p 1%nat)) t D) D)
  else if bytes_eqb query UDF_ORDER_STATUS then
    Some (answer order_status_columns (fun rows => rows)
            (Tables.call (order_status (recv_order_status params)) t D) D)
  else if bytes_eqb query UDF_STOCK_LEVEL then
    Some (answer stock_level_columns (fun n => [[Some (fmt_d n)]])
            (Tables.call (stock_level (p 0%nat) (p 1%nat) (p 2%nat)) t D) D)
  else None.

(** ** The state of a session *)

Inductive link :=
| Lost            (* no connection, or a broken one *)
| Idle
| InTxn (work : db) (* in a block; what COMMIT would store *)
| Aborted.        (* in a block that an error has ended *)

Record server := mk_server { committed : db; session_link : link }.

(** A result that is an error, not the one of the intended rollback. *)
Definition failure (res : option PGresult) : Prop :=
  PQresultStatus res = PGRES_FATAL_ERROR /\ PQsqlstate res <> Some (lit "DBT2R").

Definition command_ok (res : option PGresult) : Prop := PQresultStatus res = PGRES_COMMAND_OK.

(** The answer to BEGIN, COMMIT and ROLLBACK. *)
Inductive answers_command (V : server) : bytes -> option PGresult -> server -> Prop :=
| begin_ok res : session_link V = Idle -> command_ok res ->
    answers_command V (lit "BEGIN") res (mk_server (committed V) (InTxn (committed V)))
| begin_twice res w : session_link V = InTxn w -> command_ok res ->
    answers_command V (lit "BEGIN") res V
| commit_ok res w : session_link V = InTxn w -> command_ok res ->
    answers_command V (lit "COMMIT") res (mk_server w Idle)
| commit_aborted res : session_link V = Aborted \/ session_link V = Idle -> command_ok res ->
    answers_command V (lit "COMMIT") res (mk_server (committed V) Idle)
| commit_error res w : session_link V = InTxn w -> failure res ->
    answers_command V (lit "COMMIT") res (mk_server (committed V) Idle)
| rollback_ok res : session_link V <> Lost -> command_ok res ->
    answers_command V (lit "ROLLBACK") res (mk_server (committed V) Idle)
| command_error q res : (forall w, session_link V <> InTxn w) -> failure res ->
    answers_command V q res V
| command_lost q res : failure res ->
    answers_command V q res (mk_server (committed V) Lost)
| commit_unacknowledged res w : session_link V = InTxn w -> failure res ->
    answers_command V (lit "COMMIT") res (mk_server w Lost).

(** The answer to a call of a procedure. *)
Inductive answers_call (V : server) (q : bytes) (params : list (option bytes))
  : option PGresult -> server -> Prop :=
| call_rows w t rows w' :
    session_link V = InTxn w -> serve q params t w = Some (inl rows, w') ->
    answers_call V q params (Some (mk_PGresult PGRES_TUPLES_OK rows None))
      (mk_server (committed V) (InTxn w'))
| call_raised w t e w' res :
    session_link V = InTxn w -> serve q params t w = Some (inr (Some e), w') ->
    PQresultStatus res = PGRES_FATAL_ERROR ->
    (PQsqlstate res = Some (lit "DBT2R") <-> e = DBT2R) ->
    answers_call V q params res (mk_server (committed V) Aborted)
| call_error res : session_link V <> Lost -> failure res ->
    answers_call V q params res (mk_server (committed V) Aborted)
| call_lost res : failure res -> answers_call V q params res (mk_server (committed V) Lost).

(** A server behind libpq.  No other session works on the database meanwhile. *)
Class PgServer (S : Type) `{Libpq S} := {
  server_of : S -> server;
  exec_answers : forall q s, q ∈ [lit "BEGIN"; lit "COMMIT"; lit "ROLLBACK"] ->
    answers_command (server_of s) q (PQexec q s).1 (server_of (PQexec q s).2);
  call_answers : forall q params s,
    answers_call (server_of s) q params (PQexecParams q params s).1
      (server_of (PQexecParams q params s).2);
  connect_link : forall info s,
    committed (server_of (PQconnectdbParams info s)) = committed (server_of s)
    /\ (session_link (server_of (PQconnectdbParams info s)) = Idle
        \/ session_link (server_of (PQconnectdbParams info s)) = Lost);
  finish_link : forall s, server_of (PQfinish s) = mk_server (committed (server_of s)) Lost;
  time_link : forall s, server_of (clock_time s).2 = server_of s;
  sleep_link : forall s, server_of (nanosleep s) = server_of s }.

(** ** What the procedures are called with *)

Definition line_of (l : no_order_line_t) : option (Z * Z * Z) :=
  Some (i32 (ol_i_id l), i32 (ol_supply_w_id l), i32 (ol_quantity l)).

Definition no_args_of (d : new_order_t) : no_args :=
  mk_no_args (i32 (no_w_id d)) (i32 (no_d_id d)) (i32 (no_c_id d)) (i32 (no_o_all_local d))
    (i32 (no_o_ol_cnt d))
    (map line_of (take (Z.to_nat (no_o_ol_cnt d)) (no_order_line d))
     ++ repeat (Some (0, 0, 0)) (15 - Z.to_nat (no_o_ol_cnt d))).

Definition c_last_of (s : list Z) : bytes := wcstombs s (4 * (Size.C_LAST_LEN + 1)).

Definition pay_args_of (d : payment_t) : pay_args :=
  mk_pay_args (i32 (pa_w_id d)) (i32 (pa_d_id d)) (i32 (pa_c_id d)) (i32 (pa_c_w_id d))
    (i32 (pa_c_d_id d)) (c_last_of (pa_c_last d))
    (float_of_bits (float_bits (pa_h_amount d) mod 2 ^ 32)).

Definition os_args_of (d : order_status_t) : os_args :=
  mk_os_args (i32 (os_c_id d)) (i32 (os_c_w_id d)) (i32 (os_c_d_id d)) (c_last_of (os_c_last d)).

(** The call that a transaction makes, with the [o_all_local] that
    [process_transaction] computes. *)
Definition localized (d : new_order_t) : new_order_t :=
  set_all_local (all_local (no_w_id d) (take (Z.to_nat (no_o_ol_cnt d)) (no_order_line d))) d.

Definition txn_of (td : transaction_data_t) : option txn :=
  match td with
  | TD_new_order d => Some (TNewOrder (no_args_of (localized d)))
  | TD_payment d => Some (TPayment (pay_args_of d))
  | TD_delivery d => Some (TDelivery (i32 (dl_w_id d)) (i32 (dl_o_carrier_id d)))
  | TD_order_status d => Some (TOrderStatus (os_args_of d))
  | TD_stock_level d =>
      Some (TStockLevel (i32 (sl_w_id d)) (i32 (sl_d_id d)) (i32 (sl_threshold d)))
  | TD_integrity _ => None
  end.

(** What the structures hold: fifteen lines, of which [o_ol_cnt] are used. *)
Definition well_formed (td : transaction_data_t) : Prop :=
  match td with
  | TD_new_order d => 0 <= no_o_ol_cnt d <= 15 /\ List.length (no_order_line d) = 15%nat
  | _ => True
  end.
End server.
