(* ===== verification/LibpqServer.v ===== *)
(** * The client against a PostgreSQL server

    Against every server of [PgServer]: what reaches a procedure is what
    the client was asked for, what the client shows is what the procedure
    returned, and a transaction is committed as often as the client believes,
    unless the acknowledgement of a COMMIT is lost. *)

From Stdlib Require Import ZArith Lia SpecFloat String.
From stdpp Require Import base list.
From S2P Require Import Prelude Double Text Common Wire Tables SpNewOrder SpPayment SpDelivery SpQueries SpConsistency SpTheorems TxnData InputData Db Libpq PgServer.

Section server.
Context {pg : Pg} {io : PgInput}.

Lemma i32_mod x : i32 (x mod 2 ^ 32) = i32 x.
Proof. unfold i32. dlia. Qed.

Lemma recv_param_int big_endian x : recv_int (param_int big_endian x) = i32 x.
Proof.
  unfold param_int, recv_int. rewrite store_htonl, be_val_bytes.
  change (256 ^ Z.of_nat 4) with (2 ^ 32). by rewrite Z.mod_mod, i32_mod by lia.
Qed.

Lemma recv_param_real big_endian x :
  recv_real (param_int big_endian x) = float_of_bits (x mod 2 ^ 32).
Proof.
  unfold param_int, recv_real. rewrite store_htonl, be_val_bytes.
  change (256 ^ Z.of_nat 4) with (2 ^ 32). by rewrite Z.mod_mod by lia.
Qed.

(** The composite arguments, three parameters at a time. *)
Fixpoint triples (k : nat) (ps : list (option bytes)) : list (option (Z * Z * Z)) :=
  match k with
  | O => []
  | S k' =>
      Some (recv_int (param ps 0), recv_int (param ps 1), recv_int (param ps 2))
      :: triples k' (drop 3 ps)
  end.

Lemma param_drop n i ps : param (drop n ps) i = param ps (n + i).
Proof. unfold param. by rewrite lookup_drop. Qed.

Lemma recv_lines_triples k j ps :
  map (recv_line ps) (seq j k) = triples k (drop (5 + 3 * j) ps).
Proof.
  revert j. induction k as [|k IH]; intros j; [done|]. cbn [seq map triples].
  rewrite IH, drop_drop. unfold recv_line. rewrite !param_drop. f_equal. do 2 f_equal. lia.
Qed.

Lemma triples_lines big_endian lines k :
  triples (List.length lines + k)
    (flat_map (line_params big_endian) lines ++ repeat None (3 * k))
  = map line_of lines ++ repeat (Some (0, 0, 0)) k.
Proof.
  induction lines as [|l lines IH].
  - cbn [flat_map app map List.length Nat.add]. induction k as [|k IH]; [done|].
    replace (3 * S k)%nat with (S (S (S (3 * k)))) by lia.
    cbn [repeat triples]. f_equal. exact IH.
  - change (flat_map (line_params big_endian) (l :: lines))
      with (line_params big_endian l ++ flat_map (line_params big_endian) lines).
    unfold line_params at 1. cbn [app map List.length Nat.add triples skipn].
    f_equal; [|exact IH]. change (Some (recv_int (param_int big_endian (ol_i_id l)),
      recv_int (param_int big_endian (ol_supply_w_id l)),
      recv_int (param_int big_endian (ol_quantity l))) = line_of l).
    by rewrite !recv_param_int.
Qed.

Lemma recv_new_order_params big_endian d : well_formed (TD_new_order d) ->
  recv_new_order (new_order_params big_endian d) = no_args_of d.
Proof.
  intros [Hc Hl]. unfold recv_new_order, no_args_of, new_order_params. rewrite recv_lines_triples.
  f_equal; [apply recv_param_int..|].
  set (lines := take (Z.to_nat (no_o_ol_cnt d)) (no_order_line d)).
  rewrite <- (triples_lines big_endian). unfold lines. rewrite length_take.
  replace (_ + (15 - Z.to_nat (no_o_ol_cnt d)))%nat with 15%nat by lia. reflexivity.
Qed.

Lemma recv_payment_params big_endian d :
  recv_payment (payment_params big_endian d) = pay_args_of d.
Proof.
  unfold recv_payment, pay_args_of.
  f_equal; [apply recv_param_int..|apply recv_param_real].
Qed.

Lemma recv_order_status_params big_endian d :
  recv_order_status (order_status_params big_endian d) = os_args_of d.
Proof.
  unfold recv_order_status, os_args_of. f_equal; apply recv_param_int.
Qed.

(** ** Calls with these parameters *)

Lemma answer_db {A} columns rows (m : sp A) t D rs D' :
  answer columns rows (Tables.call m t D) D = (inl rs, D') ->
  D' = (Tables.call m t D).2 /\
  exists a, Tables.call m t D = (inl a, D') /\ send_rows columns (rows a) = Some rs.
Proof.
  unfold answer. destruct (Tables.call m t D) as [[a|e] D1]; [|done].
  destruct (send_rows columns (rows a)) eqn:Hs; [|done]. intros [= <- <-]. eauto.
Qed.

(** Nothing that a COMMIT could store. *)
Definition no_work (V : server) : Prop := forall w, session_link V <> InTxn w.

Lemma no_work_idle D : no_work (mk_server D Idle).
Proof. by intros w. Qed.

Lemma failure_not_ok res : failure res -> ~ command_ok res.
Proof. unfold failure, command_ok. intros [-> _]. done. Qed.

Lemma begin_answer V res V' : answers_command V (lit "BEGIN") res V' -> no_work V ->
  (command_ok res /\ V' = mk_server (committed V) (InTxn (committed V)))
  \/ (~ command_ok res /\ no_work V' /\ committed V' = committed V).
Proof.
  intros Ha Hn. inversion Ha as [|r w Hl|r w Hl|r Hl|r w Hl|r Hl|q r Hw Hf|q r Hf|]; subst; auto.
  - by destruct (Hn w).
  - right. split_and!; [by apply failure_not_ok|done|done].
  - right. split_and!; [by apply failure_not_ok|by intros w|done].
Qed.

Lemma commit_answer V res V' : answers_command V (lit "COMMIT") res V' ->
  no_work V' /\
  match session_link V with
  | InTxn w =>
      (command_ok res -> committed V' = w)
      /\ (committed V' = w \/ committed V' = committed V)
  | _ => committed V' = committed V
  end.
Proof.
  assert (Hno : forall D, no_work (mk_server D Idle) /\ no_work (mk_server D Lost)) by (intros D; by split; intros w).
  intros Ha. inversion Ha as [| |r w Hl Hok|r Hl Hok|r w Hl Hf| |q r Hw Hf|q r Hf|r w Hl Hf]; subst;
    (split; [try apply Hno; done|]); try rewrite Hl; cbn.
  - auto.
  - destruct Hl as [-> | ->]; done.
  - split; [by intros ?%(failure_not_ok _ Hf)|auto].
  - destruct (session_link V') as [| |w|] eqn:Hl; try done. by destruct (Hw w).
  - destruct (session_link V) as [| |w|]; try done. split; [by intros ?%(failure_not_ok _ Hf)|auto].
  - split; [by intros ?%(failure_not_ok _ Hf)|auto].
Qed.

Lemma rollback_answer V res V' : answers_command V (lit "ROLLBACK") res V' -> no_work V ->
  no_work V' /\ committed V' = committed V.
Proof. intros Ha Hn. inversion Ha; subst; (split; [|done]); (done || by intros w). Qed.

(** Which procedure a transaction calls, and with which arguments. *)
Section serve.
Context (big_endian : bool) (t : timestamp) (D : db).

Lemma serve_new_order d : well_formed (TD_new_order d) ->
  serve UDF_NEW_ORDER (new_order_params big_endian d) t D =
  Some (answer new_order_columns (fun r => map (map Some) (new_order_rows r))
          (Tables.call (new_order (no_args_of d)) t D) D).
Proof. intros Hw. by rewrite <- (recv_new_order_params big_endian d Hw). Qed.

Lemma serve_payment d : serve UDF_PAYMENT (payment_params big_endian d) t D =
  Some (answer payment_columns (fun pp => [map Some (payment_values pp)])
          (Tables.call (payment (pay_args_of d)) t D) D).
Proof. by rewrite <- (recv_payment_params big_endian). Qed.

Lemma serve_delivery d : serve UDF_DELIVERY (delivery_params big_endian d) t D =
  Some (answer delivery_columns (map (fun r => map Some (delivery_values r)))
          (Tables.call (delivery (i32 (dl_w_id d)) (i32 (dl_o_carrier_id d))) t D) D).
Proof. by rewrite <- !(recv_param_int big_endian). Qed.

Lemma serve_order_status d : serve UDF_ORDER_STATUS (order_status_params big_endian d) t D =
  Some (answer order_status_columns (fun rows => rows)
          (Tables.call (order_status (os_args_of d)) t D) D).
Proof. by rewrite <- (recv_order_status_params big_endian). Qed.

Lemma serve_stock_level d : serve UDF_STOCK_LEVEL (stock_level_params big_endian d) t D =
  Some (answer stock_level_columns (fun n => [[Some (fmt_d n)]])
          (Tables.call (stock_level (i32 (sl_w_id d)) (i32 (sl_d_id d)) (i32 (sl_threshold d))) t D) D).
Proof. by rewrite <- !(recv_param_int big_endian). Qed.
End serve.

Lemma overwrite_length {L} (f : nat -> L) n lines : (n <= List.length lines)%nat ->
  List.length (overwrite f n lines) = List.length lines.
Proof. intros. unfold overwrite. rewrite length_app, length_map, length_seq, length_drop. lia. Qed.

Lemma decode_new_order_form big_endian res d : List.length (no_order_line d) = 15%nat ->
  no_rollback (decode_new_order big_endian res d) = 0
  /\ no_o_ol_cnt (decode_new_order big_endian res d) = no_o_ol_cnt d
  /\ List.length (no_order_line (decode_new_order big_endian res d)) = 15%nat.
Proof.
  intros Hl. unfold decode_new_order.
  assert (Ho : List.length (overwrite (decode_no_line big_endian res)
                 (Z.to_nat (Z.min (PQntuples res) O_OL_CNT_MAX)) (no_order_line d)) = 15%nat)
    by (rewrite overwrite_length; unfold O_OL_CNT_MAX; lia).
  destruct (0 <? PQntuples res); cbn; auto.
Qed.

(** ** What the client reads *)

Lemma send_rows_lookup ts rows rs i vs : send_rows ts rows = Some rs -> rows !! i = Some vs ->
  exists row, send_row ts vs = Some row /\ rs !! i = Some row.
Proof.
  revert rs i. induction rows as [|r rows IH]; intros rs i Hs Hi; [done|]. cbn in Hs.
  destruct (send_row ts r) as [x|] eqn:Hx; [|done]. cbn in Hs.
  destruct (send_rows ts rows) as [xs|] eqn:Hxs; [|done]. cbn in Hs. injection Hs as <-.
  destruct i as [|i]; cbn in Hi; [injection Hi as ->; by exists x|]. exact (IH xs i eq_refl Hi).
Qed.

Lemma send_rows_length ts rows rs : send_rows ts rows = Some rs -> List.length rs = List.length rows.
Proof.
  revert rs. induction rows as [|r rows IH]; intros rs Hs; cbn in Hs; [by injection Hs as <-|].
  destruct (send_row ts r) as [x|]; [|done]. destruct (send_rows ts rows) as [xs|]; [|done].
  injection Hs as <-. cbn. by rewrite (IH xs).
Qed.

Lemma send_row_lookup ts vs row j t v : send_row ts vs = Some row -> ts !! j = Some t ->
  vs !! j = Some v -> exists x, send_value t v = Some x /\ row !! j = Some x.
Proof.
  revert vs row j. induction ts as [|t0 ts IH]; intros [|v0 vs] row j Hs Ht Hv; try done.
  cbn in Hs. destruct (send_value t0 v0) as [x|] eqn:Hx; [|done]. cbn in Hs.
  destruct (send_row ts vs) as [xs|] eqn:Hxs; [|done]. cbn in Hs. injection Hs as <-.
  destruct j as [|j]; cbn in Ht, Hv.
  - injection Ht as ->. injection Hv as ->. by exists x.
  - destruct (IH _ _ _ Hxs Ht Hv) as (y & Hy & Hj). by exists y.
Qed.

(** The result whose rows are sent: [vs] is row [i] as text. *)
Section field.
Context (ts : list coltype) (rows rs : list (list (option bytes))).
Context (Hs : send_rows ts rows = Some rs).
Let res : PGresult := mk_PGresult PGRES_TUPLES_OK rs None.

Lemma sent_field i vs j t v : rows !! i = Some vs -> ts !! j = Some t -> vs !! j = Some v ->
  exists x, send_value t v = Some x /\ field_value res i j = x.
Proof.
  intros Hi Ht Hv. destruct (send_rows_lookup _ _ _ _ _ Hs Hi) as (row & Hrow & Hr).
  destruct (send_row_lookup _ _ _ _ _ _ Hrow Ht Hv) as (x & Hx & Hj). exists x. split; [done|].
  unfold field_value. cbn. rewrite Hr. cbn. rewrite Hj. by destruct x.
Qed.

Context {iolaws : PgInputLaws io}.

Lemma sent_int big_endian i vs j z : rows !! i = Some vs -> ts !! j = Some INTEGER ->
  vs !! j = Some (Some (fmt_d z)) -> - 2 ^ 31 <= z < 2 ^ 31 ->
  libpq_get_int32 big_endian res i j = z.
Proof.
  intros Hi Ht Hv Hz. destruct (sent_field i vs j _ _ Hi Ht Hv) as (x & Hx & Hf).
  unfold libpq_get_int32. rewrite Hf. cbn -[be_bytes] in Hx. rewrite int4in_fmt_d in Hx by done.
  cbn -[be_bytes] in Hx. apply (inj Some) in Hx. subst x.
  rewrite load_ntohl by (apply be_bytes_length || apply be_bytes_values). by apply int_wire.
Qed.

Lemma sent_real big_endian i vs j b : rows !! i = Some vs -> ts !! j = Some REAL ->
  vs !! j = Some (Some b) ->
  exists x, float4in b = Some x /\ libpq_get_float4 big_endian res i j = float_of_bits (x mod 2 ^ 32).
Proof.
  intros Hi Ht Hv. destruct (sent_field i vs j _ _ Hi Ht Hv) as (x & Hx & Hf).
  cbn -[be_bytes] in Hx. destruct (float4in b) as [y|]; [|done]. cbn -[be_bytes] in Hx. apply (inj Some) in Hx. subst x.
  exists y. split; [done|]. unfold libpq_get_float4. rewrite Hf.
  rewrite load_ntohl by (apply be_bytes_length || apply be_bytes_values). by rewrite be_val_bytes.
Qed.

Lemma sent_text n i vs j b : rows !! i = Some vs -> ts !! j = Some TEXT ->
  vs !! j = Some (Some b) ->
  libpq_copy_text n res i j = strncpy b (n - 1) /\ PQgetvalue res i j = b.
Proof.
  intros Hi Ht Hv. destruct (sent_field i vs j _ _ Hi Ht Hv) as (x & Hx & Hf).
  cbn in Hx. destruct (textin b) as [v|] eqn:Hb; [|done]. apply textin_id in Hb as ->.
  cbn in Hx. injection Hx as <-. unfold libpq_copy_text, PQgetvalue. by rewrite Hf.
Qed.
End field.

(** A line, and an order, as the terminal sees them. *)
Definition shows_real (b : bytes) (f : double) : Prop :=
  exists x, float4in b = Some x /\ f = float_of_bits (x mod 2 ^ 32).

Record shows_line (pp : SpNewOrder.no_order_line) (l : no_order_line_t) : Prop := {
  sh_supply : ol_supply_w_id l = pp_ol_supply_w_id pp;
  sh_item : ol_i_id l = pp_ol_i_id pp;
  sh_quantity : ol_quantity l = pp_ol_quantity pp;
  sh_stock : s_quantity l = pp_s_quantity pp;
  sh_name : i_name l = strncpy (pp_i_name pp) (4 * (Size.I_NAME_LEN + 1) - 1);
  sh_brand : brand_generic l = pp_brand_generic pp;
  sh_price : shows_real (fmt_f 2 (pp_i_price pp)) (i_price l);
  sh_amount : shows_real (fmt_f 2 (pp_ol_amount pp)) (ol_amount l) }.

Record shows_order (res : no_result) (d : new_order_t) : Prop := {
  sh_rollback : no_rollback d = 0;
  sh_o_id : no_o_id d = res_o_id res;
  sh_last : no_c_last d = strncpy (res_c_last res) (4 * (Size.C_LAST_LEN + 1) - 1);
  sh_credit : no_c_credit d = strncpy (res_c_credit res) Size.C_CREDIT_LEN;
  sh_w_tax : shows_real (fmt_f 4 (res_w_tax res)) (no_w_tax d);
  sh_d_tax : shows_real (fmt_f 4 (res_d_tax res)) (no_d_tax d);
  sh_discount : shows_real (fmt_f 4 (res_c_discount res)) (no_c_discount d);
  sh_lines : Forall2 shows_line (res_ol res)
               (take (List.length (res_ol res)) (no_order_line d)) }.

Definition int32 (z : Z) : Prop := - 2 ^ 31 <= z < 2 ^ 31.

Definition int32_line (pp : SpNewOrder.no_order_line) : Prop :=
  int32 (pp_ol_supply_w_id pp) /\ int32 (pp_ol_i_id pp) /\ int32 (pp_ol_quantity pp)
  /\ int32 (pp_s_quantity pp).

Lemma fold_left_map {A B C} (f : C -> B -> C) (g : A -> B) l c :
  fold_left f (map g l) c = fold_left (fun c x => f c (g x)) l c.
Proof. revert c. induction l as [|x l IH]; intros c; [done|]. apply IH. Qed.

Section decode.
Context {iolaws : PgInputLaws io} (big_endian : bool) (r : no_result).
Context (rs : list (list (option bytes))).
Context (Hs : send_rows new_order_columns (map (map Some) (new_order_rows r)) = Some rs).
Let res : PGresult := mk_PGresult PGRES_TUPLES_OK rs None.

Lemma sent_rows i pp : res_ol r !! i = Some pp ->
  map (map Some) (new_order_rows r) !! i = Some (map Some (new_order_values r pp)).
Proof.
  intros Hi. unfold new_order_rows. rewrite map_map.
  change (map ?f ?l) with (f <$> l). by rewrite list_lookup_fmap, Hi.
Qed.

Lemma decode_line_shows i pp : res_ol r !! i = Some pp -> int32_line pp ->
  shows_line pp (decode_no_line big_endian res i).
Proof.
  intros Hi (I1 & I2 & I3 & I4). apply sent_rows in Hi as Hv.
  split; cbn [decode_no_line ol_supply_w_id ol_i_id ol_quantity s_quantity i_name brand_generic i_price ol_amount].
  - by eapply (sent_int _ _ _ Hs _ _ _ 0).
  - by eapply (sent_int _ _ _ Hs _ _ _ 1).
  - by eapply (sent_int _ _ _ Hs _ _ _ 3).
  - by eapply (sent_int _ _ _ Hs _ _ _ 4).
  - by eapply (sent_text _ _ _ Hs _ _ _ 2).
  - assert (E : PQgetvalue res i 7 = [pp_brand_generic pp]) by (by eapply (sent_text _ _ _ Hs 0 _ _ 7)).
    by rewrite E.
  - by eapply (sent_real _ _ _ Hs _ _ _ 5).
  - by eapply (sent_real _ _ _ Hs _ _ _ 6).
Qed.

Lemma decode_order_shows d : 1 <= zlen (res_ol r) <= 15 -> Forall int32_line (res_ol r) ->
  int32 (res_o_id r) -> List.length (no_order_line d) = 15%nat ->
  shows_order r (decode_new_order big_endian res d).
Proof.
  intros Hlen Hint Hid Hl.
  assert (Hn : PQntuples res = zlen (res_ol r)).
  { unfold PQntuples, zlen. cbn. rewrite (send_rows_length _ _ _ Hs).
    unfold new_order_rows. by rewrite !length_map. }
  destruct (decode_new_order_form big_endian res d Hl) as (F1 & _ & _).
  destruct (res_ol r) as [|pp pps] eqn:Hol; [unfold zlen in Hlen; cbn in Hlen; lia|].
  assert (Hv : map (map Some) (new_order_rows r) !! 0%nat = Some (map Some (new_order_values r pp)))
    by (apply sent_rows; by rewrite Hol).
  unfold decode_new_order in *. rewrite (proj2 (Z.ltb_lt 0 (PQntuples res))) in * by lia.
  split; cbn [no_rollback no_o_id no_c_last no_c_credit no_w_tax no_d_tax no_c_discount no_order_line] in *.
  - done.
  - by eapply (sent_int _ _ _ Hs _ _ _ 10).
  - by eapply (sent_text _ _ _ Hs _ _ _ 11).
  - exact (proj1 (sent_text _ _ _ Hs (Size.C_CREDIT_LEN + 1) _ _ 12 _ Hv eq_refl eq_refl)).
  - by eapply (sent_real _ _ _ Hs _ _ _ 8).
  - by eapply (sent_real _ _ _ Hs _ _ _ 9).
  - by eapply (sent_real _ _ _ Hs _ _ _ 13).
  - rewrite Hol in *. rewrite Hn. unfold O_OL_CNT_MAX. rewrite Z.min_l by lia. unfold zlen.
    rewrite Nat2Z.id. unfold overwrite. rewrite take_app_length' by (rewrite length_map, length_seq; lia).
    apply Forall2_same_length_lookup_2; [by rewrite length_map, length_seq|].
    intros i x l Hx Hl'. change (map ?f ?l) with (f <$> l) in Hl'. rewrite list_lookup_fmap in Hl'.
    assert (Hi : (i < List.length (pp :: pps))%nat) by (by eapply lookup_lt_Some).
    rewrite lookup_seq_lt in Hl' by done. cbn in Hl'. injection Hl' as <-.
    apply decode_line_shows; [by rewrite Hol|]. rewrite Forall_lookup in Hint. by eapply Hint.
Qed.

Lemma decode_total d : zlen (res_ol r) <= 15 ->
  no_total_amount (decode_new_order big_endian res d)
  = fold_left dadd (map ol_amount (take (List.length (res_ol r))
                                     (no_order_line (decode_new_order big_endian res d)))) d_zero.
Proof.
  intros Hlen.
  assert (Hn : Z.to_nat (Z.min (PQntuples res) O_OL_CNT_MAX) = List.length (res_ol r)).
  { unfold PQntuples, zlen in *. cbn [res_tuples res]. rewrite (send_rows_length _ _ _ Hs).
    unfold new_order_rows. rewrite !length_map. unfold O_OL_CNT_MAX. lia. }
  unfold decode_new_order. rewrite Hn. destruct (0 <? PQntuples res);
    cbn [no_total_amount no_order_line]; by rewrite fold_left_map.
Qed.
End decode.

Section client.
Context (big_endian : bool) (c : db_context_libpq).
Context {S : Type} `{Libpq S} `{!PgServer S}.

Definition same_db (s s' : S) : Prop := committed (server_of s') = committed (server_of s).

Lemma begin_libpq_spec s rc s' : begin_libpq s = (rc, s') -> no_work (server_of s) ->
  match rc with
  | Some rc => rc <> OK /\ no_work (server_of s') /\ same_db s s'
  | None => server_of s' = mk_server (committed (server_of s)) (InTxn (committed (server_of s)))
  end.
Proof.
  unfold begin_libpq, same_db. intros Hb Hn.
  pose proof (exec_answers (lit "BEGIN") s ltac:(by left)) as Ha.
  destruct (PQexec (lit "BEGIN") s) as [res s1].
  destruct (begin_answer _ _ _ Ha Hn) as [[Hok HV]|(Hok & Hw & HD)]; unfold command_ok in Hok.
  - rewrite decide_False in Hb by (intros Hne; by apply Hne). by injection Hb as <- <-.
  - rewrite decide_True in Hb by done. injection Hb as <- <-. by destruct (lost _ _).
Qed.

(** A call in a block: rows of the procedure, or nothing left to commit. *)
Lemma call_answer V D q params res V' : answers_call V q params res V' ->
  session_link V = InTxn D ->
  committed V' = committed V /\
  ((exists t rows w', serve q params t D = Some (inl rows, w')
      /\ res = Some (mk_PGresult PGRES_TUPLES_OK rows None)
      /\ V' = mk_server (committed V) (InTxn w'))
   \/ (PQresultStatus res = PGRES_FATAL_ERROR /\ no_work V'
       /\ (PQsqlstate res = Some (lit "DBT2R") ->
           exists t w', serve q params t D = Some (inr (Some DBT2R), w')))).
Proof.
  intros Ha Hl. destruct Ha as [w t rows w' Hl' Hs|w t e w' res Hl' Hs Hf Hq|res _ [Hf Hq]|res [Hf Hq]];
    (split; [done|]).
  - left. rewrite Hl' in Hl. injection Hl as ->. by exists t, rows, w'.
  - right. rewrite Hl' in Hl. injection Hl as ->. split; [done|]. split; [by intros w0|]. intros E. exists t, w'. by rewrite <- (proj1 Hq E).
  - right. split; [done|]. split; [by intros w0|done].
  - right. split; [done|]. split; [by intros w0|done].
Qed.

Lemma transaction_libpq_spec {D} query params decode (data : D) s rc data' s' :
  transaction_libpq query params decode data s = (rc, data', s') -> no_work (server_of s) ->
  same_db s s'
  /\ (rc = OK -> exists t rows w',
       serve query params t (committed (server_of s)) = Some (inl rows, w')
       /\ server_of s' = mk_server (committed (server_of s)) (InTxn w')
       /\ data' = decode (mk_PGresult PGRES_TUPLES_OK rows None) data)
  /\ (rc <> OK -> no_work (server_of s') /\ data' = data).
Proof.
  unfold transaction_libpq, call_libpq, same_db. intros Ht Hn.
  destruct (begin_libpq s) as [brc s1] eqn:Hb. apply begin_libpq_spec in Hb; [|done]. destruct brc as [brc|].
  { destruct Hb as (Hrc & Hw & HD). injection Ht as <- <- <-. split_and!; [done| |done].
    intros E. by destruct Hrc. }
  pose proof (call_answers query params s1) as Ha. rewrite Hb in Ha.
  destruct (PQexecParams query params s1) as [res s2]. cbn [fst snd] in Ha.
  destruct (call_answer _ _ _ _ _ _ Ha eq_refl) as [HD [(t & rows & w' & Hs & -> & HV)|(Hf & Hw & _)]].
  - cbn in Ht. injection Ht as <- <- <-. split_and!; [done| |done]. intros _. eauto 10.
  - assert (Hrc : (rc = RECONNECT \/ rc = ERROR) /\ data' = data /\ s' = s2).
    { destruct res as [r|]; cbn in Hf, Ht; [rewrite Hf in Ht; cbn in Ht|];
        injection Ht as <- <- <-; destruct (lost _ _); auto. }
    destruct Hrc as (Hrc & -> & ->). split_and!; [done| |done]. by intros ->; destruct Hrc.
Qed.

Lemma execute_new_order_libpq_spec data s rc data' s' :
  execute_new_order_libpq big_endian data s = (rc, data', s') -> no_work (server_of s) ->
  same_db s s'
  /\ (rc = OK -> exists t rows w',
       serve UDF_NEW_ORDER (new_order_params big_endian data) t (committed (server_of s))
         = Some (inl rows, w')
       /\ server_of s' = mk_server (committed (server_of s)) (InTxn w')
       /\ data' = decode_new_order big_endian (mk_PGresult PGRES_TUPLES_OK rows None) data)
  /\ (rc <> OK -> no_work (server_of s') /\ exists v, data' = set_rollback v data).
Proof.
  assert (Hsame : set_rollback (no_rollback data) data = data) by (by destruct data).
  unfold execute_new_order_libpq, same_db. intros Ht Hn.
  destruct (begin_libpq s) as [brc s1] eqn:Hb. apply begin_libpq_spec in Hb; [|done]. destruct brc as [brc|].
  { destruct Hb as (Hrc & Hw & HD). injection Ht as <- <- <-. split_and!; [done| |eauto].
    intros E. by destruct Hrc. }
  pose proof (call_answers UDF_NEW_ORDER (new_order_params big_endian data) s1) as Ha. rewrite Hb in Ha.
  destruct (PQexecParams _ _ s1) as [res s2]. cbn [fst snd] in Ha.
  destruct (call_answer _ _ _ _ _ _ Ha eq_refl) as [HD [(t & rows & w' & Hs & -> & HV)|(Hf & Hw & _)]].
  - cbn in Ht. injection Ht as <- <- <-. split_and!; [done| |done]. intros _. eauto 10.
  - assert (Hrc : (rc = RECONNECT \/ rc = ERROR) /\ (exists v, data' = set_rollback v data) /\ s' = s2).
    { destruct res as [r|]; cbn in Hf, Ht; [rewrite Hf in Ht; cbn in Ht|];
        repeat case_decide; try done; try destruct (lost _ _); injection Ht as <- <- <-;
        (split_and!; [auto| |done]);
        first [by eexists|by exists (no_rollback data); symmetry]. }
    destruct Hrc as (Hrc & Hv & ->). split_and!; [done| |done]. by intros ->; destruct Hrc.
Qed.

(** A call of the procedure [m] that answered [a], whose rows are those of [res]. *)
Definition called {A} (m : sp A) (columns : list coltype) (rows : A -> list (list (option bytes)))
    (s s' : S) (res : PGresult) : Prop :=
  exists t a w' rs,
    Tables.call m t (committed (server_of s)) = (inl a, w')
    /\ send_rows columns (rows a) = Some rs
    /\ res = mk_PGresult PGRES_TUPLES_OK rs None
    /\ server_of s' = mk_server (committed (server_of s)) (InTxn w').

Lemma transaction_libpq_called {A D} query params decode (data : D) (m : sp A) columns rows
    s rc data' s' :
  (forall t D, serve query params t D = Some (answer columns rows (Tables.call m t D) D)) ->
  transaction_libpq query params decode data s = (rc, data', s') -> no_work (server_of s) ->
  same_db s s'
  /\ (rc = OK -> exists res, called m columns rows s s' res /\ data' = decode res data)
  /\ (rc <> OK -> no_work (server_of s') /\ data' = data).
Proof.
  intros Hm Ht Hn. apply transaction_libpq_spec in Ht as (HD & Hok & Hno); [|done].
  split_and!; [done| |done]. intros E. destruct (Hok E) as (t & rs & w' & Hs & HV & Hd).
  rewrite Hm in Hs. injection Hs as Hs. apply answer_db in Hs as [_ (a & Hc & Hr)].
  eexists. split; [|exact Hd]. by exists t, a, w', rs.
Qed.

(** An execution that answers OK has made the call of its transaction in an open
    block; any other leaves nothing to commit, and the data as it was. *)
Definition executed (td : transaction_data_t) (s s' : S) : Prop :=
  match txn_of td with
  | Some x => exists t, server_of s' = mk_server (committed (server_of s))
                          (InTxn (execute_txn x t (committed (server_of s))))
  | None => no_work (server_of s')
  end.

Lemma called_executed {A} (m : sp A) columns rows td x s s' res :
  called m columns rows s s' res -> txn_of td = Some x ->
  (forall t D, execute_txn x t D = (Tables.call m t D).2) -> executed td s s'.
Proof.
  intros (t & a & w' & rs & Hc & _ & _ & HV) Hx Hm. unfold executed. rewrite Hx.
  exists t. by rewrite HV, Hm, Hc.
Qed.

Lemma execute_new_order_called d s rc d' s' :
  execute_new_order_libpq big_endian d s = (rc, d', s') ->
  well_formed (TD_new_order d) -> no_work (server_of s) ->
  same_db s s'
  /\ (rc = OK -> exists res,
       called (new_order (no_args_of d)) new_order_columns
         (fun r => map (map Some) (new_order_rows r)) s s' res
       /\ d' = decode_new_order big_endian res d)
  /\ (rc <> OK -> no_work (server_of s') /\ exists v, d' = set_rollback v d).
Proof.
  intros He Hw Hn. apply execute_new_order_libpq_spec in He as (HD & Hok & Hno); [|done].
  split_and!; [done| |done]. intros E. destruct (Hok E) as (t & rs & w' & Hs & HV & Hd).
  rewrite serve_new_order in Hs by done. injection Hs as Hs. apply answer_db in Hs as [_ (a & Hc & Hr)].
  eexists. split; [|exact Hd]. by exists t, a, w', rs.
Qed.

(** [o_all_local] aside, a New-Order that did not go through is unchanged. *)
Lemma execute_new_order_checked_spec d s rc d' s' :
  execute_new_order_checked (H := libpq_ops big_endian c) d s = (rc, d', s') ->
  well_formed (TD_new_order d) -> no_work (server_of s) ->
  well_formed (TD_new_order d') /\ same_db s s'
  /\ (rc = OK -> exists res,
       called (new_order (no_args_of (localized d))) new_order_columns
         (fun r => map (map Some) (new_order_rows r)) s s' res
       /\ d' = set_total_amount (adjusted_total (decode_new_order big_endian res (localized d)))
                 (decode_new_order big_endian res (localized d)))
  /\ (rc <> OK -> no_work (server_of s') /\ txn_of (TD_new_order d') = txn_of (TD_new_order d)).
Proof.
  intros He Hw Hn. unfold execute_new_order_checked in He. cbn [execute_new_order libpq_ops] in He.
  fold (localized d) in He.
  destruct (execute_new_order_libpq big_endian (localized d) s) as [[rc1 d1] s1] eqn:Hx.
  apply execute_new_order_called in Hx as (HD & Hok & Hno); [|done..].
  destruct (decide (rc1 = OK)) as [->|Hrc].
  - destruct (Hok eq_refl) as (res & Hcall & ->).
    destruct (decode_new_order_form big_endian res (localized d) (proj2 Hw)) as (F1 & F2 & F3).
    rewrite F1 in He. cbn in He. injection He as <- <- <-. split.
    + split; [exact (eq_ind_r (fun n => 0 <= n <= 15) (proj1 Hw) F2)|exact F3].
    + split_and!; try done. intros _. by exists res.
  - destruct (Hno Hrc) as [Hnw [v ->]].
    destruct (_ && _); injection He as <- <- <-; split_and!; try done; by intros ->.
Qed.

Lemma execute_libpq t td s rc td' s' :
  execute (H := libpq_ops big_endian c) t td s = Some (rc, td', s') ->
  well_formed td -> no_work (server_of s) ->
  well_formed td' /\ data_type td' = data_type td /\ same_db s s'
  /\ (rc = OK -> executed td s s')
  /\ (rc <> OK -> no_work (server_of s') /\ txn_of td' = txn_of td).
Proof.
  intros He Hw Hn. unfold execute in He.
  repeat match type of He with (if ?b then _ else _) = _ => destruct b end;
    destruct td as [d|d|d|d|d|d]; try done;
    cbn [execute_integrity execute_delivery execute_order_status execute_payment execute_stock_level libpq_ops] in He;
    match type of He with (let '(_, _) := ?x in _) = _ => destruct x as [[rc1 d1] s1] eqn:Hx end;
    injection He as <- <- <-.
  - injection Hx as <- <- <-. split_and!; [done..| |done]. by intros _.
  - eapply transaction_libpq_called in Hx as (HD & Hok & Hno); [|intros; apply serve_delivery|done].
    split_and!; [done..| |].
    + intros E. destruct (Hok E) as (res & Hc & _). by eapply called_executed.
    + intros E. by destruct (Hno E) as [? ->].
  - apply execute_new_order_checked_spec in Hx as (Hw' & HD & Hok & Hno); [|done..].
    split_and!; [done..| |done].
    intros E. destruct (Hok E) as (res & Hc & _). by eapply called_executed.
  - eapply transaction_libpq_called in Hx as (HD & Hok & Hno); [|intros; apply serve_order_status|done].
    split_and!; [done..| |].
    + intros E. destruct (Hok E) as (res & Hc & _). by eapply called_executed.
    + intros E. by destruct (Hno E) as [? ->].
  - eapply transaction_libpq_called in Hx as (HD & Hok & Hno); [|intros; apply serve_payment|done].
    split_and!; [done..| |].
    + intros E. destruct (Hok E) as (res & Hc & _). by eapply called_executed.
    + intros E. by destruct (Hno E) as [? ->].
  - eapply transaction_libpq_called in Hx as (HD & Hok & Hno); [|intros; apply serve_stock_level|done].
    split_and!; [done..| |].
    + intros E. destruct (Hok E) as (res & Hc & _). by eapply called_executed.
    + intros E. by destruct (Hno E) as [? ->].
Qed.

(** ** Commit, rollback, reconnect *)

Lemma finish_libpq rc status td s s1 st log left_ s2 :
  finish (H := libpq_ops big_endian c) rc status s1 = (st, log, left_, s2) ->
  same_db s s1 -> (rc = OK -> executed td s s1) -> (rc <> OK -> no_work (server_of s1)) ->
  no_work (server_of s2)
  /\ ((same_db s s2 /\ (is_Some (txn_of td) -> commits log = 0))
      \/ exists x t, txn_of td = Some x /\ log = [CCommit st]
           /\ committed (server_of s2) = execute_txn x t (committed (server_of s))).
Proof.
  unfold finish, same_db. intros Hf HD Hok Hno. destruct (Z.eqb_spec rc OK) as [->|Hrc].
  - specialize (Hok eq_refl). cbn [commit_transaction libpq_ops] in Hf.
    unfold commit_transaction_libpq in Hf.
    pose proof (exec_answers (lit "COMMIT") s1 ltac:(by right; left)) as Ha.
    destruct (PQexec (lit "COMMIT") s1) as [res s3]. cbn [fst snd] in Ha.
    apply commit_answer in Ha as [Hn Hc].
    assert (Hs : s2 = s3 /\ log = [CCommit st] /\ (st = OK -> command_ok res)).
    { unfold command_ok. case_decide as Hd; [case_decide|]; injection Hf as <- <- _ <-; split_and!; done. }
    destruct Hs as (-> & -> & Hst). split; [done|]. unfold executed in Hok.
    destruct (txn_of td) as [x|].
    + destruct Hok as [t HV]. rewrite HV in Hc. cbn in Hc. destruct Hc as [Hcok [Hc|Hc]].
      * right. by exists x, t.
      * destruct (decide (st = OK)) as [->|Hst'].
        -- right. exists x, t. split_and!; [done..|]. by apply Hcok, Hst.
        -- left. split; [done|]. intros _. unfold commits. cbn. by rewrite (proj2 (Z.eqb_neq st OK)).
    + left. split; [|by intros [? ?]]. rewrite <- HD.
      destruct (session_link (server_of s1)) as [| |w|] eqn:Hl; try done. by destruct (Hok w).
  - specialize (Hno Hrc). destruct (Z.eqb_spec rc ERROR) as [->|Hrc'].
    + cbn [rollback_transaction libpq_ops] in Hf. unfold rollback_transaction_libpq in Hf.
      pose proof (exec_answers (lit "ROLLBACK") s1 ltac:(by do 2 right; left)) as Ha.
      destruct (PQexec (lit "ROLLBACK") s1) as [res s3]. cbn [fst snd] in Ha.
      apply rollback_answer in Ha as [Hn Hc]; [|done].
      assert (Hs : s2 = s3 /\ exists st', log = [CRollback st'])
        by (repeat case_decide; injection Hf as <- <- _ <-; split; eauto).
      destruct Hs as (-> & st' & ->). split; [done|]. left. split; [by rewrite Hc|done].
    + injection Hf as <- <- _ <-. split; [done|]. by left.
Qed.

Lemma reconnect_libpq_spec stop fuel s ok log s' :
  reconnect (H := libpq_ops big_endian c) stop fuel s = Some (ok, log, s') ->
  no_work (server_of s) -> no_work (server_of s') /\ same_db s s'.
Proof.
  intros Hr Hn. refine (reconnect_invariant (H := libpq_ops big_endian c) stop
    (fun s1 => no_work (server_of s1) /\ same_db s s1) _ _ _ fuel s ok log s' Hr _);
    [..|done]; unfold same_db; cbn [time connect sleep_retry libpq_ops]; intros s1 [H1 H2].
  - by rewrite time_link.
  - by rewrite sleep_link.
  - unfold connect_to_db_libpq. set (info := [_; _; _; _]). destruct (connect_link info s1) as [Hc Hl].
    case_decide; cbn [snd].
    + rewrite finish_link. cbn. split; [by intros w|]. by rewrite <- H2.
    + split; [|by rewrite <- H2]. intros w. destruct Hl as [-> | ->]; done.
Qed.

Definition commit_calls (log : list Db.call) : Z :=
  sumZ (fun x => match x with CCommit _ => 1 | _ => 0 end) log.

Lemma linking_commit_calls log : Forall linking log -> commit_calls log = 0.
Proof. unfold commit_calls. induction 1 as [|x log Hx _ IH]; [done|]. by destruct x. Qed.

Lemma txn_of_some td : is_Some (txn_of td) <-> data_type td <> INTEGRITY.
Proof. destruct td; cbn; split; try done; try (by eexists); by intros [? ?]. Qed.

Lemma txn_of_ok td x : well_formed td -> txn_of td = Some x -> txn_ok x.
Proof.
  intros Hw Hx. destruct td as [d|d|d|d|d|d]; cbn in Hx; simplify_eq; try done.
  destruct Hw as [Hc Hl]. cbn. rewrite length_app, length_map, length_take, repeat_length. lia.
Qed.

(** What a log says about the transactions [xs] that were stored. *)
Record accounted (td : transaction_data_t) (log : list Db.call) (xs : list (txn * timestamp))
    : Prop := {
  ac_ok : Forall (fun x => txn_ok x.1) xs;
  ac_commits : commits log <= zlen xs <= commit_calls log;
  ac_executions : zlen xs <= executions log;
  ac_first : executions log <= 1 -> Forall (fun x => Some x.1 = txn_of td) xs }.

Lemma log_sums t rc flog d rlog rest : Forall linking rlog ->
  let log := CExecute t rc :: flog ++ [CDisconnect d] ++ rlog ++ rest in
  executions log = 1 + executions flog + executions rest
  /\ commits log = commits flog + commits rest
  /\ commit_calls log = commit_calls flog + commit_calls rest.
Proof.
  intros Hl log. destruct (linking_sums _ Hl) as [L1 L2]. pose proof (linking_commit_calls _ Hl) as L3.
  unfold log, executions, commits, commit_calls in *. cbn [sumZ]. rewrite !sumZ_app. cbn [sumZ]. lia.
Qed.

Lemma finish_log rc status s st log left_ s' :
  finish (H := libpq_ops big_endian c) rc status s = (st, log, left_, s') ->
  executions log = 0 /\ 0 <= commits log <= commit_calls log /\ commit_calls log <= 1.
Proof.
  unfold finish. destruct (rc =? OK); [|destruct (rc =? ERROR)].
  - destruct (commit_transaction s) as [st1 s1]. intros [= <- <- _ _].
    unfold executions, commits, commit_calls. cbn. destruct (st1 =? OK); lia.
  - destruct (rollback_transaction s) as [st1 s1]. by intros [= <- <- _ _].
  - by intros [= <- <- _ _].
Qed.

Lemma attempts_libpq stop fuel n t : forall status td s r td' log s',
  attempts (H := libpq_ops big_endian c) stop fuel n t status td s = Some (r, td', log, s') ->
  well_formed td -> data_type td <> INTEGRITY -> no_work (server_of s) ->
  exists xs, accounted td log xs
    /\ committed (server_of s') = execute_txns xs (committed (server_of s))
    /\ no_work (server_of s').
Proof.
  induction n as [|n IH]; intros status td s r td' log s' Ha Hw Hi Hn; cbn [attempts] in Ha.
  { injection Ha as _ _ <- <-. exists []. by repeat split. }
  destruct (negb _).
  { injection Ha as _ _ <- <-. exists []. by repeat split. }
  destruct (execute t td s) as [[[rc td1] s1]|] eqn:He; [|done]. cbn [mbind option_bind] in Ha.
  destruct (execute_libpq _ _ _ _ _ _ He Hw Hn) as (Hw1 & Ht1 & HD & Hok & Hno).
  destruct (finish rc status s1) as [[[st flog] left1] s2] eqn:Hf.
  destruct (finish_log _ _ _ _ _ _ _ Hf) as (F1 & F2 & F3).
  apply (finish_libpq _ _ td s) in Hf as [Hn2 Hx]; [|done..|by intros E; apply Hno].
  assert (Hxs : exists ys, Forall (fun x => txn_ok x.1) ys /\ Forall (fun x => Some x.1 = txn_of td) ys
    /\ commits flog <= zlen ys <= commit_calls flog
    /\ committed (server_of s2) = execute_txns ys (committed (server_of s))).
  { destruct Hx as [[HD2 Hc]|(x & t0 & Hx & -> & HD2)].
    - exists []. split_and!; [done..| | |done]; unfold zlen; cbn; [|lia].
      rewrite Hc; [done|]. by apply txn_of_some.
    - exists [(x, t0)]. split_and!; try done.
      + apply Forall_singleton. exact (txn_of_ok td x Hw Hx).
      + by apply Forall_singleton.
      + unfold commits, zlen. cbn. destruct (st =? OK); lia. }
  clear Hx. destruct Hxs as (ys & Y1 & Y2 & Y3 & Y4).
  destruct left1.
  { injection Ha as _ _ <- <-. exists ys. split_and!; [|done..].
    assert (executions (CExecute t rc :: flog) = 1 + executions flog
      /\ commits (CExecute t rc :: flog) = commits flog
      /\ commit_calls (CExecute t rc :: flog) = commit_calls flog) as (E1 & E2 & E3) by done.
    split; rewrite ?E1, ?E2, ?E3; [done|done| |done].
    lia. }
  unfold disconnect_from_db in Ha. cbn [disconnect libpq_ops] in Ha.
  unfold disconnect_from_db_libpq in Ha. cbn zeta iota beta in Ha.
  destruct (reconnect stop fuel (PQfinish s2)) as [[[ok rlog] s4]|] eqn:Hr; [|done].
  apply reconnect_log in Hr as Hlink. apply reconnect_libpq_spec in Hr as [Hn4 HD4].
  2: { rewrite finish_link. by intros w. }
  unfold same_db in HD4. rewrite finish_link in HD4. cbn in HD4. cbn [mbind option_bind] in Ha.
  destruct ok.
  - destruct (attempts stop fuel n t st td1 s4) as [[[[r2 td2] rest] s5]|] eqn:Hrest; [|done].
    injection Ha as _ _ <- <-.
    destruct (IH _ _ _ _ _ _ _ Hrest Hw1 ltac:(by rewrite Ht1) Hn4) as (zs & [Z1 Z2 Z3 Z4] & Z5 & Z6).
    destruct (log_sums t rc flog OK rlog rest Hlink) as (S1 & S2 & S3). cbn [app] in S1, S2, S3.
    exists (ys ++ zs). rewrite Z5, HD4, Y4. split_and!; [|by unfold execute_txns; rewrite foldl_app|done].
    split.
    + by apply Forall_app.
    + cbn [app]. rewrite S2, S3, zlen_app. lia.
    + cbn [app]. rewrite S1, zlen_app. lia.
    + cbn [app]. rewrite S1. intros Hle. assert (zs = []) as ->.
      { destruct zs; [done|]. unfold zlen in Z3. cbn in Z3. lia. }
      by rewrite app_nil_r.
  - injection Ha as _ _ <- <-. exists ys.
    destruct (log_sums t rc flog OK rlog [] Hlink) as (S1 & S2 & S3). rewrite app_nil_r in *.
    cbn [app] in S1, S2, S3. split_and!; [|by rewrite HD4|done].
    split; [done| | |done]; cbn [app]; rewrite ?S1, ?S2, ?S3; unfold executions, commits, commit_calls in *;
      cbn; lia.
Qed.
End client.

(** ** Guarantees *)

Context {laws : PgLaws pg}.

Lemma execute_txns_consistent xs D : Forall (fun x => txn_ok x.1) xs -> consistent D ->
  consistent (execute_txns xs D).
Proof.
  intros Hok. revert D. induction Hok as [|x xs Hx _ IH]; intros D HD; [done|].
  apply IH. by apply execute_txn_consistent.
Qed.

Lemma commits_all log : (forall rc, CCommit rc ∈ log -> rc = OK) -> commits log = commit_calls log.
Proof.
  intros Hall. apply sumZ_ext. intros x Hx. destruct x; try done. by rewrite (Hall rc Hx).
Qed.

(** C3. process_transaction over libpq, whatever fails on the way, leaves the
    server with the effects of whole transactions only: at most two, at least
    one when it answers OK, and none or one when every COMMIT that was sent was
    acknowledged, according to its answer.  Without a second attempt, the
    transaction is the one the terminal asked for.  A consistent database stays
    consistent, and no work is left open in the session. *)
Theorem libpq_transaction_accounted {S} `{Libpq S} `{!PgServer S} big_endian c stop fuel t td s r td' log s' :
  process_transaction (H := libpq_ops big_endian c) stop fuel t td s = Some (r, td', log, s') ->
  well_formed td -> data_type td <> INTEGRITY -> no_work (server_of s) ->
  exists xs,
    committed (server_of s') = execute_txns xs (committed (server_of s))
    /\ zlen xs <= 2
    /\ (r = OK -> 1 <= zlen xs)
    /\ ((forall rc, CCommit rc ∈ log -> rc = OK) -> zlen xs = if r =? OK then 1 else 0)
    /\ (executions log <= 1 -> Forall (fun x => Some x.1 = txn_of td) xs)
    /\ (consistent (committed (server_of s)) -> consistent (committed (server_of s')))
    /\ no_work (server_of s').
Proof.
  intros Hp Hw Hi Hn.
  destruct (attempts_spec (H := libpq_ops big_endian c) (DbLaws0 := libpq_laws big_endian c)
              stop fuel 2 t 0 td s r td' log s' Hp ltac:(done) ltac:(done)) as (He & Hc & _).
  destruct (attempts_libpq big_endian c stop fuel 2 t 0 td s r td' log s' Hp Hw Hi Hn)
    as (xs & [X1 X2 X3 X4] & HV & Hn').
  exists xs. split_and!; [done|lia| | |done| |done].
  - intros ->. rewrite Hc in X2. cbn in X2. lia.
  - intros Hall. apply commits_all in Hall. lia.
  - rewrite HV. by apply execute_txns_consistent.
Qed.

Lemma atoi_int32 s : int32 (atoi s).
Proof. apply i32_range. Qed.

Lemma lines_done_int32 SN w d o i lines rows pps st st' :
  lines_done SN w d o i lines rows pps st st' ->
  Forall (fun l => int32 l.1.1 /\ int32 l.1.2 /\ int32 l.2) lines ->
  Forall int32_line pps /\ List.length pps = List.length lines.
Proof.
  induction 1 as [|i line lines row rows pp pps st st1 st2 Hl _ IH]; intros Hlines; [done|].
  apply Forall_cons in Hlines as [(L1 & L2 & L3) Hlines]. destruct (IH Hlines) as [IH1 IH2].
  split; [|cbn; by rewrite IH2]. constructor; [|done].
  destruct (ld_pp _ _ _ _ _ _ _ _ _ _ Hl) as (P1 & P2 & P3 & _).
  destruct (ld_stock _ _ _ _ _ _ _ _ _ _ Hl) as (stock & _ & _ & _ & P4 & _).
  unfold int32_line. rewrite P1, P2, P3, P4. auto using atoi_int32.
Qed.

Lemma argument_lines_int32 d :
  Forall (fun l => int32 l.1.1 /\ int32 l.1.2 /\ int32 l.2) (argument_lines (no_args_of d)).
Proof.
  unfold argument_lines. apply Forall_forall. intros l Hl. change (map ?f ?l) with (f <$> l) in Hl.
  apply list_elem_of_fmap in Hl as (x & -> & Hx). apply elem_of_take in Hx as (k & Hx & _).
  apply list_elem_of_lookup_2 in Hx. cbn in Hx. apply elem_of_app in Hx as [Hx|Hx].
  - change (map ?f ?l) with (f <$> l) in Hx. apply list_elem_of_fmap in Hx as (l' & -> & _). cbn.
    split_and!; apply i32_range.
  - apply elem_of_list_singleton_repeat in Hx as ->. cbn. by unfold int32.
Qed.

Lemma new_order_result d t D : List.length (no_order_line d) = 15%nat ->
  match Tables.call (new_order (no_args_of d)) t D with
  | (inl res, _) => 1 <= zlen (res_ol res) <= 15 /\ Forall int32_line (res_ol res) /\ int32 (res_o_id res)
  | _ => True
  end.
Proof.
  intros Hlen. pose proof (call_wp _ _ _ _ _ (wp_new_order (no_args_of d) D t)) as Hc.
  destruct (Tables.call _ _ _) as [[res|e] D']; [|done].
  destruct Hc as (s & [Hcnt (d0 & rows & st' & _ & _ & _ & _ & Hid & _ & Hl & _)] & _).
  apply lines_done_int32 in Hl as [H1 H2].
  - split_and!; [| |done|rewrite Hid; apply atoi_int32];
      unfold zlen; rewrite H2, length_take; unfold argument_lines; rewrite length_map, length_take;
      cbn [na_lines no_args_of]; rewrite length_app, length_map, length_take, repeat_length; lia.
  - apply Forall_take, argument_lines_int32.
Qed.

(** C37. A New-Order that the back end executes with OK called new_order with
    exactly the order of the terminal (the line count, [o_all_local] and the
    fifteen lines included, whatever the byte order of the host), has its work in
    the open block, and shows the terminal what the procedure returned: the
    order number, every line with its item name, quantities and brand, the
    customer's last name, and the amounts and rates as the server prints them;
    the total is the sum of the amounts, discounted and taxed. *)
Theorem new_order_shown {S} `{Libpq S} `{!PgServer S} {iolaws : PgInputLaws io} big_endian c d s d' s' :
  execute (H := libpq_ops big_endian c) NEW_ORDER (TD_new_order d) s
    = Some (OK, TD_new_order d', s') ->
  well_formed (TD_new_order d) -> no_work (server_of s) ->
  exists t res w',
    Tables.call (new_order (no_args_of (localized d))) t (committed (server_of s)) = (inl res, w')
    /\ server_of s' = mk_server (committed (server_of s)) (InTxn w')
    /\ shows_order res d'
    /\ no_total_amount d'
       = dmul (dmul (fold_left dadd (map ol_amount (take (List.length (res_ol res)) (no_order_line d'))) d_zero)
                 (dsub (d_of_Z 1) (no_c_discount d')))
           (dadd (dadd (d_of_Z 1) (no_w_tax d')) (no_d_tax d')).
Proof.
  intros He Hw Hn. unfold execute in He. cbn -[execute_new_order_checked] in He.
  destruct (execute_new_order_checked d s) as [[rc1 d1] s1] eqn:Hx. injection He as -> -> ->.
  apply (execute_new_order_checked_spec big_endian c) in Hx as (_ & _ & Hok & _); [|done..].
  destruct (Hok eq_refl) as (res & (t & r & w' & rs & Hc & Hs & -> & HV) & ->).
  exists t, r, w'. pose proof (new_order_result (localized d) t (committed (server_of s)) (proj2 Hw)) as Hr.
  rewrite Hc in Hr. destruct Hr as (R1 & R2 & R3).
  destruct (decode_order_shows big_endian r rs Hs (localized d) R1 R2 R3 (proj2 Hw)) as [].
  split; [done|]. split; [done|]. split; [by split|].
  unfold set_total_amount, adjusted_total. cbn [no_total_amount no_order_line no_c_discount no_w_tax no_d_tax].
  by rewrite (decode_total big_endian r rs Hs) by lia.
Qed.
End server.
