(* ===== verification/LibpqSample.v ===== *)
(** * The client against a sample server

    The server of [SpSample] behind a connection that breaks where a list of
    faults says: before a command, or after a COMMIT was done and before its
    answer.  It obeys the laws of [PgServer], and witnesses the theorems of
    [LibpqServer]. *)

From Stdlib Require Import ZArith Lia SpecFloat String.
From stdpp Require Import base list.
From S2P Require Import Prelude Double Text Common Wire Tables SpNewOrder SpPayment SpDelivery SpQueries SpConsistency SpSample SpTheorems TxnData InputData Db Libpq PgServer LibpqServer.

Inductive fault := NoFault | Break | BreakAfter.

Definition sample_input : PgInput := {|
  int4in s := if bytes_eqb (fmt_d (atoi s)) s then Some (atoi s) else None;
  float4in s := Some (float_bits (atof s));
  float8in s := Some (ieee_bits 52 11 (convert 53 1024 (atof s)));
  textin s := Some s |}.

Lemma sample_input_laws : PgInputLaws sample_input.
Proof.
  split; [|by intros s v [= ->]]. intros z Hz. cbn. rewrite atoi_fmt_d by done.
  unfold bytes_eqb. by rewrite bool_decide_true.
Qed.

#[local] Existing Instance sample_pg.
#[local] Existing Instance sample_input.

Record sample_conn := mk_conn { sample_server : server; faults : list fault }.

Definition accepted : option PGresult := Some (mk_PGresult PGRES_COMMAND_OK [] None).
Definition refused (state : bytes) : option PGresult :=
  Some (mk_PGresult PGRES_FATAL_ERROR [] (Some state)).
Definition broken : option PGresult := refused (lit "08006").

Definition sample_exec (q : bytes) (s : sample_conn) : option PGresult * sample_conn :=
  let V := sample_server s in
  let D := committed V in
  let '(res, V') :=
    match session_link V, hd NoFault (faults s) with
    | Lost, _ => (broken, V)
    | _, Break => (broken, mk_server D Lost)
    | l, f =>
        if bytes_eqb q (lit "BEGIN") then
          match l with
          | Idle => (accepted, mk_server D (InTxn D))
          | InTxn _ => (accepted, V)
          | _ => (refused (lit "25P02"), V)
          end
        else if bytes_eqb q (lit "COMMIT") then
          match l, f with
          | InTxn w, BreakAfter => (broken, mk_server w Lost)
          | InTxn w, _ => (accepted, mk_server w Idle)
          | _, _ => (accepted, mk_server D Idle)
          end
        else (accepted, mk_server D Idle)
    end in
  (res, mk_conn V' (tl (faults s))).

Definition sqlstate_of (e : sp_error) : bytes :=
  match e with
  | DBT2R => lit "DBT2R" | ParameterValue => lit "22023" | _ => lit "XX000"
  end.

Definition sample_call (q : bytes) (params : list (option bytes)) (s : sample_conn)
  : option PGresult * sample_conn :=
  let V := sample_server s in
  let D := committed V in
  let '(res, V') :=
    match session_link V, hd NoFault (faults s) with
    | Lost, _ => (broken, mk_server D Lost)
    | _, Break => (broken, mk_server D Lost)
    | InTxn w, _ =>
        match serve q params 9 w with
        | Some (inl rows, w') =>
            (Some (mk_PGresult PGRES_TUPLES_OK rows None), mk_server D (InTxn w'))
        | Some (inr (Some e), _) => (refused (sqlstate_of e), mk_server D Aborted)
        | Some (inr None, _) => (broken, mk_server D Lost)
        | None => (refused (lit "42601"), mk_server D Aborted)
        end
    | _, _ => (refused (lit "25P02"), mk_server D Aborted)
    end in
  (res, mk_conn V' (tl (faults s))).

#[local] Instance sample_libpq : Libpq sample_conn := {
  PQexec := sample_exec;
  PQexecParams := sample_call;
  PQstatus s := match session_link (sample_server s) with Lost => CONNECTION_BAD | _ => CONNECTION_OK end;
  PQerrorMessage s := [];
  PQconnectdbParams _ s := mk_conn (mk_server (committed (sample_server s)) Idle) (faults s);
  PQfinish s := mk_conn (mk_server (committed (sample_server s)) Lost) (faults s);
  clock_time s := (0, s);
  nanosleep s := s }.

Lemma refused_failure state : state <> lit "DBT2R" -> failure (refused state).
Proof. intros Hs. split; [done|]. change (Some state <> Some (lit "DBT2R")). congruence. Qed.

Lemma sqlstate_of_spec e : sqlstate_of e = lit "DBT2R" <-> e = DBT2R.
Proof. by destruct e. Qed.

Lemma broken_failure : failure broken.
Proof. by apply refused_failure. Qed.

Lemma sample_exec_answers q s : q ∈ [lit "BEGIN"; lit "COMMIT"; lit "ROLLBACK"] ->
  answers_command (sample_server s) q (sample_exec q s).1 (sample_server (sample_exec q s).2).
Proof.
  pose proof broken_failure as Hb. destruct s as [[D l] fs]. intros Hq. unfold sample_exec.
  cbn [sample_server committed session_link faults]. set (f := hd NoFault fs).
  repeat rewrite elem_of_cons in Hq. rewrite elem_of_nil in Hq.
  destruct Hq as [-> |[-> |[-> |[]]]]; cbn -[lit]; destruct l as [| |w|], f; cbn -[lit];
    try (apply command_error; [by intros w'|done || by apply refused_failure]);
    try (by apply command_lost); try (by apply begin_ok);
    try (by eapply begin_twice); try (by eapply (commit_ok (mk_server D (InTxn w))));
    try (by apply commit_aborted; auto); try (by apply rollback_ok);
    try (by eapply (commit_unacknowledged (mk_server D (InTxn w)))).
Qed.

Lemma sample_call_answers q ps s :
  answers_call (sample_server s) q ps (sample_call q ps s).1 (sample_server (sample_call q ps s).2).
Proof.
  pose proof broken_failure as Hb. destruct s as [[D l] fs]. unfold sample_call.
  cbn [sample_server committed session_link faults].
  destruct l as [| |w|], (hd NoFault fs); cbn -[serve];
    try (by apply call_lost); try (by apply call_error; [|apply refused_failure]);
    (destruct (serve q ps (9 : @timestamp sample_pg) w) as [[[rows|[e|]] w']|] eqn:Hs; cbn -[serve];
     [by eapply call_rows|eapply call_raised; [done|exact Hs|done|]|by apply call_lost
     |by apply call_error; [|apply refused_failure]]);
    (rewrite <- sqlstate_of_spec; cbn; split; [by intros [= ->]|by intros ->]).
Qed.

#[local] Instance sample_pg_server : PgServer sample_conn := {|
  server_of := sample_server;
  exec_answers q s := sample_exec_answers q s;
  call_answers := sample_call_answers;
  connect_link info s := conj eq_refl (or_introl eq_refl);
  finish_link s := eq_refl;
  time_link s := eq_refl;
  sleep_link s := eq_refl |}.

Definition sample_context : db_context_libpq :=
  db_init_libpq (Some (lit "dbt2")) (Some (lit "localhost")) (Some (lit "5432")).

(** A payment by name: seven from the second BARBARBAR of the district. *)
Definition payment_by_name : payment_t :=
  mk_payment 1 1 1 (d_of_Z 7) 1 0 (lit "BARBARBAR") [] [] [] [] [] [] d_zero d_zero d_zero
    [] [] [] [] [] [] [] [] [] [] [] [] [] [] [] [] [] [].

(** An order for five nuts and ten bolts. *)
Definition nuts_and_bolts : new_order_t :=
  mk_new_order 1 1 1 2 0
    ([mk_no_order_line 1 1 5 d_zero 0 0 [] d_zero; mk_no_order_line 2 1 10 d_zero 0 0 [] d_zero]
     ++ repeat zero_no_order_line 13) 0 d_zero d_zero d_zero [] [] d_zero 0.

Definition idle (faults : list fault) : sample_conn := mk_conn (mk_server sample_db Idle) faults.

#[local] Abbreviation run_payment faults :=
  (process_transaction (H := libpq_ops false sample_context) 0 3 PAYMENT
     (TD_payment payment_by_name) (idle faults)).

(** What is left to see of a run: the answer, the attempts, the payments in
    history, the warehouse's year to date. *)
Definition seen (r : option (Z * transaction_data_t * list Db.call * sample_conn)) :=
  '(rc, _, log, s) ← r;
  Some (rc, executions log, zlen (t_history (committed (sample_server s))),
        map (fun w => W_YTD w : Z) (t_warehouse (committed (sample_server s)))).

(** Without faults the payment is made once; a connection that breaks before
    COMMIT costs a second attempt and the payment is still made once; one that
    breaks before COMMIT is acknowledged makes the payment twice. *)
Example payment_once : seen (run_payment []) = Some (OK, 1, 1, [300007]).
Proof. vm_compute. reflexivity. Qed.

Example payment_retried :
  seen (run_payment [NoFault; NoFault; Break]) = Some (OK, 2, 1, [300007]).
Proof. vm_compute. reflexivity. Qed.

Example payment_made_twice :
  seen (run_payment [NoFault; NoFault; BreakAfter]) = Some (OK, 2, 2, [300014]).
Proof. vm_compute. reflexivity. Qed.

Lemma payment_answers_ok :
  match run_payment [NoFault; NoFault; BreakAfter] with
  | Some (r, _, _, _) => (r =? OK) = true
  | None => False
  end.
Proof. vm_compute. reflexivity. Qed.

Lemma libpq_transaction_accounted_witness :
  match run_payment [NoFault; NoFault; BreakAfter] with
  | Some (r, _, log, s) =>
      exists xs, committed (sample_server s) = execute_txns xs sample_db /\ 1 <= zlen xs <= 2
        /\ consistent (committed (sample_server s))
  | None => False
  end.
Proof.
  pose proof payment_answers_ok as Hrun.
  destruct (run_payment [NoFault; NoFault; BreakAfter]) as [[[[r td'] log] s]|] eqn:Hp; [|exact Hrun].
  destruct (libpq_transaction_accounted (laws := sample_laws) false sample_context 0 3 PAYMENT
              (TD_payment payment_by_name) (idle [NoFault; NoFault; BreakAfter]) r td' log s Hp I)
    as (xs & H1 & H2 & H3 & _ & _ & H6 & _).
  - discriminate.
  - exact (no_work_idle sample_db).
  - exists xs. split; [exact H1|]. split; [split; [apply H3, Z.eqb_eq, Hrun|exact H2]|].
    apply H6. exact sample_consistent.
Defined.

#[local] Abbreviation run_new_order :=
  (execute (H := libpq_ops false sample_context) NEW_ORDER (TD_new_order nuts_and_bolts) (idle [])).

Example nuts_and_bolts_shown :
  match run_new_order with
  | Some (rc, TD_new_order d', _) =>
      (no_o_id d', map s_quantity (take 2 (no_order_line d')),
       map brand_generic (take 2 (no_order_line d')), fmt_f 2 (no_total_amount d'))
      = (3, [20; 50], [66; 71], lit "39.60") /\ rc = OK
  | _ => False
  end.
Proof. vm_compute. split; reflexivity. Qed.

Lemma new_order_shown_witness :
  match run_new_order with
  | Some (_, TD_new_order d', s') => exists t res w',
      Tables.call (new_order (no_args_of (localized nuts_and_bolts))) t sample_db = (inl res, w')
      /\ shows_order res d'
  | _ => False
  end.
Proof.
  pose proof nuts_and_bolts_shown as Hrun.
  destruct run_new_order as [[[rc td'] s']|] eqn:Hp; [|exact Hrun].
  destruct td' as [d'|d'|d'|d'|d'|d']; try exact Hrun. destruct Hrun as [_ ->].
  destruct (new_order_shown (laws := sample_laws) (iolaws := sample_input_laws) false sample_context
              nuts_and_bolts (idle []) d' s' Hp) as (t & res & w' & H1 & _ & H3 & _).
  - split; [cbn; lia|reflexivity].
  - exact (no_work_idle sample_db).
  - exists t, res, w'. split; [exact H1|exact H3].
Defined.
