(* ===== verification/Cockroach.v ===== *)
(** * The CockroachDB back end of the client ([src/cockroach])

    The transactions as sequences of SQL statements over libpq, with parameters
    and results as text: what the client sends, how it reads the rows, and the
    structure it fills on the way.  Every buffer has the size of the code, and
    what does not fit is cut off.  Messages to the log and the code of DEBUG
    builds are left out. *)

From Stdlib Require Import ZArith Lia SpecFloat String.
From stdpp Require Import base list.
From S2P Require Import Prelude Double Text Common TxnData Wire Tables Db Libpq.

(** A statement of several lines. *)
Definition sql (l : list string) : bytes := join NL (map lit l).

(** [snprintf(dest, n, ...)], a NUL included in [n]. *)
Definition snprintf (n : Z) (s : bytes) : bytes := strncpy s (n - 1).

(** ["%d"] into an array of [len + 1] bytes. *)
Definition int_text (len z : Z) : bytes := snprintf (len + 1) (fmt_d z).

(** ** Statements *)

Definition NEW_ORDER_1 : bytes := sql ["SELECT w_tax"; "FROM warehouse"; "WHERE w_id = $1"]%string.

Definition NEW_ORDER_2 : bytes :=
  sql ["UPDATE district"; "SET d_next_o_id = d_next_o_id + 1"; "WHERE d_w_id = $1";
       "  AND d_id = $2"; "RETURNING d_tax, d_next_o_id - 1"]%string.

Definition NEW_ORDER_3 : bytes :=
  sql ["SELECT c_discount, c_last, c_credit"; "FROM customer"; "WHERE c_w_id = $1";
       "  AND c_d_id = $2"; "  AND c_id = $3"]%string.

Definition NEW_ORDER_4 : bytes :=
  sql ["INSERT INTO new_order (no_o_id, no_w_id, no_d_id)"; "VALUES ($1, $2, $3)"]%string.

Definition NEW_ORDER_5 : bytes :=
  sql ["INSERT INTO orders (o_id, o_d_id, o_w_id, o_c_id, o_entry_d,";
       "		    o_carrier_id, o_ol_cnt, o_all_local)";
       "VALUES ($1, $2, $3, $4, current_timestamp, NULL, $5, $6)"]%string.

Definition NEW_ORDER_6 : bytes :=
  sql ["SELECT i_price, i_name, i_data"; "FROM item"; "WHERE i_id = $1"]%string.

(** The format, with the name of the column for its [%s]. *)
Definition NEW_ORDER_7 (column : bytes) : bytes :=
  lit "SELECT s_quantity, " ++ column ++
  sql [", s_data"; "FROM stock"; "WHERE s_i_id = $1"; "  AND s_w_id = $2"]%string.

Definition NEW_ORDER_8 : bytes :=
  sql ["UPDATE stock"; "SET s_quantity = s_quantity - $1,"; "    s_ytd = s_ytd + $2,";
       "    s_order_cnt = s_order_cnt + 1,"; "    s_remote_cnt = s_remote_cnt + $3";
       "WHERE s_i_id = $4"; "  AND s_w_id = $5"]%string.

Definition NEW_ORDER_9 : bytes :=
  sql ["INSERT INTO order_line (ol_o_id, ol_d_id, ol_w_id, ol_number,";
       "			ol_i_id, ol_supply_w_id, ol_delivery_d,";
       "			ol_quantity, ol_amount, ol_dist_info)";
       "VALUES ($1, $2, $3, $4, $5, $6, NULL, $7, $8, $9)"]%string.

(** [s_dist[d_id - 1]] ([db.c]); [d_id] is between 1 and 10. *)
Definition s_dist (d_id : Z) : bytes := lit "s_dist_" ++ fmt_0d 2 d_id.

Definition PAYMENT_1 : bytes :=
  sql ["UPDATE warehouse"; "SET w_ytd = w_ytd + $1"; "WHERE w_id = $2";
       "RETURNING w_name, w_street_1, w_street_2, w_city, w_state, w_zip"]%string.

Definition PAYMENT_2 : bytes :=
  sql ["UPDATE district"; "SET d_ytd = d_ytd + $1"; "WHERE d_id = $2"; "  AND d_w_id = $3";
       "RETURNING d_name, d_street_1, d_street_2, d_city, d_state, d_zip"]%string.

Definition PAYMENT_3 : bytes :=
  sql ["SELECT c_id"; "FROM customer"; "WHERE c_w_id = $1"; "  AND c_d_id = $2";
       "  AND c_last = $3"; "ORDER BY c_first ASC"]%string.

Definition PAYMENT_4 : bytes :=
  sql ["SELECT c_first, c_middle, c_last, c_street_1, c_street_2, c_city,";
       "       c_state, c_zip, c_phone, c_since, c_credit, c_credit_lim,";
       "       c_discount, c_balance"; "FROM customer"; "WHERE c_w_id = $1";
       "  AND c_d_id = $2"; "  AND c_id = $3"]%string.

Definition PAYMENT_5_GC : bytes :=
  sql ["UPDATE customer"; "SET c_balance = c_balance - $1,";
       "    c_ytd_payment = c_ytd_payment + 1"; "WHERE c_id = $2"; "  AND c_w_id = $3";
       "  AND c_d_id = $4"]%string.

Definition PAYMENT_5_BC : bytes :=
  sql ["UPDATE customer"; "SET c_balance = c_balance - $1,";
       "    c_ytd_payment = c_ytd_payment + 1,";
       "    c_data = substring($2 || c_data, 1, 500)"; "WHERE c_id = $3";
       "  AND c_w_id = $4"; "  AND c_d_id = $5"; "RETURNING substring(c_data, 1, 200)"]%string.

Definition PAYMENT_6 : bytes :=
  sql ["INSERT INTO history (h_c_id, h_c_d_id, h_c_w_id, h_d_id, h_w_id,";
       "                     h_date, h_amount, h_data)";
       "VALUES ($1, $2, $3, $4, $5, CURRENT_TIMESTAMP, $6,";
       "        $7 || '    ' || $8)"; "RETURNING h_date"]%string.

Definition DELIVERY_1 : bytes :=
  sql ["SELECT no_o_id"; "FROM new_order"; "WHERE no_w_id = $1"; "  AND no_d_id = $2";
       "ORDER BY no_o_id ASC"; "LIMIT 1"]%string.

Definition DELIVERY_2 : bytes :=
  sql ["DELETE FROM new_order"; "WHERE no_o_id = $1"; "  AND no_w_id = $2";
       "  AND no_d_id = $3"]%string.

Definition DELIVERY_3 : bytes :=
  sql ["UPDATE orders"; "SET o_carrier_id = $1"; "WHERE o_id = $2"; "  AND o_w_id = $3";
       "  AND o_d_id = $4"; "RETURNING o_c_id"]%string.

Definition DELIVERY_4 : bytes :=
  sql ["UPDATE order_line"; "SET ol_delivery_d = current_timestamp"; "WHERE ol_o_id = $1";
       "  AND ol_w_id = $2"; "  AND ol_d_id = $3"]%string.

Definition DELIVERY_5 : bytes :=
  sql ["SELECT SUM(ol_amount)"; "FROM order_line"; "WHERE ol_o_id = $1"; "  AND ol_w_id = $2";
       "  AND ol_d_id = $3"]%string.

Definition DELIVERY_6 : bytes :=
  sql ["UPDATE customer"; "SET c_delivery_cnt = c_delivery_cnt + 1,";
       "    c_balance = c_balance + $1"; "WHERE c_id = $2"; "  AND c_w_id = $3";
       "  AND c_d_id = $4"]%string.

Definition ORDER_STATUS_1 : bytes :=
  sql ["SELECT c_id"; "FROM customer"; "WHERE c_w_id = $1"; "  AND c_d_id = $2";
       "  AND c_last = $3"; "ORDER BY c_first ASC"]%string.

Definition ORDER_STATUS_2 : bytes :=
  sql ["SELECT c_first, c_middle, c_last, c_balance"; "FROM customer"; "WHERE c_w_id = $1";
       "  AND c_d_id = $2"; "  AND c_id = $3"]%string.

Definition ORDER_STATUS_3 : bytes :=
  sql ["SELECT o_id, o_carrier_id, o_entry_d, o_ol_cnt"; "FROM orders"; "WHERE o_w_id = $1";
       "  AND o_d_id = $2"; "  AND o_c_id = $3"; "ORDER BY o_id DESC"; "LIMIT 1"]%string.

Definition ORDER_STATUS_4 : bytes :=
  sql ["SELECT ol_i_id, ol_supply_w_id, ol_quantity, ol_amount,"; "	ol_delivery_d";
       "FROM order_line"; "WHERE ol_w_id = $1"; "  AND ol_d_id = $2"; "  AND ol_o_id = $3"]%string.

Definition STOCK_LEVEL_1 : bytes :=
  sql ["SELECT d_next_o_id"; "FROM district"; "WHERE d_w_id = $1"; "AND d_id = $2"]%string.

Definition STOCK_LEVEL_2 : bytes :=
  sql ["WITH"; "ol AS ("; "    SELECT DISTINCT ol_i_id"; "    FROM order_line";
       "    WHERE ol_w_id = $1"; "      AND ol_d_id = $2"; "      AND ol_o_id BETWEEN ($4)";
       "                      AND ($5)"; ")"; "SELECT count(*)"; "FROM ol, stock";
       "WHERE s_w_id = $1"; "  AND s_i_id = ol_i_id"; "  AND s_quantity < $3"]%string.

Section cockroach.
Context {S : Type} `{Libpq S}.

(** ** The connection ([dbc_common.c]) *)

Definition commit_transaction_cockroach (s : S) : Z * S :=
  let '(res, s) := PQexec (lit "COMMIT") s in
  if decide (PQresultStatus res <> PGRES_COMMAND_OK) then
    if decide (PQstatus s = CONNECTION_BAD) then (RECONNECT, s) else (ERROR, s)
  else (OK, s).

Definition rollback_transaction_cockroach (s : S) : Z * S :=
  let '(_, s) := PQexec (lit "ROLLBACK") s in (STATUS_ROLLBACK, s).

Definition connect_to_db_cockroach (c : db_context_libpq) (s : S) : Z * S :=
  let s := PQconnectdbParams
             [(lit "application_name", lit "dbt2-client"); (lit "host", pghost c);
              (lit "port", pgport c); (lit "dbname", dbname c)] s in
  if decide (PQstatus s <> CONNECTION_OK) then (ERROR, PQfinish s) else (OK, s).

Definition disconnect_from_db_cockroach (s : S) : Z * S := (OK, PQfinish s).

(** The strings of a context that [init_dbc] has cleared. *)
Definition db_init_cockroach (dbname_ pghost_ pgport_ : option bytes) : db_context_libpq :=
  mk_libpq (from_option (snprintf 33) [] dbname_) (from_option (snprintf 256) [] pghost_)
    (from_option (snprintf 33) [] pgport_).

(** ** Statements in a block

    Each goes on with [k] when the status is the expected one, and otherwise
    returns ERROR with the structure as filled so far. *)
Section block.
Context {D : Type}.

Definition begin_cockroach (data : D) (s : S) (k : S -> Z * D * S) : Z * D * S :=
  let '(res, s) := PQexec (lit "BEGIN;") s in
  if decide (PQresultStatus res <> PGRES_COMMAND_OK) then (ERROR, data, s) else k s.

Definition query (q : bytes) (params : list bytes) (data : D) (s : S)
    (k : PGresult -> S -> Z * D * S) : Z * D * S :=
  let '(res, s) := PQexecParams q (map Some params) s in
  match res with
  | Some r => if decide (res_status r <> PGRES_TUPLES_OK) then (ERROR, data, s) else k r s
  | None => (ERROR, data, s)
  end.

(** No row is an error too. *)
Definition query_row (q : bytes) (params : list bytes) (data : D) (s : S)
    (k : PGresult -> S -> Z * D * S) : Z * D * S :=
  query q params data s (fun r s => if PQntuples r =? 0 then (ERROR, data, s) else k r s).

Definition command (q : bytes) (params : list bytes) (data : D) (s : S)
    (k : S -> Z * D * S) : Z * D * S :=
  let '(res, s) := PQexecParams q (map Some params) s in
  if decide (PQresultStatus res <> PGRES_COMMAND_OK) then (ERROR, data, s) else k s.
End block.

(** [snprintf(dest, n, "%s", PQgetvalue(res, row, field))] *)
Definition get_text (n : Z) (res : PGresult) (row field : nat) : bytes :=
  snprintf n (PQgetvalue res row field).
Definition get_int (res : PGresult) (row field : nat) : Z := atoi (PQgetvalue res row field).
Definition get_float (res : PGresult) (row field : nat) : double := atof (PQgetvalue res row field).

(** The row in the middle, of at least one. *)
Definition middle_row (res : PGresult) : nat := Z.to_nat ((PQntuples res - 1) / 2).

(** *** New-Order ([dbc_new_order.c]) *)

Definition decr_quantity_of (s_quantity ol_quantity : Z) : Z :=
  if ol_quantity + 10 <=? s_quantity then ol_quantity else ol_quantity - 91.

Definition brand_generic_of (i_data s_data : bytes) : Z :=
  if strstr i_data (lit "ORIGINAL") && strstr s_data (lit "ORIGINAL") then 66 else 71.

(** One round of the loop; [i] counts the lines from 0. *)
Definition new_order_line_cockroach (d_next_o_id : bytes) (i : nat) (line : no_order_line_t)
    (data : new_order_t) (s : S) (k : new_order_t -> S -> Z * new_order_t * S)
  : Z * new_order_t * S :=
  let d_id := int_text Size.D_ID_LEN (no_d_id data) in
  let w_id := int_text Size.W_ID_LEN (no_w_id data) in
  let i_id := int_text Size.I_ID_LEN (ol_i_id line) in
  query NEW_ORDER_6 [i_id] data s (fun res s =>
    if PQntuples res =? 0 then (ERROR, set_no_rollback 1 data, s) else
    let fol_amount := to_float (dmul (get_float res 0 0) (float_of_int (ol_quantity line))) in
    let amount := snprintf (Size.I_PRICE_LEN + 1) (fmt_f 6 fol_amount) in
    let line := set_ol_item (get_text (4 * (Size.I_NAME_LEN + 1)) res 0 1) (get_float res 0 0)
                  fol_amount line in
    let i_data := get_text (Size.I_DATA_LEN + 1) res 0 2 in
    let data := set_no_total (dadd (no_total_amount data) fol_amount) (set_no_line i line data) in
    query_row (NEW_ORDER_7 (s_dist (no_d_id data))) [i_id; w_id] data s (fun res s =>
    let quantity := get_int res 0 0 in
    let my_s_dist := get_text (Size.S_DIST_LEN + 1) res 0 1 in
    let line := set_ol_stock quantity (brand_generic_of i_data (PQgetvalue res 0 2)) line in
    let data := set_no_line i line data in
    let decr_qty := int_text Size.OL_QUANTITY_LEN (decr_quantity_of quantity (ol_quantity line)) in
    let qty := int_text Size.OL_QUANTITY_LEN (ol_quantity line) in
    let remote_cnt :=
      snprintf 2 (fmt_d (if ol_supply_w_id line =? no_w_id data then 0 else 1)) in
    command NEW_ORDER_8 [decr_qty; qty; remote_cnt; i_id; w_id] data s (fun s =>
    let ol_number := int_text Size.O_OL_CNT_LEN (Z.of_nat i + 1) in
    let supply_w_id := int_text Size.W_ID_LEN (ol_supply_w_id line) in
    command NEW_ORDER_9
      [d_next_o_id; d_id; w_id; ol_number; i_id; supply_w_id; qty; amount; my_s_dist] data s
      (k data)))).

Fixpoint new_order_lines_cockroach (d_next_o_id : bytes) (i : nat)
    (lines : list no_order_line_t) (data : new_order_t) (s : S) : Z * new_order_t * S :=
  match lines with
  | [] => (OK, data, s)
  | line :: lines' =>
      new_order_line_cockroach d_next_o_id i line data s
        (fun data s => new_order_lines_cockroach d_next_o_id (Datatypes.S i) lines' data s)
  end.

(** [o_ol_cnt] is at most 15, the length of the array. *)
Definition execute_new_order_cockroach (data : new_order_t) (s : S) : Z * new_order_t * S :=
  let c_id := int_text Size.C_ID_LEN (no_c_id data) in
  let d_id := int_text Size.D_ID_LEN (no_d_id data) in
  let o_ol_cnt := int_text Size.O_OL_CNT_LEN (no_o_ol_cnt data) in
  let o_all_local := int_text Size.O_ALL_LOCAL_LEN (no_o_all_local data) in
  let w_id := int_text Size.W_ID_LEN (no_w_id data) in
  let data := set_no_total d_zero (set_no_rollback 0 data) in
  begin_cockroach data s (fun s =>
  query_row NEW_ORDER_1 [w_id] data s (fun res s =>
  let data := set_no_w_tax (get_float res 0 0) data in
  query_row NEW_ORDER_2 [w_id; d_id] data s (fun res s =>
  let d_next_o_id := get_text (Size.O_ID_LEN + 1) res 0 1 in
  let data := set_no_district (get_float res 0 0) (get_int res 0 1) data in
  query_row NEW_ORDER_3 [w_id; d_id; c_id] data s (fun res s =>
  let data := set_no_customer (get_float res 0 0) (get_text (4 * (Size.C_LAST_LEN + 1)) res 0 1)
                (get_text (Size.C_CREDIT_LEN + 1) res 0 2) data in
  command NEW_ORDER_4 [d_next_o_id; w_id; d_id] data s (fun s =>
  command NEW_ORDER_5 [d_next_o_id; d_id; w_id; c_id; o_ol_cnt; o_all_local] data s (fun s =>
  new_order_lines_cockroach d_next_o_id 0
    (take (Z.to_nat (no_o_ol_cnt data)) (no_order_line data)) data s)))))).

(** *** Payment ([dbc_payment.c]) *)

Definition is_good (c_credit : bytes) : bool := List.hd 0 c_credit =? 71.

(** The number of the customer as text, looked up by last name when it is 0. *)
Definition payment_customer (data : payment_t) (s : S)
    (k : bytes -> S -> Z * payment_t * S) : Z * payment_t * S :=
  if pa_c_id data =? 0 then
    query_row PAYMENT_3
      [int_text Size.W_ID_LEN (pa_c_w_id data); int_text Size.D_ID_LEN (pa_c_d_id data);
       wcstombs (pa_c_last data) (4 * (Size.C_LAST_LEN + 1))] data s
      (fun res s => k (get_text (Size.C_ID_LEN + 1) res (middle_row res) 0) s)
  else k (int_text Size.C_ID_LEN (pa_c_id data)) s.

(** The update of the customer; [k] gets [c_data]. *)
Definition payment_update (c_id h_amount : bytes) (gc : bool) (data : payment_t) (s : S)
    (k : bytes -> S -> Z * payment_t * S) : Z * payment_t * S :=
  let c_d_id := int_text Size.D_ID_LEN (pa_c_d_id data) in
  let c_w_id := int_text Size.W_ID_LEN (pa_c_w_id data) in
  if gc then
    command PAYMENT_5_GC [h_amount; c_id; c_w_id; c_d_id] data s (k [])
  else
    let c_data :=
      snprintf (Size.C_DATA_LEN + 1)
        (c_id ++ lit " " ++ fmt_d (pa_c_d_id data) ++ lit " " ++ fmt_d (pa_c_w_id data) ++ lit " "
         ++ fmt_d (pa_d_id data) ++ lit " " ++ fmt_d (pa_w_id data) ++ lit " "
         ++ fmt_f 6 (pa_h_amount data) ++ lit " ") in
    query_row PAYMENT_5_BC [h_amount; c_data; c_id; c_w_id; c_d_id] data s
      (fun res s => k (get_text (4 * (Size.C_DATA_LEN + 1)) res 0 0) s).

Definition execute_payment_cockroach (data : payment_t) (s : S) : Z * payment_t * S :=
  let c_d_id := int_text Size.D_ID_LEN (pa_c_d_id data) in
  let c_w_id := int_text Size.W_ID_LEN (pa_c_w_id data) in
  let d_id := int_text Size.D_ID_LEN (pa_d_id data) in
  let w_id := int_text Size.W_ID_LEN (pa_w_id data) in
  let h_amount := snprintf (Size.H_AMOUNT_LEN + 1) (fmt_f 6 (pa_h_amount data)) in
  begin_cockroach data s (fun s =>
  query_row PAYMENT_1 [h_amount; w_id] data s (fun res s =>
  let w_name := get_text (Size.W_NAME_LEN + 1) res 0 0 in
  let data :=
    set_pa_warehouse (get_text (4 * (Size.W_NAME_LEN + 1)) res 0 0)
      (get_text (4 * (Size.W_STREET_1_LEN + 1)) res 0 1)
      (get_text (4 * (Size.W_STREET_2_LEN + 1)) res 0 2)
      (get_text (4 * (Size.W_CITY_LEN + 1)) res 0 3)
      (get_text (4 * (Size.W_STATE_LEN + 1)) res 0 4)
      (get_text (4 * (Size.W_ZIP_LEN + 1)) res 0 5) data in
  query_row PAYMENT_2 [h_amount; d_id; w_id] data s (fun res s =>
  let d_name := get_text (Size.D_NAME_LEN + 1) res 0 0 in
  let data :=
    set_pa_district (get_text (4 * (Size.D_NAME_LEN + 1)) res 0 0)
      (get_text (4 * (Size.D_STREET_1_LEN + 1)) res 0 1)
      (get_text (4 * (Size.D_STREET_2_LEN + 1)) res 0 2)
      (get_text (4 * (Size.D_CITY_LEN + 1)) res 0 3)
      (get_text (4 * (Size.D_STATE_LEN + 1)) res 0 4)
      (get_text (4 * (Size.D_ZIP_LEN + 1)) res 0 5) data in
  payment_customer data s (fun c_id s =>
  query_row PAYMENT_4 [c_w_id; c_d_id; c_id] data s (fun res s =>
  let gc := is_good (PQgetvalue res 0 10) in
  let data :=
    set_pa_customer (atoi c_id)
      (get_text (4 * (Size.C_FIRST_LEN + 1)) res 0 0) (get_text (Size.C_MIDDLE_LEN + 1) res 0 1)
      (mbstowcs (pa_c_last data) (PQgetvalue res 0 2) (Size.C_LAST_LEN + 1))
      (get_text (4 * (Size.C_STREET_1_LEN + 1)) res 0 3)
      (get_text (4 * (Size.C_STREET_2_LEN + 1)) res 0 4)
      (get_text (4 * (Size.C_CITY_LEN + 1)) res 0 5)
      (get_text (4 * (Size.C_STATE_LEN + 1)) res 0 6)
      (get_text (4 * (Size.C_ZIP_LEN + 1)) res 0 7)
      (get_text (4 * (Size.C_PHONE_LEN + 1)) res 0 8)
      (get_text (Size.C_SINCE_LEN + 1) res 0 9) (get_text (Size.C_CREDIT_LEN + 1) res 0 10)
      (get_float res 0 11) (get_float res 0 12) (dsub (get_float res 0 13) (pa_h_amount data))
      data in
  payment_update c_id h_amount gc data s (fun c_data s =>
  let data := set_pa_result c_data (pa_h_date data) data in
  query_row PAYMENT_6 [c_id; c_d_id; c_w_id; d_id; w_id; h_amount; w_name; d_name] data s
    (fun res s =>
  (OK, set_pa_result (pa_c_data data) (get_text (Size.TIMESTAMP_LEN + 1) res 0 0) data, s)))))))).

(** *** Delivery ([dbc_delivery.c]) *)

(** One round of the loop; [continue] and the end of the round are [k]. *)
Definition deliver_district_cockroach (data : delivery_t) (i : Z) (s : S)
    (k : S -> Z * delivery_t * S) : Z * delivery_t * S :=
  let o_carrier_id := int_text Size.O_CARRIER_ID_LEN (dl_o_carrier_id data) in
  let w_id := int_text Size.W_ID_LEN (dl_w_id data) in
  let d_id := int_text Size.D_ID_LEN (i + 1) in
  query DELIVERY_1 [w_id; d_id] data s (fun res s =>
  if PQntuples res =? 0 then k s else
  let o_id := get_text (Size.O_ID_LEN + 1) res 0 0 in
  command DELIVERY_2 [o_id; w_id; d_id] data s (fun s =>
  query DELIVERY_3 [o_carrier_id; o_id; w_id; d_id] data s (fun res s =>
  if negb (PQntuples res =? 1) then (ERROR, data, s) else
  let o_c_id := get_text (Size.C_ID_LEN + 1) res 0 0 in
  command DELIVERY_4 [o_id; w_id; d_id] data s (fun s =>
  query DELIVERY_5 [o_id; w_id; d_id] data s (fun res s =>
  let ol_amount := get_text (Size.OL_AMOUNT_LEN + 1) res 0 0 in
  command DELIVERY_6 [ol_amount; o_c_id; w_id; d_id] data s k))))).

Fixpoint deliver_districts_cockroach (data : delivery_t) (ds : list Z) (s : S)
  : Z * delivery_t * S :=
  match ds with
  | [] => (OK, data, s)
  | i :: ds' =>
      deliver_district_cockroach data i s (fun s => deliver_districts_cockroach data ds' s)
  end.

Definition execute_delivery_cockroach (data : delivery_t) (s : S) : Z * delivery_t * S :=
  begin_cockroach data s (fun s => deliver_districts_cockroach data (zrange 0 D_ID_MAX) s).

(** *** Order-Status ([dbc_order_status.c]) *)

Definition order_status_customer (data : order_status_t) (s : S)
    (k : bytes -> S -> Z * order_status_t * S) : Z * order_status_t * S :=
  if os_c_id data =? 0 then
    query_row ORDER_STATUS_1
      [int_text Size.W_ID_LEN (os_c_w_id data); int_text Size.D_ID_LEN (os_c_d_id data);
       wcstombs (os_c_last data) (4 * (Size.C_LAST_LEN + 1))] data s
      (fun res s => k (get_text (Size.C_ID_LEN + 1) res (middle_row res) 0) s)
  else k (int_text Size.C_ID_LEN (os_c_id data)) s.

Definition get_os_line (res : PGresult) (i : nat) : os_order_line_t :=
  mk_os_order_line (get_int res i 0) (get_int res i 1) (get_int res i 2) (get_float res i 3)
    (get_text (Size.OL_DELIVERY_D_LEN + 1) res i 4).

Definition execute_order_status_cockroach (data : order_status_t) (s : S)
  : Z * order_status_t * S :=
  let c_d_id := int_text Size.D_ID_LEN (os_c_d_id data) in
  let c_w_id := int_text Size.W_ID_LEN (os_c_w_id data) in
  begin_cockroach data s (fun s =>
  order_status_customer data s (fun c_id s =>
  let data := set_os_c_id (atoi c_id) data in
  query_row ORDER_STATUS_2 [c_w_id; c_d_id; c_id] data s (fun res s =>
  let data :=
    set_os_customer (get_text (4 * (Size.C_FIRST_LEN + 1)) res 0 0)
      (get_text (Size.C_MIDDLE_LEN + 1) res 0 1)
      (mbstowcs (os_c_last data) (PQgetvalue res 0 2) (Size.C_LAST_LEN + 1))
      (get_float res 0 3) data in
  query_row ORDER_STATUS_3 [c_w_id; c_d_id; c_id] data s (fun res s =>
  let o_id := get_text (Size.O_ID_LEN + 1) res 0 0 in
  let data := set_os_order (get_int res 0 0) (get_int res 0 1)
                (get_text (Size.O_ENTRY_D_LEN + 1) res 0 2) data in
  query_row ORDER_STATUS_4 [c_w_id; c_d_id; o_id] data s (fun res s =>
  let o_ol_cnt := if PQntuples res >? O_OL_CNT_MAX then O_OL_CNT_MAX else PQntuples res in
  (OK, set_os_lines o_ol_cnt
         (overwrite (get_os_line res) (Z.to_nat o_ol_cnt) (os_order_line data)) data, s)))))).

(** *** Stock-Level ([dbc_stock_level.c]) *)

Definition execute_stock_level_cockroach (data : stock_level_t) (s : S) : Z * stock_level_t * S :=
  let d_w_id := int_text Size.W_ID_LEN (sl_w_id data) in
  let d_id := int_text Size.D_ID_LEN (sl_d_id data) in
  let threshold := int_text Size.THRESHOLD_LEN (sl_threshold data) in
  begin_cockroach data s (fun s =>
  query_row STOCK_LEVEL_1 [d_w_id; d_id] data s (fun res s =>
  let ol_o_id1 := snprintf (Size.OL_O_ID_LEN + 2) (fmt_d (i32 (get_int res 0 0 - 20))) in
  let ol_o_id2 := snprintf (Size.OL_O_ID_LEN + 2) (fmt_d (i32 (get_int res 0 0 - 1))) in
  query_row STOCK_LEVEL_2 [d_w_id; d_id; threshold; ol_o_id1; ol_o_id2] data s (fun res s =>
  (OK, mk_stock_level (sl_w_id data) (sl_d_id data) (sl_threshold data) (get_int res 0 0), s)))).

(** *** The integrity check ([dbc_integrity.c]): none *)

Definition execute_integrity_cockroach (data : integrity_t) (s : S) : Z * integrity_t * S :=
  (OK, data, s).

(** The function pointers [db_init_cockroach] stores. *)
Definition cockroach_ops (c : db_context_libpq) : DbOps S := {|
  time := clock_time;
  sleep_retry := nanosleep;
  connect := connect_to_db_cockroach c;
  disconnect := disconnect_from_db_cockroach;
  commit_transaction := commit_transaction_cockroach;
  rollback_transaction := rollback_transaction_cockroach;
  execute_integrity := execute_integrity_cockroach;
  execute_delivery := execute_delivery_cockroach;
  execute_new_order := execute_new_order_cockroach;
  execute_order_status := execute_order_status_cockroach;
  execute_payment := execute_payment_cockroach;
  execute_stock_level := execute_stock_level_cockroach |}.

(** It keeps the promises of the interface. *)
Lemma cockroach_laws (c : db_context_libpq) : DbLaws S (H := cockroach_ops c).
Proof.
  split; intros w; cbn; unfold commit_transaction_cockroach, rollback_transaction_cockroach;
    destruct (PQexec _ w) as [res s]; repeat case_decide; auto.
Qed.
End cockroach.
