(* ===== verification/CrdbServer.v ===== *)
(** * A CockroachDB server behind libpq

    What the statements of [src/cockroach] do to the tables, given their
    parameters as text, and what the back end relies on of a server: blocks,
    errors that abort them, connections that break at any moment. *)

From Stdlib Require Import ZArith Lia SpecFloat String.
From stdpp Require Import base list.
From S2P Require Import Prelude Double Text Common Wire Tables SpNewOrder SpPayment SpDelivery SpQueries SpConsistency TxnData Db Libpq PgServer Cockroach.

(** The types of the placeholders are inferred by the server: the operators take
    the text of a parameter.  [None] is an error of the server. *)
Class Crdb (pg : Pg) := {
  int_in : bytes -> option Z;
  text_in : bytes -> option bytes;
  real_in : bytes -> option double;
  (** [INTEGER + INTEGER] *)
  int_add : Z -> Z -> option Z;
  real_add_text : double -> bytes -> option double;
  real_sub_text : double -> bytes -> option double;
  real_lt_text : double -> bytes -> bool;
  numeric_add_text : numeric -> bytes -> option numeric;
  numeric_sub_text : numeric -> bytes -> option numeric;
  (** [SUM] of a [REAL] column as text, NULL over no rows *)
  sum_text : list double -> option (option bytes) }.

Class CrdbLaws {pg : Pg} (crdb : Crdb pg) := {
  int_in_fmt_d : forall z, - 2 ^ 31 <= z < 2 ^ 31 -> int_in (fmt_d z) = Some z;
  text_in_id : forall s v, text_in s = Some v -> v = s;
  int_add_sum : forall a b c, int_add a b = Some c -> c = a + b }.

(** What a statement answers: rows as text, [None] for NULL, or just success. *)
Inductive outcome := Rows (rows : list (list (option bytes))) | Done.

Section server.
Context {pg : Pg} {crdb : Crdb pg}.

(** ** The meaning of the statements *)

Definition arg (ps : list (option bytes)) (i : nat) : sp bytes := Tables.server (param ps i).
Definition int_arg (ps : list (option bytes)) (i : nat) : sp Z := Tables.server (param ps i ≫= int_in).
Definition text_arg (ps : list (option bytes)) (i : nat) : sp bytes :=
  Tables.server (param ps i ≫= text_in).
Definition real_arg (ps : list (option bytes)) (i : nat) : sp double :=
  Tables.server (param ps i ≫= real_in).

(** The rows of [SELECT] and [RETURNING]. *)
Definition rows {R} (columns : R -> list (option bytes)) (l : list R) : sp outcome :=
  mret (Rows (map columns l)).

Definition new_order_1 (ps : list (option bytes)) : sp outcome :=
  w_id ← int_arg ps 0;
  l ← SpNewOrder.NEW_ORDER_1 false w_id;
  rows (fun r => [Some (float4out (W_TAX r))]) l.

Definition new_order_2 (ps : list (option bytes)) : sp outcome :=
  w_id ← int_arg ps 0;
  d_id ← int_arg ps 1;
  l ← spi_update t_district set_district (fun r => (D_W_ID r =? w_id) && (D_ID r =? d_id))
        (fun r => v ← int_add (D_NEXT_O_ID r) 1; Some (set_next_o_id v r));
  rows (fun r => [Some (float4out (D_TAX r)); Some (fmt_d (D_NEXT_O_ID r - 1))]) l.

Definition new_order_3 (ps : list (option bytes)) : sp outcome :=
  w_id ← int_arg ps 0;
  d_id ← int_arg ps 1;
  c_id ← int_arg ps 2;
  l ← SpNewOrder.NEW_ORDER_4 false w_id d_id c_id;
  rows (fun r => [Some (float4out (C_DISCOUNT r)); Some (C_LAST r); Some (C_CREDIT r)]) l.

Definition new_order_4 (ps : list (option bytes)) : sp outcome :=
  o_id ← int_arg ps 0;
  w_id ← int_arg ps 1;
  d_id ← int_arg ps 2;
  SpNewOrder.NEW_ORDER_5 o_id w_id d_id;;
  mret Done.

Definition new_order_5 (ps : list (option bytes)) : sp outcome :=
  o_id ← int_arg ps 0;
  d_id ← int_arg ps 1;
  w_id ← int_arg ps 2;
  c_id ← int_arg ps 3;
  o_ol_cnt ← int_arg ps 4;
  o_all_local ← real_arg ps 5;
  t ← current_timestamp;
  spi_insert t_orders set_orders same_order
    (mk_orders o_id d_id w_id c_id t None o_ol_cnt o_all_local);;
  mret Done.

Definition new_order_6 (ps : list (option bytes)) : sp outcome :=
  i_id ← int_arg ps 0;
  l ← SpNewOrder.NEW_ORDER_7 false i_id;
  rows (fun r => [Some (float4out (I_PRICE r)); Some (I_NAME r); Some (I_DATA r)]) l.

(** [column]: the number of the column [s_dist_01], ..., [s_dist_10]. *)
Definition new_order_7 (column : Z) (ps : list (option bytes)) : sp outcome :=
  i_id ← int_arg ps 0;
  w_id ← int_arg ps 1;
  l ← SpNewOrder.NEW_ORDER_8 false i_id w_id;
  rows (fun r => [Some (float4out (S_QUANTITY r)); S_DIST r !! Z.to_nat (column - 1);
                  Some (S_DATA r)]) l.

Definition take_stock (decr quantity remote : bytes) (r : stock_row) : option stock_row :=
  q ← real_sub_text (S_QUANTITY r) decr;
  ytd ← numeric_add_text (S_YTD r) quantity;
  orders ← real_add_int4 (S_ORDER_CNT r) 1;
  remotes ← real_add_text (S_REMOTE_CNT r) remote;
  Some (mk_stock (S_I_ID r) (S_W_ID r) q (S_DIST r) ytd orders remotes (S_DATA r)).

Definition new_order_8 (ps : list (option bytes)) : sp outcome :=
  decr ← arg ps 0;
  quantity ← arg ps 1;
  remote ← arg ps 2;
  i_id ← int_arg ps 3;
  w_id ← int_arg ps 4;
  _ ← spi_update t_stock set_stock (is_stock i_id w_id) (take_stock decr quantity remote);
  mret Done.

Definition new_order_9 (ps : list (option bytes)) : sp outcome :=
  o_id ← int_arg ps 0;
  d_id ← int_arg ps 1;
  w_id ← int_arg ps 2;
  number ← int_arg ps 3;
  i_id ← int_arg ps 4;
  supply_w_id ← int_arg ps 5;
  quantity ← real_arg ps 6;
  amount ← real_arg ps 7;
  dist_info ← text_arg ps 8;
  info ← Tables.server (varchar 24 dist_info);
  spi_insert t_order_line set_order_line same_order_line
    (mk_order_line o_id d_id w_id number i_id supply_w_id None quantity amount info);;
  mret Done.

Definition pay_warehouse (amount : bytes) (r : warehouse_row) : option warehouse_row :=
  y ← numeric_add_text (W_YTD r) amount;
  Some (mk_warehouse (W_ID r) (W_NAME r) (W_STREET_1 r) (W_STREET_2 r) (W_CITY r)
          (W_STATE r) (W_ZIP r) (W_TAX r) y).

Definition payment_1 (ps : list (option bytes)) : sp outcome :=
  amount ← arg ps 0;
  w_id ← int_arg ps 1;
  l ← spi_update t_warehouse set_warehouse (fun r => W_ID r =? w_id) (pay_warehouse amount);
  rows (fun r => map Some [W_NAME r; W_STREET_1 r; W_STREET_2 r; W_CITY r; W_STATE r; W_ZIP r]) l.

Definition pay_district (amount : bytes) (r : district_row) : option district_row :=
  y ← numeric_add_text (D_YTD r) amount;
  Some (mk_district (D_ID r) (D_W_ID r) (D_NAME r) (D_STREET_1 r) (D_STREET_2 r) (D_CITY r)
          (D_STATE r) (D_ZIP r) (D_TAX r) y (D_NEXT_O_ID r)).

Definition payment_2 (ps : list (option bytes)) : sp outcome :=
  amount ← arg ps 0;
  d_id ← int_arg ps 1;
  w_id ← int_arg ps 2;
  l ← spi_update t_district set_district (is_district d_id w_id) (pay_district amount);
  rows (fun r => map Some [D_NAME r; D_STREET_1 r; D_STREET_2 r; D_CITY r; D_STATE r; D_ZIP r]) l.

(** Also [ORDER_STATUS_1], the same text. *)
Definition payment_3 (ps : list (option bytes)) : sp outcome :=
  w_id ← int_arg ps 0;
  d_id ← int_arg ps 1;
  last ← text_arg ps 2;
  l ← SpPayment.PAYMENT_5 false w_id d_id last;
  rows (fun r => [Some (fmt_d (C_ID r))]) l.

Definition payment_4 (ps : list (option bytes)) : sp outcome :=
  w_id ← int_arg ps 0;
  d_id ← int_arg ps 1;
  c_id ← int_arg ps 2;
  l ← SpPayment.PAYMENT_6 false w_id d_id c_id;
  rows (fun r => map Some
    [C_FIRST r; C_MIDDLE r; C_LAST r; C_STREET_1 r; C_STREET_2 r; C_CITY r; C_STATE r; C_ZIP r;
     C_PHONE r; timestamp_out (C_SINCE r); C_CREDIT r; numeric_out (C_CREDIT_LIM r);
     float4out (C_DISCOUNT r); numeric_out (C_BALANCE r)]) l.

(** The payment of a customer; [c_payment_cnt] is not touched. *)
Definition charge (amount data : bytes) (r : customer_row) : option customer_row :=
  b ← numeric_sub_text (C_BALANCE r) amount;
  y ← numeric_add_int4 (C_YTD_PAYMENT r) 1;
  Some (mk_customer (C_ID r) (C_D_ID r) (C_W_ID r) (C_FIRST r) (C_MIDDLE r) (C_LAST r)
          (C_STREET_1 r) (C_STREET_2 r) (C_CITY r) (C_STATE r) (C_ZIP r) (C_PHONE r)
          (C_SINCE r) (C_CREDIT r) (C_CREDIT_LIM r) (C_DISCOUNT r) b y (C_PAYMENT_CNT r)
          (C_DELIVERY_CNT r) data).

Definition charge_gc (amount : bytes) (r : customer_row) : option customer_row :=
  charge amount (C_DATA r) r.

Definition payment_5_gc (ps : list (option bytes)) : sp outcome :=
  amount ← arg ps 0;
  c_id ← int_arg ps 1;
  w_id ← int_arg ps 2;
  d_id ← int_arg ps 3;
  _ ← spi_update t_customer set_customer (is_customer w_id d_id c_id) (charge_gc amount);
  mret Done.

Definition charge_bc (amount data : bytes) (r : customer_row) : option customer_row :=
  charge amount (text_prefix 500 (data ++ C_DATA r)) r.

Definition payment_5_bc (ps : list (option bytes)) : sp outcome :=
  amount ← arg ps 0;
  data ← text_arg ps 1;
  c_id ← int_arg ps 2;
  w_id ← int_arg ps 3;
  d_id ← int_arg ps 4;
  l ← spi_update t_customer set_customer (is_customer w_id d_id c_id) (charge_bc amount data);
  rows (fun r => [Some (text_prefix 200 (C_DATA r))]) l.

Definition payment_6 (ps : list (option bytes)) : sp outcome :=
  c_id ← int_arg ps 0;
  c_d_id ← int_arg ps 1;
  c_w_id ← int_arg ps 2;
  d_id ← int_arg ps 3;
  w_id ← int_arg ps 4;
  amount ← real_arg ps 5;
  w_name ← text_arg ps 6;
  d_name ← text_arg ps 7;
  l ← SpPayment.PAYMENT_8 c_id c_d_id c_w_id d_id w_id amount w_name d_name;
  rows (fun r => [Some (timestamp_out (H_DATE r))]) l.

Definition delivery_1 (ps : list (option bytes)) : sp outcome :=
  w_id ← int_arg ps 0;
  d_id ← int_arg ps 1;
  l ← SpDelivery.DELIVERY_1 false w_id d_id;
  rows (fun r => [Some (fmt_d (NO_O_ID r))]) l.

Definition delivery_2 (ps : list (option bytes)) : sp outcome :=
  o_id ← int_arg ps 0;
  w_id ← int_arg ps 1;
  d_id ← int_arg ps 2;
  _ ← SpDelivery.DELIVERY_2 o_id w_id d_id;
  mret Done.

Definition delivery_3 (ps : list (option bytes)) : sp outcome :=
  carrier ← int_arg ps 0;
  o_id ← int_arg ps 1;
  w_id ← int_arg ps 2;
  d_id ← int_arg ps 3;
  l ← SpDelivery.DELIVERY_3 carrier o_id w_id d_id;
  rows (fun r => [Some (fmt_d (O_C_ID r))]) l.

Definition delivery_4 (ps : list (option bytes)) : sp outcome :=
  o_id ← int_arg ps 0;
  w_id ← int_arg ps 1;
  d_id ← int_arg ps 2;
  _ ← SpDelivery.DELIVERY_5 o_id w_id d_id;
  mret Done.

Definition delivery_5 (ps : list (option bytes)) : sp outcome :=
  o_id ← int_arg ps 0;
  w_id ← int_arg ps 1;
  d_id ← int_arg ps 2;
  l ← spi_select false t_order_line (is_line o_id w_id d_id);
  sum ← Tables.server (sum_text (map OL_AMOUNT l));
  rows (fun v => [v]) [sum].

Definition credit_customer (amount : bytes) (r : customer_row) : option customer_row :=
  n ← real_add_int4 (C_DELIVERY_CNT r) 1;
  b ← numeric_add_text (C_BALANCE r) amount;
  Some (mk_customer (C_ID r) (C_D_ID r) (C_W_ID r) (C_FIRST r) (C_MIDDLE r) (C_LAST r)
          (C_STREET_1 r) (C_STREET_2 r) (C_CITY r) (C_STATE r) (C_ZIP r) (C_PHONE r)
          (C_SINCE r) (C_CREDIT r) (C_CREDIT_LIM r) (C_DISCOUNT r) b (C_YTD_PAYMENT r)
          (C_PAYMENT_CNT r) n (C_DATA r)).

Definition delivery_6 (ps : list (option bytes)) : sp outcome :=
  amount ← arg ps 0;
  c_id ← int_arg ps 1;
  w_id ← int_arg ps 2;
  d_id ← int_arg ps 3;
  _ ← spi_update t_customer set_customer (is_customer w_id d_id c_id) (credit_customer amount);
  mret Done.

Definition order_status_2 (ps : list (option bytes)) : sp outcome :=
  w_id ← int_arg ps 0;
  d_id ← int_arg ps 1;
  c_id ← int_arg ps 2;
  l ← SpQueries.ORDER_STATUS_2 false w_id d_id c_id;
  rows (fun r => map Some [C_FIRST r; C_MIDDLE r; C_LAST r; numeric_out (C_BALANCE r)]) l.

Definition order_status_3 (ps : list (option bytes)) : sp outcome :=
  w_id ← int_arg ps 0;
  d_id ← int_arg ps 1;
  c_id ← int_arg ps 2;
  l ← SpQueries.ORDER_STATUS_3 false w_id d_id c_id;
  rows (fun r => [Some (fmt_d (O_ID r)); fmt_d <$> O_CARRIER_ID r;
                  Some (timestamp_out (O_ENTRY_D r)); Some (fmt_d (O_OL_CNT r))]) l.

Definition order_status_4 (ps : list (option bytes)) : sp outcome :=
  w_id ← int_arg ps 0;
  d_id ← int_arg ps 1;
  o_id ← int_arg ps 2;
  l ← SpQueries.ORDER_STATUS_4 false w_id d_id o_id;
  rows (fun r => [Some (fmt_d (OL_I_ID r)); Some (fmt_d (OL_SUPPLY_W_ID r));
                  Some (float4out (OL_QUANTITY r)); Some (float4out (OL_AMOUNT r));
                  timestamp_out <$> OL_DELIVERY_D r]) l.

Definition stock_level_1 (ps : list (option bytes)) : sp outcome :=
  w_id ← int_arg ps 0;
  d_id ← int_arg ps 1;
  l ← SpQueries.STOCK_LEVEL_1 false w_id d_id;
  rows (fun r => [Some (fmt_d (D_NEXT_O_ID r))]) l.

Definition below (w_id : Z) (threshold : bytes) (r : stock_row) : bool :=
  (S_W_ID r =? w_id) && real_lt_text (S_QUANTITY r) threshold.

Definition stock_level_2 (ps : list (option bytes)) : sp outcome :=
  w_id ← int_arg ps 0;
  d_id ← int_arg ps 1;
  threshold ← arg ps 2;
  lo ← int_arg ps 3;
  hi ← int_arg ps 4;
  lines ← spi_select false t_order_line (recent_line w_id d_id lo hi);
  stocks ← spi_select false t_stock (below w_id threshold);
  let ol := remove_dups (map OL_I_ID lines) in
  rows (fun n => [Some (fmt_d n)])
    [zlen (ol ≫= fun i => List.filter (fun s => S_I_ID s =? i) stocks)].

(** The statements by their text. *)
Definition statements : list (bytes * (list (option bytes) -> sp outcome)) :=
  [(NEW_ORDER_1, new_order_1); (NEW_ORDER_2, new_order_2); (NEW_ORDER_3, new_order_3);
   (NEW_ORDER_4, new_order_4); (NEW_ORDER_5, new_order_5); (NEW_ORDER_6, new_order_6);
   (NEW_ORDER_8, new_order_8); (NEW_ORDER_9, new_order_9);
   (PAYMENT_1, payment_1); (PAYMENT_2, payment_2); (PAYMENT_3, payment_3);
   (PAYMENT_4, payment_4); (PAYMENT_5_GC, payment_5_gc); (PAYMENT_5_BC, payment_5_bc);
   (PAYMENT_6, payment_6); (DELIVERY_1, delivery_1); (DELIVERY_2, delivery_2);
   (DELIVERY_3, delivery_3); (DELIVERY_4, delivery_4); (DELIVERY_5, delivery_5);
   (DELIVERY_6, delivery_6); (ORDER_STATUS_2, order_status_2);
   (ORDER_STATUS_3, order_status_3); (ORDER_STATUS_4, order_status_4);
   (STOCK_LEVEL_1, stock_level_1); (STOCK_LEVEL_2, stock_level_2)]
  ++ map (fun n => (NEW_ORDER_7 (s_dist n), new_order_7 n)) (zrange 1 11).

Fixpoint find_statement (q : bytes) (l : list (bytes * (list (option bytes) -> sp outcome)))
  : option (list (option bytes) -> sp outcome) :=
  match l with
  | [] => None
  | (text, m) :: l' => if bytes_eqb q text then Some m else find_statement q l'
  end.

Definition statement (q : bytes) : option (list (option bytes) -> sp outcome) :=
  find_statement q statements.

(** ** The answer to a statement in the session *)

Inductive answers_statement (V : server) (q : bytes) (ps : list (option bytes))
  : option PGresult -> server -> Prop :=
| statement_rows w t m rs w' :
    session_link V = InTxn w -> statement q = Some m ->
    Tables.call (m ps) t w = (inl (Rows rs), w') ->
    answers_statement V q ps (Some (mk_PGresult PGRES_TUPLES_OK rs None))
      (mk_server (committed V) (InTxn w'))
| statement_done w t m w' res :
    session_link V = InTxn w -> statement q = Some m ->
    Tables.call (m ps) t w = (inl Done, w') -> command_ok res ->
    answers_statement V q ps res (mk_server (committed V) (InTxn w'))
| statement_error res : session_link V <> Lost -> failure res ->
    answers_statement V q ps res (mk_server (committed V) Aborted)
| statement_lost res : failure res ->
    answers_statement V q ps res (mk_server (committed V) Lost).

(** A server behind libpq.  No other session works on the database meanwhile. *)
Class CrdbServer (S : Type) `{Libpq S} := {
  crdb_server_of : S -> server;
  crdb_begin : forall s,
    answers_command (crdb_server_of s) (lit "BEGIN") (PQexec (lit "BEGIN;") s).1
      (crdb_server_of (PQexec (lit "BEGIN;") s).2);
  crdb_end : forall q s, q ∈ [lit "COMMIT"; lit "ROLLBACK"] ->
    answers_command (crdb_server_of s) q (PQexec q s).1 (crdb_server_of (PQexec q s).2);
  crdb_statement : forall q ps s,
    answers_statement (crdb_server_of s) q ps (PQexecParams q ps s).1
      (crdb_server_of (PQexecParams q ps s).2);
  crdb_connect : forall info s,
    committed (crdb_server_of (PQconnectdbParams info s)) = committed (crdb_server_of s)
    /\ (session_link (crdb_server_of (PQconnectdbParams info s)) = Idle
        \/ session_link (crdb_server_of (PQconnectdbParams info s)) = Lost);
  crdb_finish : forall s,
    crdb_server_of (PQfinish s) = mk_server (committed (crdb_server_of s)) Lost;
  crdb_time : forall s, crdb_server_of (clock_time s).2 = crdb_server_of s;
  crdb_sleep : forall s, crdb_server_of (nanosleep s) = crdb_server_of s }.
End server.
