(* ===== verification/CrdbSpec.v ===== *)
(** * What the transactions do on a CockroachDB server

    Rules for the statements of a block ([ends]: an execution answers ERROR, or
    OK with its work in the open block), and what each transaction leaves in the
    tables and in the structure it fills. *)

From Stdlib Require Import ZArith Lia SpecFloat String.
From stdpp Require Import base list sorting.
From S2P Require Import Prelude Double Text Common Wire Tables SpNewOrder SpPayment SpDelivery SpQueries SpConsistency TxnData Db Libpq PgServer LibpqServer Cockroach CrdbServer.

(** A number that its ten-digit buffers hold. *)
Definition key (z : Z) : Prop := 0 <= z < 2 ^ 31.

Lemma int_text_fmt len z : 0 < len -> 0 <= z < 10 ^ len -> int_text len z = fmt_d z.
Proof.
  intros Hl Hz. unfold int_text, snprintf, strncpy. apply take_ge.
  unfold fmt_d. destruct (Z.ltb_spec z 0); [lia|].
  pose proof (length_dec (Z.to_nat (len - 1)) z) as Hd.
  rewrite Nat2Z.inj_succ, Z2Nat.id in Hd by lia. replace (Z.succ (len - 1)) with len in Hd by lia.
  specialize (Hd Hz). lia.
Qed.

Lemma int_text_key z : key z -> int_text 10 z = fmt_d z.
Proof. unfold key. intros Hz. apply int_text_fmt; lia. Qed.

Lemma text_of_key z : key z -> snprintf (10 + 1) (fmt_d z) = fmt_d z.
Proof. exact (int_text_key z). Qed.

Section client.
Context {pg : Pg} {crdb : Crdb pg}.
Context {S : Type} `{Libpq S} `{!CrdbServer S}.

(** ** Blocks *)

Definition in_block (V w : db) (s : S) : Prop := crdb_server_of s = mk_server V (InTxn w).

Definition ends {D} (V : db) (Q : D -> db -> Prop) (r : Z * D * S) : Prop :=
  committed (crdb_server_of r.2) = V
  /\ ((r.1.1 = OK /\ exists w, in_block V w r.2 /\ Q r.1.2 w) \/ r.1.1 = ERROR).

Section rules.
Context {D : Type} (V : db) (Q : D -> db -> Prop).

Lemma in_block_committed w s : in_block V w s -> committed (crdb_server_of s) = V.
Proof. by intros ->. Qed.

Lemma ends_error data s : committed (crdb_server_of s) = V -> ends V Q (ERROR, data, s).
Proof. intros Hs. split; [done|by right]. Qed.

Lemma ends_ok data w s : in_block V w s -> Q data w -> ends V Q (OK, data, s).
Proof. intros Hs HQ. split; [by eapply in_block_committed|]. left. eauto. Qed.

Lemma ends_begin data s k : no_work (crdb_server_of s) -> committed (crdb_server_of s) = V ->
  (forall s', in_block V V s' -> ends V Q (k s')) -> ends V Q (begin_cockroach data s k).
Proof.
  intros Hn HV Hk. unfold begin_cockroach. pose proof (crdb_begin s) as Ha.
  destruct (PQexec _ s) as [res s1]. cbn [fst snd] in Ha.
  destruct (begin_answer _ _ _ Ha Hn) as [[Hok HV1]|(Hok & _ & HD)]; unfold command_ok in Hok.
  - rewrite decide_False by (intros Hne; by apply Hne). apply Hk. by rewrite <- HV.
  - rewrite decide_True by done. apply ends_error. by rewrite HD.
Qed.

(** One statement: it failed, or it ran. *)
Lemma statement_answer q ps m w s : in_block V w s -> statement q = Some m ->
  let '(res, s') := PQexecParams q ps s in
  committed (crdb_server_of s') = V
  /\ (PQresultStatus res = PGRES_FATAL_ERROR
      \/ exists t out w', Tables.call (m ps) t w = (inl out, w') /\ in_block V w' s'
         /\ match out with
            | Rows rs => res = Some (mk_PGresult PGRES_TUPLES_OK rs None)
            | Done => PQresultStatus res = PGRES_COMMAND_OK
            end).
Proof.
  intros Hs Hm. pose proof (crdb_statement q ps s) as Ha. destruct (PQexecParams q ps s) as [res s'].
  cbn [fst snd] in Ha. unfold in_block in *. rewrite Hs in Ha. cbn in Ha.
  inversion Ha as [w1 t m1 rs w' Hl Hm1 Hc|w1 t m1 w' res1 Hl Hm1 Hc Hok|res1 Hl [Hf _]|res1 [Hf _]]; subst;
    (split; [done|]); cbn in *.
  - right. rewrite Hm in Hm1. injection Hm1 as <-. injection Hl as <-. exists t, (Rows rs), w'. done.
  - right. rewrite Hm in Hm1. injection Hm1 as <-. injection Hl as <-. exists t, Done, w'. done.
  - by left.
  - by left.
Qed.

Lemma ends_query w q params data s k m :
  in_block V w s -> statement q = Some m ->
  (forall t, wp (fun _ => True) (m (map Some params))
     (fun out sn => forall rs s', out = Rows rs -> in_block V (current sn) s' ->
        ends V Q (k (mk_PGresult PGRES_TUPLES_OK rs None) s')) (mk_session w w t)) ->
  ends V Q (query q params data s k).
Proof.
  intros Hs Hm Hk. unfold query. pose proof (statement_answer q (map Some params) m w s Hs Hm) as Ha.
  destruct (PQexecParams _ _ s) as [res s']. destruct Ha as [HV [Hf|(t & out & w' & Hc & Hs' & Hr)]].
  - destruct res as [r|]; cbn in Hf; [rewrite decide_True by (rewrite Hf; done)|]; by apply ends_error.
  - pose proof (call_wp _ _ _ _ _ (Hk t)) as Hw. rewrite Hc in Hw. destruct Hw as (sn & Hw & <-).
    destruct out as [rs|].
    + subst res. cbn [res_status]. rewrite decide_False by (intros Hne; by apply Hne). by apply Hw.
    + destruct res as [r|]; cbn in Hr; [|by apply ends_error].
      rewrite decide_True by (rewrite Hr; done). by apply ends_error.
Qed.

Lemma ends_query_row w q params data s k m :
  in_block V w s -> statement q = Some m ->
  (forall t, wp (fun _ => True) (m (map Some params))
     (fun out sn => forall rs s', out = Rows rs -> rs <> [] -> in_block V (current sn) s' ->
        ends V Q (k (mk_PGresult PGRES_TUPLES_OK rs None) s')) (mk_session w w t)) ->
  ends V Q (query_row q params data s k).
Proof.
  intros Hs Hm Hk. apply (ends_query w _ _ _ _ _ m); [done..|]. intros t.
  eapply wp_mono; [apply Hk|]. intros out sn Ho rs s' Hrs Hs'. cbv beta.
  destruct (Z.eqb_spec (PQntuples (mk_PGresult PGRES_TUPLES_OK rs None)) 0) as [Hz|Hz].
  - apply ends_error. by eapply in_block_committed.
  - apply Ho; [done| |done]. intros ->. by apply Hz.
Qed.

Lemma ends_command w q params data s k m :
  in_block V w s -> statement q = Some m ->
  (forall t, wp (fun _ => True) (m (map Some params))
     (fun _ sn => forall s', in_block V (current sn) s' -> ends V Q (k s')) (mk_session w w t)) ->
  ends V Q (command q params data s k).
Proof.
  intros Hs Hm Hk. unfold command. pose proof (statement_answer q (map Some params) m w s Hs Hm) as Ha.
  destruct (PQexecParams _ _ s) as [res s']. destruct Ha as [HV [Hf|(t & out & w' & Hc & Hs' & Hr)]].
  - rewrite decide_True by (rewrite Hf; done). by apply ends_error.
  - pose proof (call_wp _ _ _ _ _ (Hk t)) as Hw. rewrite Hc in Hw. destruct Hw as (sn & Hw & <-).
    case_decide; [by apply ends_error|]. by apply Hw.
Qed.
End rules.

Lemma ends_mono {D} V (Q R : D -> db -> Prop) r :
  (forall data w, Q data w -> R data w) -> ends V Q r -> ends V R r.
Proof. intros HQR [HV [(Ho & w & Hw & HQ)|He]]; split; eauto 6. Qed.

Lemma ends_inv {D} V (Q : D -> db -> Prop) rc data s : ends V Q (rc, data, s) ->
  committed (crdb_server_of s) = V
  /\ ((rc = OK /\ exists w, in_block V w s /\ Q data w) \/ rc = ERROR).
Proof. done. Qed.

(** ** Parameters *)

Context {claws : CrdbLaws crdb} {laws : PgLaws pg}.

Lemma wp_int32_arg z ps i Q s : param ps i = Some (fmt_d z) -> - 2 ^ 31 <= z < 2 ^ 31 -> Q z s ->
  wp (fun _ => True) (int_arg ps i) Q s.
Proof. intros Hp Hz HQ. unfold int_arg. rewrite Hp. cbn. by rewrite int_in_fmt_d. Qed.

Lemma wp_int_arg z ps i Q s : param ps i = Some (fmt_d z) -> key z -> Q z s ->
  wp (fun _ => True) (int_arg ps i) Q s.
Proof. unfold key. intros Hp Hz HQ. eapply wp_int32_arg; [exact Hp|lia|exact HQ]. Qed.

Lemma wp_known_arg n text ps i Q s : int_in text = Some n -> param ps i = Some text -> Q n s ->
  wp (fun _ => True) (int_arg ps i) Q s.
Proof. intros Hn Hp HQ. unfold int_arg. rewrite Hp. cbn. by rewrite Hn. Qed.

Lemma wp_any_arg {A} (v : option A) (Q : A -> session -> Prop) s :
  (forall a, v = Some a -> Q a s) -> wp (fun _ => True) (Tables.server v) Q s.
Proof. intros HQ. by apply wp_server. Qed.

Lemma wp_rows {R} (columns : R -> list (option bytes)) l (Q : outcome -> session -> Prop) s :
  Q (Rows (map columns l)) s -> wp (fun _ => True) (rows columns l) Q s.
Proof. done. Qed.

(** Updates whose errors are of no interest. *)
Lemma wp_updates {R} (table : db -> list R) put where_ (set : R -> option R) Q s :
  (forall l, updated where_ set (table (current s)) l ->
     Q (arrange (map (fun r => default r (set r)) (List.filter where_ (table (current s)))))
       (mk_session (snapshot s) (put l (current s)) (now s))) ->
  wp (fun _ => True) (spi_update table put where_ set) Q s.
Proof.
  intros HQ. apply (wp_update _ _ _ _ _ (fun r => default r (set r))); [by intros r r' _ _ ->| |done].
  intros Hall. by apply HQ.
Qed.

Lemma wp_inserts {R} (table : db -> list R) put same (row : R) Q s :
  Q tt (mk_session (snapshot s) (put (table (current s) ++ [row]) (current s)) (now s)) ->
  wp (fun _ => True) (spi_insert table put same row) Q s.
Proof. intros HQ. by apply wp_insert. Qed.

(** A row of a result. *)
Lemma get_field {R} (columns : R -> list (option bytes)) l r i j v :
  l !! i = Some r -> columns r !! j = Some (Some v) ->
  PQgetvalue (mk_PGresult PGRES_TUPLES_OK (map columns l) None) i j = v.
Proof.
  intros Hl Hc. unfold PQgetvalue, field_value. cbn. change (map ?f ?l) with (f <$> l).
  rewrite list_lookup_fmap, Hl. cbn. by rewrite Hc.
Qed.
End client.

(** The keys of the parameters are read back. *)
Ltac int_args :=
  repeat (apply wp_bind; eapply wp_int_arg;
          [cbn; rewrite ?int_text_key by done; reflexivity|done|]).

(** A parameter of another type. *)
Ltac any_arg :=
  apply wp_bind, wp_any_arg; cbn [param map lookup list_lookup default mbind option_bind].

(** A parameter whose number is known from [H]. *)
Ltac known_arg H := apply wp_bind; eapply wp_known_arg; [exact H|reflexivity|].
