(* ===== verification/CrdbNewOrder.v ===== *)
(** * New-Order on CockroachDB

    The effect of [execute_new_order_cockroach] on the tables and on the structure
    of the terminal. *)

From Stdlib Require Import ZArith Lia SpecFloat String.
From stdpp Require Import base list sorting.
From S2P Require Import Prelude Double Text Common Wire Tables SpNewOrder SpPayment SpDelivery SpQueries SpConsistency TxnData Db Libpq PgServer LibpqServer Cockroach CrdbServer CrdbSpec.

Section new_order.
Context {pg : Pg} {crdb : Crdb pg} {claws : CrdbLaws crdb} {laws : PgLaws pg}.
Context {S : Type} `{Libpq S} `{!CrdbServer S}.

(** ** What an order does *)

(** What leaves the stock: the order, and 91 fewer when less than ten would stay. *)
Definition taken (stock quantity : Z) : Z :=
  if decide (10 <= stock - quantity) then quantity else quantity - 91.

Lemma decr_quantity_taken stock quantity : decr_quantity_of stock quantity = taken stock quantity.
Proof.
  unfold decr_quantity_of, taken. case_decide; [|by rewrite (proj2 (Z.leb_gt _ _)) by lia].
  by rewrite (proj2 (Z.leb_le _ _)) by lia.
Qed.

(** The order line [i] (from 0) of an order of warehouse [w_id]: the row it
    stores, the structure it shows, the stock it takes.  The stock is the one of
    the home warehouse, whatever the supplying warehouse of the line. *)
Record crdb_line_done (items : list item_row) (w_id d_id o_id : Z) (i : nat) (line : no_order_line_t)
    (row : order_line_row) (shown : no_order_line_t) (st st' : list stock_row) : Prop := {
  cl_key : OL_O_ID row = o_id /\ OL_D_ID row = d_id /\ OL_W_ID row = w_id
    /\ OL_NUMBER row = Z.of_nat i + 1 /\ OL_I_ID row = ol_i_id line
    /\ OL_SUPPLY_W_ID row = ol_supply_w_id line /\ OL_DELIVERY_D row = None;
  cl_rows : exists item stock amount,
    item ∈ items /\ I_ID item = ol_i_id line
    /\ stock ∈ st /\ is_stock (ol_i_id line) w_id stock = true
    /\ amount = to_float (dmul (atof (float4out (I_PRICE item))) (float_of_int (ol_quantity line)))
    /\ real_in (int_text Size.OL_QUANTITY_LEN (ol_quantity line)) = Some (OL_QUANTITY row)
    /\ real_in (snprintf (Size.I_PRICE_LEN + 1) (fmt_f 6 amount)) = Some (OL_AMOUNT row)
    /\ (S_DIST stock !! Z.to_nat (d_id - 1) = None /\ varchar 24 [] = Some (OL_DIST_INFO row)
        \/ exists info, S_DIST stock !! Z.to_nat (d_id - 1) = Some info
           /\ varchar 24 (strncpy info Size.S_DIST_LEN) = Some (OL_DIST_INFO row))
    /\ shown =
       set_ol_stock (atoi (float4out (S_QUANTITY stock)))
         (brand_generic_of (strncpy (I_DATA item) Size.I_DATA_LEN) (S_DATA stock))
         (set_ol_item (strncpy (I_NAME item) (4 * (Size.I_NAME_LEN + 1) - 1))
            (atof (float4out (I_PRICE item))) amount line)
    /\ updated (is_stock (ol_i_id line) w_id)
         (take_stock
            (int_text Size.OL_QUANTITY_LEN
               (taken (atoi (float4out (S_QUANTITY stock))) (ol_quantity line)))
            (int_text Size.OL_QUANTITY_LEN (ol_quantity line))
            (fmt_d (if ol_supply_w_id line =? w_id then 0 else 1))) st st' }.

Inductive crdb_lines_done (items : list item_row) (w_id d_id o_id : Z)
  : nat -> list no_order_line_t -> list order_line_row -> list no_order_line_t
    -> list stock_row -> list stock_row -> Prop :=
| crdb_lines_nil i st : crdb_lines_done items w_id d_id o_id i [] [] [] st st
| crdb_lines_cons i line lines row rows l shown st st' st'' :
    crdb_line_done items w_id d_id o_id i line row l st st' ->
    crdb_lines_done items w_id d_id o_id (Datatypes.S i) lines rows shown st' st'' ->
    crdb_lines_done items w_id d_id o_id i (line :: lines) (row :: rows) (l :: shown) st st''.

(** The structure with its lines from [i] on shown, and their amounts summed. *)
Fixpoint show_lines (i : nat) (shown : list no_order_line_t) (data : new_order_t) : new_order_t :=
  match shown with
  | [] => data
  | l :: shown' =>
      show_lines (Datatypes.S i) shown'
        (set_no_line i l (set_no_total (dadd (no_total_amount data) (ol_amount l)) data))
  end.

Definition bump_next (w_id d_id : Z) (r : district_row) : district_row :=
  if (D_W_ID r =? w_id) && (D_ID r =? d_id) then set_next_o_id (D_NEXT_O_ID r + 1) r else r.

(** The whole order: [data] is what the terminal asked for, [shown] what it gets. *)
Definition crdb_new_order_done (data : new_order_t) (D : db) (shown : new_order_t) (D' : db)
  : Prop :=
  exists w d c rows lines st' t all_local,
    w ∈ t_warehouse D /\ W_ID w = no_w_id data
    /\ d ∈ t_district D /\ D_W_ID d = no_w_id data /\ D_ID d = no_d_id data
    /\ c ∈ t_customer D /\ is_customer (no_w_id data) (no_d_id data) (no_c_id data) c = true
    /\ real_in (int_text Size.O_ALL_LOCAL_LEN (no_o_all_local data)) = Some all_local
    /\ crdb_lines_done (t_item D) (no_w_id data) (no_d_id data) (D_NEXT_O_ID d) 0
         (take (Z.to_nat (no_o_ol_cnt data)) (no_order_line data)) rows lines (t_stock D) st'
    /\ shown = show_lines 0 lines
         (set_no_customer (atof (float4out (C_DISCOUNT c)))
            (strncpy (C_LAST c) (4 * (Size.C_LAST_LEN + 1) - 1))
            (strncpy (C_CREDIT c) Size.C_CREDIT_LEN)
            (set_no_district (atof (float4out (D_TAX d))) (D_NEXT_O_ID d)
               (set_no_w_tax (atof (float4out (W_TAX w)))
                  (set_no_total d_zero (set_no_rollback 0 data)))))
    /\ D' = mk_db (t_warehouse D) (map (bump_next (no_w_id data) (no_d_id data)) (t_district D))
              (t_customer D) (t_history D)
              (t_new_order D
               ++ [mk_new_order_row (D_NEXT_O_ID d) (no_d_id data) (no_w_id data)])
              (t_orders D
               ++ [mk_orders (D_NEXT_O_ID d) (no_d_id data) (no_w_id data) (no_c_id data) t None
                     (no_o_ol_cnt data) all_local])
              (t_order_line D ++ rows) (t_item D) st'.

(** What a terminal asks for. *)
Definition crdb_well_formed (data : new_order_t) : Prop :=
  key (no_w_id data) /\ 1 <= no_d_id data <= 10 /\ key (no_c_id data)
  /\ 1 <= no_o_ol_cnt data <= 15 /\ List.length (no_order_line data) = 15%nat
  /\ Forall (fun l => key (ol_i_id l) /\ key (ol_supply_w_id l)) (no_order_line data).

(** ** The statements *)

Lemma statement_7 d : 1 <= d <= 10 -> statement (NEW_ORDER_7 (s_dist d)) = Some (new_order_7 d).
Proof.
  intros Hd.
  assert (Hc : d = 1 \/ d = 2 \/ d = 3 \/ d = 4 \/ d = 5 \/ d = 6 \/ d = 7 \/ d = 8 \/ d = 9 \/ d = 10)
    by lia.
  repeat destruct Hc as [-> |Hc]; try reflexivity. by rewrite Hc.
Qed.

Lemma remote_text (b : bool) : snprintf 2 (fmt_d (if b then 0 else 1)) = fmt_d (if b then 0 else 1).
Proof. by destruct b. Qed.

Context (V : db) (Q : new_order_t -> db -> Prop).

Lemma ends_new_order_line w_id d_id o_id i line data w s k :
  in_block V w s -> no_w_id data = w_id -> no_d_id data = d_id ->
  key w_id -> 1 <= d_id <= 10 -> key o_id -> key (ol_i_id line) -> key (ol_supply_w_id line) ->
  (i < 15)%nat ->
  (forall row l st' s', crdb_line_done (t_item w) w_id d_id o_id i line row l (t_stock w) st' ->
     in_block V (set_order_line (t_order_line w ++ [row]) (set_stock st' w)) s' ->
     ends V Q (k (set_no_line i l (set_no_total (dadd (no_total_amount data) (ol_amount l)) data)) s')) ->
  ends V Q (new_order_line_cockroach (fmt_d o_id) i line data s k).
Proof.
  intros Hs Hw Hd Kw Kd Ko Ki Ks Hi15 Hk. unfold new_order_line_cockroach.
  change (int_text Size.I_ID_LEN) with (int_text 10). change (int_text Size.W_ID_LEN) with (int_text 10).
  change (int_text Size.D_ID_LEN) with (int_text 10). rewrite Hw, Hd.
  assert (Kd' : key d_id) by (unfold key; lia).
  eapply ends_query; [exact Hs|reflexivity|]. intros t. unfold new_order_6. int_args.
  apply wp_bind. unfold SpNewOrder.NEW_ORDER_7. apply wp_select. apply wp_rows.
  intros rs s1 [= <-] Hs1. cbn [current] in *.
  destruct (arrange (List.filter _ (t_item w))) as [|item items'] eqn:Hitems.
  { apply ends_error. by eapply in_block_committed. }
  assert (Hitem : item ∈ t_item w /\ (I_ID item =? ol_i_id line) = true).
  { apply (arrange_head (fun r => I_ID r =? ol_i_id line)). by rewrite Hitems. }
  destruct Hitem as [Hitem Hid%Z.eqb_eq]. change (PQntuples _ =? 0) with false. cbv iota.
  set (res := mk_PGresult _ _ _).
  assert (E0 : PQgetvalue res 0 0 = float4out (I_PRICE item)) by done.
  assert (E1 : PQgetvalue res 0 1 = I_NAME item) by done.
  assert (E2 : PQgetvalue res 0 2 = I_DATA item) by done.
  unfold get_float, get_text. rewrite E0, E1, E2. clearbody res. cbv zeta.
  set (amount := to_float _). set (line1 := set_ol_item _ _ _ _).
  set (data1 := set_no_total _ _).
  assert (Hw1 : no_w_id data1 = w_id) by done. assert (Hd1 : no_d_id data1 = d_id) by done.
  rewrite Hd1. eapply ends_query_row; [exact Hs1|by apply statement_7|]. intros t2.
  unfold new_order_7. int_args. apply wp_bind. unfold SpNewOrder.NEW_ORDER_8. apply wp_select. apply wp_rows.
  intros rs s2 [= <-] Hne Hs2. cbn [current] in *.
  revert Hne. destruct (arrange (List.filter _ (t_stock w))) as [|stock stocks'] eqn:Hstocks; [done|].
  intros _.
  assert (Hstock : stock ∈ t_stock w /\ is_stock (ol_i_id line) w_id stock = true).
  { apply arrange_head. by rewrite Hstocks. }
  destruct Hstock as [Hst His].
  set (res2 := mk_PGresult _ _ _).
  assert (F0 : PQgetvalue res2 0 0 = float4out (S_QUANTITY stock)) by done.
  assert (F1 : PQgetvalue res2 0 1 = default [] (S_DIST stock !! Z.to_nat (d_id - 1))) by done.
  assert (F2 : PQgetvalue res2 0 2 = S_DATA stock) by done.
  unfold get_int. rewrite F0, F1, F2. clearbody res2. cbv zeta.
  change (ol_supply_w_id (set_ol_stock _ _ line1)) with (ol_supply_w_id line).
  change (ol_quantity (set_ol_stock _ _ line1)) with (ol_quantity line).
  change (ol_quantity line1) with (ol_quantity line).
  change (no_w_id (set_no_line _ _ _)) with (no_w_id data). rewrite Hw, remote_text.
  eapply ends_command; [exact Hs2|reflexivity|]. intros t3. unfold new_order_8.
  do 3 (any_arg; intros ? [= <-]).
  int_args. apply wp_bind, wp_updates. intros st' Hst'. apply wp_ret. intros s3 Hs3. cbn [current] in *.
  eapply ends_command; [exact Hs3|reflexivity|]. intros t4. unfold new_order_9.
  assert (Hn : int_text Size.O_OL_CNT_LEN (Z.of_nat i + 1) = fmt_d (Z.of_nat i + 1))
    by (apply int_text_fmt; unfold Size.O_OL_CNT_LEN; lia).
  rewrite Hn. assert (Kn : key (Z.of_nat i + 1)) by (unfold key; lia).
  int_args.
  any_arg. intros qty Hqty. any_arg. intros amt Hamt. any_arg. intros info0 Hinfo0%text_in_id.
  apply wp_bind, wp_any_arg. intros info Hinfo. apply wp_bind, wp_inserts, wp_ret. intros s4 Hs4.
  cbn [current t_order_line set_stock] in *.
  replace (set_no_line i _ data1) with
    (set_no_line i (set_ol_stock (atoi (float4out (S_QUANTITY stock)))
        (brand_generic_of (snprintf (Size.I_DATA_LEN + 1) (I_DATA item)) (S_DATA stock)) line1)
      (set_no_total (dadd (no_total_amount data) amount) data)).
  2: { unfold data1, set_no_line, set_no_total, set_no_output. cbn. by rewrite list_insert_insert_eq. }
  eapply Hk; [|exact Hs4]. split; [done|]. exists item, stock, amount. rewrite <- decr_quantity_taken.
  split_and!; try done.
  subst info0. destruct (S_DIST stock !! Z.to_nat (d_id - 1)) as [info1|]; [right|left]; eauto.
Qed.

Lemma ends_new_order_lines w_id d_id o_id lines : key w_id -> 1 <= d_id <= 10 -> key o_id ->
  Forall (fun l => key (ol_i_id l) /\ key (ol_supply_w_id l)) lines ->
  forall i data w s, (i + List.length lines <= 15)%nat ->
  in_block V w s -> no_w_id data = w_id -> no_d_id data = d_id ->
  (forall rows shown st',
     crdb_lines_done (t_item w) w_id d_id o_id i lines rows shown (t_stock w) st' ->
     Q (show_lines i shown data) (set_order_line (t_order_line w ++ rows) (set_stock st' w))) ->
  ends V Q (new_order_lines_cockroach (fmt_d o_id) i lines data s).
Proof.
  intros Kw Kd Ko. induction 1 as [|line lines [K1 K2] _ IH]; intros i data w s Hi Hs Hw Hd HQ;
    cbn [new_order_lines_cockroach].
  - eapply ends_ok; [exact Hs|]. specialize (HQ _ _ _ (crdb_lines_nil (t_item w) _ _ _ _ _)).
    rewrite app_nil_r in HQ. by destruct w.
  - cbn in Hi. eapply ends_new_order_line; [exact Hs|done..|lia|].
    intros row l st' s' Hl Hs'. eapply IH; [lia|exact Hs'|done|done|].
    intros rows shown st'' Hdone. cbn [t_order_line t_stock t_item set_order_line set_stock] in *.
    rewrite <- app_assoc. exact (HQ (row :: rows) (l :: shown) st'' (crdb_lines_cons _ _ _ _ _ _ _ _ _ _ _ _ _ _ Hl Hdone)).
Qed.

(** ** The whole order *)

Lemma show_lines_inputs i shown data :
  no_w_id (show_lines i shown data) = no_w_id data
  /\ no_rollback (show_lines i shown data) = no_rollback data
  /\ no_o_id (show_lines i shown data) = no_o_id data
  /\ no_o_ol_cnt (show_lines i shown data) = no_o_ol_cnt data
  /\ List.length (no_order_line (show_lines i shown data)) = List.length (no_order_line data).
Proof.
  revert i data. induction shown as [|l shown IH]; intros i data; [done|].
  cbn [show_lines]. destruct (IH (Datatypes.S i) (set_no_line i l
    (set_no_total (dadd (no_total_amount data) (ol_amount l)) data))) as (-> & -> & -> & -> & ->).
  cbn. by rewrite length_insert.
Qed.
End new_order.

Section execute.
Context {pg : Pg} {crdb : Crdb pg} {claws : CrdbLaws crdb} {laws : PgLaws pg}.
Context {S : Type} `{Libpq S} `{!CrdbServer S}.

Lemma bumped w_id d_id l ds :
  let where_ r := (D_W_ID r =? w_id) && (D_ID r =? d_id) in
  let set r := v ← int_add (D_NEXT_O_ID r) 1; Some (set_next_o_id v r) in
  updated where_ set l ds ->
  (forall r, r ∈ l -> where_ r = true -> is_Some (set r)) /\ ds = map (bump_next w_id d_id) l.
Proof.
  cbn zeta. intros [Hall ->]. split; [exact Hall|]. apply map_ext_in. intros r Hr%list_elem_of_In.
  unfold bump_next. destruct (_ && _) eqn:Hk; [|done]. destruct (Hall r Hr Hk) as [r' Hr'].
  rewrite Hr'. destruct (int_add _ _) as [v|] eqn:Hv; [|done]. cbn in Hr'.
  apply int_add_sum in Hv as ->. by injection Hr'.
Qed.

(** The three rows at the start of an order. *)
Section start.
Context (V0 V : db) (Q : new_order_t -> db -> Prop) (data : new_order_t) (s : S).
Context (Hs : in_block V0 V s) (w_id d_id c_id : Z) (Kw : key w_id) (Kd : key d_id) (Kc : key c_id).

Lemma ends_new_order_1 k :
  (forall w res s1, w ∈ t_warehouse V -> W_ID w = w_id ->
     PQgetvalue res 0 0 = float4out (W_TAX w) -> in_block V0 V s1 -> ends V0 Q (k res s1)) ->
  ends V0 Q (query_row Cockroach.NEW_ORDER_1 [int_text 10 w_id] data s k).
Proof.
  intros Hk. eapply ends_query_row; [exact Hs|reflexivity|]. intros t. unfold new_order_1. int_args.
  apply wp_bind, wp_select, wp_rows. intros rs s1 [= <-] Hne Hs1. cbn [current] in *. revert Hne.
  destruct (arrange (List.filter _ (t_warehouse V))) as [|w ws] eqn:Hws; [done|]. intros _.
  assert (Hw : w ∈ t_warehouse V /\ (W_ID w =? w_id) = true).
  { apply (arrange_head (fun r => W_ID r =? w_id)). by rewrite Hws. }
  destruct Hw as [Hw Hwid%Z.eqb_eq]. by eapply Hk.
Qed.

Lemma ends_new_order_2 k :
  (forall d res s1, d ∈ t_district V -> D_W_ID d = w_id -> D_ID d = d_id ->
     PQgetvalue res 0 0 = float4out (D_TAX d) -> PQgetvalue res 0 1 = fmt_d (D_NEXT_O_ID d) ->
     in_block V0 (set_district (map (bump_next w_id d_id) (t_district V)) V) s1 ->
     ends V0 Q (k res s1)) ->
  ends V0 Q (query_row Cockroach.NEW_ORDER_2 [int_text 10 w_id; int_text 10 d_id] data s k).
Proof.
  intros Hk. eapply ends_query_row; [exact Hs|reflexivity|]. intros t. unfold new_order_2. int_args.
  apply wp_bind, wp_updates. intros ds Hds. apply wp_rows. intros rs s1 [= <-] Hne Hs1. cbn [current] in *.
  apply bumped in Hds as [Hall ->]. revert Hne.
  destruct (arrange (map _ (List.filter _ (t_district V)))) as [|d' ds'] eqn:Hds; [done|]. intros _.
  destruct (updated_row _ _ _ d' Hall) as (d & Hd & Hkey & Hset); [by rewrite Hds|].
  apply andb_true_iff in Hkey as [Hk1%Z.eqb_eq Hk2%Z.eqb_eq].
  destruct (int_add _ _) as [v|] eqn:Hv; [|done]. cbn in Hset. apply int_add_sum in Hv as ->.
  injection Hset as <-. eapply Hk; [exact Hd|done..| |exact Hs1].
  change (fmt_d (D_NEXT_O_ID d + 1 - 1) = fmt_d (D_NEXT_O_ID d)). f_equal. lia.
Qed.

Lemma ends_new_order_3 k :
  (forall c res s1, c ∈ t_customer V -> is_customer w_id d_id c_id c = true ->
     PQgetvalue res 0 0 = float4out (C_DISCOUNT c) -> PQgetvalue res 0 1 = C_LAST c ->
     PQgetvalue res 0 2 = C_CREDIT c -> in_block V0 V s1 -> ends V0 Q (k res s1)) ->
  ends V0 Q (query_row Cockroach.NEW_ORDER_3 [int_text 10 w_id; int_text 10 d_id; int_text 10 c_id]
               data s k).
Proof.
  intros Hk. eapply ends_query_row; [exact Hs|reflexivity|]. intros t. unfold new_order_3. int_args.
  apply wp_bind, wp_select, wp_rows. intros rs s1 [= <-] Hne Hs1. cbn [current] in *. revert Hne.
  destruct (arrange (List.filter _ (t_customer V))) as [|c cs] eqn:Hcs; [done|]. intros _.
  assert (Hc : c ∈ t_customer V /\ is_customer w_id d_id c_id c = true).
  { apply arrange_head. unfold is_customer. by rewrite Hcs. }
  destruct Hc as [Hc Hck]. by eapply Hk.
Qed.
End start.

Lemma execute_new_order_crdb data s :
  crdb_well_formed data -> no_work (crdb_server_of s) ->
  (forall d, d ∈ t_district (committed (crdb_server_of s)) -> key (D_NEXT_O_ID d)) ->
  ends (committed (crdb_server_of s)) (crdb_new_order_done data (committed (crdb_server_of s)))
    (execute_new_order_cockroach data s).
Proof.
  intros (Kw & Kd & Kc & Hcnt & Hlen & Hlines) Hn Hnext. set (V := committed _) in *.
  unfold execute_new_order_cockroach.
  change (int_text Size.C_ID_LEN) with (int_text 10). change (int_text Size.W_ID_LEN) with (int_text 10).
  change (int_text Size.D_ID_LEN) with (int_text 10).
  assert (Kd' : key (no_d_id data)) by (unfold key; lia).
  rewrite (int_text_fmt Size.O_OL_CNT_LEN) by (unfold Size.O_OL_CNT_LEN; lia).
  assert (Ko : key (no_o_ol_cnt data)) by (unfold key; lia). cbv zeta.
  apply ends_begin; [done..|]. intros s0 Hs0.
  eapply ends_new_order_1; [exact Hs0|done|]. intros w res1 s1 Hw Hwid E0 Hs1.
  eapply ends_new_order_2; [exact Hs1|done..|]. intros d res2 s2 Hd Hdw Hdd F0 F1 Hs2.
  specialize (Hnext d Hd) as Kn.
  unfold get_float, get_text, get_int. rewrite E0, F0, F1. change (Size.O_ID_LEN + 1) with (10 + 1).
  rewrite text_of_key, atoi_fmt_d by (done || unfold key in Kn; lia).
  eapply ends_new_order_3; [exact Hs2|done..|]. intros c res3 s3 Hc Hck G0 G1 G2 Hs3.
  rewrite G0, G1, G2. set (data2 := set_no_customer _ _ _ _).
  eapply ends_command; [exact Hs3|reflexivity|]. intros t4. unfold new_order_4. int_args.
  apply wp_bind, wp_inserts, wp_ret. intros s4 Hs4.
  eapply ends_command; [exact Hs4|reflexivity|]. intros t5. unfold new_order_5. int_args.
  any_arg. intros all_local Hall_local.
  apply wp_bind, wp_timestamp, wp_bind, wp_inserts, wp_ret. intros s5 Hs5.
  cbn [current now t_new_order t_orders t_customer set_new_order set_orders set_district] in *.
  eapply (ends_new_order_lines _ _ (no_w_id data) (no_d_id data));
    [done..|by apply Forall_take| |exact Hs5|done|done|].
  - rewrite length_take. change (no_order_line data2) with (no_order_line data). lia.
  - intros rows shown st' Hdone. by exists w, d, c, rows, shown, st', t5, all_local.
Qed.
End execute.
