(* ===== verification/CrdbPayment.v ===== *)
(** * Payment on CockroachDB

    The effect of [execute_payment_cockroach] on the tables and on the structure
    of the terminal. *)

From Stdlib Require Import ZArith Lia SpecFloat String.
From stdpp Require Import base list sorting.
From S2P Require Import Prelude Double Text Common Wire Tables SpNewOrder SpPayment SpDelivery SpQueries SpConsistency TxnData Db Libpq PgServer LibpqServer Cockroach CrdbServer CrdbSpec.

Section payment.
Context {pg : Pg} {crdb : Crdb pg} {claws : CrdbLaws crdb} {laws : PgLaws pg}.
Context {S : Type} `{Libpq S} `{!CrdbServer S}.

(** ** What a payment does *)

(** The amount as the statements get it. *)
Definition amount_text (data : payment_t) : bytes :=
  snprintf (Size.H_AMOUNT_LEN + 1) (fmt_f 6 (pa_h_amount data)).

Definition last_name (data : payment_t) : bytes :=
  wcstombs (pa_c_last data) (4 * (Size.C_LAST_LEN + 1)).

(** The number of the customer as text: the one given, or the one in the middle of
    those with the last name, by first name. *)
Definition crdb_chosen (w_id d_id c_id : Z) (last : bytes) (D : db) (text : bytes) : Prop :=
  if c_id =? 0 then
    exists l c, l ≡ₚ List.filter (has_name w_id d_id last) (t_customer D)
      /\ Sorted (fun x y => first_le x y = true) l
      /\ l !! Z.to_nat ((zlen l - 1) / 2) = Some c
      /\ text = snprintf (Size.C_ID_LEN + 1) (fmt_d (C_ID c))
  else text = int_text Size.C_ID_LEN c_id.

(** What is put in front of the data of a customer with bad credit. *)
Definition charge_note (data : payment_t) (c_id : bytes) : bytes :=
  snprintf (Size.C_DATA_LEN + 1)
    (c_id ++ lit " " ++ fmt_d (pa_c_d_id data) ++ lit " " ++ fmt_d (pa_c_w_id data) ++ lit " "
     ++ fmt_d (pa_d_id data) ++ lit " " ++ fmt_d (pa_w_id data) ++ lit " "
     ++ fmt_f 6 (pa_h_amount data) ++ lit " ").

(** The update of the customer. *)
Definition charged (data : payment_t) (c_id credit : bytes) (r : customer_row) : option customer_row :=
  if is_good credit then charge_gc (amount_text data) r
  else charge_bc (amount_text data) (charge_note data c_id) r.

(** The text about the customer that is shown. *)
Definition shown_data (data : payment_t) (c_id credit : bytes) (n : Z) (D : db) (text : bytes) : Prop :=
  if is_good credit then text = []
  else exists c c', c ∈ t_customer D /\ is_customer (pa_c_w_id data) (pa_c_d_id data) n c = true
    /\ charged data c_id credit c = Some c'
    /\ text = strncpy (text_prefix 200 (C_DATA c')) (4 * (Size.C_DATA_LEN + 1) - 1).

Definition show_warehouse (w : warehouse_row) : payment_t -> payment_t :=
  let text n v := strncpy v (4 * (n + 1) - 1) in
  set_pa_warehouse (text Size.W_NAME_LEN (W_NAME w)) (text Size.W_STREET_1_LEN (W_STREET_1 w))
    (text Size.W_STREET_2_LEN (W_STREET_2 w)) (text Size.W_CITY_LEN (W_CITY w))
    (text Size.W_STATE_LEN (W_STATE w)) (text Size.W_ZIP_LEN (W_ZIP w)).

Definition show_district (d : district_row) : payment_t -> payment_t :=
  let text n v := strncpy v (4 * (n + 1) - 1) in
  set_pa_district (text Size.D_NAME_LEN (D_NAME d)) (text Size.D_STREET_1_LEN (D_STREET_1 d))
    (text Size.D_STREET_2_LEN (D_STREET_2 d)) (text Size.D_CITY_LEN (D_CITY d))
    (text Size.D_STATE_LEN (D_STATE d)) (text Size.D_ZIP_LEN (D_ZIP d)).

(** The balance is shown less the payment. *)
Definition show_customer (c_id : bytes) (c : customer_row) (data : payment_t) : payment_t :=
  let text n v := strncpy v (4 * (n + 1) - 1) in
  set_pa_customer (atoi c_id) (text Size.C_FIRST_LEN (C_FIRST c))
    (strncpy (C_MIDDLE c) Size.C_MIDDLE_LEN)
    (mbstowcs (pa_c_last data) (C_LAST c) (Size.C_LAST_LEN + 1))
    (text Size.C_STREET_1_LEN (C_STREET_1 c)) (text Size.C_STREET_2_LEN (C_STREET_2 c))
    (text Size.C_CITY_LEN (C_CITY c)) (text Size.C_STATE_LEN (C_STATE c))
    (text Size.C_ZIP_LEN (C_ZIP c)) (text Size.C_PHONE_LEN (C_PHONE c))
    (strncpy (timestamp_out (C_SINCE c)) Size.C_SINCE_LEN) (strncpy (C_CREDIT c) Size.C_CREDIT_LEN)
    (atof (numeric_out (C_CREDIT_LIM c))) (atof (float4out (C_DISCOUNT c)))
    (dsub (atof (numeric_out (C_BALANCE c))) (pa_h_amount data)) data.

Definition crdb_payment_done (data : payment_t) (D : db) (shown : payment_t) (D' : db) : Prop :=
  exists w d c c_id n ws ds cs t amount info c_data,
    w ∈ t_warehouse D /\ W_ID w = pa_w_id data
    /\ d ∈ t_district D /\ is_district (pa_d_id data) (pa_w_id data) d = true
    /\ crdb_chosen (pa_c_w_id data) (pa_c_d_id data) (pa_c_id data) (last_name data) D c_id
    /\ int_in c_id = Some n
    /\ c ∈ t_customer D /\ is_customer (pa_c_w_id data) (pa_c_d_id data) n c = true
    /\ updated (fun r => W_ID r =? pa_w_id data) (pay_warehouse (amount_text data)) (t_warehouse D) ws
    /\ updated (is_district (pa_d_id data) (pa_w_id data)) (pay_district (amount_text data))
         (t_district D) ds
    /\ updated (is_customer (pa_c_w_id data) (pa_c_d_id data) n) (charged data c_id (C_CREDIT c))
         (t_customer D) cs
    /\ shown_data data c_id (C_CREDIT c) n D c_data
    /\ real_in (amount_text data) = Some amount
    /\ varchar 24 (strncpy (W_NAME w) Size.W_NAME_LEN ++ lit "    " ++ strncpy (D_NAME d) Size.D_NAME_LEN)
       = Some info
    /\ shown = set_pa_result c_data (strncpy (timestamp_out t) Size.TIMESTAMP_LEN)
                 (show_customer c_id c (show_district d (show_warehouse w data)))
    /\ D' = mk_db ws ds cs
              (t_history D
               ++ [mk_history n (pa_c_d_id data) (pa_c_w_id data) (pa_d_id data) (pa_w_id data) t
                     amount info])
              (t_new_order D) (t_orders D) (t_order_line D) (t_item D) (t_stock D).

Definition payment_keys (data : payment_t) : Prop :=
  key (pa_w_id data) /\ key (pa_d_id data) /\ key (pa_c_w_id data) /\ key (pa_c_d_id data).

(** ** The statements *)

(** The customers of a name, the one in the middle. *)
Lemma ends_by_name {D} V0 (R : D -> db -> Prop) (d : D) V s w_id d_id last k :
  in_block V0 V s -> key w_id -> key d_id ->
  (forall text s1, crdb_chosen w_id d_id 0 last V text -> in_block V0 V s1 -> ends V0 R (k text s1)) ->
  ends V0 R (query_row Cockroach.PAYMENT_3 [int_text 10 w_id; int_text 10 d_id; last] d s
    (fun res s => k (get_text (Size.C_ID_LEN + 1) res (middle_row res) 0) s)).
Proof.
  intros Hs Kw Kd Hk. eapply ends_query_row; [exact Hs|reflexivity|]. intros t. unfold payment_3.
  int_args. any_arg. intros ? Hlast%text_in_id. subst. apply wp_bind, wp_bind, wp_select, wp_ret, wp_rows.
  intros rs s1 [= <-] Hne Hs1. cbn [current] in *. set (l := order_by first_le _) in *.
  assert (Hlen : PQntuples (mk_PGresult PGRES_TUPLES_OK (map (fun r => [Some (fmt_d (C_ID r))]) l) None)
                 = zlen l).
  { unfold PQntuples, zlen. cbn [res_tuples]. by rewrite length_map. }
  unfold middle_row. rewrite Hlen. apply Hk; [|done].
  assert (Hpos : 0 < zlen l) by (destruct l; [done|unfold zlen; cbn; lia]).
  destruct (l !! Z.to_nat ((zlen l - 1) / 2)) as [c|] eqn:Hc.
  - exists l, c. split_and!; [|apply order_by_sorted|done|].
    + unfold l. by rewrite order_by_perm, arrange_perm.
    + intros a b. apply text_le_total.
    + unfold get_text. f_equal. by eapply get_field.
  - apply lookup_ge_None in Hc. unfold zlen in *. dlia.
Qed.

Context (V0 : db) (Q : payment_t -> db -> Prop) (data : payment_t).

Lemma ends_payment_1 V s w_id amount k : in_block V0 V s -> key w_id ->
  (forall w ws res s1, w ∈ t_warehouse V -> W_ID w = w_id ->
     updated (fun r => W_ID r =? w_id) (pay_warehouse amount) (t_warehouse V) ws ->
     (forall j v, [W_NAME w; W_STREET_1 w; W_STREET_2 w; W_CITY w; W_STATE w; W_ZIP w] !! j = Some v ->
        PQgetvalue res 0 j = v) ->
     in_block V0 (set_warehouse ws V) s1 -> ends V0 Q (k res s1)) ->
  ends V0 Q (query_row Cockroach.PAYMENT_1 [amount; int_text 10 w_id] data s k).
Proof.
  intros Hs Kw Hk. eapply ends_query_row; [exact Hs|reflexivity|]. intros t. unfold payment_1.
  any_arg. intros ? [= <-]. int_args. apply wp_bind, wp_updates. intros ws Hws. apply wp_rows.
  intros rs s1 [= <-] Hne Hs1. cbn [current] in *. revert Hne.
  destruct (arrange (map _ (List.filter _ (t_warehouse V)))) as [|w' ws'] eqn:Hl; [done|]. intros _.
  destruct (updated_row _ _ _ w' (proj1 Hws)) as (w & Hw & Hkey%Z.eqb_eq & Hset); [by rewrite Hl|].
  eapply Hk; [exact Hw|done|exact Hws| |exact Hs1]. intros j v Hj.
  unfold pay_warehouse in Hset. destruct (numeric_add_text _ _); [|done]. cbn in Hset. injection Hset as <-.
  do 6 (destruct j as [|j]; [by injection Hj as <-|]); done.
Qed.

Lemma ends_payment_2 V s d_id w_id amount k : in_block V0 V s -> key d_id -> key w_id ->
  (forall d ds res s1, d ∈ t_district V -> is_district d_id w_id d = true ->
     updated (is_district d_id w_id) (pay_district amount) (t_district V) ds ->
     (forall j v, [D_NAME d; D_STREET_1 d; D_STREET_2 d; D_CITY d; D_STATE d; D_ZIP d] !! j = Some v ->
        PQgetvalue res 0 j = v) ->
     in_block V0 (set_district ds V) s1 -> ends V0 Q (k res s1)) ->
  ends V0 Q (query_row Cockroach.PAYMENT_2 [amount; int_text 10 d_id; int_text 10 w_id] data s k).
Proof.
  intros Hs Kd Kw Hk. eapply ends_query_row; [exact Hs|reflexivity|]. intros t. unfold payment_2.
  any_arg. intros ? [= <-]. int_args. apply wp_bind, wp_updates. intros ds Hds. apply wp_rows.
  intros rs s1 [= <-] Hne Hs1. cbn [current] in *. revert Hne.
  destruct (arrange (map _ (List.filter _ (t_district V)))) as [|d' ds'] eqn:Hl; [done|]. intros _.
  destruct (updated_row _ _ _ d' (proj1 Hds)) as (d & Hd & Hkey & Hset); [by rewrite Hl|].
  eapply Hk; [exact Hd|done|exact Hds| |exact Hs1]. intros j v Hj.
  unfold pay_district in Hset. destruct (numeric_add_text _ _); [|done]. cbn in Hset. injection Hset as <-.
  do 6 (destruct j as [|j]; [by injection Hj as <-|]); done.
Qed.

(** A customer whose number the server reads from [text]. *)
Lemma ends_payment_4 V s w_id d_id text k : in_block V0 V s -> key w_id -> key d_id ->
  (forall c n res s1, int_in text = Some n -> c ∈ t_customer V -> is_customer w_id d_id n c = true ->
     (forall j v,
        [C_FIRST c; C_MIDDLE c; C_LAST c; C_STREET_1 c; C_STREET_2 c; C_CITY c; C_STATE c; C_ZIP c;
         C_PHONE c; timestamp_out (C_SINCE c); C_CREDIT c; numeric_out (C_CREDIT_LIM c);
         float4out (C_DISCOUNT c); numeric_out (C_BALANCE c)] !! j = Some v ->
        PQgetvalue res 0 j = v) ->
     in_block V0 V s1 -> ends V0 Q (k res s1)) ->
  ends V0 Q (query_row Cockroach.PAYMENT_4 [int_text 10 w_id; int_text 10 d_id; text] data s k).
Proof.
  intros Hs Kw Kd Hk. eapply ends_query_row; [exact Hs|reflexivity|]. intros t. unfold payment_4.
  int_args. any_arg. intros n Hn. apply wp_bind, wp_select, wp_rows.
  intros rs s1 [= <-] Hne Hs1. cbn [current] in *. revert Hne.
  destruct (arrange (List.filter _ (t_customer V))) as [|c cs] eqn:Hl; [done|]. intros _.
  assert (Hc : c ∈ t_customer V /\ is_customer w_id d_id n c = true) by (apply arrange_head; by rewrite Hl).
  destruct Hc as [Hc Hkey]. eapply Hk; [exact Hn|exact Hc|exact Hkey| |exact Hs1]. intros j v Hj.
  do 14 (destruct j as [|j]; [by injection Hj as <-|]); done.
Qed.

Lemma ends_payment_update V s text n credit k : in_block V0 V s -> payment_keys data ->
  int_in text = Some n ->
  (forall cs c_data s1,
     updated (is_customer (pa_c_w_id data) (pa_c_d_id data) n) (charged data text credit) (t_customer V) cs ->
     shown_data data text credit n V c_data ->
     in_block V0 (set_customer cs V) s1 -> ends V0 Q (k c_data s1)) ->
  ends V0 Q (payment_update text (amount_text data) (is_good credit) data s k).
Proof.
  intros Hs (Kw & Kd & Kcw & Kcd) Hn Hk. unfold payment_update.
  change (int_text Size.W_ID_LEN) with (int_text 10). change (int_text Size.D_ID_LEN) with (int_text 10).
  unfold charged, shown_data in Hk. destruct (is_good credit) eqn:Hg.
  - eapply ends_command; [exact Hs|reflexivity|]. intros t. unfold payment_5_gc.
    any_arg. intros ? [= <-]. known_arg Hn. int_args.
    apply wp_bind, wp_updates. intros cs Hcs. apply wp_ret. intros s1 Hs1. by eapply Hk.
  - change (snprintf (Size.C_DATA_LEN + 1) _) with (charge_note data text).
    eapply ends_query_row; [exact Hs|reflexivity|]. intros t. unfold payment_5_bc.
    any_arg. intros ? [= <-]. any_arg. intros ? Hnote%text_in_id. subst. known_arg Hn. int_args.
    apply wp_bind, wp_updates. intros cs Hcs. apply wp_rows. intros rs s1 [= <-] Hne Hs1.
    cbn [current] in *. revert Hne.
    destruct (arrange (map _ (List.filter _ (t_customer V)))) as [|c' cs'] eqn:Hl; [done|]. intros _.
    destruct (updated_row _ _ _ c' (proj1 Hcs)) as (c & Hc & Hkey & Hset); [by rewrite Hl|].
    eapply Hk; [exact Hcs| |exact Hs1]. unfold charged. rewrite Hg. by exists c, c'.
Qed.

Lemma ends_payment_6 V s text n w_name d_name k : in_block V0 V s -> payment_keys data ->
  int_in text = Some n ->
  (forall t amount info res s1, real_in (amount_text data) = Some amount ->
     varchar 24 (w_name ++ lit "    " ++ d_name) = Some info ->
     PQgetvalue res 0 0 = timestamp_out t ->
     in_block V0 (set_history (t_history V
        ++ [mk_history n (pa_c_d_id data) (pa_c_w_id data) (pa_d_id data) (pa_w_id data) t amount info]) V) s1 ->
     ends V0 Q (k res s1)) ->
  forall data', ends V0 Q (query_row Cockroach.PAYMENT_6
    [text; int_text 10 (pa_c_d_id data); int_text 10 (pa_c_w_id data); int_text 10 (pa_d_id data);
     int_text 10 (pa_w_id data); amount_text data; w_name; d_name] data' s k).
Proof.
  intros Hs (Kw & Kd & Kcw & Kcd) Hn Hk data'. eapply ends_query_row; [exact Hs|reflexivity|]. intros t.
  unfold payment_6. known_arg Hn. int_args. any_arg. intros amount Hamount.
  do 2 (any_arg; intros ? ?%text_in_id; subst). apply wp_bind. unfold SpPayment.PAYMENT_8.
  apply wp_bind, wp_timestamp, wp_bind, wp_any_arg. intros info Hinfo.
  apply wp_bind, wp_inserts, wp_ret, wp_rows. intros rs s1 [= <-] _ Hs1. cbn [current now] in *.
  by eapply Hk.
Qed.

Lemma ends_payment_customer V s k : in_block V0 V s -> payment_keys data ->
  (forall text s1,
     crdb_chosen (pa_c_w_id data) (pa_c_d_id data) (pa_c_id data) (last_name data) V text ->
     in_block V0 V s1 -> ends V0 Q (k text s1)) ->
  ends V0 Q (payment_customer data s k).
Proof.
  intros Hs (Kw & Kd & Kcw & Kcd) Hk. unfold payment_customer, crdb_chosen in *.
  destruct (pa_c_id data =? 0) eqn:Hc; [|by apply Hk].
  apply (ends_by_name V0 Q data V s (pa_c_w_id data) (pa_c_d_id data)); done.
Qed.
End payment.

Section execute.
Context {pg : Pg} {crdb : Crdb pg} {claws : CrdbLaws crdb} {laws : PgLaws pg}.
Context {S : Type} `{Libpq S} `{!CrdbServer S}.

Lemma execute_payment_crdb data s : payment_keys data -> no_work (crdb_server_of s) ->
  ends (committed (crdb_server_of s)) (crdb_payment_done data (committed (crdb_server_of s)))
    (execute_payment_cockroach data s).
Proof.
  intros Hkeys Hn. pose proof Hkeys as (Kw & Kd & Kcw & Kcd). set (V := committed _) in *.
  unfold execute_payment_cockroach.
  change (int_text Size.W_ID_LEN) with (int_text 10). change (int_text Size.D_ID_LEN) with (int_text 10).
  change (snprintf (Size.H_AMOUNT_LEN + 1) _) with (amount_text data). cbv zeta.
  apply ends_begin; [done..|]. intros s0 Hs0.
  eapply ends_payment_1; [exact Hs0|done|]. intros w ws res1 s1 Hw Hwid Hws E1 Hs1.
  eapply ends_payment_2; [exact Hs1|done..|]. intros d ds res2 s2 Hd Hdid Hds E2 Hs2.
  set (data1 := set_pa_warehouse _ _ _ _ _ _ _).
  assert (D1 : data1 = show_warehouse w data).
  { unfold data1, get_text. by rewrite (E1 0%nat _ eq_refl), (E1 1%nat _ eq_refl), (E1 2%nat _ eq_refl),
      (E1 3%nat _ eq_refl), (E1 4%nat _ eq_refl), (E1 5%nat _ eq_refl). }
  set (data2 := set_pa_district _ _ _ _ _ _ _).
  assert (D2 : data2 = show_district d (show_warehouse w data)).
  { rewrite <- D1. unfold data2, get_text. by rewrite (E2 0%nat _ eq_refl), (E2 1%nat _ eq_refl), (E2 2%nat _ eq_refl),
      (E2 3%nat _ eq_refl), (E2 4%nat _ eq_refl), (E2 5%nat _ eq_refl). }
  clearbody data2. subst data2. clear D1 data1.
  assert (N1 : get_text (Size.W_NAME_LEN + 1) res1 0 0 = strncpy (W_NAME w) Size.W_NAME_LEN)
    by (unfold get_text; by rewrite (E1 0%nat _ eq_refl)).
  assert (N2 : get_text (Size.D_NAME_LEN + 1) res2 0 0 = strncpy (D_NAME d) Size.D_NAME_LEN)
    by (unfold get_text; by rewrite (E2 0%nat _ eq_refl)).
  rewrite N1, N2. set (data2 := show_district _ _).
  eapply (ends_payment_customer _ _ data2); [exact Hs2|done|]. intros text s3 Htext Hs3.
  eapply ends_payment_4; [exact Hs3|done..|]. intros c n res3 s4 Hnum Hc Hcid E3 Hs4.
  rewrite (E3 10%nat _ eq_refl). set (data3 := set_pa_customer _ _ _ _ _ _ _ _ _ _ _ _ _ _ _ _).
  assert (D3 : data3 = show_customer text c data2).
  { unfold data3, get_text, get_float. by rewrite (E3 0%nat _ eq_refl), (E3 1%nat _ eq_refl),
      (E3 2%nat _ eq_refl), (E3 3%nat _ eq_refl), (E3 4%nat _ eq_refl), (E3 5%nat _ eq_refl),
      (E3 6%nat _ eq_refl), (E3 7%nat _ eq_refl), (E3 8%nat _ eq_refl), (E3 9%nat _ eq_refl),
      (E3 10%nat _ eq_refl), (E3 11%nat _ eq_refl), (E3 12%nat _ eq_refl), (E3 13%nat _ eq_refl). }
  clearbody data3. subst data3.
  eapply (ends_payment_update _ _ (show_customer text c data2)); [exact Hs4|done|exact Hnum|].
  intros cs c_data s5 Hcs Hdata Hs5.
  eapply (ends_payment_6 _ _ data); [exact Hs5|done|exact Hnum|].
  intros t amount info res4 s6 Hamount Hinfo E4 Hs6. eapply ends_ok; [exact Hs6|].
  unfold get_text. rewrite E4.
  exists w, d, c, text, n, ws, ds, cs, t, amount, info, c_data. split_and!; done.
Qed.
End execute.
