(* ===== verification/CrdbDelivery.v ===== *)
(** * Delivery, Order-Status and Stock-Level on CockroachDB *)

From Stdlib Require Import ZArith Lia SpecFloat String.
From stdpp Require Import base list sorting.
From S2P Require Import Prelude Double Text Common Wire Tables SpNewOrder SpPayment SpDelivery SpQueries SpConsistency TxnData Db Libpq PgServer LibpqServer Cockroach CrdbServer CrdbSpec CrdbPayment.

Section delivery.
Context {pg : Pg} {crdb : Crdb pg} {claws : CrdbLaws crdb} {laws : PgLaws pg}.
Context {S : Type} `{Libpq S} `{!CrdbServer S}.

(** ** What a delivery does

    One district: nothing to deliver, or its oldest new order.  The order must
    be there exactly once; its amount is the sum of its lines as the server
    prints it. *)
Inductive crdb_delivered (w_id carrier d_id : Z) (C : db) : db -> Prop :=
| crdb_skipped :
    (forall n, n ∈ t_new_order C -> is_new_order w_id d_id n = false) ->
    crdb_delivered w_id carrier d_id C C
| crdb_delivered_one t n o c_id amounts sum cs :
    n ∈ t_new_order C -> is_new_order w_id d_id n = true ->
    (forall m, m ∈ t_new_order C -> is_new_order w_id d_id m = true -> NO_O_ID n <= NO_O_ID m) ->
    List.filter (is_order (NO_O_ID n) w_id d_id) (t_orders C) = [o] ->
    int_in (snprintf (Size.C_ID_LEN + 1) (fmt_d (O_C_ID o))) = Some c_id ->
    amounts ≡ₚ map OL_AMOUNT (List.filter (is_line (NO_O_ID n) w_id d_id) (t_order_line C)) ->
    sum_text amounts = Some sum ->
    updated (is_customer w_id d_id c_id)
      (credit_customer (snprintf (Size.OL_AMOUNT_LEN + 1) (default [] sum))) (t_customer C) cs ->
    crdb_delivered w_id carrier d_id C
      (mk_db (t_warehouse C) (t_district C) cs (t_history C)
         (List.filter (fun r => negb ((NO_O_ID r =? NO_O_ID n) && is_new_order w_id d_id r))
            (t_new_order C))
         (map (fun r => if is_order (NO_O_ID n) w_id d_id r then set_carrier carrier r else r)
            (t_orders C))
         (map (fun r => if is_line (NO_O_ID n) w_id d_id r then set_delivery_d t r else r)
            (t_order_line C))
         (t_item C) (t_stock C)).

(** The districts one after another; [ds] counts from 0. *)
Inductive crdb_all_delivered (w_id carrier : Z) : list Z -> db -> db -> Prop :=
| crdb_all_nil C : crdb_all_delivered w_id carrier [] C C
| crdb_all_cons i ds C C' C'' :
    crdb_delivered w_id carrier (i + 1) C C' ->
    crdb_all_delivered w_id carrier ds C' C'' ->
    crdb_all_delivered w_id carrier (i :: ds) C C''.

Definition crdb_delivery_done (data : delivery_t) (D : db) (shown : delivery_t) (D' : db) : Prop :=
  shown = data
  /\ crdb_all_delivered (dl_w_id data) (dl_o_carrier_id data) (zrange 0 D_ID_MAX) D D'.

Definition new_order_keys (D : db) : Prop := forall n, n ∈ t_new_order D -> key (NO_O_ID n).

Lemma delivered_keys w carrier d C C' :
  crdb_delivered w carrier d C C' -> new_order_keys C -> new_order_keys C'.
Proof.
  intros Hd HC. destruct Hd as [_|]; [done|]. intros m. cbn.
  intros [_ Hm]%elem_of_list_filter_bool. auto.
Qed.

(** ** The statements *)

Section round.
Context (V0 : db) (Q : delivery_t -> db -> Prop) (data : delivery_t).
Context (Kw : key (dl_w_id data)) (Kc : key (dl_o_carrier_id data)).

Lemma ends_delivery_1 V s d_id k : in_block V0 V s -> key d_id ->
  (forall s1, (forall n, n ∈ t_new_order V -> is_new_order (dl_w_id data) d_id n = false) ->
     in_block V0 V s1 -> ends V0 Q (k (mk_PGresult PGRES_TUPLES_OK [] None) s1)) ->
  (forall n res s1, n ∈ t_new_order V -> is_new_order (dl_w_id data) d_id n = true ->
     (forall m, m ∈ t_new_order V -> is_new_order (dl_w_id data) d_id m = true -> NO_O_ID n <= NO_O_ID m) ->
     (PQntuples res =? 0) = false -> PQgetvalue res 0 0 = fmt_d (NO_O_ID n) ->
     in_block V0 V s1 -> ends V0 Q (k res s1)) ->
  ends V0 Q (query Cockroach.DELIVERY_1 [int_text 10 (dl_w_id data); int_text 10 d_id] data s k).
Proof.
  intros Hs Kd Hnone Hone. eapply ends_query; [exact Hs|reflexivity|]. intros t. unfold delivery_1.
  int_args. apply wp_bind, wp_bind, wp_select, wp_ret, wp_rows. intros rs s1 [= <-] Hs1. cbn [current] in *.
  destruct (order_by older _) as [|n l] eqn:Hl; cbn [take map].
  - apply Hnone; [|done]. intros n Hn. eapply arrange_nil; [|done]. by eapply order_by_nil.
  - assert (Hhead := f_equal head Hl).
    apply order_by_head in Hhead as [Hin Hmin]; [|apply older_total|apply older_trans].
    rewrite elem_of_arrange, elem_of_list_filter_bool in Hin. destruct Hin as [Hkey Hn].
    eapply Hone; [exact Hn|exact Hkey| |done|done|done]. intros m Hm Hmk. apply Z.leb_le, Hmin.
    by rewrite elem_of_arrange, elem_of_list_filter_bool.
Qed.

(** Exactly one order is changed. *)
Lemma ends_delivery_3 V s o_id d_id k : in_block V0 V s -> key d_id -> key o_id ->
  (forall res s1, (PQntuples res =? 1) = false -> committed (crdb_server_of s1) = V0 ->
     ends V0 Q (k res s1)) ->
  (forall o res s1, List.filter (is_order o_id (dl_w_id data) d_id) (t_orders V) = [o] ->
     (PQntuples res =? 1) = true -> PQgetvalue res 0 0 = fmt_d (O_C_ID o) ->
     in_block V0 (set_orders (map (fun r => if is_order o_id (dl_w_id data) d_id r
                                            then set_carrier (dl_o_carrier_id data) r else r)
                                (t_orders V)) V) s1 -> ends V0 Q (k res s1)) ->
  ends V0 Q (query Cockroach.DELIVERY_3 [int_text 10 (dl_o_carrier_id data); fmt_d o_id;
               int_text 10 (dl_w_id data); int_text 10 d_id] data s k).
Proof.
  intros Hs Kd Ko Hmany Hone. eapply ends_query; [exact Hs|reflexivity|]. intros t. unfold delivery_3.
  int_args. apply wp_bind. unfold SpDelivery.DELIVERY_3.
  apply (wp_update _ _ _ _ _ (set_carrier (dl_o_carrier_id data))); [by intros r r' _ _ [= <-]| |by intros r _ _ [=]].
  intros _. apply wp_rows. intros rs s1 [= <-] Hs1. cbn [current] in *.
  assert (Hp := arrange_perm _ (map (set_carrier (dl_o_carrier_id data))
                  (List.filter (is_order o_id (dl_w_id data) d_id) (t_orders V)))).
  destruct (List.filter (is_order o_id (dl_w_id data) d_id) (t_orders V)) as [|o [|o2 l]]; cbn [map] in *.
  - symmetry in Hp. apply Permutation_nil in Hp. rewrite Hp. apply Hmany; [done|].
    by eapply in_block_committed.
  - symmetry in Hp. apply Permutation_length_1_inv in Hp. rewrite Hp. by eapply Hone.
  - apply Hmany; [|by eapply in_block_committed]. apply Permutation_length in Hp.
    unfold PQntuples, zlen. cbn [res_tuples]. rewrite length_map, Hp. apply Z.eqb_neq. cbn. lia.
Qed.

(** The sum of the amounts, once the lines are delivered. *)
Lemma ends_delivery_5 V s t0 o_id d_id k : in_block V0 (set_order_line
    (map (fun r => if is_line o_id (dl_w_id data) d_id r then set_delivery_d t0 r else r)
       (t_order_line V)) V) s -> key d_id -> key o_id ->
  (forall amounts sum res s1,
     amounts ≡ₚ map OL_AMOUNT (List.filter (is_line o_id (dl_w_id data) d_id) (t_order_line V)) ->
     sum_text amounts = Some sum -> PQgetvalue res 0 0 = default [] sum ->
     in_block V0 (set_order_line
       (map (fun r => if is_line o_id (dl_w_id data) d_id r then set_delivery_d t0 r else r)
          (t_order_line V)) V) s1 -> ends V0 Q (k res s1)) ->
  ends V0 Q (query Cockroach.DELIVERY_5 [fmt_d o_id; int_text 10 (dl_w_id data); int_text 10 d_id] data s k).
Proof.
  intros Hs Kd Ko Hk. eapply ends_query; [exact Hs|reflexivity|]. intros t. unfold delivery_5.
  int_args. apply wp_bind, wp_select, wp_bind, wp_any_arg. intros sum Hsum. apply wp_rows.
  intros rs s1 [= <-] Hs1. cbn [current t_order_line set_order_line] in *.
  eapply Hk; [|exact Hsum|by destruct sum|exact Hs1].
  set (p := is_line o_id (dl_w_id data) d_id).
  rewrite arrange_perm, filter_map_key by (intros x; unfold p; by destruct (is_line _ _ _ x) eqn:Hx).
  rewrite (map_map_key OL_AMOUNT); [done|]. intros x. by destruct (p x).
Qed.

Lemma ends_deliver_district V s i k : in_block V0 V s -> 0 <= i < 10 -> new_order_keys V ->
  (forall V' s1, crdb_delivered (dl_w_id data) (dl_o_carrier_id data) (i + 1) V V' ->
     in_block V0 V' s1 -> ends V0 Q (k s1)) ->
  ends V0 Q (deliver_district_cockroach data i s k).
Proof.
  intros Hs Hi HV Hk. unfold deliver_district_cockroach.
  change (int_text Size.W_ID_LEN) with (int_text 10). change (int_text Size.D_ID_LEN) with (int_text 10).
  change (int_text Size.O_CARRIER_ID_LEN) with (int_text 10). cbv zeta.
  assert (Kd : key (i + 1)) by (unfold key; lia).
  apply (ends_delivery_1 V); [exact Hs|done| |].
  { intros s1 Hnone Hs1. cbn. eapply Hk; [by apply crdb_skipped|done]. }
  intros n res1 s1 Hn Hkey Hmin Hne E1 Hs1. rewrite Hne. unfold get_text at 1 2 3 4 5. rewrite E1.
  specialize (HV n Hn) as Kn. change (Size.O_ID_LEN + 1) with (10 + 1). rewrite text_of_key by done.
  eapply ends_command; [exact Hs1|reflexivity|]. intros t2. unfold delivery_2. int_args.
  apply wp_bind, wp_delete, wp_ret. intros s2 Hs2. cbn [current] in *.
  match type of Hs2 with in_block _ ?W _ => apply (ends_delivery_3 W) end; [exact Hs2|done..| |].
  { intros res3 s3 -> Hs3. by apply ends_error. }
  intros o res3 s3 Ho -> E3 Hs3. cbn [negb]. unfold get_text. rewrite E3. cbn [t_orders set_new_order] in *.
  eapply ends_command; [exact Hs3|reflexivity|]. intros t4. unfold delivery_4. int_args.
  apply wp_bind. unfold SpDelivery.DELIVERY_5. apply wp_bind, wp_timestamp.
  apply (wp_update _ _ _ _ _ (set_delivery_d t4)); [by intros r r' _ _ [= <-]| |by intros r _ _ [=]].
  intros _. apply wp_ret. intros s4 Hs4. cbn [current] in *.
  match type of Hs3 with in_block _ ?W _ => eapply (ends_delivery_5 W) end; [exact Hs4|done..|].
  intros amounts sum res5 s5 Hamounts Hsum E5 Hs5. rewrite E5.
  eapply ends_command; [exact Hs5|reflexivity|]. intros t6. unfold delivery_6.
  any_arg. intros ? [= <-]. any_arg. intros c_id Hc_id. int_args.
  apply wp_bind, wp_updates. intros cs Hcs. apply wp_ret. intros s6 Hs6. cbn [current] in *.
  eapply Hk; [|exact Hs6]. by eapply (crdb_delivered_one _ _ _ V t4 n o).
Qed.

Lemma ends_deliver_districts ds : forall V s, in_block V0 V s -> Forall (fun i => 0 <= i < 10) ds ->
  new_order_keys V ->
  (forall V', crdb_all_delivered (dl_w_id data) (dl_o_carrier_id data) ds V V' -> Q data V') ->
  ends V0 Q (deliver_districts_cockroach data ds s).
Proof.
  induction ds as [|i ds IH]; intros V s Hs Hds HV HQ; cbn [deliver_districts_cockroach].
  - eapply ends_ok; [exact Hs|]. apply HQ. constructor.
  - apply Forall_cons in Hds as [Hi Hds]. eapply ends_deliver_district; [exact Hs|done..|].
    intros V' s1 Hd Hs1. eapply IH; [exact Hs1|done|by eapply delivered_keys|].
    intros V'' Hds'. apply HQ. by econstructor.
Qed.
End round.

Lemma execute_delivery_crdb data s :
  key (dl_w_id data) -> key (dl_o_carrier_id data) -> no_work (crdb_server_of s) ->
  new_order_keys (committed (crdb_server_of s)) ->
  ends (committed (crdb_server_of s)) (crdb_delivery_done data (committed (crdb_server_of s)))
    (execute_delivery_cockroach data s).
Proof.
  intros Kw Kc Hn HV. unfold execute_delivery_cockroach. apply ends_begin; [done..|].
  intros s0 Hs0. eapply ends_deliver_districts; [done..| |done|by split].
  apply Forall_forall. intros i Hi%elem_of_zrange. unfold D_ID_MAX in Hi. lia.
Qed.
End delivery.
