(* ===== verification/CrdbQueries.v ===== *)
(** * Order-Status and Stock-Level on CockroachDB: what they show *)

From Stdlib Require Import ZArith Lia SpecFloat String.
From stdpp Require Import base list sorting.
From S2P Require Import Prelude Double Text Common Wire Tables SpNewOrder SpPayment SpDelivery SpQueries SpConsistency TxnData Db Libpq PgServer LibpqServer Cockroach CrdbServer CrdbSpec CrdbPayment.

Section queries.
Context {pg : Pg} {crdb : Crdb pg} {claws : CrdbLaws crdb} {laws : PgLaws pg}.
Context {S : Type} `{Libpq S} `{!CrdbServer S}.

(** ** What is shown *)

Definition show_os_customer (c_id : bytes) (c : customer_row) (data : order_status_t) : order_status_t :=
  set_os_customer (strncpy (C_FIRST c) (4 * (Size.C_FIRST_LEN + 1) - 1))
    (strncpy (C_MIDDLE c) Size.C_MIDDLE_LEN)
    (mbstowcs (os_c_last data) (C_LAST c) (Size.C_LAST_LEN + 1))
    (atof (numeric_out (C_BALANCE c))) (set_os_c_id (atoi c_id) data).

(** NULL shows as 0, or as an empty text. *)
Definition show_os_order (o : orders_row) : order_status_t -> order_status_t :=
  set_os_order (O_ID o) (atoi (from_option fmt_d [] (O_CARRIER_ID o)))
    (strncpy (timestamp_out (O_ENTRY_D o)) Size.O_ENTRY_D_LEN).

Definition show_os_line (l : order_line_row) : os_order_line_t :=
  mk_os_order_line (atoi (fmt_d (OL_I_ID l))) (atoi (fmt_d (OL_SUPPLY_W_ID l)))
    (atoi (float4out (OL_QUANTITY l))) (atof (float4out (OL_AMOUNT l)))
    (strncpy (from_option timestamp_out [] (OL_DELIVERY_D l)) Size.OL_DELIVERY_D_LEN).

Definition crdb_order_status_done (data : order_status_t) (D : db) (shown : order_status_t) (D' : db)
  : Prop :=
  D' = D /\ exists text n c o lines,
    crdb_chosen (os_c_w_id data) (os_c_d_id data) (os_c_id data)
      (wcstombs (os_c_last data) (4 * (Size.C_LAST_LEN + 1))) D text
    /\ int_in text = Some n
    /\ c ∈ t_customer D /\ is_customer (os_c_w_id data) (os_c_d_id data) n c = true
    /\ o ∈ t_orders D /\ orders_of_customer (os_c_w_id data) (os_c_d_id data) n o = true
    /\ (forall o', o' ∈ t_orders D -> orders_of_customer (os_c_w_id data) (os_c_d_id data) n o' = true ->
        O_ID o' <= O_ID o)
    /\ lines ≡ₚ List.filter (is_line (O_ID o) (os_c_w_id data) (os_c_d_id data)) (t_order_line D)
    /\ lines <> []
    /\ shown = set_os_lines (Z.min O_OL_CNT_MAX (zlen lines))
                 (map show_os_line (take 15 lines)
                  ++ drop (Nat.min 15 (List.length lines)) (os_order_line data))
                 (show_os_order o (show_os_customer text c data)).

Definition crdb_stock_level_done (data : stock_level_t) (D : db) (shown : stock_level_t) (D' : db)
  : Prop :=
  D' = D /\ exists d,
    d ∈ t_district D /\ D_W_ID d = sl_w_id data /\ D_ID d = sl_d_id data
    /\ shown = mk_stock_level (sl_w_id data) (sl_d_id data) (sl_threshold data)
         (atoi (fmt_d (zlen (List.filter
           (fun st => below (sl_w_id data) (int_text Size.THRESHOLD_LEN (sl_threshold data)) st
              && existsb (fun l => recent_line (sl_w_id data) (sl_d_id data) (D_NEXT_O_ID d - 20)
                                     (D_NEXT_O_ID d - 1) l && (OL_I_ID l =? S_I_ID st))
                   (t_order_line D)) (t_stock D))))).

(** ** Order-Status *)

Section order_status.
Context (V0 : db) (Q : order_status_t -> db -> Prop) (data : order_status_t).
Context (w_id d_id : Z) (Kw : key w_id) (Kd : key d_id).

Lemma ends_order_status_2 V s text k : in_block V0 V s ->
  (forall c n res s1, int_in text = Some n -> c ∈ t_customer V -> is_customer w_id d_id n c = true ->
     (forall j v, [C_FIRST c; C_MIDDLE c; C_LAST c; numeric_out (C_BALANCE c)] !! j = Some v ->
        PQgetvalue res 0 j = v) ->
     in_block V0 V s1 -> ends V0 Q (k res s1)) ->
  ends V0 Q (query_row Cockroach.ORDER_STATUS_2 [int_text 10 w_id; int_text 10 d_id; text] data s k).
Proof.
  intros Hs Hk. eapply ends_query_row; [exact Hs|reflexivity|]. intros t. unfold order_status_2.
  int_args. any_arg. intros n Hn. apply wp_bind, wp_select, wp_rows.
  intros rs s1 [= <-] Hne Hs1. cbn [current] in *. revert Hne.
  destruct (arrange (List.filter _ (t_customer V))) as [|c cs] eqn:Hl; [done|]. intros _.
  assert (Hc : c ∈ t_customer V /\ is_customer w_id d_id n c = true) by (apply arrange_head; by rewrite Hl).
  destruct Hc as [Hc Hkey]. eapply Hk; [exact Hn|exact Hc|exact Hkey| |exact Hs1]. intros j v Hj.
  do 4 (destruct j as [|j]; [by injection Hj as <-|]); done.
Qed.

Lemma crdb_newer_total x y : newer x y = true \/ newer y x = true.
Proof. unfold newer. rewrite !Z.leb_le. lia. Qed.

Lemma crdb_newer_trans x y z : newer x y = true -> newer y z = true -> newer x z = true.
Proof. unfold newer. rewrite !Z.leb_le. lia. Qed.

Lemma ends_order_status_3 V s text n k : in_block V0 V s -> int_in text = Some n ->
  (forall o res s1, o ∈ t_orders V -> orders_of_customer w_id d_id n o = true ->
     (forall o', o' ∈ t_orders V -> orders_of_customer w_id d_id n o' = true -> O_ID o' <= O_ID o) ->
     PQgetvalue res 0 0 = fmt_d (O_ID o) -> PQgetvalue res 0 1 = from_option fmt_d [] (O_CARRIER_ID o) ->
     PQgetvalue res 0 2 = timestamp_out (O_ENTRY_D o) -> in_block V0 V s1 -> ends V0 Q (k res s1)) ->
  ends V0 Q (query_row Cockroach.ORDER_STATUS_3 [int_text 10 w_id; int_text 10 d_id; text] data s k).
Proof.
  intros Hs Hn Hk. eapply ends_query_row; [exact Hs|reflexivity|]. intros t. unfold order_status_3.
  int_args. known_arg Hn. apply wp_bind, wp_bind, wp_select, wp_ret, wp_rows.
  intros rs s1 [= <-] Hne Hs1. cbn [current] in *. revert Hne.
  destruct (order_by newer _) as [|o l] eqn:Hl; [done|]. intros _.
  assert (Hhead := f_equal head Hl).
  apply order_by_head in Hhead as [Hin Hmin]; [|apply crdb_newer_total|apply crdb_newer_trans].
  rewrite elem_of_arrange, elem_of_list_filter_bool in Hin. destruct Hin as [Hkey Ho].
  eapply Hk; [exact Ho|exact Hkey| |done| |done|exact Hs1].
  - intros o' Ho' Hk'. apply Z.leb_le. apply (Hmin o'). by rewrite elem_of_arrange, elem_of_list_filter_bool.
  - change (PQgetvalue _ 0 1) with (default [] (fmt_d <$> O_CARRIER_ID o)). by destruct (O_CARRIER_ID o).
Qed.

Lemma ends_order_status_4 V s o_id k : in_block V0 V s -> key o_id ->
  (forall lines res s1, lines ≡ₚ List.filter (is_line o_id w_id d_id) (t_order_line V) -> lines <> [] ->
     PQntuples res = zlen lines ->
     (forall i l, lines !! i = Some l -> get_os_line res i = show_os_line l) ->
     in_block V0 V s1 -> ends V0 Q (k res s1)) ->
  ends V0 Q (query_row Cockroach.ORDER_STATUS_4 [int_text 10 w_id; int_text 10 d_id; fmt_d o_id] data s k).
Proof.
  intros Hs Ko Hk. eapply ends_query_row; [exact Hs|reflexivity|]. intros t. unfold order_status_4.
  int_args. apply wp_bind, wp_select, wp_rows. intros rs s1 [= <-] Hne Hs1. cbn [current] in *.
  eapply Hk; [apply arrange_perm| | | |exact Hs1].
  - intros Hnil. by rewrite Hnil in Hne.
  - unfold PQntuples, zlen. cbn [res_tuples]. by rewrite length_map.
  - intros i l Hl. unfold get_os_line, get_int, get_float, get_text, show_os_line.
    erewrite !(get_field _ _ l i) by (exact Hl || reflexivity). f_equal.
    unfold PQgetvalue, field_value. cbn. change (map ?f ?l) with (f <$> l).
    rewrite list_lookup_fmap, Hl. cbn. by destruct (OL_DELIVERY_D l).
Qed.
End order_status.

Lemma overwrite_lines {L R} (f : nat -> L) (g : R -> L) (lines : list R) (old : list L) k :
  (forall i l, lines !! i = Some l -> f i = g l) -> (k <= List.length lines)%nat ->
  overwrite f k old = map g (take k lines) ++ drop k old.
Proof.
  intros Hf Hk. unfold overwrite. f_equal. apply list_eq. intros i.
  change (map ?f ?l) with (f <$> l). rewrite !list_lookup_fmap.
  destruct (decide (i < k)%nat) as [Hi|Hi].
  - rewrite lookup_seq_lt, lookup_take_lt by done. cbn.
    destruct (lines !! i) as [l|] eqn:Hl; [by rewrite (Hf i l)|]. apply lookup_ge_None in Hl. lia.
  - rewrite (lookup_ge_None_2 (seq 0 k)), (lookup_ge_None_2 (take k lines));
      rewrite ?length_seq, ?length_take; done || lia.
Qed.

Lemma min_ltb a b : (if a <? b then a else b) = Z.min a b.
Proof. destruct (Z.ltb_spec a b); lia. Qed.

Lemma overwrite_min {L R} (f : nat -> L) (g : R -> L) (lines : list R) (old : list L) :
  (forall i l, lines !! i = Some l -> f i = g l) ->
  overwrite f (Z.to_nat (Z.min O_OL_CNT_MAX (zlen lines))) old
  = map g (take 15 lines) ++ drop (Nat.min 15 (List.length lines)) old.
Proof.
  intros Hf. unfold O_OL_CNT_MAX, zlen.
  replace (Z.to_nat (Z.min 15 (Z.of_nat (List.length lines)))) with (Nat.min 15 (List.length lines)) by lia.
  rewrite (overwrite_lines f g lines) by (done || lia). do 2 f_equal.
  destruct (Nat.min_spec 15 (List.length lines)) as [[_ ->]|[Hle ->]]; [done|].
  by rewrite !take_ge.
Qed.

Lemma get_text_field n res i j v : PQgetvalue res i j = v -> get_text n res i j = snprintf n v.
Proof. by intros <-. Qed.

Definition order_keys (D : db) : Prop := forall o, o ∈ t_orders D -> key (O_ID o).

Lemma execute_order_status_crdb data s :
  key (os_c_w_id data) -> key (os_c_d_id data) -> no_work (crdb_server_of s) ->
  order_keys (committed (crdb_server_of s)) ->
  ends (committed (crdb_server_of s)) (crdb_order_status_done data (committed (crdb_server_of s)))
    (execute_order_status_cockroach data s).
Proof.
  intros Kw Kd Hn HV. set (V := committed _) in *. unfold execute_order_status_cockroach.
  change (int_text Size.W_ID_LEN) with (int_text 10). change (int_text Size.D_ID_LEN) with (int_text 10).
  cbv zeta. apply ends_begin; [done..|]. intros s0 Hs0.
  assert (Hcustomer : forall k Q,
    (forall text s1, crdb_chosen (os_c_w_id data) (os_c_d_id data) (os_c_id data)
       (wcstombs (os_c_last data) (4 * (Size.C_LAST_LEN + 1))) V text ->
     in_block V V s1 -> ends V Q (k text s1)) -> ends V Q (order_status_customer data s0 k)).
  { intros k Q Hk. unfold order_status_customer, crdb_chosen in *.
    destruct (os_c_id data =? 0); [|by apply Hk].
    apply (ends_by_name V Q data V s0 (os_c_w_id data) (os_c_d_id data)); done. }
  apply Hcustomer. clear Hcustomer. intros text s1 Htext Hs1.
  eapply ends_order_status_2; [done..|exact Hs1|]. intros c n res2 s2 Hnum Hc Hck E2 Hs2.
  eapply ends_order_status_3; [done..|exact Hs2|exact Hnum|].
  intros o res3 s3 Ho Hok Hmax F0 F1 F2 Hs3.
  specialize (HV o Ho) as Ko. rewrite (get_text_field _ _ _ _ _ F0).
  change (Size.O_ID_LEN + 1) with (10 + 1). rewrite text_of_key by done.
  eapply ends_order_status_4; [done..|exact Hs3|exact Ko|]. intros lines res4 s4 Hl Hne Hcnt Hlines Hs4.
  eapply ends_ok; [exact Hs4|]. split; [done|]. exists text, n, c, o, lines.
  split_and!; try done. rewrite Hcnt, Z.gtb_ltb, min_ltb, (overwrite_min _ show_os_line lines) by done.
  unfold get_text, get_int, get_float. rewrite F0, F1, F2.
  rewrite (E2 0%nat _ eq_refl), (E2 1%nat _ eq_refl), (E2 2%nat _ eq_refl), (E2 3%nat _ eq_refl).
  by rewrite atoi_fmt_d by (unfold key in Ko; lia).
Qed.

(** ** Stock-Level *)

Lemma int12_text z : - 2 ^ 31 <= z < 2 ^ 31 -> snprintf (Size.OL_O_ID_LEN + 2) (fmt_d z) = fmt_d z.
Proof.
  intros Hz. unfold snprintf, strncpy. apply take_ge.
  assert (Hd : (List.length (dec (Z.abs z)) <= 10)%nat).
  { apply (length_dec 9). change (Z.of_nat 10) with 10. lia. }
  change (Z.to_nat (Size.OL_O_ID_LEN + 2 - 1)) with 11%nat.
  unfold fmt_d. destruct (Z.ltb_spec z 0).
  - rewrite Z.abs_neq in Hd by lia. rewrite length_app. change (List.length (lit "-")) with 1%nat. lia.
  - rewrite Z.abs_eq in Hd by lia. lia.
Qed.

Lemma execute_stock_level_crdb data s :
  key (sl_w_id data) -> key (sl_d_id data) -> no_work (crdb_server_of s) ->
  (forall d, d ∈ t_district (committed (crdb_server_of s)) -> key (D_NEXT_O_ID d)) ->
  ends (committed (crdb_server_of s)) (crdb_stock_level_done data (committed (crdb_server_of s)))
    (execute_stock_level_cockroach data s).
Proof.
  intros Kw Kd Hn HV. set (V := committed _) in *. unfold execute_stock_level_cockroach.
  change (int_text Size.W_ID_LEN) with (int_text 10). change (int_text Size.D_ID_LEN) with (int_text 10).
  cbv zeta. apply ends_begin; [done..|]. intros s0 Hs0.
  eapply ends_query_row; [exact Hs0|reflexivity|]. intros t1. unfold stock_level_1. int_args.
  apply wp_bind, wp_select, wp_rows. intros rs s1 [= <-] Hne Hs1. cbn [current] in *. revert Hne.
  destruct (arrange (List.filter _ (t_district V))) as [|d ds] eqn:Hl; [done|]. intros _.
  assert (Hd : d ∈ t_district V /\ (D_W_ID d =? sl_w_id data) && (D_ID d =? sl_d_id data) = true).
  { apply (arrange_head (fun r => (D_W_ID r =? sl_w_id data) && (D_ID r =? sl_d_id data))). by rewrite Hl. }
  destruct Hd as [Hd Hdk]. apply andb_true_iff in Hdk as [Hd1%Z.eqb_eq Hd2%Z.eqb_eq].
  set (res := mk_PGresult _ _ _).
  assert (E : get_int res 0 0 = D_NEXT_O_ID d).
  { change (get_int res 0 0) with (atoi (fmt_d (D_NEXT_O_ID d))). apply atoi_fmt_d.
    specialize (HV d Hd). unfold key in HV. lia. }
  rewrite E. clear E res. specialize (HV d Hd) as Kn. unfold key in Kn.
  rewrite !i32_small, !int12_text by lia.
  eapply ends_query_row; [exact Hs1|reflexivity|]. intros t2. unfold stock_level_2. int_args.
  any_arg. intros ? [= <-]. do 2 (apply wp_bind; eapply wp_int32_arg; [reflexivity|lia|]).
  do 2 apply wp_bind, wp_select. apply wp_rows. intros rs s2 [= <-] _ Hs2. cbn [current] in *.
  eapply ends_ok; [exact Hs2|]. split; [done|]. exists d. split_and!; try done. f_equal.
  set (items := remove_dups _). set (stocks := arrange _).
  change (get_int _ 0 0) with (atoi (fmt_d (zlen (items ≫= fun i => List.filter (fun s => S_I_ID s =? i) stocks)))).
  do 2 f_equal. apply join_count.
Qed.
End queries.
