(* ===== verification/CrdbTheorems.v ===== *)
(** * The client against a CockroachDB server

    Whole transactions, as [process_transaction] runs them over
    [cockroach_ops]: what is stored, that the consistency conditions are kept, and
    what happens once a connection is lost. *)

From Stdlib Require Import ZArith Lia SpecFloat String.
From stdpp Require Import base list relations sorting.
From S2P Require Import Prelude Double Text Common Wire Tables SpNewOrder SpPayment SpDelivery SpQueries SpConsistency TxnData InputData Db Libpq PgServer LibpqServer Cockroach CrdbServer CrdbSpec CrdbNewOrder CrdbPayment CrdbDelivery CrdbQueries.

Section crdb.
Context {pg : Pg} {crdb : Crdb pg} {claws : CrdbLaws crdb} {laws : PgLaws pg}.

(** ** What a transaction does to the database *)

Definition crdb_done (td : transaction_data_t) (D : db) (td' : transaction_data_t) (D' : db) : Prop :=
  match td, td' with
  | TD_new_order d, TD_new_order d' =>
      exists shown, crdb_new_order_done (localized d) D shown D'
        /\ d' = set_total_amount (adjusted_total shown) shown
  | TD_payment d, TD_payment d' => crdb_payment_done d D d' D'
  | TD_delivery d, TD_delivery d' => crdb_delivery_done d D d' D'
  | TD_order_status d, TD_order_status d' => crdb_order_status_done d D d' D'
  | TD_stock_level d, TD_stock_level d' => crdb_stock_level_done d D d' D'
  | _, _ => False
  end.

(** What terminals ask for: ten-digit keys, an order of one to fifteen lines. *)
Definition crdb_ok (td : transaction_data_t) : Prop :=
  match td with
  | TD_new_order d => crdb_well_formed d
  | TD_payment d => payment_keys d
  | TD_delivery d => key (dl_w_id d) /\ key (dl_o_carrier_id d)
  | TD_order_status d => key (os_c_w_id d) /\ key (os_c_d_id d)
  | TD_stock_level d => key (sl_w_id d) /\ key (sl_d_id d)
  | TD_integrity _ => True
  end.

(** The order counters can still count [n] orders. *)
Definition room (n : Z) (D : db) : Prop :=
  forall d, d ∈ t_district D -> D_NEXT_O_ID d + n < 2 ^ 31.

Lemma room_le n m D : m <= n -> room n D -> room m D.
Proof. intros Hle Hr d Hd. specialize (Hr d Hd). lia. Qed.

(** *** New-Order keeps the conditions *)

Lemma crdb_lines_rows items w d o i lines rows shown st st' :
  crdb_lines_done items w d o i lines rows shown st st' ->
  map OL_NUMBER rows = zrange (Z.of_nat i + 1) (Z.of_nat i + 1 + zlen lines)
  /\ (forall r, r ∈ rows ->
      OL_O_ID r = o /\ OL_W_ID r = w /\ OL_D_ID r = d /\ OL_DELIVERY_D r = None)
  /\ map ol_i_id shown = map ol_i_id lines /\ map ol_supply_w_id shown = map ol_supply_w_id lines.
Proof.
  induction 1 as [i st|i line lines row rows l shown st st1 st2 Hl _ (IH1 & IH2 & IH3 & IH4)].
  - split_and!; [by rewrite zrange_nil by (unfold zlen; cbn; lia)|by intros ? ?%not_elem_of_nil|done|done].
  - destruct (cl_key _ _ _ _ _ _ _ _ _ _ Hl) as (K1 & K2 & K3 & K4 & _ & _ & K5).
    destruct (cl_rows _ _ _ _ _ _ _ _ _ _ Hl) as (item & stock & amount & _ & _ & _ & _ & _ & _ & _ & _ & Hs & _).
    split_and!.
    + cbn [map]. rewrite IH1, K4, zlen_cons, (zrange_cons (Z.of_nat i + 1)) by (unfold zlen; lia).
      do 2 f_equal; lia.
    + intros r [->|Hr]%elem_of_cons; auto.
    + cbn [map]. by rewrite IH3, Hs.
    + cbn [map]. by rewrite IH4, Hs.
Qed.

Lemma new_order_done_consistent data D shown D' : crdb_well_formed data ->
  crdb_new_order_done data D shown D' -> consistent D -> room 1 D ->
  consistent D' /\ forall n, room (n + 1) D -> room n D'.
Proof.
  intros (_ & _ & _ & Hcnt & Hlen & _)
    (w & d & c & rows & lines & st' & t & al & _ & _ & Hd & Hdw & Hdd & _ & _ & _ & Hl & _ & ->) HD Hroom.
  apply crdb_lines_rows in Hl as (Hnum & Hrows & _).
  assert (Hz : zlen (take (Z.to_nat (no_o_ol_cnt data)) (no_order_line data)) = no_o_ol_cnt data).
  { unfold zlen. rewrite length_take. lia. }
  rewrite Hz in Hnum. split.
  - unfold bump_next. rewrite <- Hdw, <- Hdd in *. apply consistent_insert_order; try done; [by apply Hroom|lia|].
    rewrite Hnum. f_equal. lia.
  - intros n Hn d' (r & -> & Hr)%list_elem_of_fmap. specialize (Hn r Hr). pose proof (c_next D HD r Hr).
    unfold bump_next. destruct (_ && _); cbn; lia.
Qed.

(** *** The other transactions keep them *)

Lemma payment_done_consistent data D shown D' : crdb_payment_done data D shown D' -> consistent D ->
  consistent D' /\ forall n, room n D -> room n D'.
Proof.
  intros (w & d & c & text & n & ws & ds & cs & t & amount & info & c_data & _ & _ & _ & _ & _ & _ & _ & _
          & _ & [Hall Hds] & _ & _ & _ & _ & _ & ->) HD.
  set (f r := if is_district (pa_d_id data) (pa_w_id data) r
              then default r (pay_district (amount_text data) r) else r) in *.
  assert (Hf : forall r, D_W_ID (f r) = D_W_ID r /\ D_ID (f r) = D_ID r /\ D_NEXT_O_ID (f r) = D_NEXT_O_ID r).
  { intros r. unfold f. destruct (is_district _ _ r); [|done]. unfold pay_district. by destruct (numeric_add_text _ _). }
  split; [by eapply consistent_frame; [exact Hf|exact Hds|..]|].
  intros m Hm d'. cbn. rewrite Hds. intros (r & -> & Hr)%list_elem_of_fmap.
  destruct (Hf r) as (_ & _ & ->). by apply Hm.
Qed.

Lemma all_delivered_done_consistent w carrier ds C C' : crdb_all_delivered w carrier ds C C' -> consistent C ->
  consistent C' /\ forall n, room n C -> room n C'.
Proof.
  induction 1 as [C|i ds C C1 C2 Hd _ IH]; intros HC; [done|].
  assert (H1 : consistent C1 /\ forall n, room n C -> room n C1).
  { destruct Hd as [_|t n o c_id amounts sum cs Hn Hk Hmin _ _ _ _ _]; [done|]. split; [|done].
    by eapply (order_delivered_consistent C). }
  destruct (IH (proj1 H1)) as [H2 H3]. split; [done|]. intros n Hn. apply H3, H1, Hn.
Qed.

Lemma localized_well_formed d : crdb_well_formed d -> crdb_well_formed (localized d).
Proof. by destruct d. Qed.

Lemma crdb_done_consistent td D td' D' : crdb_ok td -> crdb_done td D td' D' -> consistent D -> room 1 D ->
  consistent D' /\ forall n, room (n + 1) D -> room n D'.
Proof.
  intros Hok Hd HD Hr.
  assert (Hle : forall X, (consistent X /\ forall n, room n D -> room n X) ->
    consistent X /\ forall n, room (n + 1) D -> room n X).
  { intros X [H1 H2]. split; [done|]. intros n Hn. apply H2. eapply room_le; [|exact Hn]. lia. }
  destruct td, td'; try done; cbn in Hd.
  - apply Hle. destruct Hd as [_ Hd]. by eapply all_delivered_done_consistent.
  - destruct Hd as (shown & Hd & _). by eapply new_order_done_consistent; [apply localized_well_formed, Hok|..].
  - apply Hle. by destruct Hd as [-> _].
  - apply Hle. by eapply payment_done_consistent.
  - apply Hle. by destruct Hd as [-> _].
Qed.

(** *** What is shown can be asked again *)

Lemma Forall_keys (l l' : list no_order_line_t) :
  map ol_i_id l = map ol_i_id l' -> map ol_supply_w_id l = map ol_supply_w_id l' ->
  Forall (fun x => key (ol_i_id x) /\ key (ol_supply_w_id x)) l' ->
  Forall (fun x => key (ol_i_id x) /\ key (ol_supply_w_id x)) l.
Proof.
  revert l'. induction l as [|x l IH]; intros [|y l'] H1 H2 Hl; try done.
  injection H1 as E1 H1. injection H2 as E2 H2. apply Forall_cons in Hl as [[K1 K2] Hl].
  constructor; [by rewrite E1, E2|]. by eapply IH.
Qed.

Lemma show_lines_keys shown : forall i data,
  Forall (fun l => key (ol_i_id l) /\ key (ol_supply_w_id l)) shown ->
  Forall (fun l => key (ol_i_id l) /\ key (ol_supply_w_id l)) (no_order_line data) ->
  Forall (fun l => key (ol_i_id l) /\ key (ol_supply_w_id l)) (no_order_line (show_lines i shown data)).
Proof.
  induction shown as [|l shown IH]; intros i data Hs Hd; [done|]. apply Forall_cons in Hs as [Hl Hs].
  apply IH; [done|]. cbn. by apply Forall_insert.
Qed.

Lemma show_lines_ids shown : forall i data,
  no_d_id (show_lines i shown data) = no_d_id data /\ no_c_id (show_lines i shown data) = no_c_id data.
Proof.
  induction shown as [|l shown IH]; intros i data; [done|].
  exact (IH (Datatypes.S i) (set_no_line i l (set_no_total (dadd (no_total_amount data) (ol_amount l)) data))).
Qed.

Lemma new_order_done_ok data D shown D' : crdb_well_formed data -> crdb_new_order_done data D shown D' ->
  crdb_well_formed shown.
Proof.
  intros (Kw & Kd & Kc & Hcnt & Hlen & Hlines)
    (w & d & c & rows & lines & st' & t & al & _ & _ & _ & _ & _ & _ & _ & _ & Hl & -> & _).
  apply crdb_lines_rows in Hl as (_ & _ & E1 & E2). unfold crdb_well_formed.
  set (data1 := set_no_customer _ _ _ _).
  destruct (show_lines_inputs 0 lines data1) as (-> & _ & _ & -> & ->).
  destruct (show_lines_ids lines 0 data1) as [-> ->].
  refine (conj Kw (conj Kd (conj Kc (conj Hcnt (conj Hlen _))))).
  apply show_lines_keys; [|done]. eapply Forall_keys; [done..|]. by apply Forall_take.
Qed.

Lemma crdb_done_ok td D td' D' : crdb_ok td -> crdb_done td D td' D' ->
  crdb_ok td' /\ data_type td' = data_type td.
Proof.
  intros Hok Hd. destruct td, td'; try done; cbn in Hd; (split; [|done]).
  - by destruct Hd as [-> _].
  - destruct Hd as (shown & Hd & ->). change (crdb_well_formed shown).
    by eapply new_order_done_ok; [apply localized_well_formed, Hok|].
  - by destruct Hd as (_ & text & n & c & o & lines & _ & _ & _ & _ & _ & _ & _ & _ & _ & ->).
  - by destruct Hd as (w & dd & c & text & n & ws & ds & cs & t & amount & info & c_data & _ & _ & _ & _
      & _ & _ & _ & _ & _ & _ & _ & _ & _ & _ & -> & _).
  - by destruct Hd as (_ & dd & _ & _ & _ & ->).
Qed.

(** ** Executions, commits, reconnections *)

Section client.
Context (c : db_context_libpq).
Context {S : Type} `{Libpq S} `{!CrdbServer S}.

(** Nothing to store is left in the session. *)
Definition at_rest (V : db) (s : S) : Prop :=
  committed (crdb_server_of s) = V /\ no_work (crdb_server_of s).

Lemma consistent_orders D : consistent D -> order_keys D.
Proof.
  intros HD o Ho. destruct (c_home D HD o Ho) as (d & Hd & Hk).
  pose proof (order_id_bound D HD d o Hd Ho Hk). pose proof (c_next D HD d Hd). unfold key. lia.
Qed.

Lemma consistent_new_orders D : consistent D -> new_order_keys D.
Proof.
  intros HD n Hn. destruct (c_new_home D HD n Hn) as (d & Hd & Hk).
  pose proof (new_order_id_bound D HD d n Hd Hn Hk). pose proof (c_next D HD d Hd). unfold key. lia.
Qed.

Lemma consistent_next D : consistent D -> forall d, d ∈ t_district D -> key (D_NEXT_O_ID d).
Proof. intros HD d Hd. pose proof (c_next D HD d Hd). unfold key. lia. Qed.

Lemma new_order_done_rollback data D shown D' :
  crdb_new_order_done data D shown D' -> no_rollback shown = 0.
Proof.
  intros (w & d & c1 & rows & lines & st' & t & al & _ & _ & _ & _ & _ & _ & _ & _ & _ & -> & _).
  set (data1 := set_no_customer _ _ _ _). by destruct (show_lines_inputs 0 lines data1) as (_ & -> & _).
Qed.

(** An execution stores nothing; OK leaves the work in the open block. *)
Lemma execute_crdb t td s rc td' s' V :
  execute (H := cockroach_ops c) t td s = Some (rc, td', s') ->
  crdb_ok td -> data_type td <> INTEGRITY -> at_rest V s -> consistent V ->
  committed (crdb_server_of s') = V
  /\ ((rc = OK /\ exists w, in_block V w s' /\ crdb_done td V td' w) \/ rc = ERROR).
Proof.
  intros He Hok Hi [HV Hn] HD. unfold execute in He.
  pose proof (consistent_orders V HD) as Ho. pose proof (consistent_new_orders V HD) as Hno.
  pose proof (consistent_next V HD) as Hnx. rewrite <- HV in Ho, Hno, Hnx.
  repeat match type of He with (if ?b then _ else _) = _ => destruct b end;
    destruct td as [d|d|d|d|d|d]; try done;
    cbn [execute_integrity execute_delivery execute_order_status execute_payment execute_stock_level cockroach_ops] in He;
    match type of He with (let '(_, _) := ?x in _) = _ => destruct x as [[rc1 d1] s1] eqn:Hx end;
    injection He as <- <- <-.
  - pose proof (execute_delivery_crdb d s (proj1 Hok) (proj2 Hok) Hn Hno) as Hends.
    rewrite Hx, HV in Hends. exact Hends.
  - unfold execute_new_order_checked in Hx. cbn [execute_new_order cockroach_ops] in Hx. fold (localized d) in Hx.
    pose proof (execute_new_order_crdb (localized d) s (localized_well_formed d Hok) Hn Hnx) as Hends.
    destruct (execute_new_order_cockroach (localized d) s) as [[rc2 d2] s2]. rewrite HV in Hends.
    destruct Hends as [H1 [(Hrc & w & Hw & HQ)|Hrc]]; cbn [fst snd] in *; subst rc2.
    + rewrite (new_order_done_rollback _ _ _ _ HQ) in Hx. cbn in Hx. injection Hx as <- <- <-.
      split; [done|]. left. split; [done|]. exists w. split; [done|]. by exists d2.
    + cbn in Hx. injection Hx as <- <- <-. auto.
  - pose proof (execute_order_status_crdb d s (proj1 Hok) (proj2 Hok) Hn Ho) as Hends.
    rewrite Hx, HV in Hends. exact Hends.
  - pose proof (execute_payment_crdb d s Hok Hn) as Hends. rewrite Hx, HV in Hends. exact Hends.
  - pose proof (execute_stock_level_crdb d s (proj1 Hok) (proj2 Hok) Hn Hnx) as Hends.
    rewrite Hx, HV in Hends. exact Hends.
Qed.

(** Commit and rollback. *)
Lemma finish_crdb V w rc status s st log left_ s' :
  finish (H := cockroach_ops c) rc status s = (st, log, left_, s') ->
  committed (crdb_server_of s) = V -> (rc = OK /\ in_block V w s) \/ rc = ERROR ->
  no_work (crdb_server_of s') /\ executions log = 0
  /\ ((committed (crdb_server_of s') = V /\ commits log = 0 /\ 0 <= commit_calls log)
      \/ (rc = OK /\ committed (crdb_server_of s') = w /\ 0 <= commits log <= 1 /\ commit_calls log = 1)).
Proof.
  unfold finish. intros Hf HV [[-> Hs]| ->]; cbn in Hf.
  - cbn [commit_transaction cockroach_ops] in Hf. unfold commit_transaction_cockroach in Hf.
    pose proof (crdb_end (lit "COMMIT") s ltac:(by left)) as Ha.
    destruct (PQexec (lit "COMMIT") s) as [res s1]. cbn [fst snd] in Ha. unfold in_block in Hs. rewrite Hs in Ha.
    apply commit_answer in Ha as [Hn Hc]. cbn in Hc. destruct Hc as [Hcok Hc].
    assert (Hst : s' = s1 /\ log = [CCommit st] /\ (st = OK -> command_ok res)).
    { unfold command_ok. case_decide as Hd; [case_decide|]; injection Hf as <- <- _ <-; split_and!; done. }
    destruct Hst as (-> & -> & Hst). split_and!; [done|done|]. unfold commits, commit_calls. cbn.
    destruct Hc as [Hc|Hc]; [right|].
    + split_and!; try done; destruct (st =? OK); lia.
    + destruct (Z.eqb_spec st OK) as [Ho|_]; [right|left; split_and!; done || lia].
      split_and!; try done; by apply Hcok, Hst.
  - cbn [rollback_transaction cockroach_ops] in Hf. unfold rollback_transaction_cockroach in Hf.
    pose proof (crdb_end (lit "ROLLBACK") s ltac:(by right; left)) as Ha.
    destruct (PQexec (lit "ROLLBACK") s) as [res s1]. cbn [fst snd] in Ha. injection Hf as <- <- _ <-.
    split_and!; [| |left]; [|done|].
    + inversion Ha; subst; try done; by intros w0.
    + split_and!; [|done|done]. rewrite <- HV. inversion Ha; subst; done.
Qed.

Lemma reconnect_crdb stop fuel V s ok log s' :
  reconnect (H := cockroach_ops c) stop fuel s = Some (ok, log, s') -> at_rest V s -> at_rest V s'.
Proof.
  intros Hr. refine (reconnect_invariant (H := cockroach_ops c) stop (at_rest V) _ _ _ fuel s ok log s' Hr);
    cbn [time connect sleep_retry cockroach_ops]; unfold at_rest; intros s1 [H1 H2].
  - by rewrite crdb_time.
  - by rewrite crdb_sleep.
  - unfold connect_to_db_cockroach. set (info := [_; _; _; _]). destruct (crdb_connect info s1) as [Hc Hl].
    case_decide; cbn [snd].
    + rewrite crdb_finish. cbn. split; [by rewrite <- H1|by intros w].
    + split; [by rewrite <- H1|]. intros w. destruct Hl as [-> | ->]; done.
Qed.

(** ** Attempts *)

(** Transactions of one type that were stored, one after another. *)
Definition stored (ty : Z) (D D' : db) : Prop :=
  exists td td', data_type td = ty /\ crdb_ok td /\ crdb_done td D td' D'.

Ltac settle :=
  split_and!; try done; try lia; try (by constructor); try (by split);
  try (by eapply room_le; [|eassumption]; lia).

(** One execution, committed or rolled back; another one may only follow one that
    returned OK. *)
Lemma round_crdb t td s rc td1 s1 status st flog left1 s2 V :
  execute (H := cockroach_ops c) t td s = Some (rc, td1, s1) ->
  finish (H := cockroach_ops c) rc status s1 = (st, flog, left1, s2) ->
  crdb_ok td -> data_type td <> INTEGRITY -> at_rest V s -> consistent V -> room 1 V ->
  exists k V1, nsteps (stored (data_type td)) k V V1 /\ at_rest V1 s2 /\ consistent V1
    /\ executions flog = 0 /\ commits flog <= Z.of_nat k <= commit_calls flog /\ (k <= 1)%nat
    /\ (forall m, room (Z.of_nat k + m) V -> room m V1)
    /\ (left1 = false -> crdb_ok td1 /\ data_type td1 = data_type td).
Proof.
  intros He Hf Hok Hi Hrest HD Hroom.
  destruct (execute_crdb _ _ _ _ _ _ V He Hok Hi Hrest HD) as (HV1 & Hrc).
  assert (Htd1 : left1 = false -> crdb_ok td1 /\ data_type td1 = data_type td).
  { destruct Hrc as [(-> & w & _ & Hd)| ->]; [intros _; by eapply crdb_done_ok|]. intros ->.
    unfold finish in Hf. cbn in Hf. unfold rollback_transaction_cockroach in Hf.
    destruct (PQexec _ s1). cbn in Hf. discriminate Hf. }
  destruct Hrc as [(-> & w & Hw & Hd)| ->].
  - destruct (finish_crdb V w _ _ _ _ _ _ _ Hf HV1 ltac:(by left)) as (F1 & F2 & [(F3 & F4 & F5)|(_ & F3 & F4 & F5)]).
    + exists 0%nat, V. settle.
    + destruct (crdb_done_consistent td V td1 w Hok Hd HD Hroom) as [C1 C2].
      exists 1%nat, w. settle; [apply nsteps_once; by exists td, td1|].
      intros m Hm. apply C2. eapply room_le; [|exact Hm]. lia.
  - destruct (finish_crdb V V _ _ _ _ _ _ _ Hf HV1 ltac:(by right)) as (F1 & F2 & [(F3 & F4 & F5)|(E & _)]); [|done].
    exists 0%nat, V. settle.
Qed.

Lemma attempts_crdb stop fuel n t : forall status td s r td' log s' V,
  attempts (H := cockroach_ops c) stop fuel n t status td s = Some (r, td', log, s') ->
  crdb_ok td -> data_type td <> INTEGRITY -> at_rest V s -> consistent V -> room (Z.of_nat n) V ->
  exists k V', nsteps (stored (data_type td)) k V V' /\ at_rest V' s' /\ consistent V'
    /\ commits log <= Z.of_nat k <= commit_calls log /\ Z.of_nat k <= executions log
    /\ (forall m, room (Z.of_nat k + m) V -> room m V').
Proof.
  induction n as [|n IH]; intros status td s r td' log s' V Ha Hok Hi Hrest HD Hroom; cbn [attempts] in Ha.
  { injection Ha as _ _ <- <-. exists 0%nat, V. settle. }
  destruct (negb _).
  { injection Ha as _ _ <- <-. exists 0%nat, V. settle. }
  destruct (execute t td s) as [[[rc td1] s1]|] eqn:He; [|done]. cbn [mbind option_bind] in Ha.
  destruct (finish rc status s1) as [[[st flog] left1] s2] eqn:Hf.
  destruct (round_crdb _ _ _ _ _ _ _ _ _ _ _ V He Hf Hok Hi Hrest HD)
    as (k1 & V1 & R1 & R2 & R3 & R4 & R5 & R6 & R7 & Htd1).
  { eapply room_le; [|exact Hroom]. lia. }
  destruct left1.
  { injection Ha as _ _ <- <-. exists k1, V1. unfold executions, commits, commit_calls in *; cbn; settle. }
  (* the connection is made anew *)
  unfold disconnect_from_db in Ha. cbn [disconnect cockroach_ops] in Ha.
  unfold disconnect_from_db_cockroach in Ha. cbn zeta iota beta in Ha.
  destruct (reconnect stop fuel (PQfinish s2)) as [[[ok rlog] s4]|] eqn:Hr; [|done].
  apply reconnect_log in Hr as Hlink. apply (reconnect_crdb _ _ V1) in Hr as Hrest4.
  2: { unfold at_rest. rewrite crdb_finish. split; [by apply R2|by intros w]. }
  cbn [mbind option_bind] in Ha. destruct ok.
  - destruct (attempts stop fuel n t st td1 s4) as [[[[r2 td2] rest] s5]|] eqn:Hrest5; [|done].
    injection Ha as _ _ <- <-. destruct (log_sums t rc flog OK rlog rest Hlink) as (S1 & S2 & S3). cbn [app] in *.
    destruct (Htd1 eq_refl) as [Hok1 Hty]. rewrite <- Hty in *.
    destruct (IH _ _ _ _ _ _ _ V1 Hrest5 Hok1 Hi Hrest4 R3) as (k2 & V2 & Z1 & Z2 & Z3 & Z4 & Z5 & Z6).
    { apply R7. eapply room_le; [|exact Hroom]. lia. }
    exists (k1 + k2)%nat, V2. settle; [by eapply nsteps_trans|].
    intros m Hm. apply Z6, R7. eapply room_le; [|exact Hm]. lia.
  - injection Ha as _ _ <- <-. destruct (log_sums t rc flog OK rlog [] Hlink) as (S1 & S2 & S3).
    rewrite app_nil_r in *. cbn [app] in *. exists k1, V1.
    rewrite ?S1, ?S2, ?S3; unfold executions, commits, commit_calls in *; cbn; settle.
Qed.

(** ** A lost connection *)

Definition disconnected (V : db) (s : S) : Prop := crdb_server_of s = mk_server V Lost.

Lemma begin_disconnected {D} V (data : D) s k : disconnected V s ->
  exists s1, begin_cockroach data s k = (ERROR, data, s1) /\ disconnected V s1.
Proof.
  unfold begin_cockroach, disconnected. intros Hs. pose proof (crdb_begin s) as Ha.
  destruct (PQexec (lit "BEGIN;") s) as [res s1]. cbn [fst snd] in Ha. rewrite Hs in Ha. exists s1.
  inversion Ha as [|r w Hl|r w Hl|r Hl|r w Hl|r Hl|q r Hw Hf|q r Hf|]; subst; try done;
    (rewrite decide_True by (by apply failure_not_ok)); done.
Qed.

Ltac fail_begin :=
  match goal with Hs : disconnected ?V ?s |- context [begin_cockroach ?d ?s ?k] =>
    destruct (begin_disconnected V d s k Hs) as (s1 & -> & Hs1) end; cbn; eauto.

Lemma execute_disconnected V td s : disconnected V s -> data_type td <> INTEGRITY ->
  exists td' s1, execute (H := cockroach_ops c) (data_type td) td s = Some (ERROR, td', s1)
    /\ data_type td' = data_type td /\ disconnected V s1.
Proof.
  intros Hs Hi. destruct td as [d|d|d|d|d|d]; [| | | | |done]; unfold execute; cbn -[execute_new_order_checked].
  - unfold execute_delivery_cockroach. fail_begin.
  - unfold execute_new_order_checked. cbn [execute_new_order cockroach_ops]. unfold execute_new_order_cockroach.
    fail_begin.
  - unfold execute_order_status_cockroach. fail_begin.
  - unfold execute_payment_cockroach. fail_begin.
  - unfold execute_stock_level_cockroach. fail_begin.
Qed.

Lemma rollback_disconnected V s : disconnected V s ->
  exists s1, rollback_transaction_cockroach s = (STATUS_ROLLBACK, s1) /\ disconnected V s1.
Proof.
  unfold rollback_transaction_cockroach, disconnected. intros Hs.
  pose proof (crdb_end (lit "ROLLBACK") s ltac:(by right; left)) as Ha.
  destruct (PQexec (lit "ROLLBACK") s) as [res s1]. cbn [fst snd] in Ha. rewrite Hs in Ha. exists s1.
  split; [done|]. inversion Ha; subst; done.
Qed.

(** The transactions of a worker, one after another: the answers with the calls
    each took. *)
Fixpoint process_all (stop : Z) (fuel : nat) (tds : list transaction_data_t) (s : S)
  : option (list (Z * list Db.call) * S) :=
  match tds with
  | [] => Some ([], s)
  | td :: tds' =>
      '(r, _, log, s) ← process_transaction (H := cockroach_ops c) stop fuel (data_type td) td s;
      '(rs, s) ← process_all stop fuel tds' s;
      Some ((r, log) :: rs, s)
  end.

Lemma process_disconnected stop fuel V td s : disconnected V s -> data_type td <> INTEGRITY ->
  exists td' s1,
    process_transaction (H := cockroach_ops c) stop fuel (data_type td) td s
    = Some (STATUS_ROLLBACK, td', [CExecute (data_type td) ERROR; CRollback STATUS_ROLLBACK], s1)
    /\ disconnected V s1.
Proof.
  intros Hs Hi. destruct (execute_disconnected V td s Hs Hi) as (td' & s1 & He & _ & Hs1).
  destruct (rollback_disconnected V s1 Hs1) as (s2 & Hr & Hs2). exists td', s2. split; [|done].
  unfold process_transaction. cbn [attempts]. rewrite He. cbn [mbind option_bind].
  unfold finish. cbn [rollback_transaction cockroach_ops]. rewrite Hr. by destruct td.
Qed.
End client.

(** C24. Once the connection of a worker to CockroachDB is lost, every further
    transaction is answered with STATUS_ROLLBACK, after one execution that fails
    and one ROLLBACK whose failure is ignored: the worker never disconnects,
    never reconnects, and nothing is stored. *)
Theorem crdb_lost_connection {S} `{Libpq S} `{!CrdbServer S} c stop fuel tds s :
  session_link (crdb_server_of s) = Lost -> Forall (fun td => data_type td <> INTEGRITY) tds ->
  exists s',
    process_all c stop fuel tds s
    = Some (map (fun td => (STATUS_ROLLBACK,
                            [CExecute (data_type td) ERROR; CRollback STATUS_ROLLBACK])) tds, s')
    /\ crdb_server_of s' = crdb_server_of s.
Proof.
  intros Hl Htds. assert (Hs : disconnected (committed (crdb_server_of s)) s).
  { unfold disconnected. destruct (crdb_server_of s). cbn in *. by subst. }
  rewrite Hs. generalize dependent (committed (crdb_server_of s)). intros V. clear Hl. revert s.
  induction Htds as [|td tds Hi _ IH]; intros s Hs; [by exists s|].
  destruct (process_disconnected c stop fuel V td s Hs Hi) as (td' & s1 & Hp & Hs1).
  destruct (IH s1 Hs1) as (s2 & Hrest & Hs2). exists s2. split; [|done].
  cbn [process_all map]. rewrite Hp. cbn [mbind option_bind]. by rewrite Hrest.
Qed.

(** C4. process_transaction over CockroachDB, whatever fails on the way, stores
    whole transactions of the type it was asked for and nothing else: at most
    two, at least one when it answers OK, none or one according to its answer
    when every COMMIT that was sent was acknowledged.  A consistent database
    stays consistent, and no work is left in the session. *)
Theorem crdb_transaction_stored {S} `{Libpq S} `{!CrdbServer S} c stop fuel t td s r td' log s' :
  process_transaction (H := cockroach_ops c) stop fuel t td s = Some (r, td', log, s') ->
  crdb_ok td -> data_type td <> INTEGRITY -> no_work (crdb_server_of s) ->
  consistent (committed (crdb_server_of s)) -> room 2 (committed (crdb_server_of s)) ->
  exists k,
    nsteps (stored (data_type td)) k (committed (crdb_server_of s)) (committed (crdb_server_of s'))
    /\ (k <= 2)%nat
    /\ (r = OK -> (1 <= k)%nat)
    /\ ((forall rc, CCommit rc ∈ log -> rc = OK) -> k = if r =? OK then 1%nat else 0%nat)
    /\ consistent (committed (crdb_server_of s'))
    /\ no_work (crdb_server_of s').
Proof.
  intros Hp Hok Hi Hn HD Hroom.
  destruct (attempts_spec (H := cockroach_ops c) (DbLaws0 := cockroach_laws c)
              stop fuel 2 t 0 td s r td' log s' Hp ltac:(done) ltac:(done)) as (He & Hc & _).
  destruct (attempts_crdb c stop fuel 2 t 0 td s r td' log s' _ Hp Hok Hi (conj eq_refl Hn) HD Hroom)
    as (k & V' & Hk & [<- Hn'] & HD' & Hcommits & Hexec & _).
  exists k. split_and!; try done; [lia| |].
  - intros ->. rewrite Hc in Hcommits. cbn in Hcommits. lia.
  - intros Hall. apply commits_all in Hall. destruct (r =? OK); lia.
Qed.

(** ** Each transaction *)

(** The stock outside a warehouse. *)
Definition stock_elsewhere (w_id : Z) (l : list stock_row) : list stock_row :=
  List.filter (fun st => negb (S_W_ID st =? w_id)) l.

Lemma updated_elsewhere i_id w_id decr qty remote st st' :
  updated (is_stock i_id w_id) (take_stock decr qty remote) st st' ->
  stock_elsewhere w_id st' = stock_elsewhere w_id st.
Proof.
  intros [_ ->]. unfold stock_elsewhere. induction st as [|r st IH]; [done|]. cbn [map List.filter].
  destruct (is_stock i_id w_id r) eqn:Hk; [|destruct (negb _); by rewrite IH].
  unfold is_stock in Hk. apply andb_true_iff in Hk as [_ Hw]. rewrite Hw.
  assert (E : (S_W_ID (default r (take_stock decr qty remote r)) =? w_id) = true).
  { unfold take_stock. destruct (real_sub_text _ _), (numeric_add_text _ _), (real_add_int4 _ _),
      (real_add_text _ _); done. }
  by rewrite E.
Qed.

Lemma crdb_lines_elsewhere items w d o i lines rows shown st st' :
  crdb_lines_done items w d o i lines rows shown st st' -> stock_elsewhere w st' = stock_elsewhere w st.
Proof.
  induction 1 as [|i line lines row rows l shown st st1 st2 Hl _ IH]; [done|]. rewrite IH.
  destruct (cl_rows _ _ _ _ _ _ _ _ _ _ Hl) as (item & stock & amount & Hr).
  eapply updated_elsewhere. apply Hr.
Qed.

(** C21. A New-Order on CockroachDB answers ERROR and stores nothing, or OK with
    exactly this in the open block: the order takes the number of the district's
    counter, which is incremented, enters new_order and orders, and each line is
    stored and shown with the price, name, stock and brand of its item, the
    amount as printed with six decimals.  Unlike the stored procedure, the stock
    is taken from the home warehouse even for a line another warehouse supplies
    (no stock elsewhere changes), and of the district information fifteen bytes
    are kept. *)
Theorem crdb_new_order_correct {S} `{Libpq S} `{!CrdbServer S} data s rc data' s' :
  execute_new_order_cockroach data s = (rc, data', s') ->
  crdb_well_formed data -> no_work (crdb_server_of s) -> consistent (committed (crdb_server_of s)) ->
  let D := committed (crdb_server_of s) in
  (rc = ERROR /\ committed (crdb_server_of s') = D)
  \/ (rc = OK /\ exists D', crdb_server_of s' = mk_server D (InTxn D')
      /\ crdb_new_order_done data D data' D'
      /\ stock_elsewhere (no_w_id data) (t_stock D') = stock_elsewhere (no_w_id data) (t_stock D)).
Proof.
  intros He Hw Hn HD D. pose proof (execute_new_order_crdb data s Hw Hn (consistent_next _ HD)) as Hends.
  rewrite He in Hends. apply ends_inv in Hends as [HV [(-> & D' & Hs & Hdone)| ->]]; [right|by left].
  split; [done|]. exists D'. split_and!; try done.
  destruct Hdone as (w & d & c1 & rows & lines & st' & t & al & _ & _ & _ & _ & _ & _ & _ & _ & Hl & _ & ->).
  exact (crdb_lines_elsewhere _ _ _ _ _ _ _ _ _ _ Hl).
Qed.

(** C22. A Payment on CockroachDB answers ERROR and stores nothing, or OK with
    exactly this in the open block: warehouse and district gain the amount, the
    customer given by number, or the middle one of that name, is charged, a bad
    credit's data notes it, history gains the row, and the terminal is shown what
    was read, the balance less the payment.  Unlike the stored procedure, no
    customer's payment count changes, and the year-to-date payments of the
    customer grow by one, not by the amount. *)
Theorem crdb_payment_correct {S} `{Libpq S} `{!CrdbServer S} data s rc data' s' :
  execute_payment_cockroach data s = (rc, data', s') ->
  payment_keys data -> no_work (crdb_server_of s) ->
  let D := committed (crdb_server_of s) in
  (rc = ERROR /\ committed (crdb_server_of s') = D)
  \/ (rc = OK /\ exists D', crdb_server_of s' = mk_server D (InTxn D')
      /\ crdb_payment_done data D data' D'
      /\ forall i r, t_customer D !! i = Some r -> exists r', t_customer D' !! i = Some r'
           /\ C_PAYMENT_CNT r' = C_PAYMENT_CNT r
           /\ (C_YTD_PAYMENT r' = C_YTD_PAYMENT r
               \/ numeric_add_int4 (C_YTD_PAYMENT r) 1 = Some (C_YTD_PAYMENT r'))).
Proof.
  intros He Hw Hn D. pose proof (execute_payment_crdb data s Hw Hn) as Hends.
  rewrite He in Hends. apply ends_inv in Hends as [HV [(-> & D' & Hs & Hdone)| ->]]; [right|by left].
  split; [done|]. exists D'. split_and!; try done. intros i r Hr.
  destruct Hdone as (w & d & c & text & n & ws & ds & cs & t & amount & info & c_data & _ & _ & _ & _
      & _ & _ & _ & _ & _ & _ & [Hall ->] & _ & _ & _ & _ & ->).
  cbn [t_customer]. change (map ?f ?l) with (f <$> l). rewrite list_lookup_fmap. change (t_customer (committed _)) with (t_customer D). rewrite Hr. cbn [fmap option_fmap option_map].
  eexists. split; [reflexivity|]. destruct (is_customer _ _ n r) eqn:Hk; [|by split; [|left]].
  destruct (Hall r (list_elem_of_lookup_2 _ _ _ Hr) Hk) as [r' Hr']. rewrite Hr'. cbn [default].
  unfold charged, charge_gc, charge_bc, charge in Hr'.
  destruct (is_good _), (numeric_sub_text _ _), (numeric_add_int4 _ _) eqn:Hy; try done;
    injection Hr' as <-; cbn; auto.
Qed.

(** C23. A Delivery on CockroachDB answers ERROR and stores nothing, or OK with
    the ten districts delivered one after another: a district without new orders
    is skipped, otherwise its oldest new order leaves new_order, gets the
    carrier, its lines their delivery date, and its customer is credited with
    the sum of the lines as the server prints it. *)
Theorem crdb_delivery_correct {S} `{Libpq S} `{!CrdbServer S} data s rc data' s' :
  execute_delivery_cockroach data s = (rc, data', s') ->
  key (dl_w_id data) -> key (dl_o_carrier_id data) ->
  no_work (crdb_server_of s) -> consistent (committed (crdb_server_of s)) ->
  let D := committed (crdb_server_of s) in
  (rc = ERROR /\ committed (crdb_server_of s') = D)
  \/ (rc = OK /\ data' = data /\ exists D', crdb_server_of s' = mk_server D (InTxn D')
      /\ crdb_all_delivered (dl_w_id data) (dl_o_carrier_id data) (zrange 0 10) D D').
Proof.
  intros He Kw Kc Hn HD D.
  pose proof (execute_delivery_crdb data s Kw Kc Hn (consistent_new_orders _ HD)) as Hends.
  rewrite He in Hends. apply ends_inv in Hends as [HV [(-> & D' & Hs & [-> Hd])| ->]]; [right|by left]. eauto.
Qed.

(** Order-Status and Stock-Level on CockroachDB change nothing.  When they
    answer OK, Order-Status shows the customer (given by number, or the middle
    one of that name), the last order of that customer and its lines, at most
    fifteen; Stock-Level counts the rows of the stock of the warehouse that are
    below the threshold and occur in the last twenty orders of the district. *)
Theorem crdb_queries_correct {S} `{Libpq S} `{!CrdbServer S} os sl s :
  key (os_c_w_id os) -> key (os_c_d_id os) -> key (sl_w_id sl) -> key (sl_d_id sl) ->
  no_work (crdb_server_of s) -> consistent (committed (crdb_server_of s)) ->
  let D := committed (crdb_server_of s) in
  (let '(rc, os', s') := execute_order_status_cockroach os s in
   committed (crdb_server_of s') = D
   /\ (rc = ERROR \/ (rc = OK /\ crdb_order_status_done os D os' D)))
  /\ (let '(rc, sl', s') := execute_stock_level_cockroach sl s in
      committed (crdb_server_of s') = D
      /\ (rc = ERROR \/ (rc = OK /\ crdb_stock_level_done sl D sl' D))).
Proof.
  intros Kw Kd Kw' Kd' Hn HD D. split.
  - pose proof (execute_order_status_crdb os s Kw Kd Hn (consistent_orders _ HD)) as Hends.
    destruct (execute_order_status_cockroach os s) as [[rc os'] s'].
    apply ends_inv in Hends as [HV [(-> & D' & Hs & Hdone)| ->]]; (split; [done|]); [right|by left].
    split; [done|]. by destruct Hdone as [-> Hdone].
  - pose proof (execute_stock_level_crdb sl s Kw' Kd' Hn (consistent_next _ HD)) as Hends.
    destruct (execute_stock_level_cockroach sl s) as [[rc sl'] s'].
    apply ends_inv in Hends as [HV [(-> & D' & Hs & Hdone)| ->]]; (split; [done|]); [right|by left].
    split; [done|]. by destruct Hdone as [-> Hdone].
Qed.
End crdb.
