(* ===== verification/CrdbSample.v ===== *)
(** * The client against a sample CockroachDB server

    The tables of [SpSample] behind the faulty connection of [LibpqSample]: it
    obeys the laws of [CrdbServer], and witnesses the theorems of
    [CrdbTheorems]. *)

From Stdlib Require Import ZArith Lia SpecFloat String.
From stdpp Require Import base list relations.
From S2P Require Import Prelude Double Text Common Wire Tables SpNewOrder SpPayment SpDelivery SpQueries SpConsistency SpSample TxnData InputData Db Libpq PgServer LibpqServer LibpqSample Cockroach CrdbServer CrdbSpec CrdbNewOrder CrdbPayment CrdbDelivery CrdbQueries CrdbTheorems.

#[local] Existing Instance sample_pg.

Definition sample_crdb : Crdb sample_pg := {|
  int_in s := if bytes_eqb (fmt_d (atoi s)) s then Some (atoi s) else None;
  text_in s := Some s;
  real_in s := Some (to_float (atof s));
  int_add a b := Some (a + b);
  real_add_text f s := Some (to_float (dadd f (atof s)));
  real_sub_text f s := Some (to_float (dsub f (atof s)));
  real_lt_text f s := d_to_Z f <? d_to_Z (atof s);
  numeric_add_text a s := Some (a + d_round (atof s));
  numeric_sub_text a s := Some (a - d_round (atof s));
  sum_text l := Some (match l with [] => None | _ => Some (fmt_f 2 (foldl dadd d_zero l)) end) |}.

#[local] Existing Instance sample_crdb.

Lemma sample_crdb_laws : CrdbLaws sample_crdb.
Proof.
  split; [|by intros s v [= ->]|by intros a b v [= <-]]. intros z Hz. cbn. rewrite atoi_fmt_d by done.
  unfold bytes_eqb. by rewrite bool_decide_true.
Qed.

(** [BEGIN;] is [BEGIN]. *)
Definition without_semicolon (q : bytes) : bytes :=
  if bytes_eqb q (lit "BEGIN;") then lit "BEGIN" else q.

Definition sample_statement (q : bytes) (params : list (option bytes)) (s : sample_conn)
  : option PGresult * sample_conn :=
  let V := sample_server s in
  let D := committed V in
  let '(res, V') :=
    match session_link V, hd NoFault (faults s) with
    | Lost, _ => (broken, mk_server D Lost)
    | _, Break => (broken, mk_server D Lost)
    | InTxn w, _ =>
        match statement q with
        | None => (refused (lit "42601"), mk_server D Aborted)
        | Some m =>
            match Tables.call (m params) 9 w with
            | (inl (Rows rs), w') => (Some (mk_PGresult PGRES_TUPLES_OK rs None), mk_server D (InTxn w'))
            | (inl Done, w') => (accepted, mk_server D (InTxn w'))
            | (inr _, _) => (refused (lit "XX000"), mk_server D Aborted)
            end
        end
    | _, _ => (refused (lit "25P02"), mk_server D Aborted)
    end in
  (res, mk_conn V' (tl (faults s))).

#[local] Instance sample_cockroach : Libpq sample_conn := {
  PQexec q := sample_exec (without_semicolon q);
  PQexecParams := sample_statement;
  PQstatus s := match session_link (sample_server s) with Lost => CONNECTION_BAD | _ => CONNECTION_OK end;
  PQerrorMessage s := [];
  PQconnectdbParams _ s := mk_conn (mk_server (committed (sample_server s)) Idle) (faults s);
  PQfinish s := mk_conn (mk_server (committed (sample_server s)) Lost) (faults s);
  clock_time s := (0, s);
  nanosleep s := s }.

Lemma sample_statement_answers q ps s :
  answers_statement (sample_server s) q ps (sample_statement q ps s).1
    (sample_server (sample_statement q ps s).2).
Proof.
  pose proof broken_failure as Hb. destruct s as [[D l] fs]. unfold sample_statement.
  cbn [sample_server committed session_link faults].
  destruct l as [| |w|], (hd NoFault fs); cbn -[statement];
    try (by apply statement_lost); try (by apply statement_error; [|apply refused_failure]);
    (destruct (statement q) as [m|] eqn:Hm; cbn; [|by apply statement_error; [|apply refused_failure]]);
    (destruct (Tables.call (m ps) (9 : @timestamp sample_pg) w) as [[[rs|]|e] w'] eqn:Hc; cbn;
     [by eapply statement_rows|by eapply statement_done|by apply statement_error; [|apply refused_failure]]).
Qed.

Lemma sample_begin s :
  answers_command (sample_server s) (lit "BEGIN") (PQexec (lit "BEGIN;") s).1
    (sample_server (PQexec (lit "BEGIN;") s).2).
Proof. exact (sample_exec_answers (lit "BEGIN") s (list_elem_of_here _ _)). Qed.

Lemma sample_end q s : q ∈ [lit "COMMIT"; lit "ROLLBACK"] ->
  answers_command (sample_server s) q (PQexec q s).1 (sample_server (PQexec q s).2).
Proof.
  intros Hq. assert (Hw : without_semicolon q = q).
  { repeat rewrite elem_of_cons in Hq. rewrite elem_of_nil in Hq. by destruct Hq as [-> |[-> |[]]]. }
  cbn [PQexec sample_cockroach]. rewrite Hw. apply sample_exec_answers. by right.
Qed.

#[local] Instance sample_crdb_server : CrdbServer sample_conn := {|
  crdb_server_of := sample_server;
  crdb_begin := sample_begin;
  crdb_end := sample_end;
  crdb_statement := sample_statement_answers;
  crdb_connect info s := conj eq_refl (or_introl eq_refl);
  crdb_finish s := eq_refl;
  crdb_time s := eq_refl;
  crdb_sleep s := eq_refl |}.

(** ** A lost connection *)

Definition sample_delivery : delivery_t := mk_delivery 1 7.

#[local] Abbreviation lost_db := (mk_conn (mk_server sample_db Lost) []).

Lemma crdb_lost_connection_witness :
  exists s', process_all sample_context 0 3 [TD_payment payment_by_name; TD_delivery sample_delivery] lost_db
    = Some ([(STATUS_ROLLBACK, [CExecute PAYMENT ERROR; CRollback STATUS_ROLLBACK]);
             (STATUS_ROLLBACK, [CExecute DELIVERY ERROR; CRollback STATUS_ROLLBACK])], s')
    /\ sample_server s' = mk_server sample_db Lost.
Proof.
  destruct (crdb_lost_connection sample_context 0 3
              [TD_payment payment_by_name; TD_delivery sample_delivery] lost_db)
    as (s' & H1 & H2); [reflexivity|repeat constructor; discriminate|].
  exists s'. split; [exact H1|exact H2].
Defined.

(** ** Transactions *)

#[local] Abbreviation run_payment fs :=
  (process_transaction (H := cockroach_ops sample_context) 0 3 PAYMENT
     (TD_payment payment_by_name) (idle fs)).

(** A payment is made once; when the connection breaks before COMMIT it is tried
    again; when it breaks during the transaction the answer is a rollback. *)
Example crdb_payment_once : seen (run_payment []) = Some (OK, 1, 1, [300007]).
Proof. vm_compute. reflexivity. Qed.

Example crdb_payment_retried :
  seen (run_payment [NoFault; NoFault; NoFault; NoFault; NoFault; NoFault; NoFault; Break])
  = Some (OK, 2, 1, [300007]).
Proof. vm_compute. reflexivity. Qed.

Example crdb_payment_given_up :
  seen (run_payment [NoFault; NoFault; Break]) = Some (STATUS_ROLLBACK, 1, 0, [300000]).
Proof. vm_compute. reflexivity. Qed.

Lemma crdb_payment_answers :
  match run_payment [] with
  | Some (r, _, log, _) => r = OK /\ log = [CExecute PAYMENT OK; CCommit OK]
  | None => False
  end.
Proof. vm_compute. split; reflexivity. Qed.

Lemma sample_payment_keys : payment_keys payment_by_name.
Proof. unfold payment_keys, key. cbn. lia. Qed.

Lemma sample_room : room 2 sample_db.
Proof. intros d ->%list_elem_of_singleton. reflexivity. Qed.

Lemma crdb_transaction_stored_witness :
  match run_payment [] with
  | Some (_, _, _, s) =>
      nsteps (stored PAYMENT) 1 sample_db (committed (sample_server s))
      /\ consistent (committed (sample_server s)) /\ no_work (sample_server s)
  | None => False
  end.
Proof.
  pose proof crdb_payment_answers as Hrun.
  destruct (run_payment []) as [[[[r td'] log] s]|] eqn:Hp; [|exact Hrun]. destruct Hrun as [-> ->].
  destruct (crdb_transaction_stored (claws := sample_crdb_laws) (laws := sample_laws) sample_context 0 3
              PAYMENT (TD_payment payment_by_name) (idle []) OK td' _ s Hp sample_payment_keys)
    as (k & H1 & _ & _ & H4 & H5 & H6).
  - discriminate.
  - exact (no_work_idle sample_db).
  - exact sample_consistent.
  - exact sample_room.
  - assert (Hk : k = 1%nat).
    { apply H4. intros rc Hin. repeat rewrite elem_of_cons in Hin. rewrite elem_of_nil in Hin.
      destruct Hin as [Hin|[Hin|[]]]; congruence. }
    subst k. split; [exact H1|]. split; [exact H5|exact H6].
Defined.

(** ** Each transaction *)

#[local] Abbreviation crdb_order := (execute_new_order_cockroach nuts_and_bolts (idle [])).

Example crdb_order_shown :
  (crdb_order.1.1 = OK)
  /\ (no_o_id crdb_order.1.2, map s_quantity (take 2 (no_order_line crdb_order.1.2)),
      map brand_generic (take 2 (no_order_line crdb_order.1.2)))
     = (3, [20; 50], [66; 71]).
Proof. vm_compute. split; reflexivity. Qed.

Lemma crdb_new_order_correct_witness :
  exists D', crdb_server_of crdb_order.2 = mk_server sample_db (InTxn D')
    /\ crdb_new_order_done nuts_and_bolts sample_db crdb_order.1.2 D'.
Proof.
  pose proof crdb_order_shown as [Hrun _].
  destruct crdb_order as [[rc data'] s'] eqn:He.
  destruct (crdb_new_order_correct (claws := sample_crdb_laws) (laws := sample_laws)
              nuts_and_bolts (idle []) rc data' s' He) as [[E _]|[_ (D' & H1 & H2 & _)]].
  - unfold crdb_well_formed, key. split_and!; cbn; try lia; repeat constructor; cbn; lia.
  - exact (no_work_idle sample_db).
  - exact sample_consistent.
  - cbn in Hrun. rewrite E in Hrun. discriminate Hrun.
  - exists D'. split; [exact H1|exact H2].
Defined.

#[local] Abbreviation crdb_payment := (execute_payment_cockroach payment_by_name (idle [])).

Example crdb_payment_shown :
  (crdb_payment.1.1, pa_c_id crdb_payment.1.2, pa_c_first crdb_payment.1.2) = (OK, 3, lit "Bo").
Proof. vm_compute. reflexivity. Qed.

Lemma crdb_payment_correct_witness :
  exists D', crdb_server_of crdb_payment.2 = mk_server sample_db (InTxn D')
    /\ crdb_payment_done payment_by_name sample_db crdb_payment.1.2 D'.
Proof.
  pose proof crdb_payment_shown as Hrun.
  destruct crdb_payment as [[rc data'] s'] eqn:He.
  destruct (crdb_payment_correct (claws := sample_crdb_laws) (laws := sample_laws)
              payment_by_name (idle []) rc data' s' He sample_payment_keys) as [[E _]|[_ (D' & H1 & H2 & _)]].
  - exact (no_work_idle sample_db).
  - rewrite E in Hrun. discriminate Hrun.
  - exists D'. split; [exact H1|exact H2].
Defined.

#[local] Abbreviation crdb_delivery := (execute_delivery_cockroach sample_delivery (idle [])).

Example crdb_delivery_runs : crdb_delivery.1.1 = OK.
Proof. vm_compute. reflexivity. Qed.

Lemma crdb_delivery_correct_witness :
  exists D', crdb_server_of crdb_delivery.2 = mk_server sample_db (InTxn D')
    /\ crdb_all_delivered 1 7 (zrange 0 10) sample_db D'.
Proof.
  pose proof crdb_delivery_runs as Hrun.
  destruct crdb_delivery as [[rc data'] s'] eqn:He.
  destruct (crdb_delivery_correct (claws := sample_crdb_laws) (laws := sample_laws)
              sample_delivery (idle []) rc data' s' He) as [[E _]|[_ [_ (D' & H1 & H2)]]].
  - unfold key. cbn. lia.
  - unfold key. cbn. lia.
  - exact (no_work_idle sample_db).
  - exact sample_consistent.
  - cbn in Hrun. rewrite E in Hrun. discriminate Hrun.
  - exists D'. split; [exact H1|exact H2].
Defined.

Definition sample_order_status : order_status_t :=
  mk_order_status 1 1 0 (lit "BARBARBAR") d_zero [] [] 0 0 [] 0
    (repeat (mk_os_order_line 0 0 0 d_zero []) 15).
Definition sample_stock_level : stock_level_t := mk_stock_level 1 1 30 0.

#[local] Abbreviation crdb_status := (execute_order_status_cockroach sample_order_status (idle [])).
#[local] Abbreviation crdb_stock := (execute_stock_level_cockroach sample_stock_level (idle [])).

(** The second of the three customers by name has placed no order; one item is
    below the threshold. *)
Example crdb_queries_run :
  (crdb_stock.1.1, sl_low_stock crdb_stock.1.2) = (OK, 1) /\ crdb_status.1.1 = OK.
Proof. vm_compute. split; reflexivity. Qed.

Lemma crdb_queries_correct_witness :
  crdb_order_status_done sample_order_status sample_db crdb_status.1.2 sample_db
  /\ crdb_stock_level_done sample_stock_level sample_db crdb_stock.1.2 sample_db.
Proof.
  pose proof crdb_queries_run as [Hstock Hstatus].
  assert (Hq := crdb_queries_correct (claws := sample_crdb_laws) (laws := sample_laws)
                  sample_order_status sample_stock_level (idle [])).
  destruct crdb_status as [[rc os'] s']. destruct crdb_stock as [[rc' sl'] s''].
  cbn [fst snd] in Hstock, Hstatus. injection Hstock as Hstock _.
  destruct Hq as [[_ [E|[_ H1]]] [_ [E'|[_ H2]]]];
    try (unfold key; cbn; lia); try (rewrite E in Hstatus; discriminate Hstatus);
    try (rewrite E' in Hstock; discriminate Hstock).
  - exact (no_work_idle sample_db).
  - exact sample_consistent.
  - split; [exact H1|exact H2].
Defined.
