(* ===== verification/Sqlite.v ===== *)
(** * The SQLite back end of the client ([src/sqlite/dbc_common.c])

    The operations of the database layer over the calls of the sqlite3 library,
    which are an interface: opening, executing, and the life of a prepared
    statement from [sqlite3_prepare_v2] to [sqlite3_finalize].  Messages to the
    log and the code of DEBUG builds are left out. *)

From Stdlib Require Import ZArith Lia SpecFloat String.
From stdpp Require Import base list.
From S2P Require Import Prelude Double Text Common TxnData Tables.

Definition SQLITE_OK : Z := 0.
Definition SQLITE_ROW : Z := 100.
Definition SQLITE_DONE : Z := 101.

(** The calls on a state [S] that holds the connection.  A statement is its
    handle, 0 the null pointer.  [rows_left] is how many rows a statement still
    has: every result is finite.  [strndup_null] is what [strndup] makes of the
    null pointer and no bytes, which C leaves open. *)
Class Sqlite (S : Type) := {
  sqlite3_open : bytes -> S -> Z * S;
  sqlite3_close : S -> S;
  sqlite3_exec : bytes -> S -> Z * S;
  sqlite3_prepare_v2 : bytes -> S -> Z * Z * S;
  sqlite3_step : Z -> S -> Z * S;
  sqlite3_finalize : Z -> S -> Z * S;
  sqlite3_column_count : Z -> S -> Z;
  sqlite3_column_text : Z -> Z -> S -> option bytes;
  rows_left : Z -> S -> nat;
  strndup_null : option bytes;
  sqlite_time : S -> Z * S;
  sqlite_nanosleep : S -> S }.

(** [struct db_context_sqlite]: the library and [inTransaction]. *)
Record sqlite_conn (S : Type) := mk_sqlite { lib : S; in_transaction : bool }.
Arguments mk_sqlite {S} lib in_transaction.
Arguments lib {S} s.
Arguments in_transaction {S} s.

(** [struct sql_result_sqlite] *)
Record sql_result := mk_sql_result {
  query_running : bool; error : bool; prefetched : bool; num_fields : Z; pStmt : Z }.

Definition no_result : sql_result := mk_sql_result false false false 0 0.

Section sqlite.
Context {S : Type} `{Sqlite S}.
Implicit Types c : sqlite_conn S.

(** ** The connection *)

Definition commit_transaction_sqlite c : Z * sqlite_conn S :=
  if in_transaction c then
    let '(rc, s) := sqlite3_exec (lit "COMMIT TRANSACTION;") (lib c) in
    if negb (rc =? SQLITE_OK) then (ERROR, mk_sqlite s true) else (OK, mk_sqlite s false)
  else (OK, c).

Definition rollback_transaction_sqlite c : Z * sqlite_conn S :=
  if in_transaction c then
    let '(rc, s) := sqlite3_exec (lit "ROLLBACK TRANSACTION;") (lib c) in
    if negb (rc =? SQLITE_OK) then (ERROR, mk_sqlite s true) else (STATUS_ROLLBACK, mk_sqlite s false)
  else (STATUS_ROLLBACK, c).

Definition connect_to_db_sqlite (dbname : bytes) c : Z * sqlite_conn S :=
  let '(rc, s) := sqlite3_open dbname (lib c) in
  if negb (rc =? 0) then (ERROR, mk_sqlite (sqlite3_close s) false) else (OK, mk_sqlite s false).

Definition disconnect_from_db_sqlite c : Z * sqlite_conn S :=
  (OK, mk_sqlite (sqlite3_close (lib c)) (in_transaction c)).

Definition SQLITE3_DBNAME_LEN : Z := 255.

(** The name that [db_init_sqlite] stores. *)
Definition db_init_sqlite (dbname : option bytes) : bytes :=
  strncpy (default (lit "./dbt2.sqlite") dbname) SQLITE3_DBNAME_LEN.

(** ** Statements *)

Definition sql_fetchrow_sqlite (r : sql_result) c : bool * sql_result * sqlite_conn S :=
  let '(mk_sql_result running err pre n h) := r in
  if negb running then (false, r, c)
  else if pre then (true, mk_sql_result running err false n h, c)
  else
    let '(rc, s) := sqlite3_step h (lib c) in
    if rc =? SQLITE_ROW then (true, r, mk_sqlite s (in_transaction c))
    else
      let '(rc', s) := sqlite3_finalize h s in
      if rc =? SQLITE_DONE then
        (false, mk_sql_result false (if negb (rc' =? SQLITE_OK) then true else err) pre n h,
         mk_sqlite s (in_transaction c))
      else (false, mk_sql_result false true pre n h, mk_sqlite s (in_transaction c)).

(** [BEGIN] before the first statement of a transaction, then the first step. *)
Definition begin_sqlite c : bool * sqlite_conn S :=
  if in_transaction c then (true, c)
  else
    let '(rc, s) := sqlite3_exec (lit "BEGIN TRANSACTION;") (lib c) in
    if negb (rc =? SQLITE_OK) then (false, mk_sqlite s false) else (true, mk_sqlite s true).

Definition sql_execute_sqlite (query : bytes) (r : sql_result) c : bool * sql_result * sqlite_conn S :=
  let r := mk_sql_result false false false (num_fields r) (pStmt r) in
  let '(begun, c) := begin_sqlite c in
  if negb begun then (false, r, c)
  else
    let '(rc, h, s) := sqlite3_prepare_v2 query (lib c) in
    if negb (rc =? SQLITE_OK) then
      let '(_, s) := sqlite3_finalize h s in
      (false, mk_sql_result false false false (num_fields r) h, mk_sqlite s (in_transaction c))
    else
      let r := mk_sql_result true false false (sqlite3_column_count h s) h in
      let '(_, r, c) := sql_fetchrow_sqlite r (mk_sqlite s (in_transaction c)) in
      if error r then (false, r, c)
      else (true, mk_sql_result (query_running r) (error r) true (num_fields r) (pStmt r), c).

Definition sql_close_cursor_sqlite (r : sql_result) c : bool * sql_result * sqlite_conn S :=
  if query_running r then
    let '(rc, s) := sqlite3_finalize (pStmt r) (lib c) in
    (negb (negb (rc =? SQLITE_OK) || error r),
     mk_sql_result false (error r) (prefetched r) (num_fields r) (pStmt r),
     mk_sqlite s (in_transaction c))
  else (true, r, c).

Definition sql_getvalue_sqlite (r : sql_result) c (field : Z) : option bytes :=
  if query_running r && (field <? num_fields r) then
    match sqlite3_column_text (pStmt r) field (lib c) with
    | Some v => Some v
    | None => strndup_null
    end
  else None.

(** ** How the transactions use them

    A result structure is only read after [sql_execute] has set its flags.  The
    first [n] values of the first row; [failed] when the statement fails or has
    no row. *)
Definition select {R} (query : bytes) (n : nat) c (failed : sqlite_conn S -> R)
    (k : list (option bytes) -> sqlite_conn S -> R) : R :=
  let '(ok, r, c) := sql_execute_sqlite query no_result c in
  if ok && query_running r then
    let '(_, r, c) := sql_fetchrow_sqlite r c in
    let vals := map (fun i => sql_getvalue_sqlite r c (Z.of_nat i)) (seq 0 n) in
    let '(_, _, c) := sql_close_cursor_sqlite r c in
    k vals c
  else failed c.

(** A statement without rows. *)
Definition run {R} (query : bytes) c (failed k : sqlite_conn S -> R) : R :=
  let '(ok, _, c) := sql_execute_sqlite query no_result c in
  if (ok : bool) then k c else failed c.

(** [while (sql_fetchrow(dbc, &result))], with the first [n] values of each row. *)
Fixpoint fetch_loop (fuel n : nat) (r : sql_result) c
  : option (list (list (option bytes)) * sql_result * sqlite_conn S) :=
  match fuel with
  | O => None
  | Datatypes.S fuel' =>
      let '(more, r, c) := sql_fetchrow_sqlite r c in
      if (more : bool) then
        let vals := map (fun i => sql_getvalue_sqlite r c (Z.of_nat i)) (seq 0 n) in
        '(rows, r, c) ← fetch_loop fuel' n r c;
        Some (vals :: rows, r, c)
      else Some ([], r, c)
  end.

(** All the rows: the prefetched one, those left, and the call that finds none. *)
Definition select_all {R} (query : bytes) (n : nat) c (failed : sqlite_conn S -> option R)
    (k : list (list (option bytes)) -> sql_result -> sqlite_conn S -> option R) : option R :=
  let '(ok, r, c) := sql_execute_sqlite query no_result c in
  if ok && query_running r then
    '(rows, r, c) ← fetch_loop (2 + rows_left (pStmt r) (lib c)) n r c;
    k rows r c
  else failed c.
End sqlite.
