(* ===== verification/Nonsp.v ===== *)
(** * The statements of the client-side transactions ([src/nonsp])

    The texts of [nonsp_common.h] with their parameters, as a build with SQLite
    has them, and the helpers for values of [dbc_nonsp.c]. *)

From Stdlib Require Import ZArith Lia SpecFloat String.
From stdpp Require Import base list.
From S2P Require Import Prelude Double Text Common TxnData Tables Cockroach.

(** ** Values ([dbc_nonsp.c]) *)

(** [dbt2_copy_value] into an array of [n] bytes that holds [dest]. *)
Definition dbt2_copy_value (dest : bytes) (src : option bytes) (n : Z) : bytes :=
  match src with None => dest | Some v => strncpy v (n - 1) end.

(** [dbt2_escape_str] with SQLite: quotes are doubled. *)
Definition dbt2_escape_str (orig_str : bytes) : bytes :=
  flat_map (fun c => if c =? 39 then [39; c] else [c]) orig_str.

(** [vals[i] ? atoi(vals[i]) : 0] and the like. *)
Definition int_or_zero (v : option bytes) : Z := from_option atoi 0 v.
Definition float_or_zero (v : option bytes) : double := from_option atof d_zero v.

(** ** Statements ([nonsp_common.h]) *)

Definition int (z : Z) : bytes := fmt_d z.

Definition DELIVERY_1 (w_id d_id : Z) : bytes :=
  sql ["SELECT no_o_id"; "FROM new_order"; "WHERE no_w_id = "]%string ++ int w_id
  ++ sql [""; "  AND no_d_id = "]%string ++ int d_id ++ sql [""; "ORDER BY no_o_id ASC"; "LIMIT 1"]%string.
Definition DELIVERY_2 (o_id : bytes) (w_id d_id : Z) : bytes :=
  sql ["DELETE FROM new_order"; "WHERE no_o_id = "]%string ++ o_id
  ++ sql [""; "  AND no_w_id = "]%string ++ int w_id ++ sql [""; "  AND no_d_id = "]%string ++ int d_id.
Definition DELIVERY_3 (o_id : bytes) (w_id d_id : Z) : bytes :=
  sql ["SELECT o_c_id"; "FROM orders"; "WHERE o_id = "]%string ++ o_id
  ++ sql [""; "  AND o_w_id = "]%string ++ int w_id ++ sql [""; "  AND o_d_id = "]%string ++ int d_id.
Definition DELIVERY_4 (o_carrier_id : Z) (o_id : bytes) (w_id d_id : Z) : bytes :=
  sql ["UPDATE orders"; "SET o_carrier_id = "]%string ++ int o_carrier_id
  ++ sql [""; "WHERE o_id = "]%string ++ o_id ++ sql [""; "  AND o_w_id = "]%string ++ int w_id
  ++ sql [""; "  AND o_d_id = "]%string ++ int d_id.
Definition DELIVERY_5 (o_id : bytes) (w_id d_id : Z) : bytes :=
  sql ["UPDATE order_line"; "SET ol_delivery_d = current_timestamp"; "WHERE ol_o_id = "]%string ++ o_id
  ++ sql [""; "  AND ol_w_id = "]%string ++ int w_id ++ sql [""; "  AND ol_d_id = "]%string ++ int d_id.
Definition DELIVERY_6 (o_id : bytes) (w_id d_id : Z) : bytes :=
  sql ["SELECT SUM(ol_amount)"; "FROM order_line"; "WHERE ol_o_id = "]%string ++ o_id
  ++ sql [""; "  AND ol_w_id = "]%string ++ int w_id ++ sql [""; "  AND ol_d_id = "]%string ++ int d_id.
Definition DELIVERY_7 (amount c_id : bytes) (w_id d_id : Z) : bytes :=
  sql ["UPDATE customer"; "SET c_delivery_cnt = c_delivery_cnt + 1,"; "    c_balance = c_balance + "]%string
  ++ amount ++ sql [""; "WHERE c_id = "]%string ++ c_id ++ sql [""; "  AND c_w_id = "]%string ++ int w_id
  ++ sql [""; "  AND c_d_id = "]%string ++ int d_id.

Definition NEW_ORDER_1 (w_id : Z) : bytes :=
  sql ["SELECT w_tax"; "FROM warehouse"; "WHERE w_id = "]%string ++ int w_id.
Definition NEW_ORDER_2 (w_id d_id : Z) : bytes :=
  sql ["SELECT d_tax, d_next_o_id"; "FROM district "; "WHERE d_w_id = "]%string ++ int w_id
  ++ sql [""; "  AND d_id = "]%string ++ int d_id ++ [NL].
Definition NEW_ORDER_3 (w_id d_id : Z) : bytes :=
  sql ["UPDATE district"; "SET d_next_o_id = d_next_o_id + 1"; "WHERE d_w_id = "]%string ++ int w_id
  ++ sql [""; "  AND d_id = "]%string ++ int d_id.
Definition NEW_ORDER_4 (w_id d_id c_id : Z) : bytes :=
  sql ["SELECT c_discount, c_last, c_credit"; "FROM customer"; "WHERE c_w_id = "]%string ++ int w_id
  ++ sql [""; "  AND c_d_id = "]%string ++ int d_id ++ sql [""; "  AND c_id = "]%string ++ int c_id.
Definition NEW_ORDER_5 (o_id : bytes) (w_id d_id : Z) : bytes :=
  sql ["INSERT INTO new_order (no_o_id, no_w_id, no_d_id)"; "VALUES ("]%string ++ o_id
  ++ lit ", " ++ int w_id ++ lit ", " ++ int d_id ++ lit ")".
Definition NEW_ORDER_6 (o_id : bytes) (d_id w_id c_id o_ol_cnt o_all_local : Z) : bytes :=
  sql ["INSERT INTO orders (o_id, o_d_id, o_w_id, o_c_id, o_entry_d,";
       "                    o_carrier_id, o_ol_cnt, o_all_local)"; "VALUES ("]%string ++ o_id
  ++ lit ", " ++ int d_id ++ lit ", " ++ int w_id ++ lit ", " ++ int c_id
  ++ lit ", current_timestamp, NULL, " ++ int o_ol_cnt ++ lit ", " ++ int o_all_local ++ lit ")".
Definition NEW_ORDER_7 (i_id : Z) : bytes :=
  sql ["SELECT i_price, i_name, i_data"; "FROM item"; "WHERE i_id = "]%string ++ int i_id.
Definition NEW_ORDER_8 (column : bytes) (i_id w_id : Z) : bytes :=
  lit "SELECT s_quantity, " ++ column ++ sql [", s_data"; "FROM stock"; "WHERE s_i_id = "]%string
  ++ int i_id ++ sql [""; "  AND s_w_id = "]%string ++ int w_id.
Definition NEW_ORDER_9 (quantity i_id w_id : Z) : bytes :=
  sql ["UPDATE stock"; "SET s_quantity = s_quantity - "]%string ++ int quantity
  ++ sql [""; "WHERE s_i_id = "]%string ++ int i_id ++ sql [""; "  AND s_w_id = "]%string ++ int w_id.
(** The branch of HAVE_SQLITE3. *)
Definition NEW_ORDER_10 (o_id : bytes) (d_id w_id number i_id supply_w_id quantity : Z)
    (amount : double) (dist_info : bytes) : bytes :=
  sql ["INSERT INTO order_line (ol_o_id, ol_d_id, ol_w_id, ol_number,";
       "                        ol_i_id, ol_supply_w_id, ol_delivery_d,";
       "                        ol_quantity, ol_amount, ol_dist_info)"; "VALUES ("]%string ++ o_id
  ++ lit ", " ++ int d_id ++ lit ", " ++ int w_id ++ lit ", " ++ int number ++ lit ", " ++ int i_id
  ++ lit ", " ++ int supply_w_id ++ lit ", current_timestamp, " ++ int quantity ++ lit ", "
  ++ fmt_f 6 amount ++ lit ", '" ++ dist_info ++ lit "')".

Definition ORDER_STATUS_1 (w_id d_id : Z) (c_last : bytes) : bytes :=
  sql ["SELECT c_id"; "FROM customer"; "WHERE c_w_id = "]%string ++ int w_id
  ++ sql [""; "  AND c_d_id = "]%string ++ int d_id ++ sql [""; "  AND c_last = '"]%string ++ c_last
  ++ sql ["'"; "ORDER BY c_first ASC"]%string.
Definition ORDER_STATUS_2 (w_id d_id c_id : Z) : bytes :=
  sql ["SELECT c_first, c_middle, c_last, c_balance"; "FROM customer"; "WHERE c_w_id = "]%string ++ int w_id
  ++ sql [""; "  AND c_d_id = "]%string ++ int d_id ++ sql [""; "  AND c_id = "]%string ++ int c_id.
Definition ORDER_STATUS_3 (w_id d_id c_id : Z) : bytes :=
  sql ["SELECT o_id, o_carrier_id, o_entry_d, o_ol_cnt"; "FROM orders"; "WHERE o_w_id = "]%string ++ int w_id
  ++ sql [""; "  AND o_d_id = "]%string ++ int d_id ++ sql [" "; "  AND o_c_id = "]%string ++ int c_id
  ++ sql [""; "ORDER BY o_id DESC"]%string.
Definition ORDER_STATUS_4 (w_id d_id : Z) (o_id : bytes) : bytes :=
  sql ["SELECT ol_i_id, ol_supply_w_id, ol_quantity, ol_amount,"; "       ol_delivery_d";
       "FROM order_line"; "WHERE ol_w_id = "]%string ++ int w_id
  ++ sql [""; "  AND ol_d_id = "]%string ++ int d_id ++ sql [""; "  AND ol_o_id = "]%string ++ o_id.

Definition PAYMENT_1 (w_id : Z) : bytes :=
  sql ["SELECT w_name, w_street_1, w_street_2, w_city, w_state, w_zip"; "FROM warehouse";
       "WHERE w_id = "]%string ++ int w_id.
Definition PAYMENT_2 (amount : double) (w_id : Z) : bytes :=
  sql ["UPDATE warehouse"; "SET w_ytd = w_ytd + "]%string ++ fmt_f 6 amount
  ++ sql [""; "WHERE w_id = "]%string ++ int w_id.
Definition PAYMENT_3 (d_id w_id : Z) : bytes :=
  sql ["SELECT d_name, d_street_1, d_street_2, d_city, d_state, d_zip"; "FROM district";
       "WHERE d_id = "]%string ++ int d_id ++ sql [""; "  AND d_w_id = "]%string ++ int w_id.
Definition PAYMENT_4 (amount : double) (d_id w_id : Z) : bytes :=
  sql ["UPDATE district"; "SET d_ytd = d_ytd + "]%string ++ fmt_f 6 amount
  ++ sql [""; "WHERE d_id = "]%string ++ int d_id ++ sql [""; "  AND d_w_id = "]%string ++ int w_id.
Definition PAYMENT_5 : Z -> Z -> bytes -> bytes := ORDER_STATUS_1.
Definition PAYMENT_6 (w_id d_id c_id : Z) : bytes :=
  sql ["SELECT c_first, c_middle, c_last, c_street_1, c_street_2, c_city,";
       "       c_state, c_zip, c_phone, c_since, c_credit,";
       "       c_credit_lim, c_discount, c_balance, c_data, c_ytd_payment"; "FROM customer";
       "WHERE c_w_id = "]%string ++ int w_id
  ++ sql [""; "  AND c_d_id = "]%string ++ int d_id ++ sql [""; "  AND c_id = "]%string ++ int c_id.
Definition PAYMENT_7_GC (amount : double) (c_id w_id d_id : Z) : bytes :=
  sql ["UPDATE customer"; "SET c_balance = c_balance - "]%string ++ fmt_f 6 amount
  ++ sql [","; "    c_ytd_payment = c_ytd_payment + 1"; "WHERE c_id = "]%string ++ int c_id
  ++ sql [""; "  AND c_w_id = "]%string ++ int w_id ++ sql [""; "  AND c_d_id = "]%string ++ int d_id.
Definition PAYMENT_7_BC (amount : double) (data : bytes) (c_id w_id d_id : Z) : bytes :=
  sql ["UPDATE customer"; "SET c_balance = c_balance - "]%string ++ fmt_f 6 amount
  ++ sql [","; "    c_ytd_payment = c_ytd_payment + 1,"; "    c_data = substr('"]%string ++ data
  ++ sql ["' || c_data, 1, 500)"; "WHERE c_id = "]%string ++ int c_id
  ++ sql [""; "  AND c_w_id = "]%string ++ int w_id ++ sql [""; "  AND c_d_id = "]%string ++ int d_id.
Definition PAYMENT_8 (c_id c_d_id c_w_id d_id w_id : Z) (amount : double) (w_name d_name : bytes) : bytes :=
  sql ["INSERT INTO history (h_c_id, h_c_d_id, h_c_w_id, h_d_id, h_w_id,";
       "                     h_date, h_amount, h_data)"; "VALUES ("]%string ++ int c_id
  ++ lit ", " ++ int c_d_id ++ lit ", " ++ int c_w_id ++ lit ", " ++ int d_id ++ lit ", " ++ int w_id
  ++ lit ", current_timestamp, " ++ fmt_f 6 amount ++ lit ", '" ++ w_name ++ lit "    " ++ d_name ++ lit "')".

Definition STOCK_LEVEL_1 (w_id d_id : Z) : bytes :=
  sql ["SELECT d_next_o_id"; "FROM district"; "WHERE d_w_id = "]%string ++ int w_id
  ++ sql [""; "AND d_id = "]%string ++ int d_id.
Definition STOCK_LEVEL_2 (d_id w_id threshold lo hi : Z) : bytes :=
  sql ["SELECT count(*)"; "FROM order_line, stock, district"; "WHERE d_id = "]%string ++ int d_id
  ++ sql [""; "  AND d_w_id = "]%string ++ int w_id
  ++ sql [""; "  AND d_id = ol_d_id"; "  AND d_w_id = ol_w_id"; "  AND ol_i_id = s_i_id";
          "  AND ol_w_id = s_w_id"; "  AND s_quantity < "]%string ++ int threshold
  ++ sql [""; "  AND ol_o_id BETWEEN ("]%string ++ int lo ++ sql [")"; "		  AND ("]%string ++ int hi ++ lit ")".

Definition INTEGRITY_1 : bytes := sql ["SELECT count(*)"; "FROM warehouse"; ""]%string.

(** To measure the texts. *)
Create HintDb statements.
#[export] Hint Unfold DELIVERY_1 DELIVERY_2 DELIVERY_3 DELIVERY_4 DELIVERY_5 DELIVERY_6 DELIVERY_7
  NEW_ORDER_1 NEW_ORDER_2 NEW_ORDER_3 NEW_ORDER_4 NEW_ORDER_5 NEW_ORDER_6 NEW_ORDER_7 NEW_ORDER_8
  NEW_ORDER_9 NEW_ORDER_10 ORDER_STATUS_1 ORDER_STATUS_2 ORDER_STATUS_3 ORDER_STATUS_4
  PAYMENT_1 PAYMENT_2 PAYMENT_3 PAYMENT_4 PAYMENT_5 PAYMENT_6 PAYMENT_7_GC PAYMENT_7_BC PAYMENT_8
  STOCK_LEVEL_1 STOCK_LEVEL_2 INTEGRITY_1 : statements.
