(* ===== verification/NonspTxn.v ===== *)
(** * The client-side transactions over SQLite ([src/nonsp])

    Each transaction is a sequence of statements that are formatted with their
    parameters into a buffer, over the operations of [Sqlite].  A null pointer
    that is read, a write beyond an array and a [sprintf] beyond its buffer are
    [None]: C does not say what the program does then.  Allocations succeed.
    The transaction functions return their [int], the [execute] functions OK or
    ERROR. *)

From Stdlib Require Import ZArith Lia SpecFloat String.
From stdpp Require Import base list.
From S2P Require Import Prelude Double Text Common TxnData Wire Tables Db Cockroach Sqlite Nonsp.

(** [sprintf] into an array of [n] bytes. *)
Definition sprintf (n : Z) (s : bytes) : option bytes := if zlen s <? n then Some s else None.

(** [vals[i]] *)
Definition val (vals : list (option bytes)) (i : nat) : option bytes := mjoin (vals !! i).

(** [s_dist[d_id - 1]] *)
Definition s_dist_at (d_id : Z) : option bytes :=
  if (1 <=? d_id) && (d_id <=? 10) then Some (s_dist d_id) else None.

Section nonsp.
Context {S : Type} `{Sqlite S}.
Implicit Types c : sqlite_conn S.

Definition returns {D} (rc : Z) (data : D) c : option (Z * D * sqlite_conn S) := Some (rc, data, c).

(** The wrappers: [failed rc] is the test for "finished with errors". *)
Definition execute_nonsp {D} (failed : Z -> bool) (r : option (Z * D * sqlite_conn S))
  : option (Z * D * sqlite_conn S) :=
  '(rc, data, c) ← r; Some (if failed rc then ERROR else OK, data, c).

(** ** Delivery ([dbc_delivery.c]) *)

(** One round of the loop, [k] the next; [-1] leaves the function. *)
Definition deliver_district_nonsp (data : delivery_t) (d_id : Z) c
    (k : sqlite_conn S -> option (Z * delivery_t * sqlite_conn S))
  : option (Z * delivery_t * sqlite_conn S) :=
  let w_id := dl_w_id data in
  let error := returns (-1) data in
  query ← sprintf 256 (DELIVERY_1 w_id d_id);
  select query 1 c k (fun vals c =>
  match val vals 0 with
  | None => k c
  | Some no_o_id =>
      if atoi no_o_id >? 0 then
        query ← sprintf 256 (DELIVERY_2 no_o_id w_id d_id);
        run query c error (fun c =>
        query ← sprintf 256 (DELIVERY_3 no_o_id w_id d_id);
        select query 1 c error (fun vals c =>
        let o_c_id := val vals 0 in
        query ← sprintf 256 (DELIVERY_4 (dl_o_carrier_id data) no_o_id w_id d_id);
        run query c error (fun c =>
        query ← sprintf 256 (DELIVERY_5 no_o_id w_id d_id);
        run query c error (fun c =>
        query ← sprintf 256 (DELIVERY_6 no_o_id w_id d_id);
        select query 1 c error (fun vals c =>
        match val vals 0 with
        | None => error c
        | Some ol_amount =>
            o_c_id ← o_c_id;
            run (snprintf 250 (DELIVERY_7 ol_amount o_c_id w_id d_id)) c error k
        end)))))
      else k c
  end).

Fixpoint deliver_districts_nonsp (data : delivery_t) (ds : list Z) c
  : option (Z * delivery_t * sqlite_conn S) :=
  match ds with
  | [] => returns 1 data c
  | d_id :: ds' =>
      deliver_district_nonsp data d_id c (fun c => deliver_districts_nonsp data ds' c)
  end.

Definition delivery_nonsp (data : delivery_t) c : option (Z * delivery_t * sqlite_conn S) :=
  deliver_districts_nonsp data (zrange 1 11) c.

Definition execute_delivery_nonsp (data : delivery_t) c :=
  execute_nonsp (fun rc => rc =? -1) (delivery_nonsp data c).

(** ** The integrity check ([dbc_integrity.c]) *)

Definition integrity_nonsp (data : integrity_t) c : option (Z * integrity_t * sqlite_conn S) :=
  query ← sprintf 256 INTEGRITY_1;
  select query 1 c (returns (-1) data) (fun vals c =>
  match val vals 0 with
  | None => returns (-1) data c
  | Some v => returns (if negb (atoi v =? it_w_id data) then -1 else 1) data c
  end).

Definition execute_integrity_nonsp (data : integrity_t) c :=
  execute_nonsp (fun rc => rc =? -1) (integrity_nonsp data c).

(** ** Stock-Level ([dbc_stock_level.c]) *)

Definition stock_level_nonsp (data : stock_level_t) c : option (Z * stock_level_t * sqlite_conn S) :=
  query ← sprintf 256 (STOCK_LEVEL_1 (sl_w_id data) (sl_d_id data));
  select query 1 c (returns (-1) data) (fun vals c =>
  match val vals 0 with
  | None => returns (-1) data c
  | Some v =>
      let d_next_o_id := atoi v in
      query ← sprintf 256 (STOCK_LEVEL_2 (sl_d_id data) (sl_w_id data) (sl_threshold data)
                             (i32 (d_next_o_id - 20)) (i32 (d_next_o_id - 1)));
      select query 1 c (returns (-1) data) (fun vals c =>
      match val vals 0 with
      | None => returns (-1) data c
      | Some v => returns (atoi v) data c
      end)
  end).

(** The value returned is the count. *)
Definition execute_stock_level_nonsp (data : stock_level_t) c
  : option (Z * stock_level_t * sqlite_conn S) :=
  '(rc, data, c) ← stock_level_nonsp data c;
  if rc =? -1 then Some (ERROR, data, c)
  else Some (OK, mk_stock_level (sl_w_id data) (sl_d_id data) (sl_threshold data) rc, c).

(** ** New-Order ([dbc_new_order.c]) *)

(** What the arrays hold of one order line. *)
Record fetched_line := mk_fetched {
  f_price : option bytes; f_name : option bytes; f_data : option bytes;
  f_quantity : option bytes; f_stock_data : option bytes; f_amount : double }.

(** The loop from line [i] on, [n] lines: [rc], with [data->rollback] and the
    arrays. *)
Fixpoint new_order_lines_nonsp (data : new_order_t) (o_id : option bytes) (n i : nat) c
  : option (Z * (Z * list fetched_line) * sqlite_conn S) :=
  match n with
  | O => returns 0 (0, []) c
  | Datatypes.S n' =>
      line ← no_order_line data !! i;
      let i_id := ol_i_id line in
      let quantity := ol_quantity line in
      query ← sprintf 1024 (NEW_ORDER_7 i_id);
      if i_id =? 0 then returns 2 (1, []) c
      else select query 3 c (returns (-1) (0, [])) (fun item c =>
        price ← val item 0;
        let ol_amount := to_float (dmul (atof price) (float_of_int quantity)) in
        column ← s_dist_at (no_d_id data);
        query ← sprintf 1024 (NEW_ORDER_8 column i_id (no_w_id data));
        select query 3 c (returns 16 (0, [])) (fun stock c =>
        s_quantity ← val stock 0;
        query ← sprintf 1024
          (NEW_ORDER_9 (decr_quantity_of (atoi s_quantity) quantity) i_id (no_w_id data));
        run query c (returns 17 (0, [])) (fun c =>
        o_id' ← o_id;
        dist_info ← val stock 1;
        query ← sprintf 1024
          (NEW_ORDER_10 o_id' (no_d_id data) (no_w_id data) (Z.of_nat i + 1) i_id
             (ol_supply_w_id line) quantity ol_amount dist_info);
        run query c (returns 18 (0, [])) (fun c =>
        '(rc, found, c) ← new_order_lines_nonsp data o_id n' (Datatypes.S i) c;
        returns rc
          (found.1,
           mk_fetched (val item 0) (val item 1) (val item 2) (val stock 0) (val stock 2) ol_amount
             :: found.2) c))))
  end.

Definition brand_of (i_data s_data : option bytes) : Z :=
  match i_data, s_data with Some i, Some s => brand_generic_of i s | _, _ => 71 end.

Definition fill_line (f : fetched_line) (line : no_order_line_t) : no_order_line_t :=
  set_ol_stock (int_or_zero (f_quantity f)) (brand_of (f_data f) (f_stock_data f))
    (set_ol_item (dbt2_copy_value (i_name line) (f_name f) (4 * (Size.I_NAME_LEN + 1)))
       (float_or_zero (f_price f)) (f_amount f) line).

Fixpoint fill_lines (fs : list fetched_line) (lines : list no_order_line_t) : list no_order_line_t :=
  match fs, lines with
  | f :: fs', line :: lines' => fill_line f line :: fill_lines fs' lines'
  | _, _ => lines
  end.

Definition new_order_output (tax district customer : list (option bytes)) (fs : list fetched_line)
    (data : new_order_t) : new_order_t :=
  set_no_output data (fill_lines fs (no_order_line data)) (int_or_zero (val district 1))
    (fold_left (fun total f => dadd total (f_amount f)) fs d_zero)
    (float_or_zero (val tax 0)) (float_or_zero (val district 0))
    (dbt2_copy_value (no_c_last data) (val customer 1) (4 * (Size.C_LAST_LEN + 1)))
    (dbt2_copy_value (no_c_credit data) (val customer 2) (Size.C_CREDIT_LEN + 1))
    (float_or_zero (val customer 0)) (no_rollback data).

Definition new_order_nonsp (data : new_order_t) c : option (Z * new_order_t * sqlite_conn S) :=
  let w_id := no_w_id data in
  let d_id := no_d_id data in
  let c_id := no_c_id data in
  let data := set_no_rollback 0 data in
  query ← sprintf 1024 (NEW_ORDER_1 w_id);
  select query 1 c (returns 10 data) (fun tax c =>
  query ← sprintf 1024 (NEW_ORDER_2 w_id d_id);
  select query 2 c (returns 11 data) (fun district c =>
  query ← sprintf 1024 (NEW_ORDER_3 w_id d_id);
  run query c (returns 12 data) (fun c =>
  query ← sprintf 1024 (NEW_ORDER_4 w_id d_id c_id);
  select query 3 c (returns 13 data) (fun customer c =>
  let d_next_o_id := val district 1 in
  o_id ← d_next_o_id;
  query ← sprintf 1024 (NEW_ORDER_5 o_id w_id d_id);
  run query c (returns 14 data) (fun c =>
  query ← sprintf 1024
    (NEW_ORDER_6 o_id d_id w_id c_id (no_o_ol_cnt data) (no_o_all_local data));
  run query c (returns 15 data) (fun c =>
  '(rc, found, c) ← new_order_lines_nonsp data d_next_o_id (Z.to_nat (no_o_ol_cnt data)) 0 c;
  returns rc
    (if rc =? 0 then new_order_output tax district customer found.2 data
     else set_no_rollback found.1 data) c)))))).

Definition execute_new_order_nonsp (data : new_order_t) c :=
  execute_nonsp (fun rc => negb (rc =? 0)) (new_order_nonsp data c).

(** ** The customer by last name

    [c_ids_array]: NULL is -1.  The number in the middle, -1 without rows. *)
Definition c_ids_array (rows : list (list (option bytes))) : list Z :=
  map (fun vals => from_option atoi (-1) (val vals 0)) rows.

Definition middle_c_id (ids : list Z) : Z :=
  if zlen ids =? 0 then -1 else default 0 (ids !! Z.to_nat ((zlen ids - 1) / 2)).

(** ** Payment ([dbc_payment.c]) *)

Definition payment_customer_nonsp (data : payment_t) c
    (k : Z -> sqlite_conn S -> option (Z * payment_t * sqlite_conn S))
  : option (Z * payment_t * sqlite_conn S) :=
  if pa_c_id data =? 0 then
    query ← sprintf 4096
      (PAYMENT_5 (pa_c_w_id data) (pa_c_d_id data)
         (wcstombs (pa_c_last data) (4 * (Size.C_LAST_LEN + 1))));
    select_all query 1 c (returns (-1) data) (fun rows r c =>
    let my_c_id := middle_c_id (c_ids_array rows) in
    let '(_, _, c) := sql_close_cursor_sqlite r c in
    if my_c_id =? -1 then returns (-1) data c else k my_c_id c)
  else k (pa_c_id data) c.

(** ["%d %d %d %d %d %f "] *)
Definition my_c_data (data : payment_t) (my_c_id : Z) (h_amount : double) : bytes :=
  int my_c_id ++ lit " " ++ int (pa_c_d_id data) ++ lit " " ++ int (pa_c_w_id data) ++ lit " "
  ++ int (pa_d_id data) ++ lit " " ++ int (pa_w_id data) ++ lit " " ++ fmt_f 6 h_amount ++ lit " ".

Definition payment_update_nonsp (data : payment_t) (my_c_id : Z) (h_amount : double) (c_credit : bytes)
    c (k : sqlite_conn S -> option (Z * payment_t * sqlite_conn S))
  : option (Z * payment_t * sqlite_conn S) :=
  if List.hd 0 c_credit =? 71 then
    query ← sprintf 4096 (PAYMENT_7_GC h_amount my_c_id (pa_c_w_id data) (pa_c_d_id data));
    run query c (returns (-1) data) k
  else
    c_data ← sprintf 100 (my_c_data data my_c_id h_amount);
    esc_c_data ← sprintf 200 (dbt2_escape_str c_data);
    query ← sprintf 4096
      (PAYMENT_7_BC h_amount esc_c_data my_c_id (pa_c_w_id data) (pa_c_d_id data));
    run query c (returns (-1) data) k.

Definition payment_output (ws ds cs : list (option bytes)) (my_c_id : Z) (h_amount : double)
    (data : payment_t) : payment_t :=
  let copy := dbt2_copy_value in
  let data :=
    set_pa_warehouse (copy (pa_w_name data) (val ws 0) (4 * (Size.W_NAME_LEN + 1)))
      (copy (pa_w_street_1 data) (val ws 1) (4 * (Size.W_STREET_1_LEN + 1)))
      (copy (pa_w_street_2 data) (val ws 2) (4 * (Size.W_STREET_2_LEN + 1)))
      (copy (pa_w_city data) (val ws 3) (4 * (Size.W_CITY_LEN + 1)))
      (copy (pa_w_state data) (val ws 4) (4 * (Size.W_STATE_LEN + 1)))
      (copy (pa_w_zip data) (val ws 5) (4 * (Size.W_ZIP_LEN + 1))) data in
  let data :=
    set_pa_district (copy (pa_d_name data) (val ds 0) (4 * (Size.D_NAME_LEN + 1)))
      (copy (pa_d_street_1 data) (val ds 1) (4 * (Size.D_STREET_1_LEN + 1)))
      (copy (pa_d_street_2 data) (val ds 2) (4 * (Size.D_STREET_2_LEN + 1)))
      (copy (pa_d_city data) (val ds 3) (4 * (Size.D_CITY_LEN + 1)))
      (copy (pa_d_state data) (val ds 4) (4 * (Size.D_STATE_LEN + 1)))
      (copy (pa_d_zip data) (val ds 5) (4 * (Size.D_ZIP_LEN + 1))) data in
  let data :=
    set_pa_customer my_c_id (copy (pa_c_first data) (val cs 0) (4 * (Size.C_FIRST_LEN + 1)))
      (copy (pa_c_middle data) (val cs 1) (Size.C_MIDDLE_LEN + 1))
      (match val cs 2 with
       | Some v => mbstowcs (pa_c_last data) v (Size.C_LAST_LEN + 1)
       | None => pa_c_last data end)
      (copy (pa_c_street_1 data) (val cs 3) (4 * (Size.C_STREET_1_LEN + 1)))
      (copy (pa_c_street_2 data) (val cs 4) (4 * (Size.C_STREET_2_LEN + 1)))
      (copy (pa_c_city data) (val cs 5) (4 * (Size.C_CITY_LEN + 1)))
      (copy (pa_c_state data) (val cs 6) (4 * (Size.C_STATE_LEN + 1)))
      (copy (pa_c_zip data) (val cs 7) (4 * (Size.C_ZIP_LEN + 1)))
      (copy (pa_c_phone data) (val cs 8) (4 * (Size.C_PHONE_LEN + 1)))
      (copy (pa_c_since data) (val cs 9) (Size.C_SINCE_LEN + 1))
      (copy (pa_c_credit data) (val cs 10) (Size.C_CREDIT_LEN + 1))
      (float_or_zero (val cs 11)) (float_or_zero (val cs 12))
      (dsub (float_or_zero (val cs 13)) h_amount) data in
  set_pa_result (copy (pa_c_data data) (val cs 14) (4 * (Size.C_DATA_LEN + 1))) (pa_h_date data) data.

Definition payment_nonsp (data : payment_t) c : option (Z * payment_t * sqlite_conn S) :=
  let h_amount := to_float (pa_h_amount data) in
  let w_id := pa_w_id data in
  let d_id := pa_d_id data in
  let error := returns (-1) data in
  query ← sprintf 4096 (PAYMENT_1 w_id);
  select query 6 c error (fun ws c =>
  query ← sprintf 4096 (PAYMENT_2 h_amount w_id);
  run query c error (fun c =>
  query ← sprintf 4096 (PAYMENT_3 d_id w_id);
  select query 6 c error (fun ds c =>
  query ← sprintf 4096 (PAYMENT_4 h_amount d_id w_id);
  run query c error (fun c =>
  payment_customer_nonsp data c (fun my_c_id c =>
  query ← sprintf 4096 (PAYMENT_6 (pa_c_w_id data) (pa_c_d_id data) my_c_id);
  select query 16 c error (fun cs c =>
  match val cs 10 with
  | None => error c
  | Some c_credit =>
      payment_update_nonsp data my_c_id h_amount c_credit c (fun c =>
      w_name ← val ws 0;
      my_w_name ← sprintf (2 * 4 * (Size.W_NAME_LEN + 1)) (dbt2_escape_str w_name);
      d_name ← val ds 0;
      my_d_name ← sprintf (2 * 4 * (Size.D_NAME_LEN + 1)) (dbt2_escape_str d_name);
      query ← sprintf 4096
        (PAYMENT_8 my_c_id (pa_c_d_id data) (pa_c_w_id data) d_id w_id h_amount my_w_name my_d_name);
      run query c error (returns 1 (payment_output ws ds cs my_c_id h_amount data)))
  end)))))).

Definition execute_payment_nonsp (data : payment_t) c :=
  execute_nonsp (fun rc => rc =? -1) (payment_nonsp data c).

(** ** Order-Status ([dbc_order_status.c]) *)

Definition order_status_customer_nonsp (data : order_status_t) c
    (k : Z -> sqlite_conn S -> option (Z * order_status_t * sqlite_conn S))
  : option (Z * order_status_t * sqlite_conn S) :=
  if os_c_id data =? 0 then
    query ← sprintf 512
      (ORDER_STATUS_1 (os_c_w_id data) (os_c_d_id data)
         (wcstombs (os_c_last data) (4 * (Size.C_LAST_LEN + 1))));
    select_all query 1 c (returns (-1) data) (fun rows r c =>
    let my_c_id := middle_c_id (c_ids_array rows) in
    if my_c_id =? -1 then returns (-1) data c
    else let '(_, _, c) := sql_close_cursor_sqlite r c in k my_c_id c)
  else k (os_c_id data) c.

Definition fill_os_line (vals : list (option bytes)) (line : os_order_line_t) : os_order_line_t :=
  mk_os_order_line (int_or_zero (val vals 0)) (int_or_zero (val vals 1)) (int_or_zero (val vals 2))
    (float_or_zero (val vals 3))
    (dbt2_copy_value (osl_delivery_d line) (val vals 4) (Size.OL_DELIVERY_D_LEN + 1)).

Fixpoint fill_os_lines (rows : list (list (option bytes))) (lines : list os_order_line_t)
  : list os_order_line_t :=
  match rows, lines with
  | vals :: rows', line :: lines' => fill_os_line vals line :: fill_os_lines rows' lines'
  | _, _ => lines
  end.

Definition order_status_output (my_c_id : Z) (cs os : list (option bytes))
    (rows : list (list (option bytes))) (data : order_status_t) : order_status_t :=
  let data := set_os_c_id my_c_id data in
  let data :=
    set_os_customer (dbt2_copy_value (os_c_first data) (val cs 0) (4 * (Size.C_FIRST_LEN + 1)))
      (dbt2_copy_value (os_c_middle data) (val cs 1) (Size.C_MIDDLE_LEN + 1))
      (match val cs 2 with
       | Some v => mbstowcs (os_c_last data) v (Size.C_LAST_LEN + 1)
       | None => os_c_last data end)
      (float_or_zero (val cs 3)) data in
  let data := set_os_order (int_or_zero (val os 0)) (int_or_zero (val os 1))
                (dbt2_copy_value (os_o_entry_d data) (val os 2) (Size.O_ENTRY_D_LEN + 1)) data in
  set_os_lines (zlen rows) (fill_os_lines rows (os_order_line data)) data.

(** The arrays for the lines have 15 elements. *)
Definition order_status_nonsp (data : order_status_t) c
  : option (Z * order_status_t * sqlite_conn S) :=
  let error := returns (-1) data in
  order_status_customer_nonsp data c (fun my_c_id c =>
  query ← sprintf 512 (ORDER_STATUS_2 (os_c_w_id data) (os_c_d_id data) my_c_id);
  select query 4 c error (fun cs c =>
  query ← sprintf 512 (ORDER_STATUS_3 (os_c_w_id data) (os_c_d_id data) my_c_id);
  select query 4 c error (fun os c =>
  o_id ← val os 0;
  query ← sprintf 512 (ORDER_STATUS_4 (os_c_w_id data) (os_c_d_id data) o_id);
  select_all query 5 c error (fun rows r c =>
  if zlen rows >? 15 then None
  else
    let '(_, _, c) := sql_close_cursor_sqlite r c in
    returns 1 (order_status_output my_c_id cs os rows data) c)))).

Definition execute_order_status_nonsp (data : order_status_t) c :=
  execute_nonsp (fun rc => rc =? -1) (order_status_nonsp data c).
End nonsp.

(** ** The function pointers [db_init_sqlite] stores

    [None] is a program whose behaviour is no longer defined. *)
Section ops.
Context {S : Type} `{Sqlite S}.

Definition defined {A} (bad : A) (f : sqlite_conn S -> A * sqlite_conn S) (w : option (sqlite_conn S))
  : A * option (sqlite_conn S) :=
  match w with None => (bad, None) | Some c => let '(a, c) := f c in (a, Some c) end.

Definition defined_txn {D} (f : D -> sqlite_conn S -> option (Z * D * sqlite_conn S)) (data : D)
    (w : option (sqlite_conn S)) : Z * D * option (sqlite_conn S) :=
  match w ≫= f data with None => (ERROR, data, None) | Some (rc, data, c) => (rc, data, Some c) end.

Definition sqlite_ops (dbname : bytes) : DbOps (option (sqlite_conn S)) := {|
  time := defined 0 (fun c => let '(t, s) := sqlite_time (lib c) in (t, mk_sqlite s (in_transaction c)));
  sleep_retry := fun w => (defined tt (fun c =>
                   (tt, mk_sqlite (sqlite_nanosleep (lib c)) (in_transaction c))) w).2;
  connect := defined ERROR (connect_to_db_sqlite dbname);
  disconnect := defined ERROR disconnect_from_db_sqlite;
  commit_transaction := defined ERROR commit_transaction_sqlite;
  rollback_transaction := defined ERROR rollback_transaction_sqlite;
  execute_integrity := defined_txn execute_integrity_nonsp;
  execute_delivery := defined_txn execute_delivery_nonsp;
  execute_new_order := defined_txn execute_new_order_nonsp;
  execute_order_status := defined_txn execute_order_status_nonsp;
  execute_payment := defined_txn execute_payment_nonsp;
  execute_stock_level := defined_txn execute_stock_level_nonsp |}.

(** They keep the promises of the interface. *)
Lemma sqlite_laws (dbname : bytes) : DbLaws (option (sqlite_conn S)) (H := sqlite_ops dbname).
Proof.
  split; intros [c|]; cbn; try done; unfold commit_transaction_sqlite, rollback_transaction_sqlite;
    destruct (in_transaction c); try done; destruct (sqlite3_exec _ _) as [rc s];
    by destruct (rc =? SQLITE_OK).
Qed.
End ops.
