(* ===== verification/Lengths.v ===== *)
(** * Lengths of formatted texts

    How long a number is once it is formatted, and the [sprintf] that fits its
    buffer: what the back ends that format whole statements share. *)

From Stdlib Require Import ZArith Lia SpecFloat String.
From stdpp Require Import base list.
From S2P Require Import Prelude Double Text Common TxnData Tables Nonsp NonspTxn.

(** [c_last], after [wcstombs] into its [4 * (C_LAST_LEN + 1)] bytes: a string
    that fills them all has no end. *)
Definition c_last_bytes (c_last : list Z) : option bytes :=
  sprintf (4 * (Size.C_LAST_LEN + 1)) (wcstombs c_last (4 * (Size.C_LAST_LEN + 1))).

(** A number of C. *)
Definition int32 (z : Z) : Prop := - 2 ^ 31 <= z < 2 ^ 31.

Lemma short_upto k z : - 10 ^ Z.of_nat k < z < 10 ^ Z.of_nat (S k) -> zlen (int z) <= Z.of_nat (S k).
Proof.
  intros Hz. unfold int, fmt_d, zlen. destruct (Z.ltb_spec z 0).
  - rewrite length_app. change (List.length (lit "-")) with 1%nat. destruct k as [|k]; [change (10 ^ Z.of_nat 0) with 1 in Hz; lia|].
    pose proof (length_dec k (- z) ltac:(lia)). lia.
  - pose proof (length_dec k z ltac:(lia)). lia.
Qed.

Lemma short_int z : int32 z -> zlen (int z) <= 11.
Proof.
  unfold int32. intros Hz. apply (short_upto 10). change (10 ^ Z.of_nat 10) with 10000000000.
  change (10 ^ Z.of_nat 11) with 100000000000. lia.
Qed.

Lemma sprintf_short n s : zlen s < n -> sprintf n s = Some s.
Proof. unfold sprintf. intros Hs. by rewrite (proj2 (Z.ltb_lt _ _) Hs). Qed.

Lemma int32_i32 z : int32 (i32 z).
Proof. apply i32_range. Qed.

Lemma short_digits z : 0 <= z < 100 -> zlen (int z) <= 2.
Proof.
  intros Hz. apply (short_upto 1). change (10 ^ Z.of_nat 1) with 10. change (10 ^ Z.of_nat 2) with 100. lia.
Qed.

(** ** Last names *)

Lemma short_wcstombs s n : zlen (wcstombs s n) <= 4 * zlen s.
Proof.
  revert n. induction s as [|c s IH]; intros n; [done|]. cbn [wcstombs]. rewrite zlen_cons.
  pose proof (utf8_length c). pose proof (Zle_0_nat (List.length s)).
  destruct (_ <=? _); [rewrite zlen_app; specialize (IH (n - zlen (utf8 c)))|change (zlen []) with 0]; unfold zlen in *; lia.
Qed.

Definition short_name (s : list Z) : Prop := zlen s <= 16.

Lemma short_c_last s : short_name s ->
  exists t, c_last_bytes s = Some t /\ zlen t <= 64.
Proof.
  intros Hs. pose proof (short_wcstombs s (4 * (Size.C_LAST_LEN + 1))) as Hw. unfold short_name in Hs.
  exists (wcstombs s (4 * (Size.C_LAST_LEN + 1))). split; [|lia].
  apply sprintf_short. unfold Size.C_LAST_LEN in *. lia.
Qed.
