(* ===== verification/SqliteServer.v ===== *)
(** * A SQLite database behind the back end

    What [src/sqlite] relies on of the library: transactions, statements from
    [sqlite3_prepare_v2] to [sqlite3_finalize], and errors anywhere, some of which
    roll the transaction back.  The rules say what the operations of [Sqlite] and
    the ways the transactions use them do under these laws. *)

From Stdlib Require Import ZArith Lia String.
From stdpp Require Import base list gmap.
From S2P Require Import Prelude Text Sqlite.

(** NULL is [None]. *)
Abbreviation sql_row := (list (option bytes)).

(** A statement that took effect, with the rows it answered. *)
Definition event : Type := bytes * list sql_row.

Definition is_select (query : bytes) : bool := is_prefix (lit "SELECT") query.

(** The columns of a SELECT: the commas before FROM, and one more. *)
Fixpoint commas (query : bytes) : nat :=
  if is_prefix (NL :: lit "FROM") query then 0
  else match query with
       | [] => 0
       | ch :: query' => (if ch =? 44 then 1 else 0) + commas query'
       end.
Definition columns (query : bytes) : nat := if is_select query then 1 + commas query else 0.

Inductive cursor :=
| Fresh (query : bytes)
| At_row (query : bytes) (current : sql_row) (left_ : list sql_row)
| Complete
| Failed.

(** What one client sees of its work: the transactions it has stored, the one
    that is open ([None]: every statement is stored by itself), and its
    statements that are not finalized. *)
Record sqlite_db := mk_sqlite_db {
  stored : list (list event); work : option (list event); live : gmap Z cursor }.

Definition effect (e : event) (d : sqlite_db) : sqlite_db :=
  match work d with
  | Some b => mk_sqlite_db (stored d) (Some (b ++ [e])) (live d)
  | None => mk_sqlite_db (stored d ++ [[e]]) None (live d)
  end.
Definition rolled_back (d : sqlite_db) : sqlite_db := mk_sqlite_db (stored d) None (live d).
Definition set_live (l : gmap Z cursor) (d : sqlite_db) : sqlite_db := mk_sqlite_db (stored d) (work d) l.

Definition is_done (rc : Z) : Prop := rc = SQLITE_ROW \/ rc = SQLITE_DONE.

Section step.
Context (auto_rollback : bytes -> Prop) (answers : bytes -> list sql_row -> Prop).

(** [sqlite3_step]: a statement takes effect with its first step. *)
Inductive stepped (h : Z) (d : sqlite_db) : cursor -> Z -> sqlite_db -> Prop :=
| first_row query r rows : is_select query = true -> answers query (r :: rows) ->
    Forall (fun r => List.length r = columns query) (r :: rows) ->
    stepped h d (Fresh query) SQLITE_ROW
      (effect (query, r :: rows) (set_live (<[h := At_row query r rows]> (live d)) d))
| no_row query : answers query [] ->
    stepped h d (Fresh query) SQLITE_DONE
      (effect (query, []) (set_live (<[h := Complete]> (live d)) d))
| next_row query r r' rows :
    stepped h d (At_row query r (r' :: rows)) SQLITE_ROW
      (set_live (<[h := At_row query r' rows]> (live d)) d)
| last_row query r :
    stepped h d (At_row query r []) SQLITE_DONE (set_live (<[h := Complete]> (live d)) d)
| step_failed query cur rc d' : (cur = Fresh query \/ exists r, cur = At_row query r []) ->
    ~ is_done rc -> (d' = d \/ (auto_rollback query /\ d' = rolled_back d)) ->
    stepped h d cur rc (set_live (<[h := Failed]> (live d)) d').

Lemma stepped_fresh h d q rc d' : stepped h d (Fresh q) rc d' ->
  (rc = SQLITE_ROW /\ is_select q = true
   /\ exists r rows, answers q (r :: rows) /\ Forall (fun r => List.length r = columns q) (r :: rows)
      /\ d' = effect (q, r :: rows) (set_live (<[h := At_row q r rows]> (live d)) d))
  \/ (rc = SQLITE_DONE /\ answers q []
      /\ d' = effect (q, []) (set_live (<[h := Complete]> (live d)) d))
  \/ (~ is_done rc /\ exists d0, d' = set_live (<[h := Failed]> (live d)) d0
      /\ (d0 = d \/ (auto_rollback q /\ d0 = rolled_back d))).
Proof.
  inversion 1 as [? r rows| | | |? cur ? d0 Hcur]; subst; [left|right; left|right; right]; eauto 10.
  destruct Hcur as [[= ->]|[r Hr]]; [eauto 10|done].
Qed.

Lemma stepped_row h d q r rows rc d' : stepped h d (At_row q r rows) rc d' ->
  (rc = SQLITE_ROW /\ exists r' rows', rows = r' :: rows'
      /\ d' = set_live (<[h := At_row q r' rows']> (live d)) d)
  \/ (rc = SQLITE_DONE /\ rows = [] /\ d' = set_live (<[h := Complete]> (live d)) d)
  \/ (~ is_done rc /\ rows = [] /\ exists d0, d' = set_live (<[h := Failed]> (live d)) d0
      /\ (d0 = d \/ (auto_rollback q /\ d0 = rolled_back d))).
Proof.
  inversion 1 as [| | | |q0 cur ? d0 Hcur]; subst; [left|right; left|right; right]; eauto 10.
  destruct Hcur as [Hcur|[r0 Hcur]]; [done|]. injection Hcur as -> -> ->. eauto 10.
Qed.
End step.

Class SqliteServer (S : Type) `{Sqlite S} := {
  sqlite_db_of : S -> sqlite_db;
  (** the rows that a statement may answer *)
  answers : bytes -> list sql_row -> Prop;
  (** the statements whose errors may roll the transaction back *)
  auto_rollback : bytes -> Prop;
  sqlite_open_law name s : work (sqlite_db_of s) = None -> live (sqlite_db_of s) = ∅ ->
    sqlite_db_of (sqlite3_open name s).2 = sqlite_db_of s;
  sqlite_close_law s : live (sqlite_db_of s) = ∅ ->
    sqlite_db_of (sqlite3_close s) = rolled_back (sqlite_db_of s);
  sqlite_begin_law s :
    let '(rc, s') := sqlite3_exec (lit "BEGIN TRANSACTION;") s in
    (rc = SQLITE_OK /\ work (sqlite_db_of s) = None
     /\ sqlite_db_of s' = mk_sqlite_db (stored (sqlite_db_of s)) (Some []) (live (sqlite_db_of s)))
    \/ (rc <> SQLITE_OK /\ sqlite_db_of s' = sqlite_db_of s);
  sqlite_commit_law s :
    let '(rc, s') := sqlite3_exec (lit "COMMIT TRANSACTION;") s in
    (rc = SQLITE_OK /\ exists b, work (sqlite_db_of s) = Some b
     /\ sqlite_db_of s' = mk_sqlite_db (stored (sqlite_db_of s) ++ [b]) None (live (sqlite_db_of s)))
    \/ (rc <> SQLITE_OK
        /\ (sqlite_db_of s' = sqlite_db_of s \/ sqlite_db_of s' = rolled_back (sqlite_db_of s)));
  sqlite_rollback_law s :
    let '(rc, s') := sqlite3_exec (lit "ROLLBACK TRANSACTION;") s in
    (rc = SQLITE_OK /\ sqlite_db_of s' = rolled_back (sqlite_db_of s))
    \/ (rc <> SQLITE_OK
        /\ (sqlite_db_of s' = sqlite_db_of s \/ sqlite_db_of s' = rolled_back (sqlite_db_of s)));
  sqlite_prepare_law query s :
    let '(rc, h, s') := sqlite3_prepare_v2 query s in
    (rc = SQLITE_OK /\ h <> 0 /\ live (sqlite_db_of s) !! h = None
     /\ sqlite_db_of s' = set_live (<[h := Fresh query]> (live (sqlite_db_of s))) (sqlite_db_of s))
    \/ (rc <> SQLITE_OK /\ h = 0 /\ sqlite_db_of s' = sqlite_db_of s);
  sqlite_step_law h cur s : live (sqlite_db_of s) !! h = Some cur -> cur <> Complete -> cur <> Failed ->
    stepped auto_rollback answers h (sqlite_db_of s) cur (sqlite3_step h s).1
      (sqlite_db_of (sqlite3_step h s).2);
  sqlite_finalize_law h s : h = 0 \/ is_Some (live (sqlite_db_of s) !! h) ->
    sqlite_db_of (sqlite3_finalize h s).2
    = (if h =? 0 then sqlite_db_of s
       else set_live (delete h (live (sqlite_db_of s))) (sqlite_db_of s));
  sqlite_complete_law h s : live (sqlite_db_of s) !! h = Some Complete ->
    (sqlite3_finalize h s).1 = SQLITE_OK;
  sqlite_text_law h query r rows i s : live (sqlite_db_of s) !! h = Some (At_row query r rows) ->
    sqlite3_column_text h (Z.of_nat i) s = mjoin (r !! i);
  sqlite_count_law h query s : live (sqlite_db_of s) !! h = Some (Fresh query) ->
    sqlite3_column_count h s = Z.of_nat (columns query);
  sqlite_left_law h query r rows s : live (sqlite_db_of s) !! h = Some (At_row query r rows) ->
    rows_left h s = List.length rows;
  sqlite_no_null_statement s : live (sqlite_db_of s) !! 0 = None;
  sqlite_time_law s : sqlite_db_of (sqlite_time s).2 = sqlite_db_of s;
  sqlite_sleep_law s : sqlite_db_of (sqlite_nanosleep s) = sqlite_db_of s }.

Section rules.
Context {S : Type} `{SqliteServer S}.
Implicit Types c : sqlite_conn S.

(** ** The connection between statements

    [L]: the statements that others have open. *)
Definition db_of c : sqlite_db := sqlite_db_of (lib c).

Definition settled (V : list (list event)) (L : gmap Z cursor) c : Prop :=
  stored (db_of c) = V /\ live (db_of c) = L /\ (in_transaction c = false -> work (db_of c) = None).

Definition in_txn V (b : list event) L c : Prop :=
  in_transaction c = true /\ db_of c = mk_sqlite_db V (Some b) L.

(** In a transaction with the work [b], or before its [BEGIN]. *)
Definition working V (b : list event) L c : Prop :=
  in_txn V b L c \/ (b = [] /\ in_transaction c = false /\ db_of c = mk_sqlite_db V None L).

(** What an error of [query] leaves. *)
Definition failed_in V b L (query : bytes) c : Prop :=
  working V b L c \/ (auto_rollback query /\ settled V L c).

(** As the program reads a value. *)
Definition seen (v : option bytes) : option bytes :=
  match v with Some t => Some t | None => strndup_null end.

Lemma working_settled V b L c : working V b L c -> settled V L c.
Proof.
  unfold settled. intros [[Hf Hc]|(_ & Hf & Hc)]; rewrite Hc; split_and!; try done. by rewrite Hf.
Qed.

Lemma failed_settled V b L q c : failed_in V b L q c -> settled V L c.
Proof. intros [Hc|[_ Hc]]; [by eapply working_settled|done]. Qed.

Lemma in_txn_settled V b L c : in_txn V b L c -> settled V L c.
Proof. intros [Hf Hc]. eapply working_settled. by left. Qed.

(** ** [sql_fetchrow] *)

Lemma finalize_live h s d L : sqlite_db_of s = set_live L d -> is_Some (L !! h) ->
  sqlite_db_of (sqlite3_finalize h s).2 = set_live (delete h L) d.
Proof.
  intros Hs Hh. pose proof (sqlite_no_null_statement s) as Hnull.
  rewrite sqlite_finalize_law by (right; by rewrite Hs). rewrite Hs in *. cbn in *.
  destruct (Z.eqb_spec h 0) as [->|_]; [|done]. rewrite Hnull in Hh. by destruct Hh.
Qed.

(** A statement that has ended, finalized at once. *)
Lemma finalize_ended h s d L cur : sqlite_db_of s = set_live (<[h := cur]> L) d -> L !! h = None ->
  sqlite_db_of (sqlite3_finalize h s).2 = set_live L d.
Proof.
  intros Hs HL. rewrite (finalize_live h s d (<[h := cur]> L)); [|done|by rewrite lookup_insert_eq].
  by rewrite delete_insert_eq, delete_id.
Qed.

Lemma finalize_complete h s d L : sqlite_db_of s = set_live (<[h := Complete]> L) d -> L !! h = None ->
  exists s', sqlite3_finalize h s = (SQLITE_OK, s') /\ sqlite_db_of s' = set_live L d.
Proof.
  intros Hs HL. pose proof (finalize_ended h s d L Complete Hs HL) as Hd.
  pose proof (sqlite_complete_law h s) as Hc. rewrite Hs in Hc. cbn in Hc. rewrite lookup_insert_eq in Hc.
  specialize (Hc eq_refl). destruct (sqlite3_finalize h s) as [rc s']. cbn in *. subst rc. by exists s'.
Qed.

Lemma not_done rc : ~ is_done rc -> (rc =? SQLITE_ROW) = false /\ (rc =? SQLITE_DONE) = false.
Proof. intros Hn. split; apply Z.eqb_neq; intros ->; apply Hn; unfold is_done; auto. Qed.

(** The first step of a statement. *)
Lemma first_fetch q h n V b L c : in_txn V b (<[h := Fresh q]> L) c -> L !! h = None ->
  let '(_, r, c') := sql_fetchrow_sqlite (mk_sql_result true false false n h) c in
  (error r = true /\ failed_in V b L q c')
  \/ (query_running r = false /\ error r = false /\ answers q [] /\ in_txn V (b ++ [(q, [])]) L c')
  \/ (r = mk_sql_result true false false n h /\ is_select q = true
      /\ exists row rows, answers q (row :: rows)
         /\ Forall (fun r => List.length r = columns q) (row :: rows)
         /\ in_txn V (b ++ [(q, row :: rows)]) (<[h := At_row q row rows]> L) c').
Proof.
  intros [Hf Hc] HL. unfold db_of in Hc. cbn [sql_fetchrow_sqlite]. cbn.
  pose proof (sqlite_step_law h (Fresh q) (lib c)) as Hs. rewrite Hc in Hs. cbn in Hs.
  specialize (Hs (lookup_insert_eq _ _ _) ltac:(done) ltac:(done)).
  destruct (sqlite3_step h (lib c)) as [rc s]. cbn [fst snd] in Hs.
  apply stepped_fresh in Hs as [(-> & Hq & r & rows & Ha & Hl & Hs)|[(-> & Ha & Hs)|(Hrc & d & Hs & Hd)]]; cbn.
  - right; right. split_and!; try done. exists r, rows. split_and!; try done.
    split; [done|]. unfold db_of. cbn. rewrite Hs. unfold effect, set_live. cbn. by rewrite insert_insert_eq.
  - destruct (finalize_complete h s (mk_sqlite_db V (Some (b ++ [(q, [])])) L) L) as (s' & -> & Hs'); [|done|].
    { rewrite Hs. unfold effect, set_live. cbn. by rewrite insert_insert_eq. }
    right; left. cbn. split_and!; done.
  - destruct (not_done rc Hrc) as [-> ->]. cbn [live] in Hs. rewrite insert_insert_eq in Hs.
    pose proof (finalize_ended h s d L Failed Hs HL) as Hfl.
    destruct (sqlite3_finalize h s) as [rc' s']. cbn in *. left. split; [done|].
    destruct Hd as [->|[Hrb ->]]; [left; left|right]; unfold settled, in_txn, db_of; cbn; by rewrite Hfl.
Qed.

(** ** [sql_execute] *)

Lemma begin_cases V b L c : working V b L c ->
  let '(begun, c') := begin_sqlite c in
  if (begun : bool) then in_txn V b L c' else working V b L c'.
Proof.
  unfold begin_sqlite. intros [[Hf Hc]|(-> & Hf & Hc)]; rewrite Hf; [by split|].
  pose proof (sqlite_begin_law (lib c)) as Hb. destruct (sqlite3_exec _ (lib c)) as [rc s].
  unfold db_of in Hc. rewrite Hc in Hb. cbn in Hb. destruct Hb as [(-> & _ & Hs)|[Hrc Hs]]; cbn.
  - by split.
  - apply Z.eqb_neq in Hrc. rewrite Hrc. right. by split_and!.
Qed.

Lemma execute_cases q V b L c : working V b L c ->
  let '(ok, r, c') := sql_execute_sqlite q no_result c in
  (ok = false /\ failed_in V b L q c')
  \/ (ok = true /\ query_running r = false /\ answers q [] /\ in_txn V (b ++ [(q, [])]) L c')
  \/ (ok = true /\ is_select q = true
      /\ exists h row rows, r = mk_sql_result true false true (Z.of_nat (columns q)) h
         /\ answers q (row :: rows) /\ Forall (fun r => List.length r = columns q) (row :: rows)
         /\ L !! h = None
         /\ in_txn V (b ++ [(q, row :: rows)]) (<[h := At_row q row rows]> L) c').
Proof.
  intros Hw. unfold sql_execute_sqlite. pose proof (begin_cases V b L c Hw) as Hb.
  destruct (begin_sqlite c) as [begun c1]. destruct begun; cbn [negb]; [|left; by split; [|left]].
  destruct Hb as [Hf Hc]. unfold db_of in Hc. pose proof (sqlite_prepare_law q (lib c1)) as Hp.
  destruct (sqlite3_prepare_v2 q (lib c1)) as [[rc h] s]. rewrite Hc in Hp. cbn in Hp.
  destruct Hp as [(-> & Hh & HL & Hs)|(Hrc & -> & Hs)]; cbn [Z.eqb negb].
  - rewrite (sqlite_count_law h q) by (rewrite Hs; apply lookup_insert_eq).
    pose proof (first_fetch q h (Z.of_nat (columns q)) V b L (mk_sqlite s (in_transaction c1))) as Hft.
    destruct (sql_fetchrow_sqlite _ _) as [[more r] c2].
    destruct Hft as [[He Hr]|[(Hq & He & Ha & Hr)|(-> & Hq & row & rows & Ha & Hl & Hr)]]; [by split|done|..].
    + rewrite He. left. by split.
    + rewrite He. right; left. by split_and!.
    + cbn. right; right. split_and!; [done..|]. exists h, row, rows. by split_and!.
  - apply Z.eqb_neq in Hrc. rewrite Hrc. cbn [negb].
    pose proof (sqlite_finalize_law 0 s ltac:(by left)) as Hfl. cbn in Hfl.
    destruct (sqlite3_finalize 0 s) as [rc' s']. left. split; [done|]. left; left. split; [done|].
    unfold db_of. cbn in *. by rewrite Hfl.
Qed.

(** ** A SELECT of one row, a statement without rows *)

Lemma getvalues n q row rows h c L V b r : in_txn V b (<[h := At_row q row rows]> L) c ->
  (n <= List.length row)%nat -> query_running r = true -> num_fields r = Z.of_nat (List.length row) ->
  pStmt r = h ->
  map (fun i => sql_getvalue_sqlite r c (Z.of_nat i)) (seq 0 n) = map seen (take n row).
Proof.
  intros [_ Hc] Hn Hr Hf <-. apply list_eq. intros i. change (map ?f ?l) with (f <$> l).
  rewrite !list_lookup_fmap. destruct (decide (i < n)%nat) as [Hi|Hi].
  - rewrite lookup_seq_lt, lookup_take_lt by done. cbn.
    destruct (lookup_lt_is_Some_2 row i ltac:(lia)) as [v Hv]. rewrite Hv. cbn. f_equal.
    unfold sql_getvalue_sqlite. rewrite Hr, Hf, (proj2 (Z.ltb_lt _ _)) by lia. cbn.
    unfold db_of in Hc. rewrite (sqlite_text_law _ q row rows) by (rewrite Hc; apply lookup_insert_eq).
    by rewrite Hv.
  - rewrite lookup_seq_ge, lookup_take_ge by lia. done.
Qed.

Lemma close_row q row rows h n V b L c : in_txn V b (<[h := At_row q row rows]> L) c -> L !! h = None ->
  in_txn V b L (sql_close_cursor_sqlite (mk_sql_result true false false n h) c).2.
Proof.
  intros [Hf Hc] HL. unfold sql_close_cursor_sqlite. cbn.
  pose proof (finalize_ended h (lib c) (mk_sqlite_db V (Some b) L) L (At_row q row rows) Hc HL) as Hfl.
  destruct (sqlite3_finalize h (lib c)) as [rc s]. by split.
Qed.

Section results.
Context {R : Type} (P : R -> Prop).

(** A SELECT, with the reason when it takes its first branch. *)
Lemma select_rule_why q n V b L c failed (k : list (option bytes) -> sqlite_conn S -> R) :
  working V b L c -> (n <= columns q)%nat ->
  (forall c', ((sql_execute_sqlite q no_result c).1.1 = false /\ failed_in V b L q c')
     \/ (answers q [] /\ in_txn V (b ++ [(q, [])]) L c') -> P (failed c')) ->
  (forall row rows c', answers q (row :: rows) -> List.length row = columns q ->
     in_txn V (b ++ [(q, row :: rows)]) L c' -> P (k (map seen (take n row)) c')) ->
  P (select q n c failed k).
Proof.
  intros Hw Hn Hfail Hk. unfold select. pose proof (execute_cases q V b L c Hw) as He.
  destruct (sql_execute_sqlite q no_result c) as [[ok r] c1].
  destruct He as [[-> He]|[(-> & Hr & Ha & He)|(-> & Hq & h & row & rows & -> & Ha & Hl & HL & He)]].
  - apply Hfail. by left.
  - rewrite Hr. apply Hfail. by right.
  - apply Forall_cons in Hl as [Hl _]. cbn [andb query_running]. cbn [sql_fetchrow_sqlite negb].
    rewrite (getvalues n q row rows h c1 L V _ _ He) by (cbn; lia || done).
    pose proof (close_row q row rows h (Z.of_nat (columns q)) V _ L c1 He HL) as Hc.
    destruct (sql_close_cursor_sqlite _ c1) as [[x y] c2]. by eapply Hk.
Qed.

Lemma select_rule q n V b L c failed (k : list (option bytes) -> sqlite_conn S -> R) :
  working V b L c -> (n <= columns q)%nat ->
  (forall c', failed_in V b L q c' \/ (answers q [] /\ in_txn V (b ++ [(q, [])]) L c') -> P (failed c')) ->
  (forall row rows c', answers q (row :: rows) -> List.length row = columns q ->
     in_txn V (b ++ [(q, row :: rows)]) L c' -> P (k (map seen (take n row)) c')) ->
  P (select q n c failed k).
Proof.
  intros Hw Hn Hfail Hk. eapply select_rule_why; [done..| |done].
  intros c' [[_ Hc]|Hc]; apply Hfail; [by left|by right].
Qed.

Lemma run_rule q V b L c (failed k : sqlite_conn S -> R) :
  working V b L c -> is_select q = false ->
  (forall c', failed_in V b L q c' -> P (failed c')) ->
  (forall c', in_txn V (b ++ [(q, [])]) L c' -> P (k c')) -> P (run q c failed k).
Proof.
  intros Hw Hq Hfail Hk. unfold run. pose proof (execute_cases q V b L c Hw) as He.
  destruct (sql_execute_sqlite q no_result c) as [[ok r] c1].
  destruct He as [[-> He]|[(-> & _ & _ & He)|(_ & Hs & _)]]; [by apply Hfail|by apply Hk|congruence].
Qed.
End results.

(** ** All the rows *)

Lemma fetch_rest q n V b L h : forall rows row m fuel c,
  in_txn V b (<[h := At_row q row rows]> L) c -> L !! h = None ->
  Forall (fun r => Z.of_nat (List.length r) = m) rows -> Z.of_nat n <= m -> (List.length rows < fuel)%nat ->
  exists r c', fetch_loop fuel n (mk_sql_result true false false m h) c
    = Some (map (fun row => map seen (take n row)) rows, r, c')
    /\ query_running r = false
    /\ (in_txn V b L c' \/ (auto_rollback q /\ settled V L c')).
Proof.
  induction rows as [|row' rows IH]; intros row m fuel c Hc HL Hl Hn Hfuel;
    (destruct fuel as [|fuel]; [cbn in Hfuel; lia|]); cbn [fetch_loop sql_fetchrow_sqlite negb];
    destruct Hc as [Hf Hc]; unfold db_of in Hc;
    match type of Hc with context [At_row q row ?rows] =>
      pose proof (sqlite_step_law h (At_row q row rows) (lib c)) as Hs end;
    rewrite Hc in Hs; cbn in Hs;
    specialize (Hs (lookup_insert_eq _ _ _) ltac:(done) ltac:(done));
    destruct (sqlite3_step h (lib c)) as [rc s]; cbn [fst snd] in Hs; apply stepped_row in Hs;
    cbn [live] in Hs;
    destruct Hs as [(-> & r1 & rows1 & Hrows & Hs)|[(-> & Hrows & Hs)|(Hrc & Hrows & d & Hs & Hd)]]; try done.
  - rewrite insert_insert_eq in Hs. destruct (finalize_complete h s (mk_sqlite_db V (Some b) L) L Hs HL) as (s' & -> & Hs').
    cbn. eexists _, _. split; [done|]. split; [done|]. left. by split.
  - rewrite insert_insert_eq in Hs. destruct (not_done rc Hrc) as [-> ->].
    pose proof (finalize_ended h s d L Failed Hs HL) as Hfl.
    destruct (sqlite3_finalize h s) as [rc' s']. cbn in *. eexists _, _. split; [done|]. split; [done|].
    destruct Hd as [->|[Hrb ->]]; [left|right]; unfold settled, in_txn, db_of; cbn; by rewrite Hfl.
  - injection Hrows as <- <-. change (SQLITE_ROW =? SQLITE_ROW) with true. cbv iota beta. apply Forall_cons in Hl as [Hl1 Hl].
    assert (Hc1 : in_txn V b (<[h := At_row q row' rows]> L) (mk_sqlite s (in_transaction c))).
    { rewrite insert_insert_eq in Hs. by split. }
    rewrite (getvalues n q row' rows h _ L V b _ Hc1) by (cbn; lia || done).
    destruct (IH row' m fuel _ Hc1 HL Hl Hn ltac:(cbn in Hfuel; lia)) as (r & c' & -> & Hr & Hc').
    cbn. by exists r, c'.
Qed.

Lemma fetch_prefetched fuel n m h c :
  fetch_loop (Datatypes.S fuel) n (mk_sql_result true false true m h) c
  = (let r := mk_sql_result true false false m h in
     '(rows, r', c') ← fetch_loop fuel n r c;
     Some (map (fun i => sql_getvalue_sqlite r c (Z.of_nat i)) (seq 0 n) :: rows, r', c')).
Proof. reflexivity. Qed.

Section results_all.
Context {R : Type} (P : option R -> Prop).

Lemma select_all_rule q n V b L c failed (k : list (list (option bytes)) -> sql_result -> sqlite_conn S -> option R) :
  working V b L c -> (n <= columns q)%nat ->
  (forall c', failed_in V b L q c' \/ (answers q [] /\ in_txn V (b ++ [(q, [])]) L c') -> P (failed c')) ->
  (forall rows r c', answers q rows -> rows <> [] -> Forall (fun r => List.length r = columns q) rows ->
     query_running r = false ->
     (in_txn V (b ++ [(q, rows)]) L c' \/ (auto_rollback q /\ settled V L c')) ->
     P (k (map (fun row => map seen (take n row)) rows) r c')) ->
  P (select_all q n c failed k).
Proof.
  intros Hw Hn Hfail Hk. unfold select_all. pose proof (execute_cases q V b L c Hw) as He.
  destruct (sql_execute_sqlite q no_result c) as [[ok r] c1].
  destruct He as [[-> He]|[(-> & Hr & Ha & He)|(-> & Hq & h & row & rows & -> & Ha & Hl & HL & He)]].
  - apply Hfail. by left.
  - rewrite Hr. apply Hfail. by right.
  - cbn [andb query_running pStmt].
    rewrite (sqlite_left_law h q row rows) by (destruct He as [_ He]; unfold db_of in He; rewrite He; apply lookup_insert_eq).
    change (2 + List.length rows)%nat with (Datatypes.S (Datatypes.S (List.length rows))).
    rewrite fetch_prefetched. cbv zeta.
    pose proof Hl as Hall. apply Forall_cons in Hl as [Hlen Hl].
    rewrite (getvalues n q row rows h c1 L V _ _ He) by (cbn; lia || done).
    destruct (fetch_rest q n V _ L h rows row (Z.of_nat (columns q)) (Datatypes.S (List.length rows)) c1 He HL)
      as (r & c' & -> & Hr & Hc'); [|lia..|].
    { eapply Forall_impl; [exact Hl|]. cbn. intros x ->. done. }
    cbn [mbind option_bind]. by apply (Hk (row :: rows)).
Qed.
End results_all.

Lemma close_done r c : query_running r = false -> (sql_close_cursor_sqlite r c).2 = c.
Proof. unfold sql_close_cursor_sqlite. by intros ->. Qed.
End rules.
