(* ===== verification/SqliteSpec.v ===== *)
(** * What the client-side transactions do on SQLite

    The statements that each transaction of [NonspTxn] stores, given the rows the
    database answers on the way, and the structure it fills.  [ends]: a
    transaction function returns; what was open before it, and nothing else, is
    open; and with a good status its work is the transaction's. *)

From Stdlib Require Import ZArith Lia SpecFloat String.
From stdpp Require Import base list gmap.
From S2P Require Import Prelude Double Text Common TxnData Wire Tables Cockroach Sqlite Nonsp NonspTxn Lengths SqliteServer.

(** ** Lengths *)

Definition short (n : Z) (s : bytes) : Prop := zlen s <= n.

(** [zlen] of a formatted statement, then linear arithmetic over the lengths of
    the numbers and values in it. *)
Ltac measure :=
  autounfold with statements; rewrite ?zlen_app; change (zlen [NL]) with 1;
  repeat match goal with
  | |- context [zlen (sql ?l)] =>
      let v := eval vm_compute in (zlen (sql l)) in change (zlen (sql l)) with v
  | |- context [zlen (lit ?l)] =>
      let v := eval vm_compute in (zlen (lit l)) in change (zlen (lit l)) with v
  end;
  repeat match goal with
  | |- context [zlen (int ?z)] =>
      first [match goal with Hz : zlen (int z) <= _ |- _ => idtac end
            |pose proof (short_digits z ltac:(lia))
            |pose proof (short_int z ltac:(first [done | apply int32_i32 | unfold int32 in *; lia]))];
      generalize dependent (zlen (int z)); intros
  end;
  unfold short in *; lia.

Section spec.
Context {S : Type} `{SqliteServer S}.
Implicit Types c : sqlite_conn S.

(** ** Functions that return *)

Definition ends {D} V L (good : Z -> bool) (E : D -> Prop) (Q : Z -> list event -> D -> Prop)
    (r : option (Z * D * sqlite_conn S)) : Prop :=
  exists rc data c, r = Some (rc, data, c) /\ settled V L c
    /\ (if good rc then exists b, working V b L c /\ Q rc b data else E data).

Section rules.
Context {D : Type} (V : list (list event)) (L : gmap Z cursor) (good : Z -> bool)
  (E : D -> Prop) (Q : Z -> list event -> D -> Prop).

Lemma ends_failed rc data c : good rc = false -> E data -> settled V L c ->
  ends V L good E Q (returns rc data c).
Proof. intros Hg HE Hc. exists rc, data, c. rewrite Hg. split_and!; [done|apply Hc..|done]. Qed.

Lemma ends_good rc data b c : working V b L c -> good rc = true -> Q rc b data ->
  ends V L good E Q (returns rc data c).
Proof.
  intros Hw Hg HQ. exists rc, data, c. rewrite Hg. split_and!; [done|by apply (working_settled V b L)..|eauto].
Qed.

Lemma ends_weaken (Q' : Z -> list event -> D -> Prop) r :
  (forall rc b data, Q' rc b data -> Q rc b data) -> ends V L good E Q' r -> ends V L good E Q r.
Proof.
  intros HQ (rc & data & c & -> & Hc & Hg). exists rc, data, c. split_and!; [done|apply Hc..|].
  destruct (good rc); [|done]. destruct Hg as (b & Hb & HQ'). eauto.
Qed.

Lemma ends_sprintf n s k : zlen s < n -> ends V L good E Q (k s) -> ends V L good E Q (sprintf n s ≫= k).
Proof. intros Hs Hk. by rewrite sprintf_short. Qed.

(** Errors end the function. *)
Lemma ends_select q n b c failed k : working V b L c -> columns q = n ->
  (forall c', settled V L c' -> ends V L good E Q (failed c')) ->
  (forall row rows c', answers q (row :: rows) -> List.length row = columns q ->
     working V (b ++ [(q, row :: rows)]) L c' -> ends V L good E Q (k (map seen row) c')) ->
  ends V L good E Q (select q n c failed k).
Proof.
  intros Hw Hn Hf Hk. eapply select_rule; [done|lia| |].
  - intros c' [Hc|[_ Hc]]; apply Hf; [by eapply failed_settled|by eapply in_txn_settled].
  - intros row rows c' Ha Hl Hc. rewrite take_ge by lia. eapply Hk; [done..|by left].
Qed.

Lemma ends_select_all q n b c failed k : working V b L c -> columns q = n -> ~ auto_rollback q ->
  (forall c', settled V L c' -> ends V L good E Q (failed c')) ->
  (forall rows r c', answers q rows -> rows <> [] -> Forall (fun r => List.length r = columns q) rows ->
     query_running r = false ->
     working V (b ++ [(q, rows)]) L c' -> ends V L good E Q (k (map (map seen ∘ take n) rows) r c')) ->
  ends V L good E Q (select_all q n c failed k).
Proof.
  intros Hw Hn Hq Hf Hk. eapply select_all_rule; [done|lia| |].
  - intros c' [Hc|[_ Hc]]; apply Hf; [by eapply failed_settled|by eapply in_txn_settled].
  - intros rows r c' Ha Hne Hlen Hr [Hc|[Hrb _]]; [|done]. apply Hk; [done..|by left].
Qed.

Lemma ends_run q b c failed k : working V b L c -> is_select q = false ->
  (forall c', settled V L c' -> ends V L good E Q (failed c')) ->
  (forall c', working V (b ++ [(q, [])]) L c' -> ends V L good E Q (k c')) ->
  ends V L good E Q (run q c failed k).
Proof.
  intros Hw Hq Hf Hk. eapply run_rule; [done..| |].
  - intros c' Hc. apply Hf. by eapply failed_settled.
  - intros c' Hc. apply Hk. by left.
Qed.
End rules.

Lemma ends_map {D D'} V L good (E' : D' -> Prop) (Q' : Z -> list event -> D' -> Prop) (E : D -> Prop)
    (Q : Z -> list event -> D -> Prop) (r : option (Z * D' * sqlite_conn S)) g :
  ends V L good E' Q' r -> (forall rc b data, good rc = true -> Q' rc b data -> Q rc b (g rc data)) ->
  (forall rc data, good rc = false -> E' data -> E (g rc data)) ->
  ends V L good E Q ('(rc, data, c) ← r; returns rc (g rc data) c).
Proof.
  intros (rc & data & c & -> & Hc & Hg) HQ HE. exists rc, (g rc data), c. split_and!; [done|apply Hc..|].
  destruct (good rc) eqn:Hrc; [|auto]. destruct Hg as (b & Hb & HQ'). eauto.
Qed.

(** ** Values

    What the functions read is text of at most 50 bytes, of the customer's data
    (column 14 of [PAYMENT_6]) no more is asked than that it is read. *)
Definition readable : Prop :=
  forall q rows row i v, answers q rows -> row ∈ rows -> row !! i = Some v -> i <> 14%nat ->
    exists t, seen v = Some t /\ short 50 t.

Context (Hread : readable).

(** The values of the first row. *)
Definition first_value (rows : list sql_row) (i : nat) : option bytes :=
  match rows with [] => None | row :: _ => val (map seen row) i end.

Lemma read_first q row rows i : answers q (row :: rows) -> List.length row = columns q ->
  (i < columns q)%nat -> i <> 14%nat ->
  exists t, first_value (row :: rows) i = Some t /\ short 50 t.
Proof.
  intros Ha Hl Hi Hne. destruct (lookup_lt_is_Some_2 row i ltac:(lia)) as [v Hv].
  destruct (Hread q (row :: rows) row i v Ha ltac:(by left) Hv Hne) as (t & Ht & Hs). exists t. split; [|done].
  unfold first_value, val. change (map ?f ?l) with (f <$> l). by rewrite list_lookup_fmap, Hv.
Qed.

(** ** Delivery *)

(** A statement without rows. *)
Definition done (q : bytes) : event := (q, []).

(** What one district stores when its round starts on the connection [c].
    Nothing: its first statement failed there. *)
Inductive district_work (data : delivery_t) (d_id : Z) c : list event -> Prop :=
| district_failed :
    (sql_execute_sqlite (DELIVERY_1 (dl_w_id data) d_id) no_result c).1.1 = false ->
    district_work data d_id c []
| district_idle rows : (forall o_id, first_value rows 0 = Some o_id -> atoi o_id <= 0) ->
    district_work data d_id c [(DELIVERY_1 (dl_w_id data) d_id, rows)]
| district_delivered o_id c_id amount r1 r3 r6 :
    first_value r1 0 = Some o_id -> 0 < atoi o_id ->
    first_value r3 0 = Some c_id -> first_value r6 0 = Some amount ->
    let w_id := dl_w_id data in
    district_work data d_id c
      [(DELIVERY_1 w_id d_id, r1); done (DELIVERY_2 o_id w_id d_id);
       (DELIVERY_3 o_id w_id d_id, r3); done (DELIVERY_4 (dl_o_carrier_id data) o_id w_id d_id);
       done (DELIVERY_5 o_id w_id d_id); (DELIVERY_6 o_id w_id d_id, r6);
       done (DELIVERY_7 amount c_id w_id d_id)].

(** The rounds, one after the other: each starts on the connection that the one
    before it left, and each ends well. *)
Inductive districts_work (data : delivery_t) : list Z -> sqlite_conn S -> list (list event) ->
    sqlite_conn S -> Prop :=
| districts_none c : districts_work data [] c [] c
| districts_next d_id ds c es c' ess c'' :
    deliver_district_nonsp data d_id c (returns 1 data) = returns 1 data c' ->
    district_work data d_id c es -> districts_work data ds c' ess c'' ->
    districts_work data (d_id :: ds) c (es :: ess) c''.

(** The value in column [i] of a first row. *)
Ltac value Ha Hl i t Ht :=
  let Hs := fresh "Hs" in
  destruct (read_first _ _ _ i Ha Hl ltac:(apply Nat.leb_le; reflexivity) ltac:(done)) as (t & Ht & Hs);
  match type of Ht with first_value (?row :: ?rows) _ = _ =>
    change (val (map seen row) i) with (first_value (row :: rows) i) end;
  rewrite Ht.

(** The data of an error. *)
Ltac same_data := first [reflexivity | exact I | eexists; reflexivity].

(** Ends with any further work that [k] may do. *)
Ltac sel row rows c' Ha Hl Hw :=
  eapply ends_sprintf; [measure|];
  eapply ends_select; [eassumption|reflexivity
    |intros ? ?; apply ends_failed; [reflexivity|same_data|assumption]
    |intros row rows c' Ha Hl Hw].
Ltac exe c' Hw :=
  eapply ends_run; [eassumption|reflexivity
    |intros ? ?; apply ends_failed; [reflexivity|same_data|assumption]
    |intros c' Hw].

Lemma delivery_7_fits amount c_id w_id d_id : short 50 amount -> short 50 c_id -> int32 w_id -> 1 <= d_id <= 10 ->
  snprintf 250 (DELIVERY_7 amount c_id w_id d_id) = DELIVERY_7 amount c_id w_id d_id.
Proof.
  intros Ha Hc Hw Hd. unfold snprintf, strncpy. apply take_ge. apply Nat2Z.inj_le.
  change (Z.of_nat (List.length ?l)) with (zlen l). measure.
Qed.

Lemma deliver_district_ends V L b data d_id c :
  int32 (dl_w_id data) -> int32 (dl_o_carrier_id data) -> 1 <= d_id <= 10 ->
  ~ auto_rollback (DELIVERY_1 (dl_w_id data) d_id) ->
  working V b L c ->
  ends V L (fun rc => negb (rc =? -1)) (eq data)
    (fun rc b' data' => rc = 1 /\ data' = data /\ exists es, district_work data d_id c es /\ b' = b ++ es)
    (deliver_district_nonsp data d_id c (returns 1 data)).
Proof.
  intros Hwid Hcar Hd Hrb Hw.
  assert (Hk : forall es c', district_work data d_id c es -> working V (b ++ es) L c' ->
    ends V L (fun rc => negb (rc =? -1)) (eq data)
      (fun rc b' data' => rc = 1 /\ data' = data /\ exists es, district_work data d_id c es /\ b' = b ++ es)
      (returns 1 data c'))
    by (intros es c' Hes Hc'; eapply ends_good; [exact Hc'|done|by eauto]).
  unfold deliver_district_nonsp.
  eapply ends_sprintf; [measure|]. eapply select_rule_why; [eassumption|apply Nat.leb_le; reflexivity|..].
  { intros c' [[Hf [Hc|[Hc _]]]|[Ha Hc]]; [|done|].
    - eapply (Hk []); [by constructor|]. by rewrite app_nil_r.
    - eapply (Hk [(DELIVERY_1 (dl_w_id data) d_id, [])]); [apply district_idle; intros ? [=]|]. by left. }
  intros row1 rows1 c1 Ha1 Hl1 Hc1. rewrite take_ge by (rewrite Hl1; apply Nat.leb_le; reflexivity).
  value Ha1 Hl1 0%nat o_id Ho. assert (Hw1 := or_introl Hc1 : working V _ L c1).
  destruct (Z.gtb_spec (atoi o_id) 0) as [Hpos|Hneg].
  2: { eapply Hk; [|exact Hw1]. apply district_idle. rewrite Ho. by intros ? [= <-]. }
  eapply ends_sprintf; [measure|]. exe c2 Hw2.
  sel row3 rows3 c3 Ha3 Hl3 Hw3. value Ha3 Hl3 0%nat c_id Hc.
  eapply ends_sprintf; [measure|]. exe c4 Hw4.
  eapply ends_sprintf; [measure|]. exe c5 Hw5.
  sel row6 rows6 c6 Ha6 Hl6 Hw6. value Ha6 Hl6 0%nat amount Hm. cbn [mbind option_bind].
  rewrite delivery_7_fits by done. exe c7 Hw7.
  eapply Hk; [exact (district_delivered _ _ _ _ _ _ _ _ _ Ho Hpos Hc Hm)|].
  rewrite <- !app_assoc in Hw7. exact Hw7.
Qed.

(** What follows a round depends on how it ended only. *)
Lemma deliver_district_bind data d_id c k :
  deliver_district_nonsp data d_id c k
  = match deliver_district_nonsp data d_id c (returns 1 data) with
    | Some (rc, data', c') => if rc =? -1 then Some (rc, data', c') else k c'
    | None => None
    end.
Proof.
  unfold deliver_district_nonsp, select, run, returns, mbind, option_bind.
  repeat (case_match; try done).
Qed.

Lemma deliver_districts_ends V L data ds : forall b c,
  int32 (dl_w_id data) -> int32 (dl_o_carrier_id data) -> Forall (fun d => 1 <= d <= 10) ds ->
  (forall d_id, ~ auto_rollback (DELIVERY_1 (dl_w_id data) d_id)) -> working V b L c ->
  exists rc c', deliver_districts_nonsp data ds c = Some (rc, data, c') /\ settled V L c'
    /\ (rc = -1 \/ rc = 1 /\ exists ess, districts_work data ds c ess c' /\ working V (b ++ concat ess) L c').
Proof.
  induction ds as [|d ds IH]; intros b c Hwid Hcar Hds Hrb Hw; cbn [deliver_districts_nonsp].
  - exists 1, c. split; [done|]. split; [by eapply working_settled|]. right. split; [done|].
    exists []. cbn. rewrite app_nil_r. by split; [constructor|].
  - apply Forall_cons in Hds as [Hd Hds]. rewrite deliver_district_bind.
    destruct (deliver_district_ends V L b data d c Hwid Hcar Hd (Hrb d) Hw) as (rc & data' & c1 & Hr & Hs & Hg).
    rewrite Hr. destruct (Z.eqb_spec rc (-1)) as [->|Hrc]; cbn in Hg.
    { exists (-1), c1. subst data'. split; [done|]. split; [exact Hs|by left]. }
    destruct Hg as (b1 & Hb1 & -> & -> & es & Hes & ->).
    destruct (IH (b ++ es) c1 Hwid Hcar Hds Hrb Hb1) as (rc2 & c2 & Hr2 & Hs2 & Hx).
    exists rc2, c2. split; [exact Hr2|]. split; [exact Hs2|].
    destruct Hx as [->|(-> & ess & Hess & Hb2)]; [by left|right]. split; [done|].
    exists (es :: ess). cbn. rewrite app_assoc. split; [|done]. econstructor; [exact Hr|done..].
Qed.

(** ** Stock-Level and the integrity check *)

Definition stock_level_work (data : stock_level_t) (b : list event) (n : Z) : Prop :=
  exists next count r1 r2,
    first_value r1 0 = Some next /\ first_value r2 0 = Some count /\ n = atoi count
    /\ b = [(STOCK_LEVEL_1 (sl_w_id data) (sl_d_id data), r1);
            (STOCK_LEVEL_2 (sl_d_id data) (sl_w_id data) (sl_threshold data)
               (i32 (atoi next - 20)) (i32 (atoi next - 1)), r2)].

Lemma stock_level_fits w_id d_id threshold next :
  0 <= w_id < 10 ^ 6 -> 0 <= d_id < 100 -> 0 <= threshold < 100 -> 0 <= next < 10 ^ 9 ->
  zlen (STOCK_LEVEL_2 d_id w_id threshold (i32 (next - 20)) (i32 (next - 1))) < 256.
Proof.
  intros Hw Hd Ht Hn. rewrite !i32_small by lia.
  pose proof (short_upto 5 w_id ltac:(change (10 ^ Z.of_nat 5) with 100000; lia)).
  pose proof (short_upto 8 (next - 20) ltac:(change (10 ^ Z.of_nat 8) with 100000000; lia)).
  pose proof (short_upto 8 (next - 1) ltac:(change (10 ^ Z.of_nat 8) with 100000000; lia)).
  measure.
Qed.

Lemma stock_level_ends V L data c :
  0 <= sl_w_id data < 10 ^ 6 -> 0 <= sl_d_id data < 100 -> 0 <= sl_threshold data < 100 ->
  (forall rows next, answers (STOCK_LEVEL_1 (sl_w_id data) (sl_d_id data)) rows ->
     first_value rows 0 = Some next -> 0 <= atoi next < 10 ^ 9) ->
  working V [] L c ->
  ends V L (fun rc => negb (rc =? -1)) (eq data) (fun rc b data' => data' = data /\ stock_level_work data b rc)
    (stock_level_nonsp data c).
Proof.
  intros Hwid Hdid Hth Hnext Hw. unfold stock_level_nonsp. sel row1 rows1 c1 Ha1 Hl1 Hw1.
  value Ha1 Hl1 0%nat next Hn. eapply ends_sprintf; [by apply stock_level_fits, (Hnext _ _ Ha1)|].
  eapply ends_select; [eassumption|reflexivity|intros; apply ends_failed; [reflexivity|same_data|done]|intros row2 rows2 c2 Ha2 Hl2 Hw2].
  value Ha2 Hl2 0%nat count Hc. destruct (Z.eqb_spec (atoi count) (-1)) as [Hm|Hm].
  - rewrite Hm. apply ends_failed; [reflexivity|same_data|by eapply working_settled].
  - eapply ends_good; [exact Hw2|by apply negb_true_iff, Z.eqb_neq|].
    split; [reflexivity|]. exists next, count, (row1 :: rows1), (row2 :: rows2). by split_and!.
Qed.

Definition integrity_work (data : integrity_t) (b : list event) : Prop :=
  exists rows v, b = [(INTEGRITY_1, rows)] /\ first_value rows 0 = Some v /\ atoi v = it_w_id data.

Lemma integrity_ends V L data c : working V [] L c ->
  ends V L (fun rc => negb (rc =? -1)) (eq data) (fun rc b data' => data' = data /\ integrity_work data b)
    (integrity_nonsp data c).
Proof.
  intros Hw. unfold integrity_nonsp. sel row1 rows1 c1 Ha1 Hl1 Hw1. value Ha1 Hl1 0%nat v Hv.
  destruct (Z.eqb_spec (atoi v) (it_w_id data)) as [E|E]; cbn [negb].
  - eapply ends_good; [exact Hw1|reflexivity|]. split; [reflexivity|]. exists (row1 :: rows1), v. by split_and!.
  - apply ends_failed; [reflexivity|same_data|by eapply working_settled].
Qed.
(** ** The customer by last name *)

Definition ids_of (rows : list sql_row) : list Z :=
  map (fun row => from_option atoi (-1) (val (map seen row) 0)) rows.

Lemma c_ids_take rows : c_ids_array (map (map seen ∘ take 1) rows) = ids_of rows.
Proof. unfold c_ids_array, ids_of. rewrite map_map. apply map_ext. by intros [|v row]. Qed.

Lemma middle_int32 ids : Forall int32 ids -> int32 (middle_c_id ids).
Proof.
  intros Hids. unfold middle_c_id. destruct (zlen ids =? 0); [done|].
  destruct (ids !! _) as [z|] eqn:Hz; cbn; [by eapply Forall_lookup_1|done].
Qed.

Lemma ids_int32 rows : Forall int32 (ids_of rows).
Proof. apply Forall_map, Forall_true. intros row. cbn. destruct (val _ 0); [apply int32_i32|done]. Qed.

(** [query] finds the customers, in the order of their first names. *)
Inductive customer_work (query : bytes) (c_id : Z) : list event -> Z -> Prop :=
| by_number : c_id <> 0 -> customer_work query c_id [] c_id
| by_name rows : c_id = 0 -> rows <> [] -> middle_c_id (ids_of rows) <> -1 ->
    customer_work query c_id [(query, rows)] (middle_c_id (ids_of rows)).

Lemma customer_int32 query c_id b n : customer_work query c_id b n -> int32 c_id -> int32 n.
Proof. intros [?|? ? ? ?] ?; [done|]. apply middle_int32, ids_int32. Qed.

(** ** Payment *)

Lemma escape_length s : zlen (dbt2_escape_str s) <= 2 * zlen s.
Proof.
  unfold dbt2_escape_str, zlen. induction s as [|ch s IH]; [done|]. cbn [flat_map].
  rewrite length_app. destruct (ch =? 39); cbn [List.length]; lia.
Qed.

Lemma wcstombs_length s : forall n, 0 <= n -> zlen (wcstombs s n) <= n.
Proof.
  induction s as [|ch s IH]; intros n Hn; [done|]. cbn [wcstombs].
  destruct (Z.leb_spec (zlen (utf8 ch)) n); [|done]. rewrite zlen_app. specialize (IH (n - zlen (utf8 ch)) ltac:(lia)). lia.
Qed.

(** What a terminal asks for. *)
Record payment_fits (data : payment_t) : Prop := {
  pf_w_id : int32 (pa_w_id data); pf_d_id : int32 (pa_d_id data); pf_c_id : int32 (pa_c_id data);
  pf_c_w_id : int32 (pa_c_w_id data); pf_c_d_id : int32 (pa_c_d_id data);
  pf_amount : zlen (fmt_f 6 (to_float (pa_h_amount data))) <= 38 }.

(** The text a customer with bad credit gets. *)
Definition payment_7 (data : payment_t) (my_c_id : Z) (c_credit : bytes) : bytes :=
  let h_amount := to_float (pa_h_amount data) in
  if List.hd 0 c_credit =? 71 then PAYMENT_7_GC h_amount my_c_id (pa_c_w_id data) (pa_c_d_id data)
  else PAYMENT_7_BC h_amount (dbt2_escape_str (my_c_data data my_c_id h_amount)) my_c_id
         (pa_c_w_id data) (pa_c_d_id data).

Definition payment_name_query (data : payment_t) : bytes :=
  PAYMENT_5 (pa_c_w_id data) (pa_c_d_id data) (wcstombs (pa_c_last data) (4 * (Size.C_LAST_LEN + 1))).

Definition payment_work (data : payment_t) (b : list event) (data' : payment_t) : Prop :=
  let h_amount := to_float (pa_h_amount data) in
  exists w ws d ds cu cs lookup my_c_id w_name d_name c_credit,
    customer_work (payment_name_query data) (pa_c_id data) lookup my_c_id
    /\ first_value (w :: ws) 0 = Some w_name /\ first_value (d :: ds) 0 = Some d_name
    /\ first_value (cu :: cs) 10 = Some c_credit
    /\ b = [(PAYMENT_1 (pa_w_id data), w :: ws); done (PAYMENT_2 h_amount (pa_w_id data));
            (PAYMENT_3 (pa_d_id data) (pa_w_id data), d :: ds);
            done (PAYMENT_4 h_amount (pa_d_id data) (pa_w_id data))]
           ++ lookup ++
           [(PAYMENT_6 (pa_c_w_id data) (pa_c_d_id data) my_c_id, cu :: cs);
            done (payment_7 data my_c_id c_credit);
            done (PAYMENT_8 my_c_id (pa_c_d_id data) (pa_c_w_id data) (pa_d_id data) (pa_w_id data) h_amount
                    (dbt2_escape_str w_name) (dbt2_escape_str d_name))]
    /\ data' = payment_output (map seen w) (map seen d) (map seen cu) my_c_id h_amount data.

Section payment.
Context (V : list (list event)) (L : gmap Z cursor) (Q : Z -> list event -> payment_t -> Prop).
Context (data : payment_t) (Hfits : payment_fits data).
Let good (rc : Z) : bool := negb (rc =? -1).

Lemma payment_customer_ends b c k : working V b L c -> ~ auto_rollback (payment_name_query data) ->
  (forall lookup my_c_id c', customer_work (payment_name_query data) (pa_c_id data) lookup my_c_id ->
     working V (b ++ lookup) L c' -> ends V L good (eq data) Q (k my_c_id c')) ->
  ends V L good (eq data) Q (payment_customer_nonsp data c k).
Proof.
  intros Hw Hrb Hk. destruct Hfits. unfold payment_customer_nonsp. destruct (Z.eqb_spec (pa_c_id data) 0) as [E|E].
  - pose proof (wcstombs_length (pa_c_last data) (4 * (Size.C_LAST_LEN + 1)) ltac:(done)) as Hn.
    change (4 * (Size.C_LAST_LEN + 1)) with 68 in *.
    eapply ends_sprintf; [unfold PAYMENT_5; measure|].
    eapply ends_select_all; [eassumption|reflexivity|exact Hrb|intros; apply ends_failed; [reflexivity|same_data|done]|].
    intros rows r c' Ha Hne _ Hr Hc'. rewrite c_ids_take. pose proof (close_done r c' Hr) as Hcl.
    destruct (sql_close_cursor_sqlite r c') as [x c2]. cbn in Hcl. subst c2. destruct x.
    destruct (Z.eqb_spec (middle_c_id (ids_of rows)) (-1)) as [Em|Em].
    + apply ends_failed; [reflexivity|same_data|by eapply working_settled].
    + eapply Hk; [by apply by_name|exact Hc'].
  - eapply (Hk []); [by apply by_number|]. by rewrite app_nil_r.
Qed.

Lemma payment_update_ends b c my_c_id c_credit k : working V b L c -> int32 my_c_id ->
  (forall c', working V (b ++ [done (payment_7 data my_c_id c_credit)]) L c' -> ends V L good (eq data) Q (k c')) ->
  ends V L good (eq data) Q (payment_update_nonsp data my_c_id (to_float (pa_h_amount data)) c_credit c k).
Proof.
  intros Hw Hn Hk. destruct Hfits. unfold payment_update_nonsp. unfold payment_7 in Hk.
  set (h := to_float (pa_h_amount data)) in *. destruct (List.hd 0 c_credit =? 71).
  - eapply ends_sprintf; [measure|]. exe c1 Hw1. by apply Hk.
  - assert (Hs : zlen (my_c_data data my_c_id h) < 100) by (unfold my_c_data; measure).
    pose proof (escape_length (my_c_data data my_c_id h)) as He.
    do 2 (eapply ends_sprintf; [lia|]). eapply ends_sprintf; [measure|]. exe c1 Hw1. by apply Hk.
Qed.
End payment.

Lemma payment_ends V L data c : payment_fits data -> ~ auto_rollback (payment_name_query data) ->
  working V [] L c ->
  ends V L (fun rc => negb (rc =? -1)) (eq data) (fun _ => payment_work data) (payment_nonsp data c).
Proof.
  intros Hfits Hrb Hw. pose proof Hfits as [Hwid Hdid Hcid Hcw Hcd Ham]. unfold payment_nonsp.
  set (h := to_float (pa_h_amount data)) in *.
  sel w ws c1 Ha1 Hl1 Hw1. value Ha1 Hl1 0%nat w_name Hwn.
  eapply ends_sprintf; [measure|]. exe c2 Hw2.
  sel d ds c3 Ha3 Hl3 Hw3. value Ha3 Hl3 0%nat d_name Hdn.
  eapply ends_sprintf; [measure|]. exe c4 Hw4.
  eapply payment_customer_ends; [done|exact Hw4|exact Hrb|]. intros lookup my_c_id c5 Hcu Hw5.
  pose proof (customer_int32 _ _ _ _ Hcu Hcid) as Hmy.
  sel cu cs c6 Ha6 Hl6 Hw6. value Ha6 Hl6 10%nat c_credit Hcc.
  eapply payment_update_ends; [done|exact Hw6|done|]. intros c7 Hw7. cbn [mbind option_bind].
  pose proof (escape_length w_name). pose proof (escape_length d_name).
  change (2 * 4 * (Size.W_NAME_LEN + 1)) with 328. change (2 * 4 * (Size.D_NAME_LEN + 1)) with 328.
  eapply ends_sprintf; [unfold short in *; lia|]. cbn [mbind option_bind].
  eapply ends_sprintf; [unfold short in *; lia|]. eapply ends_sprintf; [measure|]. exe c8 Hw8.
  eapply ends_good; [exact Hw8|reflexivity|]. exists w, ws, d, ds, cu, cs, lookup, my_c_id, w_name, d_name, c_credit.
  split_and!; try assumption; [|reflexivity]. rewrite <- ?app_assoc. reflexivity.
Qed.
(** ** New-Order *)

Definition line_amount (price : bytes) (line : no_order_line_t) : double :=
  to_float (dmul (atof price) (float_of_int (ol_quantity line))).

Definition line_fits (line : no_order_line_t) : Prop :=
  int32 (ol_i_id line) /\ int32 (ol_supply_w_id line) /\ 0 <= ol_quantity line < 100
  /\ forall rows price, answers (NEW_ORDER_7 (ol_i_id line)) rows -> first_value rows 0 = Some price ->
       zlen (fmt_f 6 (line_amount price line)) <= 100.

(** What a terminal asks for, at prices that are printed in a hundred bytes. *)
Record new_order_fits (data : new_order_t) : Prop := {
  nf_w_id : int32 (no_w_id data); nf_d_id : 1 <= no_d_id data <= 10; nf_c_id : int32 (no_c_id data);
  nf_ol_cnt : 0 <= no_o_ol_cnt data <= zlen (no_order_line data);
  nf_array : zlen (no_order_line data) = 15; nf_all_local : int32 (no_o_all_local data);
  nf_lines : Forall line_fits (no_order_line data) }.

(** The lines from number [i] on, with what is fetched of each. *)
Inductive lines_work (w_id d_id : Z) (o_id : bytes) :
  nat -> list no_order_line_t -> list event -> list fetched_line -> Prop :=
| no_lines i : lines_work w_id d_id o_id i [] [] []
| a_line i line lines item items stock stocks price s_quantity dist_info b fs :
    ol_i_id line <> 0 ->
    first_value (item :: items) 0 = Some price ->
    first_value (stock :: stocks) 0 = Some s_quantity -> first_value (stock :: stocks) 1 = Some dist_info ->
    lines_work w_id d_id o_id (Datatypes.S i) lines b fs ->
    lines_work w_id d_id o_id i (line :: lines)
      ([(NEW_ORDER_7 (ol_i_id line), item :: items);
        (NEW_ORDER_8 (s_dist d_id) (ol_i_id line) w_id, stock :: stocks);
        done (NEW_ORDER_9 (decr_quantity_of (atoi s_quantity) (ol_quantity line)) (ol_i_id line) w_id);
        done (NEW_ORDER_10 o_id d_id w_id (Z.of_nat i + 1) (ol_i_id line)
                (ol_supply_w_id line) (ol_quantity line) (line_amount price line) dist_info)] ++ b)
      (mk_fetched (Some price) (val (map seen item) 1) (val (map seen item) 2) (Some s_quantity)
         (val (map seen stock) 2) (line_amount price line) :: fs).

Lemma s_dist_columns d_id i_id w_id : 1 <= d_id <= 10 -> columns (NEW_ORDER_8 (s_dist d_id) i_id w_id) = 3%nat.
Proof.
  intros Hd. assert (Hc : d_id ∈ zrange 1 11) by (unfold zrange; apply elem_of_seqZ; lia).
  change (zrange 1 11) with [1; 2; 3; 4; 5; 6; 7; 8; 9; 10] in Hc. set_unfold in Hc.
  repeat match goal with Hc : _ \/ _ |- _ => destruct Hc as [->|Hc] end; try done; reflexivity.
Qed.

Lemma s_dist_length d_id : 1 <= d_id <= 10 -> zlen (s_dist d_id) = 9.
Proof.
  intros Hd. assert (Hc : d_id ∈ zrange 1 11) by (unfold zrange; apply elem_of_seqZ; lia).
  change (zrange 1 11) with [1; 2; 3; 4; 5; 6; 7; 8; 9; 10] in Hc. set_unfold in Hc.
  repeat match goal with Hc : _ \/ _ |- _ => destruct Hc as [->|Hc] end; try done; reflexivity.
Qed.

Lemma decr_int32 q n : 0 <= n < 100 -> int32 (decr_quantity_of q n).
Proof. unfold decr_quantity_of, int32. intros Hn. destruct (_ <=? _); lia. Qed.

Lemma new_order_lines_ends V L data o_id : new_order_fits data -> short 50 o_id ->
  forall n i b c, (i + n <= List.length (no_order_line data))%nat -> working V b L c ->
  ends V L (fun rc => rc =? 0) (fun _ => True)
    (fun _ b' x => x.1 = 0 /\ exists es, lines_work (no_w_id data) (no_d_id data) o_id i (take n (drop i (no_order_line data))) es x.2
       /\ b' = b ++ es)
    (new_order_lines_nonsp data (Some o_id) n i c).
Proof.
  intros Hfits Ho. pose proof Hfits as [Hwid Hdid _ _ Harr _ Hlines].
  induction n as [|n IH]; intros i b c Hn Hw; cbn [new_order_lines_nonsp].
  { eapply ends_good; [exact Hw|reflexivity|]. split; [done|]. exists []. rewrite app_nil_r. split; [constructor|done]. }
  destruct (lookup_lt_is_Some_2 (no_order_line data) i ltac:(lia)) as [line Hline].
  destruct (Forall_lookup_1 _ _ _ _ Hlines Hline) as (Hi & Hsup & Hq & Ham).
  rewrite Hline, (drop_S _ _ _ Hline). cbn [mbind option_bind take]. eapply ends_sprintf; [measure|].
  destruct (Z.eqb_spec (ol_i_id line) 0) as [E|E]; [apply ends_failed; [reflexivity|same_data|by eapply working_settled]|].
  eapply ends_select; [eassumption|reflexivity|intros; apply ends_failed; [reflexivity|same_data|done]|intros item items c1 Ha1 Hl1 Hw1].
  value Ha1 Hl1 0%nat price Hp. cbn [mbind option_bind].
  pose proof (Ham _ price Ha1 Hp) as Hm. unfold line_amount in Hm.
  set (amount := to_float (dmul (atof price) (float_of_int (ol_quantity line)))) in *.
  unfold s_dist_at at 1. rewrite (proj2 (Z.leb_le _ _)), (proj2 (Z.leb_le (no_d_id data) 10)) by lia.
  cbn [andb mbind option_bind]. pose proof (s_dist_length _ Hdid) as Hsd. eapply ends_sprintf; [measure|].
  eapply ends_select; [eassumption|by apply s_dist_columns|intros; apply ends_failed; [reflexivity|same_data|done]|intros stock stocks c2 Ha2 Hl2 Hw2].
  pose proof (s_dist_columns (no_d_id data) (ol_i_id line) (no_w_id data) Hdid) as Hcols.
  destruct (read_first _ _ _ 0 Ha2 Hl2 ltac:(rewrite Hcols; lia) ltac:(done)) as (s_qty & Hsq & Hs2).
  destruct (read_first _ _ _ 1 Ha2 Hl2 ltac:(rewrite Hcols; lia) ltac:(done)) as (dist & Hdist & Hs3).
  change (val (map seen stock) 0) with (first_value (stock :: stocks) 0).
  change (val (map seen stock) 1) with (first_value (stock :: stocks) 1). rewrite Hsq, Hdist.
  cbn [mbind option_bind]. pose proof (decr_int32 (atoi s_qty) _ Hq) as Hdecr.
  assert (Hi15 : 0 <= Z.of_nat i + 1 < 100) by (unfold zlen in Harr; lia).
  eapply ends_sprintf; [measure|]. exe c3 Hw3. cbn [mbind option_bind]. eapply ends_sprintf; [measure|]. exe c4 Hw4.
  eapply ends_map; [by apply (IH (Datatypes.S i) _ c4 ltac:(lia) Hw4)| |done].
  intros rc b' [rollback fs] _ (Hr & es & Hes & ->). split; [exact Hr|]. eexists.
  split; [by eapply a_line|]. rewrite <- !app_assoc. reflexivity.
Qed.
(** A district that has rows, its order number and the customer, then the lines. *)
Definition new_order_work (data : new_order_t) (b : list event) (data' : new_order_t) : Prop :=
  exists w ws d ds cu cs o_id es fs,
    first_value (d :: ds) 1 = Some o_id
    /\ lines_work (no_w_id data) (no_d_id data) o_id 0 (take (Z.to_nat (no_o_ol_cnt data)) (no_order_line data)) es fs
    /\ b = [(NEW_ORDER_1 (no_w_id data), w :: ws); (NEW_ORDER_2 (no_w_id data) (no_d_id data), d :: ds);
            done (NEW_ORDER_3 (no_w_id data) (no_d_id data));
            (NEW_ORDER_4 (no_w_id data) (no_d_id data) (no_c_id data), cu :: cs);
            done (NEW_ORDER_5 o_id (no_w_id data) (no_d_id data));
            done (NEW_ORDER_6 o_id (no_d_id data) (no_w_id data) (no_c_id data) (no_o_ol_cnt data)
                    (no_o_all_local data))] ++ es
    /\ data' = new_order_output (map seen w) (map seen d) (map seen cu) fs (set_no_rollback 0 data).

Lemma new_order_ends V L data c : new_order_fits data -> working V [] L c ->
  ends V L (fun rc => rc =? 0) (fun d => exists z, set_no_rollback z data = d) (fun _ => new_order_work data) (new_order_nonsp data c).
Proof.
  intros Hfits Hw. pose proof Hfits as [Hwid Hdid Hcid Hcnt Harr Hal _].
  assert (Hfits' : new_order_fits (set_no_rollback 0 data)) by by destruct Hfits.
  assert (Hc99 : 0 <= no_o_ol_cnt data < 100) by lia. unfold new_order_nonsp. cbv zeta.
  change (no_o_ol_cnt (set_no_rollback 0 data)) with (no_o_ol_cnt data).
  change (no_o_all_local (set_no_rollback 0 data)) with (no_o_all_local data).
  sel w ws c1 Ha1 Hl1 Hw1. sel d ds c2 Ha2 Hl2 Hw2. eapply ends_sprintf; [measure|]. exe c3 Hw3.
  sel cu cs c4 Ha4 Hl4 Hw4. value Ha2 Hl2 1%nat o_id Ho. cbn [mbind option_bind].
  eapply ends_sprintf; [measure|]. exe c5 Hw5. eapply ends_sprintf; [measure|]. exe c6 Hw6.
  eapply ends_map.
  { eapply (new_order_lines_ends V L (set_no_rollback 0 data) o_id); [done|done| |exact Hw6].
    change (no_order_line (set_no_rollback 0 data)) with (no_order_line data). unfold zlen in *. lia. }
  2: { intros rc [rollback fs] -> _. by eexists. }
  intros rc b' [rollback fs] ->%Z.eqb_eq (_ & es & Hes & ->).
  exists w, ws, d, ds, cu, cs, o_id, es, fs. split_and!; [done|exact Hes|by rewrite <- ?app_assoc|reflexivity].
Qed.

(** ** Order-Status *)

Definition order_status_name_query (data : order_status_t) : bytes :=
  ORDER_STATUS_1 (os_c_w_id data) (os_c_d_id data) (wcstombs (os_c_last data) (4 * (Size.C_LAST_LEN + 1))).

Definition order_status_work (data : order_status_t) (b : list event) (data' : order_status_t) : Prop :=
  exists cu cs o os lines lookup my_c_id o_id,
    customer_work (order_status_name_query data) (os_c_id data) lookup my_c_id
    /\ first_value (o :: os) 0 = Some o_id /\ lines <> []
    /\ b = lookup ++
           [(ORDER_STATUS_2 (os_c_w_id data) (os_c_d_id data) my_c_id, cu :: cs);
            (ORDER_STATUS_3 (os_c_w_id data) (os_c_d_id data) my_c_id, o :: os);
            (ORDER_STATUS_4 (os_c_w_id data) (os_c_d_id data) o_id, lines)]
    /\ data' = order_status_output my_c_id (map seen cu) (map seen o) (map (map seen) lines) data.

Record order_status_fits (data : order_status_t) : Prop := {
  of_c_id : int32 (os_c_id data); of_w_id : int32 (os_c_w_id data); of_d_id : int32 (os_c_d_id data) }.

Lemma order_status_customer_ends V L Q data b c k : order_status_fits data -> working V b L c ->
  ~ auto_rollback (order_status_name_query data) ->
  (forall lookup my_c_id c', customer_work (order_status_name_query data) (os_c_id data) lookup my_c_id ->
     working V (b ++ lookup) L c' -> ends V L (fun rc => negb (rc =? -1)) (eq data) Q (k my_c_id c')) ->
  ends V L (fun rc => negb (rc =? -1)) (eq data) Q (order_status_customer_nonsp data c k).
Proof.
  intros [Hcid Hwid Hdid] Hw Hrb Hk. unfold order_status_customer_nonsp.
  destruct (Z.eqb_spec (os_c_id data) 0) as [E|E].
  - pose proof (wcstombs_length (os_c_last data) (4 * (Size.C_LAST_LEN + 1)) ltac:(done)) as Hn.
    change (4 * (Size.C_LAST_LEN + 1)) with 68 in *.
    eapply ends_sprintf; [measure|].
    eapply ends_select_all; [eassumption|reflexivity|exact Hrb|intros; apply ends_failed; [reflexivity|same_data|done]|].
    intros rows r c' Ha Hne _ Hr Hc'. rewrite c_ids_take.
    destruct (Z.eqb_spec (middle_c_id (ids_of rows)) (-1)) as [Em|Em].
    + apply ends_failed; [reflexivity|same_data|by eapply working_settled].
    + pose proof (close_done r c' Hr) as Hcl. destruct (sql_close_cursor_sqlite r c') as [x c2]. cbn in Hcl.
      subst c2. destruct x. eapply Hk; [by apply by_name|exact Hc'].
  - eapply (Hk []); [by apply by_number|]. by rewrite app_nil_r.
Qed.

(** Up to fifteen lines; a sixteenth is written beyond the arrays. *)
Lemma order_status_ends V L data c : order_status_fits data -> working V [] L c ->
  (forall q, is_select q = true -> ~ auto_rollback q) ->
  (forall o_id rows, answers (ORDER_STATUS_4 (os_c_w_id data) (os_c_d_id data) o_id) rows -> zlen rows <= 15) ->
  ends V L (fun rc => negb (rc =? -1)) (eq data) (fun _ => order_status_work data) (order_status_nonsp data c).
Proof.
  intros Hfits Hw Hrb Hlines. pose proof Hfits as [Hcid Hwid Hdid]. unfold order_status_nonsp.
  eapply order_status_customer_ends; [done|exact Hw|by apply Hrb|]. intros lookup my_c_id c1 Hcu Hw1.
  pose proof (customer_int32 _ _ _ _ Hcu Hcid) as Hmy.
  sel cu cs c2 Ha2 Hl2 Hw2. sel o os c3 Ha3 Hl3 Hw3. value Ha3 Hl3 0%nat o_id Ho. cbn [mbind option_bind].
  eapply ends_sprintf; [measure|].
  eapply ends_select_all; [eassumption|reflexivity|by apply Hrb|intros; apply ends_failed; [reflexivity|same_data|done]|].
  intros rows r c4 Ha4 Hne Hlen Hr Hw4.
  assert (Hmap : map (map seen ∘ take 5) rows = map (map seen) rows).
  { apply map_ext_in. intros row Hrow. cbn. apply list_elem_of_In in Hrow.
    rewrite take_ge; [done|]. rewrite Forall_forall in Hlen. by rewrite (Hlen row Hrow). }
  rewrite Hmap. assert (Hz : zlen (map (map seen) rows) = zlen rows) by (unfold zlen; by rewrite length_map).
  rewrite Hz, Z.gtb_ltb, (proj2 (Z.ltb_ge _ _)) by apply (Hlines o_id rows Ha4).
  pose proof (close_done r c4 Hr) as Hcl. destruct (sql_close_cursor_sqlite r c4) as [x c5]. cbn in Hcl.
  subst c5. destruct x. eapply ends_good; [exact Hw4|reflexivity|].
  exists cu, cs, o, os, rows, lookup, my_c_id, o_id. split_and!; try done. by rewrite <- !app_assoc.
Qed.
End spec.
