(* ===== verification/SqliteTheorems.v ===== *)
(** * The client against a SQLite database

    Whole transactions, as [process_transaction] runs them over [sqlite_ops]:
    what is stored when statements, commits, rollbacks and connections fail, and
    what each transaction stores. *)

From Stdlib Require Import ZArith Lia SpecFloat String.
From stdpp Require Import base list gmap.
From S2P Require Import Prelude Double Text Common TxnData InputData Wire Tables Db PgServer Cockroach Sqlite Nonsp NonspTxn SqliteServer Lengths SqliteSpec.

Section theorems.
Context {S : Type} `{SqliteServer S}.
Implicit Types c : sqlite_conn S.

(** ** What a transaction does *)

Definition sqlite_work (td : transaction_data_t) (b : list event) (td' : transaction_data_t) : Prop :=
  match td, td' with
  | TD_new_order d, TD_new_order d' =>
      exists shown, new_order_work (localized d) b shown
        /\ d' = set_total_amount (adjusted_total shown) shown
  | TD_payment d, TD_payment d' => payment_work d b d'
  | TD_delivery d, TD_delivery d' =>
      d' = d /\ exists c ess c', districts_work d (zrange 1 11) c ess c' /\ b = concat ess
  | TD_order_status d, TD_order_status d' => order_status_work d b d'
  | TD_stock_level d, TD_stock_level d' =>
      exists n, stock_level_work d b n
        /\ d' = mk_stock_level (sl_w_id d) (sl_d_id d) (sl_threshold d) n
  | TD_integrity d, TD_integrity d' => d' = d /\ integrity_work d b
  | _, _ => False
  end.

(** What terminals ask for, of a database of less than a million warehouses and a
    billion orders a district, none of more than fifteen lines. *)
Definition sqlite_fits (td : transaction_data_t) : Prop :=
  match td with
  | TD_new_order d => new_order_fits d
  | TD_payment d => payment_fits d
  | TD_delivery d => int32 (dl_w_id d) /\ int32 (dl_o_carrier_id d)
  | TD_order_status d =>
      order_status_fits d
      /\ forall o_id rows, answers (ORDER_STATUS_4 (os_c_w_id d) (os_c_d_id d) o_id) rows -> zlen rows <= 15
  | TD_stock_level d =>
      0 <= sl_w_id d < 10 ^ 6 /\ 0 <= sl_d_id d < 100 /\ 0 <= sl_threshold d < 100
      /\ forall rows next, answers (STOCK_LEVEL_1 (sl_w_id d) (sl_d_id d)) rows ->
           first_value rows 0 = Some next -> 0 <= atoi next < 10 ^ 9
  | TD_integrity _ => True
  end.

(** *** What is shown can be asked again *)

Lemma localized_fits d : new_order_fits d -> new_order_fits (localized d).
Proof.
  intros []. split; try done. cbn. rewrite all_local_spec. by case_decide.
Qed.

Lemma fill_lines_fit fs : forall lines, Forall line_fits lines -> Forall line_fits (fill_lines fs lines).
Proof.
  induction fs as [|f fs IH]; intros [|line lines] Hl; try done. apply Forall_cons in Hl as [H1 Hl].
  cbn. constructor; [exact H1|by apply IH].
Qed.

Lemma fill_lines_length fs : forall lines, List.length (fill_lines fs lines) = List.length lines.
Proof. induction fs as [|f fs IH]; intros [|line lines]; cbn; auto. Qed.
Lemma new_order_work_fits d b shown : new_order_fits d -> new_order_work d b shown ->
  new_order_fits shown /\ no_rollback shown = 0.
Proof.
  intros [] (w & ws & dd & ds & cu & cs & o & es & fs & _ & _ & _ & ->). split; [|done].
  split; try done; unfold zlen in *; cbn; rewrite ?fill_lines_length; try done. by apply fill_lines_fit.
Qed.

Lemma work_fits td b td' : sqlite_fits td -> sqlite_work td b td' ->
  sqlite_fits td' /\ data_type td' = data_type td.
Proof.
  intros Hf Hw. destruct td as [d|d|d|d|d|d], td' as [d'|d'|d'|d'|d'|d']; try done; cbn in Hw; (split; [|done]).
  - by destruct Hw as [-> _].
  - destruct Hw as (shown & Hw & ->). destruct (new_order_work_fits _ _ _ (localized_fits d Hf) Hw) as [[] _]. by split.
  - destruct Hf as [Hf Hl]. destruct Hw as (cu & cs & o & os & lines & lookup & n & o_id & Hcu & _ & _ & _ & ->).
    split; [|done]. pose proof (customer_int32 _ _ _ _ Hcu (of_c_id _ Hf)). destruct Hf. by split.
  - destruct Hw as (w & ws & dd & ds & cu & cs & lookup & n & wn & dn & cc & Hcu & _ & _ & _ & _ & ->).
    pose proof (customer_int32 _ _ _ _ Hcu (pf_c_id _ Hf)). destruct Hf. by split.
  - by destruct Hw as (n & _ & ->).
Qed.

(** ** Executions *)

Context (Hread : readable) (Hselect : forall q, is_select q = true -> ~ auto_rollback q).

(** An execution returns: OK with its work in the open transaction, or ERROR. *)
Definition executed {D} (V : list (list event)) L (E : D -> Prop) (Q : list event -> D -> Prop)
    (r : option (Z * D * sqlite_conn S)) : Prop :=
  exists rc data c, r = Some (rc, data, c) /\ settled V L c
    /\ ((rc = OK /\ exists b, working V b L c /\ Q b data) \/ (rc = ERROR /\ E data)).

Lemma ends_execute {D} V L failed E (Q : list event -> D -> Prop) r :
  ends V L (fun rc => negb (failed rc)) E (fun _ => Q) r ->
  executed V L E Q (execute_nonsp failed r).
Proof.
  intros (rc & data & c & -> & Hc & Hg). exists (if failed rc then ERROR else OK), data, c.
  split_and!; [done|apply Hc..|]. destruct (failed rc); cbn in Hg; [by right|left].
  destruct Hg as (b & Hb & HQ). eauto 6.
Qed.

Lemma execute_delivery_sqlite V L d c : int32 (dl_w_id d) -> int32 (dl_o_carrier_id d) ->
  (forall d_id, ~ auto_rollback (DELIVERY_1 (dl_w_id d) d_id)) -> working V [] L c ->
  exists rc c', execute_delivery_nonsp d c = Some (rc, d, c') /\ settled V L c'
    /\ (rc = ERROR \/ rc = OK /\ exists ess, districts_work d (zrange 1 11) c ess c' /\ working V (concat ess) L c').
Proof.
  intros Hw Hc Hrb Hwork.
  destruct (deliver_districts_ends Hread V L d (zrange 1 11) [] c Hw Hc
              ltac:(repeat (constructor; [lia|]); constructor) Hrb Hwork) as (rc & c' & Hr & Hs & Hx).
  unfold execute_delivery_nonsp, delivery_nonsp. rewrite Hr.
  exists (if rc =? -1 then ERROR else OK), c'. split; [done|]. split; [exact Hs|].
  destruct Hx as [->|[-> Hx]]; [by left|by right].
Qed.

Lemma execute_stock_level_sqlite V L d c : sqlite_fits (TD_stock_level d) -> working V [] L c ->
  executed V L (eq d) (fun b d' => sqlite_work (TD_stock_level d) b (TD_stock_level d'))
    (execute_stock_level_nonsp d c).
Proof.
  intros (Hw & Hd & Ht & Hn) Hwork.
  destruct (stock_level_ends Hread V L d c Hw Hd Ht Hn Hwork) as (rc & d' & c' & Hr & Hs & Hg).
  unfold execute_stock_level_nonsp. rewrite Hr. cbn [mbind option_bind].
  destruct (rc =? -1); cbn in Hg; do 3 eexists; (split; [reflexivity|split; [exact Hs|]]); [by right|left].
  destruct Hg as (b & Hb & -> & Hg). split; [done|]. exists b. split; [exact Hb|]. by exists rc.
Qed.

Lemma execute_new_order_sqlite V L d c : new_order_fits d -> working V [] L c ->
  executed V L (fun d' => exists z, set_no_rollback z d = d') (fun b d' => new_order_work d b d')
    (execute_new_order_nonsp d c).
Proof.
  intros Hf Hw. pose proof (new_order_ends Hread V L d c Hf Hw) as He.
  apply ends_execute. destruct He as (rc & d' & c' & Hr & Hs & Hg). exists rc, d', c'.
  by rewrite negb_involutive.
Qed.

(** One member of the union, through its function pointer. *)
Lemma executed_txn {D} V L E Q (f : D -> sqlite_conn S -> option (Z * D * sqlite_conn S)) d c member :
  executed V L E Q (f d c) -> sqlite_fits (member d) ->
  (forall d', E d' -> sqlite_fits (member d')) -> (forall b d', Q b d' -> sqlite_fits (member d')) ->
  (forall d', data_type (member d') = data_type (member d)) ->
  exists rc d' c', defined_txn f d (Some c) = (rc, d', Some c') /\ settled V L c'
    /\ sqlite_fits (member d') /\ data_type (member d') = data_type (member d)
    /\ ((rc = OK /\ exists b, working V b L c' /\ Q b d') \/ rc = ERROR).
Proof.
  intros (rc & d' & c' & Hr & Hs & Hx) Hf HE HQ Hty. exists rc, d', c'. unfold defined_txn. cbn. rewrite Hr.
  split; [done|]. split; [exact Hs|]. destruct Hx as [(-> & b & Hb & Hq)|[-> He]]; split_and!; eauto 6.
Qed.

Ltac one_member member Hf Hm :=
  specialize (Hm ltac:(by intros ? <-)
    ltac:(let b := fresh in let d' := fresh in let Hq := fresh in
          intros b d' Hq; exact (proj1 (work_fits _ b (member d') Hf Hq))) ltac:(done));
  let rc := fresh "rc" in let d' := fresh "d'" in let c' := fresh "c'" in let E := fresh "E" in
  destruct Hm as (rc & d' & c' & E & Hm);
  repeat match goal with Hx : context [if ?b then _ else _] |- _ => destruct b; try done end;
  cbn [execute_integrity execute_delivery execute_order_status execute_payment execute_stock_level sqlite_ops] in *;
  match goal with Hx : context [defined_txn] |- _ => rewrite E in Hx; injection Hx as <- <- <- end;
  exists c'; split; [reflexivity|exact Hm].

(** [execute]: every transaction of the driver, and the check. *)
Lemma execute_sqlite name t td rc td' w' V L c :
  execute (H := sqlite_ops name) t td (Some c) = Some (rc, td', w') -> sqlite_fits td -> working V [] L c ->
  exists c', w' = Some c' /\ settled V L c' /\ sqlite_fits td' /\ data_type td' = data_type td
    /\ ((rc = OK /\ exists b, working V b L c' /\ sqlite_work td b td') \/ rc = ERROR).
Proof.
  intros He Hf Hw. unfold execute in He. destruct td as [d|d|d|d|d|d].
  - assert (Hm : executed V L (eq d) (fun b d' => sqlite_work (TD_delivery d) b (TD_delivery d'))
        (execute_delivery_nonsp d c)).
    { destruct (execute_delivery_sqlite V L d c (proj1 Hf) (proj2 Hf) ltac:(intros; by apply Hselect) Hw)
        as (rc1 & c1 & Hr & Hs & Hx).
      exists rc1, d, c1. split; [exact Hr|]. split; [exact Hs|].
      destruct Hx as [->|(-> & ess & Hess & Hb)]; [by right|left]. split; [done|].
      exists (concat ess). split; [exact Hb|]. split; [done|]. by exists c, ess, c1. }
    pose proof (executed_txn V L _ _ execute_delivery_nonsp d c TD_delivery Hm Hf) as Hm'. clear Hm.
    one_member TD_delivery Hf Hm'.
  - destruct (execute_new_order_sqlite V L (localized d) c (localized_fits d Hf) Hw) as (rc1 & d1 & c1 & Hr & Hs & Hx).
    repeat match goal with Hx : context [if ?b then _ else _] |- _ => destruct b; try done end.
    unfold execute_new_order_checked in He. cbn [execute_new_order sqlite_ops] in He. fold (localized d) in He.
    unfold defined_txn in He. cbn [mbind option_bind] in He. rewrite Hr in He.
    destruct Hx as [(-> & b & Hb & Hq)|[-> [z <-]]].
    + destruct (new_order_work_fits _ _ _ (localized_fits d Hf) Hq) as [Hf1 Hz]. rewrite Hz in He. cbn in He.
      injection He as <- <- <-. exists c1. split_and!; [done|apply Hs..|by destruct Hf1|done|]. left. split; [done|].
      exists b. split; [done|]. by exists d1.
    + cbn in He. injection He as <- <- <-. exists c1.
      split_and!; [done|apply Hs..|by destruct (localized_fits d Hf)|done|by right].
  - pose proof (executed_txn V L _ _ execute_order_status_nonsp d c TD_order_status
      (ends_execute _ _ (fun rc => rc =? -1) _ _ _ (order_status_ends Hread V L d c (proj1 Hf) Hw Hselect (proj2 Hf)))
      Hf) as Hm. one_member TD_order_status Hf Hm.
  - pose proof (executed_txn V L _ _ execute_payment_nonsp d c TD_payment
      (ends_execute _ _ (fun rc => rc =? -1) _ _ _ (payment_ends Hread V L d c Hf ltac:(by apply Hselect) Hw)) Hf) as Hm. one_member TD_payment Hf Hm.
  - pose proof (executed_txn V L _ _ execute_stock_level_nonsp d c TD_stock_level
      (execute_stock_level_sqlite V L d c Hf Hw) Hf) as Hm. one_member TD_stock_level Hf Hm.
  - pose proof (executed_txn V L _ _ execute_integrity_nonsp d c TD_integrity
      (ends_execute _ _ (fun rc => rc =? -1) _ _ _ (integrity_ends Hread V L d c Hw)) Hf) as Hm. one_member TD_integrity Hf Hm.
Qed.
(** ** Commits, rollbacks, connections *)

(** Nothing is open: ready for a transaction, or without a connection. *)
Definition closed (V : list (list event)) c : Prop := db_of c = mk_sqlite_db V None ∅.
Definition idle V c : Prop := in_transaction c = false /\ closed V c.

(** After OK or ERROR: stored, rolled back, or a connection to give up. *)
Lemma finish_sqlite name V b rc status c1 st flog left1 w2 :
  finish (H := sqlite_ops name) rc status (Some c1) = (st, flog, left1, w2) ->
  (rc = OK /\ working V b ∅ c1) \/ (rc = ERROR /\ settled V ∅ c1) ->
  exists c2, w2 = Some c2
    /\ ((left1 = true /\ st = OK /\ rc = OK /\ (idle (V ++ [b]) c2 \/ (b = [] /\ idle V c2)))
        \/ (left1 = true /\ st = STATUS_ROLLBACK /\ idle V c2)
        \/ (left1 = false /\ st <> OK /\ settled V ∅ c2)).
Proof.
  unfold finish, idle, closed. intros Hf [[-> Hw]|[-> Hs]]; cbn in Hf.
  - unfold commit_transaction_sqlite in Hf. destruct Hw as [[Ht Hc]|(-> & Ht & Hc)]; rewrite Ht in Hf.
    2: { injection Hf as <- <- <- <-. exists c1. split; [done|]. left. split_and!; try done. by right. }
    pose proof (sqlite_commit_law (lib c1)) as Hl. destruct (sqlite3_exec _ (lib c1)) as [rc s].
    unfold db_of in *. rewrite Hc in Hl. cbn in Hl.
    destruct Hl as [(-> & b' & [= <-] & Hd)|[Hrc Hd]]; [|apply Z.eqb_neq in Hrc; rewrite Hrc in Hf]; cbn in Hf;
      injection Hf as <- <- <- <-; eexists; (split; [done|]).
    + left. split_and!; try done. left. by split.
    + right; right. split_and!; try done; unfold settled, db_of; cbn; destruct Hd as [-> | ->]; done.
  - unfold rollback_transaction_sqlite in Hf. destruct Hs as (HV & HL & Hn). destruct (in_transaction c1) eqn:Ht.
    2: { injection Hf as <- <- <- <-. exists c1. split; [done|]. right; left. split_and!; try done.
         unfold db_of in *. destruct (sqlite_db_of (lib c1)). cbn in *. by rewrite HV, HL, Hn. }
    pose proof (sqlite_rollback_law (lib c1)) as Hl. destruct (sqlite3_exec _ (lib c1)) as [rc s].
    unfold db_of in *. destruct Hl as [[-> Hd]|[Hrc Hd]]; [|apply Z.eqb_neq in Hrc; rewrite Hrc in Hf]; cbn in Hf;
      injection Hf as <- <- <- <-; eexists; (split; [done|]).
    + right; left. split_and!; try done. cbn. rewrite Hd. unfold rolled_back. by rewrite HV, HL.
    + right; right. split_and!; try done; unfold settled, db_of; cbn; destruct Hd as [-> | ->]; done.
Qed.

Lemma closed_connect name V c : closed V c -> idle V (connect_to_db_sqlite name c).2.
Proof.
  unfold idle, closed, connect_to_db_sqlite, db_of. intros Hc.
  pose proof (sqlite_open_law name (lib c)) as Ho. rewrite Hc in Ho. specialize (Ho eq_refl eq_refl).
  destruct (sqlite3_open name (lib c)) as [rc s]. cbn [snd] in Ho.
  destruct (negb (rc =? 0)); cbn; [|by split]. split; [done|].
  rewrite sqlite_close_law by by rewrite Ho. by rewrite Ho.
Qed.

Lemma settled_disconnect V c : settled V ∅ c ->
  exists c', disconnect_from_db_sqlite c = (OK, c') /\ closed V c'.
Proof.
  intros (HV & HL & _). eexists. split; [done|]. unfold closed, db_of in *. cbn.
  rewrite sqlite_close_law by done. unfold rolled_back. by rewrite HV, HL.
Qed.

(** Connected, or given up after the stop time. *)
Definition linked V (ok : bool) (w : option (sqlite_conn S)) : Prop :=
  exists c, w = Some c /\ if ok then idle V c else closed V c.

Lemma connect_sqlite name stop V : forall fuel w r log w',
  connect_to_db (H := sqlite_ops name) stop fuel w = Some (r, log, w') -> linked V false w ->
  linked V (r =? OK) w'.
Proof.
  induction fuel as [|fuel IH]; intros w r log w' Hr (c & -> & Hc); [done|]. cbn [connect_to_db] in Hr.
  cbn [time connect sqlite_ops] in Hr. unfold defined in Hr.
  pose proof (sqlite_time_law (lib c)) as Ht. destruct (sqlite_time (lib c)) as [now s].
  assert (Hc1 : closed V (mk_sqlite s (in_transaction c))) by (unfold closed, db_of in *; cbn in *; by rewrite Ht).
  destruct (expired stop now); [injection Hr as <- _ <-; by eexists|].
  apply (closed_connect name) in Hc1. destruct (connect_to_db_sqlite name _) as [rc c2]. cbn [snd] in Hc1.
  destruct (Z.eqb_spec rc OK) as [->|Hrc]; [injection Hr as <- _ <-; by eexists|].
  destruct (connect_to_db stop fuel _) as [[[r2 log2] w3]|] eqn:Hrec; [|done]. injection Hr as <- _ <-.
  eapply IH; [exact Hrec|]. eexists. split; [done|]. unfold closed, db_of. cbn. rewrite sqlite_sleep_law. apply Hc1.
Qed.

Lemma reconnect_sqlite name stop V : forall fuel w ok log w',
  reconnect (H := sqlite_ops name) stop fuel w = Some (ok, log, w') -> linked V false w -> linked V ok w'.
Proof.
  induction fuel as [|fuel IH]; intros w ok log w' Hr (c & -> & Hc); [done|]. cbn [reconnect] in Hr. cbn [time sqlite_ops] in Hr.
  unfold defined in Hr. pose proof (sqlite_time_law (lib c)) as Ht. destruct (sqlite_time (lib c)) as [now s].
  assert (Hc1 : linked V false (Some (mk_sqlite s (in_transaction c)))).
  { eexists. split; [done|]. unfold closed, db_of in *; cbn in *; by rewrite Ht. }
  destruct (expired stop now); [by injection Hr as <- _ <-|].
  destruct (connect_to_db stop _ _) as [[[r2 log2] w2]|] eqn:Hcn; [|done].
  apply (connect_sqlite name stop V) in Hcn; [|done]. cbn [mbind option_bind] in Hr.
  destruct (r2 =? OK); [by injection Hr as <- _ <-|].
  destruct (reconnect stop fuel _) as [[[r3 log3] w3]|] eqn:Hrec; [|done]. injection Hr as <- _ <-.
  eapply IH; [exact Hrec|]. destruct Hcn as (c2 & -> & Hc2). eexists. split; [done|].
  unfold closed, db_of in *. cbn. by rewrite sqlite_sleep_law.
Qed.
(** ** Attempts *)

(** What an answer says of the blocks that were stored. *)
Definition accounted (ty r : Z) (td' : transaction_data_t) (bs : list (list event)) : Prop :=
  if r =? OK then
    exists td b, data_type td = ty /\ sqlite_fits td /\ sqlite_work td b td' /\ (bs = [b] \/ (b = [] /\ bs = []))
  else bs = [].

Lemma attempts_sqlite name stop fuel n t V : forall status td c r td' log w',
  attempts (H := sqlite_ops name) stop fuel n t status td (Some c) = Some (r, td', log, w') ->
  status <> OK \/ (0 < n)%nat -> sqlite_fits td -> idle V c ->
  exists c' bs, w' = Some c' /\ closed (V ++ bs) c' /\ accounted (data_type td) r td' bs.
Proof.
  induction n as [|n IH]; intros status td c r td' log w' Ha Hst Hf Hc; cbn [attempts] in Ha.
  { injection Ha as <- <- _ <-. exists c, []. rewrite app_nil_r. split_and!; [done|apply Hc|].
    unfold accounted. destruct (Z.eqb_spec status OK) as [E|E]; [|done]. destruct Hst; [done|lia]. }
  destruct (negb _).
  { injection Ha as <- <- _ <-. exists c, []. rewrite app_nil_r. split_and!; [done|apply Hc|done]. }
  destruct (execute t td (Some c)) as [[[rc td1] w1]|] eqn:He; [|done]. cbn [mbind option_bind] in Ha.
  destruct (execute_sqlite name t td rc td1 w1 V ∅ c He Hf) as (c1 & -> & Hs & Hf1 & Hty & Hx).
  { right. destruct Hc as [? ?]. by split_and!. }
  destruct (finish rc status (Some c1)) as [[[st flog] left1] w2] eqn:Hfin.
  assert (Hb : exists b, ((rc = OK /\ working V b ∅ c1) \/ (rc = ERROR /\ settled V ∅ c1))
                         /\ (rc = OK -> sqlite_work td b td1)).
  { destruct Hx as [(-> & b & Hb & Hq)| ->]; [by exists b; split; [left|]|exists []; split; [by right|done]]. }
  destruct Hb as (b & Hb & Hq).
  destruct (finish_sqlite name V b _ _ _ _ _ _ _ Hfin Hb) as (c2 & -> & [(-> & -> & -> & Hi)|[(-> & -> & Hi)|(-> & Hne & Hs2)]]).
  - injection Ha as <- <- _ <-. destruct Hi as [Hi|[-> Hi]].
    + exists c2, [b]. split_and!; [done|apply Hi|]. exists td, b. split_and!; auto.
    + exists c2, []. rewrite app_nil_r. split_and!; [done|apply Hi|]. exists td, []. split_and!; auto.
  - injection Ha as <- <- _ <-. exists c2, []. rewrite app_nil_r. split_and!; [done|apply Hi|done].
  - unfold disconnect_from_db in Ha. cbn [disconnect sqlite_ops] in Ha. unfold defined in Ha.
    destruct (settled_disconnect V c2 Hs2) as (c3 & Hd & Hc3). rewrite Hd in Ha.
    destruct (reconnect stop fuel (Some c3)) as [[[ok rlog] w4]|] eqn:Hr; [|done].
    apply (reconnect_sqlite name stop V) in Hr as (c4 & -> & Hc4); [|by exists c3].
    cbn [mbind option_bind] in Ha. destruct ok.
    + destruct (attempts stop fuel n t st td1 (Some c4)) as [[[[r2 td2] rest] w5]|] eqn:Hrest; [|done].
      injection Ha as <- <- _ <-. rewrite <- Hty. eapply (IH st td1 c4); [exact Hrest|by left|done|exact Hc4].
    + injection Ha as <- <- _ <-. exists c4, []. rewrite app_nil_r. by split_and!.
Qed.
End theorems.

(** C7. process_transaction over SQLite, for transactions of the driver (with
    texts from the database of at most fifty bytes), whatever statements, commits,
    rollbacks and connections fail on the way, provided that no error of a SELECT
    makes the library roll the transaction back by itself (what happens then is
    [sqlite_delivery_not_atomic]): the program stays defined, every statement it
    prepared is finalized and no transaction is left open; when it answers OK the
    database holds one more block, the work of one whole transaction of the type
    asked for (a Delivery whose every BEGIN failed stores none), and otherwise
    none. *)
Theorem sqlite_transaction_stored {S} `{SqliteServer S} name stop fuel t td c r td' log w' :
  readable -> (forall q, is_select q = true -> ~ auto_rollback q) ->
  process_transaction (H := sqlite_ops name) stop fuel t td (Some c) = Some (r, td', log, w') ->
  sqlite_fits td -> in_transaction c = false -> db_of c = mk_sqlite_db (stored (db_of c)) None ∅ ->
  exists c' bs, w' = Some c' /\ db_of c' = mk_sqlite_db (stored (db_of c) ++ bs) None ∅
    /\ accounted (data_type td) r td' bs.
Proof.
  intros Hread Hselect Hp Hf Hc Hd.
  refine (attempts_sqlite Hread Hselect name stop fuel 2 t _ 0 td c r td' log w' Hp _ Hf (conj Hc Hd)). right. lia.
Qed.

(** ** Each transaction *)

(** The statements of a block that write. *)
Definition writes (b : list event) : list bytes := map fst (List.filter (fun e => negb (is_select e.1)) b).

Lemma writes_app b b' : writes (b ++ b') = writes b ++ writes b'.
Proof. unfold writes. by rewrite List.filter_app, map_app. Qed.

Lemma writes_select q rows b : is_select q = true -> writes ((q, rows) :: b) = writes b.
Proof. intros Hq. unfold writes. cbn [List.filter fst]. by rewrite Hq. Qed.

Lemma writes_done q b : is_select q = false -> writes (done q :: b) = q :: writes b.
Proof. intros Hq. unfold writes, done. cbn [List.filter fst]. by rewrite Hq. Qed.

Lemma payment_7_writes data n c_credit : is_select (payment_7 data n c_credit) = false.
Proof. unfold payment_7. by destruct (_ =? 71). Qed.

(** A string literal of SQL after its opening quote: the text, and what follows. *)
Fixpoint read_literal (s : bytes) : option (bytes * bytes) :=
  match s with
  | [] => None
  | ch :: s' =>
      if ch =? 39 then
        match s' with
        | ch' :: s'' =>
            if ch' =? 39 then '(text, rest) ← read_literal s''; Some (39 :: text, rest) else Some ([], s')
        | [] => Some ([], [])
        end
      else '(text, rest) ← read_literal s'; Some (ch :: text, rest)
  end.

Lemma read_escaped s rest : read_literal (dbt2_escape_str s ++ rest)
  = ('(text, rest) ← read_literal rest; Some (s ++ text, rest)).
Proof.
  unfold dbt2_escape_str. induction s as [|ch s IH].
  { cbn [flat_map app]. by destruct (read_literal rest) as [[? ?]|]. }
  cbn [flat_map]. destruct (Z.eqb_spec ch 39) as [->|Hch]; cbn [app read_literal].
  - rewrite Z.eqb_refl, IH. by destruct (read_literal rest) as [[? ?]|].
  - rewrite (proj2 (Z.eqb_neq _ _) Hch), IH. by destruct (read_literal rest) as [[? ?]|].
Qed.

(** The last column of the row that [PAYMENT_8] inserts, a literal. *)
Definition history_literal (w_name d_name : bytes) : bytes :=
  dbt2_escape_str w_name ++ lit "    " ++ dbt2_escape_str d_name ++ lit "')".

Lemma payment_8_literal c_id c_d_id c_w_id d_id w_id amount w_name d_name :
  exists history, PAYMENT_8 c_id c_d_id c_w_id d_id w_id amount (dbt2_escape_str w_name) (dbt2_escape_str d_name)
    = history ++ history_literal w_name d_name.
Proof.
  unfold PAYMENT_8, history_literal. set (tail := dbt2_escape_str w_name ++ _).
  repeat rewrite (app_assoc _ _ tail) || rewrite (app_assoc _ _ (_ ++ tail)). by eexists.
Qed.

Lemma read_history w_name d_name : read_literal (history_literal w_name d_name)
  = Some (w_name ++ lit "    " ++ d_name, lit ")").
Proof.
  unfold history_literal. rewrite read_escaped.
  change (lit "    ") with (dbt2_escape_str (lit "    ")) at 1. rewrite !read_escaped.
  change (read_literal (lit "')")) with (Some ([] : bytes, lit ")")). cbn [mbind option_bind]. by rewrite app_nil_r.
Qed.

Section claims.
Context {S : Type} `{SqliteServer S}.
Implicit Types c : sqlite_conn S.

Lemma customer_writes q c_id b n : customer_work q c_id b n -> is_select q = true -> writes b = [].
Proof. intros [?|? ? ? ?] Hq; [done|]. unfold writes. cbn [List.filter fst]. by rewrite Hq. Qed.

Lemma lines_writes w_id d_id o_id i lines b fs : lines_work w_id d_id o_id i lines b fs ->
  zlen (writes b) = 2 * zlen lines /\ Forall (fun l => ol_i_id l <> 0) lines.
Proof.
  induction 1 as [i|i line lines item items stock stocks price qty dist b fs Hi _ _ _ _ [IH1 IH2]]; [by split|].
  split; [|by constructor]. rewrite writes_app, zlen_app, IH1.
  match goal with |- context [zlen (writes (?e :: ?es))] => change (zlen (writes (e :: es))) with 2 end.
  unfold zlen. cbn [List.length]. lia.
Qed.

(** C25. A New-Order on SQLite returns, with every statement finalized.  OK: the
    transaction has read tax, district and customer, counted the district up,
    inserted the new order and the order under the number it read, and for each
    line, all of which name an item, updated the stock and inserted the line:
    three writes and two a line; the terminal is shown what was read.  ERROR: only
    the flag of the rollback has changed. *)
Theorem sqlite_new_order_correct data V L c :
  readable -> new_order_fits data -> working V [] L c ->
  exists rc data' c', execute_new_order_nonsp data c = Some (rc, data', c') /\ settled V L c'
    /\ ((rc = OK /\ exists b, working V b L c' /\ new_order_work data b data'
           /\ zlen (writes b) = 3 + 2 * no_o_ol_cnt data
           /\ Forall (fun l => ol_i_id l <> 0) (take (Z.to_nat (no_o_ol_cnt data)) (no_order_line data)))
        \/ (rc = ERROR /\ exists z, data' = set_no_rollback z data)).
Proof.
  intros Hread Hf Hw. destruct (execute_new_order_sqlite Hread V L data c Hf Hw) as (rc & data' & c' & Hr & Hs & Hx).
  exists rc, data', c'. split; [exact Hr|]. split; [exact Hs|].
  destruct Hx as [(-> & b & Hb & Hq)|[-> [z <-]]]; [left|right; eauto]. split; [done|]. exists b.
  split; [exact Hb|]. split; [exact Hq|]. destruct Hq as (w & ws & d & ds & cu & cs & o_id & es & fs & _ & Hl & -> & _).
  apply lines_writes in Hl as [Hl Hall]. split; [|exact Hall]. rewrite writes_app, zlen_app, Hl.
  destruct Hf as [_ _ _ Hcnt _ _ _].
  match goal with |- context [zlen (writes (?e :: ?es))] => change (zlen (writes (e :: es))) with 3 end.
  unfold zlen in *. rewrite length_take. lia.
Qed.

(** A Payment on SQLite returns, with every statement finalized.  ERROR
    leaves the structure as it was.  OK: it has written exactly four statements,
    which add the amount to the warehouse and the district, charge the customer
    (given by number, or the middle one of that name), a bad credit with a note,
    and insert the history row, whose text is the names of the warehouse and the
    district as they were read, whatever quotes they hold; the terminal is shown
    what was read, the balance less the payment. *)
Theorem sqlite_payment_correct data V L c :
  readable -> ~ auto_rollback (payment_name_query data) -> payment_fits data -> working V [] L c ->
  exists rc data' c', execute_payment_nonsp data c = Some (rc, data', c') /\ settled V L c'
    /\ ((rc = OK /\ exists b, working V b L c' /\ payment_work data b data'
           /\ exists c_id c_credit w_name d_name history,
                let h_amount := to_float (pa_h_amount data) in
                writes b
                = [PAYMENT_2 h_amount (pa_w_id data); PAYMENT_4 h_amount (pa_d_id data) (pa_w_id data);
                   payment_7 data c_id c_credit; history ++ history_literal w_name d_name]
                /\ read_literal (history_literal w_name d_name) = Some (w_name ++ lit "    " ++ d_name, lit ")"))
        \/ (rc = ERROR /\ data' = data)).
Proof.
  intros Hread Hrb Hf Hw.
  destruct (ends_execute V L (fun rc => rc =? -1) (eq data) (payment_work data) _ (payment_ends Hread V L data c Hf Hrb Hw))
    as (rc & data' & c' & Hr & Hs & Hx).
  exists rc, data', c'. split; [exact Hr|]. split; [exact Hs|].
  destruct Hx as [(-> & b & Hb & Hq)|[-> <-]]; [left|by right]. split; [done|]. exists b.
  split; [exact Hb|]. split; [exact Hq|].
  destruct Hq as (w & ws & d & ds & cu & cs & lookup & n & wn & dn & cc & Hcu & _ & _ & _ & -> & _).
  destruct (payment_8_literal n (pa_c_d_id data) (pa_c_w_id data) (pa_d_id data) (pa_w_id data)
              (to_float (pa_h_amount data)) wn dn) as [history Hh].
  exists n, cc, wn, dn, history. cbv zeta. split; [|apply read_history]. rewrite <- Hh.
  rewrite !writes_app, (customer_writes _ _ _ _ Hcu) by done. cbn [app].
  repeat first [rewrite writes_select by reflexivity|rewrite writes_done by first [reflexivity|apply payment_7_writes]].
  done.
Qed.

(** C26. A Delivery on SQLite returns, with every statement finalized, and does
    not change its structure, provided that no error of [DELIVERY_1] makes the
    library roll the transaction back by itself and that the texts read have at
    most fifty bytes.  OK: it has gone through all ten districts in order, each
    round from the connection that the one before left.  A round has found the
    oldest new order and made four writes, which remove it, set its carrier and
    the delivery dates and credit its customer; or found nothing to deliver; or
    its [DELIVERY_1], executed there, failed, and then the district is passed over
    in silence, the only way that a round stores nothing. *)
Theorem sqlite_delivery_correct data V L c :
  readable -> (forall d_id, ~ auto_rollback (DELIVERY_1 (dl_w_id data) d_id)) ->
  int32 (dl_w_id data) -> int32 (dl_o_carrier_id data) -> working V [] L c ->
  exists rc c', execute_delivery_nonsp data c = Some (rc, data, c') /\ settled V L c'
    /\ (rc = ERROR
        \/ (rc = OK /\ exists ess, working V (concat ess) L c'
            /\ districts_work data (zrange 1 11) c ess c'
            /\ Forall (fun es => zlen (writes es) = 0 \/ zlen (writes es) = 4) ess)).
Proof.
  intros Hread Hrb Hwid Hcar Hw.
  destruct (execute_delivery_sqlite Hread V L data c Hwid Hcar Hrb Hw) as (rc & c' & Hr & Hs & Hx).
  exists rc, c'. split; [exact Hr|]. split; [exact Hs|].
  destruct Hx as [->|(-> & ess & Hess & Hb)]; [by left|right]. split; [done|].
  exists ess. split; [exact Hb|]. split; [exact Hess|]. clear -Hess.
  induction Hess as [c|d ds c es c1 ess c2 _ Hd _ IH]; constructor; [|exact IH].
  destruct Hd as [_|rows _|o_id c_id amount r1 r3 r6 _ _ _ _]; [by left|by left|right].
  repeat first [rewrite writes_select by reflexivity|rewrite writes_done by reflexivity]. done.
Qed.
End claims.
