(* ===== verification/SqliteSample.v ===== *)
(** * A sample SQLite database

    A library that answers statements from a table and fails where it is told to.
    It obeys the laws of [SqliteServer], and witnesses the theorems of
    [SqliteTheorems]. *)

From Stdlib Require Import ZArith Lia SpecFloat String.
From stdpp Require Import base list gmap.
From S2P Require Import Prelude Double Text Common TxnData InputData Wire Tables Db Sqlite Nonsp NonspTxn SqliteServer Lengths SqliteSpec SqliteTheorems.

(** The rows of a statement, and what empties it once it was executed. *)
Record entry := mk_entry { e_query : bytes; e_rows : list sql_row; e_gone : option bytes }.

(** What the next statements meet. *)
Inductive fault := NoFault | StepError | RolledBack.

Record lite := mk_lite { l_db : sqlite_db; l_next : Z; l_faults : list fault }.

(** No null statement is open. *)
Definition lite_db (s : lite) : sqlite_db := set_live (delete 0 (live (l_db s))) (l_db s).

Section sample.
Context (table : list entry) (risky : bool).

Definition executed_already (d : sqlite_db) (q : bytes) : bool :=
  existsb (fun e => bytes_eqb q e.1) (concat (stored d) ++ default [] (work d)).

Definition gone (d : sqlite_db) (e : entry) : bool := from_option (executed_already d) false (e_gone e).

Definition rows_now (d : sqlite_db) (q : bytes) : list sql_row :=
  if is_select q then
    match List.find (fun e => bytes_eqb (e_query e) q && negb (gone d e)) table with
    | Some e => if forallb (fun r => Nat.eqb (List.length r) (columns q)) (e_rows e) then e_rows e else []
    | None => []
    end
  else [].

(** Errors roll back, those of a SELECT only in a risky library. *)
Definition lite_auto_rollback (q : bytes) : Prop := is_select q = false \/ risky = true.

#[local] Instance lite_rollback_dec q : Decision (lite_auto_rollback q).
Proof. unfold lite_auto_rollback. apply _. Defined.

Definition lite_answers (q : bytes) (rows : list sql_row) : Prop := rows = [] \/ exists d, rows = rows_now d q.

Definition lite_exec (q : bytes) (s : lite) : Z * lite :=
  let d := lite_db s in
  let set w := (0, mk_lite (mk_sqlite_db w.1 w.2 (live d)) (l_next s) (l_faults s)) in
  if bytes_eqb q (lit "BEGIN TRANSACTION;") then
    match work d with None => set (stored d, Some []) | Some _ => (1, s) end
  else if bytes_eqb q (lit "COMMIT TRANSACTION;") then
    match work d with Some b => set (stored d ++ [b], None) | None => (1, s) end
  else match work d with Some b => set (stored d, None) | None => (1, s) end.

Definition lite_prepare (q : bytes) (s : lite) : Z * Z * lite :=
  let d := lite_db s in
  let h := l_next s in
  if (h =? 0) || bool_decide (is_Some (live d !! h)) then (7, 0, s)
  else (0, h, mk_lite (set_live (<[h := Fresh q]> (live d)) d) (h + 1) (l_faults s)).

Definition lite_step (h : Z) (s : lite) : Z * lite :=
  let d := lite_db s in
  let go rc d fs := (rc, mk_lite d (l_next s) fs) in
  match live d !! h with
  | Some (Fresh q) =>
      let failed := set_live (<[h := Failed]> (live d)) in
      match hd NoFault (l_faults s) with
      | StepError => go 1 (failed d) (tl (l_faults s))
      | RolledBack => go 1 (failed (if decide (lite_auto_rollback q) then rolled_back d else d)) (tl (l_faults s))
      | NoFault =>
          match rows_now d q with
          | r :: rows => go SQLITE_ROW (effect (q, r :: rows) (set_live (<[h := At_row q r rows]> (live d)) d)) (tl (l_faults s))
          | [] => go SQLITE_DONE (effect (q, []) (set_live (<[h := Complete]> (live d)) d)) (tl (l_faults s))
          end
      end
  | Some (At_row q _ (r :: rows)) => go SQLITE_ROW (set_live (<[h := At_row q r rows]> (live d)) d) (l_faults s)
  | Some (At_row q _ []) => go SQLITE_DONE (set_live (<[h := Complete]> (live d)) d) (l_faults s)
  | _ => (21, s)
  end.

Definition lite_finalize (h : Z) (s : lite) : Z * lite :=
  let d := lite_db s in
  if h =? 0 then (0, s)
  else (match live d !! h with Some Failed => 1 | _ => 0 end,
        mk_lite (set_live (delete h (live d)) d) (l_next s) (l_faults s)).

#[local] Instance lite_library : Sqlite lite := {|
  sqlite3_open _ s := (0, s);
  sqlite3_close s := if decide (live (lite_db s) = ∅) then mk_lite (rolled_back (lite_db s)) (l_next s) (l_faults s) else s;
  sqlite3_exec := lite_exec;
  sqlite3_prepare_v2 := lite_prepare;
  sqlite3_step := lite_step;
  sqlite3_finalize := lite_finalize;
  sqlite3_column_count h s :=
    match live (lite_db s) !! h with
    | Some (Fresh q) | Some (At_row q _ _) => Z.of_nat (columns q) | _ => 0 end;
  sqlite3_column_text h i s :=
    match live (lite_db s) !! h with Some (At_row _ r _) => mjoin (r !! Z.to_nat i) | _ => None end;
  rows_left h s := match live (lite_db s) !! h with Some (At_row _ _ rows) => List.length rows | _ => 0%nat end;
  strndup_null := Some [];
  sqlite_time s := (0, s);
  sqlite_nanosleep s := s |}.

Lemma lite_db_delete d n fs : live d !! 0 = None -> lite_db (mk_lite d n fs) = d.
Proof. intros Hd. unfold lite_db, set_live. cbn. rewrite delete_id by done. by destruct d. Qed.

Lemma lite_no_null s : live (lite_db s) !! 0 = None.
Proof. apply lookup_delete_eq. Qed.

Lemma live_not_null s h cur : live (lite_db s) !! h = Some cur -> h <> 0.
Proof. intros Hh ->. by rewrite lite_no_null in Hh. Qed.

Lemma lite_begin s :
  let '(rc, s') := lite_exec (lit "BEGIN TRANSACTION;") s in
  (rc = SQLITE_OK /\ work (lite_db s) = None
   /\ lite_db s' = mk_sqlite_db (stored (lite_db s)) (Some []) (live (lite_db s)))
  \/ (rc <> SQLITE_OK /\ lite_db s' = lite_db s).
Proof.
  unfold lite_exec. cbn [bytes_eqb]. change (bytes_eqb (lit "BEGIN TRANSACTION;") (lit "BEGIN TRANSACTION;")) with true.
  cbv iota zeta. destruct (work (lite_db s)) as [b|] eqn:Hw; [by right|left].
  split_and!; [done|done|]. apply lite_db_delete. apply lite_no_null.
Qed.

Lemma lite_commit s :
  let '(rc, s') := lite_exec (lit "COMMIT TRANSACTION;") s in
  (rc = SQLITE_OK /\ exists b, work (lite_db s) = Some b
   /\ lite_db s' = mk_sqlite_db (stored (lite_db s) ++ [b]) None (live (lite_db s)))
  \/ (rc <> SQLITE_OK /\ (lite_db s' = lite_db s \/ lite_db s' = rolled_back (lite_db s))).
Proof.
  unfold lite_exec. change (bytes_eqb (lit "COMMIT TRANSACTION;") (lit "BEGIN TRANSACTION;")) with false.
  change (bytes_eqb (lit "COMMIT TRANSACTION;") (lit "COMMIT TRANSACTION;")) with true.
  cbv iota zeta. destruct (work (lite_db s)) as [b|] eqn:Hw; [left|right; split; [done|by left]].
  split; [done|]. exists b. split; [done|]. apply lite_db_delete. apply lite_no_null.
Qed.

Lemma lite_rollback s :
  let '(rc, s') := lite_exec (lit "ROLLBACK TRANSACTION;") s in
  (rc = SQLITE_OK /\ lite_db s' = rolled_back (lite_db s))
  \/ (rc <> SQLITE_OK /\ (lite_db s' = lite_db s \/ lite_db s' = rolled_back (lite_db s))).
Proof.
  unfold lite_exec. change (bytes_eqb (lit "ROLLBACK TRANSACTION;") (lit "BEGIN TRANSACTION;")) with false.
  change (bytes_eqb (lit "ROLLBACK TRANSACTION;") (lit "COMMIT TRANSACTION;")) with false.
  cbv iota zeta. destruct (work (lite_db s)) as [b|] eqn:Hw; [left|right; split; [done|by left]].
  split; [done|]. apply lite_db_delete. apply lite_no_null.
Qed.

Lemma lite_prepares q s :
  let '(rc, h, s') := lite_prepare q s in
  (rc = SQLITE_OK /\ h <> 0 /\ live (lite_db s) !! h = None
   /\ lite_db s' = set_live (<[h := Fresh q]> (live (lite_db s))) (lite_db s))
  \/ (rc <> SQLITE_OK /\ h = 0 /\ lite_db s' = lite_db s).
Proof.
  unfold lite_prepare. destruct (Z.eqb_spec (l_next s) 0) as [E|E]; [by right|]. cbn [orb].
  destruct (live (lite_db s) !! l_next s) as [cur|] eqn:Hl; [by right|]. left.
  split_and!; [done|done|done|]. apply lite_db_delete. cbn. by rewrite lookup_insert_ne, lookup_delete_eq by done.
Qed.

Lemma rows_now_columns d q : Forall (fun r => List.length r = columns q) (rows_now d q).
Proof.
  unfold rows_now. destruct (is_select q); [|constructor]. destruct (List.find _ _) as [e|]; [|constructor].
  destruct (forallb _ (e_rows e)) eqn:Hf; [|constructor]. rewrite forallb_forall in Hf. apply Forall_forall.
  intros r Hr. apply Nat.eqb_eq, Hf. by apply list_elem_of_In.
Qed.

Lemma rows_now_select d q r rows : rows_now d q = r :: rows -> is_select q = true.
Proof. unfold rows_now. by destruct (is_select q). Qed.
Lemma lite_steps h cur s : live (lite_db s) !! h = Some cur -> cur <> Complete -> cur <> Failed ->
  stepped lite_auto_rollback lite_answers h (lite_db s) cur (lite_step h s).1 (lite_db (lite_step h s).2).
Proof.
  intros Hl Hc Hf. pose proof (live_not_null s h cur Hl) as Hh.
  assert (Hdb : forall d cur n fs, lite_db (mk_lite (set_live (<[h := cur]> (live (lite_db s))) d) n fs)
                                   = set_live (<[h := cur]> (live (lite_db s))) d).
  { intros d cur' n fs. apply lite_db_delete. cbn. by rewrite lookup_insert_ne, lookup_delete_eq. }
  assert (Heff : forall e cur n fs,
    lite_db (mk_lite (effect e (set_live (<[h := cur]> (live (lite_db s))) (lite_db s))) n fs)
    = effect e (set_live (<[h := cur]> (live (lite_db s))) (lite_db s))).
  { intros e cur' n fs. apply lite_db_delete. unfold effect. cbn [work set_live].
    destruct (work (lite_db s)); cbn [live set_live]; by rewrite lookup_insert_ne, lite_no_null. }
  unfold lite_step. rewrite Hl. destruct cur as [q|q r [|r' rows]| |]; try done; cbn zeta.
  - destruct (hd NoFault (l_faults s)); [destruct (rows_now (lite_db s) q) as [|r rows] eqn:Hr| |]; cbn [fst snd].
    + rewrite Heff. apply no_row. by left.
    + rewrite Heff. pose proof (rows_now_columns (lite_db s) q) as Hcols. rewrite Hr in Hcols.
      apply first_row; [by eapply rows_now_select| |done]. right. by exists (lite_db s).
    + rewrite Hdb. eapply step_failed; [by left|by intros [?|?]|by left].
    + case_decide as Hd; rewrite Hdb; [|eapply step_failed; [by left|by intros [?|?]|by left]].
      eapply step_failed; [by left|by intros [?|?]|by right].
  - cbn [fst snd]. rewrite Hdb. apply last_row.
  - cbn [fst snd]. rewrite Hdb. apply next_row.
Qed.

Lemma lite_finalizes h s : h = 0 \/ is_Some (live (lite_db s) !! h) ->
  lite_db (lite_finalize h s).2
  = (if h =? 0 then lite_db s else set_live (delete h (live (lite_db s))) (lite_db s)).
Proof.
  intros _. unfold lite_finalize. destruct (h =? 0); [done|]. cbn [snd]. apply lite_db_delete. cbn.
  by rewrite lookup_delete_None, lookup_delete_eq; right.
Qed.

Lemma lite_close s : live (lite_db s) = ∅ -> lite_db (sqlite3_close s) = rolled_back (lite_db s).
Proof. intros Hl. cbn. rewrite decide_True by done. apply lite_db_delete, lite_no_null. Qed.

Lemma lite_completes h s : live (lite_db s) !! h = Some Complete -> (lite_finalize h s).1 = SQLITE_OK.
Proof. intros Hl. unfold lite_finalize. rewrite Hl. by destruct (h =? 0). Qed.

Lemma lite_texts h q r rows i s : live (lite_db s) !! h = Some (At_row q r rows) ->
  sqlite3_column_text h (Z.of_nat i) s = mjoin (r !! i).
Proof. intros Hl. unfold sqlite3_column_text, lite_library. by rewrite Hl, Nat2Z.id. Qed.

Lemma lite_counts h q s : live (lite_db s) !! h = Some (Fresh q) -> sqlite3_column_count h s = Z.of_nat (columns q).
Proof. intros Hl. unfold sqlite3_column_count, lite_library. by rewrite Hl. Qed.

Lemma lite_lefts h q r rows s : live (lite_db s) !! h = Some (At_row q r rows) -> rows_left h s = List.length rows.
Proof. intros Hl. unfold rows_left, lite_library. by rewrite Hl. Qed.

#[local] Instance lite_server : SqliteServer lite := {|
  sqlite_db_of := lite_db;
  answers := lite_answers;
  auto_rollback := lite_auto_rollback;
  sqlite_open_law _ s _ _ := eq_refl;
  sqlite_close_law := lite_close;
  sqlite_begin_law := lite_begin;
  sqlite_commit_law := lite_commit;
  sqlite_rollback_law := lite_rollback;
  sqlite_prepare_law := lite_prepares;
  sqlite_step_law := lite_steps;
  sqlite_finalize_law := lite_finalizes;
  sqlite_complete_law := lite_completes;
  sqlite_text_law := lite_texts;
  sqlite_count_law := lite_counts;
  sqlite_left_law := lite_lefts;
  sqlite_no_null_statement := lite_no_null;
  sqlite_time_law s := eq_refl;
  sqlite_sleep_law s := eq_refl |}.

(** Every value of the table but [c_data] is short. *)
Definition short_value (v : option bytes) : bool := from_option (fun t => zlen t <=? 50) true v.
Definition short_row (r : sql_row) : bool :=
  forallb (fun iv : nat * option bytes => Nat.eqb iv.1 14 || short_value iv.2) (imap pair r).

Lemma lite_readable : forallb (fun e => forallb short_row (e_rows e)) table = true -> readable.
Proof.
  intros Ht q rows row i v Ha Hrow Hv Hi. destruct Ha as [->|[d ->]]; [by apply not_elem_of_nil in Hrow|].
  unfold rows_now in Hrow. destruct (is_select q); [|by apply not_elem_of_nil in Hrow].
  destruct (List.find _ table) as [e|] eqn:He; [|by apply not_elem_of_nil in Hrow].
  destruct (forallb _ (e_rows e)); [|by apply not_elem_of_nil in Hrow].
  apply List.find_some in He as [He _]. rewrite forallb_forall in Ht. specialize (Ht e He).
  rewrite forallb_forall in Ht. specialize (Ht row ltac:(by apply list_elem_of_In)).
  unfold short_row in Ht. rewrite forallb_forall in Ht. specialize (Ht (i, v)).
  assert (Hin : In (i, v) (imap pair row)).
  { apply list_elem_of_In, list_elem_of_lookup. exists i. by rewrite list_lookup_imap, Hv. }
  specialize (Ht Hin). cbn in Ht. apply orb_true_iff in Ht as [Ht|Ht]; [by apply Nat.eqb_eq in Ht|].
  destruct v as [t|]; [|by exists []]. exists t. split; [done|]. by apply Z.leb_le.
Qed.
End sample.

(** ** Tables *)

Definition text (s : string) : option bytes := Some (lit s).

(** The oldest new order of a district, 5 of customer 3. *)
Definition delivery_entries (d_id : Z) : list entry :=
  [mk_entry (DELIVERY_1 1 d_id) [[text "5"]] (Some (DELIVERY_2 (lit "5") 1 d_id));
   mk_entry (DELIVERY_3 (lit "5") 1 d_id) [[text "3"]] None;
   mk_entry (DELIVERY_6 (lit "5") 1 d_id) [[text "12.50"]] None].

Definition item_entry (i_id : Z) : entry :=
  mk_entry (NEW_ORDER_7 i_id) [[text "2.50"; text "bolt"; text "ORIGINAL"]] None.
Definition stock_entry (i_id : Z) : entry :=
  mk_entry (NEW_ORDER_8 (lit "s_dist_02") i_id 1) [[text "50"; text "dist"; text "ORIGINAL"]] None.

Definition lite_table : list entry :=
  delivery_entries 1 ++ delivery_entries 2 ++
  [mk_entry (PAYMENT_1 1) [[text "O'Hara"; text "s1"; text "s2"; text "city"; text "CA"; text "90000"]] None;
   mk_entry (PAYMENT_3 2 1) [[text "D'2"; text "s1"; text "s2"; text "city"; text "CA"; text "90000"]] None;
   mk_entry (PAYMENT_5 1 2 (lit "BAR")) [[text "9"]; [text "4"]; [text "7"]] None;
   mk_entry (PAYMENT_6 1 2 4)
     [[text "Ann"; text "OE"; text "BAR"; text "s1"; text "s2"; text "city"; text "CA"; text "90000"; text "555";
       text "2024"; text "BC"; text "50000.00"; text "0.1"; text "-10.00"; text "note"; text "10.00"]] None;
   mk_entry (NEW_ORDER_1 1) [[text "0.10"]] None;
   mk_entry (NEW_ORDER_2 1 2) [[text "0.05"; text "3001"]] None;
   mk_entry (NEW_ORDER_4 1 2 4) [[text "0.1"; text "BAR"; text "BC"]] None;
   item_entry 1; stock_entry 1; item_entry 2; stock_entry 2].

Definition fresh_lite (fs : list fault) : sqlite_conn lite :=
  mk_sqlite (mk_lite (mk_sqlite_db [] None ∅) 1 fs) false.

#[local] Existing Instance lite_library.
#[local] Existing Instance lite_server.

#[local] Abbreviation lite_run risky t td fs :=
  (process_transaction (H := sqlite_ops (H := lite_library lite_table risky) (lit "dbt2.sqlite")) 0 3 t td
     (Some (fresh_lite fs))).

(** What can be seen of a run: the answer, and the statements that wrote, block by
    block. *)
Definition seen_run (r : option (Z * transaction_data_t * list Db.call * option (sqlite_conn lite)))
  : option (Z * list (list bytes)) :=
  match r with
  | Some (rc, _, _, Some c) => Some (rc, map writes (stored (lite_db (lib c))))
  | _ => None
  end.

Definition lite_delivery : delivery_t := mk_delivery 1 7.

Definition delivered (d_id : Z) : list bytes :=
  [DELIVERY_2 (lit "5") 1 d_id; DELIVERY_4 7 (lit "5") 1 d_id; DELIVERY_5 (lit "5") 1 d_id;
   DELIVERY_7 (lit "12.50") (lit "3") 1 d_id].

(** Two districts have something to deliver; an error of the first statement of
    one of them leaves it out without a word. *)
Example lite_delivers : seen_run (lite_run false DELIVERY (TD_delivery lite_delivery) [])
  = Some (OK, [delivered 1 ++ delivered 2]).
Proof. vm_compute. reflexivity. Qed.

Example lite_passes_over : seen_run (lite_run false DELIVERY (TD_delivery lite_delivery) [StepError])
  = Some (OK, [delivered 2]).
Proof. vm_compute. reflexivity. Qed.

(** The client does not keep a Delivery on SQLite atomic when an error of its
    first statement rolls the transaction back, as SQLite may: the error is passed
    over, the statements that follow are stored one by one outside of any
    transaction, and remain although the client answers STATUS_ROLLBACK. *)
Theorem sqlite_delivery_not_atomic :
  match lite_run true DELIVERY (TD_delivery lite_delivery)
          (RolledBack :: repeat NoFault 16 ++ [StepError]) with
  | Some (rc, _, log, Some c) =>
      rc = STATUS_ROLLBACK
      /\ log = [CExecute DELIVERY OK; CCommit ERROR; CDisconnect OK; CConnect OK;
                CExecute DELIVERY ERROR; CRollback STATUS_ROLLBACK]
      /\ concat (map writes (stored (lite_db (lib c)))) = delivered 2
      /\ Forall (fun b => zlen b = 1) (stored (lite_db (lib c)))
  | _ => False
  end.
Proof. vm_compute. split_and!; repeat constructor. Qed.

(** ** Witnesses *)

Lemma careful q : is_select q = true -> ~ lite_auto_rollback false q.
Proof. unfold lite_auto_rollback. intros -> [Hq|Hq]; discriminate. Qed.

Lemma lite_table_readable : readable (H := lite_library lite_table false) (H0 := lite_server lite_table false).
Proof. apply lite_readable. vm_compute. reflexivity. Qed.

Lemma lite_int32 z : (- 2 ^ 31 <=? z) && (z <? 2 ^ 31) = true -> int32 z.
Proof. intros [H1 H2]%andb_true_iff. split; [by apply Z.leb_le|by apply Z.ltb_lt]. Qed.

Definition lite_payment : payment_t :=
  mk_payment 2 1 2 (d_of_Z 10) 1 0 (lit "BAR") [] [] [] [] [] [] d_zero d_zero d_zero
    [] [] [] [] [] [] [] [] [] [] [] [] [] [] [] [] [] [].

Lemma lite_payment_fits : payment_fits lite_payment.
Proof. split; [apply lite_int32; reflexivity..|]. apply Z.leb_le. vm_compute. reflexivity. Qed.

Example lite_pays : seen_run (lite_run false PAYMENT (TD_payment lite_payment) [])
  = Some (OK, [[PAYMENT_2 (d_of_Z 10) 1; PAYMENT_4 (d_of_Z 10) 2 1;
                PAYMENT_7_BC (d_of_Z 10) (lit "4 2 1 2 1 10.000000 ") 4 1 2;
                PAYMENT_8 4 2 1 2 1 (d_of_Z 10) (lit "O''Hara") (lit "D''2")]]).
Proof. vm_compute. reflexivity. Qed.

Lemma lite_payment_answers :
  match lite_run false PAYMENT (TD_payment lite_payment) [StepError] with Some _ => True | None => False end.
Proof. vm_compute. exact I. Qed.

Lemma sqlite_transaction_stored_witness :
  exists r td' log c' bs, lite_run false PAYMENT (TD_payment lite_payment) [StepError] = Some (r, td', log, Some c')
    /\ lite_db (lib c') = mk_sqlite_db ([] ++ bs) None ∅
    /\ accounted (H0 := lite_server lite_table false) PAYMENT r td' bs.
Proof.
  pose proof lite_payment_answers as Hany.
  destruct (lite_run false PAYMENT (TD_payment lite_payment) [StepError]) as [[[[r td'] log] w']|] eqn:Hp; [|destruct Hany].
  destruct (sqlite_transaction_stored (H0 := lite_server lite_table false) _ _ _ _ (TD_payment lite_payment) _ r td' log w'
              lite_table_readable careful Hp lite_payment_fits eq_refl eq_refl) as (c' & bs & -> & Hd & Ha).
  exists r, td', log, c', bs. split; [reflexivity|]. split; [exact Hd|exact Ha].
Defined.

Lemma fresh_working L : L = ∅ -> working (H0 := lite_server lite_table false) [] [] L (fresh_lite []).
Proof. intros ->. right. split; [reflexivity|]. split; reflexivity. Qed.

Lemma sqlite_payment_correct_witness :
  exists rc data' c', execute_payment_nonsp (H := lite_library lite_table false) lite_payment (fresh_lite [])
    = Some (rc, data', c')
    /\ (rc = OK \/ rc = ERROR).
Proof.
  destruct (sqlite_payment_correct (H0 := lite_server lite_table false) lite_payment [] ∅ (fresh_lite [])
              lite_table_readable (careful (payment_name_query lite_payment) eq_refl) lite_payment_fits (fresh_working ∅ eq_refl))
    as (rc & data' & c' & Hr & _ & Hx).
  exists rc, data', c'. split; [exact Hr|]. destruct Hx as [[-> _]|[-> _]]; [by left|by right].
Defined.

(** What is in the open transaction after an execution that answered OK. *)
Definition ended_ok {D} (r : option (Z * D * sqlite_conn lite)) : option (list bytes) :=
  match r with
  | Some (rc, _, c) => if rc =? OK then option_map writes (work (lite_db (lib c))) else None
  | None => None
  end.

Lemma faulty_working fs L : L = ∅ -> working (H0 := lite_server lite_table false) [] [] L (fresh_lite fs).
Proof. intros ->. right. split; [reflexivity|]. split; reflexivity. Qed.

Lemma ended_working {D} rc (data : D) c b L w : ended_ok (Some (rc, data, c)) = Some w ->
  working (H0 := lite_server lite_table false) [] b L c -> rc = OK /\ writes b = w.
Proof.
  unfold ended_ok. destruct (Z.eqb_spec rc OK) as [->|]; [|done]. intros Hw Hb. split; [done|].
  unfold working, in_txn, db_of in Hb. cbn in Hb.
  destruct Hb as [[_ Hb]|(-> & _ & Hb)]; rewrite Hb in Hw; [by injection Hw as <-|done].
Qed.

(** The first statement of district 1 fails, district 2 is delivered. *)
Lemma sqlite_delivery_correct_witness :
  exists c' ess, execute_delivery_nonsp (H := lite_library lite_table false) lite_delivery (fresh_lite [StepError])
      = Some (OK, lite_delivery, c')
    /\ districts_work (H := lite_library lite_table false) lite_delivery (zrange 1 11) (fresh_lite [StepError]) ess c'
    /\ writes (concat ess) = delivered 2.
Proof.
  destruct (sqlite_delivery_correct (H0 := lite_server lite_table false) lite_delivery [] ∅ (fresh_lite [StepError])
              lite_table_readable (fun d => careful (DELIVERY_1 1 d) eq_refl) ltac:(apply lite_int32; reflexivity)
              ltac:(apply lite_int32; reflexivity) (faulty_working [StepError] ∅ eq_refl))
    as (rc & c' & Hr & _ & Hx).
  assert (Hw : ended_ok (execute_delivery_nonsp (H := lite_library lite_table false) lite_delivery
                           (fresh_lite [StepError])) = Some (delivered 2)) by (vm_compute; reflexivity).
  rewrite Hr in Hw. destruct Hx as [->|(-> & ess & Hb & Hess & _)]; [discriminate Hw|].
  exists c', ess. split; [exact Hr|]. split; [exact Hess|]. exact (proj2 (ended_working _ _ _ _ _ _ Hw Hb)).
Defined.

Definition lite_order : new_order_t :=
  mk_new_order 1 2 4 2 1
    (mk_no_order_line 1 1 5 d_zero 0 0 [] d_zero :: mk_no_order_line 2 1 7 d_zero 0 0 [] d_zero
       :: repeat zero_no_order_line 13) 0 d_zero d_zero d_zero [] [] d_zero 0.

Example lite_orders : exists b, seen_run (lite_run false NEW_ORDER (TD_new_order lite_order) []) = Some (OK, [b])
  /\ b = [NEW_ORDER_3 1 2; NEW_ORDER_5 (lit "3001") 1 2; NEW_ORDER_6 (lit "3001") 2 1 4 2 1;
          NEW_ORDER_9 5 1 1; NEW_ORDER_10 (lit "3001") 2 1 1 1 1 5 (decimal 125 1) (lit "dist");
          NEW_ORDER_9 7 2 1; NEW_ORDER_10 (lit "3001") 2 1 2 2 1 7 (decimal 175 1) (lit "dist")].
Proof. eexists. split; vm_compute; reflexivity. Qed.

Lemma lite_line_fits line rows price :
  (forall d, rows_now lite_table d (NEW_ORDER_7 (ol_i_id line)) = rows) ->
  int32 (ol_i_id line) -> int32 (ol_supply_w_id line) -> 0 <= ol_quantity line < 100 ->
  default price (first_value (H := lite_library lite_table false) rows 0) = price ->
  zlen (fmt_f 6 (line_amount price line)) <= 100 ->
  line_fits (H0 := lite_server lite_table false) line.
Proof.
  intros Hrows Hi Hs Hq Hp Hz. split; [exact Hi|]. split; [exact Hs|]. split; [exact Hq|].
  intros rows' p [-> |[d ->]] Hf; [discriminate Hf|]. rewrite Hrows in Hf. rewrite Hf in Hp. simpl in Hp. subst p. exact Hz.
Qed.

Lemma lite_order_fits : new_order_fits (H0 := lite_server lite_table false) lite_order.
Proof.
  split; [apply lite_int32; reflexivity|done|apply lite_int32; reflexivity|done|done|apply lite_int32; reflexivity|].
  assert (Hz : forall line, line = zero_no_order_line -> line_fits (H0 := lite_server lite_table false) line).
  { intros line ->. apply (lite_line_fits _ [] []); [done..|]. apply Z.leb_le. vm_compute. reflexivity. }
  constructor; [|constructor].
  - apply (lite_line_fits _ [[text "2.50"; text "bolt"; text "ORIGINAL"]] (lit "2.50")); [done..|].
    apply Z.leb_le. vm_compute. reflexivity.
  - apply (lite_line_fits _ [[text "2.50"; text "bolt"; text "ORIGINAL"]] (lit "2.50")); [done..|].
    apply Z.leb_le. vm_compute. reflexivity.
  - apply Forall_forall. intros line Hl. apply Hz. by apply list_elem_of_In, repeat_spec in Hl.
Qed.

Lemma sqlite_new_order_correct_witness :
  exists data' c' b, execute_new_order_nonsp (H := lite_library lite_table false) lite_order (fresh_lite [])
      = Some (OK, data', c')
    /\ new_order_work (H := lite_library lite_table false) lite_order b data' /\ zlen (writes b) = 7.
Proof.
  destruct (sqlite_new_order_correct (H0 := lite_server lite_table false) lite_order [] ∅ (fresh_lite [])
              lite_table_readable lite_order_fits (fresh_working ∅ eq_refl))
    as (rc & data' & c' & Hr & _ & Hx).
  assert (Hok : match execute_new_order_nonsp (H := lite_library lite_table false) lite_order (fresh_lite []) with
                | Some (rc, _, _) => rc = OK | None => False end) by (vm_compute; reflexivity).
  rewrite Hr in Hok. subst rc. destruct Hx as [(_ & b & _ & Hq & Hw & _)|[Hc _]]; [|discriminate Hc].
  exists data', c', b. split; [exact Hr|]. split; [exact Hq|exact Hw].
Defined.
