(* ===== verification/Mysql.v ===== *)
(** * The MySQL back end of the client ([src/mysql])

    The operations of the database layer over the calls of the MySQL client
    library, which are an interface: connecting, a query, and the result sets
    that follow it.  Each transaction formats one CALL of a stored procedure into
    a buffer and copies the rows of its result sets into the structure of the
    transaction.  A [sprintf] beyond its buffer and a connection that is used
    when it is not there are [None]: C does not say what the program does then.
    Messages to the log and the code of DEBUG builds are left out. *)

From Stdlib Require Import ZArith Lia SpecFloat String.
From stdpp Require Import base list.
From S2P Require Import Prelude Double Text Common TxnData Wire Tables Db NonspTxn Lengths.

(** A result set: the number of its columns, and its rows, [None] for NULL. *)
Record MYSQL_RES := mk_MYSQL_RES {
  mysql_num_fields : Z; mysql_rows : list (list (option bytes)) }.

(** The calls.  The state [S] holds the connection behind the handle.  [true]: the
    call failed.  [results_left] bounds the result sets that a query still has:
    there are finitely many. *)
Class Mysql (S : Type) := {
  mysql_init : S -> bool * S;
  mysql_real_connect : list (option bytes) -> Z -> S -> bool * S;
  mysql_close : S -> S;
  mysql_query : bytes -> S -> bool * S;
  mysql_store_result : S -> option MYSQL_RES * S;
  mysql_field_count : S -> Z;
  mysql_affected_rows : S -> Z;
  mysql_next_result : S -> Z * S;
  results_left : S -> nat;
  mysql_time : S -> Z * S;
  mysql_nanosleep : S -> S }.

(** [dbc->library.mysql.mysql]: a connection, the null pointer, or freed. *)
Inductive handle := Live | Null | Freed.

Record mysql_conn (S : Type) := mk_mysql { my_lib : S; my_handle : handle }.
Arguments mk_mysql {S} my_lib my_handle.
Arguments my_lib {S} m.
Arguments my_handle {S} m.

(** The strings of [struct db_context_mysql]. *)
Record db_context_mysql := mk_db_context_mysql {
  my_dbname : bytes; my_host : bytes; my_user : bytes; my_pass : bytes; my_port : bytes;
  my_socket : bytes }.

Definition MYSQL_DBNAME_LEN : Z := 31.
Definition MYSQL_HOST_LEN : Z := 255.
Definition MYSQL_PASS_LEN : Z := 31.
Definition MYSQL_PORT_T_LEN : Z := 31.
Definition MYSQL_SOCKET_T_LEN : Z := 255.
Definition MYSQL_USER_LEN : Z := 31.

(** [db_init_mysql]: null pointers, [None], get the defaults. *)
Definition db_init_mysql (dbname host user pass port socket : option bytes) : db_context_mysql :=
  mk_db_context_mysql
    (strncpy (default (lit "dbt2") dbname) MYSQL_DBNAME_LEN)
    (strncpy (default (lit "localhost") host) MYSQL_HOST_LEN)
    (strncpy (default (lit "root") user) MYSQL_USER_LEN)
    (strncpy (default [] pass) MYSQL_PASS_LEN)
    (strncpy (default (lit "0") port) MYSQL_PORT_T_LEN)
    (strncpy (default [] socket) MYSQL_SOCKET_T_LEN).

(** [struct sql_result_mysql] *)
Record sql_result_mysql := mk_sql_result_mysql {
  result_set : option (list (list (option bytes)));   (** the rows not fetched yet *)
  current_row : option (list (option bytes)); my_num_fields : Z; my_num_rows : Z }.

Section mysql.
Context {S : Type} `{Mysql S}.
Implicit Types c : mysql_conn S.

(** A call on the connection. *)
Definition on_connection {A} (f : S -> A * S) c : option (A * mysql_conn S) :=
  match my_handle c with
  | Live => let '(a, s) := f (my_lib c) in Some (a, mk_mysql s Live)
  | _ => None
  end.

(** ** The connection ([dbc_common.c]) *)

Definition commit_transaction_mysql c : option (Z * mysql_conn S) :=
  '(failed, c) ← on_connection (mysql_query (lit "COMMIT")) c;
  Some (if (failed : bool) then ERROR else OK, c).

Definition rollback_transaction_mysql c : option (Z * mysql_conn S) :=
  '(failed, c) ← on_connection (mysql_query (lit "ROLLBACK")) c;
  Some (if (failed : bool) then ERROR else STATUS_ROLLBACK, c).

Definition connect_to_db_mysql (p : db_context_mysql) c : option (Z * mysql_conn S) :=
  let '(failed, s) := mysql_init (my_lib c) in
  if (failed : bool) then Some (ERROR, mk_mysql s Null)
  else
    let '(failed, s) :=
      mysql_real_connect (map Some [my_host p; my_user p; my_pass p; my_dbname p; my_socket p])
        (atoi (my_port p)) s in
    if (failed : bool) then Some (ERROR, mk_mysql (mysql_close s) Null)
    else
      let '(failed, s) := mysql_query (lit "SET AUTOCOMMIT=0") s in
      if (failed : bool) then Some (ERROR, mk_mysql (mysql_close s) Null)
      else Some (OK, mk_mysql s Live).

(** [mysql_close] takes the null pointer, but no handle twice. *)
Definition disconnect_from_db_mysql c : option (Z * mysql_conn S) :=
  match my_handle c with
  | Live => Some (OK, mk_mysql (mysql_close (my_lib c)) Freed)
  | Null => Some (OK, c)
  | Freed => None
  end.

(** ** Queries of the common layer *)

Definition sql_execute_mysql (query : bytes) c : option (bool * sql_result_mysql * mysql_conn S) :=
  let none := mk_sql_result_mysql None None 0 0 in
  '(failed, c) ← on_connection (mysql_query query) c;
  if (failed : bool) then Some (false, none, c)
  else
    '(result, c) ← on_connection mysql_store_result c;
    match result with
    | Some res =>
        Some (true, mk_sql_result_mysql (Some (mysql_rows res)) None (mysql_num_fields res)
                      (zlen (mysql_rows res)), c)
    | None =>
        if mysql_field_count (my_lib c) =? 0
        then Some (true, mk_sql_result_mysql None None 0 (mysql_affected_rows (my_lib c)), c)
        else Some (false, none, c)
    end.

(** Fetching from the null pointer is not defined. *)
Definition sql_fetchrow_mysql (r : sql_result_mysql) : option (bool * sql_result_mysql) :=
  match result_set r with
  | None => None
  | Some [] => Some (false, mk_sql_result_mysql (Some []) None (my_num_fields r) (my_num_rows r))
  | Some (row :: rows) =>
      Some (true, mk_sql_result_mysql (Some rows) (Some row) (my_num_fields r) (my_num_rows r))
  end.

Definition sql_close_cursor_mysql (r : sql_result_mysql) : Z := 1.

(** The copy of a field; [None] for the null pointer. *)
Definition sql_getvalue_mysql (r : sql_result_mysql) (field : nat) : option bytes :=
  row ← current_row r;
  if Z.of_nat field <? my_num_fields r then mjoin (row !! field) else None.

(** ** Result sets *)

(** [row[i]], unless it is NULL or not there. *)
Definition cell (row : list (option bytes)) (i : nat) : option bytes := mjoin (row !! i).

(** [if (row[i]) { dest = ...(row[i]); }] *)
Definition int_cell (row : list (option bytes)) (i : nat) (old : Z) : Z :=
  from_option atoi old (cell row i).
Definition float_cell (row : list (option bytes)) (i : nat) (old : double) : double :=
  from_option atof old (cell row i).
(** [snprintf(dest, n, "%s", row[i])] *)
Definition text_cell (n : Z) (row : list (option bytes)) (i : nat) (old : bytes) : bytes :=
  from_option (fun v => strncpy v (n - 1)) old (cell row i).
(** [mbstowcs(dest, row[i], C_LAST_LEN + 1)] *)
Definition wide_cell (row : list (option bytes)) (i : nat) (old : list Z) : list Z :=
  from_option (fun v => mbstowcs old v (Size.C_LAST_LEN + 1)) old (cell row i).

(** The loop over the result sets of a CALL: the first row of each, with the
    number of columns; [0] from [mysql_next_result] says that there is another
    one, anything else, an error included, ends the loop. *)
Fixpoint result_loop {D} (fuel : nat) (store : Z -> list (option bytes) -> D -> D) (data : D) c
  : option (D * mysql_conn S) :=
  match fuel with
  | O => None
  | Datatypes.S fuel =>
      '(result, c) ← on_connection mysql_store_result c;
      let data := match result with
                  | Some res => match mysql_rows res with
                                | row :: _ => store (mysql_num_fields res) row data
                                | [] => data
                                end
                  | None => data
                  end in
      '(rc, c) ← on_connection mysql_next_result c;
      if rc =? 0 then result_loop fuel store data c else Some (data, c)
  end.

Definition result_sets {D} (store : Z -> list (option bytes) -> D -> D) (data : D) c
  : option (D * mysql_conn S) :=
  result_loop (Datatypes.S (results_left (my_lib c))) store data c.

(** [select @variable]: the value; [None] when there is none. *)
Definition select_variable (query : bytes) c : option (option bytes * mysql_conn S) :=
  '(failed, c) ← on_connection (mysql_query query) c;
  if (failed : bool) then Some (None, c)
  else
    '(result, c) ← on_connection mysql_store_result c;
    Some (result ≫= fun res => match mysql_rows res with row :: _ => cell row 0 | [] => None end, c).

(** ** The transactions *)

Definition separated (sep : bytes) (zs : list Z) : bytes := flat_map (fun z => sep ++ fmt_d z) zs.

(** *** Delivery ([dbc_delivery.c]) *)

Definition delivery_stmt (d : delivery_t) : bytes :=
  lit "call delivery(" ++ fmt_d (dl_w_id d) ++ lit ", " ++ fmt_d (dl_o_carrier_id d) ++ lit ")".

Definition execute_delivery_mysql (data : delivery_t) c : option (Z * delivery_t * mysql_conn S) :=
  stmt ← sprintf 512 (delivery_stmt data);
  '(failed, c) ← on_connection (mysql_query stmt) c;
  Some (if (failed : bool) then ERROR else OK, data, c).

(** *** Stock-Level ([dbc_stock_level.c]) *)

Definition stock_level_stmt (d : stock_level_t) : bytes :=
  lit "call stock_level(" ++ fmt_d (sl_w_id d) ++ lit ", " ++ fmt_d (sl_d_id d) ++ lit ", "
  ++ fmt_d (sl_threshold d) ++ lit ", @low_stock)".

Definition execute_stock_level_mysql (data : stock_level_t) c
  : option (Z * stock_level_t * mysql_conn S) :=
  stmt ← sprintf 512 (stock_level_stmt data);
  '(failed, c) ← on_connection (mysql_query stmt) c;
  if (failed : bool) then Some (ERROR, data, c)
  else
    '(v, c) ← select_variable (lit "select @low_stock") c;
    match v with
    | Some v =>
        Some (OK, mk_stock_level (sl_w_id data) (sl_d_id data) (sl_threshold data) (atoi v), c)
    | None => Some (ERROR, data, c)
    end.

(** *** The integrity check ([dbc_integrity.c]) *)

Definition execute_integrity_mysql (data : integrity_t) c
  : option (Z * integrity_t * mysql_conn S) :=
  stmt ← sprintf 512 (lit "select count(w_id) as w from warehouse");
  '(v, c) ← select_variable stmt c;
  Some (match v with
        | Some v => if negb (atoi v =? it_w_id data) then ERROR else OK
        | None => ERROR
        end, data, c).

(** *** Order-Status ([dbc_order_status.c]) *)

Definition order_status_stmt (d : order_status_t) (c_last : bytes) : bytes :=
  lit "call order_status(" ++ fmt_d (os_c_id d) ++ lit ", " ++ fmt_d (os_c_w_id d) ++ lit ", "
  ++ fmt_d (os_c_d_id d) ++ lit ", '" ++ c_last ++ lit "')".

Definition store_os_line (row : list (option bytes)) (l : os_order_line_t) : os_order_line_t :=
  mk_os_order_line (int_cell row 0 (osl_i_id l)) (int_cell row 1 (osl_supply_w_id l))
    (int_cell row 2 (osl_quantity l)) (float_cell row 3 (osl_amount l))
    (text_cell (Size.OL_DELIVERY_D_LEN + 1) row 4 (osl_delivery_d l)).

(** The state of the loop is the structure and [line]. *)
Definition store_order_status (num_fields : Z) (row : list (option bytes))
    (st : order_status_t * nat) : order_status_t * nat :=
  let '(d, line) := st in
  if num_fields =? 9 then
    (mk_order_status (os_c_d_id d) (os_c_w_id d) (int_cell row 0 (os_c_id d))
       (wide_cell row 3 (os_c_last d)) (float_cell row 4 (os_c_balance d))
       (text_cell (4 * (Size.C_FIRST_LEN + 1)) row 1 (os_c_first d))
       (text_cell (Size.C_MIDDLE_LEN + 1) row 2 (os_c_middle d)) (int_cell row 5 (os_o_id d))
       (int_cell row 6 (os_o_carrier_id d))
       (text_cell (Size.O_ENTRY_D_LEN + 1) row 7 (os_o_entry_d d)) (os_o_ol_cnt d)
       (os_order_line d), line)
  else if (num_fields =? 5) && (Z.of_nat line <? O_OL_CNT_MAX) then
    (mk_order_status (os_c_d_id d) (os_c_w_id d) (os_c_id d) (os_c_last d) (os_c_balance d)
       (os_c_first d) (os_c_middle d) (os_o_id d) (os_o_carrier_id d) (os_o_entry_d d)
       (os_o_ol_cnt d) (alter (store_os_line row) line (os_order_line d)), Datatypes.S line)
  else (d, line).

Definition set_os_ol_cnt (v : Z) (d : order_status_t) : order_status_t :=
  mk_order_status (os_c_d_id d) (os_c_w_id d) (os_c_id d) (os_c_last d) (os_c_balance d)
    (os_c_first d) (os_c_middle d) (os_o_id d) (os_o_carrier_id d) (os_o_entry_d d) v
    (os_order_line d).

Definition execute_order_status_mysql (data : order_status_t) c
  : option (Z * order_status_t * mysql_conn S) :=
  c_last ← c_last_bytes (os_c_last data);
  stmt ← sprintf 128 (order_status_stmt data c_last);
  '(failed, c) ← on_connection (mysql_query stmt) c;
  if (failed : bool) then Some (ERROR, data, c)
  else
    '((data, line), c) ← result_sets store_order_status (data, O) c;
    Some (OK, set_os_ol_cnt (Z.of_nat line) data, c).

(** *** Payment ([dbc_payment.c]) *)

Definition payment_stmt (d : payment_t) (c_last : bytes) : bytes :=
  lit "call payment(" ++ fmt_d (pa_w_id d) ++ lit ", " ++ fmt_d (pa_d_id d) ++ lit ", "
  ++ fmt_d (pa_c_id d) ++ lit ", " ++ fmt_d (pa_c_w_id d) ++ lit ", " ++ fmt_d (pa_c_d_id d)
  ++ lit ", '" ++ c_last ++ lit "', " ++ fmt_f 6 (pa_h_amount d) ++ lit ")".

Definition store_payment (num_fields : Z) (row : list (option bytes)) (d : payment_t) : payment_t :=
  if negb (num_fields =? 28) then d
  else
    mk_payment (pa_c_d_id d) (pa_c_w_id d) (pa_d_id d) (pa_h_amount d) (pa_w_id d)
      (int_cell row 12 (pa_c_id d)) (wide_cell row 15 (pa_c_last d))
      (text_cell (4 * (Size.D_NAME_LEN + 1)) row 6 (pa_d_name d))
      (text_cell (4 * (Size.D_STREET_1_LEN + 1)) row 7 (pa_d_street_1 d))
      (text_cell (4 * (Size.D_STREET_2_LEN + 1)) row 8 (pa_d_street_2 d))
      (text_cell (4 * (Size.D_CITY_LEN + 1)) row 9 (pa_d_city d))
      (text_cell (4 * (Size.D_STATE_LEN + 1)) row 10 (pa_d_state d))
      (text_cell (4 * (Size.D_ZIP_LEN + 1)) row 11 (pa_d_zip d))
      (float_cell row 26 (pa_c_balance d)) (float_cell row 24 (pa_c_credit_lim d))
      (float_cell row 25 (pa_c_discount d))
      (text_cell (4 * (Size.C_DATA_LEN + 1)) row 27 (pa_c_data d))
      (text_cell (4 * (Size.C_FIRST_LEN + 1)) row 13 (pa_c_first d))
      (text_cell (Size.C_MIDDLE_LEN + 1) row 14 (pa_c_middle d))
      (text_cell (4 * (Size.C_STREET_1_LEN + 1)) row 16 (pa_c_street_1 d))
      (text_cell (4 * (Size.C_STREET_2_LEN + 1)) row 17 (pa_c_street_2 d))
      (text_cell (4 * (Size.C_CITY_LEN + 1)) row 18 (pa_c_city d))
      (text_cell (4 * (Size.C_STATE_LEN + 1)) row 19 (pa_c_state d))
      (text_cell (4 * (Size.C_ZIP_LEN + 1)) row 20 (pa_c_zip d))
      (text_cell (4 * (Size.C_PHONE_LEN + 1)) row 21 (pa_c_phone d))
      (text_cell (Size.C_SINCE_LEN + 1) row 22 (pa_c_since d))
      (text_cell (Size.C_CREDIT_LEN + 1) row 23 (pa_c_credit d)) (pa_h_date d)
      (text_cell (4 * (Size.W_NAME_LEN + 1)) row 0 (pa_w_name d))
      (text_cell (4 * (Size.W_STREET_1_LEN + 1)) row 1 (pa_w_street_1 d))
      (text_cell (4 * (Size.W_STREET_2_LEN + 1)) row 2 (pa_w_street_2 d))
      (text_cell (4 * (Size.W_CITY_LEN + 1)) row 3 (pa_w_city d))
      (text_cell (4 * (Size.W_STATE_LEN + 1)) row 4 (pa_w_state d))
      (text_cell (4 * (Size.W_ZIP_LEN + 1)) row 5 (pa_w_zip d)).

Definition execute_payment_mysql (data : payment_t) c : option (Z * payment_t * mysql_conn S) :=
  c_last ← c_last_bytes (pa_c_last data);
  stmt ← sprintf 512 (payment_stmt data c_last);
  '(failed, c) ← on_connection (mysql_query stmt) c;
  if (failed : bool) then Some (ERROR, data, c)
  else
    '(data, c) ← result_sets store_payment data c;
    Some (OK, data, c).

(** *** New-Order ([dbc_new_order.c]) *)

(** The fifty numbers; all fifteen lines are sent. *)
Definition new_order_numbers (d : new_order_t) : list Z :=
  [no_w_id d; no_d_id d; no_c_id d; no_o_all_local d; no_o_ol_cnt d]
  ++ flat_map (fun l => [ol_i_id l; ol_supply_w_id l; ol_quantity l]) (take 15 (no_order_line d)).

(** The format breaks its lines inside the string: after the 16th, the 32nd and
    the 48th number there are the spaces that indent the next line. *)
Definition new_order_stmt (d : new_order_t) : bytes :=
  let zs := new_order_numbers d in
  let comma := lit ", " in
  lit "call new_order(" ++ fmt_d (hd 0 zs) ++ separated comma (take 15 (drop 1 zs))
  ++ lit "," ++ repeat 32 33 ++ fmt_d (nth 16 zs 0) ++ separated comma (take 15 (drop 17 zs))
  ++ lit "," ++ repeat 32 33 ++ fmt_d (nth 32 zs 0) ++ separated comma (take 15 (drop 33 zs))
  ++ lit "," ++ repeat 32 26 ++ fmt_d (nth 48 zs 0) ++ separated comma (drop 49 zs)
  ++ lit ", @rc)".

Definition store_no_line (row : list (option bytes)) (l : no_order_line_t) : no_order_line_t :=
  mk_no_order_line (ol_i_id l) (ol_supply_w_id l) (ol_quantity l) (float_cell row 3 (ol_amount l))
    (int_cell row 2 (s_quantity l)) (from_option (hd 0) (brand_generic l) (cell row 4))
    (text_cell (4 * (Size.I_NAME_LEN + 1)) row 1 (i_name l)) (float_cell row 0 (i_price l)).

Definition store_new_order (num_fields : Z) (row : list (option bytes)) (st : new_order_t * nat)
  : new_order_t * nat :=
  let '(d, line) := st in
  if (num_fields =? 5) && (Z.of_nat line <? O_OL_CNT_MAX) then
    (set_no_output d (alter (store_no_line row) line (no_order_line d)) (no_o_id d)
       (no_total_amount d) (no_w_tax d) (no_d_tax d) (no_c_last d) (no_c_credit d)
       (no_c_discount d) (no_rollback d), Datatypes.S line)
  else if num_fields =? 7 then
    (set_no_output d (no_order_line d) (int_cell row 2 (no_o_id d))
       (float_cell row 6 (no_total_amount d)) (float_cell row 0 (no_w_tax d))
       (float_cell row 1 (no_d_tax d))
       (text_cell (4 * (Size.C_LAST_LEN + 1)) row 3 (no_c_last d))
       (text_cell (Size.C_CREDIT_LEN + 1) row 4 (no_c_credit d))
       (float_cell row 5 (no_c_discount d)) (no_rollback d), line)
  else (d, line).

Definition execute_new_order_mysql (data : new_order_t) c : option (Z * new_order_t * mysql_conn S) :=
  stmt ← sprintf 512 (new_order_stmt data);
  '(failed, c) ← on_connection (mysql_query stmt) c;
  if (failed : bool) then Some (ERROR, data, c)
  else
    '((data, _), c) ← result_sets store_new_order (data, O) c;
    '(v, c) ← select_variable (lit "select @rc") c;
    match v with
    | Some v => Some (OK, set_no_rollback (atoi v) data, c)
    | None => Some (ERROR, data, c)
    end.

(** ** The function pointers that [db_init_mysql] stores

    [None] is a program whose behaviour is no longer defined. *)

Definition total_call {A} (bad : A) (f : mysql_conn S -> option (A * mysql_conn S))
    (w : option (mysql_conn S)) : A * option (mysql_conn S) :=
  match w ≫= f with None => (bad, None) | Some (a, c) => (a, Some c) end.

Definition total_txn {D} (f : D -> mysql_conn S -> option (Z * D * mysql_conn S)) (data : D)
    (w : option (mysql_conn S)) : Z * D * option (mysql_conn S) :=
  match w ≫= f data with None => (ERROR, data, None) | Some (rc, data, c) => (rc, data, Some c) end.

Definition mysql_ops (p : db_context_mysql) : DbOps (option (mysql_conn S)) := {|
  time := total_call 0 (fun c => let '(t, s) := mysql_time (my_lib c) in
                                 Some (t, mk_mysql s (my_handle c)));
  sleep_retry := fun w => (total_call tt (fun c =>
                   Some (tt, mk_mysql (mysql_nanosleep (my_lib c)) (my_handle c))) w).2;
  connect := total_call ERROR (connect_to_db_mysql p);
  disconnect := total_call ERROR disconnect_from_db_mysql;
  commit_transaction := total_call ERROR commit_transaction_mysql;
  rollback_transaction := total_call ERROR rollback_transaction_mysql;
  execute_integrity := total_txn execute_integrity_mysql;
  execute_delivery := total_txn execute_delivery_mysql;
  execute_new_order := total_txn execute_new_order_mysql;
  execute_order_status := total_txn execute_order_status_mysql;
  execute_payment := total_txn execute_payment_mysql;
  execute_stock_level := total_txn execute_stock_level_mysql |}.

(** They keep the promises of the interface. *)
Lemma mysql_laws (p : db_context_mysql) : DbLaws (option (mysql_conn S)) (H := mysql_ops p).
Proof.
  split; intros [c|]; cbn; try done;
    unfold total_call, commit_transaction_mysql, rollback_transaction_mysql, on_connection; cbn;
    destruct (my_handle c); try done; destruct (mysql_query _ _) as [[] s]; done.
Qed.
End mysql.
