(* ===== verification/Oci.v ===== *)
(** * The Oracle Call Interface as the client uses it ([src/include/oracle_common.h],
      [src/oracle/dbc_common.c])

    A statement is prepared once per connection and its placeholders are bound to
    the fields of a structure, the context of a transaction: the library reads and
    writes them through the addresses it was given, so a context is a memory here,
    and a transaction stores its input, executes, and loads its output.  The calls
    of the library are an interface.

    [None] is a process that has exited, as [ocierror] does when a handle is
    invalid, or whose behaviour C leaves open: a null pointer, a field that was
    never written, a name that is longer than its buffer. *)

From Stdlib Require Import ZArith Lia String.
From stdpp Require Import base list.
From S2P Require Import Prelude Double Text Common TxnData Wire Tables Nonsp NonspTxn Lengths.

(** ** Memory *)

(** A field of a context, with its index if it is an array. *)
Definition addr : Type := String.string * nat.
Definition addr_eqb (a b : addr) : bool := String.eqb a.1 b.1 && Nat.eqb a.2 b.2.

Inductive value := V_int (z : Z) | V_double (f : double) | V_float (f : double) | V_str (s : bytes).

Definition memory : Type := addr -> option value.

(** What [malloc] answers: nothing is known of its content. *)
Definition fresh : memory := fun _ => None.

Definition put (f : String.string) (i : nat) (v : value) (m : memory) : memory :=
  fun a => if addr_eqb a (f, i) then Some v else m a.

Definition int_at (m : memory) (a : addr) : option Z :=
  match m a with Some (V_int z) => Some z | _ => None end.
Definition double_at (m : memory) (a : addr) : option double :=
  match m a with Some (V_double f) => Some f | _ => None end.
Definition str_at (m : memory) (a : addr) : option bytes :=
  match m a with Some (V_str s) => Some s | _ => None end.

(** The types of the fields. *)
Inductive ctype := C_int | C_double | C_float | C_char (n : Z) | C_sb2.

Definition sizeof (t : ctype) : Z :=
  match t with C_int => 4 | C_double => 8 | C_float => 4 | C_char n => n | C_sb2 => 2 end.

(** A declaration: [t f\[n\]], a scalar with [n] 1. *)
Record field := mk_field { fd_name : String.string; fd_count : nat; fd_type : ctype }.

(** ** The library *)

Inductive sword :=
| OCI_SUCCESS | OCI_SUCCESS_WITH_INFO | OCI_NEED_DATA | OCI_NO_DATA | OCI_ERROR
| OCI_INVALID_HANDLE | OCI_STILL_EXECUTING | OCI_CONTINUE | OCI_STATUS (z : Z).

#[export] Instance sword_eq_decision : EqDecision sword.
Proof. solve_decision. Defined.

Inductive sqlt := SQLT_INT | SQLT_FLT | SQLT_STR.

(** [OCIBND] and [OCIBNDRA]: a placeholder, the variable behind it with its size
    and type, and the indicator of an output. *)
Record bind := mk_bind {
  b_name : bytes; b_addr : addr; b_size : Z; b_type : sqlt; b_ind : option addr }.

(** What the library knows of a statement handle: its text, the variables bound
    and those defined for the columns of its rows. *)
Record statement := mk_statement { st_text : bytes; st_binds : list bind; st_defines : list bind }.

(** [oci_errors]: the codes of the records that [OCIErrorGet] finds after a call
    that answered OCI_ERROR.  [retries_left] bounds the executions that the server
    will ask to repeat.  [oci_malloc] is false for a null pointer. *)
Class Oci (S : Type) := {
  OCIServerAttach : bytes -> S -> sword * S;
  OCISessionBegin : bytes -> bytes -> S -> sword * S;
  OCISessionEnd : S -> sword * S;
  OCIServerDetach : S -> sword * S;
  OCIHandleAlloc : S -> sword * S;
  OCIStmtPrepare : bytes -> S -> sword * S;
  OCIBindByName : bytes -> bind -> S -> sword * S;
  OCIDefineByPos : bytes -> bind -> S -> sword * S;
  OCIStmtExecute : statement -> memory -> S -> sword * memory * S;
  OCITransCommit : S -> S;
  OCITransRollback : S -> S;
  oci_errors : S -> list Z;
  retries_left : S -> nat;
  oci_malloc : S -> bool * S;
  oci_time : S -> Z * S;
  oci_nanosleep : S -> S }.

(** ** Errors *)

Definition RECOVERR : Z := -10.
Definition IRRECERR : Z := -20.
Definition NOT_SERIALIZABLE : Z := 8177.
Definition SNAPSHOT_TOO_OLD : Z := 1555.
Definition NOT_SAFE_REPLAY : Z := 25408.
Definition COLUMN_VALUE_NULL : Z := 1405.
Definition NO_DATA_FOUND : Z := 1403.
Definition ITEM_NOT_VALID : Z := 20001.

(** The code of a status: 0 and warnings are RECOVERR too.  The first record
    decides if its code is one of those the client knows; otherwise all are
    printed and the last one is the answer. *)
Definition ocierror (status : sword) (records : list Z) : option Z :=
  match status with
  | OCI_SUCCESS | OCI_SUCCESS_WITH_INFO => Some RECOVERR
  | OCI_NEED_DATA | OCI_NO_DATA | OCI_STILL_EXECUTING | OCI_CONTINUE | OCI_STATUS _ => Some IRRECERR
  | OCI_INVALID_HANDLE => None
  | OCI_ERROR =>
      match records with
      | [] => None
      | errcode :: rest =>
          if existsb (Z.eqb errcode)
               [NOT_SERIALIZABLE; SNAPSHOT_TOO_OLD; NOT_SAFE_REPLAY; COLUMN_VALUE_NULL; NO_DATA_FOUND;
                ITEM_NOT_VALID]
          then Some errcode else Some (List.last rest errcode)
      end
  end.

(** The codes after which a transaction is executed again. *)
Definition retried (errcode : Z) : bool :=
  existsb (Z.eqb errcode)
    [NOT_SERIALIZABLE; RECOVERR; SNAPSHOT_TOO_OLD; NOT_SAFE_REPLAY; COLUMN_VALUE_NULL].

(** ** The connection *)

Definition ORACLE_DBNAME_LEN : Z := 255.
Definition ORACLE_USER_LEN : Z := 31.
Definition ORACLE_PASS_LEN : Z := 31.

(** The strings of [struct db_context_oracle]. *)
Record db_context_oracle := mk_db_context_oracle {
  ora_dbname : bytes; ora_user : bytes; ora_pass : bytes }.

(** [if (s != NULL && s\[0\] != '\0')] *)
Definition given (s : option bytes) (other : bytes) : bytes :=
  match s with Some (c :: s) => c :: s | _ => other end.

Definition db_init_oracle (dbname user pass : option bytes) : db_context_oracle :=
  mk_db_context_oracle
    (strncpy (given dbname (lit "//localhost:1521/FREEPDB1")) ORACLE_DBNAME_LEN)
    (strncpy (given user DB_USER) ORACLE_USER_LEN)
    (strncpy (given pass DB_PASS) ORACLE_PASS_LEN).

(** The contexts of the six transactions. *)
Inductive ctx := Dctx | Ictx | Nctx | Octx | Pctx | Sctx.

Definition ctx_eqb (a b : ctx) : bool :=
  match a, b with
  | Dctx, Dctx | Ictx, Ictx | Nctx, Nctx | Octx, Octx | Pctx, Pctx | Sctx, Sctx => true
  | _, _ => false
  end.

(** The library behind the handles, whether they were freed, and the contexts,
    [None] for the null pointer. *)
Record oracle_conn (S : Type) := mk_oracle {
  or_lib : S; or_freed : bool; or_ctx : ctx -> option memory }.
Arguments mk_oracle {S} or_lib or_freed or_ctx.
Arguments or_lib {S} o.
Arguments or_freed {S} o.
Arguments or_ctx {S} o.

Definition set_ctx (x : ctx) (m : option memory) (ctxs : ctx -> option memory) : ctx -> option memory :=
  fun y => if ctx_eqb y x then m else ctxs y.

Section oci.
Context {S : Type} `{Oci S}.
Implicit Types c : oracle_conn S.

(** [OCIERROR(errhp, call)] with its answer left out. *)
Definition checked (call : S -> sword * S) (s : S) : option S :=
  let '(rc, s) := call s in _ ← ocierror rc (oci_errors s); Some s.

Definition bind_variable (text : bytes) (b : bind) (s : S) : option S :=
  s ← checked OCIHandleAlloc s; checked (OCIBindByName text b) s.

(** [OCIDEFINE]: its answer is not looked at. *)
Definition define_variable (text : bytes) (b : bind) (s : S) : option S :=
  Some (OCIDefineByPos text b s).2.

(** The calls of a list, one after the other. *)
Definition each {A} (f : A -> S -> option S) : list A -> S -> option S :=
  fix each l s := match l with [] => Some s | a :: l => s ← f a s; each l s end.

(** An init function: allocate the context, prepare its statement, bind.  The
    names of some placeholders are formatted into buffers. *)
Definition init_txn (x : ctx) (stmt : option statement) c : option (Z * oracle_conn S) :=
  let '(allocated, s) := oci_malloc (or_lib c) in
  if negb allocated then Some (ERROR, mk_oracle s (or_freed c) (set_ctx x None (or_ctx c)))
  else
    stmt ← stmt;
    s ← checked OCIHandleAlloc s;
    s ← checked (OCIStmtPrepare (st_text stmt)) s;
    s ← each (bind_variable (st_text stmt)) (st_binds stmt) s;
    s ← each (define_variable (st_text stmt)) (st_defines stmt) s;
    Some (OK, mk_oracle s (or_freed c) (set_ctx x (Some fresh) (or_ctx c))).

(** The init functions of a connection, until one fails. *)
Fixpoint init_txns (l : list (ctx * option statement)) c : option (Z * oracle_conn S) :=
  match l with
  | [] => Some (OK, c)
  | (x, stmt) :: l =>
      '(rc, c) ← init_txn x stmt c;
      if negb (rc =? OK) then Some (ERROR, c) else init_txns l c
  end.

(** ** Executing a statement *)

Inductive executed := Succeeded | NoData | Refused (errcode : Z).

(** [goto retry]: the work done so far is committed before. *)
Fixpoint execute_loop (fuel : nat) (stmt : statement) (m : memory) (s : S)
  : option (executed * memory * S) :=
  match fuel with
  | O => None
  | Datatypes.S fuel =>
      let '(execstatus, m, s) := OCIStmtExecute stmt m s in
      match execstatus with
      | OCI_SUCCESS => Some (Succeeded, m, s)
      | OCI_NO_DATA => Some (NoData, m, s)
      | _ =>
          errcode ← ocierror execstatus (oci_errors s);
          if retried errcode then execute_loop fuel stmt m (OCITransCommit s)
          else Some (Refused errcode, m, s)
      end
  end.

(** A transaction: store the input in the context [x], execute. *)
Definition run_statement (x : ctx) (stmt : statement) (input : memory -> memory) c
  : option (executed * memory * oracle_conn S) :=
  m ← or_ctx c x;
  '(e, m, s) ← execute_loop (Datatypes.S (retries_left (or_lib c))) stmt (input m) (or_lib c);
  Some (e, m, mk_oracle s (or_freed c) (set_ctx x (Some m) (or_ctx c))).
End oci.

(** ** Output *)

(** [if (f_ind == 0) { old = f; }] *)
Definition output {A} (read : memory -> addr -> option A) (m : memory) (f : String.string) (i : nat)
    (old : A) : option A :=
  ind ← int_at m ((f ++ "_ind")%string, i);
  if ind =? 0 then read m (f, i) else Some old.

Definition out_int : memory -> String.string -> nat -> Z -> option Z := output int_at.
Definition out_double : memory -> String.string -> nat -> double -> option double := output double_at.
(** [snprintf(old, n, "%s", f)] *)
Definition out_str (n : Z) : memory -> String.string -> nat -> bytes -> option bytes :=
  output (fun m a => s ← str_at m a; Some (strncpy s (n - 1))).
(** [mbstowcs(old, f, C_LAST_LEN + 1)] *)
Definition out_wide (m : memory) (f : String.string) (i : nat) (old : list Z) : option (list Z) :=
  output (fun m a => s ← str_at m a; Some (mbstowcs old s (Size.C_LAST_LEN + 1))) m f i old.
