(* ===== verification/Oracle.v ===== *)
(** * The Oracle back end of the client ([src/oracle])

    Each transaction is one CALL of a stored procedure that commits when it
    succeeds.  For each there are the text of its statement, the structure of its
    context (the fields the library knows; handles are left out), the variables
    bound to the placeholders, and the function that executes it.  Code of DEBUG
    builds and what is printed is left out. *)

From Stdlib Require Import ZArith Lia String.
From stdpp Require Import base list.
From S2P Require Import Prelude Double Text Common TxnData Wire Tables Db Nonsp NonspTxn Lengths Oci.

#[local] Open Scope string_scope.
#[local] Open Scope Z_scope.

(** [SIZ(ctx->f)] *)
Definition size (fields : list field) (f : String.string) : Z :=
  from_option (fun d => sizeof (fd_type d)) 0 (List.find (fun d => String.eqb (fd_name d) f) fields).

Definition bnd (name : bytes) (f : String.string) (i : nat) (size : Z) (type : sqlt) : bind :=
  mk_bind name (f, i) size type None.
Definition bndra (name : bytes) (f : String.string) (i : nat) (size : Z) (type : sqlt) (ind : String.string)
  : bind :=
  mk_bind name (f, i) size type (Some (ind, i)).

(** [sprintf(name, ":f%d", i + 1)] into an array of [n]. *)
Definition numbered (n : Z) (f : String.string) (i : nat) : option bytes :=
  sprintf n (lit ":" ++ lit f ++ fmt_d (Z.of_nat i + 1)).

(** [for (i = 0; i < O_OL_CNT_MAX; i++)] *)
Definition each_line (f : nat -> option (list bind)) : option (list bind) :=
  bs ← mapM f (seq 0 15); Some (List.concat bs).

(** ** Delivery ([dbc_delivery.c]) *)

Definition STMT_DELIVERY : bytes :=
  List.concat (map lit [
    "CALL delivery (:w_id, :o_carrier_id)"]%string).

Definition deliveryctx : list field := [
  mk_field "w_id" 1 C_int;
  mk_field "o_carrier_id" 1 C_int].

Definition delivery_binds : list bind := [
  bnd (lit ":w_id") "w_id" 0 (sizeof C_int) SQLT_INT;
  bnd (lit ":o_carrier_id") "o_carrier_id" 0 (sizeof C_int) SQLT_INT].

Definition delivery_statement : statement := mk_statement STMT_DELIVERY delivery_binds [].

(** ** The integrity check ([dbc_integrity.c]) *)

Definition STMT_INTEGRITY : bytes :=
  List.concat (map lit [
    "SELECT count(*) FROM warehouse"]%string).

Definition integrityctx : list field := [
  mk_field "w_nware" 1 C_int].

Definition integrity_statement : statement :=
  mk_statement STMT_INTEGRITY [] [bnd (lit "1") "w_nware" 0 (sizeof C_int) SQLT_INT].

(** ** Stock-Level ([dbc_stock_level.c]) *)

Definition STMT_STOCK_LEVEL : bytes :=
  List.concat (map lit [
    "CALL stock_level (:w_id, :d_id, :threshold, :low_stock)"]%string).

Definition stockctx : list field := [
  mk_field "w_id" 1 C_int;
  mk_field "d_id" 1 C_int;
  mk_field "threshold" 1 C_int;
  mk_field "low_stock" 1 C_int].

Definition stock_level_binds : list bind := [
  bnd (lit ":w_id") "w_id" 0 (sizeof C_int) SQLT_INT;
  bnd (lit ":d_id") "d_id" 0 (sizeof C_int) SQLT_INT;
  bnd (lit ":threshold") "threshold" 0 (sizeof C_int) SQLT_INT;
  bnd (lit ":low_stock") "low_stock" 0 (sizeof C_int) SQLT_INT].

Definition stock_level_statement : statement := mk_statement STMT_STOCK_LEVEL stock_level_binds [].

(** ** New-Order ([dbc_new_order.c]) *)

Definition STMT_NEW_ORDER : bytes :=
  List.concat (map lit [
    "CALL neworder (:w_id, :d_id, :c_id, :o_all_local, :o_ol_cnt, ";
    ":ol_i_id1, :ol_supply_w_id1, :ol_quantity1, ";
    ":ol_i_id2, :ol_supply_w_id2, :ol_quantity2, ";
    ":ol_i_id3, :ol_supply_w_id3, :ol_quantity3, ";
    ":ol_i_id4, :ol_supply_w_id4, :ol_quantity4, ";
    ":ol_i_id5, :ol_supply_w_id5, :ol_quantity5, ";
    ":ol_i_id6, :ol_supply_w_id6, :ol_quantity6, ";
    ":ol_i_id7, :ol_supply_w_id7, :ol_quantity7, ";
    ":ol_i_id8, :ol_supply_w_id8, :ol_quantity8, ";
    ":ol_i_id9, :ol_supply_w_id9, :ol_quantity9, ";
    ":ol_i_id10, :ol_supply_w_id10, :ol_quantity10, ";
    ":ol_i_id11, :ol_supply_w_id11, :ol_quantity11, ";
    ":ol_i_id12, :ol_supply_w_id12, :ol_quantity12, ";
    ":ol_i_id13, :ol_supply_w_id13, :ol_quantity13, ";
    ":ol_i_id14, :ol_supply_w_id14, :ol_quantity14, ";
    ":ol_i_id15, :ol_supply_w_id15, :ol_quantity15, ";
    ":out_w_tax, :out_d_tax, :out_o_id, :out_c_last, :out_c_credit, ";
    ":out_c_discount, :out_total_amount, ";
    ":out_i_price1, :out_i_price2, :out_i_price3, :out_i_price4, ";
    ":out_i_price5, :out_i_price6, :out_i_price7, :out_i_price8, ";
    ":out_i_price9, :out_i_price10, :out_i_price11, :out_i_price12, ";
    ":out_i_price13, :out_i_price14, :out_i_price15, ";
    ":out_i_name1, :out_i_name2, :out_i_name3, :out_i_name4, ";
    ":out_i_name5, :out_i_name6, :out_i_name7, :out_i_name8, ";
    ":out_i_name9, :out_i_name10, :out_i_name11, :out_i_name12, ";
    ":out_i_name13, :out_i_name14, :out_i_name15, ";
    ":out_s_quantity1, :out_s_quantity2, :out_s_quantity3, ";
    ":out_s_quantity4, :out_s_quantity5, :out_s_quantity6, ";
    ":out_s_quantity7, :out_s_quantity8, :out_s_quantity9, ";
    ":out_s_quantity10, :out_s_quantity11, :out_s_quantity12, ";
    ":out_s_quantity13, :out_s_quantity14, :out_s_quantity15, ";
    ":out_ol_amount1, :out_ol_amount2, :out_ol_amount3, ";
    ":out_ol_amount4, :out_ol_amount5, :out_ol_amount6, ";
    ":out_ol_amount7, :out_ol_amount8, :out_ol_amount9, ";
    ":out_ol_amount10, :out_ol_amount11, :out_ol_amount12, ";
    ":out_ol_amount13, :out_ol_amount14, :out_ol_amount15, ";
    ":out_brand_generic1, :out_brand_generic2, :out_brand_generic3, ";
    ":out_brand_generic4, :out_brand_generic5, :out_brand_generic6, ";
    ":out_brand_generic7, :out_brand_generic8, :out_brand_generic9, ";
    ":out_brand_generic10, :out_brand_generic11, :out_brand_generic12, ";
    ":out_brand_generic13, :out_brand_generic14, :out_brand_generic15)"]%string).

Definition nordctx : list field := [
  mk_field "w_id" 1 C_int;
  mk_field "d_id" 1 C_int;
  mk_field "c_id" 1 C_int;
  mk_field "o_all_local" 1 C_int;
  mk_field "o_ol_cnt" 1 C_int;
  mk_field "ol_i_id" 15 C_int;
  mk_field "ol_supply_w_id" 15 C_int;
  mk_field "ol_quantity" 15 C_int;
  mk_field "w_tax" 1 C_double;
  mk_field "d_tax" 1 C_double;
  mk_field "o_id" 1 C_int;
  mk_field "c_last" 1 (C_char (4 * (Size.C_LAST_LEN + 1)));
  mk_field "c_credit" 1 (C_char (Size.C_CREDIT_LEN + 1));
  mk_field "c_discount" 1 C_double;
  mk_field "total_amount" 1 C_double;
  mk_field "i_price" 15 C_double;
  mk_field "i_name" 15 (C_char (4 * (Size.I_NAME_LEN + 1)));
  mk_field "s_quantity" 15 C_int;
  mk_field "ol_amount" 15 C_double;
  mk_field "brand_generic" 15 (C_char 2);
  mk_field "w_tax_ind" 1 C_sb2;
  mk_field "d_tax_ind" 1 C_sb2;
  mk_field "o_id_ind" 1 C_sb2;
  mk_field "c_last_ind" 1 C_sb2;
  mk_field "c_credit_ind" 1 C_sb2;
  mk_field "c_discount_ind" 1 C_sb2;
  mk_field "total_amount_ind" 1 C_sb2;
  mk_field "i_price_ind" 15 C_sb2;
  mk_field "i_name_ind" 15 C_sb2;
  mk_field "s_quantity_ind" 15 C_sb2;
  mk_field "ol_amount_ind" 15 C_sb2;
  mk_field "brand_generic_ind" 15 C_sb2].

Definition new_order_inputs : list bind := [
  bnd (lit ":w_id") "w_id" 0 (sizeof C_int) SQLT_INT;
  bnd (lit ":d_id") "d_id" 0 (sizeof C_int) SQLT_INT;
  bnd (lit ":c_id") "c_id" 0 (sizeof C_int) SQLT_INT;
  bnd (lit ":o_all_local") "o_all_local" 0 (sizeof C_int) SQLT_INT;
  bnd (lit ":o_ol_cnt") "o_ol_cnt" 0 (sizeof C_int) SQLT_INT].

Definition new_order_line_inputs (i : nat) : option (list bind) :=
  ol_i_id ← numbered 11 "ol_i_id" i;
  ol_supply_w_id ← numbered 18 "ol_supply_w_id" i;
  ol_quantity ← numbered 15 "ol_quantity" i;
  Some [bnd ol_i_id "ol_i_id" i (sizeof C_int) SQLT_INT;
        bnd ol_supply_w_id "ol_supply_w_id" i (sizeof C_int) SQLT_INT;
        bnd ol_quantity "ol_quantity" i (sizeof C_int) SQLT_INT].

Definition new_order_outputs : list bind := [
  bndra (lit ":out_w_tax") "w_tax" 0 (sizeof C_double) SQLT_FLT "w_tax_ind";
  bndra (lit ":out_d_tax") "d_tax" 0 (sizeof C_double) SQLT_FLT "d_tax_ind";
  bndra (lit ":out_o_id") "o_id" 0 (sizeof C_int) SQLT_INT "o_id_ind";
  bndra (lit ":out_c_last") "c_last" 0 (size nordctx "c_last") SQLT_STR "c_last_ind";
  bndra (lit ":out_c_credit") "c_credit" 0 (size nordctx "c_credit") SQLT_STR "c_credit_ind";
  bndra (lit ":out_c_discount") "c_discount" 0 (sizeof C_double) SQLT_FLT "c_discount_ind";
  bndra (lit ":out_total_amount") "total_amount" 0 (sizeof C_double) SQLT_FLT "total_amount_ind"].

Definition new_order_line_outputs (i : nat) : option (list bind) :=
  i_price ← numbered 16 "out_i_price" i;
  i_name ← numbered 15 "out_i_name" i;
  s_quantity ← numbered 19 "out_s_quantity" i;
  ol_amount ← numbered 18 "out_ol_amount" i;
  brand_generic ← numbered 22 "out_brand_generic" i;
  Some [bndra i_price "i_price" i (sizeof C_double) SQLT_FLT "i_price_ind";
        bndra i_name "i_name" i (size nordctx "i_name") SQLT_STR "i_name_ind";
        bndra s_quantity "s_quantity" i (sizeof C_int) SQLT_INT "s_quantity_ind";
        bndra ol_amount "ol_amount" i (sizeof C_double) SQLT_FLT "ol_amount_ind";
        bndra brand_generic "brand_generic" i (size nordctx "brand_generic") SQLT_STR "brand_generic_ind"].

Definition new_order_statement : option statement :=
  lines ← each_line new_order_line_inputs;
  out_lines ← each_line new_order_line_outputs;
  Some (mk_statement STMT_NEW_ORDER (new_order_inputs ++ lines ++ new_order_outputs ++ out_lines) []).

(** ** Order-Status ([dbc_order_status.c]) *)

Definition STMT_ORDER_STATUS : bytes :=
  List.concat (map lit [
    "CALL order_status (:c_id, :c_w_id, :c_d_id, :c_last, ";
    ":out_c_id, :out_c_first, :out_c_middle, :out_c_last, ";
    ":out_c_balance, :out_o_id, :out_o_carrier_id, :out_o_entry_d, ";
    ":out_ol_i_id1, :out_ol_i_id2, :out_ol_i_id3, :out_ol_i_id4, ";
    ":out_ol_i_id5, :out_ol_i_id6, :out_ol_i_id7, :out_ol_i_id8, ";
    ":out_ol_i_id9, :out_ol_i_id10, :out_ol_i_id11, :out_ol_i_id12, ";
    ":out_ol_i_id13, :out_ol_i_id14, :out_ol_i_id15, ";
    ":out_ol_supply_w_id1, :out_ol_supply_w_id2, :out_ol_supply_w_id3, ";
    ":out_ol_supply_w_id4, :out_ol_supply_w_id5, :out_ol_supply_w_id6, ";
    ":out_ol_supply_w_id7, :out_ol_supply_w_id8, :out_ol_supply_w_id9, ";
    ":out_ol_supply_w_id10, :out_ol_supply_w_id11, ";
    ":out_ol_supply_w_id12, :out_ol_supply_w_id13, ";
    ":out_ol_supply_w_id14, :out_ol_supply_w_id15, ";
    ":out_ol_quantity1, :out_ol_quantity2, :out_ol_quantity3, ";
    ":out_ol_quantity4, :out_ol_quantity5, :out_ol_quantity6, ";
    ":out_ol_quantity7, :out_ol_quantity8, :out_ol_quantity9, ";
    ":out_ol_quantity10, :out_ol_quantity11, :out_ol_quantity12, ";
    ":out_ol_quantity13, :out_ol_quantity14, :out_ol_quantity15, ";
    ":out_ol_amount1, :out_ol_amount2, :out_ol_amount3, ";
    ":out_ol_amount4, :out_ol_amount5, :out_ol_amount6, ";
    ":out_ol_amount7, :out_ol_amount8, :out_ol_amount9, ";
    ":out_ol_amount10, :out_ol_amount11, :out_ol_amount12, ";
    ":out_ol_amount13, :out_ol_amount14, :out_ol_amount15, ";
    ":out_ol_delivery_d1, :out_ol_delivery_d2, :out_ol_delivery_d3, ";
    ":out_ol_delivery_d4, :out_ol_delivery_d5, :out_ol_delivery_d6, ";
    ":out_ol_delivery_d7, :out_ol_delivery_d8, :out_ol_delivery_d9, ";
    ":out_ol_delivery_d10, :out_ol_delivery_d11, :out_ol_delivery_d12, ";
    ":out_ol_delivery_d13, :out_ol_delivery_d14, :out_ol_delivery_d15)"]%string).

Definition ordstatusctx : list field := [
  mk_field "c_id" 1 C_int;
  mk_field "c_w_id" 1 C_int;
  mk_field "c_d_id" 1 C_int;
  mk_field "c_last" 1 (C_char (4 * (Size.C_LAST_LEN + 1)));
  mk_field "out_c_id" 1 C_int;
  mk_field "out_c_first" 1 (C_char (4 * (Size.C_FIRST_LEN + 1)));
  mk_field "out_c_middle" 1 (C_char (Size.C_MIDDLE_LEN + 1));
  mk_field "out_c_last" 1 (C_char (4 * (Size.C_LAST_LEN + 1)));
  mk_field "out_c_balance" 1 C_double;
  mk_field "out_o_id" 1 C_int;
  mk_field "out_o_carrier_id" 1 C_int;
  mk_field "out_o_entry_d" 1 (C_char (Size.O_ENTRY_D_LEN + 1));
  mk_field "out_ol_i_id" 15 C_int;
  mk_field "out_ol_supply_w_id" 15 C_int;
  mk_field "out_ol_quantity" 15 C_int;
  mk_field "out_ol_amount" 15 C_double;
  mk_field "out_ol_delivery_d" 15 (C_char (Size.OL_DELIVERY_D_LEN + 1));
  mk_field "out_c_id_ind" 1 C_sb2;
  mk_field "out_c_first_ind" 1 C_sb2;
  mk_field "out_c_middle_ind" 1 C_sb2;
  mk_field "out_c_last_ind" 1 C_sb2;
  mk_field "out_c_balance_ind" 1 C_sb2;
  mk_field "out_o_id_ind" 1 C_sb2;
  mk_field "out_o_carrier_id_ind" 1 C_sb2;
  mk_field "out_o_entry_d_ind" 1 C_sb2;
  mk_field "out_ol_i_id_ind" 15 C_sb2;
  mk_field "out_ol_supply_w_id_ind" 15 C_sb2;
  mk_field "out_ol_quantity_ind" 15 C_sb2;
  mk_field "out_ol_amount_ind" 15 C_sb2;
  mk_field "out_ol_delivery_d_ind" 15 C_sb2].

Definition order_status_binds : list bind := [
  bnd (lit ":c_id") "c_id" 0 (sizeof C_int) SQLT_INT;
  bnd (lit ":c_w_id") "c_w_id" 0 (sizeof C_int) SQLT_INT;
  bnd (lit ":c_d_id") "c_d_id" 0 (sizeof C_int) SQLT_INT;
  bnd (lit ":c_last") "c_last" 0 (size ordstatusctx "c_last") SQLT_STR;
  bndra (lit ":out_c_id") "out_c_id" 0 (sizeof C_int) SQLT_INT "out_c_id_ind";
  bndra (lit ":out_c_first") "out_c_first" 0 (size ordstatusctx "out_c_first") SQLT_STR "out_c_first_ind";
  bndra (lit ":out_c_middle") "out_c_middle" 0 (size ordstatusctx "out_c_middle") SQLT_STR "out_c_middle_ind";
  bndra (lit ":out_c_last") "out_c_last" 0 (size ordstatusctx "out_c_last") SQLT_STR "out_c_last_ind";
  bndra (lit ":out_c_balance") "out_c_balance" 0 (sizeof C_double) SQLT_FLT "out_c_balance_ind";
  bndra (lit ":out_o_id") "out_o_id" 0 (sizeof C_int) SQLT_INT "out_o_id_ind";
  bndra (lit ":out_o_carrier_id") "out_o_carrier_id" 0 (sizeof C_int) SQLT_INT "out_o_carrier_id_ind";
  bndra (lit ":out_o_entry_d") "out_o_entry_d" 0 (size ordstatusctx "out_o_entry_d") SQLT_STR "out_o_entry_d_ind"].

Definition order_status_line_outputs (i : nat) : option (list bind) :=
  out_ol_i_id ← numbered 19 "out_ol_i_id" i;
  out_ol_supply_w_id ← numbered 26 "out_ol_supply_w_id" i;
  out_ol_quantity ← numbered 22 "out_ol_quantity" i;
  out_ol_amount ← numbered 20 "out_ol_amount" i;
  out_ol_delivery_d ← numbered 24 "out_ol_delivery_d" i;
  Some [bndra out_ol_i_id "out_ol_i_id" i (sizeof C_int) SQLT_INT "out_ol_i_id_ind";
        bndra out_ol_supply_w_id "out_ol_supply_w_id" i (sizeof C_int) SQLT_INT "out_ol_supply_w_id_ind";
        bndra out_ol_quantity "out_ol_quantity" i (sizeof C_int) SQLT_INT "out_ol_quantity_ind";
        bndra out_ol_amount "out_ol_amount" i (sizeof C_double) SQLT_FLT "out_ol_amount_ind";
        bndra out_ol_delivery_d "out_ol_delivery_d" i (size ordstatusctx "out_ol_delivery_d") SQLT_STR
          "out_ol_delivery_d_ind"].

Definition order_status_statement : option statement :=
  lines ← each_line order_status_line_outputs;
  Some (mk_statement STMT_ORDER_STATUS (order_status_binds ++ lines) []).

(** ** Payment ([dbc_payment.c]) *)

Definition STMT_PAYMENT : bytes :=
  List.concat (map lit [
    "CALL payment (:w_id, :d_id, :c_id, :c_w_id, :c_d_id, :c_last, ";
    ":h_amount, ";
    ":out_w_name, :out_w_street_1, :out_w_street_2, :out_w_city, ";
    ":out_w_state, :out_w_zip, ";
    ":out_d_name, :out_d_street_1, :out_d_street_2, :out_d_city, ";
    ":out_d_state, :out_d_zip, ";
    ":out_c_id, :out_c_first, :out_c_middle, :out_c_last, ";
    ":out_c_street_1, :out_c_street_2, :out_c_city, :out_c_state, ";
    ":out_c_zip, :out_c_phone, :out_c_since, :out_c_credit, ";
    ":out_c_credit_lim, :out_c_discount, :out_c_balance, :out_c_data)"]%string).

Definition paymentctx : list field := [
  mk_field "w_id" 1 C_int;
  mk_field "d_id" 1 C_int;
  mk_field "c_id" 1 C_int;
  mk_field "c_w_id" 1 C_int;
  mk_field "c_d_id" 1 C_int;
  mk_field "c_last" 1 (C_char (4 * (Size.C_LAST_LEN + 1)));
  mk_field "h_amount" 1 C_float;
  mk_field "out_w_name" 1 (C_char (4 * (Size.W_NAME_LEN + 1)));
  mk_field "out_w_street_1" 1 (C_char (4 * (Size.W_STREET_1_LEN + 1)));
  mk_field "out_w_street_2" 1 (C_char (4 * (Size.W_STREET_2_LEN + 1)));
  mk_field "out_w_city" 1 (C_char (4 * (Size.W_CITY_LEN + 1)));
  mk_field "out_w_state" 1 (C_char (4 * (Size.W_STATE_LEN + 1)));
  mk_field "out_w_zip" 1 (C_char (4 * (Size.W_ZIP_LEN + 1)));
  mk_field "out_d_name" 1 (C_char (4 * (Size.D_NAME_LEN + 1)));
  mk_field "out_d_street_1" 1 (C_char (4 * (Size.D_STREET_1_LEN + 1)));
  mk_field "out_d_street_2" 1 (C_char (4 * (Size.D_STREET_2_LEN + 1)));
  mk_field "out_d_city" 1 (C_char (4 * (Size.D_CITY_LEN + 1)));
  mk_field "out_d_state" 1 (C_char (4 * (Size.D_STATE_LEN + 1)));
  mk_field "out_d_zip" 1 (C_char (4 * (Size.D_ZIP_LEN + 1)));
  mk_field "out_c_id" 1 C_int;
  mk_field "out_c_first" 1 (C_char (4 * (Size.C_FIRST_LEN + 1)));
  mk_field "out_c_middle" 1 (C_char (Size.C_MIDDLE_LEN + 1));
  mk_field "out_c_last" 1 (C_char (4 * (Size.C_LAST_LEN + 1)));
  mk_field "out_c_street_1" 1 (C_char (4 * (Size.C_STREET_1_LEN + 1)));
  mk_field "out_c_street_2" 1 (C_char (4 * (Size.C_STREET_2_LEN + 1)));
  mk_field "out_c_city" 1 (C_char (4 * (Size.C_CITY_LEN + 1)));
  mk_field "out_c_state" 1 (C_char (4 * (Size.C_STATE_LEN + 1)));
  mk_field "out_c_zip" 1 (C_char (4 * (Size.C_ZIP_LEN + 1)));
  mk_field "out_c_phone" 1 (C_char (4 * (Size.C_PHONE_LEN + 1)));
  mk_field "out_c_since" 1 (C_char (Size.C_SINCE_LEN + 1));
  mk_field "out_c_credit" 1 (C_char (Size.C_CREDIT_LEN + 1));
  mk_field "out_c_credit_lim" 1 C_double;
  mk_field "out_c_discount" 1 C_double;
  mk_field "out_c_balance" 1 C_double;
  mk_field "out_c_data" 1 (C_char (4 * (Size.C_DATA_LEN + 1)));
  mk_field "out_w_name_ind" 1 C_sb2;
  mk_field "out_w_street_1_ind" 1 C_sb2;
  mk_field "out_w_street_2_ind" 1 C_sb2;
  mk_field "out_w_city_ind" 1 C_sb2;
  mk_field "out_w_state_ind" 1 C_sb2;
  mk_field "out_w_zip_ind" 1 C_sb2;
  mk_field "out_d_name_ind" 1 C_sb2;
  mk_field "out_d_street_1_ind" 1 C_sb2;
  mk_field "out_d_street_2_ind" 1 C_sb2;
  mk_field "out_d_city_ind" 1 C_sb2;
  mk_field "out_d_state_ind" 1 C_sb2;
  mk_field "out_d_zip_ind" 1 C_sb2;
  mk_field "out_c_id_ind" 1 C_sb2;
  mk_field "out_c_first_ind" 1 C_sb2;
  mk_field "out_c_middle_ind" 1 C_sb2;
  mk_field "out_c_last_ind" 1 C_sb2;
  mk_field "out_c_street_1_ind" 1 C_sb2;
  mk_field "out_c_street_2_ind" 1 C_sb2;
  mk_field "out_c_city_ind" 1 C_sb2;
  mk_field "out_c_state_ind" 1 C_sb2;
  mk_field "out_c_zip_ind" 1 C_sb2;
  mk_field "out_c_phone_ind" 1 C_sb2;
  mk_field "out_c_since_ind" 1 C_sb2;
  mk_field "out_c_credit_ind" 1 C_sb2;
  mk_field "out_c_credit_lim_ind" 1 C_sb2;
  mk_field "out_c_discount_ind" 1 C_sb2;
  mk_field "out_c_balance_ind" 1 C_sb2;
  mk_field "out_c_data_ind" 1 C_sb2].

Definition payment_binds : list bind := [
  bnd (lit ":w_id") "w_id" 0 (sizeof C_int) SQLT_INT;
  bnd (lit ":d_id") "d_id" 0 (sizeof C_int) SQLT_INT;
  bnd (lit ":c_id") "c_id" 0 (sizeof C_int) SQLT_INT;
  bnd (lit ":c_w_id") "c_w_id" 0 (sizeof C_int) SQLT_INT;
  bnd (lit ":c_d_id") "c_d_id" 0 (sizeof C_int) SQLT_INT;
  bnd (lit ":c_last") "c_last" 0 (size paymentctx "c_last") SQLT_STR;
  bnd (lit ":h_amount") "h_amount" 0 (sizeof C_float) SQLT_FLT;
  bndra (lit ":out_w_name") "out_w_name" 0 (size paymentctx "out_w_name") SQLT_STR "out_w_name_ind";
  bndra (lit ":out_w_street_1") "out_w_street_1" 0 (size paymentctx "out_w_street_1") SQLT_STR "out_w_street_1_ind";
  bndra (lit ":out_w_street_2") "out_w_street_2" 0 (size paymentctx "out_w_street_2") SQLT_STR "out_w_street_2_ind";
  bndra (lit ":out_w_city") "out_w_city" 0 (size paymentctx "out_w_city") SQLT_STR "out_w_city_ind";
  bndra (lit ":out_w_state") "out_w_state" 0 (size paymentctx "out_w_state") SQLT_STR "out_w_state_ind";
  bndra (lit ":out_w_zip") "out_w_zip" 0 (size paymentctx "out_w_zip") SQLT_STR "out_w_zip_ind";
  bndra (lit ":out_d_name") "out_d_name" 0 (size paymentctx "out_d_name") SQLT_STR "out_d_name_ind";
  bndra (lit ":out_d_street_1") "out_d_street_1" 0 (size paymentctx "out_d_street_1") SQLT_STR "out_d_street_1_ind";
  bndra (lit ":out_d_street_2") "out_d_street_2" 0 (size paymentctx "out_d_street_2") SQLT_STR "out_d_street_2_ind";
  bndra (lit ":out_d_city") "out_d_city" 0 (size paymentctx "out_d_city") SQLT_STR "out_d_city_ind";
  bndra (lit ":out_d_state") "out_d_state" 0 (size paymentctx "out_d_state") SQLT_STR "out_d_state_ind";
  bndra (lit ":out_d_zip") "out_d_zip" 0 (size paymentctx "out_d_zip") SQLT_STR "out_d_zip_ind";
  bndra (lit ":out_c_id") "out_c_id" 0 (sizeof C_int) SQLT_INT "out_c_id_ind";
  bndra (lit ":out_c_first") "out_c_first" 0 (size paymentctx "out_c_first") SQLT_STR "out_c_first_ind";
  bndra (lit ":out_c_middle") "out_c_middle" 0 (size paymentctx "out_c_middle") SQLT_STR "out_c_middle_ind";
  bndra (lit ":out_c_last") "out_c_last" 0 (size paymentctx "out_c_last") SQLT_STR "out_c_last_ind";
  bndra (lit ":out_c_street_1") "out_c_street_1" 0 (size paymentctx "out_c_street_1") SQLT_STR "out_c_street_1_ind";
  bndra (lit ":out_c_street_2") "out_c_street_2" 0 (size paymentctx "out_c_street_2") SQLT_STR "out_c_street_2_ind";
  bndra (lit ":out_c_city") "out_c_city" 0 (size paymentctx "out_c_city") SQLT_STR "out_c_city_ind";
  bndra (lit ":out_c_state") "out_c_state" 0 (size paymentctx "out_c_state") SQLT_STR "out_c_state_ind";
  bndra (lit ":out_c_zip") "out_c_zip" 0 (size paymentctx "out_c_zip") SQLT_STR "out_c_zip_ind";
  bndra (lit ":out_c_phone") "out_c_phone" 0 (size paymentctx "out_c_phone") SQLT_STR "out_c_phone_ind";
  bndra (lit ":out_c_since") "out_c_since" 0 (size paymentctx "out_c_since") SQLT_STR "out_c_since_ind";
  bndra (lit ":out_c_credit") "out_c_credit" 0 (size paymentctx "out_c_credit") SQLT_STR "out_c_credit_ind";
  bndra (lit ":out_c_credit_lim") "out_c_credit_lim" 0 (sizeof C_double) SQLT_FLT "out_c_credit_lim_ind";
  bndra (lit ":out_c_discount") "out_c_discount" 0 (sizeof C_double) SQLT_FLT "out_c_discount_ind";
  bndra (lit ":out_c_balance") "out_c_balance" 0 (sizeof C_double) SQLT_FLT "out_c_balance_ind";
  bndra (lit ":out_c_data") "out_c_data" 0 (size paymentctx "out_c_data") SQLT_STR "out_c_data_ind"].

Definition payment_statement : statement := mk_statement STMT_PAYMENT payment_binds [].

(** ** Input *)

Definition put_delivery (d : delivery_t) (m : memory) : memory :=
  put "o_carrier_id" 0 (V_int (dl_o_carrier_id d)) (put "w_id" 0 (V_int (dl_w_id d)) m).

Definition put_stock_level (d : stock_level_t) (m : memory) : memory :=
  put "threshold" 0 (V_int (sl_threshold d))
    (put "d_id" 0 (V_int (sl_d_id d)) (put "w_id" 0 (V_int (sl_w_id d)) m)).

Definition put_no_line (j : nat) (l : no_order_line_t) (m : memory) : memory :=
  put "ol_quantity" j (V_int (ol_quantity l))
    (put "ol_supply_w_id" j (V_int (ol_supply_w_id l)) (put "ol_i_id" j (V_int (ol_i_id l)) m)).

Fixpoint put_no_lines (j : nat) (lines : list no_order_line_t) (m : memory) : memory :=
  match lines with
  | [] => m
  | l :: lines => put_no_lines (Datatypes.S j) lines (put_no_line j l m)
  end.

Definition put_new_order (d : new_order_t) (m : memory) : memory :=
  put_no_lines 0 (no_order_line d)
    (put "o_ol_cnt" 0 (V_int (no_o_ol_cnt d)) (put "o_all_local" 0 (V_int (no_o_all_local d))
      (put "c_id" 0 (V_int (no_c_id d)) (put "d_id" 0 (V_int (no_d_id d))
        (put "w_id" 0 (V_int (no_w_id d)) m))))).

Definition put_order_status (d : order_status_t) (c_last : bytes) (m : memory) : memory :=
  put "c_last" 0 (V_str c_last) (put "c_d_id" 0 (V_int (os_c_d_id d))
    (put "c_w_id" 0 (V_int (os_c_w_id d)) (put "c_id" 0 (V_int (os_c_id d)) m))).

(** [h_amount] of the context is a [float]. *)
Definition put_payment (d : payment_t) (c_last : bytes) (m : memory) : memory :=
  put "h_amount" 0 (V_float (to_float (pa_h_amount d))) (put "c_last" 0 (V_str c_last)
    (put "c_d_id" 0 (V_int (pa_c_d_id d)) (put "c_w_id" 0 (V_int (pa_c_w_id d))
      (put "c_id" 0 (V_int (pa_c_id d)) (put "d_id" 0 (V_int (pa_d_id d))
        (put "w_id" 0 (V_int (pa_w_id d)) m)))))).

(** ** Output *)

Definition get_no_line (m : memory) (j : nat) (l : no_order_line_t) : option no_order_line_t :=
  i_price ← out_double m "i_price" j (i_price l);
  i_name ← out_str (4 * (Size.I_NAME_LEN + 1)) m "i_name" j (i_name l);
  s_quantity ← out_int m "s_quantity" j (s_quantity l);
  ol_amount ← out_double m "ol_amount" j (ol_amount l);
  brand_generic ← output (fun m a => s ← str_at m a; Some (hd 0 s)) m "brand_generic" j (brand_generic l);
  Some (mk_no_order_line (ol_i_id l) (ol_supply_w_id l) (ol_quantity l) ol_amount s_quantity
          brand_generic i_name i_price).

Fixpoint get_no_lines (m : memory) (j : nat) (lines : list no_order_line_t)
  : option (list no_order_line_t) :=
  match lines with
  | [] => Some []
  | l :: lines => l ← get_no_line m j l; lines ← get_no_lines m (Datatypes.S j) lines; Some (l :: lines)
  end.

Definition get_new_order (m : memory) (d : new_order_t) : option new_order_t :=
  w_tax ← out_double m "w_tax" 0 (no_w_tax d);
  d_tax ← out_double m "d_tax" 0 (no_d_tax d);
  o_id ← out_int m "o_id" 0 (no_o_id d);
  c_last ← out_str (4 * (Size.C_LAST_LEN + 1)) m "c_last" 0 (no_c_last d);
  c_credit ← out_str (Size.C_CREDIT_LEN + 1) m "c_credit" 0 (no_c_credit d);
  c_discount ← out_double m "c_discount" 0 (no_c_discount d);
  total_amount ← out_double m "total_amount" 0 (no_total_amount d);
  lines ← get_no_lines m 0 (no_order_line d);
  Some (set_no_output d lines o_id total_amount w_tax d_tax c_last c_credit c_discount (no_rollback d)).

Definition get_os_line (m : memory) (i : nat) (l : os_order_line_t) : option os_order_line_t :=
  i_id ← int_at m ("out_ol_i_id"%string, i);
  supply_w_id ← out_int m "out_ol_supply_w_id" i (osl_supply_w_id l);
  quantity ← out_int m "out_ol_quantity" i (osl_quantity l);
  amount ← out_double m "out_ol_amount" i (osl_amount l);
  delivery_d ← out_str (Size.OL_DELIVERY_D_LEN + 1) m "out_ol_delivery_d" i (osl_delivery_d l);
  Some (mk_os_order_line i_id supply_w_id quantity amount delivery_d).

(** Until an item is NULL: the lines, and [o_ol_cnt]. *)
Fixpoint get_os_lines (m : memory) (i : nat) (lines : list os_order_line_t)
  : option (list os_order_line_t * Z) :=
  match lines with
  | [] => Some ([], Z.of_nat i)
  | l :: rest =>
      ind ← int_at m ("out_ol_i_id_ind"%string, i);
      if negb (ind =? 0) then Some (lines, Z.of_nat i)
      else
        l ← get_os_line m i l;
        '(rest, cnt) ← get_os_lines m (Datatypes.S i) rest;
        Some (l :: rest, cnt)
  end.

Definition get_order_status (m : memory) (d : order_status_t) : option order_status_t :=
  c_id ← out_int m "out_c_id" 0 (os_c_id d);
  c_first ← out_str (4 * (Size.C_FIRST_LEN + 1)) m "out_c_first" 0 (os_c_first d);
  c_middle ← out_str (Size.C_MIDDLE_LEN + 1) m "out_c_middle" 0 (os_c_middle d);
  c_last ← out_wide m "out_c_last" 0 (os_c_last d);
  c_balance ← out_double m "out_c_balance" 0 (os_c_balance d);
  o_id ← out_int m "out_o_id" 0 (os_o_id d);
  o_carrier_id ← out_int m "out_o_carrier_id" 0 (os_o_carrier_id d);
  o_entry_d ← out_str (Size.O_ENTRY_D_LEN + 1) m "out_o_entry_d" 0 (os_o_entry_d d);
  '(lines, o_ol_cnt) ← get_os_lines m 0 (os_order_line d);
  Some (mk_order_status (os_c_d_id d) (os_c_w_id d) c_id c_last c_balance c_first c_middle o_id
          o_carrier_id o_entry_d o_ol_cnt lines).

Definition get_payment (m : memory) (d : payment_t) : option payment_t :=
  w_name ← out_str (4 * (Size.W_NAME_LEN + 1)) m "out_w_name" 0 (pa_w_name d);
  w_street_1 ← out_str (4 * (Size.W_STREET_1_LEN + 1)) m "out_w_street_1" 0 (pa_w_street_1 d);
  w_street_2 ← out_str (4 * (Size.W_STREET_2_LEN + 1)) m "out_w_street_2" 0 (pa_w_street_2 d);
  w_city ← out_str (4 * (Size.W_CITY_LEN + 1)) m "out_w_city" 0 (pa_w_city d);
  w_state ← out_str (4 * (Size.W_STATE_LEN + 1)) m "out_w_state" 0 (pa_w_state d);
  w_zip ← out_str (4 * (Size.W_ZIP_LEN + 1)) m "out_w_zip" 0 (pa_w_zip d);
  d_name ← out_str (4 * (Size.D_NAME_LEN + 1)) m "out_d_name" 0 (pa_d_name d);
  d_street_1 ← out_str (4 * (Size.D_STREET_1_LEN + 1)) m "out_d_street_1" 0 (pa_d_street_1 d);
  d_street_2 ← out_str (4 * (Size.D_STREET_2_LEN + 1)) m "out_d_street_2" 0 (pa_d_street_2 d);
  d_city ← out_str (4 * (Size.D_CITY_LEN + 1)) m "out_d_city" 0 (pa_d_city d);
  d_state ← out_str (4 * (Size.D_STATE_LEN + 1)) m "out_d_state" 0 (pa_d_state d);
  d_zip ← out_str (4 * (Size.D_ZIP_LEN + 1)) m "out_d_zip" 0 (pa_d_zip d);
  c_id ← out_int m "out_c_id" 0 (pa_c_id d);
  c_first ← out_str (4 * (Size.C_FIRST_LEN + 1)) m "out_c_first" 0 (pa_c_first d);
  c_middle ← out_str (Size.C_MIDDLE_LEN + 1) m "out_c_middle" 0 (pa_c_middle d);
  c_last ← out_wide m "out_c_last" 0 (pa_c_last d);
  c_street_1 ← out_str (4 * (Size.C_STREET_1_LEN + 1)) m "out_c_street_1" 0 (pa_c_street_1 d);
  c_street_2 ← out_str (4 * (Size.C_STREET_2_LEN + 1)) m "out_c_street_2" 0 (pa_c_street_2 d);
  c_city ← out_str (4 * (Size.C_CITY_LEN + 1)) m "out_c_city" 0 (pa_c_city d);
  c_state ← out_str (4 * (Size.C_STATE_LEN + 1)) m "out_c_state" 0 (pa_c_state d);
  c_zip ← out_str (4 * (Size.C_ZIP_LEN + 1)) m "out_c_zip" 0 (pa_c_zip d);
  c_phone ← out_str (4 * (Size.C_PHONE_LEN + 1)) m "out_c_phone" 0 (pa_c_phone d);
  c_since ← out_str (Size.C_SINCE_LEN + 1) m "out_c_since" 0 (pa_c_since d);
  c_credit ← out_str (Size.C_CREDIT_LEN + 1) m "out_c_credit" 0 (pa_c_credit d);
  c_credit_lim ← out_double m "out_c_credit_lim" 0 (pa_c_credit_lim d);
  c_discount ← out_double m "out_c_discount" 0 (pa_c_discount d);
  c_balance ← out_double m "out_c_balance" 0 (pa_c_balance d);
  c_data ← out_str (4 * (Size.C_DATA_LEN + 1)) m "out_c_data" 0 (pa_c_data d);
  Some (mk_payment (pa_c_d_id d) (pa_c_w_id d) (pa_d_id d) (pa_h_amount d) (pa_w_id d) c_id c_last
          d_name d_street_1 d_street_2 d_city d_state d_zip c_balance c_credit_lim c_discount c_data
          c_first c_middle c_street_1 c_street_2 c_city c_state c_zip c_phone c_since c_credit
          (pa_h_date d) w_name w_street_1 w_street_2 w_city w_state w_zip).

(** ** The operations *)

Section oracle.
Context {S : Type} `{Oci S}.
Implicit Types c : oracle_conn S.

Definition execute_delivery_oracle (data : delivery_t) c : option (Z * delivery_t * oracle_conn S) :=
  '(e, _, c) ← run_statement Dctx delivery_statement (put_delivery data) c;
  Some (match e with Succeeded => OK | _ => ERROR end, data, c).

Definition execute_integrity_oracle (data : integrity_t) c : option (Z * integrity_t * oracle_conn S) :=
  '(e, m, c) ← run_statement Ictx integrity_statement id c;
  match e with
  | Succeeded =>
      w_nware ← int_at m ("w_nware"%string, O);
      Some (if negb (w_nware =? it_w_id data) then ERROR else OK, data, c)
  | _ => Some (ERROR, data, c)
  end.

(** [low_stock] stays in the context. *)
Definition execute_stock_level_oracle (data : stock_level_t) c
  : option (Z * stock_level_t * oracle_conn S) :=
  '(e, _, c) ← run_statement Sctx stock_level_statement (put_stock_level data) c;
  Some (match e with Succeeded => OK | _ => ERROR end, data, c).

Definition execute_new_order_oracle (data : new_order_t) c : option (Z * new_order_t * oracle_conn S) :=
  stmt ← new_order_statement;
  '(e, m, c) ← run_statement Nctx stmt (put_new_order data) c;
  match e with
  | Succeeded => data ← get_new_order m data; Some (OK, data, c)
  | NoData => Some (ERROR, data, c)
  | Refused errcode =>
      Some (ERROR, if errcode =? ITEM_NOT_VALID then set_no_rollback 1 data else data, c)
  end.

Definition execute_order_status_oracle (data : order_status_t) c
  : option (Z * order_status_t * oracle_conn S) :=
  stmt ← order_status_statement;
  c_last ← c_last_bytes (os_c_last data);
  '(e, m, c) ← run_statement Octx stmt (put_order_status data c_last) c;
  match e with
  | Succeeded => data ← get_order_status m data; Some (OK, data, c)
  | _ => Some (ERROR, data, c)
  end.

Definition execute_payment_oracle (data : payment_t) c : option (Z * payment_t * oracle_conn S) :=
  c_last ← c_last_bytes (pa_c_last data);
  '(e, m, c) ← run_statement Pctx payment_statement (put_payment data c_last) c;
  match e with
  | Succeeded => data ← get_payment m data; Some (OK, data, c)
  | _ => Some (ERROR, data, c)
  end.

(** ** The connection ([dbc_common.c]) *)

Definition commit_transaction_oracle c : option (Z * oracle_conn S) := Some (OK, c).

Definition rollback_transaction_oracle c : option (Z * oracle_conn S) :=
  if or_freed c then None
  else Some (STATUS_ROLLBACK, mk_oracle (OCITransRollback (or_lib c)) false (or_ctx c)).

(** Every connection makes its handles anew.  What allocating those of the
    environment and setting attributes answers is not looked at. *)
Definition connect_to_db_oracle (p : db_context_oracle) c : option (Z * oracle_conn S) :=
  let '(rc, s) := OCIServerAttach (ora_dbname p) (or_lib c) in
  match rc with
  | OCI_SUCCESS =>
      let '(rc, s) := OCISessionBegin (ora_user p) (ora_pass p) s in
      match rc with
      | OCI_SUCCESS =>
          init_txns [(Dctx, Some delivery_statement); (Ictx, Some integrity_statement);
                     (Nctx, new_order_statement); (Octx, order_status_statement);
                     (Pctx, Some payment_statement); (Sctx, Some stock_level_statement)]
            (mk_oracle s false (or_ctx c))
      | _ => _ ← ocierror rc (oci_errors s); Some (ERROR, mk_oracle s false (or_ctx c))
      end
  | _ => _ ← ocierror rc (oci_errors s); Some (ERROR, mk_oracle s false (or_ctx c))
  end.

Definition disconnect_from_db_oracle c : option (Z * oracle_conn S) :=
  if or_freed c then None
  else
    s ← checked OCISessionEnd (or_lib c);
    s ← checked OCIServerDetach s;
    Some (OK, mk_oracle s true (fun _ => None)).

(** ** The function pointers that [db_init_oracle] stores *)

Definition oracle_call {A} (bad : A) (f : oracle_conn S -> option (A * oracle_conn S))
    (w : option (oracle_conn S)) : A * option (oracle_conn S) :=
  match w ≫= f with None => (bad, None) | Some (a, c) => (a, Some c) end.

Definition oracle_txn {D} (f : D -> oracle_conn S -> option (Z * D * oracle_conn S)) (data : D)
    (w : option (oracle_conn S)) : Z * D * option (oracle_conn S) :=
  match w ≫= f data with None => (ERROR, data, None) | Some (rc, data, c) => (rc, data, Some c) end.

Definition oracle_ops (p : db_context_oracle) : DbOps (option (oracle_conn S)) := {|
  time := oracle_call 0 (fun c => let '(t, s) := oci_time (or_lib c) in
                                  Some (t, mk_oracle s (or_freed c) (or_ctx c)));
  sleep_retry := fun w => (oracle_call tt (fun c =>
                   Some (tt, mk_oracle (oci_nanosleep (or_lib c)) (or_freed c) (or_ctx c))) w).2;
  connect := oracle_call ERROR (connect_to_db_oracle p);
  disconnect := oracle_call ERROR disconnect_from_db_oracle;
  commit_transaction := oracle_call ERROR commit_transaction_oracle;
  rollback_transaction := oracle_call ERROR rollback_transaction_oracle;
  execute_integrity := oracle_txn execute_integrity_oracle;
  execute_delivery := oracle_txn execute_delivery_oracle;
  execute_new_order := oracle_txn execute_new_order_oracle;
  execute_order_status := oracle_txn execute_order_status_oracle;
  execute_payment := oracle_txn execute_payment_oracle;
  execute_stock_level := oracle_txn execute_stock_level_oracle |}.

(** They keep the promises of the interface. *)
Lemma oracle_laws (p : db_context_oracle) : DbLaws (option (oracle_conn S)) (H := oracle_ops p).
Proof.
  split; intros [c|]; cbn; try done.
  unfold oracle_call, rollback_transaction_oracle; cbn. by destruct (or_freed c).
Qed.
End oracle.
