(* ===== verification/Socket.v ===== *)
(** * Messages between driver and client ([src/_socket.c], [src/client_interface.c])

    A message is the bytes of a [struct client_transaction_t].  A connection is
    a stream of bytes; how the kernel divides it, and what it answers to
    [recv], [send], [socket] and [connect], is a parameter: a list of answers,
    consumed one per call. *)

From Stdlib Require Import ZArith Lia String.
From stdpp Require Import base list.
From S2P Require Import Prelude Text Common.

Definition ERR_SOCKET_CREATE : Z := -1.
Definition ERR_SOCKET_BIND : Z := -2.
Definition ERR_SOCKET_LISTEN : Z := -3.
Definition ERR_SOCKET_RESOLVPROTO : Z := -4.
Definition ERR_SOCKET_CLOSED : Z := -5.

(** ** [_receive] *)

(** A connection as the receiver sees it: the bytes that the other side has sent
    or is going to send, in order, and the answers of the next calls of [recv]:
    -1, the end of the connection, or that so many bytes have arrived. *)
Inductive recv_answer := RecvFailed | RecvEof | RecvArrived (n : Z).
Record connection := mk_connection { incoming : bytes; answers : list recv_answer }.

(** [recv(s, data, length, 0)]: what it returns and stores.  It takes what has
    arrived from the front of the stream, and never more than [length].
    [None]: it waits. *)
Definition recv (c : connection) (length : Z) : option (Z * bytes * connection) :=
  match answers c with
  | [] => None
  | RecvFailed :: rest => Some (-1, [], mk_connection (incoming c) rest)
  | RecvEof :: rest => Some (0, [], mk_connection (incoming c) rest)
  | RecvArrived n :: rest =>
      let k := Z.to_nat (Z.min n length) in
      let chunk := take k (incoming c) in
      if (0 <? length) && (zlen chunk =? 0) then None
      else Some (zlen chunk, chunk, mk_connection (drop k (incoming c)) rest)
  end.

(** The loop of [_receive]: the result, the bytes from the start of the buffer,
    and the connection.  [data] is what is stored so far, as the pointer moves
    on by [received].  [fuel]: one per call of [recv]. *)
Fixpoint receive_loop (fuel : nat) (c : connection) (total remaining length : Z) (data : bytes)
  : option (Z * bytes * connection) :=
  match fuel with
  | O => None
  | Datatypes.S fuel =>
      '(received, chunk, c) ← recv c remaining;
      if received =? -1 then Some (-1, data, c)
      else if received =? 0 then Some (ERR_SOCKET_CLOSED, data, c)
      else
        let total := total + received in
        let data := data ++ chunk in
        let remaining := remaining - received in
        if negb (total =? length) then receive_loop fuel c total remaining length data
        else Some (total, data, c)
  end.

(** Every call of [recv] consumes an answer. *)
Definition _receive (c : connection) (length : Z) : option (Z * bytes * connection) :=
  receive_loop (Datatypes.S (List.length (answers c))) c 0 length length [].

(** ** [_send] *)

(** The loop of [_send]: [sent] is the next answer of [send], -1 or a count.
    The second component is what the kernel accepted. *)
Fixpoint send_loop (answers : list Z) (length : Z) (data : bytes)
  : option (Z * bytes * list Z) :=
  if 0 <? zlen data then
    match answers with
    | [] => None
    | sent :: answers =>
        if sent =? -1 then Some (-1, [], answers)
        else
          '(r, wire, rest) ← send_loop answers length (drop (Z.to_nat sent) data);
          Some (r, take (Z.to_nat sent) data ++ wire, rest)
    end
  else Some (length, [], answers).

Definition _send (answers : list Z) (data : bytes) : option (Z * bytes * list Z) :=
  send_loop answers (zlen data) data.

(** [send] accepts at least one byte and no more than it was given. *)
Fixpoint send_lawful (remaining : Z) (answers : list Z) : Prop :=
  match answers with
  | sent :: answers' =>
      sent = -1 \/ (0 < sent <= remaining /\
                    (sent < remaining -> send_lawful (remaining - sent) answers'))
  | [] => True
  end.

(** ** [client_interface.c] *)

(** [sizeof(struct client_transaction_t)] depends on the compiler. *)
Definition receive_transaction_data (sizeof : Z) (c : connection)
  : option (Z * bytes * connection) :=
  '(length, data, c) ← _receive c sizeof;
  Some (if length =? -1 then ERROR
        else if length =? ERR_SOCKET_CLOSED then ERROR_SOCKET_CLOSED
        else if negb (length =? sizeof) then ERROR
        else length, data, c).

(** [closed errno]: [errno == EPIPE || errno == ECONNRESET]. *)
Definition send_transaction_data (sizeof : Z) (closed : bool) (answers : list Z) (data : bytes)
  : option (Z * bytes * list Z) :=
  '(length, wire, rest) ← _send answers data;
  Some (if length =? -1 then (if closed then ERROR_SOCKET_CLOSED else ERROR)
        else if negb (length =? sizeof) then ERROR
        else length, wire, rest).

(** ** [_connect]

    For every address: what [socket] returned, and whether [connect] succeeded. *)
Fixpoint try_addresses (rp : list (Z * bool)) : option Z * list Z :=
  match rp with
  | [] => (None, [])
  | (sockfd, connected) :: rp' =>
      if sockfd =? -1 then try_addresses rp'
      else if connected : bool then (Some sockfd, [])
      else let '(r, closed) := try_addresses rp' in (r, sockfd :: closed)
  end.

(** The descriptor, and the descriptors that were closed again.
    [resolved = None]: [getaddrinfo] failed. *)
Definition _connect (resolved : option (list (Z * bool))) : Z * list Z :=
  match resolved with
  | None => (-1, [])
  | Some result =>
      let '(r, closed) := try_addresses result in
      (match r with Some sockfd => sockfd | None => -1 end, closed)
  end.

Definition connect_to_client (resolved : option (list (Z * bool))) : Z * list Z :=
  _connect resolved.

(** [_listen]: what [socket], [bind] and [listen] return. *)
Definition _listen (sockfd bind_rc listen_rc : Z) : Z :=
  if sockfd <? 0 then ERR_SOCKET_CREATE
  else if bind_rc <? 0 then ERR_SOCKET_BIND
  else if listen_rc <? 0 then ERR_SOCKET_LISTEN
  else sockfd.

(** [_accept]: the answer of [accept], -1 with a message. *)
Definition _accept (sockfd : Z) : Z := sockfd.

(** The protocol number of [getprotobyname], if it knows the name. *)
Definition resolveproto (protocol : option Z) : Z := default ERR_SOCKET_RESOLVPROTO protocol.

(** [(unsigned short) port], as the text [_connect] resolves and as the two bytes
    of [sin_port] that [_listen] binds. *)
Definition short_port (port : Z) : Z := port mod 2 ^ 16.
Definition port_str (port : Z) : bytes := fmt_d (short_port port).
Definition sin_port (port : Z) : bytes := [short_port port / 256; short_port port mod 256].

(** ** Properties *)

(** What a call of [recv] for at least one byte answers. *)
Lemma recv_spec c length : 0 < length ->
  match recv c length with
  | None => answers c = [] \/ exists n rest, answers c = RecvArrived n :: rest
  | Some (received, chunk, c') =>
      incoming c = chunk ++ incoming c' /\
      ((received = -1 /\ chunk = [] /\ answers c = RecvFailed :: answers c') \/
       (received = 0 /\ chunk = [] /\ answers c = RecvEof :: answers c') \/
       (received = zlen chunk /\ 0 < received <= length /\
        exists n, answers c = RecvArrived n :: answers c'))
  end.
Proof.
  intros Hl. unfold recv. destruct (answers c) as [|[| |n] rest] eqn:Ha; [by left|..].
  - split; [done|]. by left.
  - split; [done|]. right. by left.
  - destruct (Z.ltb_spec 0 length); [|lia].
    set (k := Z.to_nat (Z.min n length)). destruct (Z.eqb_spec (zlen (take k (incoming c))) 0) as [Hz|Hz].
    + right. eauto.
    + cbn [andb incoming answers]. split; [by rewrite take_drop|]. right. right.
      split; [done|]. split; [|eauto]. unfold zlen in *. rewrite length_take in *. lia.
Qed.

(** Whatever the loop answers, it has stored the next bytes of the stream, no
    more than it was asked for. *)
Lemma receive_loop_spec fuel : forall c total length data,
  0 < length - total ->
  match receive_loop fuel c total (length - total) length data with
  | None => True
  | Some (r, data', c') =>
      exists taken used,
        data' = data ++ taken /\ incoming c = taken ++ incoming c' /\
        answers c = used ++ answers c' /\ zlen taken <= length - total /\
        ((r = length /\ zlen taken = length - total) \/
         (r = -1 /\ last used = Some RecvFailed) \/
         (r = ERR_SOCKET_CLOSED /\ last used = Some RecvEof))
  end.
Proof.
  induction fuel as [|fuel IH]; intros c total length data Hpos; [done|]. cbn [receive_loop].
  pose proof (recv_spec c (length - total) Hpos) as Hs.
  destruct (recv c (length - total)) as [[[received chunk] c1]|]; [|done]. cbn [mbind option_bind].
  destruct Hs as (Hin & [(-> & -> & Ha)|[(-> & -> & Ha)|(Hr & Hle & n & Ha)]]).
  - exists [], [RecvFailed]. rewrite app_nil_r. split_and!; try done; [unfold zlen; cbn; lia|by right; left].
  - exists [], [RecvEof]. rewrite app_nil_r. split_and!; try done; [unfold zlen; cbn; lia|by right; right].
  - destruct (Z.eqb_spec received (-1)); [lia|]. destruct (Z.eqb_spec received 0); [lia|].
    destruct (Z.eqb_spec (total + received) length) as [He|He]; cbn [negb].
    + exists chunk, [RecvArrived n]. split_and!; try done; [lia|]. left. split; lia.
    + specialize (IH c1 (total + received) length (data ++ chunk) ltac:(lia)).
      replace (length - (total + received)) with (length - total - received) in IH by lia.
      destruct (receive_loop _ _ _ _ _ _) as [[[r data'] c2]|]; [|done].
      destruct IH as (taken & used & -> & Hin' & Ha' & Hle' & Hcase).
      exists (chunk ++ taken), (RecvArrived n :: used).
      assert (Hz : zlen (chunk ++ taken) = received + zlen taken)
        by (unfold zlen in *; rewrite length_app; lia).
      assert (Hlast : forall x, last used = Some x -> last (RecvArrived n :: used) = Some x)
        by (intros x Hx; by destruct used).
      split_and!; [by rewrite app_assoc|by rewrite Hin, Hin', app_assoc|by rewrite Ha, Ha'|lia|].
      destruct Hcase as [[-> Hz']|[[-> Hx]|[-> Hx]]]; [left; split; [done|lia]|..]; auto.
Qed.

(** While bytes arrive, a complete message is received, and nothing beyond it. *)
Lemma receive_loop_arrives fuel : forall c total length data message later,
  incoming c = message ++ later -> 0 < zlen message -> zlen message = length - total ->
  Forall (fun a => exists n, a = RecvArrived n /\ 0 < n) (answers c) ->
  (List.length message <= List.length (answers c))%nat -> (List.length message <= fuel)%nat ->
  exists used rest, answers c = used ++ rest /\
    (List.length used <= List.length message)%nat /\
    receive_loop fuel c total (length - total) length data
    = Some (length, data ++ message, mk_connection later rest).
Proof.
  induction fuel as [|fuel IH]; intros c total length data message later Hin Hpos Hlen Ha Hn Hf;
    [unfold zlen in *; lia|].
  cbn [receive_loop]. unfold recv. destruct c as [inc ans]. cbn [incoming answers] in *. subst inc.
  destruct ans as [|a ans]; [cbn in Hn; unfold zlen in *; lia|].
  apply Forall_cons in Ha as [(n & -> & Hn0) Ha].
  set (k := Z.to_nat (Z.min n (length - total))).
  assert (Hk : (0 < k <= List.length message)%nat) by (unfold k, zlen in *; lia).
  rewrite take_app_le, drop_app_le by lia.
  assert (Hz : zlen (take k message) = Z.of_nat k) by (unfold zlen; rewrite length_take; lia).
  rewrite Hz. destruct (Z.eqb_spec (Z.of_nat k) 0); [lia|]. rewrite andb_false_r.
  cbn [mbind option_bind].
  destruct (Z.eqb_spec (Z.of_nat k) (-1)); [lia|]. destruct (Z.eqb_spec (Z.of_nat k) 0); [lia|].
  destruct (Z.eqb_spec (total + Z.of_nat k) length) as [He|He]; cbn [negb].
  - exists [RecvArrived n], ans. split; [done|]. split; [cbn; lia|].
    rewrite take_ge, drop_ge by (unfold zlen in *; lia). by rewrite He.
  - destruct (IH (mk_connection (drop k message ++ later) ans) (total + Z.of_nat k) length
                (data ++ take k message) (drop k message) later)
      as (used & rest & Hans & Hused & Hr); cbn [answers incoming] in *;
      unfold zlen in *; rewrite ?length_drop; try done; try (cbn in *; lia).
    exists (RecvArrived n :: used), rest. rewrite length_drop in Hused.
    split; [by rewrite Hans|]. split; [cbn; lia|].
    replace (length - total - Z.of_nat k) with (length - (total + Z.of_nat k)) by lia.
    by rewrite Hr, <- app_assoc, take_drop.
Qed.

Lemma send_loop_spec answers : forall length data,
  send_lawful (zlen data) answers ->
  match send_loop answers length data with
  | None => True
  | Some (r, wire, rest) =>
      (r = length /\ wire = data) \/ (r = -1 /\ exists tail, data = wire ++ tail)
  end.
Proof.
  induction answers as [|sent answers IH]; intros length data Hl; cbn [send_loop].
  - destruct (Z.ltb_spec 0 (zlen data)); [done|]. left. split; [done|].
    unfold zlen in *. destruct data; [done|cbn in *; lia].
  - destruct (Z.ltb_spec 0 (zlen data)) as [Hpos|Hpos].
    2: { left. split; [done|]. unfold zlen in *. destruct data; [done|cbn in *; lia]. }
    destruct (Z.eqb_spec sent (-1)) as [->|Hs]; [right; split; [done|by exists data]|].
    destruct Hl as [?|[Hr Hl]]; [done|].
    assert (Hz : zlen (drop (Z.to_nat sent) data) = zlen data - sent)
      by (unfold zlen in *; rewrite length_drop; lia).
    destruct (decide (sent < zlen data)) as [Hlt|Hge].
    + specialize (IH length (drop (Z.to_nat sent) data)). rewrite Hz in IH.
      specialize (IH (Hl Hlt)). destruct (send_loop _ _ _) as [[[r wire] rest]|]; [|done]. cbn.
      destruct IH as [[-> ->]|[-> [tl Ht]]].
      * left. split; [done|apply take_drop].
      * right. split; [done|]. exists tl. rewrite <- app_assoc, <- Ht. by rewrite take_drop.
    + assert (Hlen : (List.length data <= Z.to_nat sent)%nat) by (unfold zlen in *; lia).
      rewrite drop_ge by done. destruct answers; cbn; left; (split; [done|]);
        by rewrite app_nil_r, take_ge.
Qed.

(** One message after the other, as [_send] leaves them on the wire when it
    succeeds, and as calls of [_receive] for their lengths take them up. *)
Definition sent (message : bytes) (wire : bytes) : Prop :=
  exists sends unused, send_lawful (zlen message) sends /\
    _send sends message = Some (zlen message, wire, unused).
Fixpoint receive_each (c : connection) (lengths : list Z) : option (list bytes * connection) :=
  match lengths with
  | [] => Some ([], c)
  | length :: lengths =>
      '(r, data, c) ← _receive c length;
      '(more, c) ← receive_each c lengths;
      Some ((if r =? length then data else []) :: more, c)
  end.

(** C39. Messages keep their boundaries on the stream: for any messages sent one
    after the other on a connection, however [send] split them, with anything
    after them, [_receive] of each message's length returns that message,
    byte by byte and nothing of the next one, however many bytes have arrived
    at each [recv], and leaves what follows the last message on the connection.
    One answer of [recv] per byte is enough. *)
Theorem send_receive_roundtrip messages wires arrived later :
  Forall (fun m => 0 < zlen m) messages -> Forall2 sent messages wires ->
  Forall (fun n => 0 < n) arrived ->
  (List.length (List.concat messages) <= List.length arrived)%nat ->
  exists rest,
    receive_each (mk_connection (List.concat wires ++ later) (map RecvArrived arrived))
      (map zlen messages)
    = Some (messages, mk_connection later (map RecvArrived rest)).
Proof.
  intros Hpos Hs. revert arrived. induction Hs as [|message wire messages wires Hs _ IH];
    intros arrived Ha Hn; [by exists arrived|].
  apply Forall_cons in Hpos as [Hm Hms]. cbn [map receive_each List.concat] in *.
  destruct Hs as (sends & unused & Hl & Hs).
  pose proof (send_loop_spec sends (zlen message) message Hl) as Hw.
  unfold _send in Hs. rewrite Hs in Hw. destruct Hw as [[_ ->]|[Hr _]]; [|lia].
  rewrite length_app in Hn. rewrite <- app_assoc. unfold _receive. cbn [answers].
  destruct (receive_loop_arrives (Datatypes.S (List.length (map RecvArrived arrived)))
    (mk_connection (message ++ List.concat wires ++ later) (map RecvArrived arrived)) 0
    (zlen message) [] message (List.concat wires ++ later))
    as (used & rest & Hans & Hused & Hr); cbn [incoming answers];
    rewrite ?length_map; try done; try lia.
  { apply Forall_forall. intros x (n & -> & Hx)%list_elem_of_fmap_1.
    rewrite Forall_forall in Ha. eauto. }
  rewrite Z.sub_0_r in Hr. rewrite length_map in Hr. rewrite Hr. cbn [mbind option_bind].
  cbn [answers] in Hans. apply map_eq_app in Hans as (a1 & a2 & -> & <- & <-).
  rewrite length_map in Hused. rewrite length_app in Hn. apply Forall_app in Ha as [_ Ha].
  destruct (IH Hms a2 Ha ltac:(lia)) as [rest' ->]. cbn [mbind option_bind].
  rewrite Z.eqb_refl. by exists rest'.
Qed.

(** [receive_transaction_data] takes the next bytes of the stream, never more
    than a message.  It succeeds only with a complete message; a connection that
    ends before the message does is [ERROR_SOCKET_CLOSED], even in the middle of
    it, and every other failure [ERROR]. *)
Theorem receive_transaction_data_correct sizeof c r data c' :
  5 < sizeof -> receive_transaction_data sizeof c = Some (r, data, c') ->
  exists used, incoming c = data ++ incoming c' /\ answers c = used ++ answers c' /\
    zlen data <= sizeof /\
    ((r = sizeof /\ zlen data = sizeof) \/
     (r = ERROR /\ last used = Some RecvFailed) \/
     (r = ERROR_SOCKET_CLOSED /\ last used = Some RecvEof)).
Proof.
  intros Hsz. unfold receive_transaction_data, _receive.
  pose proof (receive_loop_spec (Datatypes.S (List.length (answers c))) c 0 sizeof []
                ltac:(lia)) as Hr.
  rewrite Z.sub_0_r in Hr.
  destruct (receive_loop _ _ _ _ _ _) as [[[len data'] c1]|]; [|done]. cbn.
  intros [= <- <- <-]. destruct Hr as (taken & used & -> & Hin & Ha & Hle & Hr).
  exists used. do 2 (split; [done|]). split; [done|].
  destruct Hr as [(-> & Hz)|[(-> & Hx)|(-> & Hx)]].
  - left. unfold ERR_SOCKET_CLOSED. rewrite Z.eqb_refl.
    destruct (Z.eqb_spec sizeof (-1)), (Z.eqb_spec sizeof (-5)); try lia. done.
  - right. by left.
  - right. by right.
Qed.

(** [_connect] returns the first address that accepts the connection, or
    -1 when none does, and closes every descriptor it does not return. *)
Lemma connect_first_success result :
  let opened := filter (fun a : Z * bool => a.1 <> -1) result in
  let '(r, closed) := _connect (Some result) in
  (r = -1 /\ closed = map fst opened /\ Forall (fun a => a.2 = false) opened) \/
  (exists tried later, opened = tried ++ (r, true) :: later /\
     closed = map fst tried /\ Forall (fun a => a.2 = false) tried).
Proof.
  cbv zeta. unfold _connect. induction result as [|[fd ok] result IH]; [left; by repeat split|].
  cbn [try_addresses]. destruct (Z.eqb_spec fd (-1)) as [->|Hfd].
  - rewrite filter_cons_False by (cbn; congruence). exact IH.
  - rewrite filter_cons_True by done. destruct ok.
    + right. exists [], (filter (fun a : Z * bool => a.1 <> -1) result). done.
    + destruct (try_addresses result) as [r closed]. cbn in IH |- *.
      destruct IH as [(-> & -> & Hf)|(tried & later & -> & -> & Hf)].
      * left. split; [done|]. split; [done|]. by constructor.
      * right. exists ((fd, false) :: tried), later. split; [done|]. split; [done|].
        by constructor.
Qed.

(** ** Witnesses *)

(** Two messages of two bytes; the second [recv] could take three bytes and
    takes the one that is missing. *)
Lemma send_receive_roundtrip_witness :
  receive_each (mk_connection (lit "abcd!") (map RecvArrived [1; 3; 5; 1])) [2; 2]
  = Some ([lit "ab"; lit "cd"], mk_connection (lit "!") [RecvArrived 1]) /\
  exists rest,
    receive_each (mk_connection (lit "abcd!") (map RecvArrived [1; 3; 5; 1])) [2; 2]
    = Some ([lit "ab"; lit "cd"], mk_connection (lit "!") (map RecvArrived rest)).
Proof.
  split; [vm_compute; reflexivity|].
  apply (send_receive_roundtrip [lit "ab"; lit "cd"] [lit "ab"; lit "cd"] [1; 3; 5; 1] (lit "!")).
  - repeat constructor.
  - constructor; [|constructor; [|constructor]].
    + exists [1; 1], []. split; [|vm_compute; reflexivity]. right.
      split; [vm_compute; split; congruence|]. intros _. right.
      split; [vm_compute; split; congruence|]. vm_compute. discriminate.
    + exists [2], []. split; [|vm_compute; reflexivity]. right.
      split; [vm_compute; split; congruence|]. vm_compute. discriminate.
  - repeat constructor.
  - cbn. lia.
Defined.

Lemma receive_transaction_data_correct_witness :
  let c := mk_connection (lit "abc") [RecvArrived 3; RecvEof] in
  exists used, incoming c = lit "abc" ++ [] /\ answers c = used ++ [] /\ 3 <= 8 /\
    ((ERROR_SOCKET_CLOSED = 8 /\ 3 = 8) \/
     (ERROR_SOCKET_CLOSED = ERROR /\ last used = Some RecvFailed) \/
     (ERROR_SOCKET_CLOSED = ERROR_SOCKET_CLOSED /\ last used = Some RecvEof)).
Proof.
  intros c.
  exact (receive_transaction_data_correct 8 c ERROR_SOCKET_CLOSED (lit "abc") (mk_connection [] [])
           ltac:(lia) ltac:(vm_compute; reflexivity)).
Defined.
