(* ===== verification/Driver.v ===== *)
(** * Configuration of the driver ([src/driver_common.c], [src/driver_main.c])

    The globals of the driver, its command line, and the checks of [main], as
    the threaded driver (DRIVER1) compiles them. *)

From Stdlib Require Import ZArith Lia String SpecFloat.
#[local] Open Scope string_scope.
#[local] Open Scope Z_scope.
From stdpp Require Import base list.
From S2P Require Import Prelude Double Text Common.

(** [struct transaction_mix_t] *)
Record transaction_mix_t := mk_mix {
  delivery_actual : double; new_order_actual : double; payment_actual : double;
  order_status_actual : double; stock_level_actual : double;
  delivery_threshold : double; new_order_threshold : double; payment_threshold : double;
  order_status_threshold : double; stock_level_threshold : double }.

(** [struct key_time_t] and [struct think_time_t] *)
Record times_t := mk_times {
  t_delivery : Z; t_new_order : Z; t_order_status : Z; t_payment : Z; t_stock_level : Z }.

Definition MIX_DELIVERY : double := decimal 4 2.
Definition MIX_ORDER_STATUS : double := decimal 4 2.
Definition MIX_PAYMENT : double := decimal 43 2.
Definition MIX_STOCK_LEVEL : double := decimal 4 2.
Definition KEY_TIME_DELIVERY : Z := 2.
Definition KEY_TIME_NEW_ORDER : Z := 18.
Definition KEY_TIME_ORDER_STATUS : Z := 2.
Definition KEY_TIME_PAYMENT : Z := 3.
Definition KEY_TIME_STOCK_LEVEL : Z := 2.
Definition THINK_TIME_DELIVERY : Z := 5000.
Definition THINK_TIME_NEW_ORDER : Z := 12000.
Definition THINK_TIME_ORDER_STATUS : Z := 10000.
Definition THINK_TIME_PAYMENT : Z := 12000.
Definition THINK_TIME_STOCK_LEVEL : Z := 5000.
Definition CLIENT_PORT : Z := 30000.
Definition HOSTNAMELEN : nat := 255.

(** The globals of driver.c, driver_common.c and driver_main.c. *)
Record driver := mk_driver {
  terminals_per_warehouse : Z; mix : transaction_mix_t; key_time : times_t; think_time :
  times_t; client_port : Z; hostname : bytes; duration : Z; w_id_min : Z; w_id_max : Z;
  terminals_limit : Z; mode_altered : Z; client_conn_sleep : Z; spread : Z;
  fork_per_processor : Z; perform_integrity_check : Z; cardinality : table_cardinality_t;
  outdir : option bytes }.

(** Assignments to the globals. *)
Definition set_terminals_per_warehouse (v : Z) (d : driver) : driver :=
  mk_driver v (mix d) (key_time d) (think_time d) (client_port d) (hostname d) (duration d)
    (w_id_min d) (w_id_max d) (terminals_limit d) (mode_altered d) (client_conn_sleep d)
    (spread d) (fork_per_processor d) (perform_integrity_check d) (cardinality d) (outdir
    d).
Definition set_mix (v : transaction_mix_t) (d : driver) : driver :=
  mk_driver (terminals_per_warehouse d) v (key_time d) (think_time d) (client_port d)
    (hostname d) (duration d) (w_id_min d) (w_id_max d) (terminals_limit d) (mode_altered d)
    (client_conn_sleep d) (spread d) (fork_per_processor d) (perform_integrity_check d)
    (cardinality d) (outdir d).
Definition set_key_time (v : times_t) (d : driver) : driver :=
  mk_driver (terminals_per_warehouse d) (mix d) v (think_time d) (client_port d) (hostname
    d) (duration d) (w_id_min d) (w_id_max d) (terminals_limit d) (mode_altered d)
    (client_conn_sleep d) (spread d) (fork_per_processor d) (perform_integrity_check d)
    (cardinality d) (outdir d).
Definition set_think_time (v : times_t) (d : driver) : driver :=
  mk_driver (terminals_per_warehouse d) (mix d) (key_time d) v (client_port d) (hostname d)
    (duration d) (w_id_min d) (w_id_max d) (terminals_limit d) (mode_altered d)
    (client_conn_sleep d) (spread d) (fork_per_processor d) (perform_integrity_check d)
    (cardinality d) (outdir d).
Definition set_client_port (v : Z) (d : driver) : driver :=
  mk_driver (terminals_per_warehouse d) (mix d) (key_time d) (think_time d) v (hostname d)
    (duration d) (w_id_min d) (w_id_max d) (terminals_limit d) (mode_altered d)
    (client_conn_sleep d) (spread d) (fork_per_processor d) (perform_integrity_check d)
    (cardinality d) (outdir d).
Definition set_hostname (v : bytes) (d : driver) : driver :=
  mk_driver (terminals_per_warehouse d) (mix d) (key_time d) (think_time d) (client_port d)
    v (duration d) (w_id_min d) (w_id_max d) (terminals_limit d) (mode_altered d)
    (client_conn_sleep d) (spread d) (fork_per_processor d) (perform_integrity_check d)
    (cardinality d) (outdir d).
Definition set_duration (v : Z) (d : driver) : driver :=
  mk_driver (terminals_per_warehouse d) (mix d) (key_time d) (think_time d) (client_port d)
    (hostname d) v (w_id_min d) (w_id_max d) (terminals_limit d) (mode_altered d)
    (client_conn_sleep d) (spread d) (fork_per_processor d) (perform_integrity_check d)
    (cardinality d) (outdir d).
Definition set_w_id_min (v : Z) (d : driver) : driver :=
  mk_driver (terminals_per_warehouse d) (mix d) (key_time d) (think_time d) (client_port d)
    (hostname d) (duration d) v (w_id_max d) (terminals_limit d) (mode_altered d)
    (client_conn_sleep d) (spread d) (fork_per_processor d) (perform_integrity_check d)
    (cardinality d) (outdir d).
Definition set_w_id_max (v : Z) (d : driver) : driver :=
  mk_driver (terminals_per_warehouse d) (mix d) (key_time d) (think_time d) (client_port d)
    (hostname d) (duration d) (w_id_min d) v (terminals_limit d) (mode_altered d)
    (client_conn_sleep d) (spread d) (fork_per_processor d) (perform_integrity_check d)
    (cardinality d) (outdir d).
Definition set_terminals_limit (v : Z) (d : driver) : driver :=
  mk_driver (terminals_per_warehouse d) (mix d) (key_time d) (think_time d) (client_port d)
    (hostname d) (duration d) (w_id_min d) (w_id_max d) v (mode_altered d)
    (client_conn_sleep d) (spread d) (fork_per_processor d) (perform_integrity_check d)
    (cardinality d) (outdir d).
Definition set_mode_altered (v : Z) (d : driver) : driver :=
  mk_driver (terminals_per_warehouse d) (mix d) (key_time d) (think_time d) (client_port d)
    (hostname d) (duration d) (w_id_min d) (w_id_max d) (terminals_limit d) v
    (client_conn_sleep d) (spread d) (fork_per_processor d) (perform_integrity_check d)
    (cardinality d) (outdir d).
Definition set_client_conn_sleep (v : Z) (d : driver) : driver :=
  mk_driver (terminals_per_warehouse d) (mix d) (key_time d) (think_time d) (client_port d)
    (hostname d) (duration d) (w_id_min d) (w_id_max d) (terminals_limit d) (mode_altered d)
    v (spread d) (fork_per_processor d) (perform_integrity_check d) (cardinality d) (outdir
    d).
Definition set_spread (v : Z) (d : driver) : driver :=
  mk_driver (terminals_per_warehouse d) (mix d) (key_time d) (think_time d) (client_port d)
    (hostname d) (duration d) (w_id_min d) (w_id_max d) (terminals_limit d) (mode_altered d)
    (client_conn_sleep d) v (fork_per_processor d) (perform_integrity_check d) (cardinality
    d) (outdir d).
Definition set_fork_per_processor (v : Z) (d : driver) : driver :=
  mk_driver (terminals_per_warehouse d) (mix d) (key_time d) (think_time d) (client_port d)
    (hostname d) (duration d) (w_id_min d) (w_id_max d) (terminals_limit d) (mode_altered d)
    (client_conn_sleep d) (spread d) v (perform_integrity_check d) (cardinality d) (outdir
    d).
Definition set_perform_integrity_check (v : Z) (d : driver) : driver :=
  mk_driver (terminals_per_warehouse d) (mix d) (key_time d) (think_time d) (client_port d)
    (hostname d) (duration d) (w_id_min d) (w_id_max d) (terminals_limit d) (mode_altered d)
    (client_conn_sleep d) (spread d) (fork_per_processor d) v (cardinality d) (outdir d).
Definition set_cardinality (v : table_cardinality_t) (d : driver) : driver :=
  mk_driver (terminals_per_warehouse d) (mix d) (key_time d) (think_time d) (client_port d)
    (hostname d) (duration d) (w_id_min d) (w_id_max d) (terminals_limit d) (mode_altered d)
    (client_conn_sleep d) (spread d) (fork_per_processor d) (perform_integrity_check d) v
    (outdir d).
Definition set_outdir (v : option bytes) (d : driver) : driver :=
  mk_driver (terminals_per_warehouse d) (mix d) (key_time d) (think_time d) (client_port d)
    (hostname d) (duration d) (w_id_min d) (w_id_max d) (terminals_limit d) (mode_altered d)
    (client_conn_sleep d) (spread d) (fork_per_processor d) (perform_integrity_check d)
    (cardinality d) v.

Definition zero_mix : transaction_mix_t :=
  let z := d_of_Z 0 in mk_mix z z z z z z z z z z.
Definition zero_times : times_t := mk_times 0 0 0 0 0.

(** The globals after [init_common]. *)
Definition initial_driver : driver :=
  mk_driver 0 zero_mix zero_times zero_times CLIENT_PORT [] 0 0 0 0 0 1000 1 1 0
    init_common None.

Definition init_driver (d : driver) : driver :=
  let z := d_of_Z 0 in
  let m := mix d in
  set_terminals_per_warehouse (districts (cardinality d))
  (set_mix (mk_mix MIX_DELIVERY (new_order_actual m) MIX_PAYMENT MIX_ORDER_STATUS
              MIX_STOCK_LEVEL (delivery_threshold m) (new_order_threshold m)
              (payment_threshold m) (order_status_threshold m) (stock_level_threshold m))
  (set_key_time (mk_times KEY_TIME_DELIVERY KEY_TIME_NEW_ORDER KEY_TIME_ORDER_STATUS
                   KEY_TIME_PAYMENT KEY_TIME_STOCK_LEVEL)
  (set_think_time (mk_times THINK_TIME_DELIVERY THINK_TIME_NEW_ORDER THINK_TIME_ORDER_STATUS
                     THINK_TIME_PAYMENT THINK_TIME_STOCK_LEVEL) d))).

(** The new mix, or [None] with ERROR. *)
Definition recalculate_mix (m : transaction_mix_t) : option transaction_mix_t :=
  let n := dsub (d_of_Z 1)
             (dadd (dadd (dadd (delivery_actual m) (order_status_actual m)) (payment_actual m))
                   (stock_level_actual m)) in
  if dltb n (d_of_Z 0) then None
  else
    let payment_threshold := dadd n (payment_actual m) in
    let order_status_threshold := dadd payment_threshold (order_status_actual m) in
    let delivery_threshold := dadd order_status_threshold (delivery_actual m) in
    let stock_level_threshold := dadd delivery_threshold (stock_level_actual m) in
    Some (mk_mix (delivery_actual m) n (payment_actual m) (order_status_actual m)
            (stock_level_actual m) delivery_threshold n payment_threshold
            order_status_threshold stock_level_threshold).

(** [strncpy] into a zeroed buffer of [HOSTNAMELEN + 1]. *)
Definition set_client_hostname (addr : bytes) (d : driver) : driver :=
  set_hostname (take HOSTNAMELEN addr) d.

(** [None] is ERROR, with nothing changed. *)
Definition set_table_cardinality (table v : Z) (d : driver) : option driver :=
  let c := cardinality d in
  let set c := Some (set_cardinality c d) in
  if table =? TABLE_WAREHOUSE then
    set (mk_card v (districts c) (customers c) (items c) (orders c) (new_orders c))
  else if table =? TABLE_CUSTOMER then
    set (mk_card (warehouses c) (districts c) v (items c) (orders c) (new_orders c))
  else if table =? TABLE_ITEM then
    set (mk_card (warehouses c) (districts c) (customers c) v (orders c) (new_orders c))
  else if table =? TABLE_ORDER then
    set (mk_card (warehouses c) (districts c) (customers c) (items c) v (new_orders c))
  else if table =? TABLE_NEW_ORDER then
    set (mk_card (warehouses c) (districts c) (customers c) (items c) (orders c) v)
  else None.

Definition set_transaction_mix (transaction : Z) (v : double) (m : transaction_mix_t)
  : option transaction_mix_t :=
  let set d n p o s :=
    Some (mk_mix d n p o s (delivery_threshold m) (new_order_threshold m)
            (payment_threshold m) (order_status_threshold m) (stock_level_threshold m)) in
  let '(mk_mix d n p o s _ _ _ _ _) := m in
  if transaction =? DELIVERY then set v n p o s
  else if transaction =? NEW_ORDER then set d v p o s
  else if transaction =? ORDER_STATUS then set d n p v s
  else if transaction =? PAYMENT then set d n v o s
  else if transaction =? STOCK_LEVEL then set d n p o v
  else None.

(** ** The command line *)

(** The [strcmp] chain of [parse_arguments]: the globals after one flag, or
    [None] for a flag it does not know.  [argv] holds the bytes of one
    argument.  (What is printed on standard output is not modelled.) *)
Definition parse_flag (flag value : bytes) (d : driver) : option driver :=
  let is_flag (s : String.string) := bytes_eqb flag (lit s) in
  let n := atoi value in
  let cardinality table := Some (default d (set_table_cardinality table n d)) in
  let share transaction :=
    Some (set_mix (default (mix d) (set_transaction_mix transaction (atof value) (mix d))) d) in
  let '(mk_times kd kn ko kp ks) := key_time d in
  let '(mk_times td tn to tp ts) := think_time d in
  if is_flag "a" then Some d
  else if is_flag "b" then Some d
  else if is_flag "d" then Some (set_client_hostname value d)
  else if is_flag "p" then Some (set_client_port n d)
  else if is_flag "L" then Some (set_terminals_limit n d)
  else if is_flag "l" then Some (set_duration n d)
  else if is_flag "w" then cardinality TABLE_WAREHOUSE
  else if is_flag "c" then cardinality TABLE_CUSTOMER
  else if is_flag "i" then cardinality TABLE_ITEM
  else if is_flag "o" then cardinality TABLE_ORDER
  else if is_flag "s" then cardinality TABLE_STOCK
  else if is_flag "n" then cardinality TABLE_NEW_ORDER
  else if is_flag "q" then share PAYMENT
  else if is_flag "r" then share ORDER_STATUS
  else if is_flag "e" then share DELIVERY
  else if is_flag "t" then share STOCK_LEVEL
  else if is_flag "z" then Some (set_perform_integrity_check 1 d)
  else if is_flag "wmin" then Some (set_w_id_min n d)
  else if is_flag "wmax" then Some (set_w_id_max n d)
  else if is_flag "ktd" then Some (set_key_time (mk_times n kn ko kp ks) d)
  else if is_flag "ktn" then Some (set_key_time (mk_times kd n ko kp ks) d)
  else if is_flag "kto" then Some (set_key_time (mk_times kd kn n kp ks) d)
  else if is_flag "ktp" then Some (set_key_time (mk_times kd kn ko n ks) d)
  else if is_flag "kts" then Some (set_key_time (mk_times kd kn ko kp n) d)
  else if is_flag "ttd" then Some (set_think_time (mk_times n tn to tp ts) d)
  else if is_flag "ttn" then Some (set_think_time (mk_times td n to tp ts) d)
  else if is_flag "tto" then Some (set_think_time (mk_times td tn n tp ts) d)
  else if is_flag "ttp" then Some (set_think_time (mk_times td tn to n ts) d)
  else if is_flag "tts" then Some (set_think_time (mk_times td tn to tp n) d)
  else if is_flag "tpw" then Some (set_terminals_per_warehouse n d)
  else if is_flag "sleep" then Some (set_client_conn_sleep n d)
  else if is_flag "spread" then Some (set_spread n d)
  else if is_flag "altered" then Some (set_mode_altered n d)
  else if is_flag "outdir" then Some (set_outdir (Some value) d)
  else if is_flag "fpp" then Some (set_fork_per_processor n d)
  else None.

(** The loop over flag and value; [args] is [argv] from index [i] on. *)
Fixpoint parse_pairs (args : list bytes) (d : driver) : option driver :=
  match args with
  | [] => Some d
  | flag :: rest =>
      if zlen flag <? 2 then None
      else match rest with
           | [] => None
           | value :: rest =>
               d ← parse_flag (drop 1 flag) value d; parse_pairs rest d
           end
  end.

Definition parse_arguments (argv : list bytes) (d : driver) : option driver :=
  if zlen argv <? 9 then None
  else
    d ← parse_pairs (drop 1 argv) d;
    Some (match outdir d with
          | None => set_outdir (Some (lit ".")) d
          | Some _ => d
          end).

(** ** [main], up to the integrity check *)

(** The checks of [main] on what the command line said; [None] is exit status 1. *)
Definition check_options (d : driver) : option driver :=
  let d := if w_id_min d =? 0 then set_w_id_min 1 d else d in
  let d := if w_id_max d =? 0 then set_w_id_max (warehouses (cardinality d)) d else d in
  if w_id_min d >? w_id_max d then None
  else if w_id_max d >? warehouses (cardinality d) then None
  else
    m ← recalculate_mix (mix d);
    Some (set_mix m d).

(** The threaded driver.  [logging_ok]: [init_logging] and [init_driver_logging]
    opened their files. *)
Definition prepare (logging_ok : bool) (argv : list bytes) : option driver :=
  d ← parse_arguments argv (init_driver initial_driver);
  if negb logging_ok then None else check_options d.

(** ** Properties *)

(** The flags of the threaded driver. *)
Definition known_flags : list bytes :=
  map lit ["a"; "b"; "d"; "p"; "L"; "l"; "w"; "c"; "i"; "o"; "s"; "n"; "q"; "r"; "e"; "t";
           "z"; "wmin"; "wmax"; "ktd"; "ktn"; "kto"; "ktp"; "kts"; "ttd"; "ttn"; "tto";
           "ttp"; "tts"; "tpw"; "sleep"; "spread"; "altered"; "outdir"; "fpp"].

Definition flag_ok (flag : bytes) : Prop := 2 <= zlen flag /\ drop 1 flag ∈ known_flags.

Lemma bytes_eqb_spec s t : bytes_eqb s t = true <-> s = t.
Proof. apply bool_decide_eq_true. Qed.

(** One link of a [strcmp] chain. *)
Lemma strcmp_chain {A} flag s (x : A) r l :
  (is_Some r <-> flag ∈ l) ->
  is_Some (if bytes_eqb flag s then Some x else r) <-> flag ∈ s :: l.
Proof.
  intros Hr. rewrite elem_of_cons, <- Hr, <- bytes_eqb_spec.
  destruct (bytes_eqb flag s); [|intuition congruence].
  split; [by left|by eexists].
Qed.

Lemma parse_flag_known flag value d :
  is_Some (parse_flag flag value d) <-> flag ∈ known_flags.
Proof.
  unfold parse_flag, known_flags. destruct (key_time d), (think_time d). cbn [map].
  repeat apply strcmp_chain. rewrite elem_of_nil. split; [by intros [? ?]|done].
Qed.

(** The arguments as flag and value, one pair after the other. *)
Definition flatten (pairs : list (bytes * bytes)) : list bytes :=
  concat (map (fun '(flag, value) => [flag; value]) pairs).

Lemma parse_pairs_spec pairs d :
  Forall (fun p => flag_ok p.1) pairs -> is_Some (parse_pairs (flatten pairs) d).
Proof.
  intros H. revert d. induction H as [|[flag value] pairs [Hlen Hin] _ IH]; intros d; [by eexists|].
  cbn. destruct (Z.ltb_spec (zlen flag) 2); [cbn in *; lia|].
  destruct (proj2 (parse_flag_known (drop 1 flag) value d) Hin) as [d' ->]. apply IH.
Qed.

Lemma parse_pairs_inv n : forall args d, (List.length args <= n)%nat ->
  is_Some (parse_pairs args d) ->
  exists pairs, args = flatten pairs /\ Forall (fun p => flag_ok p.1) pairs.
Proof.
  induction n as [|n IH]; intros args d Hn [d' Hd'].
  - destruct args; [|cbn in Hn; lia]. by exists [].
  - destruct args as [|flag [|value rest]]; [by exists []| |]; cbn [parse_pairs] in Hd';
      (destruct (Z.ltb_spec (zlen flag) 2); [done|]); [done|].
    destruct (parse_flag (drop 1 flag) value d) as [d1|] eqn:E; [|done].
    destruct (IH rest d1) as (pairs & -> & Hall); [cbn in Hn; lia|by eexists|].
    exists ((flag, value) :: pairs). split; [done|]. constructor; [|done].
    split; [done|]. by eapply parse_flag_known.
Qed.

(** The command line of the driver is accepted exactly when it has at
    least nine arguments, program name included, and these are flag/value pairs
    whose flags are at least two characters long and among the thirty-five
    flags the parser knows. *)
Theorem parse_arguments_accepts prog args d :
  is_Some (parse_arguments (prog :: args) d) <->
  9 <= zlen (prog :: args) /\
  exists pairs, args = flatten pairs /\ Forall (fun p => flag_ok p.1) pairs.
Proof.
  unfold parse_arguments. change (drop 1 (prog :: args)) with args. destruct (Z.ltb_spec (zlen (prog :: args)) 9).
  - split; [by intros [? ?]|]. lia.
  - split.
    + intros [d' Hd']. split; [done|]. apply bind_Some in Hd' as (d1 & Hd1 & _).
      eapply parse_pairs_inv; [done|by eexists].
    + intros (_ & pairs & -> & Hall). destruct (parse_pairs_spec pairs d Hall) as [d1 ->].
      by eexists.
Qed.

(** The thresholds depend only on the shares given by the user. *)
Lemma recalculate_mix_again m m' : recalculate_mix m = Some m' ->
  dltb (new_order_actual m') (d_of_Z 0) = false /\ recalculate_mix m' = Some m'.
Proof.
  unfold recalculate_mix. destruct (dltb _ _) eqn:En; [done|]. intros [= <-].
  cbn [delivery_actual new_order_actual payment_actual order_status_actual stock_level_actual].
  by rewrite En.
Qed.

(** What [main] checks before the run: when it goes on, the warehouse range
    is within the database, the output directory is set, the New-Order share is
    not negative, and the thresholds are those of the configured mix. *)
Theorem prepare_sound logging_ok argv d :
  prepare logging_ok argv = Some d ->
  w_id_min d <= w_id_max d <= warehouses (cardinality d) /\ w_id_min d <> 0 /\
  is_Some (outdir d) /\
  dltb (new_order_actual (mix d)) (d_of_Z 0) = false /\
  recalculate_mix (mix d) = Some (mix d) /\ 9 <= zlen argv.
Proof.
  unfold prepare, check_options, parse_arguments. intros H.
  destruct (Z.ltb_spec (zlen argv) 9); [done|].
  destruct (parse_pairs _ _) as [d0|]; [|done]. cbn in H.
  set (d1 := match outdir d0 with Some _ => d0 | None => _ end) in H.
  assert (Hout : is_Some (outdir d1))
    by (unfold d1; destruct (outdir d0) eqn:E; [rewrite E|]; by eexists).
  clearbody d1. destruct logging_ok; [|done]. cbn [negb] in H.
  set (d2 := if w_id_min d1 =? 0 then _ else d1) in H.
  assert (w_id_min d2 <> 0 /\ outdir d2 = outdir d1) as [Hmin Ho2]
    by (unfold d2; destruct (Z.eqb_spec (w_id_min d1) 0); by split).
  clearbody d2.
  set (d3 := if w_id_max d2 =? 0 then _ else d2) in H.
  assert (w_id_min d3 = w_id_min d2 /\ outdir d3 = outdir d2) as [Hm3 Ho3]
    by (unfold d3; by destruct (w_id_max d2 =? 0)).
  clearbody d3.
  destruct (Z.gtb_spec (w_id_min d3) (w_id_max d3)); [done|].
  destruct (Z.gtb_spec (w_id_max d3) (warehouses (cardinality d3))); [done|].
  destruct (recalculate_mix (mix d3)) as [m|] eqn:E; [|done]. cbn in H. simplify_eq.
  cbn [w_id_min w_id_max cardinality outdir mix set_mix].
  rewrite Hm3, Ho3, Ho2. do 3 (split; [done||lia|]).
  destruct (recalculate_mix_again _ _ E). done.
Qed.

Definition sample_argv : list bytes :=
  map lit ["driver"; "-d"; "localhost"; "-w"; "10"; "-l"; "60"; "-tpw"; "2"].

Lemma prepare_sound_witness :
  exists d, prepare true sample_argv = Some d /\
  w_id_min d <= w_id_max d <= warehouses (cardinality d) /\ w_id_min d <> 0 /\
  is_Some (outdir d) /\
  dltb (new_order_actual (mix d)) (d_of_Z 0) = false /\
  recalculate_mix (mix d) = Some (mix d) /\ 9 <= zlen sample_argv.
Proof.
  eexists. split; [vm_compute; reflexivity|].
  apply (prepare_sound true sample_argv). vm_compute. reflexivity.
Defined.

(** A flag whose value never takes effect: the cardinality given with [-s]
    is rejected by [set_table_cardinality] and the result is dropped. *)
Lemma stock_flag_ignored value d : parse_flag (lit "s") value d = Some d.
Proof. unfold parse_flag. by destruct (key_time d), (think_time d). Qed.
