(* ===== verification/DriverRun.v ===== *)
(** * The driver's terminals ([src/driver.c])

    Each emulated terminal is a thread: it picks a transaction, generates its
    input, keys, sends it to the client, logs the answer in mix.log and thinks.
    A thread is modelled by the sequence of its externally visible actions;
    the clock and the client's answers are parameters, one record per round. *)

From Stdlib Require Import ZArith Lia String SpecFloat Permutation.
From stdpp Require Import base list.
From S2P Require Import Prelude Double Pcg Text Common TxnData InputData Driver.

Definition EXECUTING : Z := 0.
Definition KEYING : Z := 1.
Definition THINKING : Z := 2.

Definition transaction_short_name : bytes := lit "dnops".

(** What a modelled call ends in: a result, an access outside of an array, or
    parameters (answers, fuel) that did not last. *)
Inductive outcome (A : Type) :=
| Done (a : A)
| Fault
| Starved.
Arguments Done {A} a.
Arguments Fault {A}.
Arguments Starved {A}.

#[export] Instance outcome_ret : MRet outcome := fun _ a => Done a.
#[export] Instance outcome_bind : MBind outcome := fun _ _ f o =>
  match o with Done a => f a | Fault => Fault | Starved => Starved end.

Definition is_done {A} (o : outcome A) : bool := match o with Done _ => true | _ => false end.
Definition done_or {A} (a : A) (o : outcome A) : A := match o with Done a => a | _ => a end.

Lemma is_done_or {A} (a : A) o : is_done o = true -> o = Done (done_or a o).
Proof. by destruct o. Qed.

(** Indexing an array, faulting outside of it. *)
Definition get_index {A} (arr : list A) (i : Z) : outcome A :=
  if i <? 0 then Fault
  else match arr !! Z.to_nat i with Some a => Done a | None => Fault end.

(** The actions of a terminal thread. *)
Inductive action :=
| Sleep (seconds : Z)
| Send (data : client_transaction_t)
| LogMix (line : bytes)
| Count (state type delta : Z)      (** [terminal_state[state][type] += delta] *)
| Nanosleep (sec nsec : Z).

(** [rng], [client_data], [code] and [*tc]. *)
Record terminal := mk_terminal {
  rng : pcg_state_128; client_data : client_transaction_t; code : Z;
  tc_w_id : Z; tc_d_id : Z }.

(** One round's surroundings: the clock when it is read, the value
    [receive_transaction_data] leaves in [client_data]. *)
Record round_env := mk_round {
  before_keying : Z; rt0 : timeval; answer : client_transaction_t -> client_transaction_t;
  rt1 : timeval; logged : Z; before_thinking : Z; after_thinking : Z }.

(** ** One round *)

(** [x != 0] on doubles. *)
Definition dnonzero (x : double) : bool := negb (SFeqb x (d_of_Z 0)).

Definition choose_transaction (m : transaction_mix_t) (threshold : double) : Z :=
  if dltb threshold (new_order_threshold m) then NEW_ORDER
  else if dnonzero (payment_actual m) && dltb threshold (payment_threshold m) then PAYMENT
  else if dnonzero (order_status_actual m) && dltb threshold (order_status_threshold m)
       then ORDER_STATUS
  else if dnonzero (delivery_actual m) && dltb threshold (delivery_threshold m)
       then DELIVERY
  else STOCK_LEVEL.

(** [keying_time] and [mean_think_time] of the chosen type. *)
Definition time_of (type : Z) (t : times_t) : Z :=
  if type =? NEW_ORDER then t_new_order t
  else if type =? PAYMENT then t_payment t
  else if type =? ORDER_STATUS then t_order_status t
  else if type =? DELIVERY then t_delivery t
  else t_stock_level t.

Section worker.
Context (d : driver) (stop_time tid : Z) (log : double -> double).

Definition env : gen_env := mk_gen_env (mode_altered d) (cardinality d).

(** Altered mode draws warehouse and district for every transaction. *)
Definition choose_place (w_id d_id : Z) : rngM (Z * Z) :=
  if mode_altered d =? 1 then
    r1 ← get_random (w_id_max d - w_id_min d + 1);
    r2 ← get_random (districts (cardinality d));
    mret (w_id_min d + i32 r1, i32 r2 + 1)
  else mret (w_id, d_id).

(** Place, transaction and input data of the next round. *)
Definition terminal_input (t : terminal) : rngM (Z * Z * Z * transaction_data_t) :=
  '(w_id, d_id) ← choose_place (tc_w_id t) (tc_d_id t);
  threshold ← get_percentage;
  let type := choose_transaction (mix d) threshold in
  '(_, data) ← (if negb (type =? STOCK_LEVEL)
                then generate_input_data env type (transaction_data (client_data t)) w_id
                else generate_input_data2 type (transaction_data (client_data t)) w_id d_id);
  mret (w_id, d_id, type, data).

Definition next_code (rc code : Z) : Z :=
  if rc =? OK then 67
  else if rc =? STATUS_ROLLBACK then 82
  else if rc =? ERROR then 69
  else code.

Definition mix_line (now letter code : Z) (response_time : double) (w_id d_id : Z) : bytes :=
  fmt_d now ++ lit "," ++ [letter] ++ lit "," ++ [code] ++ lit ","
  ++ fmt_f 6 response_time ++ lit "," ++ fmt_d tid ++ lit "," ++ fmt_d w_id
  ++ lit "," ++ fmt_d d_id ++ [NL].

(** The thinking time, which is also skipped when the time is up.  (A sleep
    that a signal interrupts is resumed with the remainder: one action.) *)
Definition think (e : round_env) (mean_think_time : Z) : rngM (list action) :=
  if before_thinking e <? stop_time then
    ms ← get_think_time log mean_think_time;
    mret [Nanosleep (Z.quot ms 1000) (Z.rem ms 1000 * 1000000)]
  else mret [].

(** The body of the do loop: the new state, the actions, and whether the
    loop goes on. *)
Definition terminal_round (e : round_env) (t : terminal)
  : outcome (terminal * list action * bool) :=
  let '((w_id, d_id, type, data), g) := terminal_input t (rng t) in
  let sent := mk_client_transaction (status (client_data t)) type data in
  if negb (before_keying e <? stop_time) then
    Done (mk_terminal g sent (code t) w_id d_id, [], false)
  else
    let received := answer e sent in
    let code := next_code (status received) (code t) in
    letter ← get_index transaction_short_name (transaction received);
    let '(thinking, g) := think e (time_of type (think_time d)) g in
    Done (mk_terminal g received code w_id d_id,
          [Sleep (time_of type (key_time d)); Send sent;
           LogMix (mix_line (logged e) letter code (difftimeval (rt1 e) (rt0 e)) w_id d_id);
           Count EXECUTING (transaction received) (-1);
           Count THINKING (transaction received) 1]
          ++ thinking ++ [Count THINKING (transaction received) (-1)],
          after_thinking e <? stop_time).

Fixpoint terminal_loop (es : list round_env) (t : terminal) : outcome (list action) :=
  match es with
  | [] => Starved
  | e :: es =>
      '(t, actions, more) ← terminal_round e t;
      if (more : bool) then rest ← terminal_loop es t; Done (actions ++ rest)
      else Done actions
  end.

Definition terminated_line (now : Z) : bytes :=
  fmt_d now ++ lit ",TERMINATED,,," ++ fmt_d tid ++ lit ",," ++ [NL].

(** The whole thread; [client_data] is uninitialised memory, [now] the time of
    its last log line. *)
Definition terminal_worker (sockfd local_seed : Z) (client_data : client_transaction_t)
    (w_id d_id : Z) (es : list round_env) (now : Z) : outcome (list action) :=
  if sockfd <? 1 then Done []
  else
    actions ← terminal_loop es
      (mk_terminal (pcg64f_srandom_r local_seed) client_data 32 w_id d_id);
    Done (actions ++ [LogMix (terminated_line now)]).

(** [integrity_terminal_worker]: the status it returns; [None]: the main
    thread exits because there is no client. *)
Definition integrity_terminal_worker (sockfd : Z) (client_data : client_transaction_t)
    (answer : client_transaction_t -> client_transaction_t) : option Z :=
  if sockfd <? 1 then None
  else
    Some (status (answer (mk_client_transaction (status client_data) INTEGRITY
            (TD_integrity (generate_integrity_data (warehouses (cardinality d))))))).
End worker.

(** ** Starting and joining the threads *)

(** [terminals_limit && count > terminals_limit] *)
Definition over_limit (d : driver) (count : Z) : bool :=
  negb (terminals_limit d =? 0) && (count >? terminals_limit d).

Section scan.
Context {S : Type} (d : driver).

(** The body of the loops over the terminals, with [w_id] and [j]; false:
    [return ERROR]. *)
Context (body : Z -> Z -> Z -> S -> outcome (S * bool)).

(** [for (i = w_id_min; i < w_id_max + 1; i += spread)]; the boolean says
    whether the function goes on. *)
Fixpoint scan_warehouses (fuel : nat) (i j count : Z) (s : S) : outcome (Z * S * bool) :=
  match fuel with
  | O => Starved
  | Datatypes.S fuel =>
      if i <? w_id_max d + 1 then
        if over_limit d count then Done (count, s, true)
        else
          '(s, ok) ← body count i j s;
          if (ok : bool) then scan_warehouses fuel (i + spread d) j (count + 1) s
          else Done (count, s, false)
      else Done (count, s, true)
  end.

(** [for (j = 0; j < terminals_per_warehouse; j++)]; [n] rounds are left. *)
Fixpoint scan_terminals (fuel n : nat) (j count : Z) (s : S) : outcome (S * bool) :=
  match n with
  | O => Done (s, true)
  | Datatypes.S n =>
      '(count, s, ok) ← scan_warehouses fuel (w_id_min d) j count s;
      if negb ok then Done (s, false)
      else if over_limit d count then Done (s, true)
      else scan_terminals fuel n (j + 1) count s
  end.
End scan.

(** The rows of [g_tid] that are allocated, and the threads started, each with
    its place in [g_tid]: [(i, j)] is the terminal of warehouse [i], district
    [j + 1]. *)
Record threads := mk_threads { rows : list Z; started : list (Z * Z); joined : list (Z * Z) }.

Section start.
Context (d : driver).

(** Did [malloc] find memory for row [i]? did thread number [count] start (its
    attributes included)? could it be joined? *)
Context (row_ok : Z -> bool) (create_ok : Z -> bool) (join_ok : Z -> bool).

(** [g_tid] has [w_id_max + 1] slots. *)
Definition slot_ok (i : Z) : bool := (0 <=? i) && (i <=? w_id_max d).

Fixpoint allocate (fuel : nat) (i count : Z) (s : threads) : outcome (threads * bool) :=
  match fuel with
  | O => Starved
  | Datatypes.S fuel =>
      if i <? w_id_max d + 1 then
        if negb (slot_ok i) then Fault
        else if negb (row_ok i) then Done (s, false)
        else
          let s := mk_threads (rows s ++ [i]) (started s) (joined s) in
          if over_limit d count then Done (s, true)
          else allocate fuel (i + spread d) (count + 1) s
      else Done (s, true)
  end.

(** [g_tid[i][j]]: the row is there and [j] within it. *)
Definition cell_ok (s : threads) (i j : Z) : bool :=
  slot_ok i && bool_decide (i ∈ rows s) && (0 <=? j) && (j <? terminals_per_warehouse d).

Definition create (count i j : Z) (s : threads) : outcome (threads * bool) :=
  if negb (cell_ok s i j) then Fault
  else if create_ok count
  then Done (mk_threads (rows s) (started s ++ [(i, j)]) (joined s), true)
  else Done (s, false).

Definition join_thread (count i j : Z) (s : threads) : outcome (threads * bool) :=
  if negb (cell_ok s i j && bool_decide ((i, j) ∈ started s)) then Fault
  else if join_ok count
  then Done (mk_threads (rows s) (started s) (joined s ++ [(i, j)]), true)
  else Done (s, false).

Definition threads_start_time : Z :=
  let seconds := ddiv (d_of_Z (client_conn_sleep d)) (d_of_Z 1000) in
  i32 (d_to_Z
    (if negb (terminals_limit d =? 0) then dmul seconds (d_of_Z (terminals_limit d))
     else dmul (dmul seconds (d_of_Z (terminals_per_warehouse d)))
            (d_of_Z (w_id_max d - w_id_min d)))).

Definition stop_time (now : Z) : Z := i32 (now + duration d + threads_start_time).

Definition start_line (now pid : Z) : bytes :=
  fmt_d now ++ lit ",START,,," ++ fmt_d pid ++ lit ",," ++ [NL].

(** [start_driver]: its return code and the threads. *)
Definition start_driver (fuel : nat) : outcome (Z * threads) :=
  let n := Z.to_nat (terminals_per_warehouse d) in
  '(s, ok) ← allocate fuel (w_id_min d) 1 (mk_threads [] [] []);
  if negb ok then Done (ERROR, s)
  else
    '(s, ok) ← scan_terminals d create fuel n 0 1 s;
    if negb ok then Done (ERROR, s)
    else
      '(s, ok) ← scan_terminals d join_thread fuel n 0 1 s;
      Done (if (ok : bool) then OK else ERROR, s).
End start.

(** [main]: the exit status.  What [start_driver] returns is dropped; without a
    client, the integrity check ends the main thread and with it the program. *)
Definition driver_main (logging_ok : bool) (argv : list bytes) (sockfd : Z)
    (client_data : client_transaction_t)
    (answer : client_transaction_t -> client_transaction_t)
    (row_ok create_ok join_ok : Z -> bool) (fuel : nat) : outcome Z :=
  match prepare logging_ok argv with
  | None => Done 1
  | Some d =>
      let go_on := _ ← start_driver d row_ok create_ok join_ok fuel; Done 0 in
      if negb (perform_integrity_check d =? 0) then
        match integrity_terminal_worker d sockfd client_data answer with
        | None => Done 0
        | Some status => if negb (status =? OK) then Done 1 else go_on
        end
      else go_on
  end.
