(* ===== verification/ClientMain.v ===== *)
(** * Starting the client ([src/client_main.c], [client.c], [client_common.c],
      [db_threadpool.c])

    Options, the checks of [main], the threads that [startup] and
    [db_threadpool_init] create, the start of a worker, and the console.  What the
    program does to the outside is a list of events, in order; what it asks of
    the system is answered by an environment.  The build has libpq, and any other
    library according to [supported].  What is only printed is left out. *)

From Stdlib Require Import ZArith Lia String.
From stdpp Require Import base list.
From S2P Require Import Prelude Double Text Common TxnData Queue Client Driver DatagenMain.

Definition DBMSCOCKROACH : Z := 1.
Definition DBMSLIBPQ : Z := 2.
Definition DBMSMYSQL : Z := 3.
Definition DBMSODBC : Z := 4.
Definition DBMSSQLITE : Z := 5.
Definition DBMSORACLE : Z := 6.

Definition SNAMELEN : Z := 128.

(** The globals of client_common.c, and [output_path]. *)
Record client_cfg := mk_client {
  connections_per_process : Z; db_conn_sleep : Z; db_connections : Z; dbms : Z;
  dname : bytes; force_sleep : Z; port : Z; max_driver_connections : Z; sname : bytes;
  postmaster_port : bytes; client_output_path : option bytes }.

Definition initial_client : client_cfg :=
  mk_client 1 1000 0 (-1) [] 0 CLIENT_PORT 1024 [] (lit "5432") None.

(** ** Options *)

Definition parse_dbms (optarg : bytes) : option Z :=
  if bytes_eqb optarg (lit "cockroach") then Some DBMSCOCKROACH
  else if bytes_eqb optarg (lit "mysql") then Some DBMSMYSQL
  else if bytes_eqb optarg (lit "odbc") then Some DBMSODBC
  else if bytes_eqb optarg (lit "oracle") then Some DBMSORACLE
  else if bytes_eqb optarg (lit "pgsql") then Some DBMSLIBPQ
  else if bytes_eqb optarg (lit "yugabyte") then Some DBMSLIBPQ
  else if bytes_eqb optarg (lit "sqlite") then Some DBMSSQLITE
  else None.

(** [exit(1)], or a copy beyond the end of its array. *)
Inductive parse_stop := ExitOne | Overflow.

(** [strcpy] into an array of [n]. *)
Definition strcpy (n : Z) (s : bytes) (k : bytes -> client_cfg) : client_cfg + parse_stop :=
  if zlen s <? n then inl (k s) else inr Overflow.

(** One round of the option loop, for the character [c] of [getopt_long]. *)
Definition parse_client_option (cfg : client_cfg) (c : Z) (optarg : bytes)
  : client_cfg + parse_stop :=
  let '(mk_client cpp sl n db dn f p mx sn pp out) := cfg in
  let v := atoi optarg in
  if c =? chr "a" then
    match parse_dbms optarg with
    | Some db => inl (mk_client cpp sl n db dn f p mx sn pp out)
    | None => inr ExitOne
    end
  else if c =? chr "b" then
    strcpy 32 optarg (fun dn => mk_client cpp sl n db dn f p mx sn pp out)
  else if c =? chr "c" then inl (mk_client cpp sl v db dn f p mx sn pp out)
  else if c =? chr "C" then inl (mk_client cpp sl n db dn f p v sn pp out)
  else if c =? chr "d" then
    inl (mk_client cpp sl n db dn f p mx (take (Z.to_nat (SNAMELEN + 1)) optarg) pp out)
  else if c =? chr "f" then inl (mk_client cpp sl n db dn 1 p mx sn pp out)
  else if c =? chr "l" then
    strcpy 32 optarg (fun pp => mk_client cpp sl n db dn f p mx sn pp out)
  else if c =? chr "o" then inl (mk_client cpp sl n db dn f p mx sn pp (Some optarg))
  else if c =? chr "p" then inl (mk_client cpp sl n db dn f v mx sn pp out)
  else if c =? chr "s" then inl (mk_client cpp v n db dn f p mx sn pp out)
  else if c =? chr "x" then inl (mk_client v sl n db dn f p mx sn pp out)
  else inl cfg.

Fixpoint parse_client_options (cfg : client_cfg) (opts : list (Z * bytes))
  : client_cfg + parse_stop :=
  match opts with
  | [] => inl cfg
  | (c, optarg) :: opts' =>
      match parse_client_option cfg c optarg with
      | inl cfg => parse_client_options cfg opts'
      | inr stop => inr stop
      end
  end.

Definition set_default_output (cfg : client_cfg) : client_cfg :=
  let '(mk_client cpp sl n db dn f p mx sn pp out) := cfg in
  mk_client cpp sl n db dn f p mx sn pp (Some (default (lit ".") out)).

(** [None] is ERROR. *)
Definition parse_client_arguments (argc : Z) (opts : list (Z * bytes))
  : option (client_cfg + parse_stop) :=
  if argc <? 3 then None
  else Some (match parse_client_options initial_client opts with
             | inl cfg => inl (set_default_output cfg)
             | inr stop => inr stop
             end).

(** ** What the client does, and what it is answered *)

Inductive client_event :=
| EPidFile (path : bytes)
| EListen (port : Z)
| EInitQueue
| EListener                        (** the thread of [init_listener] *)
| EWorker (id : Z)                 (** a thread of [db_worker], with its slot *)
| EPost                            (** [sem_post(&db_worker_count)] *)
| ENanosleep (sec nsec : Z)
| EClose.

(** The answers of [_listen], of the initialisations and of [pthread_create], the
    allocations, the remainders of interrupted sleeps, and the console: words,
    or [None] when [scanf] reads none. *)
Record client_env := mk_env {
  listen_fd : Z; queue_ok : bool; listener_rc : Z;
  sem_ok : bool; counts_ok : bool; slots_ok : bool;
  attr_ok : Z -> bool; create_rc : Z -> Z; interruptions : Z -> list (Z * Z);
  console : list (option bytes) }.

(** How a function ends: a value, an invalid access, a sleep for ever, or a
    wait for more input. *)
Inductive client_end := Returned (rc : Z) | Exited (status : Z) | Crashed | SleepsForever | AwaitsInput.

(** ** [db_threadpool_init] *)

Definition ts_sec (cfg : client_cfg) : Z := Z.quot (db_conn_sleep cfg) 1000.
Definition ts_nsec (cfg : client_cfg) : Z := Z.rem (db_conn_sleep cfg) 1000 * 1000000.

(** The [nanosleep] loop: what is left after each interruption is slept again. *)
Definition sleeps (cfg : client_cfg) (rems : list (Z * Z)) : list client_event :=
  ENanosleep (ts_sec cfg) (ts_nsec cfg) :: map (fun '(s, ns) => ENanosleep s ns) rems.

Fixpoint start_workers (cfg : client_cfg) (env : client_env) (i : Z) (n : nat)
  : list client_event * Z :=
  match n with
  | O => ([], OK)
  | Datatypes.S n' =>
      if negb (attr_ok env i) then ([], ERROR)
      else if negb (create_rc env i =? 0) then ([], ERROR)
      else
        let '(evs, rc) := start_workers cfg env (i + 1) n' in
        ([EWorker i; EPost] ++ sleeps cfg (interruptions env i) ++ evs, rc)
  end.

(** [memset] on [worker_count] precedes the check of the allocations; a negative
    number of connections is an allocation that fails. *)
Definition db_threadpool_init (cfg : client_cfg) (env : client_env)
  : list client_event * client_end :=
  let n := db_connections cfg in
  if negb (sem_ok env) then ([], Returned ERROR)
  else if (n <? 0) || (negb (counts_ok env) && (0 <? n)) then ([], Crashed)
  else if negb (counts_ok env && slots_ok env) then ([], Returned ERROR)
  else let '(evs, rc) := start_workers cfg env 0 (Z.to_nat n) in (evs, Returned rc).

(** ** The console *)

Definition parse_command (command : bytes) : Z :=
  if bytes_eqb command (lit "status") then OK
  else if bytes_eqb command (lit "exit") || bytes_eqb command (lit "quit") then EXIT_CODE
  else OK.

Fixpoint console_loop (inputs : list (option bytes)) : client_end :=
  match inputs with
  | [] => AwaitsInput
  | None :: _ => SleepsForever
  | Some command :: inputs' =>
      if parse_command command =? EXIT_CODE then Returned OK else console_loop inputs'
  end.

(** ** [startup] and [main] *)

Definition startup (cfg : client_cfg) (env : client_env) : list client_event * client_end :=
  if negb (queue_ok env) then ([EInitQueue], Returned ERROR)
  else if negb (listener_rc env =? 0) then ([EInitQueue], Returned ERROR)
  else
    let '(evs, e) := db_threadpool_init cfg env in
    let evs := [EInitQueue; EListener] ++ evs in
    match e with
    | Returned rc =>
        if negb (rc =? OK) then (evs, Returned ERROR)
        else
          match (if force_sleep cfg =? 1 then SleepsForever else console_loop (console env)) with
          | Returned _ => (evs ++ [EClose], Returned OK)
          | e => (evs, e)
          end
    | e => (evs, e)
    end.

Definition client_main (argc : Z) (opts : list (Z * bytes)) (env : client_env)
  : list client_event * client_end :=
  match parse_client_arguments argc opts with
  | None => ([], Returned 1)
  | Some (inr ExitOne) => ([], Exited 1)
  | Some (inr Overflow) => ([], Crashed)
  | Some (inl cfg) =>
      if dbms cfg =? -1 then ([], Returned 2)
      else if SNAMELEN <? zlen (sname cfg) then ([], Crashed)   (** no NUL in [sname] *)
      else if zlen (sname cfg) =? 0 then ([], Returned 2)
      else if db_connections cfg =? 0 then ([], Returned 3)
      else
        let pid := EPidFile (default [] (client_output_path cfg) ++ lit "/dbt2_client.pid") in
        if listen_fd env <? 1 then ([pid; EListen (port cfg)], Returned ERROR)
        else
          let '(evs, e) := startup cfg env in
          let evs := [pid; EListen (port cfg)] ++ evs in
          match e with
          | Returned rc => (evs, Returned (if rc =? OK then 0 else 4))
          | e => (evs, e)
          end
  end.

(** ** The start of a worker *)

Inductive worker_start := WorkerEnds | ProcessExits | WorkerServes.

(** [init_dbc] *)
Definition init_dbc (supported : Z -> bool) (dbms : Z) : bool :=
  ((dbms =? DBMSCOCKROACH) || (dbms =? DBMSLIBPQ) || (dbms =? DBMSMYSQL) || (dbms =? DBMSODBC)
   || (dbms =? DBMSSQLITE) || (dbms =? DBMSORACLE)) && supported dbms.

(** [db_worker] before its loop; [connect_rc] is what [connect_to_db] answers. *)
Definition start_worker (supported : Z -> bool) (cfg : client_cfg) (connect_rc : Z) : worker_start :=
  if negb (init_dbc supported (dbms cfg)) then WorkerEnds
  else if negb (connect_rc =? OK) then ProcessExits
  else WorkerServes.

(** ** Properties *)

Definition workers_of (evs : list client_event) : list Z :=
  omap (fun ev => match ev with EWorker id => Some id | _ => None end) evs.
Definition posts_of (evs : list client_event) : list unit :=
  omap (fun ev => match ev with EPost => Some () | _ => None end) evs.

(** The first [k] workers were created, in order, and counted. *)
Definition launched (k : Z) (evs : list client_event) : Prop :=
  workers_of evs = zrange 0 k /\ zlen (posts_of evs) = k.

Definition silent (evs : list client_event) : Prop := workers_of evs = [] /\ posts_of evs = [].

Lemma workers_of_app a b : workers_of (a ++ b) = workers_of a ++ workers_of b.
Proof. apply omap_app. Qed.
Lemma posts_of_app a b : posts_of (a ++ b) = posts_of a ++ posts_of b.
Proof. apply omap_app. Qed.

Lemma launched_silent evs : silent evs -> launched 0 evs.
Proof. intros [H1 H2]. unfold launched. by rewrite H1, H2, zrange_nil by lia. Qed.

Lemma launched_around a evs b k : silent a -> silent b -> launched k evs -> launched k (a ++ evs ++ b).
Proof.
  intros [A1 A2] [B1 B2] [H1 H2]. unfold launched.
  by rewrite !workers_of_app, !posts_of_app, A1, A2, B1, B2, !app_nil_r.
Qed.

Lemma sleeps_silent cfg rems : silent (sleeps cfg rems).
Proof. unfold sleeps. induction rems as [|[s ns] rems [IH1 IH2]]; [done|]. by split; cbn. Qed.

(** The threads are created in order, each with a slot of its own, and are
    counted; on OK all of them are. *)
Lemma start_workers_spec cfg env n : forall i evs rc, start_workers cfg env i n = (evs, rc) ->
  exists k, (k <= n)%nat /\ workers_of evs = zrange i (i + Z.of_nat k)
    /\ zlen (posts_of evs) = Z.of_nat k /\ (rc = OK -> k = n).
Proof.
  induction n as [|n IH]; intros i evs rc; cbn [start_workers].
  { intros [= <- <-]. exists 0%nat. rewrite zrange_nil by lia. done. }
  destruct (negb (attr_ok env i)).
  { intros [= <- <-]. exists 0%nat. rewrite zrange_nil by lia. split_and!; [lia|done..]. }
  destruct (negb (create_rc env i =? 0)).
  { intros [= <- <-]. exists 0%nat. rewrite zrange_nil by lia. split_and!; [lia|done..]. }
  destruct (start_workers cfg env (i + 1) n) as [evs' rc'] eqn:Hw. intros [= <- <-].
  destruct (IH _ _ _ Hw) as (k & Hk & H1 & H2 & H3). exists (Datatypes.S k).
  destruct (sleeps_silent cfg (interruptions env i)) as [S1 S2].
  change (EWorker i :: EPost :: _ :: _) with ([EWorker i; EPost] ++ sleeps cfg (interruptions env i) ++ evs').
  rewrite !workers_of_app, !posts_of_app, S1, S2, H1. split_and!; [lia| | |].
  - rewrite (zrange_cons i) by lia. cbn. do 2 f_equal. lia.
  - unfold zlen in *. cbn. lia.
  - intros ->. by rewrite H3.
Qed.

(** What a start of [n] workers leaves: at most all, in order. *)
Definition starts (n : Z) (up : Prop) (evs : list client_event) : Prop :=
  exists k, launched k evs /\ 0 <= k <= Z.max 0 n /\ (up -> k = n).

Lemma starts_none n (up : Prop) evs : silent evs -> (up -> False) -> starts n up evs.
Proof. intros Hs Hu. exists 0. split_and!; [by apply launched_silent|lia|lia|done]. Qed.

Lemma db_threadpool_init_spec cfg env evs e : db_threadpool_init cfg env = (evs, e) ->
  starts (db_connections cfg) (e = Returned OK) evs /\ (e = Crashed \/ exists rc, e = Returned rc).
Proof.
  unfold db_threadpool_init.
  destruct (negb (sem_ok env)); [intros [= <- <-]; split; [by apply starts_none|eauto]|].
  destruct (_ || _) eqn:Hn; [intros [= <- <-]; split; [by apply starts_none|auto]|].
  apply orb_false_iff in Hn as [Hn%Z.ltb_ge _].
  destruct (negb _); [intros [= <- <-]; split; [by apply starts_none|eauto]|].
  destruct (start_workers cfg env 0 _) as [evs' rc] eqn:Hw. intros [= <- <-].
  destruct (start_workers_spec _ _ _ _ _ _ Hw) as (k & Hk & H1 & H2 & H3). split; [|by eauto].
  exists (Z.of_nat k). split_and!; [by split|lia|lia|]. intros [= ->]. rewrite H3 by done. lia.
Qed.

Lemma console_loop_end l :
  console_loop l = Returned OK \/ console_loop l = SleepsForever \/ console_loop l = AwaitsInput.
Proof.
  induction l as [|[w|] l IH]; cbn; auto. destruct (parse_command w =? EXIT_CODE); auto.
Qed.

(** The client is up: the console ended it, or it goes on running. *)
Definition up (e : client_end) : Prop := e = Returned OK \/ e = SleepsForever \/ e = AwaitsInput.

Lemma startup_spec cfg env evs e : startup cfg env = (evs, e) ->
  starts (db_connections cfg) (up e) evs
  /\ (up e -> exists rest, evs = [EInitQueue; EListener] ++ rest)
  /\ (e = Returned OK -> exists rest, evs = rest ++ [EClose]).
Proof.
  unfold startup, up.
  destruct (negb (queue_ok env)).
  { intros [= <- <-]. split_and!; [apply starts_none; [done|by intros [|[]]]|by intros [|[]]|done]. }
  destruct (negb (listener_rc env =? 0)).
  { intros [= <- <-]. split_and!; [apply starts_none; [done|by intros [|[]]]|by intros [|[]]|done]. }
  destruct (db_threadpool_init cfg env) as [evs' e'] eqn:Hp.
  destruct (db_threadpool_init_spec _ _ _ _ Hp) as ((k & H1 & H2 & H3) & H4).
  assert (Hl : forall tail, silent tail -> launched k ([EInitQueue; EListener] ++ evs' ++ tail))
    by (intros tail Ht; by apply launched_around).
  pose proof (Hl [] ltac:(done)) as Hl0. rewrite app_nil_r in Hl0.
  destruct H4 as [-> |[rc ->]]; [intros [= <- <-]; split_and!;
    [exists k; split_and!; [done|lia|lia|by intros [|[]]]|by intros [|[]]|done]|].
  destruct (Z.eqb_spec rc OK) as [-> |Hrc]; cbn [negb].
  - specialize (H3 eq_refl). assert (Hd : forall P : Prop, P -> k = db_connections cfg) by auto.
    destruct (force_sleep cfg =? 1);
      [intros [= <- <-]; split_and!; [exists k; eauto|eexists; reflexivity|done]|].
    destruct (console_loop_end (console env)) as [-> |[-> | ->]]; intros [= <- <-].
    + split_and!; [exists k; split_and!; [exact (Hl [EClose] ltac:(done))|lia..|done]|eexists; reflexivity|].
      intros _. by eexists ([EInitQueue; EListener] ++ evs').
    + split_and!; [exists k; eauto|eexists; reflexivity|done].
    + split_and!; [exists k; eauto|eexists; reflexivity|done].
  - intros [= <- <-]. split_and!; [exists k; split_and!; [done|lia|lia|by intros [|[]]]|by intros [|[]]|done].
Qed.

Lemma map_to_replicate {A B} (b : B) (l : list A) :
  map (fun _ => b) l = replicate (List.length l) b.
Proof. induction l as [|a l IH]; [done|]. cbn. by rewrite IH. Qed.

(** The checks of [main]. *)
Definition accepted (cfg : client_cfg) : Prop :=
  dbms cfg <> -1 /\ 0 < zlen (sname cfg) <= SNAMELEN /\ db_connections cfg <> 0.

Definition pid_event (cfg : client_cfg) : client_event :=
  EPidFile (default [] (client_output_path cfg) ++ lit "/dbt2_client.pid").

Lemma client_main_accepted argc opts env cfg :
  parse_client_arguments argc opts = Some (inl cfg) -> accepted cfg ->
  client_main argc opts env =
    if listen_fd env <? 1 then ([pid_event cfg; EListen (port cfg)], Returned ERROR)
    else ([pid_event cfg; EListen (port cfg)] ++ (startup cfg env).1,
          match (startup cfg env).2 with
          | Returned rc => Returned (if rc =? OK then 0 else 4)
          | e => e
          end).
Proof.
  intros Hp (H1 & H2 & H3). unfold client_main. rewrite Hp.
  rewrite (proj2 (Z.eqb_neq _ _) H1), (proj2 (Z.ltb_ge _ _)) by lia.
  rewrite (proj2 (Z.eqb_neq _ _)) by lia. rewrite (proj2 (Z.eqb_neq _ _) H3).
  destruct (listen_fd env <? 1); [done|]. by destruct (startup cfg env) as [evs []].
Qed.

Lemma client_main_inv argc opts env evs e : client_main argc opts env = (evs, e) ->
  (evs = [] /\ (e = Crashed \/ e = Exited 1 \/ exists rc, e = Returned rc /\ rc <> 0))
  \/ exists cfg, parse_client_arguments argc opts = Some (inl cfg) /\ accepted cfg.
Proof.
  unfold client_main, accepted.
  destruct (parse_client_arguments argc opts) as [[cfg|[]]|]; [|intros [= <- <-]; left; eauto 6..].
  destruct (Z.eqb_spec (dbms cfg) (-1)); [intros [= <- <-]; left; eauto 6|].
  destruct (Z.ltb_spec SNAMELEN (zlen (sname cfg))); [intros [= <- <-]; left; eauto 6|].
  destruct (Z.eqb_spec (zlen (sname cfg)) 0); [intros [= <- <-]; left; eauto 6|].
  destruct (Z.eqb_spec (db_connections cfg) 0); [intros [= <- <-]; left; eauto 6|].
  intros _. right. exists cfg. split_and!; try done. unfold zlen in *. lia.
Qed.

(** Whatever the options and the answers of the system, the workers that the
    client creates are numbers 0, 1, ... in order, each with its own slot, counted
    one by one, and at most as many as connections were asked for.  A client that
    goes on running, or that the console ended, listens on its port and has set up
    the queue and the listener before the workers, and has created all of them:
    the initial state of [Client] with one worker per connection. *)
Theorem client_main_starts argc opts env evs e :
  client_main argc opts env = (evs, e) ->
  (exists k, 0 <= k /\ launched k evs)
  /\ (e = SleepsForever \/ e = AwaitsInput \/ (e = Returned 0 /\ 1 <= listen_fd env) ->
      exists cfg rest,
        parse_client_arguments argc opts = Some (inl cfg) /\ accepted cfg
        /\ evs = [pid_event cfg; EListen (port cfg); EInitQueue; EListener] ++ rest
        /\ 0 < db_connections cfg /\ launched (db_connections cfg) evs
        /\ Client.workers (initial (Z.to_nat (db_connections cfg)))
           = map (fun _ => WLoop) (workers_of evs)).
Proof.
  intros Hm. destruct (client_main_inv _ _ _ _ _ Hm) as [[-> He]|(cfg & Hp & Ha)].
  { split; [exists 0; split; [done|by apply launched_silent]|].
    intros [E|[E|[E _]]]; destruct He as [E'|[E'|(rc & E' & Hrc)]]; congruence. }
  rewrite (client_main_accepted _ _ _ _ Hp Ha) in Hm.
  destruct (Z.ltb_spec (listen_fd env) 1) as [Hl|Hl]; injection Hm as <- <-.
  { split; [exists 0; split; [done|by apply launched_silent]|]. intros [|[|[_ ?]]]; [done..|lia]. }
  destruct (startup cfg env) as [evs' e'] eqn:Hs. cbn [fst snd].
  destruct (startup_spec _ _ _ _ Hs) as ((k & H1 & H2 & H3) & H4 & _).
  pose proof (launched_around [pid_event cfg; EListen (port cfg)] evs' [] k ltac:(done) ltac:(done) H1) as H5.
  rewrite app_nil_r in H5. split; [exists k; split; [lia|exact H5]|]. intros He.
  assert (Hup : up e').
  { unfold up. destruct e' as [rc|st| | |]; destruct He as [He|[He|[He _]]]; try done; auto.
    left. destruct (Z.eqb_spec rc OK) as [-> |]; [done|]. by injection He. }
  destruct (H4 Hup) as [rest ->]. specialize (H3 Hup). subst k. exists cfg, rest.
  assert (Hpos : 0 < db_connections cfg) by (destruct Ha as (_ & _ & ?); lia).
  split_and!; try done. destruct H5 as [H5 _]. cbn [app] in *. rewrite H5. cbn [Client.workers initial].
  rewrite map_to_replicate, length_zrange. f_equal. lia.
Qed.

(** What the checks of the client let through: a negative number of
    connections reaches [memset] through the null pointer of a failed
    allocation, after the client has begun to listen; a DBMS without support in
    the build leaves a client whose workers end at once; and when the port cannot
    be listened on the exit status is 0, as after success. *)
Theorem client_unchecked_options argc opts env cfg :
  parse_client_arguments argc opts = Some (inl cfg) -> accepted cfg ->
  (db_connections cfg < 0 -> 1 <= listen_fd env -> queue_ok env = true -> listener_rc env = 0 ->
   sem_ok env = true ->
   client_main argc opts env
   = ([pid_event cfg; EListen (port cfg); EInitQueue; EListener], Crashed))
  /\ (forall supported rc, supported (dbms cfg) = false -> start_worker supported cfg rc = WorkerEnds)
  /\ (listen_fd env < 1 ->
      client_main argc opts env = ([pid_event cfg; EListen (port cfg)], Returned 0)).
Proof.
  intros Hp Ha. split_and!.
  - intros Hn Hl Hq Hr Hsem. rewrite (client_main_accepted _ _ _ _ Hp Ha), (proj2 (Z.ltb_ge _ _)) by lia.
    unfold startup, db_threadpool_init. rewrite Hq, Hr, Hsem. cbn.
    by rewrite (proj2 (Z.ltb_lt _ _)) by lia.
  - intros supported rc Hs. unfold start_worker, init_dbc. by rewrite Hs, andb_false_r.
  - intros Hl. by rewrite (client_main_accepted _ _ _ _ Hp Ha), (proj2 (Z.ltb_lt _ _)) by lia.
Qed.

(** ** A start with two connections, for the witnesses *)

Definition sample_opts (connections : bytes) : list (Z * bytes) :=
  [(chr "a", lit "pgsql"); (chr "d", lit "localhost"); (chr "c", connections); (chr "s", lit "1500")].

Definition sample_env : client_env :=
  mk_env 3 true 0 true true true (fun _ => true) (fun _ => 0) (fun i => if i =? 0 then [(0, 7)] else [])
    [Some (lit "status"); Some (lit "quit")].

Definition sample_client (connections : Z) : client_cfg :=
  mk_client 1 1500 connections DBMSLIBPQ [] 0 CLIENT_PORT 1024 (lit "localhost") (lit "5432")
    (Some (lit ".")).

Example sample_start :
  client_main 9 (sample_opts (lit "2")) sample_env
  = ([EPidFile (lit "./dbt2_client.pid"); EListen CLIENT_PORT; EInitQueue; EListener;
      EWorker 0; EPost; ENanosleep 1 500000000; ENanosleep 0 7;
      EWorker 1; EPost; ENanosleep 1 500000000; EClose], Returned 0).
Proof. vm_compute. reflexivity. Qed.

Lemma client_main_starts_witness :
  exists cfg rest,
    parse_client_arguments 9 (sample_opts (lit "2")) = Some (inl cfg)
    /\ (client_main 9 (sample_opts (lit "2")) sample_env).1
       = [pid_event cfg; EListen (port cfg); EInitQueue; EListener] ++ rest
    /\ launched (db_connections cfg) (client_main 9 (sample_opts (lit "2")) sample_env).1.
Proof.
  destruct (client_main_starts 9 (sample_opts (lit "2")) sample_env _ _ (surjective_pairing _)) as [_ H].
  destruct H as (cfg & rest & H1 & _ & H2 & _ & H3 & _).
  - right. right. split; [vm_compute; reflexivity|vm_compute; discriminate].
  - exists cfg, rest. split; [exact H1|]. split; [exact H2|exact H3].
Defined.

Lemma client_unchecked_options_witness :
  client_main 9 (sample_opts (lit "-2")) sample_env
  = ([pid_event (sample_client (-2)); EListen CLIENT_PORT; EInitQueue; EListener], Crashed).
Proof.
  destruct (client_unchecked_options 9 (sample_opts (lit "-2")) sample_env (sample_client (-2)))
    as [H _].
  - vm_compute. reflexivity.
  - split; [discriminate|]. split; [vm_compute; split; (reflexivity || discriminate)|discriminate].
  - apply H; (reflexivity || discriminate).
Defined.
