(* ===== verification/TransactionTest.v ===== *)
(** * The tool that runs one transaction ([src/transaction_test.c])

    Its command line, the input data it makes up, and the two ways it has the
    transaction executed: with a connection of its own, against the interface of
    [Db], or by sending it to a client over a socket.  Messages about the progress
    are left out; the text of [dump] is kept. *)

From Stdlib Require Import ZArith Lia SpecFloat String.
From stdpp Require Import base list.
From S2P Require Import Prelude Double Pcg Text Common TxnData InputData Wire Dump Db Socket Queue Client Driver DatagenMain ClientMain.

(** ** The command line *)











(** ** The input data *)




(** ** The transaction *)

Inductive test_end {W : Type} :=
| TestExit (code : Z) (calls : list call) (dumped : bytes) (w : W)
| TestUndefined.
Arguments test_end W : clear implicits.

Definition finish_test {W} (t : Z) (td : transaction_data_t) (calls : list call) (w : W) : test_end W :=
  match dump t td with
  | Some (_, text) => TestExit 0 calls text w
  | None => TestUndefined
  end.


Section direct.
Context {S : Type} `{DbOps S}.
(** [dbc.stop_time]: the structure is not initialised. *)
Context (built : Z -> bool) (stop_time : Z) (fuel : nat).


End direct.

(** Through a client: what [send] and [recv] answer on whatever descriptor
    [connect_to_client] returned, which is not looked at; [encode] and [decode] are
    the memory of a message. *)
Section remote.
Context (sizeof : Z) (encode : Z -> transaction_data_t -> bytes) (decode : bytes -> transaction_data_t).
Context (closed : bool) (sends : list Z) (stream : connection).

Definition run_remote {W} (w : W) (t : Z) (td : transaction_data_t) : option (test_end W) :=
  '(rc, _, _) ← send_transaction_data sizeof closed sends (encode t td);
  if negb (rc =? OK) then Some (TestExit 7 [] [] w)
  else
    '(rc, data, _) ← receive_transaction_data sizeof stream;
    if negb (rc =? OK) then Some (TestExit 8 [] [] w)
    else Some (finish_test t (decode data) [] w).
End remote.


(** ** Properties *)











Section accounts.
Context {S : Type} `{DbOps S} `{!DbLaws S}.



End accounts.

(** The tool over a client always reports that the transaction could not be
    sent: whatever the kernel answers, its status is 7 when the loop of [_send]
    ends, and so it is when the client got every byte of the message, as
    [send_transaction_data] answers the length and not OK. *)
Theorem transaction_test_remote_fails {W} sizeof encode decode closed sends stream (w : W) t td :
  5 < sizeof -> zlen (encode t td) = sizeof -> send_lawful sizeof sends ->
  (forall e, run_remote sizeof encode decode closed sends stream w t td = Some e -> e = TestExit 7 [] [] w) /\
  _send [sizeof] (encode t td) = Some (sizeof, encode t td, []) /\
  run_remote sizeof encode decode closed [sizeof] stream w t td = Some (TestExit 7 [] [] w).
Proof.
  intros Hsz Hlen Hl.
  assert (Hany : forall answers, send_lawful sizeof answers -> forall e,
    run_remote sizeof encode decode closed answers stream w t td = Some e -> e = TestExit 7 [] [] w).
  { intros answers Ha e. unfold run_remote, send_transaction_data, _send. rewrite Hlen.
    pose proof (send_loop_spec answers sizeof (encode t td)) as Hs. rewrite Hlen in Hs. specialize (Hs Ha).
    destruct (send_loop answers sizeof (encode t td)) as [[[r wire] rest]|]; [|done]. cbn [mbind option_bind].
    destruct Hs as [[-> _]|[-> _]].
    - rewrite (proj2 (Z.eqb_neq sizeof (-1))) by lia. rewrite Z.eqb_refl. cbn [negb].
      rewrite (proj2 (Z.eqb_neq sizeof OK)) by (unfold OK; lia). by intros [= <-].
    - destruct closed; by intros [= <-]. }
  assert (Hsend : _send [sizeof] (encode t td) = Some (sizeof, encode t td, [])).
  { unfold _send. rewrite Hlen. cbn [send_loop]. rewrite Hlen, (proj2 (Z.ltb_lt 0 sizeof)) by lia.
    rewrite (proj2 (Z.eqb_neq sizeof (-1))) by lia. unfold zlen in Hlen.
    rewrite drop_ge, take_ge by lia. cbn [send_loop]. change (zlen []) with 0. change (0 <? 0) with false. cbn [mbind option_bind]. by rewrite app_nil_r. }
  split; [by apply Hany|]. split; [done|].
  unfold run_remote, send_transaction_data. rewrite Hsend. cbn [mbind option_bind].
  rewrite (proj2 (Z.eqb_neq sizeof (-1))), Z.eqb_refl by lia. cbn [negb].
  by rewrite (proj2 (Z.eqb_neq sizeof OK)) by (unfold OK; lia).
Qed.

(** ** Witnesses *)

#[local] Existing Instance script_ops.
#[local] Existing Instance script_laws.






Lemma transaction_test_remote_fails_witness :
  run_remote 8 (fun _ _ => lit "messages") (fun _ => TD_integrity (mk_integrity 0)) false [8] (mk_connection [] []) () DELIVERY
    (TD_delivery (mk_delivery 1 2)) = Some (TestExit 7 [] [] ()).
Proof.
  apply (transaction_test_remote_fails 8 (fun _ _ => lit "messages") (fun _ => TD_integrity (mk_integrity 0))
           false [8] (mk_connection [] []) () DELIVERY (TD_delivery (mk_delivery 1 2))).
  - lia.
  - reflexivity.
  - cbn. right. lia.
Defined.
