(* ===== verification/DriverOptions.v ===== *)
(** * The command line of the other drivers ([src/driver_main.c] with DRIVER2 and
      DRIVER3, [driver2.c], [driver3.c], [client_common.c])

    driver3.c has flags for its database besides those of [Driver]; driver2.c and
    driver3.c check the integrity before they fork, and name their logs after
    their process.  The build of driver3.c has libpq, and MySQL if [mysql] says
    so. *)

From Stdlib Require Import ZArith Lia String.
From stdpp Require Import base list.
From S2P Require Import Prelude Double Text Common TxnData InputData Dump Queue Client Driver DriverRun ClientMain.

(** ** Database options of driver3.c *)

Record db_options := mk_db_options {
  o_dbms : Z; o_dname : bytes; o_sname : bytes; o_retry_delay : Z; o_postmaster_port : bytes;
  o_mysql_port : bytes; o_mysql_socket : bytes; o_user : bytes }.

Definition initial_options : db_options := mk_db_options (-1) [] [] 100 (lit "5432") [] [] DB_USER.

(** [snprintf] into an array of [n]. *)
Definition copied (n : Z) (s : bytes) : bytes := take (Z.to_nat (n - 1)) s.

(** [None]: [return ERROR]. *)
Definition parse_flag3 (mysql : bool) (flag value : bytes) (s : driver * db_options)
  : option (driver * db_options) :=
  let '(d, o) := s in
  let '(mk_db_options db dn sn rd pp mp ms us) := o in
  let is_flag := bytes_eqb flag in
  let set o := Some (d, o) in
  if is_flag (lit "a") then
    match parse_dbms value with
    | Some db => set (mk_db_options db dn sn rd pp mp ms us)
    | None => None
    end
  else if is_flag (lit "b") then set (mk_db_options db (copied 32 value) sn rd pp mp ms us)
  else if is_flag (lit "d") then set (mk_db_options db dn (copied (SNAMELEN + 1) value) rd pp mp ms us)
  else if is_flag (lit "P") then
    set (mk_db_options db dn sn rd (copied 32 value) (if mysql then copied 32 value else mp) ms us)
  else if mysql && is_flag (lit "S") then set (mk_db_options db dn sn rd pp mp (copied 256 value) us)
  else if mysql && is_flag (lit "u") then set (mk_db_options db dn sn rd pp mp ms (copied 128 value))
  else if is_flag (lit "retry-delay") then set (mk_db_options db dn sn (atoi value) pp mp ms us)
  else d ← parse_flag flag value d; Some (d, o).

Fixpoint parse_pairs3 (mysql : bool) (args : list bytes) (s : driver * db_options)
  : option (driver * db_options) :=
  match args with
  | [] => Some s
  | flag :: rest =>
      if zlen flag <? 2 then None
      else match rest with
           | [] => None
           | value :: rest => s ← parse_flag3 mysql (drop 1 flag) value s; parse_pairs3 mysql rest s
           end
  end.

Definition parse_arguments3 (mysql : bool) (argv : list bytes) (s : driver * db_options)
  : option (driver * db_options) :=
  if zlen argv <? 9 then None
  else
    '(d, o) ← parse_pairs3 mysql (drop 1 argv) s;
    Some (match outdir d with None => set_outdir (Some (lit ".")) d | Some _ => d end, o).

(** [main] up to the integrity check: both drivers start from globals of their
    own, and open no logs before they fork. *)
Definition initial_driver2 : driver := set_client_conn_sleep 100 initial_driver.

Definition prepare2 (argv : list bytes) : option driver :=
  d ← parse_arguments argv (init_driver initial_driver2); check_options d.

Definition prepare3 (mysql : bool) (argv : list bytes) : option (driver * db_options) :=
  '(d, o) ← parse_arguments3 mysql argv (init_driver initial_driver2, initial_options);
  d ← check_options d; Some (d, o).

(** [dbc.ts_retry] of a process *)
Definition retry_sec (o : db_options) : Z := Z.quot (o_retry_delay o) 1000.
Definition retry_nsec (o : db_options) : Z := Z.rem (o_retry_delay o) 1000 * 1000000.

(** ** The integrity check and the rest of [main] *)

(** The structure is cleared, so that a lost answer is the status 0, ERROR;
    without a client, ERROR too. *)
Definition integrity_terminal_worker2 (d : driver) (sockfd : Z)
    (answer : client_transaction_t -> client_transaction_t) : Z :=
  if sockfd <? 1 then ERROR
  else
    status (answer (mk_client_transaction 0 INTEGRITY
      (TD_integrity (generate_integrity_data (warehouses (cardinality d)))))).

(** The exit status if the drivers are not started: what [start_driver] returns is
    dropped, by every process. *)
Definition driver_main2 (prepared : option driver) (sockfd : Z)
    (answer : client_transaction_t -> client_transaction_t) : option Z :=
  match prepared with
  | None => Some 1
  | Some d =>
      if negb (perform_integrity_check d =? 0) && negb (integrity_terminal_worker2 d sockfd answer =? OK)
      then Some 1 else None
  end.

(** ** The logs of the transactions *)

Definition MIX_LOG_NAME : bytes := lit "mix.log".

Definition init_driver_logging (dir : bytes) (fopen : bytes -> bool) : Z * option bytes :=
  let name := log_name (dir ++ lit "/" ++ MIX_LOG_NAME) in
  if fopen name then (OK, Some name) else (ERROR, None).

Definition init_driver_logging2 (dir : bytes) (pid : Z) (fopen : bytes -> bool) : Z * option bytes :=
  let name := log_name (dir ++ lit "/mix-" ++ fmt_d pid ++ lit ".log") in
  if fopen name then (OK, Some name) else (ERROR, None).

(** ** Properties *)

(** A flag is for the database or for the driver, and driver3.c treats the flags
    that are not for the database like the other drivers. *)
Lemma parse_flag3_split mysql flag value d o d' o' :
  parse_flag3 mysql flag value (d, o) = Some (d', o') -> d' = d \/ o' = o /\ parse_flag flag value d = Some d'.
Proof.
  destruct o as [db dn sn rd pp mp ms us]. unfold parse_flag3.
  destruct (bytes_eqb flag (lit "a")); [destruct (parse_dbms value); [intros [= <- _]; auto|done]|].
  do 2 (destruct (bytes_eqb flag _); [intros [= <- _]; auto|]).
  destruct (bytes_eqb flag (lit "P")); [intros [= <- _]; auto|].
  do 2 (destruct (_ && _); [intros [= <- _]; auto|]).
  destruct (bytes_eqb flag (lit "retry-delay")); [intros [= <- _]; auto|].
  destruct (parse_flag flag value d) as [d1|] eqn:E; [|done]. intros [= <- <-]. auto.
Qed.

Lemma check_options_sound d d' : check_options d = Some d' ->
  w_id_min d' <= w_id_max d' <= warehouses (cardinality d') /\ w_id_min d' <> 0.
Proof.
  unfold check_options.
  set (d2 := if w_id_min d =? 0 then _ else d).
  assert (w_id_min d2 <> 0) as Hmin by (unfold d2; by destruct (Z.eqb_spec (w_id_min d) 0)). clearbody d2.
  set (d3 := if w_id_max d2 =? 0 then _ else d2).
  assert (w_id_min d3 = w_id_min d2) as Hm3 by (unfold d3; by destruct (w_id_max d2 =? 0)). clearbody d3.
  destruct (Z.gtb_spec (w_id_min d3) (w_id_max d3)); [done|].
  destruct (Z.gtb_spec (w_id_max d3) (warehouses (cardinality d3))); [done|].
  destruct (recalculate_mix (mix d3)); [|done]. cbn. intros [= <-]. cbn. rewrite <- Hm3 in Hmin. done.
Qed.

(** What [main] of driver3.c checks, whatever its flags for the database. *)
Lemma prepare3_sound mysql argv d o : prepare3 mysql argv = Some (d, o) ->
  w_id_min d <= w_id_max d <= warehouses (cardinality d) /\ w_id_min d <> 0 /\ 9 <= zlen argv.
Proof.
  unfold prepare3, parse_arguments3. destruct (Z.ltb_spec (zlen argv) 9); [done|].
  destruct (parse_pairs3 _ _ _) as [[d0 o0]|]; [|done]. cbn.
  destruct (check_options _) as [d1|] eqn:Hc; [|done]. cbn. intros [= <- _].
  apply check_options_sound in Hc. tauto.
Qed.
