(* ===== verification/DriverSafety.v ===== *)
(** * What the terminals do: properties of [src/driver.c]

    The transactions a terminal sends, the lines of mix.log, the counters of
    the terminal states, and termination. *)

From Stdlib Require Import ZArith Lia String SpecFloat Permutation.
From stdpp Require Import base list.
From S2P Require Import Prelude Double Pcg Text Common TxnData InputData Driver DriverRun.

(** ** One round *)

(** A driver whose command line passed the checks, with warehouses counted
    from 1 and machine-sized cardinalities. *)
Definition driver_ok (d : driver) : Prop :=
  1 <= w_id_min d <= w_id_max d /\ w_id_max d <= warehouses (cardinality d) /\
  warehouses (cardinality d) < 2 ^ 31 - 1 /\
  1 <= items (cardinality d) < 2 ^ 31 - 1 /\ 1 <= districts (cardinality d) < 2 ^ 31.

(** The place of a terminal started for [w_id] and [d_id]: fixed in normal
    mode, anywhere in the configured range in altered mode. *)
Definition place_ok (d : driver) (w_id d_id w dd : Z) : Prop :=
  if mode_altered d =? 1
  then w_id_min d <= w <= w_id_max d /\ 1 <= dd <= districts (cardinality d)
  else w = w_id /\ dd = d_id.

(** The client hands back a message about the transaction it was sent. *)
Definition echoes (e : round_env) : Prop :=
  forall data, transaction (answer e data) = transaction data.

Lemma choose_transaction_range m p : 0 <= choose_transaction m p < TRANSACTION_MAX.
Proof. unfold choose_transaction. by repeat case_match. Qed.

Lemma choose_transaction_known m p :
  choose_transaction m p <> STOCK_LEVEL -> known_type (choose_transaction m p).
Proof.
  unfold choose_transaction, known_type. rewrite list_elem_of_In.
  repeat case_match; cbn; tauto.
Qed.

Lemma terminal_input_type d t :
  returns (terminal_input d t) (fun i => 0 <= i.1.2 < TRANSACTION_MAX).
Proof.
  eapply returns_bind; [apply returns_true|]. intros [w dd] _.
  eapply returns_bind; [apply returns_true|]. intros p _.
  eapply returns_bind; [apply returns_true|]. intros [rc data] _.
  apply returns_ret, choose_transaction_range.
Qed.

Section round.
Context (d : driver) (Hd : driver_ok d) (w_id d_id : Z) (Hw : w_id_min d <= w_id <= w_id_max d).

Lemma choose_place_ok w dd : place_ok d w_id d_id w dd ->
  returns (choose_place d w dd) (fun '(w, dd) => place_ok d w_id d_id w dd).
Proof.
  unfold driver_ok, place_ok, choose_place in *. intros Hp.
  destruct (Z.eqb_spec (mode_altered d) 1); [|by apply returns_ret].
  eapply returns_bind; [apply get_random_below; lia|]. intros r1 H1.
  eapply returns_bind; [apply get_random_below; lia|]. intros r2 H2.
  apply returns_ret. cbn in *. rewrite !i32_small by lia. lia.
Qed.

Definition input_ok (i : Z * Z * Z * transaction_data_t) : Prop :=
  let '(w, dd, type, data) := i in
  place_ok d w_id d_id w dd /\ 0 <= type < TRANSACTION_MAX /\
  data_type data = type /\ data_ok (env d) w dd data.

Lemma terminal_input_ok t : place_ok d w_id d_id (tc_w_id t) (tc_d_id t) ->
  returns (terminal_input d t) input_ok.
Proof.
  intros Hp. unfold terminal_input.
  eapply returns_bind; [by apply choose_place_ok|]. intros [w dd] Hplace.
  eapply returns_bind; [apply returns_true|]. intros p _.
  pose proof (choose_transaction_range (mix d) p).
  assert (home_ok (env d) w /\ env_ok (env d)) as [Hhome Henv].
  { unfold home_ok, env_ok, place_ok, driver_ok in *. cbn.
    destruct (mode_altered d =? 1); intuition lia. }
  eapply returns_bind with (P := fun r => data_type r.2 = choose_transaction (mix d) p /\
    data_ok (env d) w dd r.2).
  - destruct (Z.eqb_spec (choose_transaction (mix d) p) STOCK_LEVEL) as [->|]; cbn [negb].
    + apply generate_input_data2_ok.
    + by apply generate_input_data_ok; [..|apply choose_transaction_known].
  - intros [rc data] [Ht Hok]. apply returns_ret. cbn in *. done.
Qed.
End round.

(** ** Traces *)

(** The actions of a round that is not cut short. *)
Definition round_actions (d : driver) (tid : Z) (e : round_env) (w dd type : Z)
    (sent : client_transaction_t) (letter code : Z) (thinking : list action) : list action :=
  let received := transaction (answer e sent) in
  [Sleep (time_of type (key_time d)); Send sent;
   LogMix (mix_line tid (logged e) letter code (difftimeval (rt1 e) (rt0 e)) w dd);
   Count EXECUTING received (-1); Count THINKING received 1]
  ++ thinking ++ [Count THINKING received (-1)].

Definition is_sleep (actions : list action) : Prop :=
  actions = [] \/ exists sec nsec, actions = [Nanosleep sec nsec].

Lemma get_index_Done {A} (arr : list A) i a : get_index arr i = Done a ->
  0 <= i /\ arr !! Z.to_nat i = Some a.
Proof.
  unfold get_index. destruct (Z.ltb_spec i 0); [done|].
  destruct (arr !! _); [|done]. intros [= ->]. done.
Qed.

Lemma transaction_short_name_index type : 0 <= type < TRANSACTION_MAX ->
  exists letter, get_index transaction_short_name type = Done letter /\ letter ∈ transaction_short_name.
Proof.
  unfold TRANSACTION_MAX. intros H.
  assert (Hc : type = 0 \/ type = 1 \/ type = 2 \/ type = 3 \/ type = 4) by lia.
  destruct Hc as [->|[->|[->|[->| ->]]]]; eexists; (split; [reflexivity|]);
    by apply (bool_decide_unpack _); vm_compute.
Qed.

Section traces.
Context (d : driver) (stop_time tid : Z) (log : double -> double).

Lemma think_is_sleep e mean g : is_sleep (think stop_time log e mean g).1.
Proof.
  unfold think. destruct (_ <? _); [|by left].
  rewrite bind_unfold. destruct (get_think_time _ _ _). right. by do 2 eexists.
Qed.

(** What a round does, read backwards from its result. *)
Lemma terminal_round_inv e t t' actions more :
  terminal_round d stop_time tid log e t = Done (t', actions, more) ->
  exists w dd type data g, terminal_input d t (rng t) = ((w, dd, type, data), g) /\
    tc_w_id t' = w /\ tc_d_id t' = dd /\
    ((actions = [] /\ more = false /\ stop_time <= before_keying e) \/
     exists letter thinking,
       let sent := mk_client_transaction (status (client_data t)) type data in
       get_index transaction_short_name (transaction (answer e sent)) = Done letter /\
       is_sleep thinking /\
       actions = round_actions d tid e w dd type sent letter
                   (next_code (status (answer e sent)) (code t)) thinking /\
       code t' = next_code (status (answer e sent)) (code t) /\
       more = (after_thinking e <? stop_time)).
Proof.
  unfold terminal_round.
  destruct (terminal_input d t (rng t)) as [[[[w dd] type] data] g] eqn:E.
  destruct (Z.ltb_spec (before_keying e) stop_time); cbn [negb]; intros H'.
  - set (sent := mk_client_transaction _ type data) in *.
    destruct (get_index _ _) as [letter| |] eqn:El; [|done..]. cbn in H'.
    pose proof (think_is_sleep e (time_of type (think_time d)) g) as Hs.
    destruct (think _ _ _ _ g) as [thinking g']. injection H' as <- <- <-.
    exists w, dd, type, data, g. do 3 (split; [done|]). right. by exists letter, thinking.
  - injection H' as <- <- <-. exists w, dd, type, data, g. split_and!; [done..|]. by left.
Qed.

(** The converse: with a client that echoes, no access is out of bounds. *)
Lemma terminal_round_done e t : echoes e ->
  exists t' actions more, terminal_round d stop_time tid log e t = Done (t', actions, more) /\
    (more = true -> before_keying e < stop_time /\ after_thinking e < stop_time).
Proof.
  intros He. unfold terminal_round.
  destruct (terminal_input d t (rng t)) as [[[[w dd] type] data] g] eqn:E.
  destruct (Z.ltb_spec (before_keying e) stop_time); cbn [negb]; [|by repeat eexists].
  set (sent := mk_client_transaction _ type data).
  pose proof (terminal_input_type d t (rng t)) as Ht. rewrite E in Ht. cbn in Ht.
  destruct (transaction_short_name_index type Ht) as (letter & El & _).
  rewrite (He sent). change (transaction sent) with type. rewrite El. cbn.
  destruct (think _ _ _ _ g) as [thinking g']. repeat eexists; [lia|].
  by apply Z.ltb_lt.
Qed.

(** A property of traces that every round has, the terminal's place given,
    holds of the whole loop. *)
Lemma terminal_loop_trace (J : terminal -> Prop) (P : list action -> Prop) es :
  (forall a b, P a -> P b -> P (a ++ b)) ->
  (forall e t t' actions more, e ∈ es -> J t ->
     terminal_round d stop_time tid log e t = Done (t', actions, more) -> J t' /\ P actions) ->
  forall t actions, J t -> terminal_loop d stop_time tid log es t = Done actions -> P actions.
Proof.
  intros Happ Hround. induction es as [|e es IH]; intros t actions Ht; [done|].
  cbn [terminal_loop].
  destruct (terminal_round d stop_time tid log e t) as [[[t' acts] more]| |] eqn:E; [|done..].
  cbn. apply Hround in E as [Ht' Hacts]; [|by left|done].
  destruct more; [|by intros [= <-]].
  destruct (terminal_loop _ _ _ _ es t') as [rest| |] eqn:El; [|done..].
  cbn. intros [= <-]. apply Happ; [done|]. eapply (IH ltac:(intros; eapply Hround; [by right|done..])); done.
Qed.
End traces.

(** ** Transactions sent *)

(** A message a client can execute, from a terminal of [w_id] and [d_id]. *)
Definition message_ok (d : driver) (w_id d_id : Z) (data : client_transaction_t) : Prop :=
  exists w dd, place_ok d w_id d_id w dd /\
    0 <= transaction data < TRANSACTION_MAX /\
    data_type (transaction_data data) = transaction data /\
    data_ok (env d) w dd (transaction_data data).

Definition sends_ok (d : driver) (w_id d_id : Z) (a : action) : Prop :=
  match a with Send data => message_ok d w_id d_id data | _ => True end.

Lemma place_ok_start d w_id d_id : w_id_min d <= w_id <= w_id_max d ->
  1 <= d_id <= districts (cardinality d) -> place_ok d w_id d_id w_id d_id.
Proof. unfold place_ok. by destruct (mode_altered d =? 1). Qed.

Lemma round_sends d stop_time tid log w_id d_id e t t' actions more :
  driver_ok d -> w_id_min d <= w_id <= w_id_max d ->
  place_ok d w_id d_id (tc_w_id t) (tc_d_id t) ->
  terminal_round d stop_time tid log e t = Done (t', actions, more) ->
  place_ok d w_id d_id (tc_w_id t') (tc_d_id t') /\ Forall (sends_ok d w_id d_id) actions.
Proof.
  intros Hd Hw Hp Hr.
  apply terminal_round_inv in Hr as (w & dd & type & data & g & E & <- & <- & Hr).
  pose proof (terminal_input_ok d Hd w_id d_id Hw t Hp (rng t)) as Hin. rewrite E in Hin.
  destruct Hin as (Hplace & Hty & Hdt & Hok).
  split; [done|]. destruct Hr as [(-> & _)|(letter & thinking & _ & Hs & -> & _)]; [done|].
  unfold round_actions. repeat constructor.
  - by do 2 eexists.
  - apply Forall_app. split; [|by repeat constructor].
    destruct Hs as [->|(s & n & ->)]; by repeat constructor.
Qed.

Lemma terminal_sends d stop_time tid log sockfd seed data w_id d_id es now actions :
  driver_ok d -> w_id_min d <= w_id <= w_id_max d ->
  1 <= d_id <= districts (cardinality d) ->
  terminal_worker d stop_time tid log sockfd seed data w_id d_id es now = Done actions ->
  Forall (sends_ok d w_id d_id) actions.
Proof.
  intros Hd Hw Hdd H. unfold terminal_worker in H.
  destruct (sockfd <? 1); [by injection H as <-|].
  destruct (terminal_loop _ _ _ _ _ _) as [acts| |] eqn:E; [|done..]. injection H as <-.
  apply Forall_app. split; [|by repeat constructor].
  eapply (terminal_loop_trace d stop_time tid log
    (fun t => place_ok d w_id d_id (tc_w_id t) (tc_d_id t))); [..|exact E].
  - intros. by apply Forall_app.
  - intros. by eapply round_sends.
  - by apply place_ok_start.
Qed.

(** Every message a terminal sends names one of the five transactions, its
    union holds the member of that transaction, and the data satisfies the
    ranges of its generator for a place the terminal may act for: its own
    warehouse and district, or any of the configured range in altered mode. *)
Theorem terminal_sends_valid d stop_time tid log sockfd seed data w_id d_id es now actions :
  driver_ok d -> w_id_min d <= w_id <= w_id_max d ->
  1 <= d_id <= districts (cardinality d) ->
  terminal_worker d stop_time tid log sockfd seed data w_id d_id es now = Done actions ->
  forall m, Send m ∈ actions -> message_ok d w_id d_id m.
Proof.
  intros Hd Hw Hdd H m Hm. apply terminal_sends in H; [|done..].
  rewrite Forall_forall in H. by apply (H (Send m)).
Qed.

(** *** A concrete run, for the witnesses *)

Definition sample_driver : driver := default initial_driver (prepare true sample_argv).

(** A stand-in for the natural logarithm below 1. *)
Definition sample_log (p : double) : double := dsub p (d_of_Z 1).

Definition sample_round (time : Z) (status : Z) : round_env :=
  mk_round time (mk_timeval time 250000)
    (fun m => mk_client_transaction status (transaction m) (transaction_data m))
    (mk_timeval time 750000) (time + 1) (time + 1) (time + 10).

(** Two transactions, then the time is up while thinking. *)
Definition sample_rounds : list round_env :=
  [sample_round 100 OK; sample_round 110 STATUS_ROLLBACK; sample_round 120 OK].

Definition uninitialised : client_transaction_t :=
  mk_client_transaction 77 99 (TD_integrity (mk_integrity 0)).

Definition actions_of : outcome (list action) -> list action := done_or [].

Definition sample_trace : list action :=
  actions_of
    (terminal_worker sample_driver 115 42 sample_log 5 7 uninitialised 3 4 sample_rounds 131).

Lemma sample_trace_run :
  terminal_worker sample_driver 115 42 sample_log 5 7 uninitialised 3 4 sample_rounds 131
  = Done sample_trace.
Proof. apply is_done_or. vm_compute. reflexivity. Qed.

Lemma sample_driver_ok : driver_ok sample_driver.
Proof. vm_compute. repeat split; discriminate. Qed.

Definition is_send (a : action) : bool := match a with Send _ => true | _ => false end.

Lemma terminal_sends_valid_witness :
  existsb is_send sample_trace = true /\
  forall m, Send m ∈ sample_trace -> message_ok sample_driver 3 4 m.
Proof.
  split; [vm_compute; reflexivity|].
  apply (terminal_sends_valid sample_driver 115 42 sample_log 5 7 uninitialised 3 4
           sample_rounds 131 sample_trace sample_driver_ok).
  - vm_compute. split; discriminate.
  - vm_compute. split; discriminate.
  - apply sample_trace_run.
Defined.

(** ** The lines of mix.log *)

(** Neither the separator of the fields nor the end of a line. *)
Definition atom (s : bytes) : Prop := Forall (fun c => c <> 44 /\ c <> NL) s.

Lemma atom_app s t : atom (s ++ t) <-> atom s /\ atom t.
Proof. apply Forall_app. Qed.

Lemma atom_digits s : Forall (fun c => is_digit c = true) s -> atom s.
Proof.
  intros H. eapply Forall_impl; [exact H|]. unfold is_digit, NL. cbn. lia.
Qed.

Lemma atom_fmt_d z : atom (fmt_d z).
Proof.
  unfold fmt_d. destruct (z <? 0); rewrite ?atom_app;
    [split; [by repeat constructor|]|]; apply atom_digits, dec_digits.
Qed.

Lemma atom_fmt_0d w z : 0 <= z -> atom (fmt_0d w z).
Proof. intros H. by apply atom_digits, fmt_0d_digits. Qed.

Lemma atom_fmt_f p f : 0 <= p -> atom (fmt_f p f).
Proof.
  intros Hp. unfold fmt_f. rewrite !atom_app. split_and!.
  - destruct (dsign f); by repeat constructor.
  - apply atom_digits, dec_digits.
  - destruct (p =? 0); [by constructor|]. rewrite atom_app. split; [by repeat constructor|].
    apply atom_fmt_0d. apply Z.mod_pos_bound, Z.pow_pos_nonneg; lia.
Qed.

(** A line of [n] fields separated by commas, terminated by a newline. *)
Definition csv_line (n : nat) (line : bytes) : Prop :=
  exists body, line = body ++ [NL] /\ Forall (fun c => c <> NL) body /\
    List.length (split_on 44 body) = n.

Lemma csv_line_join fields :
  fields <> [] -> Forall atom fields ->
  csv_line (List.length fields) (join 44 fields ++ [NL]).
Proof.
  intros Hne Hf. exists (join 44 fields). split; [done|]. split.
  - clear Hne. induction Hf as [|f fs Hf Hfs IH]; [done|].
    assert (Forall (fun c => c <> NL) f) by (eapply Forall_impl; [exact Hf|]; by intros c [_ ?]).
    destruct fs as [|f' fs]; [done|].
    change (join 44 (f :: f' :: fs)) with (f ++ 44 :: join 44 (f' :: fs)).
    apply Forall_app. split; [done|]. by constructor.
  - rewrite split_on_join; [done|done|]. eapply Forall_impl; [exact Hf|].
    intros f H. eapply Forall_impl; [exact H|]. by intros c [? _].
Qed.

(** Associate appends to the right, through conses. *)
Ltac app_right := repeat (progress cbn [app] || rewrite <- app_assoc || rewrite <- app_comm_cons).

Lemma mix_line_csv tid now letter code rt w dd :
  atom [letter] -> atom [code] -> csv_line 7 (mix_line tid now letter code rt w dd).
Proof.
  intros Hl Hc.
  replace (mix_line tid now letter code rt w dd) with
    (join 44 [fmt_d now; [letter]; [code]; fmt_f 6 rt; fmt_d tid; fmt_d w; fmt_d dd] ++ [NL]).
  - apply (csv_line_join [_; _; _; _; _; _; _]); [done|].
    rewrite !Forall_cons, Forall_nil. split_and!; try done; try apply atom_fmt_d.
    by apply atom_fmt_f.
  - unfold mix_line. cbn [join]. change (lit ",") with [44]. by app_right.
Qed.

Lemma named_line_csv now name pid :
  atom (lit name) ->
  csv_line 7 (fmt_d now ++ ([44] ++ lit name ++ [44; 44; 44]) ++ fmt_d pid ++ [44; 44] ++ [NL]).
Proof.
  intros Hname.
  replace (_ ++ _ ++ _ ++ _ ++ [NL])
    with (join 44 [fmt_d now; lit name; []; []; fmt_d pid; []; []] ++ [NL]).
  - apply (csv_line_join [_; _; _; _; _; _; _]); [done|].
    rewrite !Forall_cons, Forall_nil. split_and!; try done; try apply atom_fmt_d; constructor.
  - cbn [join]. by app_right.
Qed.

Lemma terminated_line_csv tid now : csv_line 7 (terminated_line tid now).
Proof. apply (named_line_csv now "TERMINATED"). vm_compute. repeat constructor; discriminate. Qed.

Lemma start_line_csv now pid : csv_line 7 (start_line now pid).
Proof. apply (named_line_csv now "START"). vm_compute. repeat constructor; discriminate. Qed.

Definition logs_ok (a : action) : Prop :=
  match a with LogMix line => csv_line 7 line | _ => True end.

Lemma next_code_atom rc c : atom [c] -> atom [next_code rc c].
Proof.
  unfold next_code. destruct (rc =? OK), (rc =? STATUS_ROLLBACK), (rc =? ERROR);
    [by repeat constructor..|done].
Qed.

Lemma short_names_atom letter i : transaction_short_name !! i = Some letter -> atom [letter].
Proof.
  intros H. assert (Hall : Forall (fun c => c <> 44 /\ c <> NL) transaction_short_name)
    by (vm_compute; repeat constructor; discriminate).
  rewrite Forall_lookup in Hall. apply Hall in H. by apply Forall_singleton.
Qed.

Lemma round_logs d stop_time tid log e t t' actions more :
  atom [code t] ->
  terminal_round d stop_time tid log e t = Done (t', actions, more) ->
  atom [code t'] /\ Forall logs_ok actions.
Proof.
  intros Hc Hr. pose proof Hr as Hr'.
  apply terminal_round_inv in Hr as (w & dd & type & data & g & E & <- & <- & Hr).
  destruct Hr as [(-> & -> & Hle)|(letter & thinking & Hl & Hs & -> & -> & _)].
  - split; [|done]. unfold terminal_round in Hr'. rewrite E in Hr'.
    destruct (Z.ltb_spec (before_keying e) stop_time); [lia|]. cbn in Hr'.
    by injection Hr' as <-.
  - split; [by apply next_code_atom|].
    apply get_index_Done in Hl as [_ Hl]. apply short_names_atom in Hl.
    unfold round_actions. repeat constructor.
    + by apply mix_line_csv, next_code_atom.
    + apply Forall_app. split; [|by repeat constructor].
      destruct Hs as [->|(s & n & ->)]; by repeat constructor.
Qed.

(** Every line a terminal writes to mix.log, its last one included, is one
    line of exactly seven comma-separated fields, as is the driver's START
    line: the reader of the log can split at commas. *)
Theorem mix_log_fields d stop_time tid log sockfd seed data w_id d_id es now actions :
  terminal_worker d stop_time tid log sockfd seed data w_id d_id es now = Done actions ->
  (forall line, LogMix line ∈ actions -> csv_line 7 line) /\
  forall pid, csv_line 7 (start_line now pid).
Proof.
  intros H. split; [|intros; apply start_line_csv]. intros line Hline.
  unfold terminal_worker in H.
  destruct (sockfd <? 1); [injection H as <-; by apply elem_of_nil in Hline|].
  destruct (terminal_loop _ _ _ _ _ _) as [acts| |] eqn:E; [|done..]. injection H as <-.
  apply elem_of_app in Hline as [Hline|Hline].
  - assert (Hall : Forall logs_ok acts).
    { eapply (terminal_loop_trace d stop_time tid log (fun t => atom [code t])); [..|exact E].
      - intros. by apply Forall_app.
      - intros. by eapply round_logs.
      - by repeat constructor. }
    rewrite Forall_forall in Hall. by apply (Hall (LogMix line)).
  - apply list_elem_of_singleton in Hline as [= ->]. apply terminated_line_csv.
Qed.

Definition log_lines (actions : list action) : list bytes :=
  flat_map (fun a => match a with LogMix line => [line] | _ => [] end) actions.

Lemma mix_log_fields_witness :
  log_lines sample_trace =
    map (fun s => lit s ++ [NL]) ["101,p,C,0.500000,42,3,4"; "111,n,R,0.500000,42,3,4";
                                  "131,TERMINATED,,,42,,"]%string /\
  (forall line, LogMix line ∈ sample_trace -> csv_line 7 line) /\
  forall pid, csv_line 7 (start_line 131 pid).
Proof.
  split; [vm_compute; reflexivity|].
  apply (mix_log_fields sample_driver 115 42 sample_log 5 7 uninitialised 3 4
           sample_rounds 131 sample_trace).
  apply sample_trace_run.
Defined.

(** ** The counters of the terminal states *)

Definition delta (state type : Z) (a : action) : Z :=
  match a with
  | Count s t x => if (s =? state) && (t =? type) then x else 0
  | _ => 0
  end.

Definition sent_type (type : Z) (a : action) : Z :=
  match a with Send m => if transaction m =? type then 1 else 0 | _ => 0 end.

Definition balanced (type : Z) (actions : list action) : Prop :=
  sumZ (delta THINKING type) actions = 0 /\
  sumZ (delta EXECUTING type) actions = - sumZ (sent_type type) actions.

Lemma balanced_app type a b : balanced type a -> balanced type b -> balanced type (a ++ b).
Proof. unfold balanced. rewrite !sumZ_app. lia. Qed.

Lemma balanced_concat type traces : Forall (balanced type) traces -> balanced type (concat traces).
Proof. induction 1; [done|]. by apply balanced_app. Qed.

Lemma round_balanced d stop_time tid log type e t t' actions more : echoes e ->
  terminal_round d stop_time tid log e t = Done (t', actions, more) -> balanced type actions.
Proof.
  intros He Hr.
  apply terminal_round_inv in Hr as (w & dd & ty & data & g & _ & _ & _ & Hr).
  destruct Hr as [(-> & _)|(letter & thinking & _ & Hs & -> & _)]; [done|].
  unfold round_actions, balanced. rewrite He. cbn [transaction].
  destruct Hs as [->|(s & n & ->)]; cbn; destruct (ty =? type); done.
Qed.

(** A trace of one terminal thread whose client echoes. *)
Definition terminal_trace (d : driver) (actions : list action) : Prop :=
  exists stop_time tid log sockfd seed data w_id d_id es now,
    Forall echoes es /\
    terminal_worker d stop_time tid log sockfd seed data w_id d_id es now = Done actions.

Lemma terminal_trace_balanced d type actions :
  terminal_trace d actions -> balanced type actions.
Proof.
  intros (stop_time & tid & log & sockfd & seed & data & w_id & d_id & es & now & He & H).
  unfold terminal_worker in H. destruct (sockfd <? 1); [by injection H as <-|].
  destruct (terminal_loop _ _ _ _ _ _) as [acts| |] eqn:E; [|done..]. injection H as <-.
  apply balanced_app; [|done].
  eapply (terminal_loop_trace d stop_time tid log (fun _ => True)); [..|exact E]; [..|done].
  - intros. by apply balanced_app.
  - intros e t t' acts' more Hin _ Hr. split; [done|]. rewrite Forall_forall in He.
    eapply round_balanced; [by apply He|exact Hr].
Qed.

(** The counters of the terminal states, under any interleaving of any
    number of terminal threads that ran to their end: every THINKING counter is
    back at its start, and every EXECUTING counter has gone down by the number
    of transactions of its type, since only the decrement is compiled in. *)
Theorem terminal_counters d traces all type :
  Forall (terminal_trace d) traces -> all ≡ₚ concat traces ->
  sumZ (delta THINKING type) all = 0 /\
  sumZ (delta EXECUTING type) all = - sumZ (sent_type type) all.
Proof.
  intros Ht ->. apply balanced_concat. eapply Forall_impl; [exact Ht|].
  intros acts. apply terminal_trace_balanced.
Qed.

Lemma sample_rounds_echo : Forall echoes sample_rounds.
Proof. by repeat constructor. Qed.

Lemma terminal_counters_witness :
  sumZ (delta EXECUTING PAYMENT) (sample_trace ++ sample_trace) = -2 /\
  sumZ (delta THINKING PAYMENT) (sample_trace ++ sample_trace) = 0.
Proof.
  destruct (terminal_counters sample_driver [sample_trace; sample_trace]
              (sample_trace ++ sample_trace) PAYMENT) as [H1 H2].
  - repeat constructor; do 10 eexists;
      (split; [apply sample_rounds_echo|apply sample_trace_run]).
  - change (sample_trace ++ sample_trace ≡ₚ sample_trace ++ (sample_trace ++ [])).
    rewrite (app_nil_r sample_trace). apply Permutation_refl.
  - split; [|exact H1]. rewrite H2. vm_compute. reflexivity.
Defined.

(** ** Termination *)

(** The clock reaches the end of the test at one of the two places where the
    loop looks at it. *)
Definition time_up (stop_time : Z) (e : round_env) : Prop :=
  stop_time <= before_keying e \/ stop_time <= after_thinking e.

Lemma terminal_loop_stops d stop_time tid log es t :
  Forall echoes es -> Exists (time_up stop_time) es ->
  exists actions, terminal_loop d stop_time tid log es t = Done actions.
Proof.
  intros He. revert t. induction He as [|e es He Hes IH]; intros t Hup.
  { by apply Exists_nil in Hup. }
  cbn [terminal_loop].
  destruct (terminal_round_done d stop_time tid log e t He) as (t' & acts & more & -> & Hm).
  cbn. destruct more; [|by eexists]. destruct (Hm eq_refl) as [H1 H2].
  apply Exists_cons in Hup as [[?|?]|Hup]; [lia..|].
  destruct (IH t' Hup) as [rest ->]. by eexists.
Qed.

(** A terminal whose client echoes ends: once the clock has reached the
    stop time at a place where the loop looks, the thread has finished without
    any access outside of an array, and its last action notes in mix.log that
    it terminated. *)
Theorem terminal_worker_terminates d stop_time tid log sockfd seed data w_id d_id es now :
  Forall echoes es -> Exists (time_up stop_time) es -> 1 <= sockfd ->
  exists actions, terminal_worker d stop_time tid log sockfd seed data w_id d_id es now =
    Done (actions ++ [LogMix (terminated_line tid now)]).
Proof.
  intros He Hup Hs. unfold terminal_worker. destruct (Z.ltb_spec sockfd 1); [lia|].
  destruct (terminal_loop_stops d stop_time tid log es
    (mk_terminal (pcg64f_srandom_r seed) data 32 w_id d_id) He Hup) as [actions ->].
  by exists actions.
Qed.

Lemma terminal_worker_terminates_witness :
  exists actions,
    terminal_worker sample_driver 115 42 sample_log 5 7 uninitialised 3 4 sample_rounds 131 =
    Done (actions ++ [LogMix (terminated_line 42 131)]).
Proof.
  apply terminal_worker_terminates; [apply sample_rounds_echo| |discriminate].
  right. left. right. vm_compute. discriminate.
Defined.
