(* ===== verification/DriverMix.v ===== *)
(** * The transaction mix ([recalculate_mix], and the choice in [terminal_worker])

    Which transaction a terminal picks, in the doubles of the program. *)

From Stdlib Require Import ZArith Lia String SpecFloat.
From stdpp Require Import base list.
From S2P Require Import Prelude Double Pcg Text Common TxnData Driver DriverRun.

(** The share of a type in the mix. *)
Definition share (m : transaction_mix_t) (type : Z) : double :=
  if type =? NEW_ORDER then new_order_actual m
  else if type =? PAYMENT then payment_actual m
  else if type =? ORDER_STATUS then order_status_actual m
  else if type =? DELIVERY then delivery_actual m
  else stock_level_actual m.

(** A value with a clear sign is not below zero. *)
Lemma dltb_zero_false p x : dsign p = false -> dnonzero x = false -> dltb p x = false.
Proof.
  intros Hp Hx. destruct x as [s|s| |s m e]; cbn in Hx; try done.
  - by destruct p as [s'|[]| |[] m e].
  - by destruct s.
  - by destruct s.
Qed.

Lemma new_order_threshold_share m m' : recalculate_mix m = Some m' ->
  new_order_threshold m' = new_order_actual m'.
Proof. unfold recalculate_mix. destruct (dltb _ _); [done|]. by intros [= <-]. Qed.

(** A transaction type whose share of the mix is zero is never picked,
    whatever the generator draws, Stock-Level excepted: it is what remains when
    no threshold is above the draw. *)
Theorem zero_share_not_chosen m m' g :
  recalculate_mix m = Some m' ->
  let type := choose_transaction m' (get_percentage g).1 in
  type <> STOCK_LEVEL -> dnonzero (share m' type) = true.
Proof.
  intros Hm. cbn zeta. pose proof (get_percentage_spec g) as [Hb _]. apply dbox_sign in Hb.
  apply new_order_threshold_share in Hm. revert Hb. generalize (get_percentage g).1. intros p Hp.
  unfold choose_transaction. destruct (dltb p (new_order_threshold m')) eqn:E1.
  { intros _. cbn. destruct (dnonzero (new_order_actual m')) eqn:E; [done|].
    rewrite Hm, (dltb_zero_false p _ Hp E) in E1. done. }
  destruct (dnonzero (payment_actual m')) eqn:E2, (dltb p (payment_threshold m'));
    cbn [andb]; try (intros _; exact E2);
  destruct (dnonzero (order_status_actual m')) eqn:E3, (dltb p (order_status_threshold m'));
    cbn [andb]; try (intros _; exact E3);
  destruct (dnonzero (delivery_actual m')) eqn:E4, (dltb p (delivery_threshold m'));
    cbn [andb]; try (intros _; exact E4); done.
Qed.

(** No deliveries. *)
Definition mix_without_delivery : transaction_mix_t :=
  let z := d_of_Z 0 in
  default zero_mix (recalculate_mix
    (mk_mix z z MIX_PAYMENT MIX_ORDER_STATUS MIX_STOCK_LEVEL z z z z z)).

Lemma mix_without_delivery_recalculated :
  recalculate_mix mix_without_delivery = Some mix_without_delivery.
Proof. vm_compute. reflexivity. Qed.

Lemma zero_share_not_chosen_witness :
  choose_transaction mix_without_delivery (get_percentage (pcg64f_srandom_r 7)).1
    <> STOCK_LEVEL /\
  dnonzero (share mix_without_delivery
    (choose_transaction mix_without_delivery (get_percentage (pcg64f_srandom_r 7)).1)) = true.
Proof.
  match goal with |- ?P /\ _ => assert (H : P) by (vm_compute; discriminate) end.
  split; [exact H|].
  apply (zero_share_not_chosen _ _ _ mix_without_delivery_recalculated H).
Defined.

(** ** The default mix *)

Definition default_mix : transaction_mix_t :=
  default zero_mix (recalculate_mix (mix (init_driver initial_driver))).

(** What 45, 43, 4, 4 and 4 percent ask for at [k] percent. *)
Definition intended (k : Z) : Z :=
  if k <? 45 then NEW_ORDER else if k <? 88 then PAYMENT else if k <? 92 then ORDER_STATUS
  else if k <? 96 then DELIVERY else STOCK_LEVEL.

(** The default mix: the shares are accepted, and at every percent the
    choice is the one the shares of 45, 43, 4, 4 and 4 percent ask for, although
    the thresholds are sums of rounded doubles. *)
Lemma default_mix_by_percent k :
  0 <= k <= 100 ->
  recalculate_mix (mix (init_driver initial_driver)) = Some default_mix /\
  choose_transaction default_mix (decimal k 2) = intended k.
Proof.
  intros Hk. split; [vm_compute; reflexivity|].
  assert (Hall : forallb (fun k => choose_transaction default_mix (decimal k 2) =? intended k)
                   (zrange 0 101) = true) by (vm_compute; reflexivity).
  rewrite forallb_forall in Hall. apply Z.eqb_eq, Hall.
  apply list_elem_of_In, elem_of_zrange. lia.
Qed.

(** A mix that leaves nothing to Stock-Level. *)
Definition mix_without_stock_level : transaction_mix_t :=
  let z := d_of_Z 0 in
  default zero_mix (recalculate_mix (mk_mix MIX_DELIVERY z MIX_PAYMENT MIX_ORDER_STATUS z z z z z z)).

(** An odd state, one step before the draw of 64 ones. *)
Definition all_ones_state : pcg_state_128 := mk_pcg 192479225804224652324160610263186363251.

(** The exception to the rule that a zero share is never picked: with all
    of the mix given to the other types, a draw of all ones makes
    [get_percentage] return 1.0, which is not below the last threshold, and the
    terminal runs a Stock-Level transaction. *)
Lemma stock_level_fallback :
  recalculate_mix mix_without_stock_level = Some mix_without_stock_level /\
  dnonzero (stock_level_actual mix_without_stock_level) = false /\
  (draw all_ones_state).1 = 2 ^ 64 - 1 /\
  (get_percentage all_ones_state).1 = d_of_Z 1 /\
  choose_transaction mix_without_stock_level (get_percentage all_ones_state).1 = STOCK_LEVEL.
Proof. vm_compute. repeat split. Qed.
