(* ===== verification/DriverThreads.v ===== *)
(** * Starting and joining the terminals ([start_driver] in [src/driver.c])

    Which terminals run, that the threads joined are the threads created, and
    that the table of thread ids is indexed within its bounds. *)

From Stdlib Require Import ZArith Lia String.
From stdpp Require Import base list.
From S2P Require Import Prelude Double Text Common Driver DriverRun.

Section specification.
Context (d : driver).

(** The warehouses the loops visit from [i] on. *)
Fixpoint ids (fuel : nat) (i : Z) : list Z :=
  match fuel with
  | O => []
  | S fuel => if i <? w_id_max d + 1 then i :: ids fuel (i + spread d) else []
  end.

Definition warehouse_ids : list Z := ids (Z.to_nat (w_id_max d - w_id_min d + 1)) (w_id_min d).

(** The terminals of districts [j], [j + 1], ..., all warehouses for each. *)
Definition terminals_from (ws js : list Z) : list (Z * Z) :=
  flat_map (fun j => map (fun i => (i, j)) ws) js.

Definition terminals : list (Z * Z) :=
  terminals_from warehouse_ids (zrange 0 (terminals_per_warehouse d)).

(** What the limit leaves of a list when [count - 1] terminals are there. *)
Definition capped {A} (count : Z) (l : list A) : list A :=
  if terminals_limit d =? 0 then l
  else take (Z.to_nat (terminals_limit d + 1 - count)) l.
End specification.

Section lists.
Context (d : driver).

Lemma capped_over {A} count (l : list A) : over_limit d count = true -> capped d count l = [].
Proof.
  unfold over_limit, capped. destruct (Z.eqb_spec (terminals_limit d) 0); [done|].
  destruct (Z.gtb_spec count (terminals_limit d)); [|done]. intros _.
  by replace (Z.to_nat _) with O by lia.
Qed.

Lemma capped_cons {A} count (x : A) l : over_limit d count = false ->
  capped d count (x :: l) = x :: capped d (count + 1) l.
Proof.
  unfold over_limit, capped. destruct (Z.eqb_spec (terminals_limit d) 0); [done|].
  destruct (Z.gtb_spec count (terminals_limit d)); [done|]. intros _.
  replace (Z.to_nat (terminals_limit d + 1 - count))
    with (S (Z.to_nat (terminals_limit d + 1 - (count + 1)))) by lia. done.
Qed.

Lemma capped_nil {A} count : capped d count (@nil A) = [].
Proof. unfold capped. destruct (_ =? _); [done|]. by rewrite take_nil. Qed.

Lemma capped_app {A} (l1 : list A) : forall count l2,
  capped d count (l1 ++ l2) =
  capped d count l1 ++ capped d (count + Z.of_nat (List.length (capped d count l1))) l2.
Proof.
  induction l1 as [|x l1 IH]; intros count l2.
  - rewrite capped_nil. cbn. by rewrite Z.add_0_r.
  - destruct (over_limit d count) eqn:E.
    + rewrite !(capped_over count) by done. cbn. by rewrite Z.add_0_r, (capped_over count).
    + cbn [app]. rewrite !capped_cons by done. cbn [app List.length]. rewrite IH.
      do 3 f_equal. lia.
Qed.

Lemma capped_sublist {A} count (l : list A) x : x ∈ capped d count l -> x ∈ l.
Proof.
  unfold capped. destruct (_ =? _); [done|]. intros H. by apply elem_of_take in H as (i & ? & _);
    eapply list_elem_of_lookup_2.
Qed.

Lemma capped_NoDup {A} count (l : list A) : NoDup l -> NoDup (capped d count l).
Proof.
  unfold capped. destruct (_ =? _); [done|]. intros H.
  eapply sublist_NoDup; [exact H|apply sublist_take].
Qed.

Context (Hspread : 1 <= spread d).

Lemma ids_fuel fuel fuel' i :
  w_id_max d + 1 - i <= Z.of_nat fuel -> w_id_max d + 1 - i <= Z.of_nat fuel' ->
  ids d fuel i = ids d fuel' i.
Proof.
  revert fuel' i. induction fuel as [|fuel IH]; intros fuel' i H H'; destruct fuel' as [|fuel'];
    cbn [ids]; try done; destruct (Z.ltb_spec i (w_id_max d + 1)); try done; try lia.
  f_equal. apply IH; lia.
Qed.

Lemma elem_of_ids fuel : forall i x, w_id_max d + 1 - i <= Z.of_nat fuel ->
  x ∈ ids d fuel i <-> exists k, 0 <= k /\ x = i + spread d * k /\ x <= w_id_max d.
Proof.
  induction fuel as [|fuel IH]; intros i x H; cbn [ids].
  - rewrite elem_of_nil. split; [done|]. intros (k & ? & -> & ?). nia.
  - destruct (Z.ltb_spec i (w_id_max d + 1)).
    + rewrite elem_of_cons, IH by lia. split.
      * intros [->|(k & ? & -> & ?)]; [exists 0; lia|exists (k + 1); lia].
      * intros (k & ? & -> & ?). destruct (Z.eq_dec k 0) as [->|]; [left; lia|].
        right. exists (k - 1). lia.
    + rewrite elem_of_nil. split; [done|]. intros (k & ? & -> & ?). nia.
Qed.

Lemma ids_NoDup fuel : forall i, w_id_max d + 1 - i <= Z.of_nat fuel -> NoDup (ids d fuel i).
Proof.
  induction fuel as [|fuel IH]; intros i H; cbn [ids]; [constructor|].
  destruct (Z.ltb_spec i (w_id_max d + 1)); [|constructor].
  constructor; [|apply IH; lia]. rewrite elem_of_ids by lia. intros (k & ? & ? & ?). nia.
Qed.
End lists.

(** ** The loops *)

Section scan.
Context {S : Type} (d : driver) (Hspread : 1 <= spread d).
Context (body : Z -> Z -> Z -> S -> outcome (S * bool)) (f : S -> Z * Z -> S).
Context (Inv : S -> Prop) (good : Z * Z -> Prop).

(** The body succeeds at the good places, in any state the loop can be in. *)
Context (Hbody : forall count i j s, good (i, j) -> Inv s ->
           body count i j s = Done (f s (i, j), true) /\ Inv (f s (i, j))).

Lemma scan_warehouses_spec fuel : forall i j count s,
  (List.length (ids d fuel i) < fuel)%nat -> Inv s ->
  let ps := capped d count (map (fun i => (i, j)) (ids d fuel i)) in
  Forall good ps ->
  scan_warehouses d body fuel i j count s =
    Done (count + Z.of_nat (List.length ps), foldl f s ps, true) /\ Inv (foldl f s ps).
Proof.
  induction fuel as [|fuel IH]; intros i j count s Hfuel Hs; cbn zeta; [lia|].
  cbn [ids scan_warehouses] in *. destruct (i <? w_id_max d + 1).
  - cbn [map]. destruct (over_limit d count) eqn:E.
    { rewrite capped_over by done. cbn. by rewrite Z.add_0_r. }
    rewrite capped_cons by done. intros Hg. apply Forall_cons in Hg as [Hg Hgs].
    destruct (Hbody count i j s Hg Hs) as [-> Hs']. cbn [List.length] in *.
    destruct (IH (i + spread d) j (count + 1) (f s (i, j))) as [IH1 IH2]; [lia|done|done|].
    cbn [mbind outcome_bind]. rewrite IH1. split; [|done].
    cbn [List.length foldl]. do 3 f_equal. lia.
  - cbn [map]. rewrite capped_nil. cbn. by rewrite Z.add_0_r.
Qed.

Lemma scan_terminals_spec fuel ws :
  ids d fuel (w_id_min d) = ws -> (List.length ws < fuel)%nat ->
  forall n j count s, Inv s ->
  let ps := capped d count (terminals_from ws (zrange j (j + Z.of_nat n))) in
  Forall good ps ->
  scan_terminals d body fuel n j count s = Done (foldl f s ps, true) /\ Inv (foldl f s ps).
Proof.
  intros <- Hfuel. induction n as [|n IH]; intros j count s Hs; cbn zeta.
  - rewrite zrange_nil by lia. cbn [terminals_from flat_map]. by rewrite capped_nil.
  - rewrite zrange_cons by lia. cbn [terminals_from flat_map]. rewrite capped_app.
    set (ps := capped d count (map _ _)).
    replace (j + Z.of_nat (Datatypes.S n)) with (j + 1 + Z.of_nat n) by lia.
    rewrite Forall_app. intros [Hg Hgs].
    destruct (scan_warehouses_spec fuel (w_id_min d) j count s Hfuel Hs Hg) as [H1 H2].
    fold ps in H1, H2. cbn [scan_terminals]. rewrite H1. cbn [mbind outcome_bind negb].
    rewrite foldl_app. destruct (over_limit d (count + Z.of_nat (List.length ps))) eqn:E.
    + by rewrite (capped_over d _ (flat_map _ _) E).
    + by apply (IH (j + 1)).
Qed.
End scan.

Section start.
Context (d : driver) (Hspread : 1 <= spread d) (Hmin : 0 <= w_id_min d <= w_id_max d).

(** Rows of [g_tid] the allocation loop fills when it starts at [count]: one
    more than the limit leaves. *)
Definition allocated (count : Z) (ws : list Z) : list Z :=
  if terminals_limit d =? 0 then ws
  else take (S (Z.to_nat (terminals_limit d + 1 - count))) ws.

Lemma allocate_spec fuel : forall i count s, 0 <= i ->
  (List.length (ids d fuel i) < fuel)%nat ->
  allocate d (fun _ => true) fuel i count s =
  Done (mk_threads (rows s ++ allocated count (ids d fuel i)) (started s) (joined s), true).
Proof.
  induction fuel as [|fuel IH]; intros i count s Hi Hfuel; [lia|].
  cbn [ids allocate] in *. destruct (Z.ltb_spec i (w_id_max d + 1)).
  - unfold slot_ok. destruct (Z.leb_spec 0 i), (Z.leb_spec i (w_id_max d)); try lia.
    cbn [andb negb List.length] in *. destruct (over_limit d count) eqn:E.
    + unfold over_limit, allocated in *. destruct (Z.eqb_spec (terminals_limit d) 0); [done|].
      destruct (Z.gtb_spec count (terminals_limit d)); [|done].
      by replace (Z.to_nat _) with O by lia.
    + rewrite IH by lia. cbn [rows started joined]. rewrite <- app_assoc. cbn [app].
      do 5 f_equal. unfold over_limit, allocated in *.
      destruct (Z.eqb_spec (terminals_limit d) 0); [done|].
      destruct (Z.gtb_spec count (terminals_limit d)); [done|].
      replace (Z.to_nat (terminals_limit d + 1 - count))
        with (S (Z.to_nat (terminals_limit d + 1 - (count + 1)))) by lia. done.
  - unfold allocated. destruct s. destruct (_ =? _); cbn; by rewrite app_nil_r.
Qed.

Lemma warehouse_ids_fuel fuel : w_id_max d - w_id_min d + 1 < Z.of_nat fuel ->
  ids d fuel (w_id_min d) = warehouse_ids d /\ (List.length (warehouse_ids d) < fuel)%nat.
Proof.
  intros H. split; [apply ids_fuel; lia|]. unfold warehouse_ids.
  assert (Hlen : forall n i, (List.length (ids d n i) <= n)%nat).
  { induction n as [|n IH]; intros i; cbn; [done|]. destruct (_ <? _); cbn; [|lia].
    specialize (IH (i + spread d)). lia. }
  specialize (Hlen (Z.to_nat (w_id_max d - w_id_min d + 1)) (w_id_min d)). lia.
Qed.

Lemma elem_of_terminals i j ws js :
  (i, j) ∈ terminals_from ws js <-> i ∈ ws /\ j ∈ js.
Proof.
  unfold terminals_from. rewrite list_elem_of_In, in_flat_map. split.
  - intros (j' & Hj & Hi). apply list_elem_of_In in Hj.
    apply list_elem_of_In, list_elem_of_fmap in Hi as (i' & [= -> ->] & Hi'). done.
  - intros [Hi Hj]. exists j. rewrite <- !list_elem_of_In. split; [done|].
    apply list_elem_of_fmap. by exists i.
Qed.

Lemma terminals_NoDup ws js : NoDup ws -> NoDup js -> NoDup (terminals_from ws js).
Proof.
  intros Hws. induction 1 as [|j js Hj Hjs IH]; cbn; [constructor|].
  apply NoDup_app. split; [|split; [|done]].
  - apply NoDup_fmap_2; [|done]. by intros ?? [= ->].
  - intros [i j'] Hi Hr. apply elem_of_terminals in Hr as [_ Hr].
    apply list_elem_of_fmap in Hi as (? & [= -> ->] & _). done.
Qed.

(** Every terminal the limit leaves has its row. *)
Lemma capped_allocated i j ws tpw :
  (i, j) ∈ capped d 1 (terminals_from ws (zrange 0 tpw)) -> i ∈ allocated 1 ws.
Proof.
  unfold capped, allocated. destruct (Z.eqb_spec (terminals_limit d) 0).
  { intros H. by apply elem_of_terminals in H as [H _]. }
  replace (terminals_limit d + 1 - 1) with (terminals_limit d) by lia.
  destruct (Nat.le_gt_cases (List.length ws) (Z.to_nat (terminals_limit d))) as [Hle|Hgt].
  - rewrite (take_ge ws) by lia. intros H.
    apply elem_of_take in H as (k & Hk & _). apply list_elem_of_lookup_2 in Hk.
    by apply elem_of_terminals in Hk as [Hk _].
  - destruct (Z.le_gt_cases tpw 0) as [Hz|Hz].
    + rewrite zrange_nil by done. cbn. by rewrite take_nil, elem_of_nil.
    + rewrite zrange_cons by done. cbn. rewrite take_app_le by (rewrite length_map; lia).
      rewrite <- fmap_take. intros H. apply list_elem_of_fmap in H as (i' & [= -> _] & H).
      apply elem_of_take in H as (k & Hk & Hlt). apply elem_of_take. exists k. split; [done|lia].
Qed.
End start.

(** ** Properties *)

Definition always (_ : Z) : bool := true.

Definition start_thread (s : threads) (p : Z * Z) : threads :=
  mk_threads (rows s) (started s ++ [p]) (joined s).
Definition join_started (s : threads) (p : Z * Z) : threads :=
  mk_threads (rows s) (started s) (joined s ++ [p]).

Lemma foldl_start ps s :
  foldl start_thread s ps = mk_threads (rows s) (started s ++ ps) (joined s).
Proof.
  revert s. induction ps as [|p ps IH]; intros s; cbn; [by destruct s; cbn; rewrite app_nil_r|].
  rewrite IH. cbn. by rewrite <- app_assoc.
Qed.

Lemma foldl_join ps s :
  foldl join_started s ps = mk_threads (rows s) (started s) (joined s ++ ps).
Proof.
  revert s. induction ps as [|p ps IH]; intros s; cbn; [by destruct s; cbn; rewrite app_nil_r|].
  rewrite IH. cbn. by rewrite <- app_assoc.
Qed.

Section run.
Context (d : driver) (Hsp : 1 <= spread d) (Hmin : 0 <= w_id_min d <= w_id_max d).
Context (fuel : nat) (Hfuel : w_id_max d - w_id_min d + 1 < Z.of_nat fuel).

(** The terminals that run. *)
Definition running : list (Z * Z) := capped d 1 (terminals d).

Lemma elem_of_warehouse_ids x : x ∈ warehouse_ids d <->
  exists k, 0 <= k /\ x = w_id_min d + spread d * k /\ x <= w_id_max d.
Proof. apply elem_of_ids; lia. Qed.

Lemma elem_of_all_terminals i j :
  (i, j) ∈ terminals d <-> i ∈ warehouse_ids d /\ 0 <= j < terminals_per_warehouse d.
Proof. unfold terminals. by rewrite elem_of_terminals, elem_of_zrange. Qed.

Lemma running_cell i j s : (i, j) ∈ running ->
  rows s = allocated d 1 (warehouse_ids d) -> cell_ok d s i j = true.
Proof.
  intros Hp Hr. unfold cell_ok, slot_ok. rewrite Hr.
  rewrite bool_decide_eq_true_2 by (by eapply capped_allocated).
  apply capped_sublist, elem_of_all_terminals in Hp as [Hi Hj].
  apply elem_of_warehouse_ids in Hi as (k & Hk & -> & Hle).
  assert (0 <= w_id_min d + spread d * k) by nia. lia.
Qed.

Lemma running_rounds :
  capped d 1 (terminals_from (warehouse_ids d)
    (zrange 0 (0 + Z.of_nat (Z.to_nat (terminals_per_warehouse d))))) = running.
Proof.
  unfold running, terminals. destruct (Z.le_gt_cases 0 (terminals_per_warehouse d)).
  - by replace (0 + _) with (terminals_per_warehouse d) by lia.
  - by rewrite !(zrange_nil 0) by lia.
Qed.

(** The two loops over the terminals, with a body that succeeds for them. *)
Lemma scan_running body f (Inv : threads -> Prop) s :
  (forall count i j s, (i, j) ∈ running -> Inv s ->
     body count i j s = Done (f s (i, j), true) /\ Inv (f s (i, j))) ->
  Inv s ->
  scan_terminals d body fuel (Z.to_nat (terminals_per_warehouse d)) 0 1 s
  = Done (foldl f s running, true).
Proof.
  intros Hbody Hs. edestruct warehouse_ids_fuel as [Hids Hlen]; [done..|].
  destruct (scan_terminals_spec d body f Inv (fun p => p ∈ running) Hbody fuel _ Hids Hlen
    (Z.to_nat (terminals_per_warehouse d)) 0 1 s Hs) as [H _];
    rewrite running_rounds in *; [by apply Forall_forall|done].
Qed.

Lemma create_running s : rows s = allocated d 1 (warehouse_ids d) ->
  scan_terminals d (create d always) fuel (Z.to_nat (terminals_per_warehouse d)) 0 1 s
  = Done (mk_threads (rows s) (started s ++ running) (joined s), true).
Proof.
  intros Hs. rewrite (scan_running _ start_thread
    (fun s => rows s = allocated d 1 (warehouse_ids d))); [by rewrite foldl_start| |done].
  intros count i j s' Hp Hr. unfold create. by rewrite running_cell.
Qed.

Lemma join_running s : rows s = allocated d 1 (warehouse_ids d) -> started s = running ->
  scan_terminals d (join_thread d always) fuel (Z.to_nat (terminals_per_warehouse d)) 0 1 s
  = Done (mk_threads (rows s) (started s) (joined s ++ running), true).
Proof.
  intros Hs Hst. rewrite (scan_running _ join_started
    (fun s => rows s = allocated d 1 (warehouse_ids d) /\ started s = running));
    [by rewrite foldl_join| |done].
  intros count i j s' Hp [Hr Hst']. unfold join_thread.
  rewrite running_cell, bool_decide_eq_true_2 by (rewrite ?Hst'; done). by split_and!.
Qed.

Lemma running_NoDup : NoDup running.
Proof.
  apply capped_NoDup, terminals_NoDup; [apply ids_NoDup; lia|apply NoDup_seqZ].
Qed.
End run.

(** When the system has the memory and the threads, [start_driver] returns
    [OK] after running exactly the terminals of the warehouses [w_id_min],
    [w_id_min + spread], ... up to [w_id_max], district by district, cut at the
    limit if there is one; it joins each of them once, in the order it started
    them, and never indexes the table of thread ids outside of its bounds. *)
Theorem start_driver_threads d fuel :
  1 <= spread d -> 0 <= w_id_min d <= w_id_max d ->
  w_id_max d - w_id_min d + 1 < Z.of_nat fuel ->
  exists s, start_driver d always always always fuel = Done (OK, s) /\
    started s = capped d 1 (terminals d) /\ joined s = started s /\ NoDup (started s) /\
    forall i j, (i, j) ∈ terminals d <->
      (exists k, 0 <= k /\ i = w_id_min d + spread d * k /\ i <= w_id_max d) /\
      0 <= j < terminals_per_warehouse d.
Proof.
  intros Hsp Hmin Hfuel. edestruct warehouse_ids_fuel as [Hids Hlen]; [exact Hsp|done..|].
  unfold start_driver. change (fun _ => true) with always.
  rewrite (allocate_spec d Hsp) by (rewrite ?Hids; lia).
  cbn [mbind outcome_bind negb app rows started joined]. rewrite Hids.
  rewrite create_running by done. cbn [mbind outcome_bind negb rows started joined app].
  rewrite join_running by done. eexists. split; [reflexivity|].
  do 2 (split; [done|]). split; [by apply running_NoDup|].
  intros i j. by rewrite elem_of_all_terminals, elem_of_warehouse_ids.
Qed.

(** Two warehouses out of three, two terminals each, at most three of them. *)
Definition limited_driver : driver :=
  default initial_driver (prepare true
    (map lit ["driver"; "-d"; "localhost"; "-w"; "3"; "-tpw"; "2"; "-spread"; "2"; "-L"; "3"]%string)).

Lemma start_driver_threads_witness :
  exists s, start_driver limited_driver always always always 9 = Done (OK, s) /\
    started s = [(1, 0); (3, 0); (1, 1)] /\ joined s = started s /\ NoDup (started s).
Proof.
  destruct (start_driver_threads limited_driver 9) as (s & H & Hst & Hj & Hnd & _);
    [vm_compute; try split; discriminate..|].
  exists s. split; [exact H|]. split; [|exact (conj Hj Hnd)]. rewrite Hst. vm_compute. reflexivity.
Defined.

Lemma allocate_stuck d i : spread d = 0 -> terminals_limit d = 0 -> 0 <= i <= w_id_max d ->
  forall fuel count s, allocate d always fuel i count s = Starved.
Proof.
  intros Hsp Hl Hi. induction fuel as [|fuel IH]; intros count s; [done|]. cbn [allocate].
  unfold slot_ok, over_limit. rewrite Hl, Hsp, Z.add_0_r.
  destruct (Z.ltb_spec i (w_id_max d + 1)), (Z.leb_spec 0 i), (Z.leb_spec i (w_id_max d)); try lia.
  apply IH.
Qed.

(** Two ranges that [main] does not check.  A negative first warehouse
    makes [start_driver] write in front of the table of thread ids; a spread of
    zero makes its allocation loop endless: no number of rounds is enough. *)
Theorem unchecked_driver_ranges :
  (exists d, prepare true (map lit ["driver"; "-d"; "localhost"; "-w"; "3"; "-wmin"; "-5";
                                    "-l"; "60"]%string) = Some d /\
     w_id_min d = -5 /\ forall fuel, start_driver d always always always (S fuel) = Fault) /\
  (exists d, prepare true (map lit ["driver"; "-d"; "localhost"; "-w"; "3"; "-spread"; "0";
                                    "-l"; "60"]%string) = Some d /\
     forall fuel, start_driver d always always always fuel = Starved).
Proof.
  split; eexists.
  - split; [vm_compute; reflexivity|]. split; [reflexivity|].
    intros fuel. vm_compute. reflexivity.
  - split; [vm_compute; reflexivity|]. intros fuel. unfold start_driver.
    rewrite allocate_stuck; [reflexivity|reflexivity|reflexivity|split; discriminate].
Qed.
