(* ===== verification/DriverFork.v ===== *)
(** * Drivers of several processes ([src/driver2.c], [src/driver3.c])

    [start_driver] of the two event-driven drivers: the warehouses are dealt
    out to processes that are forked one after the other, each pinned to a
    processor.  The number of processors, the results of [fork], of
    [sched_setaffinity] and of the connections to the client are parameters. *)

From Stdlib Require Import ZArith Lia String SpecFloat Permutation.
From stdpp Require Import base list.
From S2P Require Import Prelude Double Text Common TxnData Driver DriverRun.

(** [mymin] and [mymax] of process [l]. *)
Record part := mk_part { p_index : Z; p_min : Z; p_max : Z }.

Section fork.
Context (d : driver) (nprocs : Z).

Definition number_of_warehouses : Z := i32 (w_id_max d - w_id_min d + 1).

(** [max_fork], in driver2.c *)
Definition max_fork2 : Z :=
  let forks := i32 (nprocs * fork_per_processor d) in
  if forks >? number_of_warehouses then number_of_warehouses else forks.

(** ... and in driver3.c, where -L limits the processes, but only after the
    size of a part has been computed and the parent pinned. *)
Definition max_fork3 : Z :=
  if (terminals_limit d >? 0) && (terminals_limit d <? max_fork2)
  then terminals_limit d else max_fork2.

(** [divisor] is what [max_fork] is when the size of a part is computed,
    [max_fork] the number of processes. *)
Context (divisor max_fork : Z).

Definition partition_size : double := ddiv (d_of_Z number_of_warehouses) (d_of_Z divisor).

(** [w_id_min + (int) ((double) l * partition_size)] *)
Definition fork_bound (l : Z) : Z :=
  i32 (w_id_min d + i32 (d_to_Z (dmul (d_of_Z l) partition_size))).

Definition fork_part (l : Z) : part :=
  mk_part l (fork_bound l)
    (if negb (l =? max_fork - 1) then i32 (fork_bound (l + 1) - 1) else w_id_max d).

(** A process after the loop: its part, what [fork] returned to it, and the
    processors it is pinned to; or the value [start_driver] returned early. *)
Inductive process :=
| Runs (p : part) (rc : Z) (cpus : list Z)
| Fails (rc : Z).

(** What [fork] returns to the parent for process [l]; does [sched_setaffinity]
    accept the set? the time the parent sleeps before the next fork. *)
Context (fork : Z -> Z) (setaffinity : list Z -> bool) (gap : part -> Z * Z).

(** The processor of process [l], and of the parent. *)
Definition cpu_of (l : Z) : Z := Z.rem l nprocs.
Definition parent_cpus : list Z := [cpu_of (divisor - 1)].

(** The forked process; [set] is the parent's, with one processor added. *)
Definition child (l : Z) : process :=
  let cpus := parent_cpus ++ [cpu_of l] in
  if setaffinity cpus then Runs (fork_part l) 0 cpus else Fails 1.

(** [for (l = 0; l < max_fork; l++)], [n] rounds being left: the children, the
    parent's sleeps, and the parent. *)
Fixpoint fork_loop (n : nat) (l rc : Z) (p : part) : list process * list (Z * Z) * process :=
  match n with
  | O => ([], [], Runs (mk_part l (p_min p) (p_max p)) rc parent_cpus)
  | Datatypes.S n =>
      let p := fork_part l in
      if l =? max_fork - 1 then ([], [], Runs p rc parent_cpus)
      else
        let rc := fork l in
        if rc =? -1 then ([], [], Fails 1)
        else
          let '(children, sleeps, parent) := fork_loop n (l + 1) rc p in
          (child l :: children, gap p :: sleeps, parent)
  end.

Definition fork_processes : list process * list (Z * Z) * process :=
  if setaffinity parent_cpus then fork_loop (Z.to_nat max_fork) 0 0 (mk_part 0 0 0)
  else ([], [], Fails 1).
End fork.

(** driver2.c waits for the terminals of the process to connect; driver3.c for
    its one connection to the database. *)
Definition ms_timespec (ms : Z) : Z * Z := (Z.quot ms 1000, Z.rem ms 1000 * 1000000).
Definition gap2 (d : driver) (p : part) : Z * Z :=
  ms_timespec (client_conn_sleep d * (p_max p - p_min p + 1) * terminals_per_warehouse d).
Definition gap3 (d : driver) (_ : part) : Z * Z := ms_timespec (client_conn_sleep d).

(** [start_driver] up to the end of the loop that forks. *)
Definition start_driver2 (d : driver) (nprocs : Z) (fork : Z -> Z) (setaffinity : list Z -> bool)
  : list process * list (Z * Z) * process :=
  fork_processes d nprocs (max_fork2 d nprocs) (max_fork2 d nprocs) fork setaffinity (gap2 d).
Definition start_driver3 (d : driver) (nprocs : Z) (fork : Z -> Z) (setaffinity : list Z -> bool)
  : list process * list (Z * Z) * process :=
  fork_processes d nprocs (max_fork2 d nprocs) (max_fork3 d nprocs) fork setaffinity (gap3 d).

Definition start_time2 (d : driver) : Z :=
  i32 (d_to_Z (dmul (dmul (ddiv (d_of_Z (client_conn_sleep d)) (d_of_Z 1000))
                          (d_of_Z (terminals_per_warehouse d)))
                    (d_of_Z (number_of_warehouses d)))).
Definition start_time3 (d : driver) (max_fork : Z) : Z :=
  i32 (d_to_Z (dmul (ddiv (d_of_Z (client_conn_sleep d)) (d_of_Z 1000)) (d_of_Z (max_fork - 1)))).

(** [stop_time] *)
Definition event_stop_time (d : driver) (start_time now : Z) : Z :=
  i32 (now + duration d + start_time).

(** ** The bounds of the parts *)

(** A number divided by itself is one. *)
Lemma ddiv_same w : 0 < w < 2 ^ 53 ->
  ddiv (d_of_Z w) (d_of_Z w) = S754_finite false (2 ^ 52)%positive (-52).
Proof.
  intros Hw. destruct (d_of_Z_pos w Hw) as (m & e & -> & _ & _ & Hd).
  unfold ddiv, SFdiv, SFdiv_core_binary. cbn [Zdigits2 xorb]. rewrite Hd.
  rewrite !Z.sub_diag. change (Z.min (fexp 53 1024 0) 0) with (-53).
  change (0 - -53) with 53.
  pose proof (Z_div_mod (Z.shiftl (Zpos m) 53) (Zpos m) ltac:(lia)) as Hdm.
  destruct (Z.div_eucl (Z.shiftl (Zpos m) 53) (Zpos m)) as [q r].
  destruct Hdm as [HV Hr]. rewrite Z.shiftl_mul_pow2 in HV by lia.
  assert (q = 2 ^ 53) as -> by nia. assert (r = 0) as -> by nia.
  assert (new_location (Zpos m) 0 = loc_Exact) as ->.
  { unfold new_location, new_location_even, new_location_odd.
    by destruct (Z.even (Zpos m)). }
  vm_compute. reflexivity.
Qed.

Section bounds.
Context (n forks : Z) (Hn : 0 < n < 2 ^ 31) (Hforks : 0 < forks < 2 ^ 20) (Hle : forks <= n).

Let size := ddiv (d_of_Z n) (d_of_Z forks).
Let Q := dmag size.

(** The product before the conversion, and after it. *)
Let product (k : Z) : double := dmul (d_of_Z k) size.

Definition part_bound (k : Z) : Z := d_to_Z (dmul (d_of_Z k) (ddiv (d_of_Z n) (d_of_Z forks))).

Lemma size_near : dbox 110 size /\ near (Q * forks) (n * 2 ^ 1074).
Proof. apply ddiv_spec; lia. Qed.

Lemma product_near k : 0 <= k < 2 ^ 21 ->
  dbox 164 (product k) /\ near (dmag (product k)) (k * Q).
Proof.
  intros Hk. destruct (dmul_spec 53 110 (d_of_Z k) size) as [Hb' Hn'];
    [apply d_of_Z_box; lia|apply size_near|lia..|].
  split; [exact Hb'|]. rewrite d_of_Z_mag in Hn' by lia.
  apply (near_scale _ _ (2 ^ 1074)); [apply Z.pow_pos_nonneg; lia|].
  fold Q in Hn'. replace (k * Q * 2 ^ 1074) with (k * 2 ^ 1074 * Q) by ring. exact Hn'.
Qed.

Lemma part_bound_div k : 0 <= k < 2 ^ 21 -> part_bound k = dmag (product k) / 2 ^ 1074.
Proof. intros Hk. eapply d_to_Z_spec. apply product_near, Hk. Qed.

Lemma part_bound_zero : part_bound 0 = 0.
Proof.
  rewrite part_bound_div by lia. destruct (product_near 0) as [_ H]; [lia|].
  unfold near in H. rewrite Z.mul_0_l in H.
  assert (dmag (product 0) = 0) as -> by (pose proof (dmag_nonneg (product 0)); lia).
  apply Z.div_0_l. apply Z.pow_nonzero; lia.
Qed.

(** The bounds go up by at least one. *)
Lemma part_bound_next_wide k : forks < n -> 0 <= k < forks -> part_bound k + 1 <= part_bound (k + 1).
Proof.
  intros Hlt Hk. rewrite !part_bound_div by lia.
  destruct (product_near k) as [_ H0]; [lia|]. destruct (product_near (k + 1)) as [_ H1]; [lia|].
  destruct size_near as [_ Hs]. unfold near in *.
  assert (Hu : 0 < 2 ^ 1074) by (apply Z.pow_pos_nonneg; lia).
  pose proof (dmag_nonneg (product k)) as Hp. pose proof (dmag_nonneg size) as HQ. fold Q in HQ.
  generalize dependent (dmag (product k)). generalize dependent (dmag (product (k + 1))).
  revert HQ Hs Hu. generalize Q. generalize (2 ^ 1074). clear Q size product.
  intros u q HQ Hs Hu v1 H1 v0 H0 Hp.
  rewrite <- Z.div_add by lia. apply Z.div_le_mono; [lia|]. rewrite Z.mul_1_l.
  assert (Hq : u * (2 ^ 20 + 1) * (2 ^ 53 - 1) <= q * 2 ^ 20 * 2 ^ 53).
  { assert (n * u * (2 ^ 53 - 1) <= q * forks * 2 ^ 53) by lia.
    assert (forks * (u * (2 ^ 20 + 1) * (2 ^ 53 - 1)) <= forks * (q * 2 ^ 20 * 2 ^ 53)); [|nia].
    assert (forks * (2 ^ 20 + 1) <= n * 2 ^ 20) by nia.
    assert (forks * (2 ^ 20 + 1) * (u * (2 ^ 53 - 1)) <= n * 2 ^ 20 * (u * (2 ^ 53 - 1)))
      by (apply Z.mul_le_mono_nonneg_r; [nia|done]). lia. }
  assert (v0 * 2 ^ 53 <= k * q * (2 ^ 53 + 1)) by lia.
  assert ((k + 1) * q * (2 ^ 53 - 1) <= v1 * 2 ^ 53) by lia.
  assert (q * (2 * k + 1) <= q * 2 ^ 21) by nia. lia.
Qed.

Lemma part_bound_whole k : forks = n -> 0 <= k <= forks -> part_bound k = k.
Proof.
  intros He Hk. unfold part_bound. rewrite He, ddiv_same by lia.
  destruct (dmul_scale k (S754_finite false (2 ^ 52) (-52))) as [Hm Hb];
    [lia|exists (-52); split; [done|lia]|].
  rewrite (d_to_Z_spec 600) by exact Hb.
  assert (Hu : 0 < 2 ^ 1074) by (apply Z.pow_pos_nonneg; lia).
  assert (Hone : dmag (S754_finite false (2 ^ 52) (-52)) = 2 ^ 1074) by (vm_compute; reflexivity).
  rewrite Hone in Hm. generalize dependent (2 ^ 1074). intros u Hm Hu Hb'.
  apply Z.mul_reg_r in Hm; [|lia]. rewrite Hm. apply Z.div_mul. lia.
Qed.

Lemma part_bound_next k : 0 <= k < forks -> part_bound k + 1 <= part_bound (k + 1).
Proof.
  intros Hk. destruct (Z.eq_dec forks n) as [He|].
  - rewrite !part_bound_whole by lia. lia.
  - apply part_bound_next_wide; lia.
Qed.

Lemma part_bound_add k m : 0 <= k -> k + Z.of_nat m <= forks ->
  part_bound k + Z.of_nat m <= part_bound (k + Z.of_nat m).
Proof.
  intros Hk. induction m as [|m IH]; intros Hm; [by rewrite !Z.add_0_r|].
  pose proof (part_bound_next (k + Z.of_nat m) ltac:(lia)).
  replace (k + Z.of_nat (S m)) with (k + Z.of_nat m + 1) by lia.
  specialize (IH ltac:(lia)). lia.
Qed.

(** The last bound is below the number of warehouses or at it. *)
Lemma part_bound_last : part_bound forks <= n.
Proof.
  destruct (Z.eq_dec forks n) as [He|Hlt]; [rewrite part_bound_whole; lia|].
  rewrite part_bound_div by lia. destruct (product_near forks) as [_ H]; [lia|].
  destruct size_near as [_ Hs]. unfold near in *.
  assert (Hu : 0 < 2 ^ 1074) by (apply Z.pow_pos_nonneg; lia).
  generalize dependent (dmag (product forks)). revert Hs Hu. generalize Q.
  generalize (2 ^ 1074). clear Q size product. intros u q Hs Hu v H.
  assert (v / u < n + 1); [|lia]. apply Z.div_lt_upper_bound; [done|].
  nia.
Qed.
End bounds.
