(* ===== verification/DriverEvents.v ===== *)
(** * Event-driven terminals ([src/driver2.c], [src/driver3.c])

    A process of these drivers emulates its terminals from one loop of libev:
    every terminal has watchers that are active or not, and a callback per
    watcher.  libev decides which active watcher fires next, so a run is given
    by the sequence of the occasions on which one does, each with what its
    callback then reads: the clock, and the client's answer.  In driver2.c the
    transaction goes to the client; driver3.c executes it itself. *)

From Stdlib Require Import ZArith Lia String SpecFloat.
From stdpp Require Import base list.
From S2P Require Import Prelude Double Pcg Text Common TxnData InputData Driver DriverRun DriverFork Db.

(** [struct rte_events]: an active timer holds the seconds until it expires. *)
Record rte_events := mk_rte {
  e_kt : option double; e_tt : option double; e_recvtxn : bool;
  e_socketfd : Z; e_w_id : Z; e_d_id : Z; e_rt0 : timeval; e_rt1 : timeval;
  e_mean_think_time : Z; e_client_data : client_transaction_t }.

(** What terminal [k] does, and the lines of mix.log.  An execution: the
    structure as it was handed to [process_transaction], as it is afterwards, and
    the calls of the database. *)
Inductive event :=
| EvSend (k : nat) (fd : Z) (data : client_transaction_t)
| EvReceive (k : nat) (fd : Z) (data : client_transaction_t)
| EvExecute (k : nat) (request data : client_transaction_t) (calls : list Db.call)
| EvLog (line : bytes)
| EvClose (k : nat) (fd : Z).

(** [rng] and [rte]. *)
Record proc := mk_proc { pr_rng : pcg_state_128; pr_rte : list rte_events }.

(** A watcher fires: the timer of the thinking time, that of the keying time,
    or the socket.  [None]: [gettimeofday] fails. *)
Inductive occasion :=
| Thought
| Keyed (now : option timeval)
| Answered (answer : client_transaction_t -> client_transaction_t) (now : option timeval) (sec : Z).

Section terminals.
Context (d : driver) (stop_time pid : Z) (log : double -> double).

(** ** The callbacks *)

(** [thinking_time_cb]: the next transaction, and the keying timer. *)
Definition thinking_time_cb (r : rte_events) : rngM rte_events := fun g =>
  let '((w_id, d_id, type, data), g) :=
    terminal_input d (mk_terminal g (e_client_data r) 0 (e_w_id r) (e_d_id r)) g in
  (mk_rte (Some (d_of_Z (time_of type (key_time d)))) None (e_recvtxn r) (e_socketfd r)
     w_id d_id (e_rt0 r) (e_rt1 r) (time_of type (think_time d))
     (mk_client_transaction (status (e_client_data r)) type data), g).

(** [keying_time_cb] of driver2.c up to [send_transaction_data], whose result
    is dropped. *)
Definition keying_time_cb2 (now : option timeval) (k : nat) (r : rte_events)
  : rte_events * list event :=
  (mk_rte None (e_tt r) true (e_socketfd r) (e_w_id r) (e_d_id r) (default (e_rt0 r) now)
     (e_rt1 r) (e_mean_think_time r) (e_client_data r),
   [EvSend k (e_socketfd r) (e_client_data r)]).

(** The answer [data] is in [client_data]: its line in mix.log. *)
Definition log_line (now : option timeval) (sec : Z) (data : client_transaction_t)
    (r : rte_events) : outcome (rte_events * list event) :=
  let rt1 := default (e_rt1 r) now in
  letter ← get_index transaction_short_name (transaction data);
  Done (mk_rte (e_kt r) (e_tt r) (e_recvtxn r) (e_socketfd r) (e_w_id r) (e_d_id r)
          (e_rt0 r) rt1 (e_mean_think_time r) data,
        [EvLog (mix_line pid sec letter (next_code (status data) 88)
                  (difftimeval rt1 (e_rt0 r)) (e_w_id r) (e_d_id r))]).

(** [stop_time == 0 || tt < stop_time] *)
Definition goes_on (sec : Z) : bool := (stop_time =? 0) || (sec <? stop_time).

(** Start the timer of the thinking time; the socket's watcher is stopped. *)
Definition start_thinking (r : rte_events) : rngM rte_events :=
  ms ← get_think_time log (e_mean_think_time r);
  mret (mk_rte (e_kt r) (Some (ddiv (d_of_Z ms) (d_of_Z 1000))) false (e_socketfd r)
          (e_w_id r) (e_d_id r) (e_rt0 r) (e_rt1 r) (e_mean_think_time r) (e_client_data r)).

Definition stop_receiving (r : rte_events) : rte_events :=
  mk_rte (e_kt r) (e_tt r) false (e_socketfd r) (e_w_id r) (e_d_id r) (e_rt0 r) (e_rt1 r)
    (e_mean_think_time r) (e_client_data r).

(** [transaction_receive_cb] of driver2.c; what [receive_transaction_data]
    returns is dropped, [answer] is what it leaves in [client_data]. *)
Definition transaction_receive_cb (answer : client_transaction_t -> client_transaction_t)
    (now : option timeval) (sec : Z) (k : nat) (r : rte_events) (g : pcg_state_128)
  : outcome (rte_events * pcg_state_128 * list event) :=
  let data := answer (e_client_data r) in
  '(r, line) ← log_line now sec data r;
  let evs := EvReceive k (e_socketfd r) data :: line in
  if goes_on sec then
    let '(r, g) := start_thinking r g in Done (r, g, evs)
  else Done (stop_receiving r, g, evs ++ [EvClose k (e_socketfd r)]).

(** ** The loop *)

(** Terminal [k] on an occasion; an occasion no active watcher answers to is
    not one of a run. *)
Definition fire (o : occasion) (k : nat) (s : proc) : outcome (proc * list event) :=
  match pr_rte s !! k with
  | None => Starved
  | Some r =>
      match o with
      | Thought =>
          match e_tt r with
          | None => Starved
          | Some _ =>
              let '(r', g) := thinking_time_cb r (pr_rng s) in
              Done (mk_proc g (<[k := r']> (pr_rte s)), [])
          end
      | Keyed now =>
          match e_kt r with
          | None => Starved
          | Some _ =>
              let '(r', evs) := keying_time_cb2 now k r in
              Done (mk_proc (pr_rng s) (<[k := r']> (pr_rte s)), evs)
          end
      | Answered answer now sec =>
          if e_recvtxn r then
            '(r', g, evs) ← transaction_receive_cb answer now sec k r (pr_rng s);
            Done (mk_proc g (<[k := r']> (pr_rte s)), evs)
          else Starved
      end
  end.

Fixpoint ev_run (os : list (nat * occasion)) (s : proc) : outcome (proc * list event) :=
  match os with
  | [] => Done (s, [])
  | (k, o) :: os =>
      '(s, evs) ← fire o k s;
      '(s, rest) ← ev_run os s;
      Done (s, evs ++ rest)
  end.

(** [ev_run] returns when no watcher is active. *)
Definition quiet (r : rte_events) : bool :=
  match e_kt r, e_tt r with None, None => negb (e_recvtxn r) | _, _ => false end.
Definition idle (s : proc) : bool := forallb quiet (pr_rte s).

(** ** The terminals of a process *)

(** The loops run over the warehouses of the part and know no limit. *)
Definition part_driver (p : part) : driver :=
  set_w_id_min (p_min p) (set_w_id_max (p_max p) (set_terminals_limit 0 d)).

(** The elements of [rte]. *)
Definition capacity (p : part) : Z := (p_max p - p_min p + 1) * terminals_per_warehouse d.

(** The round for warehouse [i] and district [j + 1]; [k] is [count - 1]. *)
Definition open_terminal (cap : Z) (make : Z -> Z -> Z -> option rte_events)
    (count i j : Z) (rte : list rte_events) : outcome (list rte_events * bool) :=
  let k := count - 1 in
  if negb ((0 <=? k) && (k <? cap)) then Fault
  else match make k i j with
       | None => Done (rte, false)
       | Some r => Done (rte ++ [r], true)
       end.

Definition open_terminals (p : part) (cap : Z) (make : Z -> Z -> Z -> option rte_events)
    (fuel : nat) : outcome (list rte_events * bool) :=
  scan_terminals (part_driver p) (open_terminal cap make) fuel
    (Z.to_nat (terminals_per_warehouse d)) 0 1 [].

(** A terminal after [memset] and [ev_timer_start]; [zeroed] is the union of
    zero bytes. *)
Definition new_rte (zeroed : transaction_data_t) (fd i j : Z) : rte_events :=
  mk_rte None (Some (d_of_Z 0)) false fd i (j + 1) (mk_timeval 0 0) (mk_timeval 0 0) 0
    (mk_client_transaction 0 0 zeroed).

(** driver2.c: connection number [k]. *)
Definition connect_rte (zeroed : transaction_data_t) (connect_to_client : Z -> Z) (k i j : Z)
  : option rte_events :=
  let fd := connect_to_client k in
  if fd <? 1 then None else Some (new_rte zeroed fd i j).

(** What a process of driver2.c does with its part: the value [start_driver]
    returns, and the events.  Without memory the first terminal is written
    through a null pointer. *)
Definition process_main2 (p : part) (logging_ok mix_ok malloc_ok : bool) (seed : Z)
    (zeroed : transaction_data_t) (connect_to_client : Z -> Z) (started ended : Z)
    (os : list (nat * occasion)) (fuel : nat) : outcome (Z * list event) :=
  if negb logging_ok then Done (1, [])
  else if negb mix_ok then Done (1, [])
  else
    '(rte, ok) ← open_terminals p (if malloc_ok then capacity p else 0)
                   (connect_rte zeroed connect_to_client) fuel;
    if negb ok then Done (ERROR, [])
    else
      '(s, evs) ← ev_run os (mk_proc (pcg64f_srandom_r seed) rte);
      if idle s
      then Done (OK, EvLog (start_line started pid) :: evs ++ [EvLog (terminated_line pid ended)])
      else Starved.
End terminals.

(** ** driver3.c *)

(** The keying timer of driver3.c: the clock before and after the transaction,
    and [time(NULL)]. *)
Inductive occasion3 :=
| Thought3
| Keyed3 (before after : option timeval) (sec : Z).

Section embedded.
Context (d : driver) (stop_time pid : Z) (log : double -> double).
Context {S : Type} `{DbOps S} (dbfuel : nat).

(** [thinking_time_cb], which driver3.c has in the same words. *)
Definition thinking_time_cb3 : rte_events -> rngM rte_events := thinking_time_cb d.

(** [keying_time_cb] of driver3.c: the transaction runs on [dbc]. *)
Definition keying_time_cb3 (before after : option timeval) (sec : Z) (k : nat) (r : rte_events)
    (g : pcg_state_128) (w : S) : outcome (rte_events * pcg_state_128 * list event * S) :=
  let request := e_client_data r in
  let r := mk_rte None (e_tt r) (e_recvtxn r) (e_socketfd r) (e_w_id r) (e_d_id r)
             (default (e_rt0 r) before) (e_rt1 r) (e_mean_think_time r) request in
  match process_transaction stop_time dbfuel (transaction request) (transaction_data request) w with
  | None => Starved
  | Some (rc, td, calls, w) =>
      let data := mk_client_transaction rc (transaction request) td in
      '(r, line) ← log_line pid after sec data r;
      let evs := EvExecute k request data calls :: line in
      if goes_on stop_time sec then
        let '(r, g) := start_thinking log r g in Done (r, g, evs, w)
      else Done (r, g, evs, w)
  end.

Definition fire3 (o : occasion3) (k : nat) (s : proc) (w : S) : outcome (proc * list event * S) :=
  match pr_rte s !! k with
  | None => Starved
  | Some r =>
      match o with
      | Thought3 =>
          match e_tt r with
          | None => Starved
          | Some _ =>
              let '(r', g) := thinking_time_cb3 r (pr_rng s) in
              Done (mk_proc g (<[k := r']> (pr_rte s)), [], w)
          end
      | Keyed3 before after sec =>
          match e_kt r with
          | None => Starved
          | Some _ =>
              '(r', g, evs, w) ← keying_time_cb3 before after sec k r (pr_rng s) w;
              Done (mk_proc g (<[k := r']> (pr_rte s)), evs, w)
          end
      end
  end.

Fixpoint ev_run3 (os : list (nat * occasion3)) (s : proc) (w : S)
  : outcome (proc * list event * S) :=
  match os with
  | [] => Done (s, [], w)
  | (k, o) :: os =>
      '(s, evs, w) ← fire3 o k s w;
      '(s, rest, w) ← ev_run3 os s w;
      Done (s, evs ++ rest, w)
  end.

(** A process of driver3.c. *)
Definition process_main3 (p : part) (logging_ok mix_ok dbc_ok malloc_ok : bool) (seed : Z)
    (zeroed : transaction_data_t) (started ended : Z) (os : list (nat * occasion3)) (fuel : nat)
    (w : S) : outcome (Z * list event * S) :=
  if negb logging_ok then Done (1, [], w)
  else if negb mix_ok then Done (1, [], w)
  else if negb dbc_ok then Done (99, [], w)
  else match connect_to_db stop_time dbfuel w with
  | None => Starved
  | Some (rc, _, w) =>
      if negb (rc =? OK) then Done (99, [], w)
      else if negb malloc_ok then Done (ERROR, [], w)
      else
        '(rte, _) ← open_terminals d p (capacity d p)
                      (fun k i j => Some (new_rte zeroed 0 i j)) fuel;
        '(s, evs, w) ← ev_run3 os (mk_proc (pcg64f_srandom_r seed) rte) w;
        if idle s then
          let '(_, _, w) := disconnect_from_db w in
          Done (OK, EvLog (start_line started pid) :: evs ++ [EvLog (terminated_line pid ended)], w)
        else Starved
  end.
End embedded.
