(* ===== verification/DriverCover.v ===== *)
(** * The processes cover the warehouses ([start_driver] in [src/driver2.c], [src/driver3.c])

    The parts that the forked processes get tile the configured warehouses, and
    the terminals they open are, all together, one terminal for each district
    of each warehouse. *)

From Stdlib Require Import ZArith Lia String SpecFloat Permutation.
From stdpp Require Import base list.
From S2P Require Import Prelude Double Text Common TxnData Driver DriverRun DriverThreads DriverFork DriverEvents.

(** ** The parts *)

Section parts.
Context (d : driver) (Hmin : 0 <= w_id_min d <= w_id_max d) (Hmax : w_id_max d < 2 ^ 31 - 1).
Context (forks : Z) (Hforks : 0 < forks < 2 ^ 20) (Hle : forks <= w_id_max d - w_id_min d + 1).

Context (procs : Z) (Hprocs : 0 < procs <= forks).

Let n := w_id_max d - w_id_min d + 1.

Lemma number_of_warehouses_small : number_of_warehouses d = n.
Proof. unfold number_of_warehouses. apply i32_small. lia. Qed.

Lemma part_bound_range k : 0 <= k <= forks -> 0 <= part_bound n forks k <= n.
Proof.
  intros Hk. assert (Hn : 0 < n < 2 ^ 31) by lia.
  pose proof (part_bound_add n forks Hn Hforks Hle 0 (Z.to_nat k) ltac:(lia) ltac:(lia)) as H0.
  pose proof (part_bound_add n forks Hn Hforks Hle k (Z.to_nat (forks - k)) ltac:(lia) ltac:(lia)) as H1.
  pose proof (part_bound_last n forks Hn Hforks Hle) as Hl.
  rewrite part_bound_zero in H0 by done. rewrite Z2Nat.id, Z.add_0_l in H0 by lia.
  rewrite Z2Nat.id in H1 by lia. replace (k + (forks - k)) with forks in H1 by lia. lia.
Qed.

Lemma fork_bound_part k : 0 <= k <= forks ->
  fork_bound d forks k = w_id_min d + part_bound n forks k.
Proof.
  intros Hk. pose proof (part_bound_range k Hk) as Hb. unfold fork_bound, partition_size.
  rewrite number_of_warehouses_small. fold (part_bound n forks k).
  rewrite (i32_small (part_bound n forks k)) by lia. apply i32_small. lia.
Qed.

(** The warehouses of one part. *)
Definition part_ids (p : part) : list Z := zrange (p_min p) (p_max p + 1).

(** Where part [k] ends: the last one takes what is left. *)
Definition part_end (k : Z) : Z :=
  if k =? procs then w_id_max d + 1 else fork_bound d forks k.

Lemma fork_part_range k : 0 <= k < procs ->
  p_min (fork_part d forks procs k) = part_end k /\ p_max (fork_part d forks procs k) + 1 = part_end (k + 1).
Proof.
  intros Hk. unfold part_end, fork_part. cbn [p_min p_max].
  destruct (Z.eqb_spec k procs); [lia|]. split; [done|].
  destruct (Z.eqb_spec k (procs - 1)) as [->|Hne]; cbn [negb].
  - rewrite (proj2 (Z.eqb_eq _ _)) by lia. done.
  - rewrite (proj2 (Z.eqb_neq (k + 1) procs)) by lia. rewrite fork_bound_part by lia.
    pose proof (part_bound_range (k + 1) ltac:(lia)). rewrite i32_small; lia.
Qed.

Lemma part_end_zero : part_end 0 = w_id_min d.
Proof.
  unfold part_end. rewrite (proj2 (Z.eqb_neq 0 procs)) by lia.
  rewrite fork_bound_part, part_bound_zero by lia. lia.
Qed.

Lemma part_end_next k : 0 <= k < procs -> part_end k < part_end (k + 1).
Proof.
  intros Hk. unfold part_end. rewrite (proj2 (Z.eqb_neq k procs)), fork_bound_part by lia.
  pose proof (part_bound_next n forks ltac:(lia) Hforks Hle k ltac:(lia)) as Hs.
  pose proof (part_bound_range (k + 1) ltac:(lia)) as Hl.
  destruct (Z.eqb_spec (k + 1) procs) as [He|].
  - lia.
  - rewrite fork_bound_part by lia. lia.
Qed.

Lemma part_end_mono k m : 0 <= k <= m -> m <= procs -> part_end k <= part_end m.
Proof.
  intros Hk Hm. replace m with (k + Z.of_nat (Z.to_nat (m - k))) in * by lia.
  induction (Z.to_nat (m - k)) as [|e IH]; [by rewrite Z.add_0_r|].
  etransitivity; [apply IH; lia|].
  replace (k + Z.of_nat (S e)) with (k + Z.of_nat e + 1) by lia.
  apply Z.lt_le_incl, part_end_next. lia.
Qed.

Lemma parts_concat m : 0 <= m <= procs ->
  List.concat (map (fun l => part_ids (fork_part d forks procs l)) (zrange 0 m))
  = zrange (w_id_min d) (part_end m).
Proof.
  intros Hm. replace m with (Z.of_nat (Z.to_nat m)) in * by lia.
  induction (Z.to_nat m) as [|k IH].
  - change (Z.of_nat 0) with 0. rewrite part_end_zero, !zrange_nil by lia. done.
  - replace (Z.of_nat (S k)) with (Z.of_nat k + 1) in * by lia.
    rewrite zrange_snoc, map_app, concat_app, IH by lia. cbn [map List.concat].
    rewrite app_nil_r. unfold part_ids.
    destruct (fork_part_range (Z.of_nat k)) as [-> ->]; [lia|].
    rewrite <- zrange_app; [done|]. split.
    + rewrite <- part_end_zero. apply part_end_mono; lia.
    + apply part_end_mono; lia.
Qed.
End parts.

(** ** The forks *)

Section forks.
Context (d : driver) (nprocs divisor max_fork : Z) (fork : Z -> Z) (gap : part -> Z * Z).
Context (Hfork : forall l, 0 < fork l).

Lemma fork_loop_all m : forall l rc p, max_fork = l + 1 + Z.of_nat m ->
  exists rc',
  fork_loop d nprocs divisor max_fork fork (fun _ => true) gap (S m) l rc p =
    (map (fun l => Runs (fork_part d divisor max_fork l) 0 (parent_cpus nprocs divisor ++ [cpu_of nprocs l]))
       (zrange l (max_fork - 1)),
     map (fun l => gap (fork_part d divisor max_fork l)) (zrange l (max_fork - 1)),
     Runs (fork_part d divisor max_fork (max_fork - 1)) rc' (parent_cpus nprocs divisor)).
Proof.
  induction m as [|m IH]; intros l rc p Hm.
  - exists rc. cbn [fork_loop]. rewrite (proj2 (Z.eqb_eq l (max_fork - 1))) by lia.
    rewrite !zrange_nil by lia. cbn [map]. do 3 f_equal. lia.
  - remember (S m) as m1 eqn:Em. cbn [fork_loop].
    rewrite (proj2 (Z.eqb_neq l (max_fork - 1))) by lia.
    pose proof (Hfork l). rewrite (proj2 (Z.eqb_neq (fork l) (-1))) by lia. subst m1.
    destruct (IH (l + 1) (fork l) (fork_part d divisor max_fork l)) as [rc' ->]; [lia|].
    exists rc'. rewrite !(zrange_cons l) by lia. done.
Qed.

Lemma fork_processes_all : 0 < max_fork ->
  exists rc sleeps,
  fork_processes d nprocs divisor max_fork fork (fun _ => true) gap =
    (map (fun l => Runs (fork_part d divisor max_fork l) 0 (parent_cpus nprocs divisor ++ [cpu_of nprocs l]))
       (zrange 0 (max_fork - 1)), sleeps,
     Runs (fork_part d divisor max_fork (max_fork - 1)) rc (parent_cpus nprocs divisor)).
Proof.
  intros H. unfold fork_processes. replace (Z.to_nat max_fork) with (S (Z.to_nat (max_fork - 1))) by lia.
  destruct (fork_loop_all (Z.to_nat (max_fork - 1)) 0 0 (mk_part 0 0 0)) as [rc ->]; [lia|].
  by do 2 eexists.
Qed.
End forks.

(** ** The terminals of a part *)

Definition place_of (r : rte_events) : Z * Z := (e_w_id r, e_d_id r).

(** The pairs of a warehouse and a district. *)
Definition districts_of (ws : list Z) (tpw : Z) : list (Z * Z) :=
  map (fun t => (t.1, t.2 + 1)) (terminals_from ws (zrange 0 tpw)).

Section open.
Context (d : driver) (p : part) (Hspread : 1 <= spread d).
Context (cap : Z) (make : Z -> Z -> Z -> option rte_events).
Context (Hmake : forall k i j, exists r, make k i j = Some r /\ place_of r = (i, j + 1)).

Let pd := part_driver d p.

Lemma open_row fuel : forall i j (rte : list rte_events),
  (List.length (ids pd fuel i) < fuel)%nat ->
  Z.of_nat (List.length rte) + Z.of_nat (List.length (ids pd fuel i)) <= cap ->
  exists row, map place_of row = map (fun i => (i, j + 1)) (ids pd fuel i) /\
    scan_warehouses pd (open_terminal cap make) fuel i j (1 + Z.of_nat (List.length rte)) rte =
    Done (1 + Z.of_nat (List.length (rte ++ row)), rte ++ row, true).
Proof.
  induction fuel as [|fuel IH]; intros i j rte Hf Hc; [lia|]. cbn [ids scan_warehouses] in *.
  destruct (i <? w_id_max pd + 1).
  - change (over_limit pd _) with false. cbn [List.length] in *.
    destruct (Hmake (1 + Z.of_nat (List.length rte) - 1) i j) as (r & Hr & Hp).
    unfold open_terminal at 2. rewrite Hr.
    replace (0 <=? 1 + Z.of_nat (List.length rte) - 1) with true by lia.
    replace (1 + Z.of_nat (List.length rte) - 1 <? cap) with true by lia.
    cbn [andb negb mbind outcome_bind].
    destruct (IH (i + spread pd) j (rte ++ [r])) as (row & Hrow & He);
      [lia|rewrite length_app; cbn [List.length]; lia|].
    exists (r :: row). split; [cbn [map]; by rewrite Hp, Hrow|].
    replace (1 + Z.of_nat (List.length rte) + 1) with (1 + Z.of_nat (List.length (rte ++ [r])))
      by (rewrite length_app; cbn [List.length]; lia).
    rewrite He, <- app_assoc. done.
  - exists []. rewrite app_nil_r. done.
Qed.

Lemma open_columns fuel ws : ids pd fuel (w_id_min pd) = ws -> (List.length ws < fuel)%nat ->
  forall n j (rte : list rte_events),
  Z.of_nat (List.length rte) + Z.of_nat n * Z.of_nat (List.length ws) <= cap ->
  exists rows,
    map place_of rows = map (fun t => (t.1, t.2 + 1)) (terminals_from ws (zrange j (j + Z.of_nat n))) /\
    scan_terminals pd (open_terminal cap make) fuel n j (1 + Z.of_nat (List.length rte)) rte =
    Done (rte ++ rows, true).
Proof.
  intros <- Hf. induction n as [|n IH]; intros j rte Hc.
  - exists []. rewrite zrange_nil, app_nil_r by lia. done.
  - rewrite zrange_cons by lia. cbn [terminals_from flat_map scan_terminals].
    destruct (open_row fuel (w_id_min pd) j rte Hf) as (row & Hrow & He); [lia|].
    rewrite He. cbn [mbind outcome_bind negb]. change (over_limit pd _) with false.
    assert (Hl : List.length row = List.length (ids pd fuel (w_id_min pd))).
    { rewrite <- (length_map place_of), Hrow, length_map. done. }
    destruct (IH (j + 1) (rte ++ row)) as (rows & Hrows & He').
    { rewrite length_app, Hl. lia. }
    exists (row ++ rows). split.
    + rewrite !map_app, Hrow, map_map. cbn [fst snd].
      replace (j + Z.of_nat (Datatypes.S n)) with (j + 1 + Z.of_nat n) by lia.
      rewrite Hrows. done.
    + rewrite He', <- app_assoc. done.
Qed.

Lemma open_terminals_all fuel : 0 <= p_min p <= p_max p -> 0 <= terminals_per_warehouse d ->
  p_max p - p_min p + 1 < Z.of_nat fuel -> capacity d p <= cap ->
  exists rte, open_terminals d p cap make fuel = Done (rte, true) /\
    map place_of rte = districts_of (warehouse_ids pd) (terminals_per_warehouse d).
Proof.
  intros Hp Ht Hf Hc.
  destruct (warehouse_ids_fuel pd Hspread Hp fuel Hf) as [Hids Hlen].
  assert (Hw : Z.of_nat (List.length (warehouse_ids pd)) <= p_max p - p_min p + 1).
  { destruct (warehouse_ids_fuel pd Hspread Hp (Z.to_nat (p_max p - p_min p + 2))) as [_ H];
      [change (w_id_max pd) with (p_max p); change (w_id_min pd) with (p_min p); lia|lia]. }
  destruct (open_columns fuel _ Hids Hlen (Z.to_nat (terminals_per_warehouse d)) 0 [])
    as (rows & Hrows & He).
  { unfold capacity in Hc. cbn [List.length]. nia. }
  exists rows. split; [exact He|]. rewrite Z.add_0_l, Z2Nat.id in Hrows by done. exact Hrows.
Qed.
End open.

Lemma warehouse_ids_all d p : spread d = 1 -> p_min p <= p_max p + 1 ->
  warehouse_ids (part_driver d p) = part_ids p.
Proof.
  intros Hs Hp. unfold warehouse_ids, part_ids.
  change (w_id_max (part_driver d p)) with (p_max p).
  change (w_id_min (part_driver d p)) with (p_min p).
  assert (H : forall n i, Z.of_nat n = p_max p + 1 - i ->
    ids (part_driver d p) n i = zrange i (p_max p + 1)).
  { induction n as [|n IH]; intros i Hn; [by rewrite zrange_nil by lia|]. cbn [ids].
    change (w_id_max (part_driver d p)) with (p_max p).
    change (spread (part_driver d p)) with (spread d). rewrite Hs.
    rewrite (proj2 (Z.ltb_lt i (p_max p + 1))), zrange_cons, IH by lia. done. }
  apply H. lia.
Qed.

Lemma terminals_from_app ws ws' js :
  terminals_from (ws ++ ws') js ≡ₚ terminals_from ws js ++ terminals_from ws' js.
Proof.
  induction js as [|j js IH]; cbn [terminals_from flat_map]; [done|].
  fold (terminals_from (ws ++ ws') js) (terminals_from ws js) (terminals_from ws' js).
  rewrite IH, map_app. solve_Permutation.
Qed.

Lemma districts_of_concat wss tpw :
  List.concat (map (fun ws => districts_of ws tpw) wss) ≡ₚ districts_of (List.concat wss) tpw.
Proof.
  unfold districts_of. induction wss as [|ws wss IH]; cbn [map List.concat].
  - by induction (zrange 0 tpw).
  - rewrite IH, terminals_from_app, map_app. done.
Qed.

(** ** Both drivers *)

Lemma max_fork2_le d nprocs : max_fork2 d nprocs <= number_of_warehouses d.
Proof.
  unfold max_fork2.
  destruct (Z.gtb_spec (i32 (nprocs * fork_per_processor d)) (number_of_warehouses d)); lia.
Qed.

Lemma max_fork3_range d nprocs : 1 <= max_fork2 d nprocs ->
  1 <= max_fork3 d nprocs <= max_fork2 d nprocs.
Proof.
  unfold max_fork3. destruct (Z.gtb_spec (terminals_limit d) 0); cbn [andb]; [|lia].
  destruct (Z.ltb_spec (terminals_limit d) (max_fork2 d nprocs)); lia.
Qed.

(** The part a process runs, if it does. *)
Definition part_run (x : process) : option part :=
  match x with Runs p _ _ => Some p | Fails _ => None end.

Lemma open_parts d make fuel parts : spread d = 1 -> 0 <= terminals_per_warehouse d ->
  (forall k i j, exists r, make k i j = Some r /\ place_of r = (i, j + 1)) ->
  (forall p, p ∈ parts -> 0 <= p_min p <= p_max p /\ p_max p - p_min p + 1 < Z.of_nat fuel) ->
  exists rtes,
    Forall2 (fun p rte => open_terminals d p (capacity d p) make fuel = Done (rte, true)) parts rtes /\
    map (map place_of) rtes = map (fun p => districts_of (part_ids p) (terminals_per_warehouse d)) parts.
Proof.
  intros Hs Ht Hmake. induction parts as [|p parts IH]; intros Hp; [by exists []|].
  destruct IH as (rtes & Hf & Hm); [intros q Hq; apply Hp; by right|].
  destruct (Hp p) as [Hr Hfuel]; [by left|].
  destruct (open_terminals_all d p ltac:(lia) (capacity d p) make Hmake fuel) as (rte & Ho & Hpl);
    [done..|].
  exists (rte :: rtes). split; [by constructor|]. cbn [map]. rewrite Hpl, Hm.
  rewrite warehouse_ids_all by (done || lia). done.
Qed.

Lemma parts_range d forks procs p : 0 <= w_id_min d <= w_id_max d -> w_id_max d < 2 ^ 31 - 1 ->
  0 < forks < 2 ^ 20 -> forks <= w_id_max d - w_id_min d + 1 -> 0 < procs <= forks ->
  p ∈ map (fork_part d forks procs) (zrange 0 procs) ->
  w_id_min d <= p_min p <= p_max p /\ p_max p <= w_id_max d.
Proof.
  intros Hmin Hmax Hf Hle Hm Hp. apply list_elem_of_fmap in Hp as (l & -> & Hl).
  apply elem_of_zrange in Hl.
  destruct (fork_part_range d Hmin Hmax forks Hf Hle procs Hm l Hl) as [H1 H2].
  pose proof (part_end_next d Hmin Hmax forks Hf Hle procs Hm l Hl).
  pose proof (part_end_mono d Hmin Hmax forks Hf Hle procs Hm 0 l ltac:(lia) ltac:(lia)) as H3.
  pose proof (part_end_mono d Hmin Hmax forks Hf Hle procs Hm (l + 1) procs ltac:(lia) ltac:(lia)) as H4.
  rewrite (part_end_zero d Hmin Hmax forks Hf Hle procs Hm) in H3. unfold part_end at 2 in H4.
  rewrite Z.eqb_refl in H4. lia.
Qed.

(** C12. When every fork, connection and pinning works, the processes of the event-driven drivers get
    parts of the configured warehouses that are not empty, follow each other
    and cover them all, although their bounds are truncated products of a
    rounded quotient, which driver3.c computes before -L lowers the number of
    processes; and, with the terminals not spread out, the terminals that the
    processes open are one for each of the terminals of a warehouse (districts 1
    to terminals_per_warehouse) of each warehouse, all within the memory
    allocated for them.  [make] opens terminal [k] at warehouse [i] and district
    [j + 1], as [connect_rte] does when [connect_to_client] answers a descriptor
    and [new_rte] in driver3.c. *)
Theorem drivers_cover_warehouses d nprocs start fork make fuel :
  1 <= w_id_min d <= w_id_max d -> w_id_max d < 2 ^ 31 - 1 -> spread d = 1 ->
  0 <= terminals_per_warehouse d -> 1 <= max_fork2 d nprocs < 2 ^ 20 ->
  start = start_driver2 d nprocs \/ start = start_driver3 d nprocs ->
  (forall l, 0 < fork l) ->
  (forall k i j, exists r, make k i j = Some r /\ place_of r = (i, j + 1)) ->
  w_id_max d - w_id_min d + 1 < Z.of_nat fuel ->
  exists children sleeps parent parts rtes,
    start fork (fun _ => true) = (children, sleeps, parent) /\
    map part_run (children ++ [parent]) = map Some parts /\
    (forall p, p ∈ parts -> w_id_min d <= p_min p <= p_max p /\ p_max p <= w_id_max d) /\
    List.concat (map part_ids parts) = zrange (w_id_min d) (w_id_max d + 1) /\
    Forall2 (fun p rte => open_terminals d p (capacity d p) make fuel = Done (rte, true)) parts rtes /\
    List.concat (map (map place_of) rtes)
      ≡ₚ districts_of (zrange (w_id_min d) (w_id_max d + 1)) (terminals_per_warehouse d).
Proof.
  intros Hmin Hmax Hs Ht Hf Hstart Hfork Hmake Hfuel.
  pose proof (max_fork2_le d nprocs) as Hle. rewrite number_of_warehouses_small in Hle by lia.
  assert (exists procs gap, 0 < procs <= max_fork2 d nprocs /\
    start = fun fork aff => fork_processes d nprocs (max_fork2 d nprocs) procs fork aff gap)
    as (procs & gap & Hprocs & ->).
  { pose proof (max_fork3_range d nprocs ltac:(lia)).
    destruct Hstart as [->| ->]; do 2 eexists; (split; [|done]); lia. }
  clear Hstart. set (forks := max_fork2 d nprocs) in *.
  set (parts := map (fork_part d forks procs) (zrange 0 procs)).
  pose proof (fun p => parts_range d forks procs p ltac:(lia) Hmax ltac:(lia) Hle Hprocs) as Hrange.
  fold parts in Hrange.
  destruct (open_parts d make fuel parts Hs Ht Hmake) as (rtes & Hopen & Hplaces).
  { intros p Hp. apply Hrange in Hp. lia. }
  destruct (fork_processes_all d nprocs forks procs fork gap Hfork) as (rc & sleeps & Hproc); [lia|].
  assert (Hcat : List.concat (map part_ids parts) = zrange (w_id_min d) (w_id_max d + 1)).
  { unfold parts. rewrite map_map, (parts_concat d ltac:(lia) Hmax forks ltac:(lia) Hle procs Hprocs) by lia.
    unfold part_end. by rewrite Z.eqb_refl. }
  eexists _, sleeps, _, parts, rtes. split; [exact Hproc|]. split.
  { rewrite map_app, map_map. cbn [part_run map]. unfold parts.
    assert (Hz : zrange 0 procs = zrange 0 (procs - 1) ++ [procs - 1])
      by (rewrite <- zrange_snoc by lia; f_equal; lia).
    rewrite Hz, !map_app, !map_map. done. }
  split; [exact Hrange|]. split; [exact Hcat|]. split; [exact Hopen|].
  rewrite Hplaces, <- Hcat, <- districts_of_concat, map_map. done.
Qed.

(** Ten warehouses on five processors; two processes with -L. *)
Definition forked_driver : driver :=
  set_terminals_limit 2 (set_w_id_max 10 (set_w_id_min 1 (set_terminals_per_warehouse 10 initial_driver))).

(** With -L, the last process gets what the others would have had. *)
Lemma drivers_cover_warehouses_witness :
  map (fork_part forked_driver 5 2) (zrange 0 2) = [mk_part 0 1 2; mk_part 1 3 10] /\
  exists children sleeps parent,
    start_driver3 forked_driver 5 (fun _ => 100) (fun _ => true) = (children, sleeps, parent) /\
    List.length children = 1%nat.
Proof.
  split; [vm_compute; reflexivity|].
  destruct (drivers_cover_warehouses forked_driver 5 (start_driver3 forked_driver 5) (fun _ => 100)
    (fun _ i j => Some (new_rte (TD_integrity (mk_integrity 0)) 7 i j)) 20)
    as (children & sleeps & parent & parts & rtes & Hf & _);
    [vm_compute; split; discriminate|vm_compute; reflexivity|reflexivity|vm_compute; discriminate
    |split; [vm_compute; discriminate|vm_compute; reflexivity]|by right
    |intros; lia|intros; by eexists|vm_compute; reflexivity|].
  exists children, sleeps, parent. split; [exact Hf|].
  assert (H : List.length (start_driver3 forked_driver 5 (fun _ => 100) (fun _ => true)).1.1 = 1%nat)
    by (vm_compute; reflexivity).
  rewrite Hf in H. exact H.
Defined.
