(* ===== verification/DriverLoop.v ===== *)
(** * The terminals of an event loop: properties of [src/driver2.c] and [src/driver3.c]

    Every terminal waits for exactly one thing at a time, sends only requests a
    client can execute, one at a time, and the loop runs down once the time is
    up. *)

From Stdlib Require Import ZArith Lia String SpecFloat.
From stdpp Require Import base list.
From S2P Require Import Prelude Double Pcg Text Common TxnData InputData Driver DriverRun DriverSafety DriverThreads DriverFork Db DriverEvents DriverCover.

(** ** The protocol of one terminal's connection *)

(** Between two requests, with a request under way, or closed. *)
Inductive link := Ready | Awaiting | Shut.

(** One event, seen from terminal [k]; [None]: out of turn. *)
Definition link_step (k : nat) (st : option link) (e : event) : option link :=
  match e with
  | EvSend k' _ _ => if Nat.eqb k' k then match st with Some Ready => Some Awaiting | _ => None end else st
  | EvReceive k' _ _ => if Nat.eqb k' k then match st with Some Awaiting => Some Ready | _ => None end else st
  | EvClose k' _ => if Nat.eqb k' k then match st with Some Ready => Some Shut | _ => None end else st
  | _ => st
  end.

Definition link_of (k : nat) (evs : list event) : option link := foldl (link_step k) (Some Ready) evs.

(** How many callbacks a terminal has before its socket is closed, when the
    time is up. *)
Definition weight (r : rte_events) : nat :=
  match e_tt r, e_kt r, e_recvtxn r with
  | Some _, None, false => 3
  | None, Some _, false => 2
  | None, None, true => 1
  | None, None, false => 0
  | _, _, _ => 4
  end.

(** The watcher that is active, and what the next request holds. *)
Definition watched (d : driver) (home : Z * Z) (st : link) (r : rte_events) : Prop :=
  place_ok d home.1 home.2 (e_w_id r) (e_d_id r) /\
  match st with
  | Ready => weight r = 3%nat \/ (weight r = 2%nat /\ message_ok d home.1 home.2 (e_client_data r))
  | Awaiting => weight r = 1%nat /\ 0 <= transaction (e_client_data r) < TRANSACTION_MAX
  | Shut => weight r = 0%nat
  end.

(** The requests among some events are ones their terminals may make. *)
Definition request_ok (d : driver) (homes : list (Z * Z)) (e : event) : Prop :=
  match e with
  | EvSend k _ m => exists home, homes !! k = Some home /\ message_ok d home.1 home.2 m
  | _ => True
  end.

Section loop.
Context (d : driver) (stop_time pid : Z) (log : double -> double).
Context (Hd : driver_ok d).

Definition home_within (home : Z * Z) : Prop := w_id_min d <= home.1 <= w_id_max d.

Lemma thinking_time_cb_ok home r g r' g' : home_within home ->
  place_ok d home.1 home.2 (e_w_id r) (e_d_id r) -> e_recvtxn r = false ->
  thinking_time_cb d r g = (r', g') ->
  weight r' = 2%nat /\ message_ok d home.1 home.2 (e_client_data r') /\
  place_ok d home.1 home.2 (e_w_id r') (e_d_id r').
Proof.
  intros Hw Hp Hr H. unfold thinking_time_cb in H.
  set (t := mk_terminal g _ 0 _ _) in H.
  pose proof (terminal_input_ok d Hd home.1 home.2 Hw t Hp g) as Hin.
  destruct (terminal_input d t g) as [[[[w dd] type] data] g1]. injection H as <- _.
  destruct Hin as (H1 & H2 & H3 & H4). split_and!; [by unfold weight; cbn; rewrite Hr| |done].
  exists w, dd. done.
Qed.

Lemma log_line_inv now sec data r r' evs : log_line pid now sec data r = Done (r', evs) ->
  weight r' = weight r /\ e_w_id r' = e_w_id r /\ e_d_id r' = e_d_id r /\
  e_tt r' = e_tt r /\ e_kt r' = e_kt r /\ (exists line, evs = [EvLog line]).
Proof.
  unfold log_line. destruct (get_index _ _) as [c| |]; [|done..]. intros [= <- <-].
  split_and!; [done..|by eexists].
Qed.

(** The callback of the socket: the terminal thinks, or is done. *)
Lemma transaction_receive_cb_ok home answer now sec k r g r' g' evs :
  place_ok d home.1 home.2 (e_w_id r) (e_d_id r) -> weight r = 1%nat ->
  transaction_receive_cb stop_time pid log answer now sec k r g = Done (r', g', evs) ->
  place_ok d home.1 home.2 (e_w_id r') (e_d_id r') /\
  exists fd data line, 
    if goes_on stop_time sec
    then weight r' = 3%nat /\ evs = [EvReceive k fd data; EvLog line]
    else weight r' = 0%nat /\ evs = [EvReceive k fd data; EvLog line; EvClose k fd].
Proof.
  intros Hp Hw H. unfold transaction_receive_cb in H.
  destruct (log_line _ _ _ _ r) as [[r1 evs1]| |] eqn:E; [|done..].
  apply log_line_inv in E as (E1 & E2 & E3 & E4 & E5 & line & ->). cbn [mbind outcome_bind] in H.
  assert (Hn : e_tt r1 = None /\ e_kt r1 = None).
  { rewrite E4, E5. unfold weight in Hw. by destruct (e_tt r), (e_kt r), (e_recvtxn r). }
  destruct Hn as [Ht Hk]. destruct (goes_on stop_time sec).
  - destruct (start_thinking log r1 g) as [r2 g2] eqn:Es. injection H as <- _ <-.
    unfold start_thinking in Es. rewrite bind_unfold in Es.
    destruct (get_think_time _ _ g) as [ms g3]. injection Es as <- _.
    cbn [e_w_id e_d_id]. rewrite E2, E3. split; [done|]. do 3 eexists.
    split; [|done]. unfold weight. cbn. by rewrite Hk.
  - injection H as <- _ <-. unfold stop_receiving. cbn [e_w_id e_d_id]. rewrite E2, E3.
    split; [done|]. do 3 eexists. split; [|done]. unfold weight. cbn. by rewrite Hk, Ht.
Qed.

(** ** The invariant of the loop *)

Record loop_ok (homes : list (Z * Z)) (tr : list event) (s : proc) : Prop := {
  lo_homes : Forall home_within homes;
  lo_length : List.length (pr_rte s) = List.length homes;
  lo_requests : Forall (request_ok d homes) tr;
  lo_terminals : forall k r home, pr_rte s !! k = Some r -> homes !! k = Some home ->
    exists st, link_of k tr = Some st /\ watched d home st r }.

(** An event of terminal [k] does not concern another one. *)
Lemma link_step_other k k' st e : k <> k' ->
  match e with EvSend i _ _ | EvReceive i _ _ | EvClose i _ => i = k | _ => True end ->
  link_step k' st e = st.
Proof.
  intros Hne. destruct e as [i ? ?|i ? ?|i ? ?|?|i ?]; cbn; try done; intros ->;
    by rewrite (proj2 (Nat.eqb_neq k k')).
Qed.

Definition events_of (k : nat) (evs : list event) : Prop :=
  Forall (fun e => match e with EvSend i _ _ | EvReceive i _ _ | EvClose i _ => i = k | _ => True end) evs.

Lemma link_of_other k k' tr evs : k <> k' -> events_of k evs -> link_of k' (tr ++ evs) = link_of k' tr.
Proof.
  intros Hne H. unfold link_of. rewrite foldl_app. revert H. generalize (foldl (link_step k') (Some Ready) tr).
  intros st H. induction H as [|e evs He _ IH]; [done|]. cbn [foldl].
  by rewrite (link_step_other k k').
Qed.

(** A callback that changes terminal [k] only. *)
Lemma loop_ok_update homes tr s k r home g r' evs st' :
  loop_ok homes tr s -> pr_rte s !! k = Some r -> homes !! k = Some home ->
  events_of k evs -> Forall (request_ok d homes) evs ->
  link_of k (tr ++ evs) = Some st' -> watched d home st' r' ->
  loop_ok homes (tr ++ evs) (mk_proc g (<[k := r']> (pr_rte s))).
Proof.
  intros [H1 H2 H3 H4] Hr Hh Hev Hreq Hlink Hw. split; cbn [pr_rte].
  - done.
  - by rewrite length_insert.
  - by apply Forall_app.
  - intros k' r1 home1 Hr1 Hh1. destruct (decide (k = k')) as [<-|Hne].
    + rewrite list_lookup_insert_eq in Hr1 by (by eapply lookup_lt_Some).
      injection Hr1 as <-. rewrite Hh in Hh1. injection Hh1 as <-. by exists st'.
    + rewrite list_lookup_insert_ne in Hr1 by done.
      destruct (H4 k' r1 home1 Hr1 Hh1) as (st & Hl & Hw1). exists st.
      by rewrite (link_of_other k k').
Qed.

Lemma link_of_snoc k tr evs st : link_of k tr = Some st ->
  link_of k (tr ++ evs) = foldl (link_step k) (Some st) evs.
Proof. intros H. unfold link_of in *. by rewrite foldl_app, H. Qed.

(** The timers run down, unless an answer comes while the time is not up. *)
Definition runs_down (o : occasion) (r r' : rte_events) : Prop :=
  weight r = S (weight r') \/
  exists answer now sec, o = Answered answer now sec /\ goes_on stop_time sec = true.

(** What firing does: one terminal moves on, within its protocol. *)
Lemma fire_effect homes tr s k o s' evs : loop_ok homes tr s ->
  fire d stop_time pid log o k s = Done (s', evs) ->
  exists r home r' g st', pr_rte s !! k = Some r /\ homes !! k = Some home /\
    s' = mk_proc g (<[k := r']> (pr_rte s)) /\ events_of k evs /\
    Forall (request_ok d homes) evs /\ link_of k (tr ++ evs) = Some st' /\
    watched d home st' r' /\ runs_down o r r'.
Proof.
  intros Hs Hf. unfold fire in Hf. destruct (pr_rte s !! k) as [r|] eqn:Hr; [|done].
  destruct (homes !! k) as [home|] eqn:Hh.
  2: { apply lookup_ge_None in Hh. apply lookup_lt_Some in Hr. destruct Hs as [_ Hl _ _]. lia. }
  destruct (lo_terminals _ _ _ Hs k r home Hr Hh) as (st & Hl & Hp & Hst).
  assert (Hhome : home_within home).
  { pose proof (lo_homes _ _ _ Hs) as Hf1. rewrite Forall_lookup in Hf1. by eapply Hf1. }
  destruct o as [|now|answer now sec].
  - destruct (e_tt r) as [tt0|] eqn:Ett; [|done].
    destruct (thinking_time_cb d r (pr_rng s)) as [r' g'] eqn:E. injection Hf as <- <-.
    assert (Hrv : e_recvtxn r = false /\ st = Ready /\ weight r = 3%nat).
    { unfold weight in *. rewrite Ett in *.
      destruct st, (e_kt r), (e_recvtxn r); cbn in Hst; intuition done. }
    destruct Hrv as (Hrv & -> & Hwt).
    destruct (thinking_time_cb_ok home r _ _ _ Hhome Hp Hrv E) as (E1 & E2 & E3).
    exists r, home, r', g', Ready. rewrite app_nil_r.
    split_and!; [done..|by constructor|by constructor|done| |left; by rewrite Hwt, E1].
    split; [done|]. by right.
  - destruct (e_kt r) as [kt0|] eqn:Ekt; [|done]. injection Hf as <- <-.
    assert (Hrv : e_tt r = None /\ st = Ready /\ weight r = 2%nat /\
                  message_ok d home.1 home.2 (e_client_data r)).
    { unfold weight in *. rewrite Ekt in *.
      destruct st, (e_tt r), (e_recvtxn r); cbn in Hst; intuition done. }
    destruct Hrv as (Htt & -> & Hwt & Hm).
    do 2 eexists. do 2 eexists. exists Awaiting.
    split_and!; [done..|by repeat constructor| | | |].
    + constructor; [|constructor]. by exists home.
    + rewrite (link_of_snoc k tr _ Ready) by done. cbn. by rewrite Nat.eqb_refl.
    + split; [done|]. split; [unfold weight; cbn; by rewrite Htt|].
      destruct Hm as (w & dd & _ & Hty & _). done.
    + left. rewrite Hwt. unfold weight. cbn. by rewrite Htt.
  - destruct (e_recvtxn r) eqn:Erv; [|done].
    destruct (transaction_receive_cb _ _ _ _ _ _ _ _ _) as [[[r' g'] evs']| |] eqn:E; [|done..].
    injection Hf as <- <-.
    assert (Hrv : weight r = 1%nat /\ st = Awaiting).
    { unfold weight in *. rewrite Erv in *.
      destruct st, (e_tt r), (e_kt r); cbn in Hst; intuition done. }
    destruct Hrv as [Hwt ->].
    destruct (transaction_receive_cb_ok home _ _ _ _ _ _ _ _ _ Hp Hwt E) as (E1 & fd & data & line & E2).
    exists r, home, r', g', (if goes_on stop_time sec then Ready else Shut).
    destruct (goes_on stop_time sec) eqn:Eg; destruct E2 as [E2 ->];
      (split_and!; [done..|by repeat constructor|by repeat constructor| | |]);
      try (rewrite (link_of_snoc k tr _ Awaiting) by done; cbn; rewrite Nat.eqb_refl; reflexivity);
      try (split; [done|]; by (done || left)).
    + right. by do 3 eexists.
    + left. by rewrite Hwt, E2.
Qed.

Lemma fire_ok homes tr s k o s' evs : loop_ok homes tr s ->
  fire d stop_time pid log o k s = Done (s', evs) -> loop_ok homes (tr ++ evs) s'.
Proof.
  intros Hs Hf.
  destruct (fire_effect _ _ _ _ _ _ _ Hs Hf) as (r & home & r' & g & st' & H1 & H2 & -> & H).
  destruct H as (H3 & H4 & H5 & H6 & _). by eapply loop_ok_update.
Qed.

Lemma ev_run_ok homes os : forall tr s s' evs, loop_ok homes tr s ->
  ev_run d stop_time pid log os s = Done (s', evs) -> loop_ok homes (tr ++ evs) s'.
Proof.
  induction os as [|[k o] os IH]; intros tr s s' evs Hs H; cbn [ev_run] in H.
  { injection H as <- <-. by rewrite app_nil_r. }
  destruct (fire d stop_time pid log o k s) as [[s1 evs1]| |] eqn:E1; [|done..].
  cbn [mbind outcome_bind] in H.
  destruct (ev_run d stop_time pid log os s1) as [[s2 evs2]| |] eqn:E2; [|done..].
  injection H as <- <-. rewrite app_assoc. eapply IH; [|exact E2]. by eapply fire_ok.
Qed.
End loop.

(** ** The terminals when the loop starts *)

Section scan.
Context {S : Type} (d : driver) (Hspread : 1 <= spread d).
Context (body : Z -> Z -> Z -> S -> outcome (S * bool)) (I : S -> Prop) (n0 : Z).
Context (Hbody : forall count i j s s' ok, w_id_min d <= i <= w_id_max d -> 0 <= j < n0 ->
           I s -> body count i j s = Done (s', ok) -> I s').

(** What the body keeps, the loops keep. *)
Lemma scan_warehouses_inv fuel : forall i j count s c s' ok, w_id_min d <= i -> 0 <= j < n0 ->
  I s -> scan_warehouses d body fuel i j count s = Done (c, s', ok) -> I s'.
Proof.
  induction fuel as [|fuel IH]; intros i j count s c s' ok Hi Hj Hs H; [done|].
  cbn [scan_warehouses] in H. destruct (Z.ltb_spec i (w_id_max d + 1)); [|by injection H as _ <- _].
  destruct (over_limit d count); [by injection H as _ <- _|].
  destruct (body count i j s) as [[s1 ok1]| |] eqn:E; [|done..]. cbn [mbind outcome_bind] in H.
  apply Hbody in E; [|lia|done..].
  destruct ok1; [|by injection H as _ <- _]. eapply IH; [|done|exact E|exact H]. lia.
Qed.

Lemma scan_terminals_inv fuel n : forall j count s s' ok, 0 <= j -> j + Z.of_nat n <= n0 ->
  I s -> scan_terminals d body fuel n j count s = Done (s', ok) -> I s'.
Proof.
  induction n as [|n IH]; intros j count s s' ok Hj Hn Hs H; cbn [scan_terminals] in H.
  { by injection H as <- _. }
  destruct (scan_warehouses _ _ _ _ _ _ _) as [[[c s1] ok1]| |] eqn:E; [|done..].
  cbn [mbind outcome_bind] in H. apply scan_warehouses_inv in E; [|lia..|done].
  destruct ok1; cbn [negb] in H; [|by injection H as <- _].
  destruct (over_limit d c); [by injection H as <- _|].
  eapply IH; [| |exact E|exact H]; lia.
Qed.
End scan.

(** A terminal of part [p] that has only started. *)
Definition fresh (d : driver) (p : part) (r : rte_events) : Prop :=
  weight r = 3%nat /\ p_min p <= e_w_id r <= p_max p /\ 1 <= e_d_id r <= terminals_per_warehouse d.

Lemma open_terminals_fresh d p cap make fuel rte : 1 <= spread d ->
  (forall k i j r, make k i j = Some r -> exists zeroed fd, r = new_rte zeroed fd i j) ->
  open_terminals d p cap make fuel = Done (rte, true) -> Forall (fresh d p) rte.
Proof.
  intros Hs Hmake H. destruct (Z.le_gt_cases (terminals_per_warehouse d) 0) as [Ht|Ht].
  { unfold open_terminals in H. replace (Z.to_nat (terminals_per_warehouse d)) with 0%nat in H by lia.
    by injection H as <-. }
  eapply (scan_terminals_inv (part_driver d p) Hs (open_terminal cap make) (Forall (fresh d p))
    (terminals_per_warehouse d)); [| | | |exact H].
  - intros count i j s s' ok Hi Hj Hf Hb. unfold open_terminal in Hb.
    destruct (negb _); [done|].
    destruct (make (count - 1) i j) as [r|] eqn:Em; [|by injection Hb as <- _].
    injection Hb as <- _. apply Forall_app. split; [done|]. constructor; [|constructor].
    apply Hmake in Em as (zeroed & fd & ->). unfold fresh. cbn.
    change (w_id_min (part_driver d p)) with (p_min p) in Hi.
    change (w_id_max (part_driver d p)) with (p_max p) in Hi. split; [done|lia].
  - done.
  - lia.
  - constructor.
Qed.

Lemma connect_rte_fresh zeroed connect k i j r : connect_rte zeroed connect k i j = Some r ->
  exists zeroed fd, r = new_rte zeroed fd i j.
Proof. unfold connect_rte. destruct (_ <? 1); [done|]. intros [= <-]. by do 2 eexists. Qed.

Lemma fresh_loop_ok d p g rte : driver_ok d -> terminals_per_warehouse d <= districts (cardinality d) ->
  w_id_min d <= p_min p -> p_max p <= w_id_max d -> Forall (fresh d p) rte ->
  loop_ok d (map place_of rte) [] (mk_proc g rte).
Proof.
  intros Hd Ht Hmin Hmax Hf. rewrite Forall_lookup in Hf. split; cbn [pr_rte].
  - apply Forall_lookup. intros k home Hk. rewrite list_lookup_fmap in Hk.
    destruct (rte !! k) as [r|] eqn:Hr; [|done]. injection Hk as <-.
    destruct (Hf k r Hr) as (_ & Hw & _). unfold home_within. cbn. lia.
  - by rewrite length_map.
  - constructor.
  - intros k r home Hr Hk. rewrite list_lookup_fmap, Hr in Hk. injection Hk as <-.
    destruct (Hf k r Hr) as (H1 & Hw & Hdd). exists Ready. split; [done|].
    split; [apply place_ok_start; cbn; lia|by left].
Qed.

(** A state the loop can reach from the terminals of part [p]. *)
Definition reaches (d : driver) (stop_time pid : Z) (log : double -> double) (p : part)
    (cap : Z) (zeroed : transaction_data_t) (connect : Z -> Z) (fuel : nat)
    (rte : list rte_events) (g : pcg_state_128) (os : list (nat * occasion)) (s : proc)
    (evs : list event) : Prop :=
  open_terminals d p cap (connect_rte zeroed connect) fuel = Done (rte, true) /\
  ev_run d stop_time pid log os (mk_proc g rte) = Done (s, evs).

(** A driver whose terminals have districts, and a part of its warehouses. *)
Definition part_ok (d : driver) (p : part) : Prop :=
  driver_ok d /\ 1 <= spread d /\ terminals_per_warehouse d <= districts (cardinality d) /\
  w_id_min d <= p_min p /\ p_max p <= w_id_max d.

Lemma reaches_ok d stop pid log p cap zeroed connect fuel rte g os s evs :
  part_ok d p -> reaches d stop pid log p cap zeroed connect fuel rte g os s evs ->
  loop_ok d (map place_of rte) evs s.
Proof.
  intros (Hd & Hs & Ht & Hmin & Hmax) [Ho Hr].
  apply open_terminals_fresh in Ho; [|done|apply connect_rte_fresh].
  eapply (ev_run_ok d stop pid log Hd _ _ [] (mk_proc g rte)); [|exact Hr].
  by eapply fresh_loop_ok.
Qed.

(** The watchers of a terminal that are active. *)
Definition watchers (r : rte_events) : Z :=
  (if e_kt r is Some _ then 1 else 0) + (if e_tt r is Some _ then 1 else 0) + (if e_recvtxn r then 1 else 0).

(** C13. The terminals of driver2.c: in every state the loop of a process can
    reach, each terminal has exactly one active watcher, the socket's when a
    request of it is under way and a timer's when none is, and no watcher once
    its socket is closed; it has sent its requests and received the answers in
    turns; and every request names one of the five transactions and holds the
    data of that transaction, in range, for the warehouse and district the
    terminal was started for (for any of the configured ones in altered
    mode). *)
Theorem driver2_terminals d stop pid log p cap zeroed connect fuel rte g os s evs :
  part_ok d p -> reaches d stop pid log p cap zeroed connect fuel rte g os s evs ->
  List.length (pr_rte s) = List.length rte /\
  (forall k r, pr_rte s !! k = Some r -> exists st, link_of k evs = Some st /\
     match st with
     | Ready => watchers r = 1 /\ e_recvtxn r = false
     | Awaiting => watchers r = 1 /\ e_recvtxn r = true
     | Shut => watchers r = 0
     end) /\
  (forall k fd m, EvSend k fd m ∈ evs -> exists r0, rte !! k = Some r0 /\
     p_min p <= e_w_id r0 <= p_max p /\ 1 <= e_d_id r0 <= terminals_per_warehouse d /\
     message_ok d (e_w_id r0) (e_d_id r0) m).
Proof.
  intros Hp Hr. pose proof (reaches_ok _ _ _ _ _ _ _ _ _ _ _ _ _ _ Hp Hr) as [_ Hl Hreq Ht].
  rewrite length_map in Hl. split; [done|]. split.
  - intros k r Hk. destruct (lookup_lt_is_Some_2 rte k) as [r0 H0].
    { rewrite <- Hl. by eapply lookup_lt_Some. }
    destruct (Ht k r (place_of r0) Hk) as (st & Hst & _ & Hw); [by rewrite list_lookup_fmap, H0|].
    exists st. split; [done|]. unfold watchers, weight in *.
    destruct st, (e_tt r), (e_kt r), (e_recvtxn r); cbn in Hw; intuition done.
  - intros k fd m Hin. rewrite Forall_forall in Hreq. apply Hreq in Hin as (home & Hh & Hm).
    rewrite list_lookup_fmap in Hh. destruct (rte !! k) as [r0|] eqn:H0; [|done].
    injection Hh as <-. exists r0. split; [done|].
    destruct Hr as [Ho _]. destruct Hp as (_ & Hs & _).
    apply open_terminals_fresh in Ho; [|done|apply connect_rte_fresh].
    rewrite Forall_lookup in Ho. destruct (Ho k r0 H0) as (_ & H1 & H2). done.
Qed.

(** ** Running down *)

(** The clock has reached the stop time when an answer comes. *)
Definition late (stop_time : Z) (o : occasion) : Prop :=
  match o with Answered _ _ sec => stop_time <= sec | _ => True end.

Definition total_weight (rte : list rte_events) : nat := sum_list (map weight rte).

Lemma total_weight_insert rte k r r' : rte !! k = Some r -> weight r = S (weight r') ->
  total_weight rte = S (total_weight (<[k := r']> rte)).
Proof.
  unfold total_weight. revert k. induction rte as [|x rte IH]; intros k Hk Hw; [done|].
  destruct k as [|k]; [injection Hk as ->; cbn in *; lia|].
  specialize (IH k Hk Hw). cbn in *. rewrite IH. apply Nat.add_succ_r.
Qed.

Lemma total_weight_bound rte : Forall (fun r => (weight r <= 3)%nat) rte ->
  (total_weight rte <= 3 * List.length rte)%nat.
Proof. unfold total_weight. induction 1; cbn in *; lia. Qed.

Lemma loop_ok_weights d homes tr s : loop_ok d homes tr s ->
  Forall (fun r => (weight r <= 3)%nat) (pr_rte s).
Proof.
  intros [_ Hl _ Ht]. apply Forall_lookup. intros k r Hk.
  destruct (lookup_lt_is_Some_2 homes k) as [home Hh]; [rewrite <- Hl; by eapply lookup_lt_Some|].
  destruct (Ht k r home Hk Hh) as (st & _ & _ & Hw).
  cbn beta. destruct st; lia.
Qed.

Section down.
Context (d : driver) (stop pid : Z) (log : double -> double) (Hd : driver_ok d).

Lemma late_stops sec : stop <> 0 -> stop <= sec -> goes_on stop sec = false.
Proof.
  intros H1 H2. unfold goes_on. rewrite (proj2 (Z.eqb_neq _ _) H1).
  by rewrite (proj2 (Z.ltb_ge _ _) H2).
Qed.

Lemma ev_run_down homes os : stop <> 0 -> Forall (fun ko => late stop ko.2) os ->
  forall tr s s' evs, loop_ok d homes tr s -> ev_run d stop pid log os s = Done (s', evs) ->
  (List.length os + total_weight (pr_rte s') = total_weight (pr_rte s))%nat.
Proof.
  intros Hstop. induction 1 as [|[k o] os Ho Hos IH]; intros tr s s' evs Hs H; cbn [ev_run] in H.
  { by injection H as <- _. }
  destruct (fire d stop pid log o k s) as [[s1 evs1]| |] eqn:E1; [|done..].
  cbn [mbind outcome_bind] in H.
  destruct (ev_run d stop pid log os s1) as [[s2 evs2]| |] eqn:E2; [|done..].
  injection H as <- <-. pose proof (fire_ok d stop pid log Hd _ _ _ _ _ _ _ Hs E1) as Hs1.
  destruct (fire_effect d stop pid log Hd _ _ _ _ _ _ _ Hs E1)
    as (r & home & r' & g & st' & Hr & _ & -> & _ & _ & _ & _ & Hdown).
  destruct Hdown as [Hdown|(a & n & sec & -> & Hg)].
  - specialize (IH _ _ _ _ Hs1 E2). cbn [pr_rte] in IH.
    rewrite (total_weight_insert _ _ _ _ Hr Hdown). cbn [List.length]. lia.
  - cbn in Ho. by rewrite late_stops in Hg.
Qed.

(** As long as a watcher is active there is an occasion, with any client that
    echoes the type, on which nothing goes wrong. *)
Lemma fire_progress homes tr s : loop_ok d homes tr s -> idle s = false ->
  exists k o s' evs, late stop o /\ fire d stop pid log o k s = Done (s', evs).
Proof.
  intros Hs Hi. destruct (List.existsb (fun r => negb (quiet r)) (pr_rte s)) eqn:E.
  2: { exfalso. unfold idle in Hi. apply not_true_iff_false in Hi. apply Hi.
       apply forallb_forall. intros r Hr. apply not_false_iff_true. intros Hq.
       apply not_true_iff_false in E. apply E, existsb_exists. exists r. by rewrite Hq. }
  apply existsb_exists in E as (r & Hr & Hq). apply list_elem_of_In, list_elem_of_lookup in Hr as [k Hk].
  destruct Hs as [_ Hl _ Ht].
  destruct (lookup_lt_is_Some_2 homes k) as [home Hh]; [rewrite <- Hl; by eapply lookup_lt_Some|].
  destruct (Ht k r home Hk Hh) as (st & _ & _ & Hw).
  destruct (e_tt r) as [x|] eqn:Ett.
  { exists k, Thought. unfold fire. rewrite Hk, Ett.
    destruct (thinking_time_cb d r (pr_rng s)) as [r' g']. by do 2 eexists. }
  destruct (e_kt r) as [x|] eqn:Ekt.
  { exists k, (Keyed None). unfold fire. rewrite Hk, Ekt. by do 2 eexists. }
  destruct (e_recvtxn r) eqn:Erv.
  2: { unfold quiet in Hq. by rewrite Ett, Ekt, Erv in Hq. }
  assert (Hty : 0 <= transaction (e_client_data r) < TRANSACTION_MAX).
  { unfold weight in Hw. rewrite Ett, Ekt, Erv in Hw. destruct st; intuition done. }
  exists k, (Answered (fun m => m) None stop). unfold fire. rewrite Hk, Erv.
  unfold transaction_receive_cb, log_line.
  destruct (transaction_short_name_index _ Hty) as (c & -> & _). cbn [mbind outcome_bind].
  destruct (goes_on stop stop); [destruct (start_thinking log _ _)|]; (do 2 eexists; split; [|done]);
    cbn; lia.
Qed.
End down.

(** C27. The loop of driver2.c runs down: from any state it reaches, once the
    clock has reached the stop time when answers come, at most three callbacks
    per terminal are left; as long as a watcher is active the loop can go on
    without an access outside of an array; and when none is, which ends the
    loop, every terminal has closed its socket after the answer to its last
    request. *)
Theorem driver2_runs_down d stop pid log p cap zeroed connect fuel rte g os s evs os' s' evs' :
  part_ok d p -> reaches d stop pid log p cap zeroed connect fuel rte g os s evs ->
  stop <> 0 -> Forall (fun ko => late stop ko.2) os' ->
  ev_run d stop pid log os' s = Done (s', evs') ->
  (List.length os' <= 3 * List.length rte)%nat /\
  (idle s' = false -> exists k o s'' evs'', late stop o /\
     fire d stop pid log o k s' = Done (s'', evs'')) /\
  (idle s' = true -> forall k, (k < List.length rte)%nat -> link_of k (evs ++ evs') = Some Shut).
Proof.
  intros Hp Hr Hstop Hlate Hrun. pose proof (reaches_ok _ _ _ _ _ _ _ _ _ _ _ _ _ _ Hp Hr) as Hs.
  destruct Hp as [Hd _].
  pose proof (ev_run_ok d stop pid log Hd _ _ _ _ _ _ Hs Hrun) as Hs'.
  split; [|split].
  - pose proof (ev_run_down d stop pid log Hd _ _ Hstop Hlate _ _ _ _ Hs Hrun) as Hw.
    pose proof (total_weight_bound _ (loop_ok_weights _ _ _ _ Hs)) as Hb.
    pose proof (lo_length _ _ _ _ Hs) as Hl. rewrite length_map in Hl. lia.
  - intros Hi. exact (fire_progress d stop pid log _ _ _ Hs' Hi).
  - intros Hi k Hk. destruct Hs' as [_ Hl _ Ht]. rewrite length_map in Hl.
    destruct (lookup_lt_is_Some_2 (pr_rte s') k) as [r Hr']; [lia|].
    destruct (lookup_lt_is_Some_2 rte k) as [r0 Hr0]; [lia|].
    destruct (Ht k r (place_of r0) Hr') as (st & Hst & _ & Hw); [by rewrite list_lookup_fmap, Hr0|].
    assert (Hq : quiet r = true).
    { unfold idle in Hi. rewrite forallb_forall in Hi. apply Hi, list_elem_of_In.
      by eapply list_elem_of_lookup_2. }
    rewrite Hst. unfold quiet, weight in *.
    destruct st, (e_tt r), (e_kt r), (e_recvtxn r); cbn in Hw, Hq; intuition done.
Qed.

(** *** A concrete run *)

(** One terminal in each of warehouses 2 and 3. *)
Definition loop_driver : driver := set_terminals_per_warehouse 1 sample_driver.
Definition loop_part : part := mk_part 0 2 3.
Definition zero_union : transaction_data_t := TD_integrity (mk_integrity 0).

Definition echo (rc : Z) (m : client_transaction_t) : client_transaction_t :=
  mk_client_transaction rc (transaction m) (transaction_data m).

(** Before the time is up, and after it. *)
Definition early_occasions : list (nat * occasion) :=
  [(0%nat, Thought); (1%nat, Thought); (1%nat, Keyed (Some (mk_timeval 100 0)));
   (1%nat, Answered (echo OK) (Some (mk_timeval 100 500000)) 100); (0%nat, Keyed None)].
Definition late_occasions : list (nat * occasion) :=
  [(0%nat, Answered (echo STATUS_ROLLBACK) None 116); (1%nat, Thought); (1%nat, Keyed None);
   (1%nat, Answered (echo ERROR) None 117)].

Definition run_from (os : list (nat * occasion)) (s : proc) : proc * list event :=
  done_or (s, []) (ev_run loop_driver 115 42 sample_log os s).

Definition loop_start : list rte_events :=
  fst (done_or ([], false)
    (open_terminals loop_driver loop_part 2 (connect_rte zero_union (fun k => k + 7)) 5)).
Definition loop_state : proc * list event :=
  run_from early_occasions (mk_proc (pcg64f_srandom_r 7) loop_start).
Definition loop_end : proc * list event := run_from late_occasions loop_state.1.

Lemma loop_part_ok : part_ok loop_driver loop_part.
Proof. vm_compute. repeat split; discriminate. Qed.

Lemma loop_reaches : reaches loop_driver 115 42 sample_log loop_part 2 zero_union (fun k => k + 7)
  5 loop_start (pcg64f_srandom_r 7) early_occasions loop_state.1 loop_state.2.
Proof.
  split; [vm_compute; reflexivity|].
  assert (H : is_done (ev_run loop_driver 115 42 sample_log early_occasions
                         (mk_proc (pcg64f_srandom_r 7) loop_start)) = true)
    by (vm_compute; reflexivity).
  apply (is_done_or (mk_proc (pcg64f_srandom_r 7) loop_start, [])) in H. unfold loop_state, run_from.
  rewrite <- surjective_pairing. exact H.
Qed.

Lemma driver2_terminals_witness :
  (forall k r, pr_rte loop_state.1 !! k = Some r -> exists st, link_of k loop_state.2 = Some st) /\
  map watchers (pr_rte loop_state.1) = [1; 1] /\
  link_of 0 loop_state.2 = Some Awaiting /\ link_of 1 loop_state.2 = Some Ready.
Proof.
  destruct (driver2_terminals loop_driver 115 42 sample_log loop_part 2 zero_union (fun k => k + 7)
    5 loop_start (pcg64f_srandom_r 7) early_occasions loop_state.1 loop_state.2
    loop_part_ok loop_reaches) as (_ & H & _).
  split; [intros k r Hk; destruct (H k r Hk) as (st & Hst & _); by exists st|].
  vm_compute. repeat split.
Defined.

Lemma late_occasions_late : Forall (fun ko => late 115 ko.2) late_occasions.
Proof. repeat constructor; cbn; discriminate. Qed.

Lemma loop_end_run :
  ev_run loop_driver 115 42 sample_log late_occasions loop_state.1 = Done (loop_end.1, loop_end.2).
Proof.
  assert (H : is_done (ev_run loop_driver 115 42 sample_log late_occasions loop_state.1) = true)
    by (vm_compute; reflexivity).
  apply (is_done_or (loop_state.1, [])) in H. unfold loop_end, run_from.
  rewrite <- surjective_pairing. exact H.
Qed.

Lemma driver2_runs_down_witness :
  (List.length late_occasions <= 6)%nat /\ idle loop_end.1 = true /\
  link_of 1 (loop_state.2 ++ loop_end.2) = Some Shut.
Proof.
  destruct (driver2_runs_down loop_driver 115 42 sample_log loop_part 2 zero_union (fun k => k + 7)
    5 loop_start (pcg64f_srandom_r 7) early_occasions loop_state.1 loop_state.2 late_occasions
    loop_end.1 loop_end.2 loop_part_ok loop_reaches ltac:(discriminate) late_occasions_late loop_end_run)
    as (H1 & _ & H2).
  assert (Hi : idle loop_end.1 = true) by (vm_compute; reflexivity).
  split; [exact H1|]. split; [exact Hi|]. apply (H2 Hi). vm_compute. repeat constructor.
Defined.
