(* ===== verification/DriverEmbedded.v ===== *)
(** * The driver with an embedded database: properties of [src/driver3.c]

    The terminals execute their transactions themselves, one after the other on
    one connection; mix.log tells what the database was asked to keep. *)

From Stdlib Require Import ZArith Lia String SpecFloat.
From stdpp Require Import base list.
From S2P Require Import Prelude Double Pcg Text Common TxnData InputData Driver DriverRun DriverSafety DriverFork Db DriverEvents DriverCover DriverLoop.

(** The terminals wait for a timer, or are done. *)
Definition watched3 (d : driver) (home : Z * Z) (r : rte_events) : Prop :=
  place_ok d home.1 home.2 (e_w_id r) (e_d_id r) /\
  (weight r = 3%nat \/ weight r = 0%nat \/
   (weight r = 2%nat /\ message_ok d home.1 home.2 (e_client_data r))).

Definition loop_ok3 (d : driver) (homes : list (Z * Z)) (s : proc) : Prop :=
  Forall (home_within d) homes /\ Forall2 (watched3 d) homes (pr_rte s).

(** One execution: the terminal, its transaction before and after, the calls of
    the database and the line of mix.log. *)
Record executed := mk_executed {
  x_k : nat; x_request : client_transaction_t; x_data : client_transaction_t;
  x_calls : list Db.call; x_line : bytes }.

Definition executed_events (x : executed) : list event :=
  [EvExecute (x_k x) (x_request x) (x_data x) (x_calls x); EvLog (x_line x)].

Section embedded.
Context (d : driver) (stop pid : Z) (log : double -> double) (Hd : driver_ok d).
Context {S : Type} `{DbOps S} `{!DbLaws S} (dbfuel : nat).

(** A line of mix.log about the transaction [data], at the place of [home], with
    the code of its status. *)
Definition line_about (home : Z * Z) (data : client_transaction_t) (line : bytes) : Prop :=
  exists sec letter response_time w dd,
    line = mix_line pid sec letter (next_code (status data) 88) response_time w dd /\
    get_index transaction_short_name (transaction data) = Done letter /\
    place_ok d home.1 home.2 w dd.

(** What an execution did, its line in mix.log with it: the request is one that
    the terminal may make for its warehouse and district, and
    [process_transaction] of that request answered the data and the status. *)
Definition accounted (homes : list (Z * Z)) (x : executed) : Prop :=
  exists home w w', homes !! x_k x = Some home /\
    message_ok d home.1 home.2 (x_request x) /\
    process_transaction stop dbfuel (transaction (x_request x)) (transaction_data (x_request x)) w
    = Some (status (x_data x), transaction_data (x_data x), x_calls x, w') /\
    transaction (x_data x) = transaction (x_request x) /\
    line_about home (x_data x) (x_line x) /\
    executions (x_calls x) <= 2 /\ paired None (x_calls x) /\
    let c := next_code (status (x_data x)) 88 in
    c ∈ [67; 82; 69; 88] /\
    commits (x_calls x) = (if c =? 67 then 1 else 0) /\
    (c = 82 -> ends_with (x_calls x) [CExecute (transaction (x_data x)) ERROR; CRollback STATUS_ROLLBACK]).

Lemma log_line_line home now sec data r r' evs : log_line pid now sec data r = Done (r', evs) ->
  place_ok d home.1 home.2 (e_w_id r) (e_d_id r) ->
  exists line, evs = [EvLog line] /\ line_about home data line.
Proof.
  unfold log_line. destruct (get_index _ _) as [letter| |] eqn:El; [|done..]. intros [= _ <-] Hp.
  eexists. split; [done|]. by do 5 eexists.
Qed.

(** The code of a status. *)
Lemma next_code_cases rc : next_code rc 88 ∈ [67; 82; 69; 88] /\
  (rc =? OK) = (next_code rc 88 =? 67) /\ (next_code rc 88 = 82 -> rc = STATUS_ROLLBACK).
Proof.
  unfold next_code. destruct (Z.eqb_spec rc OK) as [->|]; [split_and!; [left|done..]|].
  destruct (Z.eqb_spec rc STATUS_ROLLBACK) as [->|]; [split_and!; [right; left|done..]|].
  destruct (Z.eqb_spec rc ERROR) as [->|];
    (split_and!; [by apply (bool_decide_unpack _); vm_compute|done..]).
Qed.

Lemma keying_time_cb3_ok home homes before after sec k r g w r' g' evs w' :
  homes !! k = Some home -> watched3 d home r -> weight r = 2%nat ->
  keying_time_cb3 stop pid log dbfuel before after sec k r g w = Done (r', g', evs, w') ->
  watched3 d home r' /\ exists x, evs = executed_events x /\ accounted homes x.
Proof.
  intros Hk [Hp Hst] Hw He. destruct Hst as [Hst|[Hst|[_ Hm]]]; [congruence..|].
  unfold keying_time_cb3 in He.
  destruct (process_transaction _ _ _ _ w) as [[[[rc td] calls] w1]|] eqn:Et; [|done].
  pose proof (attempts_spec stop dbfuel 2 _ 0 _ w rc td calls w1 Et ltac:(done) ltac:(done))
    as (A1 & A2 & A3 & A4 & A5).
  set (data := mk_client_transaction rc _ td) in He.
  destruct (log_line _ _ _ data _) as [[r1 evs1]| |] eqn:El; [|done..].
  destruct (log_line_inv pid _ _ _ _ _ _ El) as (_ & E2 & E3 & E4 & E5 & _).
  destruct (log_line_line home _ _ _ _ _ _ El Hp) as (line & -> & Hc). cbn [mbind outcome_bind] in He.
  assert (Hnow : e_tt r1 = None /\ e_kt r1 = None /\ e_recvtxn r1 = false).
  { cbn in E4, E5. rewrite E4, E5. unfold log_line in El.
    destruct (get_index _ _); [|done..]. injection El as <- _. cbn.
    unfold weight in Hw. by destruct (e_tt r), (e_kt r), (e_recvtxn r). }
  destruct Hnow as (Htt & Hkt & Hrv). cbn in E2, E3.
  assert (Hx : accounted homes (mk_executed k (e_client_data r) data calls line)).
  { unfold accounted; cbv zeta. exists home, w, w1. destruct (next_code_cases rc) as (C1 & C2 & C3). split_and!; try done.
    - cbn. by rewrite <- C2.
    - intros Hr. by apply A4, C3. }
  assert (Hwr : (place_ok d home.1 home.2 (e_w_id r') (e_d_id r') /\ (weight r' = 3%nat \/ weight r' = 0%nat)) /\
    evs = executed_events (mk_executed k (e_client_data r) data calls line)).
  { destruct (goes_on stop sec).
    - destruct (start_thinking log r1 g) as [r2 g2] eqn:Es. injection He as <- _ <- _.
      unfold start_thinking in Es. rewrite bind_unfold in Es.
      destruct (get_think_time _ _ g) as [ms g3]. injection Es as <- _.
      cbn [e_w_id e_d_id]. rewrite E2, E3. split; [split; [done|]|done].
      left. unfold weight. cbn. by rewrite Hkt.
    - injection He as <- _ <- _. rewrite E2, E3. split; [split; [done|]|done].
      right. unfold weight. by rewrite Htt, Hkt, Hrv. }
  destruct Hwr as [[Hpl Hwr] ->]. split; [split; [done|tauto]|]. by eexists.
Qed.

Lemma fire3_ok homes o k s w s' evs w' : loop_ok3 d homes s ->
  fire3 d stop pid log dbfuel o k s w = Done (s', evs, w') ->
  loop_ok3 d homes s' /\ exists xs, evs = concat (map executed_events xs) /\
    Forall (accounted homes) xs.
Proof.
  intros [Hh Hs] Hf. unfold fire3 in Hf. destruct (pr_rte s !! k) as [r|] eqn:Hr; [|done].
  destruct (Forall2_lookup_r _ _ _ _ _ Hs Hr) as (home & Hk & Hw).
  assert (Hhome : home_within d home) by (rewrite Forall_lookup in Hh; by eapply Hh).
  assert (Hupd : forall g r', watched3 d home r' -> loop_ok3 d homes (mk_proc g (<[k:=r']> (pr_rte s)))).
  { intros g r' Hr'. split; [done|]. cbn [pr_rte].
    rewrite <- (list_insert_id homes k home Hk). by apply Forall2_insert. }
  destruct o as [|before after sec].
  - destruct (e_tt r) as [t0|] eqn:Ett; [|done].
    destruct (thinking_time_cb3 d r (pr_rng s)) as [r' g'] eqn:E. injection Hf as <- <- _.
    split; [|by exists []]. apply Hupd. destruct Hw as [Hp Hst].
    assert (Hrv : e_recvtxn r = false).
    { unfold weight in Hst. rewrite Ett in Hst. destruct (e_kt r), (e_recvtxn r); cbn in Hst; intuition done. }
    destruct (thinking_time_cb_ok d Hd home r _ _ _ Hhome Hp Hrv E) as (E1 & E2 & E3).
    split; [done|]. tauto.
  - destruct (e_kt r) as [k0|] eqn:Ekt; [|done].
    destruct (keying_time_cb3 _ _ _ _ _ _ _ _ _ _ _) as [[[[r' g'] evs'] w1]| |] eqn:E; [|done..].
    injection Hf as <- <- _.
    assert (Hwt : weight r = 2%nat).
    { destruct Hw as [_ Hst]. unfold weight in *. rewrite Ekt in *.
      destruct (e_tt r), (e_recvtxn r); cbn in Hst; intuition done. }
    destruct (keying_time_cb3_ok _ _ _ _ _ _ _ _ _ _ _ _ _ Hk Hw Hwt E) as [H1 (x & -> & Hx)].
    split; [by apply Hupd|]. exists [x]. cbn. split; [done|by constructor].
Qed.

Lemma ev_run3_ok homes os : forall s w s' evs w', loop_ok3 d homes s ->
  ev_run3 d stop pid log dbfuel os s w = Done (s', evs, w') ->
  loop_ok3 d homes s' /\ exists xs, evs = concat (map executed_events xs) /\
    Forall (accounted homes) xs.
Proof.
  induction os as [|[k o] os IH]; intros s w s' evs w' Hs Hrun; cbn [ev_run3] in Hrun.
  { injection Hrun as <- <- _. split; [done|]. by exists []. }
  destruct (fire3 _ _ _ _ _ o k s w) as [[[s1 evs1] w1]| |] eqn:E1; [|done..].
  cbn [mbind outcome_bind] in Hrun.
  destruct (ev_run3 _ _ _ _ _ os s1 w1) as [[[s2 evs2] w2]| |] eqn:E2; [|done..].
  injection Hrun as <- <- _.
  destruct (fire3_ok _ _ _ _ _ _ _ _ Hs E1) as [Hs1 (xs1 & -> & H1)].
  destruct (IH _ _ _ _ _ Hs1 E2) as [Hs2 (xs2 & -> & H2)].
  split; [done|]. exists (xs1 ++ xs2). rewrite map_app, concat_app. split; [done|].
  by apply Forall_app.
Qed.
End embedded.

(** C15. What the processes of driver3.c note in mix.log is what their database
    was asked to do, for any back end: the events of the loop are executions,
    each followed by its line.  Each execution is [process_transaction] of exactly
    the data that its terminal made up for its own warehouse and district, the
    status and the data it shows are those that came back, and its line names
    that type, that status and the terminal's place; it is executed at most
    twice, no outcome is committed or rolled back across a reconnection, it is
    committed once if the line says [C] and never otherwise, and the line says
    [R] only if the last call rolled it back. *)
Theorem driver3_log_accounts d stop pid log {S} `{DbOps S} `{!DbLaws S} dbfuel p cap zeroed
    fuel rte g os w s' evs w' :
  part_ok d p ->
  open_terminals d p cap (fun _ i j => Some (new_rte zeroed 0 i j)) fuel = Done (rte, true) ->
  ev_run3 d stop pid log dbfuel os (mk_proc g rte) w = Done (s', evs, w') ->
  exists xs, evs = concat (map executed_events xs) /\
    Forall (accounted d stop pid dbfuel (map place_of rte)) xs.
Proof.
  intros (Hd & Hs & Ht & Hmin & Hmax) Ho Hrun.
  apply open_terminals_fresh in Ho; [|done|intros k i j r [= <-]; by do 2 eexists].
  pose proof (fresh_loop_ok d p g rte Hd Ht Hmin Hmax Ho) as [Hh Hl _ Hw].
  apply (ev_run3_ok d stop pid log Hd dbfuel (map place_of rte)) in Hrun as [_ Hx]; [done|].
  split; [done|]. apply Forall2_same_length_lookup_2; [done|].
  intros k home r Hk Hr. destruct (Hw k r home Hr Hk) as (st & Hst & Hp & Hwt).
  injection Hst as <-. split; [done|]. tauto.
Qed.

(** *** A concrete run, on the scripted database *)

#[local] Existing Instance script_ops.
#[local] Existing Instance script_laws.

Definition embedded_start : list rte_events :=
  match open_terminals loop_driver loop_part 2 (fun _ i j => Some (new_rte zero_union 0 i j)) 5 with
  | Done (rte, _) => rte | _ => [] end.

(** The first transaction is rolled back, the commit of the second fails once. *)
Definition embedded_occasions : list (nat * occasion3) :=
  [(0%nat, Thought3); (1%nat, Thought3); (1%nat, Keyed3 None None 100); (1%nat, Thought3);
   (0%nat, Keyed3 (Some (mk_timeval 100 0)) (Some (mk_timeval 102 0)) 116);
   (1%nat, Keyed3 None None 117)].

#[local] Abbreviation embedded_outcome :=
  (ev_run3 loop_driver 115 42 sample_log 3 embedded_occasions
    (mk_proc (pcg64f_srandom_r 7) embedded_start) [0; 1; 1; 0]).

Definition calls_of (evs : list event) : list (Z * Z) :=
  omap (fun e => match e with EvExecute _ _ _ calls => Some (executions calls, commits calls) | _ => None end) evs.

Lemma embedded_run :
  match embedded_outcome with
  | Done (s, evs, _) => idle s = true /\ calls_of evs = [(1, 0); (2, 1); (1, 1)]
  | _ => False
  end.
Proof. vm_compute. split; reflexivity. Qed.

Lemma driver3_log_accounts_witness : exists s evs w,
  embedded_outcome = Done (s, evs, w) /\ idle s = true /\ calls_of evs = [(1, 0); (2, 1); (1, 1)] /\
  exists xs, evs = concat (map executed_events xs) /\
    Forall (accounted loop_driver 115 42 3 (map place_of embedded_start)) xs.
Proof.
  pose proof embedded_run as H. destruct embedded_outcome as [[[s evs] w]| |] eqn:E;
    [|destruct H|destruct H].
  destruct H as [Hi Hc]. exists s, evs, w. split; [reflexivity|]. split; [exact Hi|]. split; [exact Hc|].
  apply (driver3_log_accounts loop_driver 115 42 sample_log 3 loop_part 2 zero_union 5 embedded_start
    (pcg64f_srandom_r 7) embedded_occasions [0; 1; 1; 0] s evs w loop_part_ok);
    [vm_compute; reflexivity|exact E].
Defined.
