(* ===== verification/Client2.v ===== *)
(** * The client with processes ([src/client2.c])

    The parent accepts the connections of the driver and hands each to one of
    its child processes over a socket pair; a child serves the connections it
    took from one loop of libev, all on its one database connection.  The child
    is a state, its callbacks functions of what the system calls answer.

    A [struct db_context_t] is a value of [D]: the child copies it into the
    watcher of every connection, so that the database operations, which act on
    one context and on the memory and server behind it, the world [W], can find
    the copies out of date. *)

From Stdlib Require Import ZArith Lia String.
From stdpp Require Import base list.
From S2P Require Import Prelude Double Text Common TxnData InputData Socket Driver DriverRun Db.

(** [transaction_name] *)
Definition transaction_name : list bytes :=
  map lit ["delivery    "; "new-order   "; "order-status"; "payment     "; "stock-level "]%string.

(** What the client does to the outside. *)
Inductive client2_event :=
| C2Fork (id : Z) (cpus : list Z) (pinned : bool)
| C2Hand (fd : Z) (sent : bool)
| C2Reply (fd : Z) (data : client_transaction_t) (calls : list Db.call) (sent : bool)
| C2Close (fd : Z).

(** ** The parent *)

(** [accept_cb]: [newsfd] is what [_accept] returns, [sendmsg_ok] whether the
    descriptor could be queued. *)
Definition accept_cb (newsfd : Z) (sendmsg_ok : bool) : list client2_event :=
  if newsfd =? -1 then [] else [C2Hand newsfd sendmsg_ok; C2Close newsfd].

(** The forks of [startup]: the events of the parent, and whether every fork
    worked.  [fork i] is what the parent is returned for child [i]. *)
Fixpoint fork_children (nprocs : Z) (fork : Z -> Z) (setaffinity : list Z -> bool) (n : nat) (i : Z)
  : list client2_event * bool :=
  match n with
  | O => ([], true)
  | S n =>
      if fork i =? -1 then ([], false)
      else
        let cpus := [Z.rem i nprocs] in
        let '(evs, ok) := fork_children nprocs fork setaffinity n (i + 1) in
        (C2Fork i cpus (setaffinity cpus) :: evs, ok)
  end.

(** [startup] in the parent, up to its loop: the value it returns early, if it
    does. *)
Definition startup (nprocs connections_per_process : Z) (socketpair_ok : bool) (fork : Z -> Z)
    (setaffinity : list Z -> bool) : list client2_event * option Z :=
  if negb socketpair_ok then ([], Some 99)
  else
    let connections := i32 (nprocs * connections_per_process) in
    let '(evs, ok) := fork_children nprocs fork setaffinity (Z.to_nat connections) 0 in
    (evs, if (ok : bool) then None else Some 1).

(** ** A child *)

(** [struct recv_io]: the socket, the context, and whether the watcher is
    active. *)
Record recv_io (D : Type) := mk_recv_io { ri_socket : Z; ri_dbc : D; ri_active : bool }.
Arguments mk_recv_io {D} _ _ _.
Arguments ri_socket {D} _.
Arguments ri_dbc {D} _.
Arguments ri_active {D} _.

(** [io_vds], [io_dds] and the world. *)
Record child (D W : Type) := mk_child {
  io_vds : list (recv_io D); dds_dbc : D; dds_active : bool; c_world : W }.
Arguments mk_child {D W} _ _ _ _.
Arguments io_vds {D W} _.
Arguments dds_dbc {D W} _.
Arguments dds_active {D W} _.
Arguments c_world {D W} _.

(** A descriptor arrives from the parent ([length] is what [recvmsg] returns),
    or a message of a driver: what [_receive] returns, the message, and what
    [_send] returns. *)
Inductive occasion2 :=
| Handed (length thissock : Z)
| Message (slot : nat) (rc : Z) (data : client_transaction_t) (send_rc : Z).

(** How [loop_child] goes on before its loop. *)
Inductive child_start (C : Type) := Ends (rc : Z) | Exits (status : Z) | Serves (c : C).
Arguments Ends {C} rc.
Arguments Exits {C} status.
Arguments Serves {C} c.

Section child.
Context {D W : Type} `{DbOps (D * W)}.
Context (max_driver_connections stop_time : Z) (dbfuel : nat).

(** [recv_sock_cb] *)
Definition recv_sock_cb (length thissock : Z) (c : child D W) : outcome (child D W) :=
  if length =? -1 then Done c
  else if length =? 0 then Done (mk_child (io_vds c) (dds_dbc c) false (c_world c))
  else if (thissock <? 1) || (thissock >? max_driver_connections) then Done c
  else
    _ ← get_index (io_vds c) (thissock - 1);
    Done (mk_child (<[Z.to_nat (thissock - 1) := mk_recv_io thissock (dds_dbc c) true]> (io_vds c))
            (dds_dbc c) (dds_active c) (c_world c)).

(** [recv_data_cb], for the watcher [ri] of the slot. *)
Definition recv_data_cb (slot : nat) (ri : recv_io D) (rc : Z) (data : client_transaction_t)
    (send_rc : Z) (c : child D W) : outcome (child D W * list client2_event) :=
  let put ri' w := mk_child (<[slot := ri']> (io_vds c)) (dds_dbc c) (dds_active c) w in
  if (rc =? ERR_SOCKET_CLOSED) || (rc =? -1) then
    Done (put (mk_recv_io (ri_socket ri) (ri_dbc ri) false) (c_world c), [C2Close (ri_socket ri)])
  else
    match process_transaction stop_time dbfuel (transaction data) (transaction_data data)
            (ri_dbc ri, c_world c) with
    | None => Starved
    | Some (status, td, calls, (dbc, w)) =>
        _ ← (if status =? ERROR then get_index transaction_name (transaction data) else Done []);
        Done (put (mk_recv_io (ri_socket ri) dbc true) w,
              [C2Reply (ri_socket ri) (mk_client_transaction status (transaction data) td) calls
                 (negb (send_rc =? -1))])
    end.

(** An active watcher fires. *)
Definition child_fire (o : occasion2) (c : child D W) : outcome (child D W * list client2_event) :=
  match o with
  | Handed length thissock =>
      if dds_active c then c ← recv_sock_cb length thissock c; Done (c, []) else Starved
  | Message slot rc data send_rc =>
      match io_vds c !! slot with
      | Some ri => if ri_active ri then recv_data_cb slot ri rc data send_rc c else Starved
      | None => Starved
      end
  end.

Fixpoint child_run (os : list occasion2) (c : child D W) : outcome (child D W * list client2_event) :=
  match os with
  | [] => Done (c, [])
  | o :: os =>
      '(c, evs) ← child_fire o c;
      '(c, rest) ← child_run os c;
      Done (c, evs ++ rest)
  end.

(** [loop_child] up to [ev_run]; [zeroed] is a context of zero bytes, [dbc] the
    one [init_dbc] fills in.  A child without memory says it ends normally. *)
Definition loop_child (malloc_ok : bool) (zeroed : D) (init : option D) (exiting : bool) (w : W)
  : option (child_start (child D W)) :=
  if negb malloc_ok then Some (Ends 0)
  else match init with
  | None => Some (Ends 1)
  | Some dbc =>
      let table := replicate (Z.to_nat max_driver_connections) (mk_recv_io 0 zeroed false) in
      if exiting then Some (Serves (mk_child table dbc true w))
      else
        '(rc, _, (dbc, w)) ← connect_to_db stop_time dbfuel (dbc, w);
        if negb (rc =? OK) then Some (Exits 1) else Some (Serves (mk_child table dbc true w))
  end.
End child.

(** ** Descriptors *)

(** Slot [k] is for descriptor [k + 1]. *)
Definition slots_ok {D W} (max : Z) (c : child D W) : Prop :=
  zlen (io_vds c) = Z.max 0 max /\
  forall k ri, io_vds c !! k = Some ri -> ri_active ri = true -> ri_socket ri = Z.of_nat k + 1.

Section slots.
Context {D W : Type} `{DbOps (D * W)} (max stop_time : Z) (dbfuel : nat).

Lemma put_slot_ok k (ri : recv_io D) (c : child D W) dds act (w : W) : slots_ok max c ->
  (ri_active ri = true -> ri_socket ri = Z.of_nat k + 1) ->
  slots_ok max (mk_child (<[k := ri]> (io_vds c)) dds act w).
Proof.
  intros [Hl Hs] Hr. split; cbn [io_vds]; [unfold zlen in *; by rewrite length_insert|].
  intros k1 r1 H1 Ha. destruct (decide (k = k1)) as [<-|].
  - destruct (decide (k < List.length (io_vds c))%nat).
    + rewrite list_lookup_insert_eq in H1 by done. injection H1 as <-. auto.
    + rewrite list_insert_ge in H1 by lia. by apply Hs.
  - rewrite list_lookup_insert_ne in H1 by done. by apply Hs.
Qed.

(** A descriptor that the child takes has its place in the table. *)
Lemma child_fire_slots o (c : child D W) c' evs : slots_ok max c ->
  child_fire max stop_time dbfuel o c = Done (c', evs) -> slots_ok max c'.
Proof.
  intros Hc Hf. destruct o as [length fd|k rc data send_rc]; cbn in Hf.
  - destruct (dds_active c); [|done]. unfold recv_sock_cb in Hf.
    destruct (length =? -1); [by injection Hf as <- _|].
    destruct (length =? 0); [by injection Hf as <- _|].
    destruct (Z.ltb_spec fd 1); [by injection Hf as <- _|].
    destruct (Z.gtb_spec fd max); [by injection Hf as <- _|]. cbn [orb] in Hf.
    destruct (get_index (io_vds c) (fd - 1)) as [r| |]; [|done..]. injection Hf as <- _.
    apply put_slot_ok; [done|]. intros _. cbn. lia.
  - destruct (io_vds c !! k) as [ri|] eqn:Hk; [|done]. destruct (ri_active ri) eqn:Ha; [|done].
    unfold recv_data_cb in Hf. destruct (_ || _).
    { injection Hf as <- _. by apply put_slot_ok. }
    destruct (process_transaction _ _ _ _ _) as [[[[status td] calls] [dbc w]]|]; [|done].
    destruct (if status =? ERROR then _ else _); [|done..]. injection Hf as <- _.
    apply put_slot_ok; [done|]. intros _. exact (proj2 Hc k ri Hk Ha).
Qed.

Lemma handed_in_bounds length fd (c : child D W) : slots_ok max c -> dds_active c = true ->
  exists c', child_fire max stop_time dbfuel (Handed length fd) c = Done (c', []).
Proof.
  intros [Hl _] Ha. cbn [child_fire]. rewrite Ha. unfold recv_sock_cb.
  destruct (length =? -1); [by eexists|]. destruct (length =? 0); [by eexists|].
  destruct (Z.ltb_spec fd 1); [by eexists|]. destruct (Z.gtb_spec fd max); [by eexists|].
  cbn [orb]. unfold get_index. rewrite (proj2 (Z.ltb_ge (fd - 1) 0)) by lia.
  destruct (lookup_lt_is_Some_2 (io_vds c) (Z.to_nat (fd - 1))) as [r ->]; [unfold zlen in Hl; lia|].
  by eexists.
Qed.

(** Where the events of an occasion go: to the descriptor of the slot. *)
Definition answers_slot (o : occasion2) (evs : list client2_event) : Prop :=
  match o with
  | Handed _ _ => evs = []
  | Message k rc data send_rc =>
      if (rc =? ERR_SOCKET_CLOSED) || (rc =? -1) then evs = [C2Close (Z.of_nat k + 1)]
      else exists m calls, evs = [C2Reply (Z.of_nat k + 1) m calls (negb (send_rc =? -1))] /\
             transaction m = transaction data
  end.

Lemma child_fire_answers o (c : child D W) c' evs : slots_ok max c ->
  child_fire max stop_time dbfuel o c = Done (c', evs) -> answers_slot o evs.
Proof.
  intros [_ Hs] Hf. destruct o as [length fd|k rc data send_rc]; cbn in Hf |- *.
  - destruct (dds_active c); [|done]. destruct (recv_sock_cb _ _ _ _); [|done..]. by injection Hf as _ <-.
  - destruct (io_vds c !! k) as [ri|] eqn:Hk; [|done]. destruct (ri_active ri) eqn:Ha; [|done].
    unfold recv_data_cb in Hf. rewrite (Hs k ri Hk Ha) in Hf.
    destruct ((rc =? ERR_SOCKET_CLOSED) || (rc =? -1)); [by injection Hf as _ <-|].
    destruct (process_transaction _ _ _ _ _) as [[[[status td] calls] [dbc w]]|]; [|done].
    destruct (if status =? ERROR then _ else _); [|done..]. injection Hf as _ <-.
    by do 2 eexists.
Qed.

Lemma child_run_slots os : forall (c : child D W) c' evs, slots_ok max c ->
  child_run max stop_time dbfuel os c = Done (c', evs) ->
  slots_ok max c' /\ exists evss, evs = concat evss /\ Forall2 answers_slot os evss.
Proof.
  induction os as [|o os IH]; intros c c' evs Hc Hr; cbn [child_run] in Hr.
  { injection Hr as <- <-. split; [done|]. by exists []. }
  destruct (child_fire _ _ _ o c) as [[c1 evs1]| |] eqn:E1; [|done..]. cbn [mbind outcome_bind] in Hr.
  destruct (child_run _ _ _ os c1) as [[c2 evs2]| |] eqn:E2; [|done..]. injection Hr as <- <-.
  destruct (IH _ _ _ (child_fire_slots _ _ _ _ Hc E1) E2) as [H2 (evss & -> & Hall)].
  split; [done|]. exists (evs1 :: evss). split; [done|]. constructor; [|done].
  eapply child_fire_answers; [exact Hc|exact E1].
Qed.
End slots.

(** ** The database connection of the copies *)

(** Contexts that hold a connection by its address, as those of the client
    libraries: [opened w] are the connections that are allocated. *)
Class Handles (D W : Type) `{DbOps (D * W)} := {
  held : D -> Z;
  opened : W -> list Z }.

(** A new connection may get the address of one that was closed. *)
Class HandleLaws (D W : Type) `{Handles D W} : Prop := {
  disconnect_closes : forall d w, held d ∉ opened (disconnect (d, w)).2.2;
  disconnect_keeps : forall d w h, h ∈ opened (disconnect (d, w)).2.2 -> h ∈ opened w;
  connect_opens : forall d w h, h ∈ opened (connect (d, w)).2.2 ->
    h ∈ opened w \/ ((connect (d, w)).1 = OK /\ h = held (connect (d, w)).2.1) }.

(** The other operations leave the connections alone. *)
Definition keeps {D W A : Type} `{Handles D W} (f : D * W -> A * (D * W)) : Prop :=
  forall d w, held (f (d, w)).2.1 = held d /\ opened (f (d, w)).2.2 = opened w.

Class HandleKeeps (D W : Type) `{Handles D W} : Prop := {
  keeps_time : keeps time;
  keeps_sleep : forall d w, held (sleep_retry (d, w)).1 = held d /\ opened (sleep_retry (d, w)).2 = opened w;
  keeps_commit : keeps commit_transaction;
  keeps_rollback : keeps rollback_transaction;
  keeps_execute : forall t td d w rc td' d' w', execute t td (d, w) = Some (rc, td', (d', w')) ->
    held d' = held d /\ opened w' = opened w }.

Section handles.
Context {D W : Type} `{Handles D W} `{!HandleLaws D W} `{!HandleKeeps D W}.
Context (stop_time : Z) (h : Z).

(** [h] is closed; [h] is open only if the context holds it. *)
Definition closed (s : D * W) : Prop := h ∉ opened s.2.
Definition own (s : D * W) : Prop := h ∈ opened s.2 -> h = held s.1.

Lemma connect_own s : closed s ->
  own (connect s).2 /\ ((connect s).1 <> OK -> closed (connect s).2).
Proof.
  destruct s as [d w]. unfold closed, own. cbn [fst snd]. intros Hc. split.
  - intros Hi. apply connect_opens in Hi as [Hi|[_ Hi]]; done.
  - intros Hrc Hi. by apply connect_opens in Hi as [Hi|[Hi _]].
Qed.

Lemma time_closed s : closed s -> closed (time s).2.
Proof. destruct s as [d w]. unfold closed. by destruct (keeps_time d w) as [_ ->]. Qed.

Lemma sleep_closed s : closed s -> closed (sleep_retry s).
Proof. destruct s as [d w]. unfold closed. by destruct (keeps_sleep d w) as [_ ->]. Qed.

Lemma closed_own s : closed s -> own s.
Proof. intros Hc Hi. by destruct Hc. Qed.

Lemma connect_to_db_own fuel : forall s r log s', closed s ->
  connect_to_db stop_time fuel s = Some (r, log, s') -> own s' /\ (r <> OK -> closed s').
Proof.
  induction fuel as [|fuel IH]; intros s r log s' Hs Hc; [done|]. cbn [connect_to_db] in Hc.
  apply time_closed in Hs. destruct (time s) as [now s1]. cbn in Hs.
  destruct (expired stop_time now); [injection Hc as <- _ <-; split; [by apply closed_own|done]|].
  destruct (connect_own s1 Hs) as [Ho Hcl]. destruct (connect s1) as [rc s2].
  cbn [fst snd] in Ho, Hcl. destruct (Z.eqb_spec rc OK) as [->|Hrc].
  { injection Hc as <- _ <-. split; [exact Ho|done]. }
  destruct (connect_to_db _ fuel _) as [[[r1 log1] s3]|] eqn:E; [|done].
  cbn in Hc. injection Hc as <- _ <-. eapply IH; [|exact E]. by apply sleep_closed, Hcl.
Qed.

Lemma reconnect_own fuel : forall s ok log s', closed s ->
  reconnect stop_time fuel s = Some (ok, log, s') -> own s'.
Proof.
  induction fuel as [|fuel IH]; intros s ok log s' Hs Hc; [done|]. cbn [reconnect] in Hc.
  apply time_closed in Hs. destruct (time s) as [now s1]. cbn in Hs.
  destruct (expired stop_time now); [injection Hc as _ _ <-; by apply closed_own|].
  destruct (connect_to_db _ _ s1) as [[[r1 log1] s2]|] eqn:E; [|done].
  destruct (connect_to_db_own _ _ _ _ _ Hs E) as [Ho Hcl]. cbn [mbind option_bind] in Hc.
  destruct (Z.eqb_spec r1 OK) as [->|Hr1]; [by injection Hc as _ _ <-|].
  destruct (reconnect _ fuel _) as [[[ok2 log2] s3]|] eqn:E2; [|done].
  injection Hc as _ _ <-. eapply IH; [|exact E2]. by apply sleep_closed, Hcl.
Qed.

Lemma keeps_own (s s' : D * W) : held s'.1 = held s.1 -> opened s'.2 = opened s.2 -> own s -> own s'.
Proof. unfold own. by intros -> ->. Qed.

Lemma finish_keeps rc status s status' log left_ s' :
  finish rc status s = (status', log, left_, s') ->
  held s'.1 = held s.1 /\ opened s'.2 = opened s.2 /\ Forall (fun c => ~ linking c) log.
Proof.
  destruct s as [d w]. unfold finish. destruct (rc =? OK).
  { destruct (keeps_commit d w) as [H1 H2]. destruct (commit_transaction (d, w)) as [st s1].
    intros [= _ <- _ <-]. split_and!; [done..|]. repeat constructor. by intros []. }
  destruct (rc =? ERROR).
  { destruct (keeps_rollback d w) as [H1 H2]. destruct (rollback_transaction (d, w)) as [st s1].
    intros [= _ <- _ <-]. split_and!; [done..|]. repeat constructor. by intros []. }
  by intros [= _ <- _ <-].
Qed.

(** After a reconnection the old connection is open only if its address came
    back; without one, nothing has changed. *)
Lemma attempts_own fuel n t : forall status td s r td' log s',
  attempts stop_time fuel n t status td s = Some (r, td', log, s') ->
  (own s -> own s') /\
  (Forall (fun c => ~ linking c) log -> held s'.1 = held s.1 /\ opened s'.2 = opened s.2) /\
  (~ Forall (fun c => ~ linking c) log -> h = held s.1 -> own s').
Proof.
  induction n as [|n IH]; intros status td s r td' log s' Ha; cbn [attempts] in Ha.
  { injection Ha as _ _ <- <-. split_and!; [done..|]. intros Hn. destruct Hn. constructor. }
  destruct (negb _).
  { injection Ha as _ _ <- <-. split_and!; [done..|]. intros Hn. destruct Hn. constructor. }
  destruct (execute t td s) as [[[rc td1] s1]|] eqn:Ee; [|done]. cbn [mbind option_bind] in Ha.
  assert (He : held s1.1 = held s.1 /\ opened s1.2 = opened s.2).
  { destruct s as [d w], s1 as [d1 w1]. by apply keeps_execute in Ee. }
  destruct (finish rc status s1) as [[[status1 log1] left1] s2] eqn:Hf.
  destruct (finish_keeps _ _ _ _ _ _ _ Hf) as (F1 & F2 & F3).
  rewrite (proj1 He) in F1. rewrite (proj2 He) in F2.
  assert (Hx : forall l, Forall (fun c => ~ linking c) l -> Forall (fun c => ~ linking c) (CExecute t rc :: l)).
  { intros l Hl. constructor; [by intros []|done]. }
  destruct left1.
  { injection Ha as _ _ <- <-. split_and!; [by apply keeps_own|done|]. intros Hn. by destruct Hn; apply Hx. }
  unfold disconnect_from_db in Ha.
  assert (Hd : h = held s.1 \/ own s -> closed (disconnect s2).2).
  { destruct s2 as [d2 w2]. cbn in F1, F2. unfold closed, own. intros Ho Hi.
    pose proof (disconnect_keeps d2 w2 h Hi) as Hk. rewrite F2 in Hk.
    assert (h = held d2) as -> by (rewrite F1; destruct Ho; auto).
    by apply (disconnect_closes d2 w2). }
  destruct (disconnect s2) as [x s3]. cbn [fst snd] in Hd.
  destruct (reconnect stop_time fuel s3) as [[[ok rlog] s4]|] eqn:Hr; [|done].
  cbn [mbind option_bind] in Ha.
  assert (Hown : h = held s.1 \/ own s -> own s4) by (intros Ho; eapply reconnect_own; [by apply Hd|exact Hr]).
  assert (Hlink : forall l l' : list Db.call, ~ Forall (fun c => ~ linking c) (l ++ CDisconnect x :: l')).
  { intros l l' Hall. apply Forall_app in Hall as [_ Hall]. apply Forall_inv in Hall. by apply Hall. }
  destruct ok.
  - destruct (attempts stop_time fuel n t status1 td1 s4) as [[[[r2 td2] rest] s5]|] eqn:Ha'; [|done].
    injection Ha as _ _ <- <-. destruct (IH _ _ _ _ _ _ _ Ha') as (I1 & _).
    split_and!; [intros Ho; apply I1, Hown; by right| |intros _ Ho; apply I1, Hown; by left].
    intros Hall. destruct (Hlink (CExecute t rc :: log1) (rlog ++ rest) Hall).
  - injection Ha as _ _ <- <-. split_and!; [intros Ho; apply Hown; by right| |intros _ Ho; apply Hown; by left].
    intros Hall. destruct (Hlink (CExecute t rc :: log1) rlog Hall).
Qed.
End handles.

(** C14. A child of the client serves every connection in its place: whatever the
    parent hands over, no access to the table of connections is out of its
    bounds, a descriptor that is taken has the slot of its number, and on every
    occasion the child writes at most one message, to the descriptor of the slot
    that asked and about the transaction asked for, or closes that descriptor. *)
Theorem client2_serves {D W} `{DbOps (D * W)} max stop_time dbfuel malloc_ok zeroed init exiting w c
    os c' evs :
  loop_child max stop_time dbfuel malloc_ok zeroed init exiting w = Some (Serves c) ->
  child_run max stop_time dbfuel os c = Done (c', evs) ->
  slots_ok max c' /\
  (exists evss, evs = concat evss /\ Forall2 answers_slot os evss) /\
  (dds_active c' = true -> forall length fd, exists c'',
     child_fire max stop_time dbfuel (Handed length fd) c' = Done (c'', []) /\
     (length <> -1 -> length <> 0 -> 1 <= fd <= max ->
      io_vds c'' !! Z.to_nat (fd - 1) = Some (mk_recv_io fd (dds_dbc c') true))).
Proof.
  intros Hl Hr. assert (Hc : slots_ok max c).
  { unfold loop_child in Hl. destruct malloc_ok; [|done]. destruct init as [dbc|]; [|done].
    assert (Ht : forall w, slots_ok max (mk_child (W := W)
      (replicate (Z.to_nat max) (mk_recv_io 0 zeroed false)) dbc true w)).
    { intros w1. split; cbn [io_vds]; [unfold zlen; rewrite length_replicate; lia|].
      intros k ri Hk Ha. by apply lookup_replicate in Hk as [-> _]. }
    cbn [negb] in Hl. destruct exiting; [injection Hl as <-; apply Ht|].
    destruct (connect_to_db _ _ _) as [[[rc log] [d1 w1]]|]; [|done]. cbn in Hl.
    destruct (negb _); [done|]. injection Hl as <-. destruct (Ht w1) as [T1 T2].
    split; [exact T1|]. intros k ri Hk Ha. exact (T2 k ri Hk Ha). }
  destruct (child_run_slots max stop_time dbfuel os c c' evs Hc Hr) as [Hc' Hev].
  split; [done|]. split; [done|]. intros Ha length fd.
  destruct (handed_in_bounds max stop_time dbfuel length fd c' Hc' Ha) as [c'' Hf].
  exists c''. split; [done|]. intros H1 H2 Hfd. cbn [child_fire] in Hf. rewrite Ha in Hf.
  unfold recv_sock_cb in Hf. rewrite (proj2 (Z.eqb_neq _ _) H1), (proj2 (Z.eqb_neq _ _) H2) in Hf.
  destruct (Z.ltb_spec fd 1); [lia|]. destruct (Z.gtb_spec fd max); [lia|]. cbn [orb] in Hf.
  destruct (get_index (io_vds c') (fd - 1)) as [r| |] eqn:E; [|done..]. injection Hf as <-.
  cbn [io_vds]. apply list_lookup_insert_eq. destruct Hc' as [Hlen _]. unfold zlen in Hlen. lia.
Qed.

(** C31. The copies of the database context go stale: when serving one connection
    made the child reconnect, the connection held by the watcher of any other,
    and by the context that new connections will copy, if they shared it, is
    closed, unless the new one happens to have the same address; when it did
    not reconnect, every copy still holds the connection it held, open. *)
Theorem client2_stale_connections {D W} `{Handles D W} `{!HandleLaws D W} `{!HandleKeeps D W}
    max stop_time dbfuel slot ri rc data send_rc c c' fd m calls sent :
  io_vds c !! slot = Some ri -> held (ri_dbc ri) = held (dds_dbc c) ->
  child_fire max stop_time dbfuel (Message slot rc data send_rc) c
    = Done (c', [C2Reply fd m calls sent]) ->
  dds_dbc c' = dds_dbc c /\
  (forall k rk, k <> slot -> io_vds c !! k = Some rk -> io_vds c' !! k = Some rk) /\
  exists ri', io_vds c' !! slot = Some ri' /\
  (Forall (fun x => ~ linking x) calls ->
     held (ri_dbc ri') = held (ri_dbc ri) /\ opened (c_world c') = opened (c_world c)) /\
  (~ Forall (fun x => ~ linking x) calls ->
     held (dds_dbc c') ∈ opened (c_world c') -> held (dds_dbc c') = held (ri_dbc ri')).
Proof.
  intros Hs Hh Hf. cbn [child_fire] in Hf. rewrite Hs in Hf.
  destruct (ri_active ri); [|done]. unfold recv_data_cb in Hf. destruct (_ || _); [done|].
  destruct (process_transaction _ _ _ _ _) as [[[[status td] cs] [dbc w]]|] eqn:E; [|done].
  destruct (if status =? ERROR then _ else _); [|done..]. injection Hf as <- _ _ <- _.
  apply (attempts_own stop_time (held (dds_dbc c))) in E as (_ & E1 & E2). cbn in E1, E2.
  split; [done|]. split; [intros k rk Hne Hk; cbn [io_vds]; by rewrite list_lookup_insert_ne|].
  exists (mk_recv_io (ri_socket ri) dbc true). split.
  { cbn [io_vds]. apply list_lookup_insert_eq. by eapply lookup_lt_Some. }
  split; [done|]. intros Hn Hin. cbn in *. apply E2; done.
Qed.

(** *** A client library in miniature

    The world is the next address, the open connections, and a script of what
    the operations answer, 0 for a failure. *)
Definition toy_world : Type := Z * list Z * list Z.

Definition toy_answer {A} (bad good : Z) (s : Z * toy_world) (a : A) : Z * A * (Z * toy_world) :=
  let '(h, (next, open, script)) := s in
  (if hd 1 script =? 0 then bad else good, a, (h, (next, open, tl script))).

Definition toy_execute {A} (a : A) (s : Z * toy_world) : Z * A * (Z * toy_world) :=
  toy_answer (-1) OK s a.
Definition toy_status (bad good : Z) (s : Z * toy_world) : Z * (Z * toy_world) :=
  let '(rc, _, s) := toy_answer bad good s tt in (rc, s).

#[local] Instance toy_ops : DbOps (Z * toy_world) := {
  time s := (0, s);
  sleep_retry s := s;
  connect s := let '(_, (next, open, script)) := s in (OK, (next, (next + 1, next :: open, script)));
  disconnect s := let '(h, (next, open, script)) := s in
                  (OK, (h, (next, List.filter (fun x => negb (x =? h)) open, script)));
  commit_transaction := toy_status ERROR OK;
  rollback_transaction := toy_status ERROR STATUS_ROLLBACK;
  execute_integrity := toy_execute;
  execute_delivery := toy_execute;
  execute_new_order := toy_execute;
  execute_order_status := toy_execute;
  execute_payment := toy_execute;
  execute_stock_level := toy_execute }.

#[local] Instance toy_handles : Handles Z toy_world := { held h := h; opened w := w.1.2 }.

#[local] Instance toy_laws : HandleLaws Z toy_world.
Proof.
  constructor.
  - intros h [[next open] script]. cbn. rewrite list_elem_of_In, filter_In, Z.eqb_refl. by intros [_ ?].
  - intros h [[next open] script] x. cbn. rewrite !list_elem_of_In, filter_In. by intros [? _].
  - intros h [[next open] script] x. cbn. rewrite elem_of_cons. tauto.
Qed.

#[local] Instance toy_keeps : HandleKeeps Z toy_world.
Proof.
  constructor.
  - by intros h [[next open] script].
  - by intros h [[next open] script].
  - by intros h [[next open] script].
  - by intros h [[next open] script].
  - intros t td h [[next open] script] rc td' d' w' He. unfold execute in He.
    repeat (destruct (t =? _); [destruct td; try done; unfold execute_new_order_checked in He; cbn in He;
      try destruct (negb _ && _); by injection He as _ _ <- <-|]).
    destruct td; try done. cbn in He. by injection He as _ _ <- <-.
Qed.

(** Two connections, then a Delivery whose execution fails once on the first. *)
Definition toy_message : client_transaction_t :=
  mk_client_transaction 0 DELIVERY (TD_delivery (mk_delivery 1 2)).

Definition toy_child : child Z toy_world :=
  match loop_child 8 0 3 true 0 (Some 0) false (1, [], [0]) with
  | Some (Serves c) => c | _ => mk_child [] 0 false (0, [], []) end.

Definition toy_run (os : list occasion2) (c : child Z toy_world)
  : child Z toy_world * list client2_event :=
  match child_run 8 0 3 os c with Done r => r | _ => (c, []) end.

Definition toy_connected : child Z toy_world := (toy_run [Handed 1 5; Handed 1 7] toy_child).1.
Definition toy_served : child Z toy_world * list client2_event :=
  toy_run [Message 4 1 toy_message 1] toy_connected.

Lemma client2_serves_witness :
  slots_ok 8 toy_connected /\ map ri_socket (List.filter ri_active (io_vds toy_connected)) = [5; 7].
Proof.
  assert (H1 : loop_child 8 0 3 true 0 (Some 0) false (1, [], [0]) = Some (Serves toy_child))
    by (vm_compute; reflexivity).
  assert (H2 : child_run 8 0 3 [Handed 1 5; Handed 1 7] toy_child = Done (toy_connected, []))
    by (vm_compute; reflexivity).
  destruct (client2_serves _ _ _ _ _ _ _ _ _ _ _ _ H1 H2) as [H _].
  split; [exact H|vm_compute; reflexivity].
Defined.

(** The second connection is left with a closed database connection. *)
Lemma client2_stale_connections_witness :
  match io_vds toy_served.1 !! 6%nat with
  | Some ri => ri_active ri = true /\ (held (ri_dbc ri) ∈ opened (c_world toy_served.1) -> False)
  | None => False
  end.
Proof.
  assert (Hf : child_fire 8 0 3 (Message 4 1 toy_message 1) toy_connected = Done (toy_served.1,
    [C2Reply 5 (mk_client_transaction OK DELIVERY (TD_delivery (mk_delivery 1 2)))
      [CExecute DELIVERY (-1); CDisconnect OK; CConnect OK;
       CExecute DELIVERY OK; CCommit OK] true])) by (vm_compute; reflexivity).
  assert (Hs : io_vds toy_connected !! 4%nat = Some (mk_recv_io 5 1 true)) by (vm_compute; reflexivity).
  assert (Hh : held 1 = held (dds_dbc toy_connected)) by (vm_compute; reflexivity).
  destruct (client2_stale_connections _ _ _ _ _ _ _ _ _ _ _ _ _ _ Hs Hh Hf) as (_ & Hk & ri' & Hri & _ & H).
  rewrite (Hk 6%nat (mk_recv_io 7 1 true) ltac:(discriminate) ltac:(vm_compute; reflexivity)). split; [reflexivity|].
  intros Hin. assert (He : held (dds_dbc toy_served.1) = held (ri_dbc ri')).
  { apply H; [|exact Hin]. intros Hall. rewrite !Forall_cons in Hall.
    destruct Hall as (_ & Hd & _). apply Hd. exact I. }
  assert (Hri' : io_vds toy_served.1 !! 4%nat = Some (mk_recv_io 5 2 true)) by (vm_compute; reflexivity).
  rewrite Hri' in Hri. injection Hri as <-. vm_compute in He. discriminate He.
Defined.
