(* ===== verification/DbWorker.v ===== *)
(** * A database worker of the client ([db_worker] of [src/db_threadpool.c])

    The function a thread runs, from its connection to its end, as the sequence
    of what it does: [Client] has the same loop as steps between those of other
    threads, this file what is in each turn of it.  The queue is the list of what
    [dequeue_transaction] returns; the loop ends when [exiting] is found set. *)

From Stdlib Require Import ZArith Lia.
From stdpp Require Import base list.
From S2P Require Import Prelude Text Common TxnData InputData Db Queue Client ClientMain Socket Driver DriverRun Client2.

(** A node of the queue, as far as a worker uses it. *)
Record request := mk_request { rq_s : Z; rq_data : client_transaction_t }.

(** A turn of the loop: the node, null at times, what [send_transaction_data]
    answers, and the time. *)
Record turn := mk_turn { tn_node : option request; tn_length : Z; tn_time : Z }.

Inductive worker_event :=
| WkExecute (transaction : Z) (calls : list call)
| WkSend (s : Z) (m : client_transaction_t)
| WkRecycle (s : Z)
| WkDisconnect (calls : list call)
| WkWait.                                    (** [sem_wait(&db_worker_count)] *)

(** The database, the statistics of all workers, and the row of
    [transaction_counter] for transactions that are executed. *)
Record wstate (W : Type) := mk_wstate {
  ws_world : W; worker_count : list Z; last_txn : list Z; executing : list Z }.
Arguments mk_wstate {W} ws_world worker_count last_txn executing.
Arguments ws_world {W} w.
Arguments worker_count {W} w.
Arguments last_txn {W} w.
Arguments executing {W} w.

Inductive worker_end (W : Type) :=
| WkReturned (s : wstate W) (evs : list worker_event)
| WkExit (status : Z).                       (** [exit(1)]: the whole client *)
Arguments WkReturned {W} s evs.
Arguments WkExit {W} status.

Section worker.
Context {W : Type} `{DbOps W} (stop_time : Z) (fuel : nat) (id : Z).

(** [arr\[i\] += d] *)
Definition add_at (arr : list Z) (i d : Z) : outcome (list Z) :=
  x ← get_index arr i; Done (<[Z.to_nat i := i32 (x + d)]> arr).

Definition db_turn (t : turn) (st : wstate W) : outcome (wstate W * list worker_event) :=
  match tn_node t with
  | None => Done (st, [])
  | Some rq =>
      let data := rq_data rq in
      match process_transaction stop_time fuel (transaction data) (transaction_data data) (ws_world st) with
      | None => Starved
      | Some (status, td, calls, w) =>
          let data := mk_client_transaction status (transaction data) td in
          _ ← (if status =? ERROR then get_index transaction_name (transaction data) else Done []);
          executing ← add_at (executing st) (transaction data) (-1);
          counts ← add_at (worker_count st) id 1;
          _ ← get_index (last_txn st) id;
          Done (mk_wstate w counts (<[Z.to_nat id := tn_time t]> (last_txn st)) executing,
                [WkExecute (transaction data) calls; WkSend (rq_s rq) data; WkRecycle (rq_s rq)])
      end
  end.

Fixpoint db_turns (ts : list turn) (st : wstate W) : outcome (wstate W * list worker_event) :=
  match ts with
  | [] => Done (st, [])
  | t :: ts =>
      '(st, evs) ← db_turn t st;
      '(st, evs') ← db_turns ts st;
      Done (st, evs ++ evs')
  end.

Definition db_worker (supported : Z -> bool) (dbms : Z) (exiting : bool) (ts : list turn) (st : wstate W)
  : outcome (worker_end W) :=
  if negb (init_dbc supported dbms) then Done (WkReturned st [])
  else
    '(rc, w) ← (if exiting then Done (OK, ws_world st)
                else match connect_to_db stop_time fuel (ws_world st) with
                     | None => Starved
                     | Some (rc, _, w) => Done (rc, w)
                     end);
    if negb (rc =? OK) then Done (WkExit 1)
    else
      let st := mk_wstate w (worker_count st) (last_txn st) (executing st) in
      '(st, evs) ← (if exiting then Done (st, []) else db_turns ts st);
      let '(_, calls, w) := disconnect_from_db (ws_world st) in
      Done (WkReturned (mk_wstate w (worker_count st) (last_txn st) (executing st))
              (evs ++ [WkDisconnect calls; WkWait])).
End worker.

(** ** Every request is answered once *)

Section answers.
Context {W : Type} `{DbOps W} `{!DbLaws W} (stop_time : Z) (fuel : nat) (id : Z).

(** What a worker does about one request: [process_transaction] of its data, the
    answer with the status and the data that came back to its socket, the node
    back to the pool. *)
Definition answered (rq : request) (evs : list worker_event) : Prop :=
  let t := transaction (rq_data rq) in
  exists calls status td w w',
    process_transaction stop_time fuel t (transaction_data (rq_data rq)) w = Some (status, td, calls, w') /\
    evs = [WkExecute t calls; WkSend (rq_s rq) (mk_client_transaction status t td); WkRecycle (rq_s rq)] /\
    executions calls <= 2 /\ commits calls = (if status =? OK then 1 else 0) /\
    (status = STATUS_ROLLBACK -> ends_with calls [CExecute t ERROR; CRollback STATUS_ROLLBACK]).

Lemma add_at_done arr i d arr' : add_at arr i d = Done arr' ->
  exists x, 0 <= i /\ arr !! Z.to_nat i = Some x /\ arr' = <[Z.to_nat i := i32 (x + d)]> arr.
Proof.
  unfold add_at, get_index. destruct (Z.ltb_spec i 0); [done|].
  destruct (arr !! Z.to_nat i) as [x|] eqn:E; [|done]. intros [= <-]. by exists x.
Qed.

Lemma db_turn_spec t st st' evs : db_turn stop_time fuel id t st = Done (st', evs) ->
  match tn_node t with
  | None => st' = st /\ evs = []
  | Some rq => answered rq evs /\
      (exists x, 0 <= id /\ worker_count st !! Z.to_nat id = Some x /\
         worker_count st' = <[Z.to_nat id := i32 (x + 1)]> (worker_count st)) /\
      (exists x, 0 <= transaction (rq_data rq) /\
         executing st !! Z.to_nat (transaction (rq_data rq)) = Some x /\
         executing st' = <[Z.to_nat (transaction (rq_data rq)) := i32 (x - 1)]> (executing st)) /\
      last_txn st' = <[Z.to_nat id := tn_time t]> (last_txn st)
  end.
Proof.
  unfold db_turn. destruct (tn_node t) as [rq|]; [|by intros [= <- <-]].
  destruct (process_transaction _ _ _ _ _) as [[[[status td] calls] w]|] eqn:Ep; [|done].
  pose proof Ep as Hp. apply (attempts_spec stop_time fuel 2 _ 0) in Ep as (A1 & A2 & _ & A4 & _); [|done..].
  destruct (if status =? ERROR then _ else _); [|done..]. cbn [mbind outcome_bind transaction].
  destruct (add_at (executing st) _ _) as [ex| |] eqn:E1; [|done..]. cbn [mbind outcome_bind].
  destruct (add_at (worker_count st) _ _) as [wc| |] eqn:E2; [|done..]. cbn [mbind outcome_bind].
  destruct (get_index (last_txn st) id); [|done..]. intros [= <- <-]. cbn.
  apply add_at_done in E1 as (x1 & Ht & L1 & ->). apply add_at_done in E2 as (x2 & Hid & L2 & ->).
  split; [by exists calls, status, td, (ws_world st), w|]. split; [by exists x2|]. split; [by exists x1|done].
Qed.

Lemma db_turns_spec ts : forall st st' evs n0,
  db_turns stop_time fuel id ts st = Done (st', evs) -> worker_count st !! Z.to_nat id = Some n0 ->
  0 <= n0 -> n0 + zlen (omap tn_node ts) < 2 ^ 31 ->
  exists evss, evs = concat evss /\ Forall2 answered (omap tn_node ts) evss /\
    worker_count st' = <[Z.to_nat id := n0 + zlen (omap tn_node ts)]> (worker_count st).
Proof.
  induction ts as [|t ts IH]; intros st st' evs n0 Hr Hn H0 Hlt; cbn [db_turns] in Hr.
  { injection Hr as <- <-. exists []. split; [done|]. split; [constructor|].
    cbn. rewrite Z.add_0_r. by rewrite list_insert_id. }
  destruct (db_turn _ _ _ _ _) as [[st1 evs1]| |] eqn:E1; [|done..]. cbn [mbind outcome_bind] in Hr.
  destruct (db_turns _ _ _ ts st1) as [[st2 evs2]| |] eqn:E2; [|done..]. injection Hr as <- <-.
  apply db_turn_spec in E1. cbn [omap list_omap] in *. destruct (tn_node t) as [rq|] eqn:Et.
  - destruct E1 as (Ha & (x & _ & Hx & Hc) & _). rewrite Hn in Hx. injection Hx as <-.
    unfold zlen in *. cbn [List.length] in *. rewrite Nat2Z.inj_succ in *.
    rewrite i32_small in Hc by lia.
    destruct (IH st1 st2 evs2 (n0 + 1) E2) as (evss & -> & Hf & Hw); [|lia..|].
    { rewrite Hc. apply list_lookup_insert_eq. by eapply lookup_lt_Some. }
    exists (evs1 :: evss). split; [done|]. split; [by constructor|].
    rewrite Hw, Hc, list_insert_insert_eq. f_equal. lia.
  - destruct E1 as [-> ->]. exact (IH st st2 evs2 n0 E2 Hn H0 Hlt).
Qed.

Lemma get_index_in {A} (arr : list A) i : 0 <= i < zlen arr -> exists x, get_index arr i = Done x.
Proof.
  intros Hi. unfold get_index. destruct (Z.ltb_spec i 0); [lia|].
  destruct (lookup_lt_is_Some_2 arr (Z.to_nat i)) as [x ->]; [unfold zlen in *; lia|]. by exists x.
Qed.

(** The statistics have a slot for the worker, and a counter for every
    transaction. *)
Definition slots (st : wstate W) : Prop :=
  0 <= id < zlen (worker_count st) /\ id < zlen (last_txn st) /\ zlen (executing st) = TRANSACTION_MAX.

Definition in_range (rq : request) : Prop := 0 <= transaction (rq_data rq) < TRANSACTION_MAX.

Lemma db_turns_in_bounds ts : forall st, slots st -> Forall in_range (omap tn_node ts) ->
  db_turns stop_time fuel id ts st <> Fault.
Proof.
  induction ts as [|t ts IH]; intros st Hs Hr; cbn [db_turns]; [done|].
  assert (Hturn : db_turn stop_time fuel id t st <> Fault /\
    forall st' evs, db_turn stop_time fuel id t st = Done (st', evs) -> slots st').
  { destruct Hs as (S1 & S2 & S3). unfold db_turn. cbn [omap list_omap] in Hr.
    destruct (tn_node t) as [rq|]; [|split; [done|by intros ? ? [= <- _]]].
    apply Forall_cons in Hr as [Hrq _].
    destruct (process_transaction _ _ _ _ _) as [[[[status td] calls] w]|]; [|done].
    destruct (get_index_in transaction_name (transaction (rq_data rq)) Hrq) as [n E0].
    destruct (get_index_in (executing st) (transaction (rq_data rq))) as [x E1]; [by rewrite S3|].
    destruct (get_index_in (worker_count st) id S1) as [y E2].
    destruct (get_index_in (last_txn st) id) as [z E3]; [lia|].
    unfold add_at. cbn [transaction]. rewrite E0, E1, E2, E3. destruct (status =? ERROR); cbn.
    all: split; [done|intros ? ? [= <- _]; unfold slots, zlen in *; cbn; rewrite !length_insert; lia]. }
  destruct Hturn as [H1 H2]. destruct (db_turn _ _ _ _ _) as [[st1 evs1]| |]; [|done..].
  cbn [mbind outcome_bind].
  assert (Hr' : Forall in_range (omap tn_node ts)).
  { cbn [omap list_omap] in Hr. destruct (tn_node t); [by apply Forall_cons in Hr as [_ ?]|done]. }
  pose proof (IH st1 (H2 st1 evs1 eq_refl) Hr') as H3. by destruct (db_turns _ _ _ ts st1) as [[? ?]| |].
Qed.

(** A worker that got through its turns has met the five types only. *)
Lemma db_turns_ranges ts : forall st st' evs, zlen (executing st) = TRANSACTION_MAX ->
  db_turns stop_time fuel id ts st = Done (st', evs) -> Forall in_range (omap tn_node ts).
Proof.
  induction ts as [|t ts IH]; intros st st' evs Hl Hr; cbn [db_turns] in Hr; [by constructor|].
  destruct (db_turn _ _ _ _ _) as [[st1 evs1]| |] eqn:E1; [|done..]. cbn [mbind outcome_bind] in Hr.
  destruct (db_turns _ _ _ ts st1) as [[st2 evs2]| |] eqn:E2; [|done..].
  apply db_turn_spec in E1. cbn [omap list_omap]. destruct (tn_node t) as [rq|] eqn:Et.
  - destruct E1 as (_ & _ & (x & H0 & Hx & He) & _). constructor.
    + apply lookup_lt_Some in Hx. unfold in_range, zlen in *. lia.
    + eapply (IH st1); [|exact E2]. rewrite He. unfold zlen in *. by rewrite length_insert.
  - destruct E1 as [-> _]. by eapply IH.
Qed.

(** C35. As long as the requests are of the five types of [transaction_counter],
    no access of a worker is out of bounds; and a worker that has returned (which
    one that took another type, as the [INTEGRITY] of the driver, cannot) has
    answered each request it took from the queue exactly once, in the order it
    took them: to the socket of the request, with the status and the data that
    [process_transaction] made of the request's, at most two executions, of which
    one was committed if the answer says OK and none otherwise; then it gave the
    node back.  At the end it has counted the requests in its own slot, has
    disconnected and left the count of workers. *)
Theorem db_worker_answers supported dbms ts (st : wstate W) n0 :
  slots st -> worker_count st !! Z.to_nat id = Some n0 -> 0 <= n0 -> n0 + zlen (omap tn_node ts) < 2 ^ 31 ->
  (Forall in_range (omap tn_node ts) -> db_worker stop_time fuel id supported dbms false ts st <> Fault) /\
  forall st' evs, init_dbc supported dbms = true ->
    db_worker stop_time fuel id supported dbms false ts st = Done (WkReturned st' evs) ->
    Forall in_range (omap tn_node ts) /\
    exists evss calls, evs = concat evss ++ [WkDisconnect calls; WkWait] /\
      Forall2 answered (omap tn_node ts) evss /\
      worker_count st' = <[Z.to_nat id := n0 + zlen (omap tn_node ts)]> (worker_count st).
Proof.
  intros Hs Hn H0 Hlt. unfold db_worker. destruct (init_dbc supported dbms); cbn [negb]; [|by split].
  destruct (connect_to_db stop_time fuel (ws_world st)) as [[[rc log] w]|]; [|by split].
  cbn [mbind outcome_bind]. destruct (negb (rc =? OK)); [by split|].
  set (st0 := mk_wstate w _ _ _).
  pose proof (db_turns_in_bounds ts st0 Hs) as Hb.
  destruct (db_turns stop_time fuel id ts st0) as [[st1 evs1]| |] eqn:Et; cbn [mbind outcome_bind];
    [|split; [intros Hr; by destruct (Hb Hr)|done]|by split].
  destruct (disconnect_from_db (ws_world st1)) as [[rc2 calls] w2]. split; [by intros _|].
  intros st' evs _ [= <- <-]. split; [exact (db_turns_ranges ts st0 st1 evs1 (proj2 (proj2 Hs)) Et)|].
  destruct (db_turns_spec ts st0 st1 evs1 n0 Et Hn H0 Hlt) as (evss & -> & Hf & Hw).
  exists evss, calls. done.
Qed.
End answers.

(** *** A concrete worker, on the scripted database *)

#[local] Existing Instance script_ops.
#[local] Existing Instance script_laws.

Definition delivery_request (s w_id : Z) : request :=
  mk_request s (mk_client_transaction 0 DELIVERY (TD_delivery (mk_delivery w_id 2))).

(** The second of three workers; a turn without a node; a commit that fails. *)
Definition worker_turns : list turn :=
  [mk_turn (Some (delivery_request 7 1)) 64 1000; mk_turn None 0 1000;
   mk_turn (Some (delivery_request 9 2)) 64 1001].

Definition worker_start_state : wstate (list Z) :=
  mk_wstate [1; 1; 0; 1; 1; 1; 1] [5; 6; 7] [900; 900; 900] [2; 0; 0; 0; 0].

Definition worker_run : outcome (worker_end (list Z)) :=
  db_worker 0 3 1 (fun _ => true) DBMSLIBPQ false worker_turns worker_start_state.

Definition run_ends (r : outcome (worker_end (list Z))) : option (wstate (list Z) * list worker_event) :=
  match r with Done (WkReturned st evs) => Some (st, evs) | _ => None end.

Lemma worker_run_returns : match run_ends worker_run with
  | Some (st, evs) => worker_count st = [5; 8; 7] /\ executing st = [0; 0; 0; 0; 0] /\ zlen evs = 8
  | None => False
  end.
Proof. vm_compute. repeat split; reflexivity. Qed.

Lemma db_worker_answers_witness :
  match run_ends worker_run with
  | Some (st, evs) => worker_count st = [5; 8; 7] /\ zlen evs = 8 /\
      exists evss calls, evs = concat evss ++ [WkDisconnect calls; WkWait] /\
        Forall2 (answered 0 3) [delivery_request 7 1; delivery_request 9 2] evss
  | None => False
  end.
Proof.
  pose proof worker_run_returns as Hend.
  destruct (run_ends worker_run) as [[st evs]|] eqn:E; [|exact Hend].
  destruct Hend as (Hc & _ & Hz). split; [exact Hc|]. split; [exact Hz|].
  destruct (db_worker_answers 0 3 1 (fun _ => true) DBMSLIBPQ worker_turns worker_start_state 6)
    as [_ Hans].
  - vm_compute. repeat split; discriminate.
  - reflexivity.
  - discriminate.
  - reflexivity.
  - destruct (Hans st evs) as (_ & evss & calls & H1 & H2 & _).
    + reflexivity.
    + change (worker_run = Done (WkReturned st evs)). unfold run_ends in E.
      destruct worker_run as [[s e|]| |]; [injection E as -> ->; reflexivity|discriminate E..].
    + exists evss, calls. split; [exact H1|exact H2].
Defined.
