(* ===== verification/Workload.v ===== *)
(** * From the terminals to the tables

    What the terminals of a driver send, executed by a worker of the client over
    CockroachDB: the generators of [InputData], the rounds of [DriverRun],
    [process_transaction] and the statements of [Cockroach] put together. *)

From Stdlib Require Import ZArith Lia SpecFloat String.
From stdpp Require Import base list relations.
From S2P Require Import Prelude Double Pcg Text Common Tables SpConsistency SpSample TxnData InputData Db Libpq PgServer LibpqServer LibpqSample Cockroach CrdbServer CrdbSpec CrdbNewOrder CrdbTheorems CrdbSample Driver DriverRun DriverSafety.

(** ** The messages of a workload *)

(** A message that a terminal of a configured place sends in some run. *)
Definition sent_by (d : driver) (m : client_transaction_t) : Prop :=
  exists stop_time tid log sockfd seed data w_id d_id es now actions,
    w_id_min d <= w_id <= w_id_max d /\ 1 <= d_id <= districts (cardinality d)
    /\ terminal_worker d stop_time tid log sockfd seed data w_id d_id es now = Done actions
    /\ Send m ∈ actions.

Lemma sent_by_ok d m : driver_ok d -> sent_by d m ->
  exists w dd, w_id_min d <= w <= w_id_max d /\ 1 <= dd <= districts (cardinality d)
    /\ 0 <= transaction m < TRANSACTION_MAX /\ data_type (transaction_data m) = transaction m
    /\ data_ok (env d) w dd (transaction_data m).
Proof.
  intros Hd (st & tid & log & sock & seed & data & w_id & d_id & es & now & acts & Hw & Hdd & Hrun & Hm).
  apply terminal_sends in Hrun; [|done..]. rewrite Forall_forall in Hrun.
  destruct (Hrun _ Hm) as (w & dd & Hp & Ht). exists w, dd.
  unfold place_ok in Hp. destruct (mode_altered d =? 1); destruct Hp; subst; done.
Qed.

Lemma line_keys env w_id l : warehouses (table_cardinality env) < 2 ^ 31 ->
  items (table_cardinality env) < 2 ^ 31 -> line_ok env w_id l -> item_ok env l \/ ol_i_id l = 0 ->
  key (ol_i_id l) /\ key (ol_supply_w_id l).
Proof. unfold line_ok, supply_ok, item_ok, key. lia. Qed.

Lemma new_order_data_keys env w_id d : warehouses (table_cardinality env) < 2 ^ 31 ->
  items (table_cardinality env) < 2 ^ 31 -> 0 <= w_id < 2 ^ 31 -> new_order_ok env w_id d ->
  crdb_well_formed d.
Proof.
  intros Hwh Hit Hw [H1 H2 H3 H4 H5 H6 H7]. unfold crdb_well_formed. rewrite H1.
  split_and!; try done; try (unfold key; lia). apply Forall_lookup. intros i l Hl.
  assert (Hi : (i < 15)%nat) by (apply lookup_lt_Some in Hl; lia).
  destruct (Z.lt_ge_cases (Z.of_nat i) (no_o_ol_cnt d)) as [Hlt|Hge].
  - destruct (H6 (Z.of_nat i)) as (l' & Hl' & Hline & Hitem); [lia|]. rewrite Nat2Z.id, Hl in Hl'.
    injection Hl' as <-. eapply line_keys; [exact Hwh|exact Hit|exact Hline|]. destruct Hitem as [?|[_ ?]]; auto.
  - specialize (H7 (Z.of_nat i)). rewrite Nat2Z.id, Hl in H7.
    assert (E : Some l = Some zero_no_order_line) by (apply H7; lia). injection E as ->.
    unfold key. cbn. lia.
Qed.

Lemma data_ok_crdb_ok d w dd td : driver_ok d -> w_id_min d <= w <= w_id_max d ->
  1 <= dd <= districts (cardinality d) -> data_ok (env d) w dd td -> crdb_ok td.
Proof.
  intros Hd Hw Hdd. unfold driver_ok in Hd. destruct td as [t|t|t|t|t|t]; cbn; unfold key.
  - lia.
  - apply new_order_data_keys; cbn; lia.
  - intros (-> & Hk & _). lia.
  - intros [H1 H2 _ H4 H5 _ _]. unfold CrdbPayment.payment_keys, key. cbn in H4. lia.
  - intros (-> & -> & _). lia.
  - done.
Qed.

(** C34. Every message a terminal of a valid driver sends is well-formed for the
    database: the five transactions only, the member of the union that the
    message names, ten-digit keys, orders of one to fifteen lines in an array of
    fifteen. *)
Theorem terminal_messages_well_formed d m :
  driver_ok d -> sent_by d m ->
  crdb_ok (transaction_data m) /\ data_type (transaction_data m) = transaction m
  /\ 0 <= transaction m < TRANSACTION_MAX.
Proof.
  intros Hd Hm. destruct (sent_by_ok d m Hd Hm) as (w & dd & Hw & Hdd & Ht & Hty & Hok).
  split_and!; try done; try lia. by eapply data_ok_crdb_ok.
Qed.

(** ** A worker that executes them *)

Section worker.
Context {pg : Pg} {crdb : Crdb pg} {claws : CrdbLaws crdb} {laws : PgLaws pg}.
Context {S : Type} `{Libpq S} `{!CrdbServer S} (c : db_context_libpq).

(** One transaction of some type. *)
Definition stored_any (D D' : db) : Prop := exists ty, ty <> INTEGRITY /\ stored ty D D'.

Lemma nsteps_stored_any ty k D D' : ty <> INTEGRITY ->
  nsteps (stored ty) k D D' -> nsteps stored_any k D D'.
Proof.
  intros Hty. induction 1 as [|k D D1 D' Hs _ IH]; [constructor|].
  econstructor; [|exact IH]. by exists ty.
Qed.

Definition answered_ok (r : Z * list Db.call) : bool := r.1 =? OK.

Lemma process_all_crdb stop fuel tds : forall s rs s' V,
  process_all c stop fuel tds s = Some (rs, s') ->
  Forall (fun td => crdb_ok td /\ data_type td <> INTEGRITY) tds ->
  at_rest V s -> consistent V -> room (2 * zlen tds) V ->
  exists k V', nsteps stored_any k V V' /\ at_rest V' s' /\ consistent V'
    /\ zlen (List.filter answered_ok rs) <= Z.of_nat k <= 2 * zlen tds.
Proof.
  induction tds as [|td tds IH]; intros s rs s' V Hp Hall Hrest HD Hroom; cbn [process_all] in Hp.
  { injection Hp as <- <-. exists 0%nat, V. split_and!; [constructor|done..]. }
  apply Forall_cons in Hall as [[Hok Hi] Hall]. rewrite zlen_cons in *.
  assert (Hn : 0 <= zlen tds) by (unfold zlen; lia).
  destruct (process_transaction (H := cockroach_ops c) stop fuel (data_type td) td s)
    as [[[[r td'] log] s1]|] eqn:Ht; cbn [mbind option_bind] in Hp; [|discriminate Hp].
  destruct (process_all c stop fuel tds s1) as [[rs1 s2]|] eqn:Hrs; cbn [mbind option_bind] in Hp;
    [|discriminate Hp]. injection Hp as <- <-.
  destruct (attempts_spec (H := cockroach_ops c) (DbLaws0 := cockroach_laws c)
              stop fuel 2 _ 0 td s r td' log s1 Ht ltac:(done) ltac:(done)) as (He & Hc & _).
  destruct (attempts_crdb c stop fuel 2 _ 0 td s r td' log s1 _ Ht Hok Hi Hrest HD)
    as (k1 & V1 & Hk1 & Hrest1 & HD1 & Hcommits & Hexec & Hroom1).
  { eapply room_le; [|exact Hroom]. lia. }
  destruct (IH s1 rs1 s2 V1 Hrs Hall Hrest1 HD1) as (k2 & V2 & Hk2 & Hrest2 & HD2 & Hcnt).
  { apply Hroom1. eapply room_le; [|exact Hroom]. lia. }
  exists (k1 + k2)%nat, V2. split_and!; try done; [|unfold answered_ok|lia].
  - eapply nsteps_trans; [by eapply nsteps_stored_any|done].
  - cbn [List.filter fst]. unfold answered_ok in Hcnt. destruct (Z.eqb_spec r OK) as [->|Hr]; rewrite ?zlen_cons; [|lia].
    rewrite Hc in Hcommits. cbn in Hcommits. lia.
Qed.
End worker.

(** C5. A worker of the client that executes what terminals of a valid driver
    send, in any order, over any CockroachDB server: the database, consistent
    before, is consistent after; it is changed by whole transactions only, at
    least one for each message answered with OK and at most two for each
    message; and the worker leaves no open work. *)
Theorem workload_consistent {pg : Pg} {crdb : Crdb pg} {claws : CrdbLaws crdb} {laws : PgLaws pg}
    {S} `{Libpq S} `{!CrdbServer S} c d stop fuel ms s rs s' :
  driver_ok d -> Forall (sent_by d) ms ->
  process_all c stop fuel (map transaction_data ms) s = Some (rs, s') ->
  no_work (crdb_server_of s) -> consistent (committed (crdb_server_of s)) ->
  room (2 * zlen ms) (committed (crdb_server_of s)) ->
  exists k,
    nsteps stored_any k (committed (crdb_server_of s)) (committed (crdb_server_of s'))
    /\ zlen (List.filter answered_ok rs) <= Z.of_nat k <= 2 * zlen ms
    /\ consistent (committed (crdb_server_of s')) /\ no_work (crdb_server_of s').
Proof.
  intros Hd Hms Hp Hn HD Hroom.
  assert (Hz : zlen (map transaction_data ms) = zlen ms) by (unfold zlen; by rewrite length_map).
  rewrite <- Hz in *.
  destruct (process_all_crdb c stop fuel _ s rs s' (committed (crdb_server_of s)) Hp) as (k & V & Hk & [<- Hw] & HV & Hcnt);
    [|by split|done|done|by exists k].
  apply Forall_map. eapply Forall_impl; [exact Hms|]. intros m Hm. cbv beta.
  destruct (sent_by_ok d m Hd Hm) as (w & dd & Hw & Hdd & Ht & Hty & Hok). split; [by eapply data_ok_crdb_ok|].
  rewrite Hty. intros E. rewrite E in Ht. unfold TRANSACTION_MAX, INTEGRITY in Ht. lia.
Qed.

(** ** A run: a Stock-Level and a Delivery against the sample server *)

#[local] Existing Instance sample_pg.
#[local] Existing Instance sample_crdb.
#[local] Existing Instance sample_cockroach.
#[local] Existing Instance sample_crdb_server.

Definition sent (acts : list action) : list client_transaction_t :=
  omap (fun a => match a with Send m => Some m | _ => None end) acts.

Definition workload_trace : list action :=
  actions_of
    (terminal_worker sample_driver 115 42 sample_log 5 87 uninitialised 1 1 sample_rounds 131).

Lemma workload_trace_run :
  terminal_worker sample_driver 115 42 sample_log 5 87 uninitialised 1 1 sample_rounds 131
  = Done workload_trace.
Proof. apply is_done_or. vm_compute. reflexivity. Qed.

Lemma sent_in acts m : m ∈ sent acts -> Send m ∈ acts.
Proof. intros (a & Ha & Hm)%list_elem_of_omap. destruct a; try done. by injection Hm as ->. Qed.

Lemma workload_sent : Forall (sent_by sample_driver) (sent workload_trace).
Proof.
  apply Forall_forall. intros m Hm%sent_in.
  exists 115, 42, sample_log, 5, 87, uninitialised, 1, 1, sample_rounds, 131, workload_trace.
  split; [vm_compute; split; discriminate|]. split; [vm_compute; split; discriminate|].
  split; [exact workload_trace_run|exact Hm].
Qed.

Lemma workload_types : map transaction (sent workload_trace) = [STOCK_LEVEL; DELIVERY].
Proof. vm_compute. reflexivity. Qed.

Lemma terminal_messages_well_formed_witness :
  match sent workload_trace with
  | m :: _ => crdb_ok (transaction_data m) /\ data_type (transaction_data m) = STOCK_LEVEL
  | [] => False
  end.
Proof.
  pose proof workload_types as Ht. pose proof workload_sent as Hs.
  destruct (sent workload_trace) as [|m ms]; [discriminate Ht|]. injection Ht as Ht _.
  apply Forall_inv in Hs.
  destruct (terminal_messages_well_formed sample_driver m sample_driver_ok Hs) as (H1 & H2 & _).
  split; [exact H1|]. rewrite H2. exact Ht.
Defined.

#[local] Abbreviation run_workload :=
  (process_all sample_context 0 3 (map transaction_data (sent workload_trace)) (idle [])).

Lemma workload_answers :
  match run_workload with
  | Some (rs, _) => map fst rs = [OK; OK]
  | None => False
  end.
Proof. vm_compute. reflexivity. Qed.

Lemma workload_room : room 4 sample_db.
Proof. intros d ->%list_elem_of_singleton. reflexivity. Qed.

Lemma workload_consistent_witness :
  match run_workload with
  | Some (rs, s') =>
      map fst rs = [OK; OK] /\ consistent (committed (sample_server s')) /\ no_work (sample_server s')
  | None => False
  end.
Proof.
  pose proof workload_answers as Hrun.
  destruct run_workload as [[rs s']|] eqn:Hp; [|exact Hrun]. split; [exact Hrun|].
  destruct (workload_consistent (claws := sample_crdb_laws) (laws := sample_laws) sample_context
              sample_driver 0 3 (sent workload_trace) (idle []) rs s' sample_driver_ok workload_sent Hp)
    as (k & _ & _ & H1 & H2).
  - exact (no_work_idle sample_db).
  - exact sample_consistent.
  - replace (2 * zlen (sent workload_trace)) with 4; [exact workload_room|].
    pose proof workload_types as Ht. apply (f_equal zlen) in Ht.
    unfold zlen in *. rewrite length_map in Ht. rewrite Ht. reflexivity.
  - split; [exact H1|exact H2].
Defined.
