(* ===== verification/MysqlTheorems.v ===== *)
(** * What the MySQL back end keeps

    Every statement of a terminal's transaction fits the buffer it is formatted
    into, and a worker never calls the library on a connection that is not there:
    [process_transaction] over [Mysql]. *)

From Stdlib Require Import ZArith Lia SpecFloat String.
From stdpp Require Import base list.
From S2P Require Import Prelude Double Text Common TxnData InputData Wire Tables DatagenRecords Db Nonsp NonspTxn Lengths Mysql Driver DriverRun DriverSafety.

(** ** Lengths *)

Lemma short_number k z : 0 <= z < 10 ^ Z.of_nat (S k) -> zlen (fmt_d z) <= Z.of_nat (S k).
Proof.
  intros Hz. apply (short_upto k). split; [|lia].
  pose proof (Z.pow_pos_nonneg 10 (Z.of_nat k)). lia.
Qed.

Lemma short_fmt_d z : int32 z -> zlen (fmt_d z) <= 11.
Proof. apply short_int. Qed.

Lemma zlen_repeat {A} (x : A) k : zlen (repeat x k) = Z.of_nat k.
Proof. unfold zlen. by rewrite repeat_length. Qed.

Lemma short_fmt_0d k z : 0 <= z < 10 ^ Z.of_nat (S k) -> zlen (fmt_0d (Z.of_nat (S k)) z) <= Z.of_nat (S k).
Proof.
  intros Hz. unfold fmt_0d. destruct (Z.ltb_spec z 0); [lia|]. rewrite zlen_app, zlen_repeat.
  pose proof (length_dec k z Hz). unfold zlen. lia.
Qed.

Lemma div_half_even_bound a d b : 0 < d -> 0 <= a < b * d -> 0 <= div_half_even a d <= b.
Proof.
  intros Hd Ha. unfold div_half_even. assert (0 <= a / d < b).
  { split; [apply Z.div_pos; lia|]. apply Z.div_lt_upper_bound; lia. }
  destruct (_ ?= _); [destruct (Z.even _)|..]; lia.
Qed.

(** The amount of a payment, at most 5000.000000. *)
Lemma short_amount cents : 100 <= cents <= 500000 ->
  zlen (fmt_f 6 (ddiv (d_of_Z cents) (d_of_Z 100))) <= 11.
Proof.
  intros Hc. destruct (ddiv_spec cents 100) as [Hb Hn]; [lia..|].
  unfold fmt_f. rewrite (dbox_sign _ _ Hb). change (6 =? 0) with false. cbv iota. cbn [app].
  assert (Hd : 0 <= div_half_even (dmag (ddiv (d_of_Z cents) (d_of_Z 100)) * 10 ^ 6) (2 ^ 1074)
               <= 5001000000).
  { unfold near in Hn. assert (Hm : 0 <= dmag (ddiv (d_of_Z cents) (d_of_Z 100))) by apply dmag_nonneg.
    assert (0 < 2 ^ 1074) by (apply Z.pow_pos_nonneg; lia).
    apply div_half_even_bound; [done|]. change (10 ^ 6) with 1000000.
    clear Hb. set (m := dmag _) in *. clearbody m. set (u := 2 ^ 1074) in *. clearbody u.
    change (2 ^ 53) with 9007199254740992 in Hn. nia. }
  generalize dependent (div_half_even (dmag (ddiv (d_of_Z cents) (d_of_Z 100)) * 10 ^ 6) (2 ^ 1074)).
  intros n Hd. rewrite !zlen_app. change (zlen (lit ".")) with 1. change (10 ^ 6) with 1000000.
  pose proof (short_fmt_0d 5 (n mod 1000000)) as H1. change (Z.of_nat 6) with 6 in H1.
  change (10 ^ 6) with 1000000 in H1.
  pose proof (length_dec 3 (n / 1000000)) as H2. change (10 ^ Z.of_nat 4) with 10000 in H2.
  unfold zlen in *. dlia.
Qed.

(** [mbstowcs] of a name of at most 16 characters. *)
Lemma short_mbstowcs old v n : short_name old -> short_name (decode_utf8 (Z.to_nat n) v).1 ->
  short_name (mbstowcs old v n).
Proof.
  unfold short_name, mbstowcs, zlen. destruct (decode_utf8 _ v) as [cs []]; cbn; [done|].
  rewrite length_app, length_drop. lia.
Qed.

(** ** Input data that can be sent *)

Definition upto (n z : Z) : Prop := 0 <= z < n.

(** New-Order leaves the least room: its numbers are bounded by the sizes of the
    tables, the others need only be numbers of C. *)
Definition sendable_line (l : no_order_line_t) : Prop :=
  upto (10 ^ 6) (ol_i_id l) /\ upto (10 ^ 9) (ol_supply_w_id l) /\ upto 100 (ol_quantity l).

Record sendable_new_order (d : new_order_t) : Prop := {
  send_w_id : upto (10 ^ 9) (no_w_id d);
  send_d_id : upto 100 (no_d_id d);
  send_c_id : upto (10 ^ 4) (no_c_id d);
  send_cnt : upto 100 (no_o_ol_cnt d);
  send_length : List.length (no_order_line d) = 15%nat;
  send_lines : Forall sendable_line (no_order_line d) }.

Definition sendable (td : transaction_data_t) : Prop :=
  match td with
  | TD_delivery d => int32 (dl_w_id d) /\ int32 (dl_o_carrier_id d)
  | TD_new_order d => sendable_new_order d
  | TD_order_status d =>
      int32 (os_c_id d) /\ int32 (os_c_w_id d) /\ int32 (os_c_d_id d) /\ short_name (os_c_last d)
  | TD_payment d =>
      (int32 (pa_w_id d) /\ int32 (pa_d_id d) /\ int32 (pa_c_id d) /\ int32 (pa_c_w_id d)
       /\ int32 (pa_c_d_id d)) /\ short_name (pa_c_last d) /\ zlen (fmt_f 6 (pa_h_amount d)) <= 11
  | TD_stock_level d => int32 (sl_w_id d) /\ int32 (sl_d_id d) /\ int32 (sl_threshold d)
  | TD_integrity d => True
  end.

(** [zlen] of a formatted statement. *)
Ltac measure_call :=
  rewrite ?zlen_app, ?zlen_repeat;
  repeat match goal with
  | |- context [zlen (lit ?l)] =>
      let v := eval vm_compute in (zlen (lit l)) in change (zlen (lit l)) with v
  end;
  repeat match goal with
  | Hz : int32 ?z |- context [zlen (fmt_d ?z)] =>
      pose proof (short_fmt_d z Hz); generalize dependent (zlen (fmt_d z)); intros
  end;
  lia.

(** The statements of New-Order: 484 characters at most. *)
Lemma new_order_fits d : sendable_new_order d -> upto 10 (no_o_all_local d) ->
  zlen (new_order_stmt d) < 512.
Proof.
  intros [H1 H2 H3 H4 Hlen Hl] H5. destruct d as [w dd c cnt loc lines]. cbn in H1, H2, H3, H4, H5, Hlen, Hl.
  do 15 (destruct lines as [|? lines]; [done|apply Forall_cons in Hl as [(? & ? & ?) Hl]]).
  destruct lines; [|done]. clear Hlen Hl. unfold new_order_stmt, new_order_numbers.
  cbn [no_order_line no_w_id no_d_id no_c_id no_o_all_local no_o_ol_cnt firstn skipn flat_map app hd nth separated].
  rewrite !zlen_app, !zlen_repeat.
  repeat match goal with
  | |- context [zlen (lit ?l)] =>
      let v := eval vm_compute in (zlen (lit l)) in change (zlen (lit l)) with v
  end.
  change (zlen []) with 0.
  repeat match goal with
  | Hz : upto (10 ^ 9) ?z |- _ => apply (short_number 8) in Hz
  | Hz : upto (10 ^ 6) ?z |- _ => apply (short_number 5) in Hz
  | Hz : upto (10 ^ 4) ?z |- _ => apply (short_number 3) in Hz
  | Hz : upto 100 ?z |- _ => apply (short_number 1) in Hz
  | Hz : upto 10 ?z |- _ => apply (short_number 0) in Hz
  end.
  lia.
Qed.

Lemma order_status_fits d t : sendable (TD_order_status d) -> zlen t <= 64 ->
  zlen (order_status_stmt d t) < 128.
Proof. intros (H1 & H2 & H3 & _) Ht. unfold order_status_stmt. measure_call. Qed.

Lemma payment_fits d t : sendable (TD_payment d) -> zlen t <= 64 -> zlen (payment_stmt d t) < 512.
Proof. intros ((H1 & H2 & H3 & H4 & H5) & _ & Ha) Ht. unfold payment_stmt. measure_call. Qed.

Lemma delivery_fits d : sendable (TD_delivery d) -> zlen (delivery_stmt d) < 512.
Proof. intros (H1 & H2). unfold delivery_stmt. measure_call. Qed.

Lemma stock_level_stmt_fits d : sendable (TD_stock_level d) -> zlen (stock_level_stmt d) < 512.
Proof. intros (H1 & H2 & H3). unfold stock_level_stmt. measure_call. Qed.

(** ** The library *)

(** A query has finitely many result sets, and the names that the procedures
    return are those of the column [c_last], 16 characters at most. *)
Class MysqlServer (S : Type) `{Mysql S} := {
  mysql_next_left s s' : mysql_next_result s = (0, s') -> (results_left s' < results_left s)%nat;
  mysql_store_left s : results_left (mysql_store_result s).2 = results_left s;
  mysql_names s res s' row rows i v : mysql_store_result s = (Some res, s') ->
    mysql_rows res = row :: rows ->
    (mysql_num_fields res = 9 /\ i = 3%nat \/ mysql_num_fields res = 28 /\ i = 15%nat) ->
    cell row i = Some v -> short_name (decode_utf8 (Z.to_nat (Size.C_LAST_LEN + 1)) v).1 }.

Section server.
Context {S : Type} `{MysqlServer S}.
Implicit Types c : mysql_conn S.

Definition is_live c : Prop := my_handle c = Live.

(** A transaction function returns, with data that can be sent again. *)
Definition survives {D} (ok : D -> Prop) (r : option (Z * D * mysql_conn S)) : Prop :=
  exists rc data c, r = Some (rc, data, c) /\ ok data /\ is_live c /\ (rc = OK \/ rc = ERROR).

Lemma survives_return {D} (ok : D -> Prop) rc data c : is_live c -> ok data ->
  rc = OK \/ rc = ERROR -> survives ok (Some (rc, data, c)).
Proof. intros Hc Hd Hrc. by exists rc, data, c. Qed.

Lemma survives_sprintf {D} (ok : D -> Prop) n s k : zlen s < n -> survives ok (k s) ->
  survives ok (sprintf n s ≫= k).
Proof. intros Hs Hk. by rewrite sprintf_short. Qed.

Lemma on_live {A} (f : S -> A * S) c : is_live c ->
  exists a c', on_connection f c = Some (a, c') /\ is_live c' /\ f (my_lib c) = (a, my_lib c').
Proof.
  unfold is_live, on_connection. intros ->. destruct (f (my_lib c)) as [a s]. by exists a, (mk_mysql s Live).
Qed.

(** One query; a failure is [ERROR]. *)
Lemma survives_query {D} (ok : D -> Prop) q data c k : is_live c -> ok data ->
  (forall c, is_live c -> survives ok (k c)) ->
  survives ok ('(failed, c) ← on_connection (mysql_query q) c;
               if (failed : bool) then Some (ERROR, data, c) else k c).
Proof.
  intros Hc Hd Hk. destruct (on_live (mysql_query q) c Hc) as (failed & c' & -> & Hc' & _).
  cbn. destruct failed; [|by apply Hk]. apply survives_return; auto.
Qed.

Lemma survives_select {D} (ok : D -> Prop) q c k : is_live c ->
  (forall v c, is_live c -> survives ok (k v c)) ->
  survives ok ('(v, c) ← select_variable q c; k v c).
Proof.
  intros Hc Hk. unfold select_variable.
  destruct (on_live (mysql_query q) c Hc) as (failed & c1 & -> & H1 & _). cbn.
  destruct failed; [by apply Hk|].
  destruct (on_live mysql_store_result c1 H1) as (r & c2 & -> & H2 & _). by apply Hk.
Qed.

(** A store that keeps what can be sent. *)
Definition keeps {D} (ok : D -> Prop) (store : Z -> list (option bytes) -> D -> D) : Prop :=
  forall s res s' row rows data, mysql_store_result s = (Some res, s') -> mysql_rows res = row :: rows ->
    ok data -> ok (store (mysql_num_fields res) row data).

Lemma result_loop_returns {D} (ok : D -> Prop) store fuel data c : keeps ok store -> is_live c ->
  (results_left (my_lib c) < fuel)%nat -> ok data ->
  exists data' c', result_loop fuel store data c = Some (data', c') /\ ok data' /\ is_live c'.
Proof.
  intros Hk. revert data c. induction fuel as [|fuel IH]; intros data c Hc Hf Hd; [lia|]. cbn.
  destruct (on_live mysql_store_result c Hc) as (r & c1 & -> & H1 & Hs). cbn.
  match goal with |- context [result_loop fuel store ?d _] => assert (Hd' : ok d) end.
  { destruct r as [res|]; [|done]. destruct (mysql_rows res) as [|row rows] eqn:Hr; [done|]. by eapply Hk. }
  destruct (on_live mysql_next_result c1 H1) as (rc & c2 & -> & H2 & Hn). cbn.
  destruct (Z.eqb_spec rc 0) as [->|]; [|eauto].
  apply IH; [done| |done]. apply mysql_next_left in Hn.
  pose proof (mysql_store_left (my_lib c)) as Hl. rewrite Hs in Hl. cbn in Hl. lia.
Qed.

Lemma survives_results {D E} (ok : E -> Prop) (okd : D -> Prop) store data c k : keeps okd store ->
  is_live c -> okd data -> (forall data c, okd data -> is_live c -> survives ok (k (data, c))) ->
  survives ok (result_sets store data c ≫= k).
Proof.
  intros Hs Hc Hd Hk. unfold result_sets.
  destruct (result_loop_returns okd store _ data c Hs Hc (Nat.lt_succ_diag_r _) Hd) as (data' & c' & -> & Hd' & Hc').
  by apply Hk.
Qed.

(** ** The transactions *)

Lemma int_cell_int32 row i old : int32 old -> int32 (int_cell row i old).
Proof. intros Ho. unfold int_cell. destruct (cell row i); [apply int32_i32|done]. Qed.

Lemma wide_cell_short s res s' row rows i old : mysql_store_result s = (Some res, s') ->
  mysql_rows res = row :: rows ->
  mysql_num_fields res = 9 /\ i = 3%nat \/ mysql_num_fields res = 28 /\ i = 15%nat ->
  short_name old -> short_name (wide_cell row i old).
Proof.
  intros Hs Hr Hi Ho. unfold wide_cell. destruct (cell row i) as [v|] eqn:Hv; [|done].
  apply short_mbstowcs; [done|]. by eapply mysql_names.
Qed.

Lemma store_order_status_keeps :
  keeps (fun st => sendable (TD_order_status st.1)) store_order_status.
Proof.
  intros s res s' row rows [d line] Hs Hr (H1 & H2 & H3 & H4). unfold store_order_status.
  destruct (Z.eqb_spec (mysql_num_fields res) 9) as [E|].
  - cbn. split_and!; [by apply int_cell_int32|done..|]. eapply wide_cell_short; eauto.
  - by destruct (_ && _).
Qed.

Lemma store_payment_keeps : keeps (fun d => sendable (TD_payment d)) store_payment.
Proof.
  intros s res s' row rows d Hs Hr ((H1 & H2 & H3 & H4 & H5) & H6 & H7). unfold store_payment.
  destruct (Z.eqb_spec (mysql_num_fields res) 28) as [E|]; cbn [negb]; [|done].
  cbn [sendable pa_w_id pa_d_id pa_c_id pa_c_w_id pa_c_d_id pa_c_last pa_h_amount].
  split_and!; try done; [by apply int_cell_int32|]. eapply wide_cell_short; eauto.
Qed.

Definition local_new_order (d : new_order_t) : Prop :=
  sendable_new_order d /\ upto 10 (no_o_all_local d).

Lemma store_new_order_keeps : keeps (fun st => local_new_order st.1) store_new_order.
Proof.
  intros s res s' row rows [d line] Hs Hr [[H1 H2 H3 H4 H5 H6] H7]. unfold store_new_order.
  destruct (_ && _); [|by destruct (_ =? _)]. split; [|done]. split; try done; cbn.
  - by rewrite length_alter.
  - apply Forall_alter; [done|]. done.
Qed.

Lemma execute_delivery_survives d c : is_live c -> sendable (TD_delivery d) ->
  survives (fun d => sendable (TD_delivery d)) (execute_delivery_mysql d c).
Proof.
  intros Hc Hd. apply survives_sprintf; [by apply delivery_fits|].
  destruct (on_live (mysql_query (delivery_stmt d)) c Hc) as (failed & c1 & -> & H1 & _). cbn.
  apply survives_return; [done..|]. destruct failed; auto.
Qed.

Lemma execute_stock_level_survives d c : is_live c -> sendable (TD_stock_level d) ->
  survives (fun d => sendable (TD_stock_level d)) (execute_stock_level_mysql d c).
Proof.
  intros Hc Hd. apply survives_sprintf; [by apply stock_level_stmt_fits|].
  apply survives_query; [done..|]. intros c1 H1. apply survives_select; [done|].
  intros [v|] c2 H2; apply survives_return; auto.
Qed.

Lemma execute_integrity_survives d c : is_live c ->
  survives (fun _ => True) (execute_integrity_mysql d c).
Proof.
  intros Hc. apply survives_sprintf; [done|]. apply survives_select; [done|].
  intros v c1 H1. apply survives_return; [done..|]. destruct v; [destruct (negb _)|]; auto.
Qed.

Lemma execute_order_status_survives d c : is_live c -> sendable (TD_order_status d) ->
  survives (fun d => sendable (TD_order_status d)) (execute_order_status_mysql d c).
Proof.
  intros Hc Hd. destruct (short_c_last (os_c_last d)) as (t & Ht & Hl); [apply Hd|].
  unfold execute_order_status_mysql. rewrite Ht. cbn [mbind option_bind].
  apply survives_sprintf; [by apply order_status_fits|]. apply survives_query; [done..|]. intros c1 H1.
  eapply survives_results; [apply store_order_status_keeps|done..|].
  intros [d' line] c2 Hd' H2. apply survives_return; auto.
Qed.

Lemma execute_payment_survives d c : is_live c -> sendable (TD_payment d) ->
  survives (fun d => sendable (TD_payment d)) (execute_payment_mysql d c).
Proof.
  intros Hc Hd. destruct (short_c_last (pa_c_last d)) as (t & Ht & Hl); [apply Hd|].
  unfold execute_payment_mysql. rewrite Ht. cbn [mbind option_bind].
  apply survives_sprintf; [by apply payment_fits|]. apply survives_query; [done..|]. intros c1 H1.
  eapply survives_results; [apply store_payment_keeps|done..|].
  intros d' c2 Hd' H2. apply survives_return; auto.
Qed.

Lemma execute_new_order_survives d c : is_live c -> local_new_order d ->
  survives local_new_order (execute_new_order_mysql d c).
Proof.
  intros Hc [Hd Hl]. apply survives_sprintf; [by apply new_order_fits|].
  apply survives_query; [done..|]. intros c1 H1.
  eapply survives_results; [apply store_new_order_keeps|done..|].
  intros [d' line] c2 [Hd' Hl'] H2. apply survives_select; [done|].
  intros [v|] c3 H3; (apply survives_return; [done| |auto]); split; try done. by destruct Hd'.
Qed.

(** ** Reconnecting *)

Context (p : db_context_mysql) (stop_time : Z).
#[local] Instance ops : DbOps (option (mysql_conn S)) := mysql_ops p.

(** A connection, or none because the stop time has passed. *)
Definition live_unless (given_up : Prop) (w : option (mysql_conn S)) : Prop :=
  exists c, w = Some c /\ (is_live c \/ given_up /\ stop_time <> 0).

Lemma expired_stop now : expired stop_time now = true -> stop_time <> 0.
Proof. unfold expired. by intros [?%negb_true_iff%Z.eqb_neq _]%andb_true_iff. Qed.

Lemma connect_connects c : exists rc c', connect (Some c) = (rc, Some c') /\ (rc = OK -> is_live c').
Proof.
  cbn. unfold total_call, connect_to_db_mysql. cbn.
  destruct (mysql_init _) as [[] s1]; [by do 2 eexists|].
  destruct (mysql_real_connect _ _ _) as [[] s2]; [by do 2 eexists|].
  destruct (mysql_query _ _) as [[] s3]; by do 2 eexists.
Qed.

Lemma time_returns c : exists now c', time (Some c) = (now, Some c').
Proof. cbn. unfold total_call. cbn. destruct (mysql_time _) as [t s]. by do 2 eexists. Qed.

Lemma connect_to_db_live fuel c rc log w : connect_to_db stop_time fuel (Some c) = Some (rc, log, w) ->
  live_unless (rc <> OK) w.
Proof.
  revert c rc log w. induction fuel as [|fuel IH]; intros c rc log w; [done|]. cbn [connect_to_db].
  destruct (time_returns c) as (now & c1 & ->). destruct (expired _ now) eqn:He.
  { intros [= <- _ <-]. exists c1. split; [done|right]. by apply expired_stop in He. }
  destruct (connect_connects c1) as (rc1 & c2 & -> & Hlive).
  destruct (Z.eqb_spec rc1 OK) as [->|]; [intros [= <- _ <-]; exists c2; auto|].
  destruct (connect_to_db _ fuel _) as [[[rc2 log2] w2]|] eqn:Hc; [|done].
  intros [= <- _ <-]. exact (IH _ _ _ _ Hc).
Qed.

Lemma reconnect_live fuel c ok log w : reconnect stop_time fuel (Some c) = Some (ok, log, w) ->
  live_unless (ok = false) w.
Proof.
  revert c ok log w. induction fuel as [|fuel IH]; intros c ok log w; [done|]. cbn [reconnect].
  destruct (time_returns c) as (now & c1 & ->). destruct (expired _ now) eqn:He.
  { intros [= <- _ <-]. exists c1. split; [done|right]. by apply expired_stop in He. }
  destruct (connect_to_db _ _ _) as [[[rc2 log2] w2]|] eqn:Hc; [|done]. cbn [mbind option_bind].
  apply connect_to_db_live in Hc as (c2 & -> & Hc2).
  destruct (Z.eqb_spec rc2 OK) as [->|].
  { intros [= <- _ <-]. exists c2. split; [done|]. left. by destruct Hc2 as [?|[? _]]. }
  destruct (reconnect _ fuel _) as [[[ok3 log3] w3]|] eqn:Hr; [|done].
  intros [= <- _ <-]. exact (IH _ _ _ _ Hr).
Qed.

(** ** A whole transaction *)

Lemma total_txn_survives {D} (ok : D -> Prop) f data c : survives ok (f data c) ->
  exists rc data' c', total_txn f data (Some c) = (rc, data', Some c') /\ ok data' /\ is_live c'
    /\ (rc = OK \/ rc = ERROR).
Proof. intros (rc & d' & c' & He & H1). unfold total_txn. cbn. rewrite He. by exists rc, d', c'. Qed.

Lemma all_local_bit w_id lines : upto 10 (all_local w_id lines).
Proof. induction lines as [|l lines IH]; [done|]. cbn [all_local]. by destruct (negb _). Qed.

Lemma execute_new_order_checked_survives d c : is_live c -> sendable_new_order d ->
  exists rc d' c', execute_new_order_checked d (Some c) = (rc, d', Some c') /\ sendable_new_order d'
    /\ is_live c' /\ (rc = OK \/ rc = ERROR).
Proof.
  intros Hc Hd. unfold execute_new_order_checked. cbn zeta. cbn [execute_new_order ops mysql_ops].
  match goal with |- context [total_txn _ ?d0 _] => assert (Hl : local_new_order d0) end.
  { split; [by destruct Hd|apply all_local_bit]. }
  destruct (total_txn_survives _ _ _ _ (execute_new_order_survives _ _ Hc Hl))
    as (rc & d' & c' & -> & [Hd' _] & Hc' & Hrc).
  destruct (_ && _); do 3 eexists; (split; [done|]); (split; [|split; [done|auto]]); [by destruct Hd'|done].
Qed.

Lemma execute_survives td c : is_live c -> sendable td ->
  exists rc td' c', execute (data_type td) td (Some c) = Some (rc, td', Some c')
    /\ data_type td' = data_type td /\ sendable td' /\ is_live c' /\ (rc = OK \/ rc = ERROR).
Proof.
  intros Hc Hd. destruct td as [d|d|d|d|d|d]; unfold execute;
    cbn [data_type Z.eqb Pos.eqb INTEGRITY DELIVERY NEW_ORDER ORDER_STATUS PAYMENT STOCK_LEVEL];
    unfold execute_delivery, execute_order_status, execute_payment, execute_stock_level,
      execute_integrity, ops, mysql_ops.
  - destruct (total_txn_survives _ _ _ _ (execute_delivery_survives d c Hc Hd)) as (rc & d' & c' & -> & Hx).
    by exists rc, (TD_delivery d'), c'.
  - destruct (execute_new_order_checked_survives d c Hc Hd) as (rc & d' & c' & E & Hx).
    unfold ops, mysql_ops in E. rewrite E. by exists rc, (TD_new_order d'), c'.
  - destruct (total_txn_survives _ _ _ _ (execute_order_status_survives d c Hc Hd)) as (rc & d' & c' & -> & Hx).
    by exists rc, (TD_order_status d'), c'.
  - destruct (total_txn_survives _ _ _ _ (execute_payment_survives d c Hc Hd)) as (rc & d' & c' & -> & Hx).
    by exists rc, (TD_payment d'), c'.
  - destruct (total_txn_survives _ _ _ _ (execute_stock_level_survives d c Hc Hd)) as (rc & d' & c' & -> & Hx).
    by exists rc, (TD_stock_level d'), c'.
  - destruct (total_txn_survives _ _ _ _ (execute_integrity_survives d c Hc)) as (rc & d' & c' & -> & Hx).
    by exists rc, (TD_integrity d'), c'.
Qed.

(** A commit or a rollback, after which the connection is still there. *)
Lemma finish_live rc status c : is_live c -> rc = OK \/ rc = ERROR ->
  exists status' log left_ c', finish rc status (Some c) = (status', log, left_, Some c') /\ is_live c'.
Proof.
  intros Hc Hrc. unfold finish, commit_transaction, rollback_transaction, ops, mysql_ops, total_call.
  cbn [mbind option_bind]. unfold commit_transaction_mysql, rollback_transaction_mysql.
  destruct (on_live (mysql_query (lit "COMMIT")) c Hc) as (f1 & c1 & -> & H1 & _).
  destruct (on_live (mysql_query (lit "ROLLBACK")) c Hc) as (f2 & c2 & -> & H2 & _).
  destruct Hrc as [-> | ->]; cbn; by do 4 eexists.
Qed.

Lemma disconnect_returns c : is_live c -> exists log c', disconnect_from_db (Some c) = (OK, log, Some c').
Proof.
  unfold is_live. intros Hc. unfold disconnect_from_db. cbn. unfold total_call, disconnect_from_db_mysql.
  cbn. rewrite Hc. cbn. by do 2 eexists.
Qed.

Lemma attempts_live fuel n status td c r td' log w : is_live c -> sendable td ->
  attempts stop_time fuel n (data_type td) status td (Some c) = Some (r, td', log, w) ->
  live_unless (r = ERROR) w.
Proof.
  revert status td c r td' log w. induction n as [|n IH]; intros status td c r td' log w Hc Hd; cbn [attempts].
  { intros [= _ _ _ <-]. exists c; auto. }
  destruct (known_transaction _); cbn [negb]; [|intros [= _ _ _ <-]; exists c; auto].
  destruct (execute_survives td c Hc Hd) as (rc & td1 & c1 & -> & Ht & Hd1 & Hc1 & Hrc).
  cbn [mbind option_bind].
  destruct (finish_live rc status c1 Hc1 Hrc) as (st & log1 & left_ & c2 & -> & Hc2).
  destruct left_; [intros [= _ _ _ <-]; exists c2; auto|].
  destruct (disconnect_returns c2 Hc2) as (dlog & c3 & ->).
  destruct (reconnect _ _ _) as [[[ok rlog] w4]|] eqn:Hr; [|done]. cbn [mbind option_bind].
  apply reconnect_live in Hr as (c4 & -> & Hc4). destruct ok.
  - rewrite <- Ht. destruct Hc4 as [Hc4|[? _]]; [|done].
    destruct (attempts _ _ _ _ _ _ _) as [[[[r5 td5] rest] w5]|] eqn:Ha; [|done].
    intros [= <- _ _ <-]. by eapply IH.
  - intros [= <- _ _ <-]. exists c4. split; [done|]. destruct Hc4 as [?|[_ ?]]; auto.
Qed.

Lemma reconnect_works fuel c : (forall c, exists c', connect_to_db_mysql p c = Some (OK, c')) ->
  stop_time = 0 -> exists ok log w, reconnect stop_time (Datatypes.S fuel) (Some c) = Some (ok, log, w).
Proof.
  intros Hconn Hstop. cbn [reconnect connect_to_db]. destruct (time_returns c) as (now & c1 & ->).
  unfold expired. rewrite Hstop. cbn [Z.eqb negb andb].
  destruct (time_returns c1) as (now' & c2 & ->).
  assert (Hc : exists c3, connect (Some c2) = (OK, Some c3)).
  { destruct (Hconn c2) as [c3 Hc3]. exists c3. cbn. unfold total_call. cbn. by rewrite Hc3. }
  destruct Hc as [c3 ->]. cbn. by do 3 eexists.
Qed.

Lemma attempts_works fuel n status td c : (forall c, exists c', connect_to_db_mysql p c = Some (OK, c')) ->
  stop_time = 0 -> is_live c -> sendable td ->
  is_Some (attempts stop_time (Datatypes.S fuel) n (data_type td) status td (Some c)).
Proof.
  intros Hconn Hstop. revert status td c. induction n as [|n IH]; intros status td c Hc Hd; cbn [attempts]; [done|].
  destruct (known_transaction _); cbn [negb]; [|done].
  destruct (execute_survives td c Hc Hd) as (rc & td1 & c1 & -> & Ht & Hd1 & Hc1 & Hrc).
  cbn [mbind option_bind].
  destruct (finish_live rc status c1 Hc1 Hrc) as (st & log1 & left_ & c2 & -> & Hc2).
  destruct left_; [done|]. destruct (disconnect_returns c2 Hc2) as (dlog & c3 & ->).
  destruct (reconnect_works fuel c3 Hconn Hstop) as (ok & rlog & w4 & Hr).
  rewrite Hr. cbn [mbind option_bind].
  apply reconnect_live in Hr as (c4 & -> & Hc4). destruct ok; [|done].
  destruct Hc4 as [Hc4|[? _]]; [|done]. rewrite <- Ht.
  destruct (IH st td1 c4 Hc4 Hd1) as [[[[r5 td5] rest] w5] ->]. done.
Qed.
End server.

(** ** The messages of the terminals *)

Lemma customer_names c : customer_ok c -> int32 c.1 /\ short_name c.2.
Proof.
  unfold customer_ok, C_ID_UNKNOWN, int32, short_name. intros [(-> & i & Hi & ->)|[H ->]]; [|split; [lia|done]].
  split; [lia|]. pose proof (all_c_last_lookup i Hi) as Hl.
  pose proof all_c_last_plain as Hp. rewrite Forall_lookup in Hp. destruct (Hp _ _ Hl). lia.
Qed.

Lemma new_order_sendable env w_id d : 1 <= w_id <= warehouses (table_cardinality env) ->
  warehouses (table_cardinality env) < 10 ^ 9 -> items (table_cardinality env) < 10 ^ 6 ->
  new_order_ok env w_id d -> sendable_new_order d.
Proof.
  intros Hw Hwh Hit [H1 H2 H3 H4 H5 H6 H7]. split; unfold upto; try lia.
  apply Forall_lookup. intros i l Hl. unfold sendable_line, upto.
  assert (Hi : (i < 15)%nat) by (apply lookup_lt_Some in Hl; lia).
  destruct (Z.lt_ge_cases (Z.of_nat i) (no_o_ol_cnt d)) as [Hlt|Hge].
  - destruct (H6 (Z.of_nat i)) as (l' & Hl' & Hline & Hitem); [lia|]. rewrite Nat2Z.id, Hl in Hl'.
    injection Hl' as <-. unfold line_ok, supply_ok, item_ok in *. lia.
  - specialize (H7 (Z.of_nat i)). rewrite Nat2Z.id, Hl in H7.
    assert (E : Some l = Some zero_no_order_line) by (apply H7; lia). injection E as ->. cbn. lia.
Qed.

Lemma message_sendable d w_id d_id m : driver_ok d -> w_id_min d <= w_id <= w_id_max d ->
  1 <= d_id <= districts (cardinality d) -> warehouses (cardinality d) < 10 ^ 9 ->
  items (cardinality d) < 10 ^ 6 -> message_ok d w_id d_id m ->
  data_type (transaction_data m) = transaction m /\ sendable (transaction_data m).
Proof.
  intros Hd Hw Hdd Hwh Hit (w & dd & Hp & _ & Ht & Hok). split; [done|].
  assert (Hw' : 1 <= w <= warehouses (cardinality d) /\ 1 <= dd < 2 ^ 31).
  { unfold driver_ok, place_ok in *. destruct (mode_altered d =? 1); lia. }
  unfold driver_ok in Hd. destruct (transaction_data m) as [t|t|t|t|t|t];
    cbn [data_ok sendable] in *; unfold int32 in *.
  - lia.
  - destruct Hw' as [Hw1 _]. by apply (new_order_sendable (env d) w).
  - destruct Hok as (-> & H1 & H2). apply customer_names in H2 as [H2 H3]. unfold int32 in H2; cbn [fst snd] in H2, H3.
    split_and!; try done; lia.
  - destruct Hok as [-> H1 H2 H3 H4 _ (cents & Hc & ->)]. apply customer_names in H2 as [H2 H5].
    unfold int32 in H2; cbn [fst snd] in H2, H5. cbn in H3. split_and!; try done; try lia. by apply short_amount.
  - lia.
  - done.
Qed.

(** C8. A worker of the client over MySQL, given a transaction of a terminal of a
    scale that MySQL can be asked for (fewer than 10^9 warehouses and 10^6 items),
    keeps to defined behaviour in every attempt at it, whatever the server
    answers: no statement leaves its buffer of 128 or 512 bytes, no name fills
    its, no call uses a connection that was closed or never opened.  Afterwards
    the connection is open again, unless the stop time kept it from
    reconnecting, which is an error; and if connecting works and there is no stop
    time, the transaction returns. *)
Theorem mysql_transaction_safe {S} `{MysqlServer S} (p : db_context_mysql) d w_id d_id m (c : mysql_conn S) :
  driver_ok d -> w_id_min d <= w_id <= w_id_max d -> 1 <= d_id <= districts (cardinality d) ->
  warehouses (cardinality d) < 10 ^ 9 -> items (cardinality d) < 10 ^ 6 ->
  message_ok d w_id d_id m -> is_live c ->
  let run stop fuel :=
    process_transaction (H := mysql_ops p) stop fuel (transaction m) (transaction_data m) (Some c) in
  (forall stop fuel status td log w, run stop fuel = Some (status, td, log, w) ->
     exists c', w = Some c' /\ (is_live c' \/ status = ERROR /\ stop <> 0))
  /\ ((forall c, exists c', connect_to_db_mysql p c = Some (OK, c')) ->
      forall fuel, is_Some (run 0 (Datatypes.S fuel))).
Proof.
  intros Hd Hw Hdd Hwh Hit Hm Hc. destruct (message_sendable d w_id d_id m) as [<- Hs]; [done..|].
  split; intros *.
  - intros Hr. by apply (attempts_live p stop fuel 2) in Hr.
  - intros Hconn fuel. by apply attempts_works.
Qed.

(** ** The rows of a New-Order *)

(** The result sets that the library hands out from [s] on: the codes of
    [mysql_next_result] are 0 up to the last one, which is [e]. *)
Inductive walk {S : Type} `{Mysql S} : S -> list (option MYSQL_RES) -> Z -> S -> Prop :=
| walk_last s r s1 e s2 : mysql_store_result s = (r, s1) -> mysql_next_result s1 = (e, s2) -> e <> 0 ->
    walk s [r] e s2
| walk_more s r s1 s2 rs e s3 : mysql_store_result s = (r, s1) -> mysql_next_result s1 = (0, s2) ->
    walk s2 rs e s3 -> walk s (r :: rs) e s3.

(** A set of one row without NULLs. *)
Definition row_set (row : list bytes) : option MYSQL_RES :=
  Some (mk_MYSQL_RES (zlen row) [map Some row]).

(** What an item's row makes of a line; the row of the totals. *)
Definition line_shown (row : list bytes) (l l' : no_order_line_t) : Prop :=
  exists price name quantity amount brand, row = [price; name; quantity; amount; brand] /\
    l' = mk_no_order_line (ol_i_id l) (ol_supply_w_id l) (ol_quantity l) (atof amount) (atoi quantity)
           (hd 0 brand) (strncpy name (4 * (Size.I_NAME_LEN + 1) - 1)) (atof price).

Record totals := mk_totals {
  t_w_tax : bytes; t_d_tax : bytes; t_o_id : bytes; t_c_last : bytes; t_c_credit : bytes;
  t_c_discount : bytes; t_total : bytes }.
Definition totals_row (t : totals) : list bytes :=
  [t_w_tax t; t_d_tax t; t_o_id t; t_c_last t; t_c_credit t; t_c_discount t; t_total t].

(** The structure with [lines], the totals if they came, and the code. *)
Definition with_totals (t : option totals) (lines : list no_order_line_t) (code : Z) (d : new_order_t)
  : new_order_t :=
  match t with
  | None => set_no_output d lines (no_o_id d) (no_total_amount d) (no_w_tax d) (no_d_tax d)
              (no_c_last d) (no_c_credit d) (no_c_discount d) code
  | Some t =>
      set_no_output d lines (atoi (t_o_id t)) (atof (t_total t)) (atof (t_w_tax t)) (atof (t_d_tax t))
        (strncpy (t_c_last t) (4 * (Size.C_LAST_LEN + 1) - 1)) (strncpy (t_c_credit t) Size.C_CREDIT_LEN)
        (atof (t_c_discount t)) code
  end.

Section rows.
Context {S : Type} `{MysqlServer S}.

Definition stored {D} (store : Z -> list (option bytes) -> D -> D) (data : D) (r : option MYSQL_RES) : D :=
  match r with
  | Some res => match mysql_rows res with row :: _ => store (mysql_num_fields res) row data | [] => data end
  | None => data
  end.

Lemma walk_loop {D} (store : Z -> list (option bytes) -> D -> D) s rs e s' :
  walk s rs e s' -> forall fuel data, (results_left s < fuel)%nat ->
  result_loop fuel store data (mk_mysql s Live) = Some (fold_left (stored store) rs data, mk_mysql s' Live).
Proof.
  induction 1 as [s r s1 e s2 Hs Hn He|s r s1 s2 rs e s3 Hs Hn Hw IH]; intros fuel data Hf;
    (destruct fuel as [|fuel]; [lia|]); cbn; unfold on_connection; cbn; rewrite Hs; cbn; rewrite Hn; cbn.
  - by rewrite (proj2 (Z.eqb_neq _ _) He).
  - apply IH. apply mysql_next_left in Hn. pose proof (mysql_store_left s) as Hl. rewrite Hs in Hl. cbn in Hl. lia.
Qed.

Lemma item_rows rows : forall d k,
  Forall (fun row => List.length row = 5%nat) rows -> (k + List.length rows <= 15)%nat ->
  List.length (no_order_line d) = 15%nat ->
  exists lines, fold_left (stored store_new_order) (map row_set rows) (d, k)
    = (set_no_output d lines (no_o_id d) (no_total_amount d) (no_w_tax d) (no_d_tax d) (no_c_last d)
         (no_c_credit d) (no_c_discount d) (no_rollback d), (k + List.length rows)%nat)
    /\ List.length lines = 15%nat
    /\ (forall i, (i < k \/ k + List.length rows <= i)%nat -> lines !! i = no_order_line d !! i)
    /\ (forall i row l, rows !! i = Some row -> no_order_line d !! (k + i)%nat = Some l ->
          exists l', lines !! (k + i)%nat = Some l' /\ line_shown row l l').
Proof.
  induction rows as [|row rows IH]; intros d k Hrows Hk Hd.
  { exists (no_order_line d). cbn. rewrite Nat.add_0_r. by destruct d. }
  apply Forall_cons in Hrows as [Hrow Hrows]. cbn [List.length] in Hk.
  destruct row as [|b [|b0 [|b1 [|b2 [|b3 [|]]]]]]; try done.
  cbn [map fold_left]. set (st := stored _ _ _).
  assert (Est : exists d1 f, st = (d1, Datatypes.S k) /\ no_order_line d1 = alter f k (no_order_line d)
    /\ (forall lines, set_no_output d1 lines (no_o_id d1) (no_total_amount d1) (no_w_tax d1) (no_d_tax d1)
         (no_c_last d1) (no_c_credit d1) (no_c_discount d1) (no_rollback d1)
       = set_no_output d lines (no_o_id d) (no_total_amount d) (no_w_tax d) (no_d_tax d) (no_c_last d)
         (no_c_credit d) (no_c_discount d) (no_rollback d))
    /\ forall l, line_shown [b; b0; b1; b2; b3] l (f l)).
  { unfold st, stored, row_set. cbn [mysql_rows mysql_num_fields]. unfold store_new_order.
    change (zlen _ =? 5) with true. assert ((Z.of_nat k <? O_OL_CNT_MAX) = true) as -> by (unfold O_OL_CNT_MAX; lia).
    cbn [andb]. do 2 eexists. split; [done|]. split; [done|]. split; [done|].
    intros l. by exists b, b0, b1, b2, b3. }
  destruct Est as (d1 & f & -> & Hl1 & Hset & Hshown).
  destruct (IH d1 (Datatypes.S k)) as (lines & -> & Hlen & Hrest & Hat); [done|lia|by rewrite Hl1, length_alter|].
  exists lines. rewrite Hset. rewrite Hl1 in Hrest, Hat.
  split; [by f_equal; cbn; lia|]. split; [done|]. split.
  - intros i Hi. rewrite Hrest by (cbn in Hi; lia). apply list_lookup_alter_ne. cbn in Hi. lia.
  - intros [|i] row l Hrow' Hl; rewrite ?Nat.add_0_r in *.
    + injection Hrow' as <-. exists (f l). split; [|done].
      rewrite Hrest by lia. by rewrite list_lookup_alter_eq, Hl.
    + rewrite Nat.add_succ_r in *. apply Hat; [done|]. cbn. rewrite list_lookup_alter_ne by lia. exact Hl.
Qed.

Lemma no_rows {D} (store : Z -> list (option bytes) -> D -> D) k data :
  fold_left (stored store) (repeat None k) data = data.
Proof. by induction k. Qed.

Lemma totals_set t (d : new_order_t) k :
  fold_left (stored store_new_order) (option_list (row_set ∘ totals_row <$> t)) (d, k)
  = (with_totals t (no_order_line d) (no_rollback d) d, k).
Proof. destruct t as [t|]; [done|]. by destruct d. Qed.
End rows.

(** C28. A New-Order over MySQL shows what the procedure returned: the row of each
    result set of an item in the line of its position, in the order they came,
    the other lines as they were; the totals if their set came; the status is
    OK and the code what [select @rc] says.  That [mysql_next_result] ended the
    sets with an error [e] makes no difference: an order that was cut short is
    OK too, with the totals of the structure before. *)
Theorem mysql_new_order_shown {S} `{MysqlServer S} (c : mysql_conn S) data stmt rows t k e v s1 s2 s3 s4 :
  is_live c -> List.length (no_order_line data) = 15%nat ->
  sprintf 512 (new_order_stmt data) = Some stmt ->
  Forall (fun row => List.length row = 5%nat) rows -> (List.length rows <= 15)%nat ->
  mysql_query stmt (my_lib c) = (false, s1) ->
  walk s1 (map row_set rows ++ option_list (row_set ∘ totals_row <$> t) ++ repeat None k) e s2 ->
  mysql_query (lit "select @rc") s2 = (false, s3) -> mysql_store_result s3 = (row_set [v], s4) ->
  exists lines, execute_new_order_mysql data c = Some (OK, with_totals t lines (atoi v) data, mk_mysql s4 Live)
    /\ (forall i row l, rows !! i = Some row -> no_order_line data !! i = Some l ->
          exists l', lines !! i = Some l' /\ line_shown row l l')
    /\ (forall i, (List.length rows <= i)%nat -> lines !! i = no_order_line data !! i).
Proof.
  intros Hc Hlen Hstmt Hrows Hn Hq Hw Hq' Hs. unfold is_live in Hc. destruct c as [s h]. cbn [my_handle my_lib] in *. subst h.
  destruct (item_rows rows data 0 Hrows Hn Hlen) as (lines & Hfold & _ & Hrest & Hat).
  exists lines. split; [|split; [exact Hat|intros i Hi; apply Hrest; by right]].
  unfold execute_new_order_mysql. rewrite Hstmt. unfold on_connection. cbn [mbind option_bind my_handle my_lib].
  rewrite Hq. cbn [mbind option_bind]. unfold result_sets. cbn [my_lib].
  rewrite (walk_loop _ _ _ _ _ Hw _ _ (Nat.lt_succ_diag_r _)), !fold_left_app, Hfold, totals_set, no_rows.
  cbn [mbind option_bind]. unfold select_variable, on_connection. cbn [my_handle my_lib]. rewrite Hq'.
  cbn [mbind option_bind my_handle my_lib]. rewrite Hs. by destruct t.
Qed.
