(* ===== verification/MysqlSample.v ===== *)
(** * A MySQL server to run against

    A server that answers the CALL of a New-Order with two sets of an item and
    one of the totals, [select @rc] with a code of its choice, and refuses the
    first commits: the hypotheses of [Mysql] can hold. *)

From Stdlib Require Import ZArith Lia SpecFloat String.
From stdpp Require Import base list.
From S2P Require Import Prelude Double Text Common TxnData InputData Wire Tables Db Mysql MysqlTheorems Driver DriverRun DriverSafety Workload.

(** The result sets that are left, the commits that will fail, and the queries so
    far, the last one first. *)
Record shop := mk_shop { sets : list MYSQL_RES; refusals : nat; asked : list bytes }.

Definition cells (row : list String.string) : list (option bytes) := map (fun v => Some (lit v)) row.
Definition one_row (row : list String.string) : MYSQL_RES :=
  mk_MYSQL_RES (Z.of_nat (List.length row)) [cells row].

Definition starts (prefix q : bytes) : bool := bytes_eqb (take (List.length prefix) q) prefix.

(** No name is longer than the column it comes from. *)
Definition short_names (res : MYSQL_RES) : bool :=
  forallb (forallb (from_option (fun v => zlen (decode_utf8 17 v).1 <=? 16) true)) (mysql_rows res).

Section shop.
(** The result sets of a CALL, and [@rc]. *)
Context (reply : list MYSQL_RES) (rc : String.string).

Definition shop_query (q : bytes) (s : shop) : bool * shop :=
  let s := mk_shop (sets s) (refusals s) (q :: asked s) in
  if starts (lit "COMMIT") q then
    match refusals s with
    | O => (false, mk_shop [] O (asked s))
    | Datatypes.S k => (true, mk_shop [] k (asked s))
    end
  else if starts (lit "call") q then (false, mk_shop reply (refusals s) (asked s))
  else if starts (lit "select @rc") q then (false, mk_shop [one_row [rc]] (refusals s) (asked s))
  else (false, mk_shop [] (refusals s) (asked s)).

#[local] Instance shop_library : Mysql shop := {|
  mysql_init s := (false, s);
  mysql_real_connect _ _ s := (false, s);
  mysql_close s := s;
  mysql_query := shop_query;
  mysql_store_result s := (r ← head (sets s); if short_names r then Some r else None, s);
  mysql_field_count s := 0;
  mysql_affected_rows s := 0;
  mysql_next_result s :=
    match sets s with
    | _ :: (_ :: _) as rest => (0, mk_shop rest (refusals s) (asked s))
    | _ => (-1, mk_shop [] (refusals s) (asked s))
    end;
  results_left s := List.length (sets s);
  mysql_time s := (0, s);
  mysql_nanosleep s := s |}.

Lemma shop_laws : MysqlServer shop.
Proof.
  split.
  - intros s s'. cbn. destruct (sets s) as [|r [|r' rest]]; cbn; try done. intros [= <-]. cbn. lia.
  - done.
  - intros s res s' row rows i v. cbn. destruct (head (sets s)) as [r|]; [|done]. cbn.
    destruct (short_names r) eqn:Hn; [|done]. intros [= <- _] Hr _ Hv.
    unfold short_names in Hn. rewrite Hr in Hn. apply andb_true_iff in Hn as [Hn _].
    rewrite forallb_forall in Hn. unfold cell in Hv. destruct (row !! i) as [x|] eqn:Hx; [|done].
    cbn in Hv. subst x. apply list_elem_of_lookup_2, list_elem_of_In, Hn in Hx. by apply Z.leb_le.
Qed.
End shop.

#[export] Existing Instance shop_library.
#[export] Existing Instance shop_laws.

Definition items_sold : list MYSQL_RES :=
  [one_row ["9.50"; "bolt"; "12"; "19.00"; "G"]%string; one_row ["1.25"; "nut"; "7"; "5.00"; "B"]%string;
   one_row ["0.05"; "0.10"; "3001"; "BAROUGHTABLE"; "GC"; "0.20"; "24.00"]%string].

Definition shop_params : db_context_mysql := db_init_mysql None None None None None None.

(** A terminal of warehouse 1 whose first transaction is a New-Order. *)
Definition shop_trace : list action :=
  actions_of (terminal_worker sample_driver 115 42 sample_log 5 82 uninitialised 1 1 sample_rounds 131).

Lemma shop_messages : Forall (message_ok sample_driver 1 1) (sent shop_trace).
Proof.
  apply Forall_forall. intros m Hm%sent_in.
  assert (Hs : Forall (sends_ok sample_driver 1 1) shop_trace).
  { apply (terminal_sends sample_driver 115 42 sample_log 5 82 uninitialised 1 1 sample_rounds 131).
    - exact sample_driver_ok.
    - vm_compute. split; discriminate.
    - vm_compute. split; discriminate.
    - apply is_done_or. vm_compute. reflexivity. }
  rewrite Forall_forall in Hs. exact (Hs _ Hm).
Qed.

Definition shop_open (k : nat) : mysql_conn shop := mk_mysql (mk_shop [] k []) Live.

#[local] Abbreviation run_shop :=
  (match sent shop_trace with
   | m :: _ => process_transaction (H := mysql_ops shop_params (H := shop_library items_sold "0"%string)) 0 1
                 (transaction m) (transaction_data m) (Some (shop_open 1))
   | [] => None
   end).

(** The first COMMIT is refused: the transaction runs again on a new connection. *)
Lemma shop_run : match run_shop with
                 | Some (st, _, log, _) => st = OK /\ executions log = 2
                 | None => False
                 end.
Proof. vm_compute. split; reflexivity. Qed.

Lemma mysql_transaction_safe_witness :
  match run_shop with
  | Some (st, _, log, w) =>
      st = OK /\ executions log = 2
      /\ exists c', w = Some c' /\ (is_live c' \/ st = ERROR /\ 0 <> 0)
  | None => False
  end.
Proof.
  pose proof shop_run as Hrun. pose proof shop_messages as Hm.
  destruct (sent shop_trace) as [|m ms]; [exact Hrun|].
  apply Forall_inv in Hm.
  destruct (mysql_transaction_safe (H := shop_library items_sold "0"%string)
              (H0 := shop_laws items_sold "0"%string) shop_params sample_driver 1 1 m (shop_open 1))
    as [Hsafe _].
  - exact sample_driver_ok.
  - vm_compute. split; discriminate.
  - vm_compute. split; discriminate.
  - vm_compute. reflexivity.
  - vm_compute. reflexivity.
  - exact Hm.
  - reflexivity.
  - destruct (process_transaction _ _ _ _ _) as [[[[st td] log] w]|] eqn:Hp; [|exact Hrun].
    destruct Hrun as [H1 H2]. split; [exact H1|]. split; [exact H2|]. exact (Hsafe 0 1%nat st td log w Hp).
Defined.

(** Two items, then the totals, then the end. *)
Definition shop_order : new_order_t :=
  mk_new_order 1 2 3 2 1 (replicate 15 zero_no_order_line) 0 d_zero d_zero d_zero [] [] d_zero 0.
Definition item_texts : list (list bytes) :=
  [map lit ["9.50"; "bolt"; "12"; "19.00"; "G"]%string; map lit ["1.25"; "nut"; "7"; "5.00"; "B"]%string].
Definition shop_totals : totals :=
  mk_totals (lit "0.05") (lit "0.10") (lit "3001") (lit "BAROUGHTABLE") (lit "GC") (lit "0.20") (lit "24.00").

Lemma mysql_new_order_shown_witness :
  exists lines c',
    execute_new_order_mysql (H := shop_library items_sold "0"%string) shop_order (shop_open 0)
      = Some (OK, with_totals (Some shop_totals) lines 0 shop_order, c')
    /\ no_o_id (with_totals (Some shop_totals) lines 0 shop_order) = 3001
    /\ exists l, lines !! 1%nat = Some l /\ s_quantity l = 7.
Proof.
  set (s1 := mk_shop items_sold 0 [new_order_stmt shop_order]).
  set (s2 := mk_shop [] 0 [new_order_stmt shop_order]).
  set (s3 := mk_shop [one_row ["0"%string]] 0 [lit "select @rc"; new_order_stmt shop_order]).
  destruct (mysql_new_order_shown (H := shop_library items_sold "0"%string)
              (H0 := shop_laws items_sold "0"%string) (shop_open 0) shop_order (new_order_stmt shop_order)
              item_texts (Some shop_totals) 0 (-1) (lit "0") s1 s2 s3 s3) as (lines & He & Hat & _).
  - reflexivity.
  - reflexivity.
  - vm_compute. reflexivity.
  - vm_compute. repeat constructor.
  - vm_compute. repeat constructor.
  - vm_compute. reflexivity.
  - eapply walk_more; [vm_compute; reflexivity..|]. eapply walk_more; [vm_compute; reflexivity..|].
    eapply walk_last; [vm_compute; reflexivity..|]. discriminate.
  - vm_compute. reflexivity.
  - vm_compute. reflexivity.
  - exists lines, (mk_mysql s3 Live). split; [exact He|]. split; [vm_compute; reflexivity|].
    destruct (Hat 1%nat _ _ eq_refl eq_refl) as (l' & Hl & price & name & quantity & amount & brand & Hrow & ->).
    eexists. split; [exact Hl|]. injection Hrow as <- <- <- <- <-. vm_compute. reflexivity.
Defined.
