(* ===== verification/OracleTheorems.v ===== *)
(** * What the Oracle back end stores and shows

    The placeholders of the statements and the variables bound to them, and
    [process_transaction] over [Oracle] on a server: what is stored for a
    transaction that is answered, and what of the answer is shown. *)

From Stdlib Require Import ZArith Lia SpecFloat String.
From stdpp Require Import base list.
From S2P Require Import Prelude Double Text Common TxnData Wire Tables Db Nonsp NonspTxn Lengths Oci Oracle.

#[local] Open Scope string_scope.
#[local] Open Scope list_scope.
#[local] Open Scope Z_scope.

(** ** The statements and their variables *)

(** Letters, digits and _ *)
Definition name_char (c : Z) : bool :=
  (97 <=? c) && (c <=? 122) || (48 <=? c) && (c <=? 57) || (c =? 95).

(** The placeholders of a text: a colon and a name; [cur] is the one that is
    being read. *)
Fixpoint placeholders (cur : option bytes) (text : bytes) : list bytes :=
  match text with
  | [] => option_list cur
  | c :: text =>
      match cur with
      | Some name =>
          if name_char c then placeholders (Some (name ++ [c])) text
          else name :: placeholders (if c =? 58 then Some [c] else None) text
      | None => placeholders (if c =? 58 then Some [c] else None) text
      end
  end.

Definition count_name (n : bytes) (l : list bytes) : nat := List.length (List.filter (bytes_eqb n) l).

(** The variable of a bind is a field of the structure, in its range, with the
    type and the size it is bound with. *)
Definition declared (fields : list field) (a : addr) (ok : ctype -> bool) : bool :=
  existsb (fun d => String.eqb (fd_name d) a.1 && (a.2 <? fd_count d)%nat && ok (fd_type d)) fields.

Definition fits_type (t : sqlt) (size : Z) (d : ctype) : bool :=
  (size =? sizeof d) &&
  match t, d with
  | SQLT_INT, C_int | SQLT_FLT, C_double | SQLT_FLT, C_float | SQLT_STR, C_char _ => true
  | _, _ => false
  end.

Definition bind_ok (fields : list field) (b : bind) : bool :=
  declared fields (b_addr b) (fits_type (b_type b) (b_size b)) &&
  match b_ind b with
  | Some i => declared fields i (fun d => match d with C_sb2 => true | _ => false end)
  | None => true
  end.

Definition addresses (b : bind) : list addr := b_addr b :: option_list (b_ind b).

Fixpoint distinct (l : list addr) : bool :=
  match l with [] => true | a :: l => negb (existsb (addr_eqb a) l) && distinct l end.

(** Every placeholder is bound once, nothing else is, every variable is what it is
    bound as, and no two share memory. *)
Definition statement_ok (fields : list field) (stmt : statement) : bool :=
  let names := map b_name (st_binds stmt) in
  let holes := placeholders None (st_text stmt) in
  (List.length names =? List.length holes)%nat
  && forallb (fun n => (count_name n names =? 1)%nat && (count_name n holes =? 1)%nat) (names ++ holes)
  && forallb (bind_ok fields) (st_binds stmt ++ st_defines stmt)
  && distinct (flat_map addresses (st_binds stmt ++ st_defines stmt)).

(** OUT parameters of the procedures. *)
Definition is_out (b : bind) : bool :=
  bytes_eqb (take 5 (b_name b)) (lit ":out_") || bytes_eqb (b_name b) (lit ":low_stock").

Definition null_statement : statement := mk_statement [] [] [].
Definition no_statement : statement := default null_statement new_order_statement.
Definition os_statement : statement := default null_statement order_status_statement.

(** The statements of the Oracle back end: formatting the names of the numbered
    placeholders never leaves its buffers; every placeholder of a text is bound
    exactly once and nothing else is bound; each variable is a field of the
    context, inside its array, of the type and the size it is bound with, its
    indicator a short integer of the same context; and no two variables or
    indicators are the same memory. *)
Lemma oracle_statements_bound :
  is_Some new_order_statement /\ is_Some order_status_statement /\
  forallb (fun '(fields, stmt) => statement_ok fields stmt)
    [(deliveryctx, delivery_statement); (integrityctx, integrity_statement);
     (nordctx, no_statement); (ordstatusctx, os_statement);
     (paymentctx, payment_statement); (stockctx, stock_level_statement)] = true.
Proof. split_and!; [vm_compute; by eexists..|]. vm_compute. reflexivity. Qed.

Lemma new_order_statement_some : new_order_statement = Some no_statement.
Proof. vm_compute. reflexivity. Qed.
Lemma order_status_statement_some : order_status_statement = Some os_statement.
Proof. vm_compute. reflexivity. Qed.

(** ** The server *)

(** The inputs of an execution, and what a procedure that is kept did: its text and
    its inputs. *)
Definition inputs (stmt : statement) (m : memory) : list (bytes * option value) :=
  map (fun b => (b_name b, m (b_addr b))) (List.filter (fun b => negb (is_out b)) (st_binds stmt)).

Definition effect : Type := bytes * list (bytes * option value).

(** A value of the type of a variable. *)
Definition typed (b : bind) (v : value) : Prop :=
  match b_type b, v with
  | SQLT_INT, V_int _ => True
  | SQLT_FLT, V_double _ => b_size b = 8
  | SQLT_FLT, V_float _ => b_size b = 4
  | SQLT_STR, V_str s => zlen s < b_size b
  | _, _ => False
  end.

(** What an execution has written when it succeeded: the indicators, and the
    values of those that are 0. *)
Definition written (stmt : statement) (m : memory) : Prop :=
  (forall b i, b ∈ st_binds stmt -> b_ind b = Some i ->
     exists ind, m i = Some (V_int ind) /\ (ind = 0 -> exists v, m (b_addr b) = Some v /\ typed b v))
  /\ (forall b, b ∈ st_defines stmt -> exists v, m (b_addr b) = Some v /\ typed b v).

(** What the library may write: outputs and indicators. *)
Definition may_write (stmt : statement) (a : addr) : Prop :=
  (exists b, b ∈ st_binds stmt /\ (a = b_addr b /\ is_out b = true \/ b_ind b = Some a))
  \/ (exists b, b ∈ st_defines stmt /\ a = b_addr b).

(** Statements commit when they succeed, with a warning too.  After any other
    answer the work is kept or not: the server may have committed before the
    connection broke.  Handles stay valid on an open connection, and a server does
    not ask for another attempt without end. *)
Class OracleServer (S : Type) `{Oci S} := {
  performed : S -> list effect;
  oci_performed stmt m s st m' s' : OCIStmtExecute stmt m s = (st, m', s') ->
    exists kept : bool,
      performed s' = performed s ++ (if kept then [(st_text stmt, inputs stmt m)] else [])
      /\ (st = OCI_SUCCESS \/ st = OCI_SUCCESS_WITH_INFO -> kept = true);
  oci_frame stmt m s st m' s' a : OCIStmtExecute stmt m s = (st, m', s') ->
    m' a = m a \/ may_write stmt a;
  oci_written stmt m s m' s' : OCIStmtExecute stmt m s = (OCI_SUCCESS, m', s') -> written stmt m';
  oci_handles stmt m s m' s' : OCIStmtExecute stmt m s <> (OCI_INVALID_HANDLE, m', s');
  oci_records stmt m s m' s' : OCIStmtExecute stmt m s = (OCI_ERROR, m', s') -> oci_errors s' <> [];
  oci_retries stmt m s st m' s' e : OCIStmtExecute stmt m s = (st, m', s') ->
    ocierror st (oci_errors s') = Some e -> retried e = true -> st <> OCI_SUCCESS ->
    (retries_left (OCITransCommit s') < retries_left s)%nat;
  oci_commit_performed s : performed (OCITransCommit s) = performed s;
  oci_rollback_performed s : performed (OCITransRollback s) = performed s }.

(** A server whose answers are never in doubt: only a success keeps anything. *)
Definition clear_answers (S : Type) `{OracleServer S} : Prop :=
  forall stmt m s st m' s', OCIStmtExecute stmt m s = (st, m', s') -> st <> OCI_SUCCESS ->
    performed s' = performed s.

(** ** Executing *)

Lemma addr_eqb_spec a b : addr_eqb a b = true <-> a = b.
Proof.
  destruct a as [f i], b as [g j]. unfold addr_eqb. cbn.
  rewrite andb_true_iff, String.eqb_eq, Nat.eqb_eq. intuition congruence.
Qed.

(** No output of a statement is one of its inputs. *)
Definition separate (stmt : statement) : bool :=
  forallb (fun b => is_out b ||
    forallb (fun a => negb (addr_eqb (b_addr b) a))
      (map b_addr (List.filter is_out (st_binds stmt)) ++ omap b_ind (st_binds stmt)
       ++ map b_addr (st_defines stmt))) (st_binds stmt).

Lemma separate_spec stmt b : separate stmt = true -> b ∈ st_binds stmt -> is_out b = false ->
  ~ may_write stmt (b_addr b).
Proof.
  unfold separate. rewrite forallb_forall. intros Hs Hb Ho Hw.
  specialize (Hs b (proj1 (list_elem_of_In _ _) Hb)). rewrite Ho in Hs. cbn [orb] in Hs.
  rewrite forallb_forall in Hs.
  assert (Hin : forall a, In a (map b_addr (List.filter is_out (st_binds stmt)) ++ omap b_ind (st_binds stmt)
                   ++ map b_addr (st_defines stmt)) -> b_addr b <> a).
  { intros a Ha%Hs <-. rewrite (proj2 (addr_eqb_spec _ _) eq_refl) in Ha. done. }
  destruct Hw as [(b' & Hb' & [[E Ho']|E])|(b' & Hb' & E)].
  - apply (Hin (b_addr b')); [|done]. apply in_or_app. left. apply in_map, filter_In.
    by rewrite <- list_elem_of_In.
  - apply (Hin (b_addr b)); [|done]. apply in_or_app. right. apply in_or_app. left.
    apply list_elem_of_In, list_elem_of_omap. by exists b'.
  - apply (Hin (b_addr b')); [|done]. apply in_or_app. right. apply in_or_app. right.
    apply in_map. by rewrite <- list_elem_of_In.
Qed.

Lemma inputs_frame stmt (m m' : memory) : separate stmt = true ->
  (forall a, m' a = m a \/ may_write stmt a) -> inputs stmt m' = inputs stmt m.
Proof.
  intros Hs Hf. unfold inputs. apply map_ext_in. intros b [Hb Ho]%filter_In.
  f_equal. destruct (Hf (b_addr b)) as [E|Hw]; [done|].
  exfalso. apply (separate_spec stmt b); [done|by apply list_elem_of_In|by apply negb_true_iff|done].
Qed.

(** ** Output that was written is defined *)

(** A statement has an output [f\[i\]] of the type [t] and size [n]. *)
Definition has_output (stmt : statement) (f : String.string) (i : nat) (t : sqlt) (n : Z) : bool :=
  existsb (fun b => addr_eqb (b_addr b) (f, i) && (b_size b =? n)
    && match b_type b, t with
       | SQLT_INT, SQLT_INT | SQLT_FLT, SQLT_FLT | SQLT_STR, SQLT_STR => true
       | _, _ => false
       end
    && match b_ind b with Some a => addr_eqb a ((f ++ "_ind")%string, i) | None => false end) (st_binds stmt).

Lemma has_output_written stmt m f i t n : written stmt m -> has_output stmt f i t n = true ->
  exists ind, m ((f ++ "_ind")%string, i) = Some (V_int ind) /\
    (ind = 0 -> exists v, m (f, i) = Some v /\ typed (mk_bind [] (f, i) n t None) v).
Proof.
  intros [Hw _] (b & Hb & Hc)%existsb_exists.
  apply andb_true_iff in Hc as [Hc Hi]. apply andb_true_iff in Hc as [Hc Ht].
  apply andb_true_iff in Hc as [Ha Hn]. apply addr_eqb_spec in Ha. apply Z.eqb_eq in Hn.
  destruct (b_ind b) as [a|] eqn:Hind; [|done]. apply addr_eqb_spec in Hi. subst a.
  destruct (Hw b _ (proj2 (list_elem_of_In _ _) Hb) Hind) as (ind & Hm & Hv).
  exists ind. split; [exact Hm|]. intros E. destruct (Hv E) as (v & Hv1 & Hv2). rewrite Ha in Hv1.
  exists v. split; [exact Hv1|]. unfold typed in *. cbn. rewrite <- Hn.
  revert Ht Hv2. by destruct (b_type b), t.
Qed.

Section outputs.
Context (stmt : statement) (m : memory) (Hw : written stmt m).

Lemma output_some {A} read f i t n (old : A) : has_output stmt f i t n = true ->
  (forall v, m (f, i) = Some v -> typed (mk_bind [] (f, i) n t None) v -> is_Some (read m (f, i))) ->
  exists v, output read m f i old = Some v.
Proof.
  intros Ho Hr. destruct (has_output_written _ _ _ _ _ _ Hw Ho) as (ind & Hi & Hv).
  unfold output, int_at. rewrite Hi. cbn [mbind option_bind]. destruct (Z.eqb_spec ind 0) as [E|]; [|by eexists].
  destruct (Hv E) as (v & Hv1 & Hv2). destruct (Hr v Hv1 Hv2) as [x Hx]. by exists x.
Qed.

Lemma out_int_some f i old : has_output stmt f i SQLT_INT 4 = true ->
  exists v, out_int m f i old = Some v.
Proof.
  intros Ho. apply (output_some _ _ _ _ _ _ Ho). intros v Hv Ht. unfold int_at. rewrite Hv.
  by destruct v.
Qed.

Lemma out_double_some f i old : has_output stmt f i SQLT_FLT 8 = true ->
  exists v, out_double m f i old = Some v.
Proof.
  intros Ho. apply (output_some _ _ _ _ _ _ Ho). intros v Hv Ht. unfold double_at. rewrite Hv.
  by destruct v.
Qed.

Lemma out_text_some {A} (g : bytes -> A) k f i old : has_output stmt f i SQLT_STR k = true ->
  exists v, output (fun m a => s ← str_at m a; Some (g s)) m f i old = Some v.
Proof.
  intros Ho. apply (output_some _ _ _ _ _ _ Ho). intros v Hv Ht. unfold str_at. rewrite Hv.
  by destruct v.
Qed.

Lemma out_str_some n k f i old : has_output stmt f i SQLT_STR k = true ->
  exists v, out_str n m f i old = Some v.
Proof. apply out_text_some. Qed.

Lemma out_wide_some k f i old : has_output stmt f i SQLT_STR k = true ->
  exists v, out_wide m f i old = Some v.
Proof. apply out_text_some. Qed.
End outputs.

(** One output after the other. *)
Ltac next_output Hw :=
  match type of Hw with
  | written ?stmt ?m =>
      match goal with
      | |- context [out_int m ?f ?i ?old] =>
          destruct (out_int_some stmt m Hw f i old) as [? ->]; [vm_compute; reflexivity|]
      | |- context [out_double m ?f ?i ?old] =>
          destruct (out_double_some stmt m Hw f i old) as [? ->]; [vm_compute; reflexivity|]
      | |- context [out_str ?n m ?f ?i ?old] =>
          destruct (out_str_some stmt m Hw n n f i old) as [? ->]; [vm_compute; reflexivity|]
      | |- context [out_wide m ?f ?i ?old] =>
          destruct (out_wide_some stmt m Hw (4 * (Size.C_LAST_LEN + 1)) f i old) as [? ->];
          [vm_compute; reflexivity|]
      end; cbn [mbind option_bind]
  end.

Lemma get_payment_some m d : written payment_statement m -> exists d', get_payment m d = Some d'.
Proof. intros Hw. unfold get_payment. repeat next_output Hw. by eexists. Qed.

(** The arrays have fifteen elements. *)
Lemma in_each_line (p : nat -> bool) i : forallb p (seq 0 15) = true -> (i < 15)%nat -> p i = true.
Proof. rewrite forallb_forall. intros Hp Hi. apply Hp, in_seq. lia. Qed.

Lemma get_no_line_some m j l : written no_statement m -> (j < 15)%nat ->
  exists l', get_no_line m j l = Some l' /\ ol_i_id l' = ol_i_id l.
Proof.
  intros Hw Hj. unfold get_no_line.
  pose proof (in_each_line (fun j => has_output no_statement "i_price" j SQLT_FLT 8
    && has_output no_statement "i_name" j SQLT_STR (4 * (Size.I_NAME_LEN + 1))
    && has_output no_statement "s_quantity" j SQLT_INT 4
    && has_output no_statement "ol_amount" j SQLT_FLT 8
    && has_output no_statement "brand_generic" j SQLT_STR 2) j) as Ho.
  rewrite !andb_true_iff in Ho. destruct Ho as [[[[O1 O2] O3] O4] O5]; [vm_compute; reflexivity|done|].
  destruct (out_double_some _ m Hw _ _ (i_price l) O1) as [? ->]. cbn [mbind option_bind].
  destruct (out_str_some _ m Hw (4 * (Size.I_NAME_LEN + 1)) _ _ _ (i_name l) O2) as [? ->]. cbn [mbind option_bind].
  destruct (out_int_some _ m Hw _ _ (s_quantity l) O3) as [? ->]. cbn [mbind option_bind].
  destruct (out_double_some _ m Hw _ _ (ol_amount l) O4) as [? ->]. cbn [mbind option_bind].
  destruct (out_text_some _ m Hw (hd 0) _ _ _ (brand_generic l) O5) as [? ->]. cbn [mbind option_bind].
  by eexists.
Qed.

Lemma get_no_lines_some m lines : written no_statement m -> forall j,
  (j + List.length lines <= 15)%nat -> exists lines', get_no_lines m j lines = Some lines'.
Proof.
  intros Hw. induction lines as [|l lines IH]; intros j Hj; [by eexists|]. cbn in Hj |- *.
  destruct (get_no_line_some m j l Hw) as (l' & -> & _); [lia|]. cbn [mbind option_bind].
  destruct (IH (Datatypes.S j)) as [lines' ->]; [lia|]. by eexists.
Qed.

Lemma get_new_order_some m d : written no_statement m -> List.length (no_order_line d) = 15%nat ->
  exists d', get_new_order m d = Some d' /\ no_rollback d' = no_rollback d.
Proof.
  intros Hw Hl. unfold get_new_order. repeat next_output Hw.
  destruct (get_no_lines_some m (no_order_line d) Hw 0) as [lines ->]; [lia|]. by eexists.
Qed.

Lemma get_os_lines_some m lines : written os_statement m -> forall i,
  (i + List.length lines <= 15)%nat -> exists r, get_os_lines m i lines = Some r.
Proof.
  intros Hw. induction lines as [|l lines IH]; intros i Hi; [by eexists|]. cbn in Hi |- *.
  pose proof (in_each_line (fun i => has_output os_statement "out_ol_i_id" i SQLT_INT 4
    && has_output os_statement "out_ol_supply_w_id" i SQLT_INT 4
    && has_output os_statement "out_ol_quantity" i SQLT_INT 4
    && has_output os_statement "out_ol_amount" i SQLT_FLT 8
    && has_output os_statement "out_ol_delivery_d" i SQLT_STR (Size.OL_DELIVERY_D_LEN + 1)) i) as Ho.
  rewrite !andb_true_iff in Ho. destruct Ho as [[[[O1 O2] O3] O4] O5]; [vm_compute; reflexivity|lia|].
  destruct (has_output_written _ _ _ _ _ _ Hw O1) as (ind & Hind & Hv).
  unfold int_at at 1. change (("out_ol_i_id" ++ "_ind")%string) with "out_ol_i_id_ind"%string in Hind.
  rewrite Hind. cbn [mbind option_bind]. destruct (Z.eqb_spec ind 0) as [E|]; cbn [negb]; [|by eexists].
  destruct (Hv E) as (v & Hv1 & Hv2). unfold get_os_line. unfold int_at at 1. rewrite Hv1.
  destruct v as [z| | |]; try done. cbn [mbind option_bind].
  destruct (out_int_some _ m Hw _ _ (osl_supply_w_id l) O2) as [? ->]. cbn [mbind option_bind].
  destruct (out_int_some _ m Hw _ _ (osl_quantity l) O3) as [? ->]. cbn [mbind option_bind].
  destruct (out_double_some _ m Hw _ _ (osl_amount l) O4) as [? ->]. cbn [mbind option_bind].
  destruct (out_str_some _ m Hw (Size.OL_DELIVERY_D_LEN + 1) _ _ _ (osl_delivery_d l) O5) as [? ->].
  cbn [mbind option_bind].
  destruct (IH (Datatypes.S i)) as [[rest cnt] ->]; [lia|]. by eexists.
Qed.

Lemma get_order_status_some m d : written os_statement m -> (List.length (os_order_line d) <= 15)%nat ->
  exists d', get_order_status m d = Some d'.
Proof.
  intros Hw Hl. unfold get_order_status. repeat next_output Hw.
  destruct (get_os_lines_some m (os_order_line d) Hw 0) as [[lines cnt] ->]; [lia|]. by eexists.
Qed.

(** ** What a transaction asks the server to do *)

Definition int_input (n : String.string) (z : Z) : bytes * option value := (lit n, Some (V_int z)).

(** The lines of a New-Order, numbered from [j]. *)
Fixpoint line_calls (j : Z) (lines : list no_order_line_t) : list (bytes * option value) :=
  match lines with
  | [] => []
  | l :: lines =>
      [(lit ":ol_i_id" ++ fmt_d j, Some (V_int (ol_i_id l)));
       (lit ":ol_supply_w_id" ++ fmt_d j, Some (V_int (ol_supply_w_id l)));
       (lit ":ol_quantity" ++ fmt_d j, Some (V_int (ol_quantity l)))] ++ line_calls (j + 1) lines
  end.

(** The CALL of a transaction with its arguments; the amount of a payment is
    rounded to a [float]. *)
Definition call_of (td : transaction_data_t) : effect :=
  match td with
  | TD_delivery d =>
      (STMT_DELIVERY, [int_input ":w_id" (dl_w_id d); int_input ":o_carrier_id" (dl_o_carrier_id d)])
  | TD_new_order d =>
      (STMT_NEW_ORDER,
       [int_input ":w_id" (no_w_id d); int_input ":d_id" (no_d_id d); int_input ":c_id" (no_c_id d);
        int_input ":o_all_local"
          (all_local (no_w_id d) (take (Z.to_nat (no_o_ol_cnt d)) (no_order_line d)));
        int_input ":o_ol_cnt" (no_o_ol_cnt d)] ++ line_calls 1 (no_order_line d))
  | TD_order_status d =>
      (STMT_ORDER_STATUS,
       [int_input ":c_id" (os_c_id d); int_input ":c_w_id" (os_c_w_id d); int_input ":c_d_id" (os_c_d_id d);
        (lit ":c_last", Some (V_str (wcstombs (os_c_last d) 68)))])
  | TD_payment d =>
      (STMT_PAYMENT,
       [int_input ":w_id" (pa_w_id d); int_input ":d_id" (pa_d_id d); int_input ":c_id" (pa_c_id d);
        int_input ":c_w_id" (pa_c_w_id d); int_input ":c_d_id" (pa_c_d_id d);
        (lit ":c_last", Some (V_str (wcstombs (pa_c_last d) 68)));
        (lit ":h_amount", Some (V_float (to_float (pa_h_amount d))))])
  | TD_stock_level d =>
      (STMT_STOCK_LEVEL,
       [int_input ":w_id" (sl_w_id d); int_input ":d_id" (sl_d_id d); int_input ":threshold" (sl_threshold d)])
  | TD_integrity d => (STMT_INTEGRITY, [])
  end.

Definition oracle_fits (td : transaction_data_t) : Prop :=
  match td with
  | TD_new_order d => List.length (no_order_line d) = 15%nat /\ no_rollback d = 0
  | TD_order_status d => List.length (os_order_line d) = 15%nat /\ short_name (os_c_last d)
  | TD_payment d => short_name (pa_c_last d)
  | _ => True
  end.

Lemma separate_all : forallb separate
  [delivery_statement; integrity_statement; no_statement; os_statement; payment_statement;
   stock_level_statement] = true.
Proof. vm_compute. reflexivity. Qed.

Lemma new_order_inputs_call d m : List.length (no_order_line d) = 15%nat ->
  (st_text no_statement, inputs no_statement (put_new_order (set_all_local
     (all_local (no_w_id d) (take (Z.to_nat (no_o_ol_cnt d)) (no_order_line d))) d) m))
  = call_of (TD_new_order d).
Proof.
  destruct d as [w dd cc cnt loc lines oid tot wt dt cl cr ds rb]. cbn [no_order_line no_w_id no_o_ol_cnt].
  set (loc' := all_local _ _). intros Hl. unfold call_of. cbn [no_order_line no_w_id no_o_ol_cnt no_d_id no_c_id].
  fold loc'. clearbody loc'.
  do 15 (destruct lines as [|? lines]; [done|]). destruct lines; [|done]. vm_compute. reflexivity.
Qed.

Lemma short_c_last_text s : short_name s -> c_last_bytes s = Some (wcstombs s 68).
Proof.
  intros Hs. destruct (short_c_last s Hs) as (t & Ht & _). rewrite Ht.
  unfold c_last_bytes, sprintf in Ht. destruct (_ <? _); [|done]. by injection Ht as <-.
Qed.

Section server.
Context {S : Type} `{OracleServer S}.
Implicit Types c : oracle_conn S.

(** What [n] executions with the inputs [ins] have added. *)
Definition added (s s' : S) (e : effect) (n : nat) : Prop := performed s' = performed s ++ replicate n e.

Lemma execute_loop_spec stmt fuel : separate stmt = true -> forall m s,
  (retries_left s < fuel)%nat ->
  exists e m' s' n, execute_loop fuel stmt m s = Some (e, m', s')
    /\ added s s' (st_text stmt, inputs stmt m) n
    /\ (e = Succeeded -> (1 <= n)%nat /\ written stmt m')
    /\ (clear_answers S -> n = match e with Succeeded => 1%nat | _ => 0%nat end).
Proof.
  intros Hsep. induction fuel as [|fuel IH]; intros m s Hf; [lia|]. cbn [execute_loop].
  destruct (OCIStmtExecute stmt m s) as [[st m1] s1] eqn:He.
  destruct (oci_performed _ _ _ _ _ _ He) as (kept & Hk & Hkept).
  set (n := if kept then 1%nat else 0%nat).
  assert (Ha : added s s1 (st_text stmt, inputs stmt m) n) by (unfold added, n; by destruct kept).
  assert (Hclear : clear_answers S -> st <> OCI_SUCCESS -> n = 0%nat).
  { intros Hc Hst. specialize (Hc _ _ _ _ _ _ He Hst). unfold added in Ha. rewrite Ha in Hc.
    apply (f_equal List.length) in Hc. rewrite length_app, length_replicate in Hc. lia. }
  destruct (decide (st = OCI_SUCCESS)) as [->|Hst].
  { exists Succeeded, m1, s1, n. split_and!; try done.
    - intros _. split; [|by eapply oci_written]. unfold n. rewrite Hkept by auto. done.
    - intros _. unfold n. rewrite Hkept by auto. done. }
  destruct (decide (st = OCI_NO_DATA)) as [->|Hst2].
  { exists NoData, m1, s1, n. by split_and!; auto. }
  assert (Hgo : exists errcode, ocierror st (oci_errors s1) = Some errcode).
  { unfold ocierror. destruct st; try (by eexists); try done.
    - pose proof (oci_records _ _ _ _ _ He) as Hr.
      destruct (oci_errors s1); [done|]. destruct (existsb _ _); by eexists.
    - by destruct (oci_handles _ _ _ _ _ He). }
  destruct Hgo as [errcode Herr].
  assert (Hstep : exists e m' s' n',
    (if retried errcode then execute_loop fuel stmt m1 (OCITransCommit s1) else Some (Refused errcode, m1, s1))
      = Some (e, m', s')
    /\ added s s' (st_text stmt, inputs stmt m) n'
    /\ (e = Succeeded -> (1 <= n')%nat /\ written stmt m')
    /\ (clear_answers S -> n' = match e with Succeeded => 1%nat | _ => 0%nat end)).
  { destruct (retried errcode) eqn:Hr.
    - pose proof (oci_retries _ _ _ _ _ _ _ He Herr Hr Hst) as Hlt.
      destruct (IH m1 (OCITransCommit s1)) as (e & m' & s' & n' & -> & Ha' & Hs' & Hc'); [lia|].
      exists e, m', s', (n + n')%nat. split; [done|]. split; [|split].
      + unfold added in *. rewrite Ha', oci_commit_performed, Ha, replicate_add, app_assoc.
        rewrite (inputs_frame stmt m m1); [done..|]. intros a. by eapply oci_frame.
      + intros E. destruct (Hs' E). split; [lia|done].
      + intros Hc. rewrite (Hclear Hc Hst), (Hc' Hc). done.
    - exists (Refused errcode), m1, s1, n. split_and!; auto; done. }
  destruct st; try done; rewrite Herr; exact Hstep.
Qed.

(** A connection that is open, with its contexts. *)
Definition ready c : Prop := or_freed c = false /\ forall x, is_Some (or_ctx c x).

(** One transaction on a ready connection. *)
Lemma run_statement_spec x stmt input c : separate stmt = true -> ready c ->
  exists m e m' c' n, or_ctx c x = Some m /\ run_statement x stmt input c = Some (e, m', c') /\ ready c'
    /\ added (or_lib c) (or_lib c') (st_text stmt, inputs stmt (input m)) n
    /\ (e = Succeeded -> (1 <= n)%nat /\ written stmt m')
    /\ (clear_answers S -> n = match e with Succeeded => 1%nat | _ => 0%nat end).
Proof.
  intros Hs [Hf Hx]. destruct (Hx x) as [m Hm]. unfold run_statement. rewrite Hm. cbn [mbind option_bind].
  destruct (execute_loop_spec stmt (Datatypes.S (retries_left (or_lib c))) Hs (input m) (or_lib c))
    as (e & m' & s' & n & -> & Ha & Hok & Hc); [lia|]. cbn.
  exists m, e, m'. eexists. exists n. split; [done|]. split; [done|]. split; [|by split].
  split; [done|]. intros y. cbn. unfold set_ctx. destruct (ctx_eqb y x); [by eexists|apply Hx].
Qed.


(** How a transaction function ends. *)
Definition ends (td : transaction_data_t) c (rc : Z) c' : Prop :=
  ready c' /\ exists n, added (or_lib c) (or_lib c') (call_of td) n
    /\ (rc = OK /\ (1 <= n)%nat \/ rc = ERROR)
    /\ (clear_answers S -> Z.of_nat n = if rc =? OK then 1 else 0).

Lemma oracle_ends_ok td c c' n : ready c' -> added (or_lib c) (or_lib c') (call_of td) n -> (1 <= n)%nat ->
  (clear_answers S -> n = 1%nat) -> ends td c OK c'.
Proof.
  intros Hr Ha Hn Hc. split; [done|]. exists n. split; [done|]. split; [by left|]. intros E. by rewrite (Hc E).
Qed.

Lemma oracle_ends_error td c c' n : ready c' -> added (or_lib c) (or_lib c') (call_of td) n ->
  (clear_answers S -> n = 0%nat) -> ends td c ERROR c'.
Proof.
  intros Hr Ha Hc. split; [done|]. exists n. split; [done|]. split; [by right|]. intros E. by rewrite (Hc E).
Qed.

Lemma separated stmt : In stmt [delivery_statement; integrity_statement; no_statement; os_statement;
  payment_statement; stock_level_statement] -> separate stmt = true.
Proof. pose proof separate_all as Ha. rewrite forallb_forall in Ha. apply Ha. Qed.

(** Run the statement of a transaction. *)
Ltac run_txn x stmt input c Hc :=
  let Hs := fresh "Hs" in
  assert (Hs : separate stmt = true) by (apply separated; repeat (first [left; reflexivity|right]));
  destruct (run_statement_spec x stmt input c Hs Hc) as (m & e & m' & c' & n & _ & Hrun & Hr & Ha & Hok & Hcl);
  rewrite Hrun; cbn [mbind option_bind]; clear Hs Hrun.

Lemma oracle_delivery_ends d c : ready c ->
  exists rc c', execute_delivery_oracle d c = Some (rc, d, c') /\ ends (TD_delivery d) c rc c'.
Proof.
  intros Hc. unfold execute_delivery_oracle. run_txn Dctx delivery_statement (put_delivery d) c Hc.
  change (st_text delivery_statement, inputs delivery_statement (put_delivery d m))
    with (call_of (TD_delivery d)) in Ha.
  destruct e; do 2 eexists; (split; [reflexivity|]).
  - destruct (Hok eq_refl). by eapply oracle_ends_ok.
  - by eapply oracle_ends_error.
  - by eapply oracle_ends_error.
Qed.

Lemma oracle_stock_level_ends d c : ready c ->
  exists rc c', execute_stock_level_oracle d c = Some (rc, d, c') /\ ends (TD_stock_level d) c rc c'.
Proof.
  intros Hc. unfold execute_stock_level_oracle. run_txn Sctx stock_level_statement (put_stock_level d) c Hc.
  change (st_text stock_level_statement, inputs stock_level_statement (put_stock_level d m))
    with (call_of (TD_stock_level d)) in Ha.
  destruct e; do 2 eexists; (split; [reflexivity|]).
  - destruct (Hok eq_refl). by eapply oracle_ends_ok.
  - by eapply oracle_ends_error.
  - by eapply oracle_ends_error.
Qed.

Lemma oracle_order_status_ends d c : ready c -> oracle_fits (TD_order_status d) ->
  exists rc d' c', execute_order_status_oracle d c = Some (rc, d', c') /\ ends (TD_order_status d) c rc c'.
Proof.
  intros Hc [Hl Hn]. unfold execute_order_status_oracle.
  rewrite order_status_statement_some, (short_c_last_text _ Hn). cbn [mbind option_bind].
  run_txn Octx os_statement (put_order_status d (wcstombs (os_c_last d) 68)) c Hc.
  assert (E : (st_text os_statement, inputs os_statement (put_order_status d (wcstombs (os_c_last d) 68) m))
    = call_of (TD_order_status d)) by (cbn [call_of]; generalize (wcstombs (os_c_last d) 68); vm_compute; reflexivity).
  rewrite E in Ha. clear E. destruct e.
  - destruct (Hok eq_refl) as [Hn1 Hw]. destruct (get_order_status_some m' d Hw) as [d' ->]; [lia|].
    do 3 eexists. split; [reflexivity|]. by eapply oracle_ends_ok.
  - do 3 eexists. split; [reflexivity|]. by eapply oracle_ends_error.
  - do 3 eexists. split; [reflexivity|]. by eapply oracle_ends_error.
Qed.

Lemma oracle_payment_ends d c : ready c -> oracle_fits (TD_payment d) ->
  exists rc d' c', execute_payment_oracle d c = Some (rc, d', c') /\ ends (TD_payment d) c rc c'.
Proof.
  intros Hc Hn. unfold execute_payment_oracle. rewrite (short_c_last_text _ Hn). cbn [mbind option_bind].
  run_txn Pctx payment_statement (put_payment d (wcstombs (pa_c_last d) 68)) c Hc.
  assert (E : (st_text payment_statement, inputs payment_statement (put_payment d (wcstombs (pa_c_last d) 68) m))
    = call_of (TD_payment d)).
  { cbn [call_of]. unfold put_payment.
    generalize (wcstombs (pa_c_last d) 68), (to_float (pa_h_amount d)). vm_compute. reflexivity. }
  rewrite E in Ha. clear E. destruct e.
  - destruct (Hok eq_refl) as [Hn1 Hw]. destruct (get_payment_some m' d Hw) as [d' ->].
    do 3 eexists. split; [reflexivity|]. by eapply oracle_ends_ok.
  - do 3 eexists. split; [reflexivity|]. by eapply oracle_ends_error.
  - do 3 eexists. split; [reflexivity|]. by eapply oracle_ends_error.
Qed.

(** With the flag of [db.c] for orders of one warehouse. *)
Lemma oracle_new_order_ends d c : ready c -> oracle_fits (TD_new_order d) ->
  let d1 := set_all_local (all_local (no_w_id d) (take (Z.to_nat (no_o_ol_cnt d)) (no_order_line d))) d in
  exists rc d' c', execute_new_order_oracle d1 c = Some (rc, d', c') /\ ends (TD_new_order d) c rc c'
    /\ (rc = OK -> no_rollback d' = 0).
Proof.
  intros Hc [Hl Hrb] d1. unfold execute_new_order_oracle. rewrite new_order_statement_some. cbn [mbind option_bind].
  run_txn Nctx no_statement (put_new_order d1) c Hc.
  unfold d1 in Ha. rewrite (new_order_inputs_call d m Hl) in Ha. destruct e.
  - destruct (Hok eq_refl) as [Hn1 Hw]. destruct (get_new_order_some m' d1 Hw) as (d' & -> & Hd'); [done|].
    do 3 eexists. split; [reflexivity|]. split; [by eapply oracle_ends_ok|]. by rewrite Hd'.
  - do 3 eexists. split; [reflexivity|]. split; [by eapply oracle_ends_error|done].
  - do 3 eexists. split; [reflexivity|]. split; [by eapply oracle_ends_error|done].
Qed.
End server.

(** ** A worker's transaction *)

(** The members of the union and their types; the integrity check is another
    matter, it only reads. *)
Definition oracle_type (td : transaction_data_t) : Z :=
  match td with
  | TD_delivery _ => DELIVERY
  | TD_new_order _ => NEW_ORDER
  | TD_order_status _ => ORDER_STATUS
  | TD_payment _ => PAYMENT
  | TD_stock_level _ => STOCK_LEVEL
  | TD_integrity _ => INTEGRITY
  end.

Section worker.
Context {S : Type} `{OracleServer S}.
Implicit Types c : oracle_conn S.

(** Delivery and Stock-Level give the terminal its input back. *)
Definition unchanged (td td' : transaction_data_t) : Prop :=
  match td with TD_delivery _ | TD_stock_level _ => td' = td | _ => True end.

Lemma execute_ends p td c : ready c -> oracle_fits td -> oracle_type td <> INTEGRITY ->
  exists rc td' c', execute (H := oracle_ops p) (oracle_type td) td (Some c) = Some (rc, td', Some c')
    /\ ends td c rc c' /\ unchanged td td'.
Proof.
  intros Hc Hf Ht. destruct td as [d|d|d|d|d|d]; [..|done]; unfold execute; cbn [oracle_type].
  - change (DELIVERY =? INTEGRITY) with false. change (DELIVERY =? DELIVERY) with true. cbv iota.
    destruct (oracle_delivery_ends d c Hc) as (rc & c' & He & Hends). cbn [execute_delivery oracle_ops].
    unfold oracle_txn. cbn [mbind option_bind]. rewrite He. by do 3 eexists.
  - change (NEW_ORDER =? INTEGRITY) with false. change (NEW_ORDER =? DELIVERY) with false.
    change (NEW_ORDER =? NEW_ORDER) with true. cbv iota.
    destruct (oracle_new_order_ends d c Hc Hf) as (rc & d' & c' & He & Hends & Hok).
    unfold execute_new_order_checked. cbn [execute_new_order oracle_ops]. unfold oracle_txn. cbn [mbind option_bind].
    rewrite He. destruct (Z.eqb_spec rc ERROR) as [->|Hrc]; cbn [negb andb]; [by do 3 eexists|].
    destruct Hends as (Hr & n & Ha & [[-> Hn]|E] & Hcl); [|done]. rewrite (Hok eq_refl).
    do 3 eexists. split; [reflexivity|]. split; [|done]. split; [done|]. exists n. auto.
  - change (ORDER_STATUS =? INTEGRITY) with false. change (ORDER_STATUS =? DELIVERY) with false.
    change (ORDER_STATUS =? NEW_ORDER) with false. change (ORDER_STATUS =? ORDER_STATUS) with true. cbv iota.
    destruct (oracle_order_status_ends d c Hc Hf) as (rc & d' & c' & He & Hends). cbn [execute_order_status oracle_ops].
    unfold oracle_txn. cbn [mbind option_bind]. rewrite He. by do 3 eexists.
  - change (PAYMENT =? INTEGRITY) with false. change (PAYMENT =? DELIVERY) with false.
    change (PAYMENT =? NEW_ORDER) with false. change (PAYMENT =? ORDER_STATUS) with false.
    change (PAYMENT =? PAYMENT) with true. cbv iota.
    destruct (oracle_payment_ends d c Hc Hf) as (rc & d' & c' & He & Hends). cbn [execute_payment oracle_ops].
    unfold oracle_txn. cbn [mbind option_bind]. rewrite He. by do 3 eexists.
  - change (STOCK_LEVEL =? INTEGRITY) with false. change (STOCK_LEVEL =? DELIVERY) with false.
    change (STOCK_LEVEL =? NEW_ORDER) with false. change (STOCK_LEVEL =? ORDER_STATUS) with false.
    change (STOCK_LEVEL =? PAYMENT) with false. cbv iota.
    destruct (oracle_stock_level_ends d c Hc) as (rc & c' & He & Hends). cbn [execute_stock_level oracle_ops].
    unfold oracle_txn. cbn [mbind option_bind]. rewrite He. by do 3 eexists.
Qed.
End worker.

(** C9. process_transaction over Oracle, for the five transactions of a terminal on
    an open connection, whatever the server answers: it returns, the connection is
    as usable as before, and the transaction function ran once; the status is OK or
    STATUS_ROLLBACK, never one that makes a worker reconnect.  What was stored is
    the CALL of this transaction with its input: at least once when the status is
    OK, but as often again as the server answered with a warning or with an error
    that is repeated although the work was kept; exactly once for OK and not at all
    otherwise if the answers of the server are never in doubt.  A Stock-Level (and
    a Delivery) gives the terminal its own input back: the count of the items is
    not shown. *)
Theorem oracle_transaction_stored {S} `{OracleServer S} p stop fuel td (c : oracle_conn S) :
  ready c -> oracle_fits td -> oracle_type td <> INTEGRITY ->
  exists status td' log c' n,
    process_transaction (H := oracle_ops p) stop fuel (oracle_type td) td (Some c)
      = Some (status, td', log, Some c')
    /\ ready c' /\ executions log = 1
    /\ performed (or_lib c') = performed (or_lib c) ++ replicate n (call_of td)
    /\ (status = OK /\ (1 <= n)%nat \/ status = STATUS_ROLLBACK)
    /\ (clear_answers S -> Z.of_nat n = if status =? OK then 1 else 0)
    /\ match td with TD_delivery _ | TD_stock_level _ => td' = td | _ => True end.
Proof.
  intros Hc Hf Ht. destruct (execute_ends p td c Hc Hf Ht) as (rc & td' & c' & He & ([Hfr Hx] & n & Ha & Hn & Hcl) & Hu).
  unfold process_transaction. cbn [attempts].
  assert (Hk : known_transaction (oracle_type td) = true) by (destruct td; reflexivity).
  rewrite Hk, He. cbn [negb mbind option_bind]. destruct Hn as [[-> Hn]| ->].
  - cbn [finish commit_transaction oracle_ops]. unfold oracle_call, commit_transaction_oracle. cbn.
    do 3 eexists. exists c', n. split; [reflexivity|]. split_and!; auto; done.
  - unfold finish. change (ERROR =? OK) with false. change (ERROR =? ERROR) with true. cbv iota.
    cbn [rollback_transaction oracle_ops]. unfold oracle_call, rollback_transaction_oracle.
    cbn [mbind option_bind]. rewrite Hfr. cbn. do 3 eexists. eexists. exists n. split; [reflexivity|].
    split; [by split|]. split; [done|]. split; [|by split_and!; [right|..]].
    cbn. rewrite oci_rollback_performed. exact Ha.
Qed.
