(* ===== verification/OracleShown.v ===== *)
(** * What the Oracle back end shows of an answer

    The outputs of a procedure reach the fields of the terminal's structure that
    their names say. *)

From Stdlib Require Import ZArith Lia SpecFloat String.
From stdpp Require Import base list.
From S2P Require Import Prelude Double Text Common TxnData Wire Tables Db Nonsp NonspTxn Lengths Oci Oracle OracleTheorems.

#[local] Open Scope string_scope.
#[local] Open Scope list_scope.
#[local] Open Scope Z_scope.

(** ** What a procedure answered *)

(** The value of an OUT parameter, [None] for NULL, by the name of its
    placeholder. *)
Definition answer : Type := bytes -> option value.

(** The library has stored an answer in the variables that are bound: values of
    their types, and the indicators. *)
Definition answered (stmt : statement) (r : answer) (m : memory) : Prop :=
  forall b i, b ∈ st_binds stmt -> b_ind b = Some i ->
    match r (b_name b) with
    | Some v => m i = Some (V_int 0) /\ m (b_addr b) = Some v /\ typed b v
    | None => m i = Some (V_int (-1))
    end.

Section shown.
Context (r : answer).

(** The field of a structure after the answer: NULL leaves it. *)
Definition int_answer (n : bytes) (old : Z) : Z := match r n with Some (V_int z) => z | _ => old end.
Definition double_answer (n : bytes) (old : double) : double :=
  match r n with Some (V_double f) => f | _ => old end.
Definition text_answer {A} (g : bytes -> A) (n : bytes) (old : A) : A :=
  match r n with Some (V_str s) => g s | _ => old end.
Definition str_answer : bytes -> bytes -> bytes := text_answer id.
Definition wide_answer (n : bytes) (old : list Z) : list Z :=
  text_answer (fun s => mbstowcs old s (Size.C_LAST_LEN + 1)) n old.

(** [:f3] *)
Definition nth_name (f : String.string) (j : nat) : bytes := lit ":" ++ lit f ++ fmt_d (Z.of_nat j + 1).

Definition no_line_shown (j : nat) (l : no_order_line_t) : no_order_line_t :=
  mk_no_order_line (ol_i_id l) (ol_supply_w_id l) (ol_quantity l)
    (double_answer (nth_name "out_ol_amount" j) (ol_amount l))
    (int_answer (nth_name "out_s_quantity" j) (s_quantity l))
    (text_answer (hd 0) (nth_name "out_brand_generic" j) (brand_generic l))
    (str_answer (nth_name "out_i_name" j) (i_name l))
    (double_answer (nth_name "out_i_price" j) (i_price l)).

Definition new_order_shown (d : new_order_t) : new_order_t :=
  set_no_output d (imap no_line_shown (no_order_line d)) (int_answer (lit ":out_o_id") (no_o_id d))
    (double_answer (lit ":out_total_amount") (no_total_amount d))
    (double_answer (lit ":out_w_tax") (no_w_tax d)) (double_answer (lit ":out_d_tax") (no_d_tax d))
    (str_answer (lit ":out_c_last") (no_c_last d)) (str_answer (lit ":out_c_credit") (no_c_credit d))
    (double_answer (lit ":out_c_discount") (no_c_discount d)) (no_rollback d).

Definition os_line_shown (j : nat) (l : os_order_line_t) : os_order_line_t :=
  mk_os_order_line (int_answer (nth_name "out_ol_i_id" j) (osl_i_id l))
    (int_answer (nth_name "out_ol_supply_w_id" j) (osl_supply_w_id l))
    (int_answer (nth_name "out_ol_quantity" j) (osl_quantity l))
    (double_answer (nth_name "out_ol_amount" j) (osl_amount l))
    (str_answer (nth_name "out_ol_delivery_d" j) (osl_delivery_d l)).

(** The lines before the first item that is NULL. *)
Fixpoint os_lines_shown (j : nat) (lines : list os_order_line_t) : list os_order_line_t * Z :=
  match lines with
  | [] => ([], Z.of_nat j)
  | l :: rest =>
      match r (nth_name "out_ol_i_id" j) with
      | None => (lines, Z.of_nat j)
      | Some _ => let '(rest, cnt) := os_lines_shown (Datatypes.S j) rest in (os_line_shown j l :: rest, cnt)
      end
  end.

Definition order_status_shown (d : order_status_t) : order_status_t :=
  let '(lines, cnt) := os_lines_shown 0 (os_order_line d) in
  mk_order_status (os_c_d_id d) (os_c_w_id d) (int_answer (lit ":out_c_id") (os_c_id d))
    (wide_answer (lit ":out_c_last") (os_c_last d)) (double_answer (lit ":out_c_balance") (os_c_balance d))
    (str_answer (lit ":out_c_first") (os_c_first d)) (str_answer (lit ":out_c_middle") (os_c_middle d))
    (int_answer (lit ":out_o_id") (os_o_id d)) (int_answer (lit ":out_o_carrier_id") (os_o_carrier_id d))
    (str_answer (lit ":out_o_entry_d") (os_o_entry_d d)) cnt lines.

Definition payment_shown (d : payment_t) : payment_t :=
  mk_payment (pa_c_d_id d) (pa_c_w_id d) (pa_d_id d) (pa_h_amount d) (pa_w_id d)
    (int_answer (lit ":out_c_id") (pa_c_id d)) (wide_answer (lit ":out_c_last") (pa_c_last d))
    (str_answer (lit ":out_d_name") (pa_d_name d)) (str_answer (lit ":out_d_street_1") (pa_d_street_1 d))
    (str_answer (lit ":out_d_street_2") (pa_d_street_2 d)) (str_answer (lit ":out_d_city") (pa_d_city d))
    (str_answer (lit ":out_d_state") (pa_d_state d)) (str_answer (lit ":out_d_zip") (pa_d_zip d))
    (double_answer (lit ":out_c_balance") (pa_c_balance d))
    (double_answer (lit ":out_c_credit_lim") (pa_c_credit_lim d))
    (double_answer (lit ":out_c_discount") (pa_c_discount d)) (str_answer (lit ":out_c_data") (pa_c_data d))
    (str_answer (lit ":out_c_first") (pa_c_first d)) (str_answer (lit ":out_c_middle") (pa_c_middle d))
    (str_answer (lit ":out_c_street_1") (pa_c_street_1 d))
    (str_answer (lit ":out_c_street_2") (pa_c_street_2 d)) (str_answer (lit ":out_c_city") (pa_c_city d))
    (str_answer (lit ":out_c_state") (pa_c_state d)) (str_answer (lit ":out_c_zip") (pa_c_zip d))
    (str_answer (lit ":out_c_phone") (pa_c_phone d)) (str_answer (lit ":out_c_since") (pa_c_since d))
    (str_answer (lit ":out_c_credit") (pa_c_credit d)) (pa_h_date d)
    (str_answer (lit ":out_w_name") (pa_w_name d)) (str_answer (lit ":out_w_street_1") (pa_w_street_1 d))
    (str_answer (lit ":out_w_street_2") (pa_w_street_2 d)) (str_answer (lit ":out_w_city") (pa_w_city d))
    (str_answer (lit ":out_w_state") (pa_w_state d)) (str_answer (lit ":out_w_zip") (pa_w_zip d)).
End shown.

(** ** Loading an answer *)

(** The placeholder [name] is bound to the output [f\[i\]]. *)
Definition named_output (stmt : statement) (name : bytes) (f : String.string) (i : nat) (t : sqlt) (n : Z)
  : bool :=
  existsb (fun b => bytes_eqb (b_name b) name && addr_eqb (b_addr b) (f, i) && (b_size b =? n)
    && match b_type b, t with
       | SQLT_INT, SQLT_INT | SQLT_FLT, SQLT_FLT | SQLT_STR, SQLT_STR => true
       | _, _ => false
       end
    && match b_ind b with Some a => addr_eqb a ((f ++ "_ind")%string, i) | None => false end) (st_binds stmt).

Section loading.
Context (stmt : statement) (r : answer) (m : memory) (Ha : answered stmt r m).

Lemma answered_output name f i t n : named_output stmt name f i t n = true ->
  match r name with
  | Some v => m ((f ++ "_ind")%string, i) = Some (V_int 0) /\ m (f, i) = Some v
              /\ typed (mk_bind [] (f, i) n t None) v
  | None => m ((f ++ "_ind")%string, i) = Some (V_int (-1))
  end.
Proof.
  intros (b & Hb & Hc)%existsb_exists.
  apply andb_true_iff in Hc as [Hc Hi]. apply andb_true_iff in Hc as [Hc Ht].
  apply andb_true_iff in Hc as [Hc Hn]. apply andb_true_iff in Hc as [Hc Hf].
  apply bool_decide_eq_true in Hc. apply addr_eqb_spec in Hf. apply Z.eqb_eq in Hn.
  destruct (b_ind b) as [a|] eqn:Hind; [|done]. apply addr_eqb_spec in Hi. subst a.
  pose proof (Ha b _ (proj2 (list_elem_of_In _ _) Hb) Hind) as Hv. rewrite Hc in Hv.
  destruct (r name) as [v|]; [|exact Hv]. rewrite Hf in Hv. destruct Hv as (H1 & H2 & H3).
  split; [exact H1|]. split; [exact H2|]. revert Ht H3. unfold typed. cbn. rewrite Hn.
  by destruct (b_type b), t.
Qed.

(** An output is the value of the answer, or what was there. *)
Lemma output_answered {A} read name f i t n (old : A) (x : A) : named_output stmt name f i t n = true ->
  match r name with
  | Some v => m (f, i) = Some v -> typed (mk_bind [] (f, i) n t None) v -> read m (f, i) = Some x
  | None => old = x
  end -> output read m f i old = Some x.
Proof.
  intros Hn%answered_output Hx. unfold output, int_at. destruct (r name) as [v|].
  - destruct Hn as (-> & Hv & Ht). exact (Hx Hv Ht).
  - rewrite Hn. cbn [mbind option_bind]. change (-1 =? 0) with false. cbv iota. by rewrite Hx.
Qed.

Lemma out_int_answered name f i old : named_output stmt name f i SQLT_INT 4 = true ->
  out_int m f i old = Some (int_answer r name old).
Proof.
  intros Hn. apply (output_answered _ _ _ _ _ _ _ _ Hn). unfold int_answer.
  destruct (r name) as [v|]; [|done]. intros Hv Ht. unfold int_at. rewrite Hv. by destruct v.
Qed.

Lemma out_double_answered name f i old : named_output stmt name f i SQLT_FLT 8 = true ->
  out_double m f i old = Some (double_answer r name old).
Proof.
  intros Hn. apply (output_answered _ _ _ _ _ _ _ _ Hn). unfold double_answer.
  destruct (r name) as [v|]; [|done]. intros Hv Ht. unfold double_at. rewrite Hv. by destruct v.
Qed.

Lemma out_text_answered {A} (g : bytes -> A) name n f i old : named_output stmt name f i SQLT_STR n = true ->
  output (fun m a => s ← str_at m a; Some (g s)) m f i old = Some (text_answer r g name old).
Proof.
  intros Hn. apply (output_answered _ _ _ _ _ _ _ _ Hn). unfold text_answer.
  destruct (r name) as [v|]; [|done]. intros Hv Ht. unfold str_at. rewrite Hv. by destruct v.
Qed.

Lemma out_wide_answered name f i old :
  named_output stmt name f i SQLT_STR (4 * (Size.C_LAST_LEN + 1)) = true ->
  out_wide m f i old = Some (wide_answer r name old).
Proof. apply out_text_answered. Qed.

(** A string that is as long as its variable allows is copied whole. *)
Lemma out_str_answered n name f i old : named_output stmt name f i SQLT_STR n = true ->
  out_str n m f i old = Some (str_answer r name old).
Proof.
  intros Hn. apply (output_answered _ _ _ _ _ _ _ _ Hn). unfold str_answer, text_answer, id.
  destruct (r name) as [v|]; [|done]. intros Hv Ht. unfold str_at. rewrite Hv.
  destruct v as [| | |s]; try done. cbn [mbind option_bind]. f_equal. unfold strncpy. cbn in Ht.
  apply take_ge. unfold zlen in Ht. lia.
Qed.
End loading.

(** The next output of a scalar: the name of its placeholder is [prefix] and the
    name of the field. *)
Ltac load Ha prefix :=
  match type of Ha with
  | answered ?stmt ?r ?m =>
      match goal with
      | |- context [out_int m ?f 0 _ ≫= _] =>
          rewrite (out_int_answered stmt r m Ha (lit prefix ++ lit f)) by (vm_compute; reflexivity)
      | |- context [out_double m ?f 0 _ ≫= _] =>
          rewrite (out_double_answered stmt r m Ha (lit prefix ++ lit f)) by (vm_compute; reflexivity)
      | |- context [out_wide m ?f 0 _ ≫= _] =>
          rewrite (out_wide_answered stmt r m Ha (lit prefix ++ lit f)) by (vm_compute; reflexivity)
      | |- context [out_str _ m ?f 0 _ ≫= _] =>
          rewrite (out_str_answered stmt r m Ha _ (lit prefix ++ lit f)) by (vm_compute; reflexivity)
      end; cbn [mbind option_bind]
  end.

Lemma get_payment_answered r m d : answered payment_statement r m ->
  get_payment m d = Some (payment_shown r d).
Proof. intros Ha. unfold get_payment. repeat load Ha ":". reflexivity. Qed.

Lemma get_no_line_answered r m j l : answered no_statement r m -> (j < 15)%nat ->
  get_no_line m j l = Some (no_line_shown r j l).
Proof.
  intros Ha Hj. unfold get_no_line.
  pose proof (in_each_line (fun j =>
    named_output no_statement (nth_name "out_i_price" j) "i_price" j SQLT_FLT 8
    && named_output no_statement (nth_name "out_i_name" j) "i_name" j SQLT_STR (4 * (Size.I_NAME_LEN + 1))
    && named_output no_statement (nth_name "out_s_quantity" j) "s_quantity" j SQLT_INT 4
    && named_output no_statement (nth_name "out_ol_amount" j) "ol_amount" j SQLT_FLT 8
    && named_output no_statement (nth_name "out_brand_generic" j) "brand_generic" j SQLT_STR 2) j) as Ho.
  rewrite !andb_true_iff in Ho. destruct Ho as [[[[O1 O2] O3] O4] O5]; [vm_compute; reflexivity|done|].
  rewrite (out_double_answered _ r m Ha _ _ _ _ O1). cbn [mbind option_bind].
  rewrite (out_str_answered _ r m Ha _ _ _ _ _ O2). cbn [mbind option_bind].
  rewrite (out_int_answered _ r m Ha _ _ _ _ O3). cbn [mbind option_bind].
  rewrite (out_double_answered _ r m Ha _ _ _ _ O4). cbn [mbind option_bind].
  rewrite (out_text_answered _ r m Ha (hd 0) _ _ _ _ _ O5). done.
Qed.

Lemma get_no_lines_answered r m lines : answered no_statement r m -> forall j,
  (j + List.length lines <= 15)%nat ->
  get_no_lines m j lines = Some (imap (fun i => no_line_shown r (j + i)) lines).
Proof.
  intros Ha. induction lines as [|l lines IH]; intros j Hj; [done|]. cbn in Hj |- *.
  rewrite (get_no_line_answered r m j l Ha) by lia. cbn [mbind option_bind].
  rewrite IH by lia. cbn [mbind option_bind]. rewrite Nat.add_0_r. f_equal. f_equal.
  apply imap_ext. intros i x _. cbn. by rewrite Nat.add_succ_r.
Qed.

Lemma get_new_order_answered r m d : answered no_statement r m -> List.length (no_order_line d) = 15%nat ->
  get_new_order m d = Some (new_order_shown r d).
Proof.
  intros Ha Hl. unfold get_new_order. repeat load Ha ":out_".
  rewrite (get_no_lines_answered r m (no_order_line d) Ha) by lia. reflexivity.
Qed.

Lemma get_os_lines_answered r m lines : answered os_statement r m -> forall i,
  (i + List.length lines <= 15)%nat -> get_os_lines m i lines = Some (os_lines_shown r i lines).
Proof.
  intros Ha. induction lines as [|l lines IH]; intros i Hi; [done|].
  cbn [List.length] in Hi. cbn [get_os_lines os_lines_shown].
  pose proof (in_each_line (fun i =>
    named_output os_statement (nth_name "out_ol_i_id" i) "out_ol_i_id" i SQLT_INT 4
    && named_output os_statement (nth_name "out_ol_supply_w_id" i) "out_ol_supply_w_id" i SQLT_INT 4
    && named_output os_statement (nth_name "out_ol_quantity" i) "out_ol_quantity" i SQLT_INT 4
    && named_output os_statement (nth_name "out_ol_amount" i) "out_ol_amount" i SQLT_FLT 8
    && named_output os_statement (nth_name "out_ol_delivery_d" i) "out_ol_delivery_d" i SQLT_STR
         (Size.OL_DELIVERY_D_LEN + 1)) i) as Ho.
  rewrite !andb_true_iff in Ho. destruct Ho as [[[[O1 O2] O3] O4] O5]; [vm_compute; reflexivity|lia|].
  pose proof (answered_output _ _ _ Ha _ _ _ _ _ O1) as Hi1.
  change (("out_ol_i_id" ++ "_ind")%string) with "out_ol_i_id_ind"%string in Hi1.
  unfold int_at at 1. unfold os_line_shown, int_answer.
  destruct (r (nth_name "out_ol_i_id" i)) as [v|] eqn:Hr; [|by rewrite Hi1].
  destruct Hi1 as (-> & Hv & Ht). cbn [mbind option_bind]. change (0 =? 0) with true. cbn [negb].
  unfold get_os_line, int_at at 1. rewrite Hv. destruct v as [z| | |]; try done. cbn [mbind option_bind].
  rewrite (out_int_answered _ r m Ha _ _ _ _ O2). cbn [mbind option_bind].
  rewrite (out_int_answered _ r m Ha _ _ _ _ O3). cbn [mbind option_bind].
  rewrite (out_double_answered _ r m Ha _ _ _ _ O4). cbn [mbind option_bind].
  rewrite (out_str_answered _ r m Ha _ _ _ _ _ O5). cbn [mbind option_bind].
  rewrite IH by lia. by destruct (os_lines_shown r _ lines).
Qed.

Lemma get_order_status_answered r m d : answered os_statement r m ->
  List.length (os_order_line d) = 15%nat -> get_order_status m d = Some (order_status_shown r d).
Proof.
  intros Ha Hl. unfold get_order_status. repeat load Ha ":".
  rewrite (get_os_lines_answered r m (os_order_line d) Ha) by lia. unfold order_status_shown.
  by destruct (os_lines_shown r 0 (os_order_line d)).
Qed.

(** The execution of [stmt] in the context [x] succeeds with the answer [r]. *)
Definition answers_with {S} `{Oci S} (x : ctx) (stmt : statement) (input : memory -> memory)
    (c : oracle_conn S) (r : answer) : Prop :=
  exists m m' s', or_ctx c x = Some m /\ OCIStmtExecute stmt (input m) (or_lib c) = (OCI_SUCCESS, m', s')
    /\ answered stmt r m'.

(** C29. What a procedure answers is what the terminal is shown: a New-Order, an
    Order-Status and a Payment over Oracle whose CALL succeeds answer OK, and every
    field of the structure that has an OUT parameter is the value of the parameter
    of its name, untouched when that is NULL; the lines of a New-Order are the
    parameters with their number; an Order-Status shows the lines before the first
    item that is NULL and counts them in o_ol_cnt. *)
Theorem oracle_answers_shown {S} `{Oci S} (c : oracle_conn S) r :
  (forall d, List.length (no_order_line d) = 15%nat ->
     answers_with Nctx no_statement (put_new_order d) c r ->
     exists c', execute_new_order_oracle d c = Some (OK, new_order_shown r d, c'))
  /\ (forall d t, List.length (os_order_line d) = 15%nat -> c_last_bytes (os_c_last d) = Some t ->
     answers_with Octx os_statement (put_order_status d t) c r ->
     exists c', execute_order_status_oracle d c = Some (OK, order_status_shown r d, c'))
  /\ (forall d t, c_last_bytes (pa_c_last d) = Some t ->
     answers_with Pctx payment_statement (put_payment d t) c r ->
     exists c', execute_payment_oracle d c = Some (OK, payment_shown r d, c')).
Proof.
  split; [|split].
  - intros d Hl (m & m' & s' & Hm & He & Ha). unfold execute_new_order_oracle, run_statement.
    rewrite new_order_statement_some. cbn [mbind option_bind]. rewrite Hm. cbn [mbind option_bind execute_loop].
    rewrite He. cbn [mbind option_bind]. rewrite (get_new_order_answered r m' d Ha Hl). by eexists.
  - intros d t Hl Ht (m & m' & s' & Hm & He & Ha). unfold execute_order_status_oracle, run_statement.
    rewrite order_status_statement_some, Ht. cbn [mbind option_bind]. rewrite Hm.
    cbn [mbind option_bind execute_loop]. rewrite He. cbn [mbind option_bind].
    rewrite (get_order_status_answered r m' d Ha Hl). by eexists.
  - intros d t Ht (m & m' & s' & Hm & He & Ha). unfold execute_payment_oracle, run_statement.
    rewrite Ht. cbn [mbind option_bind]. rewrite Hm. cbn [mbind option_bind execute_loop].
    rewrite He. cbn [mbind option_bind]. rewrite (get_payment_answered r m' d Ha). by eexists.
Qed.
