(* ===== verification/OracleSample.v ===== *)
(** * An Oracle server to run against

    A server that follows a script: each execution succeeds with an answer, with
    a warning, or fails with an error.  The hypotheses of [OracleTheorems] and
    [OracleShown] can hold, and a payment is made twice. *)

From Stdlib Require Import ZArith Lia SpecFloat String.
From stdpp Require Import base list.
From S2P Require Import Prelude Double Text Common TxnData Wire Tables Db Nonsp NonspTxn Lengths Oci Oracle OracleTheorems OracleShown.

#[local] Open Scope string_scope.
#[local] Open Scope list_scope.
#[local] Open Scope Z_scope.

Inductive reply := Answer (r : answer) | Warning | Failed (code : Z) (more : list Z).

(** What is to come, the records of the last error, and what was stored. *)
Record desk := mk_desk { script : list reply; records : list Z; ledger : list effect }.

(** ** Writing an answer *)

Definition typedb (b : bind) (v : value) : bool :=
  match b_type b, v with
  | SQLT_INT, V_int _ => true
  | SQLT_FLT, V_double _ => b_size b =? 8
  | SQLT_FLT, V_float _ => b_size b =? 4
  | SQLT_STR, V_str s => zlen s <? b_size b
  | _, _ => false
  end.

Definition write_bind (r : answer) (b : bind) (m : memory) : memory :=
  match b_ind b with
  | None => m
  | Some i =>
      match r (b_name b) with
      | Some v => if is_out b && typedb b v then put i.1 i.2 (V_int 0) (put (b_addr b).1 (b_addr b).2 v m)
                  else put i.1 i.2 (V_int (-1)) m
      | None => put i.1 i.2 (V_int (-1)) m
      end
  end.

Definition write_define (b : bind) (m : memory) : memory := put (b_addr b).1 (b_addr b).2 (V_int 1) m.

Definition write_all (stmt : statement) (r : answer) (m : memory) : memory :=
  foldr write_define (foldr (write_bind r) m (st_binds stmt)) (st_defines stmt).

Definition valueb (m : memory) (b : bind) : bool :=
  match m (b_addr b) with Some v => typedb b v | None => false end.

Definition writtenb (stmt : statement) (m : memory) : bool :=
  forallb (fun b => match b_ind b with
                    | None => true
                    | Some i => match m i with Some (V_int z) => negb (z =? 0) || valueb m b | _ => false end
                    end) (st_binds stmt)
  && forallb (valueb m) (st_defines stmt).

Lemma typedb_spec b v : typedb b v = true -> typed b v.
Proof.
  unfold typedb, typed. destruct (b_type b), v; try done; intros E;
    first [by apply Z.eqb_eq|by apply Z.ltb_lt].
Qed.

Lemma valueb_spec m b : valueb m b = true -> exists v, m (b_addr b) = Some v /\ typed b v.
Proof.
  unfold valueb. destruct (m (b_addr b)) as [v|]; [|done]. intros E%typedb_spec. by exists v.
Qed.

Lemma writtenb_spec stmt m : writtenb stmt m = true -> written stmt m.
Proof.
  unfold writtenb. rewrite andb_true_iff, !forallb_forall. intros [Hb Hd]. split.
  - intros b i Hin Hi. specialize (Hb b (proj1 (list_elem_of_In _ _) Hin)). rewrite Hi in Hb.
    destruct (m i) as [[z| | |]|]; try done. exists z. split; [done|]. intros ->. by apply valueb_spec.
  - intros b Hin. apply valueb_spec, Hd. by apply list_elem_of_In.
Qed.

Lemma put_frame f i v m a : put f i v m a = m a \/ a = (f, i).
Proof.
  unfold put. destruct (addr_eqb a (f, i)) eqn:E; [right; by apply addr_eqb_spec|by left].
Qed.

Lemma write_bind_frame r b m a : write_bind r b m a = m a \/ a = b_addr b /\ is_out b = true \/ b_ind b = Some a.
Proof.
  unfold write_bind. destruct (b_ind b) as [[f i]|]; [|by left]. cbn [fst snd].
  assert (Hind : forall v m', put f i v m' a = m' a \/ Some (f, i) = Some a).
  { intros v m'. destruct (put_frame f i v m' a) as [->| ->]; [by left|by right]. }
  destruct (r (b_name b)) as [v|]; [|destruct (Hind (V_int (-1)) m); auto].
  destruct (is_out b && typedb b v) eqn:Ho; [|destruct (Hind (V_int (-1)) m); auto].
  apply andb_true_iff in Ho as [Ho _].
  destruct (Hind (V_int 0) (put (b_addr b).1 (b_addr b).2 v m)) as [->|]; [|auto].
  destruct (put_frame (b_addr b).1 (b_addr b).2 v m a) as [->| ->]; [by left|]. right. left.
  by rewrite <- surjective_pairing.
Qed.

Lemma write_define_frame b m a : write_define b m a = m a \/ a = b_addr b.
Proof.
  unfold write_define. destruct (put_frame (b_addr b).1 (b_addr b).2 (V_int 1) m a) as [->| ->]; [by left|right].
  by rewrite <- surjective_pairing.
Qed.

Lemma write_all_frame stmt r m a : write_all stmt r m a = m a \/ may_write stmt a.
Proof.
  unfold write_all, may_write.
  assert (Hd : forall l m', foldr write_define m' l a = m' a \/ exists b, b ∈ l /\ a = b_addr b).
  { induction l as [|b l IH]; intros m'; [by left|]. cbn.
    destruct (write_define_frame b (foldr write_define m' l) a) as [->| ->].
    - destruct (IH m') as [->|(b' & Hb & ->)]; [by left|]. right. exists b'. split; [by right|done].
    - right. exists b. split; [left|done]. }
  assert (Hb : forall l, foldr (write_bind r) m l a = m a
             \/ exists b, b ∈ l /\ (a = b_addr b /\ is_out b = true \/ b_ind b = Some a)).
  { induction l as [|b l IH]; [by left|]. cbn.
    destruct (write_bind_frame r b (foldr (write_bind r) m l) a) as [->|Hw].
    - destruct IH as [->|(b' & Hb' & Hw)]; [by left|]. right. exists b'. split; [by right|done].
    - right. exists b. split; [left|done]. }
  destruct (Hd (st_defines stmt) (foldr (write_bind r) m (st_binds stmt))) as [->|Hdef]; [|by right; right].
  destruct (Hb (st_binds stmt)) as [->|Hbind]; [by left|by right; left].
Qed.

(** ** The library *)

Definition desk_execute (stmt : statement) (m : memory) (d : desk) : sword * memory * desk :=
  let done := ledger d ++ [(st_text stmt, inputs stmt m)] in
  let succeed r rest :=
    let m' := write_all stmt r m in
    if writtenb stmt m' then (OCI_SUCCESS, m', mk_desk rest [] done) else (OCI_NO_DATA, m, mk_desk rest [] (ledger d)) in
  match script d with
  | [] => succeed (fun _ => None) []
  | Answer r :: rest => succeed r rest
  | Warning :: rest => (OCI_SUCCESS_WITH_INFO, m, mk_desk rest [] done)
  | Failed code more :: rest => (OCI_ERROR, m, mk_desk rest (code :: more) (ledger d))
  end.

#[export] Instance desk_library : Oci desk := {|
  OCIServerAttach _ d := (OCI_SUCCESS, d);
  OCISessionBegin _ _ d := (OCI_SUCCESS, d);
  OCISessionEnd d := (OCI_SUCCESS, d);
  OCIServerDetach d := (OCI_SUCCESS, d);
  OCIHandleAlloc d := (OCI_SUCCESS, d);
  OCIStmtPrepare _ d := (OCI_SUCCESS, d);
  OCIBindByName _ _ d := (OCI_SUCCESS, d);
  OCIDefineByPos _ _ d := (OCI_SUCCESS, d);
  OCIStmtExecute := desk_execute;
  OCITransCommit d := d;
  OCITransRollback d := d;
  oci_errors := records;
  retries_left d := List.length (script d);
  oci_malloc d := (true, d);
  oci_time d := (0, d);
  oci_nanosleep d := d |}.

(** One execution, by cases. *)
Lemma desk_execute_cases stmt m d st m' d' : desk_execute stmt m d = (st, m', d') ->
  (st = OCI_SUCCESS /\ written stmt m' /\ (forall a, m' a = m a \/ may_write stmt a)
     /\ ledger d' = ledger d ++ [(st_text stmt, inputs stmt m)])
  \/ m' = m /\ (st = OCI_NO_DATA /\ ledger d' = ledger d
     \/ (List.length (script d') < List.length (script d))%nat
        /\ (st = OCI_SUCCESS_WITH_INFO /\ ledger d' = ledger d ++ [(st_text stmt, inputs stmt m)]
            \/ st = OCI_ERROR /\ records d' <> [] /\ ledger d' = ledger d)).
Proof.
  unfold desk_execute. destruct (script d) as [|[r| |code more] rest] eqn:Hd.
  - destruct (writtenb _ _) eqn:Hw; intros [= <- <- <-]; [left|right; auto].
    split; [done|]. split; [by apply writtenb_spec|]. split; [apply write_all_frame|done].
  - destruct (writtenb _ _) eqn:Hw; intros [= <- <- <-]; [left|right; auto].
    split; [done|]. split; [by apply writtenb_spec|]. split; [apply write_all_frame|done].
  - intros [= <- <- <-]. right. split; [done|]. right. cbn. split; [lia|by left].
  - intros [= <- <- <-]. right. split; [done|]. right. cbn. split; [lia|by right].
Qed.

#[export] Instance desk_server : OracleServer desk.
Proof.
  refine {| performed := ledger |}; try done.
  - intros stmt m d st m' d' [(-> & _ & _ & Hl)|(-> & [[-> Hl]|[_ [[-> Hl]|(-> & _ & Hl)]]])]%desk_execute_cases.
    + by exists true.
    + exists false. rewrite app_nil_r. split; [done|]. intros [E|E]; discriminate E.
    + by exists true.
    + exists false. rewrite app_nil_r. split; [done|]. intros [E|E]; discriminate E.
  - intros stmt m d st m' d' a [(_ & _ & Hf & _)|[-> _]]%desk_execute_cases; [apply Hf|by left].
  - intros stmt m d m' d' [(_ & Hw & _)|(_ & [[E _]|[_ [[E _]|[E _]]]])]%desk_execute_cases; done.
  - intros stmt m d m' d' [(E & _)|(_ & [[E _]|[_ [[E _]|[E _]]]])]%desk_execute_cases; done.
  - intros stmt m d m' d' [(E & _)|(_ & [[E _]|[_ [[E _]|(_ & Hr & _)]]])]%desk_execute_cases; done.
  - intros stmt m d st m' d' e [(-> & _)|(_ & [[-> _]|[Hlt _]])]%desk_execute_cases He Hr Hst; [done| |exact Hlt].
    by injection He as <-.
Defined.

(** ** Transactions *)

Definition desk_params : db_context_oracle := db_init_oracle None None None.

(** A worker that has connected. *)
Definition desk_open (l : list reply) : oracle_conn desk :=
  mk_oracle (mk_desk l [] []) false (fun _ => Some fresh).

(** The worker gets there by itself. *)
Lemma desk_connects l c : connect_to_db_oracle desk_params (mk_oracle (mk_desk l [] []) false (fun _ => None)) = Some (OK, c) ->
  or_lib c = mk_desk l [] [] /\ ready c.
Proof.
  intros E. vm_compute in E. injection E as <-. split; [reflexivity|]. split; [reflexivity|].
  intros x. destruct x; vm_compute; by eexists.
Qed.

Definition desk_payment : payment_t :=
  mk_payment 2 1 2 (ddiv (d_of_Z 4217) (d_of_Z 100)) 1 0 (lit "BAROUGHTABLE") [] [] [] [] [] [] d_zero d_zero
    d_zero [] [] [] [] [] [] [] [] [] [] [] [] [] [] [] [] [] [].

(** A warning, a serialization failure, and then a success. *)
Definition desk_replies : list reply := [Warning; Failed 8177 []; Answer (fun _ => None)].

#[local] Abbreviation run_desk l :=
  (process_transaction (H := oracle_ops desk_params) 0 1 PAYMENT (TD_payment desk_payment) (Some (desk_open l))).

(** The payment is made twice, and the answer is OK. *)
Lemma desk_pays_twice :
  match run_desk desk_replies with
  | Some (st, _, log, Some c) =>
      st = OK /\ executions log = 1
      /\ bool_decide (map fst (ledger (or_lib c)) = [STMT_PAYMENT; STMT_PAYMENT]) = true
  | _ => False
  end.
Proof. vm_compute. split_and!; reflexivity. Qed.

(** The item of an order is not there: rolled back, nothing stored. *)
Definition desk_order : new_order_t :=
  mk_new_order 1 2 3 1 1 (mk_no_order_line 7 1 5 d_zero 0 0 [] d_zero :: replicate 14 zero_no_order_line)
    0 d_zero d_zero d_zero [] [] d_zero 0.

Lemma desk_rolls_back :
  match process_transaction (H := oracle_ops desk_params) 0 1 NEW_ORDER (TD_new_order desk_order)
          (Some (desk_open [Failed 20001 []])) with
  | Some (st, TD_new_order d, log, Some c) =>
      st = STATUS_ROLLBACK /\ no_rollback d = 1 /\ ledger (or_lib c) = []
  | _ => False
  end.
Proof. vm_compute. split_and!; reflexivity. Qed.

Lemma oracle_transaction_stored_witness :
  exists status td' log c' n,
    run_desk desk_replies = Some (status, td', log, Some c')
    /\ ledger (or_lib c') = replicate n (call_of (TD_payment desk_payment))
    /\ (status = OK /\ (1 <= n)%nat \/ status = STATUS_ROLLBACK).
Proof.
  destruct (oracle_transaction_stored desk_params 0 1 (TD_payment desk_payment) (desk_open desk_replies))
    as (status & td' & log & c' & n & Hp & _ & _ & Hl & Hs & _).
  - split; [reflexivity|]. intros x. exists fresh. reflexivity.
  - vm_compute. discriminate.
  - vm_compute. discriminate.
  - exists status, td', log, c', n. split; [exact Hp|]. split; [exact Hl|exact Hs].
Defined.

(** The procedure's answer to the order: one line. *)
Definition desk_answer : answer := fun n =>
  if bytes_eqb n (lit ":out_o_id") then Some (V_int 3001)
  else if bytes_eqb n (lit ":out_c_last") then Some (V_str (lit "BAROUGHTABLE"))
  else if bytes_eqb n (lit ":out_s_quantity1") then Some (V_int 86)
  else if bytes_eqb n (lit ":out_brand_generic1") then Some (V_str (lit "G"))
  else None.

Definition same_value (v w : value) : bool :=
  match v, w with
  | V_int y, V_int z => y =? z
  | V_str s, V_str t => bytes_eqb s t
  | _, _ => false
  end.

(** Enough for answers of numbers and strings. *)
Definition answeredb (stmt : statement) (r : answer) (m : memory) : bool :=
  forallb (fun b => match b_ind b with
                    | None => true
                    | Some i =>
                        match r (b_name b), m i with
                        | Some v, Some (V_int z) =>
                            (z =? 0) && from_option (same_value v) false (m (b_addr b)) && typedb b v
                        | None, Some (V_int z) => z =? -1
                        | _, _ => false
                        end
                    end) (st_binds stmt).

Lemma answeredb_spec stmt r m : answeredb stmt r m = true -> answered stmt r m.
Proof.
  unfold answeredb. rewrite forallb_forall. intros Ha b i Hb Hi.
  specialize (Ha b (proj1 (list_elem_of_In _ _) Hb)). rewrite Hi in Ha.
  destruct (r (b_name b)) as [v|]; destruct (m i) as [[z| | |]|]; try done.
  - rewrite !andb_true_iff in Ha. destruct Ha as [[->%Z.eqb_eq Hv] Ht%typedb_spec].
    split; [done|]. split; [|done]. destruct (m (b_addr b)) as [w|]; [|done]. cbn in Hv. f_equal.
    destruct v, w; try done; [apply Z.eqb_eq in Hv|apply bool_decide_eq_true in Hv]; by subst.
  - apply Z.eqb_eq in Ha. by subst.
Qed.

Lemma oracle_answers_shown_witness :
  (exists c', execute_new_order_oracle desk_order (desk_open [Answer desk_answer])
                = Some (OK, new_order_shown desk_answer desk_order, c'))
  /\ no_o_id (new_order_shown desk_answer desk_order) = 3001
  /\ s_quantity (nth 0 (no_order_line (new_order_shown desk_answer desk_order)) zero_no_order_line) = 86.
Proof.
  split; [|split; reflexivity].
  apply (proj1 (oracle_answers_shown (desk_open [Answer desk_answer]) desk_answer) desk_order).
  - reflexivity.
  - exists fresh. eexists _, _. split; [reflexivity|]. split.
    + cbn [OCIStmtExecute desk_library or_lib desk_open]. unfold desk_execute. cbn [script].
      replace (writtenb no_statement (write_all no_statement desk_answer (put_new_order desk_order fresh)))
        with true by (vm_compute; reflexivity).
      reflexivity.
    + apply answeredb_spec. vm_compute. reflexivity.
Defined.
